(* ===== verification/_CoqProject ===== *)
-Q . S2P
Prelude.v
Mem.v
Kmem.v
Umem.v
Slab.v
KWorld.v
IoSched.v
FsName.v
FsSeek.v
FsRead.v
FsOpen.v
ElfLoad.v
Kernel.v
Disk.v
Shell.v
RvaDefs.v
RvaLex.v
RvaSym.v
RvaSort.v
RvaEval.v
RvaEncode.v
RvaOut.v
RvaElf.v
RvaText.v
RvaList.v
RvaState.v
RvaDir.v
RvaLine.v
RvaPass.v
RvaIfs.v
RvaStable.v
RvaData.v
RvaMain.v
RvaIsa.v
RvaAsm.v
RvaSource.v
RvaDemo.v
KText.v
KImage.v
Cpu.v
KCode.v
KSched.v
KSwitch.v
KMmu.v
KFair.v
KTrips.v
KProc.v
KLib.v
KTrap.v
KSys.v
KPreempt.v
KCalls.v
KSegment.v
KFork.v
KExec.v
Layout.v
Init.v
KDemo.v
DText.v
DImage.v
DCode.v
DBus.v
DSpi.v
DSd.v
DRead.v
DFat.v
DUmem.v
DInit.v
DIrq.v
DLayout.v
DBoot.v
DTty.v
DDemo.v
