(* ===== verification/Prelude.v ===== *)
(** * Verification of RiscyOS

    RiscyOS is a small RISC-V kernel with a FAT32 file system on an SD card, and the
    assembler it is built with. This library models the C code of both and the machine
    code of the kernel's assembly, and proves them against specifications. File and
    function names below are those of the repository.

    ** The program and the files that model it

    The kernel. Everything the kernel allocates comes from one heap
    (kernel/memory/kmem.c); user memory is a bitmap of 64-byte blocks
    (kernel/memory/umem_alloc.c, umem.s); slabs of equal objects sit on top of the
    heap (kernel/slab_allocator.c). Disk accesses are requests in a queue: a client
    submits a request with a callback, the card's interrupt handler puts a status in
    a ring (drivers/spi/sd_irsq.c), and the pump run from the timer completes the
    request and starts the next (kernel/io/io_scheduler.c). The file system is built
    of state machines that live in heap objects and are driven by those callbacks:
    seek, read, open and close (kernel/fs/), and the ELF loader (fs_elf.c), which is a
    client of all four.

    - Mem.v: word memory, and [KAllocator], what an allocator promises its clients.
    - Kmem.v: kheap_init, kmalloc, kfree; Slab.v: slab_alloc_new, slab_get,
      slab_free; Umem.v: mark_bits_used, mark_bits_free, ualloc_try_block, and the
      assembly ualloc and ufree.
    - KWorld.v: the structures of include/, the [world] that holds one map per
      structure type, the state and error monad [M], and the assembly routines the C
      code calls.
    - IoSched.v: sd_irsq_handler, io_sched_submit, io_sched_issue_next,
      io_sched_pump; callbacks are a parameter.
    - FsName.v: make_fat_83_name, get_next_path_component, path_walker_advance;
      FsSeek.v: fs_seek_submit and its steps; FsRead.v: fs_read and fs_close;
      FsOpen.v: the directory scan and the open steps; ElfLoad.v: elf_step and what
      it calls.
    - Kernel.v: the callbacks by name, tied to the functions they stand for; Disk.v:
      a card that answers every read, and the kernel's machines run against it.

    The shell (user/user_programs/shell/main.c) is a user program in C: Shell.v has its
    functions, the C string functions they use, and the operating system as a record of
    operations.

    The assembler (tools/assembler/rva.c) runs passes over a source until the values of
    its labels settle, then one more that plants the code in its output files. A pass
    reads lines, looks names up in symbol tables, obeys directives, evaluates
    expressions and packs instructions.

    - RvaDefs.v: constants and structures; RvaLex.v: scanning (skip_spc,
      get_identifier, get_num, file_path); RvaSym.v: the symbol tables
      (sym_define_label, sym_find_label, sym_locate_label, deletion, sorting, the
      string table), RvaSort.v: the order of the sorted symbols; RvaEval.v: get_variable,
      get_operator, evaluate.
    - RvaEncode.v: rv32i_mnemonic with the functions nested in assemble_line, and
      variable_item_size; RvaIsa.v: the fields and the effect of the instructions, the
      specification; RvaAsm.v: the theorems that relate the two.
    - RvaOut.v: byte_dump and what it feeds, the listing, hex_dump and elf_dump;
      RvaElf.v: elf_dump_out; RvaText.v: the symbol listings and the Verilog file.
    - RvaState.v: the variables all functions share, the monad [G] over them, and the
      logic [Keeps] for invariants of it; RvaDir.v: assemble_line with its directives
      and assemble_redef_label; RvaLine.v: input_line, parse_mnemonic_line,
      parse_source_line; RvaPass.v: code_pass, print_error and the passes of main;
      RvaMain.v: set_options, the built-in tables and main itself.
    - RvaSource.v: a source line from its characters to the files; RvaList.v and RvaIfs.v:
      the output buffers and the stack of conditions; RvaStable.v: labels across a pass and the end of the passes; RvaData.v:
      what the directives plant; RvaDemo.v: a program assembled by main, and the
      instances of these files' theorems.

    The core of the kernel is assembly: traps, system calls, the scheduler, the context
    switch, the operations on processes and the library they use. It is not translated by
    hand. KText.v has the text of its files, KImage.v preprocesses it as the Makefile does and
    assembles it, with the model of the assembler above, into the words of an image; Cpu.v is the machine
    that executes them. So the theorems about it depend on every line of that text and on the assembler.

    - KCode.v: a memory that holds the image, the parts of memory the routines may change, and the
      tactics that execute.
    - KMmu.v: the Verilog of the address translation (HW-Peripherals/mmu.v, mmu_regs.v), and what it lets a process
      reach with the windows that mmu_set_proc sets.
    - KSched.v and KFair.v: schedule and schedule_next (kernel/scheduler.s); KSwitch.v and
      KTrips.v: context_switch (arch/riscv/context_switch.s) and mmu_set_proc (drivers/mmu/mmu.s);
      KTrap.v: mhandler, trap_handler (arch/riscv/trap.s) and ecall_handler (sys/ecall_handler.s);
      KProc.v: get_pcb_from_id and unblock_process; KSys.v: the timer's interrupt
      (arch/riscv/timer.s), and what fork and exit (kernel/process.s) do around their calls;
      KPreempt.v: a timer interrupt from trap to return; KCalls.v: what a call of an allocator promises ([answers]), and
      execution through such calls ([runs_calls]); KSegment.v: process blocks and the regions of user memory
      (kernel/memory/memory_segment.s); KFork.v: fork on all its paths; KExec.v: kexecve and the end of exit; KLib.v: lib/memutils.s, maths.s, delay.s and
      fifo.s; KDemo.v: the instances of these files' theorems.
    - Layout.v, DLayout.v: the layout of the structures that C, assembly and the ELF format share.
    - Init.v: the user programs init, hello and hello1, as interaction trees over the system calls.

    The boot code, the drivers, the assembly of the file system, the entry points of the allocator of user memory and the
    terminal are a second image, made in the same way from the text in DText.v (DImage.v, DCode.v). It runs on the machine of Cpu.v beside an
    SPI unit and a card (DBus.v): each instruction is followed by a step of the unit, and what the unit's delay and the card's answers are is
    a parameter.

    - DSpi.v: bytes and blocks through the unit; DSd.v: commands and answers; DInit.v: sd_init; DRead.v:
      sd_start_read, sd_tail_read and the blocking read (drivers/spi/, kernel/fs/fs.s); DFat.v: fat_init, which mounts the
      disk that a card [serves], and the arithmetic of clusters.
    - DUmem.v: ualloc_init, and ualloc and ufree, which refine Umem.v; DIrq.v: external_interrupt_handler; DTty.v: the
      interrupts of the serial port and the system call that writes; DBoot.v: boot/boot.s from the first instruction to the call
      of kexecve, through all of these; DDemo.v: a card, and the instances of these files' theorems.

    ** How the code is modelled

    Machine words are [Z] with the wrap-around written out ([u32], [s32]). A function
    of the C code is a function into [res], or into a state monad over it: [Ok] for a
    result, [Undef] where C gives the operation no meaning, [NoFuel] where the bound
    on iterations was too small. What the repository does not contain is a parameter:
    the contents of fresh memory and of uninitialised variables ([junk]), and, where a
    file does not need to know it, the driver or the allocator below it.

    The machine of Cpu.v has the 32 registers, the control registers the kernel uses, and a memory of
    bytes, which the devices are part of: a write to a device is a write to memory. [runs_to P c]
    says that from [c] a state with [P] is reached, so a theorem of this form includes that
    the code ends. Routines that are not in the image are at addresses outside it
    ([externals]); a theorem that passes through a call of one says what it needs
    of the state the routine leaves, as [pumped] does of the pump. The heap, the processes in it and the kernel's stack
    are where main.s puts them; [kernel_data] stands for the part of main.s that reserves them.
    Interrupts are off in the kernel, so its routines are not interleaved.

    The fuel of a loop is a measure the loop consumes: the number of words of the heap
    for its block walk, the number of records for a symbol list, the length of the
    line for scanning and for the rounds of the evaluator, the length of the shell's input
    for its lines. The theorems state [Ok], so
    they prove it enough: [get_num_numeral], [evaluate_expression] and the symbol
    table theorems on the fuel the definitions fix, the heap theorems likewise, and
    the slab and directory walks for any fuel above the length of the list walked.
    The passes need no fuel of their own: [passes_end] says that 22 are enough. The
    lines of one pass do, since a file may include itself without end.

    ** What is proved

    - Allocators: kmalloc is first fit with splitting over an abstract list of blocks
      and fails exactly when no block fits; kfree frees and coalesces; the two are
      inverse. slab_get gives out an object nobody has, and slab_free takes it back,
      releasing a slab when two are fully free. ualloc reserves the first run of free
      blocks, within user memory.
    - I/O: over any run of submissions, interrupts and pump rounds, the card is asked
      for the submitted blocks in order, one at a time.
    - Files: packing of 8.3 names is that of the specification on every string; a seek
      along an intact FAT chain ends on the right cluster, a broken one is reported;
      the directory scan finds the first match. A read within a cluster, from the system
      call through queue, interrupts, ring, pump and seeks, puts the bytes of the card in
      the buffer, calls back once and leaves the system idle, on any allocator with a
      supply of memory, such as the kernel's own.
    - Shell: on any input it ends, stays within its buffers, and does what a reference
      over lists of words does.
    - Assembler: numbers and expressions have the value of their syntax tree; the
      symbol tables are finite maps, and sorting them is sorting; instructions decode to their operands; LI, LA,
      CALL and the global loads and stores do, when executed, what they stand for;
      the sizes of variable items only grow from pass SHRINK_STOP on. The line of an
      immediate instruction is followed from its characters to the files. Data definitions,
      space and alignment plant and move what they say; the stack of conditions and the
      output buffers keep their bounds in every pass. A pass that counts no change leaves every label as it
      was, code is planted only after such a pass, and the passes end. The hex, ELF
      and Verilog files, read back, give exactly the bytes planted.
    - The kernel's assembly: it assembles to an image of instructions. A process that is
      ready is scheduled after at most as many calls as there are others before it. The context
      switch saves and restores what it should, but for one word, and nothing else, and sets the windows of the
      address translation; a process that gave way to the idle task goes on where it was. A trap puts all registers in
      the frame of its process and the exit takes them from the frame of the current one; system
      calls reach the routine of their number. A timer interrupt goes from one process through all
      of these to another. The look-up of a process by number agrees with the one the C code's model uses.
      memcpy, memset and memcmp do what their names say. C and assembly agree on the layout of their structures.
      Fork, whatever the allocators answer, gives back what it took or leaves a child in the ring.
    - The drivers: on any SPI unit and any card that serves a disk, a block read leaves the sector's bytes in the unit's memory, fat_init
      leaves the running information that boot record and volume say, and the boot code comes to the call of kexecve with
      the disk mounted. ualloc and ufree compute what the model of them does.
    - Where the code does not do what it means to, a theorem states what it does:
      their names say it ([fs_open_finish_inverted], [tail_links_ra],
      [ufree_out_of_bounds], [evaluate_brackets_overrun], [sym_long_name_overruns],
      [settled_on_pass_20_is_reported], [missing_source_is_success],
      [unanswered_read_blocks], [long_path_overruns], [preempted_process_restarts],
      [fifo_enqueue_inverted], [fork_copies_by_a2], [process_reaches], [get_next_cluster_leaves],
      [sd_read_block_hangs], [irsq_serial_write_hangs] and others).

    Theorems stand at the end of their component's file, and a module of the file, RvaDemo.v,
    KDemo.v or DDemo.v applies each of them at a concrete input.

    ** What is not modelled

    - Of the second image, sd_start_write and sd_tail_write, which nothing calls, and the paths of the terminal other than those named: they
      are machine code without theorems. The files that main.s does not include (the LCD, the buttons, the other timer) are left out. wait and
      nanosleep are empty in the source.
    - The two images are not linked to one: each has the other's routines, and the compiled C code, at addresses outside it, and a
      theorem that passes through a call says what it needs of it.
    - A read that crosses a cluster, run against the card: it depends on get_next_cluster, which does not return
      ([get_next_cluster_leaves]). The state machines are modelled with the value it computes.
    - The SPI unit in Verilog: its directory is that of a submodule.
    - The assembler's messages on standard output, beyond the reports of errors, and
      the freeing of memory at its end. A file is its contents; opening one for
      writing does not fail.
    - The card's timing, and what else it may answer: Disk.v delivers every block asked
      for, in one piece and before the next interrupt. DBus.v has the timing of single bytes, but no interrupts.
    - The other Verilog sources and the scripts. *)

From stdpp Require Export base numbers option list gmap.
From Stdlib Require Export ZArith Lia.
#[global] Open Scope Z_scope.

(** ** Machine integers

    A C [unsigned int] is a [Z] in [0, 2^32); every operation that can leave the
    range is followed by [u32], as the compiler truncates the register. A C
    [int] is read out of the same 32 bits by [s32]. *)



Definition u8 (z : Z) : Z := z mod 256.
Definition u16 (z : Z) : Z := z mod 65536.
Definition u32 (z : Z) : Z := z mod 4294967296.
Definition s32 (z : Z) : Z := (z + 2147483648) mod 4294967296 - 2147483648.

Definition is_u8 (z : Z) : Prop := 0 <= z < 256.
Definition is_u32 (z : Z) : Prop := 0 <= z < 4294967296.

(** Bitwise complement of a 32-bit word, C's [~]. *)
Definition not32 (z : Z) : Z := 4294967295 - z.

(** C's truth values. *)
Definition cbool (b : bool) : Z := if b then 1 else 0.
Definition truthy (z : Z) : bool := negb (z =? 0).

(** ** Tactics *)

(** Linear arithmetic with division and remainder by constants. *)
Ltac dlia := Z.div_mod_to_equations; lia.

(** Boolean comparisons on [Z] to propositions, everywhere. *)
Ltac zbool :=
  repeat match goal with
  | H : (_ && _)%bool = true |- _ => apply andb_true_iff in H; destruct H
  | H : (_ || _)%bool = false |- _ => apply orb_false_iff in H; destruct H
  | H : negb _ = true |- _ => apply negb_true_iff in H
  | H : negb _ = false |- _ => apply negb_false_iff in H
  | H : (_ <? _) = true |- _ => apply Z.ltb_lt in H
  | H : (_ <? _) = false |- _ => apply Z.ltb_ge in H
  | H : (_ <=? _) = true |- _ => apply Z.leb_le in H
  | H : (_ <=? _) = false |- _ => apply Z.leb_gt in H
  | H : (_ =? _) = true |- _ => apply Z.eqb_eq in H
  | H : (_ =? _) = false |- _ => apply Z.eqb_neq in H
  | H : (_ >? _) = _ |- _ => rewrite Z.gtb_ltb in H
  | H : (_ >=? _) = _ |- _ => rewrite Z.geb_leb in H
  end.

(** Case analysis on the first boolean test of the goal. *)
Ltac case_test :=
  match goal with
  | |- context [if ?b then _ else _] => let E := fresh "Etest" in destruct b eqn:E
  end.

Ltac case_test_in H :=
  match type of H with
  | context [if ?b then _ else _] => let E := fresh "Etest" in destruct b eqn:E
  end.

(** ** The result of running C code

    [Ok a]: the code ran and returned [a]. [Undef]: it performed an operation
    whose effect the C standard does not define (an access outside an array, a
    dereference of a null or dead pointer, an oversized shift). [NoFuel]: the
    bound on the iterations was too small; the termination theorems show that
    the bounds in use are not. *)

Inductive res (A : Type) : Type :=
| Ok (a : A)
| Undef
| NoFuel.
Arguments Ok {A} a.
Arguments Undef {A}.
Arguments NoFuel {A}.

Definition rbind {A B} (m : res A) (f : A -> res B) : res B :=
  match m with
  | Ok a => f a
  | Undef => Undef
  | NoFuel => NoFuel
  end.

(** A pointer or index that may be invalid. *)
Definition of_option {A} (o : option A) : res A :=
  match o with Some a => Ok a | None => Undef end.

Declare Scope res_scope.
Delimit Scope res_scope with res.
Notation "'let*' p := m 'in' k" := (rbind m (fun p => k))
  (at level 10, p pattern, m at level 100, k at level 200,
   format "'[v' 'let*'  p  :=  m  'in' '/' k ']'") : res_scope.
#[global] Open Scope res_scope.

Definition is_ok {A} (r : res A) : bool := match r with Ok _ => true | _ => false end.

Lemma rbind_ok {A B} (m : res A) (f : A -> res B) b :
  rbind m f = Ok b <-> exists a, m = Ok a /\ f a = Ok b.
Proof.
  split.
  - destruct m; simpl; try discriminate. eauto.
  - intros [a [-> H]]. exact H.
Qed.

Lemma of_option_ok {A} (o : option A) a : of_option o = Ok a <-> o = Some a.
Proof. destruct o; simpl; split; congruence. Qed.

(** Take apart a chain of binds that succeeded. *)
Ltac res_inv :=
  repeat match goal with
  | H : rbind ?m _ = Ok _ |- _ =>
      let a := fresh "a" in let E := fresh "E" in
      apply rbind_ok in H; destruct H as [a [E H]]
  | H : of_option _ = Ok _ |- _ => apply of_option_ok in H
  | H : Ok _ = Ok _ |- _ => injection H as H; try subst
  | H : Undef = Ok _ |- _ => discriminate H
  | H : NoFuel = Ok _ |- _ => discriminate H
  | H : (_, _) = (_, _) |- _ => injection H as; try subst
  end.

(** ** Facts about machine integers *)

Lemma u32_range z : 0 <= u32 z < 4294967296.
Proof. unfold u32. dlia. Qed.

Lemma u32_id z : 0 <= z < 4294967296 -> u32 z = z.
Proof. unfold u32. intros. apply Z.mod_small. lia. Qed.

Lemma u32_u32 z : u32 (u32 z) = u32 z.
Proof. apply u32_id, u32_range. Qed.

Lemma u32_congr a b : (exists k, a = b + k * 4294967296) -> u32 a = u32 b.
Proof. intros [k ->]. unfold u32. apply Z_mod_plus_full. Qed.

Lemma u32_eq_congr z : exists k, u32 z = z + k * 4294967296.
Proof. exists (- (z / 4294967296)). unfold u32. dlia. Qed.

Lemma u32_add_u32_l a b : u32 (u32 a + b) = u32 (a + b).
Proof. unfold u32. apply Zplus_mod_idemp_l. Qed.

Lemma u32_add_u32_r a b : u32 (a + u32 b) = u32 (a + b).
Proof. unfold u32. apply Zplus_mod_idemp_r. Qed.

Lemma u32_sub_u32_l a b : u32 (u32 a - b) = u32 (a - b).
Proof. unfold u32. apply Zminus_mod_idemp_l. Qed.

Lemma u32_sub_u32_r a b : u32 (a - u32 b) = u32 (a - b).
Proof. unfold u32. apply Zminus_mod_idemp_r. Qed.

Lemma u32_mul_u32_l a b : u32 (u32 a * b) = u32 (a * b).
Proof. unfold u32. apply Zmult_mod_idemp_l. Qed.

Lemma u8_range z : 0 <= u8 z < 256.
Proof. unfold u8. dlia. Qed.

Lemma u8_id z : 0 <= z < 256 -> u8 z = z.
Proof. unfold u8. intros. apply Z.mod_small. lia. Qed.

Lemma s32_range z : -2147483648 <= s32 z < 2147483648.
Proof. unfold s32. dlia. Qed.

Lemma s32_u32 z : s32 (u32 z) = s32 z.
Proof. unfold s32, u32. rewrite Zplus_mod_idemp_l. reflexivity. Qed.

Lemma u32_s32 z : u32 (s32 z) = u32 z.
Proof.
  unfold s32, u32. rewrite Zminus_mod_idemp_l.
  f_equal. lia.
Qed.

Lemma s32_id z : -2147483648 <= z < 2147483648 -> s32 z = z.
Proof. unfold s32. intros. rewrite Z.mod_small; lia. Qed.

Create HintDb cint.
Create Rewrite HintDb cint.
#[export] Hint Rewrite u32_u32 u32_add_u32_l u32_add_u32_r u32_sub_u32_l u32_sub_u32_r
  u32_mul_u32_l s32_u32 u32_s32 : cint.
#[export] Hint Resolve u32_range u8_range s32_range : cint.

(** ** Lists read by a C index *)

(** [znth d l i]: element [i] of [l], [d] outside it. *)
Definition znth {A} (d : A) (l : list A) (i : Z) : A :=
  if i <? 0 then d else default d (l !! Z.to_nat i).

(** [zupd l i x]: [l] with element [i] replaced; [Undef] outside [l]. *)
Definition zupd {A} (l : list A) (i : Z) (x : A) : res (list A) :=
  if (0 <=? i) && (i <? Z.of_nat (length l)) then Ok (<[Z.to_nat i := x]> l) else Undef.

(** [zget l i]: element [i] of [l]; [Undef] outside it. *)
Definition zget {A} (l : list A) (i : Z) : res A :=
  if i <? 0 then Undef else of_option (l !! Z.to_nat i).

Lemma zupd_length {A} (l l' : list A) i x : zupd l i x = Ok l' -> length l' = length l.
Proof. unfold zupd. case_test; intros H; res_inv. apply length_insert. Qed.

Lemma znth_zupd_eq {A} (d : A) l l' i x : zupd l i x = Ok l' -> znth d l' i = x.
Proof.
  unfold zupd, znth. case_test; intros H; res_inv. zbool.
  destruct (i <? 0) eqn:E; zbool; [lia|].
  rewrite list_lookup_insert_eq; [reflexivity|lia].
Qed.

Lemma znth_zupd_ne {A} (d : A) l l' i j x :
  zupd l i x = Ok l' -> i <> j -> znth d l' j = znth d l j.
Proof.
  unfold zupd, znth. case_test; intros H Hij; res_inv. zbool.
  destruct (j <? 0) eqn:Ej; [reflexivity|]. zbool.
  rewrite list_lookup_insert_ne; [reflexivity|lia].
Qed.

Lemma zupd_ok {A} (l : list A) i x :
  0 <= i < Z.of_nat (length l) -> zupd l i x = Ok (<[Z.to_nat i := x]> l).
Proof.
  intros H. unfold zupd.
  replace ((0 <=? i) && (i <? Z.of_nat (length l)))%bool with true; [reflexivity|].
  symmetry. apply andb_true_iff. split; [apply Z.leb_le|apply Z.ltb_lt]; lia.
Qed.

(** ** Bit fields *)

(** The field of [w] that starts at bit [lo] and is [n] bits wide. *)
Definition field (w lo n : Z) : Z := Z.land (Z.shiftr w lo) (Z.ones n).

(** The value of an [n]-bit two's complement field. *)
Definition sext (n v : Z) : Z := if Z.testbit v (n - 1) then v - Z.shiftl 1 n else v.

Lemma testbit_high w n i : 0 <= w < 2 ^ n -> 0 <= n <= i -> Z.testbit w i = false.
Proof.
  intros Hw Hn. destruct (decide (w = 0)) as [->|]; [apply Z.bits_0|].
  apply Z.bits_above_log2; [lia|].
  apply Z.log2_lt_pow2; [lia|].
  eapply Z.lt_le_trans; [apply Hw|]. apply Z.pow_le_mono_r; lia.
Qed.

Lemma u32_testbit z i : Z.testbit (u32 z) i = ((i <? 32) && Z.testbit z i)%bool.
Proof.
  unfold u32. change 4294967296 with (2 ^ 32).
  destruct (Z.ltb_spec i 32).
  - rewrite Z.mod_pow2_bits_low by lia. reflexivity.
  - rewrite Z.mod_pow2_bits_high by lia. reflexivity.
Qed.

(** Two 32-bit words with the same 32 bits are equal. *)
Lemma word_eq a b :
  0 <= a < 4294967296 -> 0 <= b < 4294967296 ->
  (forall i, 0 <= i < 32 -> Z.testbit a i = Z.testbit b i) -> a = b.
Proof.
  intros Ha Hb H. apply Z.bits_inj'. intros n Hn.
  destruct (Z_lt_le_dec n 32); [apply H; lia|].
  rewrite !(testbit_high _ 32) by (simpl; lia). reflexivity.
Qed.

(** Clearing the low [n] bits of a word, as [x & ~(2^n - 1)] does. *)
Lemma land_high_mask n v :
  0 <= n <= 32 -> 0 <= v < 4294967296 ->
  Z.land v (4294967296 - 2 ^ n) = v - v mod 2 ^ n.
Proof.
  intros Hn Hv.
  assert (Hp : 0 < 2 ^ n) by (apply Z.pow_pos_nonneg; lia).
  replace (4294967296 - 2 ^ n) with (Z.shiftl (Z.ones (32 - n)) n).
  2: { rewrite Z.shiftl_mul_pow2, Z.ones_equiv by lia.
       change 4294967296 with (2 ^ 32).
       replace (2 ^ 32) with (2 ^ (32 - n) * 2 ^ n) by (rewrite <- Z.pow_add_r by lia; f_equal; lia).
       lia. }
  replace (v - v mod 2 ^ n) with (Z.shiftl (Z.shiftr v n) n).
  2: { rewrite Z.shiftl_mul_pow2, Z.shiftr_div_pow2 by lia.
       pose proof (Z.div_mod v (2 ^ n)). lia. }
  apply Z.bits_inj'. intros i Hi.
  rewrite Z.land_spec, !Z.shiftl_spec by lia.
  destruct (Z_lt_le_dec i n).
  - rewrite !(Z.testbit_neg_r _ (i - n)) by lia. apply andb_false_r.
  - rewrite Z.shiftr_spec by lia. replace (i - n + n) with i by lia.
    destruct (Z_lt_le_dec i 32).
    + rewrite Z.ones_spec_low by lia. apply andb_true_r.
    + rewrite (testbit_high v 32) by (simpl; lia). reflexivity.
Qed.

(** Keeping the low [n] bits, as [x & (2^n - 1)] does. *)
Lemma land_low_mask n v : 0 <= n -> Z.land v (2 ^ n - 1) = v mod 2 ^ n.
Proof. intros. rewrite <- Z.land_ones by lia. rewrite Z.ones_equiv. f_equal. Qed.

Lemma land_1 v : Z.land v 1 = v mod 2.
Proof. apply (land_low_mask 1). lia. Qed.

(** A property of each bit position of a word, by enumeration. *)
Lemma lt32_cases (P : Z -> Prop) :
  P 0 -> P 1 -> P 2 -> P 3 -> P 4 -> P 5 -> P 6 -> P 7 -> P 8 -> P 9 -> P 10 -> P 11 ->
  P 12 -> P 13 -> P 14 -> P 15 -> P 16 -> P 17 -> P 18 -> P 19 -> P 20 -> P 21 -> P 22 ->
  P 23 -> P 24 -> P 25 -> P 26 -> P 27 -> P 28 -> P 29 -> P 30 -> P 31 ->
  forall i, 0 <= i < 32 -> P i.
Proof.
  intros. assert (i = 0 \/ i = 1 \/ i = 2 \/ i = 3 \/ i = 4 \/ i = 5 \/ i = 6 \/ i = 7 \/
    i = 8 \/ i = 9 \/ i = 10 \/ i = 11 \/ i = 12 \/ i = 13 \/ i = 14 \/ i = 15 \/ i = 16 \/
    i = 17 \/ i = 18 \/ i = 19 \/ i = 20 \/ i = 21 \/ i = 22 \/ i = 23 \/ i = 24 \/ i = 25 \/
    i = 26 \/ i = 27 \/ i = 28 \/ i = 29 \/ i = 30 \/ i = 31) as Hi by lia.
  decompose [or] Hi; subst; assumption.
Qed.
