(* ===== verification/Mem.v ===== *)
(** * Word memory and the allocator interface

    The kernel's heap memory as a map from word addresses to 32-bit words (every
    access of the modelled code is a naturally aligned word access), and the
    contract the kernel allocator gives its clients. *)

From S2P Require Import Prelude.

Abbreviation mem := (gmap Z Z).

(** A load of a word that was never stored reads 0, one of the values it could hold. *)
Definition ld (m : mem) (a : Z) : Z := default 0 (m !! a).
Definition st (m : mem) (a v : Z) : mem := <[a := v]> m.

Lemma ld_st_eq m a v : ld (st m a v) a = v.
Proof. unfold ld, st. rewrite lookup_insert_eq. reflexivity. Qed.

Lemma ld_st_ne m a b v : a <> b -> ld (st m a v) b = ld m b.
Proof. intros. unfold ld, st. rewrite lookup_insert_ne; auto. Qed.


Ltac mem_simp :=
  repeat first [ rewrite ld_st_eq | rewrite ld_st_ne by lia ].

(** [agree_off P m m']: the memories hold the same words outside [P]. *)
Definition agree_off (P : Z -> Prop) (m m' : mem) : Prop :=
  forall x, ~ P x -> ld m' x = ld m x.

Lemma agree_off_refl P m : agree_off P m m.
Proof. intros x _. reflexivity. Qed.

Lemma agree_off_trans P m1 m2 m3 :
  agree_off P m1 m2 -> agree_off P m2 m3 -> agree_off P m1 m3.
Proof. intros H1 H2 x Hx. rewrite H2, H1; auto. Qed.

Lemma agree_off_weaken (P Q : Z -> Prop) m m' :
  agree_off P m m' -> (forall x, P x -> Q x) -> agree_off Q m m'.
Proof. intros H HPQ x Hx. apply H. auto. Qed.

Lemma agree_off_st (P : Z -> Prop) m a v : P a -> agree_off P m (st m a v).
Proof. intros Ha x Hx. apply ld_st_ne. intros ->. auto. Qed.

(** ** What the kernel allocator promises

    [live] maps the address of every live allocation to the size reserved for
    it. A client relies on this contract alone; Kmem.v discharges it for
    [kmalloc] and [kfree]. *)

Definition in_live (live : gmap Z Z) (x : Z) : Prop :=
  exists p s, live !! p = Some s /\ p <= x < p + s.

Class KAllocator (kmalloc : mem -> Z -> res (Z * mem)) (kfree : mem -> Z -> res mem) := {
  ka_inv : mem -> gmap Z Z -> Prop;
  (** the addresses the allocator owns *)
  ka_arena : Z -> Prop;
  ka_live_arena : forall m live x, ka_inv m live -> in_live live x -> ka_arena x;
  ka_region : forall m live p s, ka_inv m live -> live !! p = Some s ->
    8 <= p /\ p mod 4 = 0 /\ 0 <= s /\ p + s <= 4294967292;
  ka_disjoint : forall m live p s q t, ka_inv m live -> live !! p = Some s ->
    live !! q = Some t -> p <> q -> p + s <= q \/ q + t <= p;
  (** what a client writes into its own allocations, or outside the arena, is its
      own business *)
  ka_stable : forall m m' live, ka_inv m live ->
    agree_off (fun x => in_live live x \/ ~ ka_arena x) m m' -> ka_inv m' live;
  ka_malloc : forall m live n, ka_inv m live -> 0 <= n <= 4294967292 ->
    kmalloc m n = Ok (0, m) \/
    exists p s m', kmalloc m n = Ok (p, m') /\ n <= s /\ live !! p = None /\
      ka_inv m' (<[p := s]> live) /\
      (forall x, in_live live x \/ ~ ka_arena x -> ld m' x = ld m x);
  ka_free : forall m live p s, ka_inv m live -> live !! p = Some s ->
    exists m', kfree m p = Ok m' /\ ka_inv m' (delete p live) /\
      (forall x, in_live live x \/ ~ ka_arena x -> ld m' x = ld m x);
}.

(** What a client that cannot go on without memory needs: [ks k m live] is a heap that
    serves [k] more requests of at most 56 bytes, whatever is freed in between. *)
Class KSupply (kmalloc : mem -> Z -> res (Z * mem)) (kfree : mem -> Z -> res mem) := {
  ks_allocator :: KAllocator kmalloc kfree;
  ks : nat -> mem -> gmap Z Z -> Prop;
  ks_inv : forall k m live, ks k m live -> ka_inv m live;
  ks_malloc : forall k m live n, ks (S k) m live -> 0 <= n <= 56 ->
    exists p s m', kmalloc m n = Ok (p, m') /\ live !! p = None /\ ks k m' (<[p := s]> live);
  ks_free : forall k m live p s, ks k m live -> live !! p = Some s ->
    exists m', kfree m p = Ok m' /\ ks k m' (delete p live);
}.

(** An allocation of a supply is not NULL. *)
Lemma ks_nonnull {kmalloc kfree} `{!KSupply kmalloc kfree} k m live p s : ks k m (<[p := s]> live) -> p <> 0.
Proof.
  intros H. apply ks_inv in H. destruct (ka_region _ _ p s H (lookup_insert_eq _ _ _)) as [Hp _]. lia.
Qed.
