(* ===== verification/Kmem.v ===== *)
(** * The kernel heap: kernel/memory/kmem.c

    [kheap_init], [kmalloc] and [kfree] over the word memory of [Mem], then an
    abstract heap (the list of blocks between the two linker symbols) and the
    proof that the three functions implement it: first fit with splitting, and
    free with coalescing of every run of free blocks. *)

From S2P Require Import Prelude Mem.

(** ** The code *)

Section Kmem.

(** The linker symbols that delimit the heap (main.s). *)
Context (kernel_heap_start kernel_heap_end : Z).

(* kernel/memory/kmem.c:7-7 USED_FLAG *)
Definition USED_FLAG : Z := 1.
(* kernel/memory/kmem.c:8-8 NULL *)
Definition NULL : Z := 0.
(* kernel/memory/kmem.c:3-5 heap_header_t *)
Definition sizeof_heap_header : Z := 4.

(* kernel/memory/kmem.c:10-10 GET_SIZE *)
Definition GET_SIZE (m : mem) (h : Z) : Z := Z.land (ld m h) (not32 USED_FLAG).
(* kernel/memory/kmem.c:11-11 IS_USED *)
Definition IS_USED (m : mem) (h : Z) : bool := truthy (Z.land (ld m h) USED_FLAG).
(* kernel/memory/kmem.c:13-13 SET_USED *)
Definition SET_USED (m : mem) (h : Z) : mem := st m h (Z.lor (ld m h) USED_FLAG).
(* kernel/memory/kmem.c:14-14 SET_FREE *)
Definition SET_FREE (m : mem) (h : Z) : mem := st m h (Z.land (ld m h) (not32 USED_FLAG)).
(* kernel/memory/kmem.c:15-15 SET_SIZE *)
Definition SET_SIZE (m : mem) (h s : Z) : mem :=
  st m h (Z.lor s (Z.land (ld m h) USED_FLAG)).

(* kernel/memory/kmem.c:17-17 ALIGN4 *)
Definition ALIGN4 (x : Z) : Z := Z.land (u32 (x + 3)) (not32 3).

(* kernel/memory/kmem.c:23-33 kheap_init *)
Definition kheap_init (m : mem) : mem :=
  let start := kernel_heap_start in
  let end_ := kernel_heap_end in
  let heap_start := start in
  let m := st m heap_start (u32 (end_ - start - sizeof_heap_header)) in
  SET_FREE m heap_start.

(** One more than the number of words of the heap: no block is smaller than its
    header, so a walk over the blocks ends within this many steps. *)
Definition heap_fuel : nat := S (Z.to_nat ((kernel_heap_end - kernel_heap_start) / 4)).

(* kernel/memory/kmem.c:40-63 kmalloc *)
Fixpoint kmalloc_loop (fuel : nat) (m : mem) (current size : Z) : res (Z * mem) :=
  match fuel with
  | O => NoFuel
  | S fuel =>
      if current <? kernel_heap_end then
        let block_size := GET_SIZE m current in
        if negb (IS_USED m current) && (size <=? block_size) then
          let m :=
            if u32 (size + sizeof_heap_header + 4) <=? block_size then
              let next := u32 (current + 4 + size) in
              let m := st m next (u32 (block_size - size - sizeof_heap_header)) in
              let m := SET_FREE m next in
              SET_SIZE m current size
            else m in
          Ok (u32 (current + 4), SET_USED m current)
        else kmalloc_loop fuel m (u32 (current + 4 + block_size)) size
      else Ok (NULL, m)
  end.

(* kernel/memory/kmem.c:35-64 kmalloc *)
Definition kmalloc (m : mem) (size : Z) : res (Z * mem) :=
  kmalloc_loop heap_fuel m kernel_heap_start (ALIGN4 size).

(* kernel/memory/kmem.c:77-99 kfree *)
Fixpoint kfree_loop (fuel : nat) (m : mem) (current : Z) : res mem :=
  match fuel with
  | O => NoFuel
  | S fuel =>
      if current <? kernel_heap_end then
        let next := u32 (current + 4 + GET_SIZE m current) in
        if kernel_heap_end <=? next then Ok m
        else if negb (IS_USED m current) && negb (IS_USED m next) then
          let new_size := u32 (GET_SIZE m current + sizeof_heap_header + GET_SIZE m next) in
          kfree_loop fuel (st m current new_size) current
        else kfree_loop fuel m next
      else Ok m
  end.

(* kernel/memory/kmem.c:67-100 kfree *)
Definition kfree (m : mem) (ptr : Z) : res mem :=
  if ptr =? NULL then Ok m
  else
    let block := u32 (ptr - sizeof_heap_header) in
    kfree_loop heap_fuel (SET_FREE m block) kernel_heap_start.

(** ** The abstract heap *)

Record block : Type := Blk { bsize : Z; bused : bool }.

Definition hdr (b : block) : Z := bsize b + cbool (bused b).

(** The blocks [bs] lie one after the other from [a] up to [e], each behind a
    header word that holds its size and its flag. *)
Fixpoint tiles (m : mem) (a : Z) (bs : list block) (e : Z) : Prop :=
  match bs with
  | [] => a = e
  | b :: bs =>
      ld m a = hdr b /\ 0 <= bsize b /\ bsize b mod 4 = 0 /\
      tiles m (a + 4 + bsize b) bs e
  end.

Definition geometry : Prop :=
  0 < kernel_heap_start /\ kernel_heap_start mod 4 = 0 /\ kernel_heap_end mod 4 = 0 /\
  kernel_heap_start < kernel_heap_end < 4294967296.

Definition heap_inv (m : mem) (bs : list block) : Prop :=
  geometry /\ bs <> [] /\ tiles m kernel_heap_start bs kernel_heap_end.

(** The payload address of every block, with the block. *)
Fixpoint layout (a : Z) (bs : list block) : list (Z * block) :=
  match bs with
  | [] => []
  | b :: bs => (a + 4, b) :: layout (a + 4 + bsize b) bs
  end.

Definition allocated (a : Z) (bs : list block) : list (Z * Z) :=
  omap (fun '(p, b) => if bused b then Some (p, bsize b) else None) (layout a bs).

(** First fit: the first free block that is large enough, split when what is
    left can hold a header and a word. *)
Fixpoint alloc_spec (a size : Z) (bs : list block) : option (Z * list block) :=
  match bs with
  | [] => None
  | b :: bs =>
      if negb (bused b) && (size <=? bsize b) then
        if size + 8 <=? bsize b
        then Some (a + 4, Blk size true :: Blk (bsize b - size - 4) false :: bs)
        else Some (a + 4, Blk (bsize b) true :: bs)
      else
        match alloc_spec (a + 4 + bsize b) size bs with
        | Some (p, bs') => Some (p, b :: bs')
        | None => None
        end
  end.

(** The block whose payload is at [p] becomes free. *)
Fixpoint release (a p : Z) (bs : list block) : option (list block) :=
  match bs with
  | [] => None
  | b :: bs =>
      if p =? a + 4 then Some (Blk (bsize b) false :: bs)
      else match release (a + 4 + bsize b) p bs with
           | Some bs' => Some (b :: bs')
           | None => None
           end
  end.

(** Every run of free blocks becomes one free block. *)
Fixpoint merge (b : block) (bs : list block) : list block :=
  match bs with
  | [] => [b]
  | c :: bs =>
      if negb (bused b) && negb (bused c)
      then merge (Blk (bsize b + 4 + bsize c) false) bs
      else b :: merge c bs
  end.

Definition coalesce (bs : list block) : list block :=
  match bs with [] => [] | b :: bs => merge b bs end.

Fixpoint coalesced (bs : list block) : Prop :=
  match bs with
  | b :: ((c :: _) as rest) => (bused b = true \/ bused c = true) /\ coalesced rest
  | _ => True
  end.

(** ** Headers *)

Lemma GET_SIZE_hdr m a b :
  ld m a = hdr b -> 0 <= bsize b < 4294967292 -> bsize b mod 4 = 0 -> GET_SIZE m a = bsize b.
Proof.
  intros H Hr Hm. unfold GET_SIZE, not32, USED_FLAG. rewrite H.
  change (4294967295 - 1) with (4294967296 - 2 ^ 1).
  unfold hdr, cbool. destruct (bused b); rewrite land_high_mask by lia;
    change (2 ^ 1) with 2; dlia.
Qed.

Lemma IS_USED_hdr m a b : ld m a = hdr b -> bsize b mod 4 = 0 -> IS_USED m a = bused b.
Proof.
  intros H Hm. unfold IS_USED, USED_FLAG, truthy. rewrite H, land_1.
  unfold hdr, cbool. destruct (bused b).
  - replace ((bsize b + 1) mod 2) with 1 by dlia. reflexivity.
  - replace ((bsize b + 0) mod 2) with 0 by dlia. reflexivity.
Qed.

Lemma lor_1_even s : s mod 2 = 0 -> 0 <= s -> Z.lor s 1 = s + 1.
Proof.
  intros H Hs. rewrite <- Z.lxor_lor.
  - symmetry. apply Z.add_nocarry_lxor. rewrite land_1. exact H.
  - rewrite land_1. exact H.
Qed.

(** Setting the flag of a block whose header says free. *)
Lemma SET_USED_free m a s :
  ld m a = s -> 0 <= s -> s mod 4 = 0 -> SET_USED m a = st m a (hdr (Blk s true)).
Proof.
  intros H Hs Hm. unfold SET_USED, USED_FLAG. rewrite H, lor_1_even by dlia. reflexivity.
Qed.

Lemma SET_FREE_hdr m a b :
  ld m a = hdr b -> 0 <= bsize b < 4294967292 -> bsize b mod 4 = 0 ->
  SET_FREE m a = st m a (hdr (Blk (bsize b) false)).
Proof.
  intros H Hr Hm. unfold SET_FREE. change (Z.land (ld m a) (not32 USED_FLAG)) with (GET_SIZE m a).
  rewrite (GET_SIZE_hdr m a b) by assumption. unfold hdr. simpl. f_equal. lia.
Qed.

(** ** Tilings *)

Lemma tiles_extent m bs : forall a e,
  tiles m a bs e -> a + 4 * Z.of_nat (length bs) <= e.
Proof.
  induction bs as [|b bs IH]; simpl; intros a e H; [lia|].
  destruct H as (_ & H0 & _ & H). apply IH in H. lia.
Qed.

Lemma tiles_agree m m' bs : forall a e,
  tiles m a bs e -> (forall x, a <= x < e -> ld m' x = ld m x) -> tiles m' a bs e.
Proof.
  induction bs as [|b bs IH]; simpl; intros a e H Ha; [exact H|].
  destruct H as (H1 & H2 & H3 & H).
  pose proof (tiles_extent _ _ _ _ H) as Hext.
  repeat split; auto.
  - rewrite Ha by lia. exact H1.
  - apply IH; [exact H|]. intros x Hx. apply Ha. lia.
Qed.

Lemma layout_bounds m bs : forall a e p b,
  tiles m a bs e -> (p, b) ∈ layout a bs -> a + 4 <= p /\ p + bsize b <= e.
Proof.
  induction bs as [|c bs IH]; simpl; intros a e p b H Hin.
  - apply elem_of_nil in Hin. destruct Hin.
  - destruct H as (H1 & H2 & H3 & H). pose proof (tiles_extent _ _ _ _ H).
    apply elem_of_cons in Hin as [Heq|Hin].
    + inversion Heq; subst. lia.
    + apply (IH _ e) in Hin; [lia|exact H].
Qed.

Lemma layout_bsize m bs : forall a e p b,
  tiles m a bs e -> (p, b) ∈ layout a bs ->
  0 <= bsize b /\ bsize b mod 4 = 0 /\ ld m (p - 4) = hdr b.
Proof.
  induction bs as [|c bs IH]; simpl; intros a e p b H Hin.
  - apply elem_of_nil in Hin. destruct Hin.
  - destruct H as (H1 & H2 & H3 & H). apply elem_of_cons in Hin as [Heq|Hin]; [|eauto].
    inversion Heq; subst. replace (a + 4 - 4) with a by lia. auto.
Qed.

Lemma layout_functional m bs : forall a e p b b',
  tiles m a bs e -> (p, b) ∈ layout a bs -> (p, b') ∈ layout a bs -> b = b'.
Proof.
  induction bs as [|c bs IH]; simpl; intros a e p b b' Ht Hb Hb'.
  - apply elem_of_nil in Hb. destruct Hb.
  - destruct Ht as (? & ? & ? & Ht).
    apply elem_of_cons in Hb as [Hb|Hb]; apply elem_of_cons in Hb' as [Hb'|Hb']; eauto.
    + congruence.
    + inversion Hb; subst. apply (layout_bounds _ _ _ _ _ _ Ht) in Hb'. lia.
    + inversion Hb'; subst. apply (layout_bounds _ _ _ _ _ _ Ht) in Hb. lia.
Qed.

(** The header words of a tiling. *)
Definition is_header (a : Z) (bs : list block) (x : Z) : Prop :=
  exists b, (x + 4, b) ∈ layout a bs.

(** [x] lies in the payload of an allocated block. *)
Definition in_payload (a : Z) (bs : list block) (x : Z) : Prop :=
  exists p b, (p, b) ∈ layout a bs /\ p <= x < p + bsize b.

Lemma header_not_payload m bs : forall a e x,
  tiles m a bs e -> is_header a bs x -> ~ in_payload a bs x.
Proof.
  induction bs as [|c bs IH]; simpl; intros a e x H [b Hb] (p & b' & Hp & Hx); simpl in *.
  - apply elem_of_nil in Hb. exact Hb.
  - destruct H as (H1 & H2 & H3 & H).
    apply elem_of_cons in Hb as [Hb|Hb]; apply elem_of_cons in Hp as [Hp|Hp].
    + inversion Hb; inversion Hp; subst. lia.
    + inversion Hb; subst. apply (layout_bounds _ _ _ _ _ _ H) in Hp. lia.
    + inversion Hp; subst. apply (layout_bounds _ _ _ _ _ _ H) in Hb. lia.
    + apply (IH _ _ x H); [exists b|exists p, b']; auto.
Qed.

(** ** Allocation *)

Lemma ALIGN4_spec x :
  0 <= x < 4294967296 ->
  ALIGN4 x = (if x <=? 4294967292 then 4 * ((x + 3) / 4) else 0).
Proof.
  intros Hx. unfold ALIGN4, not32. change (4294967295 - 3) with (4294967296 - 2 ^ 2).
  rewrite land_high_mask by (pose proof (u32_range (x + 3)); lia).
  change (2 ^ 2) with 4. unfold u32.
  destruct (Z.leb_spec x 4294967292); dlia.
Qed.

Lemma alloc_spec_found (bs : list block) : forall a size p bs',
  alloc_spec a size bs = Some (p, bs') ->
  exists b, (p, b) ∈ layout a bs /\ bused b = false /\ size <= bsize b.
Proof.
  induction bs as [|b bs IH]; simpl; intros a size p bs' H; [discriminate|].
  destruct (negb (bused b) && (size <=? bsize b))%bool eqn:Hfit.
  - zbool. exists b. split; [|auto].
    destruct (size + 8 <=? bsize b); inversion H; subst; apply elem_of_cons; auto.
  - destruct (alloc_spec (a + 4 + bsize b) size bs) as [[q bs'']|] eqn:E; inversion H; subst.
    destruct (IH _ _ _ _ E) as (c & Hc & Hr). exists c. split; [|exact Hr].
    apply elem_of_cons. auto.
Qed.

(** The words the allocation from block [(p, b)] may write. *)
Definition block_words (p : Z) (b : block) (x : Z) : Prop := p - 4 <= x < p + bsize b.

Lemma kmalloc_take m a b bs size :
  ld m a = hdr b -> bused b = false -> bsize b mod 4 = 0 ->
  4 <= a -> 0 <= size <= bsize b -> size mod 4 = 0 ->
  a + 4 + bsize b <= kernel_heap_end <= 4294967292 ->
  tiles m (a + 4 + bsize b) bs kernel_heap_end ->
  exists m', 
    (let m1 :=
       if u32 (size + sizeof_heap_header + 4) <=? bsize b then
         let next := u32 (a + 4 + size) in
         let m2 := st m next (u32 (bsize b - size - sizeof_heap_header)) in
         let m3 := SET_FREE m2 next in
         SET_SIZE m3 a size
       else m in SET_USED m1 a) = m' /\
    agree_off (block_words (a + 4) b) m m' /\
    tiles m' a (if size + 8 <=? bsize b
                then Blk size true :: Blk (bsize b - size - 4) false :: bs
                else Blk (bsize b) true :: bs) kernel_heap_end.
Proof.
  intros Hh Hf Hm Ha Hs Hs4 He Ht.
  assert (Hh' : ld m a = bsize b) by (rewrite Hh; unfold hdr; rewrite Hf; simpl; lia).
  unfold sizeof_heap_header. rewrite (u32_id (size + 4 + 4)) by lia.
  replace (size + 4 + 4) with (size + 8) by lia.
  eexists. split; [reflexivity|].
  destruct (Z.leb_spec (size + 8) (bsize b)) as [Hsplit|Hnosplit]; cbv zeta.
  - rewrite !u32_id by lia.
    set (next := a + 4 + size).
    assert (E1 : SET_FREE (st m next (bsize b - size - 4)) next
                 = st (st m next (bsize b - size - 4)) next (hdr (Blk (bsize b - size - 4) false))).
    { apply (SET_FREE_hdr _ _ (Blk (bsize b - size - 4) false)); simpl; [|lia|dlia].
      rewrite ld_st_eq. unfold hdr; simpl. lia. }
    rewrite E1. clear E1. set (m3 := st (st m next _) next _).
    assert (L3 : ld m3 a = bsize b) by (unfold m3, next; mem_simp; exact Hh').
    assert (E2 : SET_SIZE m3 a size = st m3 a size).
    { unfold SET_SIZE, USED_FLAG. rewrite L3, land_1.
      replace (bsize b mod 2) with 0 by dlia. rewrite Z.lor_0_r. reflexivity. }
    rewrite E2, (SET_USED_free _ a size) by (try apply ld_st_eq; lia).
    split.
    + unfold m3. repeat (eapply agree_off_trans; [|apply agree_off_st; unfold block_words, next; lia]).
      apply agree_off_refl.
    + simpl. repeat split; try lia; try dlia.
      * mem_simp. reflexivity.
      * unfold m3, next. mem_simp. reflexivity.
      * replace (a + 4 + size + 4 + (bsize b - size - 4)) with (a + 4 + bsize b) by lia.
        apply (tiles_agree m); [exact Ht|]. intros x Hx. unfold m3, next. mem_simp. reflexivity.
  - rewrite (SET_USED_free _ a (bsize b)) by (auto; lia). split.
    + apply agree_off_st. unfold block_words. lia.
    + simpl. repeat split; try lia.
      * mem_simp. reflexivity.
      * apply (tiles_agree m); [exact Ht|]. intros x Hx. mem_simp. reflexivity.
Qed.

(** The search loop computes first fit. *)
Lemma kmalloc_loop_spec size bs : forall fuel m a,
  tiles m a bs kernel_heap_end -> (length bs < fuel)%nat ->
  4 <= a -> kernel_heap_end <= 4294967292 -> 0 <= size -> size mod 4 = 0 ->
  match alloc_spec a size bs with
  | Some (p, bs') => exists m' b,
      kmalloc_loop fuel m a size = Ok (p, m') /\ (p, b) ∈ layout a bs /\ bused b = false /\
      agree_off (block_words p b) m m' /\ tiles m' a bs' kernel_heap_end
  | None => kmalloc_loop fuel m a size = Ok (NULL, m)
  end.
Proof.
  induction bs as [|b bs IH]; intros fuel m a Ht Hfuel Ha He Hs Hs4;
    (destruct fuel as [|fuel]; [simpl in Hfuel; lia|]).
  - simpl in Ht. subst a. simpl. rewrite Z.ltb_irrefl. reflexivity.
  - destruct Ht as (Hh & Hb0 & Hb4 & Ht). pose proof (tiles_extent _ _ _ _ Ht) as Hext.
    simpl kmalloc_loop. simpl alloc_spec.
    rewrite (GET_SIZE_hdr m a b), (IS_USED_hdr m a b) by (auto; lia).
    replace (a <? kernel_heap_end) with true by (symmetry; apply Z.ltb_lt; lia).
    destruct (negb (bused b) && (size <=? bsize b))%bool eqn:Hfit.
    + zbool. destruct (kmalloc_take m a b bs size) as (m' & E & Hag & Ht'); auto; try lia.
      cbv zeta in E. rewrite E. rewrite (u32_id (a + 4)) by lia.
      destruct (size + 8 <=? bsize b); exists m', b;
        (split; [reflexivity|]); (split; [simpl; apply elem_of_cons; auto|]); auto.
    + rewrite u32_id by lia.
      specialize (IH fuel m (a + 4 + bsize b) Ht ltac:(simpl in Hfuel; lia) ltac:(lia) He Hs Hs4).
      destruct (alloc_spec (a + 4 + bsize b) size bs) as [[p bs']|]; [|exact IH].
      destruct IH as (m' & c & E & Hc & Hcf & Hag & Ht'). exists m', c.
      pose proof (layout_bounds _ _ _ _ _ _ Ht Hc).
      repeat split; auto; [simpl; apply elem_of_cons; auto|].
      rewrite Hag; [exact Hh|]. unfold block_words. lia.
Qed.

Lemma heap_fuel_enough m bs :
  heap_inv m bs -> (length bs < heap_fuel)%nat.
Proof.
  intros ((H0 & H1 & H2 & H3) & _ & Ht). apply tiles_extent in Ht.
  unfold heap_fuel. apply Nat2Z.inj_lt. rewrite Nat2Z.inj_succ, Z2Nat.id by dlia. dlia.
Qed.

Lemma alloc_spec_nonempty a size bs p bs' : alloc_spec a size bs = Some (p, bs') -> bs' <> [].
Proof.
  destruct bs as [|b bs]; simpl; [discriminate|].
  intros Hx. repeat case_match; simplify_eq; discriminate.
Qed.

Lemma ALIGN4_props size :
  0 <= size < 4294967296 -> 0 <= ALIGN4 size /\ ALIGN4 size mod 4 = 0.
Proof. intros. rewrite ALIGN4_spec by lia. case_test; dlia. Qed.

Lemma kmalloc_first_fit_aux m bs size :
  heap_inv m bs -> 0 <= size < 4294967296 ->
  match alloc_spec kernel_heap_start (ALIGN4 size) bs with
  | Some (p, bs') => exists m' b,
      kmalloc m size = Ok (p, m') /\ heap_inv m' bs' /\
      (p, b) ∈ layout kernel_heap_start bs /\ bused b = false /\ ALIGN4 size <= bsize b /\
      agree_off (block_words p b) m m'
  | None => kmalloc m size = Ok (NULL, m)
  end.
Proof.
  intros Hinv Hsize. pose proof (heap_fuel_enough m bs Hinv) as Hfuel.
  destruct Hinv as (Hgeo & Hne & Ht). pose proof Hgeo as (G0 & G1 & G2 & G3).
  destruct (ALIGN4_props size Hsize) as [A0 A1].
  pose proof (kmalloc_loop_spec (ALIGN4 size) bs heap_fuel m kernel_heap_start Ht Hfuel
                ltac:(dlia) ltac:(dlia) A0 A1) as Hloop.
  unfold kmalloc.
  destruct (alloc_spec kernel_heap_start (ALIGN4 size) bs) as [[p bs']|] eqn:E; [|exact Hloop].
  destruct Hloop as (m' & b & Ek & Hb & Hbf & Hag & Ht').
  pose proof (alloc_spec_found _ _ _ _ _ E) as (b' & Hb' & _ & Hfit).
  rewrite (layout_functional _ _ _ _ _ _ _ Ht Hb' Hb) in Hfit.
  exists m', b. repeat split; auto; try lia.
  eapply alloc_spec_nonempty. exact E.
Qed.

(** ** Release and coalescing *)

Lemma release_tiles m p bs : forall a e bs',
  tiles m a bs e -> release a p bs = Some bs' -> e <= 4294967292 -> 4 <= a ->
  tiles (SET_FREE m (p - 4)) a bs' e /\ is_header a bs (p - 4).
Proof.
  induction bs as [|b bs IH]; simpl; intros a e bs' Ht Hr He Ha; [discriminate|].
  destruct Ht as (Hh & Hb0 & Hb4 & Ht). pose proof (tiles_extent _ _ _ _ Ht) as Hext.
  destruct (Z.eqb_spec p (a + 4)) as [->|Hne].
  - inversion Hr; subst. replace (a + 4 - 4) with a by lia.
    rewrite (SET_FREE_hdr m a b) by (auto; lia). simpl. split.
    + repeat split; auto.
      * apply ld_st_eq.
      * apply (tiles_agree m); [exact Ht|]. intros x Hx. mem_simp. reflexivity.
    + exists b. simpl. apply elem_of_cons. auto.
  - destruct (release (a + 4 + bsize b) p bs) as [bs''|] eqn:E; inversion Hr; subst.
    destruct (IH _ _ _ Ht E He ltac:(lia)) as [IH1 [c Hc]].
    pose proof (layout_bounds _ _ _ _ _ _ Ht Hc).
    split; [|exists c; simpl; apply elem_of_cons; auto].
    simpl. repeat split; auto. unfold SET_FREE. rewrite ld_st_ne by lia. exact Hh.
Qed.

Lemma kfree_loop_spec bs : forall fuel m a b,
  tiles m a (b :: bs) kernel_heap_end -> (length bs < fuel)%nat ->
  4 <= a -> kernel_heap_end <= 4294967292 ->
  exists m', kfree_loop fuel m a = Ok m' /\ tiles m' a (merge b bs) kernel_heap_end /\
             agree_off (is_header a (b :: bs)) m m'.
Proof.
  induction bs as [|c bs IH]; intros fuel m a b Ht Hfuel Ha He;
    (destruct fuel as [|fuel]; [simpl in Hfuel; lia|]);
    destruct Ht as (Hh & Hb0 & Hb4 & Ht); pose proof (tiles_extent _ _ _ _ Ht) as Hext;
    simpl kfree_loop; rewrite (GET_SIZE_hdr m a b) by (auto; simpl in Hext; lia);
    rewrite (u32_id (a + 4 + bsize b)) by (simpl in Hext; lia);
    (replace (a <? kernel_heap_end) with true by (symmetry; apply Z.ltb_lt; simpl in Hext; lia)).
  - simpl in Ht. replace (kernel_heap_end <=? a + 4 + bsize b) with true
      by (symmetry; apply Z.leb_le; lia).
    exists m. simpl. repeat split; auto; apply agree_off_refl.
  - destruct Ht as (Hc & Hc0 & Hc4 & Ht). pose proof (tiles_extent _ _ _ _ Ht) as Hext'.
    simpl in Hext. replace (kernel_heap_end <=? a + 4 + bsize b) with false
      by (symmetry; apply Z.leb_gt; lia).
    rewrite (IS_USED_hdr m a b), (IS_USED_hdr m _ c), (GET_SIZE_hdr m _ c) by (auto; lia).
    simpl merge. destruct (negb (bused b) && negb (bused c))%bool eqn:Hfree.
    + zbool. unfold sizeof_heap_header. rewrite u32_id by lia.
      edestruct (IH fuel (st m a (bsize b + 4 + bsize c)) a (Blk (bsize b + 4 + bsize c) false))
        as (m' & E & Ht' & Hag); auto; [|simpl in Hfuel; lia|].
      { simpl. repeat split; try lia; try dlia.
        - rewrite ld_st_eq. unfold hdr. simpl. lia.
        - replace (a + 4 + (bsize b + 4 + bsize c)) with (a + 4 + bsize b + 4 + bsize c) by lia.
          apply (tiles_agree m); [exact Ht|]. intros x Hx. mem_simp. reflexivity. }
      exists m'. repeat split; auto.
      eapply agree_off_trans; [apply (agree_off_st _ _ a (bsize b + 4 + bsize c))|].
      * exists b. simpl. apply elem_of_cons. auto.
      * eapply agree_off_weaken; [exact Hag|]. intros x [d Hd]. simpl in Hd.
        apply elem_of_cons in Hd as [Hd|Hd].
        -- inversion Hd. exists b. simpl. apply elem_of_cons. left. f_equal. lia.
        -- exists d. simpl. apply elem_of_cons. right. apply elem_of_cons. right.
           replace (a + 4 + bsize b + 4 + bsize c) with (a + 4 + (bsize b + 4 + bsize c)) by lia.
           exact Hd.
    + edestruct (IH fuel m (a + 4 + bsize b) c) as (m' & E & Ht' & Hag); auto; try lia;
        [simpl; repeat split; auto|simpl in Hfuel; lia|].
      exists m'. repeat split; auto.
      * rewrite Hag; [exact Hh|]. intros [d Hd]. simpl in Hd.
        apply elem_of_cons in Hd as [Hd|Hd]; [inversion Hd; lia|].
        apply (layout_bounds _ _ _ _ _ _ Ht) in Hd. lia.
      * eapply agree_off_weaken; [exact Hag|]. intros x [d Hd]. exists d.
        simpl in *. apply elem_of_cons. auto.
Qed.

Lemma release_header (bs : list block) : forall a p bs' x,
  release a p bs = Some bs' -> is_header a bs' x -> is_header a bs x.
Proof.
  induction bs as [|b bs IH]; simpl; intros a p bs' x Hr [d Hd]; [discriminate|].
  destruct (p =? a + 4).
  - inversion Hr; subst. simpl in Hd. apply elem_of_cons in Hd as [Hd|Hd].
    + injection Hd as Hx _. exists b. simpl. apply elem_of_cons. left. congruence.
    + exists d. simpl. apply elem_of_cons. auto.
  - destruct (release (a + 4 + bsize b) p bs) as [bs''|] eqn:E; inversion Hr; subst.
    simpl in Hd. apply elem_of_cons in Hd as [Hd|Hd].
    + exists d. simpl. apply elem_of_cons. auto.
    + destruct (IH _ _ _ x E) as [d' Hd']; [exists d; exact Hd|].
      exists d'. simpl. apply elem_of_cons. auto.
Qed.

Lemma coalesced_merge bs : forall b, coalesced (merge b bs).
Proof.
  assert (Hcons : forall b l, coalesced l ->
    (bused b = true \/ match l with c :: _ => bused c = true | [] => True end) ->
    coalesced (b :: l)).
  { intros b [|c l] Hl Hb; simpl; auto. }
  assert (Hhd : forall bs b, bused b = true -> match merge b bs with c :: _ => bused c = true | [] => True end).
  { intros [|c bs'] b Hb; simpl; [exact Hb|]. rewrite Hb. exact Hb. }
  induction bs as [|c bs IH]; intros b; simpl; [exact I|].
  destruct (negb (bused b) && negb (bused c))%bool eqn:E; [apply IH|].
  apply Hcons; [apply IH|]. apply andb_false_iff in E.
  destruct (bused b); [auto|]. destruct E as [E|E]; [discriminate|].
  right. apply Hhd. apply negb_false_iff. exact E.
Qed.

Lemma allocated_cons a b bs :
  allocated a (b :: bs) =
  (if bused b then [(a + 4, bsize b)] else []) ++ allocated (a + 4 + bsize b) bs.
Proof. unfold allocated. simpl. destruct (bused b); reflexivity. Qed.

Lemma allocated_merge bs : forall a b, allocated a (merge b bs) = allocated a (b :: bs).
Proof.
  induction bs as [|c bs IH]; intros a b; simpl merge; [reflexivity|].
  destruct (negb (bused b) && negb (bused c))%bool eqn:E.
  - zbool. rewrite IH, !allocated_cons. simpl. rewrite H, H0. simpl. f_equal. lia.
  - rewrite allocated_cons, IH, <- allocated_cons. reflexivity.
Qed.

Lemma merge_nonempty bs : forall b, merge b bs <> [].
Proof. induction bs as [|c bs IH]; intros b; simpl; [discriminate|]. case_test; [apply IH|discriminate]. Qed.

Lemma kfree_releases_aux m bs p bs1 :
  heap_inv m bs -> release kernel_heap_start p bs = Some bs1 ->
  exists m', kfree m p = Ok m' /\ heap_inv m' (coalesce bs1) /\
    coalesced (coalesce bs1) /\
    allocated kernel_heap_start (coalesce bs1) = allocated kernel_heap_start bs1 /\
    agree_off (is_header kernel_heap_start bs) m m'.
Proof.
  intros Hinv Hr. pose proof (heap_fuel_enough m bs Hinv) as Hfuel.
  destruct Hinv as (Hgeo & Hne & Ht). pose proof Hgeo as (G0 & G1 & G2 & G3).
  destruct (release_tiles m p bs _ _ _ Ht Hr ltac:(dlia) ltac:(dlia)) as [Ht1 Hp].
  assert (Hlen : length bs1 = length bs).
  { clear -Hr. revert bs1 Hr. generalize kernel_heap_start.
    induction bs as [|b bs IH]; simpl; intros a bs1 Hr; [discriminate|].
    destruct (p =? a + 4); [inversion Hr; reflexivity|].
    destruct (release _ p bs) eqn:E; inversion Hr; simpl. f_equal. eauto. }
  assert (Hp0 : kernel_heap_start + 4 <= p < 4294967296).
  { destruct Hp as [b Hb]. replace (p - 4 + 4) with p in Hb by lia.
    pose proof (layout_bounds _ _ _ _ _ _ Ht Hb). pose proof (layout_bsize _ _ _ _ _ _ Ht Hb). lia. }
  unfold kfree, NULL. destruct (Z.eqb_spec p 0); [lia|].
  unfold sizeof_heap_header. rewrite u32_id by lia.
  destruct bs1 as [|b bs1]; [destruct bs; simpl in Hlen; [easy|discriminate]|].
  destruct (kfree_loop_spec bs1 heap_fuel _ _ _ Ht1) as (m' & E & Ht' & Hag);
    [simpl in Hlen; lia|dlia|dlia|].
  exists m'. repeat split; auto; try (dlia).
  - apply merge_nonempty.
  - apply coalesced_merge.
  - apply allocated_merge.
  - eapply agree_off_trans; [unfold SET_FREE; apply (agree_off_st _ _ (p - 4)); exact Hp|].
    eapply agree_off_weaken; [exact Hag|]. intros x. apply release_header with (1 := Hr).
Qed.

(** [kheap_init] writes the header of a single free block that covers the
    whole heap, and so establishes the heap invariant. *)
Theorem kheap_init_inv m :
  geometry -> heap_inv (kheap_init m)
    [Blk (kernel_heap_end - kernel_heap_start - 4) false].
Proof.
  intros Hgeo. pose proof Hgeo as (G0 & G1 & G2 & G3).
  split; [exact Hgeo|]. split; [discriminate|].
  unfold kheap_init, sizeof_heap_header. rewrite u32_id by dlia.
  set (b := Blk (kernel_heap_end - kernel_heap_start - 4) false).
  rewrite (SET_FREE_hdr _ _ b).
  - simpl. repeat split; try dlia. mem_simp. reflexivity.
  - rewrite ld_st_eq. unfold b, hdr. simpl. lia.
  - simpl. dlia.
  - simpl. dlia.
Qed.

(** ** Allocation followed by release *)

Lemma merge_coalesced bs : forall b, coalesced (b :: bs) -> merge b bs = b :: bs.
Proof.
  induction bs as [|c bs IH]; intros b H; [reflexivity|].
  destruct H as [Hor H]. simpl merge.
  replace (negb (bused b) && negb (bused c))%bool with false
    by (destruct Hor as [->| ->]; [reflexivity|symmetry; apply andb_false_r]).
  rewrite IH by exact H. reflexivity.
Qed.

Lemma coalesced_tail b bs : coalesced (b :: bs) -> coalesced bs.
Proof. destruct bs; simpl; [auto|tauto]. Qed.

Lemma merge_head_used bs : forall d e l, merge d bs = e :: l -> bused e = true -> bused d = true.
Proof.
  induction bs as [|c bs IH]; simpl; intros d e l H He; [congruence|].
  destruct (negb (bused d) && negb (bused c))%bool; [|congruence].
  apply IH in H; [discriminate|exact He].
Qed.

Lemma alloc_release (bs : list block) : forall a size p bs',
  0 <= size -> (forall b, b ∈ bs -> 0 <= bsize b) ->
  alloc_spec a size bs = Some (p, bs') -> coalesced bs ->
  exists bs1, release a p bs' = Some bs1 /\ coalesce bs1 = bs.
Proof.
  induction bs as [|b bs IH]; simpl; intros a size p bs' Hs Hsz Ha Hc; [discriminate|].
  destruct (negb (bused b) && (size <=? bsize b))%bool eqn:Hfit.
  - zbool. assert (Hb : Blk (bsize b) false = b) by (destruct b; simpl in *; congruence).
    destruct (size + 8 <=? bsize b); inversion Ha; subst; simpl release; rewrite Z.eqb_refl.
    + eexists. split; [reflexivity|]. simpl.
      replace (size + 4 + (bsize b - size - 4)) with (bsize b) by lia.
      rewrite Hb. apply merge_coalesced. exact Hc.
    + eexists. split; [reflexivity|]. simpl. rewrite Hb. apply merge_coalesced. exact Hc.
  - destruct (alloc_spec (a + 4 + bsize b) size bs) as [[q bs'']|] eqn:E; inversion Ha; subst.
    destruct (IH _ _ _ _ Hs ltac:(set_solver) E (coalesced_tail _ _ Hc)) as (bs1 & Hr & Hm).
    exists (b :: bs1). simpl release.
    assert (Hp : a + 4 + bsize b + 4 <= p).
    { apply alloc_spec_found in E as (c & Hin & _).
      assert (Hge : forall l a', (forall x, x ∈ l -> 0 <= bsize x) -> (p, c) ∈ layout a' l -> a' + 4 <= p).
      { clear. induction l as [|x l IHl]; simpl; intros a' Hpos Hin; [apply elem_of_nil in Hin; easy|].
        apply elem_of_cons in Hin as [Hin|Hin]; [inversion Hin; lia|].
        apply IHl in Hin; [|set_solver]. pose proof (Hpos x ltac:(set_solver)). lia. }
      apply Hge in Hin; [lia|set_solver]. }
    pose proof (Hsz b ltac:(set_solver)).
    destruct (Z.eqb_spec p (a + 4)); [lia|]. rewrite Hr. split; [reflexivity|].
    simpl. destruct bs1 as [|d r]; simpl in Hm; [subst bs; reflexivity|].
    simpl merge. replace (negb (bused b) && negb (bused d))%bool with false; [congruence|].
    symmetry. apply andb_false_iff.
    destruct bs as [|e l]; [destruct (merge_nonempty r d); exact Hm|].
    destruct Hc as [[Hb|He] _]; [left; rewrite Hb; reflexivity|].
    right. rewrite (merge_head_used r d e l Hm He). reflexivity.
Qed.

(** freeing the block [kmalloc] has just returned gives back the heap as it
    was, block for block, when the heap was coalesced. *)
Theorem kmalloc_kfree m bs size p m' :
  heap_inv m bs -> coalesced bs -> 0 <= size < 4294967296 ->
  kmalloc m size = Ok (p, m') -> p <> NULL ->
  exists m'', kfree m' p = Ok m'' /\ heap_inv m'' bs.
Proof.
  intros Hinv Hc Hsize Hk Hp.
  pose proof (kmalloc_first_fit_aux m bs size Hinv Hsize) as Hff.
  destruct (alloc_spec kernel_heap_start (ALIGN4 size) bs) as [[q bs']|] eqn:E; [|congruence].
  destruct Hff as (m1 & b & Ek & Hinv' & Hb & Hbf & Hfit & Hag).
  rewrite Hk in Ek. injection Ek as <- <-.
  destruct (alloc_release bs kernel_heap_start (ALIGN4 size) p bs') as (bs1 & Hr & Hm); auto.
  - apply ALIGN4_props. exact Hsize.
  - destruct Hinv as (_ & _ & Ht). revert Ht. clear. generalize kernel_heap_start as a.
    induction bs as [|c bs IH]; simpl; intros a Ht b Hb; [apply elem_of_nil in Hb; easy|].
    destruct Ht as (_ & H0 & _ & Ht). apply elem_of_cons in Hb as [->|Hb]; eauto.
  - destruct (kfree_releases_aux m' bs' p bs1 Hinv' Hr) as (m'' & Ef & Hi & _).
    exists m''. rewrite Hm in Hi. auto.
Qed.

(** ** The allocator contract *)

Lemma allocated_elem a bs p s :
  (p, s) ∈ allocated a bs <-> exists b, (p, b) ∈ layout a bs /\ bused b = true /\ bsize b = s.
Proof.
  unfold allocated. rewrite list_elem_of_omap. split.
  - intros [[q b] [Hin Hb]]. destruct (bused b) eqn:E; [|discriminate]. inversion Hb; subst. eauto.
  - intros (b & Hin & Hu & <-). exists (p, b). rewrite Hu. auto.
Qed.

Lemma alloc_spec_allocated bs : forall a size p bs',
  alloc_spec a size bs = Some (p, bs') ->
  exists s, size <= s /\
    forall q t, (q, t) ∈ allocated a bs' <-> (q = p /\ t = s) \/ (q, t) ∈ allocated a bs.
Proof.
  induction bs as [|b bs IH]; simpl; intros a size p bs' H; [discriminate|].
  destruct (negb (bused b) && (size <=? bsize b))%bool eqn:Hfit.
  - zbool. destruct (size + 8 <=? bsize b); injection H as <- <-;
      [exists size|exists (bsize b)]; (split; [lia|]); intros q t;
      rewrite !allocated_cons, H0; simpl; rewrite elem_of_cons;
      [replace (a + 4 + size + 4 + (bsize b - size - 4)) with (a + 4 + bsize b) by lia|];
      split; intros [Hq|Hq]; auto; left; try (destruct Hq; congruence); inversion Hq; auto.
  - destruct (alloc_spec (a + 4 + bsize b) size bs) as [[p' bs'']|] eqn:E; [|discriminate].
    injection H as -> <-. destruct (IH _ _ _ _ E) as (s & Hs & Hall). exists s. split; [exact Hs|].
    intros q t. rewrite !allocated_cons, !elem_of_app, Hall. tauto.
Qed.

Lemma release_exists bs : forall a p b, (p, b) ∈ layout a bs -> exists bs1, release a p bs = Some bs1.
Proof.
  induction bs as [|c bs IH]; simpl; intros a p b H; [apply elem_of_nil in H; easy|].
  destruct (p =? a + 4) eqn:E; [eauto|].
  apply elem_of_cons in H as [H|H]; [inversion H; subst; rewrite Z.eqb_refl in E; discriminate|].
  destruct (IH _ _ _ H) as [bs1 ->]. eauto.
Qed.

Lemma release_allocated m bs : forall a e p bs1 q t,
  tiles m a bs e -> release a p bs = Some bs1 ->
  (q, t) ∈ allocated a bs1 <-> (q, t) ∈ allocated a bs /\ q <> p.
Proof.
  induction bs as [|b bs IH]; simpl; intros a e p bs1 q t Ht Hr; [discriminate|].
  destruct Ht as (_ & Hb0 & _ & Ht).
  assert (Hge : (q, t) ∈ allocated (a + 4 + bsize b) bs -> a + 4 + bsize b + 4 <= q).
  { intros Hin. apply allocated_elem in Hin as (d & Hd & _).
    apply (layout_bounds _ _ _ _ _ _ Ht) in Hd. lia. }
  destruct (Z.eqb_spec p (a + 4)) as [->|Hne].
  - injection Hr as <-. rewrite !allocated_cons, !elem_of_app. simpl.
    split.
    + intros [Hin|Hin]; [apply elem_of_nil in Hin; easy|]. split; [auto|]. apply Hge in Hin. lia.
    + intros [[Hin|Hin] Hq]; [|auto]. destruct (bused b); [|apply elem_of_nil in Hin; easy].
      apply list_elem_of_singleton in Hin. congruence.
  - destruct (release (a + 4 + bsize b) p bs) as [bs''|] eqn:E; [|discriminate]. injection Hr as <-.
    rewrite !allocated_cons, !elem_of_app, (IH _ _ _ _ q t Ht E).
    split; [|tauto]. intros [Hin|Hin]; [|tauto]. split; [auto|].
    destruct (bused b); [|apply elem_of_nil in Hin; easy].
    apply list_elem_of_singleton in Hin. congruence.
Qed.

Lemma layout_disjoint m bs : forall a e p b q c,
  tiles m a bs e -> (p, b) ∈ layout a bs -> (q, c) ∈ layout a bs -> p <> q ->
  p + bsize b + 4 <= q \/ q + bsize c + 4 <= p.
Proof.
  induction bs as [|d bs IH]; simpl; intros a e p b q c Ht Hp Hq Hne; [apply elem_of_nil in Hp; easy|].
  destruct Ht as (_ & _ & _ & Ht).
  apply elem_of_cons in Hp as [Hp|Hp]; apply elem_of_cons in Hq as [Hq|Hq]; eauto.
  - congruence.
  - inversion Hp; subst. apply (layout_bounds _ _ _ _ _ _ Ht) in Hq. lia.
  - inversion Hq; subst. apply (layout_bounds _ _ _ _ _ _ Ht) in Hp. lia.
Qed.

(** The live allocations are the used blocks. *)
Definition kmem_inv (m : mem) (live : gmap Z Z) : Prop :=
  exists bs, heap_inv m bs /\
    forall p s, live !! p = Some s <-> (p, s) ∈ allocated kernel_heap_start bs.

Lemma kmem_live_block m live p s :
  kmem_inv m live -> live !! p = Some s ->
  exists bs b, heap_inv m bs /\ (p, b) ∈ layout kernel_heap_start bs /\ bused b = true /\ bsize b = s /\
    forall q t, live !! q = Some t <-> (q, t) ∈ allocated kernel_heap_start bs.
Proof.
  intros (bs & Hinv & Hl) Hp. apply Hl, allocated_elem in Hp as (b & Hb & Hu & Hs).
  exists bs, b. auto.
Qed.

Lemma layout_align m bs : forall a e p b,
  tiles m a bs e -> a mod 4 = 0 -> (p, b) ∈ layout a bs -> p mod 4 = 0.
Proof.
  induction bs as [|c bs IH]; simpl; intros a e p b Ht Ha H; [apply elem_of_nil in H; easy|].
  destruct Ht as (_ & _ & H4 & Ht). apply elem_of_cons in H as [H|H].
  - inversion H. subst. dlia.
  - eapply IH; [exact Ht|dlia|exact H].
Qed.

Lemma kmem_region m live p s : kmem_inv m live -> live !! p = Some s ->
  8 <= p /\ p mod 4 = 0 /\ 0 <= s /\ p + s <= 4294967292.
Proof.
  intros Hi Hp. destruct (kmem_live_block _ _ _ _ Hi Hp) as (bs & b & ((G0 & G1 & G2 & G3) & _ & Ht) & Hb & _ & <- & _).
  pose proof (layout_bounds _ _ _ _ _ _ Ht Hb). pose proof (layout_bsize _ _ _ _ _ _ Ht Hb).
  pose proof (layout_align _ _ _ _ _ _ Ht G1 Hb). repeat split; try lia; dlia.
Qed.

Lemma kmem_disjoint m live p s q t : kmem_inv m live -> live !! p = Some s ->
  live !! q = Some t -> p <> q -> p + s <= q \/ q + t <= p.
Proof.
  intros Hi Hp Hq Hne. destruct (kmem_live_block _ _ _ _ Hi Hp) as (bs & b & (_ & _ & Ht) & Hb & _ & <- & Hl).
  apply Hl, allocated_elem in Hq as (c & Hc & _ & <-).
  pose proof (layout_disjoint _ _ _ _ _ _ _ _ Ht Hb Hc Hne). lia.
Qed.

Definition kmem_arena (x : Z) : Prop := kernel_heap_start <= x < kernel_heap_end.

Lemma is_header_arena m bs x :
  tiles m kernel_heap_start bs kernel_heap_end -> is_header kernel_heap_start bs x -> kmem_arena x.
Proof.
  intros Ht [b Hb]. pose proof (layout_bounds _ _ _ _ _ _ Ht Hb).
  pose proof (layout_bsize _ _ _ _ _ _ Ht Hb). unfold kmem_arena. lia.
Qed.

Lemma kmem_live_arena m live x : kmem_inv m live -> in_live live x -> kmem_arena x.
Proof.
  intros Hi (p & s & Hp & Hx).
  destruct (kmem_live_block _ _ _ _ Hi Hp) as (bs & b & (_ & _ & Ht) & Hb & _ & <- & _).
  pose proof (layout_bounds _ _ _ _ _ _ Ht Hb). unfold kmem_arena. lia.
Qed.

(** A tiling depends on its header words only. *)
Lemma tiles_headers m m' bs : forall a e,
  tiles m a bs e -> (forall x, is_header a bs x -> ld m' x = ld m x) -> tiles m' a bs e.
Proof.
  induction bs as [|b bs IH]; simpl; intros a e Ht Hh; [exact Ht|].
  destruct Ht as (H1 & H2 & H3 & Ht). repeat split; auto.
  - rewrite Hh; [exact H1|]. exists b. simpl. apply elem_of_cons. auto.
  - apply IH; [exact Ht|]. intros x [d Hd]. apply Hh. exists d. simpl. apply elem_of_cons. auto.
Qed.

Lemma kmem_stable m m' live : kmem_inv m live ->
  agree_off (fun x => in_live live x \/ ~ kmem_arena x) m m' -> kmem_inv m' live.
Proof.
  intros (bs & (Hgeo & Hne & Ht) & Hl) Hag. exists bs.
  split; [|exact Hl]. split; [exact Hgeo|]. split; [exact Hne|].
  apply (tiles_headers m); [exact Ht|]. intros x Hx. apply Hag.
  intros [(p & s & Hp & Hr)|Hna]; [|apply Hna, (is_header_arena _ _ _ Ht Hx)].
  apply (header_not_payload _ _ _ _ _ Ht Hx).
  apply Hl, allocated_elem in Hp as (b & Hb & _ & <-). exists p, b. auto.
Qed.

(** The live allocations of the blocks after an allocation, and after a release. *)
Lemma alloc_live m bs (live : gmap Z Z) size p bs' : heap_inv m bs ->
  (forall p s, live !! p = Some s <-> (p, s) ∈ allocated kernel_heap_start bs) ->
  alloc_spec kernel_heap_start size bs = Some (p, bs') ->
  exists s, size <= s /\ live !! p = None /\
    forall q t, <[p := s]> live !! q = Some t <-> (q, t) ∈ allocated kernel_heap_start bs'.
Proof.
  intros (_ & _ & Ht) Hl E. destruct (alloc_spec_allocated _ _ _ _ _ E) as (s & Hs & Hall).
  destruct (alloc_spec_found _ _ _ _ _ E) as (b & Hb & Hbf & _).
  assert (Hfresh : live !! p = None).
  { apply eq_None_not_Some. intros [t Hp]. apply Hl, allocated_elem in Hp as (c & Hc & Hu & _).
    rewrite (layout_functional _ _ _ _ _ _ _ Ht Hb Hc) in Hbf. congruence. }
  exists s. split; [exact Hs|]. split; [exact Hfresh|]. intros q t. rewrite Hall, lookup_insert_Some, Hl.
  split; [|intros [[-> ->]|Hq]; [auto|]].
  - intros [[-> ->]|[_ Hq]]; auto.
  - right. split; [|exact Hq]. intros ->. apply Hl in Hq. congruence.
Qed.

Lemma release_live m bs (live : gmap Z Z) p bs1 : heap_inv m bs ->
  (forall p s, live !! p = Some s <-> (p, s) ∈ allocated kernel_heap_start bs) ->
  release kernel_heap_start p bs = Some bs1 ->
  forall q t, delete p live !! q = Some t <-> (q, t) ∈ allocated kernel_heap_start bs1.
Proof.
  intros (_ & _ & Ht) Hl Hr q t.
  rewrite (release_allocated _ _ _ _ _ _ q t Ht Hr), lookup_delete_Some, Hl. intuition congruence.
Qed.

Lemma kmem_malloc m live n : kmem_inv m live -> 0 <= n <= 4294967292 ->
  kmalloc m n = Ok (0, m) \/
  exists p s m', kmalloc m n = Ok (p, m') /\ n <= s /\ live !! p = None /\
    kmem_inv m' (<[p := s]> live) /\
    (forall x, in_live live x \/ ~ kmem_arena x -> ld m' x = ld m x).
Proof.
  intros (bs & Hinv & Hl) Hn.
  pose proof (kmalloc_first_fit_aux m bs n Hinv ltac:(lia)) as Hff.
  destruct (alloc_spec kernel_heap_start (ALIGN4 n) bs) as [[p bs']|] eqn:E; [right|left; exact Hff].
  destruct Hff as (m' & b & Ek & Hinv' & Hb & Hbf & Hfit & Hag).
  destruct (alloc_live m bs live _ _ _ Hinv Hl E) as (s & Hs & Hfresh & Hl').
  destruct Hinv as (_ & _ & Ht). exists p, s, m'. split; [exact Ek|]. split.
  { rewrite ALIGN4_spec in Hs by lia. destruct (Z.leb_spec n 4294967292); dlia. }
  split; [exact Hfresh|]. split; [exists bs'; split; [exact Hinv'|exact Hl']|].
  intros x Hx. apply Hag. pose proof (layout_bounds _ _ _ _ _ _ Ht Hb) as Hbb.
  destruct Hx as [(q & t & Hq & Hx)|Hx]; [|unfold block_words, kmem_arena in *; lia].
  apply Hl, allocated_elem in Hq as (c & Hc & Hu & <-).
  assert (p <> q) as Hne by (intros ->; rewrite (layout_functional _ _ _ _ _ _ _ Ht Hb Hc) in Hbf; congruence).
  unfold block_words. pose proof (layout_disjoint _ _ _ _ _ _ _ _ Ht Hb Hc Hne). lia.
Qed.

Lemma kmem_free m live p s : kmem_inv m live -> live !! p = Some s ->
  exists m', kfree m p = Ok m' /\ kmem_inv m' (delete p live) /\
    (forall x, in_live live x \/ ~ kmem_arena x -> ld m' x = ld m x).
Proof.
  intros Hi Hp. destruct (kmem_live_block _ _ _ _ Hi Hp) as (bs & b & Hinv & Hb & _ & _ & Hl).
  destruct (release_exists _ _ _ _ Hb) as [bs1 Hr].
  destruct (kfree_releases_aux m bs p bs1 Hinv Hr) as (m' & Ef & Hinv' & _ & Ha & Hag).
  pose proof (release_live m bs live p bs1 Hinv Hl Hr) as Hl1. destruct Hinv as (_ & _ & Ht).
  exists m'. split; [exact Ef|]. split.
  - exists (coalesce bs1). split; [exact Hinv'|]. intros q t. rewrite Ha. exact (Hl1 q t).
  - intros x Hx. apply Hag. intros Hh.
    destruct Hx as [(q & t & Hq & Hx)|Hx]; [|apply Hx, (is_header_arena _ _ _ Ht Hh)].
    apply (header_not_payload _ _ _ _ _ Ht Hh).
    apply Hl, allocated_elem in Hq as (c & Hc & _ & <-). exists q, c. auto.
Qed.

#[export] Instance kmem_allocator : KAllocator kmalloc kfree :=
  Build_KAllocator kmalloc kfree kmem_inv kmem_arena kmem_live_arena kmem_region kmem_disjoint kmem_stable kmem_malloc kmem_free.

(** ** Supply

    A free block of [64 * k] bytes serves [k] requests of at most 56: one takes its size,
    a header and what rounding adds, and freeing only makes free blocks larger. *)

Definition free_block (s : Z) (bs : list block) : Prop :=
  exists b, b ∈ bs /\ bused b = false /\ s <= bsize b.

Lemma free_block_cons s b bs : free_block s (b :: bs) <-> (bused b = false /\ s <= bsize b) \/ free_block s bs.
Proof.
  unfold free_block. split.
  - intros (c & Hc & H). apply elem_of_cons in Hc as [->|Hc]; eauto.
  - intros [H|(c & Hc & H)]; [exists b|exists c]; rewrite elem_of_cons; auto.
Qed.

Lemma alloc_spec_free s size bs : forall a, 0 <= size <= 56 -> 0 <= s -> free_block (s + 64) bs ->
  exists p bs', alloc_spec a size bs = Some (p, bs') /\ free_block s bs'.
Proof.
  induction bs as [|b bs IH]; intros a Hz Hs H; [destruct H as (c & Hc & _); apply elem_of_nil in Hc; easy|].
  apply free_block_cons in H. cbn [alloc_spec].
  destruct (negb (bused b) && (size <=? bsize b))%bool eqn:Hfit.
  - zbool. destruct (Z.leb_spec (size + 8) (bsize b)); eexists _, _; (split; [reflexivity|]);
      rewrite !free_block_cons; simpl; destruct H as [[_ H]|(c & Hc & H)];
      try (exfalso; lia); first [right; left; split; [reflexivity|lia]
        | right; right; exists c; split; [exact Hc|]; split; [apply H|lia]
        | right; exists c; split; [exact Hc|]; split; [apply H|lia]].
  - destruct H as [[Hf H]|H].
    + rewrite Hf in Hfit. simpl in Hfit. zbool. lia.
    + destruct (IH (a + 4 + bsize b) Hz Hs H) as (p & bs' & -> & Hb). eexists _, _. split; [reflexivity|].
      apply free_block_cons. auto.
Qed.

Lemma release_free s bs : forall a p bs1, release a p bs = Some bs1 -> free_block s bs -> free_block s bs1.
Proof.
  induction bs as [|b bs IH]; simpl; intros a p bs1 H Hf; [discriminate|].
  apply free_block_cons in Hf. destruct (p =? a + 4).
  - injection H as <-. apply free_block_cons. simpl. tauto.
  - destruct (release _ p bs) eqn:E; [|discriminate]. injection H as <-. apply free_block_cons.
    destruct Hf as [Hf|Hf]; [auto|]. right. eapply IH; eauto.
Qed.

Lemma merge_free s bs : forall b, 0 <= bsize b -> Forall (fun c => 0 <= bsize c) bs ->
  free_block s (b :: bs) -> free_block s (merge b bs).
Proof.
  induction bs as [|c bs IH]; simpl; intros b Hb Hbs H; [exact H|].
  apply Forall_cons in Hbs as [Hc Hbs]. rewrite !free_block_cons in H.
  destruct (negb (bused b) && negb (bused c))%bool eqn:E.
  - apply IH; [simpl; lia|exact Hbs|]. apply free_block_cons. simpl. intuition lia.
  - apply free_block_cons. destruct H as [H|H]; [auto|]. right. apply IH; [exact Hc|exact Hbs|].
    apply free_block_cons. exact H.
Qed.

Lemma tiles_sizes m bs : forall a e, tiles m a bs e -> Forall (fun c => 0 <= bsize c) bs.
Proof. induction bs as [|b bs IH]; simpl; intros a e H; constructor; [apply H|]. eapply IH, H. Qed.

Lemma release_sizes bs : forall a p bs1, release a p bs = Some bs1 ->
  Forall (fun c => 0 <= bsize c) bs -> Forall (fun c => 0 <= bsize c) bs1.
Proof.
  induction bs as [|b bs IH]; simpl; intros a p bs1 H Hs; [discriminate|]. apply Forall_cons in Hs as [Hb Hs].
  destruct (p =? a + 4); [injection H as <-; constructor; assumption|].
  destruct (release _ p bs) eqn:E; [|discriminate]. injection H as <-. constructor; eauto.
Qed.

Definition kmem_supply (k : nat) (m : mem) (live : gmap Z Z) : Prop :=
  exists bs, heap_inv m bs /\ (forall p s, live !! p = Some s <-> (p, s) ∈ allocated kernel_heap_start bs) /\
    free_block (64 * Z.of_nat k) bs.

Lemma kmem_supply_inv k m live : kmem_supply k m live -> kmem_inv m live.
Proof. intros (bs & H & Hl & _). exists bs. auto. Qed.

Lemma kmem_supply_malloc k m live n : kmem_supply (S k) m live -> 0 <= n <= 56 ->
  exists p s m', kmalloc m n = Ok (p, m') /\ live !! p = None /\ kmem_supply k m' (<[p := s]> live).
Proof.
  intros (bs & Hinv & Hl & Hf) Hn.
  pose proof (kmalloc_first_fit_aux m bs n Hinv ltac:(lia)) as Hff.
  assert (Hal : 0 <= ALIGN4 n <= 56) by (rewrite ALIGN4_spec by lia; destruct (Z.leb_spec n 4294967292); dlia).
  destruct (alloc_spec_free (64 * Z.of_nat k) (ALIGN4 n) bs kernel_heap_start Hal ltac:(lia)) as (p & bs' & E & Hf').
  { replace (64 * Z.of_nat k + 64) with (64 * Z.of_nat (S k)) by lia. exact Hf. }
  rewrite E in Hff. destruct Hff as (m' & b & Ek & Hinv' & _).
  destruct (alloc_live m bs live _ _ _ Hinv Hl E) as (s & _ & Hfresh & Hl').
  exists p, s, m'. split; [exact Ek|]. split; [exact Hfresh|]. exists bs'. auto.
Qed.

Lemma kmem_supply_free k m live p s : kmem_supply k m live -> live !! p = Some s ->
  exists m', kfree m p = Ok m' /\ kmem_supply k m' (delete p live).
Proof.
  intros (bs & Hinv & Hl & Hf) Hp. pose proof Hp as Hp'. apply Hl, allocated_elem in Hp' as (b & Hb & _ & _).
  destruct (release_exists _ _ _ _ Hb) as [bs1 Hr].
  destruct (kfree_releases_aux m bs p bs1 Hinv Hr) as (m' & Ef & Hinv' & _ & Ha & _).
  pose proof (release_live m bs live p bs1 Hinv Hl Hr) as Hl1. destruct Hinv as (_ & Hne & Ht).
  exists m'. split; [exact Ef|]. exists (coalesce bs1). split; [exact Hinv'|]. split.
  - intros q t. rewrite Ha. exact (Hl1 q t).
  - apply (release_free _ _ _ _ _ Hr) in Hf. pose proof (release_sizes _ _ _ _ Hr (tiles_sizes _ _ _ _ Ht)) as Hs.
    destruct bs1 as [|c bs1]; [exact Hf|]. apply Forall_cons in Hs as [Hc Hs]. apply merge_free; assumption.
Qed.

#[export] Instance kmem_ksupply : KSupply kmalloc kfree :=
  Build_KSupply kmalloc kfree kmem_allocator kmem_supply kmem_supply_inv kmem_supply_malloc kmem_supply_free.

(** ** Properties *)

(** C1: [kmalloc] is first fit. On a well-formed heap it returns the payload of
    the first free block that holds the request rounded up to a word, splits it
    when a header and a word are left over, writes nothing outside that block,
    leaves a well-formed heap, and returns NULL with the heap untouched when no
    block fits. The walk always ends. *)
Theorem kmalloc_first_fit m bs size :
  heap_inv m bs -> 0 <= size < 4294967296 ->
  match alloc_spec kernel_heap_start (ALIGN4 size) bs with
  | Some (p, bs') => exists m' b,
      kmalloc m size = Ok (p, m') /\ heap_inv m' bs' /\
      (p, b) ∈ layout kernel_heap_start bs /\ bused b = false /\ ALIGN4 size <= bsize b /\
      agree_off (block_words p b) m m'
  | None => kmalloc m size = Ok (NULL, m)
  end.
Proof. apply kmalloc_first_fit_aux. Qed.

(** C4: [kfree] on the payload of a block frees that block, merges every run of
    free blocks so that no two neighbours are free, keeps every other
    allocation where it is, and writes header words only. The walk always ends. *)
Theorem kfree_coalesces m bs p bs1 :
  heap_inv m bs -> release kernel_heap_start p bs = Some bs1 ->
  exists m', kfree m p = Ok m' /\ heap_inv m' (coalesce bs1) /\ coalesced (coalesce bs1) /\
    (forall q t, (q, t) ∈ allocated kernel_heap_start (coalesce bs1) <->
       (q, t) ∈ allocated kernel_heap_start bs /\ q <> p) /\
    agree_off (is_header kernel_heap_start bs) m m'.
Proof.
  intros Hinv Hr. destruct (kfree_releases_aux m bs p bs1 Hinv Hr) as (m' & E & Hi & Hc & Ha & Hag).
  destruct Hinv as (_ & _ & Ht).
  exists m'. repeat (split; [assumption|]). split; [|exact Hag]. intros q t. rewrite Ha.
  apply (release_allocated _ _ _ _ _ _ q t Ht Hr).
Qed.

(** the size is rounded up modulo 2^32, so a request within three bytes of
    2^32 is served as a request for no bytes: when the heap has a free block,
    [kmalloc] returns a block instead of NULL. *)
Theorem kmalloc_huge_request m bs size b :
  heap_inv m bs -> 4294967292 < size < 4294967296 -> b ∈ bs -> bused b = false ->
  exists p m', kmalloc m size = Ok (p, m') /\ p <> NULL.
Proof.
  intros Hinv Hsize Hb Hf. pose proof (kmalloc_first_fit_aux m bs size Hinv ltac:(lia)) as Hff.
  rewrite ALIGN4_spec in Hff by lia. destruct (Z.leb_spec size 4294967292) as [|_]; [lia|].
  destruct Hinv as ((G0 & _ & _ & _) & _ & Ht).
  destruct (alloc_spec kernel_heap_start 0 bs) as [[p bs']|] eqn:E.
  - destruct Hff as (m' & c & Ek & _ & Hc & _). exists p, m'. split; [exact Ek|].
    apply (layout_bounds _ _ _ _ _ _ Ht) in Hc. unfold NULL. lia.
  - exfalso. clear Hff. revert E Ht Hb. generalize kernel_heap_start as a.
    induction bs as [|c bs IH]; simpl; intros a E Ht Hb; [apply elem_of_nil in Hb; easy|].
    destruct Ht as (_ & H0 & _ & Ht).
    destruct (negb (bused c) && (0 <=? bsize c))%bool eqn:Hc.
    + case_test_in E; discriminate.
    + destruct (alloc_spec _ 0 bs) as [[? ?]|] eqn:E'; [discriminate|].
      apply elem_of_cons in Hb as [->|Hb]; [|eauto].
      rewrite Hf in Hc. simpl in Hc. zbool. lia.
Qed.

End Kmem.

(** ** A concrete heap *)

Module KmemWitness.

Definition start : Z := 4096.
Definition end_ : Z := 4160.
Definition m0 : mem := kheap_init start end_ ∅.
Definition bs0 : list block := [Blk 60 false].

Lemma inv0 : heap_inv start end_ m0 bs0.
Proof. repeat split; try discriminate; vm_compute; reflexivity. Defined.

Lemma geometry0 : geometry start end_.
Proof. repeat split. Defined.

(** The heap after [kmalloc(10)]. *)
Definition m1 : mem :=
  match kmalloc start end_ m0 10 with Ok (_, m) => m | _ => ∅ end.
Definition bs1 : list block := [Blk 12 true; Blk 44 false].

Lemma inv1 : heap_inv start end_ m1 bs1.
Proof. repeat split; try discriminate; vm_compute; reflexivity. Defined.

End KmemWitness.

Lemma kheap_init_inv_witness :
  heap_inv 4096 4160 (kheap_init 4096 4160 ∅) [Blk (4160 - 4096 - 4) false].
Proof. apply (kheap_init_inv 4096 4160 ∅ KmemWitness.geometry0). Defined.

Lemma kmalloc_first_fit_witness : exists m' b,
  kmalloc 4096 4160 KmemWitness.m0 10 = Ok (4100, m') /\
  heap_inv 4096 4160 m' [Blk 12 true; Blk 44 false] /\
  (4100, b) ∈ layout 4096 KmemWitness.bs0 /\ bused b = false /\ ALIGN4 10 <= bsize b /\
  agree_off (block_words 4100 b) KmemWitness.m0 m'.
Proof.
  exact (kmalloc_first_fit 4096 4160 KmemWitness.m0 KmemWitness.bs0 10 KmemWitness.inv0
           (conj (Zle_bool_imp_le 0 10 eq_refl) eq_refl)).
Defined.

Lemma kfree_coalesces_witness : exists m',
  kfree 4096 4160 KmemWitness.m1 4100 = Ok m' /\ heap_inv 4096 4160 m' [Blk 60 false] /\
  coalesced [Blk 60 false] /\
  (forall q t, (q, t) ∈ allocated 4096 [Blk 60 false] <->
     (q, t) ∈ allocated 4096 KmemWitness.bs1 /\ q <> 4100) /\
  agree_off (is_header 4096 KmemWitness.bs1) KmemWitness.m1 m'.
Proof.
  exact (kfree_coalesces 4096 4160 KmemWitness.m1 KmemWitness.bs1 4100
           [Blk 12 false; Blk 44 false] KmemWitness.inv1 eq_refl).
Defined.

Lemma kmalloc_kfree_witness : exists m'',
  kfree 4096 4160 KmemWitness.m1 4100 = Ok m'' /\ heap_inv 4096 4160 m'' KmemWitness.bs0.
Proof.
  apply (kmalloc_kfree 4096 4160 KmemWitness.m0 KmemWitness.bs0 10 4100 KmemWitness.m1
           KmemWitness.inv0 I).
  - lia.
  - vm_compute. reflexivity.
  - discriminate.
Defined.

Lemma kmalloc_huge_request_witness : exists p m',
  kmalloc 4096 4160 KmemWitness.m0 4294967295 = Ok (p, m') /\ p <> NULL.
Proof.
  apply (kmalloc_huge_request 4096 4160 KmemWitness.m0 KmemWitness.bs0 4294967295 (Blk 60 false)
           KmemWitness.inv0).
  - lia.
  - apply elem_of_cons. left. reflexivity.
  - reflexivity.
Defined.
