(* ===== verification/Umem.v ===== *)
(** * User memory: kernel/memory/umem_alloc.c and kernel/memory/umem.s

    The 256 KiB of user RAM are handed out in 64-byte blocks, one bit of
    [alloc_bitmap] per block. The C part marks and searches bits; the assembly
    part rounds a byte count to a power of two and converts it to bits. *)

From S2P Require Import Prelude.

(** ** The code: umem_alloc.c *)

(* kernel/memory/umem_alloc.c:1-1 USER_RAM_START *)
Definition USER_RAM_START : Z := 262144.          (* 0x40000 *)
(* kernel/memory/umem_alloc.c:2-2 ALLOC_ARRAY_BYTE_SIZE *)
Definition ALLOC_ARRAY_BYTE_SIZE : Z := 512.
(* kernel/memory/umem_alloc.c:4-4 MIN_BLOCK_SIZE *)
Definition MIN_BLOCK_SIZE : Z := (256 * 1024) / (ALLOC_ARRAY_BYTE_SIZE * 8).

(** The bitmap: [ALLOC_ARRAY_BYTE_SIZE] bytes. *)
Abbreviation bitmap := (list Z).

(** The body of the loop of [mark_bits_used]; [n] counts the iterations left. *)
(* kernel/memory/umem_alloc.c:12-15 mark_bits_used *)
Fixpoint mark_bits_used_loop (n : nat) (bm : bitmap) (start_bit i : Z) : res bitmap :=
  match n with
  | O => Ok bm
  | S n =>
      let bit := start_bit + i in
      let* old := zget bm (bit / 8) in
      let* bm := zupd bm (bit / 8) (u8 (Z.lor old (Z.shiftl 1 (bit mod 8)))) in
      mark_bits_used_loop n bm start_bit (i + 1)
  end.

(* kernel/memory/umem_alloc.c:11-16 mark_bits_used *)
Definition mark_bits_used (bm : bitmap) (start_bit count : Z) : res bitmap :=
  mark_bits_used_loop (Z.to_nat count) bm start_bit 0.

(* kernel/memory/umem_alloc.c:22-25 mark_bits_free *)
Fixpoint mark_bits_free_loop (n : nat) (bm : bitmap) (start_bit i : Z) : res bitmap :=
  match n with
  | O => Ok bm
  | S n =>
      let bit := start_bit + i in
      let* old := zget bm (bit / 8) in
      let* bm := zupd bm (bit / 8) (u8 (Z.land old (Z.lnot (Z.shiftl 1 (bit mod 8))))) in
      mark_bits_free_loop n bm start_bit (i + 1)
  end.

(* kernel/memory/umem_alloc.c:21-26 mark_bits_free *)
Definition mark_bits_free (bm : bitmap) (start_bit count : Z) : res bitmap :=
  mark_bits_free_loop (Z.to_nat count) bm start_bit 0.

(** The scan: [n] bits are left to look at, [i] is the next one. *)
(* kernel/memory/umem_alloc.c:33-53 ualloc_try_block *)
Fixpoint ualloc_scan (n : nat) (bm : bitmap) (num_bits i consecutive_zeros start_bit : Z)
  : res (Z * bitmap) :=
  match n with
  | O => Ok (0, bm)
  | S n =>
      let* byte := zget bm (i / 8) in
      if negb (truthy (Z.land byte (Z.shiftl 1 (i mod 8)))) then
        let start_bit := if consecutive_zeros =? 0 then i else start_bit in
        let consecutive_zeros := consecutive_zeros + 1 in
        if consecutive_zeros =? num_bits then
          let* bm := mark_bits_used bm start_bit num_bits in
          Ok (USER_RAM_START + start_bit * MIN_BLOCK_SIZE, bm)
        else ualloc_scan n bm num_bits (i + 1) consecutive_zeros start_bit
      else ualloc_scan n bm num_bits (i + 1) 0 start_bit
  end.

(* kernel/memory/umem_alloc.c:28-54 ualloc_try_block *)
Definition ualloc_try_block (bm : bitmap) (num_bits : Z) : res (Z * bitmap) :=
  ualloc_scan (Z.to_nat (ALLOC_ARRAY_BYTE_SIZE * 8)) bm num_bits 0 0 (-1).

(** ** The code: umem.s *)

(* kernel/memory/umem.s:12-40 round_next_power_of_two *)
Definition round_next_power_of_two (a0 : Z) : Z :=
  let a0 := u32 (a0 - 1) in
  let a0 := Z.lor a0 (Z.shiftr a0 1) in
  let a0 := Z.lor a0 (Z.shiftr a0 2) in
  let a0 := Z.lor a0 (Z.shiftr a0 4) in
  let a0 := Z.lor a0 (Z.shiftr a0 8) in
  let a0 := Z.lor a0 (Z.shiftr a0 16) in
  u32 (a0 + 1).

(* kernel/memory/umem.s:58-80 ualloc *)
Definition ualloc (bm : bitmap) (bytes : Z) : res (Z * bitmap) :=
  if bytes =? 0 then Ok (1, bm)
  else
    let a0 := round_next_power_of_two bytes in
    let t0 := MIN_BLOCK_SIZE in
    let a0 := if s32 t0 <=? s32 a0 then a0 else t0 in
    let t1 := a0 / t0 in
    let t2 := a0 mod t0 in
    ualloc_try_block bm (s32 (u32 (t1 + t2))).

(** [ufree] calls [round_next_power_of_two], which rounds [a0]: the address. *)
(* kernel/memory/umem.s:83-103 ufree *)
Definition ufree (bm : bitmap) (addr size : Z) : res bitmap :=
  if size =? 0 then Ok bm
  else
    let a0 := round_next_power_of_two addr in
    let t0 := MIN_BLOCK_SIZE in
    let a1 := if s32 t0 <=? s32 size then size else t0 in
    let t1 := a1 / t0 in
    let t2 := a1 mod t0 in
    let a1 := u32 (t1 + t2) in
    let a0 := u32 (a0 - USER_RAM_START) in
    let a0 := Z.quot (s32 a0) t0 in
    mark_bits_free bm a0 (s32 a1).

(** ** Reading the bitmap *)

(** Bit [b] of the bitmap: is block [b] in use? *)
Definition block_used (bm : bitmap) (b : Z) : bool := Z.testbit (znth 0 bm (b / 8)) (b mod 8).

Definition bitmap_ok (bm : bitmap) : Prop :=
  length bm = 512%nat /\ Forall is_u8 bm.

(** All of the [n] blocks from [s] on are free. *)
Definition run_free (bm : bitmap) (s n : Z) : Prop :=
  forall b, s <= b < s + n -> block_used bm b = false.

(** [bm'] differs from [bm] exactly in the blocks [s .. s+n-1], which it holds as [v]. *)
Definition marked (bm bm' : bitmap) (s n : Z) (v : bool) : Prop :=
  forall b, 0 <= b < 4096 ->
    block_used bm' b = (if (s <=? b) && (b <? s + n) then v else block_used bm b).

(** ** Lemmas *)

Lemma zget_znth (bm : bitmap) i : 0 <= i < Z.of_nat (length bm) -> zget bm i = Ok (znth 0 bm i).
Proof.
  intros H. unfold zget, znth. destruct (Z.ltb_spec i 0); [lia|].
  destruct (lookup_lt_is_Some_2 bm (Z.to_nat i)) as [x Hx]; [lia|]. rewrite Hx. reflexivity.
Qed.

Lemma zget_out (bm : bitmap) i : Z.of_nat (length bm) <= i -> zget bm i = Undef.
Proof.
  intros H. unfold zget. destruct (Z.ltb_spec i 0); [reflexivity|].
  rewrite lookup_ge_None_2 by lia. reflexivity.
Qed.

Lemma znth_u8 bm i : Forall is_u8 bm -> is_u8 (znth 0 bm i).
Proof.
  intros H. unfold znth. destruct (i <? 0); [unfold is_u8; lia|].
  destruct (bm !! Z.to_nat i) eqn:E; simpl; [|unfold is_u8; lia].
  rewrite Forall_lookup in H. eauto.
Qed.

Lemma u8_testbit z i : 0 <= i < 8 -> Z.testbit (u8 z) i = Z.testbit z i.
Proof. intros. unfold u8. change 256 with (2 ^ 8). apply Z.mod_pow2_bits_low. lia. Qed.

Lemma land_bit_truthy x k : 0 <= k -> truthy (Z.land x (Z.shiftl 1 k)) = Z.testbit x k.
Proof.
  intros Hk. unfold truthy. rewrite Z.shiftl_1_l.
  destruct (Z.testbit x k) eqn:E.
  - apply negb_true_iff, Z.eqb_neq. intros H0.
    assert (Hb : Z.testbit (Z.land x (2 ^ k)) k = true)
      by (rewrite Z.land_spec, E, Z.pow2_bits_true by lia; reflexivity).
    rewrite H0, Z.bits_0 in Hb. discriminate.
  - apply negb_false_iff, Z.eqb_eq. apply Z.bits_inj'. intros i Hi.
    rewrite Z.land_spec, Z.bits_0, Z.pow2_bits_eqb by lia.
    destruct (Z.eqb_spec k i) as [->|]; [rewrite E; reflexivity|apply andb_false_r].
Qed.

(** One byte written: one bit of the bitmap changes. *)
Lemma byte_write (bm bm' : bitmap) bit x (v : bool) :
  0 <= bit < 4096 -> length bm = 512%nat ->
  zupd bm (bit / 8) (u8 x) = Ok bm' ->
  (forall k, 0 <= k < 8 ->
     Z.testbit x k = if k =? bit mod 8 then v else Z.testbit (znth 0 bm (bit / 8)) k) ->
  forall b, 0 <= b < 4096 -> block_used bm' b = if b =? bit then v else block_used bm b.
Proof.
  intros Hbit Hlen Hupd Hx b Hb. unfold block_used.
  destruct (decide (b / 8 = bit / 8)) as [Heq|Hne].
  - rewrite Heq, (znth_zupd_eq _ _ _ _ _ Hupd), u8_testbit, Hx by dlia.
    destruct (Z.eqb_spec b bit), (Z.eqb_spec (b mod 8) (bit mod 8)); subst; try reflexivity; dlia.
  - rewrite (znth_zupd_ne _ _ _ _ _ _ Hupd) by lia.
    destruct (Z.eqb_spec b bit); [subst; lia|reflexivity].
Qed.

Lemma bitmap_ok_zupd bm bm' i x : bitmap_ok bm -> zupd bm i (u8 x) = Ok bm' -> bitmap_ok bm'.
Proof.
  intros [Hl Hf] H. split; [rewrite (zupd_length _ _ _ _ H); exact Hl|].
  unfold zupd in H. case_test_in H; res_inv. apply Forall_insert; [exact Hf|].
  apply u8_range.
Qed.

Lemma used_bit_set old j k : 0 <= k < 8 -> 0 <= j < 8 ->
  Z.testbit (Z.lor old (Z.shiftl 1 j)) k = if k =? j then true else Z.testbit old k.
Proof.
  intros. rewrite Z.lor_spec, Z.shiftl_1_l, Z.pow2_bits_eqb by lia.
  destruct (Z.eqb_spec j k), (Z.eqb_spec k j), (Z.testbit old k); simpl; lia || reflexivity.
Qed.

Lemma free_bit_clear old j k : 0 <= k < 8 -> 0 <= j < 8 ->
  Z.testbit (Z.land old (Z.lnot (Z.shiftl 1 j))) k = if k =? j then false else Z.testbit old k.
Proof.
  intros. rewrite Z.land_spec, Z.lnot_spec, Z.shiftl_1_l, Z.pow2_bits_eqb by lia.
  destruct (Z.eqb_spec j k), (Z.eqb_spec k j), (Z.testbit old k); simpl; lia || reflexivity.
Qed.

Lemma mark_bits_used_loop_spec n : forall bm start i,
  bitmap_ok bm -> 0 <= start + i -> start + i + Z.of_nat n <= 4096 ->
  exists bm', mark_bits_used_loop n bm start i = Ok bm' /\ bitmap_ok bm' /\
    marked bm bm' (start + i) (Z.of_nat n) true.
Proof.
  induction n as [|n IH]; intros bm start i Hok H0 H1.
  - exists bm. repeat split; try apply Hok. intros b Hb.
    destruct (Z.leb_spec (start + i) b), (Z.ltb_spec b (start + i + Z.of_nat 0)); simpl; lia || reflexivity.
  - simpl mark_bits_used_loop. set (bit := start + i) in *. pose proof Hok as [Hl _].
    rewrite zget_znth by dlia. simpl rbind.
    set (x := Z.lor _ _). destruct (zupd bm (bit / 8) (u8 x)) as [bm1| |] eqn:E;
      [|rewrite zupd_ok in E by dlia; discriminate|rewrite zupd_ok in E by dlia; discriminate].
    simpl rbind.
    destruct (IH bm1 start (i + 1)) as (bm' & Er & Hok' & Hm); [eapply bitmap_ok_zupd; eauto|lia|lia|].
    exists bm'. repeat split; try apply Hok'; [exact Er|]. intros b Hb.
    rewrite Hm by lia.
    rewrite (byte_write bm bm1 bit x true ltac:(lia) Hl E) by
      (try lia; intros k Hk; unfold x; apply used_bit_set; dlia).
    replace (start + (i + 1)) with (bit + 1) by lia.
    destruct (Z.leb_spec (bit + 1) b), (Z.ltb_spec b (bit + 1 + Z.of_nat n)),
      (Z.leb_spec bit b), (Z.ltb_spec b (bit + Z.of_nat (S n))), (Z.eqb_spec b bit);
      simpl; lia || reflexivity.
Qed.

Lemma mark_bits_free_loop_spec n : forall bm start i,
  bitmap_ok bm -> 0 <= start + i -> start + i + Z.of_nat n <= 4096 ->
  exists bm', mark_bits_free_loop n bm start i = Ok bm' /\ bitmap_ok bm' /\
    marked bm bm' (start + i) (Z.of_nat n) false.
Proof.
  induction n as [|n IH]; intros bm start i Hok H0 H1.
  - exists bm. repeat split; try apply Hok. intros b Hb.
    destruct (Z.leb_spec (start + i) b), (Z.ltb_spec b (start + i + Z.of_nat 0)); simpl; lia || reflexivity.
  - simpl mark_bits_free_loop. set (bit := start + i) in *. pose proof Hok as [Hl _].
    rewrite zget_znth by dlia. simpl rbind.
    set (x := Z.land _ _). destruct (zupd bm (bit / 8) (u8 x)) as [bm1| |] eqn:E;
      [|rewrite zupd_ok in E by dlia; discriminate|rewrite zupd_ok in E by dlia; discriminate].
    simpl rbind.
    destruct (IH bm1 start (i + 1)) as (bm' & Er & Hok' & Hm); [eapply bitmap_ok_zupd; eauto|lia|lia|].
    exists bm'. repeat split; try apply Hok'; [exact Er|]. intros b Hb.
    rewrite Hm by lia.
    rewrite (byte_write bm bm1 bit x false ltac:(lia) Hl E) by
      (try lia; intros k Hk; unfold x; apply free_bit_clear; dlia).
    replace (start + (i + 1)) with (bit + 1) by lia.
    destruct (Z.leb_spec (bit + 1) b), (Z.ltb_spec b (bit + 1 + Z.of_nat n)),
      (Z.leb_spec bit b), (Z.ltb_spec b (bit + Z.of_nat (S n))), (Z.eqb_spec b bit);
      simpl; lia || reflexivity.
Qed.

Lemma mark_bits_used_spec bm s n :
  bitmap_ok bm -> 0 <= s -> 0 <= n -> s + n <= 4096 ->
  exists bm', mark_bits_used bm s n = Ok bm' /\ bitmap_ok bm' /\ marked bm bm' s n true.
Proof.
  intros Hok Hs Hn Hb. unfold mark_bits_used.
  destruct (mark_bits_used_loop_spec (Z.to_nat n) bm s 0 Hok) as (bm' & E & Hok' & Hm); [lia|lia|].
  rewrite Z.add_0_r, Z2Nat.id in Hm by lia. eauto.
Qed.

Lemma mark_bits_free_spec bm s n :
  bitmap_ok bm -> 0 <= s -> 0 <= n -> s + n <= 4096 ->
  exists bm', mark_bits_free bm s n = Ok bm' /\ bitmap_ok bm' /\ marked bm bm' s n false.
Proof.
  intros Hok Hs Hn Hb. unfold mark_bits_free.
  destruct (mark_bits_free_loop_spec (Z.to_nat n) bm s 0 Hok) as (bm' & E & Hok' & Hm); [lia|lia|].
  rewrite Z.add_0_r, Z2Nat.id in Hm by lia. eauto.
Qed.

(** ** The scan *)

(** No run of [n] free blocks ends at or before block [i]. *)
Definition no_run (bm : bitmap) (n i : Z) : Prop :=
  forall s, 0 <= s -> s + n <= i -> ~ run_free bm s n.

(** The state of the scan before block [i]: the last [c] blocks are free, the
    run starts at [s], and no run of [n] has been seen. *)
Definition scan_inv (bm : bitmap) (n i c s : Z) : Prop :=
  0 <= c < n /\ c <= i /\ (0 < c -> s = i - c) /\ run_free bm (i - c) c /\
  (i - c = 0 \/ block_used bm (i - c - 1) = true) /\ no_run bm n i.

Lemma scan_inv_used bm n i c s :
  scan_inv bm n i c s -> 0 <= i -> block_used bm i = true -> scan_inv bm n (i + 1) 0 s.
Proof.
  intros (Hc & Hci & Hs & Hr & Hp & Hn) Hi Hu. unfold scan_inv.
  split; [lia|]. split; [lia|]. split; [lia|]. split; [intros b Hb; lia|].
  split; [right; replace (i + 1 - 0 - 1) with i by lia; exact Hu|].
  intros s' Hs' Hle Hrun. destruct (decide (s' + n <= i)) as [H|H]; [exact (Hn s' Hs' H Hrun)|].
  rewrite (Hrun i) in Hu by lia. discriminate.
Qed.

Lemma scan_inv_free bm n i c s :
  scan_inv bm n i c s -> 0 <= i -> block_used bm i = false -> c + 1 < n ->
  scan_inv bm n (i + 1) (c + 1) (if c =? 0 then i else s).
Proof.
  intros (Hc & Hci & Hs & Hr & Hp & Hn) Hi Hu Hlt. unfold scan_inv.
  replace (i + 1 - (c + 1)) with (i - c) by lia.
  split; [lia|]. split; [lia|]. split; [destruct (Z.eqb_spec c 0); lia|].
  split; [intros b Hb; destruct (decide (b = i)) as [->|]; [exact Hu|apply Hr; lia]|].
  split; [exact Hp|].
  intros s' Hs' Hle Hrun. destruct (decide (s' + n <= i)) as [H|H]; [exact (Hn s' Hs' H Hrun)|].
  destruct Hp as [Hp|Hp]; [lia|]. rewrite (Hrun (i - c - 1)) in Hp by lia. discriminate.
Qed.

(** What [ualloc_try_block] promises: first fit. *)
Definition try_block_post (bm : bitmap) (n : Z) (r : res (Z * bitmap)) : Prop :=
  (exists s bm', r = Ok (USER_RAM_START + s * 64, bm') /\ 0 <= s /\ s + n <= 4096 /\
     run_free bm s n /\ (forall s', 0 <= s' < s -> ~ run_free bm s' n) /\
     bitmap_ok bm' /\ marked bm bm' s n true)
  \/ (r = Ok (0, bm) /\ no_run bm n 4096).

Lemma ualloc_scan_spec bm n (Hok : bitmap_ok bm) (Hn : 0 < n) : forall k i c s,
  i + Z.of_nat k = 4096 -> 0 <= i -> scan_inv bm n i c s ->
  try_block_post bm n (ualloc_scan k bm n i c s).
Proof.
  induction k as [|k IH]; intros i c s Hik Hi Hinv.
  - right. split; [reflexivity|]. replace 4096 with i by lia. apply Hinv.
  - simpl ualloc_scan. pose proof Hok as [Hl _]. rewrite zget_znth by dlia. simpl rbind.
    rewrite land_bit_truthy by dlia. fold (block_used bm i).
    destruct (block_used bm i) eqn:Hu; simpl negb; cbv iota.
    + apply IH; [lia|lia|]. eapply scan_inv_used; eauto.
    + destruct (Z.eqb_spec (c + 1) n) as [Hfound|Hmore].
      * destruct Hinv as (Hc & Hci & Hs & Hr & Hp & Hno). left.
        assert (Hst : (if c =? 0 then i else s) = i - c) by (destruct (Z.eqb_spec c 0); lia).
        rewrite Hst.
        destruct (mark_bits_used_spec bm (i - c) n Hok) as (bm' & E & Hok' & Hm); [lia|lia|lia|].
        exists (i - c), bm'. rewrite E. split; [reflexivity|]. split; [lia|]. split; [lia|].
        split; [intros b Hb; destruct (decide (b = i)) as [->|]; [exact Hu|apply Hr; lia]|].
        split; [intros s' Hs'; apply Hno; lia|]. auto.
      * apply IH; [lia|lia|]. apply scan_inv_free; auto. destruct Hinv. lia.
Qed.

Lemma try_block_aux bm n : bitmap_ok bm -> 0 < n -> try_block_post bm n (ualloc_try_block bm n).
Proof.
  intros Hok Hn. unfold ualloc_try_block. apply (ualloc_scan_spec bm n Hok Hn); [reflexivity|lia|].
  unfold scan_inv. repeat split; try lia; [intros b Hb; lia|].
  intros s Hs Hle. lia.
Qed.

(** [ualloc_try_block] is first fit on the bitmap. For a positive count it
    returns the lowest run of that many free blocks and marks exactly those
    blocks, or returns 0, with the bitmap untouched, when there is no such run. *)
Theorem ualloc_try_block_first_fit bm n :
  bitmap_ok bm -> 0 < n -> try_block_post bm n (ualloc_try_block bm n).
Proof. apply try_block_aux. Qed.

(** [mark_bits_free] undoes [mark_bits_used] on blocks that were free. *)
Theorem mark_used_free_roundtrip bm s n :
  bitmap_ok bm -> 0 <= s -> 0 <= n -> s + n <= 4096 -> run_free bm s n ->
  exists bm1 bm2, mark_bits_used bm s n = Ok bm1 /\ mark_bits_free bm1 s n = Ok bm2 /\
    bitmap_ok bm2 /\ forall b, 0 <= b < 4096 -> block_used bm2 b = block_used bm b.
Proof.
  intros Hok Hs Hn Hb Hfree.
  destruct (mark_bits_used_spec bm s n) as (bm1 & E1 & Hok1 & Hm1); auto.
  destruct (mark_bits_free_spec bm1 s n) as (bm2 & E2 & Hok2 & Hm2); auto.
  exists bm1, bm2. split; [exact E1|]. split; [exact E2|]. split; [exact Hok2|].
  intros b Hbr. rewrite Hm2, Hm1 by lia.
  destruct (Z.leb_spec s b), (Z.ltb_spec b (s + n)); simpl; auto.
  symmetry. apply Hfree. lia.
Qed.

(** ** Rounding to a power of two *)

(** Below [2^(k+1)], with the bits from [k] down to [k - d + 1] set. *)
Definition smeared (v k d : Z) : Prop :=
  0 <= v < 2 ^ (k + 1) /\ forall i, 0 <= i -> k - d < i <= k -> Z.testbit v i = true.

Lemma smear_step v k d : 0 <= k -> 0 < d -> smeared v k d -> smeared (Z.lor v (Z.shiftr v d)) k (2 * d).
Proof.
  intros Hk Hd [Hv Hb]. split.
  - assert (Hs : 0 <= Z.shiftr v d) by (apply Z.shiftr_nonneg; lia).
    split; [apply Z.lor_nonneg; lia|].
    assert (Hle : Z.shiftr v d < 2 ^ (k + 1)).
    { rewrite Z.shiftr_div_pow2 by lia. apply Z.le_lt_trans with v; [|lia].
      apply Z.div_le_upper_bound; [apply Z.pow_pos_nonneg; lia|].
      pose proof (Z.pow_pos_nonneg 2 d). nia. }
    destruct (decide (Z.lor v (Z.shiftr v d) = 0)) as [->|Hnz]; [apply Z.pow_pos_nonneg; lia|].
    assert (0 <= Z.lor v (Z.shiftr v d)) by (apply Z.lor_nonneg; lia).
    apply Z.log2_lt_pow2; [lia|]. rewrite Z.log2_lor by lia.
    apply Z.max_lub_lt.
    + destruct (decide (v = 0)) as [->|]; [simpl; lia|]. apply Z.log2_lt_pow2; lia.
    + destruct (decide (Z.shiftr v d = 0)) as [->|]; [simpl; lia|]. apply Z.log2_lt_pow2; lia.
  - intros i Hi Hr. rewrite Z.lor_spec, Z.shiftr_spec by lia.
    destruct (Z_lt_le_dec (k - d) i).
    + rewrite Hb by lia. reflexivity.
    + rewrite (Hb (i + d)) by lia. apply orb_true_r.
Qed.

Lemma smeared_all v k d : 0 <= k -> k < d -> smeared v k d -> v = 2 ^ (k + 1) - 1.
Proof.
  intros Hk Hd [Hv Hb]. replace (2 ^ (k + 1) - 1) with (Z.ones (k + 1)) by (rewrite Z.ones_equiv; lia).
  apply Z.bits_inj'. intros i Hi. destruct (Z_lt_le_dec i (k + 1)).
  - rewrite Hb, Z.ones_spec_low by lia. reflexivity.
  - rewrite (testbit_high v (k + 1)), Z.ones_spec_high by lia. reflexivity.
Qed.

Lemma round_next_power_of_two_aux x k :
  0 <= k <= 30 -> 2 ^ k < x <= 2 ^ (k + 1) -> round_next_power_of_two x = 2 ^ (k + 1).
Proof.
  intros Hk Hx. assert (Hp : 0 < 2 ^ k) by (apply Z.pow_pos_nonneg; lia).
  assert (Hmax : 2 ^ (k + 1) <= 2 ^ 31) by (apply Z.pow_le_mono_r; lia). simpl in Hmax.
  unfold round_next_power_of_two. rewrite (u32_id (x - 1)) by lia.
  set (v := x - 1).
  assert (H0 : smeared v k 1).
  { split; [unfold v; lia|]. intros i Hi Hr. replace i with k by lia.
    replace k with (Z.log2 v); [apply Z.bit_log2; unfold v; lia|].
    apply Z.log2_unique' with (x - 1 - 2 ^ k); unfold v; rewrite ?Z.pow_add_r in Hx by lia; lia. }
  apply smear_step in H0; [|lia|lia]. apply smear_step in H0; [|lia|lia].
  apply smear_step in H0; [|lia|lia]. apply smear_step in H0; [|lia|lia].
  apply smear_step in H0; [|lia|lia]. change (2 * 1) with 2 in H0.
  change (2 * 2) with 4 in H0. change (2 * 4) with 8 in H0. change (2 * 8) with 16 in H0.
  apply smeared_all in H0; [|lia|lia]. cbv zeta. rewrite H0.
  rewrite u32_id; lia.
Qed.

(** The power of two a size is rounded to, as [Z.log2_up] gives it. *)
Lemma round_next_power_of_two_spec x :
  1 <= x <= 2147483648 -> round_next_power_of_two x = 2 ^ Z.log2_up x.
Proof.
  intros Hx. destruct (decide (x = 1)) as [->|H1]; [reflexivity|].
  pose proof (Z.log2_up_spec x ltac:(lia)) as Hs.
  assert (H0 : 0 < Z.log2_up x) by (apply Z.log2_up_pos; lia).
  assert (H31 : Z.log2_up x <= 31) by (change 31 with (Z.log2_up 2147483648); apply Z.log2_up_le_mono; lia).
  rewrite <- (Z.succ_pred (Z.log2_up x)) at 1. unfold Z.succ.
  rewrite (round_next_power_of_two_aux x (Z.pred (Z.log2_up x))); [f_equal; lia|lia|].
  replace (Z.pred (Z.log2_up x) + 1) with (Z.log2_up x) by lia. lia.
Qed.

(** The number of bits [ualloc] asks for. *)
Definition ualloc_bits (bytes : Z) : Z := Z.max 1 (2 ^ Z.log2_up bytes / 64).

Lemma pow2_mod_64 k : 6 <= k -> 2 ^ k mod 64 = 0.
Proof.
  intros. replace k with (k - 6 + 6) by lia. rewrite Z.pow_add_r by lia.
  change (2 ^ 6) with 64. apply Z.mod_mul. lia.
Qed.

Lemma pow2_small k : 0 <= k < 6 -> 2 ^ k < 64.
Proof. intros. change 64 with (2 ^ 6). apply Z.pow_lt_mono_r; lia. Qed.

Lemma ualloc_eq bm bytes :
  1 <= bytes <= 1073741824 -> ualloc bm bytes = ualloc_try_block bm (ualloc_bits bytes).
Proof.
  intros Hb. unfold ualloc. destruct (Z.eqb_spec bytes 0); [lia|].
  rewrite round_next_power_of_two_spec by lia.
  assert (Hk0 : 0 <= Z.log2_up bytes) by apply Z.log2_up_nonneg.
  assert (Hk30 : Z.log2_up bytes <= 30)
    by (change 30 with (Z.log2_up 1073741824); apply Z.log2_up_le_mono; lia).
  assert (Hp : 0 < 2 ^ Z.log2_up bytes <= 1073741824).
  { split; [apply Z.pow_pos_nonneg; lia|]. change 1073741824 with (2 ^ 30). apply Z.pow_le_mono_r; lia. }
  change MIN_BLOCK_SIZE with 64. unfold ualloc_bits.
  rewrite (s32_id 64), (s32_id (2 ^ _)) by lia.
  destruct (Z.leb_spec 64 (2 ^ Z.log2_up bytes)) as [H|H].
  - rewrite pow2_mod_64 by (destruct (Z_lt_le_dec (Z.log2_up bytes) 6); [|lia];
      pose proof (pow2_small (Z.log2_up bytes)); lia).
    rewrite Z.add_0_r, u32_id, s32_id by dlia. rewrite Z.max_r by dlia. reflexivity.
  - replace (64 / 64 + 64 mod 64) with 1 by reflexivity.
    rewrite u32_id, s32_id by lia. rewrite Z.max_l by dlia. reflexivity.
Qed.

(** C34: [ualloc] returns a region inside user RAM that is at least as large as
    the request, made of blocks that were all free, and takes those blocks and
    no others; it fails only when no run of the rounded size is free. *)
Theorem ualloc_region bm bytes :
  bitmap_ok bm -> 1 <= bytes <= 262144 ->
  (exists p bm' s, ualloc bm bytes = Ok (p, bm') /\ p = 262144 + s * 64 /\
     0 <= s /\ p + bytes <= 524288 /\ bytes <= ualloc_bits bytes * 64 /\
     run_free bm s (ualloc_bits bytes) /\ bitmap_ok bm' /\
     marked bm bm' s (ualloc_bits bytes) true)
  \/ (ualloc bm bytes = Ok (0, bm) /\ no_run bm (ualloc_bits bytes) 4096).
Proof.
  intros Hok Hb. rewrite ualloc_eq by lia.
  assert (Hn : 0 < ualloc_bits bytes) by (unfold ualloc_bits; lia).
  assert (Hsz : bytes <= ualloc_bits bytes * 64).
  { assert (Hle : bytes <= 2 ^ Z.log2_up bytes).
    { destruct (decide (bytes = 1)) as [->|]; [vm_compute; discriminate|]. apply Z.log2_up_spec. lia. }
    unfold ualloc_bits. destruct (Z_lt_le_dec (Z.log2_up bytes) 6) as [H6|H6].
    - pose proof (pow2_small (Z.log2_up bytes)). pose proof (Z.log2_up_nonneg bytes). lia.
    - pose proof (pow2_mod_64 _ H6). dlia. }
  destruct (try_block_aux bm (ualloc_bits bytes) Hok Hn)
    as [(s & bm' & E & Hs & Hle & Hfree & _ & Hok' & Hm)|H]; [left|right; exact H].
  - exists (262144 + s * 64), bm', s. repeat (split; [first [exact E|reflexivity|assumption|lia]|]). exact Hm.
Qed.

(** [ufree] rounds the address instead of the size: for every address of
    user RAM but the first it computes block 4096 and writes past the end of
    [alloc_bitmap]. *)
Theorem ufree_out_of_bounds bm addr size :
  bitmap_ok bm -> 262144 < addr <= 524288 -> 1 <= size < 2147483648 ->
  ufree bm addr size = Undef.
Proof.
  intros [Hl _] Ha Hs. unfold ufree. destruct (Z.eqb_spec size 0); [lia|].
  assert (Hr : round_next_power_of_two addr = 524288).
  { apply (round_next_power_of_two_aux addr 18); [lia|].
    change (2 ^ 18) with 262144. change (2 ^ (18 + 1)) with 524288. lia. }
  rewrite Hr. change (Z.quot (s32 (u32 (524288 - USER_RAM_START))) MIN_BLOCK_SIZE) with 4096.
  change MIN_BLOCK_SIZE with 64. rewrite (s32_id 64), (s32_id size) by lia.
  set (a1 := if 64 <=? size then size else 64).
  assert (Ha1 : 64 <= a1 < 2147483648) by (unfold a1; destruct (Z.leb_spec 64 size); lia).
  clearbody a1. rewrite u32_id, s32_id by dlia. unfold mark_bits_free.
  assert (Hpos : 0 < a1 / 64 + a1 mod 64) by dlia.
  destruct (Z.to_nat (a1 / 64 + a1 mod 64)) as [|k] eqn:E; [lia|].
  simpl. rewrite zget_out; [reflexivity|]. rewrite Hl. vm_compute. discriminate.
Qed.

(** ** A concrete bitmap *)

(** Nothing allocated. *)
Definition bitmap0 : bitmap := replicate 512 0.

Lemma bitmap0_ok : bitmap_ok bitmap0.
Proof. split; [reflexivity|]. apply Forall_replicate. unfold is_u8. lia. Qed.

Lemma ualloc_try_block_first_fit_witness : try_block_post bitmap0 3 (ualloc_try_block bitmap0 3).
Proof. apply (ualloc_try_block_first_fit bitmap0 3 bitmap0_ok). lia. Defined.

Lemma bitmap0_free s n : run_free bitmap0 s n.
Proof.
  intros b _. unfold block_used, znth, bitmap0. destruct (b / 8 <? 0); [apply Z.bits_0|].
  destruct (replicate 512 0 !! Z.to_nat (b / 8)) eqn:E; [|apply Z.bits_0].
  apply lookup_replicate in E as [-> _]. apply Z.bits_0.
Qed.

Lemma mark_used_free_roundtrip_witness : exists bm1 bm2,
  mark_bits_used bitmap0 5 20 = Ok bm1 /\ mark_bits_free bm1 5 20 = Ok bm2 /\
  bitmap_ok bm2 /\ forall b, 0 <= b < 4096 -> block_used bm2 b = block_used bitmap0 b.
Proof.
  apply (mark_used_free_roundtrip bitmap0 5 20 bitmap0_ok); [lia|lia|lia|apply bitmap0_free].
Defined.

Lemma ualloc_region_witness :
  (exists p bm' s, ualloc bitmap0 100 = Ok (p, bm') /\ p = 262144 + s * 64 /\
     0 <= s /\ p + 100 <= 524288 /\ 100 <= ualloc_bits 100 * 64 /\
     run_free bitmap0 s (ualloc_bits 100) /\ bitmap_ok bm' /\
     marked bitmap0 bm' s (ualloc_bits 100) true)
  \/ (ualloc bitmap0 100 = Ok (0, bitmap0) /\ no_run bitmap0 (ualloc_bits 100) 4096).
Proof. apply (ualloc_region bitmap0 100 bitmap0_ok). lia. Defined.

Lemma ufree_out_of_bounds_witness : ufree bitmap0 262208 64 = Undef.
Proof. apply (ufree_out_of_bounds bitmap0 262208 64 bitmap0_ok); lia. Defined.
