(* ===== verification/Slab.v ===== *)
(** * The slab allocator: kernel/slab_allocator.c

    A slab is one [kmalloc]ed block: a header of five words, then [total_objects]
    nodes, each a link word followed by the object. Everything lives in the word
    memory of [Mem], so a slab, its free list and the list of slabs are what the
    loads of the code find there. The allocator below is any [KAllocator]. *)

From S2P Require Import Prelude Mem Kmem.

(** ** The code *)

Section Slab.

Context (kmalloc : mem -> Z -> res (Z * mem)) (kfree : mem -> Z -> res mem).

(** Field offsets of [slab_node_t] and [slab_header_t]. *)
(* kernel/slab_allocator.c:4-7 slab_node_t *)
Definition node_next_free : Z := 0.
Definition node_user_data : Z := 4.
(* kernel/slab_allocator.c:9-15 slab_header_t *)
Definition slab_next : Z := 0.
Definition slab_free_list : Z := 4.
Definition slab_object_size : Z := 8.
Definition slab_total_objects : Z := 12.
Definition slab_free_objects : Z := 16.
Definition sizeof_slab_header : Z := 20.
Definition sizeof_ptr : Z := 4.

(** The loop that links the nodes; [n] counts the iterations left. *)
(* kernel/slab_allocator.c:42-48 slab_alloc_new *)
Fixpoint slab_link (n : nat) (m : mem) (current_node node_size : Z) : Z * mem :=
  match n with
  | O => (current_node, m)
  | S n =>
      let next_node := u32 (current_node + node_size) in
      let m := st m (current_node + node_next_free) next_node in
      slab_link n m next_node node_size
  end.

(* kernel/slab_allocator.c:23-52 slab_alloc_new *)
Definition slab_alloc_new (m : mem) (head object_size num_objects : Z) : res (Z * mem) :=
  let node_size := u32 (sizeof_ptr + object_size) in
  let slab_size := u32 (sizeof_slab_header + u32 (node_size * num_objects)) in
  let* (mem, m) := kmalloc m slab_size in
  if mem =? 0 then Ok (0, m)
  else
    let slab := mem in
    let m := st m (slab + slab_object_size) object_size in
    let m := st m (slab + slab_total_objects) num_objects in
    let m := st m (slab + slab_free_objects) num_objects in
    let m := st m (slab + slab_next) (ld m head) in
    let m := st m head slab in
    let current_node := u32 (mem + sizeof_slab_header) in
    let m := st m (slab + slab_free_list) current_node in
    let '(current_node, m) :=
      slab_link (Z.to_nat (u32 (num_objects - 1))) m current_node node_size in
    let m := st m (current_node + node_next_free) 0 in
    Ok (slab, m).

(** Take the first node off the free list of [slab]. *)
(* kernel/slab_allocator.c:62-65 slab_get *)
Definition slab_take (m : mem) (slab : Z) : Z * mem :=
  let node := ld m (slab + slab_free_list) in
  let m := st m (slab + slab_free_list) (ld m (node + node_next_free)) in
  let m := st m (slab + slab_free_objects) (u32 (ld m (slab + slab_free_objects) - 1)) in
  (u32 (node + node_user_data), m).

(** The walk over the slabs; [fuel] bounds the number of slabs. *)
(* kernel/slab_allocator.c:57-68 slab_get *)
Fixpoint slab_get_walk (fuel : nat) (m : mem) (slab : Z) : res (option (Z * mem)) :=
  match fuel with
  | O => NoFuel
  | S fuel =>
      if slab =? 0 then Ok None
      else if 0 <? ld m (slab + slab_free_objects) then Ok (Some (slab_take m slab))
      else slab_get_walk fuel m (ld m (slab + slab_next))
  end.

(* kernel/slab_allocator.c:54-76 slab_get *)
Definition slab_get (fuel : nat) (m : mem) (head : Z) : res (Z * mem) :=
  if (head =? 0) || (ld m head =? 0) then Ok (0, m)
  else
    let* found := slab_get_walk fuel m (ld m head) in
    match found with
    | Some r => Ok r
    | None =>
        let* (slab, m) := slab_alloc_new m head (ld m (ld m head + slab_object_size))
                            (ld m (ld m head + slab_total_objects)) in
        if slab =? 0 then Ok (0, m) else Ok (slab_take m slab)
    end.

(** The scan for fully free slabs: the count, the last one found and its
    predecessor. *)
(* kernel/slab_allocator.c:95-109 slab_free *)
Fixpoint slab_scan_free (fuel : nat) (m : mem) (tmp prev free_target free_target_prev count : Z)
  : res (Z * Z * Z) :=
  match fuel with
  | O => NoFuel
  | S fuel =>
      if tmp =? 0 then Ok (free_target, free_target_prev, count)
      else
        let '(free_target, free_target_prev, count) :=
          if ld m (tmp + slab_free_objects) =? ld m (tmp + slab_total_objects)
          then (tmp, prev, count + 1) else (free_target, free_target_prev, count) in
        slab_scan_free fuel m (ld m (tmp + slab_next)) tmp free_target free_target_prev count
  end.

(* kernel/slab_allocator.c:79-121 slab_free *)
Fixpoint slab_free_walk (fuel0 fuel : nat) (m : mem) (head slab obj : Z) : res mem :=
  match fuel with
  | O => NoFuel
  | S fuel =>
      if slab =? 0 then Ok m
      else
        let start := u32 (slab + sizeof_slab_header) in
        let end_ := u32 (start + u32 (u32 (sizeof_ptr + ld m (slab + slab_object_size))
                                      * ld m (slab + slab_total_objects))) in
        if (start <=? obj) && (obj <? end_) then
          let node := u32 (obj - sizeof_ptr) in
          let m := st m (node + node_next_free) (ld m (slab + slab_free_list)) in
          let m := st m (slab + slab_free_list) node in
          let m := st m (slab + slab_free_objects) (u32 (ld m (slab + slab_free_objects) + 1)) in
          let* (t, count) := slab_scan_free fuel0 m (ld m head) 0 0 0 0 in
          let '(free_target, free_target_prev) := t in
          if 2 <=? count then
            let m := st m (free_target_prev + slab_next) (ld m (free_target + slab_next)) in
            kfree m free_target
          else Ok m
        else slab_free_walk fuel0 fuel m head (ld m (slab + slab_next)) obj
  end.

(* kernel/slab_allocator.c:78-122 slab_free *)
Definition slab_free (fuel : nat) (m : mem) (head obj : Z) : res mem :=
  slab_free_walk fuel fuel m head (ld m head) obj.

End Slab.

(** ** Slabs in memory *)

(** A slab as the invariant sees it: where it is, how many objects of which
    size, and its free nodes in list order. *)
Record slab : Type := Slab { sl_at : Z; sl_size : Z; sl_total : Z; sl_free : list Z }.

Definition node_addr (s : slab) (k : Z) : Z := sl_at s + 20 + k * (4 + sl_size s).

Definition is_node (s : slab) (a : Z) : Prop := exists k, 0 <= k < sl_total s /\ a = node_addr s k.

Definition slab_bytes (s : slab) : Z := 20 + (4 + sl_size s) * sl_total s.

(** The free list that starts at [a] visits [l]. *)
Fixpoint chain (m : mem) (a : Z) (l : list Z) : Prop :=
  match l with
  | [] => a = 0
  | x :: l => a = x /\ x <> 0 /\ chain m (ld m x) l
  end.

Definition slab_wf (s : slab) : Prop :=
  0 <= sl_size s /\ sl_size s mod 4 = 0 /\ 0 < sl_total s /\
  8 <= sl_at s /\ sl_at s mod 4 = 0 /\ sl_at s + slab_bytes s <= 4294967292 /\
  NoDup (sl_free s) /\ Forall (is_node s) (sl_free s).

Definition slab_rep (m : mem) (s : slab) : Prop :=
  slab_wf s /\
  ld m (sl_at s + slab_object_size) = sl_size s /\
  ld m (sl_at s + slab_total_objects) = sl_total s /\
  ld m (sl_at s + slab_free_objects) = Z.of_nat (length (sl_free s)) /\
  chain m (ld m (sl_at s + slab_free_list)) (sl_free s).

(** The list of slabs that starts at [a]. *)
Fixpoint slabs_rep (m : mem) (a : Z) (ss : list slab) : Prop :=
  match ss with
  | [] => a = 0
  | s :: ss => a = sl_at s /\ slab_rep m s /\ slabs_rep m (ld m (sl_at s + slab_next)) ss
  end.

Definition slab_region (s : slab) (x : Z) : Prop := sl_at s <= x < sl_at s + slab_bytes s.

(** The nodes of a slab in address order, as [slab_alloc_new] links them. *)
Definition all_nodes (s : slab) : list Z := (fun k => node_addr s (Z.of_nat k)) <$> seq 0 (Z.to_nat (sl_total s)).

(** ** Lemmas *)

Lemma chain_agree m m' l : forall a,
  chain m a l -> (forall x, x ∈ l -> ld m' x = ld m x) -> chain m' a l.
Proof.
  induction l as [|x l IH]; simpl; intros a H Hag; [exact H|].
  destruct H as (-> & Hx & H). split; [reflexivity|]. split; [exact Hx|].
  rewrite Hag by set_solver. apply IH; [exact H|]. set_solver.
Qed.

Lemma is_node_region s a : slab_wf s -> is_node s a -> sl_at s + 20 <= a /\ a + 4 + sl_size s <= sl_at s + slab_bytes s.
Proof.
  intros (H0 & H1 & H2 & _) (k & Hk & ->). unfold node_addr, slab_bytes. nia.
Qed.

Lemma node_addr_mod4 s k : slab_wf s -> node_addr s k mod 4 = 0.
Proof.
  intros (H0 & H1 & H2 & H3 & H4 & _). unfold node_addr.
  replace (sl_at s + 20 + k * (4 + sl_size s)) with (sl_at s + k * sl_size s + (5 + k) * 4) by lia.
  rewrite Z.mod_add by lia. rewrite Z.add_mod, Z.mul_mod, H1, H4, Z.mul_0_r by lia. reflexivity.
Qed.

(** What a slab is does not depend on its link. *)
Lemma slab_rep_agree_link m m' s :
  slab_rep m s -> (forall x, slab_region s x -> x <> sl_at s -> ld m' x = ld m x) -> slab_rep m' s.
Proof.
  intros (Hwf & H1 & H2 & H3 & H4) Hag. pose proof Hwf as (W0 & W1 & W2 & W3 & W4 & W5 & W6 & W7).
  assert (Hr : forall o, 0 <= o < 20 -> slab_region s (sl_at s + o)).
  { intros o Ho. unfold slab_region, slab_bytes. nia. }
  split; [exact Hwf|]. unfold slab_object_size, slab_total_objects, slab_free_objects, slab_free_list in *.
  rewrite !Hag by (lia || (apply Hr; lia)). repeat split; auto.
  apply (chain_agree m); [exact H4|]. intros x Hx.
  rewrite Forall_forall in W7. apply W7 in Hx. apply (is_node_region s x Hwf) in Hx.
  apply Hag; [unfold slab_region; lia|lia].
Qed.

Lemma slab_rep_agree m m' s :
  slab_rep m s -> (forall x, slab_region s x -> ld m' x = ld m x) -> slab_rep m' s.
Proof. intros Hs Hag. apply (slab_rep_agree_link m); auto. Qed.

Lemma slab_link_spec ns k : forall m a,
  4 <= ns -> 0 <= a -> a + Z.of_nat k * ns < 4294967296 ->
  exists m', slab_link k m a ns = (a + Z.of_nat k * ns, m') /\
    (forall j, (j < k)%nat -> ld m' (a + Z.of_nat j * ns) = a + Z.of_nat (S j) * ns) /\
    (forall x, (x < a \/ a + Z.of_nat k * ns <= x) -> ld m' x = ld m x).
Proof.
  induction k as [|k IH]; intros m a Hns Ha Hb.
  - exists m. simpl slab_link. rewrite Z.mul_0_l, Z.add_0_r. repeat split; auto. intros j Hj. lia.
  - simpl slab_link. rewrite u32_id by nia. unfold node_next_free. rewrite Z.add_0_r.
    destruct (IH (st m a (a + ns)) (a + ns)) as (m' & E & Hl & Hag); [lia|lia|nia|].
    exists m'. rewrite E. split; [f_equal; lia|]. split.
    + intros [|j] Hj.
      * rewrite Z.mul_0_l, Z.add_0_r, Hag, ld_st_eq by lia. lia.
      * replace (a + Z.of_nat (S j) * ns) with (a + ns + Z.of_nat j * ns) by lia.
        rewrite Hl by lia. lia.
    + intros x Hx. rewrite Hag by nia. apply ld_st_ne. nia.
Qed.

Lemma all_nodes_spec s a : slab_wf s -> a ∈ all_nodes s <-> is_node s a.
Proof.
  intros (_ & _ & Ht & _). unfold all_nodes. rewrite list_elem_of_fmap. split.
  - intros (k & -> & Hk). apply elem_of_seq in Hk. exists (Z.of_nat k). split; [lia|reflexivity].
  - intros (k & Hk & ->). exists (Z.to_nat k). rewrite elem_of_seq, Z2Nat.id by lia. split; [reflexivity|lia].
Qed.

Lemma all_nodes_NoDup s : 0 <= sl_size s -> NoDup (all_nodes s).
Proof.
  intros H. unfold all_nodes. apply NoDup_fmap_2; [|apply NoDup_seq].
  intros i j Hij. unfold node_addr in Hij. nia.
Qed.

(** The chain laid down by [slab_link], from node [j] on. *)
Lemma chain_all_nodes m s : slab_wf s ->
  (forall j, 0 <= j < sl_total s - 1 -> ld m (node_addr s j) = node_addr s (j + 1)) ->
  ld m (node_addr s (sl_total s - 1)) = 0 ->
  chain m (sl_at s + 20) (all_nodes s).
Proof.
  intros (W0 & W1 & W2 & W3 & _) Hl Hlast. unfold all_nodes.
  assert (Hgen : forall n j, (0 < n)%nat -> Z.of_nat j + Z.of_nat n = sl_total s ->
    chain m (node_addr s (Z.of_nat j)) ((fun k => node_addr s (Z.of_nat k)) <$> seq j n)).
  { induction n as [|n IH]; intros j Hn Hj; [lia|]. simpl.
    split; [reflexivity|]. split; [unfold node_addr; nia|].
    destruct n as [|n].
    - simpl. replace (Z.of_nat j) with (sl_total s - 1) by lia. exact Hlast.
    - rewrite Hl by lia. replace (Z.of_nat j + 1) with (Z.of_nat (S j)) by lia. apply IH; lia. }
  specialize (Hgen (Z.to_nat (sl_total s)) O ltac:(lia) ltac:(lia)).
  unfold node_addr at 1 in Hgen. rewrite Z.mul_0_l, Z.add_0_r in Hgen. exact Hgen.
Qed.


(** ** Slabs over any kernel allocator *)

Section SlabClient.

Context {kmalloc : mem -> Z -> res (Z * mem)} {kfree : mem -> Z -> res mem}
        {KA : KAllocator kmalloc kfree}.

Lemma slab_alloc_new_aux m live head sz n :
  ka_inv m live -> ~ ka_arena head -> 0 <= sz -> sz mod 4 = 0 -> 0 < n ->
  20 + (4 + sz) * n <= 4294967292 ->
  slab_alloc_new kmalloc m head sz n = Ok (0, m) \/
  exists s bytes m', slab_alloc_new kmalloc m head sz n = Ok (sl_at s, m') /\
    sl_size s = sz /\ sl_total s = n /\ sl_free s = all_nodes s /\ slab_rep m' s /\
    ld m' head = sl_at s /\ ld m' (sl_at s + slab_next) = ld m head /\
    live !! sl_at s = None /\ slab_bytes s <= bytes /\ ka_inv m' (<[sl_at s := bytes]> live) /\
    (forall x, in_live live x \/ ~ ka_arena x -> x <> head -> ld m' x = ld m x).
Proof.
  intros Hinv Hhead Hsz Hsz4 Hn Hfit. unfold slab_alloc_new, sizeof_ptr, sizeof_slab_header.
  rewrite (u32_id (4 + sz)) by nia. rewrite (u32_id ((4 + sz) * n)) by nia.
  rewrite (u32_id (20 + (4 + sz) * n)) by nia.
  destruct (ka_malloc m live (20 + (4 + sz) * n) Hinv ltac:(nia))
    as [E|(p & bytes & m1 & E & Hbytes & Hfresh & Hinv1 & Hag1)]; rewrite E; simpl rbind.
  { left. reflexivity. }
  right. destruct (ka_region _ _ _ _ Hinv1 (lookup_insert_eq live p bytes)) as (P0 & P1 & P2 & P3).
  replace (p =? 0) with false by (symmetry; apply Z.eqb_neq; lia).
  set (s := Slab p sz n (all_nodes (Slab p sz n []))).
  assert (Harena : forall x, p <= x < p + bytes -> ka_arena x).
  { intros x Hx. apply (ka_live_arena m1 (<[p := bytes]> live)); [exact Hinv1|].
    exists p, bytes. split; [apply lookup_insert_eq|exact Hx]. }
  assert (Hhp : ~ (p <= head < p + bytes)) by (intros Hx; apply Hhead, Harena, Hx).
  assert (Hwf : slab_wf s).
  { unfold slab_wf, s, slab_bytes; simpl. repeat split; try lia; try nia.
    - apply (all_nodes_NoDup (Slab p sz n [])). simpl. lia.
    - apply Forall_forall. intros x Hx. unfold all_nodes in Hx.
      apply list_elem_of_fmap in Hx as (k & -> & Hk). apply elem_of_seq in Hk. simpl in Hk.
      exists (Z.of_nat k). simpl. split; [lia|reflexivity]. }
  rewrite (u32_id (p + 20)) by nia.
  unfold slab_object_size, slab_total_objects, slab_free_objects, slab_next, slab_free_list, node_next_free.
  rewrite (Z.add_0_r p). cbv zeta.
  set (m7 := st (st (st (st (st (st m1 _ _) _ _) _ _) _ _) _ _) _ _).
  destruct (slab_link_spec (4 + sz) (Z.to_nat (u32 (n - 1))) m7 (p + 20)) as (m8 & El & Hl & Hag8);
    [lia|lia|rewrite u32_id by nia; nia|].
  rewrite El. rewrite (u32_id (n - 1)) in * by nia. rewrite Z2Nat.id in * by lia.
  set (last := p + 20 + (n - 1) * (4 + sz)) in *. rewrite (Z.add_0_r last).
  set (m9 := st m8 last 0).
  assert (Hlast : p + 20 <= last /\ last + 4 + sz <= p + bytes) by (unfold last; nia).
  (* outside the slab's own block only [head] was written *)
  assert (Hout : forall x, ~ (p <= x < p + bytes) -> x <> head -> ld m9 x = ld m1 x).
  { intros x Hx Hxh. unfold m9. rewrite ld_st_ne by lia. rewrite Hag8 by lia.
    unfold m7. mem_simp. reflexivity. }
  assert (H7 : forall x, p <= x < p + 20 \/ x = head -> ld m9 x = ld m7 x).
  { intros x Hx. unfold m9. rewrite ld_st_ne by lia. apply Hag8. lia. }
  exists s, bytes, m9. split; [reflexivity|]. split; [reflexivity|]. split; [reflexivity|].
  split; [reflexivity|].
  assert (Hh7 : ld m7 head = p) by (unfold m7; mem_simp; reflexivity).
  split.
  { split; [exact Hwf|]. unfold slab_object_size, slab_total_objects, slab_free_objects, slab_free_list.
    simpl sl_at. rewrite !H7 by lia. unfold m7. mem_simp. simpl.
    split; [reflexivity|]. split; [reflexivity|]. split.
    - unfold all_nodes. rewrite length_fmap, length_seq. simpl. lia.
    - apply (chain_all_nodes m9 s Hwf).
      + intros j Hj. unfold m9. simpl in Hj. unfold node_addr in *. simpl sl_at. simpl sl_size.
        rewrite ld_st_ne by (unfold last; nia).
        specialize (Hl (Z.to_nat j) ltac:(lia)). rewrite Nat2Z.inj_succ, Z2Nat.id in Hl by lia.
        exact Hl.
      + unfold node_addr. simpl sl_at. simpl sl_size. simpl sl_total. fold last.
        unfold m9. apply ld_st_eq. }
  split; [rewrite H7 by lia; exact Hh7|].
  split.
  { unfold slab_next. simpl sl_at. rewrite Z.add_0_r, H7 by lia. unfold m7. mem_simp.
    apply Hag1. right. exact Hhead. }
  split; [exact Hfresh|]. split; [unfold slab_bytes; simpl; lia|].
  split.
  - eapply ka_stable; [exact Hinv1|]. intros x Hx. apply Hout.
    + intros Hr. apply Hx. left. exists p, bytes. split; [apply lookup_insert_eq|exact Hr].
    + intros ->. apply Hx. right. exact Hhead.
  - intros x Hx Hxh. rewrite Hout; [apply Hag1; exact Hx| |exact Hxh].
    intros Hr. destruct Hx as [(q & t & Hq & Hx)|Hx]; [|apply Hx, Harena, Hr].
    destruct (decide (q = p)) as [->|Hne]; [congruence|].
    pose proof (ka_disjoint m1 (<[p := bytes]> live) q t p bytes Hinv1) as Hd.
    rewrite lookup_insert_ne, lookup_insert_eq in Hd by auto.
    specialize (Hd Hq eq_refl Hne). lia.
Qed.

(** ** The list of slabs *)

Definition slab_live (live : gmap Z Z) (s : slab) : Prop :=
  exists bytes, live !! sl_at s = Some bytes /\ slab_bytes s <= bytes.

(** The state of one slab list: the slabs are live allocations, each at its own
    address, all of the same shape, and [head] is outside the allocator's arena. *)
Definition slabs_inv (m : mem) (live : gmap Z Z) (head sz n : Z) (ss : list slab) : Prop :=
  ka_inv m live /\ ~ ka_arena head /\ head <> 0 /\ slabs_rep m (ld m head) ss /\
  NoDup (sl_at <$> ss) /\ Forall (slab_live live) ss /\
  Forall (fun s => sl_size s = sz /\ sl_total s = n) ss.

Definition free_nodes (ss : list slab) : list Z := mbind sl_free ss.

Lemma slabs_rep_app m ss1 : forall a ss2,
  slabs_rep m a (ss1 ++ ss2) <->
  exists b, slabs_rep m b ss2 /\
    (fix go a ss1 := match ss1 with [] => a = b | s :: ss1 => a = sl_at s /\ slab_rep m s /\ go (ld m (sl_at s + slab_next)) ss1 end) a ss1.
Proof.
  induction ss1 as [|s ss1 IH]; intros a ss2; simpl.
  - split; [eauto|]. intros (b & H & ->). exact H.
  - rewrite IH. split; [intros (H1 & H2 & b & H3 & H4)|intros (b & H3 & H1 & H2 & H4)]; eauto 10.
Qed.

Lemma slab_link_region m t : slab_rep m t -> slab_region t (sl_at t + slab_next).
Proof. intros ((W0 & W1 & W2 & W3 & _) & _). unfold slab_region, slab_bytes, slab_next. nia. Qed.

Lemma slabs_rep_same m m' ss : forall a, slabs_rep m a ss ->
  (forall t x, t ∈ ss -> slab_region t x -> ld m' x = ld m x) -> slabs_rep m' a ss.
Proof.
  induction ss as [|t ss IH]; simpl; intros a H Hag; [exact H|].
  destruct H as (-> & Ht & H). split; [reflexivity|]. split.
  - apply (slab_rep_agree m); [exact Ht|]. intros x Hx. apply (Hag t x); [set_solver|exact Hx].
  - rewrite (Hag t) by (set_solver || exact (slab_link_region m t Ht)).
    apply IH; [exact H|]. intros u x Hu. apply Hag. set_solver.
Qed.

(** Replacing a slab by one at the same place, when nothing else changed. *)
Lemma slabs_rep_replace m m' s s' ss1 : forall a ss2,
  slabs_rep m a (ss1 ++ s :: ss2) -> sl_at s' = sl_at s -> slab_rep m' s' ->
  ld m' (sl_at s + slab_next) = ld m (sl_at s + slab_next) ->
  (forall t x, t ∈ ss1 \/ t ∈ ss2 -> slab_region t x -> ld m' x = ld m x) ->
  slabs_rep m' a (ss1 ++ s' :: ss2).
Proof.
  induction ss1 as [|t ss1 IH]; simpl; intros a ss2 H Hat Hs' Hn Hag.
  - destruct H as (-> & _ & H). split; [auto|]. split; [exact Hs'|]. rewrite Hat, Hn.
    apply (slabs_rep_same m); [exact H|]. intros t x Ht. apply Hag. auto.
  - destruct H as (-> & Ht & H). split; [reflexivity|]. split.
    + apply (slab_rep_agree m); [exact Ht|]. intros x Hx. apply (Hag t x); [set_solver|exact Hx].
    + rewrite (Hag t) by (set_solver || exact (slab_link_region m t Ht)).
      apply IH; auto. intros u y Hu Hy. apply (Hag u y); [set_solver|exact Hy].
Qed.

(** Linking a slab past its successor. *)
Lemma slabs_rep_unlink m m' p f ss1 : forall a ss2,
  slabs_rep m a (ss1 ++ p :: f :: ss2) ->
  ld m' (sl_at p + slab_next) = ld m (sl_at f + slab_next) -> (forall t, t ∈ ss1 \/ t ∈ ss2 -> ~ slab_region t (sl_at p)) ->
  (forall t x, t ∈ ss1 \/ t = p \/ t ∈ ss2 -> slab_region t x -> x <> sl_at p -> ld m' x = ld m x) ->
  slabs_rep m' a (ss1 ++ p :: ss2).
Proof.
  induction ss1 as [|t ss1 IH]; simpl; intros a ss2 H Hn Hdis Hag.
  - destruct H as (-> & Hp & _ & Hf & H). split; [reflexivity|]. split.
    + apply (slab_rep_agree_link m); [exact Hp|]. intros x. apply Hag. auto.
    + rewrite Hn. apply (slabs_rep_same m); [exact H|]. intros t x Ht Hx. apply (Hag t); auto.
      intros ->. apply (Hdis t); auto.
  - destruct H as (-> & Ht & H). assert (Hkeep : forall x, slab_region t x -> ld m' x = ld m x).
    { intros x Hx. apply (Hag t); [set_solver|exact Hx|]. intros ->. apply (Hdis t); [set_solver|exact Hx]. }
    split; [reflexivity|]. split; [apply (slab_rep_agree m); auto|].
    rewrite Hkeep by exact (slab_link_region m t Ht). apply IH; auto; intros u; [|intros y]; intros Hu.
    + apply Hdis. set_solver.
    + apply (Hag u y). set_solver.
Qed.

Lemma slab_live_disjoint m live s t x :
  ka_inv m live -> slab_live live s -> slab_live live t -> sl_at s <> sl_at t ->
  slab_region s x -> slab_region t x -> False.
Proof.
  intros Hinv (b & Hb & Hbs) (c & Hc & Hct) Hne Hs Ht. unfold slab_region in *.
  pose proof (ka_disjoint m live _ _ _ _ Hinv Hb Hc Hne). lia.
Qed.

Lemma slab_region_live live s x : slab_live live s -> slab_region s x -> in_live live x.
Proof. intros (b & Hb & Hbs) Hx. exists (sl_at s), b. unfold slab_region in Hx. split; [exact Hb|lia]. Qed.

(** ** Taking a node *)

Lemma slab_take_spec m s a l :
  slab_rep m s -> sl_free s = a :: l ->
  exists m', slab_take m (sl_at s) = (a + 4, m') /\
    slab_rep m' (Slab (sl_at s) (sl_size s) (sl_total s) l) /\
    (forall x, x <> sl_at s + 4 -> x <> sl_at s + 16 -> ld m' x = ld m x).
Proof.
  intros (Hwf & H1 & H2 & H3 & H4) Hf. pose proof Hwf as (W0 & W1 & W2 & W3 & W4 & W5 & W6 & W7).
  rewrite Hf in *. simpl in H4. destruct H4 as (Ha & Ha0 & Hc).
  apply Forall_cons in W7 as [Wa W7]. apply NoDup_cons in W6 as [Wn W6].
  pose proof (is_node_region s a Hwf Wa) as Hra.
  unfold slab_take, slab_free_list, slab_free_objects, slab_object_size, slab_total_objects,
    node_next_free, node_user_data in *.
  rewrite Ha, Z.add_0_r. rewrite (u32_id (a + 4)) by lia.
  eexists. split; [reflexivity|]. split.
  - split.
    + unfold slab_wf; simpl. repeat split; auto; lia.
    + unfold slab_free_list, slab_free_objects, slab_object_size, slab_total_objects. simpl sl_at.
      mem_simp. split; [exact H1|]. split; [exact H2|]. split.
      * rewrite H3. simpl length. simpl sl_free. rewrite u32_id; [lia|].
        assert (Hlen : (length (a :: l) <= length (all_nodes s))%nat).
        { apply NoDup_incl_length.
          - apply NoDup_ListNoDup. apply NoDup_cons. auto.
          - intros x Hx. apply list_elem_of_In in Hx. apply list_elem_of_In, all_nodes_spec; [exact Hwf|].
            apply elem_of_cons in Hx as [->|Hx]; [exact Wa|]. rewrite Forall_forall in W7. auto. }
        unfold all_nodes in Hlen. rewrite length_fmap, length_seq in Hlen. simpl in Hlen.
        unfold slab_bytes in W5. nia.
      * simpl sl_free. apply (chain_agree m); [exact Hc|]. intros x Hx.
        rewrite Forall_forall in W7. apply W7, (is_node_region s x Hwf) in Hx. mem_simp. reflexivity.
  - intros x Hx1 Hx2. mem_simp. reflexivity.
Qed.

(** A free list that is not empty is a counter that is not zero, and conversely. *)
Lemma slab_rep_free_count m s : slab_rep m s ->
  (0 <? ld m (sl_at s + slab_free_objects)) = match sl_free s with [] => false | _ => true end.
Proof.
  intros (_ & _ & _ & H & _). rewrite H. destruct (sl_free s); [reflexivity|].
  apply Z.ltb_lt. simpl. lia.
Qed.

Lemma slab_get_walk_spec m ss : forall fuel a,
  slabs_rep m a ss -> (length ss < fuel)%nat ->
  (slab_get_walk fuel m a = Ok None /\ Forall (fun s => sl_free s = []) ss) \/
  exists ss1 s x l ss2, ss = ss1 ++ s :: ss2 /\ sl_free s = x :: l /\
    Forall (fun s => sl_free s = []) ss1 /\ slab_rep m s /\
    slab_get_walk fuel m a = Ok (Some (slab_take m (sl_at s))).
Proof.
  induction ss as [|s ss IH]; intros fuel a H Hfuel; (destruct fuel as [|fuel]; [simpl in Hfuel; lia|]).
  - simpl in H. subst a. left. split; [reflexivity|constructor].
  - destruct H as (-> & Hs & H). simpl slab_get_walk.
    pose proof Hs as ((_ & _ & _ & W3 & _) & _).
    replace (sl_at s =? 0) with false by (symmetry; apply Z.eqb_neq; lia).
    rewrite (slab_rep_free_count m s Hs).
    destruct (sl_free s) as [|x l] eqn:Ef.
    + destruct (IH fuel _ H ltac:(simpl in Hfuel; lia)) as [[E Hf]|(ss1 & t & x & l & ss2 & -> & Ht & H1 & Hr & E)].
      * left. split; [exact E|]. constructor; auto.
      * right. exists (s :: ss1), t, x, l, ss2. split; [reflexivity|]. split; [exact Ht|].
        split; [constructor; auto|]. auto.
    + right. exists [], s, x, l, ss. split; [reflexivity|]. split; [exact Ef|].
      split; [constructor|]. auto.
Qed.

(** Changing one slab inside its own block, but not its link. *)
Lemma slabs_inv_update m m' live head sz n ss1 s s' ss2 :
  slabs_inv m live head sz n (ss1 ++ s :: ss2) -> slab_rep m' s' ->
  sl_at s' = sl_at s -> sl_size s' = sl_size s -> sl_total s' = sl_total s ->
  (forall x, ~ slab_region s x \/ x = sl_at s -> ld m' x = ld m x) ->
  slabs_inv m' live head sz n (ss1 ++ s' :: ss2).
Proof.
  intros (Hinv & Hh & Hh0 & Hrep & Hnd & Hlive & Hshape) Hs' Eat Esz Etot Hag.
  assert (Hs : slab_rep m s) by (apply slabs_rep_app in Hrep as (b & (_ & Hs & _) & _); exact Hs).
  assert (Hls : slab_live live s) by (rewrite Forall_forall in Hlive; apply Hlive; set_solver).
  assert (Hhead : ld m' head = ld m head).
  { apply Hag. left. intros Hx. apply Hh, (ka_live_arena m live); [exact Hinv|]. apply (slab_region_live _ s); auto. }
  split; [|split; [exact Hh|split; [exact Hh0|split; [|split; [|split]]]]].
  - eapply ka_stable; [exact Hinv|]. intros y Hy. apply Hag. left. intros Hx. apply Hy. left.
    apply (slab_region_live _ s); auto.
  - rewrite Hhead. apply (slabs_rep_replace m m' s); auto.
    + apply Hag. right. unfold slab_next. lia.
    + intros t y Ht Hy. assert (Hne : sl_at s <> sl_at t).
      { rewrite fmap_app, fmap_cons in Hnd. apply NoDup_app in Hnd as (_ & Hd & Hnd2).
        apply NoDup_cons in Hnd2 as [Hn1 _]. intros Heq. destruct Ht as [Ht|Ht].
        - apply (Hd (sl_at s)); [rewrite Heq; apply list_elem_of_fmap_2; exact Ht|set_solver].
        - apply Hn1. rewrite Heq. apply list_elem_of_fmap_2. exact Ht. }
      assert (Hlt : slab_live live t) by (rewrite Forall_forall in Hlive; apply Hlive; set_solver).
      apply Hag. left. intros Hx. exact (slab_live_disjoint m live s t y Hinv Hls Hlt Hne Hx Hy).
  - rewrite fmap_app, fmap_cons, Eat in *. exact Hnd.
  - apply Forall_app in Hlive as [L1 L2]. apply Forall_cons in L2 as [L2 L3].
    apply Forall_app. split; [exact L1|]. apply Forall_cons. split; [|exact L3].
    unfold slab_live, slab_bytes in *. rewrite Eat, Esz, Etot. exact L2.
  - apply Forall_app in Hshape as [L1 L2]. apply Forall_cons in L2 as [L2 L3].
    apply Forall_app. split; [exact L1|]. apply Forall_cons. split; [|exact L3]. rewrite Esz, Etot. exact L2.
Qed.

Lemma slabs_inv_take m live head sz n ss1 s x l ss2 :
  slabs_inv m live head sz n (ss1 ++ s :: ss2) -> sl_free s = x :: l ->
  exists m', slab_take m (sl_at s) = (x + 4, m') /\
    slabs_inv m' live head sz n (ss1 ++ Slab (sl_at s) (sl_size s) (sl_total s) l :: ss2).
Proof.
  intros Hall Hf. pose proof Hall as (_ & _ & _ & Hrep & _).
  assert (Hs : slab_rep m s) by (apply slabs_rep_app in Hrep as (b & (_ & Hs & _) & _); exact Hs).
  destruct (slab_take_spec m s x l Hs Hf) as (m' & E & Hs' & Hag). exists m'. split; [exact E|].
  pose proof Hs as ((W0 & W1 & W2 & W3 & _) & _).
  eapply slabs_inv_update; [exact Hall|exact Hs'|reflexivity..|].
  intros y [Hy|Hy]; apply Hag; intros ->; try (apply Hy; unfold slab_region, slab_bytes; nia); lia.
Qed.

Lemma free_nodes_app ss1 ss2 : free_nodes (ss1 ++ ss2) = free_nodes ss1 ++ free_nodes ss2.
Proof. apply bind_app. Qed.

Lemma free_nodes_cons s ss : free_nodes (s :: ss) = sl_free s ++ free_nodes ss.
Proof. reflexivity. Qed.

Lemma free_nodes_nil ss : Forall (fun s => sl_free s = []) ss -> free_nodes ss = [].
Proof. induction 1 as [|s ss Hs _ IH]; [reflexivity|]. unfold free_nodes in *. csimpl. rewrite Hs, IH. reflexivity. Qed.

(** The free nodes of different slabs are different. *)
Lemma free_node_unique m live head sz n ss1 s ss2 x :
  slabs_inv m live head sz n (ss1 ++ s :: ss2) -> is_node s x ->
  x ∉ free_nodes ss1 /\ x ∉ free_nodes ss2.
Proof.
  intros (Hinv & _ & _ & Hrep & Hnd & Hlive & _) Hx.
  assert (Hall : forall t, t ∈ ss1 ++ s :: ss2 -> slab_wf t).
  { clear - Hrep. revert Hrep. generalize (ld m head). induction (ss1 ++ s :: ss2) as [|u l IH];
      intros a H t Ht; [apply elem_of_nil in Ht; easy|].
    destruct H as (_ & (Hu & _) & H). apply elem_of_cons in Ht as [->|Ht]; eauto. }
  assert (Hdis : forall t, t ∈ ss1 \/ t ∈ ss2 -> x ∉ sl_free t).
  { intros t Ht Hxt. rewrite Forall_forall in Hlive.
    assert (Wt : slab_wf t) by (apply Hall; set_solver).
    assert (Ws : slab_wf s) by (apply Hall; set_solver).
    assert (Hnt : is_node t x).
    { destruct Wt as (_ & _ & _ & _ & _ & _ & _ & W7). rewrite Forall_forall in W7. auto. }
    pose proof (is_node_region _ _ Ws Hx). pose proof (is_node_region _ _ Wt Hnt).
    destruct Ws as (Ws & _). destruct Wt as (Wt & _).
    apply (slab_live_disjoint m live s t x); auto; try (apply Hlive; set_solver);
      try (unfold slab_region; lia).
    rewrite fmap_app, fmap_cons in Hnd. apply NoDup_app in Hnd as (_ & Hd & Hnd2).
    apply NoDup_cons in Hnd2 as [Hn1 _]. intros Heq. destruct Ht as [Ht|Ht].
    - apply (Hd (sl_at s)); [rewrite Heq; apply list_elem_of_fmap_2; exact Ht|set_solver].
    - apply Hn1. rewrite Heq. apply list_elem_of_fmap_2. exact Ht. }
  split; unfold free_nodes; intros Hin; apply list_elem_of_bind in Hin as (t & Hxt & Ht);
    apply (Hdis t); auto.
Qed.

(** The first slab of an empty list. *)
Lemma slabs_inv_first m live head sz n p m1 :
  ka_inv m live -> ~ ka_arena head -> head <> 0 -> 0 <= sz -> sz mod 4 = 0 -> 0 < n ->
  20 + (4 + sz) * n <= 4294967292 -> ld m head = 0 ->
  slab_alloc_new kmalloc m head sz n = Ok (p, m1) -> p <> 0 ->
  exists live' s, slabs_inv m1 live' head sz n [s] /\ sl_at s = p /\ sl_free s = all_nodes s.
Proof.
  intros Hinv Hh Hh0 Hsz H4 Hn Hfit Hnil E Hp.
  destruct (slab_alloc_new_aux m live head sz n Hinv Hh Hsz H4 Hn Hfit)
    as [Ea|(s & bytes & m' & Ea & Ez & Et & Ef & Hs & Hd1 & Hd2 & Hfresh & Hb & Hi & _)];
    rewrite E in Ea; injection Ea as -> ->; [easy|].
  exists (<[sl_at s := bytes]> live), s. split; [|split; [reflexivity|exact Ef]].
  split; [exact Hi|]. split; [exact Hh|]. split; [exact Hh0|]. split; [|split; [|split]].
  - split; [exact Hd1|]. split; [exact Hs|]. simpl. rewrite Hd2. exact Hnil.
  - apply NoDup_singleton.
  - apply Forall_singleton. exists bytes. split; [apply lookup_insert_eq|exact Hb].
  - apply Forall_singleton. auto.
Qed.

(** A list of slabs is untouched by writes outside the live blocks. *)
Lemma slabs_rep_kept m live m1 head ss : forall a,
  ka_inv m live -> ~ ka_arena head ->
  (forall x, in_live live x \/ ~ ka_arena x -> x <> head -> ld m1 x = ld m x) ->
  slabs_rep m a ss -> Forall (slab_live live) ss -> slabs_rep m1 a ss.
Proof.
  intros a Hinv Hh Hag. revert a. induction ss as [|t l IH]; simpl; intros a H Hl; [exact H|].
  apply Forall_cons in Hl as [Ht Hl]. destruct H as (-> & Hrt & H).
  assert (Hkeep : forall x, slab_region t x -> ld m1 x = ld m x).
  { intros x Hx. pose proof (slab_region_live _ _ _ Ht Hx) as Hlx. apply Hag; [left; exact Hlx|].
    intros ->. apply Hh. apply (ka_live_arena m live); auto. }
  pose proof Hrt as ((X0 & X1 & X2 & X3 & _) & _).
  split; [reflexivity|]. split; [apply (slab_rep_agree m); auto|].
  rewrite Hkeep; [apply IH; auto|unfold slab_region, slab_bytes, slab_next; nia].
Qed.

(** A slab that was just allocated, linked in front of the others. *)
Lemma slabs_inv_push m live head sz n ss s bytes m1 :
  slabs_inv m live head sz n ss -> sl_size s = sz -> sl_total s = n -> slab_rep m1 s ->
  ld m1 head = sl_at s -> ld m1 (sl_at s + slab_next) = ld m head ->
  live !! sl_at s = None -> slab_bytes s <= bytes -> ka_inv m1 (<[sl_at s := bytes]> live) ->
  (forall x, in_live live x \/ ~ ka_arena x -> x <> head -> ld m1 x = ld m x) ->
  slabs_inv m1 (<[sl_at s := bytes]> live) head sz n (s :: ss).
Proof.
  intros (Hinv & Hh & Hh0 & Hrep & Hnd & Hlive & Hshape) Ez Et Hs Hd1 Hd2 Hfresh Hb Hi Hag.
  split; [exact Hi|]. split; [exact Hh|]. split; [exact Hh0|]. split; [|split; [|split]].
  - split; [exact Hd1|]. split; [exact Hs|]. rewrite Hd2. apply (slabs_rep_kept m live m1 head); assumption.
  - rewrite fmap_cons. apply NoDup_cons. split; [|exact Hnd]. intros Hin.
    apply list_elem_of_fmap in Hin as (t & Heq & Ht). rewrite Forall_forall in Hlive.
    destruct (Hlive t Ht) as (b & Hb' & _). rewrite <- Heq in Hb'. congruence.
  - apply Forall_cons. split; [exists bytes; split; [apply lookup_insert_eq|exact Hb]|].
    eapply Forall_impl; [exact Hlive|]. intros t (b & Hb1 & Hb2). exists b. split; [|exact Hb2].
    rewrite lookup_insert_ne; [exact Hb1|]. intros Heq. rewrite Heq in Hfresh. congruence.
  - apply Forall_cons. split; [split; assumption|exact Hshape].
Qed.

(** ** Giving a node back *)

(** All objects of a slab are free. *)
Definition full (s : slab) : bool := Z.of_nat (length (sl_free s)) =? sl_total s.

Definition full_slabs (ss : list slab) : Z := Z.of_nat (length (List.filter full ss)).

(** The last slab that is fully free, with what comes before and after it. *)
Fixpoint last_full (ss : list slab) : option (list slab * slab * list slab) :=
  match ss with
  | [] => None
  | s :: ss =>
      match last_full ss with
      | Some (a, f, b) => Some (s :: a, f, b)
      | None => if full s then Some ([], s, ss) else None
      end
  end.

Definition pushed (x : Z) (s : slab) : slab := Slab (sl_at s) (sl_size s) (sl_total s) (x :: sl_free s).

(** The three stores that put node [x] at the head of the free list of the slab at [a]. *)
Definition push_node (m : mem) (a x : Z) : mem :=
  let m := st m (x + node_next_free) (ld m (a + slab_free_list)) in
  let m := st m (a + slab_free_list) x in
  st m (a + slab_free_objects) (u32 (ld m (a + slab_free_objects) + 1)).

Lemma free_count_bound s x : slab_wf s -> is_node s x -> x ∉ sl_free s ->
  Z.of_nat (length (sl_free s)) < sl_total s.
Proof.
  intros Hwf Hx Hn. pose proof Hwf as (W0 & W1 & W2 & W3 & W4 & W5 & W6 & W7).
  assert (Hlen : (length (x :: sl_free s) <= length (all_nodes s))%nat).
  { apply NoDup_incl_length; [apply NoDup_ListNoDup, NoDup_cons; auto|].
    intros y Hy. apply list_elem_of_In in Hy. apply list_elem_of_In, all_nodes_spec; [exact Hwf|].
    apply elem_of_cons in Hy as [->|Hy]; [exact Hx|]. rewrite Forall_forall in W7. auto. }
  unfold all_nodes in Hlen. rewrite length_fmap, length_seq in Hlen. simpl in Hlen. lia.
Qed.

Lemma push_node_spec m s x : slab_rep m s -> is_node s x -> x ∉ sl_free s ->
  slab_rep (push_node m (sl_at s) x) (pushed x s) /\
  (forall y, ~ slab_region s y \/ y = sl_at s -> ld (push_node m (sl_at s) x) y = ld m y).
Proof.
  intros (Hwf & H1 & H2 & H3 & H4) Hx Hn. pose proof Hwf as (W0 & W1 & W2 & W3 & W4 & W5 & W6 & W7).
  pose proof (is_node_region s x Hwf Hx) as Hr. pose proof (free_count_bound s x Hwf Hx Hn) as Hc.
  assert (Ht : sl_total s < 4294967292) by (unfold slab_bytes in W5; nia).
  unfold push_node, pushed, slab_free_list, slab_free_objects, slab_object_size, slab_total_objects, node_next_free in *.
  rewrite Z.add_0_r. split.
  - split; [unfold slab_wf; simpl; repeat split; auto; try lia; try (apply NoDup_cons; auto); try (apply Forall_cons; auto)|].
    unfold slab_free_list, slab_free_objects, slab_object_size, slab_total_objects. simpl sl_at. simpl sl_size. simpl sl_total.
    mem_simp. split; [exact H1|]. split; [exact H2|]. split.
    + rewrite H3, u32_id by lia. simpl length. lia.
    + cbn [chain sl_free]. split; [reflexivity|]. split; [lia|]. mem_simp.
      apply (chain_agree m); [exact H4|]. intros y Hy.
      rewrite Forall_forall in W7. pose proof (is_node_region s y Hwf (W7 y Hy)).
      assert (y <> x) by (intros ->; auto). mem_simp. reflexivity.
  - intros y Hy. assert (y <> x /\ y <> sl_at s + 4 /\ y <> sl_at s + 16) as (N1 & N2 & N3).
    { unfold slab_region, slab_bytes in *. repeat split; intros ->; destruct Hy as [Hy|Hy]; try (apply Hy; nia); lia. }
    mem_simp. reflexivity.
Qed.

(** The scan for fully free slabs. *)
Lemma slab_scan_free_spec m ss : forall fuel a prev ft fp count,
  slabs_rep m a ss -> (length ss < fuel)%nat ->
  slab_scan_free fuel m a prev ft fp count =
    Ok (match last_full ss with
        | Some (l, f, _) => (sl_at f, default prev (last (sl_at <$> l)))
        | None => (ft, fp) end, count + full_slabs ss).
Proof.
  induction ss as [|s ss IH]; intros fuel a prev ft fp count H Hf; (destruct fuel; [simpl in Hf; lia|]); cbn [slab_scan_free].
  - simpl in H. subst a. change (0 =? 0) with true. cbv iota. unfold full_slabs. simpl. rewrite Z.add_0_r. reflexivity.
  - destruct H as (-> & Hs & H). pose proof Hs as ((_ & _ & _ & W3 & _) & _ & Ht & Hc & _).
    replace (sl_at s =? 0) with false by (symmetry; apply Z.eqb_neq; lia). rewrite Ht, Hc. fold (full s).
    assert (Hcount : full_slabs (s :: ss) = (if full s then 1 else 0) + full_slabs ss).
    { unfold full_slabs. cbn [List.filter]. destruct (full s); cbn [length]; lia. }
    rewrite Hcount. cbn [last_full]. destruct (full s) eqn:Ef; rewrite (IH _ _ _ _ _ _ H) by (simpl in Hf; lia);
      (destruct (last_full ss) as [[[l f] b]|]; [|f_equal; f_equal; lia]); rewrite fmap_cons;
      f_equal; (apply f_equal2; [f_equal; destruct l as [|t l]; [reflexivity|]|lia]);
      (rewrite fmap_cons, last_cons_cons; destruct (last (sl_at t :: (sl_at <$> l))) eqn:El; [reflexivity|];
       apply last_None in El; discriminate).
Qed.

Lemma last_full_app ss l f b : last_full ss = Some (l, f, b) -> ss = l ++ f :: b /\ full f = true.
Proof.
  revert l f b. induction ss as [|s ss IH]; intros l f b H; [discriminate|]. cbn [last_full] in H.
  destruct (last_full ss) as [[[l' f'] b']|].
  - injection H as <- <- <-. destruct (IH _ _ _ eq_refl) as [-> Hf]. auto.
  - destruct (full s) eqn:E; [|discriminate]. injection H as <- <- <-. auto.
Qed.

Lemma last_full_none ss : last_full ss = None -> full_slabs ss = 0.
Proof.
  unfold full_slabs. induction ss as [|s ss IH]; intros H; [reflexivity|]. cbn [last_full] in H. cbn [List.filter].
  destruct (last_full ss) as [[[l f] b]|]; [discriminate|]. destruct (full s); [discriminate|]. apply IH. reflexivity.
Qed.

Lemma last_full_some ss l f b : last_full ss = Some (l, f, b) -> full_slabs ss = full_slabs l + 1 /\ full_slabs b = 0.
Proof.
  revert l f b. unfold full_slabs. induction ss as [|s ss IH]; intros l f b H; [discriminate|]. cbn [last_full] in H.
  cbn [List.filter]. destruct (last_full ss) as [[[l' f'] b']|] eqn:E.
  - injection H as <- <- <-. destruct (IH _ _ _ eq_refl) as [H1 H2]. cbn [List.filter]. destruct (full s); cbn [length]; lia.
  - destruct (full s) eqn:Es; [|discriminate]. injection H as <- <- <-. apply last_full_none in E. unfold full_slabs in E.
    cbn [List.filter length]. lia.
Qed.

(** The search for the slab of an object. *)
Lemma slab_free_walk_find m head s ss2 x fuel0 : is_node s x -> 0 < sl_size s -> forall ss1 fuel a,
  slabs_rep m a (ss1 ++ s :: ss2) -> (length ss1 < fuel)%nat ->
  (forall t, t ∈ ss1 -> ~ slab_region t (x + 4)) ->
  slab_free_walk kfree fuel0 fuel m head a (x + 4) =
    (let m := push_node m (sl_at s) x in
     let* (t, count) := slab_scan_free fuel0 m (ld m head) 0 0 0 0 in
     let '(free_target, free_target_prev) := t in
     if 2 <=? count then
       kfree (st m (free_target_prev + slab_next) (ld m (free_target + slab_next))) free_target
     else Ok m).
Proof.
  intros Hx Hsz.
  assert (Hbounds : forall t, slab_rep m t ->
    u32 (u32 (sl_at t + sizeof_slab_header) + u32 (u32 (sizeof_ptr + ld m (sl_at t + slab_object_size)) *
      ld m (sl_at t + slab_total_objects))) = sl_at t + slab_bytes t /\
    u32 (sl_at t + sizeof_slab_header) = sl_at t + 20 /\ sl_at t =? 0 = false).
  { intros t ((W0 & W1 & W2 & W3 & W4 & W5 & _) & E1 & E2 & _). rewrite E1, E2.
    unfold sizeof_slab_header, sizeof_ptr, slab_bytes in *. assert (Hp : 0 <= (4 + sl_size t) * sl_total t) by nia.
    rewrite (u32_id (4 + sl_size t)), (u32_id ((4 + sl_size t) * sl_total t)), (u32_id (sl_at t + 20)) by nia.
    rewrite u32_id by nia. split; [lia|]. split; [reflexivity|]. apply Z.eqb_neq. lia. }
  induction ss1 as [|t ss1 IH]; intros fuel a H Hf Hdis; (destruct fuel as [|fuel]; [simpl in Hf; lia|]); cbn [slab_free_walk].
  - destruct H as (-> & Hs & _). destruct (Hbounds s Hs) as (B1 & B2 & B3). rewrite B1, B2, B3.
    pose proof (is_node_region s x (proj1 Hs) Hx). destruct Hs as ((_ & _ & _ & W3 & _ & W5 & _) & _).
    replace ((sl_at s + 20 <=? x + 4) && (x + 4 <? sl_at s + slab_bytes s))%bool with true
      by (symmetry; apply andb_true_iff; rewrite Z.leb_le, Z.ltb_lt; lia).
    unfold sizeof_ptr. rewrite u32_id by lia. replace (x + 4 - 4) with x by lia. reflexivity.
  - destruct H as (-> & Ht & H). destruct (Hbounds t Ht) as (B1 & B2 & B3). rewrite B1, B2, B3.
    replace ((sl_at t + 20 <=? x + 4) && (x + 4 <? sl_at t + slab_bytes t))%bool with false.
    + apply IH; [exact H|simpl in Hf; lia|]. intros u Hu. apply Hdis. set_solver.
    + symmetry. apply andb_false_iff. rewrite Z.leb_gt, Z.ltb_ge.
      assert (Hno : ~ slab_region t (x + 4)) by (apply Hdis; set_solver). unfold slab_region in Hno. lia.
Qed.

(** Dropping a slab from the list. *)
Lemma slabs_inv_drop m live head sz n l p f b :
  slabs_inv m live head sz n (l ++ p :: f :: b) ->
  exists m', kfree (st m (sl_at p + slab_next) (ld m (sl_at f + slab_next))) (sl_at f) = Ok m' /\
    slabs_inv m' (delete (sl_at f) live) head sz n (l ++ p :: b).
Proof.
  intros (Hinv & Hh & Hh0 & Hrep & Hnd & Hlive & Hshape).
  assert (Hl : forall t, t ∈ l ++ p :: f :: b -> slab_live live t) by (rewrite Forall_forall in Hlive; exact Hlive).
  assert (Hp : slab_rep m p) by (apply slabs_rep_app in Hrep as (c & (_ & Hp & _) & _); exact Hp).
  set (m1 := st m (sl_at p + slab_next) (ld m (sl_at f + slab_next))).
  assert (Hpl : in_live live (sl_at p + slab_next)).
  { apply (slab_region_live _ p); [apply Hl; set_solver|exact (slab_link_region m p Hp)]. }
  assert (Hinv1 : ka_inv m1 live) by (eapply ka_stable; [exact Hinv|]; apply agree_off_st; left; exact Hpl).
  destruct (Hl f ltac:(set_solver)) as (bytes & Hf & _).
  destruct (ka_free m1 live _ _ Hinv1 Hf) as (m2 & E & Hinv2 & Hag). exists m2. split; [exact E|].
  assert (Hne : forall t, t ∈ l ++ p :: b -> sl_at t <> sl_at f).
  { intros t Ht Heq. rewrite fmap_app, !fmap_cons in Hnd. apply NoDup_app in Hnd as (_ & Hd & Hnd2).
    apply NoDup_cons in Hnd2 as [Hn1 Hnd2]. apply NoDup_cons in Hnd2 as [Hn2 _].
    apply elem_of_app in Ht as [Ht|Ht]; [|apply elem_of_cons in Ht as [->|Ht]].
    - apply (Hd (sl_at t)); [apply list_elem_of_fmap_2; exact Ht|rewrite Heq; set_solver].
    - apply Hn1. rewrite Heq. set_solver.
    - apply Hn2. rewrite <- Heq. apply list_elem_of_fmap_2. exact Ht. }
  assert (Hpt : forall t, t ∈ l \/ t ∈ b -> sl_at p <> sl_at t).
  { intros t Ht Heq. rewrite fmap_app, !fmap_cons in Hnd. apply NoDup_app in Hnd as (_ & Hd & Hnd2).
    apply NoDup_cons in Hnd2 as [Hn1 _]. destruct Ht as [Ht|Ht].
    - apply (Hd (sl_at t)); [apply list_elem_of_fmap_2; exact Ht|rewrite <- Heq; set_solver].
    - apply Hn1. rewrite Heq. apply list_elem_of_further, list_elem_of_fmap_2. exact Ht. }
  assert (Hhp : head <> sl_at p + slab_next).
  { intros ->. apply Hh, (ka_live_arena m live); [exact Hinv|exact Hpl]. }
  split; [exact Hinv2|]. split; [exact Hh|]. split; [exact Hh0|]. split; [|split; [|split]].
  - rewrite Hag by (right; exact Hh). unfold m1 at 1. rewrite ld_st_ne by congruence.
    apply (slabs_rep_unlink m m2 p f); [exact Hrep| | |].
    + rewrite Hag by (left; exact Hpl). apply ld_st_eq.
    + intros t Ht Hx. apply (slab_live_disjoint m live p t (sl_at p)); auto; try (apply Hl; set_solver).
      pose proof (slab_link_region m p Hp) as H. unfold slab_next in H. rewrite Z.add_0_r in H. exact H.
    + intros t x Ht Hx Hxp. rewrite Hag by (left; apply (slab_region_live _ t); [apply Hl; set_solver|exact Hx]).
      apply ld_st_ne. unfold slab_next. lia.
  - rewrite fmap_app, !fmap_cons in *. apply NoDup_app in Hnd as (N1 & N2 & N3). apply NoDup_cons in N3 as [N3 N4].
    apply NoDup_cons in N4 as [N4 N5]. apply NoDup_app. split; [exact N1|]. split; [intros y Hy; specialize (N2 y Hy); set_solver|].
    apply NoDup_cons. split; [set_solver|exact N5].
  - rewrite Forall_forall. intros t Ht. destruct (Hl t ltac:(set_solver)) as (c & Hc & Hb). exists c.
    split; [|exact Hb]. rewrite lookup_delete_ne; [exact Hc|]. intros Heq. apply (Hne t Ht). auto.
  - rewrite Forall_forall in *. intros t Ht. apply Hshape. set_solver.
Qed.

(** C33: [slab_get] hands out an object that was not handed out before. From a
    list of slabs that satisfies the invariant it either returns NULL, and then
    every slab is full and the kernel allocator refused a new one, or returns
    the object behind a node that leaves the free lists: a node that was free,
    or the first node of a freshly allocated slab. The invariant is preserved. *)
Theorem slab_get_object m live head sz n ss fuel :
  slabs_inv m live head sz n ss -> ss <> [] -> (length ss < fuel)%nat ->
  20 + (4 + sz) * n <= 4294967292 ->
  (slab_get kmalloc fuel m head = Ok (0, m) /\ free_nodes ss = []) \/
  exists p m' live' ss', slab_get kmalloc fuel m head = Ok (p, m') /\ p <> 0 /\
    slabs_inv m' live' head sz n ss' /\ (p - 4) ∉ free_nodes ss' /\
    (exists s, s ∈ ss' /\ is_node s (p - 4)) /\
    ((live' = live /\ free_nodes ss ≡ₚ (p - 4) :: free_nodes ss') \/
     (free_nodes ss = [] /\ exists s, ss' = s :: ss /\ live !! sl_at s = None /\
        (p - 4) :: sl_free s = all_nodes s)).
Proof.
  intros Hall Hne Hfuel Hfit. pose proof Hall as (Hinv & Hh & Hh0 & Hrep & Hnd & Hlive & Hshape).
  destruct ss as [|s0 ss0]; [easy|]. set (ss := s0 :: ss0) in *. clear Hne.
  assert (H0 : ld m head = sl_at s0 /\ slab_rep m s0) by (destruct Hrep as (? & ? & _); auto).
  destruct H0 as [Hhd Hs0]. pose proof Hs0 as ((W0 & W1 & W2 & W3 & _) & Hsz & Htot & _).
  unfold slab_get. replace ((head =? 0) || (ld m head =? 0))%bool with false
    by (symmetry; apply orb_false_iff; split; apply Z.eqb_neq; lia).
  destruct (slab_get_walk_spec m ss fuel _ Hrep Hfuel)
    as [[E Hf]|(ss1 & s & x & l & ss2 & Hss & Hf & Hn1 & Hs & E)]; rewrite E; simpl rbind.
  - apply free_nodes_nil in Hf. rewrite Hhd, Hsz, Htot.
    pose proof Hshape as Hsh. apply Forall_cons in Hsh as [[Hsh1 Hsh2] _]. subst sz n.
    destruct (slab_alloc_new_aux m live head (sl_size s0) (sl_total s0) Hinv Hh W0 W1 W2)
      as [Ea|(s & bytes & m1 & Ea & Ez & Et & Ef & Hs & Hd1 & Hd2 & Hfresh & Hb & Hi & Hag)];
      [exact Hfit| |]; rewrite Ea; simpl rbind.
    + left. split; [reflexivity|exact Hf].
    + right. pose proof Hs as ((V0 & V1 & V2 & V3 & _) & _).
      replace (sl_at s =? 0) with false by (symmetry; apply Z.eqb_neq; lia).
      pose proof (slabs_inv_push _ _ _ _ _ _ s bytes m1 Hall Ez Et Hs Hd1 Hd2 Hfresh Hb Hi Hag) as Hnew.
      destruct (all_nodes s) as [|x l] eqn:En.
      { exfalso. unfold all_nodes in En. apply fmap_nil_inv in En.
        destruct (Z.to_nat (sl_total s)) eqn:E0; [lia|discriminate]. }
      destruct (slabs_inv_take m1 _ head _ _ [] s x l ss Hnew Ef) as (m2 & Et2 & Hinv2).
      rewrite Et2. exists (x + 4), m2, (<[sl_at s := bytes]> live), (Slab (sl_at s) (sl_size s) (sl_total s) l :: ss).
      replace (x + 4 - 4) with x by lia.
      assert (Hx : is_node s x) by (apply all_nodes_spec; [apply Hs|rewrite En; set_solver]).
      pose proof (is_node_region s x (proj1 Hs) Hx).
      split; [reflexivity|]. split; [lia|]. split; [exact Hinv2|]. split.
      { rewrite free_nodes_cons, Hf, app_nil_r. simpl sl_free.
        pose proof (all_nodes_NoDup s V0) as HN. rewrite En in HN. apply NoDup_cons in HN as [HN _]. exact HN. }
      split; [eexists; split; [apply elem_of_cons; left; reflexivity|]; exact Hx|].
      right. split; [exact Hf|]. exists (Slab (sl_at s) (sl_size s) (sl_total s) l).
      split; [reflexivity|]. split; [exact Hfresh|].
      simpl sl_free. rewrite <- En. reflexivity.
  - right. clearbody ss. subst ss.
    destruct (slabs_inv_take m live head sz n ss1 s x l ss2 Hall Hf) as (m' & Et & Hinv').
    rewrite Et. eexists (x + 4), m', live, _. replace (x + 4 - 4) with x by lia.
    pose proof Hs as (Wf & _). pose proof Wf as (_ & _ & _ & Wa & _ & _ & W6 & W7).
    rewrite Hf in W6, W7. apply NoDup_cons in W6 as [W6 _]. apply Forall_cons in W7 as [W7 _].
    pose proof (is_node_region s x Wf W7).
    destruct (free_node_unique _ _ _ _ _ _ _ _ x Hall W7) as [U1 U2].
    split; [reflexivity|]. split; [lia|]. split; [exact Hinv'|]. split; [|split].
    + rewrite free_nodes_app, free_nodes_cons. simpl sl_free. set_solver.
    + eexists. split; [apply elem_of_app; right; apply elem_of_cons; left; reflexivity|]. exact W7.
    + left. split; [reflexivity|]. rewrite !free_nodes_app.
      rewrite !free_nodes_cons, Hf. simpl sl_free. simpl app.
      symmetry. apply Permutation_middle.
Qed.

(** [slab_alloc_new] builds a slab whose free list visits every node once, in
    address order, links it in front of the list, and touches nothing else; or
    it returns NULL, with the memory untouched, when the kernel allocator does. *)
Theorem slab_alloc_new_fresh m live head sz n :
  ka_inv m live -> ~ ka_arena head -> 0 <= sz -> sz mod 4 = 0 -> 0 < n ->
  20 + (4 + sz) * n <= 4294967292 ->
  slab_alloc_new kmalloc m head sz n = Ok (0, m) \/
  exists s bytes m', slab_alloc_new kmalloc m head sz n = Ok (sl_at s, m') /\
    sl_size s = sz /\ sl_total s = n /\ sl_free s = all_nodes s /\ slab_rep m' s /\
    ld m' head = sl_at s /\ ld m' (sl_at s + slab_next) = ld m head /\
    live !! sl_at s = None /\ slab_bytes s <= bytes /\ ka_inv m' (<[sl_at s := bytes]> live) /\
    (forall x, in_live live x \/ ~ ka_arena x -> x <> head -> ld m' x = ld m x).
Proof. apply slab_alloc_new_aux. Qed.

Lemma full_slabs_app l1 l2 : full_slabs (l1 ++ l2) = full_slabs l1 + full_slabs l2.
Proof. unfold full_slabs. rewrite List.filter_app, length_app. lia. Qed.

Lemma slabs_inv_push_node m live head sz n ss1 s ss2 x :
  slabs_inv m live head sz n (ss1 ++ s :: ss2) -> is_node s x -> x ∉ sl_free s ->
  slabs_inv (push_node m (sl_at s) x) live head sz n (ss1 ++ pushed x s :: ss2).
Proof.
  intros Hall Hx Hn. pose proof Hall as (_ & _ & _ & Hrep & _).
  assert (Hs : slab_rep m s) by (apply slabs_rep_app in Hrep as (b & (_ & Hs & _) & _); exact Hs).
  destruct (push_node_spec m s x Hs Hx Hn) as [Hs' Hag]. eapply slabs_inv_update; eauto.
Qed.

(** An object is in the block of no other slab. *)
Lemma object_elsewhere m live head sz n ss1 s ss2 x :
  slabs_inv m live head sz n (ss1 ++ s :: ss2) -> is_node s x -> 0 < sl_size s ->
  forall t, t ∈ ss1 -> ~ slab_region t (x + 4).
Proof.
  intros (Hinv & _ & _ & Hrep & Hnd & Hlive & _) Hx Hsz t Ht Hreg. rewrite Forall_forall in Hlive.
  assert (Hwf : slab_wf s) by (apply slabs_rep_app in Hrep as (c & (_ & Hs & _) & _); apply Hs).
  pose proof (is_node_region s x Hwf Hx).
  apply (slab_live_disjoint m live s t (x + 4)); auto; try (apply Hlive; set_solver); [|unfold slab_region; lia].
  rewrite fmap_app, fmap_cons in Hnd. apply NoDup_app in Hnd as (_ & Hd & _). intros Heq.
  apply (Hd (sl_at s)); [rewrite Heq; apply list_elem_of_fmap_2; exact Ht|set_solver].
Qed.

(** [slab_free] puts the node of an object that was handed out back on the free
    list of its slab. If two or more slabs are then fully free, the last of them
    leaves the list and goes back to the kernel heap, and one at least stays; if not,
    nothing is released. The invariant is preserved and every other object is left
    alone. *)
Theorem slab_free_object m live head sz n ss s x fuel :
  slabs_inv m live head sz n ss -> s ∈ ss -> is_node s x -> x ∉ sl_free s -> 0 < sz -> (length ss < fuel)%nat ->
  exists m' live' ss', slab_free kfree fuel m head (x + 4) = Ok m' /\ slabs_inv m' live' head sz n ss' /\
    ((live' = live /\ full_slabs ss' <= 1 /\ free_nodes ss' ≡ₚ x :: free_nodes ss) \/
     (exists f, full f = true /\ live' = delete (sl_at f) live /\ 1 <= full_slabs ss' /\
        x :: free_nodes ss ≡ₚ sl_free f ++ free_nodes ss')).
Proof.
  intros Hall Hin Hx Hn Hsz Hfuel. apply list_elem_of_split in Hin as (ss1 & ss2 & ->).
  pose proof (slabs_inv_push_node _ _ _ _ _ _ _ _ x Hall Hx Hn) as Hall1.
  set (m1 := push_node m (sl_at s) x) in *. set (ss3 := ss1 ++ pushed x s :: ss2) in *.
  assert (Hperm : free_nodes ss3 ≡ₚ x :: free_nodes (ss1 ++ s :: ss2)).
  { subst ss3. rewrite !free_nodes_app, !free_nodes_cons. cbn [pushed sl_free app]. symmetry. apply Permutation_middle. }
  pose proof Hall as (Hinv & _ & _ & Hrep & Hnd & Hlive & Hshape).
  assert (Hsize : sl_size s = sz) by (rewrite Forall_forall in Hshape; apply Hshape; set_solver).
  unfold slab_free. rewrite (slab_free_walk_find m head s ss2 x fuel Hx ltac:(lia) ss1 fuel (ld m head) Hrep).
  2: { rewrite length_app in Hfuel. simpl in Hfuel. lia. }
  2: { apply (object_elsewhere m live head sz n ss1 s ss2 x Hall Hx). lia. }
  cbv zeta. fold m1. pose proof Hall1 as (_ & _ & _ & Hrep1 & _).
  rewrite (slab_scan_free_spec m1 ss3 fuel _ 0 0 0 0 Hrep1).
  2: { subst ss3. rewrite length_app in *. simpl in *. exact Hfuel. }
  cbn [rbind]. rewrite Z.add_0_l. destruct (Z.leb_spec 2 (full_slabs ss3)) as [H2|H2].
  - destruct (last_full ss3) as [[[l f] b]|] eqn:El; [|apply last_full_none in El; lia].
    destruct (last_full_app _ _ _ _ El) as [E3 Hf]. destruct (last_full_some _ _ _ _ El) as [Hc _].
    destruct (exists_last (l := l)) as (l0 & p & ->); [intros ->; unfold full_slabs in Hc at 2; simpl in Hc; lia|].
    rewrite E3, <- app_assoc in Hall1. rewrite fmap_app. change (sl_at <$> [p]) with [sl_at p]. rewrite last_snoc. cbn [default].
    destruct (slabs_inv_drop m1 live head sz n l0 p f b Hall1) as (m2 & E2 & Hinv2). cbn. rewrite E2.
    exists m2, (delete (sl_at f) live), (l0 ++ p :: b). split; [reflexivity|]. split; [exact Hinv2|]. right.
    exists f. split; [exact Hf|]. split; [reflexivity|].
    assert (Hc2 : full_slabs (l0 ++ p :: b) = full_slabs (l0 ++ [p]) + full_slabs b)
      by (rewrite <- full_slabs_app, <- app_assoc; reflexivity).
    split; [rewrite Hc2; assert (0 <= full_slabs b) by (unfold full_slabs; lia); lia|].
    rewrite <- Hperm, E3, !free_nodes_app, !free_nodes_cons. cbn [free_nodes mbind list_bind]. rewrite app_nil_r, <- !app_assoc.
    rewrite (Permutation_app_swap_app (sl_free p) (sl_free f)). apply Permutation_app_swap_app.
  - exists m1, live, ss3. split; [destruct (last_full ss3) as [[[? ?] ?]|]; reflexivity|]. split; [exact Hall1|]. left. split; [reflexivity|]. split; [lia|exact Hperm].
Qed.

End SlabClient.

(** ** Slabs on a concrete kernel heap *)

Module SlabWitness.

Definition start : Z := 4096.
Definition end_ : Z := 4224.
Definition m0 : mem := kheap_init start end_ ∅.

(** The head pointer of the list, outside the heap. *)
Definition head : Z := 100.

Lemma slab_inv0 : @ka_inv _ _ (kmem_allocator start end_) m0 ∅.
Proof.
  exists [Blk 124 false]. split.
  - repeat split; try discriminate; vm_compute; reflexivity.
  - intros p s. split; intros H.
    + rewrite lookup_empty in H. discriminate.
    + apply elem_of_nil in H. destruct H.
Defined.

Lemma head_outside : ~ @ka_arena _ _ (kmem_allocator start end_) head.
Proof. intros [H _]. vm_compute in H. apply H. reflexivity. Defined.

(** The memory after the first slab of three 8-byte objects. *)
Definition m1 : mem :=
  match slab_alloc_new (kmalloc start end_) m0 head 8 3 with Ok (_, m) => m | _ => ∅ end.

Lemma slab_inv1 : exists live,
  @slabs_inv _ _ (kmem_allocator start end_) m1 live head 8 3 [Slab 4100 8 3 [4120; 4132; 4144]].
Proof.
  destruct (@slabs_inv_first _ _ (kmem_allocator start end_) m0 ∅ head 8 3 4100 m1 slab_inv0 head_outside)
    as (live & [a z t l] & Hinv & Ha & Hl); try discriminate; try lia; try (vm_compute; reflexivity).
  exists live. pose proof Hinv as (_ & _ & _ & _ & _ & _ & Hshape).
  apply Forall_singleton in Hshape as [Hz Ht]. simpl in Ha, Hz, Ht. subst a z t.
  vm_compute in Hl. subst l. exact Hinv.
Defined.

(** The memory after an object of it has been handed out. *)
Definition m4 : mem := snd (slab_take m1 4100).

Lemma slab_inv4 : exists live,
  @slabs_inv _ _ (kmem_allocator start end_) m4 live head 8 3 [Slab 4100 8 3 [4132; 4144]].
Proof.
  destruct slab_inv1 as (live & Hinv). exists live.
  destruct (@slabs_inv_take _ _ (kmem_allocator start end_) m1 live head 8 3 [] _ 4120 [4132; 4144] [] Hinv eq_refl)
    as (m & E & H). unfold m4. simpl sl_at in E. rewrite E. exact H.
Defined.

End SlabWitness.

Lemma slab_alloc_new_fresh_witness :
  slab_alloc_new (kmalloc 4096 4224) SlabWitness.m0 100 8 3 = Ok (0, SlabWitness.m0) \/
  exists s bytes m', slab_alloc_new (kmalloc 4096 4224) SlabWitness.m0 100 8 3 = Ok (sl_at s, m') /\
    sl_size s = 8 /\ sl_total s = 3 /\ sl_free s = all_nodes s /\ slab_rep m' s /\
    ld m' 100 = sl_at s /\ ld m' (sl_at s + slab_next) = ld SlabWitness.m0 100 /\
    (∅ : gmap Z Z) !! sl_at s = None /\ slab_bytes s <= bytes /\
    @ka_inv _ _ (kmem_allocator 4096 4224) m' (<[sl_at s := bytes]> ∅) /\
    (forall x, in_live ∅ x \/ ~ @ka_arena _ _ (kmem_allocator 4096 4224) x -> x <> 100 ->
       ld m' x = ld SlabWitness.m0 x).
Proof.
  apply (@slab_alloc_new_fresh _ _ (kmem_allocator 4096 4224) SlabWitness.m0 ∅ 100 8 3
           SlabWitness.slab_inv0 SlabWitness.head_outside); try lia; reflexivity.
Defined.

Lemma slab_get_object_witness : exists live ss,
  (slab_get (kmalloc 4096 4224) 2 SlabWitness.m1 100 = Ok (0, SlabWitness.m1) /\ free_nodes ss = []) \/
  exists p m' live' ss', slab_get (kmalloc 4096 4224) 2 SlabWitness.m1 100 = Ok (p, m') /\ p <> 0 /\
    @slabs_inv _ _ (kmem_allocator 4096 4224) m' live' 100 8 3 ss' /\ (p - 4) ∉ free_nodes ss' /\
    (exists s, s ∈ ss' /\ is_node s (p - 4)) /\
    ((live' = live /\ free_nodes ss ≡ₚ (p - 4) :: free_nodes ss') \/
     (free_nodes ss = [] /\ exists s, ss' = s :: ss /\ live !! sl_at s = None /\
        (p - 4) :: sl_free s = all_nodes s)).
Proof.
  destruct SlabWitness.slab_inv1 as (live & Hinv). exists live, [Slab 4100 8 3 [4120; 4132; 4144]].
  apply (@slab_get_object _ _ (kmem_allocator 4096 4224) SlabWitness.m1 live 100 8 3 _ 2 Hinv);
    [discriminate|simpl; lia|lia].
Defined.

(** Giving the object back. *)
Lemma slab_free_object_witness : exists live m' live' ss',
  slab_free (kfree 4096 4224) 2 SlabWitness.m4 100 4124 = Ok m' /\
  @slabs_inv _ _ (kmem_allocator 4096 4224) m' live' 100 8 3 ss' /\
  ((live' = live /\ full_slabs ss' <= 1 /\ free_nodes ss' ≡ₚ [4120; 4132; 4144]) \/
   (exists f, full f = true /\ live' = delete (sl_at f) live /\ 1 <= full_slabs ss' /\
      [4120; 4132; 4144] ≡ₚ sl_free f ++ free_nodes ss')).
Proof.
  destruct SlabWitness.slab_inv4 as (live & Hinv). exists live.
  apply (@slab_free_object _ _ (kmem_allocator 4096 4224) SlabWitness.m4 live 100 8 3 _
    (Slab 4100 8 3 [4132; 4144]) 4120 2 Hinv); [set_solver| | |lia|simpl; lia].
  - exists 0. split; [simpl; lia|reflexivity].
  - simpl. intros H. repeat (apply elem_of_cons in H as [H|H]; [discriminate|]). apply elem_of_nil in H. exact H.
Defined.
