(* ===== verification/KWorld.v ===== *)
(** * The kernel's shared state

    The structures of include/ that the file system and the I/O scheduler share,
    the world that holds them, and the state-and-error monad the handlers run in.

    Every structure lives at the address its code uses for it. The objects are
    kept in one map per structure type, keyed by address; the kernel heap itself
    is the word memory of [Mem], in which [kmalloc] and [kfree] write headers
    only. [kfree] therefore leaves the contents of an object in place, exactly as
    kernel/memory/kmem.c does, and what is freed is recorded in the trace. Byte
    buffers (the sector buffer of the SPI peripheral, the buffers of the read
    calls, the ELF headers) live in a byte memory. Function pointers are the
    constructors of [callback]; [other_cb] stands for the ones the system calls
    written in assembly pass in. *)

From S2P Require Import Prelude Mem.

(** ** Structures *)

(** Functions whose address the code stores. *)
(* include/types.h:18-18 op_complete_cb *)
Inductive callback : Type :=
| cb_null
| cb_fs_open_step
| cb_fs_seek_step
| cb_fs_read_step
| cb_elf_step
| other_cb (id : Z).

#[export] Instance callback_eq_dec : EqDecision callback.
Proof. solve_decision. Defined.

(* include/io/io_sheduler.h:9-14 io_sched_req_t *)
Record io_sched_req_t : Type := IoReq {
  rq_lba : Z;
  rq_callback : callback;
  rq_ctx : Z;
  rq_next : Z;
}.

Definition set_rq_lba (v : Z) (r : io_sched_req_t) : io_sched_req_t :=
  IoReq v (rq_callback r) (rq_ctx r) (rq_next r).
Definition set_rq_callback (v : callback) (r : io_sched_req_t) : io_sched_req_t :=
  IoReq (rq_lba r) v (rq_ctx r) (rq_next r).
Definition set_rq_ctx (v : Z) (r : io_sched_req_t) : io_sched_req_t :=
  IoReq (rq_lba r) (rq_callback r) v (rq_next r).
Definition set_rq_next (v : Z) (r : io_sched_req_t) : io_sched_req_t :=
  IoReq (rq_lba r) (rq_callback r) (rq_ctx r) v.

(* include/io/io_sheduler.h:16-19 sched_state_t *)
Inductive sched_state_t : Type := SCHED_IDLE | SCHED_BUSY.

#[export] Instance sched_state_eq_dec : EqDecision sched_state_t.
Proof. solve_decision. Defined.

(* include/io/io_sheduler.h:21-26 io_scheduler_t *)
Record io_scheduler_t : Type := IoSched {
  queue_head : Z;
  queue_tail : Z;
  in_flight : Z;
  sstate : sched_state_t;
}.

Definition set_queue_head (v : Z) (r : io_scheduler_t) : io_scheduler_t :=
  IoSched v (queue_tail r) (in_flight r) (sstate r).
Definition set_queue_tail (v : Z) (r : io_scheduler_t) : io_scheduler_t :=
  IoSched (queue_head r) v (in_flight r) (sstate r).
Definition set_in_flight (v : Z) (r : io_scheduler_t) : io_scheduler_t :=
  IoSched (queue_head r) (queue_tail r) v (sstate r).
Definition set_sstate (v : sched_state_t) (r : io_scheduler_t) : io_scheduler_t :=
  IoSched (queue_head r) (queue_tail r) (in_flight r) v.

(* include/io/io_sd_ring.h:3-3 IRQ_RING_SIZE *)
Definition IRQ_RING_SIZE : Z := 8.

(* include/io/io_sd_ring.h:5-9 irq_completion_ring_t *)
Record irq_completion_ring_t : Type := Ring {
  head : Z;
  tail : Z;
  status : list Z;
}.

Definition set_head (v : Z) (r : irq_completion_ring_t) : irq_completion_ring_t :=
  Ring v (tail r) (status r).
Definition set_tail (v : Z) (r : irq_completion_ring_t) : irq_completion_ring_t :=
  Ring (head r) v (status r).
Definition set_status (v : list Z) (r : irq_completion_ring_t) : irq_completion_ring_t :=
  Ring (head r) (tail r) v.

(* include/io/sd_state.h:1-6 SD_STATE_T *)
Inductive SD_STATE_T : Type := SD_STATE_IDLE | SD_STATE_WAIT_READ | SD_STATE_WAIT_WRITE | SD_STATE_ERROR.

(* include/fs_running_info.h:2-8 FS_RUN_INFO *)
Record FS_RUN_INFO : Type := FsRunInfo {
  FAT_BEGIN_LBA : Z;
  FAT_SECTOR_COUNT : Z;
  CLUSTER_BEGIN_LBA : Z;
  ROOT_DIR_FIRST_CLUSTER : Z;
  SECTORS_PER_CLUSTER : Z;
}.

Definition set_FAT_BEGIN_LBA (v : Z) (r : FS_RUN_INFO) : FS_RUN_INFO :=
  FsRunInfo v (FAT_SECTOR_COUNT r) (CLUSTER_BEGIN_LBA r) (ROOT_DIR_FIRST_CLUSTER r) (SECTORS_PER_CLUSTER r).
Definition set_FAT_SECTOR_COUNT (v : Z) (r : FS_RUN_INFO) : FS_RUN_INFO :=
  FsRunInfo (FAT_BEGIN_LBA r) v (CLUSTER_BEGIN_LBA r) (ROOT_DIR_FIRST_CLUSTER r) (SECTORS_PER_CLUSTER r).
Definition set_CLUSTER_BEGIN_LBA (v : Z) (r : FS_RUN_INFO) : FS_RUN_INFO :=
  FsRunInfo (FAT_BEGIN_LBA r) (FAT_SECTOR_COUNT r) v (ROOT_DIR_FIRST_CLUSTER r) (SECTORS_PER_CLUSTER r).
Definition set_ROOT_DIR_FIRST_CLUSTER (v : Z) (r : FS_RUN_INFO) : FS_RUN_INFO :=
  FsRunInfo (FAT_BEGIN_LBA r) (FAT_SECTOR_COUNT r) (CLUSTER_BEGIN_LBA r) v (SECTORS_PER_CLUSTER r).
Definition set_SECTORS_PER_CLUSTER (v : Z) (r : FS_RUN_INFO) : FS_RUN_INFO :=
  FsRunInfo (FAT_BEGIN_LBA r) (FAT_SECTOR_COUNT r) (CLUSTER_BEGIN_LBA r) (ROOT_DIR_FIRST_CLUSTER r) v.

(* include/file.h:2-11 FILE *)
Record FILE : Type := File {
  f_fd : Z;
  f_first_cluster : Z;
  f_current_cluster : Z;
  f_current_sector : Z;
  f_current_byte : Z;
  f_file_offset : Z;
  f_file_size : Z;
  f_owner_pid : Z;
}.

Definition set_f_fd (v : Z) (r : FILE) : FILE :=
  File v (f_first_cluster r) (f_current_cluster r) (f_current_sector r) (f_current_byte r) (f_file_offset r) (f_file_size r) (f_owner_pid r).
Definition set_f_first_cluster (v : Z) (r : FILE) : FILE :=
  File (f_fd r) v (f_current_cluster r) (f_current_sector r) (f_current_byte r) (f_file_offset r) (f_file_size r) (f_owner_pid r).
Definition set_f_current_cluster (v : Z) (r : FILE) : FILE :=
  File (f_fd r) (f_first_cluster r) v (f_current_sector r) (f_current_byte r) (f_file_offset r) (f_file_size r) (f_owner_pid r).
Definition set_f_current_sector (v : Z) (r : FILE) : FILE :=
  File (f_fd r) (f_first_cluster r) (f_current_cluster r) v (f_current_byte r) (f_file_offset r) (f_file_size r) (f_owner_pid r).
Definition set_f_current_byte (v : Z) (r : FILE) : FILE :=
  File (f_fd r) (f_first_cluster r) (f_current_cluster r) (f_current_sector r) v (f_file_offset r) (f_file_size r) (f_owner_pid r).
Definition set_f_file_offset (v : Z) (r : FILE) : FILE :=
  File (f_fd r) (f_first_cluster r) (f_current_cluster r) (f_current_sector r) (f_current_byte r) v (f_file_size r) (f_owner_pid r).
Definition set_f_file_size (v : Z) (r : FILE) : FILE :=
  File (f_fd r) (f_first_cluster r) (f_current_cluster r) (f_current_sector r) (f_current_byte r) (f_file_offset r) v (f_owner_pid r).
Definition set_f_owner_pid (v : Z) (r : FILE) : FILE :=
  File (f_fd r) (f_first_cluster r) (f_current_cluster r) (f_current_sector r) (f_current_byte r) (f_file_offset r) (f_file_size r) v.

(* include/io/fs/fs_open.h:6-12 fs_open_state_t *)
Inductive fs_open_state_t : Type :=
  FSOPEN_PARSE_DIR_SECTOR | FSOPEN_PROCESS_FAT | FSOPEN_DONE | FSOPEN_NOT_FOUND | FSOPEN_ERROR.

(** The walker's path is a pointer to a string in the byte memory. *)
(* include/io/fs/fs_open.h:15-20 path_walker_t *)
Record path_walker_t : Type := PathWalker {
  pw_full_path : Z;
  pw_offset : Z;
  pw_component : list Z;
  pw_component_83 : list Z;
}.

Definition set_pw_full_path (v : Z) (r : path_walker_t) : path_walker_t :=
  PathWalker v (pw_offset r) (pw_component r) (pw_component_83 r).
Definition set_pw_offset (v : Z) (r : path_walker_t) : path_walker_t :=
  PathWalker (pw_full_path r) v (pw_component r) (pw_component_83 r).
Definition set_pw_component (v : list Z) (r : path_walker_t) : path_walker_t :=
  PathWalker (pw_full_path r) (pw_offset r) v (pw_component_83 r).
Definition set_pw_component_83 (v : list Z) (r : path_walker_t) : path_walker_t :=
  PathWalker (pw_full_path r) (pw_offset r) (pw_component r) v.

(* include/io/fs/fs_open.h:22-33 fs_open_ctx_t *)
Record fs_open_ctx_t : Type := FsOpenCtx {
  oc_state : fs_open_state_t;
  oc_walker : path_walker_t;
  oc_current_cluster : Z;
  oc_current_lba : Z;
  oc_sector_in_cluster : Z;
  oc_out_file : Z;
  oc_parent_cluster_storage : Z;
  oc_proc_id : Z;
  oc_on_complete : callback;
  oc_caller_ctx : Z;
}.

Definition set_oc_state (v : fs_open_state_t) (r : fs_open_ctx_t) : fs_open_ctx_t :=
  FsOpenCtx v (oc_walker r) (oc_current_cluster r) (oc_current_lba r) (oc_sector_in_cluster r) (oc_out_file r) (oc_parent_cluster_storage r) (oc_proc_id r) (oc_on_complete r) (oc_caller_ctx r).
Definition set_oc_walker (v : path_walker_t) (r : fs_open_ctx_t) : fs_open_ctx_t :=
  FsOpenCtx (oc_state r) v (oc_current_cluster r) (oc_current_lba r) (oc_sector_in_cluster r) (oc_out_file r) (oc_parent_cluster_storage r) (oc_proc_id r) (oc_on_complete r) (oc_caller_ctx r).
Definition set_oc_current_cluster (v : Z) (r : fs_open_ctx_t) : fs_open_ctx_t :=
  FsOpenCtx (oc_state r) (oc_walker r) v (oc_current_lba r) (oc_sector_in_cluster r) (oc_out_file r) (oc_parent_cluster_storage r) (oc_proc_id r) (oc_on_complete r) (oc_caller_ctx r).
Definition set_oc_current_lba (v : Z) (r : fs_open_ctx_t) : fs_open_ctx_t :=
  FsOpenCtx (oc_state r) (oc_walker r) (oc_current_cluster r) v (oc_sector_in_cluster r) (oc_out_file r) (oc_parent_cluster_storage r) (oc_proc_id r) (oc_on_complete r) (oc_caller_ctx r).
Definition set_oc_sector_in_cluster (v : Z) (r : fs_open_ctx_t) : fs_open_ctx_t :=
  FsOpenCtx (oc_state r) (oc_walker r) (oc_current_cluster r) (oc_current_lba r) v (oc_out_file r) (oc_parent_cluster_storage r) (oc_proc_id r) (oc_on_complete r) (oc_caller_ctx r).
Definition set_oc_out_file (v : Z) (r : fs_open_ctx_t) : fs_open_ctx_t :=
  FsOpenCtx (oc_state r) (oc_walker r) (oc_current_cluster r) (oc_current_lba r) (oc_sector_in_cluster r) v (oc_parent_cluster_storage r) (oc_proc_id r) (oc_on_complete r) (oc_caller_ctx r).
Definition set_oc_parent_cluster_storage (v : Z) (r : fs_open_ctx_t) : fs_open_ctx_t :=
  FsOpenCtx (oc_state r) (oc_walker r) (oc_current_cluster r) (oc_current_lba r) (oc_sector_in_cluster r) (oc_out_file r) v (oc_proc_id r) (oc_on_complete r) (oc_caller_ctx r).
Definition set_oc_proc_id (v : Z) (r : fs_open_ctx_t) : fs_open_ctx_t :=
  FsOpenCtx (oc_state r) (oc_walker r) (oc_current_cluster r) (oc_current_lba r) (oc_sector_in_cluster r) (oc_out_file r) (oc_parent_cluster_storage r) v (oc_on_complete r) (oc_caller_ctx r).
Definition set_oc_on_complete (v : callback) (r : fs_open_ctx_t) : fs_open_ctx_t :=
  FsOpenCtx (oc_state r) (oc_walker r) (oc_current_cluster r) (oc_current_lba r) (oc_sector_in_cluster r) (oc_out_file r) (oc_parent_cluster_storage r) (oc_proc_id r) v (oc_caller_ctx r).
Definition set_oc_caller_ctx (v : Z) (r : fs_open_ctx_t) : fs_open_ctx_t :=
  FsOpenCtx (oc_state r) (oc_walker r) (oc_current_cluster r) (oc_current_lba r) (oc_sector_in_cluster r) (oc_out_file r) (oc_parent_cluster_storage r) (oc_proc_id r) (oc_on_complete r) v.

(* include/io/fs/fs_seek.h:6-10 fs_seek_state_t *)
Inductive fs_seek_state_t : Type := FS_SEEK_WALK_FAT | FS_SEEK_DONE | FS_SEEK_ERROR.

(* include/io/fs/fs_seek.h:12-16 seek_position_t *)
Record seek_position_t : Type := SeekPos {
  sp_cluster_index : Z;
  sp_sector_in_cluster : Z;
  sp_byte_in_sector : Z;
}.

Definition set_sp_cluster_index (v : Z) (r : seek_position_t) : seek_position_t :=
  SeekPos v (sp_sector_in_cluster r) (sp_byte_in_sector r).
Definition set_sp_sector_in_cluster (v : Z) (r : seek_position_t) : seek_position_t :=
  SeekPos (sp_cluster_index r) v (sp_byte_in_sector r).
Definition set_sp_byte_in_sector (v : Z) (r : seek_position_t) : seek_position_t :=
  SeekPos (sp_cluster_index r) (sp_sector_in_cluster r) v.

(* include/io/fs/fs_seek.h:18-27 fs_seek_ctx_t *)
Record fs_seek_ctx_t : Type := FsSeekCtx {
  sc_state : fs_seek_state_t;
  sc_file : Z;
  sc_current_cluster : Z;
  sc_clusters_remaining : Z;
  sc_target : seek_position_t;
  sc_target_offset : Z;
  sc_on_complete : callback;
  sc_caller_ctx : Z;
}.

Definition set_sc_state (v : fs_seek_state_t) (r : fs_seek_ctx_t) : fs_seek_ctx_t :=
  FsSeekCtx v (sc_file r) (sc_current_cluster r) (sc_clusters_remaining r) (sc_target r) (sc_target_offset r) (sc_on_complete r) (sc_caller_ctx r).
Definition set_sc_file (v : Z) (r : fs_seek_ctx_t) : fs_seek_ctx_t :=
  FsSeekCtx (sc_state r) v (sc_current_cluster r) (sc_clusters_remaining r) (sc_target r) (sc_target_offset r) (sc_on_complete r) (sc_caller_ctx r).
Definition set_sc_current_cluster (v : Z) (r : fs_seek_ctx_t) : fs_seek_ctx_t :=
  FsSeekCtx (sc_state r) (sc_file r) v (sc_clusters_remaining r) (sc_target r) (sc_target_offset r) (sc_on_complete r) (sc_caller_ctx r).
Definition set_sc_clusters_remaining (v : Z) (r : fs_seek_ctx_t) : fs_seek_ctx_t :=
  FsSeekCtx (sc_state r) (sc_file r) (sc_current_cluster r) v (sc_target r) (sc_target_offset r) (sc_on_complete r) (sc_caller_ctx r).
Definition set_sc_target (v : seek_position_t) (r : fs_seek_ctx_t) : fs_seek_ctx_t :=
  FsSeekCtx (sc_state r) (sc_file r) (sc_current_cluster r) (sc_clusters_remaining r) v (sc_target_offset r) (sc_on_complete r) (sc_caller_ctx r).
Definition set_sc_target_offset (v : Z) (r : fs_seek_ctx_t) : fs_seek_ctx_t :=
  FsSeekCtx (sc_state r) (sc_file r) (sc_current_cluster r) (sc_clusters_remaining r) (sc_target r) v (sc_on_complete r) (sc_caller_ctx r).
Definition set_sc_on_complete (v : callback) (r : fs_seek_ctx_t) : fs_seek_ctx_t :=
  FsSeekCtx (sc_state r) (sc_file r) (sc_current_cluster r) (sc_clusters_remaining r) (sc_target r) (sc_target_offset r) v (sc_caller_ctx r).
Definition set_sc_caller_ctx (v : Z) (r : fs_seek_ctx_t) : fs_seek_ctx_t :=
  FsSeekCtx (sc_state r) (sc_file r) (sc_current_cluster r) (sc_clusters_remaining r) (sc_target r) (sc_target_offset r) (sc_on_complete r) v.

(* include/io/fs/fs_read.h:5-11 fs_read_state_t *)
Inductive fs_read_state_t : Type :=
  FSREAD_LOAD_CONTENTS | FSREAD_COPY_CONTENTS | FS_SEEK_READ | FSREAD_DONE | FSREAD_ERROR.

(* include/io/fs/fs_read.h:13-20 fs_read_ctx_t *)
Record fs_read_ctx_t : Type := FsReadCtx {
  rc_file : Z;
  rc_buffer : Z;
  rc_state : fs_read_state_t;
  rc_bytes_remaining : Z;
  rc_callback : callback;
  rc_ctx : Z;
}.

Definition set_rc_file (v : Z) (r : fs_read_ctx_t) : fs_read_ctx_t :=
  FsReadCtx v (rc_buffer r) (rc_state r) (rc_bytes_remaining r) (rc_callback r) (rc_ctx r).
Definition set_rc_buffer (v : Z) (r : fs_read_ctx_t) : fs_read_ctx_t :=
  FsReadCtx (rc_file r) v (rc_state r) (rc_bytes_remaining r) (rc_callback r) (rc_ctx r).
Definition set_rc_state (v : fs_read_state_t) (r : fs_read_ctx_t) : fs_read_ctx_t :=
  FsReadCtx (rc_file r) (rc_buffer r) v (rc_bytes_remaining r) (rc_callback r) (rc_ctx r).
Definition set_rc_bytes_remaining (v : Z) (r : fs_read_ctx_t) : fs_read_ctx_t :=
  FsReadCtx (rc_file r) (rc_buffer r) (rc_state r) v (rc_callback r) (rc_ctx r).
Definition set_rc_callback (v : callback) (r : fs_read_ctx_t) : fs_read_ctx_t :=
  FsReadCtx (rc_file r) (rc_buffer r) (rc_state r) (rc_bytes_remaining r) v (rc_ctx r).
Definition set_rc_ctx (v : Z) (r : fs_read_ctx_t) : fs_read_ctx_t :=
  FsReadCtx (rc_file r) (rc_buffer r) (rc_state r) (rc_bytes_remaining r) (rc_callback r) v.

(* kernel/fs/fs_elf.c:14-24 elf_state_t *)
Inductive elf_state_t : Type :=
  ELF_OPENING | ELF_READING_HEADER | ELF_LOAD_PHEADER | ELF_READ_PHEADER | ELF_SEEK_PCONTENT
| ELF_LOAD_PCONTENT | ELF_CLOSING | ELF_DONE | ELF_ERROR.

#[export] Instance elf_state_eq_dec : EqDecision elf_state_t.
Proof. solve_decision. Defined.

(** The [parent_dir_cluster] word of the image is written through a pointer by
    the open call, so it lives in the byte memory, at [elf_parent_addr]. *)
(* kernel/fs/fs_elf.c:26-33 process_image_t *)
Record process_image_t : Type := ProcessImage {
  pi_ptext_memory_region : Z;
  pi_pdata_memory_region : Z;
  pi_pdata_start : Z;
  pi_heap_start : Z;
  pi_mepc : Z;
}.

Definition set_pi_ptext_memory_region (v : Z) (r : process_image_t) : process_image_t :=
  ProcessImage v (pi_pdata_memory_region r) (pi_pdata_start r) (pi_heap_start r) (pi_mepc r).
Definition set_pi_pdata_memory_region (v : Z) (r : process_image_t) : process_image_t :=
  ProcessImage (pi_ptext_memory_region r) v (pi_pdata_start r) (pi_heap_start r) (pi_mepc r).
Definition set_pi_pdata_start (v : Z) (r : process_image_t) : process_image_t :=
  ProcessImage (pi_ptext_memory_region r) (pi_pdata_memory_region r) v (pi_heap_start r) (pi_mepc r).
Definition set_pi_heap_start (v : Z) (r : process_image_t) : process_image_t :=
  ProcessImage (pi_ptext_memory_region r) (pi_pdata_memory_region r) (pi_pdata_start r) v (pi_mepc r).
Definition set_pi_mepc (v : Z) (r : process_image_t) : process_image_t :=
  ProcessImage (pi_ptext_memory_region r) (pi_pdata_memory_region r) (pi_pdata_start r) (pi_heap_start r) v.

(** The members [file], [header] and [pheader] are passed by address to the open
    and read calls: the file is in the map of files at [elf_file_addr], the two
    headers are bytes of the byte memory. *)
(* kernel/fs/fs_elf.c:35-45 elf_ctx_t *)
Record elf_ctx_t : Type := ElfCtx {
  ec_state : elf_state_t;
  ec_current_seg : Z;
  ec_tmp_image : process_image_t;
  ec_pcb : Z;
  ec_seg_buf : Z;
}.

Definition set_ec_state (v : elf_state_t) (r : elf_ctx_t) : elf_ctx_t :=
  ElfCtx v (ec_current_seg r) (ec_tmp_image r) (ec_pcb r) (ec_seg_buf r).
Definition set_ec_current_seg (v : Z) (r : elf_ctx_t) : elf_ctx_t :=
  ElfCtx (ec_state r) v (ec_tmp_image r) (ec_pcb r) (ec_seg_buf r).
Definition set_ec_tmp_image (v : process_image_t) (r : elf_ctx_t) : elf_ctx_t :=
  ElfCtx (ec_state r) (ec_current_seg r) v (ec_pcb r) (ec_seg_buf r).
Definition set_ec_pcb (v : Z) (r : elf_ctx_t) : elf_ctx_t :=
  ElfCtx (ec_state r) (ec_current_seg r) (ec_tmp_image r) v (ec_seg_buf r).
Definition set_ec_seg_buf (v : Z) (r : elf_ctx_t) : elf_ctx_t :=
  ElfCtx (ec_state r) (ec_current_seg r) (ec_tmp_image r) (ec_pcb r) v.

(* include/process.h:13-17 memory_region_t *)
Record memory_region_t : Type := Region {
  mr_physical_base : Z;
  mr_region_size : Z;
  mr_reference_count : Z;
}.

Definition set_mr_physical_base (v : Z) (r : memory_region_t) : memory_region_t :=
  Region v (mr_region_size r) (mr_reference_count r).
Definition set_mr_region_size (v : Z) (r : memory_region_t) : memory_region_t :=
  Region (mr_physical_base r) v (mr_reference_count r).
Definition set_mr_reference_count (v : Z) (r : memory_region_t) : memory_region_t :=
  Region (mr_physical_base r) (mr_region_size r) v.

(** The fields of a process the file system reads or writes. *)
(* include/process.h:19-46 pcb_t *)
Record pcb_t : Type := Pcb {
  pcb_tf_a0 : Z;
  pcb_mepc : Z;
  pcb_mscratch : Z;
  pcb_next : Z;
  pcb_brk : Z;
  pcb_ptext_memory_region : Z;
  pcb_pdata_memory_region : Z;
  pcb_parent_dir_cluster : Z;
  pcb_pdata_start : Z;
  pcb_heap_start : Z;
  pcb_pid : Z;
  pcb_pstatus : Z;
}.

Definition set_pcb_tf_a0 (v : Z) (r : pcb_t) : pcb_t :=
  Pcb v (pcb_mepc r) (pcb_mscratch r) (pcb_next r) (pcb_brk r) (pcb_ptext_memory_region r) (pcb_pdata_memory_region r) (pcb_parent_dir_cluster r) (pcb_pdata_start r) (pcb_heap_start r) (pcb_pid r) (pcb_pstatus r).
Definition set_pcb_mepc (v : Z) (r : pcb_t) : pcb_t :=
  Pcb (pcb_tf_a0 r) v (pcb_mscratch r) (pcb_next r) (pcb_brk r) (pcb_ptext_memory_region r) (pcb_pdata_memory_region r) (pcb_parent_dir_cluster r) (pcb_pdata_start r) (pcb_heap_start r) (pcb_pid r) (pcb_pstatus r).
Definition set_pcb_mscratch (v : Z) (r : pcb_t) : pcb_t :=
  Pcb (pcb_tf_a0 r) (pcb_mepc r) v (pcb_next r) (pcb_brk r) (pcb_ptext_memory_region r) (pcb_pdata_memory_region r) (pcb_parent_dir_cluster r) (pcb_pdata_start r) (pcb_heap_start r) (pcb_pid r) (pcb_pstatus r).
Definition set_pcb_next (v : Z) (r : pcb_t) : pcb_t :=
  Pcb (pcb_tf_a0 r) (pcb_mepc r) (pcb_mscratch r) v (pcb_brk r) (pcb_ptext_memory_region r) (pcb_pdata_memory_region r) (pcb_parent_dir_cluster r) (pcb_pdata_start r) (pcb_heap_start r) (pcb_pid r) (pcb_pstatus r).
Definition set_pcb_brk (v : Z) (r : pcb_t) : pcb_t :=
  Pcb (pcb_tf_a0 r) (pcb_mepc r) (pcb_mscratch r) (pcb_next r) v (pcb_ptext_memory_region r) (pcb_pdata_memory_region r) (pcb_parent_dir_cluster r) (pcb_pdata_start r) (pcb_heap_start r) (pcb_pid r) (pcb_pstatus r).
Definition set_pcb_ptext_memory_region (v : Z) (r : pcb_t) : pcb_t :=
  Pcb (pcb_tf_a0 r) (pcb_mepc r) (pcb_mscratch r) (pcb_next r) (pcb_brk r) v (pcb_pdata_memory_region r) (pcb_parent_dir_cluster r) (pcb_pdata_start r) (pcb_heap_start r) (pcb_pid r) (pcb_pstatus r).
Definition set_pcb_pdata_memory_region (v : Z) (r : pcb_t) : pcb_t :=
  Pcb (pcb_tf_a0 r) (pcb_mepc r) (pcb_mscratch r) (pcb_next r) (pcb_brk r) (pcb_ptext_memory_region r) v (pcb_parent_dir_cluster r) (pcb_pdata_start r) (pcb_heap_start r) (pcb_pid r) (pcb_pstatus r).
Definition set_pcb_parent_dir_cluster (v : Z) (r : pcb_t) : pcb_t :=
  Pcb (pcb_tf_a0 r) (pcb_mepc r) (pcb_mscratch r) (pcb_next r) (pcb_brk r) (pcb_ptext_memory_region r) (pcb_pdata_memory_region r) v (pcb_pdata_start r) (pcb_heap_start r) (pcb_pid r) (pcb_pstatus r).
Definition set_pcb_pdata_start (v : Z) (r : pcb_t) : pcb_t :=
  Pcb (pcb_tf_a0 r) (pcb_mepc r) (pcb_mscratch r) (pcb_next r) (pcb_brk r) (pcb_ptext_memory_region r) (pcb_pdata_memory_region r) (pcb_parent_dir_cluster r) v (pcb_heap_start r) (pcb_pid r) (pcb_pstatus r).
Definition set_pcb_heap_start (v : Z) (r : pcb_t) : pcb_t :=
  Pcb (pcb_tf_a0 r) (pcb_mepc r) (pcb_mscratch r) (pcb_next r) (pcb_brk r) (pcb_ptext_memory_region r) (pcb_pdata_memory_region r) (pcb_parent_dir_cluster r) (pcb_pdata_start r) v (pcb_pid r) (pcb_pstatus r).
Definition set_pcb_pid (v : Z) (r : pcb_t) : pcb_t :=
  Pcb (pcb_tf_a0 r) (pcb_mepc r) (pcb_mscratch r) (pcb_next r) (pcb_brk r) (pcb_ptext_memory_region r) (pcb_pdata_memory_region r) (pcb_parent_dir_cluster r) (pcb_pdata_start r) (pcb_heap_start r) v (pcb_pstatus r).
Definition set_pcb_pstatus (v : Z) (r : pcb_t) : pcb_t :=
  Pcb (pcb_tf_a0 r) (pcb_mepc r) (pcb_mscratch r) (pcb_next r) (pcb_brk r) (pcb_ptext_memory_region r) (pcb_pdata_memory_region r) (pcb_parent_dir_cluster r) (pcb_pdata_start r) (pcb_heap_start r) (pcb_pid r) v.

(* include/process.h:5-9 STATE_UNUSED *)
Definition STATE_UNUSED : Z := 0.
Definition STATE_READY : Z := 1.
Definition STATE_RUNNING : Z := 2.
Definition STATE_BLOCKED : Z := 3.
Definition STATE_ZOMBIE : Z := 4.

(** What a run does to the hardware and to the code outside these files. *)
Inductive event : Type :=
| EStartRead (lba : Z)             (** [sd_start_read]: command 17 sent to the card *)
| ETailRead                        (** [sd_tail_read]: the read transfer is closed *)
| ETailWrite
| EFree (p : Z)                    (** [kfree(p)] *)
| EUnblock (pcb : Z)               (** [unblock_process] *)
| ERelease (region : Z)            (** [release_memory_segment] *)
| ECall (id ctx status : Z).       (** a callback of the assembly code *)

(** ** The world *)

(** [w_card_r1] is the card's response to the next command; [w_trace] lists the
    events, the latest last. *)
Record world : Type := World {
  w_heap : mem;
  w_sched : io_scheduler_t;
  w_ring : irq_completion_ring_t;
  w_sd_state : SD_STATE_T;
  w_card_r1 : Z;
  w_info : FS_RUN_INFO;
  w_current_pcb : Z;
  w_reqs : gmap Z io_sched_req_t;
  w_files : gmap Z FILE;
  w_opens : gmap Z fs_open_ctx_t;
  w_seeks : gmap Z fs_seek_ctx_t;
  w_reads : gmap Z fs_read_ctx_t;
  w_elfs : gmap Z elf_ctx_t;
  w_regions : gmap Z memory_region_t;
  w_pcbs : gmap Z pcb_t;
  w_bytes : gmap Z Z;
  w_ubitmap : list Z;
  w_trace : list event;
}.

Definition set_w_heap (v : mem) (r : world) : world :=
  World v (w_sched r) (w_ring r) (w_sd_state r) (w_card_r1 r) (w_info r) (w_current_pcb r) (w_reqs r) (w_files r) (w_opens r) (w_seeks r) (w_reads r) (w_elfs r) (w_regions r) (w_pcbs r) (w_bytes r) (w_ubitmap r) (w_trace r).
Definition set_w_sched (v : io_scheduler_t) (r : world) : world :=
  World (w_heap r) v (w_ring r) (w_sd_state r) (w_card_r1 r) (w_info r) (w_current_pcb r) (w_reqs r) (w_files r) (w_opens r) (w_seeks r) (w_reads r) (w_elfs r) (w_regions r) (w_pcbs r) (w_bytes r) (w_ubitmap r) (w_trace r).
Definition set_w_ring (v : irq_completion_ring_t) (r : world) : world :=
  World (w_heap r) (w_sched r) v (w_sd_state r) (w_card_r1 r) (w_info r) (w_current_pcb r) (w_reqs r) (w_files r) (w_opens r) (w_seeks r) (w_reads r) (w_elfs r) (w_regions r) (w_pcbs r) (w_bytes r) (w_ubitmap r) (w_trace r).
Definition set_w_sd_state (v : SD_STATE_T) (r : world) : world :=
  World (w_heap r) (w_sched r) (w_ring r) v (w_card_r1 r) (w_info r) (w_current_pcb r) (w_reqs r) (w_files r) (w_opens r) (w_seeks r) (w_reads r) (w_elfs r) (w_regions r) (w_pcbs r) (w_bytes r) (w_ubitmap r) (w_trace r).
Definition set_w_card_r1 (v : Z) (r : world) : world :=
  World (w_heap r) (w_sched r) (w_ring r) (w_sd_state r) v (w_info r) (w_current_pcb r) (w_reqs r) (w_files r) (w_opens r) (w_seeks r) (w_reads r) (w_elfs r) (w_regions r) (w_pcbs r) (w_bytes r) (w_ubitmap r) (w_trace r).
Definition set_w_info (v : FS_RUN_INFO) (r : world) : world :=
  World (w_heap r) (w_sched r) (w_ring r) (w_sd_state r) (w_card_r1 r) v (w_current_pcb r) (w_reqs r) (w_files r) (w_opens r) (w_seeks r) (w_reads r) (w_elfs r) (w_regions r) (w_pcbs r) (w_bytes r) (w_ubitmap r) (w_trace r).
Definition set_w_current_pcb (v : Z) (r : world) : world :=
  World (w_heap r) (w_sched r) (w_ring r) (w_sd_state r) (w_card_r1 r) (w_info r) v (w_reqs r) (w_files r) (w_opens r) (w_seeks r) (w_reads r) (w_elfs r) (w_regions r) (w_pcbs r) (w_bytes r) (w_ubitmap r) (w_trace r).
Definition set_w_reqs (v : gmap Z io_sched_req_t) (r : world) : world :=
  World (w_heap r) (w_sched r) (w_ring r) (w_sd_state r) (w_card_r1 r) (w_info r) (w_current_pcb r) v (w_files r) (w_opens r) (w_seeks r) (w_reads r) (w_elfs r) (w_regions r) (w_pcbs r) (w_bytes r) (w_ubitmap r) (w_trace r).
Definition set_w_files (v : gmap Z FILE) (r : world) : world :=
  World (w_heap r) (w_sched r) (w_ring r) (w_sd_state r) (w_card_r1 r) (w_info r) (w_current_pcb r) (w_reqs r) v (w_opens r) (w_seeks r) (w_reads r) (w_elfs r) (w_regions r) (w_pcbs r) (w_bytes r) (w_ubitmap r) (w_trace r).
Definition set_w_opens (v : gmap Z fs_open_ctx_t) (r : world) : world :=
  World (w_heap r) (w_sched r) (w_ring r) (w_sd_state r) (w_card_r1 r) (w_info r) (w_current_pcb r) (w_reqs r) (w_files r) v (w_seeks r) (w_reads r) (w_elfs r) (w_regions r) (w_pcbs r) (w_bytes r) (w_ubitmap r) (w_trace r).
Definition set_w_seeks (v : gmap Z fs_seek_ctx_t) (r : world) : world :=
  World (w_heap r) (w_sched r) (w_ring r) (w_sd_state r) (w_card_r1 r) (w_info r) (w_current_pcb r) (w_reqs r) (w_files r) (w_opens r) v (w_reads r) (w_elfs r) (w_regions r) (w_pcbs r) (w_bytes r) (w_ubitmap r) (w_trace r).
Definition set_w_reads (v : gmap Z fs_read_ctx_t) (r : world) : world :=
  World (w_heap r) (w_sched r) (w_ring r) (w_sd_state r) (w_card_r1 r) (w_info r) (w_current_pcb r) (w_reqs r) (w_files r) (w_opens r) (w_seeks r) v (w_elfs r) (w_regions r) (w_pcbs r) (w_bytes r) (w_ubitmap r) (w_trace r).
Definition set_w_elfs (v : gmap Z elf_ctx_t) (r : world) : world :=
  World (w_heap r) (w_sched r) (w_ring r) (w_sd_state r) (w_card_r1 r) (w_info r) (w_current_pcb r) (w_reqs r) (w_files r) (w_opens r) (w_seeks r) (w_reads r) v (w_regions r) (w_pcbs r) (w_bytes r) (w_ubitmap r) (w_trace r).
Definition set_w_regions (v : gmap Z memory_region_t) (r : world) : world :=
  World (w_heap r) (w_sched r) (w_ring r) (w_sd_state r) (w_card_r1 r) (w_info r) (w_current_pcb r) (w_reqs r) (w_files r) (w_opens r) (w_seeks r) (w_reads r) (w_elfs r) v (w_pcbs r) (w_bytes r) (w_ubitmap r) (w_trace r).
Definition set_w_pcbs (v : gmap Z pcb_t) (r : world) : world :=
  World (w_heap r) (w_sched r) (w_ring r) (w_sd_state r) (w_card_r1 r) (w_info r) (w_current_pcb r) (w_reqs r) (w_files r) (w_opens r) (w_seeks r) (w_reads r) (w_elfs r) (w_regions r) v (w_bytes r) (w_ubitmap r) (w_trace r).
Definition set_w_bytes (v : gmap Z Z) (r : world) : world :=
  World (w_heap r) (w_sched r) (w_ring r) (w_sd_state r) (w_card_r1 r) (w_info r) (w_current_pcb r) (w_reqs r) (w_files r) (w_opens r) (w_seeks r) (w_reads r) (w_elfs r) (w_regions r) (w_pcbs r) v (w_ubitmap r) (w_trace r).
Definition set_w_ubitmap (v : list Z) (r : world) : world :=
  World (w_heap r) (w_sched r) (w_ring r) (w_sd_state r) (w_card_r1 r) (w_info r) (w_current_pcb r) (w_reqs r) (w_files r) (w_opens r) (w_seeks r) (w_reads r) (w_elfs r) (w_regions r) (w_pcbs r) (w_bytes r) v (w_trace r).
Definition set_w_trace (v : list event) (r : world) : world :=
  World (w_heap r) (w_sched r) (w_ring r) (w_sd_state r) (w_card_r1 r) (w_info r) (w_current_pcb r) (w_reqs r) (w_files r) (w_opens r) (w_seeks r) (w_reads r) (w_elfs r) (w_regions r) (w_pcbs r) (w_bytes r) (w_ubitmap r) v.

(** ** Running C in the world *)

Definition M (A : Type) : Type := world -> res (A * world).

Definition mret {A} (a : A) : M A := fun w => Ok (a, w).
Definition mbind {A B} (m : M A) (f : A -> M B) : M B :=
  fun w => let* (a, w) := m w in f a w.
Definition mundef {A} : M A := fun _ => Undef.
Definition lift {A} (r : res A) : M A := fun w => let* a := r in Ok (a, w).
Definition get {A} (f : world -> A) : M A := fun w => Ok (f w, w).
Definition modify (f : world -> world) : M unit := fun w => Ok (tt, f w).

Declare Scope kernel_scope.
Delimit Scope kernel_scope with kernel.
Notation "'let!' p := m 'in' k" := (mbind m (fun p => k))
  (at level 10, p pattern, m at level 100, k at level 200,
   format "'[v' 'let!'  p  :=  m  'in' '/' k ']'") : kernel_scope.
Notation "'do!' m 'in' k" := (mbind m (fun _ => k))
  (at level 10, m at level 100, k at level 200,
   format "'[v' 'do!'  m  'in' '/' k ']'") : kernel_scope.
#[global] Open Scope kernel_scope.

Definition emit (e : event) : M unit := modify (fun w => set_w_trace (w_trace w ++ [e]) w).

(** The map that holds the structures of type [A]. *)
Class Stored (A : Type) := {
  st_map : world -> gmap Z A;
  st_set : gmap Z A -> world -> world;
  st_map_set : forall m w, st_map (st_set m w) = m;
}.

#[export] Instance stored_req : Stored io_sched_req_t := {| st_map := w_reqs; st_set := set_w_reqs; st_map_set _ _ := eq_refl |}.
#[export] Instance stored_file : Stored FILE := {| st_map := w_files; st_set := set_w_files; st_map_set _ _ := eq_refl |}.
#[export] Instance stored_open : Stored fs_open_ctx_t := {| st_map := w_opens; st_set := set_w_opens; st_map_set _ _ := eq_refl |}.
#[export] Instance stored_seek : Stored fs_seek_ctx_t := {| st_map := w_seeks; st_set := set_w_seeks; st_map_set _ _ := eq_refl |}.
#[export] Instance stored_read : Stored fs_read_ctx_t := {| st_map := w_reads; st_set := set_w_reads; st_map_set _ _ := eq_refl |}.
#[export] Instance stored_elf : Stored elf_ctx_t := {| st_map := w_elfs; st_set := set_w_elfs; st_map_set _ _ := eq_refl |}.
#[export] Instance stored_region : Stored memory_region_t := {| st_map := w_regions; st_set := set_w_regions; st_map_set _ _ := eq_refl |}.
#[export] Instance stored_pcb : Stored pcb_t := {| st_map := w_pcbs; st_set := set_w_pcbs; st_map_set _ _ := eq_refl |}.

(** [*p] and [*p = a]. A pointer to nothing, the null pointer among them, is
    undefined behaviour. *)
Definition load {A} `{Stored A} (p : Z) : M A := fun w =>
  if p =? 0 then Undef else let* a := of_option (st_map w !! p) in Ok (a, w).
Definition store {A} `{Stored A} (p : Z) (a : A) : M unit :=
  fun w => if p =? 0 then Undef else Ok (tt, st_set (<[p := a]> (st_map w)) w).
Definition update {A} `{Stored A} (p : Z) (f : A -> A) : M unit :=
  let! a := load p in store p (f a).

(** ** Byte memory *)

Definition load_byte (p : Z) : M Z := fun w => let* b := of_option (w_bytes w !! p) in Ok (b, w).
Definition store_byte (p v : Z) : M unit := modify (fun w => set_w_bytes (<[p := v]> (w_bytes w)) w).

Definition load_half (p : Z) : M Z :=
  let! b0 := load_byte p in
  let! b1 := load_byte (p + 1) in
  mret (b0 + 256 * b1).
Definition load_word (p : Z) : M Z :=
  let! h0 := load_half p in
  let! h1 := load_half (p + 2) in
  mret (h0 + 65536 * h1).
Definition store_word (p v : Z) : M unit :=
  do! store_byte p (v mod 256) in
  do! store_byte (p + 1) (v / 256 mod 256) in
  do! store_byte (p + 2) (v / 65536 mod 256) in
  store_byte (p + 3) (v / 16777216 mod 256).

(** lib/memutils.s: [memset] on bytes, one byte at a time from the front. *)
(* lib/memutils.s:27-39 memset *)
Fixpoint memset_bytes (n : nat) (p v : Z) : M unit :=
  match n with
  | O => mret tt
  | S n => do! store_byte p v in memset_bytes n (p + 1) v
  end.

(** ** The assembly helpers of kernel/fs/fs.s and kernel/process.s

    The arguments and results are 32-bit words. *)

(* include/io/fs/fs.h:4-4 SD_RX_RAM *)
Definition SD_RX_RAM : Z := 133120.                          (* 0x20800 *)

(** The command is sent whatever the scheduler's state; the card's answer comes back. *)
(* drivers/spi/sd.s:349-407 sd_start_read *)
Definition sd_start_read (lba : Z) : M Z :=
  do! emit (EStartRead lba) in
  let! r1 := get w_card_r1 in
  do! (if r1 =? 255 then mret tt else modify (set_w_sd_state SD_STATE_WAIT_READ)) in
  mret r1.

(* drivers/spi/sd.s:409-426 sd_tail_read *)
Definition sd_tail_read : M unit :=
  do! emit ETailRead in modify (set_w_sd_state SD_STATE_IDLE).

(* kernel/fs/fs.s:134-141 cluster_to_lba *)
Definition cluster_to_lba (cluster : Z) : M Z :=
  let! i := get w_info in
  mret (u32 (u32 (u32 (cluster - 2) * SECTORS_PER_CLUSTER i) + CLUSTER_BEGIN_LBA i)).

(** A RISC-V division by zero gives -1. *)
(* kernel/fs/fs.s:144-152 lba_to_cluster *)
Definition lba_to_cluster (lba : Z) : M Z :=
  let! i := get w_info in
  let d := s32 (lba - CLUSTER_BEGIN_LBA i) in
  let q := if SECTORS_PER_CLUSTER i =? 0 then -1 else Z.quot d (SECTORS_PER_CLUSTER i) in
  mret (u32 (q + 2)).

(* kernel/fs/fs.s:179-195 fat_calcualte_lba *)
Definition fat_calcualte_lba_asm (cluster_num : Z) : M Z :=
  let! i := get w_info in
  let a0 := u32 (Z.quot (s32 cluster_num) 512 + FAT_BEGIN_LBA i) in
  if s32 (FAT_SECTOR_COUNT i) <? s32 a0 then mret a0
  else sd_start_read a0.

(** The index is the cluster number modulo 512, as a byte offset into the sector
    buffer; a load that is not word aligned is taken to read the four bytes there.
    This is the value in A0 at the end; that the routine then does not return to its
    caller is [DFat.get_next_cluster_leaves]. *)
(* kernel/fs/fs.s:197-216 get_next_cluster *)
Definition get_next_cluster_asm (cluster_num : Z) : M Z :=
  do! sd_tail_read in
  load_word (u32 (SD_RX_RAM + Z.rem (s32 cluster_num) 512)).

(** The walk round the circular list of processes; [start] is where it began. *)
(* kernel/process.s:23-30 get_pcb_from_id *)
Fixpoint pcb_walk (fuel : nat) (p start id : Z) : M Z :=
  match fuel with
  | O => fun _ => NoFuel
  | S fuel =>
      let! c := load (A := pcb_t) p in
      if pcb_pid c =? id then mret p
      else if pcb_next c =? start then mret 0
      else pcb_walk fuel (pcb_next c) start id
  end.

(* kernel/process.s:19-33 get_pcb_from_id *)
Definition get_pcb_from_id (id : Z) : M Z :=
  let! p := get w_current_pcb in
  let! n := get (fun w => size (w_pcbs w)) in
  if p =? 0 then mret 0 else pcb_walk (S n) p p id.

(* kernel/scheduler.s:77-80 unblock_process *)
Definition unblock_process (p : Z) : M unit :=
  do! emit (EUnblock p) in update p (set_pcb_pstatus STATE_READY).

(** ** The heap, over any allocator *)

Section Heap.

Context (kmalloc : mem -> Z -> res (Z * mem)) (kfree : mem -> Z -> res mem).

Definition k_alloc (n : Z) : M Z := fun w =>
  let* (p, m) := kmalloc (w_heap w) n in Ok (p, set_w_heap m w).

Definition k_free (p : Z) : M unit := fun w =>
  let* m := kfree (w_heap w) p in
  Ok (tt, set_w_trace (w_trace w ++ [EFree p]) (set_w_heap m w)).

End Heap.

(** ** Reasoning about runs *)

Lemma mbind_ok {A B} (m : M A) (f : A -> M B) w r :
  mbind m f w = Ok r <-> exists a w', m w = Ok (a, w') /\ f a w' = Ok r.
Proof.
  unfold mbind. rewrite rbind_ok. split.
  - intros [[a w'] [H1 H2]]. eauto.
  - intros (a & w' & H1 & H2). exists (a, w'). auto.
Qed.

Lemma mbind_step {A B} (m : M A) (f : A -> M B) w a w' :
  m w = Ok (a, w') -> mbind m f w = f a w'.
Proof. unfold mbind. intros ->. reflexivity. Qed.

Lemma mbind_assoc {A B C} (m : M A) (f : A -> M B) (g : B -> M C) w :
  mbind (mbind m f) g w = mbind m (fun a => mbind (f a) g) w.
Proof. unfold mbind. destruct (m w) as [[a w']| |]; reflexivity. Qed.

Lemma load_some {A} `{Stored A} p (a : A) w : p <> 0 -> st_map w !! p = Some a -> load p w = Ok (a, w).
Proof. unfold load. intros Hp ->. destruct (Z.eqb_spec p 0); [contradiction|reflexivity]. Qed.

Lemma load_ok {A} `{Stored A} p (a : A) w w' :
  load p w = Ok (a, w') -> p <> 0 /\ st_map w !! p = Some a /\ w' = w.
Proof.
  unfold load. destruct (Z.eqb_spec p 0); [discriminate|]. intros E. res_inv. auto.
Qed.

Lemma store_nonnull {A} `{Stored A} p (a : A) w :
  p <> 0 -> store p a w = Ok (tt, st_set (<[p := a]> (st_map w)) w).
Proof. unfold store. intros Hp. destruct (Z.eqb_spec p 0); [contradiction|reflexivity]. Qed.

Lemma update_some {A} `{Stored A} p (f : A -> A) (a : A) w :
  p <> 0 -> st_map w !! p = Some a ->
  update p f w = Ok (tt, st_set (<[p := f a]> (st_map w)) w).
Proof.
  intros Hp Ha. unfold update. rewrite (mbind_step _ _ _ _ _ (load_some p a w Hp Ha)).
  apply store_nonnull. exact Hp.
Qed.

Lemma get_ok {A} (f : world -> A) w a w' : get f w = Ok (a, w') -> a = f w /\ w' = w.
Proof. unfold get. intros [= <- <-]. auto. Qed.

Lemma mret_ok {A} (b : A) w a w' : mret b w = Ok (a, w') -> a = b /\ w' = w.
Proof. unfold mret. intros [= <- <-]. auto. Qed.

Lemma modify_ok f w a w' : modify f w = Ok (a, w') -> a = tt /\ w' = f w.
Proof. unfold modify. intros [= <- <-]. auto. Qed.

Lemma lift_ok {A} (r : res A) w a w' : lift r w = Ok (a, w') -> r = Ok a /\ w' = w.
Proof. unfold lift. intros H. res_inv. auto. Qed.

(** Take a successful run apart, statement by statement. *)
Ltac m_inv :=
  repeat match goal with
  | H : mbind _ _ _ = Ok _ |- _ =>
      let a := fresh "a" in let w := fresh "w" in let E := fresh "E" in
      apply mbind_ok in H; destruct H as (a & w & E & H)
  | H : get _ _ = Ok (_, _) |- _ => apply get_ok in H; destruct H; subst
  | H : mret _ _ = Ok (_, _) |- _ => apply mret_ok in H; destruct H; subst
  | H : modify _ _ = Ok (_, _) |- _ => apply modify_ok in H; destruct H; subst
  | H : lift _ _ = Ok (_, _) |- _ => apply lift_ok in H; destruct H; subst
  | H : load _ _ = Ok (_, _) |- _ =>
      let Hp := fresh "Hp" in let Hl := fresh "Hl" in
      apply load_ok in H; destruct H as (Hp & Hl & ?); subst
  | H : Ok _ = Ok _ |- _ => injection H as H; try subst
  | H : (_, _) = (_, _) |- _ => injection H as; try subst
  end.
