(* ===== verification/IoSched.v ===== *)
(** * The SD interrupt ring and the I/O scheduler: drivers/spi/sd_irsq.c,
    kernel/io/io_scheduler.c

    The interrupt handler pushes a completion into a ring of eight statuses; the
    pump, run from the timer, pops them, completes the request in flight through
    its callback and issues the next one. The callbacks are any function of the
    world here; Kernel.v passes the real ones. *)

From S2P Require Import Prelude Mem KWorld.

(** ** The code *)

(* drivers/spi/sd_irsq.c:6-17 sd_irsq_handler *)
Definition sd_irsq_handler : M unit :=
  let! st := get w_sd_state in
  do! match st with
      | SD_STATE_WAIT_READ => sd_tail_read
      | SD_STATE_WAIT_WRITE => emit ETailWrite
      | _ => mret tt
      end in
  let! r := get w_ring in
  let idx := Z.land (head r) (IRQ_RING_SIZE - 1) in
  let! status := lift (zupd (status r) idx 0) in
  modify (set_w_ring (Ring (u8 (head r + 1)) (tail r) status)).

(* kernel/io/io_scheduler.c:6-17 io_sched_issue_next *)
Definition io_sched_issue_next : M unit :=
  let! s := get w_sched in
  if queue_head s =? 0 then mret tt
  else
    let req := queue_head s in
    let! r := load (A := io_sched_req_t) req in
    let queue_tail := if rq_next r =? 0 then 0 else queue_tail s in
    do! modify (set_w_sched (IoSched (rq_next r) queue_tail req SCHED_BUSY)) in
    let! _ := sd_start_read (rq_lba r) in
    mret tt.

(* kernel/io/io_scheduler.c:19-33 io_sched_submit *)
Definition io_sched_submit (req : Z) : M unit :=
  do! update req (set_rq_next 0) in
  let! s := get w_sched in
  do! (if negb (queue_tail s =? 0) then
         do! update (queue_tail s) (set_rq_next req) in
         modify (set_w_sched (set_queue_tail req s))
       else
         modify (set_w_sched (set_queue_tail req (set_queue_head req s)))) in
  if decide (sstate s = SCHED_IDLE) then io_sched_issue_next else mret tt.

Section Pump.

Context (kfree : mem -> Z -> res mem).
Context (invoke : callback -> Z -> Z -> M unit).

(** The body of the pump's loop: pop a status and the request in flight, ... *)
(* kernel/io/io_scheduler.c:38-47 io_sched_pump *)
Definition pump_take : M (Z * io_sched_req_t * Z) :=
  let! r := get w_ring in
  let idx := Z.land (tail r) (IRQ_RING_SIZE - 1) in
  let! st := lift (zget (status r) idx) in
  do! modify (set_w_ring (Ring (head r) (u8 (tail r + 1)) (status r))) in
  let! s := get w_sched in
  let req := in_flight s in
  do! modify (set_w_sched (IoSched (queue_head s) (queue_tail s) 0 SCHED_IDLE)) in
  let! rq := load req in
  mret (req, rq, st).

(** ... free it after its callback has run and issue the next one. *)
(* kernel/io/io_scheduler.c:48-52 io_sched_pump *)
Definition pump_finish (req : Z) : M unit :=
  do! k_free kfree req in
  let! s := get w_sched in
  if (bool_decide (sstate s = SCHED_IDLE) && negb (queue_head s =? 0))%bool then io_sched_issue_next
  else mret tt.

(* kernel/io/io_scheduler.c:38-52 io_sched_pump *)
Definition io_sched_complete : M unit :=
  let! (req, rq, st) := pump_take in
  do! invoke (rq_callback rq) (rq_ctx rq) st in
  pump_finish req.

(* kernel/io/io_scheduler.c:36-54 io_sched_pump *)
Fixpoint io_sched_pump (fuel : nat) : M unit :=
  match fuel with
  | O => fun _ => NoFuel
  | S fuel =>
      let! r := get w_ring in
      if head r =? tail r then mret tt
      else do! io_sched_complete in io_sched_pump fuel
  end.

End Pump.

(** ** The queue the scheduler implements

    An entry is a request's address with the block it asks for. *)

Abbreviation entry := (Z * Z)%type.

(** [queue w p qs q]: the requests linked from [p] are those of [qs], and [q] is
    the last of them. *)
Fixpoint linked (rs : gmap Z io_sched_req_t) (p : Z) (qs : list entry) : Prop :=
  match qs with
  | [] => p = 0
  | (a, lba) :: qs =>
      p = a /\ a <> 0 /\ exists r, rs !! a = Some r /\ rq_lba r = lba /\ linked rs (rq_next r) qs
  end.

Definition last_of (qs : list entry) : Z := default 0 (fst <$> last qs).

(** The scheduler of [w] has [fl] in flight and [qs] waiting. *)
Definition sched_rep (w : world) (fl : option entry) (qs : list entry) : Prop :=
  let s := w_sched w in
  linked (w_reqs w) (queue_head s) qs /\
  queue_tail s = last_of qs /\
  NoDup (fst <$> option_list fl ++ qs) /\
  match fl with
  | None => in_flight s = 0 /\ sstate s = SCHED_IDLE
  | Some (a, lba) => in_flight s = a /\ sstate s = SCHED_BUSY /\ a <> 0 /\
      exists r, w_reqs w !! a = Some r /\ rq_lba r = lba
  end.

(** The abstract scheduler: issue the head of the queue when nothing is in flight. *)
Definition a_issue (fl : option entry) (qs : list entry) : option entry * list entry :=
  match fl, qs with
  | None, e :: qs => (Some e, qs)
  | _, _ => (fl, qs)
  end.

(** The block that [a_issue] starts to read. *)
Definition a_started (fl : option entry) (qs : list entry) : list event :=
  match fl, qs with
  | None, e :: _ => [EStartRead (snd e)]
  | _, _ => []
  end.

(** ** Lemmas *)

Lemma linked_agree rs rs' qs : forall p,
  linked rs p qs -> (forall a, a ∈ fst <$> qs -> rs' !! a = rs !! a) -> linked rs' p qs.
Proof.
  induction qs as [|[a lba] qs IH]; simpl; intros p H Hag; [exact H|].
  destruct H as (-> & Ha & r & Hr & Hl & H). repeat split; auto.
  exists r. rewrite Hag by (left). repeat split; auto. apply IH; [exact H|].
  intros b Hb. apply Hag. right. exact Hb.
Qed.

Lemma last_of_snoc qs e : last_of (qs ++ [e]) = fst e.
Proof. unfold last_of. rewrite last_snoc. reflexivity. Qed.

Lemma last_of_last qs : qs <> [] -> exists l, (last_of qs, l) ∈ qs.
Proof.
  intros Hne. unfold last_of. destruct (last qs) as [[a l]|] eqn:El.
  - exists l. simpl. apply last_Some_elem_of in El. exact El.
  - apply last_None in El. contradiction.
Qed.

Lemma last_of_elem qs : qs <> [] -> last_of qs ∈ fst <$> qs.
Proof.
  intros Hne. destruct (last_of_last qs Hne) as [l Hl]. apply list_elem_of_fmap.
  exists (last_of qs, l). split; [reflexivity|exact Hl].
Qed.

Lemma last_of_nonnil rs p qs : linked rs p qs -> qs <> [] -> last_of qs <> 0.
Proof.
  revert p. induction qs as [|[a l] qs IH]; simpl; intros p H Hne; [congruence|].
  destruct H as (-> & Ha & r & Hr & Hl & H). destruct qs as [|e qs]; [exact Ha|].
  change (last_of ((a, l) :: e :: qs)) with (last_of (e :: qs)).
  eapply IH; [exact H|discriminate].
Qed.

Lemma linked_snoc rs p qs a lba (r rl : io_sched_req_t) :
  linked rs p qs -> qs <> [] -> NoDup (fst <$> qs ++ [(a, lba)]) -> a <> 0 ->
  rs !! a = Some r -> rq_lba r = lba -> rq_next r = 0 ->
  rs !! last_of qs = Some rl ->
  linked (<[last_of qs := set_rq_next a rl]> rs) p (qs ++ [(a, lba)]).
Proof.
  revert p. induction qs as [|[b l] qs IH]; simpl; intros p H Hne Hnd Ha Hr Hlba Hnx Hrl; [congruence|].
  destruct H as (-> & Hb & rb & Hrb & Hlb & H). apply NoDup_cons in Hnd as [Hnin Hnd].
  repeat split; auto. destruct qs as [|e qs].
  - change (last_of [(b, l)]) with b in *. rewrite Hrb in Hrl. injection Hrl as <-.
    exists (set_rq_next a rb). rewrite lookup_insert_eq. split; [reflexivity|]. split; [exact Hlb|].
    simpl. repeat split; auto.
    exists r. rewrite lookup_insert_ne; [repeat split; auto|].
    intros ->. apply Hnin. simpl. left.
  - change (last_of ((b, l) :: e :: qs)) with (last_of (e :: qs)) in *.
    exists rb. rewrite lookup_insert_ne.
    + split; [exact Hrb|]. split; [exact Hlb|]. apply IH; solve [auto | discriminate].
    + intros E. apply Hnin. rewrite <- E, fmap_app. apply elem_of_app. left.
      apply last_of_elem. discriminate.
Qed.

Lemma linked_elem rs qs : forall p a lba, linked rs p qs -> (a, lba) ∈ qs ->
  a <> 0 /\ exists r, rs !! a = Some r /\ rq_lba r = lba.
Proof.
  induction qs as [|[b l] qs IH]; simpl; intros p a lba H Hin; [apply elem_of_nil in Hin; easy|].
  destruct H as (-> & Hb & r & Hr & Hl & H). apply elem_of_cons in Hin as [[= -> ->]|Hin]; eauto.
Qed.

Lemma issue_next_rep w fl qs :
  sched_rep w fl qs -> fl = None ->
  exists w', io_sched_issue_next w = Ok (tt, w') /\
    sched_rep w' (fst (a_issue fl qs)) (snd (a_issue fl qs)) /\
    w_trace w' = w_trace w ++ a_started fl qs /\ w_reqs w' = w_reqs w /\ w_heap w' = w_heap w.
Proof.
  intros (Hl & Ht & Hnd & Hs) ->. unfold io_sched_issue_next, mbind at 1, get at 1. simpl.
  destruct qs as [|[a lba] qs]; simpl in Hl.
  - rewrite Hl. exists w. simpl. rewrite app_nil_r. repeat split; auto; apply Hs.
  - destruct Hl as (Hh & Ha & r & Hr & Hlba & Hl).
    rewrite Hh. replace (a =? 0) with false by (symmetry; apply Z.eqb_neq; exact Ha).
    unfold mbind at 1. rewrite (load_some a r) by (auto; exact Hr). simpl.
    unfold sd_start_read, emit, modify, get, mret, mbind. simpl.
    set (T := if rq_next r =? 0 then 0 else queue_tail (w_sched w)).
    assert (HT : T = last_of qs).
    { subst T. destruct qs as [|[b l] qs]; simpl in Hl.
      - rewrite Hl. reflexivity.
      - destruct Hl as (-> & Hb & _). replace (b =? 0) with false by (symmetry; apply Z.eqb_neq; exact Hb).
        rewrite Ht. reflexivity. }
    destruct (w_card_r1 w =? 255); simpl; eexists; split; try reflexivity; simpl;
      rewrite Hlba; repeat split; simpl; auto; exists r; auto.
Qed.

(** The queue after [req] has been linked at its end. *)
Lemma submit_enqueue w fl qs a lba r :
  sched_rep w fl qs -> w_reqs w !! a = Some r -> rq_lba r = lba -> a <> 0 ->
  a ∉ fst <$> option_list fl ++ qs ->
  exists w1, io_sched_submit a w = (if decide (fl = None) then io_sched_issue_next w1 else Ok (tt, w1)) /\
    sched_rep w1 fl (qs ++ [(a, lba)]) /\ w_trace w1 = w_trace w /\ w_heap w1 = w_heap w /\
    (forall b x, w_reqs w !! b = Some x -> exists n, w_reqs w1 !! b = Some (set_rq_next n x)) /\
    (forall b, b <> a -> b ∉ fst <$> qs -> w_reqs w1 !! b = w_reqs w !! b).
Proof.
  intros (Hl & Ht & Hnd & Hs) Hr Hlba Ha Hfresh.
  assert (Hnd' : NoDup (fst <$> option_list fl ++ qs ++ [(a, lba)])).
  { rewrite app_assoc, fmap_app. apply NoDup_app. split; [exact Hnd|]. split.
    - intros x Hx Hx'. simpl in Hx'. apply list_elem_of_singleton in Hx' as ->. contradiction.
    - apply NoDup_singleton. }
  set (rs := <[a := set_rq_next 0 r]> (w_reqs w)).
  assert (Hl' : linked rs (queue_head (w_sched w)) qs).
  { eapply linked_agree; [exact Hl|]. intros b Hb. subst rs. apply lookup_insert_ne.
    intros ->. apply Hfresh. rewrite fmap_app. apply elem_of_app. right. exact Hb. }
  assert (Hst : sstate (w_sched w) = SCHED_IDLE <-> fl = None).
  { destruct fl as [[f l]|]; [destruct Hs as (_ & -> & _)|destruct Hs as (_ & ->)]; split; congruence. }
  unfold io_sched_submit. unfold mbind at 1.
  rewrite (update_some a (set_rq_next 0) r) by (auto; exact Hr). simpl.
  unfold mbind at 1, get at 1. simpl. fold rs.
  destruct qs as [|e qs].
  - (* empty queue *)
    assert (Hq0 : queue_tail (w_sched w) = 0) by (rewrite Ht; reflexivity).
    rewrite Hq0. simpl. unfold mbind, modify. simpl.
    eexists. split; [|split; [split; [|split; [|split]]|split; [|split; [|split]]]].
    + destruct (decide (sstate (w_sched w) = SCHED_IDLE)) as [E|E], (decide (fl = None)) as [F|F];
        try reflexivity; tauto.
    + simpl. repeat split; auto. exists (set_rq_next 0 r). subst rs. rewrite lookup_insert_eq. auto.
    + reflexivity.
    + exact Hnd'.
    + simpl. destruct fl as [[f l]|]; simpl in *; [|exact Hs].
      destruct Hs as (? & ? & ? & rf & Hrf & ?). repeat split; auto. exists rf. subst rs.
      rewrite lookup_insert_ne; auto. intros ->. apply Hfresh. left.
    + reflexivity.
    + reflexivity.
    + intros b x Hb. simpl. subst rs. destruct (decide (b = a)) as [->|Hne].
      * rewrite lookup_insert_eq. rewrite Hr in Hb. injection Hb as <-. eexists. reflexivity.
      * rewrite lookup_insert_ne by auto. exists (rq_next x). rewrite Hb. destruct x; reflexivity.
    + intros b Hb _. simpl. subst rs. apply lookup_insert_ne. auto.
  - (* linked after the tail *)
    assert (Hne : last_of (e :: qs) <> 0) by (eapply last_of_nonnil; [exact Hl'|discriminate]).
    assert (Hin : last_of (e :: qs) ∈ fst <$> e :: qs) by (apply last_of_elem; discriminate).
    destruct (last_of_last (e :: qs) ltac:(discriminate)) as [ll Hll].
    destruct (linked_elem _ _ _ _ _ Hl' Hll) as (_ & rl & Hrl & _).
    assert (Hta : last_of (e :: qs) <> a).
    { intros E. apply Hfresh. rewrite <- E, fmap_app. apply elem_of_app. right. exact Hin. }
    rewrite Ht. replace (last_of (e :: qs) =? 0) with false by (symmetry; apply Z.eqb_neq; exact Hne).
    simpl negb. cbv iota. rewrite mbind_assoc. unfold mbind at 1.
    rewrite (update_some _ (set_rq_next a) rl) by (auto; exact Hrl). simpl.
    unfold mbind, modify. simpl. fold rs.
    eexists. split; [|split; [split; [|split; [|split]]|split; [|split; [|split]]]].
    + destruct (decide (sstate (w_sched w) = SCHED_IDLE)) as [E|E], (decide (fl = None)) as [F|F];
        try reflexivity; tauto.
    + change (linked (<[last_of (e :: qs) := set_rq_next a rl]> rs) (queue_head (w_sched w)) ((e :: qs) ++ [(a, lba)])).
      apply (linked_snoc _ _ _ _ _ (set_rq_next 0 r)); try assumption; try reflexivity.
      * discriminate.
      * rewrite fmap_app in Hnd'. apply NoDup_app in Hnd' as (_ & _ & Hn). exact Hn.
      * subst rs. apply lookup_insert_eq.
    + symmetry. apply (last_of_snoc (e :: qs) (a, lba)).
    + exact Hnd'.
    + simpl. destruct fl as [[f l]|]; simpl in *; [|exact Hs].
      destruct Hs as (? & ? & ? & rf & Hrf & ?). repeat split; auto.
      exists rf. assert (f <> a) by (intros ->; apply Hfresh; left).
      assert (f <> last_of (e :: qs)).
      { intros E. apply NoDup_cons in Hnd as [Hn _]. apply Hn. rewrite E. exact Hin. }
      subst rs. rewrite !lookup_insert_ne by auto. auto.
    + reflexivity.
    + reflexivity.
    + intros b x Hb. simpl. subst rs. destruct (decide (b = last_of (e :: qs))) as [->|Hb'].
      * rewrite lookup_insert_eq. rewrite lookup_insert_ne in Hrl by auto. rewrite Hrl in Hb.
        assert (x = rl) as -> by congruence. eexists. reflexivity.
      * rewrite lookup_insert_ne by auto. destruct (decide (b = a)) as [->|Hba].
        -- rewrite lookup_insert_eq. rewrite Hr in Hb. injection Hb as <-. eexists. reflexivity.
        -- rewrite lookup_insert_ne by auto. exists (rq_next x). rewrite Hb. destruct x; reflexivity.
    + intros b Hb Hbq. simpl. subst rs. rewrite !lookup_insert_ne; auto.
      intros <-. apply Hbq. exact Hin.
Qed.

(** ** What the callers of the scheduler do

    [client w subm w']: a stretch of kernel code that submits the requests
    [subm], in that order, and otherwise leaves the scheduler, its requests and
    the card alone. *)

Definition issued (w : world) : list Z :=
  omap (fun e => match e with EStartRead lba => Some lba | _ => None end) (w_trace w).

Inductive client : world -> list entry -> world -> Prop :=
| client_other w w' :
    (forall fl qs, sched_rep w fl qs -> sched_rep w' fl qs) -> issued w' = issued w ->
    client w [] w'
| client_submit w a r w' :
    w_reqs w !! a = Some r -> a <> 0 ->
    (forall fl qs, sched_rep w fl qs -> a ∉ fst <$> option_list fl ++ qs) ->
    io_sched_submit a w = Ok (tt, w') ->
    client w [(a, rq_lba r)] w'
| client_trans w s w1 s1 w2 : client w s w1 -> client w1 s1 w2 -> client w (s ++ s1) w2.

(** The events of a running system: kernel code submits, the card interrupts,
    the pump completes a request. *)
Inductive sys_run (kfree : mem -> Z -> res mem) (invoke : callback -> Z -> Z -> M unit)
  : world -> list entry -> world -> Prop :=
| run_nil w : sys_run kfree invoke w [] w
| run_client w s w1 s1 w2 : sys_run kfree invoke w s w1 -> client w1 s1 w2 ->
    sys_run kfree invoke w (s ++ s1) w2
| run_irq w s w1 w2 : sys_run kfree invoke w s w1 -> sd_irsq_handler w1 = Ok (tt, w2) ->
    sys_run kfree invoke w s w2
| run_pump w s w1 req rq st w2 s1 w3 w4 : sys_run kfree invoke w s w1 ->
    pump_take w1 = Ok (req, rq, st, w2) ->
    invoke (rq_callback rq) (rq_ctx rq) st w2 = Ok (tt, w3) -> client w2 s1 w3 ->
    pump_finish kfree req w3 = Ok (tt, w4) ->
    sys_run kfree invoke w (s ++ s1) w4.

(** Nothing waits while the card is idle. *)
Definition settled (fl : option entry) (qs : list entry) : Prop := fl = None -> qs = [].

Lemma issued_app w w' es : w_trace w' = w_trace w ++ es ->
  issued w' = issued w ++ omap (fun e => match e with EStartRead lba => Some lba | _ => None end) es.
Proof. unfold issued. intros ->. apply omap_app. Qed.

Lemma sched_rep_agree w w' fl qs :
  w_sched w' = w_sched w -> w_reqs w' = w_reqs w -> sched_rep w fl qs -> sched_rep w' fl qs.
Proof. unfold sched_rep. intros -> ->. exact (fun H => H). Qed.

Lemma submit_rep w fl qs a r w' :
  sched_rep w fl qs -> w_reqs w !! a = Some r -> a <> 0 -> a ∉ fst <$> option_list fl ++ qs ->
  io_sched_submit a w = Ok (tt, w') ->
  sched_rep w' (fst (a_issue fl (qs ++ [(a, rq_lba r)]))) (snd (a_issue fl (qs ++ [(a, rq_lba r)]))) /\
  w_trace w' = w_trace w ++ a_started fl (qs ++ [(a, rq_lba r)]) /\ w_heap w' = w_heap w.
Proof.
  intros Hrep Hr Ha Hf E.
  destruct (submit_enqueue w fl qs a (rq_lba r) r Hrep Hr eq_refl Ha Hf)
    as (w1 & E1 & Hrep1 & Ht & Hh & _ & _).
  rewrite E in E1. case_decide as Hfl.
  - destruct (issue_next_rep w1 _ _ Hrep1 Hfl) as (w2 & E2 & Hrep2 & Ht2 & _ & Hh2).
    rewrite E2 in E1. injection E1 as ->. rewrite Ht2, Ht, Hh2. auto.
  - injection E1 as ->. destruct fl as [e|]; [|contradiction]. simpl. rewrite app_nil_r. auto.
Qed.

Lemma client_queue w s w' : client w s w' -> forall fl qs, sched_rep w fl qs ->
  exists fl' qs', sched_rep w' fl' qs' /\ (settled fl qs -> settled fl' qs') /\
    issued w' ++ (snd <$> qs') = issued w ++ (snd <$> qs ++ s).
Proof.
  induction 1 as [w w' Hk Hi|w a r w' Hr Ha Hf E|w s w1 s1 w2 H1 IH1 H2 IH2]; intros fl qs Hrep.
  - exists fl, qs. rewrite app_nil_r, Hi. auto.
  - destruct (submit_rep w fl qs a r w' Hrep Hr Ha (Hf _ _ Hrep) E) as (Hrep' & Ht & _).
    eexists _, _. split; [exact Hrep'|]. apply issued_app in Ht. rewrite Ht.
    destruct fl as [e|]; simpl; [rewrite app_nil_r; split; [intros _ [=]|reflexivity]|].
    destruct qs as [|e qs]; simpl; (split; [intros _ [=]|]);
      rewrite <- app_assoc; reflexivity.
  - destruct (IH1 _ _ Hrep) as (fl1 & qs1 & Hrep1 & Hs1 & Hi1).
    destruct (IH2 _ _ Hrep1) as (fl2 & qs2 & Hrep2 & Hs2 & Hi2).
    exists fl2, qs2. split; [exact Hrep2|]. split; [tauto|].
    rewrite Hi2, fmap_app, app_assoc, Hi1, !fmap_app, <- !app_assoc. reflexivity.
Qed.

Lemma irq_rep w w' : sd_irsq_handler w = Ok (tt, w') ->
  issued w' = issued w /\ w_sched w' = w_sched w /\ w_reqs w' = w_reqs w.
Proof.
  unfold sd_irsq_handler, mbind at 1, get at 1. simpl. intros H.
  apply mbind_ok in H as (u & w1 & E1 & H).
  assert (Hw1 : issued w1 = issued w /\ w_sched w1 = w_sched w /\ w_reqs w1 = w_reqs w).
  { destruct (w_sd_state w); unfold sd_tail_read, emit, mbind, modify, mret in E1; simpl in E1;
      injection E1 as _ <-; unfold issued; simpl; rewrite ?omap_app; simpl; rewrite ?app_nil_r; auto. }
  unfold mbind, get, lift, modify in H. simpl in H. res_inv.
  exact Hw1.
Qed.

Lemma take_rep w req rq st w' fl qs :
  sched_rep w fl qs -> pump_take w = Ok (req, rq, st, w') ->
  exists lba, fl = Some (req, lba) /\ w_reqs w !! req = Some rq /\ sched_rep w' None qs /\
    issued w' = issued w /\ zget (status (w_ring w)) (Z.land (tail (w_ring w)) 7) = Ok st.
Proof.
  intros (Hl & Ht & Hnd & Hs) E. unfold pump_take in E. m_inv. simpl in *.
  destruct fl as [[a lba]|]; [|destruct Hs as (Hz & _); congruence].
  destruct Hs as (<- & _ & _ & _). exists lba. split; [reflexivity|]. split; [exact Hl0|].
  apply NoDup_cons in Hnd as [_ Hnd]. repeat split; auto.
Qed.

Lemma finish_rep kfree req w w' fl qs :
  sched_rep w fl qs -> pump_finish kfree req w = Ok (tt, w') ->
  sched_rep w' (fst (a_issue fl qs)) (snd (a_issue fl qs)) /\
  w_trace w' = w_trace w ++ EFree req :: a_started fl qs.
Proof.
  intros Hrep E. unfold pump_finish in E. apply mbind_ok in E as (u & w1 & E1 & E).
  unfold k_free in E1. apply rbind_ok in E1 as (m & Em & E1). injection E1 as _ <-.
  unfold mbind at 1, get at 1 in E. simpl in E.
  set (w1 := set_w_trace _ _) in E.
  assert (Hrep1 : sched_rep w1 fl qs) by (eapply sched_rep_agree; [..|exact Hrep]; reflexivity).
  assert (Ht1 : w_trace w1 = w_trace w ++ [EFree req]) by reflexivity.
  pose proof Hrep as (Hl & _ & _ & Hs). destruct fl as [[f l]|].
  - destruct Hs as (_ & Hb & _). rewrite Hb in E. simpl in E. injection E as <-. auto.
  - destruct Hs as (_ & Hb). rewrite Hb in E. simpl in E. destruct qs as [|[q l] qs].
    + simpl in Hl. rewrite Hl in E. simpl in E. injection E as <-. auto.
    + simpl in Hl. destruct Hl as (Hq & Hq0 & _). rewrite Hq in E.
      replace (q =? 0) with false in E by (symmetry; apply Z.eqb_neq; exact Hq0). simpl in E.
      destruct (issue_next_rep w1 _ _ Hrep1 eq_refl) as (w2 & E2 & Hrep2 & Ht2 & _).
      rewrite E in E2. injection E2 as ->. split; [exact Hrep2|].
      rewrite Ht2, Ht1, <- app_assoc. reflexivity.
Qed.

Lemma a_issue_settled fl qs : settled (fst (a_issue fl qs)) (snd (a_issue fl qs)).
Proof. destruct fl, qs; unfold settled; simpl; congruence. Qed.

Lemma a_issue_lbas fl qs :
  omap (fun e => match e with EStartRead lba => Some lba | _ => None end) (a_started fl qs) ++
    (snd <$> snd (a_issue fl qs)) = snd <$> qs.
Proof. destruct fl, qs; reflexivity. Qed.

Lemma update_req_keeps p f w u w' : update (A := io_sched_req_t) p f w = Ok (u, w') ->
  w_seeks w' = w_seeks w /\ w_files w' = w_files w /\ w_info w' = w_info w.
Proof.
  unfold update. intros H. m_inv. unfold store in H. destruct (p =? 0); [discriminate|].
  injection H as _ <-. auto.
Qed.

Lemma issue_next_keeps w u w' : io_sched_issue_next w = Ok (u, w') ->
  w_seeks w' = w_seeks w /\ w_files w' = w_files w /\ w_info w' = w_info w.
Proof.
  unfold io_sched_issue_next, sd_start_read, emit. intros H. m_inv.
  destruct (queue_head (w_sched w) =? 0); m_inv; [auto|].
  match goal with H : (if ?b then _ else _) _ = Ok _ |- _ => destruct b end; m_inv; auto.
Qed.

(** The scheduler leaves the structures of the file system alone. *)
Lemma io_sched_submit_keeps req w u w' : io_sched_submit req w = Ok (u, w') ->
  w_seeks w' = w_seeks w /\ w_files w' = w_files w /\ w_info w' = w_info w.
Proof.
  unfold io_sched_submit. intros H. apply mbind_ok in H as (u1 & w1 & E1 & H).
  apply update_req_keeps in E1 as (<- & <- & <-). apply mbind_ok in H as (s & w2 & E2 & H).
  apply get_ok in E2 as [-> ->]. apply mbind_ok in H as (u2 & w3 & E3 & H).
  assert (K3 : w_seeks w3 = w_seeks w1 /\ w_files w3 = w_files w1 /\ w_info w3 = w_info w1).
  { case_test_in E3; m_inv; [apply update_req_keeps in E as (<- & <- & <-)|]; auto. }
  destruct K3 as (<- & <- & <-). case_decide; [apply issue_next_keeps in H; exact H|]. m_inv. auto.
Qed.

(** The driver's state after a read was asked for: an answer of 255 is none. *)
Definition asked_state (w : world) : SD_STATE_T := if w_card_r1 w =? 255 then w_sd_state w else SD_STATE_WAIT_READ.

(** A request given to an idle scheduler goes to the card at once. *)
Lemma issue_only w req r : w_sched w = IoSched req req 0 SCHED_IDLE -> req <> 0 ->
  w_reqs w !! req = Some r -> rq_next r = 0 ->
  io_sched_issue_next w = Ok (tt, set_w_sd_state (asked_state w) (set_w_trace (w_trace w ++ [EStartRead (rq_lba r)])
    (set_w_sched (IoSched 0 0 req SCHED_BUSY) w))).
Proof.
  intros Es H0 Hr Hn. unfold io_sched_issue_next, mbind at 1, get at 1. cbn [rbind]. rewrite Es.
  cbn [queue_head queue_tail]. destruct (Z.eqb_spec req 0) as [|_]; [contradiction|].
  unfold mbind at 1. erewrite load_some; [|exact H0|exact Hr]. cbn [rbind]. rewrite Hn.
  unfold sd_start_read, emit, mbind, get, modify, mret. cbn.
  unfold asked_state. destruct (w_card_r1 w =? 255); reflexivity.
Qed.

Lemma submit_idle w req r : w_sched w = IoSched 0 0 0 SCHED_IDLE -> req <> 0 -> w_reqs w !! req = Some r ->
  io_sched_submit req w = Ok (tt, set_w_sd_state (asked_state w) (set_w_trace (w_trace w ++ [EStartRead (rq_lba r)])
    (set_w_sched (IoSched 0 0 req SCHED_BUSY) (set_w_reqs (<[req := set_rq_next 0 r]> (w_reqs w)) w)))).
Proof.
  intros Es H0 Hr. unfold io_sched_submit, mbind at 1. erewrite update_some; [|exact H0|exact Hr].
  cbn [rbind]. set (w1 := st_set _ w). unfold mbind at 1, get at 1. cbn [rbind].
  replace (w_sched w1) with (w_sched w) by reflexivity. rewrite Es. cbn [queue_tail sstate Z.eqb negb].
  unfold mbind at 1, modify at 1. cbn [rbind]. rewrite decide_True by reflexivity.
  exact (issue_only (set_w_sched (set_queue_tail req (set_queue_head req (IoSched 0 0 0 SCHED_IDLE))) w1)
    req (set_rq_next 0 r) eq_refl H0 (lookup_insert_eq _ _ _) eq_refl).
Qed.

(** The world in which the callback of a completion runs. *)
Definition popped (w : world) : world :=
  let r := w_ring w in let s := w_sched w in
  set_w_sched (IoSched (queue_head s) (queue_tail s) 0 SCHED_IDLE)
    (set_w_ring (Ring (head r) (u8 (tail r + 1)) (status r)) w).

(** ** Properties *)

(** [io_sched_submit] puts a fresh request at the end of the queue and, when
    the card is idle, starts the read of the request at the front: the linked
    queue with its head and tail pointers implements a FIFO. *)
Theorem io_sched_submit_fifo w fl qs a r :
  sched_rep w fl qs -> w_reqs w !! a = Some r -> a <> 0 -> a ∉ fst <$> option_list fl ++ qs ->
  exists w', io_sched_submit a w = Ok (tt, w') /\
    let q := qs ++ [(a, rq_lba r)] in
    sched_rep w' (fst (a_issue fl q)) (snd (a_issue fl q)) /\
    w_trace w' = w_trace w ++ a_started fl q.
Proof.
  intros Hrep Hr Ha Hf.
  destruct (submit_enqueue w fl qs a (rq_lba r) r Hrep Hr eq_refl Ha Hf)
    as (w1 & E1 & Hrep1 & Ht & Hh & _).
  assert (He : exists w', io_sched_submit a w = Ok (tt, w')).
  { rewrite E1. case_decide as Hfl; [|eauto].
    destruct (issue_next_rep w1 _ _ Hrep1 Hfl) as (w2 & E2 & _). eauto. }
  destruct He as [w' E]. exists w'. split; [exact E|].
  destruct (submit_rep w fl qs a r w' Hrep Hr Ha Hf E) as (Hrep' & Ht' & _). auto.
Qed.

(** one round of the pump completes the request in flight with the status the
    interrupt recorded, and leaves the card busy with the oldest request that
    waits, or idle with an empty queue; exactly that one read is started after
    the callback. *)
Theorem io_sched_complete_next kfree invoke w p lba qs r st w2 fl2 q2 m :
  sched_rep w (Some (p, lba)) qs -> w_reqs w !! p = Some r ->
  zget (status (w_ring w)) (Z.land (tail (w_ring w)) 7) = Ok st ->
  invoke (rq_callback r) (rq_ctx r) st (popped w) = Ok (tt, w2) ->
  sched_rep w2 fl2 q2 -> kfree (w_heap w2) p = Ok m ->
  exists w', io_sched_complete kfree invoke w = Ok (tt, w') /\
    sched_rep w' (fst (a_issue fl2 q2)) (snd (a_issue fl2 q2)) /\
    settled (fst (a_issue fl2 q2)) (snd (a_issue fl2 q2)) /\
    w_trace w' = w_trace w2 ++ EFree p :: a_started fl2 q2.
Proof.
  intros Hrep Hr Hst Hcb Hrep2 Hm. pose proof Hrep as (Hl & Ht & Hnd & Hfl & Hb & Hp & _).
  assert (Et : pump_take w = Ok (p, r, st, popped w)).
  { unfold pump_take, mbind, get, lift, modify, mret. simpl. change (IRQ_RING_SIZE - 1) with 7. rewrite Hst. simpl. rewrite Hfl.
    erewrite load_some; [|exact Hp|exact Hr]. reflexivity. }
  assert (Efin : exists w', pump_finish kfree p w2 = Ok (tt, w')).
  { unfold pump_finish, mbind at 1, k_free. rewrite Hm. simpl. unfold mbind, get. simpl.
    set (w3 := set_w_trace _ _).
    assert (Hrep3 : sched_rep w3 fl2 q2) by (eapply sched_rep_agree; [..|exact Hrep2]; reflexivity).
    case_test; [|eauto]. zbool. apply bool_decide_eq_true in H.
    destruct fl2 as [[f lf]|]; [destruct Hrep2 as (_ & _ & _ & _ & Hx & _); congruence|].
    destruct (issue_next_rep w3 _ _ Hrep3 eq_refl) as (w4 & E4 & _). eauto. }
  destruct Efin as [w' Ef]. exists w'. split.
  - unfold io_sched_complete. rewrite (mbind_step _ _ _ _ _ Et).
    rewrite (mbind_step _ _ _ _ _ Hcb). exact Ef.
  - destruct (finish_rep kfree p w2 w' fl2 q2 Hrep2 Ef) as (Hrep' & Ht').
    split; [exact Hrep'|]. split; [apply a_issue_settled|exact Ht'].
Qed.

(** C9: in every run of the system (kernel code submitting requests, interrupts,
    rounds of the pump) at most one request is in flight, none waits while the
    card is idle, and the card is asked for exactly the blocks of the submitted
    requests, in the order they were submitted: what has been issued followed by
    what waits is what was submitted. *)
Theorem io_sched_fifo_order kfree invoke w0 s w :
  sched_rep w0 None [] -> sys_run kfree invoke w0 s w ->
  exists fl qs, sched_rep w fl qs /\ settled fl qs /\
    issued w ++ (snd <$> qs) = issued w0 ++ (snd <$> s).
Proof.
  intros Hrep0. induction 1 as [w|w s w1 s1 w2 H1 IH Hc|w s w1 w2 H1 IH Hi
    |w s w1 s1 req rq st w2 w3 w4 H1 IH Ht Hv Hc Hf].
  - exists None, []. rewrite app_nil_r. repeat split; auto; apply Hrep0.
  - destruct (IH Hrep0) as (fl & qs & Hrep & Hset & Heq).
    destruct (client_queue _ _ _ Hc _ _ Hrep) as (fl' & qs' & Hrep' & Hset' & Heq').
    exists fl', qs'. repeat split; auto; try apply Hrep'.
    rewrite Heq', !fmap_app, !app_assoc, Heq. reflexivity.
  - destruct (IH Hrep0) as (fl & qs & Hrep & Hset & Heq).
    destruct (irq_rep _ _ Hi) as (Hiss & Hs & Hr).
    exists fl, qs. rewrite Hiss. split; [|auto]. eapply sched_rep_agree; eauto.
  - destruct (IH Hrep0) as (fl & qs & Hrep & Hset & Heq).
    destruct (take_rep _ _ _ _ _ _ _ Hrep Ht) as (lba & -> & _ & Hrep2 & Hi2 & _).
    destruct (client_queue _ _ _ Hc _ _ Hrep2) as (fl' & qs' & Hrep3 & _ & Heq3).
    destruct (finish_rep _ _ _ _ _ _ Hrep3 Hf) as (Hrep4 & Ht4).
    exists (fst (a_issue fl' qs')), (snd (a_issue fl' qs')).
    split; [exact Hrep4|]. split; [apply a_issue_settled|].
    apply issued_app in Ht4. rewrite Ht4. simpl.
    rewrite <- app_assoc, a_issue_lbas, Heq3, Hi2, !fmap_app, !app_assoc, Heq. reflexivity.
Qed.

(** [fat_calcualte_lba] does not compute a block number: when the block lies
    within the bound it checks, it starts a read of the card itself, behind the
    scheduler's back, and returns the card's response. *)
Theorem fat_calcualte_lba_starts_read w c :
  let i := w_info w in
  let lba := u32 (Z.quot (s32 c) 512 + FAT_BEGIN_LBA i) in
  s32 lba <= s32 (FAT_SECTOR_COUNT i) ->
  exists w', fat_calcualte_lba_asm c w = Ok (w_card_r1 w, w') /\
    w_sched w' = w_sched w /\ issued w' = issued w ++ [lba].
Proof.
  intros i lba H. unfold fat_calcualte_lba_asm, mbind, get. simpl. fold i. fold lba.
  replace (s32 (FAT_SECTOR_COUNT i) <? s32 lba) with false by (symmetry; apply Z.ltb_ge; exact H).
  unfold sd_start_read, emit, mbind, get, modify, mret. simpl.
  destruct (w_card_r1 w =? 255); eexists; (split; [reflexivity|]); simpl; (split; [reflexivity|]);
    unfold issued; simpl; rewrite omap_app; reflexivity.
Qed.

(** Kernel code asks the card for nothing while a read is in flight. *)
Lemma client_busy w s w' : client w s w' -> forall e qs, sched_rep w (Some e) qs ->
  exists qs', sched_rep w' (Some e) qs' /\ issued w' = issued w.
Proof.
  induction 1 as [w w' Hk Hi|w a r w' Hr Ha Hf E|w s w1 s1 w2 H1 IH1 H2 IH2]; intros e qs Hrep; [eauto| |].
  - destruct (submit_rep w (Some e) qs a r w' Hrep Hr Ha (Hf _ _ Hrep) E) as (Hrep' & Ht & _).
    exists (qs ++ [(a, rq_lba r)]). split; [exact Hrep'|]. apply issued_app in Ht. rewrite Ht. apply app_nil_r.
  - destruct (IH1 _ _ Hrep) as (q1 & Hrep1 & E1). destruct (IH2 _ _ Hrep1) as (q2 & Hrep2 & E2).
    exists q2. split; [exact Hrep2|congruence].
Qed.

(** when the card does not answer the command of a read, the state that makes the
    interrupt handler finish it is not entered, but the scheduler is busy: whatever
    kernel code submits after that, the card is asked for nothing. *)
Theorem unanswered_read_blocks w a r w' : sched_rep w None [] -> w_reqs w !! a = Some r -> a <> 0 ->
  w_card_r1 w = 255 -> io_sched_submit a w = Ok (tt, w') ->
  w_sd_state w' = w_sd_state w /\ forall s w'', client w' s w'' -> issued w'' = issued w'.
Proof.
  intros Hrep Hr Ha Hcard E.
  destruct (submit_rep w None [] a r w' Hrep Hr Ha ltac:(apply not_elem_of_nil) E) as (Hrep' & _). simpl in Hrep'.
  split; [|intros s w'' Hc; destruct (client_busy _ _ _ Hc _ _ Hrep') as (_ & _ & H); exact H].
  destruct Hrep as (Hl & Ht & _ & Hfl & Hs). simpl in Hl.
  assert (Es : w_sched w = IoSched 0 0 0 SCHED_IDLE) by (destruct (w_sched w); simpl in *; subst; reflexivity).
  rewrite (submit_idle w a r Es Ha Hr) in E. injection E as <-. simpl. unfold asked_state. rewrite Hcard. reflexivity.
Qed.

(** ** The properties at concrete inputs *)

Module IoSchedWitness.

Definition info0 : FS_RUN_INFO := FsRunInfo 1000 5000 2000 2 4.

Definition w0 : world :=
  World ∅ (IoSched 0 0 0 SCHED_IDLE) (Ring 0 0 (replicate 8 0)) SD_STATE_IDLE 0 info0 0
    {[ 16 := IoReq 7 cb_null 0 99; 32 := IoReq 9 cb_null 0 0 ]} ∅ ∅ ∅ ∅ ∅ ∅ ∅ ∅ [] [].

Definition stub_kfree (m : mem) (p : Z) : res mem := Ok m.
Definition stub_invoke (cb : callback) (ctx st : Z) : M unit := mret tt.

Lemma w0_rep : sched_rep w0 None [].
Proof. repeat split. apply NoDup_nil. exact I. Qed.

(** The world after [io_sched_submit 16], its read in flight. *)
Definition w1 : world := match io_sched_submit 16 w0 with Ok (_, w) => w | _ => w0 end.

Lemma w1_run : io_sched_submit 16 w0 = Ok (tt, w1).
Proof. vm_compute. reflexivity. Qed.

Lemma w1_rep : sched_rep w1 (Some (16, 7)) [].
Proof.
  split; [reflexivity|]. split; [reflexivity|]. split; [apply NoDup_singleton|].
  split; [reflexivity|]. split; [reflexivity|]. split; [lia|].
  exists (IoReq 7 cb_null 0 0). split; reflexivity.
Qed.

Lemma io_sched_submit_fifo_witness : exists w', io_sched_submit 32 w1 = Ok (tt, w') /\
  sched_rep w' (Some (16, 7)) [(32, 9)].
Proof.
  destruct (io_sched_submit_fifo w1 (Some (16, 7)) [] 32 (IoReq 9 cb_null 0 0) w1_rep) as (w' & E & Hrep & _).
  - reflexivity.
  - lia.
  - simpl. rewrite list_elem_of_singleton. lia.
  - exists w'. split; [exact E|exact Hrep].
Defined.

Lemma io_sched_complete_next_witness : exists w',
  io_sched_complete stub_kfree stub_invoke w1 = Ok (tt, w') /\ sched_rep w' None [].
Proof.
  destruct (io_sched_complete_next stub_kfree stub_invoke w1 16 7 [] (IoReq 7 cb_null 0 0) 0
    (popped w1) None [] ∅ w1_rep) as (w' & E & Hrep & _).
  - reflexivity.
  - reflexivity.
  - reflexivity.
  - repeat split. apply NoDup_nil. exact I.
  - reflexivity.
  - exists w'. split; [exact E|exact Hrep].
Defined.

Lemma io_sched_fifo_order_witness : exists fl qs, sched_rep w1 fl qs /\ issued w1 ++ (snd <$> qs) = [7].
Proof.
  destruct (io_sched_fifo_order stub_kfree stub_invoke w0 [(16, 7)] w1 w0_rep) as (fl & qs & Hrep & _ & Heq).
  - apply (run_client _ _ w0 [] w0 [(16, 7)]); [apply run_nil|].
    apply (client_submit w0 16 (IoReq 7 cb_null 0 99)); [reflexivity|lia| |exact w1_run].
    intros fl qs (Hl & _ & _ & Hs). destruct fl as [[f l]|].
    + destruct Hs as (_ & Hb & _). discriminate Hb.
    + destruct qs as [|[q l] qs]; [apply not_elem_of_nil|].
      destruct Hl as (Hq & Hq0 & _). simpl in Hq. congruence.
  - exists fl, qs. split; [exact Hrep|]. exact Heq.
Defined.

Lemma fat_calcualte_lba_starts_read_witness : exists w',
  fat_calcualte_lba_asm 600 w0 = Ok (0, w') /\ w_sched w' = w_sched w0 /\ issued w' = [1001].
Proof. apply (fat_calcualte_lba_starts_read w0 600). vm_compute. congruence. Defined.

End IoSchedWitness.
