(* ===== verification/FsName.v ===== *)
(** * FAT 8.3 names and the path walker: the string functions of
    kernel/fs/fs_open.c

    A C string in the byte memory is read through [M]; the arrays [component],
    [component_83], [name] and [ext] are lists of their declared length, and an
    index outside them is undefined behaviour. Characters are unsigned, as plain
    [char] is on RISC-V. *)

From S2P Require Import Prelude Mem KWorld.

(** ** The code *)

(* kernel/fs/fs_open.c:17-20 toupper *)
Definition toupper (chr : Z) : Z := if ((97 <=? chr) && (chr <=? 122))%bool then chr - 32 else chr.

(* kernel/fs/fs_open.c:22-47 fat_valid_char *)
Definition fat_valid_char (c : Z) : bool :=
  if c <? 32 then false
  else negb (bool_decide (c ∈ [34; 42; 43; 44; 47; 58; 59; 60; 61; 62; 63; 91; 92; 93; 124])).

(** The copying loop. [out] has 13 elements, so it ends, or leaves [out], within
    14 rounds. *)
(* kernel/fs/fs_open.c:59-62 get_next_path_component *)
Fixpoint copy_component (fuel : nat) (pathcpy : Z) (out : list Z) (i : Z) : M (Z * list Z * Z) :=
  match fuel with
  | O => fun _ => NoFuel
  | S fuel =>
      let! c := load_byte pathcpy in
      if (negb (c =? 0) && negb (c =? 47))%bool then
        let! out := lift (zupd out i c) in
        copy_component fuel (pathcpy + 1) out (i + 1)
      else mret (pathcpy, out, i)
  end.

(** The returned pointer is 0 for NULL. *)
(* kernel/fs/fs_open.c:49-67 get_next_path_component *)
Definition get_next_path_component (path : Z) (out : list Z) : M (Z * list Z) :=
  let! c := load_byte path in
  let pathcpy := if c =? 47 then path + 1 else path in
  let! c := load_byte pathcpy in
  if c =? 0 then mret (0, out)
  else
    let! (pathcpy, out, i) := copy_component 14 pathcpy out 0 in
    let! out := lift (zupd out i 0) in
    mret (pathcpy, out).

(** The search for the dot: [i] is the index of [cpy]. The character it compares
    is the one after the increment, so the first one is never looked at. *)
(* kernel/fs/fs_open.c:79-86 make_fat_83_name *)
Fixpoint find_dot (fuel : nat) (input : list Z) (cpy : Z) : res (option Z) :=
  match fuel with
  | O => NoFuel
  | S fuel =>
      let* c := zget input cpy in
      if c =? 0 then Ok None
      else
        let cpy := cpy + 1 in
        let* c := zget input cpy in
        if c =? 46 then Ok (Some cpy) else find_dot fuel input cpy
  end.

(** The three copying loops of [make_fat_83_name]: characters from [input] up to
    [stop] or the end of the string, upper-cased, at most [max] of them kept.
    [None]: an invalid character. *)
(* kernel/fs/fs_open.c:94-129 make_fat_83_name *)
Fixpoint copy_upper (fuel : nat) (max : Z) (input : list Z) (i : Z) (stop : option Z) (dst : list Z) (len : Z)
  : res (option (list Z * Z)) :=
  match fuel with
  | O => NoFuel
  | S fuel =>
      let* c := zget input i in
      if ((c =? 0) || bool_decide (Some i = stop))%bool then Ok (Some (dst, len))
      else if negb (fat_valid_char c) then Ok None
      else
        let* (dst, len) :=
          (if len <? max then let* dst := zupd dst len (toupper c) in Ok (dst, len + 1)
           else Ok (dst, len)) in
        copy_upper fuel max input (i + 1) stop dst len
  end.

(** [memcpy(src, out + at, n)]. *)
Definition memcpy_into (src : list Z) (out : list Z) (at_ : Z) (n : Z) : list Z :=
  take (Z.to_nat at_) out ++ take (Z.to_nat n) src ++ drop (Z.to_nat (at_ + n)) out.

(** The result is the return value and the contents of [out]. *)
(* kernel/fs/fs_open.c:69-136 make_fat_83_name *)
Definition make_fat_83_name (input : list Z) : res (Z * list Z) :=
  let out := replicate 11 32 in
  let name := replicate 9 0 in
  let ext := replicate 4 0 in
  let fuel := S (length input) in
  let* dot := find_dot fuel input 0 in
  match dot with
  | Some dot =>
      let* r := copy_upper fuel 8 input 0 (Some dot) name 0 in
      match r with
      | None => Ok (0, out)
      | Some (name, name_len) =>
          let* r := copy_upper fuel 3 input (dot + 1) None ext 0 in
          match r with
          | None => Ok (0, out)
          | Some (ext, ext_len) =>
              Ok (1, memcpy_into ext (memcpy_into name out 0 name_len) 8 ext_len)
          end
      end
  | None =>
      let* r := copy_upper fuel 8 input 0 None name 0 in
      match r with
      | None => Ok (0, out)
      | Some (name, name_len) => Ok (1, memcpy_into ext (memcpy_into name out 0 name_len) 8 0)
      end
  end.

(* kernel/fs/fs_open.c:140-151 path_walker_advance *)
Definition path_walker_advance (w : path_walker_t) : M (Z * path_walker_t) :=
  let! (next, component) :=
    get_next_path_component (u32 (pw_full_path w + pw_offset w)) (pw_component w) in
  let w := set_pw_component component w in
  let! last := (if next =? 0 then mret true else let! c := load_byte next in mret (c =? 0)) in
  if last : bool then mret (0, set_pw_offset (-1) w)
  else
    let w := set_pw_offset (s32 (next - pw_full_path w)) w in
    let! (_, name83) := lift (make_fat_83_name (pw_component w)) in
    mret (1, set_pw_component_83 name83 w).

(* kernel/fs/fs_open.c:153-155 path_walker_has_next *)
Definition path_walker_has_next (w : path_walker_t) : bool := 0 <=? pw_offset w.

(** ** What the functions mean *)

(** [cstring w p s]: the string at [p] is [s]. *)
Fixpoint cstring (w : world) (p : Z) (s : list Z) : Prop :=
  match s with
  | [] => w_bytes w !! p = Some 0
  | c :: s => w_bytes w !! p = Some c /\ c <> 0 /\ cstring w (p + 1) s
  end.

(** The first component of a path and the rest of it. *)
Fixpoint split_component (s : list Z) : list Z * list Z :=
  match s with
  | [] => ([], [])
  | c :: s' => if c =? 47 then ([], s) else let '(a, b) := split_component s' in (c :: a, b)
  end.

(** A string padded with spaces, or cut, to [n] characters. *)
Definition pad (n : nat) (s : list Z) : list Z := take n (s ++ replicate n 32).

(** The packed form of name [n] and extension [e]. *)
Definition pack83 (n e : list Z) : list Z := pad 8 (toupper <$> n) ++ pad 3 (toupper <$> e).

(** Where a name is cut: at the first dot after the first character. *)
Fixpoint split_dot (s : list Z) : list Z * list Z :=
  match s with
  | [] => ([], [])
  | c :: s' => if c =? 46 then ([], s') else let '(a, b) := split_dot s' in (c :: a, b)
  end.

Definition name_parts (s : list Z) : list Z * list Z :=
  match s with
  | [] => ([], [])
  | c :: s' => let '(a, b) := split_dot s' in (c :: a, b)
  end.

Definition nonzero (s : list Z) : Prop := Forall (fun c => c <> 0) s.

(** ** Lemmas *)

Lemma zget_app_r {A} (pre : list A) c l : zget (pre ++ c :: l) (Z.of_nat (length pre)) = Ok c.
Proof.
  unfold zget. replace (Z.of_nat (length pre) <? 0) with false by (symmetry; apply Z.ltb_ge; lia).
  rewrite Nat2Z.id, list_lookup_middle; reflexivity.
Qed.

Lemma length_snoc_Z {A} (l : list A) x : Z.of_nat (length (l ++ [x])) = Z.of_nat (length l) + 1.
Proof. rewrite length_app. simpl. lia. Qed.

Lemma cons_snoc {A} (l : list A) x l' : l ++ x :: l' = (l ++ [x]) ++ l'.
Proof. rewrite <- app_assoc. reflexivity. Qed.

(** The dot found is the one [split_dot] cuts at. *)
Lemma find_dot_spec t : forall fuel pre c rest, c <> 0 -> nonzero t -> (length t + 1 < fuel)%nat ->
  find_dot fuel (pre ++ c :: t ++ 0 :: rest) (Z.of_nat (length pre)) =
  Ok (if decide (46 ∈ t) then Some (Z.of_nat (length pre) + 1 + Z.of_nat (length (fst (split_dot t)))) else None).
Proof.
  induction t as [|d t IH]; intros fuel pre c rest Hc Hnz Hf.
  - destruct fuel as [|[|fuel]]; [simpl in Hf; lia..|]. simpl app. cbn [find_dot].
    rewrite zget_app_r. simpl rbind. replace (c =? 0) with false by (symmetry; apply Z.eqb_neq; exact Hc).
    rewrite (cons_snoc pre c), <- (length_snoc_Z pre c), zget_app_r. simpl.
    reflexivity.
  - destruct fuel as [|fuel]; [simpl in Hf; lia|]. apply Forall_cons in Hnz as [Hd Hnz].
    simpl app. cbn [find_dot]. rewrite zget_app_r. simpl rbind.
    replace (c =? 0) with false by (symmetry; apply Z.eqb_neq; exact Hc).
    rewrite (cons_snoc pre c), <- (length_snoc_Z pre c), zget_app_r. cbn [rbind]. simpl split_dot.
    destruct (Z.eqb_spec d 46) as [->|Hd46].
    + rewrite decide_True by left. simpl. rewrite length_snoc_Z. do 2 f_equal. lia.
    + rewrite IH by (auto; simpl in Hf; lia). rewrite length_snoc_Z. f_equal.
      destruct (split_dot t) as [a b] eqn:Es. simpl.
      destruct (decide (46 ∈ t)) as [Hi|Hi].
      * rewrite decide_True by (right; exact Hi). f_equal. lia.
      * rewrite decide_False; [reflexivity|]. intros Hin. apply elem_of_cons in Hin as [E|Hin]; [lia|contradiction].
Qed.

(** What a copying loop keeps of [t]. *)
Lemma copy_upper_spec t : forall fuel max pre tail_ stop done_ z, nonzero t -> (length t < fuel)%nat ->
  (forall k, (k < length t)%nat -> stop <> Some (Z.of_nat (length pre) + Z.of_nat k)) ->
  (exists c l, tail_ = c :: l /\ (c = 0 \/ stop = Some (Z.of_nat (length pre) + Z.of_nat (length t)))) ->
  Z.of_nat (length done_) <= max <= Z.of_nat (length done_ + z) ->
  exists z', copy_upper fuel max (pre ++ t ++ tail_) (Z.of_nat (length pre)) stop
      (done_ ++ replicate z 0) (Z.of_nat (length done_)) =
    Ok (if forallb fat_valid_char t then
          let d := done_ ++ take (Z.to_nat max - length done_) (toupper <$> t) in
          Some (d ++ replicate z' 0, Z.of_nat (length d))
        else None).
Proof.
  induction t as [|c t IH]; intros fuel max pre tail_ stop done_ z Hnz Hf Hstop (e & l & -> & He) Hmax.
  - destruct fuel; [simpl in Hf; lia|]. exists z. cbn [copy_upper app]. rewrite zget_app_r. cbn [rbind].
    replace (e =? 0) with (bool_decide (e = 0)).
    2: { destruct (Z.eqb_spec e 0); case_bool_decide; congruence. }
    replace (bool_decide (e = 0) || bool_decide (Some (Z.of_nat (length pre)) = stop))%bool with true.
    2: { symmetry. apply orb_true_iff. destruct He as [-> | ->]; [left|right]; apply bool_decide_eq_true; [reflexivity|].
         simpl. f_equal. lia. }
    simpl. rewrite take_nil, app_nil_r. reflexivity.
  - destruct fuel; [simpl in Hf; lia|]. apply Forall_cons in Hnz as [Hc Hnz].
    cbn [copy_upper app]. rewrite zget_app_r. cbn [rbind].
    replace (c =? 0) with false by (symmetry; apply Z.eqb_neq; exact Hc).
    rewrite (bool_decide_eq_false_2 (Some (Z.of_nat (length pre)) = stop)).
    2: { intros <-. apply (Hstop 0%nat); [simpl; lia|]. f_equal. lia. }
    cbn [orb forallb]. destruct (fat_valid_char c); [|exists 0%nat; reflexivity]. cbn [negb andb].
    assert (Hrec : forall d z1, Z.of_nat (length d) <= max <= Z.of_nat (length d + z1) ->
      exists z', copy_upper fuel max (pre ++ c :: t ++ e :: l) (Z.of_nat (length pre) + 1) stop
        (d ++ replicate z1 0) (Z.of_nat (length d)) =
      Ok (if forallb fat_valid_char t then
          let d' := d ++ take (Z.to_nat max - length d) (toupper <$> t) in
          Some (d' ++ replicate z' 0, Z.of_nat (length d'))
        else None)).
    { intros d z1 Hd. rewrite (cons_snoc pre c), <- (length_snoc_Z pre c).
      apply (IH fuel max (pre ++ [c]) (e :: l) stop d z1 Hnz); [simpl in Hf; lia| | |exact Hd].
      - intros k Hk E. apply (Hstop (S k)); [simpl; lia|]. rewrite E, length_snoc_Z. f_equal. lia.
      - exists e, l. split; [reflexivity|]. destruct He as [He|He]; [left; exact He|right].
        rewrite He, length_snoc_Z. simpl. f_equal. lia. }
    destruct (Z.ltb_spec (Z.of_nat (length done_)) max) as [Hlt|Hge].
    + destruct z as [|z]; [lia|]. rewrite zupd_ok by (rewrite length_app, length_replicate; lia).
      cbn [rbind]. rewrite Nat2Z.id, insert_app_r_alt, Nat.sub_diag by lia. simpl replicate. simpl insert.
      destruct (Hrec (done_ ++ [toupper c]) z) as [z' Hz]; [rewrite length_app; simpl; lia|].
      exists z'. rewrite <- (length_snoc_Z done_ (toupper c)).
      rewrite (cons_snoc done_ (toupper c)), Hz. destruct (forallb fat_valid_char t); [|reflexivity].
      cbn zeta. rewrite <- !app_assoc.
      replace (Z.to_nat max - length done_)%nat with (S (Z.to_nat max - length (done_ ++ [toupper c])))
        by (rewrite length_app; simpl; lia).
      reflexivity.
    + cbn [rbind]. destruct (Hrec done_ z ltac:(lia)) as [z' Hz]. exists z'. rewrite Hz.
      replace (Z.to_nat max - length done_)%nat with 0%nat by lia. rewrite !take_0. reflexivity.
Qed.

Lemma split_dot_cat s : 46 ∈ s -> s = fst (split_dot s) ++ 46 :: snd (split_dot s).
Proof.
  induction s as [|c s IH]; intros Hin; [apply elem_of_nil in Hin; easy|]. simpl.
  destruct (Z.eqb_spec c 46) as [->|Hc]; [reflexivity|].
  apply elem_of_cons in Hin as [?|Hin]; [congruence|].
  destruct (split_dot s) as [a b]. simpl in *. f_equal. auto.
Qed.

Lemma split_dot_none s : 46 ∉ s -> split_dot s = (s, []).
Proof.
  induction s as [|c s IH]; intros Hin; [reflexivity|]. simpl.
  apply not_elem_of_cons in Hin as [Hc Hin].
  destruct (Z.eqb_spec c 46); [congruence|]. rewrite (IH Hin). reflexivity.
Qed.

Lemma memcpy_into_mid (src a b c : list Z) at_ n :
  at_ = Z.of_nat (length a) -> n = Z.of_nat (length b) ->
  memcpy_into src (a ++ b ++ c) at_ n = a ++ take (length b) src ++ c.
Proof.
  intros -> ->. unfold memcpy_into. rewrite Nat2Z.id, take_app_length. f_equal.
  replace (Z.to_nat (Z.of_nat (length a) + Z.of_nat (length b))) with (length a + length b)%nat by lia.
  rewrite Nat2Z.id, <- drop_drop, !drop_app_length. reflexivity.
Qed.

Lemma pad_short k (s : list Z) : (length s <= k)%nat -> pad k s = s ++ replicate (k - length s) 32.
Proof.
  intros H. unfold pad. rewrite take_app, take_replicate, take_ge by lia. do 2 f_equal. lia.
Qed.

Lemma pad_take k (s : list Z) : pad k (take k s) = pad k s.
Proof.
  unfold pad. rewrite !take_app, !take_replicate, take_take, length_take.
  replace (k `min` k)%nat with k by lia. do 2 f_equal. lia.
Qed.

Lemma memcpy_pack (n e zn ze : list Z) :
  (length n <= 8)%nat -> (length e <= 3)%nat ->
  memcpy_into (e ++ ze) (memcpy_into (n ++ zn) (replicate 11 32) 0 (Z.of_nat (length n))) 8 (Z.of_nat (length e)) =
  pad 8 n ++ pad 3 e.
Proof.
  intros Hn He. rewrite !pad_short by lia.
  replace (replicate 11 32) with
    ([] ++ replicate (length n) 32 ++ replicate (8 - length n) 32 ++ replicate (length e) 32 ++ replicate (3 - length e) 32).
  2: { rewrite app_nil_l, <- !replicate_add. f_equal. lia. }
  rewrite memcpy_into_mid by (rewrite ?length_replicate; reflexivity).
  rewrite length_replicate, take_app_length, app_nil_l, app_assoc.
  rewrite memcpy_into_mid by (rewrite ?length_app, ?length_replicate; lia).
  rewrite length_replicate, take_app_length, <- !app_assoc. reflexivity.
Qed.

(** A whole string copied from its beginning into a zeroed buffer. *)
Lemma copy_upper_all t fuel max pre tail_ stop (z : nat) : nonzero t -> (length t < fuel)%nat ->
  (forall k, (k < length t)%nat -> stop <> Some (Z.of_nat (length pre) + Z.of_nat k)) ->
  (exists c l, tail_ = c :: l /\ (c = 0 \/ stop = Some (Z.of_nat (length pre) + Z.of_nat (length t)))) ->
  0 <= max <= Z.of_nat z ->
  exists z', copy_upper fuel max (pre ++ t ++ tail_) (Z.of_nat (length pre)) stop (replicate z 0) 0 =
    Ok (if forallb fat_valid_char t then
          let d := take (Z.to_nat max) (toupper <$> t) in
          Some (d ++ replicate z' 0, Z.of_nat (length d))
        else None).
Proof.
  intros Hnz Hf Hs He Hm.
  destruct (copy_upper_spec t fuel max pre tail_ stop [] z Hnz Hf Hs He) as [z' E]; [exact Hm|].
  exists z'. rewrite Nat.sub_0_r in E. exact E.
Qed.

Lemma make_fat_83_name_aux s rest : nonzero s ->
  make_fat_83_name (s ++ 0 :: rest) =
    let '(n, e) := name_parts s in
    Ok (if (forallb fat_valid_char n && forallb fat_valid_char e)%bool then (1, pack83 n e)
        else (0, replicate 11 32)).
Proof.
  intros Hnz. unfold make_fat_83_name. set (fuel := S (length (s ++ 0 :: rest))).
  assert (Hfuel : (length s + 1 < fuel)%nat) by (subst fuel; rewrite length_app; simpl; lia).
  destruct s as [|c t].
  { reflexivity. }
  pose proof Hnz as [Hc Ht]%Forall_cons.
  pose proof (find_dot_spec t fuel [] c rest Hc Ht ltac:(simpl in Hfuel; lia)) as Hdot.
  change ([] ++ c :: t ++ 0 :: rest) with ((c :: t) ++ 0 :: rest) in Hdot.
  change (Z.of_nat (length (@nil Z))) with 0 in Hdot. rewrite Hdot. clear Hdot. cbn [rbind].
  simpl name_parts. destruct (decide (46 ∈ t)) as [Hin|Hin].
  - pose proof (split_dot_cat t Hin) as Hcat. destruct (split_dot t) as [a e]. simpl in Hcat. cbn [fst].
    assert (Hnz' : nonzero (c :: a) /\ nonzero e).
    { subst t. apply Forall_app in Ht as [Ha [_ He]%Forall_cons]. split; [apply Forall_cons|]; auto. }
    destruct Hnz' as [Hnza Hnze].
    assert (Ein : (c :: t) ++ 0 :: rest = [] ++ (c :: a) ++ 46 :: e ++ 0 :: rest)
      by (subst t; simpl; rewrite <- app_assoc; reflexivity).
    assert (Ein2 : (c :: t) ++ 0 :: rest = ((c :: a) ++ [46]) ++ e ++ 0 :: rest)
      by (subst t; simpl; rewrite <- !app_assoc; reflexivity).
    assert (Hla : (length (c :: a) < fuel)%nat /\ (length e < fuel)%nat)
      by (subst t; simpl in Hfuel; rewrite length_app in Hfuel; simpl in *; lia).
    rewrite Ein.
    destruct (copy_upper_all (c :: a) fuel 8 [] (46 :: e ++ 0 :: rest) (Some (0 + 1 + Z.of_nat (length a))) 9)
      as [z1 E1]; [exact Hnza|apply Hla| | |lia|].
    { intros k Hk [= E]. simpl in *. lia. }
    { exists 46, (e ++ 0 :: rest). split; [reflexivity|]. right. f_equal. simpl. lia. }
    change (Z.of_nat (length (@nil Z))) with 0 in E1. rewrite E1. cbn [rbind]. rewrite <- Ein.
    destruct (forallb fat_valid_char (c :: a)); [|reflexivity]. cbn zeta iota. cbn [andb].
    rewrite Ein2.
    destruct (copy_upper_all e fuel 3 ((c :: a) ++ [46]) (0 :: rest) None 4)
      as [z2 E2]; [exact Hnze|apply Hla|discriminate| |lia|].
    { exists 0, rest. auto. }
    replace (0 + 1 + Z.of_nat (length a) + 1) with (Z.of_nat (length ((c :: a) ++ [46])))
      by (rewrite length_app; simpl; lia).
    rewrite E2. cbn [rbind]. destruct (forallb fat_valid_char e); [|reflexivity]. cbn zeta iota.
    rewrite memcpy_pack by (rewrite length_take; lia).
    unfold pack83. change (Z.to_nat 8) with 8%nat. change (Z.to_nat 3) with 3%nat. rewrite !pad_take. reflexivity.
  - rewrite (split_dot_none t Hin).
    destruct (copy_upper_all (c :: t) fuel 8 [] (0 :: rest) None 9)
      as [z1 E1]; [exact Hnz|simpl in *; lia|discriminate| |lia|].
    { exists 0, rest. auto. }
    change ([] ++ (c :: t) ++ 0 :: rest) with ((c :: t) ++ 0 :: rest) in E1.
    change (Z.of_nat (length (@nil Z))) with 0 in E1. rewrite E1. cbn [rbind].
    destruct (forallb fat_valid_char (c :: t)); [|reflexivity]. cbn zeta iota. cbn [forallb andb].
    pose proof (memcpy_pack (take 8 (toupper <$> c :: t)) [] (replicate z1 0) (replicate 4 0)
      ltac:(rewrite length_take; lia) ltac:(simpl; lia)) as E.
    rewrite pad_take in E. exact (f_equal (fun x => Ok (1, x)) E).
Qed.

(** ** The path walker *)

Lemma copy_component_spec s : forall fuel p pre suf w, cstring w p s ->
  let a := fst (split_component s) in
  ((length a < fuel)%nat -> (length a <= length suf)%nat ->
   copy_component fuel p (pre ++ suf) (Z.of_nat (length pre)) w =
     Ok (p + Z.of_nat (length a), pre ++ a ++ drop (length a) suf, Z.of_nat (length pre + length a), w)) /\
  ((length suf < fuel)%nat -> (length suf < length a)%nat ->
   copy_component fuel p (pre ++ suf) (Z.of_nat (length pre)) w = Undef).
Proof.
  induction s as [|c s IH]; intros fuel p pre suf w Hs a.
  - subst a. simpl. split; [|lia]. intros Hf _. destruct fuel; [lia|].
    cbn [copy_component]. unfold mbind, load_byte, mret. rewrite Hs. simpl.
    rewrite Z.add_0_r, Nat.add_0_r, drop_0. reflexivity.
  - destruct Hs as (Hc & Hc0 & Hs).
    assert (Hstep : forall fuel, copy_component (S fuel) p (pre ++ suf) (Z.of_nat (length pre)) w =
      if c =? 47 then Ok (p, pre ++ suf, Z.of_nat (length pre), w)
      else let* out := zupd (pre ++ suf) (Z.of_nat (length pre)) c in
           copy_component fuel (p + 1) out (Z.of_nat (length pre) + 1) w).
    { intros f. cbn [copy_component]. unfold mbind at 1, load_byte. rewrite Hc. simpl.
      replace (c =? 0) with false by (symmetry; apply Z.eqb_neq; exact Hc0). simpl.
      destruct (c =? 47); [reflexivity|]. simpl. unfold mbind, lift. 
      destruct (zupd (pre ++ suf) (Z.of_nat (length pre)) c); reflexivity. }
    subst a. simpl split_component. destruct (Z.eqb_spec c 47) as [->|Hc47].
    + simpl. split; [|lia]. intros Hf _. destruct fuel; [lia|]. rewrite Hstep. simpl.
      rewrite Z.add_0_r, Nat.add_0_r, drop_0. reflexivity.
    + specialize (IH (pred fuel) (p + 1) (pre ++ [c]) (tl suf) w Hs).
      destruct (split_component s) as [a b]. cbn [fst] in *. destruct IH as [IH1 IH2].
      destruct suf as [|x suf].
      * split; [intros _ Hl; simpl in Hl; lia|]. intros Hf _. destruct fuel; [simpl in Hf; lia|]. rewrite Hstep.
        unfold zupd. rewrite app_nil_r. replace (_ && _)%bool with false; [reflexivity|].
        symmetry. apply andb_false_iff. right. apply Z.ltb_ge. lia.
      * change (list.tail (x :: suf)) with suf in *. rewrite length_snoc_Z, <- app_assoc in *. cbn [app length pred] in *.
        assert (Hz : zupd (pre ++ x :: suf) (Z.of_nat (length pre)) c = Ok (pre ++ c :: suf)).
        { rewrite zupd_ok by (rewrite length_app; simpl; lia). f_equal.
          rewrite Nat2Z.id, insert_app_r_alt, Nat.sub_diag by lia. reflexivity. }
        split; intros Hf Hl; (destruct fuel; [lia|]); rewrite Hstep, Hz; cbn [rbind]; cbn [pred] in *.
        -- rewrite IH1 by (simpl in *; lia). rewrite <- app_assoc, length_app. simpl.
           replace (p + 1 + Z.of_nat (length a)) with (p + Z.of_nat (S (length a))) by lia.
           replace (length pre + 1 + length a)%nat with (length pre + S (length a))%nat by lia. reflexivity.
        -- apply IH2; simpl in *; lia.
Qed.

(** The rest of a path after its leading slash. *)
Definition drop_slash (s : list Z) : list Z := match s with 47 :: s' => s' | _ => s end.

(** [skipped s]: how many characters the first component takes, its slash included. *)
Definition skipped (s : list Z) : Z :=
  Z.of_nat (length s - length (drop_slash s)) + Z.of_nat (length (fst (split_component (drop_slash s)))).

Lemma drop_slash_cases s : drop_slash s = s \/ exists s', s = 47 :: s' /\ drop_slash s = s'.
Proof.
  destruct s as [|c s]; [left; reflexivity|].
  destruct (Z.eq_dec c 47) as [->|E]; [right; eauto|left].
  destruct c as [|q|q]; try reflexivity. do 6 (destruct q as [q|q|]; try reflexivity). congruence.
Qed.

Lemma get_next_path_component_aux w p s out : cstring w p s -> length out = 13%nat ->
  let c := fst (split_component (drop_slash s)) in
  get_next_path_component p out w =
    if bool_decide (drop_slash s = []) then Ok (0, out, w)
    else if (length c <=? 12)%nat
         then Ok (p + skipped s, c ++ 0 :: drop (S (length c)) out, w)
         else Undef.
Proof.
  intros Hs Hlen c. unfold get_next_path_component.
  assert (Hq : exists d0, load_byte p w = Ok (d0, w) /\
    let q := if d0 =? 47 then p + 1 else p in
    q = p + Z.of_nat (length s - length (drop_slash s)) /\ cstring w q (drop_slash s)).
  { unfold load_byte. destruct (drop_slash_cases s) as [E|(s' & -> & E)]; rewrite E.
    - replace (p + Z.of_nat _) with p by lia. destruct s as [|d s]; simpl in Hs.
      + rewrite Hs. exists 0. auto.
      + pose proof Hs as (Hd & _). rewrite Hd. exists d. split; [reflexivity|].
        destruct (Z.eqb_spec d 47) as [->|]; [|split; [reflexivity|exact Hs]].
        exfalso. simpl in E. apply (f_equal length) in E. simpl in E. lia.
    - destruct Hs as (Hd & _ & Hs). rewrite Hd. exists 47. simpl. split; [reflexivity|].
      split; [lia|exact Hs]. }
  destruct Hq as (d0 & Hd0 & Hqv & Hqs). rewrite (mbind_step _ _ _ _ _ Hd0). cbv zeta.
  set (q := if d0 =? 47 then p + 1 else p) in *.
  unfold mbind at 1, load_byte.
  destruct (drop_slash s) as [|d t] eqn:Et.
  - simpl in Hqs. rewrite Hqs. simpl. reflexivity.
  - pose proof Hqs as (Hd & Hdz & _). rewrite Hd. simpl of_option. cbn [rbind].
    replace (d =? 0) with false by (symmetry; apply Z.eqb_neq; exact Hdz).
    rewrite bool_decide_eq_false_2 by discriminate.
    destruct (copy_component_spec (d :: t) 14 q [] out w Hqs) as [H1 H2].
    fold c in H1, H2. unfold mbind at 1.
    change (Z.of_nat (length [])) with 0 in *. rewrite app_nil_l in *.
    destruct (Nat.leb_spec (length c) 12) as [Hc|Hc].
    + rewrite H1 by lia. cbn [rbind]. unfold mbind, lift, mret. rewrite !app_nil_l.
      rewrite zupd_ok by (rewrite length_app, length_drop; simpl; lia). cbn [rbind].
      rewrite Nat2Z.id. simpl Nat.add.
      destruct (drop (length c) out) as [|x l] eqn:Eo.
      { apply (f_equal length) in Eo. rewrite length_drop in Eo. simpl in Eo. lia. }
      rewrite insert_app_r_alt, Nat.sub_diag by lia. simpl. f_equal. f_equal. f_equal.
      * unfold skipped. rewrite Et. fold c. rewrite Hqv. lia.
      * f_equal. f_equal. replace (S (length c)) with (length c + 1)%nat by lia.
        rewrite <- drop_drop, Eo. reflexivity.
    + destruct (Nat.eq_dec (length c) 13) as [E13|E13].
      * rewrite H1 by lia. cbn [rbind]. unfold mbind, lift, mret. rewrite !app_nil_l.
        unfold zupd. replace (_ && _)%bool with false; [reflexivity|]. symmetry. apply andb_false_iff. right.
        apply Z.ltb_ge. rewrite length_app, length_drop. simpl. lia.
      * rewrite H2 by lia. reflexivity.
Qed.

(** The remaining string after the first component. *)
Definition rest_of (s : list Z) : list Z := snd (split_component (drop_slash s)).

Lemma split_component_cat s : s = fst (split_component s) ++ snd (split_component s).
Proof.
  induction s as [|c s IH]; [reflexivity|]. simpl. destruct (c =? 47); [reflexivity|].
  destruct (split_component s). simpl in *. congruence.
Qed.

Lemma cstring_app w s1 : forall p s2, cstring w p (s1 ++ s2) -> cstring w (p + Z.of_nat (length s1)) s2.
Proof.
  induction s1 as [|c s1 IH]; simpl; intros p s2 H; [rewrite Z.add_0_r; exact H|].
  destruct H as (_ & _ & H). apply IH in H.
  replace (p + Z.of_nat (S (length s1))) with (p + 1 + Z.of_nat (length s1)) by lia. exact H.
Qed.

Lemma cstring_rest w p s : cstring w p s -> cstring w (p + skipped s) (rest_of s).
Proof.
  intros Hs. unfold skipped, rest_of. rewrite Z.add_assoc. apply cstring_app.
  rewrite <- split_component_cat.
  destruct (drop_slash_cases s) as [E|(s' & -> & E)]; rewrite E.
  - rewrite Nat.sub_diag, Z.add_0_r. exact Hs.
  - destruct Hs as (_ & _ & Hs). simpl length. replace (S (length s') - length s')%nat with 1%nat by lia. exact Hs.
Qed.

Lemma path_walker_advance_aux wk w s :
  let p := pw_full_path wk + pw_offset wk in
  let c := fst (split_component (drop_slash s)) in
  cstring w p s -> length (pw_component wk) = 13%nat -> (length c <= 12)%nat -> drop_slash s <> [] ->
  0 <= p < 4294967296 -> 0 < p + skipped s -> 0 <= pw_offset wk + skipped s < 2147483648 ->
  exists comp, take (S (length c)) comp = c ++ [0] /\ length comp = 13%nat /\
  path_walker_advance wk w =
    if bool_decide (rest_of s = []) then
      Ok (0, PathWalker (pw_full_path wk) (-1) comp (pw_component_83 wk), w)
    else let* (_, n83) := make_fat_83_name comp in
         Ok (1, PathWalker (pw_full_path wk) (pw_offset wk + skipped s) comp n83, w).
Proof.
  intros p c Hs Hlen Hc Hne Hp Hp0 Hoff.
  exists (c ++ 0 :: drop (S (length c)) (pw_component wk)).
  split; [|split].
  { rewrite take_app, take_ge by lia. replace (S (length c) - length c)%nat with 1%nat by lia.
    simpl. rewrite take_0. reflexivity. }
  { rewrite length_app. simpl length. rewrite length_drop. lia. }
  unfold path_walker_advance. rewrite u32_id by exact Hp. fold p.
  pose proof (get_next_path_component_aux w p s (pw_component wk) Hs Hlen) as Hg. cbv zeta in Hg. fold c in Hg.
  rewrite bool_decide_eq_false_2 in Hg by exact Hne.
  replace (length c <=? 12)%nat with true in Hg by (symmetry; apply Nat.leb_le; exact Hc).
  rewrite (mbind_step _ _ _ _ _ Hg). cbn iota zeta.
  replace (p + skipped s =? 0) with false by (symmetry; apply Z.eqb_neq; lia).
  apply cstring_rest in Hs. unfold mbind, load_byte, lift, mret.
  destruct (rest_of s) as [|d t].
  - simpl in Hs. rewrite Hs. reflexivity.
  - destruct Hs as (Hd & Hd0 & _). rewrite Hd. simpl.
    replace (d =? 0) with false by (symmetry; apply Z.eqb_neq; exact Hd0).
    destruct (make_fat_83_name _) as [[v n83]| |]; simpl; [|reflexivity..].
    replace (p + skipped s - pw_full_path wk) with (pw_offset wk + skipped s) by lia.
    rewrite s32_id by lia. reflexivity.
Qed.

(** ** Properties *)

(** C30: on every string [make_fat_83_name] computes the packed directory name:
    the name is cut at the first dot after its first character, each part is
    upper-cased, cut to 8 and 3 characters and padded with spaces; if either part
    has a character FAT forbids the result is 0 and the field is all spaces. *)
Theorem make_fat_83_name_packs s rest : nonzero s ->
  make_fat_83_name (s ++ 0 :: rest) =
    let '(n, e) := name_parts s in
    Ok (if (forallb fat_valid_char n && forallb fat_valid_char e)%bool then (1, pack83 n e)
        else (0, replicate 11 32)).
Proof. apply make_fat_83_name_aux. Qed.

(** [get_next_path_component] copies the characters up to the next slash, and
    returns NULL for an exhausted path. Nothing bounds the copy: a component of 13
    characters or more is written past the end of the 13-byte array. *)
Theorem get_next_path_component_spec w p s out : cstring w p s -> length out = 13%nat ->
  let c := fst (split_component (drop_slash s)) in
  get_next_path_component p out w =
    if bool_decide (drop_slash s = []) then Ok (0, out, w)
    else if (length c <=? 12)%nat
         then Ok (p + skipped s, c ++ 0 :: drop (S (length c)) out, w)
         else Undef.
Proof. apply get_next_path_component_aux. Qed.

(** one step of the walker. While another component follows, the walker moves
    past the current one and packs its name. On the last component it copies the
    text but does not pack it: [component_83] still holds the name of the component
    before it, and the walk is marked as finished. *)
Theorem path_walker_advance_spec wk w s :
  let p := pw_full_path wk + pw_offset wk in
  let c := fst (split_component (drop_slash s)) in
  cstring w p s -> length (pw_component wk) = 13%nat -> (length c <= 12)%nat -> drop_slash s <> [] ->
  0 <= p < 4294967296 -> 0 < p + skipped s -> 0 <= pw_offset wk + skipped s < 2147483648 ->
  exists comp, take (S (length c)) comp = c ++ [0] /\ length comp = 13%nat /\
  path_walker_advance wk w =
    if bool_decide (rest_of s = []) then
      Ok (0, PathWalker (pw_full_path wk) (-1) comp (pw_component_83 wk), w)
    else let* (_, n83) := make_fat_83_name comp in
         Ok (1, PathWalker (pw_full_path wk) (pw_offset wk + skipped s) comp n83, w).
Proof. apply path_walker_advance_aux. Qed.

(** the dot of a hidden or parent entry is not special to the name packer: ".."
    is cut after its first character, so the packed name of the parent directory is
    that of the directory itself, and ".." can never be resolved. *)
Theorem dotdot_packs_as_dot r1 r2 :
  make_fat_83_name (46 :: 46 :: 0 :: r1) = make_fat_83_name (46 :: 0 :: r2) /\
  make_fat_83_name (46 :: 46 :: 0 :: r1) = Ok (1, 46 :: replicate 10 32).
Proof.
  split; [|exact (make_fat_83_name_aux [46; 46] r1 ltac:(repeat constructor; lia))].
  transitivity (Ok (1, 46 :: replicate 10 32)).
  - exact (make_fat_83_name_aux [46; 46] r1 ltac:(repeat constructor; lia)).
  - symmetry. exact (make_fat_83_name_aux [46] r2 ltac:(repeat constructor; lia)).
Qed.

(** ** The properties at concrete inputs *)

Module FsNameWitness.

(** "Kernel.elf" *)
Definition name0 : list Z := [75; 101; 114; 110; 101; 108; 46; 101; 108; 102].

Lemma make_fat_83_name_packs_witness :
  make_fat_83_name (name0 ++ [0]) = Ok (1, [75; 69; 82; 78; 69; 76; 32; 32; 69; 76; 70]).
Proof. apply (make_fat_83_name_packs name0 []). repeat (constructor; [lia|]). constructor. Defined.

(** A world whose bytes at 64 are the string "/bin/sh". *)
Definition wpath : world :=
  World ∅ (IoSched 0 0 0 SCHED_IDLE) (Ring 0 0 (replicate 8 0)) SD_STATE_IDLE 0
    (FsRunInfo 0 0 0 0 0) 0 ∅ ∅ ∅ ∅ ∅ ∅ ∅ ∅
    (list_to_map (zip (Z.of_nat <$> seq 64 8) [47; 98; 105; 110; 47; 115; 104; 0])) [] [].

Lemma wpath_string : cstring wpath 64 [47; 98; 105; 110; 47; 115; 104].
Proof. repeat split; try (vm_compute; reflexivity); lia. Qed.

Lemma get_next_path_component_spec_witness :
  get_next_path_component 64 (replicate 13 0) wpath =
  Ok (68, [98; 105; 110; 0; 0; 0; 0; 0; 0; 0; 0; 0; 0], wpath).
Proof. exact (get_next_path_component_spec wpath 64 _ (replicate 13 0) wpath_string eq_refl). Defined.

Lemma path_walker_advance_spec_witness : exists comp,
  path_walker_advance (PathWalker 64 0 (replicate 13 0) (replicate 11 32)) wpath =
  let* (_, n83) := make_fat_83_name comp in Ok (1, PathWalker 64 4 comp n83, wpath).
Proof.
  destruct (path_walker_advance_spec (PathWalker 64 0 (replicate 13 0) (replicate 11 32)) wpath _ wpath_string)
    as (comp & _ & _ & E); [reflexivity|simpl; lia|discriminate|simpl; lia|vm_compute; reflexivity|vm_compute; split; congruence|].
  exists comp. exact E.
Defined.

End FsNameWitness.
