(* ===== verification/FsSeek.v ===== *)
(** * Seeking: kernel/fs/fs_seek.c

    A seek that stays in the current cluster, or lands in the first one, completes
    at once; any other seek walks the FAT chain, one sector read per hop. The FAT
    driver ([fat_calcualte_lba], [get_next_cluster]) is a parameter: Kernel.v
    passes the assembly routines. *)

From S2P Require Import Prelude Mem KWorld IoSched.

(** ** The code *)

(* include/io/fs/fs_seek.h:30-34 seek_whence *)
Definition SEEK_SET : Z := 0.
Definition SEEK_CUR : Z := 1.
Definition SEEK_END : Z := 2.

Definition sizeof_io_sched_req : Z := 16.
Definition sizeof_fs_seek_ctx : Z := 36.

(* kernel/fs/fs_seek.c:13-24 seek_decompose *)
Definition seek_decompose (offset : Z) : M seek_position_t :=
  let bytes_per_sector := 512 in
  let! i := get w_info in
  let sectors_per_clus := SECTORS_PER_CLUSTER i in
  let bytes_per_cluster := u32 (bytes_per_sector * sectors_per_clus) in
  if bytes_per_cluster =? 0 then mundef
  else
    let off_in_clus := offset mod bytes_per_cluster in
    mret (SeekPos (offset / bytes_per_cluster) (u8 (off_in_clus / bytes_per_sector))
            (u16 (off_in_clus mod bytes_per_sector))).

Section Seek.

Context (kmalloc : mem -> Z -> res (Z * mem)) (kfree : mem -> Z -> res mem).
Context (fat_calcualte_lba get_next_cluster : Z -> M Z).
Context (invoke : callback -> Z -> Z -> M unit).

(* kernel/fs/fs_seek.c:27-33 fs_seek_post_io *)
Definition fs_seek_post_io (ctx lba : Z) : M unit :=
  let! req := k_alloc kmalloc sizeof_io_sched_req in
  do! store req (IoReq lba cb_fs_seek_step ctx 0) in
  io_sched_submit req.

(** [file] now points at byte [target] of the cluster it is in. *)
(* kernel/fs/fs_seek.c:66-68 fs_seek_submit *)
Definition seek_in_cluster (file : Z) (target : seek_position_t) (target_offset : Z) : M unit :=
  update file (fun f => set_f_file_offset target_offset
    (set_f_current_byte (sp_byte_in_sector target)
      (set_f_current_sector (sp_sector_in_cluster target) f))).

(* kernel/fs/fs_seek.c:35-88 fs_seek_submit *)
Definition fs_seek_submit (file target_offset : Z) (on_complete : callback) (caller_ctx : Z) : M unit :=
  let! f := load file in
  if f_file_size f <? target_offset then invoke on_complete caller_ctx (-1)
  else
    let! target := seek_decompose target_offset in
    let! current := seek_decompose (f_file_offset f) in
    let '(start_cluster, start_cluster_index) :=
      if sp_cluster_index current <=? sp_cluster_index target
      then (f_current_cluster f, sp_cluster_index current)
      else (f_first_cluster f, 0) in
    let clusters_to_skip := u32 (sp_cluster_index target - start_cluster_index) in
    if clusters_to_skip =? 0 then
      do! seek_in_cluster file target target_offset in
      invoke on_complete caller_ctx 0
    else
      let! ctx := k_alloc kmalloc sizeof_fs_seek_ctx in
      do! store ctx (FsSeekCtx FS_SEEK_WALK_FAT file start_cluster clusters_to_skip target
            target_offset on_complete caller_ctx) in
      let! fat_lba := fat_calcualte_lba start_cluster in
      fs_seek_post_io ctx fat_lba.

(* kernel/fs/fs_seek.c:90-99 fs_seek_whence *)
Definition fs_seek_whence (file offset whence : Z) (on_complete : callback) (ctx : Z) : M unit :=
  if whence =? SEEK_SET then fs_seek_submit file (u32 offset) on_complete ctx
  else if whence =? SEEK_CUR then
    let! f := load file in fs_seek_submit file (u32 (f_file_offset f + offset)) on_complete ctx
  else if whence =? SEEK_END then
    let! f := load file in fs_seek_submit file (u32 (f_file_size f + offset)) on_complete ctx
  else invoke on_complete ctx (-1).

(* kernel/fs/fs_seek.c:101-107 fs_seek_finish *)
Definition fs_seek_finish (ctx : Z) : M unit :=
  let! c := load ctx in
  let ok := match sc_state c with FS_SEEK_DONE => 0 | _ => -1 end in
  do! k_free kfree ctx in
  invoke (sc_on_complete c) (sc_caller_ctx c) ok.

(** The tail of the step, once the next cluster of the chain is known. *)
(* kernel/fs/fs_seek.c:117-138 fs_seek_step *)
Definition fs_seek_hop (raw_ctx next : Z) : M unit :=
  if ((268435448 <=? next) || (next =? 0))%bool then
    do! update raw_ctx (set_sc_state FS_SEEK_ERROR) in
    fs_seek_finish raw_ctx
  else
    do! update raw_ctx (set_sc_current_cluster next) in
    do! update raw_ctx (fun c => set_sc_clusters_remaining (u32 (sc_clusters_remaining c - 1)) c) in
    let! c := load raw_ctx in
    if sc_clusters_remaining c =? 0 then
      do! update (sc_file c) (set_f_current_cluster (sc_current_cluster c)) in
      do! seek_in_cluster (sc_file c) (sc_target c) (sc_target_offset c) in
      do! update raw_ctx (set_sc_state FS_SEEK_DONE) in
      fs_seek_finish raw_ctx
    else
      let! fat_lba := fat_calcualte_lba (sc_current_cluster c) in
      fs_seek_post_io raw_ctx fat_lba.

(* kernel/fs/fs_seek.c:110-139 fs_seek_step *)
Definition fs_seek_step (raw_ctx status : Z) : M unit :=
  if negb (status =? 0) then
    do! update raw_ctx (set_sc_state FS_SEEK_ERROR) in
    fs_seek_finish raw_ctx
  else
    let! c := load raw_ctx in
    let! next := get_next_cluster (sc_current_cluster c) in
    fs_seek_hop raw_ctx next.

End Seek.

(** ** Positions

    The FAT is the function [next]; [walk next n c] is the cluster [n] hops after
    [c], if the chain goes that far. *)

Definition end_of_chain (c : Z) : bool := ((268435448 <=? c) || (c =? 0))%bool.

Fixpoint walk (next : Z -> Z) (n : nat) (c : Z) : option Z :=
  match n with
  | O => Some c
  | S n => if end_of_chain (next c) then None else walk next n (next c)
  end.

(** Bytes per cluster. *)
Definition bpc (w : world) : Z := 512 * SECTORS_PER_CLUSTER (w_info w).

Definition geometry_ok (w : world) : Prop := 1 <= SECTORS_PER_CLUSTER (w_info w) < 256.

(** The position of byte [off]. *)
Definition pos_of (w : world) (off : Z) : seek_position_t :=
  SeekPos (off / bpc w) (off mod bpc w / 512) (off mod 512).

(** The fields of an open file describe byte [f_file_offset] of the file. *)
Definition file_ok (next : Z -> Z) (w : world) (f : FILE) : Prop :=
  is_u32 (f_file_offset f) /\ is_u32 (f_file_size f) /\
  walk next (Z.to_nat (f_file_offset f / bpc w)) (f_first_cluster f) = Some (f_current_cluster f) /\
  f_current_sector f = f_file_offset f mod bpc w / 512 /\
  f_current_byte f = f_file_offset f mod 512.

(** What the seek needs of the FAT driver. [loaded w lba]: the sector buffer holds
    block [lba]. The driver may talk to the card but leaves the kernel's own
    structures alone. *)
Definition keeps (w w' : world) : Prop :=
  w_seeks w' = w_seeks w /\ w_files w' = w_files w /\ w_sched w' = w_sched w /\
  w_reqs w' = w_reqs w /\ w_heap w' = w_heap w /\ w_info w' = w_info w.

Class FatDriver (fat_calcualte_lba get_next_cluster : Z -> M Z) (loaded : world -> Z -> Prop)
  (lba_of next : Z -> Z) := {
  fd_lba : forall c w, exists w', fat_calcualte_lba c w = Ok (lba_of c, w') /\ keeps w w';
  fd_next : forall c w, loaded w (lba_of c) ->
    exists w', get_next_cluster c w = Ok (next c, w') /\ keeps w w';
}.

(** ** Lemmas *)

Lemma walk_snoc next n : forall c, walk next (S n) c =
  match walk next n c with Some d => if end_of_chain (next d) then None else Some (next d) | None => None end.
Proof.
  induction n as [|n IH]; intros c; [simpl; case_test; reflexivity|].
  change (walk next (S (S n)) c) with (if end_of_chain (next c) then None else walk next (S n) (next c)).
  change (walk next (S n) c) with (if end_of_chain (next c) then None else walk next n (next c)).
  destruct (end_of_chain (next c)); [reflexivity|]. apply IH.
Qed.

Lemma walk_add next m : forall n c d, walk next n c = Some d -> walk next (n + m) c = walk next m d.
Proof.
  induction n as [|n IH]; simpl; intros c d H; [congruence|].
  destruct (end_of_chain (next c)); [discriminate|]. apply IH. exact H.
Qed.

Lemma seek_decompose_ok w off : geometry_ok w -> is_u32 off -> seek_decompose off w = Ok (pos_of w off, w).
Proof.
  intros Hg Ho. unfold geometry_ok in Hg. unfold is_u32 in Ho. unfold seek_decompose, mbind, get, mret, pos_of.
  assert (Hb : 512 <= bpc w < 131072) by (unfold bpc; lia).
  cbn [rbind]. change (512 * SECTORS_PER_CLUSTER (w_info w)) with (bpc w).
  replace (u32 (bpc w)) with (bpc w) by (symmetry; apply u32_id; lia).
  replace (bpc w =? 0) with false by (symmetry; apply Z.eqb_neq; lia).
  pose proof (Z.mod_pos_bound off (bpc w) ltac:(lia)).
  assert (off mod bpc w mod 512 = off mod 512).
  { apply Z.mod_mod_divide.
    exists (SECTORS_PER_CLUSTER (w_info w)). unfold bpc. lia. }
  do 3 f_equal.
  - apply u8_id. split; [apply Z.div_pos; lia|]. apply Z.div_lt_upper_bound; unfold bpc in *; lia.
  - unfold u16. rewrite H0. apply Z.mod_small. dlia.
Qed.

Lemma pos_exact w off : geometry_ok w -> is_u32 off ->
  off = sp_cluster_index (pos_of w off) * bpc w + sp_sector_in_cluster (pos_of w off) * 512 +
        sp_byte_in_sector (pos_of w off) /\
  0 <= sp_sector_in_cluster (pos_of w off) < SECTORS_PER_CLUSTER (w_info w) /\
  0 <= sp_byte_in_sector (pos_of w off) < 512.
Proof.
  intros Hg Ho. unfold geometry_ok in Hg. unfold is_u32 in Ho. unfold pos_of; simpl.
  assert (Hb : 0 < bpc w) by (unfold bpc; lia).
  assert (Hm : off mod bpc w mod 512 = off mod 512).
  { apply Z.mod_mod_divide.
    exists (SECTORS_PER_CLUSTER (w_info w)). unfold bpc. lia. }
  pose proof (Z.div_mod off (bpc w) ltac:(lia)). pose proof (Z.mod_pos_bound off (bpc w) Hb).
  pose proof (Z.div_mod (off mod bpc w) 512 ltac:(lia)). rewrite Hm in *.
  split; [lia|]. split; [|dlia]. split; [dlia|]. apply Z.div_lt_upper_bound; unfold bpc in *; lia.
Qed.

Section SeekSpec.

Context (kmalloc : mem -> Z -> res (Z * mem)) (kfree : mem -> Z -> res mem).
Context (fat_calcualte_lba get_next_cluster : Z -> M Z).
Context (invoke : callback -> Z -> Z -> M unit).
Context (loaded : world -> Z -> Prop) (lba_of next : Z -> Z).
Context {FD : FatDriver fat_calcualte_lba get_next_cluster loaded lba_of next}.

Abbreviation fs_seek_submit := (fs_seek_submit kmalloc fat_calcualte_lba invoke).
Abbreviation fs_seek_post_io := (fs_seek_post_io kmalloc).
Abbreviation fs_seek_step := (fs_seek_step kmalloc kfree fat_calcualte_lba get_next_cluster invoke).

(** [moved f target off]: [f] with its sub-cluster position set, as [seek_in_cluster] does. *)
Definition moved (f : FILE) (target : seek_position_t) (off : Z) : FILE :=
  set_f_file_offset off (set_f_current_byte (sp_byte_in_sector target)
    (set_f_current_sector (sp_sector_in_cluster target) f)).

Lemma seek_in_cluster_ok w file f target off : file <> 0 -> w_files w !! file = Some f ->
  seek_in_cluster file target off w = Ok (tt, set_w_files (<[file := moved f target off]> (w_files w)) w).
Proof. intros Hf Hl. unfold seek_in_cluster. erewrite update_some; [reflexivity|exact Hf|exact Hl]. Qed.

Lemma moved_ok w f off cl : is_u32 off -> is_u32 (f_file_size f) ->
  walk next (Z.to_nat (off / bpc w)) (f_first_cluster f) = Some cl ->
  file_ok next w (moved (set_f_current_cluster cl f) (pos_of w off) off).
Proof. intros Ho Hs Hw. split; [exact Ho|]. split; [exact Hs|]. split; [exact Hw|]. split; reflexivity. Qed.

(** A seek that stays in its cluster completes at once. *)
Lemma seek_same_cluster w file f off cb cx :
  file <> 0 -> w_files w !! file = Some f -> geometry_ok w -> is_u32 (f_file_offset f) -> is_u32 off ->
  off <= f_file_size f -> off / bpc w = f_file_offset f / bpc w ->
  fs_seek_submit file off cb cx w
  = invoke cb cx 0 (set_w_files (<[file := moved f (pos_of w off) off]> (w_files w)) w).
Proof.
  intros Hf0 Hf Hg Hfo Ho Hs Eq.
  unfold FsSeek.fs_seek_submit. rewrite (mbind_step _ _ _ _ _ (@load_some _ stored_file file f w Hf0 Hf)).
  replace (f_file_size f <? off) with false by (symmetry; apply Z.ltb_ge; exact Hs).
  rewrite (mbind_step _ _ _ _ _ (seek_decompose_ok w off Hg Ho)).
  rewrite (mbind_step _ _ _ _ _ (seek_decompose_ok w _ Hg Hfo)).
  cbn [sp_cluster_index pos_of].
  rewrite Eq, Z.leb_refl, Z.sub_diag. change (u32 0 =? 0) with true. cbv iota beta.
  unfold mbind at 1. rewrite (seek_in_cluster_ok w file f _ _ Hf0 Hf). reflexivity.
Qed.

(** The seek walking for [ctx]: [k] hops are left, and the cluster reached so far
    is the right one. *)
Definition walking (w : world) (ctx : Z) (c : fs_seek_ctx_t) (f : FILE) (k : nat) : Prop :=
  ctx <> 0 /\ w_seeks w !! ctx = Some c /\ sc_file c <> 0 /\ w_files w !! sc_file c = Some f /\
  is_u32 (f_file_size f) /\ is_u32 (sc_target_offset c) /\ geometry_ok w /\
  sc_target c = pos_of w (sc_target_offset c) /\
  sc_clusters_remaining c = Z.of_nat k /\ (0 < k)%nat /\ Z.of_nat k < 4294967296 /\
  (k <= Z.to_nat (sc_target_offset c / bpc w))%nat /\
  walk next (Z.to_nat (sc_target_offset c / bpc w) - k) (f_first_cluster f) = Some (sc_current_cluster c).


Definition hopped (c : fs_seek_ctx_t) (d : Z) : fs_seek_ctx_t :=
  set_sc_clusters_remaining (sc_clusters_remaining c - 1) (set_sc_current_cluster d c).

Lemma finish_seek ctx c m w : ctx <> 0 -> w_seeks w !! ctx = Some c -> kfree (w_heap w) ctx = Ok m ->
  fs_seek_finish kfree invoke ctx w =
    invoke (sc_on_complete c) (sc_caller_ctx c) (match sc_state c with FS_SEEK_DONE => 0 | _ => -1 end)
      (set_w_trace (w_trace w ++ [EFree ctx]) (set_w_heap m w)).
Proof.
  intros H0 Hc Hm. unfold fs_seek_finish, mbind at 1. erewrite load_some; [|exact H0|exact Hc]. simpl.
  unfold mbind, k_free. rewrite Hm. reflexivity.
Qed.

Lemma hop_error w ctx c d m : ctx <> 0 -> w_seeks w !! ctx = Some c -> kfree (w_heap w) ctx = Ok m ->
  end_of_chain d = true ->
  exists w', fs_seek_hop kmalloc kfree fat_calcualte_lba invoke ctx d w =
      invoke (sc_on_complete c) (sc_caller_ctx c) (-1) w' /\ w_files w' = w_files w.
Proof.
  intros H0 Hc Hm He. unfold fs_seek_hop. unfold end_of_chain in He. rewrite He.
  unfold mbind. rewrite (update_some ctx _ c) by (auto; exact Hc). cbn [rbind].
  rewrite (finish_seek ctx (set_sc_state FS_SEEK_ERROR c) m); [|exact H0|apply lookup_insert_eq|exact Hm].
  eexists. split; reflexivity.
Qed.

Lemma hop_next w ctx c d k : ctx <> 0 -> w_seeks w !! ctx = Some c -> end_of_chain d = false ->
  sc_clusters_remaining c = Z.of_nat (S k) -> Z.of_nat (S k) < 4294967296 ->
  exists w1, w_seeks w1 = <[ctx := hopped c d]> (<[ctx := set_sc_current_cluster d c]> (w_seeks w)) /\
    w_files w1 = w_files w /\ w_heap w1 = w_heap w /\ w_info w1 = w_info w /\
    w_sched w1 = w_sched w /\ w_reqs w1 = w_reqs w /\
    fs_seek_hop kmalloc kfree fat_calcualte_lba invoke ctx d w =
      (if (k =? 0)%nat then
        do! update (sc_file c) (set_f_current_cluster d) in
        do! seek_in_cluster (sc_file c) (sc_target c) (sc_target_offset c) in
        do! update ctx (set_sc_state FS_SEEK_DONE) in
        fs_seek_finish kfree invoke ctx
      else
        let! fat_lba := fat_calcualte_lba d in
        fs_seek_post_io ctx fat_lba) w1.
Proof.
  intros H0 Hc He Hr Hk. unfold fs_seek_hop. unfold end_of_chain in He. rewrite He.
  unfold mbind at 1. rewrite (update_some ctx _ c) by (auto; exact Hc). cbn [rbind].
  unfold mbind at 1. erewrite update_some; [|exact H0|apply lookup_insert_eq]. cbn [rbind].
  unfold mbind at 1. erewrite load_some; [|exact H0|apply lookup_insert_eq]. cbn [rbind].
  cbn [st_set stored_seek set_sc_clusters_remaining sc_clusters_remaining set_sc_current_cluster sc_file
    sc_target sc_target_offset sc_current_cluster].
  rewrite Hr, u32_id by lia.
  replace (Z.of_nat (S k) - 1 =? 0) with (k =? 0)%nat.
  2: { destruct (Nat.eqb_spec k 0), (Z.eqb_spec (Z.of_nat (S k) - 1) 0); lia. }
  eexists. split; [|split; [|split; [|split; [|split; [|split; [|reflexivity]]]]]]; try reflexivity.
  unfold hopped. rewrite Hr. reflexivity.
Qed.

Lemma start_step w ctx c : ctx <> 0 -> w_seeks w !! ctx = Some c -> loaded w (lba_of (sc_current_cluster c)) ->
  exists w1, keeps w w1 /\
    fs_seek_step ctx 0 w = fs_seek_hop kmalloc kfree fat_calcualte_lba invoke ctx (next (sc_current_cluster c)) w1.
Proof.
  intros H0 Hc Hl. destruct (fd_next (sc_current_cluster c) w Hl) as (w1 & E & Hk).
  exists w1. split; [exact Hk|]. unfold FsSeek.fs_seek_step. simpl.
  rewrite (mbind_step _ _ _ _ _ (@load_some _ stored_seek ctx c w H0 Hc)). rewrite (mbind_step _ _ _ _ _ E). reflexivity.
Qed.

Lemma walking_chain w ctx c f k : walking w ctx c f (S k) -> forall d,
  walk next (S k) (sc_current_cluster c) = Some d ->
  end_of_chain (next (sc_current_cluster c)) = false /\ walk next k (next (sc_current_cluster c)) = Some d.
Proof.
  intros _ d H. simpl in H. destruct (end_of_chain (next (sc_current_cluster c))); [discriminate|auto].
Qed.

(** The last hop. *)
Lemma hop_done w ctx c f m : walking w ctx c f 1 -> loaded w (lba_of (sc_current_cluster c)) ->
  kfree (w_heap w) ctx = Ok m -> end_of_chain (next (sc_current_cluster c)) = false ->
  exists w', fs_seek_step ctx 0 w = invoke (sc_on_complete c) (sc_caller_ctx c) 0 w' /\
    w_info w' = w_info w /\
    w_files w' !! sc_file c =
      Some (moved (set_f_current_cluster (next (sc_current_cluster c)) f) (sc_target c) (sc_target_offset c)).
Proof.
  intros (H0 & Hc & Hf0 & Hf & Hsz & Hoff & Hg & Htgt & Hr & _ & _ & _ & Hw) Hl Hm He.
  destruct (start_step w ctx c H0 Hc Hl) as (w1 & (K1 & K2 & K3 & K4 & K5 & K6) & ->).
  destruct (hop_next w1 ctx c (next (sc_current_cluster c)) 0) as (w2 & S2 & F2 & P2 & I2 & _ & _ & ->);
    [exact H0|rewrite K1; exact Hc|exact He|exact Hr|lia|]. cbn [Nat.eqb].
  unfold mbind at 1. rewrite (update_some (sc_file c) _ f) by (auto; simpl; rewrite F2, K2; exact Hf). cbn [rbind].
  unfold mbind at 1. erewrite seek_in_cluster_ok; [|exact Hf0|apply lookup_insert_eq]. cbn [rbind].
  unfold mbind at 1. erewrite update_some; [|exact H0|simpl; rewrite S2; apply lookup_insert_eq]. cbn [rbind].
  erewrite finish_seek; [|exact H0|apply lookup_insert_eq|simpl; rewrite P2, K5; exact Hm].
  eexists. split; [reflexivity|]. split; [simpl; rewrite I2; exact K6|]. simpl. apply lookup_insert_eq.
Qed.

Lemma post_io_keeps ctx lba w w' : fs_seek_post_io ctx lba w = Ok (tt, w') ->
  w_seeks w' = w_seeks w /\ w_files w' = w_files w /\ w_info w' = w_info w.
Proof.
  unfold FsSeek.fs_seek_post_io. intros H. m_inv.
  unfold k_alloc in E. apply rbind_ok in E as ([p m] & _ & E). injection E as <- <-.
  unfold store in E0. destruct (p =? 0); [discriminate|]. injection E0 as _ <-.
  apply io_sched_submit_keeps in H. exact H.
Qed.

(** [n] rounds of a walk: the block asked for arrives, the step runs, and until the
    next round nobody else touches the context or the file. *)
Inductive seek_run (ctx : Z) : nat -> world -> world -> Prop :=
| seek_run_here w : seek_run ctx 0 w w
| seek_run_hop n w c w1 w2 w3 :
    w_seeks w !! ctx = Some c -> loaded w (lba_of (sc_current_cluster c)) ->
    fs_seek_step ctx 0 w = Ok (tt, w1) ->
    w_seeks w2 !! ctx = w_seeks w1 !! ctx -> w_files w2 !! sc_file c = w_files w1 !! sc_file c ->
    w_info w2 = w_info w1 ->
    seek_run ctx n w2 w3 -> seek_run ctx (S n) w w3.

Lemma walking_agree w w' ctx c f k : walking w ctx c f k ->
  w_seeks w' !! ctx = w_seeks w !! ctx -> w_files w' !! sc_file c = w_files w !! sc_file c ->
  w_info w' = w_info w -> walking w' ctx c f k.
Proof.
  unfold walking, geometry_ok, pos_of, bpc. intros H E1 E2 ->. rewrite E1, E2. exact H.
Qed.

(** A round that does not reach the target leaves the walk one hop further. *)
Lemma hop_walking w ctx c f k w1 : walking w ctx c f (S (S k)) -> loaded w (lba_of (sc_current_cluster c)) ->
  end_of_chain (next (sc_current_cluster c)) = false -> fs_seek_step ctx 0 w = Ok (tt, w1) ->
  walking w1 ctx (hopped c (next (sc_current_cluster c))) f (S k).
Proof.
  intros (H0 & Hc & Hf0 & Hf & Hsz & Hoff & Hg & Htgt & Hr & _ & Hk & Hkt & Hw) Hl He E.
  destruct (start_step w ctx c H0 Hc Hl) as (w2 & (K1 & K2 & K3 & K4 & K5 & K6) & Es).
  rewrite Es in E.
  destruct (hop_next w2 ctx c (next (sc_current_cluster c)) (S k)) as (w3 & S3 & F3 & P3 & I3 & _ & _ & En);
    [exact H0|rewrite K1; exact Hc|exact He|exact Hr|lia|]. rewrite En in E. cbn [Nat.eqb] in E.
  destruct (fd_lba (next (sc_current_cluster c)) w3) as (w4 & E4 & (L1 & L2 & _ & _ & _ & L6)).
  rewrite (mbind_step _ _ _ _ _ E4) in E. apply post_io_keeps in E as (M1 & M2 & M3).
  unfold walking, geometry_ok, pos_of, bpc in *. rewrite M3, L6, I3, K6, M1, L1, S3, M2, L2, F3, K2.
  rewrite lookup_insert_eq. cbn. repeat (split; [solve [assumption | reflexivity | lia]|]).
  set (t := Z.to_nat (sc_target_offset c / (512 * SECTORS_PER_CLUSTER (w_info w)))) in *.
  replace (t - S k)%nat with (S (t - S (S k))) by lia. rewrite walk_snoc, Hw, He. reflexivity.
Qed.

Lemma seek_run_walking ctx n w w' : seek_run ctx n w w' -> forall c f k d,
  walking w ctx c f (n + S k) -> walk next n (sc_current_cluster c) = Some d ->
  exists c', walking w' ctx c' f (S k) /\ sc_current_cluster c' = d /\ sc_file c' = sc_file c /\
    sc_target_offset c' = sc_target_offset c /\ sc_on_complete c' = sc_on_complete c /\
    sc_caller_ctx c' = sc_caller_ctx c.
Proof.
  induction 1 as [w|n w c0 w1 w2 w3 Hc0 Hl E E1 E2 E3 Hrun IH]; intros c f k d Hwk Hw.
  - injection Hw as <-. exists c. auto 10.
  - pose proof Hwk as (_ & Hc & _). rewrite Hc in Hc0. injection Hc0 as <-.
    simpl in Hw. destruct (end_of_chain (next (sc_current_cluster c))) eqn:He; [discriminate|].
    assert (Hwk1 : walking w1 ctx (hopped c (next (sc_current_cluster c))) f (n + S k)).
    { replace (n + S k)%nat with (S (n + k)) by lia. apply (hop_walking w); try assumption.
      replace (S (S (n + k))) with (S n + S k)%nat by lia. exact Hwk. }
    apply (walking_agree _ w2) in Hwk1; [|exact E1|exact E2|exact E3].
    destruct (IH _ _ _ _ Hwk1 Hw) as (c' & Hc' & H1 & H2 & H3 & H4 & H5).
    exists c'. auto 10.
Qed.

(** ** Properties *)

(** [fs_seek_submit], from a file whose fields describe its offset, on every
    branch that keeps the promise: an offset past the end is reported as an error
    and changes nothing; an offset in the current cluster completes at once with the
    fields describing the new offset; any other, except one in the first cluster of
    the file, starts a walk along the chain from the right cluster with the right
    number of hops left, by asking for the FAT block of that cluster. *)
Theorem fs_seek_submit_starts w file f off cb cx ctx m :
  file <> 0 -> w_files w !! file = Some f -> file_ok next w f -> geometry_ok w -> is_u32 off ->
  (off / bpc w = 0 -> f_file_offset f / bpc w = 0) ->
  kmalloc (w_heap w) sizeof_fs_seek_ctx = Ok (ctx, m) -> ctx <> 0 ->
  if f_file_size f <? off then fs_seek_submit file off cb cx w = invoke cb cx (-1) w
  else if off / bpc w =? f_file_offset f / bpc w then
    exists w' f', fs_seek_submit file off cb cx w = invoke cb cx 0 w' /\
      w_files w' !! file = Some f' /\ file_ok next w' f' /\ f_file_offset f' = off
  else
    exists w' c k, fs_seek_submit file off cb cx w = fs_seek_post_io ctx (lba_of (sc_current_cluster c)) w' /\
      walking w' ctx c f k /\ sc_file c = file /\ sc_target_offset c = off /\
      sc_on_complete c = cb /\ sc_caller_ctx c = cx.
Proof.
  intros Hf0 Hf (Hfo & Hsz & Hw & Hsec & Hbyte) Hg Ho Hrew Hm Hctx.
  destruct (Z.ltb_spec (f_file_size f) off) as [Es|Es].
  { unfold FsSeek.fs_seek_submit. rewrite (mbind_step _ _ _ _ _ (@load_some _ stored_file file f w Hf0 Hf)).
    replace (f_file_size f <? off) with true by (symmetry; apply Z.ltb_lt; exact Es). reflexivity. }
  destruct (Z.eqb_spec (off / bpc w) (f_file_offset f / bpc w)) as [Eq|Ne].
  - rewrite (seek_same_cluster w file f off cb cx Hf0 Hf Hg Hfo Ho Es Eq).
    eexists _, _. split; [reflexivity|]. split; [apply lookup_insert_eq|]. split; [|reflexivity].
    rewrite <- Eq in Hw. pose proof (moved_ok w f off _ Ho Hsz Hw) as Hok. destruct f. exact Hok.
  - unfold FsSeek.fs_seek_submit. rewrite (mbind_step _ _ _ _ _ (@load_some _ stored_file file f w Hf0 Hf)).
    replace (f_file_size f <? off) with false by (symmetry; apply Z.ltb_ge; exact Es).
    rewrite (mbind_step _ _ _ _ _ (seek_decompose_ok w off Hg Ho)).
    rewrite (mbind_step _ _ _ _ _ (seek_decompose_ok w _ Hg Hfo)).
    cbn [sp_cluster_index pos_of].
    assert (Hb : 0 < bpc w) by (unfold bpc, geometry_ok in *; lia).
    assert (Hi : forall x, is_u32 x -> 0 <= x / bpc w < 4294967296).
    { intros x Hx. unfold is_u32 in Hx. split; [apply Z.div_pos; lia|].
      apply Z.div_lt_upper_bound; nia. }
    pose proof (Hi _ Ho) as Ht. pose proof (Hi _ Hfo) as Hc. clear Hi.
    set (fwd := f_file_offset f / bpc w <=? off / bpc w).
    set (i0 := if fwd then f_file_offset f / bpc w else 0).
    set (cl := if fwd then f_current_cluster f else f_first_cluster f).
    replace (if fwd then (f_current_cluster f, f_file_offset f / bpc w) else (f_first_cluster f, 0))
      with (cl, i0) by (subst cl i0; destruct fwd; reflexivity).
    assert (Hi0 : 0 <= i0 < off / bpc w /\ walk next (Z.to_nat i0) (f_first_cluster f) = Some cl).
    { subst i0 cl fwd. destruct (Z.leb_spec (f_file_offset f / bpc w) (off / bpc w)); (split; [lia|]); [exact Hw|reflexivity]. }
    destruct Hi0 as [Hi0 Hwl]. cbv iota beta. rewrite u32_id by lia.
    replace (off / bpc w - i0 =? 0) with false by (symmetry; apply Z.eqb_neq; lia).
    unfold mbind at 1, k_alloc. rewrite Hm. cbn [rbind].
    unfold mbind at 1. rewrite store_nonnull by exact Hctx. cbn [rbind].
    match goal with |- context [mbind (fat_calcualte_lba cl) _ ?W] => set (w1 := W) end.
    destruct (fd_lba cl w1) as (w2 & E2 & (L1 & L2 & _ & _ & _ & L6)).
    rewrite (mbind_step _ _ _ _ _ E2).
    exists w2, (FsSeekCtx FS_SEEK_WALK_FAT file cl (off / bpc w - i0) (pos_of w off) off cb cx),
      (Z.to_nat (off / bpc w - i0)). split; [reflexivity|].
    split; [|repeat split].
    unfold walking, geometry_ok, pos_of, bpc. rewrite L1, L2, L6. subst w1.
    change (w_info _) with (w_info w). fold (bpc w). cbn [st_set st_map stored_seek w_seeks set_w_seeks w_files set_w_heap].
    rewrite lookup_insert_eq. cbn.
    repeat (split; [solve [assumption | reflexivity | lia]|]).
    replace (Z.to_nat (off / bpc w) - Z.to_nat (off / bpc w - i0))%nat with (Z.to_nat i0) by lia. exact Hwl.
Qed.


(** a walk along a chain that ends early reports the error at the hop that finds
    the end, and leaves the file as it was. *)
Theorem fs_seek_walk_broken w ctx c f n k w' m e :
  walking w ctx c f (n + S k) -> walk next n (sc_current_cluster c) = Some e ->
  end_of_chain (next e) = true -> seek_run ctx n w w' ->
  (forall c', w_seeks w' !! ctx = Some c' -> loaded w' (lba_of (sc_current_cluster c'))) ->
  kfree (w_heap w') ctx = Ok m ->
  exists w2, fs_seek_step ctx 0 w' = invoke (sc_on_complete c) (sc_caller_ctx c) (-1) w2 /\
    w_files w2 !! sc_file c = Some f.
Proof.
  intros Hwk Hw He Hrun Hl Hm.
  destruct (seek_run_walking ctx n w w' Hrun c f k e Hwk Hw) as (c' & Hwk' & Hcc & Hfile & _ & <- & <-).
  subst e. destruct Hwk' as (H0 & Hc' & _ & Hf & _).
  destruct (start_step w' ctx c' H0 Hc' (Hl c' Hc')) as (w1 & (K1 & K2 & _ & _ & K5 & _) & ->).
  destruct (hop_error w1 ctx c' (next (sc_current_cluster c')) m) as (w2 & -> & F2);
    [exact H0|rewrite K1; exact Hc'|rewrite K5; exact Hm|exact He|].
  exists w2. split; [reflexivity|]. rewrite F2, K2, <- Hfile. exact Hf.
Qed.

(** a seek back into the first cluster does not rewind the chain: it reports
    success, sets the offset, and leaves [current_cluster] where it was. *)
Theorem fs_seek_rewind w file f off cb cx :
  file <> 0 -> w_files w !! file = Some f -> file_ok next w f -> geometry_ok w -> is_u32 off ->
  off <= f_file_size f -> off / bpc w = 0 -> 0 < f_file_offset f / bpc w ->
  exists w' f', fs_seek_submit file off cb cx w = invoke cb cx 0 w' /\
    w_files w' !! file = Some f' /\ f_file_offset f' = off /\
    f_current_cluster f' = f_current_cluster f /\
    (f_current_cluster f <> f_first_cluster f -> ~ file_ok next w' f').
Proof.
  intros Hf0 Hf (Hfo & Hsz & Hw & Hsec & Hbyte) Hg Ho Hs Ht Hc.
  unfold FsSeek.fs_seek_submit. rewrite (mbind_step _ _ _ _ _ (@load_some _ stored_file file f w Hf0 Hf)).
  replace (f_file_size f <? off) with false by (symmetry; apply Z.ltb_ge; lia).
  rewrite (mbind_step _ _ _ _ _ (seek_decompose_ok w off Hg Ho)).
  rewrite (mbind_step _ _ _ _ _ (seek_decompose_ok w _ Hg Hfo)).
  cbn [sp_cluster_index pos_of]. rewrite Ht.
  replace (f_file_offset f / bpc w <=? 0) with false by (symmetry; apply Z.leb_gt; lia).
  change (u32 (0 - 0) =? 0) with true. cbv iota beta.
  unfold mbind at 1. rewrite (seek_in_cluster_ok w file f _ _ Hf0 Hf). cbn [rbind].
  eexists _, _. split; [reflexivity|]. split; [apply lookup_insert_eq|].
  split; [reflexivity|]. split; [reflexivity|]. intros Hne (_ & _ & Hw' & _).
  unfold bpc in *. cbn in Hw'. rewrite Ht in Hw'. simpl in Hw'. injection Hw' as E. congruence.
Qed.

End SeekSpec.

(** [seek_decompose] splits an offset exactly: cluster, sector in the cluster and
    byte in the sector add up to the offset, each in its range, for every 32-bit
    offset and every cluster size. *)
Theorem seek_decompose_exact w off : geometry_ok w -> is_u32 off ->
  exists p, seek_decompose off w = Ok (p, w) /\
    off = sp_cluster_index p * bpc w + sp_sector_in_cluster p * 512 + sp_byte_in_sector p /\
    0 <= sp_sector_in_cluster p < SECTORS_PER_CLUSTER (w_info w) /\ 0 <= sp_byte_in_sector p < 512.
Proof.
  intros Hg Ho. exists (pos_of w off). split; [apply seek_decompose_ok; assumption|].
  apply pos_exact; assumption.
Qed.

(** ** The properties at concrete inputs *)

Module FsSeekWitness.

(** Cluster [c] is followed by [c + 1], up to cluster 10. *)
Definition next0 (c : Z) : Z := if c <? 10 then c + 1 else 268435455.
Definition lba0 (c : Z) : Z := 100 + c / 128.
Definition fat_lba0 (c : Z) : M Z := mret (lba0 c).
Definition get_next0 (c : Z) : M Z := mret (next0 c).
Definition loaded0 (w : world) (lba : Z) : Prop := True.
Definition kmalloc0 (m : mem) (n : Z) : res (Z * mem) := Ok (64, m).
Definition kfree0 (m : mem) (p : Z) : res mem := Ok m.
Definition invoke0 (cb : callback) (ctx st : Z) : M unit := emit (ECall 1 ctx st).

#[export] Instance driver0 : FatDriver fat_lba0 get_next0 loaded0 lba0 next0.
Proof.
  split; intros c w; [|intros _]; exists w; (split; [reflexivity|]); repeat split.
Defined.

Definition file0 : FILE := File 0 5 5 0 0 0 5000 0.
Definition pos0 : seek_position_t := SeekPos 2 0 76.
Definition ctx0 : fs_seek_ctx_t := FsSeekCtx FS_SEEK_WALK_FAT 16 5 2 pos0 1100 (other_cb 1) 7.

(** Clusters of one sector, the file at 16, a seek to byte 1100 with its context at 32. *)
Definition w0 : world :=
  World ∅ (IoSched 0 0 0 SCHED_IDLE) (Ring 0 0 (replicate 8 0)) SD_STATE_IDLE 0
    (FsRunInfo 100 10 200 2 1) 0 ∅ {[ 16 := file0 ]} ∅ {[ 32 := ctx0 ]} ∅ ∅ ∅ ∅ ∅ [] [].

Lemma file0_ok : file_ok next0 w0 file0.
Proof. repeat split; vm_compute; congruence. Qed.

Lemma walking0 : walking next0 w0 32 ctx0 file0 2.
Proof. repeat split; try (vm_compute; congruence); vm_compute; lia. Qed.

Definition w1 : world :=
  match fs_seek_step kmalloc0 kfree0 fat_lba0 get_next0 invoke0 32 0 w0 with Ok (_, w) => w | _ => w0 end.

Lemma run0 : seek_run kmalloc0 kfree0 fat_lba0 get_next0 invoke0 loaded0 lba0 32 1 w0 w1.
Proof.
  apply (seek_run_hop _ _ _ _ _ _ _ _ 0 w0 ctx0 w1 w1 w1);
    [reflexivity|exact I|vm_compute; reflexivity|exact eq_refl|exact eq_refl|exact eq_refl|apply seek_run_here].
Qed.


Definition ctx_far : fs_seek_ctx_t := FsSeekCtx FS_SEEK_WALK_FAT 16 10 2 (SeekPos 7 0 0) 3584 (other_cb 1) 7.
Definition w_far : world := set_w_seeks {[ 32 := ctx_far ]} w0.

Lemma walking_far : walking next0 w_far 32 ctx_far file0 2.
Proof. repeat split; try (vm_compute; congruence); vm_compute; lia. Qed.

Lemma fs_seek_walk_broken_witness : exists w2,
  fs_seek_step kmalloc0 kfree0 fat_lba0 get_next0 invoke0 32 0 w_far = invoke0 (other_cb 1) 7 (-1) w2 /\
  w_files w2 !! 16 = Some file0.
Proof.
  apply (fs_seek_walk_broken kmalloc0 kfree0 fat_lba0 get_next0 invoke0 loaded0 lba0 next0
    w_far 32 ctx_far file0 0 1 w_far ∅ 10 walking_far);
    [reflexivity|reflexivity|apply seek_run_here|intros; exact I|reflexivity].
Defined.

Lemma fs_seek_submit_starts_witness : exists w' c k,
  fs_seek_submit kmalloc0 fat_lba0 invoke0 16 1100 (other_cb 1) 7 w0 =
    fs_seek_post_io kmalloc0 64 (lba0 (sc_current_cluster c)) w' /\ walking next0 w' 64 c file0 k.
Proof.
  pose proof (fs_seek_submit_starts kmalloc0 fat_lba0 get_next0 invoke0 loaded0 lba0 next0 w0 16 file0 1100
    (other_cb 1) 7 64 ∅ ltac:(lia) eq_refl file0_ok ltac:(vm_compute; split; congruence) ltac:(unfold is_u32; lia)
    ltac:(intros H; vm_compute in H; discriminate H) eq_refl ltac:(lia)) as H.
  change (f_file_size file0 <? 1100) with false in H.
  change (1100 / bpc w0 =? f_file_offset file0 / bpc w0) with false in H.
  destruct H as (w' & c & k & E & Hwk & _). exists w', c, k. split; [exact E|exact Hwk].
Defined.

Definition file_in : FILE := File 0 5 7 0 76 1100 5000 0.
Definition w_in : world := set_w_files {[ 16 := file_in ]} w0.

Lemma file_in_ok : file_ok next0 w_in file_in.
Proof. repeat split; vm_compute; congruence. Qed.

Lemma fs_seek_rewind_witness : exists w' f',
  fs_seek_submit kmalloc0 fat_lba0 invoke0 16 0 (other_cb 1) 7 w_in = invoke0 (other_cb 1) 7 0 w' /\
  w_files w' !! 16 = Some f' /\ f_current_cluster f' = 7 /\ ~ file_ok next0 w' f'.
Proof.
  destruct (fs_seek_rewind kmalloc0 fat_lba0 invoke0 next0 w_in 16 file_in 0
    (other_cb 1) 7 ltac:(lia) eq_refl file_in_ok ltac:(vm_compute; split; congruence) ltac:(unfold is_u32; lia)
    ltac:(simpl; lia) eq_refl ltac:(reflexivity)) as (w' & f' & E & Hf & _ & Hc & Hn).
  exists w', f'. split; [exact E|]. split; [exact Hf|]. split; [exact Hc|]. apply Hn. simpl. lia.
Defined.

Lemma seek_decompose_exact_witness : exists p, seek_decompose 1100 w0 = Ok (p, w0) /\
  1100 = sp_cluster_index p * bpc w0 + sp_sector_in_cluster p * 512 + sp_byte_in_sector p.
Proof.
  destruct (seek_decompose_exact w0 1100 ltac:(vm_compute; split; congruence) ltac:(unfold is_u32; lia))
    as (p & E & H & _). exists p. split; [exact E|exact H].
Defined.

End FsSeekWitness.
