(* ===== verification/FsRead.v ===== *)
(** * Reading and closing: kernel/fs/fs_read.c, kernel/fs/fs_close.c

    A read copies from the sector buffer, sector by sector; between two sectors it
    seeks forward by what it has copied, with itself as the seek's callback. *)

From S2P Require Import Prelude Mem KWorld IoSched FsSeek.

(** ** The code *)

Definition sizeof_fs_read_ctx : Z := 24.

(** [dst[i] = sector_contents[from + i]] for [n] bytes, in increasing order. *)
(* kernel/fs/fs_read.c:71-73 fs_read_step *)
Fixpoint copy_bytes (n : nat) (dst src : Z) : M unit :=
  match n with
  | O => mret tt
  | S n =>
      let! b := load_byte src in
      do! store_byte dst b in
      copy_bytes n (dst + 1) (src + 1)
  end.

Section Read.

Context (kmalloc : mem -> Z -> res (Z * mem)) (kfree : mem -> Z -> res mem).
Context (fat_calcualte_lba get_next_cluster : Z -> M Z).
Context (invoke : callback -> Z -> Z -> M unit).

(* kernel/fs/fs_read.c:11-19 fs_read_post_io *)
Definition fs_read_post_io (context lba : Z) (next_state : fs_read_state_t) : M unit :=
  do! update context (set_rc_state next_state) in
  let! req := k_alloc kmalloc sizeof_io_sched_req in
  do! store req (IoReq lba cb_fs_read_step context 0) in
  io_sched_submit req.

(** The block of the file's current sector. *)
(* kernel/fs/fs_read.c:55-56 fs_read_step *)
Definition file_lba (file : Z) : M Z :=
  let! f := load file in
  let! lba := cluster_to_lba (f_current_cluster f) in
  mret (u32 (lba + f_current_sector f)).

(** [state] is not initialised before [fs_read_post_io] sets it. *)
(* kernel/fs/fs_read.c:21-34 fs_read_submit *)
Definition fs_read_submit (file buffer bytes : Z) (cb : callback) (ctx : Z) : M unit :=
  let! context := k_alloc kmalloc sizeof_fs_read_ctx in
  do! store context (FsReadCtx file buffer FSREAD_LOAD_CONTENTS bytes cb ctx) in
  let! lba := file_lba file in
  fs_read_post_io context lba FSREAD_COPY_CONTENTS.

(* kernel/fs/fs_read.c:36-42 fs_read_finish *)
Definition fs_read_finish (ctx : Z) : M unit :=
  let! c := load ctx in
  let status := match rc_state c with FSREAD_DONE => 0 | _ => 1 end in
  do! k_free kfree ctx in
  invoke (rc_callback c) (rc_ctx c) status.

(** How much of the request this sector serves. The sum is taken in unsigned
    arithmetic and the comparison is unsigned; the difference is stored in an int. *)
(* kernel/fs/fs_read.c:64-67 fs_read_step *)
Definition bytes_in_sector (current_byte bytes_remaining : Z) : Z :=
  if 512 <=? u32 (current_byte + bytes_remaining) then s32 (512 - current_byte) else bytes_remaining.

(** The [FSREAD_COPY_CONTENTS] case. A negative count copies nothing. *)
(* kernel/fs/fs_read.c:61-88 fs_read_step *)
Definition fs_read_copy (raw_ctx : Z) : M unit :=
  let! c := load raw_ctx in
  let! f := load (rc_file c) in
  let n := bytes_in_sector (f_current_byte f) (rc_bytes_remaining c) in
  do! copy_bytes (Z.to_nat n) (rc_buffer c) (SD_RX_RAM + f_current_byte f) in
  do! update raw_ctx (set_rc_buffer (u32 (rc_buffer c + n))) in
  do! update raw_ctx (set_rc_bytes_remaining (s32 (rc_bytes_remaining c - n))) in
  if s32 (rc_bytes_remaining c - n) =? 0 then
    do! update (rc_file c) (fun f => set_f_current_byte (u32 (f_current_byte f + n)) f) in
    do! update raw_ctx (set_rc_state FSREAD_DONE) in
    fs_read_finish raw_ctx
  else
    do! update raw_ctx (set_rc_state FSREAD_LOAD_CONTENTS) in
    fs_seek_whence kmalloc fat_calcualte_lba invoke (rc_file c) n SEEK_CUR cb_fs_read_step raw_ctx.

(* kernel/fs/fs_read.c:44-91 fs_read_step *)
Definition fs_read_step (raw_ctx status : Z) : M unit :=
  if negb (status =? 0) then
    do! update raw_ctx (set_rc_state FSREAD_ERROR) in
    fs_read_finish raw_ctx
  else
    let! c := load raw_ctx in
    match rc_state c with
    | FSREAD_LOAD_CONTENTS =>
        let! lba := file_lba (rc_file c) in
        fs_read_post_io raw_ctx lba FSREAD_COPY_CONTENTS
    | FSREAD_COPY_CONTENTS => fs_read_copy raw_ctx
    | _ => mret tt
    end.

(* kernel/fs/fs_close.c:9-14 fs_close_submit *)
Definition fs_close_submit (file : Z) (cb : callback) (ctx : Z) : M unit :=
  do! k_free kfree file in
  invoke cb ctx 0.

End Read.

(** ** Lemmas *)

(** [copied m m' dst src n]: [m'] is [m] with the [n] bytes at [src] also at [dst]. *)
Definition copied (m m' : gmap Z Z) (dst src n : Z) : Prop :=
  (forall i, 0 <= i < n -> m' !! (dst + i) = m !! (src + i)) /\
  (forall x, ~ dst <= x < dst + n -> m' !! x = m !! x).

Lemma copy_bytes_ok n : forall dst src w,
  (forall i, 0 <= i < Z.of_nat n -> is_Some (w_bytes w !! (src + i))) ->
  dst + Z.of_nat n <= src \/ src + Z.of_nat n <= dst ->
  exists m, copy_bytes n dst src w = Ok (tt, set_w_bytes m w) /\ copied (w_bytes w) m dst src (Z.of_nat n).
Proof.
  induction n as [|n IH]; intros dst src w Hsrc Hdis.
  - exists (w_bytes w). split; [destruct w; reflexivity|]. split; [intros; lia|auto].
  - destruct (Hsrc 0 ltac:(lia)) as [b Hb]. rewrite Z.add_0_r in Hb.
    destruct (IH (dst + 1) (src + 1) (set_w_bytes (<[dst := b]> (w_bytes w)) w)) as (m & E & H1 & H2).
    { intros i Hi. cbn. rewrite lookup_insert_ne by lia.
      destruct (Hsrc (i + 1) ltac:(lia)) as [x Hx]. exists x. rewrite <- Hx. f_equal. lia. }
    { lia. }
    exists m. split.
    + cbn [copy_bytes]. unfold mbind at 1, load_byte. rewrite Hb. cbn [of_option rbind].
      unfold mbind, store_byte, modify. cbn [rbind]. rewrite E. reflexivity.
    + cbn in H1, H2. split.
      * intros i Hi. destruct (Z.eq_dec i 0) as [->|Hi0].
        -- rewrite !Z.add_0_r, Hb, H2 by lia. apply lookup_insert_eq.
        -- replace (dst + i) with (dst + 1 + (i - 1)) by lia. rewrite H1 by lia.
           rewrite lookup_insert_ne by lia. f_equal. lia.
      * intros x Hx. rewrite H2 by lia. apply lookup_insert_ne. lia.
Qed.

Section ReadSpec.

Context (kmalloc : mem -> Z -> res (Z * mem)) (kfree : mem -> Z -> res mem).
Context (fat_calcualte_lba get_next_cluster : Z -> M Z).
Context (invoke : callback -> Z -> Z -> M unit).

Abbreviation fs_read_step := (fs_read_step kmalloc kfree fat_calcualte_lba invoke).
Abbreviation fs_seek_whence := (fs_seek_whence kmalloc fat_calcualte_lba invoke).

(** The read [c] is at the copying of a sector of file [f]. *)
Definition copying (w : world) (ctx : Z) (c : fs_read_ctx_t) (f : FILE) : Prop :=
  ctx <> 0 /\ w_reads w !! ctx = Some c /\ rc_state c = FSREAD_COPY_CONTENTS /\
  rc_file c <> 0 /\ w_files w !! rc_file c = Some f /\
  0 <= f_current_byte f <= 512 /\ 0 <= rc_bytes_remaining c < 2147483136 /\
  0 <= rc_buffer c /\ rc_buffer c + rc_bytes_remaining c <= 4294967295 /\
  (rc_buffer c + rc_bytes_remaining c <= SD_RX_RAM \/ SD_RX_RAM + 512 <= rc_buffer c) /\
  (forall i, 0 <= i < 512 -> is_Some (w_bytes w !! (SD_RX_RAM + i))).

(** The bytes this sector gives. *)
Definition chunk (c : fs_read_ctx_t) (f : FILE) : Z :=
  Z.min (rc_bytes_remaining c) (512 - f_current_byte f).

Lemma bytes_in_sector_min b r : 0 <= b <= 512 -> 0 <= r < 2147483136 ->
  bytes_in_sector b r = Z.min r (512 - b).
Proof.
  intros Hb Hr. unfold bytes_in_sector. rewrite u32_id, s32_id by lia.
  destruct (Z.leb_spec 512 (b + r)); lia.
Qed.

(** Nothing was said to the scheduler or the card. *)
Definition quiet (w w' : world) : Prop :=
  w_sched w' = w_sched w /\ w_ring w' = w_ring w /\ w_reqs w' = w_reqs w /\ w_trace w' = w_trace w.

(** The world after the copy, with what is left to do. *)
Lemma fs_read_copy_run w ctx c f : copying w ctx c f ->
  exists m w1, copied (w_bytes w) m (rc_buffer c) (SD_RX_RAM + f_current_byte f) (chunk c f) /\
    w_reads w1 !! ctx = Some (set_rc_bytes_remaining (rc_bytes_remaining c - chunk c f)
      (set_rc_buffer (rc_buffer c + chunk c f) c)) /\
    w_bytes w1 = m /\ w_files w1 = w_files w /\ w_heap w1 = w_heap w /\ w_info w1 = w_info w /\
    quiet w w1 /\ fs_read_step ctx 0 w =
      (if rc_bytes_remaining c <=? 512 - f_current_byte f then
        do! update (rc_file c) (fun f0 => set_f_current_byte (u32 (f_current_byte f0 + chunk c f)) f0) in
        do! update ctx (set_rc_state FSREAD_DONE) in
        fs_read_finish kfree invoke ctx
      else
        do! update ctx (set_rc_state FSREAD_LOAD_CONTENTS) in
        fs_seek_whence (rc_file c) (chunk c f) SEEK_CUR cb_fs_read_step ctx) w1.
Proof.
  intros (H0 & Hc & Hst & Hf0 & Hf & Hb & Hr & Hbuf0 & Hbuf & Hdis & Hsec).
  unfold FsRead.fs_read_step. cbn [negb Z.eqb].
  rewrite (mbind_step _ _ _ _ _ (@load_some _ stored_read ctx c w H0 Hc)). rewrite Hst.
  unfold fs_read_copy. rewrite (mbind_step _ _ _ _ _ (@load_some _ stored_read ctx c w H0 Hc)).
  rewrite (mbind_step _ _ _ _ _ (@load_some _ stored_file (rc_file c) f w Hf0 Hf)). cbv zeta.
  rewrite bytes_in_sector_min by lia. fold (chunk c f).
  assert (Hn : 0 <= chunk c f <= 512 - f_current_byte f /\ chunk c f <= rc_bytes_remaining c)
    by (unfold chunk; lia).
  destruct (copy_bytes_ok (Z.to_nat (chunk c f)) (rc_buffer c) (SD_RX_RAM + f_current_byte f) w) as (m & Em & Hm).
  { intros i Hi. rewrite <- Z.add_assoc. apply Hsec. lia. }
  { unfold SD_RX_RAM in *. lia. }
  rewrite (mbind_step _ _ _ _ _ Em). rewrite Z2Nat.id in Hm by lia.
  unfold mbind at 1. erewrite update_some; [|exact H0|exact Hc]. cbn [rbind].
  unfold mbind at 1. erewrite update_some; [|exact H0|apply lookup_insert_eq]. cbn [rbind].
  rewrite (u32_id (rc_buffer c + chunk c f)), (s32_id (rc_bytes_remaining c - chunk c f)) by lia.
  replace (rc_bytes_remaining c - chunk c f =? 0) with (rc_bytes_remaining c <=? 512 - f_current_byte f).
  2: { unfold chunk. destruct (Z.leb_spec (rc_bytes_remaining c) (512 - f_current_byte f)), 
        (Z.eqb_spec (rc_bytes_remaining c - Z.min (rc_bytes_remaining c) (512 - f_current_byte f)) 0); lia. }
  exists m. eexists. split; [exact Hm|].
  split; [|split; [|split; [|split; [|split; [|split; [|reflexivity]]]]]]; try reflexivity.
  - cbn. rewrite lookup_insert_eq. f_equal.
  - repeat split.
Qed.

(** ** Properties *)

(** a read that the current sector can serve copies exactly the requested bytes,
    from the file's position in the sector to the buffer, changes no other byte, and
    completes with status 0. It moves [current_byte] but not [file_offset]: when
    anything was read, the file's fields no longer agree. *)
Theorem fs_read_last_sector w ctx c f m next : copying w ctx c f ->
  rc_bytes_remaining c <= 512 - f_current_byte f -> kfree (w_heap w) ctx = Ok m ->
  exists w', fs_read_step ctx 0 w = invoke (rc_callback c) (rc_ctx c) 0 w' /\
    copied (w_bytes w) (w_bytes w') (rc_buffer c) (SD_RX_RAM + f_current_byte f) (rc_bytes_remaining c) /\
    w_files w' !! rc_file c = Some (set_f_current_byte (f_current_byte f + rc_bytes_remaining c) f) /\
    (0 < rc_bytes_remaining c -> file_ok next w f ->
     ~ file_ok next w' (set_f_current_byte (f_current_byte f + rc_bytes_remaining c) f)).
Proof.
  intros Hcp Hr Hm. destruct (fs_read_copy_run w ctx c f Hcp) as (m1 & w1 & Hcopy & Hrd & Hb1 & Hf1 & Hh1 & Hi1 & _ & E).
  destruct Hcp as (H0 & Hc & Hst & Hf0 & Hf & Hb & Hrr & _).
  assert (Hn : chunk c f = rc_bytes_remaining c) by (unfold chunk; lia). rewrite Hn in *.
  replace (rc_bytes_remaining c <=? 512 - f_current_byte f) with true in E by (symmetry; apply Z.leb_le; lia).
  rewrite E. unfold mbind at 1. erewrite update_some; [|exact Hf0|simpl; rewrite Hf1; exact Hf]. cbn [rbind].
  unfold mbind at 1. erewrite update_some; [|exact H0|exact Hrd]. cbn [rbind].
  unfold fs_read_finish, mbind at 1. erewrite load_some; [|exact H0|apply lookup_insert_eq]. cbn [rbind].
  unfold mbind, k_free. cbn. rewrite Hh1, Hm. cbn [rbind]. rewrite u32_id by lia.
  eexists. split; [reflexivity|]. cbn. rewrite Hb1, Hf1, lookup_insert_eq.
  split; [exact Hcopy|]. split; [reflexivity|].
  intros Hpos (_ & _ & _ & _ & Hok) (_ & _ & _ & _ & Hok'). cbn in Hok'. lia.
Qed.

(** a read that needs more than the current sector copies the rest of the sector,
    and seeks forward from the current offset by the number of bytes copied, with
    itself as the callback and the rest of the request left to do. *)
Theorem fs_read_next_sector w ctx c f : copying w ctx c f -> 512 - f_current_byte f < rc_bytes_remaining c ->
  let n := 512 - f_current_byte f in
  exists w', fs_read_step ctx 0 w = fs_seek_whence (rc_file c) n SEEK_CUR cb_fs_read_step ctx w' /\
    copied (w_bytes w) (w_bytes w') (rc_buffer c) (SD_RX_RAM + f_current_byte f) n /\
    w_files w' = w_files w /\
    w_reads w' !! ctx = Some (FsReadCtx (rc_file c) (rc_buffer c + n) FSREAD_LOAD_CONTENTS
      (rc_bytes_remaining c - n) (rc_callback c) (rc_ctx c)).
Proof.
  intros Hcp Hr n. destruct (fs_read_copy_run w ctx c f Hcp) as (m1 & w1 & Hcopy & Hrd & Hb1 & Hf1 & Hh1 & Hi1 & _ & E).
  destruct Hcp as (H0 & _ & _ & _ & _ & Hb & _).
  assert (Hn : chunk c f = n) by (unfold chunk; lia). rewrite Hn in *.
  replace (rc_bytes_remaining c <=? 512 - f_current_byte f) with false in E by (symmetry; apply Z.leb_gt; lia).
  rewrite E. unfold mbind at 1. erewrite update_some; [|exact H0|exact Hrd]. cbn [rbind].
  eexists. split; [reflexivity|]. cbn. rewrite Hb1, Hf1, lookup_insert_eq. repeat split; try apply Hcopy.
Qed.

(** a read for which there is no memory writes its context through the null pointer. *)
Lemma fs_read_no_memory w file buffer bytes cb cx m : kmalloc (w_heap w) sizeof_fs_read_ctx = Ok (0, m) ->
  fs_read_submit kmalloc file buffer bytes cb cx w = Undef.
Proof. intros Hm. unfold fs_read_submit, mbind, k_alloc. rewrite Hm. reflexivity. Qed.

(** after a read has ended on a sector boundary the file stands at byte 512 of the
    sector it has already delivered. The next read copies nothing from it and seeks to
    [file_offset], which that first read left at its own start: the same bytes are
    read again. *)
Theorem fs_read_after_boundary w ctx c f : copying w ctx c f -> f_current_byte f = 512 ->
  0 < rc_bytes_remaining c -> is_u32 (f_file_offset f) ->
  exists w', fs_read_step ctx 0 w =
      fs_seek_submit kmalloc fat_calcualte_lba invoke (rc_file c) (f_file_offset f) cb_fs_read_step ctx w' /\
    w_files w' = w_files w /\ (forall x, w_bytes w' !! x = w_bytes w !! x).
Proof.
  intros Hcp H512 Hr Ho. destruct (fs_read_copy_run w ctx c f Hcp) as (m1 & w1 & Hcopy & Hrd & Hb1 & Hf1 & Hh1 & Hi1 & _ & E).
  destruct Hcp as (H0 & _ & _ & Hf0 & Hf & Hb & _).
  assert (Hn : chunk c f = 0) by (unfold chunk; lia). rewrite Hn in *.
  replace (rc_bytes_remaining c <=? 512 - f_current_byte f) with false in E by (symmetry; apply Z.leb_gt; lia).
  rewrite E. unfold mbind at 1. erewrite update_some; [|exact H0|exact Hrd]. cbn [rbind].
  unfold FsSeek.fs_seek_whence, SEEK_CUR, SEEK_SET. cbn [Z.eqb Pos.eqb].
  unfold mbind at 1. erewrite load_some; [|exact Hf0|cbn; rewrite Hf1; exact Hf]. cbn [rbind].
  rewrite Z.add_0_r, u32_id by exact Ho.
  eexists. split; [reflexivity|]. cbn. rewrite Hf1. split; [reflexivity|].
  intros x. rewrite Hb1. apply Hcopy. lia.
Qed.

End ReadSpec.

(** ** The properties at concrete inputs *)

Module FsReadWitness.

(** A full sector buffer: byte [i] is [i mod 256]. *)
Definition sector0 : gmap Z Z :=
  list_to_map ((fun k => (SD_RX_RAM + Z.of_nat k, Z.of_nat k mod 256)) <$> seq 0 512).

Lemma sector0_some i : 0 <= i < 512 -> is_Some (sector0 !! (SD_RX_RAM + i)).
Proof.
  intros Hi.
  assert (H : forallb (fun k => bool_decide (is_Some (sector0 !! (SD_RX_RAM + Z.of_nat k)))) (seq 0 512) = true)
    by (vm_compute; reflexivity).
  rewrite forallb_forall in H. specialize (H (Z.to_nat i)). rewrite bool_decide_eq_true, Z2Nat.id in H by lia.
  apply H. apply in_seq. lia.
Qed.

Definition kmalloc0 (m : mem) (n : Z) : res (Z * mem) := Ok (64, m).
Definition kfree0 (m : mem) (p : Z) : res mem := Ok m.
Definition invoke0 (cb : callback) (ctx st : Z) : M unit := emit (ECall 1 ctx st).
Definition fat0 (c : Z) : M Z := mret c.

(** A read of [n] bytes to address 4096, the file at byte [b] of its sector. *)
Definition world_at (b off n : Z) : world :=
  World ∅ (IoSched 0 0 0 SCHED_IDLE) (Ring 0 0 (replicate 8 0)) SD_STATE_IDLE 0
    (FsRunInfo 100 10 200 2 1) 0 ∅ {[ 16 := File 0 5 5 0 b off 5000 0 ]} ∅ ∅
    {[ 32 := FsReadCtx 16 4096 FSREAD_COPY_CONTENTS n (other_cb 1) 7 ]} ∅ ∅ ∅ sector0 [] [].

Lemma copying_at b off n : 0 <= b <= 512 -> 0 <= n < 4096 -> copying (world_at b off n) 32
  (FsReadCtx 16 4096 FSREAD_COPY_CONTENTS n (other_cb 1) 7) (File 0 5 5 0 b off 5000 0).
Proof.
  intros Hb Hn. split; [lia|]. split; [reflexivity|]. split; [reflexivity|].
  split; [simpl; lia|]. split; [reflexivity|]. simpl.
  repeat (split; [unfold SD_RX_RAM; lia|]). exact sector0_some.
Qed.

Lemma fs_read_last_sector_witness : exists w',
  fs_read_step kmalloc0 kfree0 fat0 invoke0 32 0 (world_at 10 10 20) = invoke0 (other_cb 1) 7 0 w' /\
  w_files w' !! 16 = Some (File 0 5 5 0 30 10 5000 0).
Proof.
  destruct (fs_read_last_sector kmalloc0 kfree0 fat0 invoke0 _ 32 _ _ ∅ (fun c => c)
    (copying_at 10 10 20 ltac:(lia) ltac:(lia)) ltac:(simpl; lia) eq_refl) as (w' & E & _ & Hf & _).
  exists w'. split; [exact E|exact Hf].
Defined.

Lemma fs_read_next_sector_witness : exists w',
  fs_read_step kmalloc0 kfree0 fat0 invoke0 32 0 (world_at 500 500 20) =
    fs_seek_whence kmalloc0 fat0 invoke0 16 12 SEEK_CUR cb_fs_read_step 32 w' /\
  w_reads w' !! 32 = Some (FsReadCtx 16 4108 FSREAD_LOAD_CONTENTS 8 (other_cb 1) 7).
Proof.
  destruct (fs_read_next_sector kmalloc0 kfree0 fat0 invoke0 _ 32 _ _
    (copying_at 500 500 20 ltac:(lia) ltac:(lia)) ltac:(simpl; lia)) as (w' & E & _ & _ & Hr).
  exists w'. split; [exact E|exact Hr].
Defined.

Lemma fs_read_after_boundary_witness : exists w',
  fs_read_step kmalloc0 kfree0 fat0 invoke0 32 0 (world_at 512 0 20) =
    fs_seek_submit kmalloc0 fat0 invoke0 16 0 cb_fs_read_step 32 w'.
Proof.
  destruct (fs_read_after_boundary kmalloc0 kfree0 fat0 invoke0 _ 32 _ _
    (copying_at 512 0 20 ltac:(lia) ltac:(lia)) eq_refl ltac:(simpl; lia) ltac:(unfold is_u32; simpl; lia))
    as (w' & E & _).
  exists w'. exact E.
Defined.

End FsReadWitness.
