(* ===== verification/FsOpen.v ===== *)
(** * Opening: the directory search of kernel/fs/fs_open.c

    An open walks the path component by component; each directory is searched
    sector by sector through the sector buffer and along its FAT chain. *)

From S2P Require Import Prelude Mem KWorld IoSched FsSeek FsName.

(** ** The code *)

Definition sizeof_fs_open_ctx : Z := 68.

(** The fields of a directory entry the search reads. *)
(* include/fat_directory.h:7-25 FAT_DIRECTORY *)
Record FAT_DIRECTORY : Type := FatDirectory {
  DIR_Name : list Z;
  DIR_Attr : Z;
  DIR_FstClusHI : Z;
  DIR_FstClusLO : Z;
  DIR_FileSize : Z;
}.
Definition sizeof_FAT_DIRECTORY : Z := 32.

Fixpoint load_bytes (n : nat) (p : Z) : M (list Z) :=
  match n with
  | O => mret []
  | S n => let! b := load_byte p in let! l := load_bytes n (p + 1) in mret (b :: l)
  end.

(** The offsets are those of the C structure; they are the ones of the FAT format. *)
(* include/fat_directory.h:7-25 FAT_DIRECTORY *)
Definition load_dir_entry (p : Z) : M FAT_DIRECTORY :=
  let! name := load_bytes 11 p in
  let! attr := load_byte (p + 11) in
  let! hi := load_half (p + 20) in
  let! lo := load_half (p + 26) in
  let! sz := load_word (p + 28) in
  mret (FatDirectory name attr hi lo sz).

Section Open.

Context (kmalloc : mem -> Z -> res (Z * mem)) (kfree : mem -> Z -> res mem).
Context (fat_calcualte_lba get_next_cluster : Z -> M Z).
Context (invoke : callback -> Z -> Z -> M unit).

(* kernel/fs/fs_open.c:158-168 fs_open_post_io *)
Definition fs_open_post_io (ctx lba : Z) (next_state : fs_open_state_t) : M unit :=
  do! update ctx (fun c => set_oc_current_lba lba (set_oc_state next_state c)) in
  let! req := k_alloc kmalloc sizeof_io_sched_req in
  do! store req (IoReq lba cb_fs_open_step ctx 0) in
  io_sched_submit req.

(** [*parent_cluster_storage = v], when there is one. *)
Definition store_parent (p v : Z) : M unit := if p =? 0 then mret tt else store_word p v.

(* kernel/fs/fs_open.c:170-181 set_initial_dir *)
Definition set_initial_dir (req : Z) : M unit :=
  let! c := load req in
  let! ch := load_byte (pw_full_path (oc_walker c)) in
  let! cl :=
    (if ((ch =? 47) || (oc_proc_id c =? 0))%bool then
       let! i := get w_info in mret (u32 (ROOT_DIR_FIRST_CLUSTER i))
     else
       let! pcb := get_pcb_from_id (oc_proc_id c) in
       let! p := load (A := pcb_t) pcb in mret (u32 (pcb_parent_dir_cluster p))) in
  do! store req (set_oc_current_cluster cl c) in
  store_parent (oc_parent_cluster_storage c) cl.

(* kernel/fs/fs_open.c:183-203 fs_open_submit_with_dir_parent *)
Definition fs_open_submit_with_dir_parent (path out_file proc_id : Z) (cb : callback)
    (caller_context parent_cluster_storage : Z) : M unit :=
  let! ctx := k_alloc kmalloc sizeof_fs_open_ctx in
  do! store ctx (FsOpenCtx FSOPEN_PARSE_DIR_SECTOR
        (PathWalker path 0 (replicate 13 0) (replicate 11 0)) 0 0 0 out_file
        parent_cluster_storage proc_id cb caller_context) in
  do! set_initial_dir ctx in
  let! c := load ctx in
  let! (_, wk) := path_walker_advance (oc_walker c) in
  let! (_, name83) := lift (make_fat_83_name (pw_component wk)) in
  do! store ctx (set_oc_walker (set_pw_component_83 name83 wk) c) in
  let! start_lba := cluster_to_lba (oc_current_cluster c) in
  do! update ctx (set_oc_sector_in_cluster 0) in
  fs_open_post_io ctx start_lba FSOPEN_PARSE_DIR_SECTOR.

(* kernel/fs/fs_open.c:205-207 fs_open_submit *)
Definition fs_open_submit (path out_file proc_id : Z) (cb : callback) (caller_context : Z) : M unit :=
  fs_open_submit_with_dir_parent path out_file proc_id cb caller_context 0.

(** The context is read after it has been freed; its contents are still there. *)
(* kernel/fs/fs_open.c:211-225 fs_open_finish *)
Definition fs_open_finish (ctx : Z) : M unit :=
  let! c := load ctx in
  let ok := match oc_state c with FSOPEN_DONE => 0 | _ => -1 end in
  do! k_free kfree ctx in
  if negb (oc_proc_id c =? 0) then
    let! pcb := get_pcb_from_id (oc_proc_id c) in
    do! update pcb (set_pcb_tf_a0 (if negb (ok =? 0) then oc_out_file c else 0)) in
    unblock_process pcb
  else if bool_decide (oc_on_complete c <> cb_null) then
    do! k_free kfree ctx in
    invoke (oc_on_complete c) (oc_caller_ctx c) ok
  else mret tt.

(** The entry the loop stops at. *)
Inductive scan_result : Type :=
| scan_end_of_dir
| scan_match (e : FAT_DIRECTORY)
| scan_no_match.

(** The loop over the entries of a sector; [n] entries are left, the first at [p].
    The 0x05 escape is computed into a local that is not used. *)
(* kernel/fs/fs_open.c:243-259 fs_open_step *)
Fixpoint dir_scan (n : nat) (p : Z) (name83 : list Z) : M scan_result :=
  match n with
  | O => mret scan_no_match
  | S n =>
      let! e := load_dir_entry p in
      let c0 := znth 0 (DIR_Name e) 0 in
      if c0 =? 0 then mret scan_end_of_dir
      else if c0 =? 229 then dir_scan n (p + sizeof_FAT_DIRECTORY) name83
      else if Z.land (DIR_Attr e) 15 =? 15 then dir_scan n (p + sizeof_FAT_DIRECTORY) name83
      else if negb (bool_decide (DIR_Name e = name83)) then dir_scan n (p + sizeof_FAT_DIRECTORY) name83
      else mret (scan_match e)
  end.

(** What the search does with a matching entry. *)
(* kernel/fs/fs_open.c:262-287 fs_open_step *)
Definition fs_open_found (ctx : Z) (e : FAT_DIRECTORY) : M unit :=
  let! c := load ctx in
  let cluster := Z.lor (Z.shiftl (DIR_FstClusHI e) 16) (DIR_FstClusLO e) in
  if negb (path_walker_has_next (oc_walker c)) then
    do! update (oc_out_file c) (fun f =>
      File 0 cluster cluster 0 0 0 (DIR_FileSize e) (f_owner_pid f)) in
    do! store ctx (set_oc_state FSOPEN_DONE c) in
    fs_open_finish ctx
  else
    let! (_, wk) := path_walker_advance (oc_walker c) in
    do! store ctx (set_oc_current_cluster cluster (set_oc_walker wk c)) in
    do! store_parent (oc_parent_cluster_storage c) cluster in
    do! update ctx (set_oc_sector_in_cluster 0) in
    let! lba := cluster_to_lba cluster in
    fs_open_post_io ctx lba FSOPEN_PARSE_DIR_SECTOR.

(* kernel/fs/fs_open.c:290-301 fs_open_step *)
Definition fs_open_next_sector (ctx : Z) : M unit :=
  do! update ctx (fun c => set_oc_current_lba (u32 (oc_current_lba c + 1))
        (set_oc_sector_in_cluster (u8 (oc_sector_in_cluster c + 1)) c)) in
  let! c := load ctx in
  let! i := get w_info in
  if SECTORS_PER_CLUSTER i <=? oc_sector_in_cluster c then
    let! fat_lba := fat_calcualte_lba (oc_current_cluster c) in
    fs_open_post_io ctx fat_lba FSOPEN_PROCESS_FAT
  else fs_open_post_io ctx (oc_current_lba c) FSOPEN_PARSE_DIR_SECTOR.

(* kernel/fs/fs_open.c:304-318 fs_open_step *)
Definition fs_open_process_fat (ctx : Z) : M unit :=
  let! c := load ctx in
  let! next := get_next_cluster (oc_current_cluster c) in
  if ((268435448 <=? next) || (next =? 0))%bool then
    do! update ctx (set_oc_state FSOPEN_NOT_FOUND) in
    fs_open_finish ctx
  else
    do! update ctx (fun c => set_oc_sector_in_cluster 0 (set_oc_current_cluster next c)) in
    let! lba := cluster_to_lba next in
    fs_open_post_io ctx lba FSOPEN_PARSE_DIR_SECTOR.

(* kernel/fs/fs_open.c:227-324 fs_open_step *)
Definition fs_open_step (raw_ctx status : Z) : M unit :=
  if negb (status =? 0) then
    do! update raw_ctx (set_oc_state FSOPEN_ERROR) in
    fs_open_finish raw_ctx
  else
    let! c := load raw_ctx in
    match oc_state c with
    | FSOPEN_PARSE_DIR_SECTOR =>
        let! r := dir_scan 16 SD_RX_RAM (pw_component_83 (oc_walker c)) in
        match r with
        | scan_end_of_dir =>
            do! update raw_ctx (set_oc_state FSOPEN_NOT_FOUND) in
            fs_open_finish raw_ctx
        | scan_match e => fs_open_found raw_ctx e
        | scan_no_match => fs_open_next_sector raw_ctx
        end
    | FSOPEN_PROCESS_FAT => fs_open_process_fat raw_ctx
    | _ => mret tt
    end.

End Open.

(** ** The directory search *)

(** [entries_at w p es]: the directory entries from [p] on decode to [es]. *)
Fixpoint entries_at (w : world) (p : Z) (es : list FAT_DIRECTORY) : Prop :=
  match es with
  | [] => True
  | e :: es => load_dir_entry p w = Ok (e, w) /\ entries_at w (p + sizeof_FAT_DIRECTORY) es
  end.

Definition is_end (e : FAT_DIRECTORY) : Prop := znth 0 (DIR_Name e) 0 = 0.

(** A live short-name entry: not deleted, not a part of a long name. *)
Definition is_live (e : FAT_DIRECTORY) : Prop :=
  znth 0 (DIR_Name e) 0 <> 229 /\ Z.land (DIR_Attr e) 15 <> 15.

Definition names (name83 : list Z) (e : FAT_DIRECTORY) : Prop := is_live e /\ DIR_Name e = name83.

(** What the scan of [es] must answer. *)
Definition scan_post (name83 : list Z) (es : list FAT_DIRECTORY) (r : scan_result) : Prop :=
  match r with
  | scan_match e => exists es1 es2, es = es1 ++ e :: es2 /\ names name83 e /\ ~ is_end e /\
      Forall (fun x => ~ names name83 x /\ ~ is_end x) es1
  | scan_end_of_dir => exists es1 e es2, es = es1 ++ e :: es2 /\ is_end e /\
      Forall (fun x => ~ names name83 x /\ ~ is_end x) es1
  | scan_no_match => Forall (fun x => ~ names name83 x /\ ~ is_end x) es
  end.

Lemma scan_post_cons name83 e es r : ~ names name83 e -> ~ is_end e ->
  scan_post name83 es r -> scan_post name83 (e :: es) r.
Proof.
  intros Hn He. destruct r; simpl.
  - intros (es1 & x & es2 & -> & Hx & Hall). exists (e :: es1), x, es2. auto.
  - intros (es1 & es2 & -> & Hx & Hne & Hall). exists (e :: es1), es2. auto 10.
  - auto.
Qed.

Lemma dir_scan_spec name83 es : forall p w, entries_at w p es ->
  exists r, dir_scan (length es) p name83 w = Ok (r, w) /\ scan_post name83 es r.
Proof.
  induction es as [|e es IH]; intros p w Hes; [exists scan_no_match; split; [reflexivity|constructor]|].
  destruct Hes as (He & Hes). destruct (IH _ _ Hes) as (r & Hr & Hpost).
  cbn [length dir_scan]. rewrite (mbind_step _ _ _ _ _ He). cbv zeta.
  destruct (Z.eqb_spec (znth 0 (DIR_Name e) 0) 0) as [H0|H0].
  { exists scan_end_of_dir. split; [reflexivity|]. exists [], e, es. auto. }
  destruct (Z.eqb_spec (znth 0 (DIR_Name e) 0) 229) as [H1|H1].
  { exists r. split; [exact Hr|]. apply scan_post_cons; auto. intros [[H _] _]. contradiction. }
  destruct (Z.eqb_spec (Z.land (DIR_Attr e) 15) 15) as [H2|H2].
  { exists r. split; [exact Hr|]. apply scan_post_cons; auto. intros [[_ H] _]. contradiction. }
  destruct (decide (DIR_Name e = name83)) as [Hn|Hn].
  - rewrite bool_decide_eq_true_2 by exact Hn. exists (scan_match e). split; [reflexivity|].
    exists [], es. repeat split; auto.
  - rewrite bool_decide_eq_false_2 by exact Hn. exists r. split; [exact Hr|].
    apply scan_post_cons; auto. intros [_ H]. contradiction.
Qed.

(** ** Properties *)


Section OpenSpec.

Context (kmalloc : mem -> Z -> res (Z * mem)) (kfree : mem -> Z -> res mem).
Context (fat_calcualte_lba get_next_cluster : Z -> M Z).
Context (invoke : callback -> Z -> Z -> M unit).

(** the open of a nested path fails to move on to its last component: when the
    directory above it has been found, the search descends into that directory's
    first cluster but goes on comparing entries with the directory's own packed name. *)
Theorem fs_open_last_component_stale ctx c e s w :
  let wk := oc_walker c in
  let p := pw_full_path wk + pw_offset wk in
  ctx <> 0 -> w_opens w !! ctx = Some c -> oc_parent_cluster_storage c = 0 ->
  0 <= pw_offset wk -> cstring w p s -> drop_slash s <> [] -> rest_of s = [] ->
  (length (fst (split_component (drop_slash s))) <= 12)%nat -> length (pw_component wk) = 13%nat ->
  0 <= p < 4294967296 -> 0 < p + skipped s -> 0 <= pw_offset wk + skipped s < 2147483648 ->
  let cluster := Z.lor (Z.shiftl (DIR_FstClusHI e) 16) (DIR_FstClusLO e) in
  exists w' c' lba, fs_open_found kmalloc kfree invoke ctx e w =
      fs_open_post_io kmalloc ctx lba FSOPEN_PARSE_DIR_SECTOR w' /\
    cluster_to_lba cluster w = Ok (lba, w) /\
    w_opens w' !! ctx = Some c' /\ oc_current_cluster c' = cluster /\
    path_walker_has_next (oc_walker c') = false /\
    pw_component_83 (oc_walker c') = pw_component_83 (oc_walker c).
Proof.
  intros wk p H0 Hc Hps Hoff Hs Hne Hrest Hlen Hcomp Hp Hp0 Hoff' cluster.
  unfold fs_open_found. rewrite (mbind_step _ _ _ _ _ (@load_some _ stored_open ctx c w H0 Hc)). cbv zeta.
  unfold path_walker_has_next at 1. fold wk.
  replace (0 <=? pw_offset wk) with true by (symmetry; apply Z.leb_le; exact Hoff). cbn [negb].
  destruct (path_walker_advance_aux wk w s Hs Hcomp Hlen Hne Hp Hp0 Hoff') as (comp & _ & _ & E).
  rewrite bool_decide_eq_true_2 in E by exact Hrest. rewrite (mbind_step _ _ _ _ _ E).
  unfold mbind at 1. rewrite store_nonnull by exact H0. cbn [rbind]. rewrite Hps.
  unfold store_parent. cbn [Z.eqb]. unfold mbind at 1, mret at 1. cbn [rbind].
  unfold mbind at 1. erewrite update_some; [|exact H0|apply lookup_insert_eq]. cbn [rbind].
  eexists _, _, _. split; [reflexivity|]. split; [reflexivity|].
  split; [apply lookup_insert_eq|]. repeat split.
Qed.

(** completing an open for a process tells it the opposite of what happened: the
    process reads 0 when the file was found and the address of the (unfilled) file
    when it was not. It is made ready to run in both cases. *)
Theorem fs_open_finish_inverted ctx c pcb p w m : ctx <> 0 -> w_opens w !! ctx = Some c ->
  kfree (w_heap w) ctx = Ok m -> oc_proc_id c <> 0 ->
  get_pcb_from_id (oc_proc_id c) (set_w_trace (w_trace w ++ [EFree ctx]) (set_w_heap m w)) =
    Ok (pcb, set_w_trace (w_trace w ++ [EFree ctx]) (set_w_heap m w)) ->
  pcb <> 0 -> w_pcbs w !! pcb = Some p ->
  exists w', fs_open_finish kfree invoke ctx w = Ok (tt, w') /\
    w_pcbs w' !! pcb = Some (set_pcb_pstatus STATE_READY
      (set_pcb_tf_a0 (match oc_state c with FSOPEN_DONE => 0 | _ => oc_out_file c end) p)).
Proof.
  intros H0 Hc Hm Hid Hpcb Hp0 Hp. unfold fs_open_finish.
  rewrite (mbind_step _ _ _ _ _ (@load_some _ stored_open ctx c w H0 Hc)). cbv zeta.
  unfold mbind at 1, k_free. rewrite Hm. cbn [rbind].
  replace (oc_proc_id c =? 0) with false by (symmetry; apply Z.eqb_neq; exact Hid). cbn [negb].
  rewrite (mbind_step _ _ _ _ _ Hpcb).
  unfold mbind at 1. erewrite update_some; [|exact Hp0|exact Hp]. cbn [rbind].
  unfold unblock_process, mbind, emit, modify. cbn [rbind].
  erewrite update_some; [|exact Hp0|apply lookup_insert_eq].
  eexists. split; [reflexivity|]. cbn. rewrite lookup_insert_eq. destruct (oc_state c); reflexivity.
Qed.

(** completing an open for kernel code frees the context twice before it calls
    back, with status 0 exactly when the file was found. *)
Theorem fs_open_finish_double_free ctx c w m m' : ctx <> 0 -> w_opens w !! ctx = Some c ->
  oc_proc_id c = 0 -> oc_on_complete c <> cb_null ->
  kfree (w_heap w) ctx = Ok m -> kfree m ctx = Ok m' ->
  exists w', fs_open_finish kfree invoke ctx w =
      invoke (oc_on_complete c) (oc_caller_ctx c) (match oc_state c with FSOPEN_DONE => 0 | _ => -1 end) w' /\
    w_heap w' = m' /\ w_trace w' = w_trace w ++ [EFree ctx; EFree ctx].
Proof.
  intros H0 Hc Hid Hcb Hm Hm'. unfold fs_open_finish.
  rewrite (mbind_step _ _ _ _ _ (@load_some _ stored_open ctx c w H0 Hc)). cbv zeta.
  unfold mbind at 1, k_free. rewrite Hm. cbn [rbind]. rewrite Hid. cbn [Z.eqb negb].
  rewrite bool_decide_eq_true_2 by exact Hcb.
  unfold mbind, k_free. cbn. rewrite Hm'. cbn [rbind].
  eexists. split; [reflexivity|]. split; [reflexivity|]. cbn. rewrite <- app_assoc. reflexivity.
Qed.

End OpenSpec.

(** ** The properties at concrete inputs *)

Module FsOpenWitness.

(** A directory sector: a deleted entry, then "DIR" in cluster 9, then the end. *)
Definition entry_bytes (name : list Z) (lo : Z) : list Z :=
  pad 11 name ++ [16] ++ replicate 14 0 ++ [lo; 0] ++ replicate 4 0.
Definition sector_bytes : list Z :=
  entry_bytes [229; 66] 3 ++ entry_bytes [68; 73; 82] 9 ++ replicate 448 0.
Definition sector1 : gmap Z Z :=
  list_to_map (zip ((fun k => SD_RX_RAM + Z.of_nat k) <$> seq 0 512) sector_bytes).
(** The string "DIR/X" at 64. *)
Definition bytes1 : gmap Z Z :=
  list_to_map (zip (Z.of_nat <$> seq 64 6) [68; 73; 82; 47; 88; 0]) ∪ sector1.

Definition kmalloc0 (m : mem) (n : Z) : res (Z * mem) := Ok (80, m).
Definition kfree0 (m : mem) (p : Z) : res mem := Ok m.
Definition invoke0 (cb : callback) (ctx st : Z) : M unit := emit (ECall 1 ctx st).

Definition name_DIR : list Z := [68; 73; 82; 32; 32; 32; 32; 32; 32; 32; 32].
(** The walk of "DIR/X", standing on "DIR". *)
Definition walker1 : path_walker_t := PathWalker 64 3 ([68; 73; 82] ++ replicate 10 0) name_DIR.
Definition ctx_for (st : fs_open_state_t) (proc : Z) : fs_open_ctx_t :=
  FsOpenCtx st walker1 2 200 0 16 0 proc (other_cb 1) 7.
Definition world_for (st : fs_open_state_t) (proc : Z) : world :=
  World ∅ (IoSched 0 0 0 SCHED_IDLE) (Ring 0 0 (replicate 8 0)) SD_STATE_IDLE 0
    (FsRunInfo 100 10 200 2 1) 48 ∅ {[ 16 := File 0 0 0 0 0 0 0 0 ]} {[ 32 := ctx_for st proc ]} ∅
    ∅ ∅ ∅ {[ 48 := Pcb 0 0 0 48 0 0 0 2 0 0 5 3 ]} bytes1 [] [].
Definition w1 : world := world_for FSOPEN_PARSE_DIR_SECTOR 0.

Definition entries1 : list FAT_DIRECTORY :=
  FatDirectory (pad 11 [229; 66]) 16 0 3 0 :: FatDirectory name_DIR 16 0 9 0 ::
  replicate 14 (FatDirectory (replicate 11 0) 0 0 0 0).

Lemma entries1_at : entries_at w1 SD_RX_RAM entries1.
Proof. repeat split; vm_compute; reflexivity. Qed.


Lemma fs_open_last_component_stale_witness : exists w' c' lba,
  fs_open_found kmalloc0 kfree0 invoke0 32 (FatDirectory name_DIR 16 0 9 0) w1 =
    fs_open_post_io kmalloc0 32 lba FSOPEN_PARSE_DIR_SECTOR w' /\
  w_opens w' !! 32 = Some c' /\ pw_component_83 (oc_walker c') = name_DIR.
Proof.
  destruct (fs_open_last_component_stale kmalloc0 kfree0 invoke0 32 (ctx_for FSOPEN_PARSE_DIR_SECTOR 0)
    (FatDirectory name_DIR 16 0 9 0) [47; 88] w1) as (w' & c' & lba & E & _ & Hc & _ & _ & Hn);
    [lia|reflexivity|reflexivity|simpl; lia| |discriminate|reflexivity|simpl; lia|reflexivity
    |simpl; lia|vm_compute; reflexivity|vm_compute; split; congruence|].
  { repeat split; try (vm_compute; reflexivity); lia. }
  exists w', c', lba. split; [exact E|]. split; [exact Hc|exact Hn].
Defined.

Lemma fs_open_finish_inverted_witness : exists w',
  fs_open_finish kfree0 invoke0 32 (world_for FSOPEN_DONE 5) = Ok (tt, w') /\
  w_pcbs w' !! 48 = Some (Pcb 0 0 0 48 0 0 0 2 0 0 5 STATE_READY).
Proof.
  destruct (fs_open_finish_inverted kfree0 invoke0 32 (ctx_for FSOPEN_DONE 5) 48
    (Pcb 0 0 0 48 0 0 0 2 0 0 5 3) (world_for FSOPEN_DONE 5) ∅) as (w' & E & Hp);
    [lia|reflexivity|reflexivity|simpl; lia|vm_compute; reflexivity|lia|reflexivity|].
  exists w'. split; [exact E|exact Hp].
Defined.

Lemma fs_open_finish_double_free_witness : exists w',
  fs_open_finish kfree0 invoke0 32 (world_for FSOPEN_NOT_FOUND 0) = invoke0 (other_cb 1) 7 (-1) w' /\
  w_trace w' = [EFree 32; EFree 32].
Proof.
  destruct (fs_open_finish_double_free kfree0 invoke0 32 (ctx_for FSOPEN_NOT_FOUND 0)
    (world_for FSOPEN_NOT_FOUND 0) ∅ ∅) as (w' & E & _ & Ht);
    [lia|reflexivity|reflexivity|discriminate|reflexivity|reflexivity|].
  exists w'. split; [exact E|exact Ht].
Defined.

End FsOpenWitness.
