(* ===== verification/ElfLoad.v ===== *)
(** * The ELF loader: kernel/fs/fs_elf.c

    A state machine driven by the completions of its own open, read, seek and close
    calls: open the file, read the header, seek to the program headers, and for
    each one read it and, if it is loadable, reserve user memory, seek to the
    segment and read it. *)

From S2P Require Import Prelude Mem Umem KWorld IoSched FsSeek FsRead FsOpen.

(** ** The code *)

(** Offsets in [elf_ctx_t] and in the two ELF headers. *)
Definition sizeof_elf_ctx : Z := 156.
Definition sizeof_Elf32_Ehdr : Z := 52.
Definition sizeof_Elf32_Phdr : Z := 32.
Definition sizeof_memory_region : Z := 12.
(* kernel/fs/fs_elf.c:35-45 elf_ctx_t *)
Definition elf_file_addr (ctx : Z) : Z := ctx + 4.
Definition elf_header_addr (ctx : Z) : Z := ctx + 36.
Definition elf_pheader_addr (ctx : Z) : Z := ctx + 88.
Definition elf_parent_addr (ctx : Z) : Z := ctx + 124.

(** include/types.h defines both [true] and [false] as 1. *)
(* include/types.h:12-13 true *)
Definition c_true : Z := 1.
Definition c_false : Z := 1.

(* include/elf/elf_header.h:8-24 Elf32_Ehdr *)
Record Elf32_Ehdr : Type := ElfEhdr {
  e_ident : list Z; e_type : Z; e_machine : Z; e_entry : Z; e_phoff : Z; e_phnum : Z;
}.
(* include/elf/elf_program_header.h:3-13 Elf32_Phdr *)
Record Elf32_Phdr : Type := ElfPhdr {
  p_type : Z; p_offset : Z; p_vaddr : Z; p_filesz : Z; p_memsz : Z; p_flags : Z;
}.

(* include/elf/elf_header.h:8-24 Elf32_Ehdr *)
Definition load_ehdr (p : Z) : M Elf32_Ehdr :=
  let! ident := load_bytes 16 p in
  let! ty := load_half (p + 16) in
  let! machine := load_half (p + 18) in
  let! entry := load_word (p + 24) in
  let! phoff := load_word (p + 28) in
  let! phnum := load_half (p + 44) in
  mret (ElfEhdr ident ty machine entry phoff phnum).

(* include/elf/elf_program_header.h:3-13 Elf32_Phdr *)
Definition load_phdr (p : Z) : M Elf32_Phdr :=
  let! ty := load_word p in
  let! offset := load_word (p + 4) in
  let! vaddr := load_word (p + 8) in
  let! filesz := load_word (p + 16) in
  let! memsz := load_word (p + 20) in
  let! flags := load_word (p + 24) in
  mret (ElfPhdr ty offset vaddr filesz memsz flags).

(* include/elf/elf_program_header.h:15-16 PT_LOAD *)
Definition PT_LOAD : Z := 1.
(* include/elf/elf_program_header.h:36-36 PF_X *)
Definition PF_X : Z := 1.

(* include/elf/elf_header.h:26-37 Elf_Ident *)
Inductive Elf_Ident : Type :=
| EI_MAG0 | EI_MAG1 | EI_MAG2 | EI_MAG3 | EI_CLASS | EI_DATA | EI_VERSION | EI_OSABI | EI_ABIVERSION | EI_PAD.

(* include/elf/elf_header.h:26-37 Elf_Ident *)
Definition elf_ident (i : Elf_Ident) : Z :=
  match i with
  | EI_MAG0 => 0 | EI_MAG1 => 1 | EI_MAG2 => 2 | EI_MAG3 => 3 | EI_CLASS => 4 | EI_DATA => 5
  | EI_VERSION => 6 | EI_OSABI => 7 | EI_ABIVERSION => 8 | EI_PAD => 9
  end.

(* include/elf/elf_header.h:39-39 ELFMAG0 *)
Definition ELFMAG0 : Z := 0x7F.
(* include/elf/elf_header.h:40-40 ELFMAG1 *)
Definition ELFMAG1 : Z := 69.
(* include/elf/elf_header.h:41-41 ELFMAG2 *)
Definition ELFMAG2 : Z := 76.
(* include/elf/elf_header.h:42-42 ELFMAG3 *)
Definition ELFMAG3 : Z := 70.
(* include/elf/elf_header.h:44-44 ELFDATA2LSB *)
Definition ELFDATA2LSB : Z := 1.
(* include/elf/elf_header.h:45-45 ELFCLASS32 *)
Definition ELFCLASS32 : Z := 1.
(* include/elf/elf_header.h:46-46 ELF_MACHINE_RISCV *)
Definition ELF_MACHINE_RISCV : Z := 0xF3.

(* include/elf/elf_header.h:48-52 Elf_Type *)
Inductive Elf_Type : Type := ET_NONE | ET_REL | ET_EXEC.
(* include/elf/elf_header.h:48-52 Elf_Type *)
Definition elf_type (t : Elf_Type) : Z := match t with ET_NONE => 0 | ET_REL => 1 | ET_EXEC => 2 end.

(** The header is never a null pointer where the function is called. *)
(* kernel/fs/fs_elf.c:112-133 elf_validate_header *)
Definition elf_validate_header (hdr : Elf32_Ehdr) : Z :=
  let id i := znth 0 (e_ident hdr) (elf_ident i) in
  if negb (id EI_MAG0 =? ELFMAG0) then c_false
  else if negb (id EI_MAG1 =? ELFMAG1) then c_false
  else if negb (id EI_MAG2 =? ELFMAG2) then c_false
  else if negb (id EI_MAG3 =? ELFMAG3) then c_false
  else if negb (id EI_CLASS =? ELFCLASS32) then c_false
  else if negb (id EI_DATA =? ELFDATA2LSB) then c_false
  else if negb (e_machine hdr =? ELF_MACHINE_RISCV) then c_false
  else if negb (e_type hdr =? elf_type ET_EXEC) then c_false
  else c_true.

Section Elf.

Context (kmalloc : mem -> Z -> res (Z * mem)) (kfree : mem -> Z -> res mem).
Context (fat_calcualte_lba get_next_cluster : Z -> M Z).
Context (invoke : callback -> Z -> Z -> M unit).

Abbreviation fs_read_submit := (fs_read_submit kmalloc).
Abbreviation fs_seek_whence := (fs_seek_whence kmalloc fat_calcualte_lba invoke).

(** The whole context is zeroed; the two headers and the parent word are bytes of it. *)
(* kernel/fs/fs_elf.c:49-57 elf_load_submit *)
Definition elf_load_submit (path pcb_to_fill : Z) : M unit :=
  let! ctx := k_alloc kmalloc sizeof_elf_ctx in
  do! memset_bytes (Z.to_nat sizeof_elf_ctx) ctx 0 in
  do! store (elf_file_addr ctx) (File 0 0 0 0 0 0 0 0) in
  do! store ctx (ElfCtx ELF_OPENING 0 (ProcessImage 0 0 0 0 0) pcb_to_fill 0) in
  fs_open_submit_with_dir_parent kmalloc path (elf_file_addr ctx) 0 cb_elf_step ctx (elf_parent_addr ctx).

(* kernel/fs/fs_elf.c:64-74 elf_read_next_program_header *)
Definition elf_read_next_program_header (ctx : Z) : M unit :=
  do! update ctx (fun c => set_ec_current_seg (s32 (ec_current_seg c + 1)) c) in
  let! c := load ctx in
  let! h := load_ehdr (elf_header_addr ctx) in
  if ec_current_seg c <? e_phnum h then
    do! update ctx (set_ec_state ELF_READ_PHEADER) in
    fs_read_submit (elf_file_addr ctx) (elf_pheader_addr ctx) sizeof_Elf32_Phdr cb_elf_step ctx
  else
    do! update ctx (set_ec_state ELF_CLOSING) in
    fs_close_submit kfree invoke (elf_file_addr ctx) cb_elf_step ctx.

(* kernel/fs/fs_elf.c:81-85 elf_finish *)
Definition free_region (p : Z) : M unit := if p =? 0 then mret tt else k_free kfree p.

(* kernel/fs/fs_elf.c:79-110 elf_finish *)
Definition elf_finish (ctx : Z) : M unit :=
  let! c := load ctx in
  let im := ec_tmp_image c in
  do! (if decide (ec_state c = ELF_ERROR) then
         do! free_region (pi_ptext_memory_region im) in
         free_region (pi_pdata_memory_region im)
       else
         let! r := load (A := memory_region_t) (pi_ptext_memory_region im) in
         do! update (ec_pcb c) (set_pcb_mscratch (u32 (pi_pdata_start im + mr_region_size r))) in
         let! p := load (ec_pcb c) in
         do! emit (ERelease (pcb_ptext_memory_region p)) in
         do! emit (ERelease (pcb_pdata_memory_region p)) in
         let! parent := load_word (elf_parent_addr ctx) in
         update (ec_pcb c) (fun p =>
           Pcb (pcb_tf_a0 p) (pi_mepc im) (pcb_mscratch p) (pcb_next p) (pi_heap_start im)
             (pi_ptext_memory_region im) (pi_pdata_memory_region im) parent (pi_pdata_start im)
             (pi_heap_start im) (pcb_pid p) (pcb_pstatus p))) in
  do! unblock_process (ec_pcb c) in
  k_free kfree ctx.

(** [state = ELF_ERROR; elf_finish(ctx)]. *)
(* kernel/fs/fs_elf.c:139-140 elf_step *)
Definition elf_fail (ctx : Z) : M unit :=
  do! update ctx (set_ec_state ELF_ERROR) in elf_finish ctx.

Definition u_alloc (bytes : Z) : M Z := fun w =>
  let* (a, bm) := Umem.ualloc (w_ubitmap w) bytes in Ok (a, set_w_ubitmap bm w).

(** The image after segment [ph] has been given the region [region]. *)
(* kernel/fs/fs_elf.c:204-224 elf_step *)
Definition image_with (im : process_image_t) (h : Elf32_Ehdr) (ph : Elf32_Phdr) (region : Z) : process_image_t :=
  if truthy (Z.land (p_flags ph) PF_X) then
    set_pi_mepc (e_entry h) (set_pi_ptext_memory_region region im)
  else
    let heap := Z.land (u32 (u32 (p_vaddr ph + p_memsz ph) + 15)) (not32 15) in
    set_pi_heap_start heap (set_pi_pdata_start (p_vaddr ph) (set_pi_pdata_memory_region region im)).

(** A loadable program header has been read. *)
(* kernel/fs/fs_elf.c:179-228 elf_step *)
Definition elf_load_segment (ctx : Z) (ph : Elf32_Phdr) : M unit :=
  let! region := k_alloc kmalloc sizeof_memory_region in
  if region =? 0 then elf_fail ctx
  else
    let! mem := u_alloc (p_memsz ph) in
    if mem =? 0 then
      do! k_free kfree region in elf_fail ctx
    else
      do! memset_bytes (Z.to_nat (p_memsz ph)) mem 0 in
      do! store region (Region mem (p_memsz ph) 1) in
      let! h := load_ehdr (elf_header_addr ctx) in
      do! update ctx (fun c => set_ec_state ELF_SEEK_PCONTENT
            (set_ec_tmp_image (image_with (ec_tmp_image c) h ph region) (set_ec_seg_buf mem c))) in
      fs_seek_whence (elf_file_addr ctx) (p_offset ph) SEEK_SET cb_elf_step ctx.

(* kernel/fs/fs_elf.c:135-249 elf_step *)
Definition elf_step (raw_ctx status : Z) : M unit :=
  if negb (status =? 0) then elf_fail raw_ctx
  else
    let! c := load raw_ctx in
    match ec_state c with
    | ELF_OPENING =>
        do! store raw_ctx (set_ec_state ELF_READING_HEADER c) in
        fs_read_submit (elf_file_addr raw_ctx) (elf_header_addr raw_ctx) sizeof_Elf32_Ehdr cb_elf_step raw_ctx
    | ELF_READING_HEADER =>
        let! h := load_ehdr (elf_header_addr raw_ctx) in
        if elf_validate_header h =? 0 then elf_fail raw_ctx
        else
          do! store raw_ctx (set_ec_state ELF_LOAD_PHEADER (set_ec_current_seg 0 c)) in
          fs_seek_whence (elf_file_addr raw_ctx) (e_phoff h) SEEK_SET cb_elf_step raw_ctx
    | ELF_LOAD_PHEADER =>
        do! store raw_ctx (set_ec_state ELF_READ_PHEADER c) in
        fs_read_submit (elf_file_addr raw_ctx) (elf_pheader_addr raw_ctx) sizeof_Elf32_Phdr cb_elf_step raw_ctx
    | ELF_READ_PHEADER =>
        let! ph := load_phdr (elf_pheader_addr raw_ctx) in
        if negb (p_type ph =? PT_LOAD) then elf_read_next_program_header raw_ctx
        else elf_load_segment raw_ctx ph
    | ELF_SEEK_PCONTENT =>
        do! store raw_ctx (set_ec_state ELF_LOAD_PCONTENT c) in
        let! ph := load_phdr (elf_pheader_addr raw_ctx) in
        fs_read_submit (elf_file_addr raw_ctx) (ec_seg_buf c) (s32 (p_filesz ph)) cb_elf_step raw_ctx
    | ELF_LOAD_PCONTENT =>
        do! store raw_ctx (set_ec_seg_buf 0 c) in
        elf_read_next_program_header raw_ctx
    | ELF_CLOSING =>
        do! store raw_ctx (set_ec_state ELF_DONE c) in
        elf_finish raw_ctx
    | _ => mret tt
    end.

End Elf.

(** ** Properties *)

(** the header check accepts every file: [true] and [false] are the same number,
    so no header, whatever its magic, class, byte order, machine or type, is refused. *)
Theorem elf_validate_header_accepts_all hdr : elf_validate_header hdr = 1.
Proof. unfold elf_validate_header, c_true, c_false. repeat case_match; reflexivity. Qed.

(** the heap of the new process starts at the first 16-byte boundary at or after
    the end of the data segment, for every segment that ends below 2^32 - 16; a text
    segment sets the entry point and leaves the heap alone. *)
Theorem image_with_heap im h ph region :
  0 <= p_vaddr ph -> 0 <= p_memsz ph -> p_vaddr ph + p_memsz ph < 4294967280 ->
  let im' := image_with im h ph region in
  if Z.testbit (p_flags ph) 0 then
    pi_mepc im' = e_entry h /\ pi_ptext_memory_region im' = region /\ pi_heap_start im' = pi_heap_start im
  else
    pi_pdata_memory_region im' = region /\ pi_pdata_start im' = p_vaddr ph /\
    pi_heap_start im' mod 16 = 0 /\
    p_vaddr ph + p_memsz ph <= pi_heap_start im' < p_vaddr ph + p_memsz ph + 16.
Proof.
  intros Hv Hm Hs. unfold image_with, PF_X, truthy. cbn zeta. rewrite land_1.
  rewrite Z.bit0_odd, Zmod_odd. destruct (Z.odd (p_flags ph)); cbn; [auto|].
  split; [reflexivity|]. split; [reflexivity|].
  rewrite (u32_id (p_vaddr ph + p_memsz ph)), u32_id by lia.
  change (not32 15) with (4294967296 - 2 ^ 4). rewrite land_high_mask by lia.
  change (2 ^ 4) with 16. dlia.
Qed.

Section ElfSpec.

Context (kmalloc : mem -> Z -> res (Z * mem)) (kfree : mem -> Z -> res mem).
Context (fat_calcualte_lba get_next_cluster : Z -> M Z).
Context (invoke : callback -> Z -> Z -> M unit).

Abbreviation elf_step := (elf_step kmalloc kfree fat_calcualte_lba invoke).

Lemma load_bytes_stable n : forall p w w' l, w_bytes w' = w_bytes w ->
  load_bytes n p w = Ok (l, w) -> load_bytes n p w' = Ok (l, w').
Proof.
  induction n as [|n IH]; intros p w w' l Hb E; [injection E as <-; reflexivity|].
  cbn [load_bytes] in *. unfold mbind, load_byte in *. rewrite Hb.
  destruct (w_bytes w !! p) as [b|]; [|discriminate]. cbn [of_option rbind] in *.
  apply rbind_ok in E as ([l1 w1] & E1 & E). unfold mret in *. injection E as <- ->.
  rewrite (IH (p + 1) w w' l1 Hb E1). reflexivity.
Qed.

Lemma load_half_stable p w w' v : w_bytes w' = w_bytes w ->
  load_half p w = Ok (v, w) -> load_half p w' = Ok (v, w').
Proof.
  intros Hb. unfold load_half, mbind, load_byte, mret. rewrite Hb.
  destruct (w_bytes w !! p); cbn; [|discriminate]. rewrite Hb. destruct (w_bytes w !! (p + 1)); cbn; [|discriminate].
  intros [= <-]. reflexivity.
Qed.

Lemma load_half_same p w w' v : load_half p w = Ok (v, w') -> w' = w.
Proof.
  unfold load_half, mbind, load_byte, mret.
  destruct (w_bytes w !! p); cbn; [|discriminate]. destruct (w_bytes w !! (p + 1)); cbn; [|discriminate].
  intros [= _ <-]. reflexivity.
Qed.

Lemma load_word_same p w w' v : load_word p w = Ok (v, w') -> w' = w.
Proof.
  unfold load_word. intros H. m_inv. apply load_half_same in E as ->. apply load_half_same in E0 as ->. reflexivity.
Qed.

Lemma load_word_stable p w w' v : w_bytes w' = w_bytes w ->
  load_word p w = Ok (v, w) -> load_word p w' = Ok (v, w').
Proof.
  intros Hb H. unfold load_word in *. m_inv.
  pose proof (load_half_same _ _ _ _ E) as ->. 
  rewrite (mbind_step _ _ _ _ _ (load_half_stable _ _ _ _ Hb E)).
  rewrite (mbind_step _ _ _ _ _ (load_half_stable _ _ _ _ Hb E0)). reflexivity.
Qed.

Lemma load_ehdr_stable p w w' h : w_bytes w' = w_bytes w ->
  load_ehdr p w = Ok (h, w) -> load_ehdr p w' = Ok (h, w').
Proof.
  intros Hb H. unfold load_ehdr in *. 
  apply mbind_ok in H as (ident & w1 & E1 & H).
  assert (w1 = w).
  { clear H. revert p ident w1 E1. generalize 16%nat. intros n. induction n as [|n IH]; intros p ident w1 E1.
    - injection E1 as _ <-. reflexivity.
    - cbn [load_bytes] in E1. m_inv. unfold load_byte in E. apply rbind_ok in E as (b & _ & E).
      injection E as _ <-. apply IH in E0. exact E0. }
  subst w1. rewrite (mbind_step _ _ _ _ _ (load_bytes_stable _ _ _ _ _ Hb E1)).
  m_inv.
  pose proof (load_half_same _ _ _ _ E) as ->. pose proof (load_half_same _ _ _ _ E0) as ->.
  pose proof (load_word_same _ _ _ _ E2) as ->. pose proof (load_word_same _ _ _ _ E3) as ->.
  rewrite (mbind_step _ _ _ _ _ (load_half_stable _ _ _ _ Hb E)).
  rewrite (mbind_step _ _ _ _ _ (load_half_stable _ _ _ _ Hb E0)).
  rewrite (mbind_step _ _ _ _ _ (load_word_stable _ _ _ _ Hb E2)).
  rewrite (mbind_step _ _ _ _ _ (load_word_stable _ _ _ _ Hb E3)).
  rewrite (mbind_step _ _ _ _ _ (load_half_stable _ _ _ _ Hb E4)). reflexivity.
Qed.

(** The loader between two program headers: what it reads next is wherever the file
    happens to stand. *)
Lemma elf_next_header ctx c h w : ctx <> 0 -> w_elfs w !! ctx = Some c ->
  load_ehdr (elf_header_addr ctx) w = Ok (h, w) -> 0 <= ec_current_seg c < 65536 ->
  exists w', w_files w' = w_files w /\ w_heap w' = w_heap w /\ w_trace w' = w_trace w /\
    elf_read_next_program_header kmalloc kfree invoke ctx w =
      (if ec_current_seg c + 1 <? e_phnum h then
        fs_read_submit kmalloc (elf_file_addr ctx) (elf_pheader_addr ctx) sizeof_Elf32_Phdr cb_elf_step ctx
      else fs_close_submit kfree invoke (elf_file_addr ctx) cb_elf_step ctx) w' /\
    w_elfs w' !! ctx = Some (set_ec_state (if ec_current_seg c + 1 <? e_phnum h then ELF_READ_PHEADER else ELF_CLOSING)
      (set_ec_current_seg (ec_current_seg c + 1) c)).
Proof.
  intros H0 Hc Hh Hs. unfold elf_read_next_program_header.
  unfold mbind at 1. erewrite update_some; [|exact H0|exact Hc]. cbn [rbind]. rewrite s32_id by lia.
  set (c1 := set_ec_current_seg (ec_current_seg c + 1) c).
  match goal with |- context [mbind (load ctx) _ ?W] => set (w1 := W) end.
  assert (H1 : w_elfs w1 !! ctx = Some c1) by apply lookup_insert_eq.
  rewrite (mbind_step _ _ _ _ _ (@load_some _ stored_elf ctx c1 w1 H0 H1)).
  rewrite (mbind_step _ _ _ _ _ (load_ehdr_stable _ w w1 h eq_refl Hh)). 
  change (ec_current_seg c1) with (ec_current_seg c + 1).
  destruct (ec_current_seg c + 1 <? e_phnum h); unfold mbind at 1;
    (erewrite update_some; [|exact H0|exact H1]); cbn [rbind]; eexists;
    (split; [|split; [|split; [|split; [reflexivity|apply lookup_insert_eq]]]]); reflexivity.
Qed.

(** after the contents of a segment have been read, the loader reads the next
    program header without seeking back to the table: the read starts wherever the
    segment's bytes ended, in the file as the previous read left it. *)
Theorem elf_next_header_without_seek ctx c h w : ctx <> 0 -> w_elfs w !! ctx = Some c ->
  ec_state c = ELF_LOAD_PCONTENT ->
  load_ehdr (elf_header_addr ctx) w = Ok (h, w) -> 0 <= ec_current_seg c -> ec_current_seg c + 1 < e_phnum h ->
  e_phnum h < 65536 ->
  exists w', elf_step ctx 0 w =
      fs_read_submit kmalloc (elf_file_addr ctx) (elf_pheader_addr ctx) sizeof_Elf32_Phdr cb_elf_step ctx w' /\
    w_files w' = w_files w.
Proof.
  intros H0 Hc Hst Hh Hs Hn Hb. unfold ElfLoad.elf_step. cbn [negb Z.eqb].
  rewrite (mbind_step _ _ _ _ _ (@load_some _ stored_elf ctx c w H0 Hc)). rewrite Hst.
  unfold mbind at 1. rewrite store_nonnull by exact H0. cbn [rbind].
  match goal with |- context [elf_read_next_program_header _ _ _ ctx ?W] => set (w1 := W) end.
  destruct (elf_next_header ctx (set_ec_seg_buf 0 c) h w1) as (w' & Hf & _ & _ & E & _).
  - exact H0.
  - apply lookup_insert_eq.
  - apply (load_ehdr_stable _ w w1 h eq_refl Hh).
  - cbn. lia.
  - change (ec_current_seg (set_ec_seg_buf 0 c)) with (ec_current_seg c) in E.
    replace (ec_current_seg c + 1 <? e_phnum h) with true in E by (symmetry; apply Z.ltb_lt; exact Hn).
    exists w'. split; [exact E|exact Hf].
Qed.

(** closing the file after the last segment hands [kfree] the address of the file
    inside the loader's context, which no allocation starts at; the loader then
    continues with its context still in use. *)
Theorem elf_close_frees_interior ctx c h w m : ctx <> 0 -> w_elfs w !! ctx = Some c ->
  ec_state c = ELF_LOAD_PCONTENT ->
  load_ehdr (elf_header_addr ctx) w = Ok (h, w) -> 0 <= ec_current_seg c < 65536 -> e_phnum h <= ec_current_seg c + 1 ->
  kfree (w_heap w) (ctx + 4) = Ok m ->
  exists w', elf_step ctx 0 w = invoke cb_elf_step ctx 0 w' /\ w_heap w' = m /\
    w_trace w' = w_trace w ++ [EFree (ctx + 4)] /\
    exists c', w_elfs w' !! ctx = Some c' /\ ec_state c' = ELF_CLOSING.
Proof.
  intros H0 Hc Hst Hh Hs Hn Hm. unfold ElfLoad.elf_step. cbn [negb Z.eqb].
  rewrite (mbind_step _ _ _ _ _ (@load_some _ stored_elf ctx c w H0 Hc)). rewrite Hst.
  unfold mbind at 1. rewrite store_nonnull by exact H0. cbn [rbind].
  match goal with |- context [elf_read_next_program_header _ _ _ ctx ?W] => set (w1 := W) end.
  destruct (elf_next_header ctx (set_ec_seg_buf 0 c) h w1) as (w' & Hf & Hh' & Ht' & E & Hc').
  - exact H0.
  - apply lookup_insert_eq.
  - apply (load_ehdr_stable _ w w1 h eq_refl Hh).
  - cbn. lia.
  - change (ec_current_seg (set_ec_seg_buf 0 c)) with (ec_current_seg c) in *.
    replace (ec_current_seg c + 1 <? e_phnum h) with false in * by (symmetry; apply Z.ltb_ge; exact Hn).
    rewrite E. unfold fs_close_submit, mbind at 1, k_free.
    assert (Hm' : kfree (w_heap w') (elf_file_addr ctx) = Ok m) by (rewrite Hh'; exact Hm).
    rewrite Hm'. cbn [rbind]. eexists. split; [reflexivity|]. split; [reflexivity|].
    cbn. rewrite Ht'. split; [reflexivity|]. eexists. split; [exact Hc'|reflexivity].
Qed.


End ElfSpec.

(** ** The properties at concrete inputs *)

Module ElfLoadWitness.

Definition kmalloc0 (m : mem) (n : Z) : res (Z * mem) := Ok (80, m).
Definition kfree0 (m : mem) (p : Z) : res mem := Ok m.
Definition invoke0 (cb : callback) (ctx st : Z) : M unit := emit (ECall 1 ctx st).
Definition fat0 (c : Z) : M Z := mret c.

(** A loader at 1000 whose header says there are two program headers. *)
Definition bytes0 : gmap Z Z :=
  <[1080 := 2]> (list_to_map ((fun k => (1000 + Z.of_nat k, 0)) <$> seq 0 156)).
Definition header0 : Elf32_Ehdr := ElfEhdr (replicate 16 0) 0 0 0 0 2.
Definition ctx_at (seg : Z) : elf_ctx_t := ElfCtx ELF_LOAD_PCONTENT seg (ProcessImage 16 0 0 0 0) 48 0.
Definition pcb0 : pcb_t := Pcb 0 0 0 48 0 0 0 2 0 0 5 3.
Definition world_at (seg : Z) : world :=
  World ∅ (IoSched 0 0 0 SCHED_IDLE) (Ring 0 0 (replicate 8 0)) SD_STATE_IDLE 0
    (FsRunInfo 100 10 200 2 1) 48 ∅ {[ 1004 := File 0 5 5 0 10 0 5000 0 ]} ∅ ∅ ∅
    {[ 1000 := ctx_at seg ]} ∅ {[ 48 := pcb0 ]} bytes0 [] [].

Lemma header0_at seg : load_ehdr (elf_header_addr 1000) (world_at seg) = Ok (header0, world_at seg).
Proof. apply (load_ehdr_stable _ (world_at 0)); [reflexivity|]. vm_compute. reflexivity. Qed.

Lemma elf_next_header_without_seek_witness : exists w',
  elf_step kmalloc0 kfree0 fat0 invoke0 1000 0 (world_at 0) =
    fs_read_submit kmalloc0 1004 1088 32 cb_elf_step 1000 w' /\ w_files w' = w_files (world_at 0).
Proof.
  apply (elf_next_header_without_seek kmalloc0 kfree0 fat0 invoke0 1000 (ctx_at 0) header0 (world_at 0));
    [lia|reflexivity|reflexivity|apply header0_at|simpl; lia..].
Defined.

Lemma elf_close_frees_interior_witness : exists w',
  elf_step kmalloc0 kfree0 fat0 invoke0 1000 0 (world_at 1) = invoke0 cb_elf_step 1000 0 w' /\
  w_trace w' = [EFree 1004].
Proof.
  destruct (elf_close_frees_interior kmalloc0 kfree0 fat0 invoke0 1000 (ctx_at 1) header0 (world_at 1) ∅)
    as (w' & E & _ & Ht & _);
    [lia|reflexivity|reflexivity|apply header0_at|simpl; lia|simpl; lia|reflexivity|].
  exists w'. split; [exact E|exact Ht].
Defined.


Lemma image_with_heap_witness :
  let im := image_with (ProcessImage 0 0 0 0 0) header0 (ElfPhdr 1 0 4096 20 100 6) 64 in
  pi_heap_start im mod 16 = 0 /\ 4196 <= pi_heap_start im < 4212.
Proof.
  destruct (image_with_heap (ProcessImage 0 0 0 0 0) header0 (ElfPhdr 1 0 4096 20 100 6) 64)
    as (_ & _ & Hm & Hr); [simpl; lia|simpl; lia|simpl; lia|]. split; [exact Hm|exact Hr].
Defined.

End ElfLoadWitness.
