(* ===== verification/Kernel.v ===== *)
(** * The kernel's I/O put together

    The function pointers of the completions tied to the functions they name, over
    any allocator and FAT driver, and the pump with the kernel's own. [fuel] bounds the depth
    of callbacks called from callbacks. *)

From S2P Require Import Prelude Mem Kmem KWorld IoSched FsSeek FsRead FsName FsOpen ElfLoad.

Section Callbacks.

Context (kmalloc : mem -> Z -> res (Z * mem)) (kfree : mem -> Z -> res mem).
Context (fat_calcualte_lba get_next_cluster : Z -> M Z).

(** A call through a function pointer. The assembly callbacks are events. *)
Fixpoint invoke (fuel : nat) (cb : callback) (ctx status : Z) : M unit :=
  match fuel with
  | O => fun _ => NoFuel
  | S fuel =>
      match cb with
      | cb_null => mundef
      | cb_fs_open_step =>
          fs_open_step kmalloc kfree fat_calcualte_lba get_next_cluster (invoke fuel) ctx status
      | cb_fs_seek_step =>
          fs_seek_step kmalloc kfree fat_calcualte_lba get_next_cluster (invoke fuel) ctx status
      | cb_fs_read_step => fs_read_step kmalloc kfree fat_calcualte_lba (invoke fuel) ctx status
      | cb_elf_step => elf_step kmalloc kfree fat_calcualte_lba (invoke fuel) ctx status
      | other_cb id => emit (ECall id ctx status)
      end
  end.

Definition callback_depth : nat := 64.

End Callbacks.

Section Kernel.

Context (kernel_heap_start kernel_heap_end : Z).

Abbreviation kmalloc := (Kmem.kmalloc kernel_heap_start kernel_heap_end).
Abbreviation kfree := (Kmem.kfree kernel_heap_start kernel_heap_end).

(** The kernel's entry points: the timer's pump and the loader. *)
Definition pump (rounds : nat) : M unit :=
  io_sched_pump kfree (invoke kmalloc kfree fat_calcualte_lba_asm get_next_cluster_asm callback_depth) rounds.
Definition load (path pcb : Z) : M unit := elf_load_submit kmalloc path pcb.

End Kernel.

(** ** Properties *)

(** Where a FAT32 table keeps the entry of cluster [c]: 128 four-byte entries to a
    block. *)
Definition fat_entry_offset (c : Z) : Z := 4 * (c mod 128).

(** the assembly [get_next_cluster] takes the cluster number for a byte offset:
    what it reads for cluster [512 j + 4 k] is the entry of a cluster [k], not its own. *)
Theorem get_next_cluster_wrong_entry w j k e : 0 <= j -> 0 <= k < 128 -> 512 * j + 4 * k < 2147483648 ->
  load_word (SD_RX_RAM + fat_entry_offset k) w = Ok (e, w) ->
  exists w', get_next_cluster_asm (512 * j + 4 * k) w = Ok (e, w') /\
    (1 <= k < 32 -> j = 0 -> fat_entry_offset (512 * j + 4 * k) <> fat_entry_offset k).
Proof.
  intros Hj Hk Hb He. unfold get_next_cluster_asm.
  rewrite s32_id by lia. rewrite Z.rem_mod_nonneg by lia.
  replace ((512 * j + 4 * k) mod 512) with (4 * k) by dlia.
  unfold fat_entry_offset in *. rewrite (Z.mod_small k) in * by lia.
  rewrite u32_id by (unfold SD_RX_RAM; lia).
  eexists. split; [|intros Hk' ->; replace (512 * 0 + 4 * k) with (4 * k) by lia; dlia].
  unfold sd_tail_read, mbind at 1 2, emit, modify. cbn [rbind].
  apply (load_word_stable _ w); [reflexivity|exact He].
Qed.

(** ** The properties at concrete inputs *)

Module KernelWitness.

(** A sector buffer in which the entry of every cluster [c] names cluster [c + 1]. *)
Definition table : gmap Z Z :=
  list_to_map ((fun k => (SD_RX_RAM + Z.of_nat k,
    if (Z.of_nat k mod 4 =? 0) then Z.of_nat k / 4 + 1 else 0)) <$> seq 0 512).
Definition w0 : world :=
  World ∅ (IoSched 0 0 0 SCHED_IDLE) (Ring 0 0 (replicate 8 0)) SD_STATE_IDLE 0
    (FsRunInfo 100 10 200 2 1) 0 ∅ ∅ ∅ ∅ ∅ ∅ ∅ ∅ table [] [].

(** Asked for the successor of cluster 8, the routine answers 3, that of cluster 2. *)
Lemma get_next_cluster_wrong_entry_witness : exists w', get_next_cluster_asm 8 w0 = Ok (3, w').
Proof.
  destruct (get_next_cluster_wrong_entry w0 0 2 3) as (w' & E & _);
    [lia|lia|lia|vm_compute; reflexivity|]. exists w'. exact E.
Defined.

End KernelWitness.
