(* ===== verification/Disk.v ===== *)
(** * The kernel reading a file from the card

    The scheduler, the interrupt handler, the pump, the read and the seek put together
    over a model of the card, which answers every read with the contents of the block.
    The pump calls the callbacks by name, as in Kernel.v; the allocator is any that can
    serve the requests a read makes. The theorem is about reads that stay in one
    cluster: they never look at the FAT. *)

From S2P Require Import Prelude Mem Kmem KWorld IoSched FsSeek FsRead Kernel.

Section Disk.

Context (kmalloc : mem -> Z -> res (Z * mem)) (kfree : mem -> Z -> res mem).
Context (fat_calcualte_lba get_next_cluster : Z -> M Z).

(** Byte [i] of block [lba] of the card. *)
Context (block : Z -> Z -> Z).

Abbreviation invoke := (Kernel.invoke kmalloc kfree fat_calcualte_lba get_next_cluster).

(** ** The card *)

(** The block [lba] in the receive buffer of the SPI peripheral. *)
Fixpoint received (n : nat) (lba : Z) (m : gmap Z Z) : gmap Z Z :=
  match n with
  | O => m
  | S n => <[SD_RX_RAM + Z.of_nat n := block lba (Z.of_nat n)]> (received n lba m)
  end.

(** The transfer of the block asked for last. *)
Definition transfer : M unit := fun w =>
  match last (issued w) with
  | Some lba => Ok (tt, set_w_bytes (received 512 lba (w_bytes w)) w)
  | None => Ok (tt, w)
  end.

(** A block arrives, its interrupt is handled, and the timer runs the pump. *)
Definition card_round : M unit :=
  do! transfer in
  do! sd_irsq_handler in
  io_sched_pump kfree (invoke callback_depth) 2.

Fixpoint card_rounds (n : nat) : M unit :=
  match n with
  | O => mret tt
  | S n => do! card_round in card_rounds n
  end.

(** ** The state between rounds *)

(** The ring is empty. *)
Definition ring_ok (w : world) : Prop :=
  exists t st, w_ring w = Ring t t st /\ 0 <= t < 256 /\ length st = 8%nat.

(** Nothing is in flight and nothing waits. *)
Definition idle (w : world) : Prop := ring_ok w /\ w_sched w = IoSched 0 0 0 SCHED_IDLE.

(** [f], at [file], stands at byte [off]. *)
Definition open_at (w : world) (file : Z) (f : FILE) (off : Z) : Prop :=
  file <> 0 /\ w_files w !! file = Some f /\ geometry_ok w /\ is_u32 off /\ is_u32 (f_file_size f) /\
  f_file_offset f = off /\ f_current_sector f = off mod bpc w / 512 /\ f_current_byte f = off mod 512.

(** The block that holds byte [off] of the cluster of [f] that [off] is in. *)
Definition block_of (i : FS_RUN_INFO) (f : FILE) (off : Z) : Z :=
  u32 (u32 (u32 (u32 (f_current_cluster f - 2) * SECTORS_PER_CLUSTER i) + CLUSTER_BEGIN_LBA i)
       + off mod (512 * SECTORS_PER_CLUSTER i) / 512).

(** The callbacks of the assembly code that have been called. *)
Definition calls (w : world) : list (Z * Z * Z) :=
  omap (fun e => match e with ECall id ctx st => Some (id, ctx, st) | _ => None end) (w_trace w).

(** A buffer of [n] bytes apart from the receive buffer, and a request the arithmetic
    of the code can hold. *)
Definition request_ok (buf n : Z) : Prop :=
  0 < n < 2147483136 /\ 0 <= buf /\ buf + n <= 4294967295 /\
  (buf + n <= SD_RX_RAM \/ SD_RX_RAM + 512 <= buf).

(** The sectors a read of [n] bytes from [off] touches. *)
Definition sectors (off n : Z) : nat := Z.to_nat ((off mod 512 + n + 511) / 512).

(** A read of [n] bytes from [off] waits for the block of [off]. *)
Definition pending `{!KSupply kmalloc kfree} (w : world) (file : Z) (f : FILE) (off buf n id cx : Z)
    (k : nat) : Prop :=
  exists req rctx live,
    ring_ok w /\ w_sched w = IoSched 0 0 req SCHED_BUSY /\
    w_reqs w !! req = Some (IoReq (block_of (w_info w) f off) cb_fs_read_step rctx 0) /\
    w_reads w !! rctx = Some (FsReadCtx file buf FSREAD_COPY_CONTENTS n (other_cb id) cx) /\
    open_at w file f off /\ off + n <= f_file_size f /\ (off + n - 1) / bpc w = off / bpc w /\
    request_ok buf n /\ last (issued w) = Some (block_of (w_info w) f off) /\
    ks k (w_heap w) live /\ is_Some (live !! req) /\ is_Some (live !! rctx) /\ req <> rctx.

(** ** Lemmas: the card, the interrupt and the pump *)

Lemma received_in n lba m i : 0 <= i < Z.of_nat n -> received n lba m !! (SD_RX_RAM + i) = Some (block lba i).
Proof.
  induction n as [|n IH]; intros Hi; [lia|]. cbn [received].
  destruct (Z.eq_dec i (Z.of_nat n)) as [->|Hne]; [apply lookup_insert_eq|].
  rewrite lookup_insert_ne by lia. apply IH. lia.
Qed.

Lemma received_out n lba m x : ~ SD_RX_RAM <= x < SD_RX_RAM + Z.of_nat n -> received n lba m !! x = m !! x.
Proof.
  induction n as [|n IH]; intros Hx; [reflexivity|]. cbn [received].
  rewrite lookup_insert_ne by lia. apply IH. lia.
Qed.

#[local] Arguments received : simpl never.

(** Everything the file system sees is the same. *)
Definition same (w w' : world) : Prop :=
  w_sched w' = w_sched w /\ w_reqs w' = w_reqs w /\ w_reads w' = w_reads w /\ w_files w' = w_files w /\
  w_bytes w' = w_bytes w /\ w_heap w' = w_heap w /\ w_info w' = w_info w /\
  issued w' = issued w /\ calls w' = calls w.

(** The ring with one status in it, which is 0. *)
Definition one_done (w : world) : Prop :=
  exists t st, w_ring w = Ring (u8 (t + 1)) t st /\ 0 <= t < 256 /\ length st = 8%nat /\
    zget st (Z.land t 7) = Ok 0.

Lemma ring_index t : 0 <= t -> 0 <= Z.land t 7 < 8.
Proof. intros Ht. change 7 with (2 ^ 3 - 1). rewrite land_low_mask by lia. change (2 ^ 3) with 8. dlia. Qed.

Lemma irq_run w : ring_ok w -> exists w', sd_irsq_handler w = Ok (tt, w') /\ same w w' /\ one_done w'.
Proof.
  intros (t & st & Er & Ht & Hl). pose proof (ring_index t ltac:(lia)) as Hi.
  assert (Hz : zupd st (Z.land t 7) 0 = Ok (<[Z.to_nat (Z.land t 7) := 0]> st)) by (apply zupd_ok; lia).
  assert (Hg : zget (<[Z.to_nat (Z.land t 7) := 0]> st) (Z.land t 7) = Ok 0).
  { unfold zget. destruct (Z.ltb_spec (Z.land t 7) 0); [lia|]. rewrite list_lookup_insert_eq by lia. reflexivity. }
  unfold sd_irsq_handler, sd_tail_read, emit, mbind, get, lift, modify, mret.
  change (IRQ_RING_SIZE - 1) with 7. cbn [rbind].
  destruct (w_sd_state w); cbn [rbind set_w_trace set_w_sd_state w_ring]; rewrite Er; cbn [head tail status];
    rewrite Hz; cbn [rbind]; eexists; (split; [reflexivity|]); (split;
    [unfold same, issued, calls; cbn; rewrite ?omap_app; cbn; rewrite ?app_nil_r; auto 10
    |exists t, (<[Z.to_nat (Z.land t 7) := 0]> st); cbn; rewrite length_insert; auto]).
Qed.

(** One completion: the callback runs, the request is freed, and the queue is empty. *)
Lemma pump_round inv w w2 req rq m :
  one_done w -> w_sched w = IoSched 0 0 req SCHED_BUSY -> req <> 0 -> w_reqs w !! req = Some rq ->
  inv (rq_callback rq) (rq_ctx rq) 0 (popped w) = Ok (tt, w2) ->
  w_ring w2 = w_ring (popped w) -> queue_head (w_sched w2) = 0 -> kfree (w_heap w2) req = Ok m ->
  io_sched_pump kfree inv 2 w = Ok (tt, set_w_trace (w_trace w2 ++ [EFree req]) (set_w_heap m w2)).
Proof.
  intros (t & st & Er & Ht & Hl & Hz) Es H0 Hrq Hcb Er2 Hq Hm.
  assert (Hne : (u8 (t + 1) =? t) = false) by (apply Z.eqb_neq; unfold u8; dlia).
  cbn [io_sched_pump]. unfold mbind at 1, get at 1. cbn [rbind]. rewrite Er. cbn [head tail]. rewrite Hne.
  assert (Et : pump_take w = Ok (req, rq, 0, popped w)).
  { unfold pump_take, mbind, get, lift, modify, mret. simpl. change (IRQ_RING_SIZE - 1) with 7.
    rewrite Er. cbn [tail status]. rewrite Hz. simpl. rewrite Es. cbn [in_flight].
    erewrite load_some; [|exact H0|exact Hrq]. unfold popped. rewrite Er, Es. reflexivity. }
  assert (Ef : pump_finish kfree req w2 = Ok (tt, set_w_trace (w_trace w2 ++ [EFree req]) (set_w_heap m w2))).
  { unfold pump_finish, mbind at 1, k_free. rewrite Hm. simpl. unfold mbind, get. simpl. rewrite Hq. simpl.
    rewrite andb_false_r. reflexivity. }
  unfold mbind at 1. unfold io_sched_complete. rewrite (mbind_step _ _ _ _ _ Et), (mbind_step _ _ _ _ _ Hcb), Ef.
  cbn [rbind]. unfold mbind, get. cbn. rewrite Er2. unfold popped. rewrite Er. cbn. rewrite Z.eqb_refl. reflexivity.
Qed.

(** ** Lemmas: the callback of a read *)

Context {KS : KSupply kmalloc kfree}.

Lemma file_lba_run w file f off : open_at w file f off -> file_lba file w = Ok (block_of (w_info w) f off, w).
Proof.
  intros (H0 & Hf & _ & _ & _ & _ & Es & _). unfold file_lba.
  rewrite (mbind_step _ _ _ _ _ (@load_some _ stored_file file f w H0 Hf)).
  unfold cluster_to_lba, mbind, get, mret. cbn. rewrite Es. reflexivity.
Qed.

Lemma post_io_idle w ctx c lba st req m : w_sched w = IoSched 0 0 0 SCHED_IDLE ->
  ctx <> 0 -> w_reads w !! ctx = Some c -> kmalloc (w_heap w) sizeof_io_sched_req = Ok (req, m) -> req <> 0 ->
  exists w', fs_read_post_io kmalloc ctx lba st w = Ok (tt, w') /\
    w_sched w' = IoSched 0 0 req SCHED_BUSY /\
    w_reqs w' = <[req := IoReq lba cb_fs_read_step ctx 0]> (<[req := IoReq lba cb_fs_read_step ctx 0]> (w_reqs w)) /\
    w_reads w' = <[ctx := set_rc_state st c]> (w_reads w) /\ w_heap w' = m /\
    w_files w' = w_files w /\ w_bytes w' = w_bytes w /\ w_info w' = w_info w /\ w_ring w' = w_ring w /\
    w_trace w' = w_trace w ++ [EStartRead lba].
Proof.
  intros Es H0 Hc Hm Hr0. unfold fs_read_post_io, mbind at 1. erewrite update_some; [|exact H0|exact Hc].
  cbn [rbind]. unfold mbind at 1, k_alloc. cbn. rewrite Hm. cbn [rbind].
  unfold mbind at 1. rewrite store_nonnull by exact Hr0. cbn [rbind].
  match goal with |- context [io_sched_submit req ?W] => pose proof (submit_idle W req (IoReq lba cb_fs_read_step ctx 0)) as E end.
  specialize (E Es Hr0 (lookup_insert_eq _ _ _)).
  rewrite E. eexists. split; [reflexivity|]. cbn. repeat split.
Qed.

(** The block the read [c] of [f] waits for is in the receive buffer. *)
Definition arrived (w : world) (rctx file : Z) (f : FILE) (off buf n id cx : Z) : Prop :=
  rctx <> 0 /\ w_sched w = IoSched 0 0 0 SCHED_IDLE /\
  w_reads w !! rctx = Some (FsReadCtx file buf FSREAD_COPY_CONTENTS n (other_cb id) cx) /\
  open_at w file f off /\ off + n <= f_file_size f /\ (off + n - 1) / bpc w = off / bpc w /\ request_ok buf n /\
  forall i, 0 <= i < 512 -> w_bytes w !! (SD_RX_RAM + i) = Some (block (block_of (w_info w) f off) i).

Lemma arrived_copying w rctx file f off buf n id cx : arrived w rctx file f off buf n id cx ->
  copying w rctx (FsReadCtx file buf FSREAD_COPY_CONTENTS n (other_cb id) cx) f.
Proof.
  intros (H0 & _ & Hr & (Hf0 & Hf & _ & Ho & _ & _ & _ & Hb) & _ & _ & (Hn & Hbuf & Hend & Hdis) & Hby).
  unfold copying. cbn. rewrite Hb. pose proof (Z.mod_pos_bound off 512 ltac:(lia)).
  split; [exact H0|]. split; [exact Hr|]. split; [reflexivity|]. split; [exact Hf0|]. split; [exact Hf|].
  repeat (split; [lia|]). intros i Hi. rewrite (Hby i Hi). eexists. reflexivity.
Qed.

(** The bytes put in the buffer come from the block. *)
Lemma copied_block w m f off buf c : copied (w_bytes w) m buf (SD_RX_RAM + off mod 512) c ->
  (forall i, 0 <= i < 512 -> w_bytes w !! (SD_RX_RAM + i) = Some (block (block_of (w_info w) f off) i)) ->
  0 <= c <= 512 - off mod 512 ->
  forall i, 0 <= i < c -> m !! (buf + i) = Some (block (block_of (w_info w) f off) (off mod 512 + i)).
Proof.
  intros [Hc _] Hby Hle i Hi. rewrite Hc by lia. pose proof (Z.mod_pos_bound off 512 ltac:(lia)).
  rewrite <- Z.add_assoc. apply Hby. lia.
Qed.

Lemma invoke_read fl ctx st w : invoke (S fl) cb_fs_read_step ctx st w =
  fs_read_step kmalloc kfree fat_calcualte_lba (invoke fl) ctx st w.
Proof. reflexivity. Qed.

Lemma callback_last fl w rctx file f off buf n id cx m : arrived w rctx file f off buf n id cx ->
  n <= 512 - off mod 512 -> kfree (w_heap w) rctx = Ok m ->
  exists w2, invoke (S (S fl)) cb_fs_read_step rctx 0 w = Ok (tt, w2) /\
    w_ring w2 = w_ring w /\ w_sched w2 = w_sched w /\ w_heap w2 = m /\
    copied (w_bytes w) (w_bytes w2) buf (SD_RX_RAM + off mod 512) n /\
    w_trace w2 = w_trace w ++ [EFree rctx; ECall id cx 0].
Proof.
  intros Har Hn Hm. pose proof (arrived_copying _ _ _ _ _ _ _ _ _ Har) as Hcp.
  destruct Har as (H0 & _ & _ & (Hf0 & Hf & _ & _ & _ & _ & _ & Hb) & _ & _ & (Hpos & _) & _).
  destruct (fs_read_copy_run kmalloc kfree fat_calcualte_lba (invoke (S fl)) w rctx _ f Hcp)
    as (m1 & w1 & Hcopy & Hrd & Hb1 & Hf1 & Hh1 & _ & (Q1 & Q2 & _ & Q4) & E).
  assert (Hc : chunk (FsReadCtx file buf FSREAD_COPY_CONTENTS n (other_cb id) cx) f = n)
    by (unfold chunk; cbn; rewrite Hb; lia).
  rewrite Hc in *. cbn [rc_bytes_remaining rc_buffer rc_file] in *.
  replace (n <=? 512 - f_current_byte f) with true in E by (symmetry; apply Z.leb_le; rewrite Hb; lia).
  rewrite invoke_read, E. clear E.
  unfold mbind at 1. erewrite update_some; [|exact Hf0|simpl; rewrite Hf1; exact Hf]. cbn [rbind].
  unfold mbind at 1. erewrite update_some; [|exact H0|exact Hrd]. cbn [rbind].
  unfold fs_read_finish, mbind at 1. erewrite load_some; [|exact H0|apply lookup_insert_eq]. cbn [rbind].
  unfold mbind, k_free. cbn. rewrite Hh1, Hm. cbn [rbind]. unfold emit, modify.
  eexists. split; [reflexivity|]. cbn. rewrite Q4, <- app_assoc, <- Hb, Hb1. auto 6.
Qed.

(** [off] moved to the start of the next sector, in the same cluster. *)
Lemma moved_open w file f off c w1 : open_at w file f off -> is_u32 (off + c) ->
  w_info w1 = w_info w -> w_files w1 = <[file := moved f (pos_of w (off + c)) (off + c)]> (w_files w) ->
  open_at w1 file (moved f (pos_of w (off + c)) (off + c)) (off + c).
Proof.
  intros (Hf0 & _ & Hg & _ & Hs & _) Hu Ei Ef. unfold open_at, geometry_ok, bpc in *. rewrite Ei, Ef.
  rewrite lookup_insert_eq. repeat split; try assumption; apply Hg || apply Hu || apply Hs.
Qed.

Lemma same_cluster w off c n : geometry_ok w -> 0 <= c < n ->
  (off + n - 1) / bpc w = off / bpc w -> (off + c) / bpc w = off / bpc w.
Proof.
  intros Hg Hc Hcl. assert (0 < bpc w) by (unfold bpc, geometry_ok in *; lia).
  apply Z.le_antisymm; [rewrite <- Hcl; apply Z.div_le_mono; lia|apply Z.div_le_mono; lia].
Qed.

(** Seeking forward within the cluster calls the read step again at once, ... *)
Lemma seek_on inv w rctx file f off c cb : open_at w file f off -> is_u32 (off + c) -> off + c <= f_file_size f ->
  (off + c) / bpc w = off / bpc w ->
  fs_seek_whence kmalloc fat_calcualte_lba inv file c SEEK_CUR cb rctx w =
  inv cb rctx 0 (set_w_files (<[file := moved f (pos_of w (off + c)) (off + c)]> (w_files w)) w).
Proof.
  intros (Hf0 & Hf & Hg & Ho & _ & Hfo & _) Hu Hsz Hcl. unfold fs_seek_whence, SEEK_CUR, SEEK_SET. cbn [Z.eqb Pos.eqb].
  unfold mbind at 1. erewrite load_some; [|exact Hf0|exact Hf]. cbn [rbind].
  rewrite Hfo, (u32_id (off + c)) by exact Hu.
  apply seek_same_cluster; rewrite ?Hfo; assumption.
Qed.

(** ... which asks for the sector the file is now at. *)
Lemma reload fl w rctx c file f off : open_at w file f off -> rctx <> 0 -> w_reads w !! rctx = Some c ->
  rc_state c = FSREAD_LOAD_CONTENTS -> rc_file c = file ->
  invoke (S fl) cb_fs_read_step rctx 0 w =
  fs_read_post_io kmalloc rctx (block_of (w_info w) f off) FSREAD_COPY_CONTENTS w.
Proof.
  intros Hop H0 Hc Hs Hf. rewrite invoke_read. unfold fs_read_step. cbn [negb Z.eqb]. unfold mbind at 1.
  erewrite load_some; [|exact H0|exact Hc]. cbn [rbind]. rewrite Hs, Hf.
  rewrite (mbind_step _ _ _ _ _ (file_lba_run w file f off Hop)). reflexivity.
Qed.

Lemma callback_next fl w rctx file f off buf n id cx req m : arrived w rctx file f off buf n id cx ->
  let c := 512 - off mod 512 in
  c < n -> kmalloc (w_heap w) sizeof_io_sched_req = Ok (req, m) -> req <> 0 ->
  let f' := moved f (pos_of w (off + c)) (off + c) in
  let lba := block_of (w_info w) f' (off + c) in
  exists w2, invoke (S (S (S fl))) cb_fs_read_step rctx 0 w = Ok (tt, w2) /\
    w_ring w2 = w_ring w /\ w_info w2 = w_info w /\ w_sched w2 = IoSched 0 0 req SCHED_BUSY /\ w_heap w2 = m /\
    w_reqs w2 !! req = Some (IoReq lba cb_fs_read_step rctx 0) /\
    w_reads w2 !! rctx = Some (FsReadCtx file (buf + c) FSREAD_COPY_CONTENTS (n - c) (other_cb id) cx) /\
    w_files w2 = <[file := f']> (w_files w) /\
    copied (w_bytes w) (w_bytes w2) buf (SD_RX_RAM + off mod 512) c /\
    w_trace w2 = w_trace w ++ [EStartRead lba].
Proof.
  intros Har c Hn Hm Hr0 f' lba. pose proof (arrived_copying _ _ _ _ _ _ _ _ _ Har) as Hcp.
  destruct Har as (H0 & Hs & _ & Hop & Hsz & Hcl & (Hpos & _) & _).
  pose proof Hop as (Hf0 & Hf & Hg & Ho & Hfs & _ & _ & Hb). unfold is_u32 in *.
  pose proof (Z.mod_pos_bound off 512 ltac:(lia)) as Hmod.
  apply (same_cluster w off c n) in Hcl; [|exact Hg|lia].
  destruct (fs_read_copy_run kmalloc kfree fat_calcualte_lba (invoke (S (S fl))) w rctx _ f Hcp)
    as (m1 & w1 & Hcopy & Hrd & Hb1 & Hf1 & Hh1 & Hi1 & (Q1 & Q2 & Q3 & Q4) & E).
  assert (Hc : chunk (FsReadCtx file buf FSREAD_COPY_CONTENTS n (other_cb id) cx) f = c)
    by (unfold chunk; cbn; rewrite Hb; lia).
  rewrite Hc in *. cbn [rc_bytes_remaining rc_buffer rc_file] in *.
  replace (n <=? 512 - f_current_byte f) with false in E by (symmetry; apply Z.leb_gt; rewrite Hb; lia).
  rewrite invoke_read, E. clear E. unfold mbind at 1. erewrite update_some; [|exact H0|exact Hrd]. cbn [rbind].
  match goal with |- context [fs_seek_whence _ _ _ _ _ _ _ _ ?W] => set (w3 := W) end.
  assert (Hbw : bpc w3 = bpc w) by (unfold bpc; change (w_info w3) with (w_info w1); rewrite Hi1; reflexivity).
  assert (Hop3 : open_at w3 file f off).
  { unfold open_at, geometry_ok in *. rewrite Hbw. change (w_info w3) with (w_info w1).
    change (w_files w3) with (w_files w1). rewrite Hi1, Hf1. exact Hop. }
  rewrite (seek_on _ w3 rctx file f off c) by (rewrite ?Hbw; first [exact Hop3|exact Hcl|unfold is_u32; lia|lia]).
  replace (pos_of w3 (off + c)) with (pos_of w (off + c)) by (unfold pos_of; rewrite Hbw; reflexivity).
  fold f'. set (w4 := set_w_files _ w3). assert (Hi4 : w_info w4 = w_info w) by exact Hi1.
  assert (Hop4 : open_at w4 file f' (off + c)).
  { apply (moved_open w); [exact Hop|unfold is_u32; lia|exact Hi4|]. unfold w4. simpl. rewrite Hf1. reflexivity. }
  rewrite (reload _ w4 rctx _ file f' (off + c) Hop4 H0 (lookup_insert_eq _ _ _) eq_refl eq_refl).
  destruct (post_io_idle w4 rctx (FsReadCtx file (buf + c) FSREAD_LOAD_CONTENTS (n - c) (other_cb id) cx)
    (block_of (w_info w4) f' (off + c)) FSREAD_COPY_CONTENTS req m) as (w5 & E5 & P1 & P2 & P3 & P4 & P5 & P6 & P7 & P8 & P9);
    [exact (eq_trans Q1 Hs)|exact H0|apply lookup_insert_eq|unfold w4, w3; cbn; rewrite Hh1; exact Hm|exact Hr0|].
  rewrite Hi4 in *. fold lba in E5, P2, P9.
  exists w5. split; [exact E5|]. rewrite P1, P2, P3, P4, P5, P6, P7, P8, P9. rewrite !lookup_insert_eq.
  unfold w4, w3. cbn. rewrite Q2, Q4, Hf1, Hb1, <- Hb. repeat split; try apply Hcopy.
Qed.

(** ** Lemmas: one round *)

(** Bytes [off], ... , [off + n - 1] of the cluster of [f] are at [buf], and nothing else
    has changed but the receive buffer. *)
Definition delivered (w w' : world) (i : FS_RUN_INFO) (f : FILE) (off buf n : Z) : Prop :=
  (forall j, 0 <= j < n -> w_bytes w' !! (buf + j) = Some (block (block_of i f (off + j)) ((off + j) mod 512))) /\
  (forall x, ~ buf <= x < buf + n -> ~ SD_RX_RAM <= x < SD_RX_RAM + 512 -> w_bytes w' !! x = w_bytes w !! x).

(** Bytes of one sector are in the same block. *)
Lemma block_of_sector i f off j : 1 <= SECTORS_PER_CLUSTER i -> 0 <= off -> 0 <= j < 512 - off mod 512 ->
  block_of i f (off + j) = block_of i f off /\ (off + j) mod 512 = off mod 512 + j.
Proof.
  intros Hs Ho Hj. set (s := SECTORS_PER_CLUSTER i) in *.
  assert (Em : (off + j) mod 512 = off mod 512 + j).
  { rewrite Z.add_mod by lia. rewrite (Z.mod_small j 512) by dlia. apply Z.mod_small. dlia. }
  split; [|exact Em]. unfold block_of. fold s. do 2 f_equal.
  assert (Hdiv : forall x, 0 <= x -> x mod (512 * s) / 512 = (x / 512) mod s).
  { intros x Hx. rewrite Z.rem_mul_r by lia. rewrite Z.mul_comm, Z.div_add by lia.
    rewrite Z.div_small by (apply Z.mod_pos_bound; lia). reflexivity. }
  rewrite !Hdiv by lia. f_equal.
  pose proof (Z.div_mod off 512 ltac:(lia)). pose proof (Z.div_mod (off + j) 512 ltac:(lia)). lia.
Qed.

Lemma delivered_sector w v w2 f off buf c : geometry_ok v -> w_info v = w_info w -> is_u32 off ->
  (forall x, ~ SD_RX_RAM <= x < SD_RX_RAM + 512 -> w_bytes v !! x = w_bytes w !! x) ->
  (forall i, 0 <= i < 512 -> w_bytes v !! (SD_RX_RAM + i) = Some (block (block_of (w_info v) f off) i)) ->
  copied (w_bytes v) (w_bytes w2) buf (SD_RX_RAM + off mod 512) c -> 0 <= c <= 512 - off mod 512 ->
  delivered w w2 (w_info w) f off buf c.
Proof.
  intros Hg Ei Ho Hout Hrx Hc Hle. unfold geometry_ok, is_u32 in *. split.
  - intros j Hj. rewrite (copied_block _ _ _ _ _ _ Hc Hrx Hle j Hj).
    destruct (block_of_sector (w_info v) f off j) as [E1 E2]; [lia|lia|lia|]. rewrite <- Ei, E1, E2. reflexivity.
  - intros x Hx Hr. destruct Hc as [_ Hc]. rewrite Hc by exact Hx. apply Hout, Hr.
Qed.

(** The block arrives and its interrupt is handled. *)
Lemma arrive_run w file f off buf n id cx k : pending w file f off buf n id cx k ->
  exists w1 req rctx live, (do! transfer in sd_irsq_handler) w = Ok (tt, w1) /\
    one_done w1 /\ w_sched w1 = IoSched 0 0 req SCHED_BUSY /\
    w_reqs w1 !! req = Some (IoReq (block_of (w_info w) f off) cb_fs_read_step rctx 0) /\
    w_heap w1 = w_heap w /\ w_info w1 = w_info w /\ w_files w1 = w_files w /\
    issued w1 = issued w /\ calls w1 = calls w /\ arrived (popped w1) rctx file f off buf n id cx /\
    (forall x, ~ SD_RX_RAM <= x < SD_RX_RAM + 512 -> w_bytes w1 !! x = w_bytes w !! x) /\
    ks k (w_heap w) live /\ is_Some (live !! req) /\ is_Some (live !! rctx) /\ req <> rctx.
Proof.
  intros (req & rctx & live & Hring & Hs & Hrq & Hrd & Hop & Hsz & Hcl & Hok & Hlast & Hks & Hl1 & Hl2 & Hne).
  set (lba := block_of (w_info w) f off) in *. set (wt := set_w_bytes (received 512 lba (w_bytes w)) w).
  destruct (irq_run wt) as (w1 & E & (S1 & S2 & S3 & S4 & S5 & S6 & S7 & S8 & S9) & Hone); [exact Hring|].
  change (w_sched w1 = w_sched w) in S1. change (w_reqs w1 = w_reqs w) in S2. change (w_reads w1 = w_reads w) in S3.
  change (w_files w1 = w_files w) in S4. change (w_heap w1 = w_heap w) in S6. change (w_info w1 = w_info w) in S7.
  change (w_bytes w1 = received 512 lba (w_bytes w)) in S5.
  assert (Hrc0 : rctx <> 0).
  { destruct Hl2 as [s Hs2]. pose proof (ka_region _ _ _ _ (ks_inv _ _ _ Hks) Hs2). lia. }
  exists w1, req, rctx, live. split.
  { unfold mbind, transfer. rewrite Hlast. cbn [rbind]. exact E. }
  rewrite S1, S2, S4, S5, S6, S7, S8, S9. split; [exact Hone|]. repeat (split; [first [assumption|reflexivity]|]).
  split; [|split; [intros x Hx; apply received_out, Hx|auto]].
  unfold arrived, popped, open_at, geometry_ok, bpc in *. cbn. rewrite S1, S3, S4, S5, S7, Hs. cbn.
  split; [exact Hrc0|]. split; [reflexivity|]. split; [exact Hrd|]. split; [exact Hop|].
  repeat (split; [assumption|]). intros i Hi. apply received_in. lia.
Qed.

Lemma popped_ring w : one_done w -> ring_ok (popped w).
Proof.
  intros (t & st & Er & Ht & Hl & _). exists (u8 (t + 1)), st. unfold popped. rewrite Er. cbn.
  split; [reflexivity|]. split; [apply u8_range|exact Hl].
Qed.

Lemma issued_snoc w w' e : w_trace w' = w_trace w ++ e ->
  issued w' = issued w ++ omap (fun e => match e with EStartRead lba => Some lba | _ => None end) e /\
  calls w' = calls w ++ omap (fun e => match e with ECall id ctx st => Some (id, ctx, st) | _ => None end) e.
Proof. intros E. unfold issued, calls. rewrite E, !omap_app. auto. Qed.

Lemma live_other {A} (live : gmap Z A) p q : is_Some (live !! q) -> p <> q -> is_Some (delete p live !! q).
Proof. intros H Hne. rewrite lookup_delete_ne by exact Hne. exact H. Qed.

Lemma round_last w file f off buf n id cx k : pending w file f off buf n id cx k -> n <= 512 - off mod 512 ->
  exists w', card_round w = Ok (tt, w') /\ idle w' /\ calls w' = calls w ++ [(id, cx, 0)] /\
    issued w' = issued w /\ delivered w w' (w_info w) f off buf n.
Proof.
  intros Hp Hn.
  destruct (arrive_run _ _ _ _ _ _ _ _ _ Hp) as (w1 & req & rctx & live & E1 & Hone & Hs & Hrq & Hh & Hi & Hf & Hiss & Hcal & Har & Hout & Hks & [s1 Hl1] & [s2 Hl2] & Hne).
  destruct (ks_free _ _ _ _ _ Hks Hl2) as (m & Hm & Hks').
  destruct (ks_free k m (delete rctx live) req s1 Hks') as (m' & Hm' & _); [rewrite lookup_delete_ne by congruence; exact Hl1|].
  rewrite <- Hh in Hm. destruct (callback_last 62 (popped w1) rctx file f off buf n id cx m Har Hn Hm)
    as (w2 & E2 & R2 & S2 & H2 & C2 & T2).
  assert (Hr0 : req <> 0) by (pose proof (ka_region _ _ _ _ (ks_inv _ _ _ Hks) Hl1); lia).
  pose proof (pump_round (invoke callback_depth) w1 w2 req _ m' Hone Hs Hr0 Hrq E2 R2) as Hpump.
  rewrite S2, H2 in Hpump. specialize (Hpump ltac:(unfold popped; rewrite Hs; reflexivity) Hm').
  unfold card_round. rewrite <- mbind_assoc, (mbind_step _ _ _ _ _ E1), Hpump. eexists. split; [reflexivity|].
  destruct (issued_snoc (popped w1) (set_w_trace (w_trace w2 ++ [EFree req]) (set_w_heap m' w2))
    [EFree rctx; ECall id cx 0; EFree req]) as [I1 I2]; [cbn; rewrite T2, <- app_assoc; reflexivity|].
  pose proof Har as (_ & Hs' & _ & (_ & _ & Hg & Hu & _) & _ & _ & (Hpos & _) & Hrx).
  split; [|split; [|split]].
  - split; [|cbn; rewrite S2; exact Hs']. destruct (popped_ring w1 Hone) as (t & st & Er & Ht). exists t, st.
    cbn. rewrite R2. auto.
  - rewrite I2. change (calls (popped w1)) with (calls w1). rewrite Hcal. reflexivity.
  - rewrite I1. change (issued (popped w1)) with (issued w1). rewrite Hiss, app_nil_r. reflexivity.
  - apply (delivered_sector w (popped w1) _ f off buf n Hg Hi Hu Hout Hrx C2). lia.
Qed.

(** What the pump does with the request of [v], once its callback has asked for the next
    sector with the request [p]. *)
Lemma next_pending v w' file f off buf n id cx k req rctx p s live :
  let c := 512 - off mod 512 in
  let f' := moved f (pos_of v (off + c)) (off + c) in
  arrived v rctx file f off buf n id cx -> c < n ->
  ring_ok w' -> w_info w' = w_info v -> w_sched w' = IoSched 0 0 p SCHED_BUSY ->
  w_reqs w' !! p = Some (IoReq (block_of (w_info v) f' (off + c)) cb_fs_read_step rctx 0) ->
  w_reads w' !! rctx = Some (FsReadCtx file (buf + c) FSREAD_COPY_CONTENTS (n - c) (other_cb id) cx) ->
  w_files w' = <[file := f']> (w_files v) -> last (issued w') = Some (block_of (w_info v) f' (off + c)) ->
  ks k (w_heap w') (delete req (<[p := s]> live)) -> is_Some (live !! rctx) -> p <> req -> p <> rctx -> req <> rctx ->
  pending w' file f' (off + c) (buf + c) (n - c) id cx k.
Proof.
  intros c f' (_ & _ & _ & Hop & Hsz & Hcl & (Hpos & Hb0 & Hend & Hdis) & _) Hn Hring Hi Hs Hq Hr Hf Hl Hks Hlr H1 H2 H3.
  pose proof Hop as (_ & _ & Hg & Hu & Hfs & _). pose proof (Z.mod_pos_bound off 512 ltac:(lia)) as Hmod.
  assert (Hb : bpc w' = bpc v) by (unfold bpc; rewrite Hi; reflexivity). unfold is_u32 in *.
  pose proof (same_cluster v off c n Hg ltac:(lia) Hcl) as Hcl'.
  exists p, rctx, (delete req (<[p := s]> live)). rewrite Hi, Hb.
  split; [exact Hring|]. split; [exact Hs|]. split; [exact Hq|]. split; [exact Hr|].
  split; [apply (moved_open v); [exact Hop|unfold is_u32; lia|exact Hi|exact Hf]|].
  split; [cbn; lia|]. split; [rewrite Hcl', <- Hcl; f_equal; lia|].
  split; [unfold request_ok; lia|]. split; [exact Hl|]. split; [exact Hks|].
  split; [apply live_other; [rewrite lookup_insert_eq; eauto|congruence]|].
  split; [apply live_other; [rewrite lookup_insert_ne by exact H2; exact Hlr|exact H3]|exact H2].
Qed.

Lemma round_next w file f off buf n id cx k : pending w file f off buf n id cx (S k) ->
  let c := 512 - off mod 512 in
  let f' := moved f (pos_of w (off + c)) (off + c) in
  c < n -> exists w', card_round w = Ok (tt, w') /\ pending w' file f' (off + c) (buf + c) (n - c) id cx k /\
    calls w' = calls w /\ issued w' = issued w ++ [block_of (w_info w) f (off + c)] /\ w_info w' = w_info w /\
    delivered w w' (w_info w) f off buf c.
Proof.
  intros Hp c f' Hn.
  destruct (arrive_run _ _ _ _ _ _ _ _ _ Hp) as (w1 & req & rctx & live & E1 & Hone & Hs & Hrq & Hh & Hi & Hf & Hiss & Hcal & Har & Hout & Hks & [s1 Hl1] & [s2 Hl2] & Hne).
  destruct (ks_malloc k _ live sizeof_io_sched_req Hks ltac:(unfold sizeof_io_sched_req; lia)) as (p & s & m & Hm & Hfresh & Hks').
  pose proof (ks_nonnull _ _ _ _ _ Hks') as Hp0. rewrite <- Hh in Hm.
  destruct (callback_next 61 (popped w1) rctx file f off buf n id cx p m Har Hn Hm Hp0)
    as (w2 & E2 & R2 & I2 & S2 & H2 & Q2 & C2 & F2 & B2 & T2).
  assert (Ef : f' = moved f (pos_of (popped w1) (off + c)) (off + c)).
  { unfold f', pos_of, bpc. change (w_info (popped w1)) with (w_info w1). rewrite Hi. reflexivity. }
  fold c in Q2, C2, F2, B2, T2. rewrite <- Ef in Q2, F2, T2.
  assert (Hr0 : req <> 0) by (pose proof (ka_region _ _ _ _ (ks_inv _ _ _ Hks) Hl1); lia).
  assert (Hpr : p <> req) by congruence. assert (Hpc : p <> rctx) by congruence.
  destruct (ks_free k m (<[p := s]> live) req s1 Hks') as (m' & Hm' & Hks2); [rewrite lookup_insert_ne by exact Hpr; exact Hl1|].
  pose proof (pump_round (invoke callback_depth) w1 w2 req _ m' Hone Hs Hr0 Hrq E2 R2) as Hpump.
  rewrite S2, H2 in Hpump. specialize (Hpump eq_refl Hm').
  unfold card_round. rewrite <- mbind_assoc, (mbind_step _ _ _ _ _ E1), Hpump. eexists. split; [reflexivity|].
  set (w' := set_w_trace _ _). change (w_info (popped w1)) with (w_info w1) in *.
  destruct (issued_snoc (popped w1) w' [EStartRead (block_of (w_info w1) f' (off + c)); EFree req]) as [J1 J2];
    [cbn; rewrite T2, <- app_assoc; reflexivity|].
  change (issued w' = issued w1 ++ [block_of (w_info w1) f' (off + c)]) in J1.
  change (calls w' = calls w1 ++ []) in J2. rewrite app_nil_r, Hcal in J2.
  pose proof Har as (_ & _ & _ & (_ & _ & Hg & Hu & _) & _ & _ & (Hpos & _) & Hrx).
  pose proof (Z.mod_pos_bound off 512 ltac:(lia)) as Hmod.
  split; [|split; [exact J2|split; [rewrite J1, Hiss, Hi; reflexivity|split; [exact (eq_trans I2 Hi)|]]]].
  - rewrite Ef. apply (next_pending (popped w1) w' file f off buf n id cx k req rctx p s live Har Hn);
      fold c; rewrite <- ?Ef; try assumption; [|rewrite J1; apply last_snoc|eauto].
    destruct (popped_ring w1 Hone) as (t & st & Er & Ht). exists t, st. cbn. rewrite R2. auto.
  - apply (delivered_sector w (popped w1) _ f off buf c Hg Hi Hu Hout Hrx B2). lia.
Qed.

(** ** Lemmas: all the rounds *)

(** The offsets at which the sectors of a read are entered. *)
Fixpoint offsets (r : nat) (off : Z) : list Z :=
  match r with
  | O => []
  | S r => off :: offsets r (512 * (off / 512 + 1))
  end.

Lemma sectors_one off n : 0 < n <= 512 - off mod 512 -> sectors off n = 1%nat.
Proof. intros H. pose proof (Z.mod_pos_bound off 512 ltac:(lia)). unfold sectors. change 1%nat with (Z.to_nat 1). f_equal. dlia. Qed.

Lemma sectors_next off n : 512 - off mod 512 < n ->
  sectors off n = S (sectors (off + (512 - off mod 512)) (n - (512 - off mod 512))) /\
  off + (512 - off mod 512) = 512 * (off / 512 + 1).
Proof.
  intros H. pose proof (Z.mod_pos_bound off 512 ltac:(lia)). unfold sectors.
  assert (E : off + (512 - off mod 512) = 512 * (off / 512 + 1)) by (pose proof (Z.div_mod off 512); lia).
  split; [|exact E]. rewrite E. replace (512 * (off / 512 + 1) mod 512) with 0
    by (rewrite Z.mul_comm, Z.mod_mul; lia).
  rewrite <- Z2Nat.inj_succ by dlia. f_equal. dlia.
Qed.

Lemma delivered_trans w w1 w2 i f f' off buf c n :
  f_current_cluster f' = f_current_cluster f -> 0 <= c <= n -> 0 <= buf ->
  (buf + n <= SD_RX_RAM \/ SD_RX_RAM + 512 <= buf) ->
  delivered w w1 i f off buf c -> delivered w1 w2 i f' (off + c) (buf + c) (n - c) ->
  delivered w w2 i f off buf n.
Proof.
  intros Ef Hc Hb Hdis [A1 A2] [B1 B2].
  assert (Eb : forall x, block_of i f' x = block_of i f x) by (intros x; unfold block_of; rewrite Ef; reflexivity).
  split.
  - intros j Hj. destruct (Z.lt_ge_cases j c) as [Hlt|Hge].
    + rewrite B2 by lia. apply A1. lia.
    + replace (buf + j) with (buf + c + (j - c)) by lia. rewrite B1, Eb by lia.
      replace (off + c + (j - c)) with (off + j) by lia. reflexivity.
  - intros x Hx Hr. rewrite B2 by lia. apply A2; lia.
Qed.

Lemma rounds_run r : forall w file f off buf n id cx k,
  pending w file f off buf n id cx k -> sectors off n = S r -> (r <= k)%nat ->
  exists w', card_rounds (S r) w = Ok (tt, w') /\ idle w' /\ calls w' = calls w ++ [(id, cx, 0)] /\
    issued w' = issued w ++ (block_of (w_info w) f <$> offsets r (512 * (off / 512 + 1))) /\
    delivered w w' (w_info w) f off buf n.
Proof.
  induction r as [|r IH]; intros w file f off buf n id cx k Hp Hsec Hk.
  - assert (Hn : n <= 512 - off mod 512).
    { destruct (Z.le_gt_cases n (512 - off mod 512)) as [|Hgt]; [assumption|].
      destruct (sectors_next off n Hgt) as [E _]. rewrite E in Hsec. injection Hsec as Hsec.
      unfold sectors in Hsec. destruct Hp as (? & ? & ? & _).
      pose proof (Z.mod_pos_bound (off + (512 - off mod 512)) 512 ltac:(lia)).
      exfalso. set (a := (off + (512 - off mod 512)) mod 512) in *.
      assert (1 <= (a + (n - (512 - off mod 512)) + 511) / 512) by dlia. lia. }
    destruct (round_last _ _ _ _ _ _ _ _ _ Hp Hn) as (w' & E & Hid & Hc & Hi & Hd).
    exists w'. cbn [card_rounds]. rewrite (mbind_step _ _ _ _ _ E). unfold mret. simpl. rewrite app_nil_r. auto.
  - assert (Hn : 512 - off mod 512 < n).
    { destruct (Z.lt_ge_cases (512 - off mod 512) n) as [|Hle]; [assumption|].
      destruct Hp as (? & ? & ? & _ & _ & _ & _ & _ & _ & _ & (Hpos & _) & _).
      rewrite sectors_one in Hsec by lia. discriminate. }
    destruct k as [|k]; [lia|].
    destruct (round_next _ _ _ _ _ _ _ _ _ Hp Hn) as (w1 & E & Hp1 & Hc & Hi & Hinf & Hd).
    destruct (sectors_next off n Hn) as [Es Eo]. rewrite Es in Hsec. injection Hsec as Hsec.
    destruct (IH _ _ _ _ _ _ _ _ _ Hp1 Hsec ltac:(lia)) as (w' & E' & Hid & Hc' & Hi' & Hd').
    exists w'. cbn [card_rounds]. rewrite (mbind_step _ _ _ _ _ E). split; [exact E'|]. split; [exact Hid|].
    rewrite Hc', Hc, Hi', Hi, Hinf. split; [reflexivity|]. split.
    + rewrite Eo. cbn [offsets]. rewrite fmap_cons, <- app_assoc. cbn [app]. do 3 f_equal.
    + destruct Hp as (? & ? & ? & _ & _ & _ & _ & _ & _ & _ & (Hpos & Hb0 & _ & Hdis) & _).
      pose proof (Z.mod_pos_bound off 512 ltac:(lia)). rewrite Hinf in Hd'.
      apply (delivered_trans w w1 w' (w_info w) f (moved f (pos_of w (off + (512 - off mod 512))) (off + (512 - off mod 512)))
        off buf (512 - off mod 512) n); try assumption; try reflexivity; lia.
Qed.

(** The request of a read is on its way. *)
Lemma submit_run w file f off buf n id cx k live : idle w -> open_at w file f off ->
  off + n <= f_file_size f -> (off + n - 1) / bpc w = off / bpc w -> request_ok buf n ->
  ks (S (S k)) (w_heap w) live ->
  exists w1, fs_read_submit kmalloc file buf n (other_cb id) cx w = Ok (tt, w1) /\
    pending w1 file f off buf n id cx k /\ calls w1 = calls w /\ w_info w1 = w_info w /\ w_bytes w1 = w_bytes w /\
    issued w1 = issued w ++ [block_of (w_info w) f off].
Proof.
  intros [Hring Hs] Hop Hsz Hcl Hok Hks.
  destruct (ks_malloc _ _ live sizeof_fs_read_ctx Hks ltac:(unfold sizeof_fs_read_ctx; lia)) as (rctx & s & m & Hm & Hfr & Hks1).
  pose proof (ks_nonnull _ _ _ _ _ Hks1) as Hr0.
  destruct (ks_malloc _ _ _ sizeof_io_sched_req Hks1 ltac:(unfold sizeof_io_sched_req; lia)) as (req & s' & m' & Hm' & Hfr' & Hks2).
  pose proof (ks_nonnull _ _ _ _ _ Hks2) as Hq0.
  unfold fs_read_submit, mbind at 1, k_alloc. rewrite Hm. cbn [rbind].
  unfold mbind at 1. rewrite store_nonnull by exact Hr0. cbn [rbind].
  match goal with |- context [mbind (file_lba file) _ ?W] => set (w0 := W) end.
  rewrite (mbind_step _ _ _ _ _ (file_lba_run w0 file f off Hop)).
  destruct (post_io_idle w0 rctx _ (block_of (w_info w0) f off) FSREAD_COPY_CONTENTS req m' Hs Hr0
    (lookup_insert_eq _ _ _) Hm' Hq0) as (w1 & E1 & P1 & P2 & P3 & P4 & P5 & P6 & P7 & P8 & P9).
  exists w1. split; [exact E1|]. change (w_info w0) with (w_info w) in *.
  destruct (issued_snoc w0 w1 [EStartRead (block_of (w_info w) f off)] P9) as [J1 J2].
  change (issued w1 = issued w ++ [block_of (w_info w) f off]) in J1.
  split; [|split; [rewrite J2; apply app_nil_r|split; [exact P7|split; [exact P6|exact J1]]]].
  exists req, rctx, (<[req := s']> (<[rctx := s]> live)).
  unfold open_at, ring_ok, geometry_ok, bpc in *. rewrite P1, P2, P3, P4, P5, P7, P8, J1, !lookup_insert_eq, last_snoc.
  assert (req <> rctx) by (intros ->; rewrite lookup_insert_eq in Hfr'; discriminate).
  rewrite lookup_insert_ne, lookup_insert_eq by assumption.
  repeat (split; [first [assumption | reflexivity | eexists; reflexivity]|]). assumption.
Qed.

(** ** Properties *)

(** C6: A read of [n] bytes from byte [off] of an open file, within the file and within
    one cluster, into a buffer apart from the receive buffer, on an idle system with
    memory for it: after one round of the card per sector the caller's callback has been
    called once, with status 0, the bytes of the file are in the buffer, no other byte
    but the receive buffer has changed, the card was asked for each sector of the range
    once and in order, and the scheduler is idle again. *)
Theorem read_from_card w file f off buf n id cx live : idle w -> open_at w file f off ->
  off + n <= f_file_size f -> (off + n - 1) / bpc w = off / bpc w -> request_ok buf n ->
  ks (S (sectors off n)) (w_heap w) live ->
  exists w', (do! fs_read_submit kmalloc file buf n (other_cb id) cx in card_rounds (sectors off n)) w = Ok (tt, w') /\
    calls w' = calls w ++ [(id, cx, 0)] /\ delivered w w' (w_info w) f off buf n /\
    issued w' = issued w ++ (block_of (w_info w) f <$> offsets (sectors off n) off) /\ idle w'.
Proof.
  intros Hid Hop Hsz Hcl Hok Hks.
  assert (Hr : exists r, sectors off n = S r).
  { pose proof (Z.mod_pos_bound off 512 ltac:(lia)). destruct Hok as [[Hpos _] _]. unfold sectors.
    exists (Z.to_nat ((off mod 512 + n + 511) / 512 - 1)). rewrite <- Z2Nat.inj_succ by dlia. f_equal. lia. }
  destruct Hr as [r Er]. rewrite Er in *.
  destruct (submit_run _ _ _ _ _ _ id cx _ _ Hid Hop Hsz Hcl Hok Hks) as (w1 & E1 & Hp & Hc & Hi & Hb & Hiss).
  destruct (rounds_run r _ _ _ _ _ _ _ _ _ Hp Er (le_n r)) as (w' & E & Hid' & Hc' & Hi' & [D1 D2]).
  exists w'. rewrite (mbind_step _ _ _ _ _ E1). rewrite Hi in *. split; [exact E|].
  rewrite Hc', Hc, Hi', Hiss. split; [reflexivity|]. split; [|split; [rewrite <- app_assoc; reflexivity|exact Hid']].
  split; [exact D1|]. intros x Hx Hr. rewrite D2, Hb by assumption. reflexivity.
Qed.

End Disk.

(** ** A read on the kernel's own heap *)

Module DiskWitness.

Definition start : Z := 4096.
Definition end_ : Z := 8192.
Definition heap0 : mem := kheap_init start end_ ∅.

(** Byte [i] of block [lba] is [lba + i mod 256]. *)
Definition block0 (lba i : Z) : Z := (lba + i) mod 256.

(** A file of 3000 bytes in cluster 5, at its byte 500; four sectors to a cluster. *)
Definition file0 : FILE := File 3 5 5 0 500 500 3000 1.
Definition w0 : world :=
  World heap0 (IoSched 0 0 0 SCHED_IDLE) (Ring 254 254 (replicate 8 0)) SD_STATE_IDLE 0
    (FsRunInfo 100 10 200 2 4) 0 ∅ {[ 16 := file0 ]} ∅ ∅ ∅ ∅ ∅ ∅ ∅ [] [].

Lemma supply0 : kmem_supply start end_ 4 heap0 ∅.
Proof.
  exists [Blk 4092 false]. split; [repeat split; try discriminate; vm_compute; reflexivity|]. split.
  - intros p s. rewrite lookup_empty. split; [discriminate|]. intros H. apply elem_of_nil in H. easy.
  - exists (Blk 4092 false). split; [left|]. split; [reflexivity|simpl; lia].
Qed.

(** 600 bytes to address 20000: the three blocks 212, 213 and 214. *)
Definition run0 : res (unit * world) :=
  (do! fs_read_submit (kmalloc start end_) 16 20000 600 (other_cb 7) 9 in
   card_rounds (kmalloc start end_) (kfree start end_) fat_calcualte_lba_asm get_next_cluster_asm block0 3) w0.

Lemma read_from_card_witness : exists w', run0 = Ok (tt, w') /\ calls w' = [(7, 9, 0)] /\
  delivered block0 w0 w' (w_info w0) file0 500 20000 600 /\ issued w' = [212; 213; 214] /\ idle w'.
Proof.
  apply (read_from_card (kmalloc start end_) (kfree start end_) fat_calcualte_lba_asm get_next_cluster_asm block0
    (KS := kmem_ksupply start end_) w0 16 file0 500 20000 600 7 9 ∅).
  - split; [|reflexivity]. exists 254, (replicate 8 0). repeat split; lia.
  - unfold open_at, geometry_ok, is_u32. simpl. repeat split; lia.
  - simpl. lia.
  - reflexivity.
  - unfold request_ok, SD_RX_RAM. lia.
  - exact supply0.
Defined.

(** Computed: bytes 11, 12 and 599 of the buffer. *)
Example read_computed :
  match run0 with
  | Ok (_, w) => (fun i => w_bytes w !! (20000 + i)) <$> [11; 12; 599]
  | _ => []
  end = [Some ((212 + 511) mod 256); Some 213; Some ((214 + 75) mod 256)].
Proof. vm_compute. reflexivity. Qed.

End DiskWitness.
