(* ===== verification/Shell.v ===== *)
(** * The shell: user/user_programs/shell/main.c

    The shell reads a line, cuts it into words in place, obeys cd and exit, and has
    every other command executed by a child process that tries the directories of
    PATH. The functions of the operating system are the operations of [posix]; the
    string functions of C (strtok, fgets, strncpy, snprintf) are written out. A child
    is assumed not to read the shell's own input. *)

From S2P Require Import Prelude.

(** ** The functions of C the shell uses

    A buffer is the list of its bytes; a pointer into it is an index. Reading past the
    end of a buffer is undefined. *)

(** The string at the start of [b], without its NUL. *)
Fixpoint c_str (b : list Z) : res (list Z) :=
  match b with
  | [] => Undef
  | c :: b => if c =? 0 then Ok [] else let* s := c_str b in Ok (c :: s)
  end.

Definition str_at (b : list Z) (p : nat) : res (list Z) := c_str (drop p b).

Fixpoint strspn (b : list Z) (d : Z) : res nat :=
  match b with
  | [] => Undef
  | c :: b => if c =? d then let* n := strspn b d in Ok (S n) else Ok O
  end.

Fixpoint strcspn (b : list Z) (d : Z) : res nat :=
  match b with
  | [] => Undef
  | c :: b => if ((c =? d) || (c =? 0))%bool then Ok O else let* n := strcspn b d in Ok (S n)
  end.

(** [strtok] on the separator [d]: from the place it kept, [p], the token found, the
    buffer with a NUL behind the token, and the place to keep. *)
Definition strtok (buf : list Z) (p : nat) (d : Z) : res (option nat * list Z * nat) :=
  let* n := strspn (drop p buf) d in
  let* c := of_option (buf !! (p + n)%nat) in
  if c =? 0 then Ok (None, buf, (p + n)%nat)
  else
    let* m := strcspn (drop (p + n) buf) d in
    let* c := of_option (buf !! (p + n + m)%nat) in
    if c =? 0 then Ok (Some (p + n)%nat, buf, (p + n + m)%nat)
    else Ok (Some (p + n)%nat, <[(p + n + m)%nat := 0]> buf, (p + n + m + 1)%nat).

(** The characters [fgets] takes: up to [n] of them, through the first newline. *)
Fixpoint fgets_take (n : nat) (stdin : list Z) : list Z * list Z :=
  match n, stdin with
  | S n, c :: rest => if c =? 10 then ([c], rest) else let (l, r) := fgets_take n rest in (c :: l, r)
  | _, _ => ([], stdin)
  end.

(** The buffer after [fgets], or [None] at the end of the input; [size] is the length
    of the buffer. *)
Definition fgets (buf stdin : list Z) : option (list Z) * list Z :=
  match stdin with
  | [] => (None, [])
  | _ => let (l, rest) := fgets_take (length buf - 1) stdin in
         (Some (l ++ 0 :: drop (S (length l)) buf), rest)
  end.

Definition strncpy (s : list Z) (size : nat) : list Z := take size s ++ replicate (size - length s) 0.

(** [snprintf] with the format "%s/%s". *)
Definition snprintf_path (size : nat) (dir name : list Z) : list Z := take (size - 1) (dir ++ 47 :: name).

(** ** The operating system

    [os_exec cwd path argv]: whether execv can replace the process. [os_fork n] is the
    result of the [n]th fork in the parent. *)
Record posix := Posix {
  os_getenv : list Z -> option (list Z);
  os_exec : list Z -> list Z -> list (list Z) -> bool;
  os_chdir : list Z -> list Z -> option (list Z);
  os_fork : nat -> Z
}.

Inductive sh_event :=
| EvPrompt
| EvError (what : list Z)
| EvRun (path : list Z) (argv : list (list Z)).

(** A process: what is left of its input, its directory, the forks so far, and what
    it has done. *)
Record proc := Proc { p_stdin : list Z; p_cwd : list Z; p_forks : nat; p_trace : list sh_event }.

#[global] Instance sh_event_eq : EqDecision sh_event.
Proof. solve_decision. Defined.

Definition say (e : sh_event) (p : proc) : proc :=
  Proc (p_stdin p) (p_cwd p) (p_forks p) (p_trace p ++ [e]).

(** How a piece of the program ends: it returns, the process exits, or it has become
    another program. *)
Inductive outcome (A : Type) :=
| Returns (a : A)
| Exits (code : Z)
| Becomes.
Arguments Returns {A} a.
Arguments Exits {A} code.
Arguments Becomes {A}.

(** ** The code *)

Definition s_PATH : list Z := [80; 65; 84; 72].
Definition s_exit : list Z := [101; 120; 105; 116].
Definition s_cd : list Z := [99; 100].
Definition s_cd_missing : list Z :=
  [99; 100; 58; 32; 109; 105; 115; 115; 105; 110; 103; 32; 97; 114; 103; 117; 109; 101; 110; 116].
Definition s_execv : list Z := [101; 120; 101; 99; 118].
Definition s_fork : list Z := [102; 111; 114; 107].

(* user/user_programs/shell/main.c:7-7 MAX_INPUT *)
Definition MAX_INPUT : nat := 256.
(* user/user_programs/shell/main.c:8-8 MAX_ARGS *)
Definition MAX_ARGS : nat := 16.
(* user/user_programs/shell/main.c:9-9 MAX_PATHS *)
Definition MAX_PATHS : nat := 16.
(* user/user_programs/shell/main.c:10-10 MAX_PATH_LEN *)
Definition MAX_PATH_LEN : nat := 128.

(** An array of pointers into one buffer; [None] is NULL. *)
Abbreviation pointers := (list (option nat)).

(** The loop of parse_input, and of parse_path with its own bound and separator. *)
(* user/user_programs/shell/main.c:16-20 parse_input *)
Fixpoint token_loop (fuel : nat) (d : Z) (max : nat) (buf : list Z) (token : option nat) (save : nat)
    (arr : pointers) (count : nat) : res (list Z * pointers * nat) :=
  match fuel with
  | O => NoFuel
  | S fuel =>
      match token with
      | Some t =>
          if (count <? max)%nat then
            let* arr := zupd arr (Z.of_nat count) (Some t) in
            let* (token, buf, save) := strtok buf save d in
            token_loop fuel d max buf token save arr (S count)
          else Ok (buf, arr, count)
      | None => Ok (buf, arr, count)
      end
  end.

(* user/user_programs/shell/main.c:13-24 parse_input *)
Definition parse_input (input : list Z) (args : pointers) : res (list Z * pointers * nat) :=
  let* (token, input, save) := strtok input 0 32 in
  let* (input, args, argc) := token_loop (S MAX_ARGS) 32 (MAX_ARGS - 1) input token save args 0 in
  let* args := zupd args (Z.of_nat argc) None in
  Ok (input, args, argc).

(* user/user_programs/shell/main.c:27-37 parse_path *)
Definition parse_path (path_env : list Z) (paths : pointers) : res (list Z * pointers * nat) :=
  let* (token, path_env, save) := strtok path_env 0 58 in
  token_loop (S MAX_PATHS) 58 MAX_PATHS path_env token save paths 0.

(** The strings execv gets: those of the pointers up to the first NULL. *)
Fixpoint argv_of (input : list Z) (args : pointers) : res (list (list Z)) :=
  match args with
  | [] => Undef
  | None :: _ => Ok []
  | Some t :: args => let* s := str_at input t in let* l := argv_of input args in Ok (s :: l)
  end.

(** The string of element [i] of an array of pointers that is not NULL. *)
Definition arg_str (input : list Z) (args : pointers) (i : nat) : res (list Z) :=
  let* a := of_option (args !! i) in
  let* t := of_option a in
  str_at input t.

Section Shell.

Context (os : posix).

Definition execv (path : list Z) (argv : list (list Z)) (p : proc) : bool * proc :=
  if os_exec os (p_cwd p) path argv then (true, say (EvRun path argv) p) else (false, p).

(* user/user_programs/shell/main.c:57-60 exec_with_path *)
Fixpoint exec_loop (dirs : list Z) (paths : pointers) (i : nat) (path_count : nat)
    (arg0 : list Z) (argv : list (list Z)) (p : proc) : res (outcome unit * proc) :=
  match path_count with
  | O => Ok (Returns tt, p)
  | S path_count =>
      let* dir := arg_str dirs paths i in
      let (gone, p) := execv (snprintf_path MAX_PATH_LEN dir arg0) argv p in
      if gone then Ok (Becomes, p) else exec_loop dirs paths (S i) path_count arg0 argv p
  end.

(** [paths0]: what the array of directories holds before it is filled. *)
(* user/user_programs/shell/main.c:40-66 exec_with_path *)
Definition exec_with_path (paths0 : pointers) (input : list Z) (args : pointers) (p : proc) :
    res (outcome unit * proc) :=
  let* argv := argv_of input args in
  let* arg0 := arg_str input args 0 in
  match os_getenv os s_PATH with
  | None =>
      let (gone, p) := execv arg0 argv p in
      Ok (if gone then Becomes else Returns tt, p)
  | Some path_env =>
      let path_copy := strncpy path_env 512 in
      let* (path_copy, paths, path_count) := parse_path path_copy paths0 in
      let* (o, p) := exec_loop path_copy paths 0 path_count arg0 argv p in
      match o with
      | Returns _ =>
          let (gone, p) := execv arg0 argv p in
          if gone then Ok (Becomes, p) else Ok (Returns tt, say (EvError s_execv) p)
      | _ => Ok (o, p)
      end
  end.

(* user/user_programs/shell/main.c:69-90 handle_builtin *)
Definition handle_builtin (input : list Z) (args : pointers) (p : proc) : res (outcome bool * proc) :=
  let* a := of_option (args !! 0%nat) in
  match a with
  | None => Ok (Returns true, p)
  | Some t =>
      let* cmd := str_at input t in
      if decide (cmd = s_exit) then Ok (Exits 0, p)
      else if decide (cmd = s_cd) then
        let* a1 := of_option (args !! 1%nat) in
        match a1 with
        | None => Ok (Returns true, say (EvError s_cd_missing) p)
        | Some t =>
            let* dir := str_at input t in
            match os_chdir os (p_cwd p) dir with
            | Some cwd => Ok (Returns true, Proc (p_stdin p) cwd (p_forks p) (p_trace p))
            | None => Ok (Returns true, say (EvError s_cd) p)
            end
        end
      else Ok (Returns false, p)
  end.

(** The child works on a copy of the process; the parent waits for it, and only what it
    did remains. *)
(* user/user_programs/shell/main.c:119-133 main *)
Definition run_command (paths0 : pointers) (input : list Z) (args : pointers) (p : proc) : res proc :=
  let pid := os_fork os (p_forks p) in
  let p := Proc (p_stdin p) (p_cwd p) (S (p_forks p)) (p_trace p) in
  if pid <? 0 then Ok (say (EvError s_fork) p)
  else
    let* (o, child) := exec_with_path paths0 input args p in
    Ok (Proc (p_stdin p) (p_cwd p) (p_forks p) (p_trace child)).

(** The process exits with the code of the result. *)
(* user/user_programs/shell/main.c:96-136 main *)
Fixpoint main_loop (fuel : nat) (paths0 : pointers) (input : list Z) (args : pointers) (p : proc) :
    res (Z * proc) :=
  match fuel with
  | O => NoFuel
  | S fuel =>
      let p := say EvPrompt p in
      match fgets input (p_stdin p) with
      | (None, _) => Ok (0, p)
      | (Some input, stdin) =>
          let p := Proc stdin (p_cwd p) (p_forks p) (p_trace p) in
          let* n := strcspn input 10 in
          let* input := zupd input (Z.of_nat n) 0 in
          let* (input, args, _) := parse_input input args in
          let* a := of_option (args !! 0%nat) in
          match a with
          | None => main_loop fuel paths0 input args p
          | Some _ =>
              let* (o, p) := handle_builtin input args p in
              match o with
              | Exits code => Ok (code, p)
              | Returns true => main_loop fuel paths0 input args p
              | _ => let* p := run_command paths0 input args p in main_loop fuel paths0 input args p
              end
          end
      end
  end.

(* user/user_programs/shell/main.c:92-137 main *)
Definition shell_main (paths0 : pointers) (input : list Z) (args : pointers) (p : proc) : res (Z * proc) :=
  main_loop (S (length (p_stdin p))) paths0 input args p.

End Shell.

(** ** The reference: words, lines and commands *)

(** The maximal runs of characters other than [d]; [cur] is the run being read. *)
Fixpoint words_acc (d : Z) (cur s : list Z) : list (list Z) :=
  match s with
  | [] => if decide (cur = []) then [] else [cur]
  | c :: s =>
      if c =? d then (if decide (cur = []) then words_acc d [] s else cur :: words_acc d [] s)
      else words_acc d (cur ++ [c]) s
  end.

Definition words (d : Z) (s : list Z) : list (list Z) := words_acc d [] s.

(** What is before the first NUL. *)
Fixpoint text (s : list Z) : list Z :=
  match s with
  | [] => []
  | c :: s => if c =? 0 then [] else c :: text s
  end.

(** The lines the shell sees: at most 255 characters, the newline included. *)
Inductive cut : list Z -> list (list Z) -> Prop :=
| cut_nil : cut [] []
| cut_line t rest ls : 10 ∉ t -> (length t <= 254)%nat -> cut rest ls -> cut (t ++ 10 :: rest) (t :: ls)
| cut_full t rest ls : 10 ∉ t -> length t = 255%nat -> cut rest ls -> cut (t ++ rest) (t :: ls)
| cut_last t : 10 ∉ t -> (0 < length t < 255)%nat -> cut t [t].

Section Reference.

Context (os : posix).

(** The files a command may be, in the order in which they are tried. *)
Definition candidates (name : list Z) : list (list Z) :=
  match os_getenv os s_PATH with
  | None => [name]
  | Some path => ((fun dir => snprintf_path MAX_PATH_LEN dir name) <$> take MAX_PATHS (words 58 path)) ++ [name]
  end.

Definition sh_exec (name : list Z) (argv : list (list Z)) (p : proc) : proc :=
  match find (fun path => os_exec os (p_cwd p) path argv) (candidates name) with
  | Some path => say (EvRun path argv) p
  | None => if decide (os_getenv os s_PATH = None) then p else say (EvError s_execv) p
  end.

Definition sh_run (name : list Z) (argv : list (list Z)) (p : proc) : proc :=
  let p1 := Proc (p_stdin p) (p_cwd p) (S (p_forks p)) (p_trace p) in
  if os_fork os (p_forks p) <? 0 then say (EvError s_fork) p1 else sh_exec name argv p1.

Definition sh_cd (args : list (list Z)) (p : proc) : proc :=
  match args with
  | [] => say (EvError s_cd_missing) p
  | dir :: _ =>
      match os_chdir os (p_cwd p) dir with
      | Some cwd => Proc (p_stdin p) cwd (p_forks p) (p_trace p)
      | None => say (EvError s_cd) p
      end
  end.

Fixpoint sh_lines (ls : list (list Z)) (p : proc) : Z * proc :=
  match ls with
  | [] => (0, say EvPrompt p)
  | l :: ls =>
      let p := say EvPrompt p in
      match take (MAX_ARGS - 1) (words 32 (text l)) with
      | [] => sh_lines ls p
      | name :: args =>
          if decide (name = s_exit) then (0, p)
          else if decide (name = s_cd) then sh_lines ls (sh_cd args p)
          else sh_lines ls (sh_run name (name :: args) p)
      end
  end.

End Reference.

Definition set_stdin (s : list Z) (p : proc) : proc := Proc s (p_cwd p) (p_forks p) (p_trace p).

(** ** Lemmas: strings and tokens *)

Lemma c_str_app s post : 0 ∉ s -> c_str (s ++ 0 :: post) = Ok s.
Proof.
  induction s as [|c s IH]; simpl; intros H; [reflexivity|].
  apply not_elem_of_cons in H as [Hc H]. rewrite IH by exact H.
  destruct (Z.eqb_spec c 0); [congruence|reflexivity].
Qed.

Lemma str_at_app pre s post : 0 ∉ s -> str_at (pre ++ s ++ 0 :: post) (length pre) = Ok s.
Proof. intros H. unfold str_at. rewrite drop_app_length. apply c_str_app, H. Qed.

Lemma strspn_app n d c rest : c <> d -> strspn (replicate n d ++ c :: rest) d = Ok n.
Proof.
  intros Hc. induction n as [|n IH]; simpl.
  - destruct (Z.eqb_spec c d); [contradiction|reflexivity].
  - rewrite Z.eqb_refl, IH. reflexivity.
Qed.

Lemma strcspn_app w d c rest : d ∉ w -> 0 ∉ w -> c = d \/ c = 0 -> strcspn (w ++ c :: rest) d = Ok (length w).
Proof.
  intros Hd H0 Hc. induction w as [|x w IH]; simpl.
  - destruct Hc as [-> | ->]; rewrite Z.eqb_refl; [reflexivity|]. rewrite orb_true_r. reflexivity.
  - apply not_elem_of_cons in Hd as [Hxd Hd]. apply not_elem_of_cons in H0 as [Hx0 H0].
    rewrite IH by assumption.
    destruct (Z.eqb_spec x d), (Z.eqb_spec x 0); simpl; congruence.
Qed.

Lemma words_acc_run d cur w s : d ∉ w -> words_acc d cur (w ++ s) = words_acc d (cur ++ w) s.
Proof.
  revert cur. induction w as [|x w IH]; simpl; intros cur H; [rewrite app_nil_r; reflexivity|].
  apply not_elem_of_cons in H as [Hx H]. destruct (Z.eqb_spec x d); [congruence|].
  rewrite IH by exact H. rewrite <- app_assoc. reflexivity.
Qed.

Lemma words_seps d n s : words d (replicate n d ++ s) = words d s.
Proof.
  unfold words. induction n as [|n IH]; simpl; [reflexivity|]. rewrite Z.eqb_refl.
  exact IH.
Qed.

(** A string is a run of [P] and what follows it. *)
Lemma span_split (P : Z -> Prop) `{!forall c, Decision (P c)} (s : list Z) :
  exists u r, s = u ++ r /\ Forall P u /\ (r = [] \/ exists c r', r = c :: r' /\ ~ P c).
Proof.
  induction s as [|c s (u & r & -> & Hu & Hr)].
  - exists [], []. repeat split; auto.
  - destruct (decide (P c)).
    + exists (c :: u), r. repeat split; auto.
    + exists [], (c :: u ++ r). repeat split; auto. right. eauto.
Qed.

Lemma Forall_eq_replicate (d : Z) u : Forall (fun c => c = d) u -> u = replicate (length u) d.
Proof. induction 1 as [|x l -> _ IH]; simpl; congruence. Qed.

(** A string is separators only, or separators, its first word, and the rest. *)
Lemma words_cases d s :
  (words d s = [] /\ s = replicate (length s) d) \/
  exists (n : nat) (w r : list Z), w <> [] /\ d ∉ w /\ words d s = w :: words d r /\
    ((s = replicate n d ++ w /\ r = []) \/ s = replicate n d ++ w ++ d :: r).
Proof.
  destruct (span_split (fun c => c = d) s) as (u & r0 & -> & Hu & Hr).
  apply Forall_eq_replicate in Hu. set (n := length u) in *. clearbody n. subst u.
  destruct Hr as [-> | (c & r' & -> & Hc)].
  { left. rewrite words_seps, app_nil_r, length_replicate. auto. }
  right. destruct (span_split (fun c => c <> d) (c :: r')) as (w & r1 & E & Hw & Hr).
  assert (Hwd : d ∉ w) by (intros Hin; rewrite Forall_forall in Hw; exact (Hw d Hin eq_refl)).
  assert (Hne : w <> []).
  { intros ->. simpl in E. subst r1. destruct Hr as [|(c0 & r2 & E & Hn)]; [discriminate|].
    injection E as -> ->. apply Hn. exact Hc. }
  rewrite E, words_seps. unfold words. rewrite words_acc_run by exact Hwd. simpl.
  destruct Hr as [-> | (c1 & r2 & -> & Hn)]; simpl.
  - exists n, w, []. destruct (decide (w = [])) as [|_]; [contradiction|]. rewrite app_nil_r. simpl.
    repeat split; auto.
  - assert (c1 = d) as -> by (destruct (decide (c1 = d)); tauto).
    exists n, w, r2. rewrite Z.eqb_refl. destruct (decide (w = [])) as [|_]; [contradiction|].
    repeat split; auto.
Qed.

(** ** Lemmas: the loop over the tokens *)

Lemma lookup_append_at {A} (l : list A) x r n : n = length l -> (l ++ x :: r) !! n = Some x.
Proof. intros ->. apply list_lookup_middle. reflexivity. Qed.

Lemma strtok_none pre s post d :
  words d s = [] -> d <> 0 ->
  strtok (pre ++ s ++ 0 :: post) (length pre) d = Ok (None, pre ++ s ++ 0 :: post, (length pre + length s)%nat).
Proof.
  intros Hw Hd. destruct (words_cases d s) as [[_ Es]|(n & w & r & _ & _ & E & _)]; [|congruence].
  unfold strtok. rewrite drop_app_length. rewrite Es at 1. rewrite strspn_app by congruence. simpl.
  rewrite app_assoc, lookup_append_at by (rewrite length_app; reflexivity).
  simpl. rewrite <- app_assoc. reflexivity.
Qed.

(** The token found, and the buffer as the next call of [strtok] will see it. *)
Lemma strtok_some pre s post d w r n :
  d <> 0 -> 0 ∉ s -> w <> [] -> d ∉ w ->
  (s = replicate n d ++ w /\ r = []) \/ s = replicate n d ++ w ++ d :: r ->
  exists pre', strtok (pre ++ s ++ 0 :: post) (length pre) d
      = Ok (Some (length pre + n)%nat, pre' ++ r ++ 0 :: post, length pre') /\
    (exists k, pre' = pre ++ k /\ length (k ++ r) = length s) /\
    forall x, length x = length r -> str_at (pre' ++ x ++ 0 :: post) (length pre + n) = Ok w.
Proof.
  intros Hd H0 Hne Hdw Hs.
  assert (H0w : 0 ∉ w).
  { intros Hin. apply H0. destruct Hs as [[-> _]|E]; [|rewrite E]; rewrite !elem_of_app; auto. }
  assert (Hhead : exists c w', w = c :: w' /\ c <> d /\ c <> 0).
  { destruct w as [|c w']; [contradiction|]. exists c, w'.
    apply not_elem_of_cons in Hdw as [? _]. apply not_elem_of_cons in H0w as [? _]. auto. }
  destruct Hhead as (c & w' & Ew & Hcd & Hc0).
  assert (Hstart : forall tl, (strspn (replicate n d ++ w ++ tl) d = Ok n)
    /\ (pre ++ replicate n d ++ w ++ tl) !! (length pre + n)%nat = Some c
    /\ drop (length pre + n) (pre ++ replicate n d ++ w ++ tl) = w ++ tl).
  { intros tl. rewrite Ew. simpl. split; [apply strspn_app; exact Hcd|].
    rewrite app_assoc. split.
    - apply lookup_append_at. rewrite length_app, length_replicate. reflexivity.
    - apply drop_app_length'. rewrite length_app, length_replicate. reflexivity. }
  assert (Hfin : forall c0 tl, c0 = d \/ c0 = 0 -> strcspn (w ++ c0 :: tl) d = Ok (length w)
    /\ (pre ++ replicate n d ++ w ++ c0 :: tl) !! (length pre + n + length w)%nat = Some c0).
  { intros c0 tl Hc. split; [apply strcspn_app; assumption|].
    rewrite !app_assoc. apply lookup_append_at. rewrite !length_app, length_replicate. lia. }
  destruct Hs as [[-> ->]|Es].
  - exists (pre ++ replicate n d ++ w). split; [|split].
    + unfold strtok. rewrite drop_app_length, <- !app_assoc.
      destruct (Hstart (0 :: post)) as (-> & E1 & E2). cbn [rbind].
      rewrite E1. cbn [of_option rbind]. destruct (Z.eqb_spec c 0); [contradiction|]. rewrite E2.
      destruct (Hfin 0 post) as (-> & E3); [auto|]. cbn [rbind]. rewrite E3. simpl.
      repeat f_equal. rewrite !length_app, length_replicate. lia.
    + exists (replicate n d ++ w). rewrite app_nil_r. auto.
    + intros x Hx. destruct x; [|discriminate]. simpl. rewrite <- !app_assoc.
      unfold str_at. destruct (Hstart (0 :: post)) as (_ & _ & ->). apply c_str_app, H0w.
  - subst s. exists (pre ++ replicate n d ++ w ++ [0]). split; [|split].
    + unfold strtok. rewrite drop_app_length, <- !app_assoc. cbn [app].
      destruct (Hstart (d :: r ++ 0 :: post)) as (-> & E1 & E2). cbn [rbind].
      rewrite E1. cbn [of_option rbind]. destruct (Z.eqb_spec c 0); [contradiction|]. rewrite E2.
      destruct (Hfin d (r ++ 0 :: post)) as (-> & E3); [auto|]. cbn [rbind]. rewrite E3. cbn [of_option rbind].
      destruct (Z.eqb_spec d 0); [contradiction|].
      rewrite !app_assoc, insert_app_r_alt by (rewrite !length_app, length_replicate; lia).
      rewrite !length_app, length_replicate.
      replace (length pre + n + length w - (length pre + n + length w))%nat with 0%nat by lia. simpl.
      rewrite <- !app_assoc. reflexivity.
    + exists (replicate n d ++ w ++ [0]). split; [reflexivity|]. rewrite !length_app. simpl. lia.
    + intros x Hx. rewrite <- !app_assoc. unfold str_at. cbn [app].
      destruct (Hstart (0 :: x ++ 0 :: post)) as (_ & _ & ->). apply c_str_app, H0w.
Qed.

(** The array [arr] with [ts] in it from element [count] on. *)
Definition stored (arr : pointers) (count : nat) (ts : list nat) : pointers :=
  take count arr ++ (Some <$> ts) ++ drop (count + length ts) arr.

Lemma stored_nil arr count : stored arr count [] = arr.
Proof. unfold stored. simpl. rewrite Nat.add_0_r. apply take_drop. Qed.

Lemma stored_cons arr count t ts : (count < length arr)%nat ->
  stored (<[count := Some t]> arr) (S count) ts = stored arr count (t :: ts).
Proof.
  intros H. unfold stored. rewrite drop_insert_lt by lia.
  rewrite (take_S_r _ _ (Some t)) by (apply list_lookup_insert_eq; exact H).
  rewrite take_insert_ge by lia. rewrite <- app_assoc. simpl. repeat f_equal. lia.
Qed.

(** From the first call of strtok to the end of the loop: the buffer keeps its shape,
    and the pointers stored are to the words, in order. *)
Lemma token_loop_spec d max (arr0 : pointers) : d <> 0 -> (max <= length arr0)%nat ->
  forall fuel s pre post arr count, 0 ∉ s -> (count <= max < fuel + count)%nat -> length arr = length arr0 ->
  exists x ts,
    (let* (token, buf, save) := strtok (pre ++ s ++ 0 :: post) (length pre) d in
     token_loop fuel d max buf token save arr count)
    = Ok (pre ++ x ++ 0 :: post, stored arr count ts, (count + length ts)%nat) /\
    length x = length s /\
    Forall2 (fun t w => str_at (pre ++ x ++ 0 :: post) t = Ok w) ts (take (max - count) (words d s)).
Proof.
  intros Hd Hmax. induction fuel as [|fuel IH]; intros s pre post arr count H0 Hf Harr; [lia|].
  destruct (words_cases d s) as [[Hw Es]|(n & w & r & Hne & Hdw & Ew & Hs)].
  - exists s, []. rewrite strtok_none by assumption. cbn [rbind token_loop].
    rewrite stored_nil, Nat.add_0_r, Hw, take_nil. auto.
  - destruct (strtok_some pre s post d w r n) as (pre' & E & (k & Ek & Hk) & Hstr); try assumption.
    rewrite E, Ew. cbn [rbind token_loop].
    assert (Hkeep : forall x, pre' ++ x ++ 0 :: post = pre ++ (k ++ x) ++ 0 :: post)
      by (intros x; rewrite Ek, <- !app_assoc; reflexivity).
    destruct (Nat.ltb_spec count max) as [Hlt|Hge].
    + rewrite zupd_ok by lia. cbn [rbind]. rewrite Nat2Z.id.
      assert (H0r : 0 ∉ r).
      { intros Hin. apply H0. destruct Hs as [[_ ->]|E']; [apply elem_of_nil in Hin; easy|].
        rewrite E', !elem_of_app, elem_of_cons. auto. }
      destruct (IH r pre' post (<[count := Some (length pre + n)%nat]> arr) (S count)) as (x & ts & El & Hx & Hts);
        [exact H0r|lia|rewrite length_insert; exact Harr|].
      exists (k ++ x), ((length pre + n)%nat :: ts). rewrite El, stored_cons by lia. cbn [length].
      split; [rewrite Hkeep, Nat.add_succ_r; reflexivity|]. split; [rewrite length_app in *; lia|].
      replace (max - count)%nat with (S (max - S count)) by lia. cbn [take firstn].
      rewrite Hkeep in Hts. constructor; [|exact Hts]. rewrite <- Hkeep. apply Hstr, Hx.
    + exists (k ++ r), []. rewrite stored_nil, Nat.add_0_r, Hkeep.
      replace (max - count)%nat with 0%nat by lia. repeat split; auto.
Qed.

(** ** Lemmas: the line and the arguments *)

Lemma argv_of_stored input ts ws rest :
  Forall2 (fun t w => str_at input t = Ok w) ts ws -> argv_of input ((Some <$> ts) ++ None :: rest) = Ok ws.
Proof. induction 1 as [|t w ts ws H _ IH]; cbn; [reflexivity|]. rewrite H. cbn. cbn in IH. rewrite IH. reflexivity. Qed.

(** [args] holds pointers to the words [ws] of [input], and a NULL after them. *)
Definition holds_args (input : list Z) (args : pointers) (ws : list (list Z)) : Prop :=
  exists ts rest, args = (Some <$> ts) ++ None :: rest /\
    Forall2 (fun t w => str_at input t = Ok w) ts ws.

Lemma parse_input_spec s post args :
  0 ∉ s -> length args = MAX_ARGS ->
  exists input args' argc,
    parse_input (s ++ 0 :: post) args = Ok (input, args', argc) /\
    holds_args input args' (take (MAX_ARGS - 1) (words 32 s)) /\
    argc = length (take (MAX_ARGS - 1) (words 32 s)) /\
    length input = length (s ++ 0 :: post) /\ length args' = MAX_ARGS.
Proof.
  intros H0 Ha. unfold parse_input.
  destruct (token_loop_spec 32 (MAX_ARGS - 1) args ltac:(lia) ltac:(lia)
              (S MAX_ARGS) s [] post args 0 H0 ltac:(unfold MAX_ARGS; lia) eq_refl) as (x & ts & E & Hx & Hts).
  cbn [app length] in E, Hts. rewrite Nat.sub_0_r in Hts.
  pose proof (Forall2_length _ _ _ Hts) as Hlen. assert (Hle : (length (take (MAX_ARGS - 1) (words 32 s)) <= MAX_ARGS - 1)%nat) by (rewrite length_take; lia).
  destruct (strtok (s ++ 0 :: post) 0 32) as [[[token buf] save]| |]; try discriminate E. cbn [rbind] in E |- *.
  rewrite E. cbn [rbind]. unfold stored. simpl take. rewrite app_nil_l.
  assert (Hts15 : (length ts < length args)%nat) by (rewrite Ha; unfold MAX_ARGS in *; lia).
  destruct (drop (length ts) args) as [|a rest] eqn:Ed.
  { apply (f_equal length) in Ed. rewrite length_drop in Ed. simpl in Ed. lia. }
  assert (Hl : length (drop (length ts) args) = S (length rest)) by (rewrite Ed; reflexivity).
  rewrite length_drop in Hl. simpl Nat.add. rewrite Ed.
  rewrite zupd_ok by (rewrite length_app, length_fmap; simpl; lia). cbn [rbind]. rewrite Nat2Z.id.
  rewrite insert_app_r_alt, length_fmap, Nat.sub_diag by (rewrite length_fmap; lia). simpl.
  eexists _, _, _. split; [reflexivity|]. split; [exists ts, rest; split; [reflexivity|exact Hts]|].
  split; [exact Hlen|]. rewrite !length_app, length_fmap. simpl. lia.
Qed.

Lemma parse_path_spec path post paths :
  0 ∉ path -> length paths = MAX_PATHS ->
  exists dirs paths' ts,
    parse_path (path ++ 0 :: post) paths = Ok (dirs, paths', length ts) /\
    Forall2 (fun t w => str_at dirs t = Ok w) ts (take MAX_PATHS (words 58 path)) /\
    exists rest, paths' = (Some <$> ts) ++ rest.
Proof.
  intros H0 Ha. unfold parse_path.
  destruct (token_loop_spec 58 MAX_PATHS paths ltac:(lia) ltac:(lia)
              (S MAX_PATHS) path [] post paths 0 H0 ltac:(unfold MAX_PATHS; lia) eq_refl) as (x & ts & E & Hx & Hts).
  cbn [app length] in E, Hts. rewrite Nat.sub_0_r in Hts.
  eexists _, _, _. split; [exact E|]. split; [exact Hts|]. eexists. reflexivity.
Qed.

(** The loop over the directories stops at the first one that has the program. *)
Lemma exec_loop_spec os dirs name argv p ws : forall ts pre rest i,
  Forall2 (fun t w => str_at dirs t = Ok w) ts ws -> i = length pre ->
  exec_loop os dirs (pre ++ (Some <$> ts) ++ rest) i (length ts) name argv p
  = Ok (match find (fun path => os_exec os (p_cwd p) path argv)
                ((fun dir => snprintf_path MAX_PATH_LEN dir name) <$> ws) with
        | Some path => (Becomes, say (EvRun path argv) p)
        | None => (Returns tt, p)
        end).
Proof.
  induction ws as [|w ws IH]; intros ts pre rest i H Hi; inversion H as [|t ? ts' ? Ht Hts]; subst; [reflexivity|].
  rewrite !fmap_cons. cbn [length exec_loop app find]. unfold arg_str.
  rewrite lookup_append_at by reflexivity. cbn [of_option rbind]. rewrite Ht. cbn [rbind].
  unfold execv at 1. destruct (os_exec os (p_cwd p) (snprintf_path MAX_PATH_LEN w name) argv); [reflexivity|].
  rewrite cons_middle, app_assoc. apply IH; [exact Hts|]. rewrite length_app. simpl. lia.
Qed.

Lemma find_app {A} (f : A -> bool) l r :
  find f (l ++ r) = match find f l with Some x => Some x | None => find f r end.
Proof. induction l as [|a l IH]; simpl; [reflexivity|]. destruct (f a); auto. Qed.

(** PATH as the shell can handle it. *)
Definition path_fits (os : posix) : Prop :=
  forall path, os_getenv os s_PATH = Some path -> 0 ∉ path /\ (length path < 512)%nat.

Lemma exec_with_path_spec os paths0 input args p name ws :
  path_fits os -> length paths0 = MAX_PATHS -> holds_args input args (name :: ws) ->
  exists o, exec_with_path os paths0 input args p = Ok (o, sh_exec os name (name :: ws) p).
Proof.
  intros Hp Hl (ts & rest & -> & Hts). unfold exec_with_path, sh_exec, candidates.
  rewrite (argv_of_stored _ _ _ _ Hts). cbn [rbind].
  inversion Hts as [|t ? ts' ? Ht Hts']; subst. unfold arg_str. simpl. rewrite Ht. simpl.
  destruct (os_getenv os s_PATH) as [path|] eqn:EP; simpl.
  - destruct (Hp _ EP) as [H0 Hlen].
    assert (Ec : strncpy path 512 = path ++ 0 :: replicate (511 - length path) 0).
    { unfold strncpy. rewrite take_ge by lia. replace (512 - length path)%nat with (S (511 - length path)) by lia.
      reflexivity. }
    rewrite Ec. destruct (parse_path_spec path (replicate (511 - length path) 0) paths0 H0 Hl)
      as (dirs & paths' & us & E & Hus & rest' & ->).
    rewrite E. cbn [rbind].
    pose proof (exec_loop_spec os dirs name (name :: ws) p _ us [] rest' 0 Hus eq_refl) as EL.
    cbn [app] in EL. rewrite EL. cbn [rbind].
    rewrite find_app. destruct (find _ (_ <$> _)); [eexists; reflexivity|].
    unfold execv. simpl. destruct (os_exec _ _ _ _); eexists; reflexivity.
  - unfold execv. destruct (os_exec _ _ _ _); eexists; reflexivity.
Qed.

(** ** Lemmas: the lines *)

Lemma fgets_take_line t rest n : 10 ∉ t -> (length t < n)%nat ->
  fgets_take n (t ++ 10 :: rest) = (t ++ [10], rest).
Proof.
  revert n. induction t as [|c t IH]; intros [|n] H Hn; simpl in Hn; try lia; simpl; [reflexivity|].
  apply not_elem_of_cons in H as [Hc H]. destruct (Z.eqb_spec c 10); [congruence|].
  rewrite IH by (auto; lia). reflexivity.
Qed.

Lemma fgets_take_part t rest n : 10 ∉ t -> length t = n \/ (rest = [] /\ (length t <= n)%nat) ->
  fgets_take n (t ++ rest) = (t, rest).
Proof.
  revert n. induction t as [|c t IH]; intros n H Hn; simpl in *.
  - destruct n as [|n]; [reflexivity|]. destruct Hn as [Hn|[-> _]]; [discriminate|reflexivity].
  - apply not_elem_of_cons in H as [Hc H]. destruct n as [|n]; [lia|]. simpl.
    destruct (Z.eqb_spec c 10); [congruence|]. rewrite IH; [reflexivity|exact H|].
    destruct Hn as [Hn|[-> Hn]]; [left; lia|right; split; [reflexivity|lia]].
Qed.

Lemma text_no_nul t : 0 ∉ text t.
Proof.
  induction t as [|c t IH]; simpl; [apply not_elem_of_nil|].
  destruct (Z.eqb_spec c 0); [apply not_elem_of_nil|]. apply not_elem_of_cons. auto.
Qed.

(** A string that ends with a newline or a NUL is cut at [text]. *)
Lemma cut_at_newline t c post : 10 ∉ t -> c = 10 \/ c = 0 ->
  exists n post', strcspn (t ++ c :: post) 10 = Ok n /\
    zupd (t ++ c :: post) (Z.of_nat n) 0 = Ok (text t ++ 0 :: post').
Proof.
  intros H Hc. assert (exists u v x, t ++ c :: post = u ++ x :: v /\ u = text t /\ 10 ∉ u /\ (x = 10 \/ x = 0))
    as (u & v & x & E & Eu & Hu & Hx).
  { revert H. induction t as [|y t IH]; simpl; intros H; [exists [], post, c; repeat split; auto; apply not_elem_of_nil|].
    apply not_elem_of_cons in H as [Hy H]. destruct (Z.eqb_spec y 0) as [->|Hy0].
    - exists [], (t ++ c :: post), 0. repeat split; auto. apply not_elem_of_nil.
    - destruct (IH H) as (u & v & x & -> & -> & Hu & Hx). exists (y :: text t), v, x.
      repeat split; auto. apply not_elem_of_cons. auto. }
  rewrite E. exists (length u), v. rewrite strcspn_app by (auto; rewrite Eu; apply text_no_nul).
  rewrite zupd_ok by (rewrite length_app; simpl; lia).
  rewrite Nat2Z.id, insert_app_r_alt, Nat.sub_diag, Eu by lia. auto.
Qed.

(** One round of fgets and the cutting of the newline. *)
Lemma read_line input stdin t ls : length input = MAX_INPUT -> cut stdin (t :: ls) ->
  exists b rest n post, fgets input stdin = (Some b, rest) /\ cut rest ls /\
    strcspn b 10 = Ok n /\ zupd b (Z.of_nat n) 0 = Ok (text t ++ 0 :: post) /\
    length (text t ++ 0 :: post) = MAX_INPUT /\ (length rest < length stdin)%nat.
Proof.
  intros Hi Hcut.
  assert (Hgen : forall l rest c v, fgets_take (length input - 1) stdin = (l, rest) -> stdin <> [] ->
    (length l < MAX_INPUT)%nat -> cut rest ls -> (length rest < length stdin)%nat ->
    10 ∉ t -> l ++ 0 :: drop (S (length l)) input = t ++ c :: v -> c = 10 \/ c = 0 ->
    exists b rest n post, fgets input stdin = (Some b, rest) /\ cut rest ls /\
      strcspn b 10 = Ok n /\ zupd b (Z.of_nat n) 0 = Ok (text t ++ 0 :: post) /\
      length (text t ++ 0 :: post) = MAX_INPUT /\ (length rest < length stdin)%nat).
  { intros l rest c v E Hne Hl Hr Hlt Ht Eb Hc. destruct (cut_at_newline t c v Ht Hc) as (n & post & En & Ez).
    exists (t ++ c :: v), rest, n, post. split.
    - unfold fgets. rewrite E. destruct stdin; [contradiction|]. rewrite Eb. reflexivity.
    - repeat split; auto. apply zupd_length in Ez. rewrite Ez, <- Eb, length_app. simpl.
      rewrite length_drop, Hi. lia. }
  rewrite Hi in Hgen. unfold MAX_INPUT in *.
  inversion Hcut as [|t' rest ls' Ht Hl Hr|t' rest ls' Ht Hl Hr|t' Ht Hl]; subst.
  - eapply (Hgen (t ++ [10]) rest 10); try assumption.
    + apply fgets_take_line; [exact Ht|lia].
    + destruct t; discriminate.
    + rewrite length_app. simpl. lia.
    + rewrite length_app. simpl. lia.
    + rewrite <- app_assoc. reflexivity.
    + auto.
  - eapply (Hgen t rest 0); try assumption; auto.
    + apply fgets_take_part; auto.
    + destruct t; [discriminate|discriminate].
    + lia.
    + rewrite length_app. lia.
  - eapply (Hgen t [] 0); try assumption; auto.
    + rewrite <- (app_nil_r t) at 1. apply fgets_take_part; [exact Ht|]. right. split; [reflexivity|lia].
    + destruct t; [simpl in Hl; lia|discriminate].
    + lia.
    + constructor.
    + simpl. lia.
Qed.

(** Every input is cut in one way or another. *)
Lemma cut_total : forall n stdin, (length stdin <= n)%nat -> exists ls, cut stdin ls.
Proof.
  induction n as [|n IH]; intros stdin Hn.
  { destruct stdin; [|simpl in Hn; lia]. exists []. constructor. }
  destruct (span_split (fun c => c <> 10) stdin) as (u & r & -> & Hu & Hr).
  assert (H10 : 10 ∉ u) by (intros Hin; rewrite Forall_forall in Hu; exact (Hu 10 Hin eq_refl)).
  rewrite length_app in Hn. destruct (Nat.le_gt_cases 255 (length u)) as [Hbig|Hsmall].
  - destruct (IH (drop 255 u ++ r)) as [ls Hls]; [rewrite length_app, length_drop; lia|].
    exists (take 255 u :: ls). rewrite <- (take_drop 255 u) at 1. rewrite <- app_assoc.
    apply cut_full; [|rewrite length_take; lia|exact Hls].
    intros Hin. apply H10. rewrite <- (take_drop 255 u). apply elem_of_app. auto.
  - destruct Hr as [-> | (c & r' & -> & Hc)].
    + rewrite app_nil_r. destruct u as [|x u]; [exists []; constructor|].
      exists [x :: u]. apply cut_last; [exact H10|]. simpl in *. lia.
    + assert (c = 10) as -> by lia. destruct (IH r') as [ls Hls]; [simpl in Hn; lia|].
      exists (u :: ls). apply cut_line; [exact H10|lia|exact Hls].
Qed.

(** ** Lemmas: the commands *)

Lemma sh_exec_stdin os name argv s p : sh_exec os name argv (set_stdin s p) = set_stdin s (sh_exec os name argv p).
Proof.
  unfold sh_exec. simpl. destruct (find _ _); [reflexivity|]. destruct (decide _); reflexivity.
Qed.

Lemma sh_run_stdin os name argv s p : sh_run os name argv (set_stdin s p) = set_stdin s (sh_run os name argv p).
Proof.
  unfold sh_run. simpl. destruct (_ <? 0); [reflexivity|].
  exact (sh_exec_stdin os name argv s (Proc (p_stdin p) (p_cwd p) (S (p_forks p)) (p_trace p))).
Qed.

Lemma sh_cd_stdin os args s p : sh_cd os args (set_stdin s p) = set_stdin s (sh_cd os args p).
Proof. unfold sh_cd. destruct args as [|d args]; [reflexivity|]. simpl. destruct (os_chdir _ _ _); reflexivity. Qed.

Lemma sh_lines_stdin os ls : forall s p,
  sh_lines os ls (set_stdin s p) = (fst (sh_lines os ls p), set_stdin s (snd (sh_lines os ls p))).
Proof.
  induction ls as [|l ls IH]; intros s p; [reflexivity|]. cbn [sh_lines].
  change (say EvPrompt (set_stdin s p)) with (set_stdin s (say EvPrompt p)).
  destruct (take _ _) as [|name args]; [apply IH|].
  destruct (decide _); [reflexivity|]. destruct (decide _).
  - rewrite sh_cd_stdin. apply IH.
  - rewrite sh_run_stdin. apply IH.
Qed.

(** A child leaves nothing behind but what it did. *)
Lemma sh_exec_keeps os name argv p :
  Proc (p_stdin p) (p_cwd p) (p_forks p) (p_trace (sh_exec os name argv p)) = sh_exec os name argv p.
Proof. unfold sh_exec. destruct p. destruct (find _ _); [reflexivity|]. destruct (decide _); reflexivity. Qed.

Lemma run_command_spec os paths0 input args p name ws :
  path_fits os -> length paths0 = MAX_PATHS -> holds_args input args (name :: ws) ->
  run_command os paths0 input args p = Ok (sh_run os name (name :: ws) p).
Proof.
  intros Hp Hl Ha. unfold run_command, sh_run. simpl. destruct (_ <? 0); [reflexivity|].
  destruct (exec_with_path_spec os paths0 input args (Proc (p_stdin p) (p_cwd p) (S (p_forks p)) (p_trace p))
              name ws Hp Hl Ha) as [o E].
  rewrite E. simpl.
  f_equal. apply (sh_exec_keeps os name (name :: ws) (Proc (p_stdin p) (p_cwd p) (S (p_forks p)) (p_trace p))).
Qed.

Lemma handle_builtin_spec os input args p name ws :
  holds_args input args (name :: ws) ->
  handle_builtin os input args p
  = Ok (if decide (name = s_exit) then (Exits 0, p)
        else if decide (name = s_cd) then (Returns true, sh_cd os ws p)
        else (Returns false, p)).
Proof.
  intros (ts & rest & -> & Hts). inversion Hts as [|t ? ts' ? Ht Hts']; subst. unfold handle_builtin, sh_cd.
  simpl. rewrite Ht. simpl. destruct (decide _); [reflexivity|]. destruct (decide _); [|reflexivity].
  inversion Hts' as [|t1 w1 ts1 ws1 Ht1 _]; subst; simpl; [reflexivity|]. rewrite Ht1. simpl.
  destruct (os_chdir os (p_cwd p) w1); reflexivity.
Qed.

Lemma main_loop_spec os paths0 : path_fits os -> length paths0 = MAX_PATHS ->
  forall fuel input args p ls, cut (p_stdin p) ls -> (length (p_stdin p) < fuel)%nat ->
  length input = MAX_INPUT -> length args = MAX_ARGS ->
  exists rest, main_loop os fuel paths0 input args p
    = Ok (fst (sh_lines os ls p), set_stdin rest (snd (sh_lines os ls p))).
Proof.
  intros Hp Hl. induction fuel as [|fuel IH]; intros input args p ls Hc Hf Hi Ha; [lia|].
  destruct ls as [|t ls].
  { inversion Hc as [E| | |]. exists []. simpl. rewrite <- E. simpl. unfold set_stdin, say. simpl.
    rewrite E. reflexivity. }
  destruct (read_line input _ t ls Hi Hc) as (b & rest & n & post & Eg & Hcr & En & Ez & Hlen & Hlt).
  destruct (parse_input_spec (text t) post args (text_no_nul t) Ha)
    as (input' & args' & argc & Epi & Hargs & _ & Hi' & Ha').
  set (p1 := say EvPrompt p).
  assert (Hnext : forall q, exists rest', main_loop os fuel paths0 input' args' (set_stdin rest q)
      = Ok (fst (sh_lines os ls q), set_stdin rest' (snd (sh_lines os ls q)))).
  { intros q. destruct (IH input' args' (set_stdin rest q) ls) as [rest' E]; simpl; try congruence; [lia|].
    exists rest'. rewrite E, sh_lines_stdin. reflexivity. }
  cbn [main_loop sh_lines]. fold p1. change (p_stdin p1) with (p_stdin p). rewrite Eg, En. cbn [rbind].
  rewrite Ez. cbn [rbind]. rewrite Epi. cbn [rbind].
  change (Proc rest (p_cwd p1) (p_forks p1) (p_trace p1)) with (set_stdin rest p1).
  destruct (take (MAX_ARGS - 1) (words 32 (text t))) as [|name ws] eqn:Ew.
  - destruct Hargs as (ts & r & -> & Hts). inversion Hts; subst. simpl. apply Hnext.
  - rewrite (handle_builtin_spec _ _ _ _ _ _ Hargs).
    assert (Hcmd : exists a, args' !! 0%nat = Some (Some a)).
    { destruct Hargs as (ts & r & -> & Hts). inversion Hts; subst. simpl. eauto. }
    destruct Hcmd as [a ->]. cbn [of_option rbind].
    destruct (decide (name = s_exit)); [exists rest; reflexivity|].
    destruct (decide (name = s_cd)); cbn [rbind].
    + rewrite sh_cd_stdin. apply Hnext.
    + rewrite (run_command_spec _ _ _ _ _ _ _ Hp Hl Hargs). cbn [rbind]. rewrite sh_run_stdin. apply Hnext.
Qed.

(** ** Where the shell does not do what it means to *)

Lemma strcspn_none b d : d ∉ b -> 0 ∉ b -> strcspn b d = Undef.
Proof.
  induction b as [|x b IH]; simpl; intros Hd H0; [reflexivity|].
  apply not_elem_of_cons in Hd as [Hxd Hd]. apply not_elem_of_cons in H0 as [Hx0 H0].
  rewrite IH by assumption. destruct (Z.eqb_spec x d), (Z.eqb_spec x 0); simpl; congruence.
Qed.

(** The copy of a PATH of 512 characters or more has no NUL: a directory that fills it
    is read past the end of the copy. *)
Lemma long_path_overruns os paths0 input args p name ws path :
  os_getenv os s_PATH = Some path -> (512 <= length path)%nat -> 0 ∉ path -> 58 ∉ path ->
  holds_args input args (name :: ws) ->
  exec_with_path os paths0 input args p = Undef.
Proof.
  intros EP Hlen H0 Hc (ts & rest & -> & Hts). unfold exec_with_path.
  rewrite (argv_of_stored _ _ _ _ Hts). cbn [rbind].
  inversion Hts as [|t ? ts' ? Ht Hts']; subst. unfold arg_str. simpl. rewrite Ht. simpl. rewrite EP.
  assert (Ec : strncpy path 512 = take 512 path).
  { unfold strncpy. replace (512 - length path)%nat with 0%nat by lia. apply app_nil_r. }
  rewrite Ec. assert (Hsub : forall x, x ∉ path -> x ∉ take 512 path).
  { intros x Hx Hin. apply Hx. rewrite <- (take_drop 512 path). apply elem_of_app. auto. }
  pose proof (strcspn_none _ _ (Hsub _ Hc) (Hsub _ H0)) as Eu. apply Hsub in Hc, H0.
  assert (Hl : length (take 512 path) = 512%nat) by (rewrite length_take; lia).
  destruct (take 512 path) as [|c b]; [discriminate|].
  apply not_elem_of_cons in Hc as [Hc _]. apply not_elem_of_cons in H0 as [H0 _].
  unfold parse_path, strtok. cbn [drop strspn]. destruct (Z.eqb_spec c 58); [congruence|]. cbn [rbind].
  cbn [Nat.add lookup list_lookup of_option rbind drop]. destruct (Z.eqb_spec c 0); [congruence|].
  rewrite Eu. reflexivity.
Qed.

(** ** Properties *)

(** C22: The shell, on any input, ends; and what it has done is what the reference does
    with the lines of its input (of at most 255 characters): the first 15 words of a
    line are a command, tried in the directories of PATH in order and then as it is;
    the indices into its buffers stay within them. *)
Theorem shell_refines os paths0 input args p :
  path_fits os -> length paths0 = MAX_PATHS -> length input = MAX_INPUT -> length args = MAX_ARGS ->
  exists ls rest, cut (p_stdin p) ls /\
    shell_main os paths0 input args p = Ok (fst (sh_lines os ls p), set_stdin rest (snd (sh_lines os ls p))).
Proof.
  intros Hp Hl Hi Ha. destruct (cut_total _ (p_stdin p) (le_n _)) as [ls Hls].
  destruct (main_loop_spec os paths0 Hp Hl (S (length (p_stdin p))) input args p ls Hls ltac:(lia) Hi Ha) as [rest E].
  exists ls, rest. split; [exact Hls|exact E].
Qed.

(** ** A run *)

Module ShellDemo.

(** A system with the programs /bin/ls and ./a, and the directory /x. *)
Definition demo_os : posix := Posix
  (fun name => if decide (name = s_PATH) then Some [47; 117; 58; 58; 47; 98; 105; 110] else None)
  (fun _ path _ => bool_decide (path = [47; 98; 105; 110; 47; 108; 115] \/ path = [46; 47; 97]))
  (fun _ dir => if decide (dir = [47; 120]) then Some dir else None)
  (fun n => Z.of_nat n + 2).

(** "ls  -l", an empty line, "cd /x", "cd /y", "./a", "b" and "exit". *)
Definition demo_stdin : list Z :=
  [108; 115; 32; 32; 45; 108; 10; 10; 99; 100; 32; 47; 120; 10; 99; 100; 32; 47; 121; 10;
   46; 47; 97; 10; 98; 10; 101; 120; 105; 116; 10; 108; 115; 10].

Definition demo (stdin : list Z) : res (Z * proc) :=
  shell_main demo_os (replicate MAX_PATHS None) (replicate MAX_INPUT 0) (replicate MAX_ARGS None)
    (Proc stdin [47] 0 []).

Example shell_demo :
  demo demo_stdin
  = Ok (0, Proc [108; 115; 10] [47; 120] 3
          [EvPrompt; EvRun [47; 98; 105; 110; 47; 108; 115] [[108; 115]; [45; 108]];
           EvPrompt; EvPrompt; EvPrompt; EvError s_cd;
           EvPrompt; EvRun [46; 47; 97] [[46; 47; 97]];
           EvPrompt; EvError s_execv; EvPrompt]).
Proof. vm_compute. reflexivity. Qed.

(** A line of more than 254 characters is two lines to the shell: what is behind the
    255th character is run as a command of its own. *)
Example long_line_is_two_commands :
  demo (replicate 255 32 ++ [108; 115; 10])
  = Ok (0, Proc [] [47] 1
          [EvPrompt; EvPrompt; EvRun [47; 98; 105; 110; 47; 108; 115] [[108; 115]]; EvPrompt]).
Proof. vm_compute. reflexivity. Qed.

Lemma shell_refines_witness :
  exists ls rest, cut demo_stdin ls /\
    demo demo_stdin = Ok (fst (sh_lines demo_os ls (Proc demo_stdin [47] 0 [])),
                          set_stdin rest (snd (sh_lines demo_os ls (Proc demo_stdin [47] 0 [])))).
Proof.
  apply (shell_refines demo_os (replicate MAX_PATHS None) (replicate MAX_INPUT 0) (replicate MAX_ARGS None)
           (Proc demo_stdin [47] 0 [])); [|reflexivity|reflexivity|reflexivity].
  intros path H. injection H as <-. split; [refine (bool_decide_unpack _ _); vm_compute; exact I|simpl; lia].
Defined.

End ShellDemo.
