(* ===== verification/RvaDefs.v ===== *)
(** * The assembler's constants and structures: tools/assembler/rva.c, lines 20-288

    Error codes are the low 16 bits of a word whose high bits say on which passes
    the error may be ignored. *)

From S2P Require Import Prelude.

(* tools/assembler/rva.c:21-22 MAX_PASSES *)
Definition MAX_PASSES : Z := 20.
Definition SHRINK_STOP : Z := MAX_PASSES - 10.

(* tools/assembler/rva.c:28-33 SYM_TAB_HASH_BITS *)
Definition SYM_TAB_HASH_BITS : Z := 4.
Definition SYM_TAB_LIST_COUNT : Z := Z.shiftl 1 SYM_TAB_HASH_BITS.
Definition SYM_TAB_LIST_MASK : Z := SYM_TAB_LIST_COUNT - 1.
Definition SYM_NAME_MAX : Z := 32.
Definition LINE_LENGTH : Z := 256.

(* tools/assembler/rva.c:35-47 SYM_REC_DEF_FLAG *)
Definition SYM_TAB_CASE_FLAG : Z := 1.
Definition SYM_TAB_EXPORT_FLAG : Z := 2.
Definition SYM_REC_DEF_FLAG : Z := 256.                      (* 0x0100 *)
Definition SYM_REC_EXPORT_FLAG : Z := 512.                   (* 0x0200 *)
Definition SYM_REC_EQU_FLAG : Z := 1024.                     (* 0x0400 *)
Definition SYM_REC_USR_FLAG : Z := 2048.                     (* 0x0800 *)
Definition SYM_REC_EQUATED : Z := Z.lor SYM_REC_EQU_FLAG SYM_REC_USR_FLAG.
Definition SYM_REC_THUMB_FLAG : Z := 4096.                   (* 0x1000 *)
Definition SYM_REC_DATA_FLAG : Z := 8192.                    (* 0x2000 *)

(* tools/assembler/rva.c:49-52 ALLOW_ON_FIRST_PASS *)
Definition ALLOW_ON_FIRST_PASS : Z := 65536.                 (* 0x00010000 *)
Definition ALLOW_ON_INTER_PASS : Z := 131072.                (* 0x00020000 *)
Definition WARNING_ONLY : Z := 262144.                       (* 0x00040000 *)
Definition ALL_EXCEPT_LAST_PASS : Z := Z.lor ALLOW_ON_FIRST_PASS ALLOW_ON_INTER_PASS.

(* tools/assembler/rva.c:54-99 SYM_ERR_SYNTAX *)
Definition SYM_NO_ERROR : Z := 0.
Definition SYM_ERR_SYNTAX : Z := 256.                        (* 0x0100 *)
Definition SYM_BAD_REG : Z := 1024.                          (* 0x0400 *)
Definition SYM_NO_COMMA_LBR : Z := 1536.                     (* 0x0600 *)
Definition SYM_OORANGE : Z := Z.lor 2048 ALL_EXCEPT_LAST_PASS.          (* 0x0800 *)
Definition SYM_NO_COMMA : Z := 2816.                         (* 0x0B00 *)
Definition SYM_NO_TABLE : Z := 3072.                         (* 0x0C00 *)
Definition SYM_GARBAGE : Z := 3328.                           (* 0x0D00 *)
Definition SYM_NO_LBR : Z := 4352.                           (* 0x1100 *)
Definition SYM_NO_RBR : Z := 4608.                           (* 0x1200 *)
Definition SYM_ADDR_MODE_ERR : Z := 4864.                    (* 0x1300 *)
Definition SYM_OFFSET_TOO_BIG : Z := Z.lor 5632 ALL_EXCEPT_LAST_PASS.   (* 0x1600 *)
Definition SYM_MISALIGNED : Z := Z.lor 7936 ALL_EXCEPT_LAST_PASS.       (* 0x1F00 *)
Definition SYM_OORANGE_BRANCH : Z := Z.lor 8192 ALL_EXCEPT_LAST_PASS.   (* 0x2000 *)
Definition SYM_UNALIGNED_BRANCH : Z := Z.lor 8448 ALL_EXCEPT_LAST_PASS. (* 0x2100 *)

(* tools/assembler/rva.c:105-117 eval_okay *)
Definition eval_okay : Z := SYM_NO_ERROR.
Definition eval_no_operand : Z := 12288.                     (* 0x3000 *)
Definition eval_no_operator : Z := 12544.                    (* 0x3100 *)
Definition eval_not_closebr : Z := 12800.                    (* 0x3200 *)
Definition eval_not_openbr : Z := 13056.                     (* 0x3300 *)
Definition eval_mathstack_limit : Z := 13312.                (* 0x3400 *)
Definition eval_no_label : Z := Z.lor 13568 ALLOW_ON_FIRST_PASS.        (* 0x3500 *)
Definition eval_label_undef : Z := Z.lor 13824 ALL_EXCEPT_LAST_PASS.    (* 0x3600 *)
Definition eval_out_of_radix : Z := 14080.                   (* 0x3700 *)
Definition eval_div_by_zero : Z := Z.lor 14336 ALL_EXCEPT_LAST_PASS.    (* 0x3800 *)
Definition eval_operand_error : Z := 14592.                  (* 0x3900 *)
Definition eval_bad_loc_lab : Z := 14848.                    (* 0x3A00 *)

(** Operator codes. *)
(* tools/assembler/rva.c:122-147 MATHSTACK_SIZE *)
Definition MATHSTACK_SIZE : Z := 20.
Definition PLUS : Z := 0.
Definition MINUS : Z := 1.
Definition NOT : Z := 2.
Definition MULTIPLY : Z := 3.
Definition DIVIDE : Z := 4.
Definition MODULUS : Z := 5.
Definition CLOSEBR : Z := 6.
Definition LEFT_SHIFT : Z := 7.
Definition RIGHT_SHIFT : Z := 8.
Definition AND : Z := 9.
Definition OR : Z := 10.
Definition XOR : Z := 11.
Definition EQUALS : Z := 12.
Definition NOT_EQUAL : Z := 13.
Definition LOWER_THAN : Z := 14.
Definition LOWER_EQUAL : Z := 15.
Definition HIGHER_THAN : Z := 16.
Definition HIGHER_EQUAL : Z := 17.
Definition LESS_THAN : Z := 18.
Definition LESS_EQUAL : Z := 19.
Definition GREATER_THAN : Z := 20.
Definition GREATER_EQUAL : Z := 21.
Definition LOG : Z := 22.
Definition END : Z := 23.

(* tools/assembler/rva.c:192-194 label_type *)
Inductive label_type : Type := NO_LABEL | MAYBE_SYMBOL | SYMBOL | LOCAL_LABEL.
(* tools/assembler/rva.c:193-193 label_category *)
Inductive label_category : Type := ALL | EXPORTED | DEFINED | UNDEFINED.
(* tools/assembler/rva.c:194-194 label_sort *)
Inductive label_sort : Type := ALPHABETIC | VALUE | DEFINITION | FOR_ELF.

#[export] Instance label_category_eq_dec : EqDecision label_category.
Proof. solve_decision. Defined.
#[export] Instance label_type_eq_dec : EqDecision label_type.
Proof. solve_decision. Defined.

(* tools/assembler/rva.c:196-201 defn_return *)
Inductive defn_return : Type :=
| SYM_REC_ADDED | SYM_REC_DEFINED | SYM_REC_REDEFINED | SYM_REC_UNCHANGED | SYM_REC_ERROR.

(** A symbol record. [sr_value] is the 32-bit pattern of the value; [sr_name] holds
    the 32 characters of the name field. *)
(* tools/assembler/rva.c:205-216 sym_record *)
Record sym_record : Type := SymRecord {
  sr_pNext : Z;
  sr_count : Z;
  sr_hash : Z;
  sr_flags : Z;
  sr_identifier : Z;
  sr_elf_section : Z;
  sr_value : Z;
  sr_name : list Z;
}.

(* tools/assembler/rva.c:218-225 sym_table *)
Record sym_table : Type := SymTable {
  st_name : list Z;
  st_symbol_number : Z;
  st_flags : Z;
  st_pList : list Z;
}.

(** A local label; the list is kept in both directions. *)
(* tools/assembler/rva.c:234-242 local_label *)
Record local_label : Type := LocalLabel {
  ll_label : Z;
  ll_value : Z;
  ll_flags : Z;
}.

(* tools/assembler/rva.c:4623-4627 allow_error *)
Definition allow_error (error_code : Z) (first_pass last_pass : bool) : bool :=
  (negb last_pass && truthy (Z.land error_code ALLOW_ON_INTER_PASS)) ||
  (first_pass && truthy (Z.land error_code ALLOW_ON_FIRST_PASS)).
