(* ===== verification/RvaLex.v ===== *)
(** * The assembler's scanning functions: tools/assembler/rva.c, lines 4460-4618

    A source line is the array of its characters, as unsigned bytes, up to and
    including a NUL; an index past the array is undefined behaviour. The fuel of the
    loops is the length of the array: each round moves one character on. *)

From S2P Require Import Prelude RvaDefs.

(** ** The code *)

(* tools/assembler/rva.c:4460-4464 skip_spc *)
Fixpoint skip_spc_loop (fuel : nat) (line : list Z) (position : Z) : res Z :=
  match fuel with
  | O => NoFuel
  | S fuel =>
      let* c := zget line position in
      if ((c =? 32) || (c =? 9))%bool then skip_spc_loop fuel line (position + 1) else Ok position
  end.

(* tools/assembler/rva.c:4460-4464 skip_spc *)
Definition skip_spc (line : list Z) (position : Z) : res Z := skip_spc_loop (S (length line)) line position.

(** Strings without their terminator. *)
(* tools/assembler/rva.c:4476-4477 file_path *)
Fixpoint file_path_loop (position : nat) (filename : list Z) : nat :=
  match position with
  | O => O
  | S p => if znth 0 filename (Z.of_nat p) =? 47 then position else file_path_loop p filename
  end.

(* tools/assembler/rva.c:4471-4489 file_path *)
Definition file_path (filename : list Z) : list Z :=
  take (file_path_loop (length filename) filename) filename.

(* tools/assembler/rva.c:4494-4503 pathname *)
Definition pathname (name1 name2 : list Z) : list Z := name1 ++ name2.

(** The result is the answer and the new position. *)
(* tools/assembler/rva.c:4509-4517 cmp_next_non_space *)
Definition cmp_next_non_space (line : list Z) (pos offset character : Z) : res (bool * Z) :=
  let* p := skip_spc line (pos + offset) in
  let* c := zget line p in
  Ok (if c =? character then (true, p + 1) else (false, p)).

(* tools/assembler/rva.c:4522-4523 test_eol *)
Definition test_eol (character : Z) : bool := (character =? 0) || (character =? 59) || (character =? 10).

(* tools/assembler/rva.c:4550-4553 alphabetic *)
Definition alphabetic (c : Z) : bool :=
  (c =? 95) || ((65 <=? c) && (c <=? 90)) || ((97 <=? c) && (c <=? 122)).

(* tools/assembler/rva.c:4543-4546 alpha_numeric *)
Definition alpha_numeric (c : Z) : bool :=
  ((48 <=? c) && (c <=? 57)) || alphabetic c || (c =? 46).

(** [i] characters have been taken; at most [max_length - 1] are. *)
(* tools/assembler/rva.c:4534-4535 get_identifier *)
Fixpoint get_identifier_loop (fuel : nat) (line : list Z) (position : Z) (i max_length : Z) : res (list Z) :=
  match fuel with
  | O => NoFuel
  | S fuel =>
      let* c := zget line position in
      if (alpha_numeric c && (i <? max_length - 1))%bool then
        let* l := get_identifier_loop fuel line (position + 1) (i + 1) max_length in Ok (c :: l)
      else Ok []
  end.

(** The characters put in the buffer; their number is the result in C. *)
(* tools/assembler/rva.c:4527-4539 get_identifier *)
Definition get_identifier (line : list Z) (position max_length : Z) : res (list Z) :=
  let* c := zget line position in
  if alphabetic c then get_identifier_loop (S (length line)) line position 0 max_length else Ok [].

(* tools/assembler/rva.c:4559-4579 c_char_esc *)
Definition c_char_esc (c : Z) : Z :=
  if c =? 48 then 0            (* '0' *)
  else if c =? 97 then 7       (* 'a' *)
  else if c =? 98 then 8       (* 'b' *)
  else if c =? 102 then 12     (* 'f' *)
  else if c =? 110 then 10     (* 'n' *)
  else if c =? 114 then 13     (* 'r' *)
  else if c =? 116 then 9      (* 't' *)
  else if c =? 118 then 11     (* 'v' *)
  else c.

(** The value of a digit, or -1; [c >= 'A' + radix - 10] is an unsigned comparison. *)
(* tools/assembler/rva.c:4593-4599 num_char *)
Definition digit_value (c radix : Z) : Z :=
  if c <? 48 then -1
  else
    let c := if 97 <=? c then Z.land c 223 else c in
    if c <=? 57 then (if c <? 48 + radix then c - 48 else -1)
    else if c <? 65 then -1
    else if c <? u32 (65 + radix - 10) then c - 65 + 10 else -1.

(* tools/assembler/rva.c:4592-4592 num_char *)
Fixpoint skip_underscores (fuel : nat) (line : list Z) (pos : Z) : res Z :=
  match fuel with
  | O => NoFuel
  | S fuel => let* c := zget line pos in if c =? 95 then skip_underscores fuel line (pos + 1) else Ok pos
  end.

(* tools/assembler/rva.c:4588-4600 num_char *)
Definition num_char (line : list Z) (pos radix : Z) : res (Z * Z) :=
  let* pos := skip_underscores (S (length line)) line pos in
  let* c := zget line pos in
  Ok (digit_value c radix, pos).

(** [value] is the 32-bit pattern of the C [int]: the product is unsigned. *)
(* tools/assembler/rva.c:4609-4614 get_num *)
Fixpoint get_num_loop (fuel : nat) (line : list Z) (i radix value : Z) (found : bool) : res (bool * Z * Z) :=
  match fuel with
  | O => NoFuel
  | S fuel =>
      let* (new_digit, i) := num_char line i radix in
      if 0 <=? new_digit then get_num_loop fuel line (i + 1) radix (u32 (value * radix + new_digit)) true
      else Ok (found, value, i)
  end.

(** Whether a number was read, its value, and the new position. *)
(* tools/assembler/rva.c:4585-4618 get_num *)
Definition get_num (line : list Z) (position radix : Z) : res (bool * Z * Z) :=
  let* i := skip_spc line position in
  let* (found, value, i) := get_num_loop (S (length line)) line i radix 0 false in
  Ok (found, value, if found then i else position).

(** ** Lemmas *)

Definition is_blank (c : Z) : Prop := c = 32 \/ c = 9.

Lemma zget_mid {A} (pre : list A) c l p : p = Z.of_nat (length pre) -> zget (pre ++ c :: l) p = Ok c.
Proof.
  intros ->. unfold zget. replace (Z.of_nat (length pre) <? 0) with false by (symmetry; apply Z.ltb_ge; lia).
  rewrite Nat2Z.id, list_lookup_middle; reflexivity.
Qed.

Lemma skip_spc_loop_spec sp : forall fuel pre c l, Forall is_blank sp -> ~ is_blank c -> (length sp < fuel)%nat ->
  skip_spc_loop fuel (pre ++ sp ++ c :: l) (Z.of_nat (length pre)) = Ok (Z.of_nat (length pre + length sp)).
Proof.
  induction sp as [|s sp IH]; intros fuel pre c l Hsp Hc Hf; (destruct fuel; [simpl in Hf; lia|]); cbn [skip_spc_loop].
  - rewrite app_nil_l, zget_mid by reflexivity. cbn [rbind]. unfold is_blank in Hc.
    replace ((c =? 32) || (c =? 9))%bool with false.
    + simpl. f_equal. lia.
    + symmetry. apply orb_false_iff. split; apply Z.eqb_neq; lia.
  - apply Forall_cons in Hsp as [Hs Hsp]. rewrite <- app_comm_cons, zget_mid by reflexivity. cbn [rbind].
    replace ((s =? 32) || (s =? 9))%bool with true.
    + replace (pre ++ s :: sp ++ c :: l) with ((pre ++ [s]) ++ sp ++ c :: l) by (rewrite <- app_assoc; reflexivity).
      replace (Z.of_nat (length pre) + 1) with (Z.of_nat (length (pre ++ [s]))) by (rewrite length_app; simpl; lia).
      rewrite IH; [|exact Hsp|exact Hc|simpl in Hf; lia]. rewrite length_app. simpl. f_equal. lia.
    + symmetry. apply orb_true_iff. destruct Hs as [-> | ->]; auto.
Qed.

(** [skip_spc] stops at the first character that is not a blank. *)
Lemma skip_spc_spec pre sp c l : Forall is_blank sp -> ~ is_blank c ->
  skip_spc (pre ++ sp ++ c :: l) (Z.of_nat (length pre)) = Ok (Z.of_nat (length pre + length sp)).
Proof. intros. apply skip_spc_loop_spec; auto. rewrite !length_app. simpl. lia. Qed.

Lemma digit_value_digit d radix : 0 <= d < 10 -> d < radix -> digit_value (48 + d) radix = d.
Proof.
  intros Hd Hr. unfold digit_value.
  replace (48 + d <? 48) with false by (symmetry; apply Z.ltb_ge; lia).
  replace (97 <=? 48 + d) with false by (symmetry; apply Z.leb_gt; lia).
  replace (48 + d <=? 57) with true by (symmetry; apply Z.leb_le; lia).
  replace (48 + d <? 48 + radix) with true by (symmetry; apply Z.ltb_lt; lia). lia.
Qed.

(** The character the assembler's listings print for a digit. *)
Definition digit_char (d : Z) : Z := if d <? 10 then 48 + d else 55 + d.

Lemma digit_value_char d radix : 0 <= d < radix -> 2 <= radix <= 16 -> digit_value (digit_char d) radix = d.
Proof.
  intros Hd Hr. unfold digit_char. destruct (Z.ltb_spec d 10); [apply digit_value_digit; lia|].
  unfold digit_value.
  replace (55 + d <? 48) with false by (symmetry; apply Z.ltb_ge; lia).
  replace (97 <=? 55 + d) with false by (symmetry; apply Z.leb_gt; lia).
  replace (55 + d <=? 57) with false by (symmetry; apply Z.leb_gt; lia).
  replace (55 + d <? 65) with false by (symmetry; apply Z.ltb_ge; lia).
  rewrite u32_id by lia.
  replace (55 + d <? 65 + radix - 10) with true by (symmetry; apply Z.ltb_lt; lia). lia.
Qed.

(** The number written by the digits [ds], most significant first, after [v]. *)
Definition number (radix : Z) (ds : list Z) (v : Z) : Z := fold_left (fun v d => v * radix + d) ds v.

Lemma number_u32 radix ds : forall v w, u32 v = u32 w -> u32 (number radix ds v) = u32 (number radix ds w).
Proof.
  induction ds as [|d ds IH]; simpl; intros v w H; [exact H|]. apply IH.
  rewrite <- (u32_add_u32_l (v * radix)), <- (u32_add_u32_l (w * radix)).
  rewrite <- (u32_mul_u32_l v), <- (u32_mul_u32_l w), H. reflexivity.
Qed.

(** The text of a number: digits with underscores anywhere between and before them. *)
Inductive numeral (radix : Z) : list Z -> list Z -> Prop :=
| numeral_nil us : Forall (fun c => c = 95) us -> numeral radix us []
| numeral_digit us d s ds : Forall (fun c => c = 95) us -> 0 <= d < radix -> numeral radix s ds ->
    numeral radix (us ++ digit_char d :: s) (d :: ds).

Lemma skip_underscores_spec us : forall fuel pre c l, Forall (fun c => c = 95) us -> c <> 95 ->
  (length us < fuel)%nat ->
  skip_underscores fuel (pre ++ us ++ c :: l) (Z.of_nat (length pre)) = Ok (Z.of_nat (length pre + length us)).
Proof.
  induction us as [|u us IH]; intros fuel pre c l Hu Hc Hf; (destruct fuel; [simpl in Hf; lia|]); cbn [skip_underscores].
  - rewrite app_nil_l, zget_mid by reflexivity. cbn [rbind].
    replace (c =? 95) with false by (symmetry; apply Z.eqb_neq; exact Hc). simpl. f_equal. lia.
  - apply Forall_cons in Hu as [-> Hu]. rewrite <- app_comm_cons, zget_mid by reflexivity. cbn [rbind].
    change (95 =? 95) with true. cbv iota.
    replace (pre ++ 95 :: us ++ c :: l) with ((pre ++ [95]) ++ us ++ c :: l) by (rewrite <- app_assoc; reflexivity).
    replace (Z.of_nat (length pre) + 1) with (Z.of_nat (length (pre ++ [95]))) by (rewrite length_app; simpl; lia).
    rewrite IH; [|exact Hu|exact Hc|simpl in Hf; lia]. rewrite length_app. simpl. f_equal. lia.
Qed.

Lemma digit_char_not_underscore d : 0 <= d < 16 -> digit_char d <> 95.
Proof. unfold digit_char. destruct (Z.ltb_spec d 10); lia. Qed.

Lemma get_num_loop_spec radix s ds (Hr : 2 <= radix <= 16) (Hn : numeral radix s ds) :
  forall fuel pre c l v found, digit_value c radix < 0 -> c <> 95 -> (length ds < fuel)%nat ->
  get_num_loop fuel (pre ++ s ++ c :: l) (Z.of_nat (length pre)) radix (u32 v) found =
    Ok (match ds with [] => found | _ => true end, u32 (number radix ds v), Z.of_nat (length pre + length s)).
Proof.
  induction Hn as [us Hu|us d s ds Hu Hd Hn IH]; intros fuel pre c l v found Hc Hc95 Hf;
    (destruct fuel; [simpl in Hf; lia|]); cbn [get_num_loop]; unfold num_char.
  - rewrite skip_underscores_spec by (auto; rewrite !length_app; simpl; lia). cbn [rbind].
    rewrite app_assoc, zget_mid by (rewrite length_app; reflexivity). cbn [rbind].
    replace (0 <=? digit_value c radix) with false by (symmetry; apply Z.leb_gt; exact Hc). reflexivity.
  - replace (pre ++ (us ++ digit_char d :: s) ++ c :: l) with (pre ++ us ++ digit_char d :: s ++ c :: l)
      by (rewrite <- !app_assoc; reflexivity).
    rewrite skip_underscores_spec; [|exact Hu|apply digit_char_not_underscore; lia|rewrite !length_app; simpl; lia].
    cbn [rbind]. rewrite app_assoc, zget_mid by (rewrite length_app; reflexivity). cbn [rbind].
    rewrite digit_value_char by lia. replace (0 <=? d) with true by (symmetry; apply Z.leb_le; lia).
    replace ((pre ++ us) ++ digit_char d :: s ++ c :: l) with ((pre ++ us ++ [digit_char d]) ++ s ++ c :: l)
      by (rewrite <- !app_assoc; reflexivity).
    replace (Z.of_nat (length pre + length us) + 1) with (Z.of_nat (length (pre ++ us ++ [digit_char d])))
      by (rewrite !length_app; simpl; lia).
    replace (u32 (u32 v * radix + d)) with (u32 (v * radix + d))
      by (rewrite <- (u32_add_u32_l (u32 v * radix)), u32_mul_u32_l, u32_add_u32_l; reflexivity).
    rewrite (IH fuel (pre ++ us ++ [digit_char d]) c l (v * radix + d) true Hc Hc95 ltac:(simpl in Hf; lia)).
    cbn [number fold_left].
    replace (length (pre ++ us ++ [digit_char d]) + length s)%nat with (length pre + length (us ++ digit_char d :: s))%nat
      by (rewrite !length_app; simpl; lia).
    destruct ds; reflexivity.
Qed.

Lemma numeral_length radix s ds : numeral radix s ds -> (length ds <= length s)%nat.
Proof. induction 1; [simpl; lia|]. rewrite length_app. simpl. lia. Qed.

Lemma numeral_head radix s ds c l : 2 <= radix <= 16 -> numeral radix s ds -> ~ is_blank c ->
  exists h t, s ++ c :: l = h :: t /\ ~ is_blank h.
Proof.
  unfold is_blank. intros Hr Hn Hc. destruct Hn as [[|u us] Hu|[|u us] d s ds Hu Hd Hn]; cbn.
  - eauto.
  - apply Forall_cons in Hu as [-> _]. eexists _, _. split; [reflexivity|]. lia.
  - eexists _, _. split; [reflexivity|]. unfold digit_char. destruct (Z.ltb_spec d 10); lia.
  - apply Forall_cons in Hu as [-> _]. eexists _, _. split; [reflexivity|]. lia.
Qed.

Lemma get_identifier_loop_spec w : forall fuel pre i max l, Forall (fun c => alpha_numeric c = true) w ->
  (length w < fuel)%nat -> i + Z.of_nat (length w) <= max - 1 ->
  (i + Z.of_nat (length w) = max - 1 \/ exists c l', l = c :: l' /\ alpha_numeric c = false) -> l <> [] ->
  get_identifier_loop fuel (pre ++ w ++ l) (Z.of_nat (length pre)) i max = Ok w.
Proof.
  induction w as [|c w IH]; intros fuel pre i max l Hw Hf Hi Hend Hl; (destruct fuel; [simpl in Hf; lia|]);
    cbn [get_identifier_loop].
  - destruct l as [|c l]; [contradiction|]. rewrite app_nil_l, zget_mid by reflexivity. cbn [rbind].
    replace (alpha_numeric c && (i <? max - 1))%bool with false; [reflexivity|].
    symmetry. apply andb_false_iff. destruct Hend as [He|(c' & l' & [= -> ->] & He)]; [right|left; exact He].
    apply Z.ltb_ge. simpl in He. lia.
  - apply Forall_cons in Hw as [Hc Hw]. rewrite <- app_comm_cons, zget_mid by reflexivity. cbn [rbind].
    rewrite Hc. simpl length in *. replace (i <? max - 1) with true by (symmetry; apply Z.ltb_lt; lia). cbn [andb].
    replace (pre ++ c :: w ++ l) with ((pre ++ [c]) ++ w ++ l) by (rewrite <- app_assoc; reflexivity).
    replace (Z.of_nat (length pre) + 1) with (Z.of_nat (length (pre ++ [c]))) by (rewrite length_app; simpl; lia).
    rewrite IH; [reflexivity|exact Hw|lia|lia| |exact Hl].
    destruct Hend as [He|He]; [left; lia|right; exact He].
Qed.

(** ** Properties *)

(** [get_num] reads a numeral of any radix from 2 to 16, blanks before it and
    underscores inside it ignored, as its value modulo 2^32, and moves to the first
    character that is not a digit; it reports that nothing was read, and does not
    move, exactly when there is no digit. *)
Theorem get_num_numeral radix pre sp s ds c l : 2 <= radix <= 16 -> numeral radix s ds ->
  Forall is_blank sp -> ~ is_blank c -> digit_value c radix < 0 -> c <> 95 ->
  get_num (pre ++ sp ++ s ++ c :: l) (Z.of_nat (length pre)) radix =
  Ok (match ds with [] => false | _ => true end, u32 (number radix ds 0),
      Z.of_nat (length pre + match ds with [] => 0 | _ => length sp + length s end)).
Proof.
  intros Hr Hn Hsp Hcb Hc Hc95. unfold get_num.
  destruct (numeral_head radix s ds c l Hr Hn Hcb) as (h & t & Eh & Hh).
  rewrite Eh, (skip_spc_spec pre sp h t Hsp Hh), <- Eh. cbn [rbind].
  pose proof (numeral_length _ _ _ Hn) as Hlen.
  set (fuel := S (length (pre ++ sp ++ s ++ c :: l))).
  pose proof (get_num_loop_spec radix s ds Hr Hn fuel (pre ++ sp) c l 0 false
    Hc Hc95 ltac:(subst fuel; rewrite !length_app; lia)) as E.
  rewrite <- app_assoc, (length_app pre sp) in E. change (u32 0) with 0 in E. rewrite E. cbn [rbind].
  destruct ds; [rewrite Nat.add_0_r|rewrite Nat.add_assoc]; reflexivity.
Qed.

(** [get_identifier] returns the longest run of letters, digits, underscores and
    dots that starts with a letter or underscore, cut to the size of the buffer, and
    nothing when the position does not start one. *)
Theorem get_identifier_longest pre w l max : Forall (fun c => alpha_numeric c = true) w -> l <> [] ->
  Z.of_nat (length w) <= max - 1 ->
  (Z.of_nat (length w) = max - 1 \/ exists c l', l = c :: l' /\ alpha_numeric c = false) ->
  get_identifier (pre ++ w ++ l) (Z.of_nat (length pre)) max =
    Ok (match w with c :: _ => if alphabetic c then w else [] | [] => [] end).
Proof.
  intros Hw Hl Hmax Hend. unfold get_identifier.
  destruct w as [|c w].
  - destruct l as [|c l]; [contradiction|]. rewrite app_nil_l, zget_mid by reflexivity. cbn [rbind].
    destruct (alphabetic c) eqn:Ec; [|reflexivity].
    pose proof (get_identifier_loop_spec [] (S (length (pre ++ c :: l))) pre 0 max (c :: l) Hw
      ltac:(simpl; lia) ltac:(simpl in *; lia) Hend Hl) as E. exact E.
  - rewrite <- app_comm_cons, zget_mid by reflexivity. cbn [rbind].
    destruct (alphabetic c); [|reflexivity].
    apply (get_identifier_loop_spec (c :: w) _ pre 0 max l Hw); try assumption.
    rewrite length_app, app_comm_cons, length_app. simpl. lia.
Qed.

Lemma file_path_loop_spec f n : (n <= length f)%nat ->
  (file_path_loop n f <= n)%nat /\
  (file_path_loop n f = 0%nat \/ f !! pred (file_path_loop n f) = Some 47) /\
  (forall k, (file_path_loop n f <= k < n)%nat -> f !! k <> Some 47).
Proof.
  induction n as [|n IH]; intros Hn; cbn [file_path_loop]; [split; [lia|split; [left; reflexivity|lia]]|].
  destruct (lookup_lt_is_Some_2 f n ltac:(lia)) as [c Hc].
  assert (Hz : znth 0 f (Z.of_nat n) = c).
  { unfold znth. replace (Z.of_nat n <? 0) with false by (symmetry; apply Z.ltb_ge; lia).
    rewrite Nat2Z.id, Hc. reflexivity. }
  rewrite Hz. destruct (Z.eqb_spec c 47) as [->|Hne].
  - split; [lia|]. split; [right; exact Hc|lia].
  - destruct IH as (H1 & H2 & H3); [lia|]. split; [lia|]. split; [exact H2|].
    intros k Hk. destruct (decide (k = n)) as [->|]; [congruence|]. apply H3. lia.
Qed.

(** [file_path] splits a file name at its last slash: what it returns is empty or
    ends in a slash, and joined by [pathname] with a rest that has no slash it gives
    the name back. *)
Theorem file_path_split f : exists base,
  pathname (file_path f) base = f /\ 47 ∉ base /\ (file_path f = [] \/ last (file_path f) = Some 47).
Proof.
  destruct (file_path_loop_spec f (length f) ltac:(lia)) as (H1 & H2 & H3).
  set (n := file_path_loop (length f) f) in *.
  exists (drop n f). unfold pathname, file_path. fold n. split; [apply take_drop|]. split.
  - intros Hin. apply list_elem_of_lookup in Hin as [k Hk]. rewrite lookup_drop in Hk.
    pose proof (lookup_lt_Some _ _ _ Hk). apply (H3 (n + k)%nat); [lia|exact Hk].
  - destruct H2 as [-> | H2]; [left; reflexivity|]. destruct n as [|n]; [left; reflexivity|right].
    simpl in H2. rewrite last_lookup, length_take. replace (pred (S n `min` length f)) with n by lia.
    rewrite lookup_take_lt by lia. exact H2.
Qed.

(** ** The properties at concrete inputs *)

Module RvaLexWitness.

(** "  1_F)" in radix 16. *)
Lemma get_num_numeral_witness : get_num ([32; 32; 49; 95; 70] ++ [41; 0]) 0 16 = Ok (true, 31, 5).
Proof.
  apply (get_num_numeral 16 [] [32; 32] [49; 95; 70] [1; 15] 41 [0]); try lia.
  - apply (numeral_digit 16 [] 1 [95; 70] [15]); [constructor|lia|].
    apply (numeral_digit 16 [95] 15 [] []); [repeat constructor|lia|].
    apply numeral_nil. constructor.
  - repeat constructor; unfold is_blank; auto.
  - unfold is_blank. lia.
  - vm_compute. reflexivity.
Defined.

Lemma get_identifier_longest_witness : get_identifier [43; 95; 97; 46; 49; 32; 0] 1 32 = Ok [95; 97; 46; 49].
Proof.
  apply (get_identifier_longest [43] [95; 97; 46; 49] [32; 0] 32);
    [repeat constructor|discriminate|simpl; lia|]. right. exists 32, [0]. split; reflexivity.
Defined.

End RvaLexWitness.
