(* ===== verification/RvaSym.v ===== *)
(** * The assembler's symbol tables: tools/assembler/rva.c, lines 3359-3878

    A table has 16 lists of records, chosen by the low bits of a hash of the name.
    Records live in a store keyed by address, [sh_next] being the next address
    [malloc] returns; [malloc] does not fail here, and a fresh record holds whatever
    was in memory ([junk]). A table is passed by value and handed back when changed;
    a freed record is gone from the store, so a dangling access is undefined. *)

From S2P Require Import Prelude RvaDefs.

(** ** The code *)

Record sym_heap : Type := SymHeap { sh_recs : gmap Z sym_record; sh_next : Z }.

Definition get_rec (h : sym_heap) (p : Z) : res sym_record := of_option (sh_recs h !! p).
Definition put_rec (h : sym_heap) (p : Z) (r : sym_record) : sym_heap := SymHeap (<[p := r]> (sh_recs h)) (sh_next h).

(** [char] is signed where the assembler runs. *)
Definition s8 (c : Z) : Z := if c <? 128 then c else c - 256.

(* tools/assembler/rva.c:3359-3385 sym_create_table *)
Definition sym_create_table (name : list Z) (flags : Z) : sym_table :=
  SymTable name 0 flags (replicate (Z.to_nat SYM_TAB_LIST_COUNT) 0).

(** One character of the hash. *)
(* tools/assembler/rva.c:3688-3688 sym_string_copy *)
Definition hash_step (hash c : Z) : Z :=
  u32 (Z.lxor (u32 (Z.shiftl hash 5)) (Z.shiftr hash 11) + s8 c).

(* tools/assembler/rva.c:3684-3684 sym_string_copy *)
Definition fold_case (case_insensitive : bool) (c : Z) : Z :=
  if (case_insensitive && (97 <=? c) && (c <=? 122))%bool then Z.land c 223 else c.

(** The name field, the count and the hash after the loop. *)
(* tools/assembler/rva.c:3680-3690 sym_string_copy *)
Fixpoint string_copy_loop (string : list Z) (case_insensitive : bool) (name : list Z) (count hash : Z)
  : list Z * Z * Z :=
  match string with
  | [] => (name, count, hash)
  | c :: string =>
      let c := fold_case case_insensitive c in
      let name := if count <? SYM_NAME_MAX then <[Z.to_nat count := c]> name else name in
      string_copy_loop string case_insensitive name (count + 1) (hash_step hash c)
  end.

(* tools/assembler/rva.c:3672-3696 sym_string_copy *)
Definition sym_string_copy (string : list Z) (record : sym_record) (table_flags : Z) : sym_record :=
  let case_insensitive := truthy (Z.land table_flags SYM_TAB_CASE_FLAG) in
  let '(name, count, hash) := string_copy_loop string case_insensitive (sr_name record) 0 0 in
  SymRecord (sr_pNext record) count hash (sr_flags record) (sr_identifier record)
    (sr_elf_section record) (sr_value record) name.

Section Sym.

Context (junk : Z -> sym_record).

(* tools/assembler/rva.c:3550-3567 sym_create_record *)
Definition sym_create_record (name : list Z) (value flags global_flags : Z) (h : sym_heap) : Z * sym_heap :=
  let p := sh_next h in
  let r := sym_string_copy name (junk p) global_flags in
  (p, SymHeap (<[p := SymRecord 0 (sr_count r) (sr_hash r) flags (sr_identifier r) (sr_elf_section r) value (sr_name r)]>
        (sh_recs h)) (p + 1)).

(* tools/assembler/rva.c:3606-3610 sym_delete_record *)
Definition sym_delete_record (old_record : Z) (h : sym_heap) : sym_heap :=
  SymHeap (delete old_record (sh_recs h)) (sh_next h).

(** The comparison of two names, [n] characters of them left, from index [i]. *)
(* tools/assembler/rva.c:3654-3658 sym_find_record *)
Fixpoint same_name (n : nat) (a b : list Z) (i : Z) : res bool :=
  match n with
  | O => Ok true
  | S n =>
      let* x := zget a i in
      let* y := zget b i in
      if x =? y then same_name n a b (i + 1) else Ok false
  end.

(* tools/assembler/rva.c:3648-3661 sym_find_record *)
Fixpoint find_loop (fuel : nat) (h : sym_heap) (record : sym_record) (ptr : Z) : res Z :=
  match fuel with
  | O => NoFuel
  | S fuel =>
      if ptr =? 0 then Ok 0
      else
        let* r := get_rec h ptr in
        let* found :=
          (if ((sr_hash r =? sr_hash record) && (sr_count r =? sr_count record))%bool
           then same_name (Z.to_nat (sr_count r)) (sr_name r) (sr_name record) 0 else Ok false) in
        if found : bool then Ok ptr else find_loop fuel h record (sr_pNext r)
  end.

Definition list_fuel (h : sym_heap) : nat := S (size (sh_recs h)).

(** The list a hash selects. *)
Definition bucket (hash : Z) : Z := Z.land hash SYM_TAB_LIST_MASK.

(* tools/assembler/rva.c:3637-3666 sym_find_record *)
Definition sym_find_record (table : sym_table) (record : Z) (h : sym_heap) : res Z :=
  let* r := get_rec h record in
  let* head := zget (st_pList table) (bucket (sr_hash r)) in
  find_loop (list_fuel h) h r head.

(* tools/assembler/rva.c:3615-3631 sym_add_to_table *)
Definition sym_add_to_table (table : sym_table) (record : Z) (h : sym_heap) : res (sym_table * sym_heap) :=
  let* r := get_rec h record in
  let lst := bucket (sr_hash r) in
  let* head := zget (st_pList table) lst in
  let r := SymRecord head (sr_count r) (sr_hash r) (sr_flags r) (st_symbol_number table)
             (sr_elf_section r) (sr_value r) (sr_name r) in
  let* pList := zupd (st_pList table) lst record in
  Ok (SymTable (st_name table) (u32 (st_symbol_number table + 1)) (st_flags table) pList, put_rec h record r).

Definition with_value (r : sym_record) (flags value : Z) : sym_record :=
  SymRecord (sr_pNext r) (sr_count r) (sr_hash r) flags (sr_identifier r) (sr_elf_section r) value (sr_name r).

(** The action taken, the record, the table and the store. *)
(* tools/assembler/rva.c:3423-3465 sym_define_label *)
Definition sym_define_label (name : list Z) (value flags : Z) (table : sym_table) (h : sym_heap)
  : res (defn_return * Z * sym_table * sym_heap) :=
  let '(ptr1, h) := sym_create_record name value (Z.lor flags SYM_REC_DEF_FLAG) (st_flags table) h in
  let* ptr2 := sym_find_record table ptr1 h in
  if ptr2 =? 0 then
    let* (table, h) := sym_add_to_table table ptr1 h in
    Ok (SYM_REC_ADDED, ptr1, table, h)
  else
    let* r1 := get_rec h ptr1 in
    let* r2 := get_rec h ptr2 in
    let '(result, r2) :=
      if Z.land (sr_flags r2) SYM_REC_DEF_FLAG =? 0 then
        (SYM_REC_DEFINED, with_value r2 (Z.lor (sr_flags r2) SYM_REC_DEF_FLAG) (sr_value r1))
      else if negb (sr_value r2 =? sr_value r1) then
        (SYM_REC_REDEFINED, with_value r2 (sr_flags r2) (sr_value r1))
      else (SYM_REC_UNCHANGED, r2) in
    Ok (result, ptr2, table, sym_delete_record ptr1 (put_rec h ptr2 r2)).

(** When the label is new its record is returned, but not put in the table. *)
(* tools/assembler/rva.c:3478-3501 sym_locate_label *)
Definition sym_locate_label (name : list Z) (flags : Z) (table : sym_table) (h : sym_heap)
  : res (bool * Z * sym_heap) :=
  let '(ptr1, h) :=
    sym_create_record name 0 (Z.land flags (not32 SYM_REC_DEF_FLAG)) (st_flags table) h in
  let* ptr2 := sym_find_record table ptr1 h in
  if ptr2 =? 0 then Ok (false, ptr1, h) else Ok (true, ptr2, sym_delete_record ptr1 h).

(* tools/assembler/rva.c:3532-3540 sym_find_label *)
Definition sym_find_label (name : list Z) (table : sym_table) (h : sym_heap) : res (Z * sym_heap) :=
  let '(temp, h) := sym_create_record name 0 0 (st_flags table) h in
  let* result := sym_find_record table temp h in
  Ok (result, sym_delete_record temp h).

(** [None]: an item without a table. *)
(* tools/assembler/rva.c:3509-3524 sym_find_label_list *)
Fixpoint sym_find_label_list (name : list Z) (items : list (option sym_table)) (h : sym_heap) : res (Z * sym_heap) :=
  match items with
  | [] => Ok (0, h)
  | item :: items =>
      let* (result, h) := match item with Some table => sym_find_label name table h | None => Ok (0, h) end in
      if result =? 0 then sym_find_label_list name items h else Ok (result, h)
  end.

(** The new head of the list, and whether a record was kept. *)
(* tools/assembler/rva.c:3576-3601 sym_delete_record_list *)
Fixpoint sym_delete_record_list (fuel : nat) (ptr : Z) (export : bool) (h : sym_heap) : res (Z * bool * sym_heap) :=
  match fuel with
  | O => NoFuel
  | S fuel =>
      if ptr =? 0 then Ok (0, false, h)
      else
        let* r := get_rec h ptr in
        if (negb export || (Z.land (sr_flags r) SYM_REC_EXPORT_FLAG =? 0))%bool then
          sym_delete_record_list fuel (sr_pNext r) export (sym_delete_record ptr h)
        else
          let* (rest, _, h) := sym_delete_record_list fuel (sr_pNext r) export h in
          Ok (ptr, true, put_rec h ptr
            (SymRecord rest (sr_count r) (sr_hash r) (sr_flags r) (sr_identifier r) (sr_elf_section r)
               (sr_value r) (sr_name r)))
  end.

(* tools/assembler/rva.c:3403-3405 sym_delete_table *)
Fixpoint delete_lists (heads : list Z) (export : bool) (h : sym_heap) : res (list Z * bool * sym_heap) :=
  match heads with
  | [] => Ok ([], false, h)
  | p :: heads =>
      let* (p, k1, h) := sym_delete_record_list (list_fuel h) p export h in
      let* (heads, k2, h) := delete_lists heads export h in
      Ok (p :: heads, (k1 || k2)%bool, h)
  end.

(** [None]: the table itself was freed. *)
(* tools/assembler/rva.c:3395-3410 sym_delete_table *)
Definition sym_delete_table (old_table : sym_table) (export : bool) (h : sym_heap)
  : res (bool * option sym_table * sym_heap) :=
  if (export && truthy (Z.land (st_flags old_table) SYM_TAB_EXPORT_FLAG))%bool then Ok (true, Some old_table, h)
  else
    let* (heads, kept, h) := delete_lists (st_pList old_table) export h in
    Ok (kept, if kept then Some (SymTable (st_name old_table) (st_symbol_number old_table) (st_flags old_table) heads)
              else None, h).

(** The records of a list, as the loops over lists visit them. *)
(* tools/assembler/rva.c:3748-3754 sym_count_symbols *)
Fixpoint list_records (fuel : nat) (ptr : Z) (h : sym_heap) : res (list sym_record) :=
  match fuel with
  | O => NoFuel
  | S fuel =>
      if ptr =? 0 then Ok []
      else let* r := get_rec h ptr in let* rs := list_records fuel (sr_pNext r) h in Ok (r :: rs)
  end.

Fixpoint table_records (heads : list Z) (h : sym_heap) : res (list sym_record) :=
  match heads with
  | [] => Ok []
  | p :: heads =>
      let* rs := list_records (list_fuel h) p h in
      let* rest := table_records heads h in Ok (rs ++ rest)
  end.

(* tools/assembler/rva.c:3739-3758 sym_count_symbols *)
Definition sym_count_symbols (table : sym_table) (what : label_category) (h : sym_heap) : res Z :=
  let* rs := table_records (st_pList table) h in
  Ok (Z.of_nat (length (List.filter (fun r =>
    bool_decide (what <> EXPORTED) || truthy (Z.land (sr_flags r) SYM_REC_EXPORT_FLAG)) rs))).

(** ** Sorting *)

(* tools/assembler/rva.c:3792-3808 sym_sort_symbols *)
Definition category_mask (what : label_category) : Z * Z :=
  match what with
  | ALL => (0, 0)
  | EXPORTED => (SYM_REC_EXPORT_FLAG, SYM_REC_EXPORT_FLAG)
  | DEFINED => (SYM_REC_DEF_FLAG, SYM_REC_DEF_FLAG)
  | UNDEFINED => (SYM_REC_DEF_FLAG, 0)
  end.

(** Where the two names first differ, at most [n] characters on from [j]; the
    characters at the end point are read before the bound is tested. *)
(* tools/assembler/rva.c:3836-3837 sym_sort_symbols *)
Fixpoint common_prefix (n : nat) (a b : list Z) (j : Z) : res Z :=
  let* x := zget a j in
  let* y := zget b j in
  match n with
  | O => Ok j
  | S n => if x =? y then common_prefix n a b (j + 1) else Ok j
  end.

(** Does [t] belong after the candidate [p]? *)
(* tools/assembler/rva.c:3829-3857 sym_sort_symbols *)
Definition sort_after (how : label_sort) (t p : sym_record) : res bool :=
  match how with
  | ALPHABETIC =>
      let min := Z.min (Z.min (sr_count t) (sr_count p)) SYM_NAME_MAX in
      let* j := common_prefix (Z.to_nat min) (sr_name t) (sr_name p) 0 in
      let* x := zget (sr_name t) j in
      let* y := zget (sr_name p) j in
      Ok ((s8 y <? s8 x) || ((min <=? j) && (j <? sr_count t)))%bool
  | VALUE => Ok ((s32 (sr_value p) <? s32 (sr_value t)) && truthy (Z.land (sr_flags t) SYM_REC_DEF_FLAG))%bool
  | DEFINITION => Ok (sr_identifier p <? sr_identifier t)
  | FOR_ELF =>
      Ok ((truthy (Z.land (sr_flags t) SYM_REC_EXPORT_FLAG) &&
           (Z.land (sr_flags p) SYM_REC_EXPORT_FLAG =? 0)) ||
          (sr_identifier p <? sr_identifier t))%bool
  end.

(* tools/assembler/rva.c:3824-3871 sym_sort_symbols *)
Fixpoint sort_insert (how : label_sort) (t : sym_record) (sorted : list sym_record) : res (list sym_record) :=
  match sorted with
  | [] => Ok [t]
  | p :: rest =>
      let* after := sort_after how t p in
      if after : bool then let* rest := sort_insert how t rest in Ok (p :: rest) else Ok (t :: p :: rest)
  end.

(** The copy of a record, marked when its table is exported. *)
(* tools/assembler/rva.c:3818-3822 sym_sort_symbols *)
Definition sort_copy (table : sym_table) (r : sym_record) : sym_record :=
  if truthy (Z.land (st_flags table) SYM_TAB_EXPORT_FLAG)
  then with_value r (Z.lor (sr_flags r) SYM_REC_EXPORT_FLAG) (sr_value r) else r.

(** Each record selected is copied and put in its place. *)
(* tools/assembler/rva.c:3818-3870 sym_sort_symbols *)
Fixpoint sort_all (how : label_sort) (rs sorted : list sym_record) : res (list sym_record) :=
  match rs with
  | [] => Ok sorted
  | r :: rs => let* sorted := sort_insert how r sorted in sort_all how rs sorted
  end.

(** The sorted list is freshly allocated and has one owner, so it is a plain list;
    its names are taken to keep the characters past their end, which the copy of the
    code leaves undefined. *)
(* tools/assembler/rva.c:3764-3878 sym_sort_symbols *)
Definition sym_sort_symbols (table : sym_table) (what : label_category) (how : label_sort) (h : sym_heap)
  : res (list sym_record) :=
  let* rs := table_records (st_pList table) h in
  let '(flag_mask, flag_match) := category_mask what in
  sort_all how (sort_copy table <$> List.filter (fun r => Z.land (sr_flags r) flag_mask =? flag_match) rs) [].

(** ** The string table *)

(* tools/assembler/rva.c:3726-3727 sym_strtab *)
Fixpoint read_name (n : nat) (name : list Z) (i : Z) : res (list Z) :=
  match n with
  | O => Ok []
  | S n => let* c := zget name i in let* l := read_name n name (i + 1) in Ok (c :: l)
  end.

(* tools/assembler/rva.c:3723-3729 sym_strtab *)
Fixpoint strtab_strings (rs : list sym_record) : res (list Z) :=
  match rs with
  | [] => Ok []
  | r :: rs =>
      let* s := read_name (Z.to_nat (sr_count r)) (sr_name r) 0 in
      let* l := strtab_strings rs in Ok (s ++ 0 :: l)
  end.

(* tools/assembler/rva.c:3702-3734 sym_strtab *)
Definition sym_strtab (start : list sym_record) : res (list Z) :=
  let* l := strtab_strings start in
  let array := 0 :: l in
  Ok (array ++ replicate (Z.to_nat ((- Z.of_nat (length array)) mod 4)) 0).

End Sym.

(** ** The table as a finite map

    The key of a name is the name after case folding; two names are the same label
    when their keys are equal. *)

Definition case_of (flags : Z) : bool := truthy (Z.land flags SYM_TAB_CASE_FLAG).
Definition key_of (flags : Z) (name : list Z) : list Z := fold_case (case_of flags) <$> name.
Definition hash_of (key : list Z) : Z := fold_left hash_step key 0.

(** [r] is a record for [key]. *)
Definition rec_for (key : list Z) (r : sym_record) : Prop :=
  sr_count r = Z.of_nat (length key) /\ sr_hash r = hash_of key /\ (length key <= 32)%nat /\
  length (sr_name r) = 32%nat /\ take (length key) (sr_name r) = key.

(** The list from [p] holds records for the given keys. *)
Fixpoint chain (recs : gmap Z sym_record) (p : Z) (l : list (Z * list Z)) : Prop :=
  match l with
  | [] => p = 0
  | (a, key) :: l => p = a /\ a <> 0 /\ exists r, recs !! a = Some r /\ rec_for key r /\ chain recs (sr_pNext r) l
  end.

(** [bks]: for each of the 16 lists, its records and their keys. *)
Definition table_ok (t : sym_table) (h : sym_heap) (bks : list (list (Z * list Z))) : Prop :=
  length bks = 16%nat /\ Forall2 (chain (sh_recs h)) (st_pList t) bks /\
  (forall i l a key, bks !! i = Some l -> (a, key) ∈ l -> Z.to_nat (bucket (hash_of key)) = i) /\
  (forall i l, bks !! i = Some l -> NoDup (snd <$> l)) /\
  (forall i j l l' a, bks !! i = Some l -> bks !! j = Some l' -> a ∈ fst <$> l -> a ∈ fst <$> l' -> i = j) /\
  (forall i l, bks !! i = Some l -> NoDup (fst <$> l)) /\
  0 < sh_next h /\ (forall p, sh_next h <= p -> sh_recs h !! p = None).

(** The address of [key] in a list, if it is there. *)
Fixpoint assoc (key : list Z) (l : list (Z * list Z)) : option Z :=
  match l with
  | [] => None
  | (a, k) :: l => if decide (k = key) then Some a else assoc key l
  end.

Definition the_list (bks : list (list (Z * list Z))) (key : list Z) : list (Z * list Z) :=
  default [] (bks !! Z.to_nat (bucket (hash_of key))).

(** The record of [key] in the table. *)
Definition label (h : sym_heap) (bks : list (list (Z * list Z))) (key : list Z) : option sym_record :=
  a ← assoc key (the_list bks key); sh_recs h !! a.

(** ** Lemmas *)

Lemma string_copy_loop_spec s ci : forall name count hash, 0 <= count -> length name = 32%nat ->
  exists name', string_copy_loop s ci name count hash =
    (name', count + Z.of_nat (length s), fold_left hash_step (fold_case ci <$> s) hash) /\
    length name' = 32%nat /\ take (Z.to_nat count) name' = take (Z.to_nat count) name /\
    (count + Z.of_nat (length s) <= 32 ->
     take (length s) (drop (Z.to_nat count) name') = fold_case ci <$> s).
Proof.
  induction s as [|c s IH]; intros name count hash Hc Hl.
  - exists name. simpl. rewrite Z.add_0_r. repeat split; auto.
  - cbn [string_copy_loop]. set (n1 := if count <? SYM_NAME_MAX then _ else name).
    assert (Hl1 : length n1 = 32%nat) by (subst n1; case_test; rewrite ?length_insert; exact Hl).
    destruct (IH n1 (count + 1) (hash_step hash (fold_case ci c)) ltac:(lia) Hl1) as (n2 & E & Hl2 & Ht & Hd).
    exists n2. rewrite E. split; [f_equal; [f_equal; simpl; lia]|]. split; [exact Hl2|].
    assert (Htake : take (Z.to_nat count) n2 = take (Z.to_nat count) name).
    { transitivity (take (Z.to_nat count) n1).
      - apply (f_equal (take (Z.to_nat count))) in Ht. rewrite !take_take in Ht.
        replace (Z.to_nat count `min` Z.to_nat (count + 1))%nat with (Z.to_nat count) in Ht by lia. exact Ht.
      - subst n1. case_test; [|reflexivity]. apply take_insert_ge. lia. }
    split; [exact Htake|]. intros Hle. simpl in Hle.
    assert (Hlt : (Z.to_nat count < length n2)%nat) by lia.
    assert (Hc2 : n2 !! Z.to_nat count = Some (fold_case ci c)).
    { assert (H1 : take (Z.to_nat (count + 1)) n2 !! Z.to_nat count = take (Z.to_nat (count + 1)) n1 !! Z.to_nat count)
        by (rewrite Ht; reflexivity).
      rewrite !lookup_take_lt in H1 by lia. rewrite H1. subst n1.
      replace (count <? SYM_NAME_MAX) with true by (symmetry; apply Z.ltb_lt; unfold SYM_NAME_MAX; lia).
      apply list_lookup_insert_eq. lia. }
    rewrite (drop_S n2 (fold_case ci c) (Z.to_nat count)) by exact Hc2. simpl. f_equal.
    replace (S (Z.to_nat count)) with (Z.to_nat (count + 1)) by lia. apply Hd. lia.
Qed.

Lemma same_name_spec n a b : forall i key1 key2, 0 <= i -> length a = 32%nat -> length b = 32%nat ->
  (Z.to_nat i + n <= 32)%nat -> take n (drop (Z.to_nat i) a) = key1 -> take n (drop (Z.to_nat i) b) = key2 ->
  same_name n a b i = Ok (bool_decide (key1 = key2)).
Proof.
  induction n as [|n IH]; intros i key1 key2 Hi Ha Hb Hn Hk1 Hk2.
  - rewrite take_0 in *. subst. reflexivity.
  - cbn [same_name].
    destruct (lookup_lt_is_Some_2 a (Z.to_nat i) ltac:(lia)) as [x Hx].
    destruct (lookup_lt_is_Some_2 b (Z.to_nat i) ltac:(lia)) as [y Hy].
    unfold zget at 1 2. replace (i <? 0) with false by (symmetry; apply Z.ltb_ge; lia).
    rewrite Hx, Hy. cbn [of_option rbind].
    rewrite (drop_S _ _ _ Hx) in Hk1. rewrite (drop_S _ _ _ Hy) in Hk2. simpl in Hk1, Hk2.
    destruct (Z.eqb_spec x y) as [->|Hne].
    + rewrite (IH (i + 1) _ _ ltac:(lia) Ha Hb ltac:(lia) eq_refl eq_refl).
      replace (Z.to_nat (i + 1)) with (S (Z.to_nat i)) by lia. subst key1 key2. f_equal.
      apply bool_decide_ext. split; congruence.
    + rewrite bool_decide_eq_false_2; [reflexivity|]. subst. congruence.
Qed.

(** Two records for keys compare equal exactly when the keys are equal. *)
Lemma record_match k1 k2 r1 r2 : rec_for k1 r1 -> rec_for k2 r2 ->
  (if ((sr_hash r1 =? sr_hash r2) && (sr_count r1 =? sr_count r2))%bool
   then same_name (Z.to_nat (sr_count r1)) (sr_name r1) (sr_name r2) 0 else Ok false) =
  Ok (bool_decide (k1 = k2)).
Proof.
  intros (C1 & H1 & L1 & N1 & T1) (C2 & H2 & L2 & N2 & T2).
  destruct (Z.eqb_spec (sr_hash r1) (sr_hash r2)) as [Eh|Eh].
  - destruct (Z.eqb_spec (sr_count r1) (sr_count r2)) as [Ec|Ec]; cbn [andb].
    + rewrite C1, Nat2Z.id. apply same_name_spec; try assumption; try lia.
      replace (length k1) with (length k2) by lia. exact T2.
    + rewrite bool_decide_eq_false_2; [reflexivity|]. intros ->. congruence.
  - rewrite bool_decide_eq_false_2; [reflexivity|]. intros ->. congruence.
Qed.

Lemma find_loop_chain h key r l : forall fuel p, chain (sh_recs h) p l -> rec_for key r -> (length l < fuel)%nat ->
  find_loop fuel h r p = Ok (default 0 (assoc key l)).
Proof.
  induction l as [|[a k] l IH]; intros fuel p Hc Hr Hf; (destruct fuel; [simpl in Hf; lia|]); cbn [find_loop].
  - rewrite Hc. reflexivity.
  - destruct Hc as (-> & Ha & ra & Hra & Hk & Hc).
    replace (a =? 0) with false by (symmetry; apply Z.eqb_neq; exact Ha).
    unfold get_rec. rewrite Hra. cbn [of_option rbind]. rewrite (record_match k key ra r Hk Hr). cbn [rbind assoc].
    destruct (decide (k = key)) as [->|Hne].
    + rewrite bool_decide_eq_true_2 by reflexivity. reflexivity.
    + rewrite bool_decide_eq_false_2 by exact Hne. apply IH; auto. simpl in Hf. lia.
Qed.

Lemma bucket_agree recs recs' l : forall p, chain recs p l ->
  (forall a, a ∈ fst <$> l -> recs' !! a = recs !! a) -> chain recs' p l.
Proof.
  induction l as [|[a k] l IH]; intros p Hc Hag; [exact Hc|].
  destruct Hc as (-> & Ha & r & Hr & Hk & Hc). split; [reflexivity|]. split; [exact Ha|].
  exists r. rewrite Hag by (simpl; left). split; [exact Hr|]. split; [exact Hk|].
  apply IH; [exact Hc|]. intros b Hb. apply Hag. simpl. right. exact Hb.
Qed.

Lemma chain_dom recs l : forall p a, chain recs p l -> a ∈ fst <$> l -> a <> 0 /\ is_Some (recs !! a).
Proof.
  induction l as [|[b k] l IH]; intros p a Hc Hin; [apply elem_of_nil in Hin; easy|].
  destruct Hc as (-> & Hb & r & Hr & _ & Hc). simpl in Hin. apply elem_of_cons in Hin as [->|Hin]; eauto.
Qed.

Lemma chain_length recs p l : chain recs p l -> NoDup (fst <$> l) -> (length l <= size recs)%nat.
Proof.
  intros Hc Hnd. rewrite <- (length_fmap fst l), <- (size_list_to_set (C := gset Z)) by exact Hnd.
  rewrite <- size_dom. apply subseteq_size. intros a Ha. apply elem_of_list_to_set in Ha.
  apply elem_of_dom. eapply chain_dom; eauto.
Qed.

Lemma bucket_range x : 0 <= bucket x < 16.
Proof.
  unfold bucket. change SYM_TAB_LIST_MASK with (2 ^ 4 - 1). rewrite land_low_mask by lia.
  change (2 ^ 4) with 16. dlia.
Qed.

Lemma string_copy_loop_app ci s1 : forall s2 name count hash,
  string_copy_loop (s1 ++ s2) ci name count hash =
  let '(name, count, hash) := string_copy_loop s1 ci name count hash in string_copy_loop s2 ci name count hash.
Proof. induction s1 as [|c s1 IH]; intros; [reflexivity|]. cbn [app string_copy_loop]. apply IH. Qed.

Lemma string_copy_full ci s : forall name count hash, 32 <= count ->
  string_copy_loop s ci name count hash =
  (name, count + Z.of_nat (length s), fold_left hash_step (fold_case ci <$> s) hash).
Proof.
  induction s as [|c s IH]; intros name count hash Hc; [rewrite Z.add_0_r; reflexivity|].
  cbn [string_copy_loop]. replace (count <? SYM_NAME_MAX) with false by (symmetry; apply Z.ltb_ge; exact Hc).
  rewrite IH by lia. simpl. do 2 f_equal. lia.
Qed.

(** A name that does not fit: the field holds its first 32 characters. *)
Lemma string_copy_long s ci name : length name = 32%nat -> (32 < length s)%nat ->
  string_copy_loop s ci name 0 0 =
  (take 32 (fold_case ci <$> s), Z.of_nat (length s), hash_of (fold_case ci <$> s)).
Proof.
  intros Hn Hs. rewrite <- (take_drop 32 s) at 1. rewrite string_copy_loop_app.
  destruct (string_copy_loop_spec (take 32 s) ci name 0 0 ltac:(lia) Hn) as (n' & E & Hl & _ & Ht).
  rewrite E. assert (Hlt : length (take 32 s) = 32%nat) by (rewrite length_take; lia).
  rewrite string_copy_full by lia. specialize (Ht ltac:(lia)). rewrite Hlt, drop_0, take_ge in Ht by lia.
  subst n'. rewrite fmap_take. f_equal; [f_equal; rewrite Hlt, length_drop; lia|].
  unfold hash_of. rewrite <- fold_left_app, <- fmap_take, <- fmap_app, take_drop. reflexivity.
Qed.

Lemma same_name_overrun l n : length l = 32%nat -> (32 < n)%nat -> same_name n l l 0 = Undef.
Proof.
  intros Hl Hn.
  assert (H : forall k n i, (Z.to_nat i + k = 32)%nat -> 0 <= i -> (k < n)%nat -> same_name n l l i = Undef).
  { induction k as [|k IH]; intros m i Hi Hi0 Hm; (destruct m; [lia|]); cbn [same_name]; unfold zget;
      replace (i <? 0) with false by (symmetry; apply Z.ltb_ge; lia).
    - rewrite lookup_ge_None_2 by lia. reflexivity.
    - destruct (lookup_lt_is_Some_2 l (Z.to_nat i) ltac:(lia)) as [x Hx]. rewrite Hx. cbn [of_option rbind].
      rewrite Z.eqb_refl. apply IH; lia. }
  apply (H 32%nat); lia.
Qed.

Section SymSpec.

Context (junk : Z -> sym_record) (junk_name : forall p, length (sr_name (junk p)) = 32%nat).

Abbreviation sym_create_record := (sym_create_record junk).
Abbreviation sym_find_label := (sym_find_label junk).
Abbreviation sym_define_label := (sym_define_label junk).

Lemma create_record_spec name value flags gflags h : (length name <= 32)%nat ->
  exists r, sym_create_record name value flags gflags h =
    (sh_next h, SymHeap (<[sh_next h := r]> (sh_recs h)) (sh_next h + 1)) /\
    rec_for (key_of gflags name) r /\ sr_flags r = flags /\ sr_value r = value /\ sr_pNext r = 0.
Proof.
  intros Hl. unfold RvaSym.sym_create_record, sym_string_copy. fold (case_of gflags).
  destruct (string_copy_loop_spec name (case_of gflags) (sr_name (junk (sh_next h))) 0 0 ltac:(lia) (junk_name _))
    as (name' & E & Hl' & _ & Ht).
  rewrite E. eexists. split; [reflexivity|]. unfold rec_for, key_of. cbn. rewrite length_fmap.
  repeat split; auto. rewrite <- (Ht ltac:(lia)). reflexivity.
Qed.

(** A list of the table, seen through the store extended by a fresh record. *)
Lemma table_list t h bks key : table_ok t h bks ->
  exists p l, zget (st_pList t) (bucket (hash_of key)) = Ok p /\
    bks !! Z.to_nat (bucket (hash_of key)) = Some l /\ chain (sh_recs h) p l /\
    NoDup (fst <$> l) /\ NoDup (snd <$> l).
Proof.
  intros (Hlen & Hch & _ & Hk & _ & Ha & _).
  pose proof (bucket_range (hash_of key)) as Hb.
  destruct (lookup_lt_is_Some_2 bks (Z.to_nat (bucket (hash_of key))) ltac:(lia)) as [l Hl].
  destruct (Forall2_lookup_r _ _ _ _ _ Hch Hl) as (p & Hp & Hc).
  exists p, l. split; [|eauto 10]. unfold zget.
  replace (bucket (hash_of key) <? 0) with false by (symmetry; apply Z.ltb_ge; lia). rewrite Hp. reflexivity.
Qed.

Lemma fresh_not_in t h bks i l a : table_ok t h bks -> bks !! i = Some l -> a ∈ fst <$> l ->
  a <> 0 /\ is_Some (sh_recs h !! a) /\ a < sh_next h.
Proof.
  intros (_ & Hch & _ & _ & _ & _ & _ & Hfresh) Hl Ha.
  destruct (Forall2_lookup_r _ _ _ _ _ Hch Hl) as (p & _ & Hc).
  destruct (chain_dom _ _ _ _ Hc Ha) as [H0 Hs]. split; [exact H0|]. split; [exact Hs|].
  destruct (Z_lt_le_dec a (sh_next h)) as [|Hge]; [assumption|]. rewrite (Hfresh a Hge) in Hs. destruct Hs; discriminate.
Qed.

(** Looking for a record like the fresh one. *)
Lemma find_fresh t h bks key r n : table_ok t h bks -> rec_for key r ->
  sym_find_record t (sh_next h) (SymHeap (<[sh_next h := r]> (sh_recs h)) n) =
    Ok (default 0 (assoc key (the_list bks key))).
Proof.
  intros Hok Hr. unfold sym_find_record, get_rec. cbn [sh_recs]. rewrite lookup_insert_eq. cbn [of_option rbind].
  destruct (table_list t h bks key Hok) as (p & l & Hp & Hl & Hc & Hnd & _).
  pose proof Hr as (_ & Hh & _). rewrite Hh, Hp. cbn [rbind]. unfold the_list. rewrite Hl. cbn [default].
  assert (Hc' : chain (<[sh_next h := r]> (sh_recs h)) p l).
  { eapply bucket_agree; [exact Hc|]. intros a Ha. apply lookup_insert_ne.
    destruct (fresh_not_in _ _ _ _ _ _ Hok Hl Ha) as (_ & _ & Hlt). lia. }
  apply find_loop_chain; [exact Hc'|exact Hr|]. unfold list_fuel. cbn [sh_recs].
  apply le_n_S. exact (chain_length _ _ _ Hc' Hnd).
Qed.

Lemma delete_fresh t h bks r : table_ok t h bks -> delete (sh_next h) (<[sh_next h := r]> (sh_recs h)) = sh_recs h.
Proof. intros (_ & _ & _ & _ & _ & _ & _ & Hf). rewrite delete_insert_id; [reflexivity|]. apply Hf. lia. Qed.

Lemma assoc_elem key l a : assoc key l = Some a -> (a, key) ∈ l.
Proof.
  induction l as [|[b k] l IH]; simpl; [discriminate|]. case_decide as Hk.
  - intros [= ->]. subst. left.
  - intros H. right. auto.
Qed.

Lemma assoc_None key l : assoc key l = None <-> key ∉ snd <$> l.
Proof.
  induction l as [|[b k] l IH]; simpl; [split; [intros _; apply not_elem_of_nil|reflexivity]|].
  rewrite not_elem_of_cons. case_decide as Hk.
  - split; [discriminate|]. intros [H _]. congruence.
  - rewrite IH. split; [|tauto]. intros H. split; [congruence|exact H].
Qed.

Lemma label_found t h bks key a : table_ok t h bks -> assoc key (the_list bks key) = Some a ->
  exists r, label h bks key = Some r /\ sh_recs h !! a = Some r /\ a <> 0 /\ a < sh_next h.
Proof.
  intros Hok Ha. destruct (table_list t h bks key Hok) as (p & l & _ & Hl & _).
  unfold label. rewrite Ha. simpl. unfold the_list in Ha. rewrite Hl in Ha. simpl in Ha.
  apply assoc_elem in Ha. destruct (fresh_not_in t h bks _ l a Hok Hl) as (H0 & [r Hr] & Hlt).
  - apply list_elem_of_fmap. exists (a, key). auto.
  - exists r. auto.
Qed.

Lemma table_ok_recs t h n bks : table_ok t h bks -> sh_next h <= n -> table_ok t (SymHeap (sh_recs h) n) bks.
Proof.
  intros (H1 & H2 & H3 & H4 & H5 & H6 & H7 & H8) Hn.
  repeat (split; [assumption|]). cbn. split; [lia|]. intros p Hp. apply H8. lia.
Qed.

(** Updating a record in place keeps its list, when its name and link stay. *)
Lemma chain_update recs a r r' l : forall p, chain recs p l -> recs !! a = Some r ->
  sr_pNext r' = sr_pNext r -> (forall key, rec_for key r -> rec_for key r') -> chain (<[a := r']> recs) p l.
Proof.
  induction l as [|[b k] l IH]; intros p Hc Hr Hn Hk; [exact Hc|].
  destruct Hc as (-> & Hb & rb & Hrb & Hkb & Hc). split; [reflexivity|]. split; [exact Hb|].
  destruct (decide (b = a)) as [->|Hne].
  - rewrite Hr in Hrb. injection Hrb as <-. exists r'. rewrite lookup_insert_eq, Hn. auto.
  - exists rb. rewrite lookup_insert_ne by auto. auto.
Qed.

Lemma table_ok_update t h bks a r flags value n : table_ok t h bks -> sh_recs h !! a = Some r -> sh_next h <= n ->
  table_ok t (SymHeap (<[a := with_value r flags value]> (sh_recs h)) n) bks.
Proof.
  intros (H1 & H2 & H3 & H4 & H5 & H6 & H7 & H8) Hr Hn. split; [exact H1|]. split.
  { eapply Forall2_impl; [exact H2|]. intros p l Hc. eapply chain_update; [exact Hc|exact Hr|reflexivity|].
    intros key (A & B & C & D & E). repeat split; assumption. }
  repeat (split; [assumption|]). cbn. split; [lia|]. intros p Hp. rewrite lookup_insert_ne; [apply H8; lia|].
  intros ->. rewrite H8 in Hr by lia. discriminate.
Qed.

(** Two keys of the table are at different addresses. *)
Lemma assoc_inj t h bks k1 k2 a : table_ok t h bks ->
  assoc k1 (the_list bks k1) = Some a -> assoc k2 (the_list bks k2) = Some a -> k1 = k2.
Proof.
  intros Hok H1 H2.
  destruct (table_list t h bks k1 Hok) as (_ & l1 & _ & Hl1 & _ & Hnd & _).
  destruct (table_list t h bks k2 Hok) as (_ & l2 & _ & Hl2 & _).
  unfold the_list in *. rewrite Hl1 in H1. rewrite Hl2 in H2. cbn [default] in *.
  apply assoc_elem in H1, H2.
  destruct Hok as (_ & _ & Hb & _ & Hd & _).
  assert (Hi : Z.to_nat (bucket (hash_of k1)) = Z.to_nat (bucket (hash_of k2))).
  { apply (Hd _ _ _ _ a Hl1 Hl2); apply list_elem_of_fmap; [exists (a, k1)|exists (a, k2)]; auto. }
  rewrite Hi, Hl2 in Hl1. injection Hl1 as ->.
  apply list_elem_of_lookup in H1 as [i Hi1]. apply list_elem_of_lookup in H2 as [j Hj].
  change (l1 !! i = Some (a, k1)) in Hi1. change (l1 !! j = Some (a, k2)) in Hj.
  assert (i = j).
  { apply (NoDup_lookup (fst <$> l1) i j a Hnd); rewrite list_lookup_fmap; [rewrite Hi1|rewrite Hj]; reflexivity. }
  congruence.
Qed.

(** The table after a new record has been put in front of its list. *)
Lemma table_ok_add t h bks key r l p0 :
  table_ok t h bks -> rec_for key r -> bks !! Z.to_nat (bucket (hash_of key)) = Some l ->
  zget (st_pList t) (bucket (hash_of key)) = Ok p0 -> sr_pNext r = p0 -> key ∉ snd <$> l ->
  let a := sh_next h in
  let i := Z.to_nat (bucket (hash_of key)) in
  table_ok (SymTable (st_name t) (u32 (st_symbol_number t + 1)) (st_flags t) (<[i := a]> (st_pList t)))
    (SymHeap (<[a := r]> (sh_recs h)) (a + 1)) (<[i := (a, key) :: l]> bks).
Proof.
  intros Hok Hr Hl Hp0 Hn Hnew a i. pose proof Hok as (H1 & H2 & H3 & H4 & H5 & H6 & H7 & H8).
  assert (Hfr : forall j l' b, bks !! j = Some l' -> b ∈ fst <$> l' -> b < a)
    by (intros j l' b Hj Hb; eapply fresh_not_in; eauto).
  assert (Hp : st_pList t !! i = Some p0).
  { unfold zget in Hp0. destruct (bucket (hash_of key) <? 0); [discriminate|]. apply of_option_ok in Hp0. exact Hp0. }
  assert (Hch : forall q l', chain (sh_recs h) q l' -> (forall b, b ∈ fst <$> l' -> b < a) ->
    chain (<[a := r]> (sh_recs h)) q l').
  { intros q l' Hc Hlt. eapply bucket_agree; [exact Hc|]. intros b Hb. apply lookup_insert_ne. specialize (Hlt b Hb). lia. }
  assert (Hlen : (i < length bks)%nat) by (apply lookup_lt_Some in Hl; exact Hl).
  assert (Hcase : forall j l', <[i := (a, key) :: l]> bks !! j = Some l' ->
    (j = i /\ l' = (a, key) :: l) \/ (j <> i /\ bks !! j = Some l')).
  { intros j l' Hj. destruct (decide (j = i)) as [->|Hne].
    - rewrite list_lookup_insert_eq in Hj by exact Hlen. left. split; [reflexivity|congruence].
    - rewrite list_lookup_insert_ne in Hj by auto. auto. }
  split; [rewrite length_insert; exact H1|]. split.
  { cbn [st_pList sh_recs]. apply Forall2_same_length_lookup. split.
    - rewrite !length_insert. exact (Forall2_length _ _ _ H2).
    - intros j q l' Hq Hj. destruct (Hcase j l' Hj) as [[-> ->]|[Hne Hj']].
      + rewrite list_lookup_insert_eq in Hq by (apply lookup_lt_Some in Hp; exact Hp). injection Hq as <-.
        split; [reflexivity|]. split; [unfold a; lia|]. exists r. rewrite lookup_insert_eq. split; [reflexivity|].
        split; [exact Hr|]. rewrite Hn.
        pose proof (Forall2_lookup_lr _ _ _ _ _ _ H2 Hp Hl) as Hc. apply Hch; [exact Hc|]. eauto.
      + rewrite list_lookup_insert_ne in Hq by auto.
        apply Hch; [eapply Forall2_lookup_lr; eauto|]. eauto. }
  split.
  { intros j l' b k Hj Hin. destruct (Hcase j l' Hj) as [[-> ->]|[Hne Hj']]; [|eauto].
    apply elem_of_cons in Hin as [[= -> ->]|Hin]; [reflexivity|eauto]. }
  split.
  { intros j l' Hj. destruct (Hcase j l' Hj) as [[-> ->]|[Hne Hj']]; [|eauto].
    simpl. apply NoDup_cons. split; [exact Hnew|eauto]. }
  split.
  { intros j1 j2 l1 l2 b Hj1 Hj2 Hb1 Hb2.
    destruct (Hcase j1 l1 Hj1) as [[-> ->]|[Hne1 Hj1']], (Hcase j2 l2 Hj2) as [[-> ->]|[Hne2 Hj2']]; [reflexivity| | |eauto].
    - simpl in Hb1. apply elem_of_cons in Hb1 as [->|Hb1]; [specialize (Hfr _ _ _ Hj2' Hb2); lia|eauto].
    - simpl in Hb2. apply elem_of_cons in Hb2 as [->|Hb2]; [specialize (Hfr _ _ _ Hj1' Hb1); lia|eauto]. }
  split.
  { intros j l' Hj. destruct (Hcase j l' Hj) as [[-> ->]|[Hne Hj']]; [|eauto].
    simpl. apply NoDup_cons. split; [|eauto]. intros Hin. specialize (Hfr _ _ _ Hl Hin). lia. }
  cbn. split; [unfold a; lia|]. intros q Hq. rewrite lookup_insert_ne by lia. apply H8. unfold a in *. lia.
Qed.

Lemma the_list_insert bks key l' k : (Z.to_nat (bucket (hash_of key)) < length bks)%nat ->
  the_list (<[Z.to_nat (bucket (hash_of key)) := l']> bks) k =
  if decide (bucket (hash_of k) = bucket (hash_of key)) then l' else the_list bks k.
Proof.
  intros Hlt. unfold the_list. case_decide as He.
  - rewrite He, list_lookup_insert_eq by exact Hlt. reflexivity.
  - rewrite list_lookup_insert_ne; [reflexivity|].
    pose proof (bucket_range (hash_of k)). pose proof (bucket_range (hash_of key)). lia.
Qed.

Definition same_labels (h h' : sym_heap) (bks bks' : list (list (Z * list Z))) (key : list Z) : Prop :=
  forall k, k <> key -> label h' bks' k = label h bks k.

(** Defining a label that is not there. *)
Lemma define_new t h bks name value flags : table_ok t h bks -> (length name <= 32)%nat ->
  let key := key_of (st_flags t) name in
  label h bks key = None ->
  exists t' h' bks' r, sym_define_label name value flags t h = Ok (SYM_REC_ADDED, sh_next h, t', h') /\
    table_ok t' h' bks' /\ same_labels h h' bks bks' key /\ label h' bks' key = Some r /\
    sh_recs h' !! sh_next h = Some r /\ sr_value r = value /\ sr_flags r = Z.lor flags SYM_REC_DEF_FLAG /\
    sr_identifier r = st_symbol_number t /\ st_flags t' = st_flags t.
Proof.
  intros Hok Hlen key Hnone.
  destruct (create_record_spec name value (Z.lor flags SYM_REC_DEF_FLAG) (st_flags t) h Hlen)
    as (r & Ec & Hrec & Hfl & Hv & Hnx).
  destruct (table_list t h bks key Hok) as (p0 & l & Hp0 & Hl & Hc & Hnd1 & Hnd2).
  assert (Ha : assoc key l = None).
  { destruct (assoc key l) as [a|] eqn:Ea; [|reflexivity].
    assert (Ea' : assoc key (the_list bks key) = Some a) by (unfold the_list; rewrite Hl; exact Ea).
    destruct (label_found t h bks key a Hok Ea') as (x & Hx & _). congruence. }
  unfold RvaSym.sym_define_label. rewrite Ec.
  assert (Et : the_list bks key = l) by (unfold the_list; rewrite Hl; reflexivity).
  rewrite (find_fresh t h bks key r _ Hok Hrec), Et, Ha. cbn [default from_option id Z.eqb rbind]. unfold sym_add_to_table, get_rec. cbn [sh_recs].
  rewrite lookup_insert_eq. cbn [of_option rbind]. pose proof Hrec as (_ & Hh & _). fold key in Hh. cbv zeta. rewrite Hh, Hp0. cbn [rbind].
  assert (Hlp : length (st_pList t) = 16%nat)
    by (pose proof Hok as (H1 & H2 & _); rewrite (Forall2_length _ _ _ H2); exact H1).
  pose proof (bucket_range (hash_of key)) as Hbr.
  rewrite zupd_ok by lia. cbn [rbind]. unfold put_rec. cbn [sh_recs sh_next]. rewrite insert_insert_eq.
  set (r' := SymRecord p0 _ _ _ _ _ _ _).
  assert (Hrec' : rec_for key r') by (destruct Hrec as (A & B & C & D & E); repeat split; assumption).
  pose proof (table_ok_add t h bks key r' l p0 Hok Hrec' Hl Hp0 eq_refl (proj1 (assoc_None key l) Ha)) as Hok'.
  assert (Hlb : (Z.to_nat (bucket (hash_of key)) < length bks)%nat) by (apply lookup_lt_Some in Hl; exact Hl).
  eexists _, _, _, r'. split; [reflexivity|]. split; [exact Hok'|]. split.
  { intros k Hk. unfold label. rewrite the_list_insert by exact Hlb.
    assert (Hsame : assoc k (if decide (bucket (hash_of k) = bucket (hash_of key)) then (sh_next h, key) :: l
              else the_list bks k) = assoc k (the_list bks k)).
    { case_decide as He; [|reflexivity]. simpl. rewrite decide_False by congruence.
      unfold the_list. rewrite He, Hl. reflexivity. }
    rewrite Hsame. destruct (assoc k (the_list bks k)) as [a|] eqn:Ea; [|reflexivity]. simpl.
    destruct (label_found t h bks k a Hok Ea) as (_ & _ & _ & _ & Hlt). apply lookup_insert_ne. lia. }
  split.
  { unfold label. rewrite the_list_insert by exact Hlb. rewrite decide_True by reflexivity. simpl.
    rewrite decide_True by reflexivity. simpl. apply lookup_insert_eq. }
  cbn. rewrite lookup_insert_eq. auto 10.
Qed.

Definition is_defined (r : sym_record) : bool := negb (Z.land (sr_flags r) SYM_REC_DEF_FLAG =? 0).

(** Defining a label that is there. *)
Lemma define_old t h bks name value flags r : table_ok t h bks -> (length name <= 32)%nat ->
  let key := key_of (st_flags t) name in
  label h bks key = Some r ->
  exists p h' r', sym_define_label name value flags t h =
      Ok (if negb (is_defined r) then SYM_REC_DEFINED
          else if negb (sr_value r =? value) then SYM_REC_REDEFINED else SYM_REC_UNCHANGED, p, t, h') /\
    table_ok t h' bks /\ same_labels h h' bks bks key /\ label h' bks key = Some r' /\
    sh_recs h' !! p = Some r' /\ r' = with_value r (Z.lor (sr_flags r) SYM_REC_DEF_FLAG) value.
Proof.
  intros Hok Hlen key Hlab.
  destruct (create_record_spec name value (Z.lor flags SYM_REC_DEF_FLAG) (st_flags t) h Hlen)
    as (rn & Ec & Hrec & Hfl & Hv & Hnx).
  unfold label in Hlab. destruct (assoc key (the_list bks key)) as [a|] eqn:Ea; [|discriminate]. simpl in Hlab.
  destruct (label_found t h bks key a Hok Ea) as (r0 & _ & Hr0 & Ha0 & Hlt).
  assert (r0 = r) as -> by congruence. clear Hlab.
  unfold RvaSym.sym_define_label. rewrite Ec.
  rewrite (find_fresh t h bks key rn _ Hok Hrec), Ea. cbn [default from_option id rbind].
  replace (a =? 0) with false by (symmetry; apply Z.eqb_neq; exact Ha0).
  unfold get_rec. cbn [sh_recs]. rewrite lookup_insert_eq. cbn [of_option rbind].
  rewrite lookup_insert_ne by lia. rewrite Hr0. cbn [of_option rbind]. rewrite Hv.
  set (fl' := Z.lor (sr_flags r) SYM_REC_DEF_FLAG).
  assert (Hdef : is_defined r = true -> fl' = sr_flags r).
  { unfold is_defined, fl'. intros Hd. zbool. apply Z.bits_inj'. intros n Hn. rewrite Z.lor_spec.
    change SYM_REC_DEF_FLAG with (2 ^ 8) in *. rewrite Z.pow2_bits_eqb by lia.
    destruct (Z.eqb_spec 8 n) as [<-|]; [|apply orb_false_r].
    destruct (Z.testbit (sr_flags r) 8) eqn:Eb; [reflexivity|]. exfalso. apply Hd.
    apply Z.bits_inj'. intros m Hm. rewrite Z.land_spec, Z.pow2_bits_eqb, Z.bits_0 by lia.
    destruct (Z.eqb_spec 8 m) as [<-|]; [rewrite Eb; reflexivity|apply andb_false_r]. }
  assert (Hput : delete (sh_next h) (<[a := with_value r fl' value]> (<[sh_next h := rn]> (sh_recs h))) =
    <[a := with_value r fl' value]> (sh_recs h)).
  { rewrite delete_insert_ne by lia. rewrite (delete_fresh t h bks rn Hok). reflexivity. }
  assert (Hrv : sr_value r = value -> is_defined r = true -> r = with_value r fl' value).
  { intros E1 E2. rewrite (Hdef E2). destruct r. unfold with_value. cbn in *. congruence. }
  exists a, (SymHeap (<[a := with_value r fl' value]> (sh_recs h)) (sh_next h + 1)), (with_value r fl' value).
  split; [|split; [|split; [|split; [|split]]]].
  - unfold put_rec, sym_delete_record. cbn [sh_recs sh_next]. unfold is_defined in *. 
    destruct (Z.land (sr_flags r) SYM_REC_DEF_FLAG =? 0) eqn:Ed; cbn [negb].
    + rewrite Hput. reflexivity.
    + destruct (Z.eqb_spec (sr_value r) value) as [Eq|Ne]; cbn [negb].
      * rewrite (Hrv Eq eq_refl) at 1. rewrite Hput. reflexivity.
      * rewrite <- (Hdef eq_refl) at 1. rewrite Hput. reflexivity.
  - apply (table_ok_update t h bks a r); [exact Hok|exact Hr0|lia].
  - intros k Hk. unfold label. destruct (assoc k (the_list bks k)) as [b|] eqn:Eb; [|reflexivity]. simpl.
    apply lookup_insert_ne. intros ->. apply Hk. apply (assoc_inj t h bks k key b Hok Eb Ea).
  - unfold label. rewrite Ea. simpl. apply lookup_insert_eq.
  - apply lookup_insert_eq.
  - reflexivity.
Qed.

(** ** Properties *)

(** [sym_find_label] is the lookup of a finite map from names (after case folding)
    to records: it returns the record of the name when the table has one and NULL
    otherwise, and leaves no trace. The search of a list always ends. *)
Theorem sym_find_label_lookup t h bks name : table_ok t h bks -> (length name <= 32)%nat ->
  exists p h', sym_find_label name t h = Ok (p, h') /\ sh_recs h' = sh_recs h /\ table_ok t h' bks /\
    match label h bks (key_of (st_flags t) name) with
    | Some r => p <> 0 /\ sh_recs h' !! p = Some r
    | None => p = 0
    end.
Proof.
  intros Hok Hlen. set (key := key_of (st_flags t) name).
  destruct (create_record_spec name 0 0 (st_flags t) h Hlen) as (r & Ec & Hrec & _).
  unfold RvaSym.sym_find_label. rewrite Ec, (find_fresh t h bks key r _ Hok Hrec). cbn [rbind].
  unfold sym_delete_record. cbn [sh_recs sh_next]. rewrite (delete_fresh t h bks r Hok).
  eexists _, _. split; [reflexivity|]. split; [reflexivity|].
  split; [apply table_ok_recs; [exact Hok|lia]|]. cbn [sh_recs].
  destruct (assoc key (the_list bks key)) as [a|] eqn:Ea.
  - destruct (label_found t h bks key a Hok Ea) as (x & Hx & Hr & H0 & _). rewrite Hx. auto.
  - unfold label. rewrite Ea. reflexivity.
Qed.

(** [sym_define_label] is the update of that map, and keeps the table well formed:
    afterwards the name has the value, is marked as defined, and no other name has
    changed. The result says what was there before: nothing, an undefined label, a
    different value, or the same value. *)
Theorem sym_define_label_update t h bks name value flags : table_ok t h bks -> (length name <= 32)%nat ->
  let key := key_of (st_flags t) name in
  exists res p t' h' bks' r', sym_define_label name value flags t h = Ok (res, p, t', h') /\
    table_ok t' h' bks' /\ same_labels h h' bks bks' key /\ label h' bks' key = Some r' /\
    sh_recs h' !! p = Some r' /\ sr_value r' = value /\ is_defined r' = true /\
    res = match label h bks key with
          | None => SYM_REC_ADDED
          | Some r => if negb (is_defined r) then SYM_REC_DEFINED
                      else if negb (sr_value r =? value) then SYM_REC_REDEFINED else SYM_REC_UNCHANGED
          end.
Proof.
  intros Hok Hlen key.
  assert (Hd : forall f, negb (Z.land (Z.lor f SYM_REC_DEF_FLAG) SYM_REC_DEF_FLAG =? 0) = true).
  { intros f. apply negb_true_iff, Z.eqb_neq. intros E. apply (f_equal (fun z => Z.testbit z 8)) in E.
    rewrite Z.land_spec, Z.lor_spec, Z.bits_0 in E. change (Z.testbit SYM_REC_DEF_FLAG 8) with true in E.
    rewrite orb_true_r in E. discriminate. }
  destruct (label h bks key) as [r|] eqn:El.
  - destruct (define_old t h bks name value flags r Hok Hlen El) as (p & h' & r' & E & Hok' & Hs & Hl & Hp & Hr').
    eexists _, p, t, h', bks, r'. split; [exact E|]. repeat (split; [assumption|]).
    subst r'. split; [reflexivity|]. split; [apply Hd|reflexivity].
  - destruct (define_new t h bks name value flags Hok Hlen El)
      as (t' & h' & bks' & r' & E & Hok' & Hs & Hl & Hp & Hv & Hf & _).
    eexists _, _, t', h', bks', r'. split; [exact E|]. repeat (split; [assumption|]).
    split; [|reflexivity]. unfold is_defined. rewrite Hf. apply Hd.
Qed.

(** an identifier of more than 32 characters, which the scanner accepts, breaks
    the table: once it has been defined, looking it up compares as many characters as
    the identifier has, and reads past the end of the name fields. *)
Theorem sym_long_name_overruns name value flags : (32 < length name)%nat ->
  let t := sym_create_table [] 0 in
  let h := SymHeap ∅ 1 in
  exists p t' h', sym_define_label name value flags t h = Ok (SYM_REC_ADDED, p, t', h') /\
    sym_find_label name t' h' = Undef.
Proof.
  intros Hlen t h.
  assert (Hcr : forall v f h0, exists r, sym_create_record name v f 0 h0 =
      (sh_next h0, SymHeap (<[sh_next h0 := r]> (sh_recs h0)) (sh_next h0 + 1)) /\
      sr_count r = Z.of_nat (length name) /\ sr_hash r = hash_of (key_of 0 name) /\
      sr_name r = take 32 (key_of 0 name)).
  { intros v f h0. unfold RvaSym.sym_create_record, sym_string_copy. fold (case_of 0).
    pose proof (string_copy_long name (case_of 0) (sr_name (junk (sh_next h0))) (junk_name _) Hlen) as E.
    rewrite E. eexists. split; [reflexivity|]. repeat split. }
  unfold RvaSym.sym_define_label. change (st_flags t) with 0.
  destruct (Hcr value (Z.lor flags SYM_REC_DEF_FLAG) h) as (r & -> & Hc & Hh & Hn).
  unfold sym_find_record, get_rec. cbn [sh_recs]. rewrite lookup_insert_eq. cbn [of_option rbind].
  pose proof (bucket_range (sr_hash r)) as Hb.
  assert (Hhead : forall l : list Z, length l = 16%nat -> exists x, zget l (bucket (sr_hash r)) = Ok x /\
      l !! Z.to_nat (bucket (sr_hash r)) = Some x).
  { intros l Hl. destruct (lookup_lt_is_Some_2 l (Z.to_nat (bucket (sr_hash r))) ltac:(lia)) as [x Hx].
    exists x. unfold zget. replace (bucket (sr_hash r) <? 0) with false by (symmetry; apply Z.ltb_ge; lia).
    rewrite Hx. auto. }
  assert (H0 : zget (st_pList t) (bucket (sr_hash r)) = Ok 0).
  { destruct (Hhead (st_pList t) eq_refl) as (x & Hx & Hx'). rewrite Hx. f_equal.
    change (st_pList t) with (replicate 16 0) in Hx'. apply lookup_replicate in Hx' as [-> _]. reflexivity. }
  rewrite H0. cbn [rbind list_fuel find_loop Z.eqb].
  unfold sym_add_to_table, get_rec. cbn [sh_recs]. rewrite lookup_insert_eq. cbn [of_option rbind].
  cbv zeta. rewrite H0. cbn [rbind]. rewrite zupd_ok by (simpl; lia). cbn [rbind].
  eexists _, _, _. split; [reflexivity|].
  unfold put_rec. cbn [sh_recs sh_next]. rewrite insert_insert_eq.
  set (r' := SymRecord 0 _ _ _ _ _ _ _). set (t' := SymTable _ _ _ _). set (h' := SymHeap _ _).
  unfold RvaSym.sym_find_label. change (st_flags t') with 0.
  destruct (Hcr 0 0 h') as (r2 & -> & Hc2 & Hh2 & Hn2).
  unfold sym_find_record, get_rec. cbn [sh_recs]. rewrite lookup_insert_eq. cbn [of_option rbind].
  assert (Hz : zget (st_pList t') (bucket (sr_hash r2)) = Ok 1).
  { rewrite Hh2, <- Hh. subst t'. cbn [st_pList]. unfold zget.
    replace (bucket (sr_hash r) <? 0) with false by (symmetry; apply Z.ltb_ge; lia).
    rewrite list_lookup_insert_eq by (simpl; lia). reflexivity. }
  rewrite Hz. cbn [rbind list_fuel find_loop Z.eqb Pos.eqb]. unfold get_rec. cbn [sh_recs].
  rewrite lookup_insert_ne by (simpl; lia). subst h'. cbn [sh_recs sh_next]. rewrite lookup_insert_eq. cbn [of_option rbind].
  subst r'. cbn [sr_hash sr_count sr_name]. rewrite Hh, Hh2, Hc, Hc2, !Z.eqb_refl. cbn [andb].
  rewrite Hn, Hn2, Nat2Z.id. rewrite same_name_overrun; [reflexivity| |lia].
  unfold key_of. rewrite length_take, length_fmap. lia.
Qed.

End SymSpec.

(** ** The properties at concrete inputs *)

Module RvaSymWitness.

Definition junk0 (p : Z) : sym_record := SymRecord 0 0 0 0 0 0 0 (replicate 32 99).

Lemma junk0_name p : length (sr_name (junk0 p)) = 32%nat.
Proof. reflexivity. Qed.

Definition t0 : sym_table := sym_create_table [] 0.
Definition h0 : sym_heap := SymHeap ∅ 1.
Definition bks0 : list (list (Z * list Z)) := replicate 16 [].

Lemma bks0_nil i l : bks0 !! i = Some l -> l = [].
Proof. intros H. apply lookup_replicate in H as [-> _]. reflexivity. Qed.

Lemma empty_ok : table_ok t0 h0 bks0.
Proof.
  split; [reflexivity|]. split; [apply Forall2_same_length_lookup; split; [reflexivity|]|].
  - intros i p l Hp Hl. apply bks0_nil in Hl as ->. apply lookup_replicate in Hp as [-> _]. reflexivity.
  - split; [intros i l a k Hl Hin; apply bks0_nil in Hl as ->; apply elem_of_nil in Hin; easy|].
    split; [intros i l Hl; apply bks0_nil in Hl as ->; constructor|].
    split; [intros i j l l' a Hl _ Hin; apply bks0_nil in Hl as ->; apply elem_of_nil in Hin; easy|].
    split; [intros i l Hl; apply bks0_nil in Hl as ->; constructor|].
    split; [reflexivity|]. intros p _. apply lookup_empty.
Qed.

(** "loop" *)
Definition loop : list Z := [108; 111; 111; 112].

Lemma sym_find_label_lookup_witness : exists h', sym_find_label junk0 loop t0 h0 = Ok (0, h').
Proof.
  destruct (sym_find_label_lookup junk0 junk0_name t0 h0 bks0 loop empty_ok ltac:(simpl; lia))
    as (p & h' & E & _ & _ & Hl).
  exists h'. assert (Hn : label h0 bks0 (key_of (st_flags t0) loop) = None) by (vm_compute; reflexivity).
  rewrite Hn in Hl. rewrite <- Hl. exact E.
Defined.

Lemma sym_define_label_update_witness : exists res p t' h' r',
  sym_define_label junk0 loop 4096 0 t0 h0 = Ok (res, p, t', h') /\ res = SYM_REC_ADDED /\
  sh_recs h' !! p = Some r' /\ sr_value r' = 4096.
Proof.
  destruct (sym_define_label_update junk0 junk0_name t0 h0 bks0 loop 4096 0 empty_ok ltac:(simpl; lia))
    as (res & p & t' & h' & bks' & r' & E & _ & _ & _ & Hp & Hv & _ & Hres).
  exists res, p, t', h', r'. split; [exact E|]. split; [|split; [exact Hp|exact Hv]].
  assert (Hn : label h0 bks0 (key_of (st_flags t0) loop) = None) by (vm_compute; reflexivity).
  rewrite Hn in Hres. exact Hres.
Defined.

Lemma sym_long_name_overruns_witness : exists p t' h',
  sym_define_label junk0 (replicate 33 97) 1 0 t0 h0 = Ok (SYM_REC_ADDED, p, t', h') /\
  sym_find_label junk0 (replicate 33 97) t' h' = Undef.
Proof. apply (sym_long_name_overruns junk0 junk0_name (replicate 33 97) 1 0). simpl. lia. Defined.

End RvaSymWitness.
