(* ===== verification/RvaSort.v ===== *)
(** * The order of the sorted symbols

    [sym_sort_symbols] makes the list of symbols that the listings and the ELF symbol
    table follow: an insertion sort of copies of the table's records. Here is what it
    means for that list to be in order, for each of the orders that the code keeps, and
    that the list has exactly the symbols selected. *)

From S2P Require Import Prelude RvaDefs RvaLex RvaSym.
From stdpp Require Import sorting.
Local Open Scope Z_scope.

(** ** The orders *)

(** The name of a symbol: the characters counted. *)
Definition text_of (r : sym_record) : list Z := take (Z.to_nat (sr_count r)) (sr_name r).

(** The order of a dictionary: a name comes before those it begins. *)
Fixpoint name_leb (a b : list Z) : bool :=
  match a, b with
  | [], _ => true
  | _, [] => false
  | x :: a, y :: b => (x <? y) || ((x =? y) && name_leb a b)
  end.

(** Is [a] to be listed before [b]? *)
Definition in_order (how : label_sort) (a b : sym_record) : bool :=
  match how with
  | ALPHABETIC => name_leb (text_of a) (text_of b)
  | VALUE => s32 (sr_value a) <=? s32 (sr_value b)
  | _ => sr_identifier a <=? sr_identifier b
  end.

(** A name of ASCII characters in a field that was zero. *)
Definition ascii_name (r : sym_record) : Prop :=
  exists key rest, sr_name r = key ++ 0 :: rest /\ sr_count r = Z.of_nat (length key) /\ (length key < 32)%nat /\
    Forall (fun c => 0 < c < 128) key.

(** The symbols each order can deal with. In the order of values an undefined symbol
    stays where it is put; the order for the ELF file is not kept at all (see
    [elf_local_after_global]). *)
Definition sortable (how : label_sort) (r : sym_record) : Prop :=
  match how with
  | ALPHABETIC => ascii_name r
  | VALUE => truthy (Z.land (sr_flags r) SYM_REC_DEF_FLAG) = true
  | DEFINITION => True
  | FOR_ELF => False
  end.

(** The copies that are sorted. *)
Definition selected (table : sym_table) (what : label_category) (rs : list sym_record) : list sym_record :=
  sort_copy table <$> List.filter (fun r => Z.land (sr_flags r) (fst (category_mask what)) =? snd (category_mask what)) rs.

#[export] Instance in_order_total how : Total (fun a b => in_order how a b = true).
Proof.
  intros a b. unfold in_order. destruct how; rewrite ?Z.leb_le; try lia.
  generalize (text_of a) (text_of b). intros l. induction l as [|x l IH]; intros [|y m]; cbn [name_leb]; auto.
  destruct (Z.lt_trichotomy x y) as [H|[->|H]].
  - left. replace (x <? y) with true by (symmetry; apply Z.ltb_lt; exact H). reflexivity.
  - rewrite Z.eqb_refl, Z.ltb_irrefl. apply IH.
  - right. replace (y <? x) with true by (symmetry; apply Z.ltb_lt; exact H). reflexivity.
Qed.

Lemma name_leb_trans : forall a b c, name_leb a b = true -> name_leb b c = true -> name_leb a c = true.
Proof.
  induction a as [|x a IH]; intros [|y b] [|z c] H1 H2; cbn [name_leb] in *; try reflexivity; try discriminate.
  rewrite !orb_true_iff, !andb_true_iff, !Z.ltb_lt, !Z.eqb_eq in *.
  destruct H1 as [H1|[-> H1]], H2 as [H2|[-> H2]]; eauto with lia.
Qed.

#[export] Instance in_order_trans how : Transitive (fun a b => in_order how a b = true).
Proof.
  intros a b c. unfold in_order. destruct how; rewrite ?Z.leb_le; try lia. apply name_leb_trans.
Qed.

(** ** Lemmas: the comparison *)

Lemma zget_field key rest i : 0 <= i <= Z.of_nat (length key) ->
  exists c, zget (key ++ 0 :: rest) i = Ok c /\ (i = Z.of_nat (length key) -> c = 0) /\
    (i < Z.of_nat (length key) -> key !! Z.to_nat i = Some c).
Proof.
  intros H. unfold zget. replace (i <? 0) with false by (symmetry; apply Z.ltb_ge; lia).
  destruct (decide (i = Z.of_nat (length key))) as [->|Hne].
  - exists 0. rewrite Nat2Z.id, list_lookup_middle by reflexivity. repeat split; auto. lia.
  - destruct (lookup_lt_is_Some_2 key (Z.to_nat i)) as [c Hc]; [lia|]. exists c.
    rewrite lookup_app_l by lia. rewrite Hc. repeat split; auto. lia.
Qed.

Lemma s8_ascii c : 0 <= c < 128 -> s8 c = c.
Proof. intros H. unfold s8. case_test; zbool; lia. Qed.

(** The comparison of two names from position [j] on, to which they agree. *)
Lemma compare_names k1 r1 k2 r2 : Forall (fun c => 0 < c < 128) k1 -> Forall (fun c => 0 < c < 128) k2 -> forall n j,
  let min := Z.min (Z.of_nat (length k1)) (Z.of_nat (length k2)) in 0 <= j -> j + Z.of_nat n = min ->
  (let* i := common_prefix n (k1 ++ 0 :: r1) (k2 ++ 0 :: r2) j in
   let* x := zget (k1 ++ 0 :: r1) i in
   let* y := zget (k2 ++ 0 :: r2) i in
   Ok ((s8 y <? s8 x) || ((min <=? i) && (i <? Z.of_nat (length k1))))%bool) =
  Ok (negb (name_leb (drop (Z.to_nat j) k1) (drop (Z.to_nat j) k2))).
Proof.
  intros F1 F2 n. induction n as [|n IH]; intros j min Hj Hn; cbn [common_prefix];
    (destruct (zget_field k1 r1 j) as (x & Ex & X0 & X1); [lia|]);
    (destruct (zget_field k2 r2 j) as (y & Ey & Y0 & Y1); [lia|]); rewrite Ex, Ey; cbn [rbind].
  - rewrite Ex. cbn [rbind]. rewrite Ey. cbn [rbind]. f_equal. destruct (Z.eq_dec j (Z.of_nat (length k1))) as [E1|N1].
    + rewrite (drop_ge k1), (X0 E1) by lia. cbn [name_leb negb]. apply orb_false_iff. split; [|apply andb_false_iff; right; lia].
      apply Z.ltb_ge. change (s8 0) with 0. destruct (Z.eq_dec j (Z.of_nat (length k2))) as [E2|N2]; [rewrite (Y0 E2); reflexivity|].
      pose proof (Forall_lookup_1 _ _ _ _ F2 (Y1 ltac:(lia))) as Hy; cbn beta in Hy. rewrite s8_ascii by lia. lia.
    + rewrite (drop_ge k2), (Y0 ltac:(lia)) by lia. rewrite (drop_S k1 x) by (apply X1; lia). cbn [name_leb negb].
      pose proof (Forall_lookup_1 _ _ _ _ F1 (X1 ltac:(lia))) as Hx; cbn beta in Hx. rewrite (s8_ascii x) by lia.
      apply orb_true_iff. left. apply Z.ltb_lt. change (s8 0) with 0. lia.
  - assert (L1 := X1 ltac:(lia)). assert (L2 := Y1 ltac:(lia)).
    rewrite (drop_S k1 x), (drop_S k2 y) by assumption. cbn [name_leb].
    pose proof (Forall_lookup_1 _ _ _ _ F1 L1) as Hx. pose proof (Forall_lookup_1 _ _ _ _ F2 L2) as Hy. cbn beta in Hx, Hy.
    destruct (Z.eqb_spec x y) as [->|Hne].
    + rewrite Z.ltb_irrefl. cbn [orb andb]. rewrite <- !Z2Nat.inj_succ by lia. apply IH; lia.
    + cbn [rbind]. rewrite Ex. cbn [rbind]. rewrite Ey. cbn [rbind]. rewrite !s8_ascii by lia. f_equal.
      cbn [andb]. rewrite orb_false_r. replace (min <=? j) with false by (symmetry; apply Z.leb_gt; lia). cbn [andb].
      rewrite orb_false_r. destruct (Z.ltb_spec y x), (Z.ltb_spec x y); cbn; try reflexivity; lia.
Qed.

Lemma text_of_ascii r key rest : sr_name r = key ++ 0 :: rest -> sr_count r = Z.of_nat (length key) -> text_of r = key.
Proof. unfold text_of. intros -> ->. rewrite Nat2Z.id. apply take_app_length. Qed.

(** A symbol goes behind those it does not precede. *)
Lemma sort_after_spec how t p : sortable how t -> sortable how p -> sort_after how t p = Ok (negb (in_order how t p)).
Proof.
  intros Ht Hp. destruct how; cbn [sort_after in_order sortable] in *; [| | |contradiction].
  - destruct Ht as (k1 & r1 & N1 & C1 & L1 & F1), Hp as (k2 & r2 & N2 & C2 & L2 & F2).
    rewrite (text_of_ascii t k1 r1), (text_of_ascii p k2 r2), N1, N2, C1, C2 by assumption.
    unfold SYM_NAME_MAX. rewrite (Z.min_l _ 32) by lia.
    rewrite (compare_names k1 r1 k2 r2 F1 F2) by lia. reflexivity.
  - rewrite Ht, andb_true_r. f_equal. rewrite Z.leb_antisym, negb_involutive. reflexivity.
  - f_equal. rewrite Z.leb_antisym, negb_involutive. reflexivity.
Qed.

(** ** Lemmas: the insertion sort *)

Abbreviation sorted how := (StronglySorted (fun a b => in_order how a b = true)).

Lemma sort_insert_ok how t l : sortable how t -> Forall (sortable how) l -> sorted how l ->
  exists l', sort_insert how t l = Ok l' /\ l' ≡ₚ t :: l /\ sorted how l'.
Proof.
  intros Ht. induction l as [|p l IH]; intros Hl Hs; cbn [sort_insert].
  - eexists. split; [reflexivity|]. split; [reflexivity|repeat constructor].
  - apply Forall_cons in Hl as [Hp Hl]. inversion Hs as [|? ? Hs' Hfa]; subst.
    rewrite (sort_after_spec _ _ _ Ht Hp). cbn [rbind]. destruct (in_order how t p) eqn:E; cbn [negb].
    + eexists. split; [reflexivity|]. split; [reflexivity|]. constructor; [exact Hs|]. constructor; [exact E|].
      eapply Forall_impl; [exact Hfa|]. intros x Hx. eapply (in_order_trans how); eassumption.
    + destruct (IH Hl Hs') as (l' & -> & Hperm & Hs2). cbn [rbind]. eexists. split; [reflexivity|].
      split; [rewrite Hperm; apply Permutation_swap|]. constructor; [exact Hs2|]. rewrite Hperm. constructor; [|exact Hfa].
      destruct (in_order_total how t p); congruence.
Qed.

Lemma sort_all_ok how rs : forall l, Forall (sortable how) rs -> Forall (sortable how) l -> sorted how l ->
  exists l', sort_all how rs l = Ok l' /\ l' ≡ₚ rs ++ l /\ sorted how l'.
Proof.
  induction rs as [|r rs IH]; intros l Hr Hl Hs; cbn [sort_all]; [eauto|]. apply Forall_cons in Hr as [Hr Hrs].
  destruct (sort_insert_ok how r l Hr Hl Hs) as (l1 & -> & Hp1 & Hs1). cbn [rbind].
  destruct (IH l1 Hrs) as (l' & E & Hp & Hs'); [rewrite Hp1; constructor; assumption|exact Hs1|].
  exists l'. split; [exact E|]. split; [|exact Hs']. rewrite Hp, Hp1. symmetry. apply Permutation_middle.
Qed.

(** ** Lemmas: the records of the table *)

Lemma list_records_ok recs l n : forall p, chain recs p l -> (length l < n)%nat ->
  exists rs, (forall m, list_records n p (SymHeap recs m) = Ok rs) /\ Forall2 (fun b r => recs !! fst b = Some r) l rs.
Proof.
  revert l. induction n as [|n IH]; intros l p Hc Hn; [lia|]. destruct l as [|[a key] l]; cbn [chain] in Hc.
  - exists []. subst p. split; [reflexivity|constructor].
  - destruct Hc as (-> & Ha & r & Hr & _ & Hc). cbn [length] in Hn. destruct (IH l _ Hc ltac:(lia)) as (rs & E & Hrs).
    exists (r :: rs). split; [|constructor; assumption]. intros m. cbn [list_records].
    replace (a =? 0) with false by (symmetry; apply Z.eqb_neq; exact Ha). unfold get_rec. cbn [sh_recs]. rewrite Hr.
    cbn [of_option rbind]. rewrite E. reflexivity.
Qed.

Lemma table_records_ok t h bks : table_ok t h bks ->
  exists rs, table_records (st_pList t) h = Ok rs /\ Forall2 (fun b r => sh_recs h !! fst b = Some r) (List.concat bks) rs.
Proof.
  intros (_ & Hch & _ & _ & _ & Hnd & _). assert (Hf : Forall (fun l => NoDup (fst <$> l)) bks).
  { apply Forall_lookup. exact Hnd. }
  clear Hnd. induction Hch as [|p l heads bks Hc _ IH]; cbn [table_records List.concat].
  - exists []. split; [reflexivity|constructor].
  - apply Forall_cons in Hf as [Hl Hf]. destruct (IH Hf) as (rest & -> & Hrest).
    destruct (list_records_ok (sh_recs h) l (list_fuel h) p Hc) as (rs & E & Hrs).
    { unfold list_fuel. pose proof (chain_length _ _ _ Hc Hl). lia. }
    destruct h as [recs m]. rewrite E. cbn [rbind]. exists (rs ++ rest). split; [reflexivity|]. apply Forall2_app; assumption.
Qed.

(** ** Properties *)


(** What the order for the ELF file comes to: it depends on the order in which the table
    gives the records, so that a local symbol defined after a global one is put behind
    it if it comes second. *)
Theorem elf_local_after_global g l : truthy (Z.land (sr_flags g) SYM_REC_EXPORT_FLAG) = true ->
  truthy (Z.land (sr_flags l) SYM_REC_EXPORT_FLAG) = false ->
  sr_identifier g < sr_identifier l -> sort_all FOR_ELF [g; l] [] = Ok [g; l] /\ sort_all FOR_ELF [l; g] [] = Ok [l; g].
Proof.
  intros Hg Hl Hi. cbn [sort_all sort_insert sort_after rbind]. rewrite Hg, Hl.
  replace (sr_identifier g <? sr_identifier l) with true by (symmetry; apply Z.ltb_lt; exact Hi).
  unfold truthy in Hl. rewrite negb_false_iff in Hl. rewrite Hl, orb_true_r. split; reflexivity.
Qed.

(** The order of names looks at the character behind the shorter of two names, which the
    copy of a record leaves unset: what is there may put "a" behind "ab". *)
Theorem alphabetic_reads_behind_name a ab c rest rest' : sr_count a = 1 -> sr_count ab = 2 ->
  sr_name a = 97 :: c :: rest -> sr_name ab = 97 :: 98 :: rest' ->
  sort_all ALPHABETIC [ab; a] [] = Ok (if 98 <? s8 c then [ab; a] else [a; ab]).
Proof.
  intros C1 C2 N1 N2. cbn [sort_all sort_insert sort_after rbind]. rewrite C1, C2, N1, N2.
  change (Z.to_nat (Z.min (Z.min 1 2) SYM_NAME_MAX)) with 1%nat. cbn [common_prefix].
  change (zget (97 :: c :: rest) 0) with (Ok 97). change (zget (97 :: 98 :: rest') 0) with (Ok 97).
  cbn [rbind]. rewrite Z.eqb_refl. change (0 + 1) with 1.
  change (zget (97 :: c :: rest) 1) with (Ok c). change (zget (97 :: 98 :: rest') 1) with (Ok 98). cbn [rbind].
  change (zget (97 :: c :: rest) 1) with (Ok c). change (zget (97 :: 98 :: rest') 1) with (Ok 98). cbn [rbind].
  change (s8 98) with 98. change (1 <? 1) with false. rewrite andb_false_r, orb_false_r.
  destruct (98 <? s8 c); reflexivity.
Qed.

(** ** The properties at concrete inputs *)

Module RvaSortWitness.

Definition zeroed (p : Z) : sym_record := SymRecord 0 0 0 0 0 0 0 (replicate 32 0).

(** A table with the symbols "b" and "a". *)
Definition two : res (sym_table * sym_heap) :=
  let* (_, _, t, h) := sym_define_label zeroed [98] 20 0 (sym_create_table [] 0) (SymHeap ∅ 1) in
  let* (_, _, t, h) := sym_define_label zeroed [97] 10 0 t h in Ok (t, h).
Definition the_table : sym_table := match two with Ok (t, _) => t | _ => sym_create_table [] 0 end.
Definition heap : sym_heap := match two with Ok (_, h) => h | _ => SymHeap ∅ 1 end.
Definition buckets : list (list (Z * list Z)) :=
  <[Z.to_nat (bucket (hash_of [97])) := [(2, [97])]]> (<[Z.to_nat (bucket (hash_of [98])) := [(1, [98])]]> (replicate 16 [])).

(** Every list of the table. *)
Lemma bucket_cases i l : buckets !! i = Some l ->
  l = [] \/ (i = 1%nat /\ l = [(2, [97])]) \/ (i = 2%nat /\ l = [(1, [98])]).
Proof.
  change buckets with ([] :: [(2, [97])] :: [(1, [98])] :: replicate 13 ([] : list (Z * list Z))).
  destruct i as [|[|[|i]]]; cbn; [intros [= <-]; auto..|].
  intros H. apply (lookup_replicate 13) in H as [-> _]. auto.
Qed.

Lemma table_two : table_ok the_table heap buckets.
Proof.
  split; [reflexivity|]. split.
  { change (st_pList the_table) with ([0; 2; 1] ++ replicate 13 0).
    change buckets with ([[]; [(2, [97])]; [(1, [98])]] ++ replicate 13 ([] : list (Z * list Z))).
    apply Forall2_app; [|apply Forall2_replicate; reflexivity].
    repeat constructor; try discriminate; eexists; (split; [vm_compute; reflexivity|]); repeat split; vm_compute; lia. }
  split; [intros i l a k H Hin|split; [intros i l H|split; [intros i j l l' a H H' Hin Hin'|split; [intros i l H|split]]]].
  - destruct (bucket_cases _ _ H) as [->|[[-> ->]|[-> ->]]]; [apply elem_of_nil in Hin; easy|..];
      apply list_elem_of_singleton in Hin; injection Hin as -> ->; reflexivity.
  - destruct (bucket_cases _ _ H) as [->|[[-> ->]|[-> ->]]]; repeat constructor; apply not_elem_of_nil.
  - destruct (bucket_cases _ _ H) as [->|[[-> ->]|[-> ->]]], (bucket_cases _ _ H') as [->|[[-> ->]|[-> ->]]]; cbn in *;
      rewrite ?elem_of_nil, ?list_elem_of_singleton in *; try easy; congruence.
  - destruct (bucket_cases _ _ H) as [->|[[-> ->]|[-> ->]]]; repeat constructor; apply not_elem_of_nil.
  - reflexivity.
  - intros p Hp. change (sh_next heap) with 3 in Hp. apply not_elem_of_dom.
    replace (dom (sh_recs heap)) with ({[1; 2]} : gset Z) by (vm_compute; reflexivity). set_solver by lia.
Qed.


End RvaSortWitness.
