(* ===== verification/RvaEval.v ===== *)
(** * The assembler's expression evaluator: tools/assembler/rva.c, lines 3977-4456

    Operands and operators are read off a source line and combined on a stack of 20
    words: a marker per bracket level, and three words per pending operator. The
    symbol tables are seen through their lookup functions; [table_lookup] is the one
    of RvaSym.v. *)

From S2P Require Import Prelude RvaDefs RvaLex RvaSym.

(** ** The code *)

(** A table of RvaSym.v as a lookup; the store keeps its records. *)
Definition table_lookup (junk : Z -> sym_record) (h : sym_heap) (t : sym_table) (name : list Z)
  : res (option (Z * Z)) :=
  let* (p, h) := sym_find_label junk name t h in
  if p =? 0 then Ok None else let* r := get_rec h p in Ok (Some (sr_flags r, sr_value r)).

(** The global state the evaluator reads. [ev_position] is the index of
    [loc_lab_position] in the list of local labels. *)
Record eval_env : Type := EvalEnv {
  ev_symbol : list Z -> res (option (Z * Z));
  ev_csr : list Z -> res (option (Z * Z));
  ev_operator : list Z -> res (option (Z * Z));
  ev_own_sort : label_type;
  ev_local : list local_label;
  ev_position : option nat;
  ev_pointer_defined : bool;
  ev_pointer : Z;
}.

(** The operand found, or the error; [vr_undefined] counts references to labels
    without a value. *)
Record variable : Type := Variable_ {
  vr_status : Z; vr_pos : Z; vr_value : Z; vr_unary : Z; vr_bracket : bool; vr_undefined : Z;
}.

Section Eval.

Context (env : eval_env).

(** Walks along the list of local labels, from an index down or up. *)
(* tools/assembler/rva.c:4266-4268 get_variable *)
Fixpoint search_back (i : nat) (label : Z) : option local_label :=
  match ev_local env !! i with
  | Some l => if ll_label l =? label then Some l else match i with O => None | S i => search_back i label end
  | None => None
  end.

(* tools/assembler/rva.c:4273-4275 get_variable *)
Fixpoint search_forward (ls : list local_label) (label : Z) : option local_label :=
  match ls with
  | [] => None
  | l :: ls => if ll_label l =? label then Some l else search_forward ls label
  end.

(** [directions]: 1 backwards, 2 forwards, 3 both. *)
(* tools/assembler/rva.c:4250-4276 get_variable *)
Definition find_local (directions label : Z) : option local_label :=
  let pStart :=
    if (bool_decide (ev_own_sort env <> LOCAL_LABEL) && (Z.land directions 1 =? 0))%bool then
      match ev_position env with None => Some O | Some p => Some (S p) end
    else ev_position env in
  let back :=
    if truthy (Z.land directions 1) then
      match pStart with Some i => search_back i label | None => None end
    else None in
  match back with
  | Some l => Some l
  | None =>
      if truthy (Z.land directions 2) then
        match pStart with Some i => search_forward (drop i (ev_local env)) label | None => None end
      else None
  end.

(** Status, position and value. *)
(* tools/assembler/rva.c:4238-4281 get_variable *)
Definition get_local (input : list Z) (ii : Z) : res (Z * Z * Z) :=
  let* c := zget input (ii + 1) in
  let c := Z.land c 223 in
  let '(directions, ii) :=
    if c =? 66 then (1, ii + 2) else if c =? 70 then (2, ii + 2) else (3, ii + 1) in
  let* (ok, label, ii) := get_num input ii 10 in
  if negb ok then Ok (eval_bad_loc_lab, ii, 0)
  else
    match find_local directions label with
    | Some l => Ok (eval_okay, ii, ll_value l)
    | None => Ok (eval_no_label, ii, 0)
    end.

(** A character constant; [ii] is at the opening quote. *)
(* tools/assembler/rva.c:4284-4304 get_variable *)
Definition get_char_const (input : list Z) (ii : Z) : res (Z * Z * Z) :=
  let ii := ii + 1 in
  let* c := zget input ii in
  let escaped := c =? 92 in
  let ii := if escaped then ii + 1 else ii in
  let* c := zget input ii in
  if ((c =? 0) || (c =? 10))%bool then Ok (Z.lor eval_operand_error ii, ii, 0)
  else
    let* q := zget input (ii + 1) in
    if q =? 39 then Ok (eval_okay, ii + 2, u32 (if escaped then c_char_esc c else s8 c))
    else Ok (Z.lor eval_operand_error ii, ii, 0).

(** The radix a constant starts with, -1 for none, and where its digits start. *)
(* tools/assembler/rva.c:4316-4328 get_variable *)
Definition get_radix (input : list Z) (ii : Z) : res (Z * Z) :=
  let* c := zget input ii in
  let* c1 := (if c =? 48 then let* d := zget input (ii + 1) in Ok (Z.land d 223) else Ok 0) in
  if ((c =? 48) && (c1 =? 88))%bool then Ok (16, ii + 2)
  else if ((c =? 48) && (c1 =? 66))%bool then Ok (2, ii + 2)
  else if ((48 <=? c) && (c <=? 57))%bool then Ok (10, ii)
  else if c =? 36 then Ok (16, ii + 1)
  else if c =? 58 then Ok (2, ii + 1)
  else if c =? 64 then Ok (8, ii + 1)
  else Ok (-1, ii).

(* tools/assembler/rva.c:4307-4334 get_variable *)
Definition get_constant (input : list Z) (ii : Z) : res (Z * Z * Z) :=
  let* c := zget input ii in
  if c =? 46 then
    if ev_pointer_defined env then Ok (eval_okay, ii + 1, ev_pointer env)
    else Ok (Z.lor eval_label_undef ii, ii + 1, 0)
  else
    let* (radix, ii) := get_radix input ii in
    if 0 <? radix then
      let* (ok, value, ii) := get_num input ii radix in
      Ok (if ok then eval_okay else eval_out_of_radix, ii, value)
    else Ok (eval_no_operand, ii, 0).

(** An identifier: a symbol, or failing that a CSR. *)
(* tools/assembler/rva.c:4207-4234 get_variable *)
Definition get_symbol (ident : list Z) (ii : Z) : res (Z * Z * Z * Z) :=
  let next := ii + Z.of_nat (length ident) in
  let* s := ev_symbol env ident in
  match s with
  | Some (flags, value) =>
      if truthy (Z.land flags SYM_REC_DEF_FLAG) then Ok (eval_okay, next, value, 0)
      else Ok (Z.lor eval_label_undef ii, next, 0, 1)
  | None =>
      let* c := ev_csr env ident in
      match c with
      | Some (_, value) => Ok (eval_okay, next, value, 0)
      | None => Ok (Z.lor eval_no_label ii, next, 0, 0)
      end
  end.

(** The unary operator at [ii]. *)
(* tools/assembler/rva.c:4188-4191 get_variable *)
Definition get_unary (input : list Z) (ii : Z) : res (Z * Z) :=
  let* c := zget input ii in
  if c =? 43 then let* ii := skip_spc input (ii + 1) in Ok (PLUS, ii)
  else if c =? 45 then let* ii := skip_spc input (ii + 1) in Ok (MINUS, ii)
  else if c =? 126 then let* ii := skip_spc input (ii + 1) in Ok (NOT, ii)
  else if c =? 124 then let* ii := skip_spc input (ii + 1) in Ok (LOG, ii)
  else Ok (PLUS, ii).

(** May the position move on? *)
(* tools/assembler/rva.c:4340-4341 get_variable *)
Definition progress (status : Z) : bool :=
  (status =? eval_okay) || truthy (Z.land status ALL_EXCEPT_LAST_PASS).

(* tools/assembler/rva.c:4172-4343 get_variable *)
Definition get_variable (input : list Z) (pos : Z) : res variable :=
  let* pos := skip_spc input pos in
  let* (unary, ii) := get_unary input pos in
  let* c := zget input ii in
  if c =? 40 then Ok (Variable_ eval_okay (ii + 1) 0 unary true 0)
  else
    let* ident := get_identifier input ii LINE_LENGTH in
    let* (status, ii, value, undef) :=
      match ident with
      | _ :: _ => get_symbol ident ii
      | [] =>
          let* (status, ii, value) :=
            (if c =? 37 then get_local input ii
             else if c =? 39 then get_char_const input ii
             else get_constant input ii) in
          Ok (status, ii, value, 0)
      end in
    Ok (Variable_ status (if progress status then ii else pos) value unary false undef).

(* tools/assembler/rva.c:4428-4452 get_operator *)
Definition priority_of (operator : Z) : Z :=
  if operator =? END then 0
  else if operator =? CLOSEBR then 1
  else if (operator =? PLUS) || (operator =? MINUS) then 3
  else if (operator =? MULTIPLY) || (operator =? DIVIDE) || (operator =? MODULUS) then 4
  else if (operator =? LEFT_SHIFT) || (operator =? RIGHT_SHIFT) then 7
  else if operator =? AND then 6
  else if (operator =? OR) || (operator =? XOR) then 5
  else 2.

(** The single-character operators and the terminators. *)
(* tools/assembler/rva.c:4370-4408 get_operator *)
Definition punctuation (c c1 : Z) : option (Z * Z) :=
  if (c =? 0) || (c =? 44) || (c =? 59) || (c =? 91) || (c =? 93) || (c =? 125) || (c =? 10) then Some (END, 0)
  else if c =? 43 then Some (PLUS, 1)
  else if c =? 45 then Some (MINUS, 1)
  else if c =? 42 then Some (MULTIPLY, 1)
  else if c =? 47 then Some (DIVIDE, 1)
  else if c =? 92 then Some (MODULUS, 1)
  else if c =? 41 then Some (CLOSEBR, 1)
  else if c =? 124 then Some (OR, 1)
  else if c =? 38 then Some (AND, 1)
  else if c =? 94 then Some (XOR, 1)
  else if c =? 61 then Some (EQUALS, 1)
  else if c =? 33 then (if c1 =? 61 then Some (NOT_EQUAL, 2) else None)
  else if c =? 60 then
    (if c1 =? 60 then Some (LEFT_SHIFT, 2) else if c1 =? 62 then Some (NOT_EQUAL, 2)
     else if c1 =? 61 then Some (LOWER_EQUAL, 2) else Some (LOWER_THAN, 1))
  else if c =? 62 then
    (if c1 =? 62 then Some (RIGHT_SHIFT, 2) else if c1 =? 61 then Some (HIGHER_EQUAL, 2)
     else Some (HIGHER_THAN, 1))
  else None.

(** Is the character after [c] looked at? *)
Definition two_char (c : Z) : bool := (c =? 33) || (c =? 60) || (c =? 62).

(** Status, operator, priority and position. When no operator is recognised the
    operator is left as it was and its priority is not used. *)
(* tools/assembler/rva.c:4359-4456 get_operator *)
Definition get_operator (input : list Z) (pos : Z) : res (Z * Z * Z * Z) :=
  let* pos := skip_spc input pos in
  let* c := zget input pos in
  let* c1 := (if two_char c then zget input (pos + 1) else Ok 0) in
  match punctuation c c1 with
  | Some (op, n) => Ok (eval_okay, op, priority_of op, pos + n)
  | None =>
      if two_char c then Ok (eval_no_operator, END, 0, pos)
      else
        let* buffer := get_identifier input pos SYM_NAME_MAX in
        let* s := (match buffer with [] => Ok None | _ => ev_operator env buffer end) in
        match s with
        | Some (_, op) => Ok (eval_okay, op, priority_of op, pos + Z.of_nat (length buffer))
        | None => Ok (eval_no_operator, END, 0, pos)
        end
  end.

(** ** The evaluator *)

(** The variables the nested function shares with [evaluate], and the counters it
    bumps. *)
Record estate : Type := EState {
  es_stack : list Z; es_sp : Z; es_pos : Z; es_error : Z; es_first : Z; es_div_zero : bool; es_undefined : Z;
}.

(** C's comparison results: all ones or zero. *)
Definition flag (b : bool) : Z := if b then 4294967295 else 0.

(* tools/assembler/rva.c:4008-4016 Eval_inner *)
Definition apply_unary (unary operand : Z) : Z :=
  if unary =? MINUS then u32 (- operand)
  else if unary =? NOT then not32 operand
  else if unary =? LOG then (if operand =? 0 then 4294967295 else Z.log2 operand)
  else operand.

(** A shift by 32 or more is undefined. Division by zero is dealt with by the caller. *)
(* tools/assembler/rva.c:4023-4106 Eval_inner *)
Definition apply_binary (op a b : Z) : res Z :=
  if op =? PLUS then Ok (u32 (a + b))
  else if op =? MINUS then Ok (u32 (a - b))
  else if op =? MULTIPLY then Ok (u32 (a * b))
  else if op =? DIVIDE then Ok (if b =? 0 then 4294967295 else a / b)
  else if op =? MODULUS then Ok (if b =? 0 then b else a mod b)
  else if op =? LEFT_SHIFT then (if 32 <=? b then Undef else Ok (u32 (Z.shiftl a b)))
  else if op =? RIGHT_SHIFT then (if 32 <=? b then Undef else Ok (Z.shiftr a b))
  else if op =? AND then Ok (Z.land a b)
  else if op =? OR then Ok (Z.lor a b)
  else if op =? XOR then Ok (Z.lxor a b)
  else if op =? EQUALS then Ok (flag (a =? b))
  else if op =? NOT_EQUAL then Ok (flag (negb (a =? b)))
  else if op =? LOWER_THAN then Ok (flag (a <? b))
  else if op =? LOWER_EQUAL then Ok (flag (a <=? b))
  else if op =? HIGHER_THAN then Ok (flag (b <? a))
  else if op =? HIGHER_EQUAL then Ok (flag (b <=? a))
  else if op =? LESS_THAN then Ok (flag (s32 a <? s32 b))
  else if op =? LESS_EQUAL then Ok (flag (s32 a <=? s32 b))
  else if op =? GREATER_THAN then Ok (flag (s32 b <? s32 a))
  else if op =? GREATER_EQUAL then Ok (flag (s32 b <=? s32 a))
  else Ok b.

(** Pop and apply the pending operators of at least the given priority. *)
(* tools/assembler/rva.c:4020-4108 Eval_inner *)
Fixpoint reduce (fuel : nat) (priority operand : Z) (st : estate) : res (Z * estate) :=
  match fuel with
  | O => NoFuel
  | S fuel =>
      let* top := zget (es_stack st) (es_sp st - 1) in
      if ((priority <=? top) && (1 <? top))%bool then
        let* op := zget (es_stack st) (es_sp st - 2) in
        let* a := zget (es_stack st) (es_sp st - 3) in
        let dz := ((op =? DIVIDE) && (operand =? 0))%bool in
        let error :=
          if (dz && (es_error st =? eval_okay) && (es_first st =? eval_okay))%bool then eval_div_by_zero
          else es_error st in
        let* operand := apply_binary op a operand in
        reduce fuel priority operand
          (EState (es_stack st) (es_sp st - 3) (es_pos st) error (es_first st) (es_div_zero st || dz)
             (es_undefined st))
      else Ok (operand, st)
  end.

Definition with_error (e : Z) (st : estate) : estate :=
  EState (es_stack st) (es_sp st) (es_pos st) e (es_first st) (es_div_zero st) (es_undefined st).
Definition with_pos (p : Z) (st : estate) : estate :=
  EState (es_stack st) (es_sp st) p (es_error st) (es_first st) (es_div_zero st) (es_undefined st).
Definition with_stack (s : list Z) (sp : Z) (st : estate) : estate :=
  EState s sp (es_pos st) (es_error st) (es_first st) (es_div_zero st) (es_undefined st).

(** The `start' marker; its index is not checked. *)
(* tools/assembler/rva.c:3990-3991 Eval_inner *)
Definition push_marker (priority : Z) (st : estate) : res estate :=
  let* s := zupd (es_stack st) (es_sp st) priority in Ok (with_stack s (es_sp st + 1) st).

(** After an operand: read an operator, reduce, and push or finish. *)
(* tools/assembler/rva.c:4018-4129 Eval_inner *)
Definition eval_operator (input : list Z) (operand : Z) (st : estate) : res (bool * Z * estate) :=
  let* (status, operator, priority, pos) := get_operator input (es_pos st) in
  let st := with_pos pos (with_error status st) in
  if negb (status =? eval_okay) then Ok (false, operand, st)
  else
    let* (operand, st) := reduce (S (Z.to_nat MATHSTACK_SIZE)) priority operand st in
    if priority <=? 1 then
      let* top := zget (es_stack st) (es_sp st - 1) in
      Ok (true, operand,
          if priority =? top then with_stack (es_stack st) (es_sp st - 1) st
          else if priority =? 0 then with_error eval_not_closebr st
          else with_error eval_not_openbr st)
    else if es_sp st + 3 <=? MATHSTACK_SIZE then
      let* s := zupd (es_stack st) (es_sp st) operand in
      let* s := zupd s (es_sp st + 1) operator in
      let* s := zupd s (es_sp st + 2) priority in
      Ok (false, operand, with_stack s (es_sp st + 3) st)
    else Ok (false, operand, with_error eval_mathstack_limit st).

(** Where on the line the error is. *)
(* tools/assembler/rva.c:4132-4140 Eval_inner *)
Definition locate_error (st : estate) : estate :=
  if es_error st =? eval_not_openbr then with_error (Z.lor (es_error st) (es_pos st - 1)) st
  else if negb (es_error st =? eval_div_by_zero) then with_error (Z.lor (es_error st) (es_pos st)) st
  else st.

(** The loop of [Eval_inner]. Each round consumes input, or stops on an error, so the
    length of the line is fuel enough. *)
(* tools/assembler/rva.c:3983-4146 Eval_inner *)
Fixpoint eval_loop (fuel : nat) (input : list Z) (st : estate) : res (Z * estate) :=
  match fuel with
  | O => NoFuel
  | S fuel =>
      let* v := get_variable input (es_pos st) in
      let held := truthy (Z.land (vr_status v) ALL_EXCEPT_LAST_PASS) in
      let st := EState (es_stack st) (es_sp st) (vr_pos v) (if held then eval_okay else vr_status v)
                  (if (held && (es_first st =? eval_okay))%bool then vr_status v else es_first st)
                  (es_div_zero st) (es_undefined st + vr_undefined v) in
      let* (done, operand, st) :=
        (if es_error st =? eval_okay then
           let* (operand, st) :=
             (if vr_bracket v then let* st := push_marker 1 st in eval_loop fuel input st
              else Ok (vr_value v, st)) in
           if es_error st =? eval_okay then eval_operator input (apply_unary (vr_unary v) operand) st
           else Ok (false, operand, st)
         else Ok (false, vr_value v, st)) in
      if negb (es_error st =? eval_okay) then Ok (operand, locate_error st)
      else if done : bool then Ok (operand, st)
      else eval_loop fuel input st
  end.

(** The error status, the value, the position, and the two counters. *)
(* tools/assembler/rva.c:3977-4155 evaluate *)
Definition evaluate (input : list Z) (pos : Z) : res (Z * Z * estate) :=
  let st := EState (replicate (Z.to_nat MATHSTACK_SIZE) 0) 0 pos eval_okay eval_okay false 0 in
  let* st := push_marker 0 st in
  let* (value, st) := eval_loop (S (length input)) input st in
  Ok (if es_error st =? eval_okay then es_first st else es_error st, value, st).

End Eval.

(** ** Expressions

    The trees the evaluator is meant to compute: an operand or a bracketed
    expression, each with its unary operator, and a binary operation. *)

Inductive expr : Type :=
| E_val (unary v : Z)
| E_paren (unary : Z) (e : expr)
| E_bin (op : Z) (l r : expr).

(** A binary operation, where it is defined. *)
Definition binary (op a b : Z) : option Z :=
  if ((op =? DIVIDE) && (b =? 0))%bool then None
  else match apply_binary op a b with Ok v => Some v | _ => None end.

(** The value of an expression. *)
Fixpoint denote (e : expr) : option Z :=
  match e with
  | E_val u v => Some (apply_unary u v)
  | E_paren u e => match denote e with Some x => Some (apply_unary u x) | None => None end
  | E_bin op l r =>
      match denote l, denote r with Some a, Some b => binary op a b | _, _ => None end
  end.

(** The tree respects the priorities, operators of equal priority grouping to the
    left; every operator has priority at least [m]. *)
Fixpoint grouped (m : Z) (e : expr) : Prop :=
  match e with
  | E_val _ _ => True
  | E_paren _ e => grouped 2 e
  | E_bin op l r =>
      m <= priority_of op /\ 2 <= priority_of op /\ grouped (priority_of op) l /\ grouped (priority_of op + 1) r
  end.

(** The words of stack the evaluator needs for it. *)
Fixpoint need (e : expr) : Z :=
  match e with
  | E_val _ _ => 0
  | E_paren _ e => 1 + need e
  | E_bin _ l r => Z.max (need l) (3 + need r)
  end.

(** The rounds of the loop it takes, brackets included. *)
Fixpoint cost (e : expr) : nat :=
  match e with
  | E_val _ _ => 1
  | E_paren _ e => S (cost e)
  | E_bin _ l r => cost l + cost r
  end.

(** The operands outside brackets. *)
Fixpoint operands (e : expr) : nat :=
  match e with
  | E_val _ _ => 1
  | E_paren _ _ => 1
  | E_bin _ l r => operands l + operands r
  end.

(** [reads env input pos e pos']: the text from [pos] to [pos'] is that of [e]. *)
Inductive reads (env : eval_env) (input : list Z) : Z -> expr -> Z -> Prop :=
| reads_val pos pos' u v n :
    get_variable env input pos = Ok (Variable_ eval_okay pos' v u false n) ->
    reads env input pos (E_val u v) pos'
| reads_paren pos p1 p2 pos' u e :
    get_variable env input pos = Ok (Variable_ eval_okay p1 0 u true 0) ->
    reads env input p1 e p2 ->
    get_operator env input p2 = Ok (eval_okay, CLOSEBR, 1, pos') ->
    reads env input pos (E_paren u e) pos'
| reads_bin pos p1 p2 pos' op l r :
    reads env input pos l p1 ->
    get_operator env input p1 = Ok (eval_okay, op, priority_of op, p2) ->
    reads env input p2 r pos' ->
    reads env input pos (E_bin op l r) pos'.

(** ** Lemmas *)

(** Pending operations, the latest first, and the words they take on the stack. *)
Abbreviation frame := (Z * Z * Z)%type.

Fixpoint words (fs : list frame) : list Z :=
  match fs with [] => [] | (v, op, q) :: fs => words fs ++ [v; op; q] end.

Fixpoint unwind (fs : list frame) (x : Z) : option Z :=
  match fs with
  | [] => Some x
  | (v, op, _) :: fs => match binary op v x with Some y => unwind fs y | None => None end
  end.

Definition prio (f : frame) : Z := snd f.

Lemma words_app fs gs : words (fs ++ gs) = words gs ++ words fs.
Proof. induction fs as [|[[v op] q] fs IH]; simpl; [rewrite app_nil_r; reflexivity|]. rewrite IH, <- app_assoc. reflexivity. Qed.

Lemma words_length fs : length (words fs) = (3 * length fs)%nat.
Proof. induction fs as [|[[v op] q] fs IH]; simpl; [reflexivity|]. rewrite length_app, IH. simpl. lia. Qed.

Lemma unwind_app fs gs x : unwind (fs ++ gs) x = match unwind fs x with Some y => unwind gs y | None => None end.
Proof. revert x. induction fs as [|[[v op] q] fs IH]; intros x; simpl; [reflexivity|]. destruct (binary op v x); auto. Qed.

Lemma cost_operands e : (operands e <= cost e)%nat.
Proof. induction e; simpl; lia. Qed.

(** The stack of [st] holds exactly the words [ws]. *)
Definition holds (st : estate) (ws : list Z) : Prop :=
  length (es_stack st) = 20%nat /\ es_sp st = Z.of_nat (length ws) /\ take (length ws) (es_stack st) = ws.

Definition fine (st : estate) (ws : list Z) (pos : Z) : Prop :=
  holds st ws /\ es_pos st = pos /\ es_error st = eval_okay /\ es_first st = eval_okay.

Lemma holds_zget st ws ws' x k : holds st (ws ++ x :: ws') -> k = Z.of_nat (length ws) ->
  zget (es_stack st) k = Ok x.
Proof.
  intros (_ & _ & Ht) ->. unfold zget. replace (Z.of_nat (length ws) <? 0) with false by (symmetry; apply Z.ltb_ge; lia).
  rewrite Nat2Z.id. assert (Hl : take (length (ws ++ x :: ws')) (es_stack st) !! length ws = Some x)
    by (rewrite Ht; apply list_lookup_middle; reflexivity).
  rewrite lookup_take_lt in Hl by (rewrite length_app; simpl; lia). rewrite Hl. reflexivity.
Qed.

Lemma holds_prefix st ws ws' : holds st (ws ++ ws') -> holds (with_stack (es_stack st) (Z.of_nat (length ws)) st) ws.
Proof.
  intros (Hl & _ & Ht). split; [exact Hl|]. split; [reflexivity|]. cbn.
  apply (f_equal (take (length ws))) in Ht. rewrite take_take, take_app_length, length_app in Ht.
  replace (length ws `min` (length ws + length ws'))%nat with (length ws) in Ht by lia. exact Ht.
Qed.

Lemma holds_bound st ws : holds st ws -> (length ws <= 20)%nat.
Proof. intros (Hl & _ & Ht). apply (f_equal length) in Ht. rewrite length_take in Ht. lia. Qed.

Lemma with_stack_same st s sp : with_stack s sp (with_stack (es_stack st) sp st) = with_stack s sp st.
Proof. reflexivity. Qed.

(** Pending operations of at least the given priority are all applied. *)
Lemma reduce_frames priority fs : forall fuel base y x st,
  holds st (base ++ words fs) -> Forall (fun f => priority <= prio f /\ 1 < prio f) fs ->
  (exists b t, base = b ++ [t] /\ (priority <=? t) && (1 <? t) = false)%bool ->
  unwind fs y = Some x -> (length fs < fuel)%nat ->
  reduce fuel priority y st = Ok (x, with_stack (es_stack st) (Z.of_nat (length base)) st).
Proof.
  induction fs as [|[[v op] q] fs IH]; intros fuel base y x st Hh Hfs (b & t & Hb & Ht) Hu Hf;
    (destruct fuel; [simpl in Hf; lia|]); cbn [reduce].
  - simpl in Hh. rewrite app_nil_r in Hh. pose proof Hh as (_ & Hsp & _).
    rewrite (holds_zget st b [] t).
    + cbn [rbind]. rewrite Ht. injection Hu as <-. rewrite <- Hsp. destruct st; reflexivity.
    + rewrite <- Hb. exact Hh.
    + rewrite Hsp, Hb, length_app. simpl. lia.
  - apply Forall_cons in Hfs as [[Hq Hq1] Hfs]. cbn in Hq, Hq1.
    simpl words in Hh. rewrite app_assoc in Hh. pose proof Hh as (_ & Hsp & _).
    assert (Hlen : length ((base ++ words fs) ++ [v; op; q]) = (length (base ++ words fs) + 3)%nat)
      by (rewrite (length_app (base ++ words fs)); reflexivity).
    rewrite (holds_zget st ((base ++ words fs) ++ [v; op]) [] q).
    2: { rewrite <- app_assoc. exact Hh. }
    2: { rewrite Hsp, Hlen, (length_app _ [v; op]). simpl. lia. }
    cbn [rbind]. replace ((priority <=? q) && (1 <? q))%bool with true.
    2: { symmetry. apply andb_true_iff. split; [apply Z.leb_le|apply Z.ltb_lt]; lia. }
    rewrite (holds_zget st ((base ++ words fs) ++ [v]) [q] op).
    2: { rewrite <- app_assoc. exact Hh. }
    2: { rewrite Hsp, Hlen, (length_app _ [v]). simpl. lia. }
    cbn [rbind]. rewrite (holds_zget st (base ++ words fs) [op; q] v).
    2: { exact Hh. }
    2: { rewrite Hsp, Hlen. lia. }
    cbn [rbind]. simpl unwind in Hu. unfold binary in Hu.
    destruct ((op =? DIVIDE) && (y =? 0))%bool eqn:Edz; [discriminate|]. cbn [andb].
    destruct (apply_binary op v y) as [z| |]; [|discriminate..]. cbn [rbind]. rewrite orb_false_r.
    pose proof (holds_prefix st (base ++ words fs) [v; op; q] Hh) as Hh'.
    replace (es_sp st - 3) with (Z.of_nat (length (base ++ words fs))) by (rewrite Hsp, Hlen; lia).
    change (EState (es_stack st) (Z.of_nat (length (base ++ words fs))) (es_pos st) (es_error st) (es_first st)
      (es_div_zero st) (es_undefined st))
      with (with_stack (es_stack st) (Z.of_nat (length (base ++ words fs))) st).
    rewrite (IH fuel base z x _ Hh' Hfs); [reflexivity| |exact Hu|simpl in Hf; lia]. eauto.
Qed.

(** Writing the next word of the stack. *)
Lemma push_word st ws x : holds st ws -> (length ws < 20)%nat ->
  exists s, zupd (es_stack st) (es_sp st) x = Ok s /\ holds (with_stack s (es_sp st + 1) st) (ws ++ [x]).
Proof.
  intros (Hl & Hsp & Ht) Hlt. rewrite Hsp, zupd_ok by lia. eexists. split; [reflexivity|].
  split; [cbn; rewrite length_insert; exact Hl|]. split; [cbn; rewrite length_app; simpl; lia|]. cbn.
  rewrite Nat2Z.id, length_app. replace (length ws + length [x])%nat with (S (length ws)) by (simpl; lia).
  rewrite (take_S_r _ _ x); [rewrite take_insert_ge by lia; rewrite Ht; reflexivity|].
  apply list_lookup_insert_eq. lia.
Qed.

Lemma with_stack_twice s1 p1 s2 p2 st : with_stack s2 p2 (with_stack s1 p1 st) = with_stack s2 p2 st.
Proof. reflexivity. Qed.

(** Writing an operation on the stack. *)
Lemma push_frame st ws a op q : holds st ws -> (length ws + 3 <= 20)%nat ->
  exists s1 s2 s3, zupd (es_stack st) (es_sp st) a = Ok s1 /\ zupd s1 (es_sp st + 1) op = Ok s2 /\
    zupd s2 (es_sp st + 2) q = Ok s3 /\ holds (with_stack s3 (es_sp st + 3) st) (ws ++ [a; op; q]).
Proof.
  intros H Hlen. destruct (push_word st ws a H ltac:(lia)) as (s1 & E1 & H1).
  destruct (push_word _ _ op H1) as (s2 & E2 & H2); [rewrite length_app; simpl; lia|]. cbn in E2.
  destruct (push_word _ _ q H2) as (s3 & E3 & H3); [rewrite !length_app; simpl; lia|]. cbn in E3.
  rewrite <- Z.add_assoc in E3. exists s1, s2, s3. split; [exact E1|]. split; [exact E2|]. split; [exact E3|].
  rewrite !with_stack_twice in H3. cbn [es_sp with_stack] in H3. rewrite <- !Z.add_assoc, <- !app_assoc in H3. exact H3.
Qed.

Section Exec.

Context (env : eval_env) (input : list Z).

(** The rest of a round of the loop, once the operand is known. *)
Definition after (fuel : nat) (operand : Z) (st : estate) : res (Z * estate) :=
  let* (done, operand, st) := eval_operator env input operand st in
  if negb (es_error st =? eval_okay) then Ok (operand, locate_error st)
  else if done : bool then Ok (operand, st)
  else eval_loop env fuel input st.

(** An operator that binds looser than the pending operations applies them and is
    pushed. *)
Lemma operator_pushed st base fs y x op p1 p2 b t : 2 <= priority_of op ->
  fine st (base ++ words fs) p1 -> get_operator env input p1 = Ok (eval_okay, op, priority_of op, p2) ->
  Forall (fun f => priority_of op <= prio f) fs -> base = b ++ [t] -> t < priority_of op ->
  unwind fs y = Some x -> (length base + 3 <= 20)%nat ->
  exists st', eval_operator env input y st = Ok (false, x, st') /\ fine st' (base ++ [x; op; priority_of op]) p2.
Proof.
  intros Hq (Hh & Hp & He & Hf) Eop Hfs Hb Ht Hu Hlen. unfold eval_operator. rewrite Hp, Eop. cbn [rbind].
  change (negb (eval_okay =? eval_okay)) with false. cbv iota.
  set (st0 := with_pos p2 (with_error eval_okay st)).
  assert (Hh0 : holds st0 (base ++ words fs)) by exact Hh.
  rewrite (reduce_frames (priority_of op) fs _ base y x st0 Hh0).
  2: { eapply Forall_impl; [exact Hfs|]. cbn. intros; lia. }
  2: { exists b, t. split; [exact Hb|]. apply andb_false_iff. left. apply Z.leb_gt. lia. }
  2: { exact Hu. }
  2: { apply holds_bound in Hh. rewrite length_app, words_length in Hh. change (Z.to_nat MATHSTACK_SIZE) with 20%nat. lia. }
  cbn [rbind]. replace (priority_of op <=? 1) with false by (symmetry; apply Z.leb_gt; lia).
  apply holds_prefix in Hh0. set (st1 := with_stack _ _ st0) in *.
  destruct (push_frame st1 base x op (priority_of op) Hh0 Hlen) as (s1 & s2 & s3 & E1 & E2 & E3 & H3).
  replace (es_sp st1 + 3 <=? MATHSTACK_SIZE) with true.
  2: { symmetry. apply Z.leb_le. subst st1. cbn. change MATHSTACK_SIZE with 20. lia. }
  rewrite E1. cbn [rbind]. rewrite E2. cbn [rbind]. rewrite E3. cbn [rbind].
  eexists. split; [reflexivity|]. split; [exact H3|]. repeat split; assumption || reflexivity.
Qed.

(** A terminator applies them all and takes its marker off. *)
Lemma terminator_popped st b fs y x op q p1 p2 : q = 0 \/ q = 1 ->
  fine st ((b ++ [q]) ++ words fs) p1 -> get_operator env input p1 = Ok (eval_okay, op, q, p2) ->
  Forall (fun f => 2 <= prio f) fs -> unwind fs y = Some x ->
  exists st', eval_operator env input y st = Ok (true, x, st') /\ fine st' b p2.
Proof.
  intros Hq (Hh & Hp & He & Hf) Eop Hfs Hu. unfold eval_operator. rewrite Hp, Eop. cbn [rbind].
  change (negb (eval_okay =? eval_okay)) with false. cbv iota.
  set (st0 := with_pos p2 (with_error eval_okay st)).
  assert (Hh0 : holds st0 ((b ++ [q]) ++ words fs)) by exact Hh.
  rewrite (reduce_frames q fs _ (b ++ [q]) y x st0 Hh0).
  2: { eapply Forall_impl; [exact Hfs|]. cbn. intros; lia. }
  2: { exists b, q. split; [reflexivity|]. apply andb_false_iff. right. apply Z.ltb_ge. lia. }
  2: { exact Hu. }
  2: { apply holds_bound in Hh. rewrite length_app, words_length in Hh. change (Z.to_nat MATHSTACK_SIZE) with 20%nat. lia. }
  cbn [rbind]. replace (q <=? 1) with true by (symmetry; apply Z.leb_le; lia).
  apply holds_prefix in Hh0. set (st1 := with_stack _ _ st0) in *.
  assert (Hsp : es_sp st1 - 1 = Z.of_nat (length b)) by (subst st1; cbn; rewrite length_app; simpl; lia).
  rewrite (holds_zget st1 b [] q); [|exact Hh0|exact Hsp]. cbn [rbind]. rewrite Z.eqb_refl, Hsp.
  eexists. split; [reflexivity|]. split; [apply (holds_prefix st1 b [q] Hh0)|]. repeat split; assumption || reflexivity.
Qed.

(** A round of the loop whose operand is a value. *)
Lemma loop_value f st base pos pos' u v n : fine st base pos ->
  get_variable env input pos = Ok (Variable_ eval_okay pos' v u false n) ->
  exists st', eval_loop env (S f) input st = after f (apply_unary u v) st' /\ fine st' base pos'.
Proof.
  intros (Hh & Hp & He & Hf) Ev. cbn [eval_loop]. rewrite Hp, Ev. cbn [rbind vr_status vr_pos vr_value vr_unary vr_bracket].
  change (truthy (Z.land eval_okay ALL_EXCEPT_LAST_PASS)) with false. cbv iota. cbn [andb es_error].
  change (eval_okay =? eval_okay) with true. cbv iota. cbn [rbind es_error].
  change (eval_okay =? eval_okay) with true. cbv iota.
  eexists. split; [reflexivity|]. repeat split; try assumption; apply Hh.
Qed.

(** A round of the loop whose operand is in brackets. *)
Lemma loop_paren f st base pos p1 u inner : fine st base pos -> (length base < 20)%nat ->
  get_variable env input pos = Ok (Variable_ eval_okay p1 0 u true 0) ->
  (forall st1, fine st1 (base ++ [1]) p1 -> exists x st2 p2,
     eval_loop env f input st1 = Ok (x, st2) /\ fine st2 base p2 /\ inner = (x, p2)) ->
  exists st', eval_loop env (S f) input st = after f (apply_unary u (fst inner)) st' /\ fine st' base (snd inner).
Proof.
  intros (Hh & Hp & He & Hf) Hlen Ev Hin. cbn [eval_loop]. rewrite Hp, Ev.
  cbn [rbind vr_status vr_pos vr_value vr_unary vr_bracket].
  change (truthy (Z.land eval_okay ALL_EXCEPT_LAST_PASS)) with false. cbv iota. cbn [andb es_error].
  change (eval_okay =? eval_okay) with true. cbv iota. unfold push_marker.
  set (st0 := EState _ _ _ _ _ _ _). assert (Hh0 : holds st0 base) by exact Hh.
  destruct (push_word st0 base 1 Hh0 Hlen) as (s & Es & Hs). rewrite Es. cbn [rbind].
  destruct (Hin (with_stack s (es_sp st0 + 1) st0)) as (x & st2 & p2 & E2 & H2 & ->).
  { split; [exact Hs|]. repeat split; assumption || reflexivity. }
  rewrite E2. cbn [rbind]. pose proof H2 as (_ & _ & He2 & _). rewrite He2.
  change (eval_okay =? eval_okay) with true. cbv iota. eexists. split; [reflexivity|]. exact H2.
Qed.

Lemma top_of_base (base : list Z) m m' : (exists b t, base = b ++ [t] /\ t < m) -> m <= m' ->
  exists b t, base = b ++ [t] /\ t < m'.
Proof. intros (b & t & -> & Ht) Hm. exists b, t. split; [reflexivity|lia]. Qed.

(** Running the loop over the text of an expression leaves its value as pending
    operations and an operand. *)
Lemma exec pos e pos' : reads env input pos e pos' -> forall m x fuel st base,
  2 <= m -> grouped m e -> denote e = Some x -> fine st base pos -> (exists b t, base = b ++ [t] /\ t < m) ->
  Z.of_nat (length base) + need e <= 20 -> (cost e <= fuel)%nat ->
  exists y fs st1, eval_loop env fuel input st = after (fuel - operands e) y st1 /\
    Forall (fun f => m <= prio f) fs /\ unwind fs y = Some x /\ fine st1 (base ++ words fs) pos'.
Proof.
  induction 1 as [pos pos' u v n Ev|pos p1 p2 pos' u e Ev Hr IH Eop|pos p1 p2 pos' op l r Hl IHl Eop Hr IHr];
    intros m x fuel st base Hm Hg Hd Hst Hb Hneed Hf; simpl in Hg, Hd, Hneed, Hf.
  - destruct fuel as [|f]; [lia|]. injection Hd as <-.
    destruct (loop_value f st base pos pos' u v n Hst Ev) as (st' & E & H'). exists (apply_unary u v), [], st'.
    simpl operands. replace (S f - 1)%nat with f by lia. split; [exact E|]. split; [constructor|]. split; [reflexivity|].
    simpl. rewrite app_nil_r. exact H'.
  - destruct fuel as [|f]; [lia|]. destruct (denote e) as [z|] eqn:Ee; [|discriminate]. injection Hd as <-.
    assert (Hn0 : 0 <= need e) by (clear; induction e; simpl; lia).
    destruct (loop_paren f st base pos p1 u (z, pos') Hst ltac:(lia) Ev) as (st' & E & H').
    { intros st1 Hst1.
      destruct (IH 2 z f st1 (base ++ [1]) ltac:(lia) Hg eq_refl Hst1) as (y & fs & st2 & E2 & Hfs & Hu & H2).
      - exists base, 1. split; [reflexivity|lia].
      - rewrite length_app. simpl. lia.
      - lia.
      - destruct (terminator_popped st2 base fs y z CLOSEBR 1 p2 pos' (or_intror eq_refl) H2 Eop Hfs Hu)
          as (st3 & E3 & H3).
        exists z, st3, pos'. split; [|split; [exact H3|reflexivity]].
        rewrite E2. unfold after. rewrite E3. cbn [rbind]. pose proof H3 as (_ & _ & -> & _). reflexivity. }
    exists (apply_unary u z), [], st'. simpl operands. replace (S f - 1)%nat with f by lia.
    split; [exact E|]. split; [constructor|]. split; [reflexivity|]. simpl. rewrite app_nil_r. exact H'.
  - destruct Hg as (Hmq & H2q & Hgl & Hgr).
    destruct (denote l) as [a|] eqn:El; [|discriminate]. destruct (denote r) as [c|] eqn:Er; [|discriminate].
    pose proof (cost_operands l) as Hcl. assert (Hn0 : 0 <= need r) by (clear; induction r; simpl; lia).
    destruct (IHl (priority_of op) a fuel st base ltac:(lia) Hgl eq_refl Hst (top_of_base _ _ _ Hb Hmq)
      ltac:(lia) ltac:(lia)) as (y & fs & st1 & E1 & Hfs & Hu & H1).
    destruct (top_of_base _ _ _ Hb Hmq) as (b & t & Hbt & Ht).
    destruct (operator_pushed st1 base fs y a op p1 p2 b t ltac:(lia) H1 Eop Hfs Hbt Ht Hu ltac:(lia))
      as (st2 & E2 & H2).
    destruct (IHr (priority_of op + 1) c (fuel - operands l)%nat st2 (base ++ [a; op; priority_of op])
      ltac:(lia) Hgr eq_refl H2) as (y' & fs' & st3 & E3 & Hfs' & Hu' & H3).
    { exists (base ++ [a; op]), (priority_of op). split; [rewrite <- app_assoc; reflexivity|lia]. }
    { rewrite length_app. simpl. lia. }
    { lia. }
    exists y', (fs' ++ [(a, op, priority_of op)]), st3. split; [|split; [|split]].
    + rewrite E1. unfold after at 1. rewrite E2. cbn [rbind]. pose proof H2 as (_ & _ & -> & _).
      change (negb (eval_okay =? eval_okay)) with false. cbv iota. rewrite E3. simpl operands. f_equal. lia.
    + apply Forall_app. split; [eapply Forall_impl; [exact Hfs'|]; cbn; intros; lia|]. repeat constructor. exact Hmq.
    + rewrite unwind_app, Hu'. simpl. rewrite Hd. reflexivity.
    + rewrite words_app. simpl words. rewrite app_assoc. exact H3.
Qed.

End Exec.

(** Reading never moves back, and an operand moves on by a character at least. *)
Lemma skip_spc_forward input pos p : skip_spc input pos = Ok p -> pos <= p.
Proof.
  unfold skip_spc. generalize (S (length input)). intros f. revert pos.
  induction f as [|f IH]; intros pos H; cbn [skip_spc_loop] in H; [discriminate|].
  apply rbind_ok in H as (c & _ & H). destruct ((c =? 32) || (c =? 9))%bool; [apply IH in H; lia|].
  injection H as <-. lia.
Qed.

Lemma num_char_forward input pos radix d p : num_char input pos radix = Ok (d, p) -> pos <= p.
Proof.
  unfold num_char. intros H. apply rbind_ok in H as (q & E & H). apply rbind_ok in H as (c & _ & H).
  injection H as _ <-. revert pos E. generalize (S (length input)). intros f.
  induction f as [|f IH]; intros pos H; cbn [skip_underscores] in H; [discriminate|].
  apply rbind_ok in H as (c' & _ & H). destruct (c' =? 95); [apply IH in H; lia|]. injection H as <-. lia.
Qed.

Lemma get_num_loop_forward input radix : forall fuel i value found found' value' i',
  get_num_loop fuel input i radix value found = Ok (found', value', i') ->
  i <= i' /\ (found' = true -> found = true \/ i < i').
Proof.
  induction fuel as [|f IH]; intros i value found found' value' i' H; cbn [get_num_loop] in H; [discriminate|].
  apply rbind_ok in H as ([d p] & E & H). apply num_char_forward in E. destruct (0 <=? d).
  - apply IH in H as [H _]. split; [lia|]. right. lia.
  - injection H as <- _ <-. split; [exact E|auto].
Qed.

Lemma get_num_forward input pos radix ok v p : get_num input pos radix = Ok (ok, v, p) ->
  pos <= p /\ (ok = true -> pos < p).
Proof.
  unfold get_num. intros H. apply rbind_ok in H as (i & E & H). apply skip_spc_forward in E.
  apply rbind_ok in H as ([[found value] i'] & E' & H). injection H as <- _ <-.
  apply get_num_loop_forward in E' as [H1 H2]. destruct found; split; try lia; intros Hok; try discriminate.
Qed.

Lemma get_unary_forward input pos u p : get_unary input pos = Ok (u, p) -> pos <= p.
Proof.
  unfold get_unary. intros H. apply rbind_ok in H as (c & _ & H).
  repeat case_test_in H; try (apply rbind_ok in H as (i & E & H); apply skip_spc_forward in E); injection H as _ <-; lia.
Qed.

Lemma get_radix_forward input pos r p : get_radix input pos = Ok (r, p) -> pos <= p.
Proof.
  unfold get_radix. intros H. apply rbind_ok in H as (c & _ & H). apply rbind_ok in H as (c1 & _ & H).
  repeat case_test_in H; injection H as _ <-; lia.
Qed.

Lemma get_local_forward env input ii s p v : get_local env input ii = Ok (s, p, v) -> s = eval_okay -> ii < p.
Proof.
  unfold get_local. intros H Hs. apply rbind_ok in H as (c & _ & H).
  set (d := if Z.land c 223 =? 66 then _ else _) in H. destruct d as [dir i] eqn:Ed. unfold d in Ed.
  assert (ii < i) by (repeat case_test_in Ed; injection Ed as _ <-; lia).
  apply rbind_ok in H as ([[ok label] i'] & E & H). apply get_num_forward in E as [E _].
  destruct ok; simpl in H.
  - destruct (find_local env dir label); injection H as <- <- _; lia.
  - injection H as <- _ _. discriminate.
Qed.

Lemma lor_not_okay e ii : 0 < e -> 0 <= ii -> Z.lor e ii <> eval_okay.
Proof. intros He Hi H. apply Z.lor_eq_0_iff in H. lia. Qed.

Lemma get_char_const_forward input ii s p v : 0 <= ii -> get_char_const input ii = Ok (s, p, v) -> s = eval_okay -> ii < p.
Proof.
  unfold get_char_const. intros Hii H Hs. apply rbind_ok in H as (c & _ & H).
  apply rbind_ok in H as (c' & _ & H).
  assert (Hbad : forall k, 0 <= k -> Ok (Z.lor eval_operand_error k, k, 0) = Ok (s, p, v) -> ii < p).
  { intros k Hk [= <- _ _]. exfalso. revert Hs. apply lor_not_okay; [reflexivity|exact Hk]. }
  destruct ((c' =? 0) || (c' =? 10))%bool.
  - apply Hbad in H; [exact H|]. destruct (c =? 92); lia.
  - apply rbind_ok in H as (q & _ & H). destruct (q =? 39).
    + injection H as _ <- _. destruct (c =? 92); lia.
    + apply Hbad in H; [exact H|]. destruct (c =? 92); lia.
Qed.

Lemma get_constant_forward env input ii s p v : 0 <= ii ->
  get_constant env input ii = Ok (s, p, v) -> s = eval_okay -> ii < p.
Proof.
  unfold get_constant. intros Hii H Hs. apply rbind_ok in H as (c & _ & H). destruct (c =? 46).
  - destruct (ev_pointer_defined env); injection H as _ <- _; lia.
  - apply rbind_ok in H as ([r i] & E & H). apply get_radix_forward in E. destruct (0 <? r).
    + apply rbind_ok in H as ([[ok value] i'] & E' & H). apply get_num_forward in E' as [E1 E2].
      destruct ok; injection H as <- <- _; [specialize (E2 eq_refl); lia|discriminate].
    + injection H as <- _ _. discriminate.
Qed.

Lemma get_variable_forward env input pos v : 0 <= pos ->
  get_variable env input pos = Ok v -> vr_status v = eval_okay -> pos < vr_pos v.
Proof.
  unfold get_variable. intros Hpos H Hs. apply rbind_ok in H as (p & E & H). apply skip_spc_forward in E.
  apply rbind_ok in H as ([u ii] & E2 & H). apply get_unary_forward in E2.
  apply rbind_ok in H as (c & _ & H). destruct (c =? 40).
  { injection H as <-. cbn. lia. }
  apply rbind_ok in H as (ident & _ & H). apply rbind_ok in H as ([[[st i] value] un] & E3 & H).
  injection H as <-. cbn in *. subst st. change (progress eval_okay) with true. cbv iota.
  destruct ident as [|x ident].
  - apply rbind_ok in E3 as ([[st' i'] value'] & E3 & E4). injection E4 as -> -> _ _.
    destruct (c =? 37); [apply get_local_forward in E3; [lia|reflexivity]|].
    destruct (c =? 39); [apply get_char_const_forward in E3; [lia|lia|reflexivity]|].
    apply get_constant_forward in E3; [lia|lia|reflexivity].
  - unfold get_symbol in E3. apply rbind_ok in E3 as (sy & _ & E3).
    destruct sy as [[fl va]|].
    + case_test_in E3; injection E3; intros; subst; simpl length; lia.
    + apply rbind_ok in E3 as (cs & _ & E3). destruct cs as [[fl va]|]; injection E3; intros; subst; simpl length; lia.
Qed.

Lemma zget_range {A} (l : list A) i x : zget l i = Ok x -> 0 <= i < Z.of_nat (length l).
Proof.
  unfold zget. destruct (Z.ltb_spec i 0); [discriminate|]. intros H1.
  destruct (l !! Z.to_nat i) eqn:E; [|discriminate]. apply lookup_lt_Some in E. lia.
Qed.

Lemma punctuation_forward c c1 op n : punctuation c c1 = Some (op, n) -> 0 <= n.
Proof. unfold punctuation. intros H. repeat case_test_in H; try discriminate; injection H as _ <-; lia. Qed.

Lemma get_operator_forward env input pos s op q p : get_operator env input pos = Ok (s, op, q, p) ->
  pos <= p /\ pos < Z.of_nat (length input).
Proof.
  unfold get_operator. intros H. apply rbind_ok in H as (p0 & E & H). apply rbind_ok in H as (c & Ec & H).
  apply skip_spc_forward in E. apply zget_range in Ec. apply rbind_ok in H as (c1 & _ & H).
  destruct (punctuation c c1) as [[op' n]|] eqn:Ep.
  - injection H as _ _ _ <-. apply punctuation_forward in Ep. lia.
  - destruct (two_char c); [injection H as _ _ _ <-; lia|].
    apply rbind_ok in H as (buffer & _ & H). apply rbind_ok in H as (sy & _ & H).
    destruct sy as [[fl o]|]; injection H as _ _ _ <-; lia.
Qed.

(** Every round of the loop is paid for by a character. *)
Lemma reads_cost env input pos e pos' : reads env input pos e pos' -> 0 <= pos -> pos + Z.of_nat (cost e) <= pos'.
Proof.
  induction 1 as [pos pos' u v n Ev|pos p1 p2 pos' u e Ev Hr IH Eop|pos p1 p2 pos' op l r Hl IHl Eop Hr IHr];
    intros Hpos; simpl cost.
  - apply get_variable_forward in Ev; [cbn in Ev; lia|lia|reflexivity].
  - apply get_variable_forward in Ev; [cbn in Ev|lia|reflexivity]. apply get_operator_forward in Eop. lia.
  - apply get_operator_forward in Eop. lia.
Qed.

(** ** Properties *)

(** C20: an expression is evaluated to the value its tree denotes, operators of higher
    priority binding tighter and those of equal priority grouping to the left, in
    32-bit arithmetic, provided its operands are defined, it divides by nothing and
    shifts by nothing it may not, and the math stack is deep enough for it; the
    evaluator terminates, reports no error and stops at the character after the
    expression. *)
Theorem evaluate_expression env input pos e p1 p2 x : 0 <= pos ->
  reads env input pos e p1 -> get_operator env input p1 = Ok (eval_okay, END, 0, p2) ->
  grouped 2 e -> denote e = Some x -> 1 + need e <= MATHSTACK_SIZE ->
  exists st, evaluate env input pos = Ok (eval_okay, x, st) /\ es_pos st = p2 /\ es_sp st = 0.
Proof.
  intros Hpos Hr Eop Hg Hd Hn. unfold evaluate, push_marker.
  set (st0 := EState _ _ _ _ _ _ _). assert (Hh0 : holds st0 []) by (repeat split; reflexivity).
  destruct (push_word st0 [] 0 Hh0 ltac:(simpl; lia)) as (s & Es & Hs). rewrite Es. cbn [rbind].
  set (st1 := with_stack s (es_sp st0 + 1) st0) in *.
  assert (Hst1 : fine st1 [0] pos) by (repeat split; try reflexivity; apply Hs).
  pose proof (reads_cost _ _ _ _ _ Hr Hpos) as Hc. pose proof (get_operator_forward _ _ _ _ _ _ _ Eop) as [_ Hl].
  destruct (exec env input pos e p1 Hr 2 x (S (length input)) st1 [0] ltac:(lia) Hg Hd Hst1)
    as (y & fs & st2 & E2 & Hfs & Hu & H2).
  { exists [], 0. split; [reflexivity|lia]. }
  { simpl. change MATHSTACK_SIZE with 20 in Hn. lia. }
  { lia. }
  destruct (terminator_popped env input st2 [] fs y x END 0 p1 p2 (or_introl eq_refl) H2 Eop Hfs Hu) as (st3 & E3 & H3).
  exists st3. rewrite E2. unfold after. rewrite E3. cbn [rbind]. destruct H3 as ((_ & Hsp & _) & Hp & He & Hfirst).
  rewrite He. change (negb (eval_okay =? eval_okay)) with false. cbv iota. cbn [rbind]. rewrite He, Hfirst.
  split; [reflexivity|]. split; [exact Hp|exact Hsp].
Qed.

(** An environment without symbols. *)
Definition no_symbols : eval_env :=
  EvalEnv (fun _ => Ok None) (fun _ => Ok None) (fun _ => Ok None) NO_LABEL [] None false 0.

(** the check that keeps the math stack in bounds covers pending operators but not
    the markers of bracket levels: nineteen nested brackets evaluate, the twentieth
    writes past the end of math_stack. *)
Theorem evaluate_brackets_overrun :
  (exists st, evaluate no_symbols (replicate 19 40 ++ [49] ++ replicate 19 41 ++ [0]) 0 = Ok (eval_okay, 1, st)) /\
  evaluate no_symbols (replicate 20 40 ++ [49] ++ replicate 20 41 ++ [0]) 0 = Undef.
Proof. split; [eexists|]; vm_compute; reflexivity. Qed.

(** ** The properties at concrete inputs *)

Module RvaEvalWitness.

(** "2+3*(-4+9)" is 17. *)
Definition text : list Z := [50; 43; 51; 42; 40; 45; 52; 43; 57; 41; 0].
Definition tree : expr :=
  E_bin PLUS (E_val PLUS 2) (E_bin MULTIPLY (E_val PLUS 3) (E_paren PLUS (E_bin PLUS (E_val MINUS 4) (E_val PLUS 9)))).

Lemma evaluate_expression_witness : exists st,
  evaluate no_symbols text 0 = Ok (eval_okay, 17, st) /\ es_pos st = 10 /\ es_sp st = 0.
Proof.
  apply (evaluate_expression no_symbols text 0 tree 10 10 17).
  - lia.
  - eapply (reads_bin _ _ 0 1 2); [eapply reads_val; vm_compute; reflexivity|vm_compute; reflexivity|].
    eapply (reads_bin _ _ 2 3 4); [eapply reads_val; vm_compute; reflexivity|vm_compute; reflexivity|].
    eapply (reads_paren _ _ 4 5 9); [vm_compute; reflexivity| |vm_compute; reflexivity].
    eapply (reads_bin _ _ 5 7 8); [eapply reads_val; vm_compute; reflexivity|vm_compute; reflexivity|].
    eapply reads_val; vm_compute; reflexivity.
  - vm_compute. reflexivity.
  - vm_compute. repeat split; discriminate.
  - vm_compute. reflexivity.
  - vm_compute. discriminate.
Defined.

End RvaEvalWitness.
