(* ===== verification/RvaEncode.v ===== *)
(** * The assembler's instruction encoder: tools/assembler/rva.c, lines 1337-2303

    [rv32i_mnemonic] assembles one instruction: it reads the operands from the line,
    packs their fields into a 32-bit word under the control of the mnemonic's token,
    and plants the word, possibly after a prefix instruction. The nested functions
    share [position], [error_code] and [assembly_pointer], which are the state here.

    What the code takes from elsewhere is a parameter: the expression evaluator's
    view of the symbol tables ([env]), the register table ([registers]), whether the
    line is inside a false IF ([live]), and [junk], [junk_flag], the contents of a
    local variable that is read before it is set. The bytes handed to the output
    files are recorded in order. *)

From S2P Require Import Prelude RvaDefs RvaLex RvaEval.

(** ** The state *)

(** [as_sizes] is the list of sizes of the variable length operations and
    [as_size_at] the place of [size_record_current] in it. *)
Record astate : Type := AState {
  as_position : Z;
  as_error : Z;
  as_pointer : Z;
  as_undefined : Z;
  as_div_zero : bool;
  as_sizes : list Z;
  as_size_at : nat;
  as_size_changed : Z;
  as_bytes : list (Z * Z);
}.

(** A computation on the state. *)
Definition A (X : Type) : Type := astate -> res (X * astate).
Definition aret {X} (x : X) : A X := fun s => Ok (x, s).
Definition abind {X Y} (m : A X) (f : X -> A Y) : A Y := fun s => let* (x, s) := m s in f x s.

Declare Scope asm_scope.
Notation "'let%' p := m 'in' k" := (abind m (fun p => k))
  (at level 10, p pattern, m at level 100, k at level 200) : asm_scope.
Notation "'do%' m 'in' k" := (abind m (fun _ => k))
  (at level 10, m at level 100, k at level 200) : asm_scope.
Local Open Scope asm_scope.

Definition set_position (p : Z) : A unit := fun s => Ok (tt, AState p (as_error s) (as_pointer s) (as_undefined s)
  (as_div_zero s) (as_sizes s) (as_size_at s) (as_size_changed s) (as_bytes s)).
Definition set_error (e : Z) : A unit := fun s => Ok (tt, AState (as_position s) e (as_pointer s) (as_undefined s)
  (as_div_zero s) (as_sizes s) (as_size_at s) (as_size_changed s) (as_bytes s)).
Definition set_pointer (p : Z) : A unit := fun s => Ok (tt, AState (as_position s) (as_error s) p (as_undefined s)
  (as_div_zero s) (as_sizes s) (as_size_at s) (as_size_changed s) (as_bytes s)).
Definition set_sizes (l : list Z) (i : nat) (n : Z) : A unit := fun s => Ok (tt, AState (as_position s) (as_error s)
  (as_pointer s) (as_undefined s) (as_div_zero s) l i n (as_bytes s)).
Definition set_counts (n : Z) (dz : bool) : A unit := fun s => Ok (tt, AState (as_position s) (as_error s)
  (as_pointer s) n dz (as_sizes s) (as_size_at s) (as_size_changed s) (as_bytes s)).
Definition set_bytes (l : list (Z * Z)) : A unit := fun s => Ok (tt, AState (as_position s) (as_error s)
  (as_pointer s) (as_undefined s) (as_div_zero s) (as_sizes s) (as_size_at s) (as_size_changed s) l).

Definition position : A Z := fun s => Ok (as_position s, s).
Definition error_code : A Z := fun s => Ok (as_error s, s).
Definition assembly_pointer : A Z := fun s => Ok (as_pointer s, s).
Definition state : A astate := fun s => Ok (s, s).

(** [error_code = e | position]. *)
Definition error_here (e : Z) : A unit := let% p := position in set_error (Z.lor e p).

(** [if (error_code == eval_okay) m]. *)
Definition if_okay {X} (m : A X) (x : X) : A X :=
  let% e := error_code in if e =? eval_okay then m else aret x.

Definition afail {X} : A X := fun _ => Undef.
Definition lift {X} (r : res X) : A X := fun s => let* x := r in Ok (x, s).

(** ** The code *)

(** Fields put in place; [reg << n] with the register number read as an [int]. *)
Definition shl (v n : Z) : Z := u32 (Z.shiftl v n).

(** The primary opcode, the function field and the secondary opcode of a token. *)
(* tools/assembler/rva.c:1701-1702 rv32i_mnemonic *)
Definition op_field (token : Z) : Z := Z.shiftr (Z.land token 0x01F00000) 18.
Definition funct_field (token : Z) : Z := Z.shiftr (Z.land token 0x0E000000) 13.
(* tools/assembler/rva.c:1862-1862 rv32i_mnemonic *)
Definition second_field (token : Z) : Z := shl (Z.land token 0x00007F00) 17.

(* tools/assembler/rva.c:2756-2758 imm_jal *)
Definition imm_jal (value : Z) : Z :=
  Z.lor (Z.lor (Z.lor (Z.shiftl (Z.land value 0x100000) 11) (Z.land value 0x0FF000))
    (Z.shiftl (Z.land value 0x000800) 9)) (Z.shiftl (Z.land value 0x0007FE) 20).

(** The fields of a branch offset. *)
(* tools/assembler/rva.c:1578-1579 b_offset *)
Definition imm_branch (value : Z) : Z :=
  Z.lor (Z.lor (Z.lor (Z.shiftl (Z.land value 0x1000) 19) (Z.shiftr (Z.land value 0x0800) 4))
    (Z.shiftl (Z.land value 0x07E0) 20)) (Z.shiftl (Z.land value 0x001E) 7).

(** Is a value all zeros or all ones in the bits of the mask? *)
(* tools/assembler/rva.c:1736-1737 rv32i_mnemonic *)
Definition in_range (value mask : Z) : bool := (Z.land value mask =? 0) || (Z.land value mask =? mask).

Section Encode.

Context (line : list Z) (token : Z) (first_pass last_pass : bool) (pass_count : Z).
Context (env : eval_env) (registers : list Z -> res (option (Z * Z))).
Context (live dump_code : bool) (junk : Z) (junk_flag : bool).

(** The environment with the dot at [p]. *)
Definition env_at (p : Z) : eval_env :=
  EvalEnv (ev_symbol env) (ev_csr env) (ev_operator env) (ev_own_sort env) (ev_local env) (ev_position env)
    (ev_pointer_defined env) p.

(** The value found, -1 for none; a 32-bit pattern as an [int]. *)
(* tools/assembler/rva.c:2725-2747 get_thing *)
Definition get_thing (table : list Z -> res (option (Z * Z))) : A Z :=
  let% p := position in
  let% p := lift (skip_spc line p) in
  do% set_position p in
  let% buffer := lift (get_identifier line p 16) in
  let% r := lift (match buffer with [] => Ok None | _ => table buffer end) in
  match r with
  | Some (_, value) => do% set_position (p + Z.of_nat (length buffer)) in aret (s32 value)
  | None => aret (-1)
  end.

(* tools/assembler/rva.c:2751-2752 get_reg *)
Definition get_reg : A Z := get_thing registers.

Definition next_is (c : Z) : A bool :=
  let% p := position in let% (b, p) := lift (cmp_next_non_space line p 0 c) in do% set_position p in aret b.

(** The call of [evaluate] and the check of its error that follows each. *)
(* tools/assembler/rva.c:1652-1654 rv32i_mnemonic *)
Definition evaluate_allow : A Z :=
  let% s := state in
  let% (e, value, st) := lift (evaluate (env_at (as_pointer s)) line (as_position s)) in
  do% set_position (es_pos st) in
  do% set_counts (as_undefined s + es_undefined st) (as_div_zero s || es_div_zero st) in
  do% set_error (if allow_error e first_pass last_pass then eval_okay else e) in
  aret value.

(** The bytes for the output files; their drivers are not modelled. *)
(* tools/assembler/rva.c:2862-2883 byte_dump *)
Definition byte_dump (address value size : Z) : A unit :=
  if (dump_code && live)%bool then
    let% s := state in
    set_bytes (as_bytes s ++ map (fun i => (u32 (address + Z.of_nat i), Z.land (Z.shiftr value (8 * Z.of_nat i)) 0xFF))
      (seq 0 (Z.to_nat size)))
  else aret tt.

(** A list of size records is a list of sizes; running off it dereferences NULL. *)
(* tools/assembler/rva.c:1336-1367 variable_item_size *)
Definition variable_item_size (size : Z) : A Z :=
  let% s := state in
  if first_pass then
    do% set_sizes (as_sizes s ++ [size]) (length (as_sizes s)) (as_size_changed s) in aret size
  else
    let% current := lift (of_option (as_sizes s !! as_size_at s)) in
    if negb (current =? size) then
      if ((pass_count <? SHRINK_STOP) || (current <? size))%bool then
        do% set_sizes (<[as_size_at s := size]> (as_sizes s)) (S (as_size_at s)) (as_size_changed s + 1) in aret size
      else do% set_sizes (as_sizes s) (S (as_size_at s)) (as_size_changed s) in aret current
    else do% set_sizes (as_sizes s) (S (as_size_at s)) (as_size_changed s) in aret size.

(* tools/assembler/rva.c:1558-1563 prefix_dump *)
Definition prefix_dump (prefix : Z) : A unit :=
  let% p := assembly_pointer in
  do% (if last_pass then byte_dump p prefix 4 else aret tt) in
  set_pointer (u32 (p + 4)).

(** A register and a comma after it. *)
(* tools/assembler/rva.c:1864-1871 rv32i_mnemonic *)
Definition reg_comma (place : Z) : A Z :=
  let% reg := get_reg in
  if 0 <=? reg then
    let% c := next_is 44 in
    do% (if c then aret tt else error_here SYM_NO_COMMA) in aret (shl reg place)
  else do% error_here SYM_BAD_REG in aret 0.

(* tools/assembler/rva.c:1887-1892 rv32i_mnemonic *)
Definition reg_last (place : Z) : A Z :=
  let% reg := get_reg in
  if 0 <=? reg then aret (shl reg place) else do% error_here SYM_BAD_REG in aret 0.

(* tools/assembler/rva.c:1565-1582 b_offset *)
Definition b_offset : A Z :=
  let% value := evaluate_allow in
  let% p := assembly_pointer in
  let value := u32 (value - p) in
  if truthy (Z.land value 1) then do% set_error SYM_UNALIGNED_BRANCH in aret junk
  else if in_range value 0xFFFFF000 then aret (imm_branch value)
  else do% set_error SYM_OORANGE_BRANCH in aret junk.

(* tools/assembler/rva.c:1586-1597 parse_csr *)
Definition parse_csr : A Z :=
  let% value := evaluate_allow in
  do% if_okay (if truthy (Z.land value 0xFFFFF000) then set_error SYM_OORANGE else aret tt) tt in
  aret (shl value 20).

(* tools/assembler/rva.c:1599-1620 parse_csr2 *)
Definition parse_csr2 : A Z :=
  if Z.land token 0x10000000 =? 0 then
    let% reg := get_reg in
    if reg <? 0 then do% error_here SYM_BAD_REG in aret (shl junk 15) else aret (shl reg 15)
  else
    let% value := evaluate_allow in
    do% if_okay (if truthy (Z.land value 0xFFFFFFE0) then set_error SYM_OORANGE else aret tt) tt in
    aret (shl value 15).

(** *** Addressing modes *)

(** The register and bracket after a '['. *)
(* tools/assembler/rva.c:1535-1549 addr_mode *)
Definition base_register (ranged : bool) : A Z :=
  let% reg := if_okay (
    let% reg := get_reg in
    do% (if 0 <=? reg then
           let% c := next_is 93 in
           if c then let% p := position in set_position (p + 1) else error_here SYM_NO_RBR
         else error_here SYM_ERR_SYNTAX) in
    aret reg) junk in
  do% if_okay (if ranged then aret tt else set_error SYM_OORANGE) tt in
  aret reg.

(** The AUIPC of a PC-relative load or store. *)
(* tools/assembler/rva.c:1524-1530 addr_mode *)
Definition auipc_prefix (reg offset : Z) : Z :=
  let prefix := Z.lor 0x00000017 (shl reg 7) in
  if Z.land offset 0x800 =? 0 then Z.lor prefix (Z.land offset 0xFFFFF000)
  else Z.lor prefix (u32 (Z.land offset 0xFFFFF000 + 0x1000)).

(** The register a global load or store goes through. *)
(* tools/assembler/rva.c:1507-1521 addr_mode *)
Definition global_register (op_code : Z) : A Z :=
  if Z.land token 0x000F0000 =? 0x00040000 then
    let% c := next_is 44 in
    if c then
      let% reg := get_reg in
      do% (if reg <? 0 then error_here SYM_BAD_REG else aret tt) in aret reg
    else do% error_here SYM_NO_COMMA_LBR in aret junk
  else aret (Z.land (Z.shiftr op_code 7) 0x1F).

(** The result packed in a word, all ones for an error, and the prefix instruction. *)
(* tools/assembler/rva.c:1551-1552 addr_mode *)
Definition pack_address (reg offset prefix : Z) : A (Z * Z) :=
  let% e := error_code in
  aret (if e =? eval_okay then Z.lor (shl reg 16) (Z.land offset 0x00000FFF) else 0xFFFFFFFF, prefix).

(* tools/assembler/rva.c:1481-1553 addr_mode *)
Definition addr_mode (op_code : Z) : A (Z * Z) :=
  let jalr := Z.land token 0x0FFF0000 =? 0x01950000 in
  let% open := next_is 91 in
  if open then let% reg := base_register true in pack_address reg 0 0
  else
    let% offset := evaluate_allow in
    let% e := error_code in
    if e =? eval_okay then
      let% open := next_is 91 in
      if open then let% reg := base_register (in_range offset 0xFFFFF800) in pack_address reg offset 0
      else if jalr then do% error_here SYM_NO_LBR in pack_address junk offset 0
      else
        let% reg := global_register op_code in
        let% p := assembly_pointer in
        let offset := u32 (offset - p) in
        pack_address reg offset (auipc_prefix reg offset)
    else let% reg := base_register false in pack_address reg offset 0.

(** *** The formats *)

(* tools/assembler/rva.c:1639-1660 rv32i_mnemonic *)
Definition u_type : A Z :=
  let op_code := Z.lor (op_field token) 3 in
  let% rd := reg_comma 7 in
  let op_code := Z.lor op_code rd in
  if_okay (
    let% value := evaluate_allow in
    if truthy (Z.land value 0xFFF) then do% set_error SYM_OORANGE in aret op_code
    else aret (Z.lor op_code value)) op_code.

(* tools/assembler/rva.c:1663-1694 rv32i_mnemonic *)
Definition j_type : A Z :=
  let op_code := Z.lor (op_field token) 3 in
  let% reg := get_reg in
  let% rd :=
    (if 0 <=? reg then
       let% c := next_is 44 in do% (if c then aret tt else error_here SYM_NO_COMMA) in aret (shl reg 7)
     else aret (shl 1 7)) in
  let op_code := Z.lor op_code rd in
  if_okay (
    let% value := evaluate_allow in
    let% p := assembly_pointer in
    let value := u32 (value - p) in
    if truthy (Z.land value 1) then do% set_error SYM_UNALIGNED_BRANCH in aret op_code
    else if in_range value 0xFFF00000 then aret (Z.lor op_code (imm_jal value))
    else do% set_error SYM_OORANGE_BRANCH in aret op_code) op_code.

(* tools/assembler/rva.c:1697-1743 rv32i_mnemonic *)
Definition i_type : A Z :=
  let op_code := Z.lor (Z.lor (op_field token) (funct_field token)) 3 in
  let% rd := reg_comma 7 in
  let op_code := Z.lor op_code rd in
  let% rs := if_okay (reg_comma 15) 0 in
  let op_code := Z.lor op_code rs in
  if_okay (
    let% value := evaluate_allow in
    let value := if truthy (Z.land token 0x10000000) then u32 (- value) else value in
    if Z.land token 0x06000000 =? 0x02000000 then
      if Z.land value 0xFFFFFFE0 =? 0 then
        aret (Z.lor op_code (Z.lor (second_field token) (shl (Z.land value 0x1F) 20)))
      else do% set_error SYM_OORANGE in aret op_code
    else
      if in_range value 0xFFFFF800 then aret (Z.lor op_code (shl (Z.land value 0xFFF) 20))
      else do% set_error SYM_OORANGE in aret op_code) op_code.

(* tools/assembler/rva.c:1746-1784 rv32i_mnemonic *)
Definition b_type : A Z :=
  let pseudo := truthy (Z.land token 0xF0000000) in
  let op_code := Z.lor (Z.lor (op_field token) (funct_field token)) 3 in
  let% r1 := reg_comma (if pseudo then 20 else 15) in
  let op_code := Z.lor op_code r1 in
  let% r2 := if_okay (reg_comma (if pseudo then 15 else 20)) 0 in
  let op_code := Z.lor op_code r2 in
  if_okay (let% offset := b_offset in aret (Z.lor op_code offset)) op_code.

(* tools/assembler/rva.c:1807-1809 rv32i_mnemonic *)
Definition store_fields (value : Z) : Z :=
  Z.lor (Z.lor (shl (Z.land value 0xFE0) 20) (Z.shiftl (Z.land value 0x1F) 7)) (Z.shiftr (Z.land value 0x001F0000) 1).

(* tools/assembler/rva.c:1850-1851 rv32i_mnemonic *)
Definition load_fields (value : Z) : Z :=
  Z.lor (shl (Z.land value 0xFFF) 20) (Z.shiftr (Z.land value 0x001F0000) 1).

(** The tests [value >= 0] of an unsigned value are always true. *)
(* tools/assembler/rva.c:1787-1814 rv32i_mnemonic *)
Definition s_type : A Z :=
  let op_code := Z.lor (Z.lor (op_field token) (funct_field token)) 3 in
  let% rs := reg_comma 20 in
  let op_code := Z.lor op_code rs in
  let% (value, prefix) := if_okay (addr_mode op_code) (junk, 0) in
  let op_code := Z.lor op_code (store_fields value) in
  do% (if truthy prefix then prefix_dump prefix else aret tt) in aret op_code.

(** The target register of a load, and whether this is a JALR without one. *)
(* tools/assembler/rva.c:1827-1841 rv32i_mnemonic *)
Definition load_target : A (Z * bool) :=
  let% reg := get_reg in
  if 0 <=? reg then
    let% c := next_is 44 in
    if c then aret (shl reg 7, false)
    else if Z.land token 0x0FF00000 =? 0x01900000 then aret (Z.lor (shl reg 15) 0x080, true)
    else do% error_here SYM_NO_COMMA in aret (0, false)
  else do% error_here SYM_BAD_REG in aret (0, false).

(* tools/assembler/rva.c:1817-1857 rv32i_mnemonic *)
Definition load_type : A Z :=
  let op_code := Z.lor (Z.lor (op_field token) (funct_field token)) 3 in
  let% (target, pseudo_jalr) := load_target in
  let op_code := Z.lor op_code target in
  let% (op_code, prefix) := if_okay (
    if pseudo_jalr : bool then aret (op_code, 0)
    else let% (value, prefix) := addr_mode op_code in aret (Z.lor op_code (load_fields value), prefix)) (op_code, 0) in
  do% (if truthy prefix then prefix_dump prefix else aret tt) in aret op_code.

(* tools/assembler/rva.c:1860-1894 rv32i_mnemonic *)
Definition r_type : A Z :=
  let op_code := Z.lor (Z.lor (Z.lor (op_field token) (funct_field token)) (second_field token)) 3 in
  let% rd := reg_comma 7 in
  let op_code := Z.lor op_code rd in
  let% rs1 := if_okay (reg_comma 15) 0 in
  let op_code := Z.lor op_code rs1 in
  let% rs2 := if_okay (reg_last 20) 0 in
  aret (Z.lor op_code rs2).

(** The letters of a fence: each sets a bit. *)
(* tools/assembler/rva.c:1906-1926 hedge *)
Fixpoint hedge (fuel : nat) (fields : Z) : A Z :=
  match fuel with
  | O => fun _ => NoFuel
  | S fuel =>
      let% p := position in
      let% p := lift (skip_spc line p) in
      do% set_position p in
      let% c := lift (zget line p) in
      let c := Z.land c 0xDF in
      let bit := if c =? 73 then 8 else if c =? 79 then 4 else if c =? 82 then 2 else if c =? 87 then 1 else 0 in
      if bit =? 0 then aret fields else do% set_position (p + 1) in hedge fuel (Z.lor fields bit)
  end.

(* tools/assembler/rva.c:1902-1951 rv32i_mnemonic *)
Definition fence_type : A Z :=
  let op_code := Z.lor 0x0000000F (funct_field token) in
  if Z.land token 0x0E000000 =? 0 then
    let% fields := hedge (S (length line)) 0 in
    if fields =? 0 then aret (Z.lor op_code 0x0FF00000)
    else
      let op_code := Z.lor op_code (Z.shiftl fields 24) in
      let% c := next_is 44 in
      if c then
        let% fields := hedge (S (length line)) 0 in
        if fields =? 0 then do% error_here SYM_ERR_SYNTAX in aret op_code
        else aret (Z.lor op_code (Z.shiftl fields 20))
      else do% error_here SYM_NO_COMMA in aret op_code
  else aret op_code.

(** *** Pseudo-operations of one instruction *)

(* tools/assembler/rva.c:1978-1997 rv32i_mnemonic *)
Definition pseudo_j : A Z :=
  let% value := evaluate_allow in
  let% p := assembly_pointer in
  let value := u32 (value - p) in
  let% op_code :=
    (if in_range value 0xFFF00000 then aret (imm_jal value) else do% set_error SYM_OORANGE_BRANCH in aret junk) in
  aret (Z.lor op_code 0x0000006F).

(** The two forms of a register-to-register pseudo-operation. *)
(* tools/assembler/rva.c:2014-2036 rv32i_mnemonic *)
Definition unary_code (op_code : Z) : Z :=
  let top := Z.land token 0xF0000000 in
  let rs1 := Z.land op_code 0x000FFF80 in
  let rs2 := Z.land op_code 0x01F07F80 in
  if top =? 0x00000000 then Z.lor rs1 0x00000013
  else if top =? 0x10000000 then Z.lor rs1 0xFFF04013
  else if top =? 0x20000000 then Z.lor rs2 0x40000033
  else if top =? 0x30000000 then Z.lor rs2 0x4000003B
  else if top =? 0x40000000 then Z.lor rs1 0x0000001B
  else if top =? 0x50000000 then Z.lor rs1 0x00103013
  else if top =? 0x60000000 then Z.lor rs2 0x00003033
  else if top =? 0x70000000 then Z.lor rs1 0x00002033
  else if top =? 0x80000000 then Z.lor rs2 0x00002033
  else 0x00000013.

(* tools/assembler/rva.c:2000-2039 rv32i_mnemonic *)
Definition pseudo_unary : A Z :=
  let% rd := reg_comma 7 in
  if_okay (
    let% reg := get_reg in
    if reg <? 0 then do% error_here SYM_BAD_REG in aret rd
    else aret (unary_code (Z.lor (Z.lor rd (shl reg 15)) (shl reg 20)))) junk.

(* tools/assembler/rva.c:2041-2056 rv32i_mnemonic *)
Definition pseudo_branch : A Z :=
  let% reg := reg_comma 0 in
  let% op_code := if_okay (
    let% offset := b_offset in aret (Z.lor (Z.lor 0x00000063 (funct_field token)) offset)) junk in
  if_okay (aret (Z.lor op_code (shl reg (if truthy (Z.land token 0x01000000) then 20 else 15)))) op_code.

(* tools/assembler/rva.c:2058-2085 rv32i_mnemonic *)
Definition pseudo_csr : A Z :=
  let op_code := Z.lor (funct_field token) 0x00000073 in
  if truthy (Z.land token 0x20000000) then
    let% rd := reg_comma 7 in
    let op_code := Z.lor op_code rd in
    if_okay (let% csr := parse_csr in aret (Z.lor op_code csr)) op_code
  else
    let% csr := parse_csr in
    let op_code := Z.lor op_code csr in
    if_okay (
      let% c := next_is 44 in
      if c then let% rs := parse_csr2 in aret (Z.lor op_code rs)
      else do% error_here SYM_NO_COMMA in aret op_code) op_code.

(* tools/assembler/rva.c:2087-2110 rv32i_mnemonic *)
Definition pseudo_counter : A Z :=
  let op_code := Z.lor (Z.lor (Z.lor (Z.land token 0xFF000000) 0x00000073)
    (Z.shiftl (Z.land token 0x0000F000) 8)) (Z.shiftl (Z.land token 0x00000700) 4) in
  let% reg := get_reg in
  if reg <? 0 then do% error_here SYM_BAD_REG in aret op_code
  else if Z.land token 0x00000700 =? 0x00000200 then aret (Z.lor op_code (shl reg 7))
  else
    let% c := next_is 44 in
    if c then
      let op_code := Z.lor op_code (shl reg 7) in
      let% reg := get_reg in
      if reg <? 0 then do% error_here SYM_BAD_REG in aret op_code else aret (Z.lor op_code (shl reg 15))
    else aret (Z.lor op_code (shl reg 15)).

(** The masks 0xF00000000 of the code have no bit inside a token, so only the first
    case of their switches is reached. *)
(* tools/assembler/rva.c:1953-2114 rv32i_mnemonic *)
Definition pseudo_type : A Z :=
  let sort := Z.land token 0x00F00000 in
  if sort =? 0x00000000 then
    let top := Z.land token 0xF0000000 in
    aret (if top =? 0x00000000 then 0x00000013 else if top =? 0x10000000 then 0x00008067
          else if top =? 0x20000000 then 0x00000000 else 0x00000013)
  else if sort =? 0x00100000 then
    let% reg := get_reg in
    if reg <? 0 then do% error_here SYM_BAD_REG in aret junk else aret (Z.lor 0x00000067 (shl reg 15))
  else if sort =? 0x00200000 then pseudo_j
  else if sort =? 0x00300000 then pseudo_unary
  else if sort =? 0x00400000 then pseudo_branch
  else if sort =? 0x00500000 then pseudo_csr
  else if sort =? 0x00600000 then pseudo_counter
  else aret 0x00000013.

(* tools/assembler/rva.c:2117-2139 rv32i_mnemonic *)
Definition csr_type : A Z :=
  let op_code := Z.lor (Z.lor (op_field token) (funct_field token)) 3 in
  let% rd := reg_comma 7 in
  let op_code := Z.lor op_code rd in
  let% csr := if_okay parse_csr 0 in
  let op_code := Z.lor op_code csr in
  do% if_okay (let% c := next_is 44 in if c then aret tt else error_here SYM_NO_COMMA) tt in
  let% rs := if_okay parse_csr2 0 in
  aret (Z.lor op_code rs).

(** *** Pseudo-operations of one or two instructions *)

(** The register fields of the prefix and of the instruction. *)
(* tools/assembler/rva.c:2147-2163 rv32i_mnemonic *)
Definition long_registers : A (Z * Z) :=
  if Z.land token 0x00002000 =? 0 then
    let% reg := get_reg in
    if 0 <=? reg then
      let% c := next_is 44 in
      do% (if c then aret tt else error_here SYM_NO_COMMA) in
      aret (shl reg 7, Z.lor (shl reg 7) (shl reg 15))
    else do% error_here SYM_BAD_REG in aret (junk, junk)
  else
    aret (Z.shiftr (Z.land token 0x01F00000) 13,
          Z.lor (Z.shiftr (Z.land token 0x01F00000) 5) (Z.shiftr (Z.land token 0x3E000000) 18)).

(** The two instructions for a value, and whether both are needed; [None] when the
    target of a call is odd, which leaves the registers alone in them. *)
(* tools/assembler/rva.c:2175-2221 rv32i_mnemonic *)
Definition long_codes (value prefix op_code : Z) : Z * Z * bool * bool :=
  let prefix := Z.lor prefix (Z.land (u32 (value + 0x800)) 0xFFFFF000) in
  let op_code := Z.lor op_code (Z.land (shl value 20) 0xFFF00000) in
  let sort := Z.land token 0x00007000 in
  if sort =? 0x00000000 then
    let prefix := Z.lor prefix 0x37 in
    let op_code := Z.lor op_code 0x13 in
    if Z.land (u32 (value + 0x800)) 0xFFFFF000 =? 0 then
      (prefix, Z.land op_code (not32 0x000F8000), false, true)
    else if Z.land value 0xFFF =? 0 then (prefix, Z.lor (Z.land prefix 0xFFF) value, false, true)
    else (prefix, op_code, true, true)
  else if sort =? 0x00001000 then (Z.lor prefix 0x17, Z.lor op_code 0x13, true, true)
  else if sort =? 0x00002000 then
    if truthy (Z.land value 1) then (prefix, op_code, true, false)
    else if truthy (Z.land (u32 (value + 0x100000)) 0xFFE00000) then (Z.lor prefix 0x17, Z.lor op_code 0x67, true, true)
    else (prefix, Z.lor 0xEF (imm_jal value), false, true)
  else (prefix, op_code, true, true).

(* tools/assembler/rva.c:2142-2232 rv32i_mnemonic *)
Definition long_type : A Z :=
  let% (prefix, op_code) := long_registers in
  let% (prefix, op_code, flag) := if_okay (
    let% value := evaluate_allow in
    let% p := assembly_pointer in
    let value := if truthy (Z.land token 0x00007000) then u32 (value - p) else value in
    let '(prefix, op_code, flag, aligned) := long_codes value prefix op_code in
    do% (if aligned : bool then aret tt else set_error SYM_UNALIGNED_BRANCH) in
    aret (prefix, op_code, flag)) (prefix, op_code, junk_flag) in
  let% size := variable_item_size (if flag : bool then 8 else 4) in
  let flag := (if size =? 8 then true else flag) in
  do% (if flag : bool then prefix_dump prefix else aret tt) in
  aret op_code.

(* tools/assembler/rva.c:2234-2274 rv32i_mnemonic *)
Definition atomic_type : A Z :=
  let op_code := Z.lor (Z.lor (shl (Z.land token 0x07F00000) 5) (Z.shiftr (Z.land token 0x08000000) 15)) 0x0000202F in
  let% rd := reg_comma 7 in
  let op_code := Z.lor op_code rd in
  let% rs2 := (if negb (Z.land token 0x07C00000 =? 0x00800000) then if_okay (reg_comma 20) 0 else aret 0) in
  let op_code := Z.lor op_code rs2 in
  if_okay (
    let% c := next_is 91 in
    if c then
      let% reg := get_reg in
      if 0 <=? reg then
        let% c := next_is 93 in
        do% (if c then aret tt else error_here SYM_NO_RBR) in aret (Z.lor op_code (shl reg 15))
      else do% error_here SYM_BAD_REG in aret op_code
    else do% error_here SYM_NO_LBR in aret op_code) op_code.

(** *** The whole handler *)

(* tools/assembler/rva.c:1637-2282 rv32i_mnemonic *)
Definition encode : A Z :=
  let sort := Z.land token 0x000F0000 in
  if sort =? 0x00000000 then u_type
  else if sort =? 0x00010000 then j_type
  else if sort =? 0x00020000 then i_type
  else if sort =? 0x00030000 then b_type
  else if sort =? 0x00040000 then s_type
  else if sort =? 0x00050000 then load_type
  else if sort =? 0x00060000 then r_type
  else if sort =? 0x00070000 then aret (Z.lor (Z.land token 0xFFF00000) 0x00000073)
  else if sort =? 0x00080000 then fence_type
  else if sort =? 0x00090000 then pseudo_type
  else if sort =? 0x000A0000 then csr_type
  else if sort =? 0x000B0000 then long_type
  else if sort =? 0x000C0000 then atomic_type
  else aret junk.

(* tools/assembler/rva.c:1624-2303 rv32i_mnemonic *)
Definition rv32i_mnemonic : A unit :=
  let% op_code :=
    (if (first_pass || last_pass || truthy (Z.land token 0x00008000))%bool then encode else aret junk) in
  let% e := error_code in
  let% p := assembly_pointer in
  do% (if e =? eval_okay then (if last_pass then byte_dump p op_code 4 else aret tt)
       else if negb last_pass then (if allow_error e first_pass last_pass then set_error eval_okay else aret tt)
       else byte_dump p 0 4) in
  if live then let% p := assembly_pointer in set_pointer (u32 (p + 4)) else aret tt.

(** The rest of [assemble_line] for an instruction on a line without a label: on the
    first pass nothing may be left on the line. *)
(* tools/assembler/rva.c:2704-2714 assemble_line *)
Definition end_of_line : A unit :=
  let% e := error_code in
  if (first_pass && (e =? eval_okay))%bool then
    let% p := position in
    let% p := lift (skip_spc line p) in
    do% set_position p in
    let% c := lift (zget line p) in
    if test_eol c then aret tt else error_here SYM_GARBAGE
  else aret tt.

(* tools/assembler/rva.c:2359-2377 assemble_line *)
Definition assemble_instruction : A unit :=
  do% set_error eval_okay in do% rv32i_mnemonic in end_of_line.

End Encode.
