(* ===== verification/RvaOut.v ===== *)
(** * The assembler's output files: tools/assembler/rva.c, lines 148-166, 2862-2990 and 3193-3352

    Every byte the assembler plants goes through [byte_dump], which hands it to the
    listing, the hex file, the ELF file and the Verilog image, whichever are open.
    Each of these keeps a buffer in static variables, which are the records here.
    A file opened for writing is the list of the lines, or of the blocks, put in it.
    Text is a list of characters; what [printf] does with a "%s" is [c_string]. *)

From S2P Require Import Prelude RvaDefs RvaLex RvaSym.

(* tools/assembler/rva.c:150-155 LIST_LINE_LENGTH *)
Definition LIST_LINE_LENGTH : Z := 120.
Definition LIST_LINE_ADDRESS : Z := 10.
Definition LIST_BYTE_COUNT : Z := 4.
Definition LIST_BYTE_FIELD : Z := LIST_LINE_ADDRESS + 3 * LIST_BYTE_COUNT + 2.
Definition LIST_LINE_LIST : Z := LIST_LINE_LENGTH - 1 - LIST_BYTE_FIELD.
(* tools/assembler/rva.c:157-159 HEX_LINE_ADDRESS *)
Definition HEX_LINE_ADDRESS : Z := 10.
Definition HEX_BYTE_COUNT : Z := 16.
Definition HEX_LINE_LENGTH : Z := HEX_LINE_ADDRESS + 3 * HEX_BYTE_COUNT.
(* tools/assembler/rva.c:161-161 ELF_TEMP_LENGTH *)
Definition ELF_TEMP_LENGTH : Z := 20.
(* tools/assembler/rva.c:24-24 VERILOG_MAX *)
Definition VERILOG_MAX : Z := 65536.

(** The characters before the NUL. *)
Fixpoint c_string (buffer : list Z) : list Z :=
  match buffer with
  | [] => []
  | c :: buffer => if c =? 0 then [] else c :: c_string buffer
  end.

(** ** Hexadecimal fields *)

(* tools/assembler/rva.c:3345-3347 list_hex *)
Definition hex_digit (digit : Z) : Z := if digit <? 10 then 48 + digit else 65 + digit - 10.

(** [n] digits left to write. *)
(* tools/assembler/rva.c:3343-3348 list_hex *)
Fixpoint list_hex_loop (n : nat) (number : Z) (destination : list Z) (at_ : Z) : res (list Z) :=
  match n with
  | O => Ok destination
  | S n =>
      let* destination := zupd destination at_ (hex_digit (Z.land (Z.shiftr number (4 * Z.of_nat n)) 0xF)) in
      list_hex_loop n number destination (at_ + 1)
  end.

(** [destination] is the array and [at_] the offset of the pointer passed. *)
(* tools/assembler/rva.c:3339-3350 list_hex *)
Definition list_hex (number length : Z) (destination : list Z) (at_ : Z) : res (list Z) :=
  list_hex_loop (Z.to_nat length) number destination at_.

(** ** The hex file *)

(* tools/assembler/rva.c:430-432 hex_address *)
Record hex_state : Type := HexState { hx_address : Z; hx_defined : bool; hx_buffer : list Z; hx_file : list (list Z) }.

(** The byte in its column; it is passed as a [char]. *)
(* tools/assembler/rva.c:2909-2909 hex_dump *)
Definition hex_byte (address value : Z) (buffer : list Z) : res (list Z) :=
  list_hex (u32 (s8 value)) 2 buffer (HEX_LINE_ADDRESS + 3 * (address mod HEX_BYTE_COUNT)).

(* tools/assembler/rva.c:2916-2921 hex_dump *)
Definition hex_new_line (address value : Z) : res (list Z) :=
  let buffer := replicate (Z.to_nat (HEX_LINE_LENGTH - 1)) 32 ++ [0] in
  let* buffer := list_hex address 8 buffer 0 in
  let* buffer := zupd buffer 8 58 in
  hex_byte address value buffer.

(* tools/assembler/rva.c:2938-2943 hex_dump_flush *)
Definition hex_dump_flush (h : hex_state) : hex_state :=
  HexState (hx_address h) false (hx_buffer h)
    (if hx_defined h then hx_file h ++ [c_string (hx_buffer h)] else hx_file h).

(* tools/assembler/rva.c:2903-2934 hex_dump *)
Definition hex_dump (address value : Z) (h : hex_state) : res hex_state :=
  let* h :=
    (if (hx_defined h && (address =? hx_address h))%bool then
       let* buffer := hex_byte address value (hx_buffer h) in
       Ok (HexState (u32 (hx_address h + 1)) true buffer (hx_file h))
     else
       let file := if hx_defined h then hx_file h ++ [c_string (hx_buffer h)] else hx_file h in
       let* buffer := hex_new_line address value in
       Ok (HexState (u32 (address + 1)) true buffer file)) in
  if hx_address h mod HEX_BYTE_COUNT =? 0 then
    Ok (HexState (hx_address h) false (hx_buffer h) (hx_file h ++ [c_string (hx_buffer h)]))
  else Ok h.

(** ** The ELF fragments *)

(* tools/assembler/rva.c:252-261 elf_temp *)
Record elf_temp : Type := ElfTemp {
  et_continuation : bool; et_section : Z; et_address : Z; et_data : list Z;
}.

(** [es_records]: [elf_record_list], the current record last; [et_data] is as long as
    the record's [count]. *)
(* tools/assembler/rva.c:434-440 elf_section_valid *)
Record elf_state : Type := ElfState {
  el_valid : bool; el_section : Z; el_section_old : Z; el_new_block : bool; el_records : list elf_temp;
}.

(** A byte added to the last record. *)
(* tools/assembler/rva.c:2972-2972 elf_dump *)
Fixpoint add_byte (value : Z) (rs : list elf_temp) : res (list elf_temp * Z) :=
  match rs with
  | [] => Undef
  | [r] =>
      if Z.of_nat (length (et_data r)) <? ELF_TEMP_LENGTH then
        Ok ([ElfTemp (et_continuation r) (et_section r) (et_address r) (et_data r ++ [value])],
            Z.of_nat (length (et_data r)) + 1)
      else Undef
  | r :: rs => let* (rs, count) := add_byte value rs in Ok (r :: rs, count)
  end.

(* tools/assembler/rva.c:2947-2980 elf_dump *)
Definition elf_dump (address value : Z) (e : elf_state) : res elf_state :=
  let records :=
    if (el_new_block e || negb (el_section e =? el_section_old e))%bool then
      el_records e ++ [ElfTemp (match el_records e with [] => false | _ => el_section e =? el_section_old e end)
                         (el_section e) address []]
    else el_records e in
  let* (records, count) := add_byte value records in
  Ok (ElfState true (el_section e) (el_section e) (ELF_TEMP_LENGTH <=? count) records).

(* tools/assembler/rva.c:2984-2988 elf_new_section_maybe *)
Definition elf_new_section_maybe (e : elf_state) : elf_state :=
  if el_valid e then ElfState false (u32 (el_section e + 1)) (el_section_old e) (el_new_block e) (el_records e) else e.

(** ** The listing *)

(* tools/assembler/rva.c:425-428 list_address *)
Record list_state : Type := ListState {
  ls_address : Z; ls_byte : Z; ls_position : Z; ls_buffer : list Z; ls_file : list (list Z);
}.

(* tools/assembler/rva.c:3197-3203 list_start_line *)
Definition list_start_line (address : Z) (cont : bool) (l : list_state) : list_state :=
  ListState address 0 (if cont then ls_position l else 0) (ls_buffer l) (ls_file l).

(** The spaces a tab stands for, from column [i]; the column reached. *)
(* tools/assembler/rva.c:3326-3328 list_buffer_init *)
Fixpoint list_tab (fuel : nat) (i : Z) (buffer : list Z) : res (Z * list Z) :=
  match fuel with
  | O => NoFuel
  | S fuel =>
      let* buffer := zupd buffer (LIST_BYTE_FIELD + i) 32 in
      if (negb ((i + 1) mod 8 =? 0) && (i + 1 <? LIST_LINE_LIST))%bool then list_tab fuel (i + 1) buffer
      else Ok (i + 1, buffer)
  end.

(** The source text, copied from [position] to column [i]; eight columns at most are
    filled by a tab. *)
(* tools/assembler/rva.c:3318-3331 list_buffer_init *)
Fixpoint list_copy (fuel : nat) (line : list Z) (i position : Z) (buffer : list Z) : res (Z * Z * list Z) :=
  match fuel with
  | O => NoFuel
  | S fuel =>
      if i <? LIST_LINE_LIST then
        let* c := zget line position in
        if c =? 0 then Ok (i, position, buffer)
        else if negb (c =? 9) then
          let* buffer := zupd buffer (LIST_BYTE_FIELD + i) c in list_copy fuel line (i + 1) (position + 1) buffer
        else
          let* (i, buffer) := list_tab 9 i buffer in list_copy fuel line i (position + 1) buffer
      else Ok (i, position, buffer)
  end.

(* tools/assembler/rva.c:3306-3335 list_buffer_init *)
Definition list_buffer_init (line : list Z) (offset : Z) (do_address : bool) (l : list_state) : res list_state :=
  let buffer := replicate (Z.to_nat LIST_BYTE_FIELD) 32 ++ drop (Z.to_nat LIST_BYTE_FIELD) (ls_buffer l) in
  let* buffer :=
    (if do_address then
       let* buffer := list_hex (u32 (ls_address l + offset)) 8 buffer 0 in zupd buffer 8 58
     else Ok buffer) in
  let* buffer := zupd buffer (LIST_BYTE_FIELD - 2) 59 in
  let* (i, position, buffer) := list_copy (S (Z.to_nat LIST_LINE_LIST)) line 0 (ls_position l) buffer in
  let* buffer := zupd buffer (LIST_BYTE_FIELD + i) 0 in
  Ok (ListState (ls_address l) (ls_byte l) position buffer (ls_file l)).

(** [dump_code]: is output allowed? The listing is open where this is called. *)
(* tools/assembler/rva.c:3248-3252 list_file_out *)
Definition list_file_out (dump_code : bool) (l : list_state) : list_state :=
  if dump_code then
    ListState (ls_address l) (ls_byte l) (ls_position l) (ls_buffer l) (ls_file l ++ [c_string (ls_buffer l)])
  else l.

(* tools/assembler/rva.c:3208-3223 list_mid_line *)
Definition list_mid_line (dump_code : bool) (value : Z) (line : list Z) (size : Z) (l : list_state) : res list_state :=
  let* l :=
    (if ls_byte l =? 0 then list_buffer_init line (ls_byte l) true l
     else if ((ls_byte l mod 4 =? 0) || (4 <? ls_byte l mod 4 + size))%bool then
       list_buffer_init line (ls_byte l) true (list_file_out dump_code l)
     else Ok l) in
  let* buffer := list_hex value (2 * size) (ls_buffer l) (10 + 3 * (ls_byte l mod 4)) in
  Ok (ListState (ls_address l) (u32 (ls_byte l + size)) (ls_position l) buffer (ls_file l)).

(* tools/assembler/rva.c:3235-3239 list_end_line *)
Fixpoint list_rest (fuel : nat) (dump_code : bool) (line : list Z) (l : list_state) : res list_state :=
  match fuel with
  | O => NoFuel
  | S fuel =>
      let* c := zget line (ls_position l) in
      if c =? 0 then Ok l
      else let* l := list_buffer_init line 0 false l in list_rest fuel dump_code line (list_file_out dump_code l)
  end.

(* tools/assembler/rva.c:3227-3242 list_end_line *)
Definition list_end_line (dump_code : bool) (line : list Z) (l : list_state) : res list_state :=
  let* l := (if ls_byte l =? 0 then list_buffer_init line (ls_byte l) true l else Ok l) in
  list_rest (S (length line)) dump_code line (list_file_out dump_code l).

(** ** All the files *)

(** Which files are open. *)
(* tools/assembler/rva.c:384-384 fList *)
Record open_files : Type := OpenFiles { f_list : bool; f_hex : bool; f_elf : bool; f_verilog : bool }.

(** [o_verilog]: the image, zero where nothing was put. *)
Record outputs : Type := Outputs {
  o_list : list_state; o_hex : hex_state; o_elf : elf_state; o_verilog : gmap Z Z;
}.

(** One byte to the files that want bytes. *)
(* tools/assembler/rva.c:2869-2872 byte_dump *)
Definition put_byte (f : open_files) (address value : Z) (o : outputs) : res outputs :=
  let* hex := (if f_hex f then hex_dump address value (o_hex o) else Ok (o_hex o)) in
  let* elf := (if f_elf f then elf_dump address value (o_elf o) else Ok (o_elf o)) in
  Ok (Outputs (o_list o) hex elf
        (if f_verilog f then <[address mod VERILOG_MAX := value]> (o_verilog o) else o_verilog o)).

(** [n] bytes left, from byte [i]. *)
(* tools/assembler/rva.c:2867-2873 byte_dump *)
Fixpoint put_bytes (n : nat) (f : open_files) (address value i : Z) (o : outputs) : res outputs :=
  match n with
  | O => Ok o
  | S n =>
      let* o := put_byte f (u32 (address + i)) (Z.land (Z.shiftr value (8 * i)) 0xFF) o in
      put_bytes n f address value (i + 1) o
  end.

(** [live]: the value on top of [if_stack] is not zero. *)
(* tools/assembler/rva.c:2857-2877 byte_dump *)
Definition byte_dump (f : open_files) (dump_code live : bool) (address value : Z) (line : list Z) (size : Z)
    (o : outputs) : res outputs :=
  if (dump_code && live)%bool then
    let* l := (if f_list f then list_mid_line dump_code value line size (o_list o) else Ok (o_list o)) in
    put_bytes (Z.to_nat size) f address value 0 (Outputs l (o_hex o) (o_elf o) (o_verilog o))
  else Ok o.

(** ** Reading a hex file

    What a line of the file says: an address, and a byte for each column that is not
    blank. The columns are those of the 16 bytes around the address. *)

Definition column (s : list Z) (k : Z) : option Z :=
  let hi := digit_value (znth 32 s (HEX_LINE_ADDRESS + 3 * k)) 16 in
  let lo := digit_value (znth 32 s (HEX_LINE_ADDRESS + 3 * k + 1)) 16 in
  if ((0 <=? hi) && (0 <=? lo))%bool then Some (16 * hi + lo) else None.

Definition line_address (s : list Z) : Z := number 16 (map (fun c => digit_value c 16) (take 8 s)) 0.

Definition read_hex_line (s : list Z) : list (Z * Z) :=
  let base := 16 * (line_address s / 16) in
  omap (fun k => v ← column s k; Some (base + k, v)) (seqZ 0 16).

Definition read_hex (file : list (list Z)) : list (Z * Z) := concat (map read_hex_line file).

Fixpoint hex_dump_all (l : list (Z * Z)) (h : hex_state) : res hex_state :=
  match l with
  | [] => Ok h
  | (address, value) :: l => let* h := hex_dump address value h in hex_dump_all l h
  end.

(** ** Lemmas: hexadecimal fields *)

Lemma hex_digit_char d : 0 <= d < 16 -> hex_digit d = digit_char d.
Proof. intros. unfold hex_digit, digit_char. case_test; lia. Qed.

Lemma nibble_range v s : 0 <= Z.land (Z.shiftr v s) 15 < 16.
Proof. change 15 with (Z.ones 4). rewrite Z.land_ones by lia. apply Z.mod_pos_bound. lia. Qed.

Lemma digit_value_nibble v s : digit_value (hex_digit (Z.land (Z.shiftr v s) 15)) 16 = Z.land (Z.shiftr v s) 15.
Proof. rewrite hex_digit_char by apply nibble_range. apply digit_value_char; [apply nibble_range|lia]. Qed.

Lemma hex_digit_not_zero v s : hex_digit (Z.land (Z.shiftr v s) 15) <> 0.
Proof. pose proof (nibble_range v s). unfold hex_digit. case_test; zbool; lia. Qed.

(** The digits of [number], [n] of them, written over [b] from [at_] on. *)
Lemma list_hex_loop_spec n number : forall b at_, 0 <= at_ -> at_ + Z.of_nat n <= Z.of_nat (length b) ->
  exists b', list_hex_loop n number b at_ = Ok b' /\ length b' = length b /\
    forall d i, znth d b' i =
      if ((at_ <=? i) && (i <? at_ + Z.of_nat n))%bool
      then hex_digit (Z.land (Z.shiftr number (4 * (at_ + Z.of_nat n - 1 - i))) 15) else znth d b i.
Proof.
  induction n as [|n IH]; intros b at_ Ha Hn.
  - exists b. split; [reflexivity|]. split; [reflexivity|]. intros d i.
    replace ((at_ <=? i) && (i <? at_ + Z.of_nat 0))%bool with false; [reflexivity|].
    symmetry. apply andb_false_iff. rewrite Z.leb_gt, Z.ltb_ge. lia.
  - cbn [list_hex_loop]. set (x := hex_digit _).
    destruct (zupd b at_ x) as [b1| |] eqn:E1; [|exfalso; rewrite zupd_ok in E1 by lia; discriminate
      |exfalso; rewrite zupd_ok in E1 by lia; discriminate]. cbn [rbind].
    pose proof (zupd_length _ _ _ _ E1) as L1.
    destruct (IH b1 (at_ + 1) ltac:(lia) ltac:(lia)) as (b' & E & L & H). exists b'. split; [exact E|].
    split; [lia|]. intros d i. rewrite H.
    destruct (Z.eq_dec i at_) as [->|Hne].
    + replace (at_ + 1 <=? at_) with false by (symmetry; apply Z.leb_gt; lia).
      rewrite (znth_zupd_eq d _ _ _ _ E1). replace (at_ <=? at_) with true by (symmetry; apply Z.leb_le; lia).
      replace (at_ <? at_ + Z.of_nat (S n)) with true by (symmetry; apply Z.ltb_lt; lia).
      subst x. cbn [andb]. do 4 f_equal. lia.
    + rewrite (znth_zupd_ne d _ _ _ _ _ E1) by lia.
      replace ((at_ + 1 <=? i) && (i <? at_ + 1 + Z.of_nat n))%bool
        with ((at_ <=? i) && (i <? at_ + Z.of_nat (S n)))%bool.
      * case_test; [|reflexivity]. do 4 f_equal. lia.
      * apply eq_true_iff_eq. rewrite !andb_true_iff, !Z.leb_le, !Z.ltb_lt. lia.
Qed.

Lemma list_hex_spec number length b at_ : 0 <= at_ -> 0 <= length -> at_ + length <= Z.of_nat (Datatypes.length b) ->
  exists b', list_hex number length b at_ = Ok b' /\ Datatypes.length b' = Datatypes.length b /\
    forall d i, znth d b' i =
      if ((at_ <=? i) && (i <? at_ + length))%bool
      then hex_digit (Z.land (Z.shiftr number (4 * (at_ + length - 1 - i))) 15) else znth d b i.
Proof.
  intros. destruct (list_hex_loop_spec (Z.to_nat length) number b at_) as (b' & E & L & H'); [lia..|].
  exists b'. split; [exact E|]. split; [exact L|]. intros d i. rewrite H', Z2Nat.id by lia. reflexivity.
Qed.

(** The digits of a number read back as the number. *)
Lemma number_nibbles a n : forall v, 0 <= a ->
  number 16 (map (fun i => Z.land (Z.shiftr a (4 * (Z.of_nat n - 1 - i))) 15) (seqZ 0 (Z.of_nat n))) v =
  v * 16 ^ Z.of_nat n + a mod 16 ^ Z.of_nat n.
Proof.
  induction n as [|n IH]; intros v Ha; [change (16 ^ Z.of_nat 0) with 1; rewrite Z.mod_1_r; simpl; lia|].
  rewrite seqZ_cons by lia. cbn [map]. unfold number. cbn [fold_left].
  replace (map _ (seqZ (Z.succ 0) (Z.pred (Z.of_nat (S n))))) with
    (map (fun i => Z.land (Z.shiftr a (4 * (Z.of_nat n - 1 - i))) 15) (seqZ 0 (Z.of_nat n))).
  2: { replace (Z.pred (Z.of_nat (S n))) with (Z.of_nat n) by lia.
       change (Z.succ 0) with (1 + 0). rewrite <- (fmap_add_seqZ 1 0).
       rewrite <- list_fmap_compose. apply map_ext. intros i. simpl. do 3 f_equal. lia. }
  fold (number 16 (map (fun i => Z.land (Z.shiftr a (4 * (Z.of_nat n - 1 - i))) 15) (seqZ 0 (Z.of_nat n)))
    (v * 16 + Z.land (Z.shiftr a (4 * (Z.of_nat (S n) - 1 - 0))) 15)).
  rewrite IH by exact Ha. change 15 with (Z.ones 4).
  rewrite Z.land_ones, Z.shiftr_div_pow2 by lia.
  replace (4 * (Z.of_nat (S n) - 1 - 0)) with (4 * Z.of_nat n) by lia.
  rewrite (Z.pow_mul_r 2 4) by lia. change (2 ^ 4) with 16.
  rewrite Nat2Z.inj_succ, Z.pow_succ_r by lia.
  rewrite (Z.mul_comm 16 (16 ^ Z.of_nat n)), Z.rem_mul_r by lia. lia.
Qed.

Lemma c_string_take b n : (forall i, 0 <= i < Z.of_nat n -> znth 0 b i <> 0) -> znth 0 b (Z.of_nat n) = 0 ->
  (n < length b)%nat -> c_string b = take n b.
Proof.
  revert n. induction b as [|c b IH]; intros n Hb H0 Hn; [simpl in Hn; lia|].
  destruct n as [|n]; simpl.
  - unfold znth in H0. simpl in H0. subst c. reflexivity.
  - pose proof (Hb 0 ltac:(lia)) as Hc. unfold znth in Hc. simpl in Hc.
    replace (c =? 0) with false by (symmetry; apply Z.eqb_neq; exact Hc). f_equal.
    assert (Hs : forall i, 0 <= i -> znth 0 (c :: b) (1 + i) = znth 0 b i).
    { intros i Hi. unfold znth. replace (1 + i <? 0) with false by (symmetry; apply Z.ltb_ge; lia).
      replace (i <? 0) with false by (symmetry; apply Z.ltb_ge; lia).
      replace (Z.to_nat (1 + i)) with (S (Z.to_nat i)) by lia. reflexivity. }
    apply IH; [intros i Hi; rewrite <- Hs by lia; apply Hb; lia| |simpl in Hn; lia].
    rewrite <- Hs by lia. replace (1 + Z.of_nat n) with (Z.of_nat (S n)) by lia. exact H0.
Qed.

Lemma znth_take {A} (d : A) l n i : i < Z.of_nat n -> znth d (take n l) i = znth d l i.
Proof.
  intros H. unfold znth. case_test; [reflexivity|]. zbool. rewrite lookup_take_lt by lia. reflexivity.
Qed.

(** ** Lemmas: the line being built *)

(** The buffer holds the bytes [vs] from address [a] on. *)
Record line_holds (b : list Z) (a : Z) (vs : list Z) : Prop := LineHolds {
  lh_length : length b = 58%nat;
  lh_text : forall i, 0 <= i < 57 -> znth 0 b i <> 0;
  lh_end : znth 0 b 57 = 0;
  lh_address : forall i, 0 <= i < 8 -> znth 0 b i = hex_digit (Z.land (Z.shiftr a (4 * (7 - i))) 15);
  lh_column : forall k, 0 <= k < 16 -> column b k = if k <? a mod 16 then None else vs !! Z.to_nat (k - a mod 16);
}.

Lemma znth_default {A} (d d' : A) l i : 0 <= i < Z.of_nat (length l) -> znth d l i = znth d' l i.
Proof.
  intros H. unfold znth. case_test; zbool; [lia|].
  destruct (lookup_lt_is_Some_2 l (Z.to_nat i)) as [x ->]; [lia|reflexivity].
Qed.

(** Only the column of [address] changes. *)
Lemma hex_byte_spec address v b : length b = 58%nat -> 0 <= v < 256 ->
  exists b', hex_byte address v b = Ok b' /\ length b' = 58%nat /\
    (forall i, i < 10 \/ 57 <= i -> znth 0 b' i = znth 0 b i) /\
    (forall i, znth 0 b' i <> 0 \/ znth 0 b' i = znth 0 b i) /\
    (forall k, 0 <= k < 16 -> column b' k = if k =? address mod 16 then Some v else column b k).
Proof.
  intros Hl Hv. unfold hex_byte, HEX_LINE_ADDRESS, HEX_BYTE_COUNT.
  pose proof (Z.mod_pos_bound address 16 ltac:(lia)) as Hm. set (m := address mod 16) in *.
  destruct (list_hex_spec (u32 (s8 v)) 2 b (10 + 3 * m)) as (b' & E & L & H); [lia..|].
  exists b'. split; [exact E|]. split; [lia|].
  assert (Hin : forall d i, 10 + 3 * m <= i < 10 + 3 * m + 2 ->
    znth d b' i = hex_digit (Z.land (Z.shiftr (u32 (s8 v)) (4 * (10 + 3 * m + 1 - i))) 15)).
  { intros d i Hi. rewrite H. replace ((10 + 3 * m <=? i) && (i <? 10 + 3 * m + 2))%bool with true.
    - do 4 f_equal. lia.
    - symmetry. apply andb_true_iff. rewrite Z.leb_le, Z.ltb_lt. lia. }
  assert (Hout : forall d i, ~ (10 + 3 * m <= i < 10 + 3 * m + 2) -> znth d b' i = znth d b i).
  { intros d i Hi. rewrite H. replace ((10 + 3 * m <=? i) && (i <? 10 + 3 * m + 2))%bool with false; [reflexivity|].
    symmetry. apply andb_false_iff. rewrite Z.leb_gt, Z.ltb_ge. lia. }
  split; [intros; apply Hout; lia|]. split.
  - intros i. destruct (decide (10 + 3 * m <= i < 10 + 3 * m + 2)) as [Hi|Hi].
    + left. rewrite Hin by exact Hi. apply hex_digit_not_zero.
    + right. apply Hout. exact Hi.
  - intros k Hk. unfold column, HEX_LINE_ADDRESS. destruct (Z.eqb_spec k m) as [->|Hne].
    + rewrite !Hin, !digit_value_nibble by lia.
      pose proof (nibble_range (u32 (s8 v)) (4 * (10 + 3 * m + 1 - (10 + 3 * m)))) as H1.
      pose proof (nibble_range (u32 (s8 v)) (4 * (10 + 3 * m + 1 - (10 + 3 * m + 1)))) as H2.
      replace ((0 <=? _) && (0 <=? _))%bool with true by (symmetry; apply andb_true_iff; rewrite !Z.leb_le; lia).
      f_equal. clear - Hv. replace (4 * (10 + 3 * m + 1 - (10 + 3 * m))) with 4 by lia.
      replace (4 * (10 + 3 * m + 1 - (10 + 3 * m + 1))) with 0 by lia.
      change 15 with (Z.ones 4). rewrite !Z.land_ones, Z.shiftr_0_r, Z.shiftr_div_pow2 by lia. change (2 ^ 4) with 16.
      unfold s8, u32. case_test; zbool; dlia.
    + rewrite !Hout by lia. reflexivity.
Qed.

(** A byte appended to the line. *)
Lemma line_extend b a vs v : line_holds b a vs -> 0 <= v < 256 -> 0 <= a ->
  a mod 16 + Z.of_nat (length vs) < 16 ->
  exists b', hex_byte (a + Z.of_nat (length vs)) v b = Ok b' /\ line_holds b' a (vs ++ [v]).
Proof.
  intros [Hl Ht He Ha Hc] Hv Hp Hs.
  destruct (hex_byte_spec (a + Z.of_nat (length vs)) v b Hl Hv) as (b' & E & L & Ho & Hn & Hk).
  exists b'. split; [exact E|].
  assert (Em : (a + Z.of_nat (length vs)) mod 16 = a mod 16 + Z.of_nat (length vs)) by dlia.
  constructor; [exact L| | | |].
  - intros i Hi. destruct (Hn i) as [|E1]; [assumption|]. rewrite E1. apply Ht. exact Hi.
  - rewrite Ho by lia. exact He.
  - intros i Hi. rewrite Ho by lia. apply Ha. exact Hi.
  - intros k Hki. rewrite Hk, Hc, Em by exact Hki. pose proof (Z.mod_pos_bound a 16 ltac:(lia)).
    destruct (Z.eqb_spec k (a mod 16 + Z.of_nat (length vs))) as [->|Hne].
    + replace (_ <? a mod 16) with false by (symmetry; apply Z.ltb_ge; lia).
      rewrite lookup_app_r by lia. replace (_ - length vs)%nat with 0%nat by lia. reflexivity.
    + destruct (Z.ltb_spec k (a mod 16)); [reflexivity|].
      destruct (decide (k - a mod 16 < Z.of_nat (length vs))) as [Hlt|Hge].
      * rewrite lookup_app_l by lia. reflexivity.
      * rewrite (lookup_ge_None_2 vs) by lia. rewrite lookup_ge_None_2; [reflexivity|]. rewrite length_app. simpl. lia.
Qed.

(** A fresh line with its first byte. *)
Lemma line_start a v : is_u32 a -> 0 <= v < 256 ->
  exists b, hex_new_line a v = Ok b /\ line_holds b a [v].
Proof.
  intros Ha Hv. unfold hex_new_line, HEX_LINE_LENGTH, HEX_LINE_ADDRESS, HEX_BYTE_COUNT.
  set (b0 := replicate (Z.to_nat (10 + 3 * 16 - 1)) 32 ++ [0]).
  assert (H0 : forall d i, 0 <= i < 57 -> znth d b0 i = 32).
  { intros d i Hi. unfold znth. case_test; zbool; [lia|]. subst b0. rewrite lookup_app_l by (rewrite length_replicate; lia).
    rewrite lookup_replicate_2 by lia. reflexivity. }
  destruct (list_hex_spec a 8 b0 0) as (b1 & E1 & L1 & H1); [lia|lia|subst b0; rewrite length_app, length_replicate; simpl; lia|].
  rewrite E1. cbn [rbind]. rewrite zupd_ok by (rewrite L1; subst b0; rewrite length_app, length_replicate; simpl; lia).
  cbn [rbind]. set (b2 := <[_ := 58]> b1).
  assert (L2 : length b2 = 58%nat) by (subst b2 b0; rewrite length_insert, L1; reflexivity).
  assert (H2 : forall d i, znth d b2 i = if i =? 8 then 58 else znth d b1 i).
  { intros d i. assert (Ez : zupd b1 8 58 = Ok b2) by (apply zupd_ok; rewrite L1; subst b0; rewrite length_app, length_replicate; simpl; lia).
    destruct (Z.eqb_spec i 8) as [->|Hne]; [apply (znth_zupd_eq d _ _ _ _ Ez)|apply (znth_zupd_ne d _ _ _ _ _ Ez); lia]. }
  destruct (hex_byte_spec a v b2 L2 Hv) as (b & E & L & Ho & Hn & Hk). exists b. split; [exact E|].
  assert (Hb2 : forall i, 0 <= i < 8 -> znth 0 b2 i = hex_digit (Z.land (Z.shiftr a (4 * (7 - i))) 15)).
  { intros i Hi. rewrite H2, H1. replace (i =? 8) with false by (symmetry; apply Z.eqb_neq; lia).
    replace ((0 <=? i) && (i <? 0 + 8))%bool with true by (symmetry; apply andb_true_iff; rewrite Z.leb_le, Z.ltb_lt; lia).
    reflexivity. }
  assert (Hb3 : forall d i, 8 < i < 57 -> znth d b2 i = 32).
  { intros d i Hi. rewrite H2, H1. replace (i =? 8) with false by (symmetry; apply Z.eqb_neq; lia).
    replace (i <? 0 + 8) with false by (symmetry; apply Z.ltb_ge; lia). rewrite andb_false_r. apply H0. lia. }
  constructor; [exact L| | | |].
  - intros i Hi. destruct (Hn i) as [|E3]; [assumption|]. rewrite E3.
    destruct (decide (i < 8)); [rewrite Hb2 by lia; apply hex_digit_not_zero|].
    destruct (decide (i = 8)) as [->|]; [rewrite H2; discriminate|]. rewrite Hb3 by lia. discriminate.
  - rewrite Ho, H2, H1 by lia. reflexivity.
  - intros i Hi. rewrite Ho by lia. apply Hb2. exact Hi.
  - intros k Hki. rewrite Hk by exact Hki. pose proof (Z.mod_pos_bound a 16 ltac:(lia)).
    replace (column b2 k) with (@None Z) by (unfold column, HEX_LINE_ADDRESS; rewrite !Hb3 by lia; reflexivity).
    destruct (Z.eqb_spec k (a mod 16)) as [->|Hne].
    + rewrite Z.ltb_irrefl, Z.sub_diag. reflexivity.
    + destruct (Z.ltb_spec k (a mod 16)); [reflexivity|]. rewrite lookup_ge_None_2; [reflexivity|]. simpl. lia.
Qed.

(** The bytes of a run of addresses. *)
Definition run (a : Z) (vs : list Z) : list (Z * Z) := zip (seqZ a (Z.of_nat (length vs))) vs.

Lemma run_snoc a vs v : run a (vs ++ [v]) = run a vs ++ [(a + Z.of_nat (length vs), v)].
Proof.
  unfold run. rewrite length_app. simpl. rewrite Nat2Z.inj_add, seqZ_app by lia.
  rewrite zip_with_app by (rewrite length_seqZ; lia). reflexivity.
Qed.

Lemma omap_all {A B} (f : A -> option B) (g : A -> B) l : (forall x, x ∈ l -> f x = Some (g x)) -> omap f l = map g l.
Proof.
  induction l as [|x l IH]; intros H; [reflexivity|]. simpl. rewrite H by set_solver.
  f_equal. apply IH. intros y Hy. apply H. set_solver.
Qed.

Lemma omap_none {A B} (f : A -> option B) l : (forall x, x ∈ l -> f x = None) -> omap f l = [].
Proof.
  induction l as [|x l IH]; intros H; [reflexivity|]. simpl. rewrite H by set_solver.
  apply IH. intros y Hy. apply H. set_solver.
Qed.

(** The columns of a line, between the first byte and the last. *)
Lemma omap_columns (col : Z -> option Z) base m vs : 0 <= m -> m + Z.of_nat (length vs) <= 16 ->
  (forall k, 0 <= k < 16 -> col k = if k <? m then None else vs !! Z.to_nat (k - m)) ->
  omap (fun k => v ← col k; Some (base + k, v)) (seqZ 0 16) = run (base + m) vs.
Proof.
  intros Hm Hs Hc.
  replace 16 with (m + (Z.of_nat (length vs) + (16 - m - Z.of_nat (length vs)))) by lia.
  rewrite seqZ_app, seqZ_app by lia. rewrite !omap_app, Z.add_0_l.
  rewrite (omap_none _ (seqZ 0 m)).
  2: { intros k Hk. apply elem_of_seqZ in Hk. rewrite Hc by lia.
       replace (k <? m) with true by (symmetry; apply Z.ltb_lt; lia). reflexivity. }
  rewrite (omap_none _ (seqZ (m + _) _)).
  2: { intros k Hk. apply elem_of_seqZ in Hk. rewrite Hc by lia.
       replace (k <? m) with false by (symmetry; apply Z.ltb_ge; lia).
       rewrite lookup_ge_None_2 by lia. reflexivity. }
  rewrite app_nil_l, app_nil_r.
  rewrite (omap_all _ (fun k => (base + k, znth 0 vs (k - m)))).
  2: { intros k Hk. apply elem_of_seqZ in Hk. rewrite Hc by lia.
       replace (k <? m) with false by (symmetry; apply Z.ltb_ge; lia).
       destruct (lookup_lt_is_Some_2 vs (Z.to_nat (k - m))) as [v Hv]; [lia|].
       rewrite Hv. unfold znth. replace (k - m <? 0) with false by (symmetry; apply Z.ltb_ge; lia). rewrite Hv. reflexivity. }
  clear Hs Hc. unfold run. apply list_eq. intros i. rewrite list_lookup_fmap.
  destruct (decide (i < length vs)%nat) as [Hi|Hi].
  - rewrite lookup_seqZ_lt by lia. simpl. destruct (lookup_lt_is_Some_2 vs i Hi) as [v Hv].
    rewrite lookup_zip_with, lookup_seqZ_lt, Hv by lia. simpl. f_equal. f_equal; [lia|].
    unfold znth. replace (m + Z.of_nat i - m <? 0) with false by (symmetry; apply Z.ltb_ge; lia).
    replace (Z.to_nat (m + Z.of_nat i - m)) with i by lia. rewrite Hv. reflexivity.
  - rewrite lookup_seqZ_ge by lia. rewrite lookup_zip_with, lookup_seqZ_ge by lia. reflexivity.
Qed.

(** Printed and read back, the line gives its bytes. *)
Lemma read_line_holds b a vs : line_holds b a vs -> is_u32 a -> a mod 16 + Z.of_nat (length vs) <= 16 ->
  read_hex_line (c_string b) = run a vs.
Proof.
  intros [Hl Ht He Ha Hc] Hu Hs.
  assert (Es : c_string b = take 57 b) by (apply c_string_take; [intros; apply Ht; lia|exact He|lia]).
  assert (Eaddr : line_address (take 57 b) = a).
  { unfold line_address. rewrite take_take. replace (8 `min` 57)%nat with 8%nat by lia.
    pose proof (number_nibbles a 8 0 ltac:(unfold is_u32 in Hu; lia)) as Hnum.
    rewrite Z.mod_small in Hnum by (unfold is_u32 in Hu; simpl; lia).
    transitivity (0 * 16 ^ Z.of_nat 8 + a); [|lia]. rewrite <- Hnum. f_equal. apply list_eq. intros i. rewrite !list_lookup_fmap.
    destruct (decide (i < 8)%nat) as [Hi|Hi].
    - rewrite lookup_take_lt, lookup_seqZ_lt by lia. simpl.
      destruct (lookup_lt_is_Some_2 b i ltac:(lia)) as [x Hx]. rewrite Hx. simpl. f_equal.
      pose proof (Ha (Z.of_nat i) ltac:(lia)) as Hx'. unfold znth in Hx'.
      replace (Z.of_nat i <? 0) with false in Hx' by (symmetry; apply Z.ltb_ge; lia).
      rewrite Nat2Z.id, Hx in Hx'. simpl in Hx'. subst x. rewrite digit_value_nibble. reflexivity.
    - rewrite lookup_take_ge, lookup_seqZ_ge by lia. reflexivity. }
  unfold read_hex_line. rewrite Es, Eaddr.
  rewrite (omap_columns _ _ (a mod 16) vs); [|dlia|exact Hs|].
  - f_equal. dlia.
  - intros k Hk. rewrite <- Hc by exact Hk. unfold column, HEX_LINE_ADDRESS.
    rewrite !znth_take by lia. reflexivity.
Qed.

(** What has been dumped is what the file says and what the buffer holds. *)
Definition hex_ok (h : hex_state) (l : list (Z * Z)) : Prop :=
  if hx_defined h then
    exists a vs, is_u32 a /\ a mod 16 + Z.of_nat (length vs) < 16 /\ vs <> [] /\
      line_holds (hx_buffer h) a vs /\ hx_address h = a + Z.of_nat (length vs) /\
      l = read_hex (hx_file h) ++ run a vs
  else l = read_hex (hx_file h).

Lemma read_hex_snoc file s : read_hex (file ++ [s]) = read_hex file ++ read_hex_line s.
Proof. unfold read_hex. rewrite map_app, concat_app. simpl. rewrite app_nil_r. reflexivity. Qed.

Lemma hex_flush_ok h l : hex_ok h l -> read_hex (hx_file (hex_dump_flush h)) = l.
Proof.
  unfold hex_ok, hex_dump_flush. cbn [hx_file]. destruct (hx_defined h); [|intros ->; reflexivity].
  intros (a & vs & Ha & Hs & _ & Hb & _ & ->). rewrite read_hex_snoc, (read_line_holds _ a vs Hb Ha) by lia. reflexivity.
Qed.

(** The end of [hex_dump]: a full line is printed. *)
Lemma hex_line_end b a vs file l : line_holds b a vs -> is_u32 a -> a mod 16 + Z.of_nat (length vs) <= 16 -> vs <> [] ->
  l = read_hex file ++ run a vs ->
  hex_ok (if u32 (a + Z.of_nat (length vs)) mod 16 =? 0
          then HexState (u32 (a + Z.of_nat (length vs))) false b (file ++ [c_string b])
          else HexState (u32 (a + Z.of_nat (length vs))) true b file) l.
Proof.
  intros Hb Ha Hs Hv ->. assert (Em : u32 (a + Z.of_nat (length vs)) mod 16 = (a + Z.of_nat (length vs)) mod 16)
    by (unfold u32; dlia).
  rewrite Em. destruct (Z.eqb_spec ((a + Z.of_nat (length vs)) mod 16) 0) as [E|E]; unfold hex_ok; cbn [hx_defined hx_file hx_buffer hx_address].
  - rewrite read_hex_snoc, (read_line_holds b a vs Hb Ha Hs). reflexivity.
  - exists a, vs. split; [exact Ha|]. split; [dlia|]. split; [exact Hv|]. split; [exact Hb|].
    split; [apply u32_id; unfold is_u32 in Ha; dlia|reflexivity].
Qed.

Lemma hex_dump_step a v h l : is_u32 a -> 0 <= v < 256 -> hex_ok h l ->
  exists h', hex_dump a v h = Ok h' /\ hex_ok h' (l ++ [(a, v)]).
Proof.
  intros Ha Hv Hok. unfold hex_dump.
  assert (Hnew : forall file, l = read_hex file ->
    exists h', (let* h := (let* buffer := hex_new_line a v in Ok (HexState (u32 (a + 1)) true buffer file)) in
      if hx_address h mod HEX_BYTE_COUNT =? 0
      then Ok (HexState (hx_address h) false (hx_buffer h) (hx_file h ++ [c_string (hx_buffer h)])) else Ok h) = Ok h' /\
      hex_ok h' (l ++ [(a, v)])).
  { intros file ->. destruct (line_start a v Ha Hv) as (b & E & Hb). rewrite E. cbn.
    pose proof (hex_line_end b a [v] file (read_hex file ++ [(a, v)]) Hb Ha ltac:(simpl; dlia) ltac:(discriminate)
      ltac:(f_equal; reflexivity)) as Hend. simpl length in Hend. unfold HEX_BYTE_COUNT. change (Z.of_nat 1) with 1 in Hend.
    destruct (u32 (a + 1) mod 16 =? 0); eauto. }
  destruct (hx_defined h && (a =? hx_address h))%bool eqn:E.
  - zbool. unfold hex_ok in Hok. rewrite H in Hok. destruct Hok as (a0 & vs & Ha0 & Hs & Hne & Hb & Ea & ->).
    rewrite H0, Ea. destruct (line_extend _ a0 vs v Hb Hv ltac:(unfold is_u32 in Ha0; lia) Hs) as (b' & Eb & Hb').
    rewrite Eb. cbn.
    pose proof (hex_line_end b' a0 (vs ++ [v]) (hx_file h) ((read_hex (hx_file h) ++ run a0 vs) ++ [(a0 + Z.of_nat (length vs), v)])
      Hb' Ha0 ltac:(rewrite length_app; simpl; lia) ltac:(destruct vs; discriminate)
      ltac:(rewrite run_snoc, app_assoc; reflexivity)) as Hend.
    rewrite length_app, Nat2Z.inj_add, Z.add_assoc in Hend. change (Z.of_nat (length [v])) with 1 in Hend.
    unfold HEX_BYTE_COUNT. destruct (u32 _ mod 16 =? 0); eauto.
  - apply Hnew. unfold hex_ok in Hok. destruct (hx_defined h) eqn:Ed; [|exact Hok].
    destruct Hok as (a0 & vs & Ha0 & Hs & Hne & Hb & Ea & ->).
    rewrite read_hex_snoc, (read_line_holds _ a0 vs Hb Ha0) by lia. reflexivity.
Qed.

(** ** Lemmas: the ELF fragments

    What the fragments say: the bytes of a fragment stand at its address, or after
    those of the fragment before when it is a continuation. *)

Fixpoint read_elf (at_ : Z) (rs : list elf_temp) : list (Z * Z) :=
  match rs with
  | [] => []
  | r :: rs =>
      let a := if et_continuation r then at_ else et_address r in
      run a (et_data r) ++ read_elf (a + Z.of_nat (length (et_data r))) rs
  end.

Fixpoint end_elf (at_ : Z) (rs : list elf_temp) : Z :=
  match rs with
  | [] => at_
  | r :: rs => end_elf ((if et_continuation r then at_ else et_address r) + Z.of_nat (length (et_data r))) rs
  end.

Lemma read_elf_snoc rs r : forall at_, read_elf at_ (rs ++ [r]) =
  read_elf at_ rs ++ run (if et_continuation r then end_elf at_ rs else et_address r) (et_data r).
Proof.
  induction rs as [|r0 rs IH]; intros at_; [simpl; rewrite app_nil_r; reflexivity|].
  cbn [app read_elf end_elf]. rewrite IH, app_assoc. reflexivity.
Qed.

Lemma end_elf_snoc rs r : forall at_, end_elf at_ (rs ++ [r]) =
  (if et_continuation r then end_elf at_ rs else et_address r) + Z.of_nat (length (et_data r)).
Proof. induction rs as [|r0 rs IH]; intros at_; [reflexivity|]. apply IH. Qed.

Lemma add_byte_snoc v rs r : (length (et_data r) < 20)%nat ->
  add_byte v (rs ++ [r]) = Ok (rs ++ [ElfTemp (et_continuation r) (et_section r) (et_address r) (et_data r ++ [v])],
    Z.of_nat (length (et_data r)) + 1).
Proof.
  intros H. induction rs as [|r0 rs IH]; cbn [app add_byte].
  - replace (Z.of_nat (length (et_data r)) <? ELF_TEMP_LENGTH) with true; [reflexivity|].
    symmetry. apply Z.ltb_lt. unfold ELF_TEMP_LENGTH. lia.
  - rewrite IH. destruct (rs ++ [r]) eqn:E; [destruct rs; discriminate|]. reflexivity.
Qed.

(** The dumps and the section changes of a pass. *)
Inductive elf_event : Type := Dump (address value : Z) | New_section.

Definition elf_event_step (ev : elf_event) (e : elf_state) : res elf_state :=
  match ev with Dump a v => elf_dump a v e | New_section => Ok (elf_new_section_maybe e) end.

Fixpoint elf_run (evs : list elf_event) (e : elf_state) : res elf_state :=
  match evs with [] => Ok e | ev :: evs => let* e := elf_event_step ev e in elf_run evs e end.

Fixpoint dumped (evs : list elf_event) : list (Z * Z) :=
  match evs with [] => [] | Dump a v :: evs => (a, v) :: dumped evs | New_section :: evs => dumped evs end.

(** Between section changes addresses follow on; [next]: the one a dump must have. *)
Fixpoint contiguous (next : option Z) (evs : list elf_event) : Prop :=
  match evs with
  | [] => True
  | Dump a v :: evs => match next with Some n => a = n | None => True end /\ contiguous (Some (a + 1)) evs
  | New_section :: evs => contiguous None evs
  end.

Definition elf_ok (e : elf_state) (next : option Z) (l : list (Z * Z)) : Prop :=
  0 <= el_section e < 4294967296 /\ Forall (fun r => (length (et_data r) <= 20)%nat) (el_records e) /\
  read_elf 0 (el_records e) = l /\
  match el_records e with
  | [] => el_new_block e = true /\ el_valid e = false /\ next = None
  | _ => exists rs r, el_records e = rs ++ [r] /\ el_new_block e = (20 <=? Z.of_nat (length (et_data r))) /\
      (if el_valid e then el_section_old e = el_section e /\ next = Some (end_elf 0 (el_records e))
       else el_section e <> el_section_old e /\ next = None)
  end.

Lemma elf_new_section_ok e next l : elf_ok e next l -> elf_ok (elf_new_section_maybe e) None l.
Proof.
  intros (Hs & Hf & Hr & Ht). unfold elf_new_section_maybe. destruct (el_valid e) eqn:Ev.
  - split; [cbn; apply u32_range|]. split; [exact Hf|]. split; [exact Hr|]. cbn.
    destruct (el_records e) as [|r0 rs0]; [destruct Ht as (_ & ? & _); discriminate|].
    destruct Ht as (rs & r & E & Hn & Ho & _). exists rs, r. split; [exact E|]. split; [exact Hn|].
    split; [rewrite Ho; unfold u32; dlia|reflexivity].
  - split; [exact Hs|]. split; [exact Hf|]. split; [exact Hr|].
    destruct (el_records e) as [|r0 rs0]; [intuition|].
    destruct Ht as (rs & r & E & Hn & Ht). rewrite Ev. exists rs, r. intuition.
Qed.

(** A dump that opens a record. *)
Lemma elf_dump_open e c a v l : Forall (fun r => (length (et_data r) <= 20)%nat) (el_records e) ->
  0 <= el_section e < 4294967296 ->
  read_elf 0 (el_records e) = l -> (c = true -> a = end_elf 0 (el_records e)) ->
  exists records, add_byte v (el_records e ++ [ElfTemp c (el_section e) a []]) = Ok (records, 1) /\
    elf_ok (ElfState true (el_section e) (el_section e) false records) (Some (a + 1)) (l ++ [(a, v)]).
Proof.
  intros Hf Hs Hr Hc. eexists. split; [apply add_byte_snoc; simpl; lia|]. cbn [et_data et_continuation et_section et_address app].
  set (r := ElfTemp c (el_section e) a [v]). split; [exact Hs|]. cbn [el_records el_section el_new_block el_valid el_section_old].
  split; [apply Forall_app; split; [exact Hf|repeat constructor; simpl; lia]|]. rewrite read_elf_snoc, Hr.
  assert (Ea : (if et_continuation r then end_elf 0 (el_records e) else et_address r) = a)
    by (cbn; destruct c; [rewrite Hc; reflexivity|reflexivity]).
  split; [rewrite Ea; reflexivity|].
  assert (He : el_records e ++ [r] <> []) by (destruct (el_records e); discriminate).
  destruct (el_records e ++ [r]) eqn:E; [contradiction|]. rewrite <- E. exists (el_records e), r.
  split; [reflexivity|]. split; [reflexivity|]. split; [reflexivity|]. rewrite end_elf_snoc, Ea. reflexivity.
Qed.

Lemma elf_dump_ok e next l a v : elf_ok e next l -> match next with Some n => a = n | None => True end ->
  exists e', elf_dump a v e = Ok e' /\ elf_ok e' (Some (a + 1)) (l ++ [(a, v)]).
Proof.
  intros (Hs & Hf & Hr & Ht) Hn. unfold elf_dump.
  destruct (el_new_block e || negb (el_section e =? el_section_old e))%bool eqn:Eb.
  - edestruct (elf_dump_open e (match el_records e with [] => false | _ => el_section e =? el_section_old e end) a v l)
      as (records & E & Hok); [exact Hf|exact Hs|exact Hr| |rewrite E; cbn; eauto].
    destruct (el_records e) as [|r0 rs0] eqn:Er; [discriminate|]. intros Hc%Z.eqb_eq.
    destruct Ht as (rs & r & E & _ & Ht). destruct (el_valid e); [destruct Ht as [_ ->]; exact Hn|]. lia.
  - zbool. destruct (el_records e) as [|r0 rs0] eqn:Er; [destruct Ht as (? & _); congruence|]. rewrite <- Er in *.
    destruct Ht as (rs & r & E & Hnb & Ht). rewrite Hnb in H. zbool.
    destruct (el_valid e); [destruct Ht as [_ ->]|lia].
    rewrite E, add_byte_snoc by lia. cbn. eexists. split; [reflexivity|].
    rewrite E, end_elf_snoc in Hn. rewrite E, read_elf_snoc in Hr.
    split; [exact Hs|]. cbn. rewrite E, Forall_app, Forall_singleton in Hf. destruct Hf as [Hf Hfr].
    split; [apply Forall_app; split; [exact Hf|]; apply Forall_singleton; cbn; rewrite length_app; simpl; lia|].
    rewrite read_elf_snoc. cbn. split.
    { rewrite run_snoc, app_assoc, Hr. do 3 f_equal. exact (eq_sym Hn). }
    set (r' := ElfTemp _ _ _ _). destruct (rs ++ [r']) eqn:E2; [destruct rs; discriminate|]. rewrite <- E2.
    exists rs, r'. split; [reflexivity|]. cbn.
    rewrite length_app, Nat2Z.inj_add. split; [reflexivity|]. split; [reflexivity|]. rewrite end_elf_snoc. cbn.
    rewrite length_app, Nat2Z.inj_add. f_equal. change (Z.of_nat (length [v])) with 1. lia.
Qed.

(** ** Properties *)

(** C32: The hex file is faithful: whatever bytes are dumped, at whatever addresses and in
    whatever order, no index leaves the line buffer, and once the buffer is flushed
    the file, read by its addresses and columns, gives exactly those bytes at those
    addresses in that order. *)
Theorem hex_file_roundtrip l h : Forall (fun p => is_u32 (fst p) /\ 0 <= snd p < 256) l ->
  hx_defined h = false -> hx_file h = [] ->
  exists h', hex_dump_all l h = Ok h' /\ read_hex (hx_file (hex_dump_flush h')) = l.
Proof.
  intros Hl Hd Hf.
  assert (Hgen : forall done h, hex_ok h done -> exists h', hex_dump_all l h = Ok h' /\ hex_ok h' (done ++ l)).
  { clear h Hd Hf. induction Hl as [|[a v] l [Ha Hv] Hl IH]; intros done h Hok.
    - exists h. rewrite app_nil_r. split; [reflexivity|exact Hok].
    - destruct (hex_dump_step a v h done Ha Hv Hok) as (h1 & E & H1). simpl. rewrite E. cbn.
      destruct (IH (done ++ [(a, v)]) h1 H1) as (h' & E' & H'). exists h'. rewrite <- app_assoc in H'. auto. }
  destruct (Hgen [] h) as (h' & E & Hok); [unfold hex_ok; rewrite Hd, Hf; reflexivity|].
  exists h'. split; [exact E|]. apply hex_flush_ok. exact Hok.
Qed.

(** The ELF fragments are faithful: when the assembler opens a section before every
    jump of the address, no fragment overflows its 20 bytes, and the fragments, the
    continuations joined to the fragment before, hold exactly the bytes dumped at
    their addresses. *)
Theorem elf_fragments_faithful evs e : contiguous None evs -> el_records e = [] -> el_new_block e = true ->
  el_valid e = false -> 0 <= el_section e < 4294967296 ->
  exists e', elf_run evs e = Ok e' /\ read_elf 0 (el_records e') = dumped evs /\
    Forall (fun r => (length (et_data r) <= 20)%nat) (el_records e').
Proof.
  intros Hc Hr Hb Hv Hs.
  assert (Hgen : forall evs next l e, contiguous next evs -> elf_ok e next l ->
    exists e' next', elf_run evs e = Ok e' /\ elf_ok e' next' (l ++ dumped evs)).
  { clear. induction evs as [|[a v|] evs IH]; intros next l e Hc Hok.
    - exists e, next. simpl. rewrite app_nil_r. auto.
    - destruct Hc as [Ha Hc]. destruct (elf_dump_ok e next l a v Hok Ha) as (e1 & E1 & H1).
      destruct (IH _ _ e1 Hc H1) as (e' & n' & E' & H'). exists e', n'. simpl. rewrite E1. cbn.
      rewrite <- app_assoc in H'. auto.
    - destruct (IH None l _ Hc (elf_new_section_ok e next l Hok)) as (e' & n' & E' & H'). exists e', n'. auto. }
  destruct (Hgen evs None [] e Hc) as (e' & n' & E & _ & Hf & Hl & _).
  { split; [exact Hs|]. rewrite Hr, Hb, Hv. repeat split. constructor. }
  exists e'. auto.
Qed.
