(* ===== verification/RvaElf.v ===== *)
(** * The ELF file: tools/assembler/rva.c, lines 2992-3193

    [elf_dump_out] writes the file from the fragments that [elf_dump] collected and
    the symbol table; here it gives the bytes of the file. They are read back with
    the headers of the kernel's loader, ElfLoad.v: the image it would load is the
    bytes that were dumped. *)

From S2P Require Import Prelude ElfLoad RvaDefs RvaSym RvaOut.

(** ** The code *)

(* tools/assembler/rva.c:163-168 ELF_MACHINE *)
Definition ELF_MACHINE : Z := 243.
Definition ELF_EHSIZE : Z := 52.
Definition ELF_PHENTSIZE : Z := 4 * 8.
Definition ELF_SHENTSIZE : Z := 4 * 10.
Definition ELF_SHN_ABS : Z := 65521.

(* tools/assembler/rva.c:2995-3000 elf_dump_word *)
Definition elf_dump_word (word : Z) : list Z :=
  [Z.land word 0xFF; Z.land (Z.shiftr word 8) 0xFF; Z.land (Z.shiftr word 16) 0xFF; Z.land (Z.shiftr word 24) 0xFF].

(** Words one after the other. *)
Definition words (ws : list Z) : list Z := concat (map elf_dump_word ws).

(* tools/assembler/rva.c:3002-3012 elf_dump_SH *)
Definition elf_dump_SH (name type flags addr pos size link info align size2 : Z) : list Z :=
  words [name; type; flags; addr; pos; size; link; info; align; size2].

(* tools/assembler/rva.c:263-270 elf_info *)
Record elf_info : Type := ElfInfo { ei_address : Z; ei_position : Z; ei_size : Z }.

(** The output sections of the fragments that are left, [current] being the section
    the last fragment went to, and the length of all the code. *)
(* tools/assembler/rva.c:3037-3055 elf_dump_out *)
Fixpoint code_sections (rs : list elf_temp) (total : Z) (current : option elf_info) : res (list elf_info * Z) :=
  match rs with
  | [] => Ok (match current with Some i => [i] | None => [] end, total)
  | r :: rs =>
      let n := Z.of_nat (length (et_data r)) in
      if negb (et_continuation r) then
        let* (l, total') := code_sections rs (u32 (total + n)) (Some (ElfInfo (et_address r) total n)) in
        Ok (match current with Some i => i :: l | None => l end, total')
      else
        let* i := of_option current in
        code_sections rs (u32 (total + n)) (Some (ElfInfo (ei_address i) (ei_position i) (u32 (ei_size i + n))))
  end.

(** The predefined section names. *)
(* tools/assembler/rva.c:3026-3028 elf_dump_out *)
Definition sym_sectionname : list Z := [115; 121; 109; 116; 97; 98].
Definition str_sectionname : list Z := [115; 116; 114; 116; 97; 98].
Definition shs_sectionname : list Z := [115; 104; 115; 116; 114; 116; 97; 98].

(** A string with its NUL and the padding to a word. *)
(* tools/assembler/rva.c:3083-3083 elf_dump_out *)
Definition pad_word (l : list Z) : list Z := l ++ replicate (Z.to_nat ((- Z.of_nat (length l)) mod 4)) 0.

(* tools/assembler/rva.c:3065-3083 elf_dump_out *)
Definition section_strings (elf_file_name : list Z) : list Z :=
  pad_word (0 :: elf_file_name ++ 0 :: sym_sectionname ++ 0 :: str_sectionname ++ 0 :: shs_sectionname ++ [0]).

(** Past the next NUL of the string table. *)
(* tools/assembler/rva.c:3122-3122 elf_dump_out *)
Fixpoint next_string (fuel : nat) (strings : list Z) (j : Z) : res Z :=
  match fuel with
  | O => NoFuel
  | S fuel => let* c := zget strings j in if c =? 0 then Ok (j + 1) else next_string fuel strings (j + 1)
  end.

(** [n] symbols left; the list of them may not end before. *)
(* tools/assembler/rva.c:3116-3134 elf_dump_out *)
Fixpoint symbol_words (n : nat) (strings : list Z) (j : Z) (rs : list sym_record) : res (list Z) :=
  match n with
  | O => Ok []
  | S n =>
      let* j := next_string (S (length strings)) strings j in
      match rs with
      | [] => Undef
      | r :: rs =>
          let binding := if Z.land (sr_flags r) SYM_REC_EXPORT_FLAG =? 0 then 0 else 16 in
          let section := if Z.land (sr_flags r) SYM_REC_EQUATED =? 0 then sr_elf_section r else ELF_SHN_ABS in
          let* l := symbol_words n strings j rs in
          Ok ([j; sr_value r; 0; u32 (Z.lor (Z.shiftl section 16) binding)] ++ l)
      end
  end.

(* tools/assembler/rva.c:3145-3156 elf_dump_out *)
Definition program_header (i : elf_info) : list Z :=
  words [1; u32 (ELF_EHSIZE + ei_position i); ei_address i; ei_address i; ei_size i; ei_size i; 0; 1].

(* tools/assembler/rva.c:3161-3166 elf_dump_out *)
Definition code_section_header (i : elf_info) : list Z :=
  elf_dump_SH 1 1 7 (ei_address i) (u32 (ELF_EHSIZE + ei_position i)) (ei_size i) 0 0 0 0.

(** The sizes and counts the headers need. *)
(* tools/assembler/rva.c:3017-3020 elf_dump_out *)
Record elf_layout : Type := ElfLayout {
  ly_fragments : Z; ly_total : Z; ly_symtab : Z; ly_strtab : Z; ly_shstrtab : Z; ly_local : Z;
}.

(* tools/assembler/rva.c:3097-3098 elf_dump_out *)
Definition ly_program_headers (y : elf_layout) : Z :=
  u32 (ELF_EHSIZE + ly_total y + ly_symtab y + ly_strtab y + ly_shstrtab y).

(* tools/assembler/rva.c:3090-3105 elf_dump_out *)
Definition file_header (entry_address : Z) (y : elf_layout) : list Z :=
  let fragments := ly_fragments y in
  words [Z.lor (Z.lor (Z.lor 0x7F (Z.shiftl 69 8)) (Z.shiftl 76 16)) (Z.shiftl 70 24); 0x00010101; 0; 0;
         u32 (2 + Z.shiftl ELF_MACHINE 16); 1; entry_address; ly_program_headers y;
         u32 (ly_program_headers y + ELF_PHENTSIZE * fragments); 0; u32 (ELF_EHSIZE + Z.shiftl ELF_PHENTSIZE 16);
         u32 (fragments + Z.shiftl ELF_SHENTSIZE 16); u32 (fragments + 4 + Z.shiftl (fragments + 3) 16)].

(* tools/assembler/rva.c:3158-3176 elf_dump_out *)
Definition section_table (elf_file_name : list Z) (infos : list elf_info) (y : elf_layout) : list Z :=
  let sym_SHstr_offset := 1 + Z.of_nat (length elf_file_name) + 1 in
  let str_SHstr_offset := sym_SHstr_offset + Z.of_nat (length sym_sectionname) + 1 in
  let SHstr_SHstr_offset := str_SHstr_offset + Z.of_nat (length str_sectionname) + 1 in
  elf_dump_SH 0 0 0 0 0 0 0 0 0 0 ++ concat (map code_section_header infos) ++
  elf_dump_SH sym_SHstr_offset 2 0 0 (u32 (ELF_EHSIZE + ly_total y)) (ly_symtab y) (u32 (ly_fragments y + 2)) (ly_local y)
    0 16 ++
  elf_dump_SH str_SHstr_offset 3 0 0 (u32 (ELF_EHSIZE + ly_total y + ly_symtab y)) (ly_strtab y) 0 0 0 0 ++
  elf_dump_SH SHstr_SHstr_offset 3 0 0 (u32 (ELF_EHSIZE + ly_total y + ly_symtab y + ly_strtab y)) (ly_shstrtab y) 0 0 0 0.

(** The symbol table as words, its strings and the two counts. *)
(* tools/assembler/rva.c:3057-3063 elf_dump_out *)
Definition symbol_part (table : sym_table) (h : sym_heap) : res (list Z * list Z * Z * Z) :=
  let* head := sym_sort_symbols table ALL FOR_ELF h in
  let* count := sym_count_symbols table ALL h in
  let* exported := sym_count_symbols table EXPORTED h in
  let* strings := sym_strtab head in
  let* ws := symbol_words (Z.to_nat count) strings 0 head in
  Ok ([0; 0; 0; 0] ++ ws, strings, count + 1, u32 (count + 1 - exported)).

(** The bytes of the file. *)
(* tools/assembler/rva.c:2992-3193 elf_dump_out *)
Definition elf_dump_out (elf_file_name : list Z) (entry_address : Z) (table : sym_table) (h : sym_heap)
    (records : list elf_temp) : res (list Z) :=
  let* (infos, total) := code_sections records 0 None in
  let* (symbols, strings, symtab_count, symtab_local_count) := symbol_part table h in
  let SHstrings := section_strings elf_file_name in
  let pad_to_align := (- total) mod 4 in
  let y := ElfLayout (Z.of_nat (length infos)) (u32 (total + pad_to_align)) (u32 (16 * symtab_count))
             (Z.of_nat (length strings)) (Z.of_nat (length SHstrings)) symtab_local_count in
  Ok (file_header entry_address y ++
      concat (map (fun r => map (fun v => Z.land v 0xFF) (et_data r)) records) ++
      replicate (Z.to_nat pad_to_align) 0 ++
      words symbols ++ map (fun v => Z.land v 0xFF) strings ++ map (fun v => Z.land v 0xFF) SHstrings ++
      concat (map program_header infos) ++
      section_table elf_file_name infos y).

(** ** Reading the file

    The fields of the headers, where ElfLoad.v's [load_ehdr] and [load_phdr] find them,
    and the bytes of the loadable segments at their addresses. *)

Definition byte_at (file : list Z) (p : Z) : Z := znth 0 file p.
Definition half_at (file : list Z) (p : Z) : Z := byte_at file p + 256 * byte_at file (p + 1).
Definition word_at (file : list Z) (p : Z) : Z := half_at file p + 65536 * half_at file (p + 2).

Definition read_ehdr (file : list Z) : Elf32_Ehdr :=
  ElfEhdr (take 16 file) (half_at file 16) (half_at file 18) (word_at file 24) (word_at file 28) (half_at file 44).

Definition read_phdr (file : list Z) (p : Z) : Elf32_Phdr :=
  ElfPhdr (word_at file p) (word_at file (p + 4)) (word_at file (p + 8)) (word_at file (p + 16)) (word_at file (p + 20))
    (word_at file (p + 24)).

Definition segment (file : list Z) (ph : Elf32_Phdr) : list (Z * Z) :=
  if p_type ph =? PT_LOAD
  then run (p_vaddr ph) (take (Z.to_nat (p_filesz ph)) (drop (Z.to_nat (p_offset ph)) file)) else [].

Definition program_headers (file : list Z) : list Elf32_Phdr :=
  let h := read_ehdr file in
  map (fun i => read_phdr file (e_phoff h + sizeof_Elf32_Phdr * i)) (seqZ 0 (e_phnum h)).

Definition load_image (file : list Z) : list (Z * Z) := concat (map (segment file) (program_headers file)).

(** ** Lemmas: words *)

Lemma length_words ws : length (words ws) = (4 * length ws)%nat.
Proof. induction ws as [|w ws IH]; [reflexivity|]. unfold words in *. cbn [map concat]. rewrite length_app, IH. simpl. lia. Qed.

Lemma app_words ws vs : words (ws ++ vs) = words ws ++ words vs.
Proof. unfold words. rewrite map_app, concat_app. reflexivity. Qed.

Lemma znth_app_r {A} (d : A) l m i : Z.of_nat (length l) <= i -> znth d (l ++ m) i = znth d m (i - Z.of_nat (length l)).
Proof.
  intros H. unfold znth. destruct (i <? 0) eqn:E1, (i - Z.of_nat (length l) <? 0) eqn:E2; zbool; try lia.
  rewrite lookup_app_r by lia. do 2 f_equal. lia.
Qed.

Lemma znth_app_l {A} (d : A) l m i : i < Z.of_nat (length l) -> znth d (l ++ m) i = znth d l i.
Proof.
  intros H. unfold znth. destruct (i <? 0) eqn:E; zbool; [reflexivity|]. rewrite lookup_app_l by lia. reflexivity.
Qed.

Lemma byte_sum w : 0 <= w < 2 ^ 32 ->
  Z.land w 0xFF + 256 * Z.land (Z.shiftr w 8) 0xFF +
  65536 * (Z.land (Z.shiftr w 16) 0xFF + 256 * Z.land (Z.shiftr w 24) 0xFF) = w.
Proof.
  intros H. change 0xFF with (Z.ones 8). rewrite !Z.land_ones, !Z.shiftr_div_pow2 by lia.
  change (2 ^ 8) with 256. change (2 ^ 16) with 65536. change (2 ^ 24) with 16777216. dlia.
Qed.

Lemma word_at_word pre w post p : p = Z.of_nat (length pre) -> 0 <= w < 2 ^ 32 ->
  word_at (pre ++ elf_dump_word w ++ post) p = w.
Proof.
  intros -> H. unfold word_at, half_at, byte_at.
  assert (Hk : forall k, 0 <= k -> znth 0 (pre ++ elf_dump_word w ++ post) (Z.of_nat (length pre) + k) =
                         znth 0 (elf_dump_word w ++ post) k)
    by (intros k Hk; rewrite znth_app_r by lia; f_equal; lia).
  rewrite <- (Z.add_0_r (Z.of_nat (length pre))) at 1. rewrite <- (Z.add_assoc _ 2 1), !Hk by lia.
  exact (byte_sum w H).
Qed.

(** The words of a table, by their offset. *)
Lemma word_at_words pre ws post i p w : p = Z.of_nat (length pre) + 4 * Z.of_nat i -> ws !! i = Some w ->
  0 <= w < 2 ^ 32 -> word_at (pre ++ words ws ++ post) p = w.
Proof.
  intros -> Hi Hw. rewrite <- (take_drop_middle _ _ _ Hi). rewrite app_words.
  change (words (w :: drop (S i) ws)) with (elf_dump_word w ++ words (drop (S i) ws)).
  rewrite <- !app_assoc, (app_assoc pre). apply word_at_word; [|exact Hw].
  rewrite length_app, length_words, length_take_le by (apply lookup_lt_Some in Hi; lia). lia.
Qed.

Lemma half_of_word file p : word_at file p = half_at file p + 65536 * half_at file (p + 2).
Proof. reflexivity. Qed.

(** ** Lemmas: sections *)

Definition code (rs : list elf_temp) : list Z := concat (map et_data rs).

Definition section_bytes (all : list Z) (i : elf_info) : list (Z * Z) :=
  run (ei_address i) (take (Z.to_nat (ei_size i)) (drop (Z.to_nat (ei_position i)) all)).

Definition is_section (limit : Z) (i : elf_info) : Prop :=
  is_u32 (ei_address i) /\ 0 <= ei_position i /\ 0 <= ei_size i /\ ei_position i + ei_size i <= limit.

(** The fragments start with one that opens a section. *)
Definition opens (rs : list elf_temp) : Prop :=
  match rs with [] => True | r :: _ => et_continuation r = false end.

Definition sections (rs : list elf_temp) : nat := length (List.filter (fun r => negb (et_continuation r)) rs).

Lemma run_app a vs ws : run a (vs ++ ws) = run a vs ++ run (a + Z.of_nat (length vs)) ws.
Proof.
  unfold run. rewrite length_app, Nat2Z.inj_add, seqZ_app by lia. rewrite zip_with_app; [reflexivity|].
  rewrite length_seqZ. lia.
Qed.

Lemma section_bytes_more all before i : 0 <= ei_position i -> 0 <= ei_size i ->
  ei_position i + ei_size i <= Z.of_nat (length before) -> section_bytes (before ++ all) i = section_bytes before i.
Proof.
  intros Hp Hs Hl. unfold section_bytes. rewrite drop_app_le, take_app_le by (rewrite ?length_drop; lia). reflexivity.
Qed.

(** A section that is continued. *)
Lemma section_bytes_continued before data i n : 0 <= ei_position i -> 0 <= ei_size i ->
  ei_position i + ei_size i = Z.of_nat (length before) -> n = ei_size i + Z.of_nat (length data) ->
  section_bytes (before ++ data) (ElfInfo (ei_address i) (ei_position i) n) =
    section_bytes before i ++ run (ei_address i + ei_size i) data.
Proof.
  intros Hp Hs Hl ->. unfold section_bytes. cbn. rewrite drop_app_le by lia.
  rewrite (take_ge (drop _ before)) by (rewrite length_drop; lia).
  rewrite take_ge by (rewrite length_app, length_drop; lia). rewrite run_app, length_drop.
  do 3 f_equal. lia.
Qed.

(** The section being filled: it ends where the next fragment goes. *)
Definition current_ok (before : list Z) (current : option elf_info) (rs : list elf_temp) : Prop :=
  match current with
  | Some i => is_section (Z.of_nat (length before)) i /\ ei_position i + ei_size i = Z.of_nat (length before)
  | None => opens rs
  end.

Lemma code_sections_spec rs : forall before current, Z.of_nat (length (before ++ code rs)) < 2 ^ 32 ->
  Forall (fun r => is_u32 (et_address r)) rs -> current_ok before current rs ->
  exists l, code_sections rs (Z.of_nat (length before)) current = Ok (l, Z.of_nat (length (before ++ code rs))) /\
    length l = (sections rs + match current with Some _ => 1 | None => 0 end)%nat /\
    Forall (is_section (Z.of_nat (length (before ++ code rs)))) l /\
    concat (map (section_bytes (before ++ code rs)) l) =
      match current with
      | Some i => section_bytes before i ++ read_elf (ei_address i + ei_size i) rs
      | None => read_elf 0 rs
      end.
Proof.
  induction rs as [|r rs IH]; intros before current Hlen Ha Hc.
  - unfold code. cbn [map concat code_sections]. rewrite app_nil_r in *. eexists. split; [reflexivity|].
    destruct current as [i|]; cbn; [|repeat constructor]. destruct Hc as [Hc _]. rewrite !app_nil_r.
    repeat split; [repeat constructor; apply Hc].
  - change (code (r :: rs)) with (et_data r ++ code rs) in *. rewrite app_assoc in *. set (b1 := before ++ et_data r) in *.
    apply Forall_cons in Ha. destruct Ha as [Har Ha].
    assert (Hb : Z.of_nat (length before) + Z.of_nat (length (et_data r)) = Z.of_nat (length b1))
      by (unfold b1; rewrite length_app; lia).
    assert (Hu : u32 (Z.of_nat (length b1)) = Z.of_nat (length b1))
      by (unfold u32; apply Z.mod_small; rewrite length_app in Hlen; lia).
    cbn [code_sections read_elf]. unfold sections. cbn [List.filter]. rewrite Hb, Hu.
    destruct (et_continuation r) eqn:Ec; cbn [negb].
    + destruct current as [i|]; [|cbn in Hc; congruence]. cbn [rbind of_option].
      destruct Hc as [(Hia & Hip & His & Hil) Hie]. set (j := ElfInfo _ _ _).
      assert (Hj : ei_size j = ei_size i + Z.of_nat (length (et_data r)))
        by (cbn; unfold u32; apply Z.mod_small; rewrite length_app in Hlen; lia).
      destruct (IH b1 (Some j) Hlen Ha) as (l & E & Hn & Hf & Hs).
      { split; [split; [exact Hia|]; cbn [ei_position j]; lia|]. cbn [ei_position j]. lia. }
      exists l. split; [exact E|]. split; [exact Hn|]. split; [exact Hf|]. rewrite Hs.
      rewrite app_assoc. f_equal; [|f_equal; cbn [ei_address j]; lia].
      unfold b1. apply section_bytes_continued; [exact Hip|exact His|exact Hie|exact Hj].
    + set (j := ElfInfo (et_address r) (Z.of_nat (length before)) (Z.of_nat (length (et_data r)))).
      destruct (IH b1 (Some j) Hlen Ha) as (l & E & Hn & Hf & Hs).
      { split; [split; [exact Har|]; cbn; lia|]. cbn. lia. }
      rewrite E. cbn [rbind].
      assert (Hsj : section_bytes b1 j = run (et_address r) (et_data r)).
      { unfold section_bytes, b1. cbn. rewrite !Nat2Z.id, drop_app_length, take_ge by lia. reflexivity. }
      rewrite Hsj in Hs. eexists. split; [reflexivity|].
      destruct current as [i|]; cbn [length map concat]; (split; [unfold sections in Hn; lia|]); [|auto].
      destruct Hc as [(Hia & Hip & His & Hil) Hie]. assert (Hle : Z.of_nat (length before) <= Z.of_nat (length (b1 ++ code rs)))
        by (unfold b1; rewrite !length_app; lia).
      split; [constructor; [split; [exact Hia|]; lia|exact Hf]|]. rewrite Hs. f_equal.
      unfold b1. rewrite <- app_assoc. apply section_bytes_more; assumption.
Qed.

(** ** Lemmas: the fragments a pass collects *)

Definition byte_range (v : Z) : Prop := 0 <= v < 256.

Definition fragment_ok (r : elf_temp) : Prop := is_u32 (et_address r) /\ Forall byte_range (et_data r).

Lemma add_byte_ok v : byte_range v -> forall rs rs' c, add_byte v rs = Ok (rs', c) -> Forall fragment_ok rs ->
  Forall fragment_ok rs' /\ (opens rs -> opens rs').
Proof.
  intros Hv. induction rs as [|r rs IH]; intros rs' c H Hf; [discriminate|]. apply Forall_cons in Hf. destruct Hf as [Hr Hf].
  cbn [add_byte] in H. destruct rs as [|r2 rs].
  - case_test_in H; [|discriminate]. injection H as <- _. split; [|auto]. apply Forall_singleton.
    destruct Hr as [Hr1 Hr2]. split; [exact Hr1|]. cbn. apply Forall_app. split; [exact Hr2|]. apply Forall_singleton, Hv.
  - res_inv. destruct a as [l n]. res_inv. destruct (IH _ _ E Hf) as [H1 _]. split; [constructor; assumption|auto].
Qed.

Lemma elf_dump_fragments a v e e' : is_u32 a -> byte_range v -> elf_dump a v e = Ok e' ->
  Forall fragment_ok (el_records e) -> opens (el_records e) -> Forall fragment_ok (el_records e') /\ opens (el_records e').
Proof.
  intros Ha Hv H Hf Ho. unfold elf_dump in H. res_inv. destruct a0 as [rs n]. res_inv. cbn [el_records].
  destruct (add_byte_ok v Hv _ _ _ E) as [H1 H2].
  - case_test; [|exact Hf]. apply Forall_app. split; [exact Hf|]. apply Forall_singleton. split; [exact Ha|constructor].
  - split; [exact H1|]. apply H2. case_test; [|exact Ho]. destruct (el_records e); [reflexivity|exact Ho].
Qed.

Lemma elf_run_fragments evs : forall e e', Forall (fun p => is_u32 (fst p) /\ byte_range (snd p)) (dumped evs) ->
  elf_run evs e = Ok e' -> Forall fragment_ok (el_records e) -> opens (el_records e) ->
  Forall fragment_ok (el_records e') /\ opens (el_records e').
Proof.
  induction evs as [|[a v|] evs IH]; intros e e' Hd H Hf Ho; cbn [elf_run elf_event_step dumped] in *.
  - injection H as <-. auto.
  - apply Forall_cons in Hd. destruct Hd as [[Ha Hv] Hd]. res_inv.
    destruct (elf_dump_fragments _ _ _ _ Ha Hv E Hf Ho) as [Hf1 Ho1]. eapply IH; eassumption.
  - cbn [rbind] in H. eapply IH; [exact Hd|exact H| |]; unfold elf_new_section_maybe; destruct (el_valid e); assumption.
Qed.

Lemma read_elf_length rs : forall at_, length (read_elf at_ rs) = length (code rs).
Proof.
  induction rs as [|r rs IH]; intros at_; [reflexivity|]. cbn [read_elf]. unfold code in *. cbn [map concat].
  rewrite !length_app, IH. f_equal. unfold run. rewrite length_zip_with, length_seqZ. lia.
Qed.

Lemma code_masked rs : Forall fragment_ok rs ->
  concat (map (fun r => map (fun v => Z.land v 0xFF) (et_data r)) rs) = code rs.
Proof.
  induction 1 as [|r rs [_ Hr] _ IH]; [reflexivity|]. unfold code in *. cbn [map concat]. rewrite IH. f_equal.
  induction Hr as [|v vs Hv _ IHv]; [reflexivity|]. cbn [map]. rewrite IHv. f_equal.
  change 0xFF with (Z.ones 8). rewrite Z.land_ones by lia. apply Z.mod_small. exact Hv.
Qed.

(** ** Lemmas: the headers *)

Definition phdr_of (i : elf_info) : Elf32_Phdr :=
  ElfPhdr PT_LOAD (ELF_EHSIZE + ei_position i) (ei_address i) (ei_size i) (ei_size i) 0.

Lemma program_header_length i : length (program_header i) = 32%nat.
Proof. apply length_words. Qed.

Lemma headers_length infos : length (concat (map program_header infos)) = (32 * length infos)%nat.
Proof.
  induction infos as [|i infos IH]; [reflexivity|]. cbn [map concat]. rewrite length_app, IH, program_header_length. simpl. lia.
Qed.

Lemma read_program_header pre post i p limit : is_section limit i -> limit + ELF_EHSIZE < 2 ^ 32 -> p = Z.of_nat (length pre) ->
  read_phdr (pre ++ program_header i ++ post) p = phdr_of i.
Proof.
  intros (Ha & Hp & Hs & Hl) Hlim ->. unfold is_u32, ELF_EHSIZE in *. unfold program_header.
  assert (Hu : u32 (ELF_EHSIZE + ei_position i) = ELF_EHSIZE + ei_position i)
    by (unfold u32, ELF_EHSIZE; apply Z.mod_small; lia).
  rewrite Hu. unfold read_phdr, phdr_of, PT_LOAD. set (ws := [_; _; _; _; _; _; _; _]).
  rewrite (word_at_words pre ws post 0 _ 1), (word_at_words pre ws post 1 _ (ELF_EHSIZE + ei_position i)),
    (word_at_words pre ws post 2 _ (ei_address i)), (word_at_words pre ws post 4 _ (ei_size i)),
    (word_at_words pre ws post 5 _ (ei_size i)), (word_at_words pre ws post 6 _ 0);
    first [reflexivity|unfold ELF_EHSIZE; lia].
Qed.

Lemma map_seqZ {A B} (f : Z -> B) (g : A -> B) l : (forall i x, l !! i = Some x -> f (Z.of_nat i) = g x) ->
  map f (seqZ 0 (Z.of_nat (length l))) = map g l.
Proof.
  induction l as [|x l IH] using rev_ind; intros H; [reflexivity|].
  rewrite length_app, Nat2Z.inj_add, seqZ_app, !map_app by lia. f_equal.
  - apply IH. intros i y Hi. apply H. rewrite lookup_app_l by (eapply lookup_lt_Some; exact Hi). exact Hi.
  - rewrite Z.add_0_l. change (Z.of_nat (length [x])) with 1. rewrite seqZ_cons by lia.
    cbn [map Z.pred]. rewrite (H (length l) x); [reflexivity|]. rewrite lookup_app_r, Nat.sub_diag by lia. reflexivity.
Qed.

(** The program headers after the [front] of the file. *)
Lemma read_headers front infos post limit : Forall (is_section limit) infos -> limit + ELF_EHSIZE < 2 ^ 32 ->
  map (fun i => read_phdr (front ++ concat (map program_header infos) ++ post)
                  (Z.of_nat (length front) + sizeof_Elf32_Phdr * i)) (seqZ 0 (Z.of_nat (length infos))) = map phdr_of infos.
Proof.
  intros Hf Hl. apply map_seqZ. intros i x Hi. rewrite <- (take_drop_middle _ _ _ Hi) at 1.
  rewrite map_app, concat_app. cbn [map concat]. rewrite <- !app_assoc, (app_assoc front).
  apply (read_program_header _ _ _ _ limit); [|exact Hl|].
  - eapply Forall_lookup_1; eassumption.
  - rewrite length_app, headers_length, length_take_le by (apply lookup_lt_Some in Hi; lia). unfold sizeof_Elf32_Phdr. lia.
Qed.

(** The bytes of a segment are those of its section. *)
Lemma segment_section header all rest i : is_section (Z.of_nat (length all)) i -> length header = 52%nat ->
  segment (header ++ all ++ rest) (phdr_of i) = section_bytes all i.
Proof.
  intros (_ & Hp & Hs & Hl) Hh. unfold segment. cbn [p_type p_vaddr p_filesz p_offset phdr_of PT_LOAD Z.eqb Pos.eqb].
  unfold section_bytes. rewrite drop_app_ge by (unfold ELF_EHSIZE; lia).
  replace (Z.to_nat (ELF_EHSIZE + ei_position i) - length header)%nat with (Z.to_nat (ei_position i)) by (unfold ELF_EHSIZE; lia).
  rewrite drop_app_le, take_app_le by (rewrite ?length_drop; lia). reflexivity.
Qed.

Lemma symbol_words_length strings n : forall j rs ws, symbol_words n strings j rs = Ok ws -> length ws = (4 * n)%nat.
Proof.
  induction n as [|n IH]; intros j rs ws H; cbn [symbol_words] in H; [injection H as <-; reflexivity|].
  res_inv. destruct rs as [|r rs]; [discriminate|]. res_inv. apply IH in E0. cbn [app length]. lia.
Qed.

(** The symbol table has sixteen bytes for each of the symbols it counts. *)
Lemma symbol_part_length table h symbols strings count local : symbol_part table h = Ok (symbols, strings, count, local) ->
  0 < count /\ Z.of_nat (length (words symbols)) = 16 * count.
Proof.
  unfold symbol_part. intros H. res_inv. apply symbol_words_length in E3. unfold sym_count_symbols in E0. res_inv.
  rewrite length_words. change ([0; 0; 0; 0] ++ a3) with (0 :: 0 :: 0 :: 0 :: a3). cbn [length]. lia.
Qed.

Lemma file_header_length entry y : length (file_header entry y) = 52%nat.
Proof. apply length_words. Qed.

Lemma half_of_fragments n : 0 <= n < 65536 ->
  Z.land (u32 (n + Z.shiftl ELF_SHENTSIZE 16)) 0xFF + 256 * Z.land (Z.shiftr (u32 (n + Z.shiftl ELF_SHENTSIZE 16)) 8) 0xFF = n.
Proof.
  intros H. change (Z.shiftl ELF_SHENTSIZE 16) with 2621440. change 0xFF with (Z.ones 8).
  rewrite !Z.land_ones, !Z.shiftr_div_pow2 by lia. unfold u32. change (2 ^ 8) with 256. dlia.
Qed.

(** The fields of the file header. *)
Lemma read_file_header entry y rest : is_u32 entry -> 0 <= ly_fragments y < 65536 ->
  read_ehdr (file_header entry y ++ rest) =
    ElfEhdr [127; 69; 76; 70; 1; 1; 1; 0; 0; 0; 0; 0; 0; 0; 0; 0] 2 243 entry (ly_program_headers y) (ly_fragments y).
Proof.
  intros He Hf. unfold read_ehdr. f_equal.
  - apply (word_at_words [] _ rest 6 24 entry); [reflexivity|reflexivity|unfold is_u32 in He; lia].
  - apply (word_at_words [] _ rest 7 28 (ly_program_headers y)); [reflexivity|reflexivity|].
    unfold ly_program_headers, u32. apply Z.mod_pos_bound. lia.
  - exact (half_of_fragments _ Hf).
Qed.

(** The program headers stand after the symbols and their strings. *)
Lemma program_headers_at entry all symbols strs shs n count m1 m2 local :
  let pad := (- Z.of_nat (length all)) mod 4 in
  let y := ElfLayout n (u32 (Z.of_nat (length all) + pad)) (u32 (16 * count)) (Z.of_nat m1) (Z.of_nat m2) local in
  let front := file_header entry y ++ all ++ replicate (Z.to_nat pad) 0 ++ words symbols ++ strs ++ shs in
  0 < count -> Z.of_nat (length (words symbols)) = 16 * count -> length strs = m1 -> length shs = m2 ->
  Z.of_nat (length front) < 2 ^ 32 -> ly_program_headers y = Z.of_nat (length front).
Proof.
  intros pad y front Hc Hs <- <- Hf. assert (Hp : 0 <= pad < 4) by (apply Z.mod_pos_bound; lia).
  unfold front in *. rewrite !length_app, length_replicate, file_header_length in *.
  unfold ly_program_headers, y. cbn [ly_total ly_symtab ly_strtab ly_shstrtab]. unfold ELF_EHSIZE, u32.
  rewrite (Z.mod_small (Z.of_nat (length all) + pad)), (Z.mod_small (16 * count)) by lia. rewrite Z.mod_small by lia. lia.
Qed.

(** ** Properties *)

