(* ===== verification/RvaText.v ===== *)
(** * The listings of the symbols and the Verilog file: tools/assembler/rva.c

    What [list_symbols] adds to the listing, what [sym_print_table] and
    [local_label_dump] write, and the image of the memory as a Verilog file (lines
    776-788 of [main]). A text is its characters, 10 ending a line. *)

From S2P Require Import Prelude RvaDefs RvaLex RvaSym RvaOut.
From Stdlib Require Import Ascii String.
Local Open Scope string_scope.
Local Open Scope list_scope.
Local Open Scope Z_scope.

(** The characters of a string. *)
Definition chars (s : string) : list Z := map (fun a => Z.of_N (Ascii.N_of_ascii a)) (String.list_ascii_of_string s).

Definition new_line : list Z := [10].

(** What [printf] writes for "%08X" and "%02X". *)
(* tools/assembler/rva.c:3278-3278 list_symbols *)
Definition hex_field (digits : nat) (number : Z) : list Z :=
  map (fun k => hex_digit (Z.land (Z.shiftr number (4 * (Z.of_nat digits - 1 - k))) 0xF)) (seqZ 0 (Z.of_nat digits)).

(** ** Symbols *)

(** The name in its field, filled up. *)
(* tools/assembler/rva.c:3272-3276 list_symbols *)
Definition name_field (r : sym_record) (fill : Z -> Z) : list Z :=
  map (fun i => if i <? sr_count r then znth 0 (sr_name r) i else fill i) (seqZ 0 SYM_NAME_MAX).

Definition flagged (r : sym_record) (flag : Z) : bool := truthy (Z.land (sr_flags r) flag).

(* tools/assembler/rva.c:3282-3294 list_symbols *)
Definition symbol_kind (r : sym_record) : string :=
  if flagged r SYM_REC_EQU_FLAG then "  Value"
  else if flagged r SYM_REC_USR_FLAG then "  Constant"
  else if flagged r SYM_REC_DATA_FLAG then "  Offset"
  else if negb (flagged r SYM_REC_DEF_FLAG) then "  Undefined"
  else if flagged r SYM_REC_EXPORT_FLAG then "  Global" else "  Label".

(* tools/assembler/rva.c:3269-3296 list_symbols *)
Definition list_symbol (r : sym_record) : list Z :=
  chars ": " ++ name_field r (fun _ => 32) ++
  chars "  " ++ (if flagged r SYM_REC_DEF_FLAG then hex_field 8 (sr_value r) else chars "00000000") ++
  chars (symbol_kind r) ++ new_line.

(* tools/assembler/rva.c:3257-3302 list_symbols *)
Definition list_symbols (table : sym_table) (h : sym_heap) : res (list Z) :=
  let* sym_count := sym_count_symbols table ALL h in
  let* sorted := sym_sort_symbols table ALL DEFINITION h in
  Ok ((if 0 <? sym_count then new_line ++ chars "Symbol Table: " ++ st_name table ++ new_line else []) ++
      List.concat (map list_symbol sorted)).

(* tools/assembler/rva.c:3922-3930 sym_print_table *)
Definition print_kind (r : sym_record) : string :=
  if flagged r SYM_REC_USR_FLAG then "  Constant   "
  else if flagged r SYM_REC_EQU_FLAG then "  Value      "
  else if flagged r SYM_REC_DATA_FLAG then "  Offset     "
  else if negb (flagged r SYM_REC_THUMB_FLAG) then "  RV32 label  " else "  Thumb label".

(* tools/assembler/rva.c:3906-3935 sym_print_table *)
Definition print_symbol (r : sym_record) : list Z :=
  name_field r (fun i => if sr_count r + 1 <? i then 46 else 32) ++ chars "  " ++ hex_field 8 (sr_identifier r) ++
  (if flagged r SYM_REC_DEF_FLAG then chars "  " ++ hex_field 8 (sr_value r) else chars " Undefined") ++
  chars (print_kind r) ++ (if flagged r SYM_REC_EXPORT_FLAG then chars " (exported)" else []) ++ new_line.

(** A decimal number in a field of 22 characters. *)
Fixpoint decimal (fuel : nat) (n : Z) (tail : list Z) : list Z :=
  match fuel with
  | O => tail
  | S fuel => let tail := 48 + n mod 10 :: tail in if n / 10 =? 0 then tail else decimal fuel (n / 10) tail
  end.

(* tools/assembler/rva.c:3958-3958 local_label_dump *)
Definition signed_field (width : nat) (n : Z) : list Z :=
  let s := if n <? 0 then 45 :: decimal 10 (- n) [] else decimal 10 n [] in
  replicate (width - List.length s) 32 ++ s.

(* tools/assembler/rva.c:3950-3963 local_label_dump *)
Definition local_label_dump (locals : list local_label) : list Z :=
  match locals with
  | [] => []
  | _ =>
      new_line ++ chars "Local (labels in order of definition):" ++ new_line ++
      chars "           Local Label     Value" ++ new_line ++
      List.concat (map (fun l => signed_field 22 (s32 (ll_label l)) ++ chars ":  " ++ hex_field 8 (ll_value l) ++ new_line) locals)
  end.

(** What goes to the file or to standard output; [extras] is [sym_print_extras]. *)
(* tools/assembler/rva.c:3883-3946 sym_print_table *)
Definition sym_print_table (table : sym_table) (what : label_category) (how : label_sort) (extras : Z)
    (locals : list local_label) (h : sym_heap) : res (list Z) :=
  let* sorted := sym_sort_symbols table what how h in
  Ok (new_line ++ chars "Symbol table: " ++ st_name table ++ new_line ++ chars "Label" ++
      replicate (Z.to_nat (SYM_NAME_MAX - 2)) 32 ++ chars "  ID      Value    Type" ++ new_line ++
      List.concat (map print_symbol sorted) ++
      (if truthy (Z.land extras 1) then local_label_dump locals else [])).

(** ** The Verilog file *)

(** [image] is [Verilog_array], zero where nothing was put. *)
Definition image_at (image : gmap Z Z) (i : Z) : Z := default 0 (image !! i).

(* tools/assembler/rva.c:780-788 main *)
Definition verilog_byte (bytes : bool) (image : gmap Z Z) (i : Z) : list Z :=
  (if bytes then hex_field 2 (image_at image i) ++ [32] else hex_field 2 (image_at image (Z.lxor i 3))) ++
  (if Z.land i 3 =? 3 then new_line else []).

(* tools/assembler/rva.c:776-788 main *)
Definition verilog_file (bytes : bool) (size : Z) (image : gmap Z Z) : list Z :=
  List.concat (map (verilog_byte bytes image) (seqZ 0 size)).

(** ** Lemmas *)

(** What the digits say. *)
Definition field_value (l : list Z) : Z := fold_left (fun n c => 16 * n + digit_value c 16) l 0.

(** The little-endian word at index [k] of the image. *)
Definition image_word (image : gmap Z Z) (k : Z) : Z :=
  image_at image (4 * k) + 256 * image_at image (4 * k + 1) + 65536 * image_at image (4 * k + 2) +
  16777216 * image_at image (4 * k + 3).

Lemma nibble_at w s : 0 <= s -> Z.land (Z.shiftr w s) 0xF = (w / 2 ^ s) mod 16.
Proof. intros H. rewrite Z.shiftr_div_pow2 by lia. change 0xF with (Z.ones 4). apply Z.land_ones. lia. Qed.

Lemma hex_field_8 w : hex_field 8 w = map hex_digit [(w / 268435456) mod 16; (w / 16777216) mod 16; (w / 1048576) mod 16;
  (w / 65536) mod 16; (w / 4096) mod 16; (w / 256) mod 16; (w / 16) mod 16; w mod 16].
Proof.
  change (hex_field 8 w) with (map (fun s => hex_digit (Z.land (Z.shiftr w s) 0xF)) [28; 24; 20; 16; 12; 8; 4; 0]).
  cbn [map]. rewrite !nibble_at, Z.pow_0_r, Z.div_1_r by lia. reflexivity.
Qed.

Lemma hex_field_2 w : hex_field 2 w = map hex_digit [(w / 16) mod 16; w mod 16].
Proof.
  change (hex_field 2 w) with (map (fun s => hex_digit (Z.land (Z.shiftr w s) 0xF)) [4; 0]).
  cbn [map]. rewrite !nibble_at, Z.pow_0_r, Z.div_1_r by lia. reflexivity.
Qed.

(** A word is its four bytes, the highest first. *)
Lemma hex_field_bytes b0 b1 b2 b3 : 0 <= b0 < 256 -> 0 <= b1 < 256 -> 0 <= b2 < 256 -> 0 <= b3 < 256 ->
  hex_field 8 (b0 + 256 * b1 + 65536 * b2 + 16777216 * b3) =
    hex_field 2 b3 ++ hex_field 2 b2 ++ hex_field 2 b1 ++ hex_field 2 b0.
Proof.
  intros. rewrite hex_field_8, !hex_field_2, <- !map_app. f_equal. cbn [app].
  repeat (apply f_equal2; [dlia|]). reflexivity.
Qed.

Lemma hex_field_value w : 0 <= w < 2 ^ 32 -> field_value (hex_field 8 w) = w.
Proof.
  intros H. rewrite hex_field_8. unfold field_value. cbn [map fold_left].
  assert (Hd : forall x, digit_value (hex_digit (x mod 16)) 16 = x mod 16)
    by (intros x; rewrite hex_digit_char by dlia; apply digit_value_char; dlia).
  rewrite !Hd. dlia.
Qed.

Lemma lxor_3 k j : 0 <= k -> 0 <= j < 4 -> Z.lxor (4 * k + j) 3 = 4 * k + (3 - j).
Proof.
  intros Hk Hj. assert (Hl : forall x, 0 <= x < 4 -> 4 * k + x = Z.lor (Z.shiftl k 2) x).
  { intros x Hx. rewrite Z.shiftl_mul_pow2 by lia. change (2 ^ 2) with 4. rewrite (Z.mul_comm k), <- Z.add_lor_land.
    replace (Z.land (4 * k) x) with 0; [lia|]. symmetry. apply Z.bits_inj'. intros i Hi. rewrite Z.bits_0, Z.land_spec.
    destruct (Z.ltb_spec i 2).
    - change 4 with (2 ^ 2). rewrite (Z.mul_comm _ k), Z.mul_pow2_bits_low by lia. reflexivity.
    - rewrite (testbit_high x 2) by (simpl; lia). apply andb_false_r. }
  rewrite !Hl by lia. apply Z.bits_inj'. intros i Hi. rewrite Z.lxor_spec, !Z.lor_spec.
  destruct (Z.ltb_spec i 2).
  - rewrite Z.shiftl_spec_low by lia. assert (Hc : i = 0 \/ i = 1) by lia.
    assert (Hd : j = 0 \/ j = 1 \/ j = 2 \/ j = 3) by lia.
    destruct Hc as [-> | ->], Hd as [-> | [-> | [-> | ->]]]; reflexivity.
  - rewrite (testbit_high 3 2), (testbit_high j 2), (testbit_high (3 - j) 2) by (simpl; lia).
    rewrite !orb_false_r, xorb_false_r. reflexivity.
Qed.

Lemma seqZ_4 a : seqZ a 4 = [a; a + 1; a + 2; a + 3].
Proof. rewrite !seqZ_cons, seqZ_nil by lia. repeat (apply f_equal2; [lia|]). reflexivity. Qed.

(** ** Properties *)

(** The Verilog file, one word to a line: each line is the eight digits of the
    little-endian word at its index of the image, so reading it gives that word. *)
Theorem verilog_file_words n image : (forall i, 0 <= image_at image i < 256) ->
  verilog_file false (4 * Z.of_nat n) image =
    List.concat (map (fun k => hex_field 8 (image_word image k) ++ new_line) (seqZ 0 (Z.of_nat n))) /\
  forall k, field_value (hex_field 8 (image_word image k)) = image_word image k.
Proof.
  intros Hi. split.
  - unfold verilog_file. induction n as [|n IH]; [reflexivity|].
    rewrite Nat2Z.inj_succ, <- Z.add_1_r, Z.mul_add_distr_l, !seqZ_app, !map_app, !concat_app, IH by lia. f_equal.
    rewrite !Z.add_0_l. change (4 * 1) with 4. set (k := Z.of_nat n). rewrite seqZ_4, (seqZ_cons k 1), seqZ_nil by lia.
    cbn [map List.concat]. unfold verilog_byte.
    rewrite <- (Z.add_0_r (4 * k)) at 1 2. rewrite !lxor_3 by lia.
    assert (Hm : forall j, 0 <= j < 4 -> Z.land (4 * k + j) 3 = j).
    { intros j Hj. change 3 with (Z.ones 2). rewrite Z.land_ones by lia. change (2 ^ 2) with 4. dlia. }
    rewrite !Hm by lia. cbn [Z.eqb Pos.eqb Z.sub Z.add Z.opp Z.pos_sub Pos.add]. unfold image_word.
    rewrite hex_field_bytes by apply Hi. rewrite !app_nil_r, <- !app_assoc. change (3 - 3) with 0.
    rewrite Z.add_0_r. reflexivity.
  - intros k. apply hex_field_value. unfold image_word.
    pose proof (Hi (4 * k)). pose proof (Hi (4 * k + 1)). pose proof (Hi (4 * k + 2)). pose proof (Hi (4 * k + 3)). lia.
Qed.
