(* ===== verification/RvaList.v ===== *)
(** * The output buffers of the assembler never overflow

    The listing, the hex file and the ELF fragments keep their buffers between calls. The
    invariant [outputs_ok] holds when the assembler starts and is kept by every byte it
    plants and every line it lists; under it none of the functions of RvaOut.v writes
    outside its buffer or reads past the end of the source line. *)

From S2P Require Import Prelude RvaDefs RvaLex RvaSym RvaOut.

(** ** The invariants *)

(** The line is [text] and its NUL; the listing has shown it up to [ls_position]. *)
Record list_ok (text : list Z) (l : list_state) : Prop := ListOk {
  lo_buffer : length (ls_buffer l) = Z.to_nat LIST_LINE_LENGTH;
  lo_position : 0 <= ls_position l <= Z.of_nat (length text);
  lo_byte : 0 <= ls_byte l;
}.

Definition hex_buffer_ok (h : hex_state) : Prop := length (hx_buffer h) = Z.to_nat HEX_LINE_LENGTH.

(** The record being filled has room for a byte. *)
Definition elf_room (e : elf_state) : Prop :=
  el_new_block e = false -> exists rs r, el_records e = rs ++ [r] /\ Z.of_nat (length (et_data r)) < ELF_TEMP_LENGTH.

(** What holds of the outputs between two lines. *)
Record buffers_ok (o : outputs) : Prop := BuffersOk {
  bo_list : length (ls_buffer (o_list o)) = Z.to_nat LIST_LINE_LENGTH;
  bo_hex : hex_buffer_ok (o_hex o);
  bo_elf : elf_room (o_elf o);
}.

(** What holds of them while [text] is assembled; the listing counts if it is open. *)
Record outputs_ok (f : open_files) (text : list Z) (o : outputs) : Prop := OutputsOk {
  oo_list : f_list f = true -> list_ok text (o_list o);
  oo_hex : hex_buffer_ok (o_hex o);
  oo_elf : elf_room (o_elf o);
}.

Lemma outputs_start f text address cont o : buffers_ok o -> cont = false ->
  outputs_ok f text (Outputs (list_start_line address cont (o_list o)) (o_hex o) (o_elf o) (o_verilog o)).
Proof. intros [Hl Hh He] ->. split; [|exact Hh|exact He]. intros _. split; cbn; [exact Hl|lia|lia]. Qed.

(** ** The bytes: hex file and ELF fragments *)

Lemma hex_byte_ok address v b : length b = Z.to_nat HEX_LINE_LENGTH ->
  exists b', hex_byte address v b = Ok b' /\ length b' = Z.to_nat HEX_LINE_LENGTH.
Proof.
  intros Hb. unfold hex_byte. change (HEX_BYTE_COUNT) with 16. pose proof (Z.mod_pos_bound address 16 ltac:(lia)).
  assert (Hn : Z.to_nat HEX_LINE_LENGTH = 58%nat) by reflexivity. rewrite Hn in *. change HEX_LINE_ADDRESS with 10.
  destruct (list_hex_spec (u32 (s8 v)) 2 b (10 + 3 * (address mod 16))) as (b' & E & L & _); [lia..|].
  exists b'. split; [exact E|lia].
Qed.

Lemma hex_new_line_ok address v : exists b, hex_new_line address v = Ok b /\ length b = Z.to_nat HEX_LINE_LENGTH.
Proof.
  unfold hex_new_line. destruct (list_hex_spec address 8 (replicate (Z.to_nat (HEX_LINE_LENGTH - 1)) 32 ++ [0]) 0)
    as (b & -> & L & _); [lia|lia|vm_compute; discriminate|]. cbn [rbind].
  assert (Hb : length b = 58%nat) by exact L. rewrite zupd_ok by lia. cbn [rbind].
  apply hex_byte_ok. rewrite length_insert. exact Hb.
Qed.

Lemma hex_dump_ok address v h : hex_buffer_ok h -> exists h', hex_dump address v h = Ok h' /\ hex_buffer_ok h'.
Proof.
  intros Hh. unfold hex_dump, hex_buffer_ok in *. case_test.
  - destruct (hex_byte_ok address v _ Hh) as (b & -> & Hb). cbn [rbind]. case_test; eexists; split; try reflexivity; exact Hb.
  - destruct (hex_new_line_ok address v) as (b & -> & Hb). cbn [rbind]. case_test; eexists; split; try reflexivity; exact Hb.
Qed.

Lemma elf_dump_ok_room address v e : elf_room e -> exists e', elf_dump address v e = Ok e' /\ elf_room e'.
Proof.
  intros He. unfold elf_dump.
  assert (H : exists rs r, (if (el_new_block e || negb (el_section e =? el_section_old e))%bool then
      el_records e ++ [ElfTemp (match el_records e with [] => false | _ => el_section e =? el_section_old e end)
                         (el_section e) address []]
    else el_records e) = rs ++ [r] /\ Z.of_nat (length (et_data r)) < ELF_TEMP_LENGTH).
  { case_test; [do 2 eexists; split; [reflexivity|vm_compute; reflexivity]|].
    apply orb_false_iff in Etest as [Hn _]. destruct (He Hn) as (rs & r & -> & Hr). eauto. }
  destruct H as (rs & r & -> & Hr). unfold ELF_TEMP_LENGTH in Hr. rewrite add_byte_snoc by lia. cbn [rbind].
  eexists. split; [reflexivity|]. intros Hn. cbn in Hn |- *. zbool. do 2 eexists. split; [reflexivity|].
  cbn [et_data]. rewrite length_app. cbn [length]. unfold ELF_TEMP_LENGTH in *. lia.
Qed.

Lemma elf_section_room e : elf_room e -> elf_room (elf_new_section_maybe e).
Proof. unfold elf_new_section_maybe. destruct (el_valid e); exact id. Qed.

Lemma put_bytes_ok n f address v : forall i o, hex_buffer_ok (o_hex o) -> elf_room (o_elf o) ->
  exists o', put_bytes n f address v i o = Ok o' /\ o_list o' = o_list o /\ hex_buffer_ok (o_hex o') /\ elf_room (o_elf o').
Proof.
  induction n as [|n IH]; intros i o Hh He; cbn [put_bytes]; [eauto 6|]. set (x := Z.land _ _). unfold put_byte.
  assert (H1 : exists h, (if f_hex f then hex_dump (u32 (address + i)) x (o_hex o) else Ok (o_hex o)) = Ok h /\ hex_buffer_ok h)
    by (destruct (f_hex f); [apply hex_dump_ok, Hh|eauto]).
  destruct H1 as (h & -> & Hh'). cbn [rbind].
  assert (H2 : exists e, (if f_elf f then elf_dump (u32 (address + i)) x (o_elf o) else Ok (o_elf o)) = Ok e /\ elf_room e)
    by (destruct (f_elf f); [apply elf_dump_ok_room, He|eauto]).
  destruct H2 as (e & -> & He'). cbn [rbind].
  destruct (IH (i + 1) (Outputs (o_list o) h e (if f_verilog f then <[u32 (address + i) mod VERILOG_MAX := x]> (o_verilog o)
    else o_verilog o)) Hh' He') as (o' & E & El & H). exists o'. split; [exact E|]. split; [exact El|exact H].
Qed.

(** ** The listing *)

Section Listing.

Context (text rest : list Z).

(** The source line: its text, and what lies behind its NUL. *)
Abbreviation line := (text ++ 0 :: rest).
Hypothesis text_no_nul : 0 ∉ text.

Lemma char_at_position p : 0 <= p <= Z.of_nat (length text) ->
  exists c, zget line p = Ok c /\ (c = 0 <-> p = Z.of_nat (length text)).
Proof.
  intros Hp. destruct (decide (p = Z.of_nat (length text))) as [->|Hne].
  - exists 0. split; [apply zget_mid; reflexivity|tauto].
  - destruct (lookup_lt_is_Some_2 text (Z.to_nat p)) as [c Hc]; [lia|]. exists c. split.
    + unfold zget. destruct (Z.ltb_spec p 0); [lia|]. rewrite lookup_app_l by lia. rewrite Hc. reflexivity.
    + split; [|intros; contradiction]. intros ->. exfalso. apply text_no_nul. eapply list_elem_of_lookup_2, Hc.
Qed.

(** A tab fills at least one column, and no column beyond the line. *)
Lemma list_tab_ok fuel : forall i b, 0 <= i < LIST_LINE_LIST -> length b = Z.to_nat LIST_LINE_LENGTH ->
  8 - i mod 8 <= Z.of_nat fuel ->
  exists i' b', list_tab fuel i b = Ok (i', b') /\ i < i' <= LIST_LINE_LIST /\ length b' = length b.
Proof.
  unfold LIST_LINE_LIST, LIST_LINE_LENGTH, LIST_BYTE_FIELD, LIST_LINE_ADDRESS, LIST_BYTE_COUNT.
  induction fuel as [|fuel IH]; intros i b Hi Hb Hf; [dlia|]. cbn [list_tab].
  unfold LIST_LINE_LIST, LIST_LINE_LENGTH, LIST_BYTE_FIELD, LIST_LINE_ADDRESS, LIST_BYTE_COUNT.
  rewrite zupd_ok by lia. cbn [rbind].
  destruct (negb ((i + 1) mod 8 =? 0) && _)%bool eqn:E.
  - zbool. destruct (IH (i + 1) (<[Z.to_nat (10 + 3 * 4 + 2 + i) := 32]> b)) as (i' & b' & E' & Hi' & Hb');
      [lia|rewrite length_insert; exact Hb|dlia|].
    exists i', b'. rewrite length_insert in Hb'. split; [exact E'|]. split; [lia|exact Hb'].
  - do 2 eexists. split; [reflexivity|]. rewrite length_insert. split; [lia|reflexivity].
Qed.

(** Copying stays in the buffer and does not pass the end of the line; it gets on if there
    is room and text. *)
Lemma list_copy_ok fuel : forall i p b, 0 <= i <= LIST_LINE_LIST -> 0 <= p <= Z.of_nat (length text) ->
  length b = Z.to_nat LIST_LINE_LENGTH -> LIST_LINE_LIST - i < Z.of_nat fuel ->
  exists i' p' b', list_copy fuel line i p b = Ok (i', p', b') /\ i <= i' <= LIST_LINE_LIST /\
    p <= p' <= Z.of_nat (length text) /\ length b' = length b /\
    (i < LIST_LINE_LIST -> p < Z.of_nat (length text) -> p < p').
Proof.
  induction fuel as [|fuel IH]; intros i p b Hi Hp Hb Hf; [lia|]. cbn [list_copy].
  destruct (Z.ltb_spec i LIST_LINE_LIST) as [Hlt|Hge].
  2: { do 3 eexists. split; [reflexivity|]. repeat split; lia. }
  destruct (char_at_position p Hp) as (c & -> & Hc). cbn [rbind].
  destruct (Z.eqb_spec c 0) as [->|Hne].
  { do 3 eexists. split; [reflexivity|]. destruct Hc as [Hc _]. specialize (Hc eq_refl). repeat split; lia. }
  assert (Hpl : p < Z.of_nat (length text)) by (destruct (decide (p = Z.of_nat (length text))); [tauto|lia]).
  destruct (negb (c =? 9)).
  - rewrite zupd_ok by (rewrite Hb; unfold LIST_LINE_LIST, LIST_LINE_LENGTH, LIST_BYTE_FIELD, LIST_LINE_ADDRESS, LIST_BYTE_COUNT in *; lia).
    cbn [rbind]. destruct (IH (i + 1) (p + 1) (<[Z.to_nat (LIST_BYTE_FIELD + i) := c]> b)) as (i' & p' & b' & E & H1 & H2 & H3 & _);
      [lia|lia|rewrite length_insert; exact Hb|lia|].
    rewrite length_insert in H3. exists i', p', b'. split; [exact E|]. repeat split; lia.
  - destruct (list_tab_ok 9 i b) as (i1 & b1 & E1 & H1 & Hb1); [lia|exact Hb|dlia|].
    rewrite E1. cbn [rbind]. destruct (IH i1 (p + 1) b1) as (i' & p' & b' & E & H2 & H3 & H4 & _); [lia|lia|lia|lia|].
    exists i', p', b'. split; [exact E|]. repeat split; lia.
Qed.

Lemma list_buffer_init_ok offset a l : list_ok text l ->
  exists l', list_buffer_init line offset a l = Ok l' /\ list_ok text l' /\ ls_byte l' = ls_byte l /\
    ls_position l <= ls_position l' /\ (ls_position l < Z.of_nat (length text) -> ls_position l < ls_position l').
Proof.
  intros [Hb Hp Hn]. unfold list_buffer_init.
  set (b0 := replicate _ 32 ++ _). assert (L0 : length b0 = Z.to_nat LIST_LINE_LENGTH).
  { unfold b0. rewrite length_app, length_replicate, length_drop, Hb. reflexivity. }
  assert (H1 : exists b1, (if a : bool then let* buffer := list_hex (u32 (ls_address l + offset)) 8 b0 0 in zupd buffer 8 58
    else Ok b0) = Ok b1 /\ length b1 = Z.to_nat LIST_LINE_LENGTH).
  { destruct a; [|eauto]. destruct (list_hex_spec (u32 (ls_address l + offset)) 8 b0 0) as (b1 & E & L & _);
      [lia|lia|rewrite L0; vm_compute; discriminate|].
    rewrite E. cbn [rbind]. rewrite zupd_ok by (rewrite L, L0; vm_compute; split; congruence).
    eexists. split; [reflexivity|]. rewrite length_insert. congruence. }
  destruct H1 as (b1 & -> & L1). cbn [rbind].
  rewrite zupd_ok by (rewrite L1; vm_compute; split; congruence). cbn [rbind].
  destruct (list_copy_ok (S (Z.to_nat LIST_LINE_LIST)) 0 (ls_position l) (<[Z.to_nat (LIST_BYTE_FIELD - 2) := 59]> b1))
    as (i' & p' & b' & E & Hi & Hp' & Hb' & Hgo); [vm_compute; split; congruence|exact Hp|rewrite length_insert; exact L1|vm_compute; reflexivity|].
  rewrite E. cbn [rbind]. rewrite length_insert in Hb'.
  rewrite zupd_ok by (rewrite Hb', L1; unfold LIST_LINE_LIST, LIST_LINE_LENGTH, LIST_BYTE_FIELD, LIST_LINE_ADDRESS, LIST_BYTE_COUNT in *; lia).
  cbn [rbind]. eexists. split; [reflexivity|]. split; [|split; [reflexivity|split; [apply Hp'|intros; apply Hgo; [reflexivity|assumption]]]].
  split; cbn; [rewrite length_insert; lia|lia|exact Hn].
Qed.

Lemma list_file_out_ok dc l : list_ok text l -> list_ok text (list_file_out dc l).
Proof. intros []. unfold list_file_out. destruct dc; split; assumption. Qed.

Lemma list_mid_line_ok dc value size l : list_ok text l -> 0 <= size <= 4 ->
  exists l', list_mid_line dc value line size l = Ok l' /\ list_ok text l'.
Proof.
  intros Hl Hs. pose proof (lo_byte _ _ Hl) as Hb0. unfold list_mid_line.
  assert (H1 : exists l1, (if ls_byte l =? 0 then list_buffer_init line (ls_byte l) true l
     else if ((ls_byte l mod 4 =? 0) || (4 <? ls_byte l mod 4 + size))%bool then
       list_buffer_init line (ls_byte l) true (list_file_out dc l)
     else Ok l) = Ok l1 /\ list_ok text l1 /\ ls_byte l1 = ls_byte l).
  { case_test; [|case_test; [|eauto]].
    - destruct (list_buffer_init_ok (ls_byte l) true l Hl) as (l1 & E & H & Hb & _). eauto.
    - destruct (list_buffer_init_ok (ls_byte l) true _ (list_file_out_ok dc _ Hl)) as (l1 & E & H & Hb & _).
      exists l1. split; [exact E|]. split; [exact H|]. rewrite Hb. unfold list_file_out. destruct dc; reflexivity. }
  destruct H1 as (l1 & -> & [Hb1 Hp1 _] & Eb). cbn [rbind].
  pose proof (Z.mod_pos_bound (ls_byte l1) 4 ltac:(lia)).
  destruct (list_hex_spec value (2 * size) (ls_buffer l1) (10 + 3 * (ls_byte l1 mod 4))) as (b & -> & L & _);
    [lia|lia|rewrite Hb1; unfold LIST_LINE_LENGTH; lia|].
  cbn [rbind]. eexists. split; [reflexivity|]. pose proof (u32_range (ls_byte l1 + size)) as [Hu _].
  split; cbn; [congruence|exact Hp1|exact Hu].
Qed.

(** The lines that follow show the rest of the text, to its end. *)
Lemma list_rest_ok dc fuel : forall l, list_ok text l -> Z.of_nat (length text) - ls_position l < Z.of_nat fuel ->
  exists l', list_rest fuel dc line l = Ok l' /\ list_ok text l' /\ ls_position l' = Z.of_nat (length text).
Proof.
  induction fuel as [|fuel IH]; intros l Hl Hf; [destruct Hl; lia|]. cbn [list_rest]. pose proof Hl as [_ Hp _].
  destruct (char_at_position _ Hp) as (c & -> & Hc). cbn [rbind].
  destruct (Z.eqb_spec c 0) as [->|Hne]; [exists l; tauto|].
  assert (Hlt : ls_position l < Z.of_nat (length text)) by (destruct (decide (ls_position l = Z.of_nat (length text))); [tauto|lia]).
  destruct (list_buffer_init_ok 0 false l Hl) as (l1 & -> & H1 & _ & _ & Hgo). specialize (Hgo Hlt). cbn [rbind].
  apply IH; [apply list_file_out_ok, H1|]. unfold list_file_out. destruct dc; cbn; lia.
Qed.

Lemma list_end_line_ok dc l : list_ok text l ->
  exists l', list_end_line dc line l = Ok l' /\ list_ok text l' /\ ls_position l' = Z.of_nat (length text).
Proof.
  intros Hl. unfold list_end_line.
  assert (H1 : exists l1, (if ls_byte l =? 0 then list_buffer_init line (ls_byte l) true l else Ok l) = Ok l1 /\ list_ok text l1).
  { case_test; [|eauto]. destruct (list_buffer_init_ok (ls_byte l) true l Hl) as (l1 & E & H & _). eauto. }
  destruct H1 as (l1 & -> & H1). cbn [rbind]. apply list_rest_ok; [apply list_file_out_ok, H1|].
  apply (list_file_out_ok dc) in H1. destruct H1. rewrite length_app. simpl. lia.
Qed.

(** A byte, a half word or a word, planted anywhere. *)
Lemma byte_dump_ok f dc live address value size o : outputs_ok f text o -> 0 <= size <= 4 ->
  exists o', byte_dump f dc live address value line size o = Ok o' /\ outputs_ok f text o'.
Proof.
  intros Ho Hs. unfold byte_dump. case_test; [|eauto]. destruct Ho as [Hl Hh He].
  assert (H1 : exists l, (if f_list f then list_mid_line dc value line size (o_list o) else Ok (o_list o)) = Ok l /\
    (f_list f = true -> list_ok text l)).
  { destruct (f_list f); [|exists (o_list o); split; [reflexivity|discriminate]].
    destruct (list_mid_line_ok dc value size (o_list o) (Hl eq_refl) Hs) as (l & E & H). eauto. }
  destruct H1 as (l & -> & Hl'). cbn [rbind].
  destruct (put_bytes_ok (Z.to_nat size) f address value 0 (Outputs l (o_hex o) (o_elf o) (o_verilog o)) Hh He)
    as (o' & E & El & Hh' & He'). exists o'. split; [exact E|]. split; [rewrite El; exact Hl'|exact Hh'|exact He'].
Qed.

End Listing.

(** ** What the lines leave behind

    A function of the listing that returns has not changed the length of the buffer. *)

Abbreviation same_length l l' := (length (ls_buffer l') = length (ls_buffer l)).

Lemma list_hex_loop_length n number : forall b at_ b', list_hex_loop n number b at_ = Ok b' -> length b' = length b.
Proof.
  induction n as [|n IH]; intros b at_ b' H; cbn [list_hex_loop] in H; res_inv; [reflexivity|].
  rewrite (IH _ _ _ H). eapply zupd_length, E.
Qed.

Lemma list_tab_length fuel : forall i b i' b', list_tab fuel i b = Ok (i', b') -> length b' = length b.
Proof.
  induction fuel as [|fuel IH]; intros i b i' b' H; [discriminate|]. cbn [list_tab] in H. res_inv.
  apply zupd_length in E. case_test_in H; [rewrite (IH _ _ _ _ H)|injection H as _ <-]; exact E.
Qed.

Lemma list_copy_length fuel line : forall i p b i' p' b', list_copy fuel line i p b = Ok (i', p', b') -> length b' = length b.
Proof.
  induction fuel as [|fuel IH]; intros i p b i' p' b' H; [discriminate|]. cbn [list_copy] in H.
  case_test_in H; res_inv; [|reflexivity]. case_test_in H; res_inv; [reflexivity|]. case_test_in H; res_inv.
  - rewrite (IH _ _ _ _ _ _ H). eapply zupd_length, E0.
  - destruct a0 as [i1 b1]. rewrite (IH _ _ _ _ _ _ H). eapply list_tab_length, E0.
Qed.

Lemma list_buffer_init_length line offset a l l' : length (ls_buffer l) = Z.to_nat LIST_LINE_LENGTH ->
  list_buffer_init line offset a l = Ok l' -> same_length l l'.
Proof.
  intros Hl H. unfold list_buffer_init in H. set (b0 := replicate _ 32 ++ _) in H.
  assert (L0 : length b0 = length (ls_buffer l)) by (unfold b0; rewrite length_app, length_replicate, length_drop, Hl; reflexivity).
  res_inv. destruct a2 as [[i p] b2]. res_inv. cbn.
  apply zupd_length in E0, E2. apply list_copy_length in E1. rewrite E2, E1, E0, <- L0.
  destruct a; res_inv; [|reflexivity]. apply zupd_length in E. rewrite E. eapply list_hex_loop_length. eassumption.
Qed.

Lemma list_file_out_length dc l : same_length l (list_file_out dc l).
Proof. unfold list_file_out. destruct dc; reflexivity. Qed.

Lemma list_mid_line_length dc value line size l l' : length (ls_buffer l) = Z.to_nat LIST_LINE_LENGTH ->
  list_mid_line dc value line size l = Ok l' -> same_length l l'.
Proof.
  intros Hl H. unfold list_mid_line in H. res_inv. cbn. apply list_hex_loop_length in E0. rewrite E0.
  case_test_in E; [eapply list_buffer_init_length; eassumption|]. case_test_in E; res_inv; [|reflexivity].
  rewrite <- (list_file_out_length dc l). eapply list_buffer_init_length; [|exact E]. rewrite list_file_out_length. exact Hl.
Qed.

Lemma list_rest_length dc line fuel : forall l l', length (ls_buffer l) = Z.to_nat LIST_LINE_LENGTH ->
  list_rest fuel dc line l = Ok l' -> same_length l l'.
Proof.
  induction fuel as [|fuel IH]; intros l l' Hl H; [discriminate|]. cbn [list_rest] in H. res_inv.
  case_test_in H; res_inv; [reflexivity|]. pose proof (list_buffer_init_length _ _ _ _ _ Hl E0) as L.
  rewrite (IH _ _ ltac:(rewrite list_file_out_length, L; exact Hl) H), list_file_out_length. exact L.
Qed.

Lemma list_end_line_length dc line l l' : length (ls_buffer l) = Z.to_nat LIST_LINE_LENGTH ->
  list_end_line dc line l = Ok l' -> same_length l l'.
Proof.
  intros Hl H. unfold list_end_line in H. res_inv.
  assert (L : same_length l a) by (case_test_in E; [eapply list_buffer_init_length; eassumption|res_inv; reflexivity]).
  rewrite (list_rest_length _ _ _ _ _ ltac:(rewrite list_file_out_length, L; exact Hl) H), list_file_out_length. exact L.
Qed.

(** Every byte planted leaves the buffers as they must be. *)
Lemma byte_dump_buffers f dc live address value line size o o' :
  byte_dump f dc live address value line size o = Ok o' -> buffers_ok o -> buffers_ok o'.
Proof.
  intros H [Hl Hh He]. unfold byte_dump in H. case_test_in H; res_inv; [|split; assumption].
  destruct (put_bytes_ok (Z.to_nat size) f address value 0 (Outputs a (o_hex o) (o_elf o) (o_verilog o)) Hh He)
    as (o1 & E1 & El & Hh1 & He1). rewrite E1 in H. injection H as <-. split; [|exact Hh1|exact He1].
  rewrite El. cbn. case_test_in E; res_inv; [|exact Hl]. rewrite (list_mid_line_length _ _ _ _ _ _ Hl E). exact Hl.
Qed.
