(* ===== verification/RvaState.v ===== *)
(** * The assembler's global state: tools/assembler/rva.c, lines 373-442

    The variables that the functions of the assembler share, as one record, and the
    computations on them. Variables that are set before the passes and then only read
    are in [config]: which files are open, and the tables of operators, CSRs and
    architectures.

    [embed] runs an operation of RvaEncode.v, which knows only a part of the state,
    on the whole of it. *)

From S2P Require Import Prelude RvaDefs RvaLex RvaSym RvaEval RvaEncode RvaOut.

(* tools/assembler/rva.c:26-26 IF_STACK_SIZE *)
Definition IF_STACK_SIZE : Z := 10.

(** [ol_local] is an index in the list of local labels; the pointers of a record that
    is not a label of the right sort were never set. *)
(* tools/assembler/rva.c:243-248 own_label *)
Record own_label : Type := OwnLabel { ol_sort : label_type; ol_symbol : Z; ol_local : nat }.

(** [g_local_at] is the index of [loc_lab_position]; [g_position] and [g_error] are
    the variables of [assemble_line] that its nested functions share, and [g_include]
    is what the caller's [include_name] points to. *)
(* tools/assembler/rva.c:396-442 assembly_pointer *)
Record gstate : Type := GState {
  g_syms : sym_heap;
  g_symbols : sym_table;
  g_registers : sym_table;
  g_locals : list local_label;
  g_local_at : option nat;
  g_pointer : Z;
  g_pointer_defined : bool;
  g_increment : Z;
  g_data : Z;
  g_entry : Z;
  g_entry_defined : bool;
  g_variant : Z;
  g_undefined : Z;
  g_defined : Z;
  g_redefined : Z;
  g_errors : Z;
  g_div_zero : bool;
  g_sizes : list Z;
  g_size_at : nat;
  g_size_changed : Z;
  g_ifs : list Z;
  g_if_SP : Z;
  g_position : Z;
  g_error : Z;
  g_include : option (list Z);
  g_out : outputs;
}.

Definition g_with_syms (v : sym_heap) (g : gstate) : gstate := GState v (g_symbols g) (g_registers g) (g_locals g)
  (g_local_at g) (g_pointer g) (g_pointer_defined g) (g_increment g) (g_data g) (g_entry g) (g_entry_defined g)
  (g_variant g) (g_undefined g) (g_defined g) (g_redefined g) (g_errors g) (g_div_zero g) (g_sizes g) (g_size_at g)
  (g_size_changed g) (g_ifs g) (g_if_SP g) (g_position g) (g_error g) (g_include g) (g_out g).
Definition g_with_symbols (v : sym_table) (g : gstate) : gstate := GState (g_syms g) v (g_registers g) (g_locals g)
  (g_local_at g) (g_pointer g) (g_pointer_defined g) (g_increment g) (g_data g) (g_entry g) (g_entry_defined g)
  (g_variant g) (g_undefined g) (g_defined g) (g_redefined g) (g_errors g) (g_div_zero g) (g_sizes g) (g_size_at g)
  (g_size_changed g) (g_ifs g) (g_if_SP g) (g_position g) (g_error g) (g_include g) (g_out g).
Definition g_with_registers (v : sym_table) (g : gstate) : gstate := GState (g_syms g) (g_symbols g) v (g_locals g)
  (g_local_at g) (g_pointer g) (g_pointer_defined g) (g_increment g) (g_data g) (g_entry g) (g_entry_defined g)
  (g_variant g) (g_undefined g) (g_defined g) (g_redefined g) (g_errors g) (g_div_zero g) (g_sizes g) (g_size_at g)
  (g_size_changed g) (g_ifs g) (g_if_SP g) (g_position g) (g_error g) (g_include g) (g_out g).
Definition g_with_locals (v : list local_label) (g : gstate) : gstate := GState (g_syms g) (g_symbols g) (g_registers
  g) v (g_local_at g) (g_pointer g) (g_pointer_defined g) (g_increment g) (g_data g) (g_entry g) (g_entry_defined g)
  (g_variant g) (g_undefined g) (g_defined g) (g_redefined g) (g_errors g) (g_div_zero g) (g_sizes g) (g_size_at g)
  (g_size_changed g) (g_ifs g) (g_if_SP g) (g_position g) (g_error g) (g_include g) (g_out g).
Definition g_with_local_at (v : option nat) (g : gstate) : gstate := GState (g_syms g) (g_symbols g) (g_registers g)
  (g_locals g) v (g_pointer g) (g_pointer_defined g) (g_increment g) (g_data g) (g_entry g) (g_entry_defined g)
  (g_variant g) (g_undefined g) (g_defined g) (g_redefined g) (g_errors g) (g_div_zero g) (g_sizes g) (g_size_at g)
  (g_size_changed g) (g_ifs g) (g_if_SP g) (g_position g) (g_error g) (g_include g) (g_out g).
Definition g_with_pointer (v : Z) (g : gstate) : gstate := GState (g_syms g) (g_symbols g) (g_registers g) (g_locals
  g) (g_local_at g) v (g_pointer_defined g) (g_increment g) (g_data g) (g_entry g) (g_entry_defined g) (g_variant g)
  (g_undefined g) (g_defined g) (g_redefined g) (g_errors g) (g_div_zero g) (g_sizes g) (g_size_at g) (g_size_changed
  g) (g_ifs g) (g_if_SP g) (g_position g) (g_error g) (g_include g) (g_out g).
Definition g_with_pointer_defined (v : bool) (g : gstate) : gstate := GState (g_syms g) (g_symbols g) (g_registers g)
  (g_locals g) (g_local_at g) (g_pointer g) v (g_increment g) (g_data g) (g_entry g) (g_entry_defined g) (g_variant g)
  (g_undefined g) (g_defined g) (g_redefined g) (g_errors g) (g_div_zero g) (g_sizes g) (g_size_at g) (g_size_changed
  g) (g_ifs g) (g_if_SP g) (g_position g) (g_error g) (g_include g) (g_out g).
Definition g_with_increment (v : Z) (g : gstate) : gstate := GState (g_syms g) (g_symbols g) (g_registers g) (g_locals
  g) (g_local_at g) (g_pointer g) (g_pointer_defined g) v (g_data g) (g_entry g) (g_entry_defined g) (g_variant g)
  (g_undefined g) (g_defined g) (g_redefined g) (g_errors g) (g_div_zero g) (g_sizes g) (g_size_at g) (g_size_changed
  g) (g_ifs g) (g_if_SP g) (g_position g) (g_error g) (g_include g) (g_out g).
Definition g_with_data (v : Z) (g : gstate) : gstate := GState (g_syms g) (g_symbols g) (g_registers g) (g_locals g)
  (g_local_at g) (g_pointer g) (g_pointer_defined g) (g_increment g) v (g_entry g) (g_entry_defined g) (g_variant g)
  (g_undefined g) (g_defined g) (g_redefined g) (g_errors g) (g_div_zero g) (g_sizes g) (g_size_at g) (g_size_changed
  g) (g_ifs g) (g_if_SP g) (g_position g) (g_error g) (g_include g) (g_out g).
Definition g_with_entry (v : Z) (g : gstate) : gstate := GState (g_syms g) (g_symbols g) (g_registers g) (g_locals g)
  (g_local_at g) (g_pointer g) (g_pointer_defined g) (g_increment g) (g_data g) v (g_entry_defined g) (g_variant g)
  (g_undefined g) (g_defined g) (g_redefined g) (g_errors g) (g_div_zero g) (g_sizes g) (g_size_at g) (g_size_changed
  g) (g_ifs g) (g_if_SP g) (g_position g) (g_error g) (g_include g) (g_out g).
Definition g_with_entry_defined (v : bool) (g : gstate) : gstate := GState (g_syms g) (g_symbols g) (g_registers g)
  (g_locals g) (g_local_at g) (g_pointer g) (g_pointer_defined g) (g_increment g) (g_data g) (g_entry g) v (g_variant
  g) (g_undefined g) (g_defined g) (g_redefined g) (g_errors g) (g_div_zero g) (g_sizes g) (g_size_at g)
  (g_size_changed g) (g_ifs g) (g_if_SP g) (g_position g) (g_error g) (g_include g) (g_out g).
Definition g_with_variant (v : Z) (g : gstate) : gstate := GState (g_syms g) (g_symbols g) (g_registers g) (g_locals
  g) (g_local_at g) (g_pointer g) (g_pointer_defined g) (g_increment g) (g_data g) (g_entry g) (g_entry_defined g) v
  (g_undefined g) (g_defined g) (g_redefined g) (g_errors g) (g_div_zero g) (g_sizes g) (g_size_at g) (g_size_changed
  g) (g_ifs g) (g_if_SP g) (g_position g) (g_error g) (g_include g) (g_out g).
Definition g_with_undefined (v : Z) (g : gstate) : gstate := GState (g_syms g) (g_symbols g) (g_registers g) (g_locals
  g) (g_local_at g) (g_pointer g) (g_pointer_defined g) (g_increment g) (g_data g) (g_entry g) (g_entry_defined g)
  (g_variant g) v (g_defined g) (g_redefined g) (g_errors g) (g_div_zero g) (g_sizes g) (g_size_at g) (g_size_changed
  g) (g_ifs g) (g_if_SP g) (g_position g) (g_error g) (g_include g) (g_out g).
Definition g_with_defined (v : Z) (g : gstate) : gstate := GState (g_syms g) (g_symbols g) (g_registers g) (g_locals
  g) (g_local_at g) (g_pointer g) (g_pointer_defined g) (g_increment g) (g_data g) (g_entry g) (g_entry_defined g)
  (g_variant g) (g_undefined g) v (g_redefined g) (g_errors g) (g_div_zero g) (g_sizes g) (g_size_at g)
  (g_size_changed g) (g_ifs g) (g_if_SP g) (g_position g) (g_error g) (g_include g) (g_out g).
Definition g_with_redefined (v : Z) (g : gstate) : gstate := GState (g_syms g) (g_symbols g) (g_registers g) (g_locals
  g) (g_local_at g) (g_pointer g) (g_pointer_defined g) (g_increment g) (g_data g) (g_entry g) (g_entry_defined g)
  (g_variant g) (g_undefined g) (g_defined g) v (g_errors g) (g_div_zero g) (g_sizes g) (g_size_at g) (g_size_changed
  g) (g_ifs g) (g_if_SP g) (g_position g) (g_error g) (g_include g) (g_out g).
Definition g_with_errors (v : Z) (g : gstate) : gstate := GState (g_syms g) (g_symbols g) (g_registers g) (g_locals g)
  (g_local_at g) (g_pointer g) (g_pointer_defined g) (g_increment g) (g_data g) (g_entry g) (g_entry_defined g)
  (g_variant g) (g_undefined g) (g_defined g) (g_redefined g) v (g_div_zero g) (g_sizes g) (g_size_at g)
  (g_size_changed g) (g_ifs g) (g_if_SP g) (g_position g) (g_error g) (g_include g) (g_out g).
Definition g_with_div_zero (v : bool) (g : gstate) : gstate := GState (g_syms g) (g_symbols g) (g_registers g)
  (g_locals g) (g_local_at g) (g_pointer g) (g_pointer_defined g) (g_increment g) (g_data g) (g_entry g)
  (g_entry_defined g) (g_variant g) (g_undefined g) (g_defined g) (g_redefined g) (g_errors g) v (g_sizes g)
  (g_size_at g) (g_size_changed g) (g_ifs g) (g_if_SP g) (g_position g) (g_error g) (g_include g) (g_out g).
Definition g_with_sizes (v : list Z) (g : gstate) : gstate := GState (g_syms g) (g_symbols g) (g_registers g)
  (g_locals g) (g_local_at g) (g_pointer g) (g_pointer_defined g) (g_increment g) (g_data g) (g_entry g)
  (g_entry_defined g) (g_variant g) (g_undefined g) (g_defined g) (g_redefined g) (g_errors g) (g_div_zero g) v
  (g_size_at g) (g_size_changed g) (g_ifs g) (g_if_SP g) (g_position g) (g_error g) (g_include g) (g_out g).
Definition g_with_size_at (v : nat) (g : gstate) : gstate := GState (g_syms g) (g_symbols g) (g_registers g) (g_locals
  g) (g_local_at g) (g_pointer g) (g_pointer_defined g) (g_increment g) (g_data g) (g_entry g) (g_entry_defined g)
  (g_variant g) (g_undefined g) (g_defined g) (g_redefined g) (g_errors g) (g_div_zero g) (g_sizes g) v
  (g_size_changed g) (g_ifs g) (g_if_SP g) (g_position g) (g_error g) (g_include g) (g_out g).
Definition g_with_size_changed (v : Z) (g : gstate) : gstate := GState (g_syms g) (g_symbols g) (g_registers g)
  (g_locals g) (g_local_at g) (g_pointer g) (g_pointer_defined g) (g_increment g) (g_data g) (g_entry g)
  (g_entry_defined g) (g_variant g) (g_undefined g) (g_defined g) (g_redefined g) (g_errors g) (g_div_zero g) (g_sizes
  g) (g_size_at g) v (g_ifs g) (g_if_SP g) (g_position g) (g_error g) (g_include g) (g_out g).
Definition g_with_ifs (v : list Z) (g : gstate) : gstate := GState (g_syms g) (g_symbols g) (g_registers g) (g_locals
  g) (g_local_at g) (g_pointer g) (g_pointer_defined g) (g_increment g) (g_data g) (g_entry g) (g_entry_defined g)
  (g_variant g) (g_undefined g) (g_defined g) (g_redefined g) (g_errors g) (g_div_zero g) (g_sizes g) (g_size_at g)
  (g_size_changed g) v (g_if_SP g) (g_position g) (g_error g) (g_include g) (g_out g).
Definition g_with_if_SP (v : Z) (g : gstate) : gstate := GState (g_syms g) (g_symbols g) (g_registers g) (g_locals g)
  (g_local_at g) (g_pointer g) (g_pointer_defined g) (g_increment g) (g_data g) (g_entry g) (g_entry_defined g)
  (g_variant g) (g_undefined g) (g_defined g) (g_redefined g) (g_errors g) (g_div_zero g) (g_sizes g) (g_size_at g)
  (g_size_changed g) (g_ifs g) v (g_position g) (g_error g) (g_include g) (g_out g).
Definition g_with_position (v : Z) (g : gstate) : gstate := GState (g_syms g) (g_symbols g) (g_registers g) (g_locals
  g) (g_local_at g) (g_pointer g) (g_pointer_defined g) (g_increment g) (g_data g) (g_entry g) (g_entry_defined g)
  (g_variant g) (g_undefined g) (g_defined g) (g_redefined g) (g_errors g) (g_div_zero g) (g_sizes g) (g_size_at g)
  (g_size_changed g) (g_ifs g) (g_if_SP g) v (g_error g) (g_include g) (g_out g).
Definition g_with_error (v : Z) (g : gstate) : gstate := GState (g_syms g) (g_symbols g) (g_registers g) (g_locals g)
  (g_local_at g) (g_pointer g) (g_pointer_defined g) (g_increment g) (g_data g) (g_entry g) (g_entry_defined g)
  (g_variant g) (g_undefined g) (g_defined g) (g_redefined g) (g_errors g) (g_div_zero g) (g_sizes g) (g_size_at g)
  (g_size_changed g) (g_ifs g) (g_if_SP g) (g_position g) v (g_include g) (g_out g).
Definition g_with_include (v : option (list Z)) (g : gstate) : gstate := GState (g_syms g) (g_symbols g) (g_registers
  g) (g_locals g) (g_local_at g) (g_pointer g) (g_pointer_defined g) (g_increment g) (g_data g) (g_entry g)
  (g_entry_defined g) (g_variant g) (g_undefined g) (g_defined g) (g_redefined g) (g_errors g) (g_div_zero g) (g_sizes
  g) (g_size_at g) (g_size_changed g) (g_ifs g) (g_if_SP g) (g_position g) (g_error g) v (g_out g).
Definition g_with_out (v : outputs) (g : gstate) : gstate := GState (g_syms g) (g_symbols g) (g_registers g) (g_locals
  g) (g_local_at g) (g_pointer g) (g_pointer_defined g) (g_increment g) (g_data g) (g_entry g) (g_entry_defined g)
  (g_variant g) (g_undefined g) (g_defined g) (g_redefined g) (g_errors g) (g_div_zero g) (g_sizes g) (g_size_at g)
  (g_size_changed g) (g_ifs g) (g_if_SP g) (g_position g) (g_error g) (g_include g) v.

Record config : Type := Config {
  cf_files : open_files; cf_csr : sym_table; cf_operators : sym_table; cf_arch : sym_table;
}.

(** A computation on the state. *)
Definition G (X : Type) : Type := gstate -> res (X * gstate).
Definition gret {X} (x : X) : G X := fun g => Ok (x, g).
Definition gbind {X Y} (m : G X) (f : X -> G Y) : G Y := fun g => let* (x, g) := m g in f x g.
Definition gets {X} (f : gstate -> X) : G X := fun g => Ok (f g, g).
Definition modify (f : gstate -> gstate) : G unit := fun g => Ok (tt, f g).
Definition glift {X} (r : res X) : G X := fun g => let* x := r in Ok (x, g).

Declare Scope rva_scope.
Notation "'let&' p := m 'in' k" := (gbind m (fun p => k))
  (at level 10, p pattern, m at level 100, k at level 200) : rva_scope.
Notation "'do&' m 'in' k" := (gbind m (fun _ => k))
  (at level 10, m at level 100, k at level 200) : rva_scope.
Local Open Scope rva_scope.

Definition fail_with (e : Z) : G unit := modify (g_with_error e).
(** [error_code = e | position]. *)
Definition fail_here (e : Z) : G unit := fun g => fail_with (Z.lor e (g_position g)) g.
Definition move_to (p : Z) : G unit := modify (g_with_position p).

Lemma gbind_step {X Y} (m : G X) (f : X -> G Y) g x g' : m g = Ok (x, g') -> gbind m f g = f x g'.
Proof. intros H. unfold gbind. rewrite H. reflexivity. Qed.

(** [if_stack[if_SP]], as a truth value. *)
(* tools/assembler/rva.c:1450-1450 assemble_define *)
Definition live_of (g : gstate) : bool := truthy (znth 0 (g_ifs g) (g_if_SP g)).

Section State.

Context (cfg : config) (junk_sym : Z -> sym_record) (first_pass last_pass dump_code : bool) (line : list Z).

Definition lookup_in (t : sym_table) (g : gstate) : list Z -> res (option (Z * Z)) :=
  table_lookup junk_sym (g_syms g) t.

(** The evaluator's view of the state. *)
Definition env_of (my : own_label) (g : gstate) : eval_env :=
  EvalEnv (lookup_in (g_symbols g) g) (lookup_in (cf_csr cfg) g) (lookup_in (cf_operators cfg) g) (ol_sort my)
    (g_locals g) (g_local_at g) (g_pointer_defined g) (g_pointer g).

(* tools/assembler/rva.c:2857-2877 byte_dump *)
Definition dump (address value size : Z) : G unit := fun g =>
  let* o := RvaOut.byte_dump (cf_files cfg) dump_code (live_of g) address value line size (g_out g) in
  Ok (tt, g_with_out o g).

(** Functions of the listing and of the ELF fragments, on the state. *)
Definition on_list (f : list_state -> list_state) (g : gstate) : gstate :=
  g_with_out (Outputs (f (o_list (g_out g))) (o_hex (g_out g)) (o_elf (g_out g)) (o_verilog (g_out g))) g.
Definition on_elf (f : elf_state -> elf_state) (g : gstate) : gstate :=
  g_with_out (Outputs (o_list (g_out g)) (o_hex (g_out g)) (f (o_elf (g_out g))) (o_verilog (g_out g))) g.

(** [evaluate] where its result is assigned to [error_code]: the value. *)
(* tools/assembler/rva.c:1428-1428 assemble_define *)
Definition g_evaluate (my : own_label) : G Z := fun g =>
  let* (e, value, st) := evaluate (env_of my g) line (g_position g) in
  Ok (value, g_with_error e (g_with_position (es_pos st)
    (g_with_undefined (g_undefined g + es_undefined st) (g_with_div_zero (g_div_zero g || es_div_zero st) g)))).

(** The check that follows: some errors are ignored on some passes. *)
(* tools/assembler/rva.c:1464-1465 fill_space *)
Definition allow : G unit := fun g =>
  if allow_error (g_error g) first_pass last_pass then fail_with eval_okay g else Ok (tt, g).

(** The words RvaEncode.v planted, dumped one by one. *)
Fixpoint dump_words (bytes : list (Z * Z)) : G unit :=
  match bytes with
  | (a, b0) :: (_, b1) :: (_, b2) :: (_, b3) :: bytes =>
      do& dump a (b0 + 256 * b1 + 65536 * b2 + 16777216 * b3) 4 in dump_words bytes
  | _ => gret tt
  end.

Definition astate_of (g : gstate) : astate :=
  AState (g_position g) (g_error g) (g_pointer g) (g_undefined g) (g_div_zero g) (g_sizes g) (g_size_at g)
    (g_size_changed g) [].

Definition back (s : astate) (g : gstate) : gstate :=
  g_with_position (as_position s) (g_with_error (as_error s) (g_with_pointer (as_pointer s)
    (g_with_undefined (as_undefined s) (g_with_div_zero (as_div_zero s) (g_with_sizes (as_sizes s)
      (g_with_size_at (as_size_at s) (g_with_size_changed (as_size_changed s) g))))))).

Definition embed {X} (m : gstate -> A X) : G X := fun g =>
  let* (x, s) := m g (astate_of g) in
  let* (_, g) := dump_words (as_bytes s) (back s g) in
  Ok (x, g).

End State.

(** ** What an operation does to the state

    [Keeps R m]: whenever [m] succeeds, the state after it is related by [R] to the
    state before. For a reflexive and transitive [R] this is closed under sequencing,
    so that a fact about every operation is proved from its parts. *)

Section Keeps.

Context (R : gstate -> gstate -> Prop) `{!PreOrder R}.

Definition Keeps {X} (m : G X) : Prop := forall g x g', m g = Ok (x, g') -> R g g'.

Lemma keeps_ret {X} (x : X) : Keeps (gret x).
Proof. intros g y g' [= _ <-]. reflexivity. Qed.

Lemma keeps_gets {X} (f : gstate -> X) : Keeps (gets f).
Proof. intros g y g' [= _ <-]. reflexivity. Qed.

Lemma keeps_lift {X} (r : res X) : Keeps (glift r).
Proof. intros g y g' H. unfold glift in H. res_inv. reflexivity. Qed.

Lemma keeps_modify f : (forall g, R g (f g)) -> Keeps (modify f).
Proof. intros Hf g y g' [= <- <-]. apply Hf. Qed.

Lemma keeps_bind {X Y} (m : G X) (f : X -> G Y) : Keeps m -> (forall x, Keeps (f x)) -> Keeps (gbind m f).
Proof.
  intros Hm Hf g y g' H. unfold gbind in H. res_inv. destruct a as [x g1].
  transitivity g1; [eapply Hm; eassumption|eapply Hf; eassumption].
Qed.

End Keeps.

Create HintDb keeps.
#[export] Hint Extern 1 (Keeps _ (gret _)) => apply keeps_ret; typeclasses eauto : keeps.
#[export] Hint Extern 1 (Keeps _ (gets _)) => apply keeps_gets; typeclasses eauto : keeps.
#[export] Hint Extern 1 (Keeps _ (glift _)) => apply keeps_lift; typeclasses eauto : keeps.

(** Decompose a [Keeps] goal along the code. *)
Ltac keeps_step :=
  match goal with
  | |- Keeps _ (gbind _ _) => apply keeps_bind; [typeclasses eauto| |intros ?]
  | |- Keeps _ (let '(_, _) := ?x in _) => destruct x
  | |- Keeps _ (match ?x with _ => _ end) => destruct x
  | |- Keeps _ _ => solve [auto with keeps]
  end.
Ltac keeps_auto := repeat keeps_step.
