(* ===== verification/RvaDir.v ===== *)
(** * The assembler's directives: tools/assembler/rva.c, lines 1372-1472, 2304-2717 and 2760-2853

    [assemble_line] handles the rest of a source line once its mnemonic is known: it
    gives the label on the line its value, then obeys a directive or assembles an
    instruction. The functions nested in it share its variables, which are part of
    the state.

    [files] is the file system: the contents of a file, [None] when it cannot be
    opened. [junk_sym], [junk] and [junk_flag] are what memory and variables hold
    before they are set. *)

From S2P Require Import Prelude RvaDefs RvaLex RvaSym RvaEval RvaEncode RvaOut RvaState.
Local Open Scope rva_scope.

(* tools/assembler/rva.c:56-57 SYM_ERR_NO_MNEM *)
Definition SYM_ERR_NO_MNEM : Z := 512.                       (* 0x0200 *)
Definition SYM_ERR_NO_EQU : Z := 768.                        (* 0x0300 *)
(* tools/assembler/rva.c:64-64 SYM_ENDLESS_STRING *)
Definition SYM_ENDLESS_STRING : Z := 2304.                   (* 0x0900 *)
(* tools/assembler/rva.c:69-71 SYM_ERR_NO_EXPORT *)
Definition SYM_ERR_NO_EXPORT : Z := Z.lor 3584 WARNING_ONLY. (* 0x0E00 *)
Definition SYM_INCONSISTENT : Z := 3840.                     (* 0x0F00 *)
Definition SYM_ERR_NO_FILENAME : Z := 4096.                  (* 0x1000 *)
(* tools/assembler/rva.c:79-79 SYM_BAD_VARIANT *)
Definition SYM_BAD_VARIANT : Z := 6144.                      (* 0x1800 *)
(* tools/assembler/rva.c:83-84 SYM_DOUBLE_ENTRY *)
Definition SYM_DOUBLE_ENTRY : Z := 7168.                     (* 0x1C00 *)
Definition SYM_NO_INCLUDE : Z := 7424.                       (* 0x1D00 *)
(* tools/assembler/rva.c:91-93 SYM_MANY_IFS *)
Definition SYM_MANY_IFS : Z := 9216.                         (* 0x2400 *)
Definition SYM_MANY_FIS : Z := 9472.                         (* 0x2500 *)
Definition SYM_LOST_ELSE : Z := 9728.                        (* 0x2600 *)
(* tools/assembler/rva.c:95-95 SYM_NO_IMPORT *)
Definition SYM_NO_IMPORT : Z := 10240.                       (* 0x2800 *)
(* tools/assembler/rva.c:99-99 SYM_ERR_BROKEN *)
Definition SYM_ERR_BROKEN : Z := 65280.                      (* 0xFF00 *)
(* tools/assembler/rva.c:117-117 eval_no_label_yet *)
Definition eval_no_label_yet : Z := 15104.                   (* 0x3B00 *)

(** ** Labels *)

(** What became of a label: a count of labels newly defined and one of labels with a
    new value tell whether another pass is needed. *)
Inductive label_change : Type := Unchanged | Newly_defined | Redefined.

(** The new flags, the new error code and the change, for a label that had [old_value]
    and [flags]. *)
(* tools/assembler/rva.c:2799-2829 assemble_redef_label *)
Definition redefine (pass_count : Z) (last_pass : bool) (value old_value flags : Z) (defined : bool) (error : Z)
  : Z * Z * label_change :=
  let value_defined := ((error =? eval_okay) && defined)%bool in
  let known := truthy (Z.land flags SYM_REC_DEF_FLAG) in
  let '(flags, error, change) :=
    if (negb (pass_count =? Z.land flags 0xFF) || negb known)%bool then
      if value_defined then
        if (negb known || negb (old_value =? value))%bool then
          (Z.lor flags SYM_REC_DEF_FLAG, error, if known then Redefined else Newly_defined)
        else (flags, error, Unchanged)
      else
        (Z.land flags (not32 SYM_REC_DEF_FLAG),
         if allow_error error (pass_count =? 0) last_pass then SYM_NO_ERROR else error, Unchanged)
    else
      (flags, if (negb value_defined || negb (value =? old_value))%bool then SYM_INCONSISTENT else error, Unchanged) in
  (Z.lor (Z.land flags 0xFFFFFF00) pass_count, error, change).

(** The value and the flags of the label on the line. *)
(* tools/assembler/rva.c:2786-2797 assemble_redef_label *)
Definition label_get (my : own_label) : G (option (Z * Z)) := fun g =>
  match ol_sort my with
  | NO_LABEL => Ok (None, g)
  | SYMBOL | MAYBE_SYMBOL =>
      let* r := get_rec (g_syms g) (ol_symbol my) in Ok (Some (sr_value r, sr_flags r), g)
  | LOCAL_LABEL =>
      let* l := of_option (g_locals g !! ol_local my) in Ok (Some (ll_value l, ll_flags l), g)
  end.

(* tools/assembler/rva.c:2831-2848 assemble_redef_label *)
Definition label_put (my : own_label) (value flags : Z) : G unit := fun g =>
  match ol_sort my with
  | NO_LABEL => Ok (tt, g)
  | SYMBOL | MAYBE_SYMBOL =>
      let* r := get_rec (g_syms g) (ol_symbol my) in
      Ok (tt, g_with_syms (put_rec (g_syms g) (ol_symbol my) (with_value r flags value)) g)
  | LOCAL_LABEL =>
      let* l := of_option (g_locals g !! ol_local my) in
      Ok (tt, g_with_locals (<[ol_local my := LocalLabel (ll_label l) value flags]> (g_locals g)) g)
  end.

Definition count_change (change : label_change) (g : gstate) : gstate :=
  match change with
  | Unchanged => g
  | Newly_defined => g_with_defined (g_defined g + 1) g
  | Redefined => g_with_redefined (g_redefined g + 1) g
  end.

(* tools/assembler/rva.c:2778-2853 assemble_redef_label *)
Definition assemble_redef_label (pass_count : Z) (last_pass : bool) (value : Z) (defined : bool) (my : own_label)
    (type_change : Z) : G unit :=
  let& label := label_get my in
  match label with
  | None => gret tt
  | Some (old_value, flags) =>
      let& error := gets g_error in
      let '(flags, error, change) := redefine pass_count last_pass value old_value flags defined error in
      do& modify (count_change change) in
      do& fail_with error in
      label_put my value (Z.lor flags type_change)
  end.

Section Line.

Context (cfg : config) (junk_sym : Z -> sym_record) (junk : Z) (junk_flag : bool).
Context (files : list Z -> option (list Z)).
Context (pass_count : Z) (last_pass dump_code : bool).

(* tools/assembler/rva.c:2359-2359 assemble_line *)
Definition first_pass : bool := pass_count =? 0.

Section OneLine.

Context (line : list Z) (my : own_label) (include_file_path : list Z).

Abbreviation dump := (dump cfg dump_code line).
Abbreviation evaluate := (g_evaluate cfg junk_sym line my).
Abbreviation allow := (allow first_pass last_pass).
Abbreviation redef_label v d t := (assemble_redef_label pass_count last_pass v d my t).

Definition okay : G bool := gets (fun g => g_error g =? eval_okay).
Definition char_here : G Z := fun g => let* c := zget line (g_position g) in Ok (c, g).
Definition skip_blanks : G unit := fun g => let* p := skip_spc line (g_position g) in move_to p g.
Definition step_on : G unit := modify (fun g => g_with_position (g_position g + 1) g).
Definition take_next (c : Z) : G bool := fun g =>
  let* (b, p) := cmp_next_non_space line (g_position g) 0 c in Ok (b, g_with_position p g).

(** [if_stack[if_SP]] decides whether the assembly pointer moves. *)
(* tools/assembler/rva.c:2348-2349 do_align *)
Definition advance (n : Z) : G unit :=
  modify (fun g => if live_of g then g_with_pointer (u32 (g_pointer g + n)) g else g).

(** *** Data definitions *)

(** An element is planted after those of the line before it. *)
(* tools/assembler/rva.c:1413-1413 assemble_define *)
Definition dump_element (value size : Z) : G unit := fun g =>
  dump (u32 (g_pointer g + g_increment g)) value size g.
(* tools/assembler/rva.c:1437-1437 assemble_define *)
Definition count_element (size : Z) : G unit :=
  modify (fun g => g_with_increment (u32 (g_increment g + size)) g).

(** The characters of a string up to the delimiter; whether the line finished first. *)
(* tools/assembler/rva.c:1402-1423 assemble_define *)
Fixpoint define_string (fuel : nat) (delimiter size : Z) : G bool :=
  match fuel with
  | O => fun _ => NoFuel
  | S fuel =>
      let& c := char_here in
      if c =? delimiter then gret false
      else
        do& (if c =? 92 then step_on else gret tt) in
        let& c' := char_here in
        if c' =? 0 then do& fail_with SYM_ENDLESS_STRING in gret true
        else
          do& (if last_pass then dump_element (u32 (s8 (if c =? 92 then c_char_esc c' else c'))) size else gret tt) in
          do& count_element size in
          do& step_on in
          define_string fuel delimiter size
  end.

(* tools/assembler/rva.c:1428-1440 assemble_define *)
Definition define_value (size : Z) : G bool :=
  let& value := evaluate in
  let& error := gets g_error in
  if ((error =? eval_okay) || allow_error error first_pass last_pass)%bool then
    do& (if ((error =? eval_okay) && last_pass)%bool then dump_element value size else gret tt) in
    do& (if last_pass then gret tt else fail_with eval_okay) in
    do& count_element size in gret false
  else gret true.

(* tools/assembler/rva.c:1398-1399 assemble_define *)
Definition is_delimiter (c : Z) : bool := (c =? 34) || (c =? 39) || (c =? 47) || (c =? 96).

(** One element; whether the line is finished with. *)
(* tools/assembler/rva.c:1397-1441 assemble_define *)
Definition define_element (size : Z) : G bool :=
  do& skip_blanks in
  let& c := char_here in
  if is_delimiter c then
    do& step_on in
    let& terminate := define_string (S (length line)) c size in
    do& (if terminate : bool then gret tt else do& step_on in skip_blanks) in gret terminate
  else define_value size.

(** Each element but the last is followed by a comma, so the length of the line is
    fuel enough. *)
(* tools/assembler/rva.c:1395-1448 assemble_define *)
Fixpoint define_elements (fuel : nat) (size : Z) : G unit :=
  match fuel with
  | O => fun _ => NoFuel
  | S fuel =>
      let& terminate := define_element size in
      if terminate : bool then gret tt
      else
        let& c := char_here in
        if c =? 44 then do& step_on in define_elements fuel size else gret tt
  end.

(* tools/assembler/rva.c:1387-1453 assemble_define *)
Definition assemble_define (size : Z) : G unit :=
  do& define_elements (S (length line)) size in
  fun g => advance (g_increment g) g.

(** The bytes from [i] on, [n] of them. *)
(* tools/assembler/rva.c:1468-1469 fill_space *)
Fixpoint fill_bytes (n : nat) (i fill : Z) : G unit :=
  match n with
  | O => gret tt
  | S n =>
      do& (fun g => dump (u32 (g_pointer g + i)) (Z.land fill 0xFF) 1 g) in
      fill_bytes n (i + 1) fill
  end.

(* tools/assembler/rva.c:1457-1472 fill_space *)
Definition fill_space (count : Z) : G unit :=
  do& step_on in
  let& fill := evaluate in
  do& allow in
  let& ok := okay in
  if (last_pass && ok)%bool then fill_bytes (Z.to_nat count) 0 fill else gret tt.

(** *** Alignment *)

(** How many bytes to skip to the next multiple. *)
(* tools/assembler/rva.c:2320-2324 do_align *)
Definition align_gap (pointer operand : Z) : Z :=
  if operand =? 0 then 0 else u32 (operand - (u32 (pointer - 1) mod operand + 1)).

(* tools/assembler/rva.c:2330-2330 do_align *)
Definition start_listing (address : Z) : G unit :=
  modify (fun g => if f_list (cf_files cfg) then on_list (list_start_line address false) g else g).
(* tools/assembler/rva.c:2333-2333 do_align *)
Definition new_section : G unit := modify (on_elf elf_new_section_maybe).

(* tools/assembler/rva.c:2307-2353 do_align *)
Definition do_align : G unit :=
  let& operand := evaluate in
  let& error := gets g_error in
  let& operand :=
    (if Z.land error 0xFFFFFF00 =? eval_no_operand then do& fail_with eval_okay in gret 4 else gret operand) in
  let& ok := okay in
  if negb ok then gret tt
  else
    let& p := gets g_pointer in
    let gap := align_gap p operand in
    let& c := char_here in
    let fill := c =? 44 in
    do& (if fill then fill_space gap
         else do& start_listing (u32 (p + gap)) in (if gap =? 0 then gret tt else new_section)) in
    let& ok := okay in
    if negb ok then gret tt
    else
      let& defined := gets g_pointer_defined in
      do& redef_label (if fill then p else u32 (p + gap)) defined 0 in
      advance gap.

(** *** Names *)

(** A file name: up to a blank or the end of the line. *)
(* tools/assembler/rva.c:2452-2454 assemble_line *)
Fixpoint take_name (fuel : nat) : G (list Z) :=
  match fuel with
  | O => fun _ => NoFuel
  | S fuel =>
      let& c := char_here in
      if (test_eol c || (c =? 32) || (c =? 9))%bool then gret []
      else do& step_on in let& l := take_name fuel in gret (c :: l)
  end.

(* tools/assembler/rva.c:2414-2426 assemble_line *)
Definition export_label (ident : list Z) : G unit := fun g =>
  if bool_decide (map (fun c => Z.land c 0xDF) ident = [65; 76; 76]) then
    let t := g_symbols g in
    Ok (tt, g_with_symbols (SymTable (st_name t) (st_symbol_number t) (Z.lor (st_flags t) SYM_TAB_EXPORT_FLAG)
              (st_pList t)) g)
  else
    let* (p, h) := sym_find_label junk_sym ident (g_symbols g) (g_syms g) in
    if p =? 0 then fail_with SYM_ERR_NO_EXPORT (g_with_syms h g)
    else
      let* r := get_rec h p in
      Ok (tt, g_with_syms (put_rec h p (with_value r (Z.lor (sr_flags r) SYM_REC_EXPORT_FLAG) (sr_value r))) g).

(* tools/assembler/rva.c:2409-2435 assemble_line *)
Fixpoint export_labels (fuel : nat) : G unit :=
  match fuel with
  | O => fun _ => NoFuel
  | S fuel =>
      do& skip_blanks in
      let& ident := (fun g => let* l := get_identifier line (g_position g) LINE_LENGTH in Ok (l, g)) in
      let& terminate :=
        match ident with
        | _ :: _ =>
            do& (if last_pass then export_label ident else gret tt) in
            do& modify (fun g => g_with_position (g_position g + Z.of_nat (length ident)) g) in gret false
        | [] => do& fail_here SYM_ERR_SYNTAX in gret true
        end in
      let& comma := take_next 44 in
      if (terminate || negb comma)%bool then gret tt else export_labels fuel
  end.

(* tools/assembler/rva.c:2439-2458 assemble_line *)
Definition directive_include : G unit :=
  do& skip_blanks in
  let& c := char_here in
  if test_eol c then fail_here SYM_ERR_NO_FILENAME
  else let& name := take_name (S (length line)) in modify (g_with_include (Some name)).

(** The bytes of a file, one after the other. *)
(* tools/assembler/rva.c:2559-2569 assemble_line *)
Fixpoint import_bytes (bytes : list Z) : G unit :=
  match bytes with
  | [] => gret tt
  | b :: bytes =>
      do& (if last_pass then dump_element (u32 (s8 b)) 1 else gret tt) in
      do& count_element 1 in
      import_bytes bytes
  end.

(* tools/assembler/rva.c:2527-2583 assemble_line *)
Definition directive_import : G unit :=
  do& skip_blanks in
  let& c := char_here in
  if test_eol c then fail_here SYM_ERR_NO_FILENAME
  else
    let& name := take_name (S (length line)) in
    let full := (match name with c :: _ => if c =? 47 then name else pathname include_file_path name | [] => name end) in
    match name with
    | [] => gret tt
    | _ =>
        match files full with
        | Some bytes =>
            do& import_bytes bytes in
            modify (fun g => g_with_pointer (u32 (g_pointer g + g_increment g)) g)
        | None => fail_with SYM_NO_IMPORT
        end
    end.

(* tools/assembler/rva.c:2751-2752 get_reg *)
Definition g_get_reg : G Z :=
  embed cfg dump_code line (fun g => get_reg line (lookup_in junk_sym (g_registers g) g)).

(* tools/assembler/rva.c:2460-2467 assemble_line *)
Definition directive_arch : G unit :=
  let& arch := embed cfg dump_code line (fun g => get_thing line (lookup_in junk_sym (cf_arch cfg) g)) in
  if 0 <=? arch then modify (g_with_variant arch) else fail_here SYM_ERR_SYNTAX.

(** *** Conditional assembly *)

(* tools/assembler/rva.c:2491-2514 assemble_line *)
Definition directive_if : G unit :=
  let& sp := gets g_if_SP in
  if IF_STACK_SIZE <=? sp then fail_with SYM_MANY_IFS
  else
    let& condition := evaluate in
    let& error := gets g_error in
    let& condition :=
      (if error =? eval_okay then gret condition
       else
         do& (if Z.land error 0xFFFFFF00 =? eval_no_label
              then fail_with (Z.lor eval_no_label_yet (Z.land error 0xFF)) else gret tt) in
         gret 4294967295) in
    fun g => let* s := zupd (g_ifs g) (sp + 1) condition in
      Ok (tt, g_with_ifs s (g_with_if_SP (sp + 1) g)).

(* tools/assembler/rva.c:2516-2519 assemble_line *)
Definition directive_fi : G unit := fun g =>
  if 0 <? g_if_SP g then Ok (tt, g_with_if_SP (g_if_SP g - 1) g) else fail_with SYM_MANY_FIS g.

(* tools/assembler/rva.c:2521-2525 assemble_line *)
Definition directive_else : G unit := fun g =>
  if 0 <? g_if_SP g then
    let* top := zget (g_ifs g) (g_if_SP g) in
    let* s := zupd (g_ifs g) (g_if_SP g) (not32 top) in Ok (tt, g_with_ifs s g)
  else fail_with SYM_LOST_ELSE g.

(** *** Definitions of labels *)

(** The operand of a directive that may be left out. *)
(* tools/assembler/rva.c:2623-2629 assemble_line *)
Definition evaluate_or (default : Z) : G Z :=
  let& value := evaluate in
  let& error := gets g_error in
  if ((Z.land error 0xFFFFFF00 =? eval_no_operand) || allow_error error first_pass last_pass)%bool then
    do& fail_with eval_okay in gret default
  else gret value.

Definition when_okay (m : G unit) : G unit := let& ok := okay in if ok then m else gret tt.

(* tools/assembler/rva.c:2383-2398 assemble_line *)
Definition directive_defs : G unit :=
  let& operand := evaluate in
  do& allow in
  when_okay (
    let& c := char_here in
    do& (if c =? 44 then fill_space operand else if operand =? 0 then gret tt else new_section) in
    when_okay (advance operand)).

(* tools/assembler/rva.c:2587-2602 assemble_line *)
Definition directive_equ (flag : Z) : G unit :=
  let& value := evaluate in
  if ol_symbol my =? 0 then fail_with SYM_ERR_NO_EQU else redef_label value true flag.

(* tools/assembler/rva.c:2604-2616 assemble_line *)
Definition directive_org : G unit :=
  let& value := evaluate in
  do& modify (fun g => g_with_pointer value (g_with_pointer_defined (g_error g =? eval_okay) g)) in
  do& allow in
  do& start_listing value in
  let& defined := gets g_pointer_defined in
  do& redef_label value defined 0 in
  new_section.

(* tools/assembler/rva.c:2622-2637 assemble_line *)
Definition directive_record : G unit :=
  let& value := evaluate_or 0 in
  when_okay (do& modify (g_with_data value) in redef_label value true SYM_REC_DATA_FLAG).

(* tools/assembler/rva.c:2650-2650 assemble_line *)
Definition record_align (data n : Z) : Z := if n =? 0 then data else u32 (data - data mod n + n).

(* tools/assembler/rva.c:2639-2655 assemble_line *)
Definition directive_rec_align : G unit :=
  let& n := evaluate_or 4 in
  when_okay (
    do& modify (fun g => g_with_data (record_align (g_data g) n) g) in
    let& data := gets g_data in
    redef_label data true SYM_REC_DATA_FLAG).

(* tools/assembler/rva.c:2657-2682 assemble_line *)
Definition directive_element (size : Z) : G unit :=
  let& n := evaluate_or 1 in
  when_okay (
    let& data := gets g_data in
    do& redef_label data true SYM_REC_DATA_FLAG in
    modify (fun g => g_with_data (u32 (g_data g + u32 (n * size))) g)).

(* tools/assembler/rva.c:2764-2773 redefine_symbol *)
Definition redefine_symbol (p : Z) (g : gstate) : res gstate :=
  let* at_ := skip_spc line 0 in
  let* ident := get_identifier line at_ LINE_LENGTH in
  let* r := get_rec (g_syms g) p in
  let h := put_rec (g_syms g) p (sym_string_copy ident r (st_flags (g_registers g))) in
  let* (t, h) := sym_add_to_table (g_registers g) p h in
  Ok (g_with_registers t (g_with_syms h g)).

(* tools/assembler/rva.c:2684-2696 assemble_line *)
Definition directive_rn : G unit :=
  if negb first_pass then gret tt
  else if negb (bool_decide (ol_sort my = MAYBE_SYMBOL)) then fail_with SYM_ERR_NO_EQU
  else
    let& reg := g_get_reg in
    do& (fun g =>
      let* r := get_rec (g_syms g) (ol_symbol my) in
      Ok (tt, g_with_syms (put_rec (g_syms g) (ol_symbol my) (with_value r (sr_flags r) (u32 reg))) g)) in
    if 0 <=? reg then fun g => let* g := redefine_symbol (ol_symbol my) g in Ok (tt, g)
    else fail_here SYM_BAD_REG.

(* tools/assembler/rva.c:2469-2476 assemble_line *)
Definition directive_entry : G unit := fun g =>
  if g_entry_defined g then fail_with SYM_DOUBLE_ENTRY g
  else Ok (tt, g_with_entry (g_pointer g) (g_with_entry_defined true g)).

(** *** The whole function *)

(* tools/assembler/rva.c:2376-2702 assemble_line *)
Definition directive (token : Z) : G unit :=
  if token =? 0xF0000000 then assemble_define 1
  else if token =? 0xF0010000 then assemble_define 2
  else if token =? 0xF0020000 then assemble_define 4
  else if token =? 0xF0030000 then directive_defs
  else if token =? 0xF0040000 then export_labels (S (length line))
  else if token =? 0xF0050000 then directive_include
  else if token =? 0xF0070000 then directive_arch
  else if token =? 0xF0080000 then directive_entry
  else if (token =? 0xF0090000) || (token =? 0xF00A0000) || (token =? 0xF00B0000) then gret tt
  else if token =? 0xF00C0000 then directive_if
  else if token =? 0xF00D0000 then directive_fi
  else if token =? 0xF00E0000 then directive_else
  else if token =? 0xF00F0000 then directive_import
  else if token =? 0xF8000000 then directive_equ SYM_REC_EQU_FLAG
  else if token =? 0xF8030000 then directive_equ SYM_REC_USR_FLAG
  else if token =? 0xF8010000 then directive_org
  else if token =? 0xF8020000 then do_align
  else if token =? 0xF8040000 then directive_record
  else if token =? 0xF8050000 then directive_rec_align
  else if (token =? 0xF8100000) || (token =? 0xF8110000) || (token =? 0xF8120000) || (token =? 0xF8140000)
       || (token =? 0xF8180000) then directive_element (Z.land (Z.shiftr token 16) 0xF)
  else if token =? 0xF4000000 then directive_rn
  else fail_with SYM_ERR_BROKEN.

(** The instruction, with the tables and variables it needs. *)
(* tools/assembler/rva.c:2704-2707 assemble_line *)
Definition instruction (token : Z) : G unit :=
  embed cfg dump_code line (fun g =>
    rv32i_mnemonic line token first_pass last_pass pass_count (env_of cfg junk_sym my g)
      (lookup_in junk_sym (g_registers g) g) (live_of g) dump_code junk junk_flag).

(* tools/assembler/rva.c:2363-2364 assemble_line *)
Definition add_label (token : Z) : G unit := fun g =>
  if (negb (Z.land token 0xF4000000 =? 0xF4000000) && bool_decide (ol_sort my = MAYBE_SYMBOL))%bool then
    let* (t, h) := sym_add_to_table (g_symbols g) (ol_symbol my) (g_syms g) in
    Ok (tt, g_with_symbols t (g_with_syms h g))
  else Ok (tt, g).

(* tools/assembler/rva.c:2366-2369 assemble_line *)
Definition place_label (token : Z) : G unit :=
  if (negb (Z.land token 0xF8000000 =? 0xF8000000) && negb (bool_decide (ol_sort my = NO_LABEL)))%bool then
    let& p := gets g_pointer in
    let& defined := gets g_pointer_defined in redef_label p defined 0
  else gret tt.

(** Nothing may be left on the line. *)
(* tools/assembler/rva.c:2710-2714 assemble_line *)
Definition check_rest : G unit :=
  let& ok := okay in
  if (first_pass && ok)%bool then
    do& skip_blanks in
    let& c := char_here in if test_eol c then gret tt else fail_here SYM_GARBAGE
  else gret tt.

(** The error code is left in the state. *)
(* tools/assembler/rva.c:2357-2717 assemble_line *)
Definition assemble_line (position token : Z) : G unit :=
  do& move_to position in
  do& fail_with eval_okay in
  do& add_label token in
  do& place_label token in
  do& modify (g_with_increment 0) in
  do& when_okay (if Z.land token 0xF0000000 =? 0xF0000000 then directive token else instruction token) in
  check_rest.

End OneLine.

End Line.
