(* ===== verification/RvaLine.v ===== *)
(** * Source lines: tools/assembler/rva.c, lines 1123-1327

    [input_line] takes a line off a file, [parse_source_line] finds the label and the
    mnemonic on it and assembles the rest, [parse_mnemonic_line] reads the table of
    mnemonics. A file being read is what is left of it and the end-of-file indicator,
    which is set by a read past the end. *)

From S2P Require Import Prelude RvaDefs RvaLex RvaSym RvaEval RvaEncode RvaOut RvaState RvaDir.
Local Open Scope rva_scope.

(** ** Reading a line *)

Record stream : Type := Stream { st_rest : list Z; st_eof : bool }.

(* tools/assembler/rva.c:1136-1136 input_line *)
Definition is_newline (c : Z) : bool := (c =? 10) || (c =? 13).

(** The characters kept, the last one read if there was one, and the rest of the file;
    [i] characters are in the buffer. *)
(* tools/assembler/rva.c:1130-1136 input_line *)
Fixpoint read_chars (rest : list Z) (i max : Z) : list Z * option Z * list Z :=
  match rest with
  | [] => ([], None, [])
  | c :: rest =>
      let keep := i <=? max - 1 in
      if is_newline c then (if keep then [c] else [], Some c, rest)
      else
        let '(l, last, rest) := read_chars rest (if keep then i + 1 else i) max in
        (if keep then c :: l else l, last, rest)
  end.

(** The end of the line is overwritten with a NUL of its own. *)
(* tools/assembler/rva.c:1138-1140 input_line *)
Definition strip_newline (l : list Z) : list Z :=
  match last l with Some c => if is_newline c then take (pred (length l)) l ++ [0] else l | None => l end.

(** What [getc] and [ungetc] do after a carriage return; a character 255 is taken for
    the end of the file, which cannot be pushed back. *)
(* tools/assembler/rva.c:1142-1143 input_line *)
Definition after_return (rest : list Z) : stream :=
  match rest with
  | [] => Stream [] true
  | c :: r => if (c =? 10) || (c =? 255) then Stream r false else Stream rest false
  end.

(** The buffer as far as it was written: the line, the NUL that took the place of its
    end, and the NUL behind that. *)
(* tools/assembler/rva.c:1123-1148 input_line *)
Definition input_line (file : stream) (max : Z) : list Z * stream :=
  let '(l, last, rest) := read_chars (st_rest file) 0 max in
  (strip_newline l ++ [0],
   match last with
   | Some c => if c =? 13 then after_return rest else Stream rest false
   | None => Stream [] true
   end).

(** ** The mnemonic file *)

(** A mnemonic may start with a digit; it is cut at 32 characters. *)
(* tools/assembler/rva.c:1166-1168 parse_mnemonic_line *)
Fixpoint mnemonic_name (fuel : nat) (line : list Z) (i j : Z) : res (list Z * Z) :=
  match fuel with
  | O => NoFuel
  | S fuel =>
      let* c := zget line i in
      if (alpha_numeric c && (j <? SYM_NAME_MAX))%bool then
        let* (l, i) := mnemonic_name fuel line (i + 1) (j + 1) in Ok (c :: l, i)
      else Ok ([], i)
  end.

(** The three tables and the store: instructions, CSRs, directives. *)
Record mnemonic_tables : Type := MnemonicTables { mt_a : sym_table; mt_s : sym_table; mt_d : sym_table; mt_h : sym_heap }.

(* tools/assembler/rva.c:1152-1190 parse_mnemonic_line *)
Definition parse_mnemonic_line (junk_sym : Z -> sym_record) (line : list Z) (t : mnemonic_tables)
  : res (bool * mnemonic_tables) :=
  let* i := skip_spc line 0 in
  let* c := zget line i in
  if test_eol c then Ok (true, t)
  else
    let* (buffer, i) := mnemonic_name (S (length line)) line i 0 in
    let* (okay, value, _) := get_num line i 16 in
    if negb okay then Ok (false, t)
    else if Z.land value 0xF0000000 =? 0xF0000000 then
      let* (_, _, d, h) := sym_define_label junk_sym buffer value 0 (mt_d t) (mt_h t) in
      Ok (true, MnemonicTables (mt_a t) (mt_s t) d h)
    else if truthy (Z.land value 1) then
      let* (_, _, s, h) := sym_define_label junk_sym buffer (Z.shiftr value 20) 0 (mt_s t) (mt_h t) in
      Ok (true, MnemonicTables (mt_a t) s (mt_d t) h)
    else
      let* (_, _, a, h) := sym_define_label junk_sym buffer value 0 (mt_a t) (mt_h t) in
      Ok (true, MnemonicTables a (mt_s t) (mt_d t) h).

(** ** A source line *)

Section Source.

Context (cfg : config) (junk_sym : Z -> sym_record) (junk : Z) (junk_flag : bool) (junk_own : own_label).
Context (files : list Z -> option (list Z)).
Context (pass_count : Z) (last_pass dump_code : bool).
Context (mnemonics : list (option sym_table)) (include_file_path : list Z).

Section OneLine.

Context (line : list Z).

Definition no_label : own_label := OwnLabel NO_LABEL (ol_symbol junk_own) (ol_local junk_own).

(** The local label of the line: a new one on the first pass, the next one later. *)
(* tools/assembler/rva.c:1222-1241 parse_source_line *)
Definition next_local (value : Z) : G own_label := fun g =>
  if pass_count =? 0 then
    let n := length (g_locals g) in
    Ok (OwnLabel LOCAL_LABEL (ol_symbol junk_own) n,
        g_with_locals (g_locals g ++ [LocalLabel value junk 0]) (g_with_local_at (Some n) g))
  else
    let n := match g_local_at g with None => O | Some n => S n end in
    Ok (OwnLabel LOCAL_LABEL (ol_symbol junk_own) n, g_with_local_at (Some n) g).

(** The mnemonic of a name: its token, if it is one. *)
(* tools/assembler/rva.c:1251-1251 parse_source_line *)
Definition find_mnemonic (name : list Z) : G (option Z) := fun g =>
  let* (p, h) := sym_find_label_list junk_sym name mnemonics (g_syms g) in
  let g := g_with_syms h g in
  if p =? 0 then Ok (None, g) else let* r := get_rec h p in Ok (Some (sr_value r), g).

(** A name that is not a mnemonic. *)
(* tools/assembler/rva.c:1253-1261 parse_source_line *)
Definition locate_label (name : list Z) : G own_label := fun g =>
  let* (found, p, h) := sym_locate_label junk_sym name 0 (g_symbols g) (g_syms g) in
  Ok (OwnLabel (if found : bool then SYMBOL else if pass_count =? 0 then MAYBE_SYMBOL else NO_LABEL) p
        (ol_local junk_own), g_with_syms h g).

(** The first item on the line: a label and the token of a mnemonic, if it is one. *)
(* tools/assembler/rva.c:1218-1268 parse_source_line *)
Definition first_item : G (own_label * option Z) :=
  let& p := gets g_position in
  let& (found, value, p) := glift (get_num line p 10) in
  do& move_to p in
  if found : bool then
    do& skip_blanks line in
    let& my := next_local value in gret (my, None)
  else
    let& buffer := glift (get_identifier line p LINE_LENGTH) in
    match buffer with
    | [] => do& fail_here SYM_ERR_SYNTAX in gret (no_label, None)
    | _ =>
        do& move_to (p + Z.of_nat (length buffer)) in
        let& c := char_here line in
        let colon := c =? 58 in
        do& (if colon then step_on else gret tt) in
        let& token := (if colon then gret None else find_mnemonic buffer) in
        match token with
        | Some _ => gret (no_label, token)
        | None => let& my := locate_label buffer in gret (my, None)
        end
    end.

(** A line with a label only. *)
(* tools/assembler/rva.c:1294-1299 parse_source_line *)
Definition label_only (my : own_label) : G unit :=
  do& (if bool_decide (ol_sort my = MAYBE_SYMBOL) then
         fun g => let* (t, h) := sym_add_to_table (g_symbols g) (ol_symbol my) (g_syms g) in
           Ok (tt, g_with_symbols t (g_with_syms h g))
       else gret tt) in
  let& p := gets g_pointer in
  let& defined := gets g_pointer_defined in
  assemble_redef_label pass_count last_pass p defined my 0.

(** The mnemonic after a label. *)
(* tools/assembler/rva.c:1275-1301 parse_source_line *)
Definition second_item (my : own_label) : G (option Z) :=
  do& skip_blanks line in
  let& p := gets g_position in
  let& buffer := glift (get_identifier line p LINE_LENGTH) in
  match buffer with
  | [] =>
      let& c := char_here line in
      if test_eol c then do& label_only my in gret None
      else do& fail_here SYM_ERR_NO_MNEM in gret None
  | _ =>
      let& token := find_mnemonic buffer in
      match token with
      | None => do& fail_here SYM_ERR_NO_MNEM in gret None
      | Some _ => do& move_to (p + Z.of_nat (length buffer)) in gret token
      end
  end.

(* tools/assembler/rva.c:1307-1312 parse_source_line *)
Definition assemble_mnemonic (my : own_label) (token : Z) : G unit :=
  let& variant := gets g_variant in
  if truthy (Z.land (Z.land token variant) 0xFFF) then fail_with SYM_BAD_VARIANT
  else
    let& p := gets g_position in
    assemble_line cfg junk_sym junk junk_flag files pass_count last_pass dump_code line my include_file_path p token.

(* tools/assembler/rva.c:1218-1313 parse_source_line *)
Definition parse_items : G own_label :=
  let& (my, token) := first_item in
  let& token := (let& ok := okay in
                 match token with Some _ => gret token | None => if ok : bool then second_item my else gret None end) in
  let& ok := okay in
  do& match token with Some t => if ok : bool then assemble_mnemonic my t else gret tt | None => gret tt end in
  gret my.

(** The end of the line in the listing, and the section of the label for the ELF file. *)
(* tools/assembler/rva.c:1319-1323 parse_source_line *)
Definition finish_line (my : own_label) : G unit := fun g =>
  let* l := (if f_list (cf_files cfg) then list_end_line dump_code line (o_list (g_out g)) else Ok (o_list (g_out g))) in
  let g := on_list (fun _ => l) g in
  if bool_decide (ol_sort my = SYMBOL) then
    let* r := get_rec (g_syms g) (ol_symbol my) in
    if Z.land (sr_flags r) SYM_REC_EQUATED =? 0 then
      Ok (tt, g_with_syms (put_rec (g_syms g) (ol_symbol my)
        (SymRecord (sr_pNext r) (sr_count r) (sr_hash r) (sr_flags r) (sr_identifier r)
           (el_section (o_elf (g_out g))) (sr_value r) (sr_name r))) g)
    else Ok (tt, g)
  else Ok (tt, g).

(** The error code is left in the state. *)
(* tools/assembler/rva.c:1194-1327 parse_source_line *)
Definition parse_source_line : G unit :=
  do& fail_with SYM_NO_ERROR in
  do& move_to 0 in
  do& skip_blanks line in
  do& (if last_pass then
         modify (fun g => if f_list (cf_files cfg) then on_list (list_start_line (g_pointer g) false) g else g)
       else gret tt) in
  let& c := char_here line in
  let& my := (if test_eol c then gret no_label else parse_items) in
  if last_pass then finish_line my else gret tt.

End OneLine.

End Source.
