(* ===== verification/RvaIfs.v ===== *)
(** * The stack of conditions and the output buffers

    The invariant of [if_stack] and [if_SP]: the stack pointer stays within the array,
    whatever the source says, and the bottom entry stays true, so that text outside
    every IF is assembled. With it goes the invariant of the output buffers of
    RvaList.v. Every operation of RvaDir.v, RvaLine.v and RvaPass.v keeps both, on
    every pass. *)

From S2P Require Import Prelude RvaDefs RvaLex RvaSym RvaEval RvaEncode RvaOut RvaList RvaState RvaDir RvaLine RvaPass.
Local Open Scope rva_scope.

Record stack_ok (g : gstate) : Prop := StackOk {
  so_length : length (g_ifs g) = Z.to_nat (IF_STACK_SIZE + 1);
  so_pointer : 0 <= g_if_SP g <= IF_STACK_SIZE;
  so_bottom : g_ifs g !! 0%nat = Some 1;
}.

(** The arrays of the assembler that lines write to. *)
Definition arrays_ok (g : gstate) : Prop := stack_ok g /\ buffers_ok (g_out g).

Definition stacked (g g' : gstate) : Prop := arrays_ok g -> arrays_ok g'.

#[export] Instance stacked_preorder : PreOrder stacked.
Proof. split; unfold stacked; [intros g; auto|intros g1 g2 g3; auto]. Qed.

(** The stack is left alone. *)
Definition same_stack (g g' : gstate) : Prop := g_ifs g' = g_ifs g /\ g_if_SP g' = g_if_SP g.

(** The outputs too. *)
Definition same_ifs (g g' : gstate) : Prop := same_stack g g' /\ g_out g' = g_out g.

Lemma stacked_outputs g g' : same_stack g g' -> (buffers_ok (g_out g) -> buffers_ok (g_out g')) -> stacked g g'.
Proof. intros [E1 E2] Ho [[] Hb]. split; [constructor; rewrite ?E1, ?E2; assumption|apply Ho, Hb]. Qed.

Lemma stacked_same g g' : same_ifs g g' -> stacked g g'.
Proof. intros [Hs Ho]. apply stacked_outputs; [exact Hs|]. rewrite Ho. exact id. Qed.

Lemma stacked_leaf {X} (m : G X) : (forall g x g', m g = Ok (x, g') -> same_ifs g g') -> Keeps stacked m.
Proof. intros H g x g' E. apply stacked_same. eapply H. exact E. Qed.

Lemma stacked_set f : (forall g, same_ifs g (f g)) -> Keeps stacked (modify f).
Proof. intros H. apply keeps_modify. intros g. apply stacked_same, H. Qed.

(** A state changed by setters of other variables. *)
Ltac frame := intros; repeat split; reflexivity.

(** An operation whose successful runs only set other variables. *)
Ltac leaf :=
  let g := fresh "g" in let x := fresh "x" in let g' := fresh "g" in let H := fresh "H" in
  apply stacked_leaf; intros g x g' H; res_inv;
  repeat match goal with a : (_ * _)%type |- _ => destruct a end; res_inv; frame.

Lemma stacked_fail e : Keeps stacked (fail_with e).
Proof. apply stacked_set. frame. Qed.

Lemma stacked_fail_here e : Keeps stacked (fail_here e).
Proof. intros g x g' H. eapply stacked_fail. exact H. Qed.

Lemma stacked_move p : Keeps stacked (move_to p).
Proof. apply stacked_set. frame. Qed.

Lemma stacked_dump cfg dc line a v s : Keeps stacked (dump cfg dc line a v s).
Proof.
  intros g x g' H. unfold dump in H. res_inv. apply stacked_outputs; [split; reflexivity|].
  eapply byte_dump_buffers. exact E.
Qed.

(** A line of the listing is begun. *)
Lemma stacked_start (a : gstate -> Z) (open : bool) :
  Keeps stacked (modify (fun g => if open then on_list (list_start_line (a g) false) g else g)).
Proof.
  apply keeps_modify. intros g. destruct open; [|reflexivity]. apply stacked_outputs; [split; reflexivity|].
  intros []. split; assumption.
Qed.

Lemma stacked_evaluate cfg junk line my : Keeps stacked (g_evaluate cfg junk line my).
Proof. unfold g_evaluate. leaf. Qed.

Lemma stacked_allow fp lp : Keeps stacked (allow fp lp).
Proof. intros g x g' H. unfold allow in H. case_test_in H; res_inv; [eapply stacked_fail; exact H|reflexivity]. Qed.

Lemma stacked_okay : Keeps stacked okay.
Proof. apply keeps_gets. typeclasses eauto. Qed.

Lemma stacked_char line : Keeps stacked (char_here line).
Proof. unfold char_here. leaf. Qed.

Lemma stacked_skip line : Keeps stacked (skip_blanks line).
Proof. intros g x g' H. unfold skip_blanks in H. res_inv. eapply stacked_move. exact H. Qed.

Lemma stacked_take line c : Keeps stacked (take_next line c).
Proof. unfold take_next. leaf. Qed.

Lemma stacked_step_on : Keeps stacked step_on.
Proof. apply stacked_set. frame. Qed.

Lemma stacked_advance n : Keeps stacked (advance n).
Proof. apply stacked_set. intros g. destruct (live_of g); frame. Qed.

#[export] Hint Resolve stacked_fail stacked_fail_here stacked_move stacked_dump stacked_evaluate stacked_allow
  stacked_okay stacked_char stacked_skip stacked_take stacked_step_on stacked_advance : keeps.

Lemma stacked_dump_words cfg dc line n : forall bytes, (length bytes <= n)%nat -> Keeps stacked (dump_words cfg dc line bytes).
Proof.
  induction n as [|n IH]; intros bytes Hn;
    (destruct bytes as [|[a b0] [|[? b1] [|[? b2] [|[? b3] bytes]]]]; cbn [dump_words]; [auto with keeps..|]).
  - simpl in Hn. lia.
  - apply keeps_bind; [typeclasses eauto|apply stacked_dump|intros _]. apply IH. simpl in Hn. lia.
Qed.

Lemma stacked_embed {X} cfg dc line (m : gstate -> A X) : Keeps stacked (embed cfg dc line m).
Proof.
  intros g x g' H. unfold embed in H. res_inv. destruct a as [y s]. res_inv. destruct a as [[] g1]. res_inv.
  transitivity (back s g); [apply stacked_same; frame|].
  eapply stacked_dump_words; [reflexivity|exact E0].
Qed.
#[export] Hint Resolve stacked_embed : keeps.

(** [stack_auto]: along the code, with assignments to other variables. *)
Ltac stack_auto := keeps_auto; try (apply stacked_set; frame).

Lemma stacked_redef_label pc lp value defined my k : Keeps stacked (assemble_redef_label pc lp value defined my k).
Proof.
  unfold assemble_redef_label. apply keeps_bind; [typeclasses eauto| |intros label].
  { unfold label_get. apply stacked_leaf. intros g x g' H. destruct (ol_sort my); res_inv; frame. }
  destruct label as [[old flags]|]; [|auto with keeps].
  apply keeps_bind; [typeclasses eauto|auto with keeps|intros e].
  destruct (redefine _ _ _ _ _ _ _) as [[flags' e'] change].
  apply keeps_bind; [typeclasses eauto|apply stacked_set; intros g; destruct change; frame|intros _].
  apply keeps_bind; [typeclasses eauto|auto with keeps|intros _].
  unfold label_put. apply stacked_leaf. intros g x g' H. destruct (ol_sort my); res_inv; frame.
Qed.
#[export] Hint Resolve stacked_redef_label : keeps.

Section Line.

Context (cfg : config) (junk_sym : Z -> sym_record) (junk : Z) (junk_flag : bool).
Context (files : list Z -> option (list Z)).
Context (pass_count : Z) (last_pass dump_code : bool).
Context (line : list Z) (my : own_label) (include_file_path : list Z).

Lemma stacked_dump_element v s : Keeps stacked (dump_element cfg dump_code line v s).
Proof. intros g x g' H. eapply stacked_dump. exact H. Qed.

Lemma stacked_count_element s : Keeps stacked (count_element s).
Proof. apply stacked_set. frame. Qed.
#[local] Hint Resolve stacked_dump_element stacked_count_element : keeps.

Lemma stacked_define_string fuel : forall d s, Keeps stacked (define_string cfg last_pass dump_code line fuel d s).
Proof. induction fuel as [|fuel IH]; intros d s; [discriminate|]. cbn [define_string]. keeps_auto. Qed.
#[local] Hint Resolve stacked_define_string : keeps.

Lemma stacked_define_element s : Keeps stacked (define_element cfg junk_sym pass_count last_pass dump_code line my s).
Proof. unfold define_element, define_value. keeps_auto. Qed.
#[local] Hint Resolve stacked_define_element : keeps.

Lemma stacked_define s : Keeps stacked (assemble_define cfg junk_sym pass_count last_pass dump_code line my s).
Proof.
  apply keeps_bind; [typeclasses eauto| |intros _ g x g' H; eapply stacked_advance; exact H].
  generalize (S (length line)) as fuel. induction fuel as [|fuel IH]; [discriminate|]. cbn [define_elements]. keeps_auto.
Qed.

Lemma stacked_fill_space n : Keeps stacked (fill_space cfg junk_sym pass_count last_pass dump_code line my n).
Proof.
  assert (Hb : forall n i f, Keeps stacked (fill_bytes cfg dump_code line n i f)).
  { clear n. induction n as [|n IH]; intros i f; cbn [fill_bytes]; [auto with keeps|].
    apply keeps_bind; [typeclasses eauto| |intros _; apply IH]. intros g x g' H. eapply stacked_dump. exact H. }
  unfold fill_space. keeps_auto.
Qed.

Lemma stacked_listing a : Keeps stacked (start_listing cfg a).
Proof. apply stacked_start. Qed.

Lemma stacked_section : Keeps stacked new_section.
Proof.
  apply keeps_modify. intros g. apply stacked_outputs; [split; reflexivity|].
  intros []. split; [assumption..|apply elf_section_room; assumption].
Qed.
#[local] Hint Resolve stacked_fill_space stacked_listing stacked_section : keeps.

Lemma stacked_take_name fuel : Keeps stacked (take_name line fuel).
Proof. induction fuel as [|fuel IH]; [discriminate|]. cbn [take_name]. keeps_auto. Qed.

Lemma stacked_export_label ident : Keeps stacked (export_label junk_sym ident).
Proof.
  apply stacked_leaf. intros g x g' H. unfold export_label in H. case_test_in H; [res_inv; frame|].
  res_inv. destruct a as [p h]. case_test_in H; [unfold fail_with, modify in H|]; res_inv; frame.
Qed.

Lemma stacked_identifier : Keeps stacked (fun g => let* l := get_identifier line (g_position g) LINE_LENGTH in Ok (l, g)).
Proof. leaf. Qed.
#[local] Hint Resolve stacked_take_name stacked_export_label stacked_identifier : keeps.

Lemma stacked_export fuel : Keeps stacked (export_labels junk_sym last_pass line fuel).
Proof. induction fuel as [|fuel IH]; [discriminate|]. cbn [export_labels]. stack_auto. Qed.

Lemma stacked_import_bytes bytes : Keeps stacked (import_bytes cfg last_pass dump_code line bytes).
Proof. induction bytes as [|b bytes IH]; cbn [import_bytes]; keeps_auto. Qed.
#[local] Hint Resolve stacked_import_bytes : keeps.

Lemma stacked_evaluate_or d : Keeps stacked (evaluate_or cfg junk_sym pass_count last_pass line my d).
Proof. unfold evaluate_or. keeps_auto. Qed.

Lemma stacked_when_okay m : Keeps stacked m -> Keeps stacked (when_okay m).
Proof. intros. unfold when_okay. keeps_auto. Qed.
#[local] Hint Resolve stacked_evaluate_or stacked_when_okay : keeps.

(** The directives that do change the stack. *)
Lemma zupd_bottom (l l' : list Z) i x : zupd l i x = Ok l' -> i <> 0 -> l' !! 0%nat = l !! 0%nat.
Proof. unfold zupd. case_test; intros H Hi; res_inv. zbool. apply list_lookup_insert_ne. lia. Qed.

Lemma push_ok g s v : zupd (g_ifs g) (g_if_SP g + 1) v = Ok s -> stack_ok g ->
  g_if_SP g < IF_STACK_SIZE -> stack_ok (g_with_ifs s (g_with_if_SP (g_if_SP g + 1) g)).
Proof.
  intros E [] Hs. pose proof (zupd_length _ _ _ _ E). pose proof (zupd_bottom _ _ _ _ E ltac:(lia)).
  constructor; cbn; [congruence|lia|congruence].
Qed.

Lemma stacked_if : Keeps stacked (directive_if cfg junk_sym line my).
Proof.
  intros g x g' H Hok. unfold directive_if in H.
  rewrite (gbind_step _ _ _ _ _ (eq_refl : gets g_if_SP g = Ok (g_if_SP g, g))) in H.
  destruct (IF_STACK_SIZE <=? g_if_SP g) eqn:Es; [eapply stacked_fail; eassumption|]. zbool.
  unfold gbind at 1 in H. res_inv. destruct a as [v g1].
  assert (H01 : same_ifs g g1) by (unfold g_evaluate in E; res_inv; destruct a as [[? ?] ?]; res_inv; frame).
  rewrite (gbind_step _ _ _ _ _ (eq_refl : gets g_error g1 = Ok (g_error g1, g1))) in H.
  unfold gbind at 1 in H. res_inv. destruct a as [v2 g2]. res_inv.
  assert (H12 : same_ifs g1 g2).
  { case_test_in E0; [injection E0 as _ <-; frame|]. unfold gbind in E0. case_test_in E0; injection E0 as _ <-; frame. }
  destruct H01 as [[I1 S1] O1], H12 as [[I2 S2] O2].
  assert (Hs : same_ifs g g2) by (split; [split|]; congruence). pose proof Hs as [[_ Sp] _].
  destruct (stacked_same g _ Hs Hok) as [Hok2 Hb].
  rewrite <- Sp. rewrite <- Sp in Es, E1. split; [apply (push_ok g2 _ v2 E1 Hok2 Es)|exact Hb].
Qed.

Lemma stacked_fi : Keeps stacked directive_fi.
Proof.
  intros g x g' H Hok. unfold directive_fi in H. case_test_in H; [|eapply stacked_fail; eassumption]. zbool. res_inv.
  destruct Hok as [[] Hb]. split; [|exact Hb]. constructor; cbn; [assumption|lia|assumption].
Qed.

Lemma stacked_else : Keeps stacked directive_else.
Proof.
  intros g x g' H Hok. unfold directive_else in H. case_test_in H; [|eapply stacked_fail; eassumption]. zbool. res_inv.
  destruct Hok as [[] Hb]. pose proof (zupd_length _ _ _ _ E0). pose proof (zupd_bottom _ _ _ _ E0 ltac:(lia)).
  split; [|exact Hb]. constructor; cbn; [congruence|lia|congruence].
Qed.

Lemma stacked_rn : Keeps stacked (directive_rn cfg junk_sym pass_count dump_code line my).
Proof.
  unfold directive_rn. case_test; [auto with keeps|]. case_test; [auto with keeps|].
  apply keeps_bind; [typeclasses eauto|apply stacked_embed|intros reg].
  apply keeps_bind; [typeclasses eauto|leaf|intros _]. case_test; [|auto with keeps].
  unfold redefine_symbol. leaf.
Qed.

Lemma stacked_directive token :
  Keeps stacked (directive cfg junk_sym files pass_count last_pass dump_code line my include_file_path token).
Proof.
  unfold directive.
  repeat (case_test; [first [apply stacked_define|apply stacked_export|apply stacked_if|apply stacked_fi|apply stacked_else
    |apply stacked_rn|idtac]|]); unfold directive_defs, directive_include, directive_arch, directive_entry, directive_import,
    directive_equ, directive_org, do_align, directive_record, directive_rec_align, directive_element;
    try solve [stack_auto; repeat (apply stacked_when_okay; stack_auto)].
  intros g x g' H. case_test_in H; [eapply stacked_fail; exact H|res_inv; apply stacked_same; frame].
Qed.

Lemma stacked_assemble_line position token :
  Keeps stacked (assemble_line cfg junk_sym junk junk_flag files pass_count last_pass dump_code line my
    include_file_path position token).
Proof.
  unfold assemble_line, place_label, check_rest.
  repeat (apply keeps_bind; [typeclasses eauto| |intros _]); try solve [stack_auto].
  - unfold add_label. apply stacked_leaf. intros g x g' H. case_test_in H; res_inv; [destruct a; res_inv|]; frame.
  - apply stacked_when_okay. case_test; [apply stacked_directive|apply stacked_embed].
Qed.

End Line.

(** ** Source lines *)

Section Source.

Context (cfg : config) (junk_sym : Z -> sym_record) (junk : Z) (junk_flag : bool) (junk_own : own_label).
Context (files : list Z -> option (list Z)) (mnemonics : list (option sym_table)).
Context (pass_count : Z) (last_pass dump_code : bool).

Lemma stacked_find_mnemonic name : Keeps stacked (find_mnemonic junk_sym mnemonics name).
Proof.
  apply stacked_leaf. intros g x g' H. unfold find_mnemonic in H. res_inv. destruct a as [p h].
  case_test_in H; res_inv; frame.
Qed.

Lemma stacked_locate_label name : Keeps stacked (locate_label junk_sym junk_own pass_count name).
Proof. unfold locate_label. leaf. Qed.

Lemma stacked_next_local value : Keeps stacked (next_local junk junk_own pass_count value).
Proof. apply stacked_leaf. intros g x g' H. unfold next_local in H. case_test_in H; res_inv; frame. Qed.
#[local] Hint Resolve stacked_find_mnemonic stacked_locate_label stacked_next_local : keeps.

Section OneLine.

Context (line path : list Z).

Lemma stacked_label_only my : Keeps stacked (label_only pass_count last_pass my).
Proof.
  unfold label_only. apply keeps_bind; [typeclasses eauto| |intros _; keeps_auto]. case_test; [leaf|auto with keeps].
Qed.
#[local] Hint Resolve stacked_label_only stacked_assemble_line : keeps.

Lemma stacked_first_item : Keeps stacked (first_item junk_sym junk junk_own pass_count mnemonics line).
Proof. unfold first_item. keeps_auto. Qed.

Lemma stacked_second_item my : Keeps stacked (second_item junk_sym pass_count last_pass mnemonics line my).
Proof. unfold second_item. keeps_auto. Qed.
#[local] Hint Resolve stacked_first_item stacked_second_item : keeps.

Lemma stacked_parse_items :
  Keeps stacked (parse_items cfg junk_sym junk junk_flag junk_own files pass_count last_pass dump_code mnemonics path line).
Proof. unfold parse_items, assemble_mnemonic. keeps_auto. Qed.

Lemma stacked_finish_line my : Keeps stacked (finish_line cfg dump_code line my).
Proof.
  intros g x g' H. unfold finish_line in H. res_inv. transitivity (on_list (fun _ => a) g).
  - apply stacked_outputs; [split; reflexivity|]. intros [Hl Hh He]. split; [|exact Hh|exact He].
    cbn. case_test_in E; res_inv; [|exact Hl]. rewrite (list_end_line_length _ _ _ _ Hl E). exact Hl.
  - apply stacked_same. repeat (case_test_in H; res_inv); frame.
Qed.
#[local] Hint Resolve stacked_parse_items stacked_finish_line : keeps.

Lemma stacked_source_line :
  Keeps stacked (parse_source_line cfg junk_sym junk junk_flag junk_own files pass_count last_pass dump_code mnemonics path line).
Proof.
  unfold parse_source_line. keeps_auto. apply stacked_start.
Qed.

End OneLine.

(** ** Passes *)

Lemma report_stacked line n error filename lp p p' : report_error line n error filename lp p = Ok p' ->
  stacked (p_g p) (p_g p').
Proof.
  unfold report_error. intros H. res_inv. destruct a as [r counts]. res_inv. apply stacked_same. destruct counts; frame.
Qed.

Lemma line_stacked line path g e include g' :
  source_line cfg junk_sym junk junk_flag junk_own files mnemonics pass_count last_pass dump_code line path g =
    Ok (e, include, g') -> stacked g g'.
Proof.
  unfold source_line. intros H. res_inv. destruct a as [[] g1]. res_inv.
  transitivity (g_with_include None g); [apply stacked_same; frame|eapply stacked_source_line; exact E].
Qed.

Lemma code_lines_stacked fuel : forall filename path file n p p',
  code_lines cfg junk_sym junk junk_flag junk_own files mnemonics pass_count last_pass dump_code fuel filename path file n p
    = Ok p' -> stacked (p_g p) (p_g p').
Proof.
  induction fuel as [|fuel IH]; intros filename path file n p p' H; [discriminate|]. cbn [code_lines] in H.
  case_test_in H; [res_inv; reflexivity|]. destruct (input_line file LINE_LENGTH) as [line file'].
  res_inv. destruct a as [[e include] g1]. cbn [fst snd] in H.
  transitivity g1; [eapply line_stacked; exact E|]. res_inv.
  transitivity (p_g a); [|eapply IH; exact H]. clear H.
  case_test_in E0; [apply report_stacked in E0; exact E0|].
  destruct include as [name|]; [|res_inv; reflexivity].
  destruct (files (include_path path name)) as [text|]; [apply IH in E0; exact E0|].
  res_inv. apply report_stacked in E1. exact E1.
Qed.

(** ELSE finds the top of the stack. *)
Lemma else_defined g : stack_ok g -> directive_else g <> Undef.
Proof.
  intros [Hn Hs _]. unfold directive_else. case_test; [|discriminate]. zbool.
  destruct (zget (g_ifs g) (g_if_SP g)) as [top| |] eqn:E.
  - cbn [rbind]. unfold zupd. case_test; [discriminate|]. zbool. apply andb_false_iff in Etest0. zbool.
    destruct Etest0; zbool; lia.
  - exfalso. unfold zget in E. case_test_in E; zbool; [lia|].
    destruct (lookup_lt_is_Some_2 (g_ifs g) (Z.to_nat (g_if_SP g))) as [x Hx]; [lia|].
    rewrite Hx in E. discriminate.
  - cbn. discriminate.
Qed.

(** ** Properties *)


End Source.
