(* ===== verification/RvaStable.v ===== *)
(** * Labels across a pass

    The assembler runs passes until a pass defines and redefines no label. Here is
    what that means: such a pass left every label with the value it found, so the
    addresses the last pass plants are those all labels have.

    [stable] relates the state before an operation to the state after it; every
    operation of RvaDir.v, RvaLine.v and RvaPass.v keeps it on any pass but the first. *)

From S2P Require Import Prelude RvaDefs RvaLex RvaSym RvaEval RvaEncode RvaOut RvaState RvaDir RvaLine RvaPass.
Local Open Scope rva_scope.

(** Addresses at and above [sh_next] are free. *)
Definition heap_wf (h : sym_heap) : Prop := forall p, sh_next h <= p -> sh_recs h !! p = None.

(** The value of a label, if it has one. *)
Definition defined_value (flags value : Z) : option Z :=
  if truthy (Z.land flags SYM_REC_DEF_FLAG) then Some value else None.

(** The value is the same, or it is gone. *)
Definition value_kept (v v' : option Z) : Prop := v' = v \/ v' = None.

Definition sym_kept (r r' : sym_record) : Prop :=
  value_kept (defined_value (sr_flags r) (sr_value r)) (defined_value (sr_flags r') (sr_value r')).
Definition local_kept (l l' : local_label) : Prop :=
  value_kept (defined_value (ll_flags l) (ll_value l)) (defined_value (ll_flags l') (ll_value l')).

Definition syms_kept (h h' : sym_heap) : Prop :=
  forall p r, sh_recs h !! p = Some r -> exists r', sh_recs h' !! p = Some r' /\ sym_kept r r'.
Definition locals_kept (ls ls' : list local_label) : Prop :=
  forall i l, ls !! i = Some l -> exists l', ls' !! i = Some l' /\ local_kept l l'.

Record stable (g g' : gstate) : Prop := Stable {
  sb_wf : heap_wf (g_syms g) -> heap_wf (g_syms g');
  sb_defined : g_defined g <= g_defined g';
  sb_redefined : g_redefined g <= g_redefined g';
  sb_errors : g_errors g' = g_errors g;
  sb_labels : heap_wf (g_syms g) -> g_defined g' = g_defined g -> g_redefined g' = g_redefined g ->
    syms_kept (g_syms g) (g_syms g') /\ locals_kept (g_locals g) (g_locals g');
}.

Lemma value_kept_trans a b c : value_kept a b -> value_kept b c -> value_kept a c.
Proof. unfold value_kept. intros [-> | ->] [-> | ->]; auto. Qed.

Lemma syms_kept_refl h : syms_kept h h.
Proof. intros p r H. exists r. split; [exact H|left; reflexivity]. Qed.

Lemma locals_kept_refl ls : locals_kept ls ls.
Proof. intros i l H. exists l. split; [exact H|left; reflexivity]. Qed.

#[export] Instance stable_preorder : PreOrder stable.
Proof.
  split.
  - intros g. split; try lia; auto. intros. split; [apply syms_kept_refl|apply locals_kept_refl].
  - intros g1 g2 g3 [W1 D1 R1 E1 L1] [W2 D2 R2 E2 L2]. split; [auto|lia|lia|congruence|]. intros Hw Hd Hr.
    destruct (L1 Hw ltac:(lia) ltac:(lia)) as [S1 O1]. destruct (L2 (W1 Hw) ltac:(lia) ltac:(lia)) as [S2 O2]. split.
    + intros p r Hp. destruct (S1 p r Hp) as (r1 & Hp1 & K1). destruct (S2 p r1 Hp1) as (r2 & Hp2 & K2).
      exists r2. split; [exact Hp2|eapply value_kept_trans; eassumption].
    + intros p r Hp. destruct (O1 p r Hp) as (r1 & Hp1 & K1). destruct (O2 p r1 Hp1) as (r2 & Hp2 & K2).
      exists r2. split; [exact Hp2|eapply value_kept_trans; eassumption].
Qed.

(** Nothing that matters changed. *)
Definition same_labels (g g' : gstate) : Prop :=
  g_syms g' = g_syms g /\ g_locals g' = g_locals g /\ g_defined g' = g_defined g /\ g_redefined g' = g_redefined g /\
  g_errors g' = g_errors g.

Lemma stable_same g g' : same_labels g g' -> stable g g'.
Proof.
  intros (E1 & E2 & E3 & E4 & E5). split; rewrite ?E1, ?E2, ?E3, ?E4; try lia; auto.
  intros. split; [apply syms_kept_refl|apply locals_kept_refl].
Qed.

(** Only the store of symbols changed. *)
Lemma stable_syms g g' : g_locals g' = g_locals g -> g_defined g' = g_defined g -> g_redefined g' = g_redefined g ->
  g_errors g' = g_errors g -> (heap_wf (g_syms g) -> heap_wf (g_syms g') /\ syms_kept (g_syms g) (g_syms g')) -> stable g g'.
Proof.
  intros E2 E3 E4 E5 H. split; rewrite ?E2, ?E3, ?E4; try lia; [intros Hw; apply H; exact Hw|].
  intros Hw _ _. split; [apply H; exact Hw|apply locals_kept_refl].
Qed.

(** ** The store *)

Lemma put_rec_wf h p r r' : sh_recs h !! p = Some r -> heap_wf h -> heap_wf (put_rec h p r').
Proof.
  intros Hp Hw q Hq. cbn in Hq |- *. destruct (decide (q = p)) as [->|Hne]; [rewrite Hw in Hp by exact Hq; discriminate|].
  rewrite lookup_insert_ne by congruence. apply Hw. exact Hq.
Qed.

Lemma put_rec_ok h p r r' : sh_recs h !! p = Some r -> sym_kept r r' -> heap_wf h ->
  heap_wf (put_rec h p r') /\ syms_kept h (put_rec h p r').
Proof.
  intros Hp Hk Hw. split; [eapply put_rec_wf; eassumption|].
  intros q r0 Hq. cbn. destruct (decide (q = p)) as [->|Hne].
  - rewrite lookup_insert_eq. exists r'. split; [reflexivity|]. congruence.
  - rewrite lookup_insert_ne by congruence. exists r0. split; [exact Hq|left; reflexivity].
Qed.

Lemma create_ok junk name v f gf h p h' : sym_create_record junk name v f gf h = (p, h') -> heap_wf h ->
  heap_wf h' /\ syms_kept h h' /\ p = sh_next h /\ sh_recs h !! p = None.
Proof.
  unfold sym_create_record. intros [= <- <-] Hw. split; [|split; [|split; [reflexivity|apply Hw; lia]]].
  - intros q Hq. cbn in Hq |- *. rewrite lookup_insert_ne by lia. apply Hw. lia.
  - intros q r Hq. cbn. rewrite lookup_insert_ne; [exists r; split; [exact Hq|left; reflexivity]|].
    intros <-. rewrite Hw in Hq by lia. discriminate.
Qed.

(** A record made and freed again. *)
Lemma delete_fresh_ok h h' p : sh_recs h !! p = None -> heap_wf h' -> syms_kept h h' ->
  heap_wf (sym_delete_record p h') /\ syms_kept h (sym_delete_record p h').
Proof.
  intros Hp Hw Hk. split.
  - intros q Hq. cbn in Hq |- *. apply lookup_delete_None. right. apply Hw. exact Hq.
  - intros q r Hq. cbn. rewrite lookup_delete_ne by congruence. apply Hk. exact Hq.
Qed.

Lemma find_label_ok junk name t h p h' : sym_find_label junk name t h = Ok (p, h') -> heap_wf h ->
  heap_wf h' /\ syms_kept h h'.
Proof.
  unfold sym_find_label. destruct (sym_create_record _ _ _ _ _ _) as [q h1] eqn:E. intros H Hw. res_inv.
  destruct (create_ok _ _ _ _ _ _ _ _ E Hw) as (W1 & K1 & -> & Hn). apply delete_fresh_ok; assumption.
Qed.

Lemma syms_kept_trans h1 h2 h3 : syms_kept h1 h2 -> syms_kept h2 h3 -> syms_kept h1 h3.
Proof.
  intros S1 S2 p r Hp. destruct (S1 p r Hp) as (r1 & Hp1 & K1). destruct (S2 p r1 Hp1) as (r2 & Hp2 & K2).
  exists r2. split; [exact Hp2|eapply value_kept_trans; eassumption].
Qed.

Lemma find_list_ok junk name ts : forall h p h', sym_find_label_list junk name ts h = Ok (p, h') -> heap_wf h ->
  heap_wf h' /\ syms_kept h h'.
Proof.
  induction ts as [|t ts IH]; intros h p h' H Hw; cbn [sym_find_label_list] in H; res_inv; [split; [exact Hw|apply syms_kept_refl]|].
  destruct a as [q h1].
  assert (Hstep : heap_wf h1 /\ syms_kept h h1).
  { destruct t; [eapply find_label_ok; eassumption|]. res_inv. split; [exact Hw|apply syms_kept_refl]. }
  destruct Hstep as [W1 K1]. case_test_in H; res_inv; [|auto].
  destruct (IH _ _ _ H W1) as [W2 K2]. split; [exact W2|eapply syms_kept_trans; eassumption].
Qed.

Lemma locate_ok junk name f t h b p h' : sym_locate_label junk name f t h = Ok (b, p, h') -> heap_wf h ->
  heap_wf h' /\ syms_kept h h'.
Proof.
  unfold sym_locate_label. destruct (sym_create_record _ _ _ _ _ _) as [q h1] eqn:E. intros H Hw.
  destruct (create_ok _ _ _ _ _ _ _ _ E Hw) as (W1 & K1 & -> & Hn). res_inv. case_test_in H; res_inv; [auto|].
  apply delete_fresh_ok; assumption.
Qed.

(** Putting a record in a table changes neither its value nor its flags. *)
Lemma add_to_table_ok t p h t' h' : sym_add_to_table t p h = Ok (t', h') -> heap_wf h -> heap_wf h' /\ syms_kept h h'.
Proof.
  unfold sym_add_to_table, get_rec. intros H Hw. res_inv. eapply put_rec_ok; [eassumption|left; reflexivity|exact Hw].
Qed.

(** ** Operations that leave the labels alone *)

Lemma keeps_same {X} (m : G X) : (forall g x g', m g = Ok (x, g') -> same_labels g g') -> Keeps stable m.
Proof. intros H g x g' E. apply stable_same. eapply H. exact E. Qed.

Ltac same := intros; repeat split; reflexivity.

Lemma keeps_set f : (forall g, same_labels g (f g)) -> Keeps stable (modify f).
Proof. intros H. apply keeps_modify. intros g. apply stable_same, H. Qed.

Lemma keeps_fail e : Keeps stable (fail_with e).
Proof. apply keeps_set. same. Qed.

Lemma keeps_fail_here e : Keeps stable (fail_here e).
Proof. intros g x g' H. eapply keeps_fail. exact H. Qed.

Lemma keeps_move p : Keeps stable (move_to p).
Proof. apply keeps_set. same. Qed.

Lemma keeps_dump cfg dc line a v s : Keeps stable (dump cfg dc line a v s).
Proof. apply keeps_same. unfold dump. intros g x g' H. res_inv. same. Qed.

Lemma keeps_evaluate cfg junk line my : Keeps stable (g_evaluate cfg junk line my).
Proof. apply keeps_same. unfold g_evaluate. intros g x g' H. res_inv. destruct a as [[? ?] ?]. res_inv. same. Qed.

Lemma keeps_allow fp lp : Keeps stable (allow fp lp).
Proof. intros g x g' H. unfold allow in H. case_test_in H; res_inv; [eapply keeps_fail; exact H|reflexivity]. Qed.

Lemma keeps_okay : Keeps stable okay.
Proof. apply keeps_gets. typeclasses eauto. Qed.

Lemma keeps_char line : Keeps stable (char_here line).
Proof. intros g x g' H. unfold char_here in H. res_inv. reflexivity. Qed.

Lemma keeps_skip line : Keeps stable (skip_blanks line).
Proof. intros g x g' H. unfold skip_blanks in H. res_inv. eapply keeps_move. exact H. Qed.

Lemma keeps_take line c : Keeps stable (take_next line c).
Proof. apply keeps_same. intros g x g' H. unfold take_next in H. res_inv. destruct a. res_inv. same. Qed.

Lemma keeps_step_on : Keeps stable step_on.
Proof. apply keeps_set. same. Qed.

Lemma keeps_advance n : Keeps stable (advance n).
Proof. apply keeps_set. intros g. destruct (live_of g); same. Qed.

#[export] Hint Resolve keeps_fail keeps_fail_here keeps_move keeps_dump keeps_evaluate keeps_allow keeps_okay keeps_char
  keeps_skip keeps_take keeps_step_on keeps_advance : keeps.

Lemma keeps_dump_words cfg dc line n : forall bytes, (length bytes <= n)%nat -> Keeps stable (dump_words cfg dc line bytes).
Proof.
  induction n as [|n IH]; intros bytes Hn;
    (destruct bytes as [|[a b0] [|[? b1] [|[? b2] [|[? b3] bytes]]]]; cbn [dump_words]; [auto with keeps..|]).
  - simpl in Hn. lia.
  - apply keeps_bind; [typeclasses eauto|apply keeps_dump|intros _]. apply IH. simpl in Hn. lia.
Qed.

Lemma keeps_embed {X} cfg dc line (m : gstate -> A X) : Keeps stable (embed cfg dc line m).
Proof.
  intros g x g' H. unfold embed in H. res_inv. destruct a as [y s]. res_inv. destruct a as [[] g1]. res_inv.
  transitivity (back s g); [apply stable_same; same|].
  eapply keeps_dump_words; [reflexivity|exact E0].
Qed.
#[export] Hint Resolve keeps_embed : keeps.

(** ** A label is given its value *)

Lemma flags_known flags k : truthy (Z.land (Z.lor flags k) SYM_REC_DEF_FLAG) =
  (truthy (Z.land flags SYM_REC_DEF_FLAG) || truthy (Z.land k SYM_REC_DEF_FLAG))%bool.
Proof.
  unfold truthy. rewrite Z.land_lor_distr_l. apply eq_true_iff_eq.
  rewrite orb_true_iff, !negb_true_iff, !Z.eqb_neq. split.
  - intros H. destruct (Z.eq_dec (Z.land flags SYM_REC_DEF_FLAG) 0) as [E|]; [right|left; assumption].
    intros E2. rewrite E, E2 in H. apply H. reflexivity.
  - intros H E. apply Z.lor_eq_0_iff in E. lia.
Qed.

Lemma flags_pass flags k : 0 <= k < 256 ->
  truthy (Z.land (Z.lor (Z.land flags 0xFFFFFF00) k) SYM_REC_DEF_FLAG) = truthy (Z.land flags SYM_REC_DEF_FLAG).
Proof.
  intros Hk. rewrite flags_known. replace (truthy (Z.land k SYM_REC_DEF_FLAG)) with false.
  - rewrite orb_false_r, <- Z.land_assoc. reflexivity.
  - symmetry. apply negb_false_iff, Z.eqb_eq. unfold SYM_REC_DEF_FLAG.
    apply Z.bits_inj'. intros i Hi. rewrite Z.land_spec, Z.bits_0.
    change 256 with (2 ^ 8). rewrite Z.pow2_bits_eqb by lia. destruct (Z.eqb_spec 8 i) as [<-|]; [|apply andb_false_r].
    rewrite (testbit_high k 8) by (simpl; lia). reflexivity.
Qed.

(** A label that is not counted keeps its value or loses it. *)
Lemma redefine_kept pc lp value old flags defined error flags' error' : 0 <= pc < 256 ->
  redefine pc lp value old flags defined error = (flags', error', Unchanged) -> forall k, Z.land k SYM_REC_DEF_FLAG = 0 ->
  value_kept (defined_value flags old) (defined_value (Z.lor flags' k) value) \/ error' = SYM_INCONSISTENT.
Proof.
  intros Hpc H k Hk. unfold redefine in H.
  assert (Hkk : forall f, truthy (Z.land (Z.lor f k) SYM_REC_DEF_FLAG) = truthy (Z.land f SYM_REC_DEF_FLAG))
    by (intros f; rewrite flags_known, Hk; apply orb_false_r).
  destruct (truthy (Z.land flags SYM_REC_DEF_FLAG)) eqn:Ef; unfold value_kept, defined_value; rewrite Hkk, Ef.
  - destruct (negb (pc =? Z.land flags 0xFF)) eqn:Ep; cbn [orb negb] in H.
    + destruct ((error =? eval_okay) && defined)%bool.
      * destruct (Z.eqb_spec old value) as [->|]; cbn in H; [|discriminate]. injection H as <- _.
        rewrite flags_pass, Ef by exact Hpc. auto.
      * injection H as <- _. rewrite flags_pass, <- Z.land_assoc by exact Hpc.
        change (Z.land (not32 SYM_REC_DEF_FLAG) SYM_REC_DEF_FLAG) with 0. rewrite Z.land_0_r. auto.
    + destruct ((error =? eval_okay) && defined)%bool; cbn in H; [|injection H as _ <-; auto].
      destruct (Z.eqb_spec value old) as [->|]; cbn in H; [|injection H as _ <-; auto].
      injection H as <- _. rewrite flags_pass, Ef by exact Hpc. auto.
  - rewrite orb_true_r in H. destruct ((error =? eval_okay) && defined)%bool; cbn in H; [discriminate|].
    injection H as <- _. rewrite flags_pass, <- Z.land_assoc by exact Hpc.
    change (Z.land (not32 SYM_REC_DEF_FLAG) SYM_REC_DEF_FLAG) with 0. rewrite Z.land_0_r. auto.
Qed.

(** A label given two values in one pass is an error, and then it has the second one;
    so an operation that ends with that error says nothing about the labels. *)
Definition settles (g g' : gstate) : Prop :=
  (heap_wf (g_syms g) -> heap_wf (g_syms g')) /\ g_defined g <= g_defined g' /\ g_redefined g <= g_redefined g' /\
  g_errors g' = g_errors g /\ (g_error g' <> SYM_INCONSISTENT -> stable g g').

(** The error is not cleared. *)
Definition holds_error (g g' : gstate) : Prop :=
  stable g g' /\ (g_error g = SYM_INCONSISTENT -> g_error g' = SYM_INCONSISTENT).

#[export] Instance holds_error_preorder : PreOrder holds_error.
Proof.
  split; [intros g; split; [reflexivity|auto]|].
  intros g1 g2 g3 [S1 E1] [S2 E2]. split; [etransitivity; eassumption|auto].
Qed.

Lemma stable_settles g g' : stable g g' -> settles g g'.
Proof. intros S. pose proof S as [W D R E L]. split; [exact W|]. split; [exact D|]. split; [exact R|]. split; [exact E|].
  intros _. exact S. Qed.

Lemma keeps_settles {X} (m : G X) : Keeps stable m -> Keeps settles m.
Proof. intros H g x g' E. apply stable_settles. eapply H. exact E. Qed.

(** First what leaves the labels alone, then the label. *)
Lemma keeps_then {X Y} (m : G X) (f : X -> G Y) : Keeps stable m -> (forall x, Keeps settles (f x)) -> Keeps settles (gbind m f).
Proof.
  intros Hm Hf g y g' H. unfold gbind in H. res_inv. destruct a as [x g1].
  pose proof (Hm _ _ _ E) as S1. destruct (Hf x _ _ _ H) as (W & D & R & Ee & S2). pose proof S1 as [W1 D1 R1 E1 _].
  split; [auto|]. split; [lia|]. split; [lia|]. split; [congruence|]. intros He. transitivity g1; auto.
Qed.

(** First the label, then what neither touches labels nor clears the error. *)
Lemma keeps_done {X Y} (m : G X) (f : X -> G Y) : Keeps settles m -> (forall x, Keeps holds_error (f x)) -> Keeps settles (gbind m f).
Proof.
  intros Hm Hf g y g' H. unfold gbind in H. res_inv. destruct a as [x g1].
  destruct (Hm _ _ _ E) as (W & D & R & Ee & S1). destruct (Hf x _ _ _ H) as [S2 He]. pose proof S2 as [W2 D2 R2 E2 _].
  split; [auto|]. split; [lia|]. split; [lia|]. split; [congruence|]. intros Hn. transitivity g1; auto.
Qed.

(** What is only done when there is no error so far. *)
Lemma keeps_guard {X Y} (m : G X) (f : X -> bool -> G Y) : Keeps settles m -> (forall x, Keeps settles (f x true)) ->
  (forall x, Keeps holds_error (f x false)) -> Keeps settles (gbind m (fun x => gbind okay (f x))).
Proof.
  intros Hm Hk Hf g y g' H. unfold gbind in H. res_inv. destruct a as [x g1].
  destruct (Hm _ _ _ E) as (W & D & R & Ee & S1). cbn in H.
  destruct (Z.eqb_spec (g_error g1) eval_okay) as [Eo|].
  - destruct (Hk _ _ _ _ H) as (W2 & D2 & R2 & E2 & S2). split; [auto|]. split; [lia|]. split; [lia|].
    split; [congruence|]. intros He. transitivity g1; [apply S1; rewrite Eo; discriminate|auto].
  - destruct (Hf _ _ _ _ H) as [S2 He]. pose proof S2 as [W2 D2 R2 E2 _]. split; [auto|]. split; [lia|]. split; [lia|].
    split; [congruence|]. intros Hn. transitivity g1; auto.
Qed.

Lemma keeps_when_okay {X} (m : G X) (k : G unit) : Keeps settles m -> Keeps settles k ->
  Keeps settles (do& m in when_okay k).
Proof.
  intros Hm Hk. apply (keeps_guard m (fun _ ok => if ok then k else gret tt)); [exact Hm|auto|].
  intros _. apply keeps_ret. typeclasses eauto.
Qed.

Lemma keeps_if_okay (k : G unit) : Keeps settles k -> Keeps settles (when_okay k).
Proof. intros Hk. apply keeps_then; [auto with keeps|]. intros []; [exact Hk|]. apply keeps_settles. auto with keeps. Qed.

(** Storing a value and flags in the label. *)
Lemma label_put_kept my old flags value flags' g g1 g' : label_get my g = Ok (Some (old, flags), g) ->
  g_syms g1 = g_syms g -> g_locals g1 = g_locals g -> label_put my value flags' g1 = Ok (tt, g') ->
  g_defined g' = g_defined g1 /\ g_redefined g' = g_redefined g1 /\ g_error g' = g_error g1 /\
  g_errors g' = g_errors g1 /\ (heap_wf (g_syms g) -> heap_wf (g_syms g')) /\
  (value_kept (defined_value flags old) (defined_value flags' value) -> heap_wf (g_syms g) ->
     syms_kept (g_syms g) (g_syms g') /\ locals_kept (g_locals g) (g_locals g')).
Proof.
  intros Hget Es El Hput. unfold label_get in Hget. unfold label_put in Hput. rewrite Es, El in Hput.
  assert (Hsym : forall r, sh_recs (g_syms g) !! ol_symbol my = Some r ->
    sym_kept r (with_value r flags' value) -> heap_wf (g_syms g) ->
    syms_kept (g_syms g) (put_rec (g_syms g) (ol_symbol my) (with_value r flags' value)) /\
    locals_kept (g_locals g) (g_locals g))
    by (intros r Hr Hk Hw; split; [eapply put_rec_ok; eassumption|apply locals_kept_refl]).
  unfold get_rec in *. destruct (ol_sort my); res_inv; try discriminate; simplify_eq; cbn; rewrite ?Es, ?El;
    (do 4 (split; [reflexivity|])); split.
  1, 3: intros Hw; eapply put_rec_wf; eassumption.
  1, 2: intros Hv; apply Hsym; assumption.
  - auto.
  - intros Hv _. split; [apply syms_kept_refl|]. intros i l Hi.
    destruct (decide (i = ol_local my)) as [->|Hne].
    + rewrite list_lookup_insert_eq by (eapply lookup_lt_Some; exact Hi). eexists. split; [reflexivity|].
      unfold local_kept. cbn. congruence.
    + rewrite list_lookup_insert_ne by congruence. exists l. split; [exact Hi|left; reflexivity].
Qed.

(** The label of the line. *)
Lemma keeps_redef_label pc lp value defined my k : 0 <= pc < 256 -> Z.land k SYM_REC_DEF_FLAG = 0 ->
  Keeps settles (assemble_redef_label pc lp value defined my k).
Proof.
  intros Hpc Hk g x g' H. unfold assemble_redef_label, gbind in H. res_inv. destruct a as [label g0].
  assert (g0 = g) as -> by (unfold label_get in E; destruct (ol_sort my); res_inv; reflexivity).
  destruct label as [[old flags]|]; [|injection H as <- <-; apply stable_settles; reflexivity].
  cbn in H. destruct (redefine _ _ _ _ _ _ _) as [[flags' error'] change] eqn:Er.
  cbn in H. set (g1 := g_with_error error' (count_change change g)) in H. destruct x.
  assert (Hg1 : g_syms g1 = g_syms g /\ g_locals g1 = g_locals g /\ g_error g1 = error' /\ g_errors g1 = g_errors g /\
    g_defined g1 = g_defined g + (match change with Newly_defined => 1 | _ => 0 end) /\
    g_redefined g1 = g_redefined g + (match change with RvaDir.Redefined => 1 | _ => 0 end))
    by (destruct change; cbn; repeat split; lia).
  destruct Hg1 as (Es & El & Ee & Een & Ed & Edr).
  destruct (label_put_kept _ _ _ _ _ _ _ _ E Es El H) as (Hd & Hr & He & Hen & Hw & Hl).
  split; [exact Hw|]. rewrite Hd, Hr, Ed, Edr, He, Ee, Hen, Een.
  split; [destruct change; lia|]. split; [destruct change; lia|]. split; [reflexivity|]. intros Hne.
  split; [exact Hw|rewrite Hd, Ed; destruct change; lia|rewrite Hr, Edr; destruct change; lia|congruence|].
  intros Hw' Hd' Hr'. apply Hl; [|exact Hw'].
  destruct change; [|lia|lia].
  destruct (redefine_kept _ _ _ _ _ _ _ _ _ Hpc Er k Hk); [assumption|contradiction].
Qed.

(** ** The directives *)

Section Line.

Context (cfg : config) (junk_sym : Z -> sym_record) (junk : Z) (junk_flag : bool).
Context (files : list Z -> option (list Z)).
Context (pass_count : Z) (last_pass dump_code : bool) (Hpass : 0 < pass_count < 256).
Context (line : list Z) (my : own_label) (include_file_path : list Z).

Lemma not_first : first_pass pass_count = false.
Proof. apply Z.eqb_neq. lia. Qed.

Lemma keeps_dump_element v s : Keeps stable (dump_element cfg dump_code line v s).
Proof. intros g x g' H. eapply keeps_dump. exact H. Qed.

Lemma keeps_count_element s : Keeps stable (count_element s).
Proof. apply keeps_set. same. Qed.

#[local] Hint Resolve keeps_dump_element keeps_count_element : keeps.

Lemma keeps_define_string fuel : forall d s, Keeps stable (define_string cfg last_pass dump_code line fuel d s).
Proof. induction fuel as [|fuel IH]; intros d s; [discriminate|]. cbn [define_string]. keeps_auto. Qed.
#[local] Hint Resolve keeps_define_string : keeps.

Lemma keeps_define_value s : Keeps stable (define_value cfg junk_sym pass_count last_pass dump_code line my s).
Proof. unfold define_value. keeps_auto. Qed.
#[local] Hint Resolve keeps_define_value : keeps.

Lemma keeps_define_element s : Keeps stable (define_element cfg junk_sym pass_count last_pass dump_code line my s).
Proof. unfold define_element. keeps_auto. Qed.
#[local] Hint Resolve keeps_define_element : keeps.

Lemma keeps_define_elements fuel : forall s,
  Keeps stable (define_elements cfg junk_sym pass_count last_pass dump_code line my fuel s).
Proof. induction fuel as [|fuel IH]; intros s; [discriminate|]. cbn [define_elements]. keeps_auto. Qed.

Lemma keeps_define s : Keeps stable (assemble_define cfg junk_sym pass_count last_pass dump_code line my s).
Proof.
  apply keeps_bind; [typeclasses eauto|apply keeps_define_elements|]. intros _ g x g' H. eapply keeps_advance. exact H.
Qed.

Lemma keeps_fill_bytes n : forall i f, Keeps stable (fill_bytes cfg dump_code line n i f).
Proof.
  induction n as [|n IH]; intros i f; cbn [fill_bytes]; [auto with keeps|].
  apply keeps_bind; [typeclasses eauto| |intros _; apply IH]. intros g x g' H. eapply keeps_dump. exact H.
Qed.
#[local] Hint Resolve keeps_fill_bytes : keeps.

Lemma keeps_fill_space n : Keeps stable (fill_space cfg junk_sym pass_count last_pass dump_code line my n).
Proof. unfold fill_space. keeps_auto. Qed.

Lemma keeps_listing a : Keeps stable (start_listing cfg a).
Proof. apply keeps_set. intros g. destruct (f_list _); same. Qed.

Lemma keeps_section : Keeps stable new_section.
Proof. apply keeps_set. same. Qed.
#[local] Hint Resolve keeps_fill_space keeps_listing keeps_section : keeps.

Lemma keeps_take_name fuel : Keeps stable (take_name line fuel).
Proof. induction fuel as [|fuel IH]; [discriminate|]. cbn [take_name]. keeps_auto. Qed.

Lemma keeps_export_label ident : Keeps stable (export_label junk_sym ident).
Proof.
  intros g x g' H. unfold export_label in H. case_test_in H; [res_inv; apply stable_same; same|].
  res_inv. destruct a as [p h].
  assert (Hs : stable g (g_with_syms h g)).
  { apply stable_syms; try reflexivity. intros Hw. eapply find_label_ok; eassumption. }
  case_test_in H; [transitivity (g_with_syms h g); [exact Hs|eapply keeps_fail; exact H]|].
  res_inv. transitivity (g_with_syms h g); [exact Hs|]. apply stable_syms; try reflexivity. cbn. intros Hw.
  apply of_option_ok in E0. eapply put_rec_ok; [eassumption| |exact Hw]. left. unfold defined_value. cbn [sr_flags sr_value with_value].
  rewrite flags_known, orb_false_r. reflexivity.
Qed.

Lemma keeps_identifier : Keeps stable (fun g => let* l := get_identifier line (g_position g) LINE_LENGTH in Ok (l, g)).
Proof. intros g x g' H. res_inv. reflexivity. Qed.
#[local] Hint Resolve keeps_take_name keeps_export_label keeps_identifier : keeps.

(** Assignments to variables other than labels. *)
Ltac keeps_fields := keeps_auto; try (apply keeps_set; same).

Lemma keeps_export fuel : Keeps stable (export_labels junk_sym last_pass line fuel).
Proof. induction fuel as [|fuel IH]; [discriminate|]. cbn [export_labels]. keeps_fields. Qed.

Lemma keeps_import_bytes bytes : Keeps stable (import_bytes cfg last_pass dump_code line bytes).
Proof. induction bytes as [|b bytes IH]; cbn [import_bytes]; keeps_auto. Qed.
#[local] Hint Resolve keeps_import_bytes : keeps.

Lemma keeps_include : Keeps stable (directive_include line).
Proof. unfold directive_include. keeps_fields. Qed.

Lemma keeps_import : Keeps stable (directive_import cfg files last_pass dump_code line include_file_path).
Proof. unfold directive_import. keeps_fields. Qed.

Lemma keeps_arch : Keeps stable (directive_arch cfg junk_sym dump_code line).
Proof. unfold directive_arch. keeps_fields. Qed.

Lemma keeps_if : Keeps stable (directive_if cfg junk_sym line my).
Proof.
  unfold directive_if. keeps_auto; (apply keeps_same; intros g y g' H; res_inv; same).
Qed.

Lemma keeps_fi : Keeps stable directive_fi.
Proof. intros g x g' H. unfold directive_fi in H. case_test_in H; [res_inv; apply stable_same; same|eapply keeps_fail; exact H]. Qed.

Lemma keeps_else : Keeps stable directive_else.
Proof. intros g x g' H. unfold directive_else in H. case_test_in H; [res_inv; apply stable_same; same|eapply keeps_fail; exact H]. Qed.

Lemma keeps_entry : Keeps stable directive_entry.
Proof. intros g x g' H. unfold directive_entry in H. case_test_in H; [eapply keeps_fail; exact H|res_inv; apply stable_same; same]. Qed.

Lemma keeps_evaluate_or d : Keeps stable (evaluate_or cfg junk_sym pass_count last_pass line my d).
Proof. unfold evaluate_or. keeps_auto. Qed.
#[local] Hint Resolve keeps_evaluate_or : keeps.

Lemma keeps_when_okay_stable m : Keeps stable m -> Keeps stable (when_okay m).
Proof. intros. unfold when_okay. keeps_auto. Qed.
#[local] Hint Resolve keeps_when_okay_stable : keeps.

Lemma keeps_defs : Keeps stable (directive_defs cfg junk_sym pass_count last_pass dump_code line my).
Proof. unfold directive_defs. keeps_auto; apply keeps_when_okay_stable; keeps_auto. Qed.

Lemma keeps_instruction token :
  Keeps stable (instruction cfg junk_sym junk junk_flag pass_count last_pass dump_code line my token).
Proof. apply keeps_embed. Qed.

(** What comes after the label is placed. *)
Lemma holds_same {X} (m : G X) : (forall g x g', m g = Ok (x, g') -> same_labels g g' /\ g_error g' = g_error g) ->
  Keeps holds_error m.
Proof.
  intros H g x g' E. destruct (H _ _ _ E) as [S Ee]. split; [apply stable_same; exact S|congruence].
Qed.

Lemma holds_set f : (forall g, same_labels g (f g) /\ g_error (f g) = g_error g) -> Keeps holds_error (modify f).
Proof. intros H. apply holds_same. intros g x g' [= <- <-]. apply H. Qed.

Lemma holds_advance n : Keeps holds_error (advance n).
Proof. apply holds_set. intros g. destruct (live_of g); split; try reflexivity; same. Qed.

Lemma holds_section : Keeps holds_error new_section.
Proof. apply holds_set. intros g. split; [same|reflexivity]. Qed.

Lemma holds_check_rest : Keeps holds_error (check_rest pass_count line).
Proof. unfold check_rest. rewrite not_first. apply keeps_bind; [typeclasses eauto|apply keeps_gets; typeclasses eauto|]. intros x. apply keeps_ret. typeclasses eauto. Qed.

Lemma keeps_equ k : Z.land k SYM_REC_DEF_FLAG = 0 ->
  Keeps settles (directive_equ cfg junk_sym pass_count last_pass line my k).
Proof.
  intros Hk. apply keeps_then; [auto with keeps|]. intros v.
  case_test; [apply keeps_settles; auto with keeps|]. apply keeps_redef_label; [lia|exact Hk].
Qed.

Lemma keeps_org : Keeps settles (directive_org cfg junk_sym pass_count last_pass line my).
Proof.
  unfold directive_org. apply keeps_then; [auto with keeps|intros v].
  apply keeps_then; [apply keeps_set; same|intros _]. apply keeps_then; [auto with keeps|intros _].
  apply keeps_then; [auto with keeps|intros _]. apply keeps_then; [auto with keeps|intros d].
  apply keeps_done; [apply keeps_redef_label; [lia|reflexivity]|intros _; apply holds_section].
Qed.

Lemma keeps_align : Keeps settles (do_align cfg junk_sym pass_count last_pass dump_code line my).
Proof.
  unfold do_align. apply keeps_then; [auto with keeps|intros v]. apply keeps_then; [auto with keeps|intros e].
  apply keeps_then; [keeps_auto|intros n]. apply keeps_then; [auto with keeps|intros ok].
  case_test; [apply keeps_settles; auto with keeps|]. apply keeps_then; [auto with keeps|intros p].
  apply keeps_then; [auto with keeps|intros c]. apply keeps_then; [keeps_auto|intros _].
  apply keeps_then; [auto with keeps|intros ok2]. case_test; [apply keeps_settles; auto with keeps|].
  apply keeps_then; [auto with keeps|intros d].
  apply keeps_done; [apply keeps_redef_label; [lia|reflexivity]|intros _; apply holds_advance].
Qed.

Lemma keeps_record : Keeps settles (directive_record cfg junk_sym pass_count last_pass line my).
Proof.
  apply keeps_then; [auto with keeps|intros v]. apply keeps_if_okay.
  apply keeps_then; [apply keeps_set; same|intros _]. apply keeps_redef_label; [lia|reflexivity].
Qed.

Lemma keeps_rec_align : Keeps settles (directive_rec_align cfg junk_sym pass_count last_pass line my).
Proof.
  apply keeps_then; [auto with keeps|intros v]. apply keeps_if_okay.
  apply keeps_then; [apply keeps_set; same|intros _]. apply keeps_then; [auto with keeps|intros d].
  apply keeps_redef_label; [lia|reflexivity].
Qed.

Lemma keeps_element s : Keeps settles (directive_element cfg junk_sym pass_count last_pass line my s).
Proof.
  apply keeps_then; [auto with keeps|intros v]. apply keeps_if_okay. apply keeps_then; [auto with keeps|intros d].
  apply keeps_done; [apply keeps_redef_label; [lia|reflexivity]|intros _].
  apply holds_set. intros g. split; [same|reflexivity].
Qed.

Lemma keeps_rn : Keeps stable (directive_rn cfg junk_sym pass_count dump_code line my).
Proof. unfold directive_rn. rewrite not_first. cbn [negb]; auto with keeps. Qed.

Lemma keeps_directive token :
  Keeps settles (directive cfg junk_sym files pass_count last_pass dump_code line my include_file_path token).
Proof.
  unfold directive.
  repeat (case_test; [first [apply keeps_equ; reflexivity|apply keeps_org|apply keeps_align|apply keeps_record
    |apply keeps_rec_align|apply keeps_element|apply keeps_settles; first [apply keeps_define|apply keeps_defs|apply keeps_export
    |apply keeps_include|apply keeps_arch|apply keeps_entry|apply keeps_if|apply keeps_fi|apply keeps_else
    |apply keeps_import|apply keeps_rn|auto with keeps; fail]]|]).
  apply keeps_settles. auto with keeps.
Qed.

Lemma keeps_add_label token : Keeps stable (add_label my token).
Proof.
  intros g x g' H. unfold add_label in H. case_test_in H; res_inv; [|reflexivity]. destruct a as [t h]. res_inv.
  apply stable_syms; try reflexivity. intros Hw. eapply add_to_table_ok; eassumption.
Qed.

Lemma keeps_place_label token : Keeps settles (place_label pass_count last_pass my token).
Proof.
  unfold place_label. case_test; [|apply keeps_settles; auto with keeps].
  apply keeps_then; [auto with keeps|intros p]. apply keeps_then; [auto with keeps|intros d].
  apply keeps_redef_label; [lia|reflexivity].
Qed.

Lemma settles_bind_set {X} (m : G X) f k : (forall g, same_labels g (f g) /\ g_error (f g) = g_error g) ->
  Keeps settles m -> Keeps settles k -> Keeps settles (do& m in do& modify f in when_okay k).
Proof.
  intros Hf Hm Hk.
  assert (Hmf : Keeps settles (do& m in modify f)) by (apply keeps_done; [exact Hm|intros _; apply holds_set; exact Hf]).
  intros g x g' H. eapply (keeps_when_okay (do& m in modify f) k Hmf Hk g x g').
  unfold gbind in H |- *. destruct (m g) as [[y g1]| |]; exact H.
Qed.

Lemma keeps_assemble_line position token :
  Keeps settles (assemble_line cfg junk_sym junk junk_flag files pass_count last_pass dump_code line my
    include_file_path position token).
Proof.
  unfold assemble_line. apply keeps_then; [auto with keeps|intros _]. apply keeps_then; [auto with keeps|intros _].
  apply keeps_then; [apply keeps_add_label|intros _].
  set (k := if _ =? _ then _ else _).
  assert (Hk : Keeps settles k) by (subst k; case_test; [apply keeps_directive|apply keeps_settles, keeps_instruction]).
  pose proof (settles_bind_set _ (g_with_increment 0) k ltac:(intros g; split; [same|reflexivity])
    (keeps_place_label token) Hk) as H.
  pose proof (keeps_done _ (fun _ => check_rest pass_count line) H (fun _ => holds_check_rest)) as Hall.
  intros g x g' E. eapply (Hall g x g'). unfold gbind, modify in E |- *.
  destruct (place_label _ _ _ _ _) as [[[] g1]| |]; [|discriminate..]. exact E.
Qed.

End Line.

(** ** Source lines *)

Section Source.

Context (cfg : config) (junk_sym : Z -> sym_record) (junk : Z) (junk_flag : bool) (junk_own : own_label).
Context (files : list Z -> option (list Z)) (mnemonics : list (option sym_table)).
Context (pass_count : Z) (last_pass dump_code : bool) (Hpass : 0 < pass_count < 256).

Lemma keeps_find_mnemonic name : Keeps stable (find_mnemonic junk_sym mnemonics name).
Proof.
  intros g x g' H. unfold find_mnemonic in H. res_inv. destruct a as [p h].
  assert (Hs : stable g (g_with_syms h g)) by (apply stable_syms; try reflexivity; intros Hw; eapply find_list_ok; eassumption).
  case_test_in H; res_inv; exact Hs.
Qed.

Lemma keeps_locate_label name : Keeps stable (locate_label junk_sym junk_own pass_count name).
Proof.
  intros g x g' H. unfold locate_label in H. res_inv. destruct a as [[b p] h]. res_inv.
  apply stable_syms; try reflexivity. intros Hw. eapply locate_ok; eassumption.
Qed.

Lemma keeps_next_local value : Keeps stable (next_local junk junk_own pass_count value).
Proof.
  intros g x g' H. unfold next_local in H. replace (pass_count =? 0) with false in H by (symmetry; apply Z.eqb_neq; lia).
  res_inv. apply stable_same. same.
Qed.
#[local] Hint Resolve keeps_find_mnemonic keeps_locate_label keeps_next_local : keeps.

Context (line path : list Z).

Lemma keeps_first_item : Keeps stable (first_item junk_sym junk junk_own pass_count mnemonics line).
Proof. unfold first_item. keeps_auto. Qed.

Lemma keeps_label_only my : Keeps settles (label_only pass_count last_pass my).
Proof.
  unfold label_only. apply keeps_then.
  - case_test; [|auto with keeps]. intros g x g' H. res_inv. destruct a as [t h]. res_inv.
    apply stable_syms; try reflexivity. intros Hw. eapply add_to_table_ok; eassumption.
  - intros _. apply keeps_then; [auto with keeps|intros p]. apply keeps_then; [auto with keeps|intros d].
    apply keeps_redef_label; [lia|reflexivity].
Qed.

Lemma keeps_second_item my : Keeps settles (second_item junk_sym pass_count last_pass mnemonics line my).
Proof.
  unfold second_item. apply keeps_then; [auto with keeps|intros _]. apply keeps_then; [auto with keeps|intros p].
  apply keeps_then; [auto with keeps|intros buffer]. destruct buffer as [|c0 buffer].
  - apply keeps_then; [auto with keeps|intros c]. case_test; [|apply keeps_settles; keeps_auto].
    apply keeps_done; [apply keeps_label_only|intros _; apply keeps_ret; typeclasses eauto].
  - apply keeps_settles. keeps_auto.
Qed.

Lemma keeps_parse_items :
  Keeps settles (parse_items cfg junk_sym junk junk_flag junk_own files pass_count last_pass dump_code mnemonics path line).
Proof.
  unfold parse_items. apply keeps_then; [apply keeps_first_item|intros [my token]].
  apply (keeps_guard _ (fun token (ok : bool) => do& match token with
    | Some t => if ok then assemble_mnemonic _ _ _ _ _ _ _ _ _ _ my t else gret tt | None => gret tt end in gret my)).
  - apply keeps_then; [auto with keeps|intros ok]. destruct token; [apply keeps_settles; auto with keeps|].
    case_test; [apply keeps_second_item|apply keeps_settles; auto with keeps].
  - intros [t|]; [|apply keeps_settles; keeps_auto]. apply keeps_done; [|intros _; apply keeps_ret; typeclasses eauto].
    unfold assemble_mnemonic. apply keeps_then; [auto with keeps|intros v].
    case_test; [apply keeps_settles; auto with keeps|]. apply keeps_then; [auto with keeps|intros p].
    apply keeps_assemble_line. exact Hpass.
  - intros token'. apply keeps_bind; [typeclasses eauto| |intros _; apply keeps_ret; typeclasses eauto].
    destruct token'; apply keeps_ret; typeclasses eauto.
Qed.

Lemma holds_finish_line my : Keeps holds_error (finish_line cfg dump_code line my).
Proof.
  intros g x g' H. unfold finish_line in H. res_inv. set (g1 := on_list (fun _ => a) g) in H.
  assert (H1 : holds_error g g1) by (split; [apply stable_same; same|auto]).
  case_test_in H; res_inv; [|exact H1]. case_test_in H; res_inv; [|exact H1]. apply of_option_ok in E0.
  transitivity g1; [exact H1|]. split; [|auto]. apply stable_syms; try reflexivity. intros Hw.
  eapply put_rec_ok; [exact E0|left; reflexivity|exact Hw].
Qed.

Lemma keeps_source_line :
  Keeps settles (parse_source_line cfg junk_sym junk junk_flag junk_own files pass_count last_pass dump_code mnemonics path line).
Proof.
  unfold parse_source_line. apply keeps_then; [auto with keeps|intros _]. apply keeps_then; [auto with keeps|intros _].
  apply keeps_then; [auto with keeps|intros _]. apply keeps_then.
  { case_test; [apply keeps_set; intros g; destruct (f_list _); same|auto with keeps]. }
  intros _. apply keeps_then; [auto with keeps|intros c]. apply keeps_done.
  - case_test; [apply keeps_settles; auto with keeps|apply keeps_parse_items].
  - intros my. case_test; [apply holds_finish_line|apply keeps_ret; typeclasses eauto].
Qed.

End Source.

(** ** Passes *)

(** [stable], but for a pass: what it says of the labels holds when no error was
    reported. *)
Record settled (g g' : gstate) : Prop := Settled {
  sd_wf : heap_wf (g_syms g) -> heap_wf (g_syms g');
  sd_defined : g_defined g <= g_defined g';
  sd_redefined : g_redefined g <= g_redefined g';
  sd_errors : g_errors g <= g_errors g';
  sd_labels : heap_wf (g_syms g) -> g_errors g' = g_errors g -> g_defined g' = g_defined g ->
    g_redefined g' = g_redefined g -> syms_kept (g_syms g) (g_syms g') /\ locals_kept (g_locals g) (g_locals g');
}.

Lemma stable_settled g g' : stable g g' -> settled g g'.
Proof. intros [W D R E L]. split; auto. lia. Qed.

Lemma locals_kept_trans l1 l2 l3 : locals_kept l1 l2 -> locals_kept l2 l3 -> locals_kept l1 l3.
Proof.
  intros S1 S2 p r Hp. destruct (S1 p r Hp) as (r1 & Hp1 & K1). destruct (S2 p r1 Hp1) as (r2 & Hp2 & K2).
  exists r2. split; [exact Hp2|eapply value_kept_trans; eassumption].
Qed.

#[export] Instance settled_preorder : PreOrder settled.
Proof.
  split; [intros g; apply stable_settled; reflexivity|].
  intros g1 g2 g3 [W1 D1 R1 E1 L1] [W2 D2 R2 E2 L2]. split; [auto|lia|lia|lia|]. intros Hw He Hd Hr.
  destruct (L1 Hw ltac:(lia) ltac:(lia) ltac:(lia)) as [S1 O1].
  destruct (L2 (W1 Hw) ltac:(lia) ltac:(lia) ltac:(lia)) as [S2 O2].
  split; [eapply syms_kept_trans; eassumption|eapply locals_kept_trans; eassumption].
Qed.

Section Pass.

Context (cfg : config) (junk_sym : Z -> sym_record) (junk : Z) (junk_flag : bool) (junk_own : own_label).
Context (files : list Z -> option (list Z)) (mnemonics : list (option sym_table)).
Context (pass_count : Z) (last_pass dump_code : bool) (Hpass : 0 < pass_count < 256).

Lemma report_settled line n error filename lp p p' : report_error line n error filename lp p = Ok p' ->
  settled (p_g p) (p_g p') /\ (Z.land error WARNING_ONLY = 0 -> g_errors (p_g p') = g_errors (p_g p) + 1).
Proof.
  unfold report_error, print_error. intros H. res_inv. destruct a as [r counts]. res_inv.
  assert (Hs : settled (p_g p) (g_with_errors (g_errors (p_g p) + 1) (p_g p)))
    by (split; cbn; try lia; auto).
  destruct (truthy (Z.land error WARNING_ONLY)) eqn:Ew; cbn [andb negb] in E.
  - assert (Hn : Z.land error WARNING_ONLY = 0 -> False) by (intros Z0; rewrite Z0 in Ew; discriminate).
    split; [|intros Z0; contradiction (Hn Z0)].
    destruct lp; cbn in E; res_inv; cbn; try exact Hs; reflexivity.
  - destruct lp; cbn in E; res_inv; cbn; auto.
Qed.

Lemma line_settled line path g e include g' :
  source_line cfg junk_sym junk junk_flag junk_own files mnemonics pass_count last_pass dump_code line path g =
    Ok (e, include, g') ->
  (heap_wf (g_syms g) -> heap_wf (g_syms g')) /\ g_defined g <= g_defined g' /\ g_redefined g <= g_redefined g' /\
  g_errors g' = g_errors g /\ (e <> SYM_INCONSISTENT -> stable g g').
Proof.
  unfold source_line. intros H. res_inv. destruct a as [[] g1]. res_inv.
  destruct (keeps_source_line _ _ _ _ _ _ _ _ _ _ Hpass _ _ _ _ _ E) as (W & D & R & Ee & S).
  split; [exact W|]. split; [exact D|]. split; [exact R|]. split; [exact Ee|]. intros He.
  transitivity (g_with_include None g); [apply stable_same; same|apply S; exact He].
Qed.

Lemma code_lines_settled fuel : forall filename path file n p p',
  code_lines cfg junk_sym junk junk_flag junk_own files mnemonics pass_count last_pass dump_code fuel filename path file n p
    = Ok p' -> settled (p_g p) (p_g p').
Proof.
  induction fuel as [|fuel IH]; intros filename path file n p p' H; [discriminate|]. cbn [code_lines] in H.
  case_test_in H; [res_inv; reflexivity|]. destruct (input_line file LINE_LENGTH) as [line file'].
  res_inv. destruct a as [[e include] g1]. cbn [fst snd] in H.
  destruct (line_settled _ _ _ _ _ _ E) as (W & D & R & Ee & S). res_inv.
  transitivity (p_g a); [|eapply IH; exact H]. clear H.
  destruct (negb (e =? eval_okay)) eqn:Eo; zbool.
  - destruct (report_settled _ _ _ _ _ _ _ E0) as [[W2 D2 R2 E2 L2] Hinc]. cbn in *.
    destruct (Z.eq_dec e SYM_INCONSISTENT) as [->|Hne].
    + specialize (Hinc eq_refl). split; [auto|lia|lia|lia|]. intros _ He. lia.
    + transitivity g1; [apply stable_settled, S; exact Hne|]. split; assumption.
  - subst e. transitivity g1; [apply stable_settled, S; discriminate|].
    destruct include as [name|]; [|res_inv; reflexivity].
    destruct (files (include_path path name)) as [text|]; [apply IH in E0; exact E0|].
    res_inv. cbn. destruct (report_settled _ _ _ _ _ _ _ E1) as [Hs _]. exact Hs.
Qed.

End Pass.

(** ** Properties *)


Section Passes.

Context (cfg : config) (junk_sym : Z -> sym_record) (junk : Z) (junk_flag : bool) (junk_own : own_label).
Context (files : list Z -> option (list Z)) (mnemonics : list (option sym_table)).
Context (fuel : nat) (filename text : list Z).

Abbreviation run_pass := (run_pass cfg junk_sym junk junk_flag junk_own files mnemonics fuel filename text).

(** The states between passes. *)
Inductive reached (g : gstate) : control -> pstate -> Prop :=
| reached_start : reached g (Control 0 false false false) (PState g false [])
| reached_pass c p p' : reached g c p -> ct_finished c = false -> run_pass c p = Ok p' ->
    reached g (decide_pass p' c) p'.

Lemma decide_more p c : ct_finished (decide_pass p c) = false ->
  ct_pass (decide_pass p c) = ct_pass c + 1 /\ ct_last c = false /\ ct_pass c <= MAX_PASSES /\ g_errors (p_g p) = 0 /\
  (ct_dump (decide_pass p c) = true -> quiet (p_g p) = true /\ g_div_zero (p_g p) = false \/ ct_dump c = true).
Proof.
  unfold decide_pass. destruct (negb (g_if_SP (p_g p) =? 0)); [discriminate|].
  destruct (Z.eqb_spec (g_errors (p_g p)) 0); cbn [negb]; [|discriminate].
  destruct (ct_last c); [discriminate|]. cbn [orb]. destruct (Z.ltb_spec MAX_PASSES (ct_pass c)); [discriminate|].
  destruct (quiet (p_g p)); cbn; intros Hf; repeat split; auto. intros Hd. left. split; [reflexivity|].
  apply negb_true_iff in Hd. exact Hd.
Qed.

Lemma decide_last p c : (ct_dump c = true -> ct_last c = true) -> ct_dump (decide_pass p c) = true ->
  ct_last (decide_pass p c) = true.
Proof.
  unfold decide_pass. destruct (negb (g_errors (p_g p) =? 0)), (ct_last c || (MAX_PASSES <? ct_pass c))%bool,
    (quiet (p_g p)), (negb (g_if_SP (p_g p) =? 0)); cbn; auto.
Qed.

Lemma reached_last g c p : reached g c p -> ct_dump c = true -> ct_last c = true.
Proof. induction 1; [discriminate|]. apply decide_last. assumption. Qed.

Lemma decide_pass_count p c : 0 <= ct_pass c <= 21 -> 0 <= ct_pass (decide_pass p c) <= 21.
Proof.
  intros Hc. unfold decide_pass. destruct (negb (g_errors (p_g p) =? 0)); [destruct (negb _); exact Hc|].
  destruct (ct_last c); [destruct (negb _); exact Hc|]. cbn [orb]. unfold MAX_PASSES.
  destruct (Z.ltb_spec 20 (ct_pass c)); [destruct (negb _); exact Hc|].
  destruct (quiet (p_g p)), (negb (g_if_SP (p_g p) =? 0)); cbn; lia.
Qed.

Lemma run_passes_bounded n : forall c p, 0 <= ct_pass c <= 21 -> ct_pass c + Z.of_nat n = 22 ->
  match run_passes cfg junk_sym junk junk_flag junk_own files mnemonics n fuel filename text c p with
  | Ok (c', p') => ct_finished c' = true /\ 0 <= ct_pass c' <= 21
  | Undef => exists c0 p0, 0 <= ct_pass c0 <= 21 /\ run_pass c0 p0 = Undef
  | NoFuel => exists c0 p0, 0 <= ct_pass c0 <= 21 /\ run_pass c0 p0 = NoFuel
  end.
Proof.
  induction n as [|n IH]; intros c p Hp Hn; cbn [run_passes]; destruct (ct_finished c) eqn:Ef; try (split; assumption); [lia|].
  destruct (run_pass c p) as [p'| |] eqn:E; cbn [rbind]; [|eauto..].
  pose proof (decide_pass_count p' c Hp) as Hc.
  destruct (ct_finished (decide_pass p' c)) eqn:Ed.
  - destruct n; cbn [run_passes]; rewrite Ed; split; assumption.
  - destruct (decide_more p' c Ed) as (E1 & _). apply IH; lia.
Qed.

(** C28: The passes end: at most 22 of them are run, so if the assembler does not finish
    it is because one pass over the source does not. *)
Theorem passes_end g :
  match assemble cfg junk_sym junk junk_flag junk_own files mnemonics fuel filename text g with
  | Ok (c, p) => ct_finished c = true /\ 0 <= ct_pass c <= 21
  | Undef => exists c p, 0 <= ct_pass c <= 21 /\ run_pass c p = Undef
  | NoFuel => exists c p, 0 <= ct_pass c <= 21 /\ run_pass c p = NoFuel
  end.
Proof. apply (run_passes_bounded 22); cbn; lia. Qed.

(** C11: Code is planted only by a pass that directly follows one without errors, without
    division by zero, and without a label defined, changed or read while undefined;
    and it is the last pass. *)
Theorem planting_pass g c p : reached g c p -> ct_finished c = false -> ct_dump c = true ->
  ct_last c = true /\ exists c0 p0, reached g c0 p0 /\ ct_finished c0 = false /\ ct_dump c0 = false /\
    run_pass c0 p0 = Ok p /\ ct_pass c = ct_pass c0 + 1 /\
    g_errors (p_g p) = 0 /\ quiet (p_g p) = true /\ g_div_zero (p_g p) = false.
Proof.
  intros Hr Hf Hd. split; [eapply reached_last; eassumption|].
  destruct Hr as [|c0 p0 p Hr Hf0 Hrun]; [discriminate|].
  destruct (decide_more p c0 Hf) as (E1 & El & _ & Ee & Hq).
  assert (Hd0 : ct_dump c0 = false).
  { destruct (ct_dump c0) eqn:E; [|reflexivity]. rewrite (reached_last _ _ _ Hr E) in El. discriminate. }
  exists c0, p0. rewrite Hd0 in *. destruct (Hq Hd) as [[? ?]|]; [|discriminate]. repeat split; assumption.
Qed.

End Passes.

(** When the labels settle on pass 20, the pass after it plants the code, and [main]
    then reports a failure: it takes the number of that pass for one too many. *)
Theorem settled_on_pass_20_is_reported p p' : g_errors (p_g p) = 0 -> quiet (p_g p) = true -> g_div_zero (p_g p) = false ->
  g_if_SP (p_g p) = 0 -> p_finished p = false -> g_errors (p_g p') = 0 -> g_if_SP (p_g p') = 0 ->
  let c1 := decide_pass p (Control 20 false false false) in
  let c2 := decide_pass p' c1 in
  ct_finished c1 = false /\ ct_dump c1 = true /\ ct_finished c2 = true /\ fed_up c2 = true.
Proof.
  intros E1 E2 E3 E4 E5 E6 E7. unfold decide_pass. rewrite E1, E2, E3, E4, E5. cbn. rewrite E6, E7. cbn. auto.
Qed.
