(* ===== verification/RvaData.v ===== *)
(** * What the directives do

    Specifications of the directives of RvaDir.v: data definitions plant the values
    and the strings on the line one after the other, alignment moves to the next
    multiple, conditions select text. *)

From S2P Require Import Prelude RvaDefs RvaLex RvaSym RvaEval RvaEncode RvaOut RvaList RvaState RvaDir.
Local Open Scope rva_scope.

(** ** Specification of a data line *)

(** The text between the delimiters of a string, and the characters it stands for. *)
Inductive string_text (d : Z) : list Z -> list Z -> Prop :=
| st_end : string_text d [] []
| st_char c t cs : c <> d -> c <> 92 -> c <> 0 -> string_text d t cs -> string_text d (c :: t) (c :: cs)
| st_escape c t cs : c <> 0 -> string_text d t cs -> string_text d (92 :: c :: t) (c_char_esc c :: cs).

(** Elements dumped one after the other from address [a]. *)
Fixpoint dump_run (f : open_files) (dump_code live : bool) (line : list Z) (size a : Z) (vs : list Z) (o : outputs)
  : res outputs :=
  match vs with
  | [] => Ok o
  | v :: vs =>
      let* o := RvaOut.byte_dump f dump_code live (u32 a) v line size o in
      dump_run f dump_code live line size (a + size) vs o
  end.

Lemma dump_run_app f dc lv line size vs ws : forall a o,
  dump_run f dc lv line size a (vs ++ ws) o =
    (let* o := dump_run f dc lv line size a vs o in
     dump_run f dc lv line size (a + size * Z.of_nat (length vs)) ws o).
Proof.
  induction vs as [|v vs IH]; intros a o; cbn [app dump_run rbind length].
  - rewrite Z.mul_0_r, Z.add_0_r. reflexivity.
  - destruct (RvaOut.byte_dump _ _ _ _ _ _ _ _) as [o1| |]; cbn [rbind]; [|reflexivity..].
    rewrite IH. destruct (dump_run _ _ _ _ _ _ vs o1); cbn [rbind]; [|reflexivity..].
    f_equal. lia.
Qed.

(** Elements can always be dumped: the buffers have room. *)
Lemma dump_run_total f dc lv text rest size vs : 0 ∉ text -> 0 <= size <= 4 -> forall a o, outputs_ok f text o ->
  exists o', dump_run f dc lv (text ++ 0 :: rest) size a vs o = Ok o' /\ outputs_ok f text o'.
Proof.
  intros Ht Hs. induction vs as [|v vs IH]; intros a o Ho; cbn [dump_run]; [eauto|].
  destruct (byte_dump_ok text rest Ht f dc lv (u32 a) v size o Ho Hs) as (o1 & -> & Ho1). apply IH, Ho1.
Qed.

Lemma dump_run_u32 f dc lv line size vs : forall a b o, u32 a = u32 b ->
  dump_run f dc lv line size a vs o = dump_run f dc lv line size b vs o.
Proof.
  induction vs as [|v vs IH]; intros a b o H; [reflexivity|]. cbn [dump_run]. rewrite H.
  destruct (RvaOut.byte_dump _ _ _ _ _ _ _ _); cbn [rbind]; [|reflexivity..]. apply IH.
  rewrite <- (u32_add_u32_l a), <- (u32_add_u32_l b), H. reflexivity.
Qed.

Section Data.

Context (cfg : config) (junk_sym : Z -> sym_record) (pass_count : Z) (dump_code : bool) (line : list Z) (my : own_label).

(** The elements of a line from [p] to [p']: [value_at] is an expression, the others
    strings; a comma follows each but the last, and lies beyond it. *)
Inductive elements (env : eval_env) : Z -> list Z -> Z -> Prop :=
| els_last p vs p' c : element env p vs p' -> zget line p' = Ok c -> c <> 44 -> elements env p vs p'
| els_more p vs p1 ws p' : element env p vs p1 -> p <= p1 -> zget line p1 = Ok 44 -> elements env (p1 + 1) ws p' ->
    elements env p (vs ++ ws) p'
with element (env : eval_env) : Z -> list Z -> Z -> Prop :=
| el_value p q c v st : skip_spc line p = Ok q -> zget line q = Ok c -> is_delimiter c = false ->
    evaluate env line q = Ok (eval_okay, v, st) -> element env p [v] (es_pos st)
| el_string p q d t cs pre post p' : skip_spc line p = Ok q -> is_delimiter d = true -> string_text d t cs ->
    line = pre ++ d :: t ++ d :: post -> q = Z.of_nat (length pre) ->
    skip_spc line (q + 1 + Z.of_nat (length t) + 1) = Ok p' -> element env p (map (fun c => u32 (s8 c)) cs) p'.

(** The outputs after planting elements from the current address on. *)
Definition plant (size : Z) (vs : list Z) (g : gstate) : res outputs :=
  dump_run (cf_files cfg) dump_code (live_of g) line size (g_pointer g + g_increment g) vs (g_out g).

(** What planting [n] elements does to the rest of the state; [p]: the new position. *)
Record planted (size : Z) (n : nat) (p : Z) (g g' : gstate) : Prop := Planted {
  pl_position : g_position g' = p;
  pl_error : g_error g' = eval_okay;
  pl_increment : u32 (g_increment g') = u32 (g_increment g + size * Z.of_nat n);
  pl_pointer : g_pointer g' = g_pointer g;
  pl_env : env_of cfg junk_sym my g' = env_of cfg junk_sym my g;
  pl_live : live_of g' = live_of g;
}.

Lemma planted_trans size n1 n2 p1 p2 g1 g2 g3 : planted size n1 p1 g1 g2 -> planted size n2 p2 g2 g3 ->
  planted size (n1 + n2) p2 g1 g3.
Proof.
  intros [] []. constructor; try congruence.
  rewrite pl_increment1, <- u32_add_u32_l, pl_increment0, u32_add_u32_l. f_equal. lia.
Qed.

(** Planting goes on where it stopped. *)
Lemma plant_app size vs ws p g g1 o : planted size (length vs) p g g1 -> plant size vs g = Ok (g_out g1) ->
  plant size (vs ++ ws) g = Ok o -> plant size ws g1 = Ok o.
Proof.
  intros [] Hv Hall. unfold plant in *. rewrite dump_run_app, Hv in Hall. cbn [rbind] in Hall.
  rewrite <- Hall, pl_live0, pl_pointer0. apply dump_run_u32.
  rewrite <- u32_add_u32_r, pl_increment0, u32_add_u32_r. f_equal. lia.
Qed.

Lemma plant_split size vs ws g o : plant size (vs ++ ws) g = Ok o -> exists o1, plant size vs g = Ok o1.
Proof. unfold plant. rewrite dump_run_app. intros H. res_inv. eauto. Qed.

Lemma dump_one size v vs g o : plant size (v :: vs) g = Ok o ->
  exists o1, dump_element cfg dump_code line v size g = Ok (tt, g_with_out o1 g) /\ plant size [v] g = Ok o1.
Proof.
  unfold plant, dump_element, dump. cbn [dump_run]. intros H. res_inv. exists a. rewrite E. split; reflexivity.
Qed.

(** ** Strings *)

Lemma char_here_at g pre c l : line = pre ++ c :: l -> g_position g = Z.of_nat (length pre) -> char_here line g = Ok (c, g).
Proof. intros Hl Hp. unfold char_here. rewrite Hl at 1. rewrite Hp, zget_mid by reflexivity. reflexivity. Qed.

(** A character is dumped, counted and stepped over. *)
Lemma plant_char size c' cs g o : g_error g = eval_okay -> plant size (c' :: cs) g = Ok o ->
  exists g1, (forall k : G bool, (do& dump_element cfg dump_code line c' size in do& count_element size in
                                  do& step_on in k) g = k g1) /\
    plant size [c'] g = Ok (g_out g1) /\ planted size 1 (g_position g + 1) g g1.
Proof.
  intros He Ho. destruct (dump_one _ _ _ _ _ Ho) as (o1 & E1 & E2). eexists. split.
  { intros k. rewrite (gbind_step _ _ _ _ _ E1). reflexivity. }
  split; [exact E2|]. constructor; try reflexivity; [exact He|]. cbn. rewrite u32_u32. f_equal. lia.
Qed.

Lemma planted_nil size p g : g_error g = eval_okay -> p = g_position g -> planted size 0 p g g.
Proof. intros He ->. constructor; try reflexivity; [exact He|]. f_equal. lia. Qed.

(** The rest of a string after a character of it was planted. *)
Lemma string_rest size c' cs n g g1 o (m : G bool) k : plant size (c' :: cs) g = Ok o ->
  planted size 1 n g g1 -> plant size [c'] g = Ok (g_out g1) ->
  (plant size cs g1 = Ok o -> exists g', m g1 = Ok (false, g') /\ g_out g' = o /\ planted size (length cs) k g1 g') ->
  exists g', m g1 = Ok (false, g') /\ g_out g' = o /\ planted size (S (length cs)) k g g'.
Proof.
  intros Ho H1 E1 Hm. destruct Hm as (g' & E & Eo & H2); [apply (plant_app size [c'] cs n g g1 o); assumption|].
  exists g'. split; [exact E|]. split; [exact Eo|]. apply (planted_trans _ 1 _ _ _ _ _ _ H1 H2).
Qed.

Lemma define_string_plants d t cs size : string_text d t cs -> d <> 92 -> forall fuel pre post g o,
  line = pre ++ t ++ d :: post -> g_position g = Z.of_nat (length pre) -> g_error g = eval_okay ->
  (length t < fuel)%nat -> plant size (map (fun c => u32 (s8 c)) cs) g = Ok o ->
  exists g', define_string cfg true dump_code line fuel d size g = Ok (false, g') /\ g_out g' = o /\
    planted size (length (map (fun c => u32 (s8 c)) cs)) (Z.of_nat (length pre + length t)) g g'.
Proof.
  intros Ht Hd92. induction Ht as [|c t cs Hd H92 H0 Ht IH|c t cs H0 Ht IH]; intros fuel pre post g o Hl Hp He Hf Ho;
    (destruct fuel as [|fuel]; [simpl in Hf; lia|]); cbn [define_string].
  - rewrite (gbind_step _ _ _ _ _ (char_here_at g pre d post Hl Hp)), Z.eqb_refl. exists g. cbn in Ho.
    split; [reflexivity|]. split; [congruence|]. apply planted_nil; [exact He|simpl; lia].
  - rewrite (gbind_step _ _ _ _ _ (char_here_at g pre c (t ++ d :: post) Hl Hp)).
    replace (c =? d) with false by (symmetry; apply Z.eqb_neq; exact Hd).
    replace (c =? 92) with false by (symmetry; apply Z.eqb_neq; exact H92).
    rewrite (gbind_step _ _ _ tt g eq_refl), (gbind_step _ _ _ _ _ (char_here_at g pre c (t ++ d :: post) Hl Hp)).
    replace (c =? 0) with false by (symmetry; apply Z.eqb_neq; exact H0).
    destruct (plant_char _ _ _ _ _ He Ho) as (g1 & E1 & Ep & H1). rewrite E1.
    apply (string_rest size _ _ _ g g1 o _ _ Ho H1 Ep). intros Ho1.
    replace (length pre + length (c :: t))%nat with (length (pre ++ [c]) + length t)%nat by (rewrite length_app; simpl; lia).
    eapply (IH fuel (pre ++ [c]) post); [rewrite Hl, <- app_assoc; reflexivity| |apply H1|simpl in Hf; lia|exact Ho1].
    destruct H1. rewrite length_app. simpl. lia.
  - rewrite (gbind_step _ _ _ _ _ (char_here_at g pre 92 ((c :: t) ++ d :: post) Hl Hp)).
    replace (92 =? d) with false by (symmetry; apply Z.eqb_neq; congruence). rewrite Z.eqb_refl.
    set (gs := g_with_position (g_position g + 1) g).
    rewrite (gbind_step _ _ _ tt gs eq_refl).
    assert (Hl2 : line = (pre ++ [92]) ++ c :: t ++ d :: post) by (rewrite Hl, <- app_assoc; reflexivity).
    assert (Hp2 : g_position gs = Z.of_nat (length (pre ++ [92]))) by (rewrite length_app; simpl; lia).
    rewrite (gbind_step _ _ _ _ _ (char_here_at gs _ c _ Hl2 Hp2)).
    replace (c =? 0) with false by (symmetry; apply Z.eqb_neq; exact H0).
    assert (Hos : plant size (u32 (s8 (c_char_esc c)) :: map (fun c => u32 (s8 c)) cs) gs = Ok o) by exact Ho.
    destruct (plant_char _ _ _ gs _ He Hos) as (g1 & E1 & Ep & H1). rewrite E1.
    assert (Hg : exists g', define_string cfg true dump_code line fuel d size g1 = Ok (false, g') /\ g_out g' = o /\
      planted size (S (length (map (fun c => u32 (s8 c)) cs))) (Z.of_nat (length (pre ++ [92; c]) + length t)) gs g').
    { apply (string_rest size _ _ _ gs g1 o _ _ Hos H1 Ep). intros Ho1.
      eapply (IH fuel (pre ++ [92; c]) post); [rewrite Hl, <- app_assoc; reflexivity| |apply H1|simpl in Hf; lia|exact Ho1].
      destruct H1. rewrite length_app. simpl in *. lia. }
    destruct Hg as (g' & E & Eo & []). exists g'. split; [exact E|]. split; [exact Eo|]. constructor; try assumption.
    rewrite pl_position0, length_app. simpl. lia.
Qed.

(** ** Elements *)

Lemma skip_blanks_at g q : skip_spc line (g_position g) = Ok q -> skip_blanks line g = Ok (tt, g_with_position q g).
Proof. intros H. unfold skip_blanks. rewrite H. reflexivity. Qed.

Lemma delimiter_not_escape d : is_delimiter d = true -> d <> 92.
Proof. unfold is_delimiter. intros H ->. discriminate. Qed.

Lemma element_plants size p vs p' g o : element (env_of cfg junk_sym my g) p vs p' -> g_position g = p ->
  g_error g = eval_okay -> plant size vs g = Ok o ->
  exists g', define_element cfg junk_sym pass_count true dump_code line my size g = Ok (false, g') /\ g_out g' = o /\
    planted size (length vs) p' g g'.
Proof.
  intros Hel Hp He Ho. unfold define_element.
  destruct Hel as [p q c v st Hs Hc Hd Hv|p q d t cs pre post p' Hs Hd Ht Hl Hq Hs2]; rewrite <- Hp in Hs;
    rewrite (gbind_step _ _ _ _ _ (skip_blanks_at g q Hs)); set (g1 := g_with_position q g).
  - assert (E1 : char_here line g1 = Ok (c, g1)) by (unfold char_here, g1; cbn; rewrite Hc; reflexivity).
    rewrite (gbind_step _ _ _ _ _ E1), Hd. unfold define_value.
    set (g2 := g_with_error eval_okay (g_with_position (es_pos st) (g_with_undefined (g_undefined g + es_undefined st)
      (g_with_div_zero (g_div_zero g || es_div_zero st) g1)))).
    assert (E2 : g_evaluate cfg junk_sym line my g1 = Ok (v, g2)) 
      by (unfold g_evaluate; change (env_of cfg junk_sym my g1) with (env_of cfg junk_sym my g);
          change (g_position g1) with q; rewrite Hv; reflexivity).
    rewrite (gbind_step _ _ _ _ _ E2). destruct (dump_one size v [] g2 o Ho) as (o1 & E3 & E4).
    assert (o1 = o) as -> by (change (plant size [v] g2) with (plant size [v] g) in E4; congruence).
    rewrite (gbind_step _ _ g2 eval_okay g2 eq_refl). cbn [Z.eqb eval_okay SYM_NO_ERROR orb andb].
    rewrite (gbind_step _ _ _ _ _ E3). eexists. split; [reflexivity|]. split; [reflexivity|].
    constructor; try reflexivity. cbn. rewrite u32_u32. f_equal. lia.
  - assert (E1 : char_here line g1 = Ok (d, g1)) by (apply (char_here_at g1 pre d (t ++ d :: post)); [exact Hl|exact Hq]).
    rewrite (gbind_step _ _ _ _ _ E1), Hd. set (g2 := g_with_position (q + 1) g1).
    rewrite (gbind_step _ _ _ tt g2 eq_refl).
    destruct (define_string_plants d t cs size Ht (delimiter_not_escape d Hd) (S (length line)) (pre ++ [d]) post g2 o)
      as (g3 & E3 & Eo & []); [rewrite Hl, <- app_assoc; reflexivity|cbn; rewrite length_app; simpl; lia|exact He
      |rewrite Hl, !length_app; simpl; rewrite length_app; lia|exact Ho|].
    rewrite (gbind_step _ _ _ _ _ E3). set (g4 := g_with_position (g_position g3 + 1) g3).
    assert (E5 : (do& step_on in skip_blanks line) g3 = Ok (tt, g_with_position p' g4)).
    { rewrite (gbind_step _ _ _ tt g4 eq_refl). apply skip_blanks_at. change (g_position g4) with (g_position g3 + 1).
      rewrite pl_position0, <- Hs2, Hq. f_equal. rewrite length_app. simpl. lia. }
    rewrite (gbind_step _ _ _ _ _ E5). eexists. split; [reflexivity|]. split; [exact Eo|].
    constructor; try assumption. reflexivity.
Qed.

Lemma skip_spc_range p q : skip_spc line p = Ok q -> 0 <= p < Z.of_nat (length line).
Proof. intros H. unfold skip_spc in H. cbn [skip_spc_loop] in H. res_inv. eapply zget_range. exact E. Qed.

Lemma element_range env p vs p' : element env p vs p' -> 0 <= p < Z.of_nat (length line).
Proof. intros []; eapply skip_spc_range; eassumption. Qed.

Lemma elements_range env p vs p' : elements env p vs p' -> 0 <= p < Z.of_nat (length line).
Proof. intros []; eapply element_range; eassumption. Qed.

Lemma elements_plant size p vs p' env : elements env p vs p' -> forall fuel g o,
  env = env_of cfg junk_sym my g -> g_position g = p -> g_error g = eval_okay -> plant size vs g = Ok o ->
  (length line <= fuel + Z.to_nat p)%nat ->
  exists g', define_elements cfg junk_sym pass_count true dump_code line my fuel size g = Ok (tt, g') /\ g_out g' = o /\
    planted size (length vs) p' g g'.
Proof.
  induction 1 as [p vs p' c Hel Hc Hne|p vs p1 ws p' Hel Hle Hc Hrest IH]; intros fuel g o -> Hp He Ho Hf;
    pose proof (element_range _ _ _ _ Hel); (destruct fuel as [|fuel]; [lia|]); cbn [define_elements].
  - destruct (element_plants size p vs p' g o Hel Hp He Ho) as (g1 & E1 & Eo & H1).
    rewrite (gbind_step _ _ _ _ _ E1).
    assert (E2 : char_here line g1 = Ok (c, g1)) by (unfold char_here; destruct H1; rewrite pl_position0, Hc; reflexivity).
    rewrite (gbind_step _ _ _ _ _ E2). replace (c =? 44) with false by (symmetry; apply Z.eqb_neq; exact Hne).
    exists g1. auto.
  - destruct (plant_split _ _ _ _ _ Ho) as [o1 Ho1].
    destruct (element_plants size p vs p1 g o1 Hel Hp He Ho1) as (g1 & E1 & Eo & H1).
    rewrite (gbind_step _ _ _ _ _ E1).
    assert (E2 : char_here line g1 = Ok (44, g1)) by (unfold char_here; destruct H1; rewrite pl_position0, Hc; reflexivity).
    rewrite (gbind_step _ _ _ _ _ E2), Z.eqb_refl. set (g2 := g_with_position (g_position g1 + 1) g1).
    rewrite (gbind_step _ _ _ tt g2 eq_refl). rewrite <- Eo in Ho1.
    pose proof (plant_app size vs ws p1 g g1 o H1 Ho1 Ho) as Ho2. destruct H1.
    destruct (IH fuel g2 o) as (g' & E & Eo' & H2);
      [symmetry; exact pl_env0|cbn; lia|exact pl_error0|exact Ho2|lia|].
    exists g'. split; [exact E|]. split; [exact Eo'|]. rewrite length_app.
    apply (planted_trans size _ _ (p1 + 1) p' g g2 g'); [constructor; try assumption; cbn; lia|exact H2].
Qed.

(** ** Properties *)


(** *** Space *)

Lemma okay_step {X} (f : bool -> G X) g : g_error g = eval_okay -> gbind okay f g = f true g.
Proof. intros H. unfold gbind, okay, gets. cbn [rbind]. rewrite H. reflexivity. Qed.

Lemma allow_okay fp lp g : g_error g = eval_okay -> allow fp lp g = Ok (tt, g).
Proof.
  intros H. unfold allow. case_test; [|reflexivity]. unfold fail_with, modify. rewrite <- H. destruct g. reflexivity.
Qed.

Lemma fill_bytes_plants n fill : forall i g o,
  dump_run (cf_files cfg) dump_code (live_of g) line 1 (g_pointer g + i) (repeat (Z.land fill 0xFF) n) (g_out g) = Ok o ->
  fill_bytes cfg dump_code line n i fill g = Ok (tt, g_with_out o g).
Proof.
  induction n as [|n IH]; intros i g o H; cbn [fill_bytes repeat dump_run] in *.
  - injection H as <-. destruct g. reflexivity.
  - res_inv. unfold gbind at 1, dump. rewrite E. cbn [rbind]. rewrite <- Z.add_assoc in H.
    rewrite (IH (i + 1) (g_with_out a g) o H). destruct g. reflexivity.
Qed.

(** The fill value is evaluated with the comma behind it. *)
Lemma fill_space_plants count fill g g1 o : 
  g_evaluate cfg junk_sym line my (g_with_position (g_position g + 1) g) = Ok (fill, g1) -> g_error g1 = eval_okay ->
  dump_run (cf_files cfg) dump_code (live_of g1) line 1 (g_pointer g1) (repeat (Z.land fill 0xFF) (Z.to_nat count)) (g_out g1)
    = Ok o ->
  fill_space cfg junk_sym pass_count true dump_code line my count g = Ok (tt, g_with_out o g1).
Proof.
  intros E He Ho. unfold fill_space.
  rewrite (gbind_step _ _ _ tt (g_with_position (g_position g + 1) g) eq_refl), (gbind_step _ _ _ _ _ E).
  rewrite (gbind_step _ _ _ _ _ (allow_okay _ _ _ He)), okay_step by exact He. cbn [andb]. apply fill_bytes_plants. rewrite Z.add_0_r. exact Ho.
Qed.

(** What the evaluation of an operand leaves alone. *)
Lemma evaluate_frame g v g1 : g_evaluate cfg junk_sym line my g = Ok (v, g1) ->
  g_pointer g1 = g_pointer g /\ live_of g1 = live_of g /\ g_out g1 = g_out g /\ g_ifs g1 = g_ifs g /\
  g_if_SP g1 = g_if_SP g /\ g_pointer_defined g1 = g_pointer_defined g.
Proof. unfold g_evaluate. intros H. res_inv. destruct a as [[e x] st]. res_inv. repeat split. Qed.

(** DEFS with a fill value, on the last pass: the low byte of the value is planted as
    often as the first operand says, and the pointer moves past the space. *)
Theorem fill_definition_plants n fill g g1 g2 o :
  g_evaluate cfg junk_sym line my g = Ok (n, g1) -> g_error g1 = eval_okay -> zget line (g_position g1) = Ok 44 ->
  g_evaluate cfg junk_sym line my (g_with_position (g_position g1 + 1) g1) = Ok (fill, g2) -> g_error g2 = eval_okay ->
  dump_run (cf_files cfg) dump_code (live_of g) line 1 (g_pointer g) (repeat (Z.land fill 0xFF) (Z.to_nat n)) (g_out g)
    = Ok o ->
  exists g', directive_defs cfg junk_sym pass_count true dump_code line my g = Ok (tt, g') /\ g_out g' = o /\
    g_error g' = eval_okay /\ g_pointer g' = if live_of g then u32 (g_pointer g + n) else g_pointer g.
Proof.
  intros E1 He1 Hc E2 He2 Ho.
  destruct (evaluate_frame _ _ _ E1) as (P1 & L1 & O1 & _). destruct (evaluate_frame _ _ _ E2) as (P2 & L2 & O2 & _).
  cbn in P2, O2. change (live_of (g_with_position _ g1)) with (live_of g1) in L2.
  unfold directive_defs. rewrite (gbind_step _ _ _ _ _ E1).
  rewrite (gbind_step _ _ _ _ _ (allow_okay _ _ _ He1)). unfold when_okay. rewrite okay_step by exact He1.
  assert (Ech : char_here line g1 = Ok (44, g1)) by (unfold char_here; rewrite Hc; reflexivity).
  rewrite (gbind_step _ _ _ _ _ Ech). cbn [Z.eqb Pos.eqb].
  assert (Ef : fill_space cfg junk_sym pass_count true dump_code line my n g1 = Ok (tt, g_with_out o g2))
    by (apply (fill_space_plants n fill); [exact E2|exact He2|rewrite L2, L1, P2, P1, O2, O1; exact Ho]).
  rewrite (gbind_step _ _ _ _ _ Ef), okay_step by exact He2.
  eexists. split; [reflexivity|]. change (live_of (g_with_out o g2)) with (live_of g2). rewrite L2, L1.
  destruct (live_of g); cbn; rewrite ?P2, ?P1; auto.
Qed.

(** *** Alignment *)

(** [align_gap] wraps around at zero: there it is only right for divisors of 2^32. *)
Lemma align_gap_least p n : 0 <= p < 2 ^ 32 -> 0 < n < 2 ^ 32 -> 0 < p \/ (n | 2 ^ 32) -> align_gap p n = (- p) mod n.
Proof.
  intros Hp Hn Hc. unfold align_gap. replace (n =? 0) with false by (symmetry; apply Z.eqb_neq; lia).
  assert (Hq : u32 (p - 1) mod n = (p - 1) mod n).
  { destruct (Z.eq_dec p 0) as [->|]; [|unfold u32; rewrite (Z.mod_small (p - 1)) by lia; reflexivity].
    destruct Hc as [|Hd]; [lia|]. unfold u32. apply Z.mod_mod_divide. exact Hd. }
  pose proof (Z.mod_pos_bound (p - 1) n ltac:(lia)) as Hb. rewrite Hq. unfold u32. rewrite Z.mod_small by lia.
  apply (Z.mod_unique_pos _ _ (- ((p - 1) / n) - 1)); [lia|].
  pose proof (Z.div_mod (p - 1) n ltac:(lia)). lia.
Qed.

(** ALIGN without a fill value and without a label: the pointer moves up to the next
    multiple of the operand, and stays where it is if it is at one. At address zero
    this needs a divisor of 2^32. *)
Theorem align_moves_to_multiple n g g1 c : g_evaluate cfg junk_sym line my g = Ok (n, g1) -> g_error g1 = eval_okay ->
  zget line (g_position g1) = Ok c -> c <> 44 -> ol_sort my = NO_LABEL ->
  0 <= g_pointer g < 2 ^ 32 -> 0 < n < 2 ^ 32 -> 0 < g_pointer g \/ (n | 2 ^ 32) ->
  exists g', do_align cfg junk_sym pass_count true dump_code line my g = Ok (tt, g') /\ g_error g' = eval_okay /\
    g_pointer g' = if live_of g then u32 (g_pointer g + (- g_pointer g) mod n) else g_pointer g.
Proof.
  intros E He Hc Hne Hno Hp Hn Hd. destruct (evaluate_frame _ _ _ E) as (P1 & L1 & _).
  unfold do_align. rewrite (gbind_step _ _ _ _ _ E), (gbind_step _ _ _ _ _ (eq_refl : gets g_error g1 = Ok (g_error g1, g1))), He.
  rewrite (gbind_step (if Z.land eval_okay 0xFFFFFF00 =? eval_no_operand then _ else _) _ g1 n g1 eq_refl).
  rewrite okay_step by exact He. cbn [negb].
  rewrite (gbind_step _ _ _ _ _ (eq_refl : gets g_pointer g1 = Ok (g_pointer g1, g1))), P1.
  assert (Ech : char_here line g1 = Ok (c, g1)) by (unfold char_here; rewrite Hc; reflexivity).
  rewrite (gbind_step _ _ _ _ _ Ech). replace (c =? 44) with false by (symmetry; apply Z.eqb_neq; exact Hne).
  rewrite align_gap_least by assumption. set (gap := (- g_pointer g) mod n).
  set (m := do& start_listing cfg _ in _).
  assert (Em : exists g2, m g1 = Ok (tt, g2) /\ g_error g2 = eval_okay /\ g_pointer g2 = g_pointer g /\ live_of g2 = live_of g).
  { unfold m, start_listing, new_section. unfold gbind at 1, modify. cbn [rbind].
    destruct (gap =? 0), (f_list (cf_files cfg)); (eexists; split; [reflexivity|]); rewrite <- L1, <- P1, <- He;
      repeat split; reflexivity. }
  destruct Em as (g2 & Em & He2 & P2 & L2). rewrite (gbind_step _ _ _ _ _ Em), okay_step by exact He2. cbn [negb].
  rewrite (gbind_step _ _ _ _ _ (eq_refl : gets g_pointer_defined g2 = Ok (g_pointer_defined g2, g2))).
  assert (El : forall v d, assemble_redef_label pass_count true v d my 0 g2 = Ok (tt, g2)).
  { intros v d. unfold assemble_redef_label, label_get, gbind. rewrite Hno. reflexivity. }
  rewrite (gbind_step _ _ _ _ _ (El _ _)). eexists. split; [reflexivity|]. cbn beta. rewrite L2.
  destruct (live_of g); cbn; rewrite ?P2; split; try assumption; reflexivity.
Qed.

(** At address zero with another operand it goes wrong. *)
Example align_at_zero : align_gap 0 3 = 2 /\ (- 0) mod 3 = 0.
Proof. split; reflexivity. Qed.

(** REC_ALIGN always moves on by at least one byte: from a multiple it skips a whole
    unit, which ALIGN does not. *)
Theorem record_align_skips data n : 0 <= data -> 0 < n -> data + n < 2 ^ 32 ->
  (n | record_align data n) /\ data < record_align data n <= data + n /\
  ((n | data) -> record_align data n = data + n).
Proof.
  intros Hd Hn Hs. unfold record_align. replace (n =? 0) with false by (symmetry; apply Z.eqb_neq; lia).
  pose proof (Z.mod_pos_bound data n Hn). pose proof (Z.div_mod data n ltac:(lia)).
  assert (Hm : data mod n <= data) by (apply Z.mod_le; lia).
  unfold u32. rewrite Z.mod_small by lia. split; [exists (data / n + 1); lia|]. split; [lia|].
  intros Hdv. apply Z.mod_divide in Hdv; lia.
Qed.

(** *** Conditions *)

Lemma not32_truthy v : 0 <= v < 2 ^ 32 -> truthy (not32 v) = negb (v =? 0xFFFFFFFF).
Proof.
  intros Hv. unfold truthy, not32. f_equal. apply eq_true_iff_eq. rewrite !Z.eqb_eq. lia.
Qed.

(** IF, ELSE and ENDIF around text: the first part is assembled when the condition is
    not zero, the second when it is not 0xFFFFFFFF, so for other values both are; the
    text after is treated as that before. The condition of an IF around these does
    not matter. *)
Theorem if_else_endif v g g1 : g_evaluate cfg junk_sym line my g = Ok (v, g1) -> g_error g1 = eval_okay ->
  0 <= v < 2 ^ 32 -> 0 <= g_if_SP g < IF_STACK_SIZE -> length (g_ifs g) = Z.to_nat (IF_STACK_SIZE + 1) ->
  exists g2 g3 g4, directive_if cfg junk_sym line my g = Ok (tt, g2) /\ live_of g2 = negb (v =? 0) /\
    directive_else g2 = Ok (tt, g3) /\ live_of g3 = negb (v =? 0xFFFFFFFF) /\
    directive_fi g3 = Ok (tt, g4) /\ live_of g4 = live_of g /\ g_if_SP g4 = g_if_SP g.
Proof.
  intros E He Hv Hsp Hl. destruct (evaluate_frame _ _ _ E) as (_ & L1 & _ & I1 & S1 & _).
  unfold IF_STACK_SIZE in *. set (sp := g_if_SP g) in *.
  assert (Eif : exists s, zupd (g_ifs g1) (sp + 1) v = Ok s).
  { unfold zupd. rewrite I1. case_test; zbool; [eauto|lia]. }
  destruct Eif as [s Es]. pose proof (zupd_length _ _ _ _ Es) as Ls. rewrite I1, Hl in Ls.
  assert (Eel : exists s', zupd s (sp + 1) (not32 v) = Ok s').
  { unfold zupd. case_test; zbool; [eauto|lia]. }
  destruct Eel as [s' Es']. exists (g_with_ifs s (g_with_if_SP (sp + 1) g1)), (g_with_ifs s' (g_with_if_SP (sp + 1) g1)),
    (g_with_ifs s' (g_with_if_SP sp g1)).
  split; [|split; [|split; [|split; [|split; [|split]]]]].
  - unfold directive_if. rewrite (gbind_step _ _ _ _ _ (eq_refl : gets g_if_SP g = Ok (sp, g))).
    unfold IF_STACK_SIZE. replace (10 <=? sp) with false by (symmetry; apply Z.leb_gt; lia).
    rewrite (gbind_step _ _ _ _ _ E), (gbind_step _ _ _ _ _ (eq_refl : gets g_error g1 = Ok (g_error g1, g1))), He.
    rewrite (gbind_step _ _ _ _ _ (eq_refl : gret v g1 = Ok (v, g1))), Es. reflexivity.
  - unfold live_of. cbn. rewrite (znth_zupd_eq _ _ _ _ _ Es). reflexivity.
  - unfold directive_else. cbn [g_if_SP g_with_ifs g_with_if_SP g_ifs].
    replace (0 <? sp + 1) with true by (symmetry; apply Z.ltb_lt; lia).
    assert (Et : zget s (sp + 1) = Ok v).
    { pose proof Es as Es0. unfold zupd in Es0. case_test_in Es0; zbool; [|discriminate]. injection Es0 as <-.
      unfold zget. replace (sp + 1 <? 0) with false by (symmetry; apply Z.ltb_ge; lia).
      rewrite list_lookup_insert_eq; [reflexivity|lia]. }
    rewrite Et. cbn [rbind]. rewrite Es'. reflexivity.
  - unfold live_of. cbn. rewrite (znth_zupd_eq _ _ _ _ _ Es'). apply not32_truthy. exact Hv.
  - unfold directive_fi. cbn [g_if_SP g_with_ifs g_with_if_SP].
    replace (0 <? sp + 1) with true by (symmetry; apply Z.ltb_lt; lia). unfold g_with_if_SP at 1. cbn.
    replace (sp + 1 - 1) with sp by lia. reflexivity.
  - unfold live_of. cbn. fold sp. f_equal.
    rewrite (znth_zupd_ne _ _ _ _ _ _ Es'), (znth_zupd_ne _ _ _ _ _ _ Es), I1 by lia. reflexivity.
  - reflexivity.
Qed.

End Data.
