(* ===== verification/RvaMain.v ===== *)
(** * The assembler program: tools/assembler/rva.c, lines 519-660, 772-1025 and 1046-1105

    What surrounds the passes: the built-in tables, the mnemonic file, the command line
    and the files written at the end. [main] takes the arguments and the file system
    and gives the exit status and what was written. Standard output, where messages
    go, is not modelled beyond the reports of RvaPass.v. *)

From S2P Require Import Prelude RvaDefs RvaLex RvaSym RvaEval RvaEncode RvaOut RvaElf RvaText RvaState RvaDir RvaLine RvaPass.
From Stdlib Require Import Ascii String.
From stdpp Require Import strings.
Local Open Scope string_scope.
Local Open Scope list_scope.
Local Open Scope Z_scope.

(** ** Messages *)

(* tools/assembler/rva.c:65-65 SYM_DEF_TWICE *)
Definition SYM_DEF_TWICE : Z := 0x0A00.
(* tools/assembler/rva.c:82-82 SYM_NO_LABELS *)
Definition SYM_NO_LABELS : Z := Z.lor 0x1B00 WARNING_ONLY.
(* tools/assembler/rva.c:89-89 SYM_VAR_INCONSISTENT *)
Definition SYM_VAR_INCONSISTENT : Z := 0x2200.
(* tools/assembler/rva.c:90-90 SYM_NO_IDENTIFIER *)
Definition SYM_NO_IDENTIFIER : Z := 0x2300.
(* tools/assembler/rva.c:94-94 SYM_NO_HASH *)
Definition SYM_NO_HASH : Z := 0x2700.
(* tools/assembler/rva.c:96-96 SYM_ADRL_PC *)
Definition SYM_ADRL_PC : Z := 0x2900.
(* tools/assembler/rva.c:97-97 SYM_ERR_NO_SHFT *)
Definition SYM_ERR_NO_SHFT : Z := 0x2A00.
(* tools/assembler/rva.c:98-98 SYM_NO_REG_HASH *)
Definition SYM_NO_REG_HASH : Z := 0x2B00.

(* tools/assembler/rva.c:1046-1105 print_error *)
Definition error_messages : list (Z * string) := [
  (SYM_ERR_SYNTAX, "Syntax error");
  (SYM_ERR_NO_MNEM, "Mnemonic not found");
  (SYM_ERR_NO_EQU, "Label missing");
  (SYM_BAD_REG, "Bad register");
  (SYM_NO_COMMA_LBR, "'[' (or base register) expected");
  (SYM_OORANGE, "Value out of range");
  (SYM_ENDLESS_STRING, "String unterminated");
  (SYM_DEF_TWICE, "Label redefined");
  (SYM_NO_COMMA, "',' expected");
  (SYM_GARBAGE, "Garbage");
  (SYM_ERR_NO_EXPORT, "Exported label not defined");
  (SYM_INCONSISTENT, "Label redefined inconsistently");
  (SYM_ERR_NO_FILENAME, "Filename missing");
  (SYM_NO_LBR, "'[' expected");
  (SYM_NO_RBR, "']' expected");
  (SYM_ADDR_MODE_ERR, "Error in addressing mode");
  (SYM_OFFSET_TOO_BIG, "Offset out of range");
  (SYM_BAD_VARIANT, "Instruction not available");
  (SYM_NO_LABELS, "No labels! Position uncertain");
  (SYM_DOUBLE_ENTRY, "Entry already defined");
  (SYM_NO_INCLUDE, "Include file missing");
  (SYM_MISALIGNED, "Offset misaligned");
  (SYM_OORANGE_BRANCH, "Branch out of range");
  (SYM_UNALIGNED_BRANCH, "Branch to misaligned target");
  (SYM_VAR_INCONSISTENT, "Variable redefined inconsistently");
  (SYM_NO_IDENTIFIER, "Identifier expected");
  (SYM_MANY_IFS, "Too many nested IFs");
  (SYM_MANY_FIS, "ENDIF without an IF");
  (SYM_LOST_ELSE, "Floating ELSE");
  (SYM_NO_HASH, "'#' expected");
  (SYM_NO_IMPORT, "Import file missing");
  (SYM_ADRL_PC, "Only ADR allowed with destination PC");
  (SYM_ERR_NO_SHFT, "Shift operator expected");
  (SYM_NO_REG_HASH, "'#' or register expected");
  (eval_no_operand, "Operand expected");
  (eval_no_operator, "Operator expected");
  (eval_not_closebr, "Missing ')'");
  (eval_not_openbr, "Extra ')'");
  (eval_mathstack_limit, "Math stack overflow");
  (eval_no_label, "Label not found");
  (eval_label_undef, "Label undefined");
  (eval_out_of_radix, "Number out of radix");
  (eval_div_by_zero, "Division by zero");
  (eval_operand_error, "Operand error");
  (eval_bad_loc_lab, "Bad local label");
  (eval_no_label_yet, "Label not defined before this point")].

(** What is printed for an error code. *)
(* tools/assembler/rva.c:1046-1105 print_error *)
Definition error_message (error : Z) : string :=
  match List.find (fun m => Z.eqb (fst m) (Z.land error 0xFFFFFF00)) error_messages with
  | Some (_, text) => text
  | None => "Strange error"
  end.

(** ** Tables *)

(* tools/assembler/rva.c:556-562 main *)
Definition arch_names : list (string * Z) := [("v3", 255); ("v3m", 254); ("v4", 252); ("v4xm", 253); ("v4t", 248);
  ("v4txm", 249); ("v5", 240); ("v5xm", 241); ("v5t", 240); ("v5txm", 241); ("v5te", 192); ("v5texp", 224); ("all",
  0); ("any", 0)].
(* tools/assembler/rva.c:569-580 main *)
Definition operator_names : list (string * Z) := [("and", AND); ("or", OR); ("xor", XOR); ("eor", XOR); ("shl",
  LEFT_SHIFT); ("lsl", LEFT_SHIFT); ("shr", RIGHT_SHIFT); ("lsr", RIGHT_SHIFT); ("div", DIVIDE); ("mod", MODULUS);
  ("eq", EQUALS); ("ne", NOT_EQUAL); ("lo", LOWER_THAN); ("ls", LOWER_EQUAL); ("hi", HIGHER_THAN); ("hs",
  HIGHER_EQUAL); ("lt", LESS_THAN); ("le", LESS_EQUAL); ("gt", GREATER_THAN); ("ge", GREATER_EQUAL)].
(* tools/assembler/rva.c:587-606 main *)
Definition register_names : list (string * Z) := [("x0", 0); ("x1", 1); ("x2", 2); ("x3", 3); ("x4", 4); ("x5", 5);
  ("x6", 6); ("x7", 7); ("x8", 8); ("x9", 9); ("x10", 10); ("x11", 11); ("x12", 12); ("x13", 13); ("x14", 14); ("x15",
  15); ("x16", 16); ("x17", 17); ("x18", 18); ("x19", 19); ("x20", 20); ("x21", 21); ("x22", 22); ("x23", 23); ("x24",
  24); ("x25", 25); ("x26", 26); ("x27", 27); ("x28", 28); ("x29", 29); ("x30", 30); ("x31", 31); ("zero", 0); ("ra",
  1); ("sp", 2); ("gp", 3); ("tp", 4); ("t0", 5); ("t1", 6); ("t2", 7); ("fp", 8); ("s0", 8); ("s1", 9); ("a0", 10);
  ("a1", 11); ("a2", 12); ("a3", 13); ("a4", 14); ("a5", 15); ("a6", 16); ("a7", 17); ("s2", 18); ("s3", 19); ("s4",
  20); ("s5", 21); ("s6", 22); ("s7", 23); ("s8", 24); ("s9", 25); ("s10", 26); ("s11", 27); ("t3", 28); ("t4", 29);
  ("t5", 30); ("t6", 31)].
(* tools/assembler/rva.c:614-615 main *)
Definition shift_names : list (string * Z) := [("lsl", 0); ("asl", 0); ("lsr", 1); ("asr", 2); ("ror", 3); ("rrx",
  7)].

Section Main.

Context (junk_sym : Z -> sym_record).

(* tools/assembler/rva.c:526-531 build_table *)
Fixpoint add_names (names : list (string * Z)) (t : sym_table) (h : sym_heap) : res (sym_table * sym_heap) :=
  match names with
  | [] => Ok (t, h)
  | (name, value) :: names =>
      let* (_, _, t, h) := sym_define_label junk_sym (chars name) value 0 t h in add_names names t h
  end.

(* tools/assembler/rva.c:518-532 build_table *)
Definition build_table (name : string) (flags : Z) (names : list (string * Z)) (h : sym_heap) : res (sym_table * sym_heap) :=
  add_names names (sym_create_table (chars name) flags) h.

(** The lines of the mnemonic file; a line that is in error is reported and skipped. *)
(* tools/assembler/rva.c:635-641 main *)
Fixpoint read_mnemonics (fuel : nat) (file : stream) (t : mnemonic_tables) : res mnemonic_tables :=
  match fuel with
  | O => NoFuel
  | S fuel =>
      if st_eof file then Ok t
      else
        let '(line, file) := input_line file LINE_LENGTH in
        let* (_, t) := parse_mnemonic_line junk_sym line t in
        read_mnemonics fuel file t
  end.

(** All the tables a pass needs, the store they are in, and the list searched for
    mnemonics. *)
Record tables : Type := Tables {
  tb_config : config; tb_registers : sym_table; tb_symbols : sym_table; tb_mnemonics : list (option sym_table);
  tb_heap : sym_heap;
}.

(** [None]: the mnemonic file cannot be read, so the list of mnemonics stays empty and
    nothing is assembled. *)
(* tools/assembler/rva.c:555-657 main *)
Definition build_tables (f : open_files) (mnemonics : list Z) : res tables :=
  let h := SymHeap ∅ 1 in
  let* (arch, h) := build_table "Architectures" SYM_TAB_CASE_FLAG arch_names h in
  let* (operators, h) := build_table "Operators" SYM_TAB_CASE_FLAG operator_names h in
  let* (registers, h) := build_table "Registers" SYM_TAB_CASE_FLAG register_names h in
  let* (_, h) := build_table "Shifts" SYM_TAB_CASE_FLAG shift_names h in
  let* m := read_mnemonics (S (S (length mnemonics))) (Stream mnemonics false)
    (MnemonicTables (sym_create_table (chars "RV32 Mnemonics") SYM_TAB_CASE_FLAG)
       (sym_create_table (chars "CSR Addresses") 0) (sym_create_table (chars "Directives") SYM_TAB_CASE_FLAG) h) in
  Ok (Tables (Config f (mt_s m) operators arch) registers (sym_create_table (chars "Labels") 0)
        [Some (mt_a m); Some (mt_d m)] (mt_h m)).

(** ** The command line *)

(** A file option is a flag for standard output and a name. *)
(* tools/assembler/rva.c:378-394 input_file_name *)
Record options : Type := Options {
  op_input : option (list Z); op_symbols : bool * list Z; op_list : bool * list Z; op_hex : bool * list Z;
  op_elf : bool * list Z; op_verilog : bool * list Z; op_bytes : bool; op_size : Z; op_order : label_sort;
  op_list_sym : bool; op_list_kmd : bool; op_extras : Z;
}.

(* tools/assembler/rva.c:535-547 main *)
Definition default_options : options :=
  Options None (false, []) (false, []) (false, []) (false, []) (false, []) false VERILOG_MAX ALPHABETIC false false 0.

(** An argument is a string; past its end there is a NUL. *)
Definition arg_char (a : list Z) (i : Z) : Z := znth 0 a i.

(** The option's new value and the arguments left. *)
(* tools/assembler/rva.c:883-892 file_option *)
Definition file_option (o : bool * list Z) (args : list (list Z)) : (bool * list Z) * list (list Z) :=
  match args with
  | [] => (o, [])
  | a :: rest => if arg_char a 0 =? 45 then ((true, snd o), args) else ((fst o, a), rest)
  end.

Definition is_letter (c upper : Z) : bool := (c =? upper) || (c =? upper + 32).

(** The size in brackets after the name of the Verilog file. *)
(* tools/assembler/rva.c:981-998 set_options *)
Definition verilog_size (a : list Z) (size : Z) (bytes : bool) : res (Z * bool) :=
  let s := a ++ [0] in
  let* (ok, x, p) := get_num s 1 16 in
  let size := if (ok && (x <? size))%bool then x else size in
  let p := if arg_char s p =? 58 then p + 1 else p in
  Ok (size, (bytes || (Z.lor (arg_char s p) 0x20 =? 98))%bool).

(** The letters after -s. *)
(* tools/assembler/rva.c:953-970 set_options *)
Definition symbol_order (a : list Z) : label_sort * Z :=
  if is_letter (arg_char a 2) 86 then (VALUE, 3)
  else if is_letter (arg_char a 2) 68 then (DEFINITION, 3) else (ALPHABETIC, 2).

(** One option and the arguments after it. *)
(* tools/assembler/rva.c:928-1005 set_options *)
Definition set_option (a : list Z) (args : list (list Z)) (o : options) : res (options * list (list Z)) :=
  let c := arg_char a 1 in
  let '(Options input sy li he el ve by_ si or ls lk ex) := o in
  if is_letter c 69 then
    let '(el, args) := file_option el args in Ok (Options input sy li he el ve by_ si or ls lk ex, args)
  else if is_letter c 72 then
    let '(he, args) := file_option he args in Ok (Options input sy li he el ve by_ si or ls lk ex, args)
  else if is_letter c 76 then
    let c2 := Z.land (arg_char a 2) 0xDF in
    let '(li, args) := file_option li args in
    Ok (Options input sy li he el ve by_ si or ((c2 =? 83) || (c2 =? 75)) (c2 =? 75) ex, args)
  else if is_letter c 83 then
    let '(or, pos) := symbol_order a in
    let ex := if existsb (fun c => is_letter c 76) (drop (Z.to_nat pos) a) then Z.lor ex 1 else ex in
    let '(sy, args) := file_option sy args in Ok (Options input sy li he el ve by_ si or ls lk ex, args)
  else if is_letter c 86 then
    let '(ve, args) := file_option ve args in
    match args with
    | b :: rest =>
        if arg_char b 0 =? 91 then
          let* (si, by_) := verilog_size b si by_ in Ok (Options input sy li he el ve by_ si or ls lk ex, rest)
        else Ok (Options input sy li he el ve by_ si or ls lk ex, args)
    | [] => Ok (Options input sy li he el ve by_ si or ls lk ex, args)
    end
  else Ok (o, args).

(** The arguments after the name of the program. Each round takes at least one. *)
(* tools/assembler/rva.c:880-1026 set_options *)
Fixpoint set_options (fuel : nat) (args : list (list Z)) (o : options) : res options :=
  match fuel with
  | O => NoFuel
  | S fuel =>
      match args with
      | [] => Ok o
      | a :: args =>
          if arg_char a 0 =? 45 then
            let* (o, args) := set_option a args o in set_options fuel args o
          else
            set_options fuel args (Options (Some a) (op_symbols o) (op_list o) (op_hex o) (op_elf o) (op_verilog o)
              (op_bytes o) (op_size o) (op_order o) (op_list_sym o) (op_list_kmd o) (op_extras o))
      end
  end.

(** ** The whole program *)

(** The static variables before the first pass. *)
(* tools/assembler/rva.c:390-442 verilog_mem_size *)
Definition start_state (t : tables) : gstate :=
  GState (tb_heap t) (tb_symbols t) (tb_registers t) [] None 0 false 0 0 0 false 0 0 0 0 0 false [] 0 0
    (replicate (Z.to_nat (IF_STACK_SIZE + 1)) 0) 0 0 0 None
    (Outputs (ListState 0 0 0 (replicate (Z.to_nat LIST_LINE_LENGTH) 0) [])
       (HexState 0 false (replicate (Z.to_nat HEX_LINE_LENGTH) 0) []) (ElfState false 0 0 false []) ∅).

(** What is left when the program ends: its exit status, the errors it reported, and
    what is in each file, or went to standard output in its place; [None]: nothing
    was asked for, or the file was removed. *)
Record outcome : Type := Outcome {
  oc_status : Z; oc_fed_up : bool; oc_reports : list report;
  oc_list : option (list Z); oc_hex : option (list Z); oc_verilog : option (list Z); oc_elf : option (list Z);
  oc_symbols : option (list Z);
}.

(* tools/assembler/rva.c:2881-2887 open_output_file *)
Definition is_open (o : bool * list Z) : bool := (fst o || negb (bool_decide (snd o = [])))%bool.

(** A file that was closed: it is removed when there were errors. *)
(* tools/assembler/rva.c:2891-2899 close_output_file *)
Definition left_in (o : bool * list Z) (errors : bool) (content : list Z) : option (list Z) :=
  if (is_open o && (fst o || negb errors))%bool then Some content else None.

Definition text_of (lines : list (list Z)) : list Z := List.concat (map (fun l => l ++ new_line) lines).

(* tools/assembler/rva.c:666-669 main *)
Definition open_of (o : options) : open_files :=
  OpenFiles (is_open (op_list o)) (is_open (op_hex o)) (is_open (op_elf o)) (is_open (op_verilog o)).

(** The files written once the passes are over. *)
(* tools/assembler/rva.c:772-833 main *)
Definition finish (o : options) (c : control) (p : pstate) : res outcome :=
  let g := p_g p in
  let out := g_out g in
  let errors := negb (g_errors g =? 0) in
  let* symbols := (if (is_open (op_list o) && op_list_sym o)%bool then list_symbols (g_symbols g) (g_syms g) else Ok []) in
  let* elf := (if is_open (op_elf o)
               then elf_dump_out (snd (op_elf o)) (g_entry g) (g_symbols g) (g_syms g) (el_records (o_elf out)) else Ok []) in
  let* printed := (if (negb (fed_up c) && is_open (op_symbols o))%bool
                   then sym_print_table (g_symbols g) ALL (op_order o) (op_extras o) (g_locals g) (g_syms g) else Ok []) in
  Ok (Outcome (if errors then 255 else 0) (fed_up c) (p_reports p)
        (left_in (op_list o) errors
           ((if op_list_kmd o then chars "KMD" ++ new_line else []) ++ text_of (ls_file (o_list out)) ++ symbols))
        (left_in (op_hex o) errors (text_of (hx_file (o_hex out))))
        (left_in (op_verilog o) errors
           (if is_open (op_verilog o) then verilog_file (op_bytes o) (op_size o) (o_verilog out) else []))
        (left_in (op_elf o) errors elf)
        (if (negb (fed_up c) && is_open (op_symbols o))%bool then Some printed else None)).

(** Nothing was done. *)
Definition nothing : outcome := Outcome 0 false [] None None None None None.

(** [files]: the files that can be read; [mnemonics]: the mnemonic file beside the
    program. The exit status is that of a process, so -1 is 255. *)
(* tools/assembler/rva.c:535-873 main *)
Definition main (junk : Z) (junk_flag : bool) (junk_own : own_label) (files : list Z -> option (list Z))
    (mnemonics : option (list Z)) (fuel : nat) (args : list (list Z)) : res outcome :=
  let* o := set_options (S (length args)) args default_options in
  match op_input o, mnemonics with
  | Some input, Some mnemonics =>
      let* t := build_tables (open_of o) mnemonics in
      let g := start_state t in
      let* (c, p) :=
        match files input with
        | None => Ok (Control 0 true false false, PState g true [])
        | Some text =>
            assemble (tb_config t) junk_sym junk junk_flag junk_own files (tb_mnemonics t) fuel input text g
        end in
      finish o c p
  | _, _ => Ok nothing
  end.

End Main.

(** ** Properties *)


(** When the source cannot be read the program ends with status 0 all the same, and
    leaves its output files without any code. *)
Theorem missing_source_is_success junk_sym junk junk_flag junk_own files mnemonics fuel args o input :
  set_options (S (length args)) args default_options = Ok o -> op_input o = Some input -> files input = None ->
  fst (op_list o) = false -> is_open (op_elf o) = false -> is_open (op_symbols o) = false -> op_list_sym o = false ->
  forall oc, main junk_sym junk junk_flag junk_own files (Some mnemonics) fuel args = Ok oc ->
  oc_status oc = 0 /\ oc_reports oc = [] /\ (is_open (op_hex o) = true -> oc_hex oc = Some []).
Proof.
  intros Ho Hi Hf Hl He Hs Hls oc H. unfold main in H. rewrite Ho in H. cbn [rbind] in H. rewrite Hi, Hf in H.
  res_inv. unfold finish in H. rewrite He, Hs, Hls, !andb_false_r in H. cbn in H.
  injection H as <-. cbn. split; [reflexivity|]. split; [reflexivity|]. intros Hh. unfold left_in. rewrite Hh, orb_true_r. reflexivity.
Qed.
