(* ===== verification/RvaIsa.v ===== *)
(** * The instructions the assembler's words stand for

    The specification RvaEncode.v is checked against: the fields and immediates of
    the RISC-V base formats, and the effect of the instructions that the assembler's
    multi-word pseudo-operations are made of. Nothing here models code of the
    repository. *)

From S2P Require Import Prelude.

(** ** Fields and immediates *)

Definition opcode (w : Z) : Z := field w 0 7.
Definition rd (w : Z) : Z := field w 7 5.
Definition funct3 (w : Z) : Z := field w 12 3.
Definition rs1 (w : Z) : Z := field w 15 5.
Definition rs2 (w : Z) : Z := field w 20 5.
Definition funct7 (w : Z) : Z := field w 25 7.

Definition imm_I (w : Z) : Z := sext 12 (field w 20 12).
Definition imm_S (w : Z) : Z := sext 12 (Z.lor (Z.shiftl (field w 25 7) 5) (field w 7 5)).
Definition bits_B (w : Z) : Z :=
  Z.lor (Z.lor (Z.shiftl (field w 31 1) 12) (Z.shiftl (field w 7 1) 11))
    (Z.lor (Z.shiftl (field w 25 6) 5) (Z.shiftl (field w 8 4) 1)).
Definition imm_B (w : Z) : Z := sext 13 (bits_B w).
Definition imm_U (w : Z) : Z := Z.land w 0xFFFFF000.
Definition bits_J (w : Z) : Z :=
  Z.lor (Z.lor (Z.shiftl (field w 31 1) 20) (Z.shiftl (field w 12 8) 12))
    (Z.lor (Z.shiftl (field w 20 1) 11) (Z.shiftl (field w 21 10) 1)).
Definition imm_J (w : Z) : Z := sext 21 (bits_J w).

(** ** Execution *)

Record cpu : Type := Cpu { regs : gmap Z Z; pc : Z }.

(** Register 0 reads as zero. *)
Definition get (c : cpu) (r : Z) : Z := if r =? 0 then 0 else default 0 (regs c !! r).
Definition set (r v : Z) (c : cpu) : cpu := if r =? 0 then c else Cpu (<[r := v]> (regs c)) (pc c).
Definition jump (p : Z) (c : cpu) : cpu := Cpu (regs c) (u32 p).

(** One instruction; [None] for one that is not among those below. *)
Definition step (w : Z) (c : cpu) : option cpu :=
  let next := pc c + 4 in
  if opcode w =? 0x37 then Some (jump next (set (rd w) (imm_U w) c))
  else if opcode w =? 0x17 then Some (jump next (set (rd w) (u32 (pc c + imm_U w)) c))
  else if ((opcode w =? 0x13) && (funct3 w =? 0))%bool then
    Some (jump next (set (rd w) (u32 (get c (rs1 w) + imm_I w)) c))
  else if opcode w =? 0x6F then Some (jump (pc c + imm_J w) (set (rd w) (u32 next) c))
  else if ((opcode w =? 0x67) && (funct3 w =? 0))%bool then
    Some (jump (Z.land (u32 (get c (rs1 w) + imm_I w)) 0xFFFFFFFE) (set (rd w) (u32 next) c))
  else None.

Fixpoint run (ws : list Z) (c : cpu) : option cpu :=
  match ws with
  | [] => Some c
  | w :: ws => match step w c with Some c => run ws c | None => None end
  end.

(** The addresses of a load and of a store. *)
Definition load_address (w : Z) (c : cpu) : Z := u32 (get c (rs1 w) + imm_I w).
Definition store_address (w : Z) (c : cpu) : Z := u32 (get c (rs1 w) + imm_S w).

(** ** Lemmas *)

Lemma get_set_eq r v c : r <> 0 -> get (set r v c) r = v.
Proof.
  intros Hr. unfold get, set. apply Z.eqb_neq in Hr. rewrite Hr. simpl. rewrite lookup_insert_eq. reflexivity.
Qed.

Lemma get_set_ne r r' v c : r <> r' -> get (set r v c) r' = get c r'.
Proof.
  intros Hr. unfold get, set. destruct (r' =? 0); [reflexivity|]. destruct (r =? 0); [reflexivity|]. simpl.
  rewrite lookup_insert_ne by exact Hr. reflexivity.
Qed.

Lemma get_jump p c r : get (jump p c) r = get c r.
Proof. reflexivity. Qed.

Lemma pc_set r v c : pc (set r v c) = pc c.
Proof. unfold set. destruct (r =? 0); reflexivity. Qed.

Lemma land_range a b : 0 <= b -> 0 <= Z.land a b <= b.
Proof.
  intros Hb. split; [apply Z.land_nonneg; lia|].
  apply Z.ldiff_le; [exact Hb|]. apply Z.bits_inj'. intros i Hi.
  rewrite Z.ldiff_spec, Z.land_spec, Z.bits_0. destruct (Z.testbit a i), (Z.testbit b i); reflexivity.
Qed.

Lemma field_range w lo n : 0 <= n -> 0 <= field w lo n < 2 ^ n.
Proof.
  intros Hn. unfold field. rewrite Z.land_ones by lia. apply Z.mod_pos_bound. apply Z.pow_pos_nonneg; lia.
Qed.

Lemma field_testbit w lo n i : 0 <= lo -> 0 <= n -> 0 <= i ->
  Z.testbit (field w lo n) i = ((i <? n) && Z.testbit w (i + lo))%bool.
Proof.
  intros Hlo Hn Hi. unfold field. rewrite Z.land_spec, Z.shiftr_spec by lia.
  destruct (Z.ltb_spec i n).
  - rewrite Z.ones_spec_low by lia. rewrite andb_true_r. reflexivity.
  - rewrite Z.ones_spec_high by lia. rewrite andb_false_r. reflexivity.
Qed.

(** A field is known by its bits. *)
Lemma field_eq w lo n x : 0 <= lo -> 0 <= n <= 32 -> 0 <= x < 2 ^ n ->
  (forall i, 0 <= i < 32 -> i < n -> Z.testbit w (i + lo) = Z.testbit x i) -> field w lo n = x.
Proof.
  intros Hlo Hn Hx H. apply Z.bits_inj'. intros i Hi. rewrite field_testbit by lia.
  destruct (Z.ltb_spec i n); [apply H; lia|]. rewrite (testbit_high x n) by lia. reflexivity.
Qed.

Lemma sext_s32 n v : 1 <= n <= 32 -> - 2 ^ (n - 1) <= s32 v < 2 ^ (n - 1) -> sext n (v mod 2 ^ n) = s32 v.
Proof.
  intros Hn Hv. unfold sext.
  assert (Hp : 2 ^ n = 2 * 2 ^ (n - 1)) by (rewrite <- Z.pow_succ_r by lia; f_equal; lia).
  assert (Hp0 : 0 < 2 ^ (n - 1)) by (apply Z.pow_pos_nonneg; lia).
  assert (Hd : (2 ^ n | 4294967296)).
  { exists (2 ^ (32 - n)). change 4294967296 with (2 ^ 32). rewrite <- Z.pow_add_r by lia. f_equal. lia. }
  assert (Hm : v mod 2 ^ n = s32 v mod 2 ^ n).
  { assert (exists k, s32 v = v + k * 4294967296) as [k ->]
      by (exists (- ((v + 2147483648) / 4294967296)); unfold s32; dlia).
    destruct Hd as [q ->]. rewrite Z.mul_assoc, Z_mod_plus_full. reflexivity. }
  rewrite Hm. set (x := s32 v) in *.
  assert (Hb : Z.testbit (x mod 2 ^ n) (n - 1) = (x <? 0)).
  { rewrite Z.mod_pow2_bits_low by lia. destruct (Z.ltb_spec x 0).
    - rewrite <- (Z.add_0_l (n - 1)), <- Z.shiftr_spec, Z.shiftr_div_pow2 by lia.
      replace (x / 2 ^ (n - 1)) with (-1) by (apply (Z.div_unique _ _ _ (x + 2 ^ (n - 1))); lia). reflexivity.
    - apply (testbit_high x (n - 1)); lia. }
  rewrite Hb. destruct (Z.ltb_spec x 0).
  - rewrite Z.shiftl_1_l. replace (x mod 2 ^ n) with (x + 2 ^ n); [lia|].
    apply (Z.mod_unique _ _ (-1)); lia.
  - apply Z.mod_small. lia.
Qed.

(** Compute the bits of a word built from shifts and masks at a known position. *)
Ltac bit_const :=
  match goal with
  | |- context [Z.testbit ?a (?x + ?y)] => let k := eval vm_compute in (x + y) in change (x + y) with k
  | |- context [Z.testbit ?a (?x - ?y)] => let k := eval vm_compute in (x - y) in change (x - y) with k
  | |- context [Z.testbit ?a (Z.neg ?k)] => rewrite (Z.testbit_neg_r a (Z.neg k)) by lia
  | |- context [Z.testbit (Z.pos ?a) (Z.pos ?k)] =>
      let b := eval vm_compute in (Z.testbit (Z.pos a) (Z.pos k)) in change (Z.testbit (Z.pos a) (Z.pos k)) with b
  | |- context [Z.testbit (Z.pos ?a) 0] =>
      let b := eval vm_compute in (Z.testbit (Z.pos a) 0) in change (Z.testbit (Z.pos a) 0) with b
  | |- context [Z.testbit 0 ?k] => rewrite (Z.bits_0 k)
  | |- context [Z.pos ?a <? Z.pos ?b] =>
      let c := eval vm_compute in (Z.pos a <? Z.pos b) in change (Z.pos a <? Z.pos b) with c
  | |- context [0 <? Z.pos ?b] => change (0 <? Z.pos b) with true
  end.

Ltac bit_expand :=
  repeat (rewrite ?Z.lor_spec, ?Z.land_spec, ?u32_testbit;
    first [ bit_const | rewrite Z.shiftl_spec by lia | rewrite Z.shiftr_spec by lia | rewrite field_testbit by lia
          | progress rewrite ?andb_false_l, ?andb_false_r, ?andb_true_l, ?andb_true_r, ?orb_false_l, ?orb_false_r ]);
  rewrite ?andb_false_l, ?andb_false_r, ?andb_true_l, ?andb_true_r, ?orb_false_l, ?orb_false_r.

Ltac case_bit := match goal with |- context [Z.testbit ?a ?k] => destruct (Z.testbit a k) end.

Ltac bit_done := bit_expand; try reflexivity; try (repeat case_bit; reflexivity).

(** [field w lo n = x], bit by bit. *)
Ltac field_bits :=
  apply field_eq; [lia|lia|try (simpl; lia)|];
  [..|apply (lt32_cases (fun i => i < _ -> Z.testbit _ (i + _) = Z.testbit _ i));
  intros ?; first [lia | bit_done]].

(** The fields of a word that is put together from parts. *)
Lemma field_lor a b lo n : 0 <= lo -> 0 <= n -> field (Z.lor a b) lo n = Z.lor (field a lo n) (field b lo n).
Proof.
  intros Hlo Hn. apply Z.bits_inj'. intros i Hi. rewrite Z.lor_spec, !field_testbit, Z.lor_spec by lia.
  destruct (i <? n); reflexivity.
Qed.

Lemma field_land_low a m lo n : 0 <= lo -> 0 <= n -> field m lo n = 0 -> field (Z.land a m) lo n = 0.
Proof.
  intros Hlo Hn H. apply Z.bits_inj'. intros i Hi. rewrite Z.bits_0.
  assert (Hb : Z.testbit (field m lo n) i = false) by (rewrite H; apply Z.bits_0).
  rewrite field_testbit in Hb |- * by lia. rewrite Z.land_spec.
  destruct (i <? n); [|reflexivity]. simpl in Hb. rewrite Hb. apply andb_false_r.
Qed.

Lemma field_above w lo n : 0 <= w < 2 ^ lo -> 0 <= lo -> 0 <= n -> field w lo n = 0.
Proof.
  intros Hw Hlo Hn. unfold field. rewrite Z.shiftr_div_pow2, Z.div_small by lia. apply Z.land_0_l.
Qed.

Lemma field_shift_at r k n : 0 <= r < 2 ^ n -> 0 <= k -> 0 <= n -> k + n <= 32 -> field (u32 (Z.shiftl r k)) k n = r.
Proof.
  intros Hr Hk Hn Hkn. apply Z.bits_inj'. intros i Hi. rewrite field_testbit by lia.
  destruct (Z.ltb_spec i n); [|rewrite (testbit_high r n) by lia; reflexivity].
  rewrite u32_testbit, Z.shiftl_spec by lia. replace (i + k <? 32) with true by (symmetry; apply Z.ltb_lt; lia).
  simpl. f_equal. lia.
Qed.

Lemma field_shift_over r k lo n : 0 <= lo -> 0 <= n -> lo + n <= k -> field (u32 (Z.shiftl r k)) lo n = 0.
Proof.
  intros Hlo Hn Hk. apply Z.bits_inj'. intros i Hi. rewrite field_testbit, Z.bits_0 by lia.
  destruct (Z.ltb_spec i n); [|reflexivity]. rewrite u32_testbit, Z.shiftl_spec by lia.
  rewrite (Z.testbit_neg_r r) by lia. rewrite andb_false_r. reflexivity.
Qed.

Lemma field_shift_under r m k lo n : 0 <= r < 2 ^ m -> 0 <= m -> 0 <= k -> k + m <= lo -> 0 <= n ->
  field (u32 (Z.shiftl r k)) lo n = 0.
Proof.
  intros Hr Hm Hk Hlo Hn. apply Z.bits_inj'. intros i Hi. rewrite field_testbit, Z.bits_0 by lia.
  destruct (Z.ltb_spec i n); [|reflexivity]. rewrite u32_testbit, Z.shiftl_spec by lia.
  rewrite (testbit_high r m) by lia. rewrite andb_false_r. reflexivity.
Qed.

Lemma field_land_keep a m lo n : 0 <= lo -> 0 <= n -> field m lo n = Z.ones n -> field (Z.land a m) lo n = field a lo n.
Proof.
  intros Hlo Hn H. apply Z.bits_inj'. intros i Hi.
  assert (Hb : Z.testbit (field m lo n) i = Z.testbit (Z.ones n) i) by (rewrite H; reflexivity).
  rewrite !field_testbit in * by lia. rewrite Z.land_spec. destruct (Z.ltb_spec i n); [|reflexivity].
  rewrite Z.ones_spec_low in Hb by lia. simpl in Hb. rewrite Hb, andb_true_r. reflexivity.
Qed.

Lemma sext_mod n x : 1 <= n -> 0 <= x < 2 ^ n -> sext n x = (x + 2 ^ (n - 1)) mod 2 ^ n - 2 ^ (n - 1).
Proof.
  intros Hn Hx. unfold sext. assert (Hp : 2 ^ n = 2 * 2 ^ (n - 1)) by (rewrite <- Z.pow_succ_r by lia; f_equal; lia).
  assert (Hp0 : 0 < 2 ^ (n - 1)) by (apply Z.pow_pos_nonneg; lia). rewrite Z.shiftl_1_l.
  assert (Hb : Z.testbit x (n - 1) = (2 ^ (n - 1) <=? x)).
  { destruct (Z.leb_spec (2 ^ (n - 1)) x); [|apply (testbit_high x (n - 1)); lia].
    rewrite <- (Z.add_0_l (n - 1)), <- Z.shiftr_spec, Z.shiftr_div_pow2 by lia.
    replace (x / 2 ^ (n - 1)) with 1 by (apply (Z.div_unique _ _ _ (x - 2 ^ (n - 1))); lia). reflexivity. }
  rewrite Hb. destruct (Z.leb_spec (2 ^ (n - 1)) x).
  - replace ((x + 2 ^ (n - 1)) mod 2 ^ n) with (x - 2 ^ (n - 1)); [lia|]. apply (Z.mod_unique _ _ 1); lia.
  - rewrite Z.mod_small; lia.
Qed.

(** The upper and lower part of a value, the lower one being sign-extended. *)
Lemma high_low v : 0 <= v < 4294967296 ->
  u32 (Z.land (u32 (v + 0x800)) 0xFFFFF000 + sext 12 (v mod 2 ^ 12)) = v.
Proof.
  intros Hv. rewrite sext_mod by (try apply Z.mod_pos_bound; lia). change 0xFFFFF000 with (4294967296 - 2 ^ 12).
  rewrite land_high_mask by (try apply u32_range; lia). change (2 ^ 12) with 4096. change (2 ^ (12 - 1)) with 2048.
  unfold u32. dlia.
Qed.

Lemma imm_U_lor a b : imm_U (Z.lor a b) = Z.lor (imm_U a) (imm_U b).
Proof. apply Z.land_lor_distr_l. Qed.

Lemma imm_U_small w : 0 <= w < 4096 -> imm_U w = 0.
Proof.
  intros H. unfold imm_U. change 0xFFFFF000 with (4294967296 - 2 ^ 12). rewrite land_high_mask by lia.
  change (2 ^ 12) with 4096. rewrite Z.mod_small; lia.
Qed.

Lemma imm_U_high x : imm_U (Z.land x 0xFFFFF000) = Z.land x 0xFFFFF000.
Proof. unfold imm_U. rewrite <- Z.land_assoc. reflexivity. Qed.

(** The instructions of the pseudo-operations. *)
Lemma step_lui w c : opcode w = 0x37 -> step w c = Some (jump (pc c + 4) (set (rd w) (imm_U w) c)).
Proof. intros H. unfold step. rewrite H. reflexivity. Qed.

Lemma step_auipc w c : opcode w = 0x17 -> step w c = Some (jump (pc c + 4) (set (rd w) (u32 (pc c + imm_U w)) c)).
Proof. intros H. unfold step. rewrite H. reflexivity. Qed.

Lemma step_addi w c : opcode w = 0x13 -> funct3 w = 0 ->
  step w c = Some (jump (pc c + 4) (set (rd w) (u32 (get c (rs1 w) + imm_I w)) c)).
Proof. intros H H3. unfold step. rewrite H, H3. reflexivity. Qed.

Lemma step_jal w c : opcode w = 0x6F -> step w c = Some (jump (pc c + imm_J w) (set (rd w) (u32 (pc c + 4)) c)).
Proof. intros H. unfold step. rewrite H. reflexivity. Qed.

Lemma step_jalr w c : opcode w = 0x67 -> funct3 w = 0 ->
  step w c = Some (jump (Z.land (u32 (get c (rs1 w) + imm_I w)) 0xFFFFFFFE) (set (rd w) (u32 (pc c + 4)) c)).
Proof. intros H H3. unfold step. rewrite H, H3. reflexivity. Qed.
