(* ===== verification/RvaAsm.v ===== *)
(** * What the assembler's instruction encoder produces

    The theorems about RvaEncode.v: the words it makes decode, by RvaIsa.v, to the
    operands on the line; the sequences its pseudo-operations expand to compute what
    they promise; and the places where they do not. *)

From S2P Require Import Prelude RvaDefs RvaLex RvaEval RvaEncode RvaIsa.
Local Open Scope asm_scope.

(** ** Running the encoder *)

Lemma abind_step {X Y} (m : A X) (f : X -> A Y) s x s' : m s = Ok (x, s') -> abind m f s = f x s'.
Proof. intros H. unfold abind. rewrite H. reflexivity. Qed.

(** The state after operands have been read without an error, up to position [p]:
    only the position and the evaluator's counters may differ. *)
Definition moved (p : Z) (s s' : astate) : Prop :=
  as_error s = eval_okay /\ as_error s' = eval_okay /\ as_position s' = p /\ as_pointer s' = as_pointer s /\
  as_sizes s' = as_sizes s /\ as_size_at s' = as_size_at s /\ as_size_changed s' = as_size_changed s /\
  as_bytes s' = as_bytes s.

Lemma moved_trans p q s1 s2 s3 : moved p s1 s2 -> moved q s2 s3 -> moved q s1 s3.
Proof. unfold moved. intuition congruence. Qed.

Lemma if_okay_step {X} (m : A X) x s : as_error s = eval_okay -> if_okay m x s = m s.
Proof. intros H. unfold if_okay, abind, error_code. simpl. rewrite H. reflexivity. Qed.

Section Operands.

Context (line : list Z) (env : eval_env) (registers : list Z -> res (option (Z * Z))).

(** A register name is at [p], up to [p']. *)
Definition reg_at (p r p' : Z) : Prop := exists q buffer flags value,
  skip_spc line p = Ok q /\ get_identifier line q 16 = Ok buffer /\ buffer <> [] /\
  registers buffer = Ok (Some (flags, value)) /\ s32 value = r /\ p' = q + Z.of_nat (length buffer) /\ 0 <= r < 32.

(** The character [c] is the next one that is not a blank, or is not. *)
Definition char_at (p c p' : Z) : Prop := cmp_next_non_space line p 0 c = Ok (true, p').
Definition char_not_at (p c p' : Z) : Prop := cmp_next_non_space line p 0 c = Ok (false, p').

(** An expression of value [v] is at [p], the assembly pointer being [ptr]. *)
Definition expr_at (ptr p v p' : Z) : Prop :=
  is_u32 v /\ exists st, evaluate (env_at env ptr) line p = Ok (eval_okay, v, st) /\ es_pos st = p'.

Lemma get_reg_at s r p' : as_error s = eval_okay -> reg_at (as_position s) r p' ->
  exists s', get_reg line registers s = Ok (r, s') /\ moved p' s s' /\ 0 <= r < 32.
Proof.
  intros He (q & buffer & flags & value & E1 & E2 & Hb & E3 & Hr & -> & Hr').
  unfold get_reg, get_thing, abind, position, lift. simpl. rewrite E1. simpl. rewrite E2. simpl.
  destruct buffer as [|x b]; [contradiction|]. rewrite E3. simpl. rewrite Hr.
  eexists. split; [reflexivity|]. split; [|exact Hr']. repeat split; exact He.
Qed.

Lemma next_is_at s c p' : as_error s = eval_okay -> char_at (as_position s) c p' ->
  exists s', next_is line c s = Ok (true, s') /\ moved p' s s'.
Proof.
  intros He Hc. unfold next_is, abind, position, lift. simpl. rewrite Hc. simpl.
  eexists. split; [reflexivity|]. repeat split; exact He.
Qed.

Lemma next_is_not_at s c p' : as_error s = eval_okay -> char_not_at (as_position s) c p' ->
  exists s', next_is line c s = Ok (false, s') /\ moved p' s s'.
Proof.
  intros He Hc. unfold next_is, abind, position, lift. simpl. rewrite Hc. simpl.
  eexists. split; [reflexivity|]. repeat split; exact He.
Qed.

Lemma evaluate_allow_at fp lp s v p' : as_error s = eval_okay ->
  expr_at (as_pointer s) (as_position s) v p' ->
  exists s', evaluate_allow line fp lp env s = Ok (v, s') /\ moved p' s s' /\ is_u32 v.
Proof.
  intros He (Hv & st & E & Hp). unfold evaluate_allow, abind, state, lift. simpl. rewrite E. simpl.
  eexists. split; [reflexivity|]. split; [|exact Hv]. repeat split; try exact He; try exact Hp.
  simpl. unfold allow_error. change (Z.land eval_okay ALLOW_ON_INTER_PASS) with 0.
  change (Z.land eval_okay ALLOW_ON_FIRST_PASS) with 0. simpl. rewrite !andb_false_r. reflexivity.
Qed.

(** "register ," at [p]. *)
Definition reg_comma_at (p r p' : Z) : Prop := exists q, reg_at p r q /\ char_at q 44 p'.

Lemma reg_comma_step place s r p' : as_error s = eval_okay -> reg_comma_at (as_position s) r p' ->
  exists s', reg_comma line registers place s = Ok (shl r place, s') /\ moved p' s s' /\ 0 <= r < 32.
Proof.
  intros He (q & Hr & Hc). destruct (get_reg_at s r q He Hr) as (s1 & E1 & H1 & Hr').
  unfold reg_comma. rewrite (abind_step _ _ _ _ _ E1). replace (0 <=? r) with true by (symmetry; apply Z.leb_le; lia).
  destruct H1 as (He0 & He1 & Hp1 & H1). rewrite <- Hp1 in Hc.
  destruct (next_is_at s1 44 p' He1 Hc) as (s2 & E2 & H2). rewrite (abind_step _ _ _ _ _ E2).
  eexists. split; [reflexivity|]. split; [|exact Hr'].
  eapply moved_trans; [|exact H2]. repeat split; try assumption; apply H1.
Qed.

Lemma reg_last_step place s r p' : as_error s = eval_okay -> reg_at (as_position s) r p' ->
  exists s', reg_last line registers place s = Ok (shl r place, s') /\ moved p' s s' /\ 0 <= r < 32.
Proof.
  intros He Hr. destruct (get_reg_at s r p' He Hr) as (s1 & E1 & H1 & Hr').
  unfold reg_last. rewrite (abind_step _ _ _ _ _ E1). replace (0 <=? r) with true by (symmetry; apply Z.leb_le; lia).
  eexists. split; [reflexivity|]. auto.
Qed.

End Operands.

(** ** Fields of the parts of a word *)

Lemma shl_range v n : 0 <= shl v n < 4294967296.
Proof. apply u32_range. Qed.

Lemma op_field_fields token : field (op_field token) 0 7 = op_field token /\
  (forall lo n, 7 <= lo -> 0 <= n -> field (op_field token) lo n = 0).
Proof.
  assert (H : 0 <= op_field token < 2 ^ 7).
  { unfold op_field. rewrite Z.shiftr_div_pow2 by lia. pose proof (land_range token 0x01F00000 ltac:(lia)).
    change (2 ^ 18) with 262144. change (2 ^ 7) with 128. dlia. }
  split.
  - unfold field. rewrite Z.shiftr_0_r, Z.land_ones by lia. apply Z.mod_small. exact H.
  - intros lo n Hlo Hn. apply field_above; [|lia|exact Hn].
    assert (2 ^ 7 <= 2 ^ lo) by (apply Z.pow_le_mono_r; lia). lia.
Qed.

Lemma funct_field_at token : field (funct_field token) 12 3 = field token 25 3.
Proof.
  apply field_eq; [lia|lia|apply field_range; lia|].
  apply (lt32_cases (fun i => i < _ -> Z.testbit _ (i + _) = Z.testbit _ i)); intros ?; try lia.
  all: unfold funct_field; bit_done.
Qed.

Lemma funct_field_off token lo n : 0 <= lo -> 0 <= n -> lo + n <= 12 \/ 15 <= lo -> field (funct_field token) lo n = 0.
Proof.
  intros Hlo Hn H. apply Z.bits_inj'. intros i Hi. rewrite field_testbit, Z.bits_0 by lia.
  destruct (Z.ltb_spec i n); [|reflexivity]. unfold funct_field. rewrite Z.shiftr_spec, Z.land_spec by lia.
  replace 0x0E000000 with (Z.shiftl 7 25) by reflexivity. rewrite Z.shiftl_spec by lia. cbn [andb].
  destruct H; [rewrite (Z.testbit_neg_r 7) by lia|rewrite (testbit_high 7 3) by (change (2 ^ 3) with 8; lia)]; apply andb_false_r.
Qed.

Lemma second_field_at token : field (second_field token) 25 7 = field token 8 7.
Proof.
  apply field_eq; [lia|lia|apply field_range; lia|].
  apply (lt32_cases (fun i => i < _ -> Z.testbit _ (i + _) = Z.testbit _ i)); intros ?; try lia.
  all: unfold second_field, shl; bit_done.
Qed.

Lemma second_field_off token lo n : 0 <= lo -> 0 <= n -> lo + n <= 25 -> field (second_field token) lo n = 0.
Proof.
  intros Hlo Hn H. apply Z.bits_inj'. intros i Hi. rewrite field_testbit, Z.bits_0 by lia.
  destruct (Z.ltb_spec i n); [|reflexivity]. unfold second_field, shl.
  rewrite u32_testbit, Z.shiftl_spec, Z.land_spec by lia.
  destruct (Z_lt_le_dec (i + lo - 17) 0); [rewrite !(Z.testbit_neg_r _ (i + lo - 17)) by lia; apply andb_false_r|].
  replace 0x7F00 with (Z.shiftl 127 8) by reflexivity. rewrite Z.shiftl_spec by lia.
  rewrite (Z.testbit_neg_r 127) by lia. rewrite !andb_false_r. reflexivity.
Qed.

(** A register number in its place. *)
Lemma shl_at r k : 0 <= r < 32 -> 0 <= k <= 27 -> field (shl r k) k 5 = r.
Proof. intros. apply field_shift_at; lia. Qed.

Lemma shl_off r k lo n : 0 <= r < 32 -> 0 <= k -> 0 <= lo -> 0 <= n -> lo + n <= k \/ k + 5 <= lo ->
  field (shl r k) lo n = 0.
Proof. intros ? ? ? ? [|]; [apply field_shift_over; lia|apply (field_shift_under r 5); lia]. Qed.

Lemma shl_over r k lo n : 0 <= lo -> 0 <= n -> lo + n <= k -> field (shl r k) lo n = 0.
Proof. apply field_shift_over. Qed.

Lemma shl_exact r k n : 0 <= r < 2 ^ n -> 0 <= k -> 0 <= n -> k + n <= 32 -> field (shl r k) k n = r.
Proof. apply field_shift_at. Qed.

(** Branch and jump offsets. *)
Ltac field_same := apply field_eq; [lia|lia|first [apply field_range; lia|simpl; lia]|];
  apply (lt32_cases (fun i => i < _ -> Z.testbit _ (i + _) = Z.testbit _ i)); intros ?; try lia; bit_done.

Lemma imm_branch_fields v : field (imm_branch v) 31 1 = field v 12 1 /\ field (imm_branch v) 7 1 = field v 11 1 /\
  field (imm_branch v) 25 6 = field v 5 6 /\ field (imm_branch v) 8 4 = field v 1 4 /\
  field (imm_branch v) 0 7 = 0 /\ field (imm_branch v) 12 3 = 0 /\
  field (imm_branch v) 15 5 = 0 /\ field (imm_branch v) 20 5 = 0.
Proof. unfold imm_branch. repeat split; field_same. Qed.

Lemma imm_jal_fields v : field (imm_jal v) 31 1 = field v 20 1 /\ field (imm_jal v) 12 8 = field v 12 8 /\
  field (imm_jal v) 20 1 = field v 11 1 /\ field (imm_jal v) 21 10 = field v 1 10 /\
  field (imm_jal v) 0 7 = 0 /\ field (imm_jal v) 7 5 = 0.
Proof. unfold imm_jal. repeat split; field_same. Qed.

Lemma word_lor a b : is_u32 a -> is_u32 b -> is_u32 (Z.lor a b).
Proof.
  unfold is_u32. intros Ha Hb. assert (H : 0 <= Z.lor a b) by (apply Z.lor_nonneg; lia). split; [exact H|].
  destruct (decide (Z.lor a b = 0)) as [->|Hne]; [lia|]. change 4294967296 with (2 ^ 32).
  apply Z.log2_lt_pow2; [lia|]. rewrite Z.log2_lor by lia.
  apply Z.max_lub_lt.
  - destruct (decide (a = 0)) as [->|]; [reflexivity|]. apply Z.log2_lt_pow2; simpl; lia.
  - destruct (decide (b = 0)) as [->|]; [reflexivity|]. apply Z.log2_lt_pow2; simpl; lia.
Qed.

Lemma word_shift_field w lo n k : 0 <= n -> 0 <= k -> n + k <= 32 -> is_u32 (Z.shiftl (field w lo n) k).
Proof.
  intros Hn Hk Hnk. pose proof (field_range w lo n Hn). unfold is_u32. rewrite Z.shiftl_mul_pow2 by lia.
  assert (0 < 2 ^ k) by (apply Z.pow_pos_nonneg; lia).
  assert (2 ^ n * 2 ^ k <= 2 ^ 32) by (rewrite <- Z.pow_add_r by lia; apply Z.pow_le_mono_r; lia).
  change (2 ^ 32) with 4294967296 in *. nia.
Qed.

Lemma word_land v m : is_u32 m -> is_u32 (Z.land v m).
Proof. unfold is_u32. intros H. pose proof (land_range v m). lia. Qed.

Lemma even_bit v : Z.land v 1 = 0 -> Z.testbit v 0 = false.
Proof. intros H. rewrite Z.bit0_odd, <- Z.negb_even. rewrite land_1 in H. rewrite Zeven_mod, H. reflexivity. Qed.

Lemma bits_B_branch v : Z.land v 1 = 0 -> bits_B (imm_branch v) = v mod 2 ^ 13.
Proof.
  intros Hv%even_bit. destruct (imm_branch_fields v) as (E1 & E2 & E3 & E4 & _).
  unfold bits_B. rewrite E1, E2, E3, E4, <- Z.land_ones by lia. change (Z.ones 13) with 0x1FFF.
  apply word_eq; [repeat apply word_lor; apply word_shift_field; lia|apply word_land; unfold is_u32; lia|].
  apply (lt32_cases (fun i => Z.testbit _ i = Z.testbit _ i)); bit_expand; rewrite ?Hv, ?orb_false_r, ?andb_false_r; reflexivity.
Qed.

Lemma bits_J_jal v : Z.land v 1 = 0 -> bits_J (imm_jal v) = v mod 2 ^ 21.
Proof.
  intros Hv%even_bit. destruct (imm_jal_fields v) as (E1 & E2 & E3 & E4 & _).
  unfold bits_J. rewrite E1, E2, E3, E4, <- Z.land_ones by lia. change (Z.ones 21) with 0x1FFFFF.
  apply word_eq; [repeat apply word_lor; apply word_shift_field; lia|apply word_land; unfold is_u32; lia|].
  apply (lt32_cases (fun i => Z.testbit _ i = Z.testbit _ i)); bit_expand; rewrite ?Hv, ?orb_false_r, ?andb_false_r; reflexivity.
Qed.

(** The range tests: is a 32-bit pattern an [n+1]-bit signed number? *)
Lemma in_range_iff n v : 0 <= n < 32 -> is_u32 v ->
  in_range v (4294967296 - 2 ^ n) = ((- 2 ^ n <=? s32 v) && (s32 v <? 2 ^ n))%bool.
Proof.
  intros Hn Hv. unfold in_range. rewrite (land_high_mask n v) by (unfold is_u32 in Hv; lia).
  assert (Hp : 0 < 2 ^ n <= 2 ^ 31) by (split; [apply Z.pow_pos_nonneg; lia|apply Z.pow_le_mono_r; lia]).
  change (2 ^ 31) with 2147483648 in Hp.
  assert (Hs : s32 v = if v <? 2147483648 then v else v - 4294967296).
  { unfold s32, is_u32 in *. destruct (Z.ltb_spec v 2147483648); dlia. }
  assert (Hm : (4294967296 - 2 ^ n) mod 2 ^ n = 0).
  { replace 4294967296 with (2 ^ (32 - n) * 2 ^ n) by (rewrite <- Z.pow_add_r by lia; replace (32 - n + n) with 32 by lia; reflexivity).
    replace (2 ^ (32 - n) * 2 ^ n - 2 ^ n) with ((2 ^ (32 - n) - 1) * 2 ^ n) by ring. apply Z_mod_mult. }
  pose proof (Z.mod_pos_bound v (2 ^ n) ltac:(lia)) as Hb.
  pose proof (Z.div_mod v (2 ^ n) ltac:(lia)) as Hd. unfold is_u32 in Hv.
  rewrite Hs. apply Bool.eq_iff_eq_true. rewrite orb_true_iff, andb_true_iff, !Z.eqb_eq, Z.leb_le, Z.ltb_lt.
  destruct (Z.ltb_spec v 2147483648) as [Hlt|Hge].
  - split; [intros [H|H]; lia|]. intros H. left. rewrite Z.mod_small; lia.
  - split; [intros [H|H]; lia|]. intros H. right. set (q := 4294967296 - 2 ^ n) in *.
    replace (v mod 2 ^ n) with (v - q); [lia|].
    rewrite <- (Z.mod_small (v - q) (2 ^ n)) by (subst q; lia).
    rewrite <- (Zminus_mod_idemp_r v q), Hm, Z.sub_0_r. reflexivity.
Qed.

(** Reduce the fields of a word to the parts it was put together from. *)
Ltac field_atom :=
  match goal with
  | |- context [field (Z.lor ?a ?b) ?lo ?n] => rewrite (field_lor a b lo n) by lia
  | |- context [field (op_field ?t) 0 7] => rewrite (proj1 (op_field_fields t))
  | |- context [field (op_field ?t) ?lo ?n] => rewrite (proj2 (op_field_fields t) lo n) by lia
  | |- context [field (funct_field ?t) 12 3] => rewrite (funct_field_at t)
  | |- context [field (funct_field ?t) ?lo ?n] => rewrite (funct_field_off t lo n) by lia
  | |- context [field (second_field ?t) 25 7] => rewrite (second_field_at t)
  | |- context [field (second_field ?t) ?lo ?n] => rewrite (second_field_off t lo n) by lia
  | |- context [field (shl ?r ?k) ?k 5] => rewrite (shl_at r k) by lia
  | |- context [field (shl ?r ?k) ?lo ?n] => first [ rewrite (shl_off r k lo n) by lia | rewrite (shl_over r k lo n) by lia ]
  | |- context [field (Z.land ?a (Z.pos ?m)) ?lo ?n] =>
      first [ rewrite (field_land_low a (Z.pos m) lo n) by (lia || reflexivity)
            | rewrite (field_land_keep a (Z.pos m) lo n) by (lia || reflexivity) ]
  | |- context [field (Z.pos ?p) ?lo ?n] =>
      let v := eval vm_compute in (field (Z.pos p) lo n) in change (field (Z.pos p) lo n) with v
  end.

Ltac decode_fields :=
  unfold opcode, rd, funct3, rs1, rs2, funct7; repeat field_atom; rewrite ?Z.lor_0_l, ?Z.lor_0_r; try reflexivity.

(** The upper immediate and the lower one. *)
Lemma upper_word a x op : 0 <= a < 32 -> op = 0x37 \/ op = 0x17 ->
  let w := Z.lor (Z.lor (shl a 7) (Z.land x 0xFFFFF000)) op in
  opcode w = op /\ rd w = a /\ imm_U w = Z.land x 0xFFFFF000.
Proof.
  intros Ha Hop w. subst w.
  assert (Hs : 0 <= shl a 7 < 4096).
  { unfold shl. rewrite Z.shiftl_mul_pow2 by lia. change (2 ^ 7) with 128. unfold u32. dlia. }
  rewrite !imm_U_lor, imm_U_high, (imm_U_small (shl a 7) Hs), (imm_U_small op), Z.lor_0_r by lia.
  destruct Hop as [-> | ->]; (repeat split; decode_fields).
Qed.

Lemma shl_20_field v : field (shl v 20) 20 12 = v mod 2 ^ 12.
Proof.
  apply field_eq; [lia|lia|apply Z.mod_pos_bound; lia|]. intros i Hi Hlt. unfold shl.
  rewrite u32_testbit, Z.shiftl_spec, Z.mod_pow2_bits_low by lia.
  replace (i + 20 <? 32) with true by (symmetry; apply Z.ltb_lt; lia). simpl. f_equal. lia.
Qed.

Lemma lower_word a b v op : 0 <= a < 32 -> 0 <= b < 32 -> op = 0x13 \/ op = 0x67 ->
  let w := Z.lor (Z.lor (Z.lor (shl a 7) (shl b 15)) (Z.land (shl v 20) 0xFFF00000)) op in
  opcode w = op /\ funct3 w = 0 /\ rd w = a /\ rs1 w = b /\ imm_I w = sext 12 (v mod 2 ^ 12).
Proof.
  intros Ha Hb Hop w. subst w. destruct Hop as [-> | ->]; (repeat split; try decode_fields);
    (unfold imm_I; repeat field_atom; rewrite ?Z.lor_0_l, ?Z.lor_0_r, shl_20_field; reflexivity).
Qed.

(** The words LI plants for a value: the upper one and the last. *)
Definition li_high (v : Z) : Z := Z.land (u32 (v + 0x800)) 0xFFFFF000.
Definition li_upper (a v : Z) : Z := Z.lor (Z.lor (shl a 7) (li_high v)) 0x37.
Definition li_lower (a v : Z) : Z :=
  Z.lor (Z.lor (Z.lor (shl a 7) (shl a 15)) (Z.land (shl v 20) 0xFFF00000)) 0x13.
Definition li_last (a v : Z) : Z :=
  if li_high v =? 0 then Z.land (li_lower a v) (not32 0x000F8000)
  else if Z.land v 0xFFF =? 0 then Z.lor (Z.land (li_upper a v) 0xFFF) v else li_lower a v.

(** May LI do with one word? *)
Definition li_short (v : Z) : bool := (li_high v =? 0) || (Z.land v 0xFFF =? 0).

Lemma li_high_low v : 0 <= v < 4294967296 -> u32 (li_high v + sext 12 (v mod 2 ^ 12)) = v.
Proof. apply high_low. Qed.

(** The result of writing [v] to register [a] and moving on. *)
Definition loaded (a v : Z) (c c' : cpu) : Prop :=
  get c' a = v /\ pc c' = u32 (pc c + 4) /\ forall r, r <> a -> get c' r = get c r.

Lemma loaded_step a v w c : a <> 0 -> step w c = Some (jump (pc c + 4) (set a v c)) ->
  exists c', step w c = Some c' /\ loaded a v c c'.
Proof.
  intros Ha H. eexists. split; [exact H|]. split; [rewrite get_jump; apply get_set_eq, Ha|].
  split; [reflexivity|]. intros r Hr. rewrite get_jump. apply get_set_ne. congruence.
Qed.

Lemma li_upper_step a v c : 0 < a < 32 -> exists c', step (li_upper a v) c = Some c' /\ loaded a (li_high v) c c'.
Proof.
  intros Ha. destruct (upper_word a (u32 (v + 0x800)) 0x37 ltac:(lia) (or_introl eq_refl)) as (U1 & U2 & U3).
  fold (li_high v) (li_upper a v) in U1, U2, U3. apply loaded_step; [lia|].
  rewrite step_lui by exact U1. rewrite U2, U3. reflexivity.
Qed.

Lemma low_zero v : 0 <= v < 4294967296 -> Z.land v 0xFFF = 0 -> field v 0 7 = 0 /\ field v 7 5 = 0 /\ imm_U v = v.
Proof.
  intros Hv H. assert (Hb : forall i, 0 <= i < 12 -> Z.testbit v i = false).
  { intros i Hi. assert (E : Z.testbit (Z.land v 0xFFF) i = false) by (rewrite H; apply Z.bits_0).
    change 0xFFF with (Z.ones 12) in E. rewrite Z.land_spec, Z.ones_spec_low, andb_true_r in E by lia. exact E. }
  split; [|split].
  - apply field_eq; [lia|lia|simpl; lia|]. intros i Hi Hn. rewrite Hb, Z.bits_0 by lia. reflexivity.
  - apply field_eq; [lia|lia|simpl; lia|]. intros i Hi Hn. rewrite Hb, Z.bits_0 by lia. reflexivity.
  - unfold imm_U. change 0xFFFFF000 with (4294967296 - 2 ^ 12). rewrite land_high_mask by lia.
    change 0xFFF with (2 ^ 12 - 1) in H. rewrite (land_low_mask 12) in H by lia. lia.
Qed.

Lemma li_last_step a v c : 0 < a < 32 -> 0 <= v < 4294967296 -> (li_short v = false -> get c a = li_high v) ->
  exists c', step (li_last a v) c = Some c' /\ loaded a v c c'.
Proof.
  intros Ha Hv Hc. apply loaded_step; [lia|]. pose proof (li_high_low v Hv) as Hlow.
  destruct (lower_word a a v 0x13 ltac:(lia) ltac:(lia) (or_introl eq_refl)) as (L1 & L2 & L3 & L4 & L5).
  fold (li_lower a v) in L1, L2, L3, L4, L5. unfold li_last, li_short in *.
  destruct (Z.eqb_spec (li_high v) 0) as [Hh|Hh]; [|destruct (Z.eqb_spec (Z.land v 0xFFF) 0) as [Hl|Hl]].
  - change (not32 0x000F8000) with 0xFFF07FFF. set (w := Z.land (li_lower a v) 0xFFF07FFF).
    assert (K : opcode w = 0x13 /\ funct3 w = 0 /\ rd w = a /\ rs1 w = 0 /\ imm_I w = sext 12 (v mod 2 ^ 12)).
    { subst w. unfold opcode, funct3, rd, rs1, imm_I in *. repeat split; repeat field_atom; auto. }
    destruct K as (K1 & K2 & K3 & K4 & K5). rewrite step_addi by assumption. rewrite K3, K4, K5.
    change (get c 0) with 0. rewrite <- Hh at 1. rewrite Hlow. reflexivity.
  - destruct (low_zero v Hv Hl) as (Z1 & Z2 & Z3). set (w := Z.lor (Z.land (li_upper a v) 0xFFF) v).
    destruct (upper_word a (u32 (v + 0x800)) 0x37 ltac:(lia) (or_introl eq_refl)) as (U1 & U2 & U3).
    fold (li_high v) (li_upper a v) in U1, U2, U3.
    assert (K : opcode w = 0x37 /\ rd w = a /\ imm_U w = v).
    { subst w. rewrite imm_U_lor, Z3, (imm_U_small (Z.land _ 0xFFF)), Z.lor_0_l by (pose proof (land_range (li_upper a v) 0xFFF); lia).
      unfold opcode, rd in *. repeat split; repeat field_atom; rewrite ?Z1, ?Z2, Z.lor_0_r; auto. }
    destruct K as (K1 & K2 & K3). rewrite step_lui by assumption. rewrite K2, K3. reflexivity.
  - rewrite step_addi by assumption. rewrite L3, L4, L5, Hc by reflexivity. rewrite Hlow. reflexivity.
Qed.

(** The upper part of a distance from the program counter, added to it. *)
Definition pc_upper (a d : Z) : Z := Z.lor (Z.lor (shl a 7) (li_high d)) 0x17.

Lemma pc_upper_step a d c : 0 < a < 32 ->
  exists c', step (pc_upper a d) c = Some c' /\ loaded a (u32 (pc c + li_high d)) c c'.
Proof.
  intros Ha. destruct (upper_word a (u32 (d + 0x800)) 0x17 ltac:(lia) (or_intror eq_refl)) as (U1 & U2 & U3).
  fold (li_high d) (pc_upper a d) in U1, U2, U3. apply loaded_step; [lia|].
  rewrite step_auipc by exact U1. rewrite U2, U3. reflexivity.
Qed.

(** Adding the lower part to it gives the target. *)
Lemma pc_low v q : is_u32 v -> u32 (u32 (q + li_high (u32 (v - q))) + sext 12 (u32 (v - q) mod 2 ^ 12)) = v.
Proof.
  intros Hv. rewrite u32_add_u32_l, <- Z.add_assoc, <- u32_add_u32_r, li_high_low by apply u32_range.
  rewrite u32_add_u32_r. replace (q + (v - q)) with v by lia. apply u32_id, Hv.
Qed.

Lemma auipc_prefix_eq r d : 0 <= r < 32 -> is_u32 d -> auipc_prefix r d = pc_upper r d.
Proof.
  intros Hr Hd. unfold auipc_prefix, pc_upper, li_high, is_u32 in *.
  replace (Z.land (u32 (d + 0x800)) 0xFFFFF000) with
    (if Z.land d 0x800 =? 0 then Z.land d 0xFFFFF000 else u32 (Z.land d 0xFFFFF000 + 0x1000)).
  { destruct (_ =? 0); rewrite (Z.lor_comm 23), <- !Z.lor_assoc; f_equal; apply Z.lor_comm. }
  assert (Hb : Z.land d 0x800 = Z.shiftl (field d 11 1) 11).
  { apply word_eq; [apply word_land; unfold is_u32; lia|apply word_shift_field; lia|].
    apply (lt32_cases (fun i => Z.testbit _ i = Z.testbit _ i)); bit_expand; reflexivity. }
  rewrite Hb. unfold field. rewrite Z.land_ones, Z.shiftr_div_pow2, Z.shiftl_mul_pow2 by lia.
  change 0xFFFFF000 with (4294967296 - 2 ^ 12). rewrite !land_high_mask by (try apply u32_range; lia).
  change (2 ^ 12) with 4096. change (2 ^ 11) with 2048. change (2 ^ 1) with 2. unfold u32.
  destruct (Z.eqb_spec ((d / 2048) mod 2 * 2048) 0); dlia.
Qed.

(** The word [addr_mode] packs a register and an offset in, taken apart again. *)
Definition packed (r d : Z) : Z := Z.lor (shl r 16) (Z.land d 0xFFF).

Ltac word_parts := apply word_eq;
  [ repeat apply word_lor; try apply u32_range; try (apply word_land; unfold is_u32; lia)
  | repeat apply word_lor; try apply u32_range; try (apply word_land; unfold is_u32; lia)
  | apply (lt32_cases (fun i => Z.testbit _ i = Z.testbit _ i)); unfold shl; bit_expand ].

Lemma packed_low r d : Z.land (packed r d) 0xFFF = Z.land d 0xFFF.
Proof. unfold packed. word_parts; reflexivity. Qed.

Lemma packed_register r d : 0 <= r < 32 -> Z.shiftr (Z.land (packed r d) 0x001F0000) 1 = shl r 15.
Proof.
  intros Hr. unfold packed. apply word_eq; [|apply u32_range|].
  - rewrite Z.shiftr_div_pow2 by lia. pose proof (land_range (Z.lor (shl r 16) (Z.land d 0xFFF)) 0x001F0000 ltac:(lia)).
    change (2 ^ 1) with 2. dlia.
  - apply (lt32_cases (fun i => Z.testbit _ i = Z.testbit _ i)); unfold shl; bit_expand; try reflexivity;
      symmetry; apply (testbit_high r 5); simpl; lia.
Qed.

Lemma load_fields_packed r d : 0 <= r < 32 -> load_fields (packed r d) = Z.lor (shl (Z.land d 0xFFF) 20) (shl r 15).
Proof. intros Hr. unfold load_fields. rewrite packed_low, packed_register by exact Hr. reflexivity. Qed.

Lemma store_fields_packed r d : 0 <= r < 32 ->
  store_fields (packed r d) = Z.lor (Z.lor (shl (Z.land d 0xFE0) 20) (shl (Z.land d 0x1F) 7)) (shl r 15).
Proof.
  intros Hr. unfold store_fields. rewrite packed_register by exact Hr. f_equal.
  assert (E : forall m, Z.land 0xFFF m = m -> Z.land (packed r d) m = Z.land d m).
  { intros m Hm. rewrite <- Hm, !Z.land_assoc, packed_low. reflexivity. }
  rewrite !E by reflexivity. f_equal. unfold shl. symmetry. apply u32_id. rewrite Z.shiftl_mul_pow2 by lia.
  pose proof (land_range d 0x1F ltac:(lia)). change (2 ^ 7) with 128. lia.
Qed.

(** The words of a call: the upper part of the distance in [t], a jump through it that
    links in [l]; or one jump that links in x1. *)
Definition call_lower (t l d : Z) : Z :=
  Z.lor (Z.lor (Z.lor (shl l 7) (shl t 15)) (Z.land (shl d 20) 0xFFF00000)) 0x67.

Lemma call_lower_step t l d c : 0 <= t < 32 -> 0 <= l < 32 ->
  step (call_lower t l d) c =
    Some (jump (Z.land (u32 (get c t + sext 12 (d mod 2 ^ 12))) 0xFFFFFFFE) (set l (u32 (pc c + 4)) c)).
Proof.
  intros Ht Hl. destruct (lower_word l t d 0x67 Hl Ht (or_intror eq_refl)) as (L1 & L2 & L3 & L4 & L5).
  fold (call_lower t l d) in L1, L2, L3, L4, L5. rewrite step_jalr by assumption. rewrite L3, L4, L5. reflexivity.
Qed.

Lemma land_even v : is_u32 v -> v mod 2 = 0 -> Z.land v 0xFFFFFFFE = v.
Proof.
  intros Hv He. change 0xFFFFFFFE with (4294967296 - 2 ^ 1). rewrite land_high_mask by (unfold is_u32 in Hv; lia).
  change (2 ^ 1) with 2. lia.
Qed.

Lemma jal_ra_step d c : Z.land d 1 = 0 -> - 1048576 <= s32 d < 1048576 ->
  step (Z.lor 0xEF (imm_jal d)) c = Some (jump (pc c + s32 d) (set 1 (u32 (pc c + 4)) c)).
Proof.
  intros He Hd. destruct (imm_jal_fields d) as (F1 & F2 & F3 & F4 & F5 & F6).
  assert (K : opcode (Z.lor 0xEF (imm_jal d)) = 0x6F /\ rd (Z.lor 0xEF (imm_jal d)) = 1 /\ imm_J (Z.lor 0xEF (imm_jal d)) = s32 d).
  { unfold opcode, rd. rewrite !field_lor, F5, F6 by lia. split; [reflexivity|]. split; [reflexivity|].
    unfold imm_J, bits_J. rewrite !field_lor by lia. repeat field_atom. rewrite ?Z.lor_0_l.
    fold (bits_J (imm_jal d)). rewrite bits_J_jal, sext_s32 by (assumption || (simpl; lia)). reflexivity. }
  destruct K as (K1 & K2 & K3). rewrite step_jal by exact K1. rewrite K2, K3. reflexivity.
Qed.

(** Is a call's target within reach of one jump? *)
Definition near (d : Z) : bool := ((-1048576 <=? s32 d) && (s32 d <? 1048576))%bool.

Lemma near_test d : is_u32 d -> truthy (Z.land (u32 (d + 0x100000)) 0xFFE00000) = negb (near d).
Proof.
  intros Hd. unfold truthy, near. f_equal. change 0xFFE00000 with (4294967296 - 2 ^ 21).
  rewrite land_high_mask by (try apply u32_range; lia). change (2 ^ 21) with 2097152. unfold is_u32 in Hd.
  apply Bool.eq_iff_eq_true. rewrite andb_true_iff, Z.eqb_eq, Z.leb_le, Z.ltb_lt. unfold u32, s32. dlia.
Qed.

Lemma token_registers token : Z.shiftr (Z.land token 0x01F00000) 13 = shl (field token 20 5) 7 /\
  Z.shiftr (Z.land token 0x01F00000) 5 = shl (field token 20 5) 15 /\
  Z.shiftr (Z.land token 0x3E000000) 18 = shl (field token 25 5) 7.
Proof.
  assert (R : forall m k, 0 <= m < 4294967296 -> 0 <= k -> is_u32 (Z.shiftr (Z.land token m) k)).
  { intros m k Hm Hk. pose proof (land_range token m ltac:(lia)). rewrite Z.shiftr_div_pow2 by exact Hk.
    assert (0 < 2 ^ k) by (apply Z.pow_pos_nonneg; lia). split; [apply Z.div_pos; lia|].
    apply Z.div_lt_upper_bound; [lia|]. nia. }
  repeat split; (apply word_eq; [apply R; lia|apply u32_range|]);
    apply (lt32_cases (fun i => Z.testbit _ i = Z.testbit _ i)); unfold shl; bit_expand; reflexivity.
Qed.

Lemma store_high d : field (shl (Z.land d 0xFE0) 20) 25 7 = field d 5 7 /\ field (shl (Z.land d 0xFE0) 20) 20 5 = 0.
Proof. unfold shl. split; field_same. Qed.

Lemma store_offset d : Z.lor (Z.shiftl (field d 5 7) 5) (Z.land d 0x1F) = d mod 2 ^ 12.
Proof.
  rewrite <- Z.land_ones by lia. change (Z.ones 12) with 0xFFF. apply word_eq.
  - apply word_lor; [apply word_shift_field; lia|apply word_land; unfold is_u32; lia].
  - apply word_land; unfold is_u32; lia.
  - apply (lt32_cases (fun i => Z.testbit _ i = Z.testbit _ i)); bit_expand; reflexivity.
Qed.

(** ** The bytes of a sequence of words *)

Definition word_bytes (p w : Z) : list (Z * Z) :=
  map (fun i => (u32 (p + Z.of_nat i), Z.land (Z.shiftr w (8 * Z.of_nat i)) 0xFF)) (seq 0 4).

Fixpoint words_bytes (p : Z) (ws : list Z) : list (Z * Z) :=
  match ws with [] => [] | w :: ws => word_bytes p w ++ words_bytes (u32 (p + 4)) ws end.

(** Assembling turned [s] into [s'] without an error and planted the words [ws] from
    the assembly pointer on, little-endian. *)
Definition plants (s s' : astate) (ws : list Z) : Prop :=
  as_error s' = eval_okay /\ as_bytes s' = as_bytes s ++ words_bytes (as_pointer s) ws /\
  as_pointer s' = u32 (as_pointer s + 4 * Z.of_nat (length ws)).

(** It failed with error [e], and a zero word holds the place. *)
Definition fails (s s' : astate) (e : Z) : Prop :=
  as_error s' = e /\ as_bytes s' = as_bytes s ++ words_bytes (as_pointer s) [0] /\
  as_pointer s' = u32 (as_pointer s + 4).

Section Program.

Context (line : list Z) (token pass_count : Z) (env : eval_env).
Context (registers : list Z -> res (option (Z * Z))) (junk : Z) (junk_flag : bool).

Local Abbreviation reg_at := (reg_at line registers).
Local Abbreviation reg_comma_at := (reg_comma_at line registers).
Local Abbreviation char_at := (char_at line).
Local Abbreviation char_not_at := (char_not_at line).
Local Abbreviation expr_at := (expr_at line env).
Local Abbreviation encode := (encode line token false true pass_count env registers true true junk junk_flag).

(** The handler on the last pass, outside a false IF, with output on. *)
Definition assemble : A unit :=
  rv32i_mnemonic line token false true pass_count env registers true true junk junk_flag.

(** Ready for the operands, which start at position [p]. *)
Definition ready (s : astate) (p : Z) : Prop :=
  as_error s = eval_okay /\ as_position s = p /\ is_u32 (as_pointer s).

Lemma assemble_plain s w s1 : encode s = Ok (w, s1) -> as_error s1 = eval_okay ->
  as_pointer s1 = as_pointer s -> as_bytes s1 = as_bytes s ->
  exists s2, assemble s = Ok (tt, s2) /\ plants s s2 [w].
Proof.
  intros E He1 Hptr Hb. unfold assemble, rv32i_mnemonic. cbn [orb].
  rewrite (abind_step _ _ _ _ _ E). unfold abind, error_code, assembly_pointer. cbn [rbind]. rewrite He1.
  change (eval_okay =? eval_okay) with true. cbv iota. unfold byte_dump, abind, state, set_bytes, set_pointer. simpl.
  eexists. split; [reflexivity|]. unfold plants. cbn. rewrite He1, Hb, Hptr. repeat split.
Qed.

Lemma assemble_one s w s1 p : encode s = Ok (w, s1) -> moved p s s1 ->
  exists s2, assemble s = Ok (tt, s2) /\ plants s s2 [w].
Proof. intros E (He & He1 & Hp & Hptr & Hs & Hat & Hc & Hb). eapply assemble_plain; eassumption. Qed.

Lemma assemble_two s prefix w s1 : encode s = Ok (w, s1) -> as_error s1 = eval_okay ->
  as_bytes s1 = as_bytes s ++ word_bytes (as_pointer s) prefix -> as_pointer s1 = u32 (as_pointer s + 4) ->
  exists s2, assemble s = Ok (tt, s2) /\ plants s s2 [prefix; w].
Proof.
  intros E He1 Hb Hptr. unfold assemble, rv32i_mnemonic. cbn [orb].
  rewrite (abind_step _ _ _ _ _ E). unfold abind, error_code, assembly_pointer. cbn [rbind]. rewrite He1.
  change (eval_okay =? eval_okay) with true. cbv iota. unfold byte_dump, abind, state, set_bytes, set_pointer. simpl.
  eexists. split; [reflexivity|]. unfold plants. cbn. rewrite He1, Hb, Hptr. split; [reflexivity|]. split.
  - rewrite <- app_assoc. reflexivity.
  - rewrite u32_add_u32_l. f_equal. lia.
Qed.

Lemma assemble_fails s w s1 e : encode s = Ok (w, s1) -> as_error s1 = e -> e <> eval_okay ->
  as_pointer s1 = as_pointer s -> as_bytes s1 = as_bytes s ->
  exists s2, assemble s = Ok (tt, s2) /\ fails s s2 e.
Proof.
  intros E He1 Hne Hptr Hb. unfold assemble, rv32i_mnemonic. cbn [orb].
  rewrite (abind_step _ _ _ _ _ E). unfold abind, error_code, assembly_pointer. cbn [rbind]. rewrite He1.
  replace (e =? eval_okay) with false by (symmetry; apply Z.eqb_neq; exact Hne).
  unfold byte_dump, abind, state, set_bytes, set_pointer. simpl.
  eexists. split; [reflexivity|]. unfold fails. cbn. rewrite He1, Hb, Hptr. repeat split.
Qed.

(** An instruction on three registers: its word has the opcode and function fields of
    the mnemonic and the three registers in their places. *)
Theorem assemble_r_type s p p1 p2 p3 a b c : Z.land token 0x000F0000 = 0x00060000 ->
  ready s p -> reg_comma_at p a p1 -> reg_comma_at p1 b p2 -> reg_at p2 c p3 ->
  exists w s', assemble s = Ok (tt, s') /\ plants s s' [w] /\
    opcode w = Z.lor (op_field token) 3 /\ funct3 w = field token 25 3 /\ funct7 w = field token 8 7 /\
    rd w = a /\ rs1 w = b /\ rs2 w = c.
Proof.
  intros Ht (He & <- & _) Ha Hb Hc.
  destruct (reg_comma_step line registers 7 s a p1 He Ha) as (s1 & E1 & H1 & Ra).
  pose proof H1 as (_ & He1 & <- & _).
  destruct (reg_comma_step line registers 15 s1 b p2 He1 Hb) as (s2 & E2 & H2 & Rb).
  pose proof H2 as (_ & He2 & <- & _).
  destruct (reg_last_step line registers 20 s2 c p3 He2 Hc) as (s3 & E3 & H3 & Rc).
  pose proof (moved_trans _ _ _ _ _ H1 (moved_trans _ _ _ _ _ H2 H3)) as H.
  edestruct (assemble_one s) as (s' & Es & Hs).
  - unfold RvaEncode.encode. rewrite Ht. cbn [Z.eqb Pos.eqb]. unfold r_type.
    rewrite (abind_step _ _ _ _ _ E1). erewrite abind_step; [|rewrite if_okay_step by exact He1; exact E2].
    erewrite abind_step; [|rewrite if_okay_step by exact He2; exact E3]. reflexivity.
  - exact H.
  - eexists _, s'. split; [exact Es|]. split; [exact Hs|]. repeat split; decode_fields.
Qed.

(** The value an immediate instruction encodes: SUBI is ADDI of the opposite. *)
Definition i_value (v : Z) : Z := if truthy (Z.land token 0x10000000) then u32 (- v) else v.

(** An instruction with an immediate: the word carries the two registers and the
    immediate, sign-extended from 12 bits, or the 5 bits of a shift distance beside
    the mnemonic's function bits; a value that does not fit is an error, and nothing
    but a zero word is planted. *)
Theorem assemble_i_type s p p1 p2 p3 a b v : Z.land token 0x000F0000 = 0x00020000 ->
  ready s p -> reg_comma_at p a p1 -> reg_comma_at p1 b p2 -> expr_at (as_pointer s) p2 v p3 ->
  let shift := Z.land token 0x06000000 =? 0x02000000 in
  let x := i_value v in
  if (if shift then x <? 32 else (-2048 <=? s32 x) && (s32 x <? 2048))%bool
  then exists w s', assemble s = Ok (tt, s') /\ plants s s' [w] /\
    opcode w = Z.lor (op_field token) 3 /\ funct3 w = field token 25 3 /\ rd w = a /\ rs1 w = b /\
    (if shift then rs2 w = x /\ funct7 w = field token 8 7 else imm_I w = s32 x)
  else exists s', assemble s = Ok (tt, s') /\ fails s s' SYM_OORANGE.
Proof.
  intros Ht (He & <- & Hptr) Ha Hb Hv shift x.
  destruct (reg_comma_step line registers 7 s a p1 He Ha) as (s1 & E1 & H1 & Ra). pose proof H1 as (_ & He1 & <- & _).
  destruct (reg_comma_step line registers 15 s1 b p2 He1 Hb) as (s2 & E2 & H2 & Rb).
  pose proof (moved_trans _ _ _ _ _ H1 H2) as H12. pose proof H12 as (_ & He2 & <- & Hp2 & _). rewrite <- Hp2 in Hv.
  destruct (evaluate_allow_at line env false true s2 v p3 He2 Hv) as (s3 & E3 & H3 & Rv).
  pose proof (moved_trans _ _ _ _ _ H12 H3) as H.
  assert (Rx : is_u32 x) by (subst x; unfold i_value; destruct (truthy _); [apply u32_range|exact Rv]).
  assert (E : forall f, encode s = f -> i_type line token false true env registers s = f).
  { intros f <-. unfold RvaEncode.encode. rewrite Ht. reflexivity. }
  unfold i_type in E. rewrite (abind_step _ _ _ _ _ E1) in E.
  erewrite abind_step in E; [|rewrite if_okay_step by exact He1; exact E2].
  rewrite if_okay_step in E by exact He2. rewrite (abind_step _ _ _ _ _ E3) in E.
  cbv zeta in E. fold (i_value v) in E. fold x in E. fold shift in E.
  specialize (E _ eq_refl). symmetry in E.
  assert (Hfail : forall w, encode s = (do% set_error SYM_OORANGE in aret w) s3 ->
    exists s', assemble s = Ok (tt, s') /\ fails s s' SYM_OORANGE).
  { intros w Ew. eapply (assemble_fails s w); [exact Ew|reflexivity|discriminate| |]; apply H. }
  destruct shift eqn:Hsh.
  - replace (Z.land x 0xFFFFFFE0 =? 0) with (x <? 32) in E.
    2: { change 0xFFFFFFE0 with (4294967296 - 2 ^ 5). rewrite land_high_mask by (unfold is_u32 in Rx; lia).
         change (2 ^ 5) with 32. unfold is_u32 in Rx. destruct (Z.ltb_spec x 32), (Z.eqb_spec (x - x mod 32) 0); dlia. }
    destruct (Z.ltb_spec x 32) as [Hlt|Hge]; [|apply Hfail in E; exact E].
    destruct (assemble_one s _ s3 p3 E H) as (s' & Es & Hs). eexists _, s'. split; [exact Es|]. split; [exact Hs|].
    change 0x1F with (2 ^ 5 - 1). rewrite (land_low_mask 5), (Z.mod_small x (2 ^ 5)) by (change (2 ^ 5) with 32; unfold is_u32 in Rx; lia).
    assert (0 <= x < 32) by (unfold is_u32 in Rx; lia). repeat split; decode_fields.
  - change 0xFFFFF800 with (4294967296 - 2 ^ 11) in E. rewrite in_range_iff in E by (exact Rx || lia). 
    change (2 ^ 11) with 2048 in E. change (- (2048)) with (-2048) in E.
    destruct ((-2048 <=? s32 x) && (s32 x <? 2048))%bool eqn:Hr; [|apply Hfail in E; exact E].
    apply andb_true_iff in Hr as [Hr1%Z.leb_le Hr2%Z.ltb_lt].
    destruct (assemble_one s _ s3 p3 E H) as (s' & Es & Hs). eexists _, s'. split; [exact Es|]. split; [exact Hs|].
    repeat split; try decode_fields. change 0xFFF with (2 ^ 12 - 1). rewrite (land_low_mask 12) by lia.
    unfold imm_I. rewrite !field_lor by lia. rewrite (shl_exact _ 20 12) by (try apply Z.mod_pos_bound; lia).
    repeat field_atom. rewrite ?Z.lor_0_l. apply sext_s32; [lia|]. simpl. lia.
Qed.

(** The distance to a target, as a signed number, is in the words as a pattern. *)
Lemma distance_even v q : Z.land (u32 (v - q)) 1 = (v - q) mod 2.
Proof. rewrite land_1. unfold u32. dlia. Qed.

(** A conditional branch: the word's registers are those on the line, exchanged for
    the mnemonics that test the opposite order, and its offset is the distance to the
    target; an odd distance or one outside 4 KiB is an error. *)
Theorem assemble_branch s p p1 p2 p3 a b v : Z.land token 0x000F0000 = 0x00030000 ->
  ready s p -> reg_comma_at p a p1 -> reg_comma_at p1 b p2 -> expr_at (as_pointer s) p2 v p3 ->
  let d := s32 (v - as_pointer s) in
  let swap := truthy (Z.land token 0xF0000000) in
  if (v - as_pointer s) mod 2 =? 0 then
    if ((-4096 <=? d) && (d <? 4096))%bool
    then exists w s', assemble s = Ok (tt, s') /\ plants s s' [w] /\
      opcode w = Z.lor (op_field token) 3 /\ funct3 w = field token 25 3 /\
      rs1 w = (if swap then b else a) /\ rs2 w = (if swap then a else b) /\ imm_B w = d
    else exists s', assemble s = Ok (tt, s') /\ fails s s' SYM_OORANGE_BRANCH
  else exists s', assemble s = Ok (tt, s') /\ fails s s' SYM_UNALIGNED_BRANCH.
Proof.
  intros Ht (He & <- & Hptr) Ha Hb Hv d swap.
  destruct (reg_comma_step line registers (if swap then 20 else 15) s a p1 He Ha) as (s1 & E1 & H1 & Ra).
  pose proof H1 as (_ & He1 & <- & _).
  destruct (reg_comma_step line registers (if swap then 15 else 20) s1 b p2 He1 Hb) as (s2 & E2 & H2 & Rb).
  pose proof (moved_trans _ _ _ _ _ H1 H2) as H12. pose proof H12 as (_ & He2 & <- & Hp2 & _). rewrite <- Hp2 in Hv.
  destruct (evaluate_allow_at line env false true s2 v p3 He2 Hv) as (s3 & E3 & H3 & Rv).
  pose proof (moved_trans _ _ _ _ _ H12 H3) as H. pose proof H as (_ & _ & _ & Hp3 & _).
  assert (E : encode s = b_type line token false true env registers junk s).
  { unfold RvaEncode.encode. rewrite Ht. reflexivity. }
  unfold b_type in E. fold swap in E. rewrite (abind_step _ _ _ _ _ E1) in E.
  erewrite abind_step in E; [|rewrite if_okay_step by exact He1; exact E2].
  rewrite if_okay_step in E by exact He2. unfold b_offset at 1 in E. unfold abind at 1 in E.
  rewrite (abind_step _ _ _ _ _ E3) in E. unfold abind at 1, assembly_pointer at 1 in E. cbn [rbind] in E. rewrite Hp3 in E.
  rewrite distance_even in E.
  assert (Hfail : forall w e, e <> eval_okay -> encode s = (let* (x, s0) := (do% set_error e in aret junk) s3 in aret (Z.lor w x) s0) ->
    exists s', assemble s = Ok (tt, s') /\ fails s s' e).
  { intros w e Hne Ew. eapply (assemble_fails s (Z.lor w junk)); [exact Ew|reflexivity|exact Hne| |]; apply H. }
  unfold truthy at 1 in E.
  destruct (Z.eqb_spec ((v - as_pointer s) mod 2) 0) as [Hev|Hodd]; cbn [negb] in E;
    [|apply Hfail in E; [exact E|discriminate]].
  change 0xFFFFF000 with (4294967296 - 2 ^ 12) in E. rewrite in_range_iff in E by (apply u32_range || lia).
  rewrite s32_u32 in E. fold d in E. change (2 ^ 12) with 4096 in E. change (- (4096)) with (-4096) in E.
  destruct ((-4096 <=? d) && (d <? 4096))%bool eqn:Hr; [|apply Hfail in E; [exact E|discriminate]].
  apply andb_true_iff in Hr as [Hr1%Z.leb_le Hr2%Z.ltb_lt].
  destruct (assemble_one s _ s3 p3 E H) as (s' & Es & Hs). eexists _, s'. split; [exact Es|]. split; [exact Hs|].
  destruct (imm_branch_fields (u32 (v - as_pointer s))) as (F1 & F2 & F3 & F4 & F5 & F6 & F7 & F8).
  pose proof (bits_B_branch (u32 (v - as_pointer s)) ltac:(rewrite distance_even; exact Hev)) as FB.
  unfold opcode, funct3, rs1, rs2. rewrite !field_lor, F5, F6, F7, F8 by lia.
  destruct swap; (repeat split; try (repeat field_atom; rewrite ?Z.lor_0_l, ?Z.lor_0_r; reflexivity));
    (unfold imm_B, bits_B; rewrite !field_lor by lia; repeat field_atom; rewrite ?Z.lor_0_l; fold (bits_B (imm_branch (u32 (v - as_pointer s))));
     rewrite FB, sext_s32, s32_u32 by (rewrite ?s32_u32; simpl; lia); reflexivity).
Qed.

(** JAL: the link register on the line and the distance to the target, which must be
    even and within 1 MiB. *)
Theorem assemble_jal s p p1 p2 a v : Z.land token 0x000F0000 = 0x00010000 ->
  ready s p -> reg_comma_at p a p1 -> expr_at (as_pointer s) p1 v p2 ->
  let d := s32 (v - as_pointer s) in
  if (v - as_pointer s) mod 2 =? 0 then
    if ((-1048576 <=? d) && (d <? 1048576))%bool
    then exists w s', assemble s = Ok (tt, s') /\ plants s s' [w] /\
      opcode w = Z.lor (op_field token) 3 /\ rd w = a /\ imm_J w = d
    else exists s', assemble s = Ok (tt, s') /\ fails s s' SYM_OORANGE_BRANCH
  else exists s', assemble s = Ok (tt, s') /\ fails s s' SYM_UNALIGNED_BRANCH.
Proof.
  intros Ht (He & <- & Hptr) (q & Ha & Hc) Hv d.
  destruct (get_reg_at line registers s a q He Ha) as (s1 & E1 & H1 & Ra).
  pose proof H1 as (_ & He1 & <- & _).
  destruct (next_is_at line s1 44 p1 He1 Hc) as (s2 & E2 & H2).
  pose proof (moved_trans _ _ _ _ _ H1 H2) as H12. pose proof H12 as (_ & He2 & <- & Hp2 & _). rewrite <- Hp2 in Hv.
  destruct (evaluate_allow_at line env false true s2 v p2 He2 Hv) as (s3 & E3 & H3 & Rv).
  pose proof (moved_trans _ _ _ _ _ H12 H3) as H. pose proof H as (_ & _ & _ & Hp3 & _).
  assert (E : encode s = j_type line token false true env registers s).
  { unfold RvaEncode.encode. rewrite Ht. reflexivity. }
  unfold j_type in E. rewrite (abind_step _ _ _ _ _ E1) in E.
  replace (0 <=? a) with true in E by (symmetry; apply Z.leb_le; lia).
  erewrite abind_step in E; [|rewrite (abind_step _ _ _ _ _ E2); reflexivity].
  rewrite if_okay_step in E by exact He2. rewrite (abind_step _ _ _ _ _ E3) in E.
  unfold abind at 1, assembly_pointer in E. cbn [rbind] in E. rewrite Hp3, distance_even in E. unfold truthy in E.
  assert (Hfail : forall w e, e <> eval_okay -> encode s = (do% set_error e in aret w) s3 ->
    exists s', assemble s = Ok (tt, s') /\ fails s s' e).
  { intros w e Hne Ew. eapply (assemble_fails s w); [exact Ew|reflexivity|exact Hne| |]; apply H. }
  destruct (Z.eqb_spec ((v - as_pointer s) mod 2) 0) as [Hev|Hodd]; cbn [negb] in E;
    [|apply Hfail in E; [exact E|discriminate]].
  change 0xFFF00000 with (4294967296 - 2 ^ 20) in E. rewrite in_range_iff in E by (apply u32_range || lia).
  rewrite s32_u32 in E. fold d in E. change (2 ^ 20) with 1048576 in E. change (- (1048576)) with (-1048576) in E.
  destruct ((-1048576 <=? d) && (d <? 1048576))%bool eqn:Hr; [|apply Hfail in E; [exact E|discriminate]].
  apply andb_true_iff in Hr as [Hr1%Z.leb_le Hr2%Z.ltb_lt].
  destruct (assemble_one s _ s3 p2 E H) as (s' & Es & Hs). eexists _, s'. split; [exact Es|]. split; [exact Hs|].
  destruct (imm_jal_fields (u32 (v - as_pointer s))) as (F1 & F2 & F3 & F4 & F5 & F6).
  pose proof (bits_J_jal (u32 (v - as_pointer s)) ltac:(rewrite distance_even; exact Hev)) as FB.
  unfold opcode, rd. rewrite !field_lor, F5, F6 by lia.
  repeat split; try (repeat field_atom; rewrite ?Z.lor_0_l, ?Z.lor_0_r; reflexivity).
  unfold imm_J, bits_J. rewrite !field_lor by lia. repeat field_atom. rewrite ?Z.lor_0_l.
  fold (bits_J (imm_jal (u32 (v - as_pointer s)))).
  rewrite FB, sext_s32, s32_u32 by (rewrite ?s32_u32; simpl; lia). reflexivity.
Qed.

(** ** Pseudo-operations of one or two words *)

(** The size a variable length operation is given, [current] being the one recorded. *)
Definition allocated (current size : Z) : Z :=
  if current =? size then size else if ((pass_count <? SHRINK_STOP) || (current <? size))%bool then size else current.

Lemma variable_item_size_step s current size : as_sizes s !! as_size_at s = Some current ->
  exists s', variable_item_size false pass_count size s = Ok (allocated current size, s') /\
    as_error s' = as_error s /\ as_position s' = as_position s /\ as_pointer s' = as_pointer s /\ as_bytes s' = as_bytes s.
Proof.
  intros H. unfold variable_item_size, abind, state, lift, set_sizes, aret. cbn [rbind]. rewrite H. cbn [of_option rbind].
  unfold allocated. destruct (current =? size); cbn [negb rbind].
  - eexists. split; [reflexivity|]. repeat split.
  - destruct ((pass_count <? SHRINK_STOP) || (current <? size))%bool; (eexists; split; [reflexivity|]; repeat split).
Qed.

(** What the two kinds of long operation come to, given their codes. *)
Lemma assemble_long s p1 p2 s1 rp ro v current prefix op flag : Z.land token 0x000F0000 = 0x000B0000 ->
  long_registers line token registers junk s = Ok ((rp, ro), s1) -> moved p1 s s1 ->
  expr_at (as_pointer s) p1 v p2 -> as_sizes s !! as_size_at s = Some current ->
  long_codes token (if truthy (Z.land token 0x00007000) then u32 (v - as_pointer s) else v) rp ro = (prefix, op, flag, true) ->
  exists s', assemble s = Ok (tt, s') /\
    plants s s' (if (flag || (allocated current (if flag then 8 else 4) =? 8))%bool then [prefix; op] else [op]).
Proof.
  intros Ht Er H1 Hv Hsz Hcodes. pose proof H1 as (He & He1 & <- & Hp1 & Hs1 & Ha1 & Hb1 & Hbytes1). rewrite <- Hp1 in Hv.
  destruct (evaluate_allow_at line env false true s1 v p2 He1 Hv) as (s2 & E2 & H2 & _).
  pose proof (moved_trans _ _ _ _ _ H1 H2) as (_ & He2 & Hpos2 & Hp2 & Hs2 & Ha2 & _ & Hbytes2).
  rewrite <- Hs2, <- Ha2 in Hsz.
  destruct (variable_item_size_step s2 current (if flag then 8 else 4) Hsz) as (s3 & E3 & He3 & Hpos3 & Hp3 & Hbytes3).
  assert (E : encode s = long_type line token false true pass_count env registers true true junk junk_flag s).
  { unfold RvaEncode.encode. rewrite Ht. reflexivity. }
  unfold long_type in E. rewrite (abind_step _ _ _ _ _ Er) in E.
  erewrite abind_step in E.
  2: { rewrite if_okay_step by exact He1. rewrite (abind_step _ _ _ _ _ E2). unfold abind, assembly_pointer. cbn [rbind].
       rewrite Hp2, Hcodes. reflexivity. }
  cbv beta iota in E. rewrite (abind_step _ _ _ _ _ E3) in E. cbv zeta in E.
  assert (Hf : (if allocated current (if flag then 8 else 4) =? 8 then true else flag) =
    (flag || (allocated current (if flag then 8 else 4) =? 8))%bool) by (destruct flag, (_ =? 8); reflexivity).
  rewrite Hf in E. destruct (flag || _)%bool.
  - eapply assemble_two; [exact E| | |]; cbn; rewrite ?He3, ?Hbytes3, ?Hp3, ?Hbytes2, ?Hp2; auto.
  - eapply assemble_plain; [exact E| | |]; congruence.
Qed.

Lemma long_registers_named s a p1 : Z.land token 0x00002000 = 0 -> as_error s = eval_okay ->
  reg_comma_at (as_position s) a p1 ->
  exists s1, long_registers line token registers junk s = Ok ((shl a 7, Z.lor (shl a 7) (shl a 15)), s1) /\
    moved p1 s s1 /\ 0 <= a < 32.
Proof.
  intros Ht He (q & Ha & Hc). unfold long_registers. rewrite Ht. change (0 =? 0) with true. cbv iota.
  destruct (get_reg_at line registers s a q He Ha) as (s1 & E1 & H1 & Ra). rewrite (abind_step _ _ _ _ _ E1).
  replace (0 <=? a) with true by (symmetry; apply Z.leb_le; lia). pose proof H1 as (_ & He1 & <- & _).
  destruct (next_is_at line s1 44 p1 He1 Hc) as (s2 & E2 & H2). rewrite (abind_step _ _ _ _ _ E2).
  eexists. split; [reflexivity|]. split; [exact (moved_trans _ _ _ _ _ H1 H2)|exact Ra].
Qed.




(** LA: the two words planted, run where they are, leave the address in the register
    and nothing else changed. *)
Theorem assemble_la s p p1 p2 a v current :
  Z.land token 0x000F0000 = 0x000B0000 -> Z.land token 0x00002000 = 0 -> Z.land token 0x00007000 = 0x00001000 ->
  ready s p -> reg_comma_at p a p1 -> expr_at (as_pointer s) p1 v p2 -> a <> 0 ->
  as_sizes s !! as_size_at s = Some current ->
  exists ws s', assemble s = Ok (tt, s') /\ plants s s' ws /\ length ws = 2%nat /\
    forall c, pc c = as_pointer s -> exists c', run ws c = Some c' /\ get c' a = v /\ pc c' = as_pointer s' /\
      forall r, r <> a -> get c' r = get c r.
Proof.
  intros Ht H2000 H7000 (He & <- & Hptr) Ha Hv Hne Hsz.
  destruct (long_registers_named s a p1 H2000 He Ha) as (s1 & E1 & H1 & Ra). pose proof Hv as (Rv & _).
  set (d := u32 (v - as_pointer s)).
  assert (Hcodes : long_codes token (if truthy (Z.land token 0x00007000) then u32 (v - as_pointer s) else v) (shl a 7)
    (Z.lor (shl a 7) (shl a 15)) = (pc_upper a d, li_lower a d, true, true)).
  { rewrite H7000. unfold long_codes. rewrite H7000. reflexivity. }
  destruct (assemble_long s p1 p2 s1 _ _ v current _ _ _ Ht E1 H1 Hv Hsz Hcodes) as (s' & Es & Hs).
  eexists _, s'. split; [exact Es|]. split; [exact Hs|]. destruct Hs as (_ & _ & ->). cbn [orb]. split; [reflexivity|].
  intros c Hpc. simpl length. destruct (pc_upper_step a d c ltac:(lia)) as (c1 & S1 & G1 & P1 & O1). rewrite Hpc in G1, P1.
  destruct (lower_word a a d 0x13 Ra Ra (or_introl eq_refl)) as (L1 & L2 & L3 & L4 & L5).
  fold (li_lower a d) in L1, L2, L3, L4, L5.
  destruct (loaded_step a v (li_lower a d) c1 ltac:(lia)) as (c2 & S2 & G2 & P2 & O2).
  { rewrite step_addi by assumption. rewrite L3, L4, L5, G1. subst d. rewrite pc_low by exact Rv. reflexivity. }
  exists c2. cbn [run]. rewrite S1, S2. split; [reflexivity|]. split; [exact G2|].
  split; [rewrite P2, P1, u32_add_u32_l; f_equal; lia|]. intros r Hr. rewrite O2, O1; auto.
Qed.

(** What a CALL or TAIL assembles to. *)
Lemma assemble_call_codes s p1 v current : Z.land token 0x000F0000 = 0x000B0000 ->
  Z.land token 0x00007000 = 0x00002000 -> ready s (as_position s) ->
  expr_at (as_pointer s) (as_position s) v p1 -> (v - as_pointer s) mod 2 = 0 -> as_sizes s !! as_size_at s = Some current ->
  let d := u32 (v - as_pointer s) in let t := field token 20 5 in let l := field token 25 5 in
  exists s', assemble s = Ok (tt, s') /\ plants s s'
    (if near d then (if allocated current 4 =? 8 then [Z.lor (shl t 7) (li_high d); Z.lor 0xEF (imm_jal d)] else [Z.lor 0xEF (imm_jal d)])
     else [pc_upper t d; call_lower t l d]).
Proof.
  intros Ht H7000 (He & _ & Hptr) Hv Hev Hsz d t l. destruct (token_registers token) as (T1 & T2 & T3).
  assert (H2000 : Z.land token 0x00002000 =? 0 = false).
  { apply Z.eqb_neq. intros E. apply (f_equal (fun x => Z.land x 0x2000)) in H7000. rewrite <- Z.land_assoc in H7000.
    change (Z.land 0x7000 0x2000) with 0x2000 in H7000. rewrite E in H7000. discriminate. }
  assert (E1 : long_registers line token registers junk s = Ok ((shl t 7, Z.lor (shl t 15) (shl l 7)), s)).
  { unfold long_registers. rewrite H2000, T1, T2, T3. reflexivity. }
  assert (H1 : moved (as_position s) s s) by (repeat split; exact He).
  assert (Hd1 : truthy (Z.land d 1) = false) by (unfold d; rewrite distance_even, Hev; reflexivity).
  assert (Hcodes : long_codes token (if truthy (Z.land token 0x00007000) then u32 (v - as_pointer s) else v) (shl t 7)
    (Z.lor (shl t 15) (shl l 7)) =
    (if near d then (Z.lor (shl t 7) (li_high d), Z.lor 0xEF (imm_jal d), false, true)
     else (pc_upper t d, call_lower t l d, true, true))).
  { rewrite H7000. fold d. unfold long_codes. rewrite H7000. change (0x2000 =? 0) with false.
    change (0x2000 =? 0x1000) with false. change (0x2000 =? 0x2000) with true. change (truthy 0x2000) with true.
    cbv iota zeta. rewrite Hd1, near_test by apply u32_range. destruct (near d); [reflexivity|].
    unfold call_lower, pc_upper. rewrite (Z.lor_comm (shl t 15)). reflexivity. }
  destruct (near d) eqn:Hn;
    destruct (assemble_long s _ p1 s _ _ v current _ _ _ Ht E1 H1 Hv Hsz Hcodes) as (s' & Es & Hs); exists s';
    (split; [exact Es|]); [|exact Hs]. cbn [orb] in Hs. exact Hs.
Qed.

(** CALL: the words planted, when they are run, reach the target with the address after
    them in the link register, provided a call within reach was not given two words
    by an earlier pass. *)
Theorem assemble_call s p1 v current : Z.land token 0x000F0000 = 0x000B0000 ->
  Z.land token 0x00007000 = 0x00002000 -> field token 20 5 <> 0 -> field token 25 5 = 1 ->
  ready s (as_position s) ->
  expr_at (as_pointer s) (as_position s) v p1 -> v mod 2 = 0 -> as_pointer s mod 2 = 0 ->
  as_sizes s !! as_size_at s = Some current ->
  (near (u32 (v - as_pointer s)) = true -> allocated current 4 <> 8) ->
  exists ws s', assemble s = Ok (tt, s') /\ plants s s' ws /\
    forall c, pc c = as_pointer s -> exists c', run ws c = Some c' /\ pc c' = v /\ get c' 1 = as_pointer s' /\
      forall r, r <> 1 -> r <> field token 20 5 -> get c' r = get c r.
Proof.
  intros Ht H7000 Ht0 Hl1 Hr Hv Hv2 Hp2 Hsz Hn. pose proof Hv as (Rv & _).
  assert (Hev : (v - as_pointer s) mod 2 = 0) by dlia.
  destruct (assemble_call_codes s p1 v current Ht H7000 Hr Hv Hev Hsz) as (s' & Es & Hs).
  set (d := u32 (v - as_pointer s)) in *. eexists _, s'. split; [exact Es|]. split; [exact Hs|].
  destruct Hs as (_ & _ & ->). destruct (near d) eqn:En.
  - replace (allocated current 4 =? 8) with false by (symmetry; apply Z.eqb_neq; auto). intros c Hpc. cbn [run length].
    unfold near in En. apply andb_true_iff in En as [En1%Z.leb_le En2%Z.ltb_lt].
    rewrite jal_ra_step by (try lia; subst d; rewrite distance_even; exact Hev).
    eexists. split; [reflexivity|]. rewrite Hpc.
    split; [|split; [apply get_set_eq; lia|intros r Hr1 _; apply get_set_ne; lia]].
    cbn. rewrite <- u32_add_u32_r, u32_s32. subst d. rewrite u32_u32, u32_add_u32_r.
    replace (as_pointer s + (v - as_pointer s)) with v by lia. apply u32_id, Rv.
  - intros c Hpc. cbn [run length]. pose proof (field_range token 20 5 ltac:(lia)). pose proof (field_range token 25 5 ltac:(lia)).
    change (2 ^ 5) with 32 in *. destruct (pc_upper_step (field token 20 5) d c ltac:(lia)) as (c1 & S1 & G1 & P1 & O1). rewrite Hpc in G1, P1.
    rewrite S1, call_lower_step, G1 by lia. subst d. rewrite pc_low, land_even by assumption. rewrite Hl1.
    eexists. split; [reflexivity|]. split; [cbn; apply u32_id, Rv|].
    split; [rewrite get_jump, get_set_eq by lia; rewrite P1, u32_add_u32_l; f_equal; lia|].
    intros r Hr1 Hr2. rewrite get_jump, get_set_ne by lia. apply O1. exact Hr2.
Qed.

(** TAIL should jump without linking (its token names x0), but a target within reach
    is reached by a jump that links in x1: the caller's return address is lost. *)
Theorem tail_links_ra s p1 v current : Z.land token 0x000F0000 = 0x000B0000 ->
  Z.land token 0x00007000 = 0x00002000 -> field token 25 5 = 0 ->
  ready s (as_position s) ->
  expr_at (as_pointer s) (as_position s) v p1 -> (v - as_pointer s) mod 2 = 0 ->
  as_sizes s !! as_size_at s = Some current -> allocated current 4 <> 8 -> near (u32 (v - as_pointer s)) = true ->
  exists w s', assemble s = Ok (tt, s') /\ plants s s' [w] /\
    forall c, pc c = as_pointer s -> exists c', run [w] c = Some c' /\ pc c' = v /\ get c' 1 = u32 (as_pointer s + 4).
Proof.
  intros Ht H7000 _ Hr Hv Hev Hsz Hn Hnear. pose proof Hv as (Rv & _).
  destruct (assemble_call_codes s p1 v current Ht H7000 Hr Hv Hev Hsz) as (s' & Es & Hs).
  apply Z.eqb_neq in Hn. rewrite Hnear, Hn in Hs. eexists _, s'. split; [exact Es|]. split; [exact Hs|].
  intros c Hpc. cbn [run]. unfold near in Hnear. apply andb_true_iff in Hnear as [En1%Z.leb_le En2%Z.ltb_lt].
  rewrite jal_ra_step by (try lia; rewrite distance_even; exact Hev).
  eexists. split; [reflexivity|]. rewrite Hpc. split; [|apply get_set_eq; lia].
  cbn. rewrite <- u32_add_u32_r, u32_s32, u32_u32, u32_add_u32_r.
  replace (as_pointer s + (v - as_pointer s)) with v by lia. apply u32_id, Rv.
Qed.

(** A call within reach that an earlier pass gave two words is broken once sizes may no
    longer shrink: the first word has no opcode, and the jump after it, whose offset
    was taken from the first word's address, goes four bytes past the target. *)
Theorem call_kept_long s p1 v current : Z.land token 0x000F0000 = 0x000B0000 ->
  Z.land token 0x00007000 = 0x00002000 -> ready s (as_position s) ->
  expr_at (as_pointer s) (as_position s) v p1 -> (v - as_pointer s) mod 2 = 0 ->
  as_sizes s !! as_size_at s = Some current -> allocated current 4 = 8 -> near (u32 (v - as_pointer s)) = true ->
  exists w1 w2 s', assemble s = Ok (tt, s') /\ plants s s' [w1; w2] /\ opcode w1 = 0 /\
    forall c, pc c = u32 (as_pointer s + 4) -> exists c', run [w2] c = Some c' /\ pc c' = u32 (v + 4).
Proof.
  intros Ht H7000 Hr Hv Hev Hsz Hn Hnear.
  destruct (assemble_call_codes s p1 v current Ht H7000 Hr Hv Hev Hsz) as (s' & Es & Hs).
  rewrite Hnear, Hn in Hs. eexists _, _, s'. split; [exact Es|]. split; [exact Hs|]. split.
  - pose proof (field_range token 20 5 ltac:(lia)). change (2 ^ 5) with 32 in *. unfold li_high. decode_fields.
  - intros c Hpc. cbn [run]. unfold near in Hnear. apply andb_true_iff in Hnear as [En1%Z.leb_le En2%Z.ltb_lt].
    rewrite jal_ra_step by (try lia; rewrite distance_even; exact Hev).
    eexists. split; [reflexivity|]. cbn. rewrite Hpc, u32_add_u32_l, <- u32_add_u32_r, u32_s32, u32_u32, u32_add_u32_r.
    f_equal. lia.
Qed.

(** ** Loads and stores *)

(** "expression [register]" at [p]; the code steps one character past the bracket. *)
Definition based_at (ptr p offset r p' : Z) : Prop := exists p0 p1 p2 p3 p4,
  char_not_at p 91 p0 /\ expr_at ptr p0 offset p1 /\ char_at p1 91 p2 /\ reg_at p2 r p3 /\ char_at p3 93 p4 /\ p' = p4 + 1.

Lemma base_register_step s r p1 p2 : as_error s = eval_okay -> reg_at (as_position s) r p1 -> char_at p1 93 p2 ->
  exists s', base_register line registers junk true s = Ok (r, s') /\ moved (p2 + 1) s s' /\ 0 <= r < 32.
Proof.
  intros He Hr Hc. destruct (get_reg_at line registers s r p1 He Hr) as (s1 & E1 & H1 & Rr).
  pose proof H1 as (_ & He1 & <- & _). destruct (next_is_at line s1 93 p2 He1 Hc) as (s2 & E2 & H2).
  pose proof (moved_trans _ _ _ _ _ H1 H2) as H. destruct H as (_ & He2 & Hp2 & Hrest).
  unfold base_register. erewrite abind_step.
  2: { rewrite if_okay_step by exact He. rewrite (abind_step _ _ _ _ _ E1).
       replace (0 <=? r) with true by (symmetry; apply Z.leb_le; lia).
       erewrite abind_step; [|rewrite (abind_step _ _ _ _ _ E2); reflexivity]. reflexivity. }
  eexists. split; [unfold abind; rewrite if_okay_step; [reflexivity|exact He2]|].
  split; [|exact Rr]. unfold moved. cbn. rewrite Hp2. repeat split; try assumption; apply Hrest.
Qed.

Lemma addr_mode_based s op offset r p' : as_error s = eval_okay ->
  based_at (as_pointer s) (as_position s) offset r p' -> in_range offset 0xFFFFF800 = true ->
  exists s', addr_mode line token false true env registers junk op s = Ok ((packed r offset, 0), s') /\
    moved p' s s' /\ 0 <= r < 32.
Proof.
  intros He (p0 & p1 & p2 & p3 & p4 & Hn & Hv & Ho & Hr & Hc & ->) Hrange.
  destruct (next_is_not_at line s 91 p0 He Hn) as (s1 & E1 & H1). pose proof H1 as (_ & He1 & <- & Hp1 & _).
  rewrite <- Hp1 in Hv. destruct (evaluate_allow_at line env false true s1 offset p1 He1 Hv) as (s2 & E2 & H2 & _).
  pose proof H2 as (_ & He2 & <- & _). destruct (next_is_at line s2 91 p2 He2 Ho) as (s3 & E3 & H3).
  pose proof H3 as (_ & He3 & <- & _). destruct (base_register_step s3 r p3 p4 He3 Hr Hc) as (s4 & E4 & H4 & Rr).
  pose proof (moved_trans _ _ _ _ _ H1 (moved_trans _ _ _ _ _ H2 (moved_trans _ _ _ _ _ H3 H4))) as H.
  exists s4. split; [|split; [exact H|exact Rr]]. unfold addr_mode. rewrite (abind_step _ _ _ _ _ E1), (abind_step _ _ _ _ _ E2).
  unfold abind at 1, error_code. cbn [rbind]. rewrite He2. change (eval_okay =? eval_okay) with true. cbv iota.
  rewrite (abind_step _ _ _ _ _ E3), Hrange, (abind_step _ _ _ _ _ E4). unfold pack_address, abind, error_code. cbn [rbind].
  pose proof H4 as (_ & -> & _). reflexivity.
Qed.

(** A load or JALR with a base register: the word has the target, the base and the
    offset, sign-extended from 12 bits. *)
Theorem assemble_load s p p1 p2 a offset r : Z.land token 0x000F0000 = 0x00050000 ->
  ready s p -> reg_comma_at p a p1 -> based_at (as_pointer s) p1 offset r p2 -> -2048 <= s32 offset < 2048 ->
  is_u32 offset ->
  exists w s', assemble s = Ok (tt, s') /\ plants s s' [w] /\
    opcode w = Z.lor (op_field token) 3 /\ funct3 w = field token 25 3 /\ rd w = a /\ rs1 w = r /\ imm_I w = s32 offset.
Proof.
  intros Ht (He & <- & Hptr) (q & Ha & Hc) Hb Ho Ro.
  destruct (get_reg_at line registers s a q He Ha) as (s1 & E1 & H1 & Ra). pose proof H1 as (_ & He1 & <- & _).
  destruct (next_is_at line s1 44 p1 He1 Hc) as (s2 & E2 & H2).
  pose proof (moved_trans _ _ _ _ _ H1 H2) as H12. pose proof H12 as (_ & He2 & <- & Hp2 & _). rewrite <- Hp2 in Hb.
  assert (Hrange : in_range offset 0xFFFFF800 = true).
  { change 0xFFFFF800 with (4294967296 - 2 ^ 11). rewrite in_range_iff by (exact Ro || lia).
    apply andb_true_iff. rewrite Z.leb_le, Z.ltb_lt. change (2 ^ 11) with 2048. lia. }
  set (op := Z.lor (Z.lor (Z.lor (op_field token) (funct_field token)) 3) (shl a 7)).
  destruct (addr_mode_based s2 op offset r p2 He2 Hb Hrange) as (s3 & E3 & H3 & Rr).
  pose proof (moved_trans _ _ _ _ _ H12 H3) as H.
  edestruct (assemble_one s) as (s' & Es & Hs); [|exact H|].
  - unfold RvaEncode.encode. rewrite Ht. cbn [Z.eqb Pos.eqb]. unfold load_type.
    erewrite abind_step.
    2: { unfold load_target. rewrite (abind_step _ _ _ _ _ E1). replace (0 <=? a) with true by (symmetry; apply Z.leb_le; lia).
         rewrite (abind_step _ _ _ _ _ E2). reflexivity. }
    cbv beta iota zeta. fold op.
    erewrite abind_step; [|rewrite if_okay_step by exact He2; rewrite (abind_step _ _ _ _ _ E3); reflexivity]. reflexivity.
  - eexists _, s'. split; [exact Es|]. split; [exact Hs|]. rewrite load_fields_packed by exact Rr. subst op.
    change 0xFFF with (2 ^ 12 - 1). rewrite (land_low_mask 12) by lia.
    repeat split; try decode_fields. unfold imm_I. rewrite !field_lor by lia.
    rewrite (shl_exact _ 20 12) by (try apply Z.mod_pos_bound; lia). repeat field_atom. rewrite ?Z.lor_0_l, ?Z.lor_0_r.
    apply sext_s32; [lia|]. simpl. lia.
Qed.

(** "expression" without a bracket at [p]; a store has ", register" after it. *)
Definition global_at (ptr p v p' : Z) : Prop := exists p0 p1,
  char_not_at p 91 p0 /\ expr_at ptr p0 v p1 /\ char_not_at p1 91 p'.

Lemma addr_mode_global s op v r p1 : as_error s = eval_okay -> Z.land token 0x0FFF0000 <> 0x01950000 ->
  global_at (as_pointer s) (as_position s) v p1 ->
  (forall s1, moved p1 s s1 -> exists s2, global_register line token registers junk op s1 = Ok (r, s2) /\
     moved (as_position s2) s1 s2) -> 0 <= r < 32 ->
  exists s', addr_mode line token false true env registers junk op s =
      Ok ((packed r (u32 (v - as_pointer s)), pc_upper r (u32 (v - as_pointer s))), s') /\
    moved (as_position s') s s' /\ is_u32 v.
Proof.
  intros He Hjalr (p0 & p2 & Hn & Hv & Hn2) Hreg Rr.
  destruct (next_is_not_at line s 91 p0 He Hn) as (s1 & E1 & H1). pose proof H1 as (_ & He1 & <- & Hp1 & _).
  rewrite <- Hp1 in Hv. destruct (evaluate_allow_at line env false true s1 v p2 He1 Hv) as (s3 & E3 & H3 & Rv).
  pose proof H3 as (_ & He3 & <- & _). destruct (next_is_not_at line s3 91 p1 He3 Hn2) as (s4 & E4 & H4).
  pose proof (moved_trans _ _ _ _ _ H1 (moved_trans _ _ _ _ _ H3 H4)) as H14.
  destruct (Hreg s4 H14) as (s5 & E5 & H5). pose proof (moved_trans _ _ _ _ _ H14 H5) as H.
  exists s5. split; [|split; [exact H|exact Rv]].
  unfold addr_mode. rewrite (abind_step _ _ _ _ _ E1), (abind_step _ _ _ _ _ E3).
  unfold abind at 1, error_code. cbn [rbind]. rewrite He3. change (eval_okay =? eval_okay) with true. cbv iota.
  apply Z.eqb_neq in Hjalr. rewrite (abind_step _ _ _ _ _ E4), Hjalr, (abind_step _ _ _ _ _ E5).
  unfold pack_address, abind, error_code, assembly_pointer. cbn [rbind].
  pose proof H as (_ & -> & _ & -> & _). change (eval_okay =? eval_okay) with true. cbv iota.
  rewrite auipc_prefix_eq by (exact Rr || apply u32_range). reflexivity.
Qed.

(** What the two words of a global load or store have in common: the prefix leaves the
    upper part of the address in the register that the second word adds to. *)
Lemma global_address r v w c : 0 < r < 32 -> is_u32 v -> rs1 w = r ->
  forall q, pc c = q -> exists c', step (pc_upper r (u32 (v - q))) c = Some c' /\
    pc c' = u32 (q + 4) /\ (forall x, x <> r -> get c' x = get c x) /\
    u32 (get c' (rs1 w) + sext 12 (u32 (v - q) mod 2 ^ 12)) = v.
Proof.
  intros Rr Rv Hw q Hq. destruct (pc_upper_step r (u32 (v - q)) c Rr) as (c1 & S1 & G1 & P1 & O1).
  exists c1. split; [exact S1|]. split; [rewrite P1, Hq; reflexivity|]. split; [exact O1|].
  rewrite Hw, G1, Hq. apply pc_low. exact Rv.
Qed.

Lemma prefix_dump_step prefix s : exists s', prefix_dump true true true prefix s = Ok (tt, s') /\
  as_error s' = as_error s /\ as_pointer s' = u32 (as_pointer s + 4) /\
  as_bytes s' = as_bytes s ++ word_bytes (as_pointer s) prefix.
Proof. eexists. split; [reflexivity|]. repeat split. Qed.

Lemma pc_upper_truthy r d : 0 < r < 32 -> truthy (pc_upper r d) = true.
Proof.
  intros Rr. unfold truthy. apply negb_true_iff, Z.eqb_neq. intros E.
  destruct (upper_word r (u32 (d + 0x800)) 0x17 ltac:(lia) (or_intror eq_refl)) as (U & _).
  fold (li_high d) (pc_upper r d) in U. rewrite E in U. discriminate.
Qed.

(** A load from a label: an AUIPC to the register to be loaded comes first, and the
    load then addresses the label. *)
Theorem assemble_load_global s p p1 p2 a v : Z.land token 0x000F0000 = 0x00050000 ->
  Z.land token 0x0FFF0000 <> 0x01950000 -> ready s p -> reg_comma_at p a p1 -> a <> 0 ->
  global_at (as_pointer s) p1 v p2 ->
  exists w1 w2 s', assemble s = Ok (tt, s') /\ plants s s' [w1; w2] /\
    opcode w2 = Z.lor (op_field token) 3 /\ funct3 w2 = field token 25 3 /\ rd w2 = a /\
    forall c, pc c = as_pointer s -> exists c', step w1 c = Some c' /\ load_address w2 c' = v /\
      forall x, x <> a -> get c' x = get c x.
Proof.
  intros Ht Hjalr (He & <- & Hptr) (q & Ha & Hc) Hne Hg.
  destruct (get_reg_at line registers s a q He Ha) as (s1 & E1 & H1 & Ra). pose proof H1 as (_ & He1 & <- & _).
  destruct (next_is_at line s1 44 p1 He1 Hc) as (s2 & E2 & H2).
  pose proof (moved_trans _ _ _ _ _ H1 H2) as H12. pose proof H12 as (_ & He2 & <- & Hp2 & _). rewrite <- Hp2 in Hg.
  set (op := Z.lor (Z.lor (Z.lor (op_field token) (funct_field token)) 3) (shl a 7)).
  assert (Hop : Z.land (Z.shiftr op 7) 0x1F = a).
  { change (field op 7 5 = a). subst op. repeat field_atom. rewrite ?Z.lor_0_l. reflexivity. }
  destruct (addr_mode_global s2 op v a p2 He2 Hjalr Hg) as (s3 & E3 & H3 & Rv); [|exact Ra|].
  { intros s0 H0. exists s0. split; [|pose proof H0 as (_ & Hok & _); repeat split; exact Hok].
    unfold global_register. replace (Z.land token 0x000F0000) with 0x00050000. change (0x50000 =? 0x40000) with false.
    cbv iota. rewrite Hop. reflexivity. }
  rewrite Hp2 in E3. set (d := u32 (v - as_pointer s)) in *.
  pose proof (moved_trans _ _ _ _ _ H12 H3) as (_ & He3 & _ & Hp3 & _ & _ & _ & Hb3).
  destruct (prefix_dump_step (pc_upper a d) s3) as (s4 & E4 & He4 & Hp4 & Hb4).
  edestruct (assemble_two s (pc_upper a d) (Z.lor op (load_fields (packed a d))) s4) as (s' & Es & Hs);
    [|congruence|congruence|congruence|].
  - unfold RvaEncode.encode. rewrite Ht. cbn [Z.eqb Pos.eqb]. unfold load_type.
    erewrite abind_step.
    2: { unfold load_target. rewrite (abind_step _ _ _ _ _ E1). replace (0 <=? a) with true by (symmetry; apply Z.leb_le; lia).
         rewrite (abind_step _ _ _ _ _ E2). reflexivity. }
    cbv beta iota zeta. fold op.
    erewrite abind_step; [|rewrite if_okay_step by exact He2; rewrite (abind_step _ _ _ _ _ E3); reflexivity].
    cbv beta iota. rewrite pc_upper_truthy by lia. rewrite (abind_step _ _ _ _ _ E4). reflexivity.
  - eexists _, _, s'. split; [exact Es|]. split; [exact Hs|]. rewrite load_fields_packed by exact Ra.
    change 0xFFF with (2 ^ 12 - 1). rewrite (land_low_mask 12) by lia. set (w := Z.lor op _).
    assert (Hw : opcode w = Z.lor (op_field token) 3 /\ funct3 w = field token 25 3 /\ rd w = a /\ rs1 w = a /\
      imm_I w = sext 12 (d mod 2 ^ 12)).
    { subst w op. repeat split; try decode_fields. unfold imm_I. rewrite !field_lor by lia.
      rewrite (shl_exact _ 20 12) by (try apply Z.mod_pos_bound; lia). repeat field_atom. rewrite ?Z.lor_0_l, ?Z.lor_0_r. reflexivity. }
    destruct Hw as (W1 & W2 & W3 & W4 & W5). repeat (split; [assumption|]). intros c Hpc.
    destruct (global_address a v w c ltac:(lia) Rv W4 _ Hpc) as (c1 & S1 & _ & O1 & G1).
    exists c1. split; [exact S1|]. split; [unfold load_address; rewrite W5; exact G1|exact O1].
Qed.

(** A store to a label goes through the register named after it: an AUIPC to that
    register comes first, and the store then addresses the label. *)
Theorem assemble_store_global s p p1 p2 p3 p4 a v r : Z.land token 0x000F0000 = 0x00040000 ->
  ready s p -> reg_comma_at p a p1 ->
  global_at (as_pointer s) p1 v p2 -> char_at p2 44 p3 -> reg_at p3 r p4 -> r <> 0 ->
  exists w1 w2 s', assemble s = Ok (tt, s') /\ plants s s' [w1; w2] /\
    opcode w2 = Z.lor (op_field token) 3 /\ funct3 w2 = field token 25 3 /\ rs2 w2 = a /\
    forall c, pc c = as_pointer s -> exists c', step w1 c = Some c' /\ store_address w2 c' = v /\
      forall x, x <> r -> get c' x = get c x.
Proof.
  intros Ht (He & <- & Hptr) Ha Hg Hc Hr Hne.
  destruct (reg_comma_step line registers 20 s a p1 He Ha) as (s2 & E2 & H2 & Ra). pose proof H2 as (_ & He2 & <- & Hp2 & _).
  rewrite <- Hp2 in Hg. pose proof Hr as (q & bf & fl & val & _ & _ & _ & _ & _ & _ & Rr).
  set (op := Z.lor (Z.lor (Z.lor (op_field token) (funct_field token)) 3) (shl a 20)).
  assert (Hjalr : Z.land token 0x0FFF0000 <> 0x01950000).
  { intros E. apply (f_equal (fun x => Z.land x 0x000F0000)) in E. rewrite <- Z.land_assoc in E.
    change (Z.land 0x0FFF0000 0x000F0000) with 0x000F0000 in E. rewrite Ht in E. discriminate. }
  destruct (addr_mode_global s2 op v r p2 He2 Hjalr Hg) as (s3 & E3 & H3 & Rv); [|exact Rr|].
  { intros s0 H0. pose proof H0 as (_ & He0 & Hp0 & _). unfold global_register. rewrite Ht.
    change (0x40000 =? 0x40000) with true. cbv iota. rewrite <- Hp0 in Hc.
    destruct (next_is_at line s0 44 p3 He0 Hc) as (s4 & E4 & H4). rewrite (abind_step _ _ _ _ _ E4). cbv iota.
    pose proof H4 as (_ & He4 & Hp4 & _). rewrite <- Hp4 in Hr.
    destruct (get_reg_at line registers s4 r p4 He4 Hr) as (s5 & E5 & H5 & _). rewrite (abind_step _ _ _ _ _ E5).
    replace (r <? 0) with false by (symmetry; apply Z.ltb_ge; lia). exists s5. split; [reflexivity|].
    pose proof (moved_trans _ _ _ _ _ H4 H5) as H45. pose proof H45 as (_ & _ & -> & _). exact H45. }
  rewrite Hp2 in E3. set (d := u32 (v - as_pointer s)) in *.
  pose proof (moved_trans _ _ _ _ _ H2 H3) as (_ & He3 & _ & Hp3 & _ & _ & _ & Hb3).
  destruct (prefix_dump_step (pc_upper r d) s3) as (s4 & E4 & He4 & Hp4 & Hb4).
  edestruct (assemble_two s (pc_upper r d) (Z.lor op (store_fields (packed r d))) s4) as (s' & Es & Hs);
    [|congruence|congruence|congruence|].
  - unfold RvaEncode.encode. rewrite Ht. cbn [Z.eqb Pos.eqb]. unfold s_type.
    rewrite (abind_step _ _ _ _ _ E2). cbv zeta. fold op.
    erewrite abind_step; [|rewrite if_okay_step by exact He2; exact E3].
    cbv beta iota zeta. rewrite pc_upper_truthy by lia. rewrite (abind_step _ _ _ _ _ E4). reflexivity.
  - eexists _, _, s'. split; [exact Es|]. split; [exact Hs|]. rewrite store_fields_packed by exact Rr. set (w := Z.lor op _).
    destruct (store_high d) as (F1 & F2).
    assert (Rl : 0 <= Z.land d 0x1F < 32) by (pose proof (land_range d 0x1F); lia).
    assert (Hw : opcode w = Z.lor (op_field token) 3 /\ funct3 w = field token 25 3 /\ rs2 w = a /\ rs1 w = r /\
      imm_S w = sext 12 (d mod 2 ^ 12)).
    { subst w op. unfold opcode, funct3, rs1, rs2, imm_S. rewrite !field_lor, F1, F2 by lia.
      repeat split; repeat field_atom; rewrite ?Z.lor_0_l, ?Z.lor_0_r; try reflexivity. rewrite store_offset. reflexivity. }
    destruct Hw as (W1 & W2 & W3 & W4 & W5). repeat (split; [assumption|]). intros c Hpc.
    destruct (global_address r v w c ltac:(lia) Rv W4 _ Hpc) as (c1 & S1 & _ & O1 & G1).
    exists c1. split; [exact S1|]. split; [unfold store_address; rewrite W5; exact G1|exact O1].
Qed.


End Program.

(** ** The sizes of variable length operations *)

(** The requests of a pass, in order. *)
Fixpoint request_all (pass_count : Z) (sizes : list Z) : A (list Z) :=
  match sizes with
  | [] => aret []
  | size :: sizes =>
      let% x := variable_item_size false pass_count size in
      let% xs := request_all pass_count sizes in aret (x :: xs)
  end.

Definition word_sizes (l : list Z) : Prop := Forall (fun n => n = 4 \/ n = 8) l.
Definition short_items (l : list Z) : Z := Z.of_nat (length (List.filter (fun n => n =? 4) l)).

Lemma short_items_cons x l : short_items (x :: l) = (if x =? 4 then 1 else 0) + short_items l.
Proof. unfold short_items. cbn [List.filter]. destruct (x =? 4); cbn [length]; rewrite ?Nat2Z.inj_succ; lia. Qed.

Lemma variable_item_size_late pass_count s size before x after : SHRINK_STOP <= pass_count ->
  as_sizes s = before ++ x :: after -> as_size_at s = length before -> (x = 4 \/ x = 8) -> (size = 4 \/ size = 8) ->
  exists s', variable_item_size false pass_count size s = Ok (Z.max x size, s') /\
    as_sizes s' = (before ++ [Z.max x size]) ++ after /\ as_size_at s' = length (before ++ [Z.max x size]) /\
    as_size_changed s' = as_size_changed s + (if Z.max x size =? x then 0 else 1).
Proof.
  intros Hp Hs Hat Hx Hsz. unfold variable_item_size, abind, state, lift, set_sizes, aret. cbn [rbind].
  rewrite Hs, Hat, list_lookup_middle by reflexivity. cbn [of_option rbind].
  replace (pass_count <? SHRINK_STOP) with false by (symmetry; apply Z.ltb_ge; exact Hp).
  rewrite length_app. cbn [length]. rewrite Nat.add_1_r, <- app_assoc. cbn [app].
  destruct Hx as [-> | ->], Hsz as [-> | ->]; cbn; (eexists; split; [reflexivity|]); cbn;
    rewrite ?Hs, ?Z.add_0_r; repeat split.
  rewrite insert_app_r_alt, Nat.sub_diag by lia. reflexivity.
Qed.

(** C37: From pass SHRINK_STOP on, the sizes only grow: each item is given what it asks for
    or what it had, whichever is more, and the count of changes is the number of items
    that went from one word to two; so a program of n such items can change its layout
    in at most n of these passes. *)
Theorem sizes_only_grow pass_count requests s : SHRINK_STOP <= pass_count ->
  length requests = length (as_sizes s) -> as_size_at s = 0%nat -> word_sizes (as_sizes s) -> word_sizes requests ->
  exists s', request_all pass_count requests s = Ok (as_sizes s', s') /\
    as_sizes s' = zip_with Z.max (as_sizes s) requests /\
    as_size_changed s' - as_size_changed s = short_items (as_sizes s) - short_items (as_sizes s').
Proof.
  intros Hp Hlen Hat Hw Hr.
  enough (H : forall requests before after s, as_sizes s = before ++ after -> as_size_at s = length before ->
    length requests = length after -> word_sizes after -> word_sizes requests ->
    exists s', request_all pass_count requests s = Ok (zip_with Z.max after requests, s') /\
      as_sizes s' = before ++ zip_with Z.max after requests /\
      as_size_changed s' - as_size_changed s = short_items after - short_items (zip_with Z.max after requests)).
  { destruct (H requests [] (as_sizes s) s eq_refl Hat Hlen Hw Hr) as (s' & E & Hs & Hc). exists s'.
    simpl in Hs. rewrite Hs. split; [exact E|]. split; [reflexivity|exact Hc]. }
  clear - Hp. induction requests as [|size requests IH]; intros before [|x after] s Hs Hat Hlen Hw Hr; try discriminate.
  - eexists. split; [reflexivity|]. split; [exact Hs|]. simpl. lia.
  - apply Forall_cons in Hw as [Hx Hw]. apply Forall_cons in Hr as [Hz Hr]. injection Hlen as Hlen.
    destruct (variable_item_size_late pass_count s size before x after Hp Hs Hat Hx Hz) as (s1 & E1 & Hs1 & Hat1 & Hc1).
    destruct (IH (before ++ [Z.max x size]) after s1 Hs1 Hat1 Hlen Hw Hr) as (s2 & E2 & Hs2 & Hc2).
    exists s2. cbn [request_all zip_with]. rewrite (abind_step _ _ _ _ _ E1), (abind_step _ _ _ _ _ E2).
    split; [reflexivity|]. split; [rewrite Hs2, <- app_assoc; reflexivity|].
    rewrite !short_items_cons. generalize dependent (short_items after).
    generalize (short_items (zip_with Z.max after requests)). intros m k Hc2.
    destruct Hx as [-> | ->], Hz as [-> | ->];
      change (Z.max 4 4) with 4 in *; change (Z.max 4 8) with 8 in *; change (Z.max 8 4) with 8 in *;
      change (Z.max 8 8) with 8 in *; cbn in Hc1 |- *; lia.
Qed.

(** ** Outside the code that is kept *)

(** Inside a false IF nothing is planted and the assembly pointer should stay where it
    is; a two-word pseudo-operation moves it on by one word all the same. *)
Theorem false_if_moves_pointer line token pass_count env registers junk junk_flag s p1 p2 a v current :
  Z.land token 0x000F0000 = 0x000B0000 -> Z.land token 0x00002000 = 0 -> Z.land token 0x00007000 = 0x00001000 ->
  as_error s = eval_okay -> reg_comma_at line registers (as_position s) a p1 ->
  expr_at line env (as_pointer s) p1 v p2 -> as_sizes s !! as_size_at s = Some current ->
  exists s', rv32i_mnemonic line token false true pass_count env registers false true junk junk_flag s = Ok (tt, s') /\
    as_bytes s' = as_bytes s /\ as_pointer s' = u32 (as_pointer s + 4).
Proof.
  intros Ht H2000 H7000 He Ha Hv Hsz.
  destruct (long_registers_named line token registers junk s a p1 H2000 He Ha) as (s1 & E1 & H1 & Ra).
  pose proof H1 as (_ & He1 & <- & Hp1 & Hs1 & Ha1 & Hb1 & Hbytes1). rewrite <- Hp1 in Hv.
  destruct (evaluate_allow_at line env false true s1 v p2 He1 Hv) as (s2 & E2 & H2 & _).
  pose proof (moved_trans _ _ _ _ _ H1 H2) as (_ & He2 & Hpos2 & Hp2 & Hs2 & Ha2 & _ & Hbytes2). rewrite <- Hs2, <- Ha2 in Hsz.
  destruct (variable_item_size_step pass_count s2 current 8 Hsz) as (s3 & E3 & He3 & Hpos3 & Hp3 & Hbytes3).
  unfold rv32i_mnemonic, abind at 1. cbn [orb]. unfold encode. rewrite Ht. cbn [Z.eqb Pos.eqb].
  unfold long_type. rewrite (abind_step _ _ _ _ _ E1). erewrite abind_step.
  2: { rewrite if_okay_step by exact He1. rewrite (abind_step _ _ _ _ _ E2). unfold abind, assembly_pointer. cbn [rbind].
       unfold long_codes. rewrite H7000. reflexivity. }
  cbv beta iota. rewrite (abind_step _ _ _ _ _ E3). cbv zeta. replace (if _ =? 8 then true else true) with true by (destruct (_ =? 8); reflexivity).
  unfold prefix_dump, byte_dump, abind, assembly_pointer, set_pointer, error_code, aret. cbn [rbind as_error andb]. rewrite He3, He2.
  change (eval_okay =? eval_okay) with true. cbv iota. cbn.
  eexists. split; [reflexivity|]. cbn. rewrite Hbytes3, Hbytes2, Hp3, Hp2. split; reflexivity.
Qed.

(** ** The properties at concrete inputs *)

(** The registers x0 to x9. *)
Definition xregs (name : list Z) : res (option (Z * Z)) :=
  Ok (match name with [120; d] => if ((48 <=? d) && (d <=? 57))%bool then Some (256, d - 48) else None | _ => None end).

(** A state at the start of a line, with the assembly pointer at [p]. *)
Definition line_start (p : Z) (sizes : list Z) : astate := AState 0 0 p 0 false sizes 0 0 [].

(** A bracket that closes an address takes the character after it away: garbage there
    is not noticed, and a comment there loses its semicolon. *)
Theorem bracket_swallows_character :
  let asm line := assemble_instruction line 0x04058000 true false 0 no_symbols xregs true false 0 false (line_start 0 []) in
  (* "x1,[x2]z" and "x1,[x2];z" *)
  (exists s, asm [120; 49; 44; 91; 120; 50; 93; 122; 0] = Ok (tt, s) /\ as_error s = eval_okay) /\
  (exists s, asm [120; 49; 44; 91; 120; 50; 93; 59; 122; 0] = Ok (tt, s) /\ as_error s = Z.lor SYM_GARBAGE 8).
Proof. split; eexists; split; vm_compute; reflexivity. Qed.

Module RvaAsmWitness.

Ltac reads_register := do 4 eexists; repeat (split; [vm_compute; (reflexivity || discriminate)|]);
  vm_compute; (reflexivity || (split; [discriminate|reflexivity])).
Ltac reads_comma := eexists; split; [reads_register|vm_compute; reflexivity].
Ltac reads_expr := split; [vm_compute; split; [discriminate|reflexivity]|eexists; split; vm_compute; reflexivity].
Ltac is_ready := split; [reflexivity|]; split; [reflexivity|]; vm_compute; split; [discriminate|reflexivity].

(** ADD "x1,x2,x3". *)
Lemma assemble_r_type_witness : exists w s',
  assemble [120; 49; 44; 120; 50; 44; 120; 51; 0] 0x00C60000 3 no_symbols xregs 0 false (line_start 64 []) = Ok (tt, s') /\
  plants (line_start 64 []) s' [w] /\ opcode w = 0x33 /\ funct3 w = 0 /\ funct7 w = 0 /\ rd w = 1 /\ rs1 w = 2 /\ rs2 w = 3.
Proof.
  apply (assemble_r_type [120; 49; 44; 120; 50; 44; 120; 51; 0] 0x00C60000 3 no_symbols xregs 0 false (line_start 64 [])
    0 3 6 8 1 2 3); [reflexivity|is_ready|reads_comma|reads_comma|reads_register].
Defined.

(** ADDI "x1,x2,-5". *)
Lemma assemble_i_type_witness : exists w s',
  assemble [120; 49; 44; 120; 50; 44; 45; 53; 0] 0x00420000 3 no_symbols xregs 0 false (line_start 64 []) = Ok (tt, s') /\
  plants (line_start 64 []) s' [w] /\ opcode w = 0x13 /\ funct3 w = 0 /\ rd w = 1 /\ rs1 w = 2 /\ imm_I w = -5.
Proof.
  refine (assemble_i_type [120; 49; 44; 120; 50; 44; 45; 53; 0] 0x00420000 3 no_symbols xregs 0 false (line_start 64 [])
    0 3 6 8 1 2 4294967291 _ _ _ _ _); [reflexivity|is_ready|reads_comma|reads_comma|reads_expr].
Defined.

(** BNE "x1,x2,32" at 64. *)
Lemma assemble_branch_witness : exists w s',
  assemble [120; 49; 44; 120; 50; 44; 51; 50; 0] 0x03830000 3 no_symbols xregs 0 false (line_start 64 []) = Ok (tt, s') /\
  plants (line_start 64 []) s' [w] /\ opcode w = 0x63 /\ funct3 w = 1 /\ rs1 w = 1 /\ rs2 w = 2 /\ imm_B w = -32.
Proof.
  refine (assemble_branch [120; 49; 44; 120; 50; 44; 51; 50; 0] 0x03830000 3 no_symbols xregs 0 false (line_start 64 [])
    0 3 6 8 1 2 32 _ _ _ _ _); [reflexivity|is_ready|reads_comma|reads_comma|reads_expr].
Defined.

(** JAL "x1,32" at 64. *)
Lemma assemble_jal_witness : exists w s',
  assemble [120; 49; 44; 51; 50; 0] 0x01B10000 3 no_symbols xregs 0 false (line_start 64 []) = Ok (tt, s') /\
  plants (line_start 64 []) s' [w] /\ opcode w = 0x6F /\ rd w = 1 /\ imm_J w = -32.
Proof.
  refine (assemble_jal [120; 49; 44; 51; 50; 0] 0x01B10000 3 no_symbols xregs 0 false (line_start 64 [])
    0 3 5 1 32 _ _ _ _); [reflexivity|is_ready|reads_comma|reads_expr].
Defined.


(** LA "x1,5000" at 64. *)
Lemma assemble_la_witness : exists ws s',
  assemble [120; 49; 44; 53; 48; 48; 48; 0] 0x000B9000 3 no_symbols xregs 0 false (line_start 64 [8]) = Ok (tt, s') /\
  plants (line_start 64 [8]) s' ws /\ length ws = 2%nat /\
  forall c, pc c = 64 -> exists c', run ws c = Some c' /\ get c' 1 = 5000 /\ pc c' = as_pointer s' /\
    forall r, r <> 1 -> get c' r = get c r.
Proof.
  apply (assemble_la [120; 49; 44; 53; 48; 48; 48; 0] 0x000B9000 3 no_symbols xregs 0 false (line_start 64 [8])
    0 3 7 1 5000 8); try reflexivity; [is_ready|reads_comma|reads_expr|discriminate].
Defined.

(** CALL "5000" at 64. *)
Lemma assemble_call_witness : exists ws s',
  assemble [53; 48; 48; 48; 0] 0x021BA000 3 no_symbols xregs 0 false (line_start 64 [4]) = Ok (tt, s') /\
  plants (line_start 64 [4]) s' ws /\
  forall c, pc c = 64 -> exists c', run ws c = Some c' /\ pc c' = 5000 /\ get c' 1 = as_pointer s' /\
    forall r, r <> 1 -> r <> 1 -> get c' r = get c r.
Proof.
  apply (assemble_call [53; 48; 48; 48; 0] 0x021BA000 3 no_symbols xregs 0 false (line_start 64 [4]) 4 5000 4);
    try reflexivity; [discriminate|is_ready|reads_expr|discriminate].
Defined.

(** TAIL "5000" at 64. *)
Lemma tail_links_ra_witness : exists w s',
  assemble [53; 48; 48; 48; 0] 0x006BA000 3 no_symbols xregs 0 false (line_start 64 [4]) = Ok (tt, s') /\
  plants (line_start 64 [4]) s' [w] /\
  forall c, pc c = 64 -> exists c', run [w] c = Some c' /\ pc c' = 5000 /\ get c' 1 = 68.
Proof.
  apply (tail_links_ra [53; 48; 48; 48; 0] 0x006BA000 3 no_symbols xregs 0 false (line_start 64 [4]) 4 5000 4);
    try reflexivity; [is_ready|reads_expr|discriminate].
Defined.

(** CALL "5000" at 64, on pass 12, after a pass that gave it two words. *)
Lemma call_kept_long_witness : exists w1 w2 s',
  assemble [53; 48; 48; 48; 0] 0x021BA000 12 no_symbols xregs 0 false (line_start 64 [8]) = Ok (tt, s') /\
  plants (line_start 64 [8]) s' [w1; w2] /\ opcode w1 = 0 /\
  forall c, pc c = 68 -> exists c', run [w2] c = Some c' /\ pc c' = 5004.
Proof.
  apply (call_kept_long [53; 48; 48; 48; 0] 0x021BA000 12 no_symbols xregs 0 false (line_start 64 [8]) 4 5000 8);
    try reflexivity; [is_ready|reads_expr].
Defined.

(** LW "x1,-8[x2]". *)
Lemma assemble_load_witness : exists w s',
  assemble [120; 49; 44; 45; 56; 91; 120; 50; 93; 0] 0x04058000 3 no_symbols xregs 0 false (line_start 64 []) = Ok (tt, s') /\
  plants (line_start 64 []) s' [w] /\ opcode w = 0x03 /\ funct3 w = 2 /\ rd w = 1 /\ rs1 w = 2 /\ imm_I w = -8.
Proof.
  apply (assemble_load [120; 49; 44; 45; 56; 91; 120; 50; 93; 0] 0x04058000 3 no_symbols xregs 0 false (line_start 64 [])
    0 3 10 1 4294967288 2); [reflexivity|is_ready|reads_comma| |vm_compute; split; [discriminate|reflexivity]|vm_compute; split; [discriminate|reflexivity]].
  do 5 eexists. split; [vm_compute; reflexivity|]. split; [reads_expr|]. split; [vm_compute; reflexivity|].
  split; [reads_register|]. split; vm_compute; reflexivity.
Defined.

(** LW "x1,5000" at 64. *)
Lemma assemble_load_global_witness : exists w1 w2 s',
  assemble [120; 49; 44; 53; 48; 48; 48; 0] 0x04058000 3 no_symbols xregs 0 false (line_start 64 []) = Ok (tt, s') /\
  plants (line_start 64 []) s' [w1; w2] /\ opcode w2 = 0x03 /\ funct3 w2 = 2 /\ rd w2 = 1 /\
  forall c, pc c = 64 -> exists c', step w1 c = Some c' /\ load_address w2 c' = 5000 /\
    forall x, x <> 1 -> get c' x = get c x.
Proof.
  apply (assemble_load_global [120; 49; 44; 53; 48; 48; 48; 0] 0x04058000 3 no_symbols xregs 0 false (line_start 64 [])
    0 3 7 1 5000); [reflexivity|discriminate|is_ready|reads_comma|discriminate|].
  do 2 eexists. split; [vm_compute; reflexivity|]. split; [reads_expr|]. vm_compute. reflexivity.
Defined.

(** SW "x1,5000,x2" at 64. *)
Lemma assemble_store_global_witness : exists w1 w2 s',
  assemble [120; 49; 44; 53; 48; 48; 48; 44; 120; 50; 0] 0x04848000 3 no_symbols xregs 0 false (line_start 64 []) = Ok (tt, s') /\
  plants (line_start 64 []) s' [w1; w2] /\ opcode w2 = 0x23 /\ funct3 w2 = 2 /\ rs2 w2 = 1 /\
  forall c, pc c = 64 -> exists c', step w1 c = Some c' /\ store_address w2 c' = 5000 /\
    forall x, x <> 2 -> get c' x = get c x.
Proof.
  apply (assemble_store_global [120; 49; 44; 53; 48; 48; 48; 44; 120; 50; 0] 0x04848000 3 no_symbols xregs 0 false
    (line_start 64 []) 0 3 7 8 10 1 5000 2); [reflexivity|is_ready|reads_comma| |vm_compute; reflexivity|reads_register|discriminate].
  do 2 eexists. split; [vm_compute; reflexivity|]. split; [reads_expr|]. vm_compute. reflexivity.
Defined.

Lemma sizes_only_grow_witness : exists s',
  request_all 12 [8; 4; 4] (line_start 0 [4; 8; 4]) = Ok (as_sizes s', s') /\ as_sizes s' = [8; 8; 4] /\
  as_size_changed s' - 0 = 2 - short_items (as_sizes s').
Proof.
  apply (sizes_only_grow 12 [8; 4; 4] (line_start 0 [4; 8; 4])); try reflexivity; [discriminate| |];
    unfold word_sizes; repeat (apply Forall_cons; split; [auto|]); constructor.
Defined.

(** LA "x1,5000" inside a false IF. *)
Lemma false_if_moves_pointer_witness : exists s',
  rv32i_mnemonic [120; 49; 44; 53; 48; 48; 48; 0] 0x000B9000 false true 3 no_symbols xregs false true 0 false
    (line_start 64 [8]) = Ok (tt, s') /\ as_bytes s' = [] /\ as_pointer s' = 68.
Proof.
  apply (false_if_moves_pointer [120; 49; 44; 53; 48; 48; 48; 0] 0x000B9000 3 no_symbols xregs 0 false (line_start 64 [8])
    3 7 1 5000 8); try reflexivity; [reads_comma|reads_expr].
Defined.

End RvaAsmWitness.
