(* ===== verification/RvaSource.v ===== *)
(** * From a source line to the files

    A line with an instruction on the last pass: [parse_source_line] finds the mnemonic,
    the encoder reads the operands, and the words it makes go to the output files.
    RvaAsm.v says what the encoder makes; here its theorems are carried through the
    functions that surround it. *)

From S2P Require Import Prelude RvaDefs RvaLex RvaSym RvaEval RvaEncode RvaOut RvaList RvaState RvaDir RvaLine RvaData RvaIsa RvaAsm.
Local Open Scope rva_scope.

(** ** Lemmas: the bytes of words *)

Lemma word_of_bytes w : Z.land (Z.shiftr w 0) 0xFF + 256 * Z.land (Z.shiftr w 8) 0xFF
  + 65536 * Z.land (Z.shiftr w 16) 0xFF + 16777216 * Z.land (Z.shiftr w 24) 0xFF = u32 w.
Proof.
  change 0xFF with (Z.ones 8). rewrite !Z.land_ones, !Z.shiftr_div_pow2 by lia. unfold u32.
  change (2 ^ 0) with 1. change (2 ^ 8) with 256. change (2 ^ 16) with 65536. change (2 ^ 24) with 16777216. dlia.
Qed.

Section Source.

Context (cfg : config) (junk_sym : Z -> sym_record) (junk : Z) (junk_flag : bool) (junk_own : own_label).
Context (files : list Z -> option (list Z)) (pass_count : Z) (mnemonics : list (option sym_table)).
Context (include_file_path line : list Z).

(** A line of the last pass. *)
Abbreviation parse := (parse_source_line cfg junk_sym junk junk_flag junk_own files pass_count true true mnemonics
                         include_file_path line).

(** The words, one after the other from [p], reach the outputs as a run of dumps. *)
Lemma dump_words_run ws : forall p g o, is_u32 p ->
  dump_run (cf_files cfg) true (live_of g) line 4 p (map u32 ws) (g_out g) = Ok o ->
  dump_words cfg true line (words_bytes p ws) g = Ok (tt, g_with_out o g).
Proof.
  induction ws as [|w ws IH]; intros p g o Hp H.
  - injection H as <-. destruct g. reflexivity.
  - cbn [words_bytes]. unfold word_bytes. cbn [seq map app dump_words].
    change (8 * Z.of_nat 0) with 0. change (8 * Z.of_nat 1) with 8. change (8 * Z.of_nat 2) with 16.
    change (8 * Z.of_nat 3) with 24. rewrite word_of_bytes. cbn [map dump_run] in H.
    apply rbind_ok in H as (o1 & E1 & H). rewrite (u32_id p Hp) in E1.
    unfold gbind at 1, dump. change (Z.of_nat 0) with 0. rewrite Z.add_0_r, (u32_id p Hp), E1. cbn [rbind].
    rewrite (IH (u32 (p + 4)) (g_with_out o1 g) o); [reflexivity|apply u32_range|].
    rewrite (dump_run_u32 _ _ _ _ _ _ (u32 (p + 4)) (p + 4)) by apply u32_u32. exact H.
Qed.

(** ** The shape of the line *)

(** Blanks up to [q], then [name] up to [p], which is a mnemonic with [token], an
    instruction of the variant that is set; [h]: the symbol store after the look-up. *)
Record mnemonic_line (g : gstate) (q : Z) (name : list Z) (token p : Z) (h : sym_heap) : Prop := MnemonicLine {
  ml_skip : skip_spc line 0 = Ok q;
  ml_first : exists c, zget line q = Ok c /\ test_eol c = false;
  ml_no_number : exists v, get_num line q 10 = Ok (false, v, q);
  ml_name : get_identifier line q LINE_LENGTH = Ok name;
  ml_some : name <> [];
  ml_end : p = q + Z.of_nat (length name);
  ml_no_colon : exists c, zget line p = Ok c /\ c <> 58;
  ml_found : exists a r, sym_find_label_list junk_sym name mnemonics (g_syms g) = Ok (a, h) /\ a <> 0 /\
    get_rec h a = Ok r /\ sr_value r = token;
  ml_instruction : Z.land token 0xF0000000 <> 0xF0000000;
  ml_variant : Z.land (Z.land token (g_variant g)) 0xFFF = 0;
}.

(** The state at the operands. *)
Definition started (g : gstate) : gstate :=
  if f_list (cf_files cfg) then on_list (list_start_line (g_pointer g) false) g else g.
Definition at_operands (g : gstate) (p : Z) (h : sym_heap) : gstate :=
  g_with_increment 0 (g_with_error eval_okay (g_with_position p (g_with_syms h (started g)))).

Abbreviation nobody := (no_label junk_own).
Abbreviation the_env g p h := (env_of cfg junk_sym nobody (at_operands g p h)).
Abbreviation the_registers g p h := (lookup_in junk_sym (g_registers (at_operands g p h)) (at_operands g p h)).

(** What becomes of the outputs: the words are dumped and the listing's line ended. *)
Definition line_out (g : gstate) (ws : list Z) (o : outputs) : Prop :=
  exists o1 l, dump_run (cf_files cfg) true true line 4 (g_pointer g) (map u32 ws) (g_out (started g)) = Ok o1 /\
    (if f_list (cf_files cfg) then list_end_line true line (o_list o1) else Ok (o_list o1)) = Ok l /\
    o = Outputs l (o_hex o1) (o_elf o1) (o_verilog o1).

(** The outputs take any words, when they are in order before the line. *)
Lemma line_out_total g ws text rest : line = text ++ 0 :: rest -> 0 ∉ text -> buffers_ok (g_out g) ->
  exists o, line_out g ws o.
Proof.
  intros Hline Ht Hb. assert (Ho : outputs_ok (cf_files cfg) text (g_out (started g))).
  { unfold started. destruct (f_list (cf_files cfg)) eqn:Ef; [apply outputs_start; [exact Hb|reflexivity]|].
    destruct Hb. split; [congruence|assumption..]. }
  destruct (dump_run_total (cf_files cfg) true true text rest 4 (map u32 ws) Ht ltac:(lia) (g_pointer g) _ Ho)
    as (o1 & E & [Hl _ _]).
  assert (Hl2 : exists l, (if f_list (cf_files cfg) then list_end_line true (text ++ 0 :: rest) (o_list o1)
    else Ok (o_list o1)) = Ok l).
  { destruct (f_list _); [|eauto]. destruct (list_end_line_ok text rest Ht true _ (Hl eq_refl)) as (l & El & _). eauto. }
  destruct Hl2 as [l El]. rewrite <- Hline in E, El. exists (Outputs l (o_hex o1) (o_elf o1) (o_verilog o1)), o1, l. auto.
Qed.

(** ** Lemmas: from the line to the operands *)

Lemma live_started g : live_of (started g) = live_of g.
Proof. unfold started. destruct (f_list _); reflexivity. Qed.

Lemma pointer_started g : g_pointer (started g) = g_pointer g /\ g_symbols (started g) = g_symbols g /\
  g_registers (started g) = g_registers g /\ g_variant (started g) = g_variant g /\ g_syms (started g) = g_syms g.
Proof. unfold started. destruct (f_list _); auto 6. Qed.

(** The first item on the line is the mnemonic. *)
Lemma first_item_mnemonic g g0 q name token p h : mnemonic_line g q name token p h ->
  g_position g0 = q -> g_syms g0 = g_syms g ->
  first_item junk_sym junk junk_own pass_count mnemonics line g0 =
  Ok ((nobody, Some token), g_with_position p (g_with_syms h g0)).
Proof.
  intros [] Hq Hs. unfold first_item.
  destruct ml_no_number0 as [v Ev]. destruct ml_no_colon0 as (c & Ec & Hc).
  destruct ml_found0 as (a & r & Ef & Ha & Er & Et).
  rewrite (gbind_step _ _ g0 q g0) by (unfold gets; rewrite Hq; reflexivity).
  rewrite (gbind_step _ _ g0 (false, v, q) g0) by (unfold glift; rewrite Ev; reflexivity).
  rewrite (gbind_step _ _ _ tt _ eq_refl).
  rewrite (gbind_step _ _ _ name (g_with_position q g0)) by (unfold glift; rewrite ml_name0; reflexivity).
  destruct name as [|x name]; [contradiction|].
  rewrite (gbind_step _ _ _ tt _ eq_refl). rewrite <- ml_end0.
  set (g1 := g_with_position p (g_with_position q g0)).
  rewrite (gbind_step _ _ g1 c g1) by (unfold char_here; cbn; rewrite Ec; reflexivity).
  replace (c =? 58) with false by (symmetry; apply Z.eqb_neq; exact Hc). cbv zeta iota.
  rewrite (gbind_step _ _ g1 tt g1 eq_refl).
  rewrite (gbind_step _ _ g1 (Some token) (g_with_syms h g1)).
  2: { unfold find_mnemonic, g1. cbn. rewrite Hs, Ef. cbn [rbind].
       replace (a =? 0) with false by (symmetry; apply Z.eqb_neq; exact Ha). rewrite Er. cbn. rewrite Et. reflexivity. }
  reflexivity.
Qed.

(** Without a label there is nothing to define. *)
Lemma no_label_steps token g : add_label nobody token g = Ok (tt, g) /\
  place_label pass_count true nobody token g = Ok (tt, g).
Proof. unfold add_label, place_label. cbn. rewrite !andb_false_r. auto. Qed.

Lemma assemble_line_instruction gm token p g3 : Z.land token 0xF0000000 <> 0xF0000000 -> first_pass pass_count = false ->
  instruction cfg junk_sym junk junk_flag pass_count true true line nobody token
    (g_with_increment 0 (g_with_error eval_okay (g_with_position p gm))) = Ok (tt, g3) ->
  assemble_line cfg junk_sym junk junk_flag files pass_count true true line nobody include_file_path p token gm = Ok (tt, g3).
Proof.
  intros Ht Hfp E. unfold assemble_line. rewrite (gbind_step _ _ _ tt _ eq_refl), (gbind_step _ _ _ tt _ eq_refl).
  match goal with |- gbind _ _ ?G = _ => destruct (no_label_steps token G) as [E1 E2] end.
  rewrite (gbind_step (add_label nobody token) _ _ _ _ E1).
  rewrite (gbind_step (place_label pass_count true nobody token) _ _ _ _ E2).
  rewrite (gbind_step _ _ _ tt _ eq_refl).
  replace (Z.land token 0xF0000000 =? 0xF0000000) with false by (symmetry; apply Z.eqb_neq; exact Ht).
  rewrite (gbind_step _ _ _ tt g3).
  2: { unfold when_okay, gbind, okay, gets. exact E. }
  unfold check_rest. rewrite Hfp. reflexivity.
Qed.

(** The instruction of the line, run by the encoder from [astate_of] the state at the
    operands to [s], and the words it plants on the files. *)
Lemma parse_instruction g q name token p h s ws o : mnemonic_line g q name token p h -> pass_count <> 0 ->
  live_of g = true -> is_u32 (g_pointer g) ->
  assemble line token pass_count (the_env g p h) (the_registers g p h) junk junk_flag (astate_of (at_operands g p h))
    = Ok (tt, s) ->
  as_bytes s = words_bytes (g_pointer g) ws -> line_out g ws o ->
  exists g', parse g = Ok (tt, g') /\ g_out g' = o /\ g_pointer g' = as_pointer s /\ g_error g' = as_error s.
Proof.
  intros Hml Hpass Hlive Hptr Hrun Hbytes (o1 & l & Ho & Hl & ->).
  assert (Hfp : first_pass pass_count = false) by (apply Z.eqb_neq; exact Hpass).
  set (g0 := started (g_with_position q (g_with_error SYM_NO_ERROR g))).
  assert (H0 : g_position g0 = q /\ g_syms g0 = g_syms g /\ g_error g0 = SYM_NO_ERROR /\ g_variant g0 = g_variant g).
  { unfold g0, started. destruct (f_list _); auto. }
  destruct H0 as (Hp0 & Hs0 & He0 & Hv0).
  pose proof (first_item_mnemonic _ g0 _ _ _ _ _ Hml Hp0 Hs0) as Efirst. destruct Hml.
  destruct ml_first0 as (c & Ec & Hc).
  set (g2 := at_operands g p h).
  assert (Eg2 : g_with_increment 0 (g_with_error eval_okay (g_with_position p (g_with_position p (g_with_syms h g0)))) = g2).
  { unfold g2, g0, at_operands, started. destruct (f_list _); reflexivity. }
  assert (Hlive2 : live_of g2 = true /\ g_out g2 = g_out (started g)).
  { unfold g2, at_operands, started. destruct (f_list _); split; try reflexivity; exact Hlive. }
  destruct Hlive2 as [Hlive2 Hout2].
  set (g3 := g_with_out o1 (back s g2)).
  assert (Einstr : instruction cfg junk_sym junk junk_flag pass_count true true line nobody token g2 = Ok (tt, g3)).
  { unfold instruction, embed. rewrite Hlive2, Hfp. unfold assemble in Hrun. change (at_operands g p h) with g2 in Hrun. rewrite Hrun. cbn [rbind].
    rewrite Hbytes. rewrite (dump_words_run ws (g_pointer g) (back s g2) o1 Hptr); [reflexivity|].
    change (live_of (back s g2)) with (live_of g2). change (g_out (back s g2)) with (g_out g2).
    rewrite Hlive2, Hout2. exact Ho. }
  assert (Eline := assemble_line_instruction (g_with_position p (g_with_syms h g0)) token p g3 ml_instruction0 Hfp).
  rewrite Eg2 in Eline. specialize (Eline Einstr).
  assert (Eitems : parse_items cfg junk_sym junk junk_flag junk_own files pass_count true true mnemonics
    include_file_path line g0 = Ok (nobody, g3)).
  { unfold parse_items. rewrite (gbind_step _ _ _ _ _ Efirst). set (g1 := g_with_position p (g_with_syms h g0)) in *.
    assert (He1 : g_error g1 = eval_okay) by exact He0.
    rewrite (gbind_step _ _ g1 (Some token) g1) by (unfold gbind, okay, gets; reflexivity).
    rewrite (gbind_step _ _ g1 true g1) by (unfold okay, gets; rewrite He1; reflexivity).
    rewrite (gbind_step _ _ g1 tt g3); [reflexivity|].
    unfold assemble_mnemonic, gbind at 1, gets at 1. cbn [rbind]. change (g_variant g1) with (g_variant g0).
    rewrite Hv0, ml_variant0. exact Eline. }
  exists (g_with_out (Outputs l (o_hex o1) (o_elf o1) (o_verilog o1)) g3). split; [|repeat split].
  unfold parse_source_line. rewrite (gbind_step _ _ _ tt _ eq_refl), (gbind_step _ _ _ tt _ eq_refl).
  rewrite (gbind_step _ _ _ tt (g_with_position q (g_with_error SYM_NO_ERROR g)))
    by (unfold skip_blanks; cbn [g_position g_with_position]; rewrite ml_skip0; reflexivity).
  rewrite (gbind_step _ _ _ tt g0) by reflexivity.
  rewrite (gbind_step _ _ g0 c g0) by (unfold char_here; rewrite Hp0, Ec; reflexivity).
  rewrite Hc, (gbind_step _ _ _ _ _ Eitems). unfold finish_line, on_list.
  change (o_list (g_out g3)) with (o_list o1). rewrite Hl. reflexivity.
Qed.

(** ** Properties *)

(** C21: The line of an instruction with an immediate, "ADDI x1, x2, 5" or the like, on the
    last pass: the line is assembled, and one word goes to the files at the assembly
    pointer, which moves past it. When the value fits, the word decodes to the
    mnemonic's opcode and function bits, the two registers and the value; when it does
    not, the word is zero and the line is reported. Nothing else of the outputs changes
    but the end of the listing's line. *)
Theorem immediate_line_plants g q name token p h p1 p2 p3 a b v text rest : mnemonic_line g q name token p h ->
  pass_count <> 0 -> live_of g = true -> is_u32 (g_pointer g) -> Z.land token 0x000F0000 = 0x00020000 ->
  line = text ++ 0 :: rest -> 0 ∉ text -> buffers_ok (g_out g) ->
  reg_comma_at line (the_registers g p h) p a p1 -> reg_comma_at line (the_registers g p h) p1 b p2 ->
  expr_at line (the_env g p h) (g_pointer g) p2 v p3 ->
  let shift := Z.land token 0x06000000 =? 0x02000000 in
  let x := i_value token v in
  let fits := (if shift then x <? 32 else (-2048 <=? s32 x) && (s32 x <? 2048))%bool in
  exists w g', parse g = Ok (tt, g') /\ line_out g [w] (g_out g') /\ g_pointer g' = u32 (g_pointer g + 4) /\
    g_error g' = (if fits then eval_okay else SYM_OORANGE) /\ (fits = false -> w = 0) /\
    (fits = true -> opcode w = Z.lor (op_field token) 3 /\ funct3 w = field token 25 3 /\ rd w = a /\
      rs1 w = b /\ if shift then rs2 w = x /\ funct7 w = field token 8 7 else imm_I w = s32 x).
Proof.
  intros Hml Hpass Hlive Hptr Ht Hline Hnul Hbuf Ha Hb Hv shift x fits. set (s0 := astate_of (at_operands g p h)).
  assert (Hs0 : as_pointer s0 = g_pointer g /\ as_bytes s0 = [])
    by (unfold s0, at_operands, started; destruct (f_list _); auto).
  destruct Hs0 as [Hp0 Hb0].
  assert (Hready : ready s0 p).
  { split; [reflexivity|]. split; [reflexivity|]. rewrite Hp0. exact Hptr. }
  rewrite <- Hp0 in Hv.
  pose proof (assemble_i_type line token pass_count (the_env g p h) (the_registers g p h) junk junk_flag
    s0 p p1 p2 p3 a b v Ht Hready Ha Hb Hv) as H. cbv zeta in H. fold x in H. fold shift in H. fold fits in H.
  assert (H1 : exists w s, assemble line token pass_count (the_env g p h) (the_registers g p h) junk junk_flag s0 = Ok (tt, s) /\
    (as_error s = (if fits then eval_okay else SYM_OORANGE) /\ as_bytes s = words_bytes (g_pointer g) [w] /\
     as_pointer s = u32 (g_pointer g + 4)) /\ (fits = false -> w = 0) /\
    (fits = true -> opcode w = Z.lor (op_field token) 3 /\ funct3 w = field token 25 3 /\ rd w = a /\
      rs1 w = b /\ if shift then rs2 w = x /\ funct7 w = field token 8 7 else imm_I w = s32 x)).
  { destruct fits; [destruct H as (w & s & E & (He & Hby & Hpt) & Hw); exists w, s
      |destruct H as (s & E & (He & Hby & Hpt)); exists 0, s];
    rewrite Hb0, Hp0 in Hby; rewrite Hp0 in Hpt; (split; [exact E|]); (split; [auto|]); split; try discriminate; auto. }
  destruct H1 as (w & s & E & (He & Hby & Hpt) & H0 & Hw).
  destruct (line_out_total g [w] text rest Hline Hnul Hbuf) as [o Ho].
  destruct (parse_instruction _ _ _ _ _ _ s [w] o Hml Hpass Hlive Hptr E Hby Ho) as (g' & Eg & Hout & Hpg & Heg).
  exists w, g'. rewrite Hout, Hpg, Heg, Hpt, He. auto 10.
Qed.

End Source.
