(* ===== verification/RvaDemo.v ===== *)
(** * A program through the assembler

    A small source with a label, data, a condition and a branch, assembled by [main] of
    RvaMain.v with a mnemonic file of a few lines. The states between its passes are
    instances of the theorems of the assembler's files. *)

From S2P Require Import Prelude ElfLoad RvaDefs RvaLex RvaSym RvaEval RvaEncode RvaOut RvaElf RvaText RvaState RvaDir.
From S2P Require Import RvaList RvaLine RvaPass RvaIfs RvaStable RvaData RvaMain RvaIsa RvaAsm RvaSource.
From Stdlib Require Import Ascii String.
From stdpp Require Import strings.
Local Open Scope string_scope.
Local Open Scope list_scope.
Local Open Scope Z_scope.

Module Demo.

Definition nl : string := String (ascii_of_nat 10) EmptyString.
Definition lines (l : list string) : list Z := chars (String.concat nl l ++ nl)%string.

Definition mnemonics : list Z := lines ["equ F8000000"; "defb F0000000"; "align F8020000"; "if F00C0000"; "else F00E0000";
  "fi F00D0000"; "addi 00420000"; "j 00290000"].

Definition source : list Z := lines ["x equ 5"; "loop: addi x1, x2, x"; " if 0"; " defb 9"; " else"; " defb 'hi', 1, 2, 3";
  " fi"; " align"; " j loop"].

Definition junk_sym (p : Z) : sym_record := SymRecord 0 0 0 0 0 0 0 (replicate 32 0).
Definition own : own_label := OwnLabel NO_LABEL 0 0.

Definition get {A} (d : A) (r : res A) : A := match r with Ok a => a | _ => d end.

Definition all_open : open_files := OpenFiles true true true true.
Definition empty_table : sym_table := sym_create_table [] 0.
Definition no_tables : tables :=
  Tables (Config all_open empty_table empty_table empty_table) empty_table empty_table [] (SymHeap ∅ 1).
Definition the_tables : tables := get no_tables (build_tables junk_sym all_open mnemonics).

Abbreviation run := (run_pass (tb_config the_tables) junk_sym 0 false own (fun _ => None) (tb_mnemonics the_tables) 100
                       (chars "demo.s") source).

Definition c0 : control := Control 0 false false false.
Definition p0 : pstate := PState (start_state the_tables) false [].
Definition p1 : pstate := get p0 (run c0 p0).
Definition c1 : control := decide_pass p1 c0.
Definition p2 : pstate := get p0 (run c1 p1).
Definition c2 : control := decide_pass p2 c1.
Definition p3 : pstate := get p0 (run c2 p2).
Definition c3 : control := decide_pass p3 c2.

Definition args : list (list Z) := map chars ["-e"; "a.elf"; "-h"; "a.hex"; "-v"; "a.v"; "[8]"; "demo.s"].

Definition assembled : res outcome := main junk_sym 0 false own
  (fun name => if bool_decide (name = chars "demo.s") then Some source else None) (Some mnemonics) 100 args.

End Demo.

(** The program is assembled without errors; the ELF file describes the same bytes as
    the others. *)
Example demo_assembled : exists oc, Demo.assembled = Ok oc /\ oc_status oc = 0 /\ oc_reports oc = [] /\
  option_map load_image (oc_elf oc) =
    Some [(0, 0x93); (1, 0); (2, 0x51); (3, 0); (4, 0x68); (5, 0x69); (6, 1); (7, 2); (8, 3);
          (12, 0x6F); (13, 0xF0); (14, 0x5F); (15, 0xFF)] /\
  oc_verilog oc = Some (Demo.lines ["00510093"; "02016968"]).
Proof. eexists. split; [vm_compute; reflexivity|]. repeat split; vm_compute; reflexivity. Qed.

(** ** Instances of the theorems *)

Module PassWitness.

Import Demo.

Lemma heap_wf_check h : forallb (fun p => p <? sh_next h) (map fst (map_to_list (sh_recs h))) = true -> heap_wf h.
Proof.
  intros H p Hp. destruct (sh_recs h !! p) as [r|] eqn:E; [|reflexivity]. exfalso.
  rewrite forallb_forall in H. assert (Hlt : (p <? sh_next h) = true).
  { apply H. apply in_map_iff. exists (p, r). split; [reflexivity|]. apply list_elem_of_In, elem_of_map_to_list. exact E. }
  apply Z.ltb_lt in Hlt. lia.
Qed.

Lemma run1 : run c0 p0 = Ok p1.
Proof. vm_compute. reflexivity. Qed.

Lemma run2 : run c1 p1 = Ok p2.
Proof. vm_compute. reflexivity. Qed.


Lemma reached2 : reached (tb_config the_tables) junk_sym 0 false own (fun _ => None) (tb_mnemonics the_tables) 100
  (chars "demo.s") source (start_state the_tables) c2 p2.
Proof.
  apply (reached_pass _ _ _ _ _ _ _ _ _ _ _ c1 p1 p2); [|vm_compute; reflexivity|exact run2].
  apply (reached_pass _ _ _ _ _ _ _ _ _ _ _ c0 p0 p1); [|vm_compute; reflexivity|exact run1].
  apply reached_start.
Qed.

(** The third pass plants the code. *)
Lemma planting_pass_witness : ct_dump c2 = true /\ quiet (p_g p2) = true.
Proof.
  split; [vm_compute; reflexivity|].
  destruct (planting_pass _ _ _ _ _ _ _ _ _ _ _ c2 p2 reached2) as (_ & c & p & H); [vm_compute; reflexivity..|].
  apply H.
Defined.

Definition still : pstate := PState (begin_pass (start_state no_tables)) false [].

Lemma settled_on_pass_20_is_reported_witness : fed_up (decide_pass still (decide_pass still (Control 20 false false false))) = true.
Proof. apply (settled_on_pass_20_is_reported still still); reflexivity. Defined.

(** The stack after the whole source. *)
Definition after_lines : pstate := get p0
  (code_lines (tb_config the_tables) junk_sym 0 false own (fun _ => None) (tb_mnemonics the_tables) 0 false false 100
     (chars "demo.s") [] (Stream source false) 1 (PState (begin_pass (p_g p0)) (p_finished p0) (p_reports p0))).


End PassWitness.

Module DataWitness.

Import Demo.

(** A data line: a number and a string. *)
Definition line : list Z := chars "1,'ok'" ++ [0].
Definition cfg : config := tb_config the_tables.
Definition start : gstate := begin_pass (start_state the_tables).
Definition env : eval_env := env_of cfg junk_sym own start.
Definition value_state : estate := match evaluate env line 0 with Ok (_, _, st) => st | _ => EState [] 0 0 0 0 false 0 end.
Definition dumped_out : outputs :=
  get (g_out start) (dump_run all_open true (live_of start) line 1 0 [1; 111; 107] (g_out start)).

Lemma the_elements : RvaData.elements line env 0 [1; 111; 107] 6.
Proof.
  change [1; 111; 107] with ([1] ++ map (fun c => u32 (s8 c)) [111; 107]).
  apply (els_more _ _ 0 [1] (es_pos value_state) _ 6).
  - apply (el_value _ _ 0 0 49); vm_compute; reflexivity.
  - vm_compute. discriminate.
  - vm_compute. reflexivity.
  - apply (els_last _ _ _ _ 6 0); [|vm_compute; reflexivity|discriminate].
    apply (el_string _ _ _ 2 39 [111; 107] [111; 107] [49; 44] [0]); try (vm_compute; reflexivity).
    repeat (constructor; [lia..|]). constructor.
Qed.


(** DEFS 3, 7 *)
Definition fill_line : list Z := chars "3,7" ++ [0].
Definition after_count : gstate := match g_evaluate cfg junk_sym fill_line own start with Ok (_, g) => g | _ => start end.
Definition after_fill : gstate :=
  match g_evaluate cfg junk_sym fill_line own (g_with_position (g_position after_count + 1) after_count) with
  | Ok (_, g) => g | _ => start end.
Definition filled_out : outputs :=
  get (g_out start) (dump_run all_open true (live_of start) fill_line 1 0 [7; 7; 7] (g_out start)).

Lemma fill_definition_plants_witness : exists g',
  directive_defs cfg junk_sym 2 true true fill_line own start = Ok (tt, g') /\ g_pointer g' = 3.
Proof.
  destruct (fill_definition_plants cfg junk_sym 2 true fill_line own 3 7 start after_count after_fill filled_out)
    as (g' & E & _ & _ & Ep); [vm_compute; reflexivity..|].
  exists g'. split; [exact E|]. rewrite Ep. vm_compute. reflexivity.
Defined.

(** ALIGN 8 at address 5 *)
Definition align_line : list Z := chars "8" ++ [0].
Definition at_5 : gstate := g_with_pointer 5 start.
Definition after_8 : gstate := match g_evaluate cfg junk_sym align_line own at_5 with Ok (_, g) => g | _ => start end.

Lemma align_moves_to_multiple_witness : exists g',
  do_align cfg junk_sym 2 true true align_line own at_5 = Ok (tt, g') /\ g_pointer g' = 8.
Proof.
  destruct (align_moves_to_multiple cfg junk_sym 2 true align_line own 8 at_5 after_8 0)
    as (g' & E & _ & Ep); [vm_compute; reflexivity..|discriminate|reflexivity|vm_compute; split; congruence|lia
    |left; vm_compute; reflexivity|].
  exists g'. split; [exact E|]. rewrite Ep. vm_compute. reflexivity.
Defined.

Lemma record_align_skips_witness : record_align 8 4 = 12.
Proof. apply (record_align_skips 8 4); [lia..|]. exists 2. reflexivity. Defined.

(** IF 1: both parts are assembled. *)
Definition if_line : list Z := chars "1" ++ [0].
Definition after_1 : gstate := match g_evaluate cfg junk_sym if_line own start with Ok (_, g) => g | _ => start end.

Lemma if_else_endif_witness : exists g2 g3, directive_if cfg junk_sym if_line own start = Ok (tt, g2) /\
  live_of g2 = true /\ directive_else g2 = Ok (tt, g3) /\ live_of g3 = true.
Proof.
  destruct (if_else_endif cfg junk_sym if_line own 1 start after_1) as (g2 & g3 & g4 & E2 & L2 & E3 & L3 & _);
    [vm_compute; reflexivity..|lia|vm_compute; split; congruence|vm_compute; reflexivity|].
  exists g2, g3. auto.
Defined.

End DataWitness.

Module SourceWitness.

Import Demo RvaAsmWitness.

(** " addi x1, x2, 5", as the first line of the third pass. *)
Definition line : list Z := chars " addi x1, x2, 5" ++ [0].
Definition cfg : config := tb_config the_tables.
Definition g0 : gstate := begin_pass (p_g p2).
Definition addi : list Z := chars "addi".
Definition heap1 : sym_heap :=
  match sym_find_label_list junk_sym addi (tb_mnemonics the_tables) (g_syms g0) with Ok (_, h) => h | _ => g_syms g0 end.

Lemma the_line : mnemonic_line junk_sym (tb_mnemonics the_tables) line g0 1 addi 0x00420000 5 heap1.
Proof.
  constructor; try (vm_compute; (reflexivity || discriminate)).
  - exists 97. split; vm_compute; reflexivity.
  - exists 0. vm_compute. reflexivity.
  - exists 32. split; [vm_compute; reflexivity|discriminate].
  - do 2 eexists. split; [vm_compute; reflexivity|]. split; [discriminate|]. split; vm_compute; reflexivity.
Qed.

(** The outputs are in order after two passes. *)
Lemma buffers : buffers_ok (g_out g0).
Proof. split; [vm_compute; reflexivity..|discriminate]. Qed.

Lemma immediate_line_plants_witness : exists w g', opcode w = 0x13 /\ rd w = 1 /\ rs1 w = 2 /\ imm_I w = 5 /\
  parse_source_line cfg junk_sym 0 false own (fun _ => None) 2 true true (tb_mnemonics the_tables) [] line g0 = Ok (tt, g') /\
  g_pointer g' = 4.
Proof.
  destruct (immediate_line_plants cfg junk_sym 0 false own (fun _ => None) 2 (tb_mnemonics the_tables) [] line g0 1 addi
    0x00420000 5 heap1 9 13 15 1 2 5 (chars " addi x1, x2, 5") [] the_line) as (w & g' & E & _ & Eg & _ & _ & H);
    [discriminate|vm_compute; reflexivity|vm_compute; split; [discriminate|reflexivity]|reflexivity|reflexivity
    |apply (bool_decide_unpack _); vm_compute; exact I|exact buffers|reads_comma|reads_comma|reads_expr|].
  destruct H as (H1 & _ & H2 & H3 & H4); [reflexivity|].
  exists w, g'. auto 10.
Defined.

End SourceWitness.

Module OutputWitness.

Import Demo.

Definition no_hex : hex_state := HexState 0 false (replicate 58 0) [].

Lemma hex_file_roundtrip_witness : exists h, hex_dump_all [(14, 1); (15, 2); (16, 255); (64, 7)] no_hex = Ok h /\
  read_hex (hx_file (hex_dump_flush h)) = [(14, 1); (15, 2); (16, 255); (64, 7)].
Proof.
  apply hex_file_roundtrip; [|reflexivity..]. repeat constructor; vm_compute; congruence.
Defined.

Definition no_elf : elf_state := ElfState false 1 0 true [].
Definition events : list elf_event := [Dump 0 1; Dump 1 2; New_section; Dump 64 255].


Lemma verilog_file_words_witness : verilog_file false 4 (<[0 := 0x93]> (<[2 := 0x51]> ∅)) = chars "00510093" ++ new_line.
Proof.
  destruct (verilog_file_words 1 (<[0 := 0x93]> (<[2 := 0x51]> ∅))) as [H _].
  - intros i. unfold image_at. destruct (decide (i = 0)) as [->|]; [vm_compute; split; congruence|].
    rewrite lookup_insert_ne by congruence. destruct (decide (i = 2)) as [->|]; [vm_compute; split; congruence|].
    rewrite lookup_insert_ne, lookup_empty by congruence. simpl. lia.
  - etransitivity; [exact H|]. vm_compute. reflexivity.
Defined.

End OutputWitness.

Module MainWitness.

Import Demo.

(** Files [a.hex] is asked for and the source [no.s] does not exist. *)
Definition lost_args : list (list Z) := map chars ["-h"; "a.hex"; "no.s"].
Definition lost_options : options := get default_options (set_options 4 lost_args default_options).
Definition lost : outcome :=
  get nothing (main junk_sym 0 false own (fun _ => None) (Some mnemonics) 100 lost_args).

Lemma missing_source_is_success_witness : oc_status lost = 0 /\ oc_hex lost = Some [].
Proof.
  assert (E : main junk_sym 0 false own (fun _ => None) (Some mnemonics) 100 lost_args = Ok lost) by (vm_compute; reflexivity).
  assert (Eo : set_options (S (List.length lost_args)) lost_args default_options = Ok lost_options) by (vm_compute; reflexivity).
  pose proof (missing_source_is_success junk_sym 0 false own (fun _ => None) mnemonics 100 lost_args lost_options
    (chars "no.s") Eo eq_refl eq_refl eq_refl eq_refl eq_refl eq_refl lost E) as (H & _ & Hx).
  split; [exact H|apply Hx; reflexivity].
Defined.

Definition failed : pstate := PState (g_with_errors 1 (start_state no_tables)) false [].


End MainWitness.
