(* ===== verification/KText.v ===== *)
(** * The kernel's assembly sources

    The text of the kernel's assembly files that KImage.v has assembled, line by line, and
    the file of mnemonics the assembler reads. A list is a file, a string a line. The lines
    that hold a double quote are left out: an [#include], which the C preprocessor takes
    away, and two comments. *)

From Stdlib Require Import String List.
Import ListNotations.
Local Open Scope string_scope.

(* tools/assembler/mnemonics:1-570 mnemonics *)
Definition mnemonics : list string := [
  "; Directives";
  "equ	F8000000		; <31-28> = F is directive flag";
  "org	F8010000		; <27> indicates can redefine label";
  "origin	F8010000		; <26> indicates can define non-label";
  "align	F8020000";
  "def	F8030000";
  "record	F8040000";
  "structure F8040000";
  "struct	F8040000";
  "rec_align	F8050000";
  "struct_align	F8050000";
  "";
  "alias	F8100000		; Encodes size of operation";
  "byte	F8110000";
  "halfword F8120000";
  "half	F8120000";
  "word	F8140000";
  "double	F8180000";
  "doubleword F8180000";
  "";
  "rn	F4000000";
  "cn	F4010000";
  "cp	F4020000";
  "";
  "defb	F0000000";
  "dcb	F0000000";
  "defh	F0010000";
  "dcw	F0010000";
  "defw	F0020000";
  "dcd	F0020000";
  "defs	F0030000";
  "export	F0040000";
  "include	F0050000";
  "get	F0050000";
  "literal	F0060000";
  "literals F0060000";
  "pool	F0060000";
  "ltorg	F0060000";
  "arch	F0070000";
  "architecture F0070000";
  "entry	F0080000";
  "arm	F0090000";
  "thumb	F00A0000";
  "set	F00B0000";
  "define	F00B0000";
  "if	F00C0000";
  "endif	F00D0000";
  "fi	F00D0000";
  "else	F00E0000";
  "import	F00F0000";
  "";
  "; ** Incomplete description **";
  "; <27:25> func3 bits (if appropriate)  [Bits 14:12]";
  "; <24:20> Primary op. code             [Bits 6:2]";
  "; <19:16> Primary mnemonic classifier";
  "; <15>    Variable length flag   ** maybe determine by classifier? **";
  "; <14:8>  Sometimes secondary op. code [Bits 31:25]";
  "";
  "lui	00D00000	; U-type";
  "auipc	00500000	; U-type";
  "";
  "jal	01B10000	; J-type";
  "";
  "jalr	01950000	; I-type, load syntax";
  "";
  "lb	00058000	; I-type, load syntax";
  "lh	02058000	; I-type, load syntax";
  "lw	04058000	; I-type, load syntax";
  "lbu	08058000	; I-type, load syntax";
  "lhu	0A058000	; I-type, load syntax";
  "";
  "lwu	0C058000	; RV64I";
  "ld	06058000	; RV64I";
  "";
  "addi	00420000	; I-type";
  "subi	10420000	; I-type (alternate code)";
  "slti	04420000	; I-type";
  "sltiu	06420000	; I-type";
  "xori	08420000	; I-type";
  "ori	0C420000	; I-type";
  "andi	0E420000	; I-type";
  "slli	02420000	; I-type (ish)";
  "srli	0A420000	; I-type (ish)";
  "srai	0A422000	; I-type (ish)";
  "";
  "addiw   00620000	; RV64I";
  "";
  "beq	01830000	; B-type";
  "bne	03830000	; B-type";
  "blt	09830000	; B-type";
  "bge	0B830000	; B-type";
  "bltu	0D830000	; B-type";
  "bgeu	0F830000	; B-type";
  "";
  "sb	00848000	; S-type";
  "sh	02848000	; S-type";
  "sw	04848000	; S-type";
  "";
  "sd	06848000	; RV64I";
  "";
  "add	00C60000	; R-type";
  "sub	00C62000	; R-type";
  "sll	02C60000	; R-type";
  "slt	04C60000	; R-type";
  "sltu	06C60000	; R-type";
  "xor	08C60000	; R-type";
  "srl	0AC60000	; R-type";
  "sra	0AC62000	; R-type";
  "or	0CC60000	; R-type";
  "and	0EC60000	; R-type";
  "";
  "slliw	02620000	; RV64I";
  "srliw	0A620000	; RV64I";
  "sraiw	0A622000	; RV64I";
  "addw	00E60000	; RV64I";
  "subw	00E62000	; RV64I";
  "sllw	02E60000	; RV64I";
  "srlw	0AE60000	; RV64I";
  "sraw	0AE62000	; RV64I";
  "";
  "fence	00080000	; ";
  "fence.i	02080000	; May need extension";
  "ecall	00070000	; ";
  "ebreak	00170000	; ";
  "";
  "uret	00270000";
  "sret	10270000";
  "mret	30270000";
  "wfi	10570000";
  "";
  "csrrw	03CA0000	; I-type (ish)";
  "csrrs	05CA0000	; I-type (ish)";
  "csrrc	07CA0000	; I-type (ish)";
  "csrrwi	1BCA0000	; I-type (ish)";
  "csrrsi	1DCA0000	; I-type (ish)";
  "csrrci	1FCA0000	; I-type (ish)";
  "";
  "mul	00C60100	; RV32M";
  "mulh	02C60100	; RV32M";
  "mulhsu	04C60100	; RV32M";
  "mulhu	06C60100	; RV32M";
  "div	08C60100	; RV32M";
  "divu	0AC60100	; RV32M";
  "rem	0CC60100	; RV32M";
  "remu	0EC60100	; RV32M";
  "";
  "mulw	00E60100	; RV64M";
  "divw	08E60100	; RV64M";
  "divuw	0AE60100	; RV64M";
  "remw	0CE60100	; RV64M";
  "remuw	0EE60100	; RV64M";
  "";
  "";
  "lr.w		008C0000	; RV32A";
  "lr.w.aq		00AC0000	; Lazy approach";
  "lr.w.rl		009C0000	; but easy way of coping";
  "lr.w.rl.aq	00BC0000";
  "lr.w.aq.rl	00BC0000";
  "sc.w		00CC0000";
  "sc.w.aq		00EC0000";
  "sc.w.rl		00DC0000";
  "sc.w.rl.aq	00FC0000";
  "sc.w.aq.rl	00FC0000";
  "amoswap.w 	004C0000";
  "amoswap.w.aq 	006C0000";
  "amoswap.w.rl 	005C0000";
  "amoswap.w.rl.aq	007C0000";
  "amoswap.w.aq.rl	007C0000";
  "amoadd.w  	000C0000";
  "amoadd.w.aq	002C0000";
  "amoadd.w.rl	001C0000";
  "amoadd.w.rl.aq	003C0000";
  "amoadd.w.aq.rl	003C0000";
  "amoxor.w	010C0000";
  "amoxor.w.aq	012C0000";
  "amoxor.w.rl	011C0000";
  "amoxor.w.rl.aq	013C0000";
  "amoxor.w.aq.rl	013C0000";
  "amoand.w	030C0000";
  "amoand.w.aq	032C0000";
  "amoand.w.rl	031C0000";
  "amoand.w.rl.aq	033C0000";
  "amoand.w.aq.rl	033C0000";
  "amoor.w		020C0000";
  "amoor.w.aq	022C0000";
  "amoor.w.rl	021C0000";
  "amoor.w.rl.aq	023C0000";
  "amoor.w.aq.rl	023C0000";
  "amomin.w	040C0000";
  "amomin.w.aq	042C0000";
  "amomin.w.rl	041C0000";
  "amomin.w.rl.aq	043C0000";
  "amomin.w.aq.rl	043C0000";
  "amomax.w	050C0000";
  "amomax.w.aq	052C0000";
  "amomax.w.rl	051C0000";
  "amomax.w.rl.aq	053C0000";
  "amomax.w.aq.rl	053C0000";
  "amominu.w	060C0000";
  "amominu.w.aq	062C0000";
  "amominu.w.rl	061C0000";
  "amominu.w.rl.aq	063C0000";
  "amominu.w.aq.rl	063C0000";
  "amomaxu.w	070C0000";
  "amomaxu.w.aq	072C0000";
  "amomaxu.w.rl	071C0000";
  "amomaxu.w.rl.aq	073C0000";
  "amomaxu.w.aq.rl	073C0000";
  "";
  "lr.d		088C0000	; RV64A";
  "lr.d.aq		08AC0000";
  "lr.d.rl		089C0000";
  "lr.d.rl.aq	08BC0000";
  "lr.d.aq.rl	08BC0000";
  "sc.d		08CC0000";
  "sc.d.aq		08EC0000";
  "sc.d.rl		08DC0000";
  "sc.d.rl.aq	08FC0000";
  "sc.d.aq.rl	08FC0000";
  "amoswap.d 	084C0000";
  "amoswap.d.aq 	086C0000";
  "amoswap.d.rl 	085C0000";
  "amoswap.d.rl.aq	087C0000";
  "amoswap.d.aq.rl	087C0000";
  "amoadd.d  	080C0000";
  "amoadd.d.aq	082C0000";
  "amoadd.d.rl	081C0000";
  "amoadd.d.rl.aq	083C0000";
  "amoadd.d.aq.rl	083C0000";
  "amoxor.d	090C0000";
  "amoxor.d.aq	092C0000";
  "amoxor.d.rl	091C0000";
  "amoxor.d.rl.aq	093C0000";
  "amoxor.d.aq.rl	093C0000";
  "amoand.d	0B0C0000";
  "amoand.d.aq	0B2C0000";
  "amoand.d.rl	0B1C0000";
  "amoand.d.rl.aq	0B3C0000";
  "amoand.d.aq.rl	0B3C0000";
  "amoor.d		0A0C0000";
  "amoor.d.aq	0A2C0000";
  "amoor.d.rl	0A1C0000";
  "amoor.d.rl.aq	0A3C0000";
  "amoor.d.aq.rl	0A3C0000";
  "amomin.d	0C0C0000";
  "amomin.d.aq	0C2C0000";
  "amomin.d.rl	0C1C0000";
  "amomin.d.rl.aq	0C3C0000";
  "amomin.d.aq.rl	0C3C0000";
  "amomax.d	0D0C0000";
  "amomax.d.aq	0D2C0000";
  "amomax.d.rl	0D1C0000";
  "amomax.d.rl.aq	0D3C0000";
  "amomax.d.aq.rl	0D3C0000";
  "amominu.d	0E0C0000";
  "amominu.d.aq	0E2C0000";
  "amominu.d.rl	0E1C0000";
  "amominu.d.rl.aq	0E3C0000";
  "amominu.d.aq.rl	0E3C0000";
  "amomaxu.d	0F0C0000";
  "amomaxu.d.aq	0F2C0000";
  "amomaxu.d.rl	0F1C0000";
  "amomaxu.d.rl.aq	0F3C0000";
  "amomaxu.d.aq.rl	0F3C0000";
  "";
  "li	000B8000	; Pseudo-instructions";
  "la	000B9000";
  "lla	000B9000";
  "";
  "call	021BA000";
  "tail	006BA000";
  "";
  "nop     00090000";
  "ret     10090000";
  "illegal 20090000";
  "jr      00190000";
  "j	00290000";
  "";
  "mv	00390000";
  "not	10390000";
  "neg	20390000";
  "negw	30390000";
  "sext.w	40390000";
  "seqz	50390000";
  "snez	60390000";
  "sltz	70390000";
  "sgtz	80390000";
  "";
  "beqz	00490000";
  "bnez	02490000";
  "blez	0B490000";
  "bgez	0A490000";
  "bltz	08490000";
  "bgtz	09490000";
  "";
  "bgt	19830000	; This subset mapped with";
  "ble	1B830000	; 'normal' branches";
  "bgtu	1D830000";
  "bleu	1F830000";
  "";
  "csrr	24590000";
  "csrw	02590000";
  "csrs	04590000";
  "csrc	06590000";
  "csrwi	1A590000";
  "csrsi	1C590000";
  "csrci	1E590000";
  "";
  "";
  "rdinstret C0692200	; Fields unfortunate!";
  "rdcycle   C0690200";
  "rdtime    C0691200";
  "";
  "rdinstreth C8692200";
  "rdcycleh   C8690200";
  "rdtimeh	   C8691200";
  "";
  "frcsr	00693200";
  "frrm	00692200";
  "frflags	00691200";
  "fscsr	00693100";
  "fsrm	00692100";
  "fsflags	00691100";
  "";
  ";fmv.s rd, rs		fsgnj.s rd, rs, rs		";
  ";fabs.s rd, rs		fsgnjx.s rd, rs, rs		";
  ";fneg.s rd, rs		fsgnjn.s rd, rs, rs		";
  ";fmv.d rd, rs		fsgnj.d rd, rs, rs		";
  ";fabs.d rd, rs		fsgnjx.d rd, rs, rs		";
  ";fneg.d rd, rs		fsgnjn.d rd, rs, rs		";
  "";
  "";
  "USTATUS		00000001	; CSR addresses";
  "FFLAGS		00100001";
  "FRM		00200001";
  "FCSR		00300001";
  "UIE		00400001";
  "UTVEC		00500001";
  "";
  "USCRATCH	04000001";
  "UEPC		04100001";
  "UCAUSE		04200001";
  "UTVAL		04300001";
  "UIP		04400001";
  "";
  "SSTATUS		10000001";
  "SEDELEG		10200001";
  "SIDELEG		10300001";
  "SIE		10400001";
  "STVEC		10500001";
  "SCOUNTEREN	10600001";
  "";
  "SSCRATCH	14000001";
  "SEPC		14100001";
  "SCAUSE		14200001";
  "STVAL		14300001";
  "SIP		14400001";
  "";
  "SAT		18000001";
  "";
  "MSTATUS		30000001";
  "MISA		30100001";
  "MEDELEG		30200001";
  "MIDELEG		30300001";
  "MIE		30400001";
  "MTVEC		30500001";
  "MCOUNTEREN	30600001";
  "";
  "MCOUNTINHIBIT	32000001";
  "MHPMEVENT3	32300001";
  "MHPMEVENT4	32400001";
  "MHPMEVENT5	32500001";
  "MHPMEVENT6	32600001";
  "MHPMEVENT7	32700001";
  "MHPMEVENT8	32800001";
  "MHPMEVENT9	32900001";
  "MHPMEVENT10	32A00001";
  "MHPMEVENT11	32B00001";
  "MHPMEVENT12	32C00001";
  "MHPMEVENT13	32D00001";
  "MHPMEVENT14	32E00001";
  "MHPMEVENT15	32F00001";
  "MHPMEVENT16	33000001";
  "MHPMEVENT17	33100001";
  "MHPMEVENT18	33200001";
  "MHPMEVENT19	33300001";
  "MHPMEVENT20	33400001";
  "MHPMEVENT21	33500001";
  "MHPMEVENT22	33600001";
  "MHPMEVENT23	33700001";
  "MHPMEVENT24	33800001";
  "MHPMEVENT25	33900001";
  "MHPMEVENT26	33A00001";
  "MHPMEVENT27	33B00001";
  "MHPMEVENT28	33C00001";
  "MHPMEVENT29	33D00001";
  "MHPMEVENT30	33E00001";
  "MHPMEVENT31	33F00001";
  "";
  "MSCRATCH	34000001";
  "MEPC		34100001";
  "MCAUSE		34200001";
  "MTVAL		34300001";
  "MIP		34400001";
  "";
  "PMPCFG0		3A000001";
  "PMPCFG1		3A100001";
  "PMPCFG2		3A200001";
  "PMPCFG3		3A300001";
  "PMPADDR0	3B000001";
  "PMPADDR1	3B100001";
  "PMPADDR2	3B200001";
  "PMPADDR3	3B300001";
  "PMPADDR4	3B400001";
  "PMPADDR5	3B500001";
  "PMPADDR6	3B600001";
  "PMPADDR7	3B700001";
  "PMPADDR8	3B800001";
  "PMPADDR9	3B900001";
  "PMPADDR10	3BA00001";
  "PMPADDR11	3BB00001";
  "PMPADDR12	3BC00001";
  "PMPADDR13	3BD00001";
  "PMPADDR14	3BE00001";
  "PMPADDR15	3BF00001";
  "";
  "TSELECT		7A000001";
  "TDATA1		7A100001";
  "TDATA2		7A200001";
  "TDATA3		7A300001";
  "";
  "DCSR		7B000001";
  "DPC		7B100001";
  "DSCRATCH0	7B200001";
  "DSCRATCH1	7B300001";
  "";
  "MCYCLE		B0000001";
  "MINSTRET	B0200001";
  "MHPMCOUNTER3	B0300001";
  "MHPMCOUNTER4	B0400001";
  "MHPMCOUNTER5	B0500001";
  "MHPMCOUNTER6	B0600001";
  "MHPMCOUNTER7	B0700001";
  "MHPMCOUNTER8	B0800001";
  "MHPMCOUNTER9	B0900001";
  "MHPMCOUNTER10	B0A00001";
  "MHPMCOUNTER11	B0B00001";
  "MHPMCOUNTER12	B0C00001";
  "MHPMCOUNTER13	B0D00001";
  "MHPMCOUNTER14	B0E00001";
  "MHPMCOUNTER15	B0F00001";
  "MHPMCOUNTER16	B1000001";
  "MHPMCOUNTER17	B1100001";
  "MHPMCOUNTER18	B1200001";
  "MHPMCOUNTER19	B1300001";
  "MHPMCOUNTER20	B1400001";
  "MHPMCOUNTER21	B1500001";
  "MHPMCOUNTER22	B1600001";
  "MHPMCOUNTER23	B1700001";
  "MHPMCOUNTER24	B1800001";
  "MHPMCOUNTER25	B1900001";
  "MHPMCOUNTER26	B1A00001";
  "MHPMCOUNTER27	B1B00001";
  "MHPMCOUNTER28	B1C00001";
  "MHPMCOUNTER29	B1D00001";
  "MHPMCOUNTER30	B1E00001";
  "MHPMCOUNTER31	B1F00001";
  "";
  "MCYCLEH		B8000001";
  "MINSTRETH	B8200001";
  "MHPMCOUNTER3H	B8300001";
  "MHPMCOUNTER4H	B8400001";
  "MHPMCOUNTER5H	B8500001";
  "MHPMCOUNTER6H	B8600001";
  "MHPMCOUNTER7H	B8700001";
  "MHPMCOUNTER8H	B8800001";
  "MHPMCOUNTER9H	B8900001";
  "MHPMCOUNTER10H	B8A00001";
  "MHPMCOUNTER11H	B8B00001";
  "MHPMCOUNTER12H	B8C00001";
  "MHPMCOUNTER13H	B8D00001";
  "MHPMCOUNTER14H	B8E00001";
  "MHPMCOUNTER15H	B8F00001";
  "MHPMCOUNTER16H	B9000001";
  "MHPMCOUNTER17H	B9100001";
  "MHPMCOUNTER18H	B9200001";
  "MHPMCOUNTER19H	B9300001";
  "MHPMCOUNTER20H	B9400001";
  "MHPMCOUNTER21H	B9500001";
  "MHPMCOUNTER22H	B9600001";
  "MHPMCOUNTER23H	B9700001";
  "MHPMCOUNTER24H	B9800001";
  "MHPMCOUNTER25H	B9900001";
  "MHPMCOUNTER26H	B9A00001";
  "MHPMCOUNTER27H	B9B00001";
  "MHPMCOUNTER28H	B9C00001";
  "MHPMCOUNTER29H	B9D00001";
  "MHPMCOUNTER30H	B9E00001";
  "MHPMCOUNTER31H	B9F00001";
  "";
  "CYCLE		C0000001";
  "TIME		C0100001";
  "INSTRET		C0200001";
  "HPMCOUNTER3	C0300001";
  "HPMCOUNTER4	C0400001";
  "HPMCOUNTER5	C0500001";
  "HPMCOUNTER6	C0600001";
  "HPMCOUNTER7	C0700001";
  "HPMCOUNTER8	C0800001";
  "HPMCOUNTER9	C0900001";
  "HPMCOUNTER10	C0A00001";
  "HPMCOUNTER11	C0B00001";
  "HPMCOUNTER12	C0C00001";
  "HPMCOUNTER13	C0D00001";
  "HPMCOUNTER14	C0E00001";
  "HPMCOUNTER15	C0F00001";
  "HPMCOUNTER16	C1000001";
  "HPMCOUNTER17	C1100001";
  "HPMCOUNTER18	C1200001";
  "HPMCOUNTER19	C1300001";
  "HPMCOUNTER20	C1400001";
  "HPMCOUNTER21	C1500001";
  "HPMCOUNTER22	C1600001";
  "HPMCOUNTER23	C1700001";
  "HPMCOUNTER24	C1800001";
  "HPMCOUNTER25	C1900001";
  "HPMCOUNTER26	C1A00001";
  "HPMCOUNTER27	C1B00001";
  "HPMCOUNTER28	C1C00001";
  "HPMCOUNTER29	C1D00001";
  "HPMCOUNTER30	C1E00001";
  "HPMCOUNTER31	C1F00001";
  "";
  "CYCLEH		C8000001";
  "TIMEH		C8100001";
  "INSTRETH	C8200001";
  "HPMCOUNTER3H	C8300001";
  "HPMCOUNTER4H	C8400001";
  "HPMCOUNTER5H	C8500001";
  "HPMCOUNTER6H	C8600001";
  "HPMCOUNTER7H	C8700001";
  "HPMCOUNTER8H	C8800001";
  "HPMCOUNTER9H	C8900001";
  "HPMCOUNTER10H	C8A00001";
  "HPMCOUNTER11H	C8B00001";
  "HPMCOUNTER12H	C8C00001";
  "HPMCOUNTER13H	C8D00001";
  "HPMCOUNTER14H	C8E00001";
  "HPMCOUNTER15H	C8F00001";
  "HPMCOUNTER16H	C9000001";
  "HPMCOUNTER17H	C9100001";
  "HPMCOUNTER18H	C9200001";
  "HPMCOUNTER19H	C9300001";
  "HPMCOUNTER20H	C9400001";
  "HPMCOUNTER21H	C9500001";
  "HPMCOUNTER22H	C9600001";
  "HPMCOUNTER23H	C9700001";
  "HPMCOUNTER24H	C9800001";
  "HPMCOUNTER25H	C9900001";
  "HPMCOUNTER26H	C9A00001";
  "HPMCOUNTER27H	C9B00001";
  "HPMCOUNTER28H	C9C00001";
  "HPMCOUNTER29H	C9D00001";
  "HPMCOUNTER30H	C9E00001";
  "HPMCOUNTER31H	C9F00001";
  "";
  "MVENDORID	F1100001";
  "MARCHID		F1200001";
  "MIMPID		F1300001";
  "MHARTID		F1400001"].

(* include/trap.inc:1-33 trap.inc *)
Definition trap_inc : list string := [
  "#pragma once";
  "STRUCT";
  "TF_RA   WORD";
  "TF_GP   WORD";
  "TF_TP   WORD";
  "TF_T0   WORD";
  "TF_T1   WORD";
  "TF_T2   WORD";
  "TF_S0   WORD";
  "TF_S1   WORD";
  "TF_A0   WORD";
  "TF_A1   WORD";
  "TF_A2   WORD";
  "TF_A3   WORD";
  "TF_A4   WORD";
  "TF_A5   WORD";
  "TF_A6   WORD";
  "TF_A7   WORD";
  "TF_S2   WORD";
  "TF_S3   WORD";
  "TF_S4   WORD";
  "TF_S5   WORD";
  "TF_S6   WORD";
  "TF_S7   WORD";
  "TF_S8   WORD";
  "TF_S9   WORD";
  "TF_S10  WORD";
  "TF_S11  WORD";
  "TF_T3   WORD";
  "TF_T4   WORD";
  "TF_T5   WORD";
  "TF_T6   WORD";
  "TRAP_FRAME_SIZE  ALIAS"].

(* include/process.inc:1-58 process.inc *)
Definition process_inc : list string := [
  "#pragma once";
  "#include <trap.inc>";
  "";
  "STATE_UNUSED EQU 0";
  "STATE_READY EQU 1";
  "STATE_RUNNING EQU 2";
  "STATE_BLOCKED EQU 3";
  "STATE_ZOMBIE EQU 3";
  "";
  "NOT_WAITING EQU 0";
  "WAITING_FOR_CHILD EQU 1";
  "";
  "STACK_SIZE EQU 8192 ; Bytes (This is also the theoretical limit of sbrk)";
  "";
  "";
  "STRUCT";
  "RECORD TRAP_FRAME_SIZE";
  "PCB_MEPC WORD";
  "PCB_MSTATUS WORD";
  "PCB_MSCRATCH WORD";
  "";
  "PCB_NEXT WORD";
  "";
  "PCB_PNAME WORD";
  "PCB_BRK WORD";
  "";
  "PCB_PTEXT_MEMORY_REGION WORD";
  "PCB_PDATA_MEMORY_REGION WORD";
  "";
  "PCB_PARENT_DIR_CLUSTER WORD";
  "";
  "PCB_PDATA_START WORD";
  "PCB_PHEAP_START WORD ; needed to prevent sbrk(-n)";
  "PCB_FORK_MEM_CPY_SIZE ALIAS";
  "PCB_PID BYTE";
  "PCB_PPID BYTE";
  "PCB_EXIT_CODE BYTE";
  "PCB_STATUS BYTE";
  "PCB_WAIT_REASON BYTE";
  "";
  "STRUCT_ALIGN";
  "PCB_SIZE ALIAS";
  "";
  ";struct {";
  ";    trap_frame_t tf,";
  ";    u32 mepc,";
  ";    u32 mstatus,";
  ";    u32 mscratch, ; sp";
  ";";
  ";    u32 pid,";
  ";    u32 pstatus,";
  ";    void* next,";
  ";";
  ";    char* pname,";
  ";    void* pentry,";
  ";    u32 psize,";
  ";";
  ";} pcb_t;"].

(* include/memory_region.inc:1-6 memory_region.inc *)
Definition memory_region_inc : list string := [
  "#pragma once";
  "STRUCT";
  "MEMORY_REGION_PHYSICAL_BASE WORD";
  "MEMORY_REGION_SIZE WORD";
  "MEMORY_REGION_REF_COUNT WORD";
  "MEMORY_REGION_STRUCT_SIZE ALIAS"].

(* include/fifo.inc:1-8 fifo.inc *)
Definition fifo_inc : list string := [
  "#pragma once";
  "STRUCT";
  "FIFO_BASE WORD ; Pointer to FIFO array";
  "FIFO_HEAD BYTE ; index into array";
  "FIFO_TAIL BYTE ; index into array";
  "FIFO_SIZE BYTE ; size of array";
  "STRUCT_ALIGN 4";
  "FIFO_STRUCT_SIZE ALIAS"].

(* include/file.inc:1-11 file.inc *)
Definition file_inc : list string := [
  "STRUCT";
  "FILE_DESCRIPTOR WORD";
  "FILE_FIRST_CLUSTER WORD";
  "FILE_CURRENT_CLUSTER WORD";
  "FILE_CURRENT_SECTOR WORD";
  "FILE_CURRENT_BYTE_NO WORD";
  "FILE_CURRENT_OFFSET WORD";
  "FILE_SIZE WORD";
  "FILE_OWNER_PID HALF";
  "STRUCT_ALIGN";
  "FILE_STRUCT_SIZE ALIAS"].

(* include/fs_running_info.inc:1-9 fs_running_info.inc *)
Definition fs_running_info_inc : list string := [
  "// this is the inforamtion that is stored and used at run time";
  "STRUCT";
  "FAT_BEGIN_LBA WORD ; Partition_LBA_Begin + Number_of_Reserved_Sectors";
  "FAT_SECTOR_COUNT WORD ";
  "CLUSTER_BEGIN_LBA WORD ; Partition_LBA_Begin + Number_of_Reserved_Sectors + (Number_of_FATs * Sectors_Per_FAT);";
  "ROOT_DIR_FIRST_CLUSTER WORD; BPB_RootClus;";
  "SECTORS_PER_CLUSTER BYTE ; BPB_SecPerClus;";
  "STRUCT_ALIGN";
  "FS_RUN_INFO_STRUCT_SIZE ALIAS"].

(* include/fat_directory.inc:1-37 fat_directory.inc *)
Definition fat_directory_inc : list string := [
  "USED_NAME0_E5 EQU 0x05 ";
  "; Allowable characters for names:";
  "; 0-9";
  "; A-Z";
  "; '!', '#', '$', '%', '&'";
  "; '\'', '(', ')', '-', '@'";
  "; '^', '_', '`', '{', '}', '~'";
  "";
  "; NOTE: lower case characters are not allowed";
  "";
  "";
  "STRUCT";
  "DIR_Name BYTE 11 ; Short file name in 8.3 (8 byte body + 3 byte extension)";
  "DIR_Attr BYTE ";
  "DIR_NTRes BYTE";
  "";
  "; Directory creation Timestamp";
  "DIR_CrtTimeTenth BYTE";
  "DIR_CrtTime BYTE 2";
  "DIR_CrtDate BYTE 2";
  "";
  "DIR_LstAccDate BYTE 2 ; set to 0 if not availble";
  "";
  "DIR_FstClusHI BYTE 2 ; Upper part of cluster number";
  "; Directory Write Timestamp";
  "DIR_WrtTime BYTE 2";
  "DIR_WrtDate BYTE 2";
  "";
  "DIR_FstClusLO BYTE 2 ; Lower part of cluster number. When the file size is zero, no cluster is assigned and this item must be zero";
  "DIR_FileSize WORD";
  "FAT_DIR_STRUCT_SIZE ALIAS";
  "";
  "";
  "; NOTE: to delete a file just set 0xE5 to NAME[0], if it has a chain then the same needs to be done for the entire chain";
  "; to delete a directory, same as deleting a file apart from you do it for each file"].

(* include/fat_lfn.inc:1-30 fat_lfn.inc *)
Definition fat_lfn_inc : list string := [
  "#pragma once";
  "STRUCT";
  "LDIR_Ord BYTE ; Sequence number";
  "LDIR_Name1 BYTE 10 ; character 1-5 ??";
  "LDIR_Attr BYTE ; This should be ATTR_LONG_FILE_NAME";
  "LDIR_Type BYTE ; Must be 0";
  "LDIR_Chksum BYTE";
  "LDIR_Name2 BYTE 12 ; character 6 - 11";
  "LDIR_FstClusLO BYTE 2  ; Must be zero to avoid any wrong repair by old disk utility";
  "LDIR_Name3 BYTE 4 ; character 12 - 13";
  "LDIR_STRUCT_SIZE ALIAS";
  "";
  "; The maximum name length for LFN is 255, so that an LFN occupies upto 20 LFN entries";
  "; The block of LFN+SFN are recorded on a contiguous entries. If any of these condition about LFN entry is not met, the LFN is invalid any longer";
  "";
  "/*";
  " The LFN check sum algorithm:";
  "";
  "uint8_t create_sum (const DIR* entry)";
  "{";
  "    int i;";
  "    uint8_t sum;";
  "";
  "    for (i = sum = 0; i < 11; i++) { // Calculate sum of DIR_Name[] field";
  "        sum = (sum >> 1) + (sum << 7) + entry->DIR_Name[i];";
  "    }";
  "    return sum;";
  "}";
  "";
  " */"].

(* arch/riscv/timer.s:1-81 timer.s *)
Definition timer_s : list string := [
  "mtime_init:";
  "    li      t0, TIMER_INTERVAL        ; interval";
  "";
  "    li      t5, SYSTEM_BASE          ; mtime address (platform-specific)";
  "    lw      t1, SYSTEM_LOW_MTIME[t5]               ; mtime low";
  "    lw      t2, SYSTEM_HIGH_MTIME[t5]               ; mtime high";
  "";
  "    add     t3, t1, t0";
  "    sltu    t4, t3, t1              ; carry";
  "    add     t2, t2, t4";
  "";
  "    li      t4, -1";
  "    sw      t4, SYSTEM_HIGH_MTIMECMP[t5]               ; set high to max";
  "";
  "    sw      t3, SYSTEM_LOW_MTIMECMP[t5]               ; write low";
  "    sw      t2, SYSTEM_HIGH_MTIMECMP[t5]               ; write high";
  "    mret";
  "";
  "timer_interrupt:";
  "    li      t0, TIMER_INTERVAL        ; interval";
  "";
  "    li      t5, SYSTEM_BASE          ; mtime address (platform-specific)";
  "    lw      t1, SYSTEM_LOW_MTIME[t5]               ; mtime low";
  "    lw      t2, SYSTEM_HIGH_MTIME[t5]               ; mtime high";
  "";
  "    add     t3, t1, t0";
  "    sltu    t4, t3, t1              ; carry";
  "    add     t2, t2, t4";
  "";
  "    li      t4, -1";
  "    sw      t4, SYSTEM_HIGH_MTIMECMP[t5]               ; set high to max";
  "";
  "    sw      t3, SYSTEM_LOW_MTIMECMP[t5]               ; write low";
  "    sw      t2, SYSTEM_HIGH_MTIMECMP[t5]               ; write high";
  "";
  "		lw t0, system_ticks";
  "		addi t0, t0, 1";
  "		sw t0, system_ticks, t6";
  "		";
  "		; reduce sleep timer ";
  "";
  "    addi sp, sp, -4";
  "    sw ra, [sp]";
  "		call io_sched_pump // issue any sd operations if needed";
  "    lw ra, [sp]";
  "    addi sp, sp, 4";
  "";
  "		andi t2, t0, TIME_SLICE_MAX-1";
  "		bnez t2, %F1";
  "    ";
  "";
  "    addi sp, sp, -4";
  "    sw ra, [sp]";
  "		; run scheduler";
  "		call schedule";
  "";
  "    lw ra, [sp]";
  "    addi sp, sp, 4";
  "		1";
  "		; need to decide";
  "    ret";
  "";
  "TIMER_INTERVAL_MS EQU 5";
  "";
  "TIMER_INTERVAL EQU (TIMER_INTERVAL_MS*1000000)/25";
  "";
  "";
  "TIME_SLICE_MAX EQU 4 ; 20 ms max execution time";
  "";
  "SYSTEM_BASE EQU 0x0001_0700";
  "STRUCT";
  "SYSTEM_VERSION_HALT WORD";
  "SYSTEM_CLOCK_SPEED WORD";
  "SYSTEM_IO_PIN WORD";
  "SYSTEM_LED_SRC WORD";
  "SYSTEM_LOW_MTIME WORD";
  "SYSTEM_HIGH_MTIME WORD";
  "SYSTEM_LOW_MTIMECMP WORD";
  "SYSTEM_HIGH_MTIMECMP WORD";
  "";
  "system_ticks: DEFW 0x0"].

(* arch/riscv/trap.s:1-117 trap.s *)
Definition trap_s : list string := [
  "#pragma once";
  "mhandler:";
  "	csrrw   sp, MSCRATCH, sp  ; swap user and machine stack pointer";
  "    ; save the context";
  "    addi sp, sp, -4";
  "    sw t0, [sp]";
  "    lb t0, kidle";
  "    bnez t0, mhandler_call_trap_handler";
  "    lw t0, current_pcb";
  "";
  "";
  "    ; save registers";
  "    sw ra,	TF_RA[t0]";
  "    sw gp,	TF_GP[t0]";
  "    sw tp,	TF_TP[t0]";
  "    sw t1,	TF_T1[t0]";
  "    sw t2,	TF_T2[t0]";
  "    sw s0,	TF_S0[t0]";
  "    sw s1,	TF_S1[t0]";
  "    sw a0,	TF_A0[t0]";
  "    sw a1,	TF_A1[t0]";
  "    sw a2,	TF_A2[t0]";
  "    sw a3,	TF_A3[t0]";
  "    sw a4,	TF_A4[t0]";
  "    sw a5,	TF_A5[t0]";
  "    sw a6,	TF_A6[t0]";
  "    sw a7,	TF_A7[t0]";
  "    sw s2,	TF_S2[t0]";
  "    sw s3,	TF_S3[t0]";
  "    sw s4,	TF_S4[t0]";
  "    sw s5,	TF_S5[t0]";
  "    sw s6,	TF_S6[t0]";
  "    sw s7,	TF_S7[t0]";
  "    sw s8,	TF_S8[t0]";
  "    sw s9,	TF_S9[t0]";
  "    sw s10,	TF_S10[t0]";
  "    sw s11,	TF_S11[t0]";
  "    sw t3,	TF_T3[t0]";
  "    sw t4,	TF_T4[t0]";
  "    sw t5,	TF_T5[t0]";
  "    sw t6,	TF_T6[t0]";
  "    ";
  "    mv a0, t0";
  "    lw t0, [sp]";
  "";
  "    sw t0,	TF_T0[a0]";
  "  ";
  "mhandler_call_trap_handler:";
  "    addi sp, sp, 4";
  "";
  "    call trap_handler";
  "";
  "    lb t0, kidle";
  "    bnez t0, mhandler_end";
  "    lw t6, current_pcb";
  "";
  "    lw ra,	TF_RA[t6]";
  "    lw gp,	TF_GP[t6]";
  "    lw tp,	TF_TP[t6]";
  "    lw t0,	TF_T0[t6]";
  "    lw t1,	TF_T1[t6]";
  "    lw t2,	TF_T2[t6]";
  "    lw s0,	TF_S0[t6]";
  "    lw s1,	TF_S1[t6]";
  "    lw a0,	TF_A0[t6]";
  "    lw a1,	TF_A1[t6]";
  "    lw a2,	TF_A2[t6]";
  "    lw a3,	TF_A3[t6]";
  "    lw a4,	TF_A4[t6]";
  "    lw a5,	TF_A5[t6]";
  "    lw a6,	TF_A6[t6]";
  "    lw a7,	TF_A7[t6]";
  "    lw s2,	TF_S2[t6]";
  "    lw s3,	TF_S3[t6]";
  "    lw s4,	TF_S4[t6]";
  "    lw s5,	TF_S5[t6]";
  "    lw s6,	TF_S6[t6]";
  "    lw s7,	TF_S7[t6]";
  "    lw s8,	TF_S8[t6]";
  "    lw s9,	TF_S9[t6]";
  "    lw s10,	TF_S10[t6]";
  "    lw s11,	TF_S11[t6]";
  "    lw t3,	TF_T3[t6]";
  "    lw t4,	TF_T4[t6]";
  "    lw t5,	TF_T5[t6]";
  "    lw t6,	TF_T6[t6]";
  "";
  "mhandler_end:";
  "		csrrw   sp, MSCRATCH, sp  ; swap user and machine stack pointer";
  "    mret";
  "";
  "";
  "trap_handler:";
  "    addi sp, sp, -4";
  "    sw ra, [sp]";
  "    csrr    t0, MCAUSE ";
  "    bgez    t0, exceptions ; Branch if >= 0 (MSB clear)";
  "    andi    t0, t0, 0xFF";
  "";
  "    la      t1, interrupt_table";
  "    slli    t0, t0, 2   ; multiply by 4 to get word offset";
  "    add     t1, t1, t0";
  "    lw      t1, [t1]";
  "    jalr    t1";
  "    j %F1";
  "";
  "    exceptions:";
  "    la      t1, exception_table";
  "    slli    t0, t0, 2   ; multiply by 4 to get word offset";
  "    add     t1, t1, t0";
  "    lw      t1, [t1]";
  "    jalr      t1";
  "1";
  "    lw ra, [sp]";
  "    addi sp, sp, 4";
  "		ret"].

(* sys/ecall_handler.s:1-38 ecall_handler.s *)
Definition ecall_handler_s : list string := [
  "; --------------------";
  "; void ecall_handler()";
  ";";
  "; Handles system calls (ECALL) from user code.";
  "; Dispatches to the appropriate routine in ecall_table.";
  ";";
  "; Registers Used:";
  "; sp - stack pointer";
  "; ra - return address";
  "; a7 - syscall number";
  "; t0 - temporary for table base / limit";
  "; t1 - temporary for table offset";
  "ecall_handler:";
  "    subi sp, sp, 4";
  "    sw ra, [sp]";
  "";
  "		; increment the return address of ecall";
  "		csrr t0, MEPC";
  "		addi t0, t0, 4";
  "		csrw MEPC, t0";
  "";
  "    li t0, ECALL_MAX_INDEX";
  "    bgeu a7, t0, %F1          ; invalid syscall";
  "";
  "    la t0, ECALL_TABLE_START";
  "    slli t1, a7, 2                ; offset in table";
  "    add t0, t0, t1";
  "    lw t0, [t0]";
  "    jalr t0                          ; jump to ECALL routine";
  "";
  "		1";
  "    lw ra, [sp]";
  "    addi sp, sp, 4";
  "    ret";
  "";
  "";
  "ecall_x:";
  "		j ."].

(* kernel/idle_task.s:1-2 idle_task.s *)
Definition idle_task_s : list string := [
  "kernel_idle_task:";
  "  j ."].

(* kernel/process.s:1-254 process.s *)
Definition process_s : list string := [
  "#include <memory_region.inc>";
  "#include <process.inc>";
  "; int ecall_getpid(trap_frame_t* tf)";
  "; returns -1 on failure";
  "ecall_getpid:";
  "	lw t0, current_pcb ";
  "	beqz t0, %F1";
  "";
  "	lw t0, PCB_PID[t0]";
  "	j %F2";
  "";
  "	1";
  "	li t0, -1";
  "	2";
  "	sw t0, TF_A0[a0]";
  "	ret";
  "";
  "";
  "get_pcb_from_id:";
  "	lw t0, current_pcb";
  "	; check if current_pcb is null (this should not happen)";
  "	beqz t0, %F1";
  "	mv t3, t0 ; store the current pcb so we can detect if we go round in a circle";
  "	2";
  "  lbu t1, PCB_PID[t0] ; read id";
  "	beq t1, a0, %F1 ; if the process is the target return pcb";
  "	lw t0, PCB_NEXT[t0] ; walk pcb pointer";
  "";
  "	bne t0, t3, %B2 ; if the process is not the one we started at then read the next one";
  "  mv t0, zero ; this is a null failure";
  "  1";
  "  mv a0, t0";
  "  ret";
  "";
  "pcb_next_pid DEFW 0x0";
  "";
  "; just a simple monotonic counter (not the best idea but its ok for now)";
  "pid_alloc:";
  "    la t0, pcb_next_pid";
  "    lw a1, [t0]";
  "    addi a1, a1, 1";
  "    sw a1, [t0]";
  "    ret";
  "";
  "alloc_pcb:";
  "	addi sp, sp, -4";
  "	sw ra, [sp]";
  "	la a0, pcb_slab_head";
  "	call slab_get      ; a0 = pcb*";
  "";
  "	call pid_alloc     ; a1 = pid";
  "";
  "	sb a1, PCB_PID[a0]";
  "";
  "	lw ra, [sp]";
  "	addi sp, sp, 4";
  "	ret";
  "";
  "free_pcb:";
  "		mv a1, a0";
  "		la a0, pcb_slab_head";
  "		tail slab_free";
  "";
  "; fork";
  "; int ecall_fork();";
  "; failure = -1";
  "ecall_fork:";
  "	addi sp, sp, -16";
  "	sw s0, 8[sp]";
  "	sw ra, 12[sp]";
  "";
  "	mv s0, a0";
  "";
  "	lw a0, PCB_PTEXT_MEMORY_REGION[s0]";
  "	call aquire_memory_segment";
  "";
  "	lw a0, PCB_PDATA_MEMORY_REGION[s0]";
  "	lw a0, MEMORY_REGION_SIZE[a0]";
  "	call ualloc";
  "	sw a0, 4[sp]";
  "	beqz a0, fork_ualloc_fail";
  "	call alloc_pcb";
  "	beqz a0, fork_pcb_fail ";
  "	sw a0, [sp] ; save new pcb";
  "	call make_memory_segment";
  "	beqz a0, fork_dmem_seg_fail";
  "	call aquire_memory_segment ; increment count";
  "";
  "	; everything is good so now we can fill these out";
  "	lw t0, 4[sp] ; t0 = pointer to umem data region";
  "	sw t0, MEMORY_REGION_PHYSICAL_BASE[a0]";
  "	; copy the size from";
  "	lw t1, PCB_PDATA_MEMORY_REGION[s0]";
  "	lw t1, MEMORY_REGION_SIZE[t1]";
  "	sw t1, MEMORY_REGION_SIZE[a0]";
  "	sw a0, 4[sp]";
  "";
  "	; STACK CONTENTS";
  "	; CHILD PCB";
  "	; NEW DMEM_REG (filled out)";
  "	; s0";
  "	; ra";
  "	; void* memcpy(src, dest, size)";
  "	mv a0, s0 ; parent is src";
  "	lw a1, [sp]";
  "	li a3, PCB_FORK_MEM_CPY_SIZE ; this copies everythingbut pid, ppid ect which is good";
  "	call memcpy";
  "	; memcpy will return the child pcb in a0";
  "	; here all that is left is to:";
  "	; - modify parent tf and set a0 to child pid";
  "	lbu t0, PCB_PID[a0]";
  "	sw t0, TF_A0[s0]";
  "";
  "	; - set child tf a0 to 0";
  "	sw zero, TF_A0[a0]";
  "	; - set child ppid";
  "	lbu t0, PCB_PID[s0]";
  "	sb t0, PCB_PPID[a0]";
  "	; store new data region for child";
  "	lw t0, 4[sp]";
  "	sw t0, PCB_PDATA_MEMORY_REGION[a0]";
  "	; add onto the pcb linked list";
  "	; (just link it to the parent)";
  "	sw a0, PCB_NEXT[s0]";
  "	; set status to ready";
  "	li t0, STATE_READY";
  "	sb t0, PCB_STATUS[a0]";
  "	; copy current csr (mscratch and mepc)";
  "	csrr t0, MEPC";
  "	csrr t1, MSCRATCH";
  "	sw t0, PCB_MEPC[a0]";
  "	sw t1, PCB_MSCRATCH[a0]";
  "";
  "	j %F1";
  "";
  "fork_dmem_seg_fail:";
  "	lw a0, [sp]";
  "	call free_pcb";
  "fork_pcb_fail:";
  "	lw a0, 4[sp] ; pointer to user memory";
  "	lw a1, PCB_PDATA_MEMORY_REGION[s0]";
  "	lw a1, MEMORY_REGION_SIZE[a1]";
  "	call ufree";
  "";
  "fork_ualloc_fail:";
  "lw a0, PCB_PTEXT_MEMORY_REGION[s0]";
  "call release_memory_segment";
  "li t0, -1";
  "sw t0, TF_A0[s0]";
  "1";
  "	lw s0, 8[sp]";
  "	lw ra, 12[sp]";
  "	addi sp, sp, 16";
  "ret";
  "";
  "; a0 - pcb to reap";
  "; a1 - parent to awake";
  "reap_child:";
  "	lbu t0, PCB_EXIT_CODE[a0]";
  "	sw t0, TF_A0[a1]";
  "	tail free_pcb";
  "";
  "";
  "; a0 - tf* ";
  "ecall_exit:";
  "	addi sp, sp, -4";
  "	sw ra, [sp]";
  "	mv t0, a0";
  "	lw a0, TF_A0[t0]";
  "	sb a0, PCB_EXIT_CODE[t0]";
  "	li t1, STATE_ZOMBIE";
  "	sb t1, PCB_STATUS[t0]";
  "	";
  "	lw a0, PCB_PTEXT_MEMORY_REGION[t0]";
  "	call release_memory_segment";
  "";
  "	lw t0, current_pcb";
  "	lw t0, [t0]";
  "	lw a0, PCB_PDATA_MEMORY_REGION[t0]";
  "	call release_memory_segment";
  "";
  "	; check if parent is waiting";
  "	1";
  "	lbu a0, PCB_PPID[t0]";
  "	call get_pcb_from_id";
  "	beqz a0, process_is_little_orphan_annie ; if we cant find it then it has died and the process is a orphan";
  "	";
  "	li t1, STATE_BLOCKED";
  "	lbu t2, PCB_STATUS[a0]";
  "	bne t1, t2, %F2 ; the parent is not waiting";
  "	";
  "	li t1, WAITING_FOR_CHILD";
  "	lbu t2, PCB_WAIT_REASON[a0]";
  "	bne t1, t2, %F2 ; the parent is not waiting";
  "	lw ra, [sp]";
  "	addi sp, sp, 4";
  "	mv a0, t0";
  "	mv a1, a0";
  "	tail reap_child";
  "";
  "	; it is currently 2 AM i think i am losing my mind...";
  "	process_is_little_orphan_annie:";
  "	li t1, 1";
  "	lw t0, current_pcb";
  "	lw t0, [t0]";
  "	sb t1, PCB_PPID[t0]";
  "	j %B1";
  "	2";
  "	lw ra, [sp]";
  "	addi sp, sp, 4";
  "	ret";
  "";
  "; execv";
  "; 0x0 - _crt0 text (.text + .data + .bss)";
  "; heap_base ";
  "; heap_ptr ";
  ";   argv strings";
  ";   argv array (pointers)";
  "; stack ";
  "";
  "ecall_execve:";
  "	mv a1, a0";
  "	lw a0, TF_A0[t0]";
  "	tail execve_internal";
  "";
  "kexecve:";
  "	addi sp, sp, -8";
  "	sw a0, [sp]";
  "	sw ra, 4[sp]";
  "	";
  "	call alloc_pcb";
  "	mv a1, a0";
  "	li t0, STATE_BLOCKED";
  "	sb t0, PCB_STATUS[a1]";
  "	sw a0, PCB_NEXT[a1] ; ensure it is a circular linked list";
  "  sw zero, PCB_PTEXT_MEMORY_REGION[a1]";
  "  sw zero, PCB_PDATA_MEMORY_REGION[a1]";
  "	la t0, current_pcb";
  "	sw a0, [t0]";
  "";
  "	lw a0, [sp]";
  "	lw ra, 4[sp]";
  "	addi sp, sp, 8";
  "	tail execve_internal";
  "";
  "execve_internal:";
  "	// const char* path, pcb_t* pcb_to_fill";
  " tail elf_load_submit";
  "";
  "ecall_wait:";
  " ret";
  "";
  "ecall_nanosleep:";
  " ret "].

(* kernel/scheduler.s:1-80 scheduler.s *)
Definition scheduler_s : list string := [
  "#include <process.inc>";
  "; get pid";
  "; int ecall_getpid(void)";
  "";
  "; exit";
  "; void ecall_exit(int status)";
  "";
  "; yield";
  "; void ecall_yield(void)";
  "";
  "; void schedule(trap_frame_t * tf)";
  "; this is the top level schedule that is called by timer interrupt";
  "; it will try to schedule the next process otherwise it will switch to the idle process";
  "schedule:";
  "	addi sp, sp, -4";
  "	sw ra, [sp]";
  "";
  "	mv s0, a0";
  "";
  "	call schedule_next";
  "	bnez a0, %F1";
  "  ; check if kernel is idle already";
  "  la a0, kidle";
  "  lbu a0, [a0]";
  "  bnez a0, schedule_exit";
  "  ; else we are going proc -> idle";
  "	1";
  "";
  "	; a0 - pointer to target pcb";
  "	call context_switch";
  "  ";
  "  schedule_exit:";
  "	lw ra, [sp]";
  "	addi sp, sp, 4";
  "	ret";
  "";
  "; pcb_t* schedule_next();";
  "; returns null on error (no availible process to schedule)";
  "schedule_next:";
  "	addi sp, sp, -4";
  "	sw s0, [sp]";
  "";
  "	lw t0, current_pcb";
  "	; check if current_pcb is null (this happens at boot)";
  "	beqz t0, %F1";
  "	mv s0, t0 ; store the current pcb so we can detect if we go round in a circle";
  "	li t2, STATE_READY";
  "	2";
  "	lw t0, PCB_NEXT[t0] ; get next pcb in queue";
  "	lbu t1, PCB_STATUS[t0] ; read status of next process";
  "	beq t1, t2, %F1 ; if the process is ready then return that pcb ";
  "";
  "	bne t0, s0, %B2 ; if the process is not the one we started at then read the next one";
  "";
  "	; the process is the one we started with then we need to check if it is currently running";
  "	; we know it is not ready so it must be either RUNNING or BLOCKED";
  "	li t2, STATE_RUNNING";
  "	beq t1, t2, %F1";
  "	mv t0, zero ; return null (failure to schedule a process)";
  "";
  "	1";
  "	mv a0, t0";
  "";
  "	lw s0, [sp]";
  "	addi sp, sp, 4";
  "	ret";
  "";
  "";
  "";
  "block_current_process:";
  "	lw t0, current_pcb";
  "	li t1, STATE_BLOCKED";
  "	sb t1, PCB_STATUS[t0]";
  "	ret";
  "";
  "; void unblock_process(pcb_t *proc)";
  "unblock_process:";
  "	li t0, STATE_READY";
  "	sb t0, PCB_STATUS[a0]";
  "	ret"].

(* arch/riscv/context_switch.s:1-103 context_switch.s *)
Definition context_switch_s : list string := [
  "; should not be called on idle-> idle";
  "; three possibilities";
  "; IF KIDLE != 0";
  "; idle -> proc";
  "; switch current_pcb ";
  "; setup_mmu";
  "; load csr";
  "; disable kidle";
  "";
  "; ELSE IF a0 == NULL";
  "; proc -> idle";
  "; store csr";
  "; enable kidle";
  "";
  "; ELSE";
  "; proc -> proc";
  "; switch pcb";
  "; setup_mmu";
  "; load csr";
  "; store old csr";
  "USER_MODE_MASK EQU ~(0b11000_0000_0000) ; this is a clear mask";
  "SUPERVISOR_MODE_MASK EQU 0b01000_0000_0000 ; this is a or mask";
  "";
  "; if the target pcb is NULL then we are switching to the idle";
  "; a0 - pointer to target pcb";
  "context_switch:";
  "  lw t6, current_pcb";
  "";
  "	addi sp, sp, -12";
  "	sw t6, 0[sp]";
  "	sw a0, 4[sp]";
  "	sw ra, 8[sp]";
  "";
  "  beqz a0, switch_to_idle";
  "";
  "";
  "  ; swap the current pcb to the target";
  "	; a0 src";
  "  la t0, current_pcb";
  "  sw a0, [t0]";
  "";
  "	; switch the MMU";
  "	call mmu_set_proc";
  "";
  "	; load new values of CSR ";
  "	lw t0, PCB_MEPC[a0]";
  "	lw t1, PCB_MSTATUS[a0]";
  "  ; MAKE 100% sure it goes to user mode";
  "  li t3, USER_MODE_MASK";
  "  and t1, t1, t3";
  "	lw t2, PCB_MSCRATCH[a0]";
  "";
  "	; swap new and load old";
  "	csrrw t0, MEPC, t0";
  "	csrrw t1, MSTATUS, t1";
  "	csrrw t2, MSCRATCH, t2";
  "";
  "";
  "  lb t0, kidle";
  "  bnez t0, switch_from_idle";
  "	; store old values into current pcb";
  "";
  "  1";
  "	sw t0, PCB_MEPC[t6]";
  "	sw t1, PCB_MSTATUS[t6]";
  "	sw t2, PCB_MSCRATCH[t6]";
  "  ";
  "  j context_switch_exit";
  "";
  "switch_to_idle:";
  "  ; set kidle = true";
  "  la t0, kidle";
  "  addi t1, zero, 1";
  "  sb t1, [t0]";
  "";
  "  ; load correct values of kidle";
  "";
  "  la t0, kernel_idle_task";
  "  ; set supervisor mode";
  "  csrr t1, MSTATUS";
  "  li t4, SUPERVISOR_MODE_MASK";
  "  or t1, t1, t4";
  "";
  "  la t2, kernel_stack_base";
  "";
  "	csrrw t0, MEPC, t0";
  "	csrrw t1, MSTATUS, t1";
  "	csrrw t2, MSCRATCH, t2";
  "  ";
  "	beqz t6, context_switch_exit ; if the current_pcb is null (this happens at boot)";
  "  j %B1";
  "";
  "";
  "switch_from_idle:";
  "  la t0, kidle";
  "  sb zero, [t0]";
  "";
  "";
  "";
  "  context_switch_exit:";
  "	lw ra, 8[sp]";
  "	addi sp, sp, 12";
  "	ret"].

(* kernel/memory/memory_segment.s:1-38 memory_segment.s *)
Definition memory_segment_s : list string := [
  "; TODO: MEMORY SEGMENT NEEDS TO EXPOSE:";
  "; AQUIRE SEGMENT - Will increment a share counter";
  "; RELEASE SEGMENT - once the share counter is 0 then we can safely call ufree";
  "";
  "";
  "make_memory_segment:";
  "	li a0, MEMORY_REGION_STRUCT_SIZE";
  "	tail kmalloc";
  "";
  "";
  "; a0 - memory_segment_t*";
  "aquire_memory_segment:";
  "beqz a0, aquire_memory_segment_exit";
  "	lw t0, MEMORY_REGION_REF_COUNT[a0]";
  "	addi t0, t0, 1";
  "	sw t0, MEMORY_REGION_REF_COUNT[a0]";
  "aquire_memory_segment_exit:";
  "	ret";
  "";
  "release_memory_segment:";
  "beqz a0, aquire_memory_segment_exit";
  "	lw t0, MEMORY_REGION_REF_COUNT[a0]";
  "	addi t0, t0, -1";
  "	beqz t0, memory_segment_free";
  "	sw t0, MEMORY_REGION_REF_COUNT[a0]";
  "	ret";
  "	memory_segment_free:";
  "	addi sp, sp, -8";
  "	sw a0, [sp]";
  "	sw ra, 4[sp]";
  "; void ufree(void* addr, int size)";
  "	lw a1, MEMORY_REGION_SIZE[a0]";
  "	lw a0, MEMORY_REGION_PHYSICAL_BASE[a0]";
  "	call ufree";
  "	lw a0, [sp]";
  "	lw ra, 4[sp]";
  "	addi sp, sp, 8";
  "	tail kfree"].

(* drivers/mmu/mmu.s:1-49 mmu.s *)
Definition mmu_s : list string := [
  "#include <process.inc>";
  "";
  "MMU_BASE EQU 0x0001_0900";
  "STRUCT";
  "MMU_IMMU_BASE WORD";
  "MMU_IMMU_LIMIT WORD";
  "MMU_DMMU_BASE WORD";
  "MMU_DMMU_LIMIT WORD";
  "MMU_DMMU_VIRTUAL_START WORD";
  "MMU_ENABLE WORD";
  "MMU_STATUS WORD";
  "";
  "USER_RAM_BASE EQU 0x0004_0000";
  "";
  "mmu_init:";
  "	li t0, MMU_BASE";
  "	li a0, USER_RAM_BASE";
  "";
  "	; Enable address translation (simplistic virt+base)";
  "	li t1, 1";
  "	sw t1, MMU_ENABLE[t0]";
  "  ret";
  "";
  "";
  "; a0 - pcb_t* pcb";
  "mmu_set_proc:";
  "	li t0, MMU_BASE";
  "";
  "  lw t1, PCB_PTEXT_MEMORY_REGION[a0] ; load Text section base";
  "	lw t2,  MEMORY_REGION_PHYSICAL_BASE[t1]";
  "  sw t2, MMU_IMMU_BASE[t0]";
  "  ";
  "  lw t3, MEMORY_REGION_SIZE[t1] ";
  "  add t3, t3, t2 ; immu limit = text base + size";
  "  sw t3, MMU_IMMU_LIMIT[t0]";
  "";
  "  // dmmu base";
  "  lw t1, PCB_PDATA_MEMORY_REGION[a0]";
  "	lw t2, MEMORY_REGION_PHYSICAL_BASE[t1]";
  "  sw t2, MMU_DMMU_BASE[t0]";
  "";
  "  // dmmu virtual start";
  "  lw t3, PCB_PDATA_START[a0]";
  "  sw t3, MMU_DMMU_VIRTUAL_START[t0]";
  "";
  "  lw t4, MEMORY_REGION_SIZE[t1]";
  "  add t4, t4, t2 ; physical limit = pyhs base + data size ";
  "  sw t4, MMU_DMMU_LIMIT[t0]";
  "	ret"].

(* lib/fifo.s:1-47 fifo.s *)
Definition fifo_s : list string := [
  "#include <fifo.inc>";
  "";
  "; a0 pointer to fifo struct";
  "; a1 byte to enqueue";
  "; if overflow then it will be silently rejected";
  "fifo_enqueue:";
  "	lw t0, FIFO_BASE[a0]";
  "";
  "	lb t1, FIFO_HEAD[a0]";
  "	lb t2, FIFO_TAIL[a0]";
  "";
  "	lb t3, FIFO_SIZE[a0]";
  "";
  "  add t4, t0, t2";
  "";
  "	; increment tail";
  "	addi t2, t2, 1";
  "  remu t2, t2, t3";
  "	bne t1, t2, fifo_push_exit ; check if tail == head";
  "";
  "	sb a1, [t4] ; store byte";
  "	sb t2, FIFO_TAIL[a0] ; store new tail";
  "	fifo_push_exit:";
  "	ret";
  "";
  "; a0 pointer to fifo struct";
  "fifo_dequeue:";
  "";
  "	lw t0, FIFO_BASE[a0]";
  "";
  "	lb t1, FIFO_HEAD[a0]";
  "	lb t2, FIFO_TAIL[a0]";
  "";
  "";
  "	beq t1, t2, fifo_dequeue_fail ; if head == tail fail";
  "	; else return item";
  "	lb t2, FIFO_SIZE[a0] ; overwrite tail since no longer needed";
  "	add t3, t1, t0";
  "	lb a0, [t3]       ; load contents of buffer";
  "	addi t1, t1, 1    ; increment head and rollover";
  "  remu t1, t1, t2 ";
  "	sw t1, FIFO_HEAD[a0] ; store new head";
  "	ret";
  "";
  "	fifo_dequeue_fail:";
  "	mv a0, zero";
  "	ret"].

(* lib/maths.s:1-25 maths.s *)
Definition maths_s : list string := [
  "; --------------------";
  "; int logBaseTwo(int value)";
  ";";
  "; Computes log2 of input (assumes power of two)";
  ";";
  "; Registers Used:";
  "; a0 - input / result";
  "; t0 - temporary for shifting";
  "; t1 - temporary for comparison";
  "logBaseTwo:";
  "    beqz a0, logBaseTwo_bad_input     ; Handle zero input";
  "    mv t0, a0                         ; Copy input to temporary register";
  "    li a0, 0                           ; Initialize result (log2)";
  "";
  "logBaseTwo_loop:";
  "    srli t0, t0, 1                    ; Shift t0 right by 1 (divide by 2)";
  "    addi a0, a0, 1                    ; Increment log2 result";
  "    bnez t0, logBaseTwo_loop          ; Continue until t0 becomes 0";
  "";
  "logBaseTwo_end:";
  "    ret";
  "";
  "logBaseTwo_bad_input:";
  "    li a0, -1                          ; Return error code for invalid input";
  "    ret"].

(* lib/delay.s:1-12 delay.s *)
Definition delay_s : list string := [
  "; --------------------";
  "; void delay(int time)";
  ";";
  "; Simple busy-wait loop.";
  ";";
  "; Registers Used:";
  "; a0 - countdown value";
  "DELAY:";
  "delay_loop:";
  "    subi a0, a0, 1";
  "    bnez a0, delay_loop";
  "    ret"].

(* lib/memutils.s:1-80 memutils.s *)
Definition memutils_s : list string := [
  "; a0 - source buffer";
  "; a1 - destination buffer";
  "; a2 - size (bytes)";
  "; returns: a1 (destination), like standard memcpy";
  "";
  "memcpy:";
  "    mv t0, a0        ; t0 = src";
  "    mv t1, a1        ; t1 = dst";
  "    mv t2, a2        ; t2 = remaining bytes";
  "";
  "    beqz t2, memcpy_done";
  "";
  "memcpy_loop:";
  "    lb t3, [t0]     ; load byte from src";
  "    sb t3, [t1]     ; store byte to dst";
  "";
  "    addi t0, t0, 1   ; src++";
  "    addi t1, t1, 1   ; dst++";
  "    addi t2, t2, -1  ; size--";
  "";
  "    bnez t2, memcpy_loop";
  "";
  "memcpy_done:";
  "    mv a0, a1        ; return destination";
  "    ret";
  "";
  "; a0 - destination buffer";
  "; a1 - bye to set";
  "; a2 - number of bytes";
  "memset:";
  "	mv t0, a0";
  "	mv t2, a2";
  "";
  "	j memset_condition";
  "";
  "	memset_loop";
  "	sb a1, [t0]";
  "	addi t2, t2, -1";
  "	addi t0, t0, 1";
  "";
  "	memset_condition";
  "	bnez t2, memset_loop";
  "	ret";
  "";
  "; a0 = ptr1";
  "; a1 = ptr2";
  "; a2 = count";
  "; returns:";
  ";   a0 = 0   if equal";
  ";   a0 < 0   if ptr1 < ptr2";
  ";   a0 > 0   if ptr1 > ptr2";
  "memcmp:";
  "    mv t0, a0          ; p1";
  "    mv t1, a1          ; p2";
  "    mv t2, a2          ; count";
  "";
  "memcmp_loop:";
  "";
  "    beqz t2, memcmp_equal";
  "";
  "    lbu t3, [t0]";
  "    lbu t4, [t1]";
  "";
  "    bne t3, t4, memcmp_diff";
  "";
  "    addi t0, t0, 1";
  "    addi t1, t1, 1";
  "    addi t2, t2, -1";
  "";
  "    j memcmp_loop";
  "";
  "memcmp_diff:";
  "";
  "    sub a0, t3, t4";
  "    ret";
  "";
  "memcmp_equal:";
  "";
  "    li a0, 0";
  "    ret"].

(* arch/riscv/trap_table.s:1-31 trap_table.s *)
Definition trap_table_s : list string := [
  "exception_table:";
  "    defw ecall_x                    ; Instruction address misaligned ";
  "    defw ecall_x                    ; Instruction access fault - This can be either a swap on demand or a real access fault (check if section target in swap space)";
  "    defw ecall_x                    ; Illegal instruction";
  "    defw ecall_x                    ; Breakpoint";
  "    defw ecall_x                    ; Load address misaligned ";
  "    defw ecall_x                    ; Load access fault (Segfault and kill process)";
  "    defw ecall_x                    ; Store address misaligned";
  "    defw ecall_x                    ; Store access fault (Segfault and kill process)";
  "    defw ecall_handler              ; Environment call from U-mode";
  "    defw ecall_handler              ; Environment call from S-mode (S mode unused for this kernel implementaion although it should be)";
  "    defw ecall_x                    ; Reserved";
  "    defw ecall_handler              ; Environment call from M-mode ";
  "    defw ecall_x                    ; Instruction page fault (I dont know where in this system the trap comes from since there is no paging)";
  "    defw ecall_x                    ; Load page fault ";
  "    defw ecall_x                    ; Reserved for future standard use";
  "    defw ecall_x                    ; Store page fault  (I dont know where in this system the trap comes from since there is no paging)";
  "";
  "interrupt_table:";
  "    defw ecall_x                    ; User delegated interrupt";
  "    defw ecall_x                    ; Supervisor delegated interrupt";
  "    defw ecall_x                    ; Reserved";
  "    defw ecall_x                    ; Machine delegated interrupt";
  "    defw timer_interrupt						; User timer interrupt";
  "    defw timer_interrupt						; Supervisor timer interrupt";
  "    defw ecall_x                    ; Reserved";
  "    defw timer_interrupt						; Machine timer interrupt";
  "    defw external_interrupt_handler ; User external interrupt";
  "    defw external_interrupt_handler ; Supervisor external interrupt";
  "    defw ecall_x                    ; Reserved";
  "    defw external_interrupt_handler ; Machine external interrupt"].
