(* ===== verification/KImage.v ===== *)
(** * The kernel's assembly, assembled

    The sources of KText.v, prepared as the Makefile prepares them and assembled by the
    model of the assembler. Routines written in C, and those of files that are not
    among them, are given addresses outside the image. The result is the image that
    Cpu.v runs, and the values of the symbols. *)

From S2P Require Import Prelude RvaDefs RvaLex RvaSym RvaOut RvaState RvaPass RvaText RvaMain KText.
From Stdlib Require Import Ascii String.
From stdpp Require Import strings.
Local Open Scope string_scope.
Local Open Scope list_scope.
Local Open Scope Z_scope.

(** ** Preparing the text *)

Fixpoint starts_with (p s : string) : bool :=
  match p, s with
  | EmptyString, _ => true
  | String a p, String b s => (Ascii.eqb a b && starts_with p s)%bool
  | _, EmptyString => false
  end.

(** A line without the preprocessor's comments; [inside]: it begins, and ends, inside one
    that spans lines. *)
Fixpoint strip_comment (inside : bool) (s : string) : string * bool :=
  match s with
  | EmptyString => ("", inside)
  | String a s' =>
      if inside then
        match s' with
        | String _ s'' => if starts_with "*/" s then strip_comment false s'' else strip_comment true s'
        | EmptyString => ("", true)
        end
      else if starts_with "//" s then ("", false)
      else if starts_with "/*" s then strip_comment true s'
      else let '(t, inside) := strip_comment false s' in (String a t, inside)
  end.

Fixpoint strip_comments (inside : bool) (file : list string) : list string :=
  match file with
  | [] => []
  | s :: file => let '(t, inside) := strip_comment inside s in t :: strip_comments inside file
  end.

(** [n]: characters to skip. *)
(* Makefile:82-82 preprocess *)
Fixpoint replace_tail (n : nat) (s : string) : string :=
  match s with
  | EmptyString => s
  | String a s' =>
      match n with
      | S n => replace_tail n s'
      | O => if starts_with "tail " s then String "j" (String " " (replace_tail 4 s')) else String a (replace_tail 0 s')
      end
  end.

(** A file as it comes out of the preprocessor: its directives are gone. *)
(* Makefile:78-82 preprocess *)
Definition preprocess (file : list string) : list string :=
  map (replace_tail 0) (List.filter (fun s => negb (starts_with "#" s)) (strip_comments false file)).

(** ** The text to assemble *)

(** Where the routines are that are not in the image. *)
Definition externals : list (string * Z) :=
  [("slab_get", 0x20000); ("slab_free", 0x20004); ("ualloc", 0x20008); ("ufree", 0x2000C); ("kmalloc", 0x20010);
   ("kfree", 0x20014); ("elf_load_submit", 0x20018); ("io_sched_pump", 0x2001C); ("external_interrupt_handler", 0x20020);
   ("ecall_read", 0x20024); ("ecall_write", 0x20028); ("ecall_open", 0x2002C); ("ecall_close", 0x20030);
   ("ecall_lseek", 0x20034); ("ecall_brk", 0x20038)].

(** A number as the assembler reads it. *)
Definition hex (n : Z) : string :=
  "0x" ++ string_of_list_ascii (map (fun c => ascii_of_N (Z.to_N c)) (hex_field 8 n)).

Definition external_lines : list string := map (fun e => (fst e ++ " equ " ++ hex (snd e))%string) externals.

(** The entries of [ECALL_TABLE_LIST]. *)
(* sys/syscall_table.s:3-15 ECALL_TABLE_LIST *)
Definition ecall_table_list : list (string * string) :=
  [("ECALL_READ", "ecall_read"); ("ECALL_WRITE", "ecall_write"); ("ECALL_OPEN", "ecall_open");
   ("ECALL_CLOSE", "ecall_close"); ("ECALL_LSEEK", "ecall_lseek"); ("ECALL_BRK", "ecall_brk");
   ("ECALL_NANOSLEEP", "ecall_nanosleep"); ("ECALL_GETPID", "ecall_getpid"); ("ECALL_FORK", "ecall_fork");
   ("ECALL_EXECVE", "ecall_execve"); ("ECALL_EXIT", "ecall_exit"); ("ECALL_WAIT", "ecall_wait")].

(* sys/syscall_table.s:18-22 ECALL_TABLE_START *)
Definition syscall_table_s : list string :=
  ["ECALL_TABLE_START:"] ++ map (fun e => ("ECALL_HANDLER_" ++ fst e ++ " defw " ++ snd e)%string) ecall_table_list ++
  ["ECALL_TABLE_END:"].

(* sys/syscalls.inc:10-10 ECALL_MAX_INDEX *)
Definition syscalls_inc : list string := ["ECALL_MAX_INDEX  EQU (ECALL_TABLE_END - ECALL_TABLE_START)/4"].

(** The variables of the kernel that these files use, its heap and its stack. *)
(* main.s:53-72 current_pcb *)
Definition kernel_data : list string :=
  ["ALIGN"; "current_pcb DEFW 0x0"; "pcb_slab_head DEFW 0x0";
   "kidle DEFB 0x0 ; bool telling the kernel if it is currently idle"; "ALIGN"; "kernel_heap_start DEFB 0";
   "org 0x0_4000-kernel_stack_size"; "kernel_heap_end DEFB 0"; "org 0x0_4000"; "kernel_stack_base:"].

Definition source : list string :=
  ["ARCH v5"; "kernel_stack_size EQU 1000"] ++ external_lines ++
  preprocess (trap_inc ++ process_inc ++ memory_region_inc ++ fifo_inc ++ file_inc ++ fs_running_info_inc ++
    fat_directory_inc ++ fat_lfn_inc ++ idle_task_s ++ scheduler_s ++ context_switch_s ++ mmu_s ++ fifo_s ++ maths_s ++
    delay_s ++ memutils_s ++ timer_s ++ trap_s ++ ecall_handler_s ++ memory_segment_s ++ process_s ++ trap_table_s) ++
  syscall_table_s ++ syscalls_inc ++ kernel_data.

(** ** Assembling it *)

Definition nl : string := String (ascii_of_nat 10) EmptyString.
Definition as_file (lines : list string) : list Z := chars (String.concat nl lines ++ nl)%string.

(** What the C code leaves unset. *)
Definition junk_record (p : Z) : sym_record := SymRecord 0 0 0 0 0 0 0 (replicate 32 0).
Definition junk_label : own_label := OwnLabel NO_LABEL 0 0.

Definition verilog_only : open_files := OpenFiles false false false true.

(** The state after the last pass, and how it was reached. *)
(* Makefile:85-89 assemble *)
Definition assemble_text (text : list string) : res (control * pstate) :=
  let* t := build_tables junk_record verilog_only (as_file mnemonics) in
  assemble (tb_config t) junk_record 0 false junk_label (fun _ => None) (tb_mnemonics t) 3000 (chars "main.s")
    (as_file text) (start_state t).

Definition assembly : res (control * pstate) := assemble_text source.

(** A symbol's name and value. *)
Definition symbol (r : sym_record) : string * Z :=
  (string_of_list_ascii (map (fun c => ascii_of_N (Z.to_N c)) (take (Z.to_nat (sr_count r)) (sr_name r))), sr_value r).

(** The words below [limit], and the symbols in order of definition. *)
Definition linked_to (limit : Z) (a : res (control * pstate)) : res (list Z * list (string * Z)) :=
  let* (c, p) := a in
  let* symbols := sym_sort_symbols (g_symbols (p_g p)) ALL DEFINITION (g_syms (p_g p)) in
  if (g_errors (p_g p) =? 0) && negb (fed_up c) then
    Ok (map (image_word (o_verilog (g_out (p_g p)))) (seqZ 0 (limit / 4)), map symbol symbols)
  else Undef.

(** Where the heap starts. *)
Definition image_end : Z := 2288.
Definition linked : res (control * pstate) -> res (list Z * list (string * Z)) := linked_to image_end.

Definition ok_or {A} (d : A) (r : res A) : A := match r with Ok a => a | _ => d end.

Definition image : list Z := fst (ok_or ([], []) (linked assembly)).
Definition symbols : list (string * Z) := snd (ok_or ([], []) (linked assembly)).

(** The value of a symbol. *)
Definition value (name : string) : option Z := snd <$> List.find (fun p => String.eqb (fst p) name) symbols.

(** The same, computed. *)
Definition linked_now : res (list Z * list (string * Z)) := Eval vm_compute in linked assembly.
Definition image_now : list Z := Eval cbv in fst (ok_or ([], []) linked_now).
Definition symbols_now : list (string * Z) := Eval cbv in snd (ok_or ([], []) linked_now).

Lemma linked_ok : linked assembly = Ok (image_now, symbols_now).
Proof. vm_compute. reflexivity. Qed.

Lemma image_ok : image = image_now.
Proof. unfold image. rewrite linked_ok. reflexivity. Qed.

Lemma symbols_ok : symbols = symbols_now.
Proof. unfold symbols. rewrite linked_ok. reflexivity. Qed.

#[global] Opaque image symbols.
