(* ===== verification/Cpu.v ===== *)
(** * The machine the kernel runs on

    A RISC-V hart with the base integer instructions, the multiplications and divisions
    and the control registers: the specification of the machine, not code of the
    repository. Memory is bytes and holds the program; words are little-endian. An access
    need not be aligned. The fields of an instruction are those of RvaIsa.v. *)

From S2P Require Import Prelude RvaIsa.

(** ** Instructions *)

Inductive alu : Type := Add | Sub | Sll | Slt | Sltu | Xor | Srl | Sra | Or | And | Mul | Div | Divu | Rem | Remu.
Inductive cond : Type := Eq | Ne | Lt | Ge | Ltu | Geu.
Inductive width : Type := B | H | W | Bu | Hu.
Inductive csr_op : Type := Swap | Set_bits | Clear_bits.

(** Targets of jumps and branches are absolute, as is what AUIPC gives. *)
Inductive instr : Type :=
| Lui (rd v : Z)
| Auipc (rd v : Z)
| Jal (rd target : Z)
| Jalr (rd rs off : Z)
| Branch (c : cond) (rs1 rs2 target : Z)
| Load (w : width) (rd off rs : Z)
| Store (w : width) (rs2 off rs : Z)
| Alui (op : alu) (rd rs v : Z)
| Alu (op : alu) (rd rs1 rs2 : Z)
| Csr (op : csr_op) (rd csr rs : Z)
| Csri (op : csr_op) (rd csr v : Z)
| Mret.

(** ** Decoding *)

Definition decode_cond (f : Z) : option cond :=
  match f with 0 => Some Eq | 1 => Some Ne | 4 => Some Lt | 5 => Some Ge | 6 => Some Ltu | 7 => Some Geu | _ => None end.

Definition decode_load (f : Z) : option width :=
  match f with 0 => Some B | 1 => Some H | 2 => Some W | 4 => Some Bu | 5 => Some Hu | _ => None end.

Definition decode_store (f : Z) : option width :=
  match f with 0 => Some B | 1 => Some H | 2 => Some W | _ => None end.

(** An operation on two registers. *)
Definition decode_alu (f3 f7 : Z) : option alu :=
  match f7, f3 with
  | 0, 0 => Some Add | 0, 1 => Some Sll | 0, 2 => Some Slt | 0, 3 => Some Sltu
  | 0, 4 => Some Xor | 0, 5 => Some Srl | 0, 6 => Some Or | 0, 7 => Some And
  | 32, 0 => Some Sub | 32, 5 => Some Sra
  | 1, 0 => Some Mul | 1, 4 => Some Div | 1, 5 => Some Divu | 1, 6 => Some Rem | 1, 7 => Some Remu
  | _, _ => None
  end.

(** An operation on a register and an immediate, which for a shift is the amount. *)
Definition decode_alui (w : Z) : option (alu * Z) :=
  match funct3 w with
  | 0 => Some (Add, imm_I w) | 2 => Some (Slt, imm_I w) | 3 => Some (Sltu, imm_I w) | 4 => Some (Xor, imm_I w)
  | 6 => Some (Or, imm_I w) | 7 => Some (And, imm_I w)
  | 1 => if funct7 w =? 0 then Some (Sll, rs2 w) else None
  | 5 => if funct7 w =? 0 then Some (Srl, rs2 w) else if funct7 w =? 32 then Some (Sra, rs2 w) else None
  | _ => None
  end.

Definition decode_csr (f : Z) : option csr_op :=
  match f mod 4 with 1 => Some Swap | 2 => Some Set_bits | 3 => Some Clear_bits | _ => None end.

(** The instruction [w] at address [a]. *)
Definition decode (a w : Z) : option instr :=
  match opcode w with
  | 0x37 => Some (Lui (rd w) (imm_U w))
  | 0x17 => Some (Auipc (rd w) (u32 (a + imm_U w)))
  | 0x6F => Some (Jal (rd w) (u32 (a + imm_J w)))
  | 0x67 => if funct3 w =? 0 then Some (Jalr (rd w) (rs1 w) (imm_I w)) else None
  | 0x63 => c ← decode_cond (funct3 w); Some (Branch c (rs1 w) (rs2 w) (u32 (a + imm_B w)))
  | 0x03 => k ← decode_load (funct3 w); Some (Load k (rd w) (imm_I w) (rs1 w))
  | 0x23 => k ← decode_store (funct3 w); Some (Store k (rs2 w) (imm_S w) (rs1 w))
  | 0x13 => o ← decode_alui w; Some (Alui (fst o) (rd w) (rs1 w) (snd o))
  | 0x33 => o ← decode_alu (funct3 w) (funct7 w); Some (Alu o (rd w) (rs1 w) (rs2 w))
  | 0x73 =>
      if funct3 w =? 0 then if w =? 0x30200073 then Some Mret else None
      else o ← decode_csr (funct3 w);
        Some (if funct3 w <? 4 then Csr o (rd w) (field w 20 12) (rs1 w) else Csri o (rd w) (field w 20 12) (rs1 w))
  | _ => None
  end.

(** ** Memory *)

Abbreviation memory := (gmap Z Z).

Definition ld8 (m : memory) (a : Z) : Z := default 0 (m !! a) mod 256.
Definition st8 (m : memory) (a v : Z) : memory := <[a := v mod 256]> m.
Definition ld16 (m : memory) (a : Z) : Z := ld8 m a + 256 * ld8 m (a + 1).
Definition ld32 (m : memory) (a : Z) : Z := ld16 m a + 65536 * ld16 m (a + 2).
Definition st16 (m : memory) (a v : Z) : memory := st8 (st8 m a v) (a + 1) (v / 256).
Definition st32 (m : memory) (a v : Z) : memory := st16 (st16 m a v) (a + 2) (v / 65536).

Definition load (w : width) (m : memory) (a : Z) : Z :=
  match w with
  | B => u32 (sext 8 (ld8 m a))
  | H => u32 (sext 16 (ld16 m a))
  | W => ld32 m a
  | Bu => ld8 m a
  | Hu => ld16 m a
  end.

Definition store (w : width) (m : memory) (a v : Z) : memory :=
  match w with B | Bu => st8 m a v | H | Hu => st16 m a v | W => st32 m a v end.

(** ** Execution *)

(** Registers are words; register 0 reads as 0 and is never written. *)
Record cpu : Type := Cpu { regs : Z -> Z; mem : memory; csrs : Z -> Z; pc : Z }.

Definition reg (r : Z -> Z) (x : Z) : Z := if x =? 0 then 0 else r x.

Definition upd (f : Z -> Z) (r v : Z) : Z -> Z := fun x => if x =? r then v else f x.
Definition set (f : Z -> Z) (r v : Z) : Z -> Z := if r =? 0 then f else upd f r v.

Definition alu_op (op : alu) (a b : Z) : Z :=
  match op with
  | Add => u32 (a + b)
  | Sub => u32 (a - b)
  | Sll => u32 (Z.shiftl a (b mod 32))
  | Slt => cbool (s32 a <? s32 b)
  | Sltu => cbool (a <? u32 b)
  | Xor => u32 (Z.lxor a b)
  | Srl => Z.shiftr a (b mod 32)
  | Sra => u32 (Z.shiftr (s32 a) (b mod 32))
  | Or => u32 (Z.lor a b)
  | And => u32 (Z.land a b)
  | Mul => u32 (a * b)
  | Div => if b =? 0 then 4294967295 else u32 (Z.quot (s32 a) (s32 b))
  | Divu => if b =? 0 then 4294967295 else a / b
  | Rem => if b =? 0 then a else u32 (Z.rem (s32 a) (s32 b))
  | Remu => if b =? 0 then a else a mod b
  end.

Definition cond_holds (c : cond) (a b : Z) : bool :=
  match c with
  | Eq => a =? b
  | Ne => negb (a =? b)
  | Lt => s32 a <? s32 b
  | Ge => s32 b <=? s32 a
  | Ltu => a <? b
  | Geu => b <=? a
  end.

Definition csr_value (op : csr_op) (old v : Z) : Z :=
  match op with Swap => v | Set_bits => Z.lor old v | Clear_bits => Z.land old (not32 v) end.

(** Setting or clearing no bits, named by register or number 0, does not write. *)
Definition csr_write (op : csr_op) (n : Z) (s : Z -> Z) (csr v : Z) : Z -> Z :=
  match op with
  | Swap => upd s csr v
  | _ => if n =? 0 then s else upd s csr (csr_value op (s csr) v)
  end.

(** [mret] returns to the address in MEPC; the privilege it also sets is not modelled. *)
Definition MEPC : Z := 0x341.

Definition exec (i : instr) (c : cpu) : cpu :=
  let '(Cpu r m s p) := c in
  match i with
  | Lui rd v | Auipc rd v => Cpu (set r rd v) m s (p + 4)
  | Jal rd target => Cpu (set r rd (p + 4)) m s target
  | Jalr rd rs off => Cpu (set r rd (p + 4)) m s (Z.land (u32 (reg r rs + off)) 0xFFFFFFFE)
  | Branch c rs1 rs2 target => Cpu r m s (if cond_holds c (reg r rs1) (reg r rs2) then target else p + 4)
  | Load w rd off rs => Cpu (set r rd (load w m (u32 (reg r rs + off)))) m s (p + 4)
  | Store w rs2 off rs => Cpu r (store w m (u32 (reg r rs + off)) (reg r rs2)) s (p + 4)
  | Alui op rd rs v => Cpu (set r rd (alu_op op (reg r rs) v)) m s (p + 4)
  | Alu op rd rs1 rs2 => Cpu (set r rd (alu_op op (reg r rs1) (reg r rs2))) m s (p + 4)
  | Csr op rd csr rs => Cpu (set r rd (s csr)) m (csr_write op rs s csr (reg r rs)) (p + 4)
  | Csri op rd csr v => Cpu (set r rd (s csr)) m (csr_write op v s csr v) (p + 4)
  | Mret => Cpu r m s (s MEPC)
  end.

(** One instruction, fetched from memory; [None]: what is there is not one of those above. *)
Definition step (c : cpu) : option cpu :=
  i ← decode (pc c) (ld32 (mem c) (pc c)); Some (exec i c).

Fixpoint run (n : nat) (c : cpu) : option cpu :=
  match n with O => Some c | S n => c ← step c; run n c end.

(** From [c] the machine comes to a state in [P]. *)
Inductive runs_to (P : cpu -> Prop) (c : cpu) : Prop :=
| runs_done : P c -> runs_to P c
| runs_step c' : step c = Some c' -> runs_to P c' -> runs_to P c.

(** ** Lemmas: runs *)

Lemma runs_to_trans (P Q : cpu -> Prop) c : runs_to P c -> (forall c', P c' -> runs_to Q c') -> runs_to Q c.
Proof. induction 1 as [c Hc|c c' Hs _ IH]; intros H; [auto|]. econstructor 2; eauto. Qed.

Lemma runs_to_weaken (P Q : cpu -> Prop) c : runs_to P c -> (forall c', P c' -> Q c') -> runs_to Q c.
Proof. intros H HPQ. eapply runs_to_trans; [exact H|]. intros c' Hc'. constructor. auto. Qed.

Lemma runs_to_run P c : runs_to P c <-> exists n c', run n c = Some c' /\ P c'.
Proof.
  split.
  - induction 1 as [c Hc|c c' Hs _ (n & c2 & Hn & Hp)]; [exists O, c; auto|]. exists (S n), c2. cbn. rewrite Hs. auto.
  - intros (n & c' & Hn & Hp). revert c Hn. induction n as [|n IH]; intros c Hn; cbn in Hn.
    + injection Hn as ->. constructor. exact Hp.
    + destruct (step c) as [c1|] eqn:E; [|discriminate]. econstructor 2; [exact E|]. apply IH. exact Hn.
Qed.

(** ** Lemmas: memory *)

Lemma ld8_range m a : 0 <= ld8 m a < 256.
Proof. apply Z.mod_pos_bound. lia. Qed.

Lemma ld16_range m a : 0 <= ld16 m a < 65536.
Proof. unfold ld16. pose proof (ld8_range m a). pose proof (ld8_range m (a + 1)). lia. Qed.

Lemma ld32_range m a : is_u32 (ld32 m a).
Proof. unfold ld32, is_u32. pose proof (ld16_range m a). pose proof (ld16_range m (a + 2)). lia. Qed.

Lemma ld8_st8_eq m a v : ld8 (st8 m a v) a = v mod 256.
Proof. unfold ld8, st8. rewrite lookup_insert_eq. apply Z.mod_mod. lia. Qed.

Lemma ld8_st8_ne m a b v : a <> b -> ld8 (st8 m a v) b = ld8 m b.
Proof. intros H. unfold ld8, st8. rewrite lookup_insert_ne by exact H. reflexivity. Qed.

Lemma ld8_st16_ne m a b v : b < a \/ a + 2 <= b -> ld8 (st16 m a v) b = ld8 m b.
Proof. intros H. unfold st16. rewrite !ld8_st8_ne by lia. reflexivity. Qed.

Lemma ld8_st32_ne m a b v : b < a \/ a + 4 <= b -> ld8 (st32 m a v) b = ld8 m b.
Proof. intros H. unfold st32. rewrite !ld8_st16_ne by lia. reflexivity. Qed.

Lemma ld16_ext m m' a : ld8 m a = ld8 m' a -> ld8 m (a + 1) = ld8 m' (a + 1) -> ld16 m a = ld16 m' a.
Proof. unfold ld16. intros -> ->. reflexivity. Qed.

Lemma ld32_ext m m' a : (forall i, 0 <= i < 4 -> ld8 m (a + i) = ld8 m' (a + i)) -> ld32 m a = ld32 m' a.
Proof.
  intros H. unfold ld32. f_equal; [|f_equal]; apply ld16_ext; rewrite <- ?Z.add_assoc.
  - rewrite <- (Z.add_0_r a). apply H. lia.
  - apply H. lia.
  - apply H. lia.
  - apply H. lia.
Qed.

Lemma ld32_st8_ne m a b v : a < b \/ b + 4 <= a -> ld32 (st8 m a v) b = ld32 m b.
Proof. intros H. apply ld32_ext. intros i Hi. apply ld8_st8_ne. lia. Qed.

Lemma ld32_st32_ne m a b v : b + 4 <= a \/ a + 4 <= b -> ld32 (st32 m a v) b = ld32 m b.
Proof. intros H. apply ld32_ext. intros i Hi. apply ld8_st32_ne. lia. Qed.

Lemma ld16_st16_eq m a v : ld16 (st16 m a v) a = v mod 65536.
Proof.
  unfold ld16, st16. rewrite ld8_st8_ne, !ld8_st8_eq by lia. dlia.
Qed.

Lemma ld32_st32_eq m a v : is_u32 v -> ld32 (st32 m a v) a = v.
Proof.
  intros Hv. unfold ld32, st32, is_u32 in *. rewrite (ld16_ext _ (st16 m a v) a).
  - rewrite !ld16_st16_eq. dlia.
  - apply ld8_st16_ne. lia.
  - apply ld8_st16_ne. lia.
Qed.
