(* ===== verification/KCode.v ===== *)
(** * The kernel's code in memory

    What it means that the image of KImage.v is loaded, and the tools with which its
    routines are executed symbolically: [cpu_step] takes one instruction, whatever the
    registers and the rest of memory hold. *)

From S2P Require Import Prelude RvaIsa KImage Cpu.
From Stdlib Require Import String.
Local Open Scope list_scope.
Local Open Scope Z_scope.

(** The instructions lie below [code_end], but for two variables among them. The heap
    ends where the stack may reach to. *)
Definition code_end : Z := 2116.
Definition data_end : Z := 2288.
Definition system_ticks : Z := 916.
Definition pcb_next_pid : Z := 1556.
Definition current_pcb : Z := 2276.
Definition kidle : Z := 2284.
Definition kernel_idle_task : Z := 0.
Definition heap_end : Z := 15384.
Definition stack_top : Z := 16384.

Lemma layout_ok :
  map value ["exception_table"; "kernel_heap_start"; "system_ticks"; "pcb_next_pid"; "current_pcb"; "kidle"; "kernel_idle_task";
             "kernel_heap_end"; "kernel_stack_base"]%string =
  map Some [code_end; data_end; system_ticks; pcb_next_pid; current_pcb; kidle; kernel_idle_task; heap_end; stack_top].
Proof. unfold value. rewrite symbols_ok. vm_compute. reflexivity. Qed.

Definition in_code (a : Z) : bool :=
  (0 <=? a) && (a <? code_end) && (a mod 4 =? 0) && negb (a =? system_ticks) && negb (a =? pcb_next_pid).

Definition word_at (a : Z) : Z := nth (Z.to_nat (a / 4)) image 0.

(** The instructions of the image are in memory. *)
Record loaded (m : memory) : Prop := Loaded { loaded_word : forall a, in_code a = true -> ld32 m a = word_at a }.

(** The memory after the image was loaded at address 0 over [m]. *)
Definition load_words (ws : list Z) (m : memory) : memory :=
  foldl (fun m '(i, w) => st32 m (4 * Z.of_nat i) w) m (imap pair ws).
Definition load_image : memory -> memory := load_words image.

(** Every instruction, decoded. *)
Definition program : list (option instr) := Eval vm_compute in imap (fun i w => decode (4 * Z.of_nat i) w) image_now.

Lemma program_ok : imap (fun i w => decode (4 * Z.of_nat i) w) image = program.
Proof. rewrite image_ok. vm_compute. reflexivity. Qed.

Definition instr_at (a : Z) : option instr := mjoin (program !! Z.to_nat (a / 4)).

Lemma lookup_decoded (ws : list Z) (prog : list (option instr)) a i : 0 <= a -> a mod 4 = 0 ->
  imap (fun i w => decode (4 * Z.of_nat i) w) ws = prog -> mjoin (prog !! Z.to_nat (a / 4)) = Some i ->
  decode a (nth (Z.to_nat (a / 4)) ws 0) = Some i.
Proof.
  intros Ha Hm <- H. rewrite list_lookup_imap in H.
  destruct (ws !! Z.to_nat (a / 4)) as [w|] eqn:E; [|discriminate]. cbn in H.
  replace (nth (Z.to_nat (a / 4)) ws 0) with w by (rewrite nth_lookup, E; reflexivity).
  replace (4 * Z.of_nat (Z.to_nat (a / 4))) with a in H by dlia. exact H.
Qed.

Lemma instr_at_decode a i : in_code a = true -> instr_at a = Some i -> decode a (word_at a) = Some i.
Proof.
  intros Ha. assert (H : 0 <= a /\ a mod 4 = 0) by (unfold in_code in Ha; zbool; lia). destruct H as [H0 H4].
  exact (lookup_decoded image program a i H0 H4 program_ok).
Qed.

(** The next instruction of the kernel. *)
Lemma kernel_step r m s p i : loaded m -> in_code p = true -> instr_at p = Some i ->
  step (Cpu r m s p) = Some (exec i (Cpu r m s p)).
Proof.
  intros Hm Hp Hi. unfold step. cbn [pc mem]. rewrite (loaded_word m Hm p Hp), (instr_at_decode p i Hp Hi). reflexivity.
Qed.

(** The same from a memory that has changed elsewhere. *)
Lemma kernel_step_other r m m' s p i : loaded m -> ld32 m' p = ld32 m p -> in_code p = true -> instr_at p = Some i ->
  step (Cpu r m' s p) = Some (exec i (Cpu r m' s p)).
Proof.
  intros Hm He Hp Hi. unfold step. cbn [pc mem]. rewrite He, (loaded_word m Hm p Hp), (instr_at_decode p i Hp Hi). reflexivity.
Qed.

Lemma code_addresses (f : Z -> bool) a : forallb (fun a => negb (in_code a) || f a) (map (fun i => 4 * i) (seqZ 0 (code_end / 4))) = true ->
  in_code a = true -> f a = true.
Proof.
  intros H Ha. rewrite List.forallb_forall in H. specialize (H a). rewrite Ha in H. apply H. apply List.in_map_iff.
  exists (a / 4). unfold in_code, code_end in Ha. zbool. split; [dlia|]. apply list_elem_of_In, elem_of_seqZ. unfold code_end. dlia.
Qed.

(** A memory that holds the instructions of [ws], checked word by word. *)
Definition holds_code (ws : list Z) (m : memory) : bool :=
  forallb (fun a => negb (in_code a) || (ld32 m a =? nth (Z.to_nat (a / 4)) ws 0)) (map (fun i => 4 * i) (seqZ 0 (code_end / 4))).

Lemma loaded_check m : holds_code image m = true -> loaded m.
Proof.
  unfold holds_code. intros H. constructor. intros a Ha. apply Z.eqb_eq.
  exact (code_addresses (fun a => ld32 m a =? nth (Z.to_nat (a / 4)) image 0) a H Ha).
Qed.

(** ** Stores beside the code *)

(** The [n] bytes at [a] are no instructions. *)
Definition no_code (a n : Z) : Prop :=
  code_end <= a \/ (system_ticks <= a /\ a + n <= system_ticks + 4) \/ (pcb_next_pid <= a /\ a + n <= pcb_next_pid + 4).

Lemma loaded_agree m m' : loaded m -> (forall a, in_code a = true -> ld32 m' a = ld32 m a) -> loaded m'.
Proof. intros Hm H. constructor. intros a Ha. rewrite H by exact Ha. apply Hm, Ha. Qed.

Lemma in_code_apart a b n : in_code a = true -> no_code b n -> 0 < n -> b + n <= a \/ a + 4 <= b.
Proof.
  unfold in_code, no_code, code_end, system_ticks, pcb_next_pid. intros Ha Hb Hn. zbool.
  destruct Hb as [Hb|[Hb|Hb]]; dlia.
Qed.

Lemma loaded_st32 m a v : loaded m -> no_code a 4 -> loaded (st32 m a v).
Proof.
  intros Hm Ha. apply (loaded_agree m); [exact Hm|]. intros b Hb. apply ld32_st32_ne.
  destruct (in_code_apart b a 4 Hb Ha); lia.
Qed.

Lemma loaded_st8 m a v : loaded m -> no_code a 1 -> loaded (st8 m a v).
Proof.
  intros Hm Ha. apply (loaded_agree m); [exact Hm|]. intros b Hb. apply ld32_st8_ne.
  destruct (in_code_apart b a 1 Hb Ha); lia.
Qed.

Lemma no_code_data a n : code_end <= a -> no_code a n.
Proof. left. assumption. Qed.

(** ** The heap *)

(** The same bytes from [lo] to [hi]. *)
Definition same_on (lo hi : Z) (m m' : memory) : Prop := forall a, lo <= a < hi -> ld8 m' a = ld8 m a.

Lemma same_on_refl lo hi m : same_on lo hi m m.
Proof. intros a _. reflexivity. Qed.

Lemma same_on_trans lo hi m1 m2 m3 : same_on lo hi m1 m2 -> same_on lo hi m2 m3 -> same_on lo hi m1 m3.
Proof. intros H1 H2 a Ha. rewrite H2, H1 by exact Ha. reflexivity. Qed.

Lemma same_on_st32 lo hi m m' a v : same_on lo hi m m' -> a + 4 <= lo \/ hi <= a -> same_on lo hi m (st32 m' a v).
Proof. intros H Ha b Hb. rewrite ld8_st32_ne by lia. apply H, Hb. Qed.

Lemma same_on_st8 lo hi m m' a v : same_on lo hi m m' -> a < lo \/ hi <= a -> same_on lo hi m (st8 m' a v).
Proof. intros H Ha b Hb. rewrite ld8_st8_ne by lia. apply H, Hb. Qed.

Lemma ld8_st8_cong m m' a v b : ld8 m' b = ld8 m b -> ld8 (st8 m' a v) b = ld8 (st8 m a v) b.
Proof. intros H. destruct (Z.eq_dec a b) as [->|Hn]; [rewrite !ld8_st8_eq; reflexivity|]. rewrite !ld8_st8_ne by exact Hn. exact H. Qed.

Lemma same_on_st32_cong lo hi m m' a v : same_on lo hi m m' -> same_on lo hi (st32 m a v) (st32 m' a v).
Proof. intros H b Hb. unfold st32, st16. repeat apply ld8_st8_cong. apply H, Hb. Qed.

Lemma same_on_ld32 lo hi m m' a : same_on lo hi m m' -> lo <= a -> a + 4 <= hi -> ld32 m' a = ld32 m a.
Proof. intros H H1 H2. apply ld32_ext. intros i Hi. apply H. lia. Qed.

(** The heap; the stack above [sp]. *)
Abbreviation heap_same := (same_on data_end heap_end).
Abbreviation stack_same sp := (same_on sp stack_top).

(** ** Registers *)

Definition words (r : Z -> Z) : Prop := forall x, is_u32 (r x).

(** The registers but those of [xs] are as they were. *)
Definition regs_but (xs : list Z) (r r' : Z -> Z) : Prop := forall x, Forall (fun y => x <> y) xs -> r' x = r x.

(** What the calling convention keeps: the stack pointer and the saved registers. *)
Definition callee_saved : list Z := [2; 3; 4; 8; 9; 18; 19; 20; 21; 22; 23; 24; 25; 26; 27].
Definition kept (r r' : Z -> Z) : Prop := Forall (fun x => r' x = r x) callee_saved.

Lemma kept_trans r1 r2 r3 : kept r1 r2 -> kept r2 r3 -> kept r1 r3.
Proof. unfold kept. rewrite !Forall_forall. intros H1 H2 x Hx. rewrite H2, H1 by exact Hx. reflexivity. Qed.

Lemma kept_in r r' x : kept r r' -> In x callee_saved -> r' x = r x.
Proof. unfold kept. rewrite List.Forall_forall. auto. Qed.

Lemma kept_write r r' x v : ~ In x callee_saved -> kept (upd r x v) r' <-> kept r r'.
Proof.
  intros Hx. unfold kept. rewrite !List.Forall_forall. unfold upd.
  split; intros H y Hy; specialize (H y Hy); destruct (Z.eqb_spec y x); congruence.
Qed.

Lemma regs_but_refl xs r : regs_but xs r r.
Proof. intros x _. reflexivity. Qed.

Lemma regs_but_trans xs r1 r2 r3 : regs_but xs r1 r2 -> regs_but xs r2 r3 -> regs_but xs r1 r3.
Proof. intros H1 H2 x Hx. rewrite H2, H1 by exact Hx. reflexivity. Qed.

(** A return address. *)
Definition code_pointer (a : Z) : Prop := is_u32 a /\ a mod 2 = 0.

Lemma jalr_target a : code_pointer a -> Z.land (u32 a) 0xFFFFFFFE = a.
Proof.
  intros [Hu Hm]. rewrite u32_id by exact Hu. change 0xFFFFFFFE with (4294967296 - 2 ^ 1).
  rewrite land_high_mask by (unfold is_u32 in Hu; lia). change (2 ^ 1) with 2. lia.
Qed.

Lemma u32_land a b : is_u32 a -> 0 <= b -> u32 (Z.land a b) = Z.land a b.
Proof.
  intros Ha Hb. apply u32_id. unfold is_u32 in Ha. split; [apply Z.land_nonneg; lia|].
  destruct (Z.eq_dec (Z.land a b) 0) as [->|Hz]; [lia|]. apply Z.log2_lt_cancel. change (Z.log2 4294967296) with 32.
  pose proof (Z.log2_land a b ltac:(lia) ltac:(lia)).
  assert (Z.log2 a < 32) by (destruct (Z.eq_dec a 0) as [->|]; [cbn; lia|apply Z.log2_lt_pow2; lia]). lia.
Qed.

Lemma u32_lor a b : is_u32 a -> is_u32 b -> u32 (Z.lor a b) = Z.lor a b.
Proof.
  intros Ha Hb. apply u32_id. unfold is_u32 in *. split; [apply Z.lor_nonneg; lia|].
  destruct (Z.eq_dec (Z.lor a b) 0) as [->|Hz]; [lia|]. apply Z.log2_lt_cancel. change (Z.log2 4294967296) with 32.
  assert (Hl : forall x, 0 <= x < 4294967296 -> Z.log2 x < 32).
  { intros x Hx. destruct (Z.eq_dec x 0) as [->|]; [cbn; lia|apply Z.log2_lt_pow2; lia]. }
  rewrite Z.log2_lor by lia. apply Z.max_lub_lt; apply Hl; lia.
Qed.

(** ** Symbolic execution *)

(** Constants. *)
Ltac literal z :=
  match z with
  | 0 => idtac
  | Z.pos ?p => literal_pos p
  | Z.neg ?p => literal_pos p
  end
with literal_pos p :=
  match p with xH => idtac | xO ?q => literal_pos q | xI ?q => literal_pos q end.

Ltac fold_op f a b := literal a; literal b; let v := eval vm_compute in (f a b) in change (f a b) with v.

Ltac fold_literals :=
  repeat match goal with
  | |- context [?a + ?b] => fold_op Z.add a b
  | |- context [u32 ?a] => literal a; let v := eval vm_compute in (u32 a) in change (u32 a) with v
  | |- context [Z.land ?a ?b] => fold_op Z.land a b
  end.

Ltac cpu_cbn :=
  cbn [exec reg set upd alu_op cond_holds csr_value csr_write load store regs mem csrs pc Z.eqb Pos.eqb MEPC];
  fold_literals.

(** Sums that do not wrap. *)
Ltac u32_small := repeat match goal with |- context [u32 ?x] => rewrite (u32_id x) by (unfold is_u32 in *; lia) end.

Ltac loaded_tac := repeat first [assumption | apply loaded_st32 | apply loaded_st8 | apply no_code_data]; unfold code_end, current_pcb, kidle in *; try lia.

Ltac norm_sums :=
  repeat match goal with |- context [?x + Z.neg ?p] => change (x + Z.neg p) with (x - Z.pos p) end;
  rewrite ?Z.add_0_r, ?Z.sub_add.

(** Loads beside the stores. *)
Ltac loads := repeat first [rewrite ld32_st32_ne by lia | rewrite ld32_st8_ne by lia | rewrite ld8_st32_ne by lia | rewrite ld8_st8_ne by lia].

Ltac sames := repeat first [assumption | apply same_on_refl | apply same_on_st32 | apply same_on_st8]; try lia.

Ltac machine_step rule :=
  eapply rule; [apply kernel_step; [loaded_tac|reflexivity|reflexivity]|]; cpu_cbn; u32_small; norm_sums.
Ltac cpu_step := machine_step runs_step.

(** Registers after some writes, over those of [H : regs_but _ _ _]. *)
Ltac regs_cases Hx := unfold upd; repeat (case_match; zbool; try (rewrite ?Forall_cons in Hx; lia)); try reflexivity.
Ltac regs_tac := let x := fresh "x" in let Hx := fresh "Hx" in intros x Hx; regs_cases Hx.
Ltac cells Hx := rewrite ?Forall_cons in Hx; repeat first [apply Forall_nil_2 | apply Forall_cons_2; [lia|]].
Ltac regs_over H :=
  let x := fresh "x" in let Hx := fresh "Hx" in
  intros x Hx; regs_cases Hx; rewrite H by cells Hx; regs_cases Hx.

Ltac conjs := repeat match goal with |- _ /\ _ => split end.

Ltac code_ptr := split; [unfold is_u32; cbn; lia|reflexivity].

Ltac cell := repeat constructor; lia.

(** The saved registers after writes over [r'], where [H : regs_but _ _ r']. *)
Ltac kept_tac H :=
  unfold kept, callee_saved; repeat apply Forall_cons_2; try apply Forall_nil_2; cbn [upd Z.eqb Pos.eqb]; try (rewrite H by cell);
  cbn [upd Z.eqb Pos.eqb]; try reflexivity; try lia.

(** The same after writes over [r'], where [H : kept _ r']. *)
Ltac kept_over H :=
  apply List.Forall_forall; let x := fresh "x" in let Hx := fresh "Hx" in intros x Hx; cbn in Hx;
  repeat (destruct Hx as [<-|Hx]; [cbn [upd Z.eqb Pos.eqb]; try lia; rewrite (kept_in _ _ _ H) by (cbn; tauto); reflexivity|]);
  destruct Hx.

(** ** The image is code *)

