(* ===== verification/KSched.v ===== *)
(** * The process scheduler, as machine code *)

From S2P Require Import Prelude Mem KWorld RvaIsa KImage Cpu KCode.

(** ** Processes in memory *)

(* include/process.inc:22-22 PCB_NEXT *)
Definition PCB_NEXT : Z := 132.
(* include/process.inc:35-35 PCB_PID *)
Definition PCB_PID : Z := 164.
(* include/process.inc:38-38 PCB_STATUS *)
Definition PCB_STATUS : Z := 167.
(* include/process.inc:16-42 PCB_SIZE *)
Definition PCB_SIZE : Z := 172.

Definition status (m : memory) (p : Z) : Z := ld8 m (p + PCB_STATUS).
Definition pid (m : memory) (p : Z) : Z := ld8 m (p + PCB_PID).
Definition next (m : memory) (p : Z) : Z := ld32 m (p + PCB_NEXT).
Definition current (m : memory) : Z := ld32 m current_pcb.

(** A process's block lies in the heap; [n] bytes of stack below [sp] in the stack. *)
Definition pcb_ok (p : Z) : Prop := data_end <= p /\ p + PCB_SIZE <= heap_end.
Definition stack_ok (sp n : Z) : Prop := heap_end + n <= sp /\ sp <= stack_top.

(** [l]: what is met on the way from [p]. *)
Fixpoint links (m : memory) (p : Z) (l : list Z) : Prop :=
  match l with [] => True | q :: l => next m p = q /\ links m q l end.

(** The circular list of processes, from [c]: the others in order are [l]. *)
Definition ring (m : memory) (c : Z) (l : list Z) : Prop :=
  links m c (l ++ [c]) /\ Forall pcb_ok (c :: l) /\ NoDup (c :: l).

(** The next process that is ready, or else the current one if it is running. *)
(* kernel/scheduler.s:43-66 schedule_next *)
Definition pick (m : memory) (c : Z) (l : list Z) : Z :=
  match List.find (fun p => status m p =? STATE_READY) (l ++ [c]) with
  | Some p => p
  | None => if status m c =? STATE_RUNNING then c else 0
  end.

Ltac unfold_layout := unfold pcb_ok, stack_ok, data_end, heap_end, stack_top, PCB_SIZE, PCB_NEXT, PCB_STATUS, PCB_PID in *.

(** One round of the loop, up to the test for having gone round. *)
Lemma schedule_visit P r m s q : loaded m -> pcb_ok (r 5) -> next m (r 5) = q -> pcb_ok q ->
  runs_to P (Cpu (upd (upd r 5 q) 6 (status m q)) m s (if status m q =? r 7 then 112 else 96)) ->
  runs_to P (Cpu r m s 84).
Proof.
  intros Hm Hp Hq Hqok H. unfold_layout. unfold next, status in *. unfold_layout. subst q.
  cpu_step. cpu_step. cpu_step. exact H.
Qed.

Definition found (m : memory) (s r : Z -> Z) (v : Z) (c : cpu) : Prop :=
  pc c = 112 /\ regs c 5 = v /\ regs_but [5; 6; 7] r (regs c) /\ mem c = m /\ csrs c = s.

Lemma schedule_loop m s c l : loaded m -> c ∉ l -> forall r p, links m p (l ++ [c]) -> Forall pcb_ok (p :: l ++ [c]) ->
  r 5 = p -> r 7 = STATE_READY -> r 8 = c -> runs_to (found m s r (pick m c l)) (Cpu r m s 84).
Proof.
  intros Hm. unfold pick, found. induction l as [|q l IH]; intros Hc r p Hl Hf H5 H7 H8.
  - destruct Hl as [Hq _]. cbn [app] in Hf. rewrite !Forall_cons in Hf. destruct Hf as [Hp [Hcok _]].
    apply (schedule_visit _ _ _ _ c); [assumption|congruence|congruence|exact Hcok|]. cbn. rewrite H7.
    destruct (status m c =? STATE_READY).
    + constructor. cbn. conjs; try reflexivity. regs_tac.
    + cpu_step. rewrite H8, Z.eqb_refl. cbn [negb]. cpu_step. cpu_step. 
      change STATE_RUNNING with 2.
      destruct (status m c =? 2).
      * constructor. cbn. conjs; try reflexivity. regs_tac.
      * cpu_step. constructor. cbn. conjs; try reflexivity. regs_tac.
  - destruct Hl as [Hq Hl]. cbn [app] in Hf. rewrite !Forall_cons in Hf. destruct Hf as (Hp & Hqok & Hf).
    apply (schedule_visit _ _ _ _ q); [assumption|congruence|congruence|exact Hqok|]. cbn. rewrite H7.
    destruct (status m q =? STATE_READY).
    + constructor. cbn. conjs; try reflexivity. regs_tac.
    + cpu_step. replace (q =? r 8) with false by (symmetry; apply Z.eqb_neq; set_solver). cbn [negb].
      eapply runs_to_weaken; [apply (IH ltac:(set_solver) _ q)|]; [exact Hl|constructor; assumption|reflexivity|assumption|assumption|].
      intros c' (H1 & H2 & H3 & H4 & H6). conjs; try assumption.
      intros x Hx. rewrite H3 by exact Hx. revert x Hx. regs_tac.
Qed.

Lemma status_heap m m' p : heap_same m m' -> pcb_ok p -> status m' p = status m p.
Proof. unfold status. unfold_layout. intros H Hp. apply H. unfold data_end, heap_end. lia. Qed.

Lemma next_heap m m' p : heap_same m m' -> pcb_ok p -> next m' p = next m p.
Proof. unfold next. intros H Hp. apply (same_on_ld32 data_end heap_end); unfold_layout; auto; lia. Qed.

Lemma links_agree m m' p l : Forall (fun q => next m' q = next m q) (p :: l) -> links m p l -> links m' p l.
Proof.
  revert p. induction l as [|q l IH]; intros p Hf; [auto|]. rewrite Forall_cons in Hf. destruct Hf as [Hp Hf].
  intros [Hq Hl]. split; [congruence|]. apply IH; assumption.
Qed.

Lemma links_app m p l q k : links m p (l ++ q :: k) <-> links m p (l ++ [q]) /\ links m q k.
Proof. revert p. induction l as [|x l IH]; intros p; cbn; [tauto|]. rewrite IH. tauto. Qed.

(** The ring seen from another process. *)
Lemma ring_rotate m c a q b : ring m c (a ++ q :: b) -> ring m q (b ++ c :: a).
Proof.
  intros (Hl & Hf & Hn). rewrite <- app_assoc in Hl. cbn in Hl. apply links_app in Hl. destruct Hl as [Ha Hb].
  assert (HP : Permutation (c :: a ++ q :: b) (q :: b ++ c :: a)).
  { rewrite (Permutation_app_comm (c :: a) (q :: b) : Permutation (c :: a ++ q :: b) _). reflexivity. }
  split; [|split].
  - rewrite <- app_assoc. apply links_app. auto.
  - rewrite <- HP. exact Hf.
  - rewrite <- HP. exact Hn.
Qed.

Lemma pick_agree m m' c l : Forall pcb_ok (c :: l) -> (forall q, pcb_ok q -> status m' q = status m q) -> pick m' c l = pick m c l.
Proof.
  intros Hf H. rewrite Forall_cons in Hf. destruct Hf as [Hc Hl]. unfold pick. rewrite (H c Hc).
  replace (List.find (fun p => status m' p =? STATE_READY) (l ++ [c])) with (List.find (fun p => status m p =? STATE_READY) (l ++ [c])); [reflexivity|].
  assert (Hf : Forall pcb_ok (l ++ [c])) by (apply Forall_app; auto). clear Hl.
  induction Hf as [|q k Hq _ IH]; [reflexivity|]. cbn. rewrite (H q Hq), IH. reflexivity.
Qed.

Lemma all_round c l : Forall pcb_ok (c :: l) -> Forall pcb_ok (c :: l ++ [c]).
Proof. rewrite !Forall_cons. intros [Hc Hl]. split; [exact Hc|]. apply Forall_app. auto. Qed.

Lemma ring_heap m m' c l : heap_same m m' -> ring m c l -> ring m' c l.
Proof.
  intros H (Hl & Hf & Hn). split; [|auto]. apply (links_agree m); [|exact Hl].
  eapply Forall_impl; [apply all_round, Hf|]. intros q. apply next_heap, H.
Qed.

Lemma pick_heap m m' c l : heap_same m m' -> Forall pcb_ok (c :: l) -> pick m' c l = pick m c l.
Proof. intros H Hf. apply pick_agree; [exact Hf|]. intros q. apply status_heap, H. Qed.

Lemma pick_in m c l : Forall pcb_ok (c :: l) -> pick m c l = 0 \/ pcb_ok (pick m c l).
Proof.
  intros Hf. unfold pick. destruct (List.find _ _) as [p|] eqn:E.
  - right. apply List.find_some in E. destruct E as [E _]. apply list_elem_of_In in E.
    apply (Forall_forall _ (l ++ [c])); [|exact E]. rewrite Forall_cons in Hf. apply Forall_app. destruct Hf. auto.
  - destruct (_ =? _); [right; exact (Forall_inv Hf)|left; reflexivity].
Qed.

Lemma schedule_next_runs r m s c l : loaded m -> words r -> code_pointer (r 1) -> stack_ok (r 2) 4 ->
  current m = c -> ring m c l ->
  runs_to (fun c' => pc c' = r 1 /\ kept r (regs c') /\ regs c' 10 = pick m c l /\
    mem c' = st32 m (r 2 - 4) (r 8) /\ csrs c' = s) (Cpu r m s 56).
Proof.
  intros Hm Hw Hra Hsp Hc (Hl & Hf & Hn). unfold stack_ok, heap_end, stack_top in Hsp.
  cpu_step. cpu_step. set (m1 := st32 m (r 2 - 4) (r 8)).
  assert (Hm1 : loaded m1) by (subst m1; loaded_tac).
  assert (Hh : heap_same m m1) by (apply same_on_st32; [apply same_on_refl|unfold data_end, heap_end; lia]).
  assert (Hc1 : ld32 m1 2276 = c) by (rewrite <- Hc; apply ld32_st32_ne; lia).
  cpu_step. cpu_step. rewrite Hc1. cpu_step. 
  pose proof (Forall_inv Hf) as Hcok. assert (Hcr : 2288 <= c <= 16384) by (unfold_layout; lia).
  replace (c =? 0) with false by lia.
  cpu_step. cpu_step.
  eapply runs_to_trans.
  - apply (schedule_loop m1 s c l Hm1) with (p := c); try reflexivity.
    + apply NoDup_cons in Hn. tauto.
    + apply (ring_heap m m1 c l Hh). exact (conj Hl (conj Hf Hn)).
    + apply all_round, Hf.
  - intros [r' m' s' p'] (H1 & H2 & H3 & H4 & H5). cbn [pc regs mem csrs] in *. subst p' m' s'.
    assert (H3' := H3 2 ltac:(repeat constructor; lia)). cbn in H3'.
    cpu_step. cpu_step. rewrite H3'. cpu_step. cpu_step.
    rewrite (H3 1) by cell. cbn [upd Z.eqb Pos.eqb]. rewrite jalr_target by exact Hra.
    constructor. cbn [pc regs mem csrs]. split; [reflexivity|]. split; [|split; [|split; reflexivity]].
    + unfold m1. rewrite ld32_st32_eq by apply Hw. kept_tac H3.
    + cbn [upd Z.eqb Pos.eqb]. rewrite H2, u32_id by (destruct (pick_in m1 c l Hf) as [->|Hp]; unfold_layout; lia).
      apply pick_agree; [exact Hf|]. intros q. apply status_heap, Hh.
Qed.
