(* ===== verification/KSwitch.v ===== *)
(** * The context switch, as machine code *)

From S2P Require Import Prelude Mem KWorld RvaIsa KImage Cpu KCode KSched.

(** ** The address translation *)

Definition MMU_BASE : Z := 67840.
Definition PCB_MEPC : Z := 120.
Definition PCB_MSTATUS : Z := 124.
Definition PCB_MSCRATCH : Z := 128.
Definition ptext (m : memory) (p : Z) : Z := ld32 m (p + 144).
Definition pdata (m : memory) (p : Z) : Z := ld32 m (p + 148).
Definition pdata_start (m : memory) (p : Z) : Z := ld32 m (p + 156).
Definition region_base (m : memory) (g : Z) : Z := ld32 m g.
Definition region_size (m : memory) (g : Z) : Z := ld32 m (g + 4).

Definition region_ok (g : Z) : Prop := data_end <= g /\ g + 12 <= heap_end.
Definition process_ok (m : memory) (p : Z) : Prop := pcb_ok p /\ region_ok (ptext m p) /\ region_ok (pdata m p).

(** The registers of the unit, for process [p]. *)
(* drivers/mmu/mmu.s:26-49 mmu_set_proc *)
Definition mmu_set (m : memory) (p : Z) : memory :=
  let text := ptext m p in
  let data := pdata m p in
  let m1 := st32 m MMU_BASE (region_base m text) in
  let m2 := st32 m1 (MMU_BASE + 4) (u32 (region_size m text + region_base m text)) in
  let m3 := st32 m2 (MMU_BASE + 8) (region_base m data) in
  let m4 := st32 m3 (MMU_BASE + 16) (pdata_start m p) in
  st32 m4 (MMU_BASE + 12) (u32 (region_size m data + region_base m data)).

Lemma field_heap m m' p o : heap_same m m' -> pcb_ok p -> 0 <= o <= 168 -> ld32 m' (p + o) = ld32 m (p + o).
Proof. intros H Hp Ho. apply (same_on_ld32 data_end heap_end); [exact H|..]; unfold_layout; lia. Qed.

Lemma process_heap m m' p : heap_same m m' -> process_ok m p -> process_ok m' p.
Proof.
  intros H (Hp & Ht & Hd). split; [exact Hp|]. unfold ptext, pdata in *. rewrite !(field_heap m m') by (auto; lia). auto.
Qed.

Lemma ld32_id m a : u32 (ld32 m a) = ld32 m a.
Proof. apply u32_id, ld32_range. Qed.

Lemma mmu_set_proc_runs P r m s : loaded m -> code_pointer (r 1) -> process_ok m (r 10) ->
  (forall r', regs_but [5; 6; 7; 28; 29] r r' -> runs_to P (Cpu r' (mmu_set m (r 10)) s (r 1))) ->
  runs_to P (Cpu r m s 384).
Proof.
  intros Hm Hra (Hp & Ht & Hd) H. unfold region_ok, mmu_set in *. unfold_layout.
  unfold ptext, pdata, pdata_start, region_base, region_size, MMU_BASE in *.
  set (p := r 10) in *.
  cpu_step. cpu_step. cpu_step. fold p. set (t := ld32 m (p + 144)) in *.
  cpu_step. cpu_step. cpu_step. loads. cpu_step. cpu_step. cpu_step. loads. fold p.
  set (d := ld32 m (p + 148)) in *. cpu_step. loads. cpu_step. cpu_step. loads. fold p.
  cpu_step. cpu_step. loads. cpu_step. cpu_step. cpu_step.
  rewrite jalr_target by exact Hra. apply H. regs_tac.
Qed.

(** ** The routine, part by part *)

(** Its stack frame. *)
(* arch/riscv/context_switch.s:26-32 context_switch *)
Definition switch_frame (m : memory) (sp old target ra : Z) : memory :=
  st32 (st32 (st32 m (sp - 12) old) (sp - 12 + 4) target) (sp - 12 + 8) ra.

Lemma switch_frame_heap m sp old target ra : stack_ok sp 12 -> heap_same m (switch_frame m sp old target ra).
Proof.
  unfold switch_frame, stack_ok. intros H.
  repeat (apply same_on_st32; [|unfold data_end, heap_end in *; lia]). apply same_on_refl.
Qed.

Lemma switch_enter P r m s : loaded m -> stack_ok (r 2) 12 ->
  (forall r', regs_but [2; 31] r r' -> r' 2 = r 2 - 12 -> r' 31 = current m ->
    runs_to P (Cpu r' (switch_frame m (r 2) (current m) (r 10) (r 1)) s (if r 10 =? 0 then 268 else 188))) ->
  runs_to P (Cpu r m s 160).
Proof.
  intros Hm Hsp H. unfold stack_ok, heap_end, stack_top, switch_frame, current, current_pcb in *.
  cpu_step. cpu_step. cpu_step. cpu_step. cpu_step. cpu_step. cpu_step. apply H; [regs_tac|reflexivity..].
Qed.

Lemma switch_exit P r m s ra : loaded m -> stack_ok (r 2 + 12) 12 -> ld32 m (r 2 + 8) = ra -> code_pointer ra ->
  (forall r', regs_but [1; 2] r r' -> r' 2 = r 2 + 12 -> runs_to P (Cpu r' m s ra)) -> runs_to P (Cpu r m s 348).
Proof.
  intros Hm Hsp Hl Hra H. unfold stack_ok, heap_end, stack_top in *.
  cpu_step. rewrite Hl. cpu_step. cpu_step. rewrite jalr_target by exact Hra. apply H; [regs_tac|reflexivity].
Qed.

(** ** Control registers *)

Definition MSTATUS : Z := 0x300.
Definition MSCRATCH : Z := 0x340.

(** Those of process [p], entering user mode. *)
(* arch/riscv/context_switch.s:45-56 context_switch *)
Definition user_csrs (s : Z -> Z) (m : memory) (p : Z) : Z -> Z :=
  upd (upd (upd s MEPC (ld32 m (p + PCB_MEPC))) MSTATUS (Z.land (ld32 m (p + PCB_MSTATUS)) (not32 0x1800)))
    MSCRATCH (ld32 m (p + PCB_MSCRATCH)).

(** Those of the idle task, in supervisor mode. *)
(* arch/riscv/context_switch.s:78-88 switch_to_idle *)
Definition idle_csrs (s : Z -> Z) : Z -> Z :=
  upd (upd (upd s MEPC kernel_idle_task) MSTATUS (Z.lor (s MSTATUS) 0x800)) MSCRATCH stack_top.

(** [t], [ms] and [sp] saved for process [p]. *)
(* arch/riscv/context_switch.s:64-66 context_switch *)
Definition save (m : memory) (p t ms sp : Z) : memory :=
  st32 (st32 (st32 m (p + PCB_MEPC) t) (p + PCB_MSTATUS) ms) (p + PCB_MSCRATCH) sp.

Lemma mmu_set_heap m m' p : heap_same m m' -> heap_same m (mmu_set m' p).
Proof.
  intros H. unfold mmu_set, MMU_BASE. repeat (apply same_on_st32; [|unfold data_end, heap_end in *; lia]). exact H.
Qed.

Lemma mmu_set_loaded m p : loaded m -> loaded (mmu_set m p).
Proof. intros H. unfold mmu_set, MMU_BASE. loaded_tac. Qed.

Lemma switch_load P r m s : loaded m -> process_ok m (r 10) ->
  (forall r', regs_but [1; 5; 6; 7; 28; 29] r r' -> r' 6 = s MSTATUS -> r' 7 = s MSCRATCH ->
    runs_to P (Cpu r' (mmu_set (st32 m current_pcb (r 10)) (r 10)) (user_csrs s m (r 10)) 240)) ->
  runs_to P (Cpu r m s 188).
Proof.
  intros Hm (Hp & Ht & Hd) H. set (p := r 10) in *.
  assert (Hh : heap_same m (st32 m current_pcb p)).
  { apply same_on_st32; [apply same_on_refl|]. unfold current_pcb, data_end. lia. }
  assert (Hm1 : loaded (st32 m current_pcb p)) by loaded_tac.
  pose proof (mmu_set_heap _ _ p Hh) as Hh2. pose proof (mmu_set_loaded _ p Hm1) as Hm2.
  assert (Hok : process_ok (st32 m current_pcb p) p).
  { apply (process_heap m); [exact Hh|split; auto]. }
  assert (Hpr : 2288 <= p <= 16384) by (unfold_layout; lia).
  cpu_step. cpu_step. cpu_step. cpu_step. fold p.
  apply mmu_set_proc_runs; [exact Hm1|code_ptr|exact Hok|]. cbn [upd Z.eqb Pos.eqb]. fold p. change 2276 with current_pcb.
  intros r' Hr'. assert (H10 : r' 10 = p) by (rewrite Hr' by cell; reflexivity).
  set (m2 := mmu_set (st32 m current_pcb p) p) in *.
  assert (Hl : forall o, 0 <= o <= 168 -> ld32 m2 (p + o) = ld32 m (p + o)) by (intros o Ho; apply field_heap; assumption).
  unfold_layout.
  cpu_step. rewrite H10, Hl by lia. cpu_step. rewrite H10, Hl by lia. cpu_step. cpu_step. cpu_step. cpu_step.
  rewrite H10, Hl by lia. cpu_step. cpu_step. cpu_step. rewrite u32_land by (apply ld32_range || lia).
  apply H; [|reflexivity..]. regs_over Hr'.
Qed.

Lemma switch_save P r m s p : loaded m -> r 31 = p -> pcb_ok p -> runs_to P (Cpu r (save m p (r 5) (r 6) (r 7)) s 348) ->
  runs_to P (Cpu r m s 252).
Proof.
  intros Hm Hr Hp H. unfold save, PCB_MEPC, PCB_MSTATUS, PCB_MSCRATCH in *. subst p. unfold_layout.
  cpu_step. cpu_step. cpu_step. cpu_step. exact H.
Qed.

Lemma lb_zero b : 0 <= b < 256 -> (u32 (sext 8 b) =? 0) = (b =? 0).
Proof.
  intros Hb. unfold sext, u32. apply Bool.eq_true_iff_eq. rewrite !Z.eqb_eq. change (Z.shiftl 1 8) with 256.
  destruct (Z.testbit b (8 - 1)) eqn:E; [|dlia]. destruct (Z.eq_dec b 0) as [->|Hn]; [discriminate E|dlia].
Qed.

(** ** What it does *)

(** The heap after switching to [t]: what is saved for the process before it. *)
(* arch/riscv/context_switch.s:34-92 context_switch *)
Definition switch_heap (s : Z -> Z) (m : memory) (t : Z) : memory :=
  let old := current m in
  if t =? 0 then if old =? 0 then m else save m old (s MEPC) (s MSTATUS) (s MSCRATCH)
  else if ld8 m kidle =? 0 then save m old 0 (s MSTATUS) (s MSCRATCH) else m.

Definition mmu_for (m m' : memory) (p : Z) : Prop :=
  forall o, In o [0; 4; 8; 12; 16] -> ld32 m' (MMU_BASE + o) = ld32 (mmu_set m p) (MMU_BASE + o).

Definition switched (r : Z -> Z) (m : memory) (s : Z -> Z) (t : Z) (c : cpu) : Prop :=
  pc c = r 1 /\ kept r (regs c) /\ loaded (mem c) /\ heap_same (switch_heap s m t) (mem c) /\
  stack_same (r 2) m (mem c) /\
  current (mem c) = (if t =? 0 then current m else t) /\
  ld8 (mem c) kidle = (if t =? 0 then 1 else 0) /\
  csrs c = (if t =? 0 then idle_csrs s else user_csrs s m t) /\
  (t <> 0 -> mmu_for m (mem c) t).

Lemma mmu_set_for m m' p : heap_same m m' -> process_ok m p -> mmu_for m (mmu_set m' p) p.
Proof.
  intros H (Hp & Ht & Hd) o Ho.
  assert (Hv : forall g, region_ok g -> region_base m' g = region_base m g /\ region_size m' g = region_size m g).
  { unfold region_ok, region_base, region_size. intros g Hg. split; apply (same_on_ld32 data_end heap_end); auto; lia. }
  unfold mmu_set, ptext, pdata, pdata_start in *. rewrite !(field_heap m m') by (auto; lia).
  destruct (Hv _ Ht) as [-> ->]. destruct (Hv _ Hd) as [-> ->]. unfold region_base, region_size, MMU_BASE.
  destruct Ho as [<-|[<-|[<-|[<-|[<-|[]]]]]]; fold_literals;
    repeat (loads; rewrite ld32_st32_eq by (apply ld32_range || apply u32_range)); reflexivity.
Qed.

(** The memory before the old process is dealt with. *)
Definition switch_memory (m : memory) (sp t ra : Z) : memory :=
  mmu_set (st32 (switch_frame m sp (current m) t ra) current_pcb t) t.

Lemma switch_memory_spec m sp t ra : loaded m -> stack_ok sp 12 -> process_ok m t -> is_u32 ra ->
  let M := switch_memory m sp t ra in
  loaded M /\ heap_same m M /\ stack_same sp m M /\ ld8 M kidle = ld8 m kidle /\ current M = t /\ ld32 M (sp - 12 + 8) = ra /\ mmu_for m M t.
Proof.
  intros Hm Hsp Hp Hra M. pose proof (switch_frame_heap m sp (current m) t ra Hsp) as Hh.
  assert (H1 : heap_same m (st32 (switch_frame m sp (current m) t ra) current_pcb t)).
  { apply same_on_st32; [exact Hh|]. unfold current_pcb, data_end. lia. }
  assert (Ht : is_u32 t) by (destruct Hp as [Hp _]; unfold_layout; unfold is_u32; lia).
  unfold M, switch_memory. split; [|split; [|split; [|split; [|split; [|split]]]]].
  - apply mmu_set_loaded. unfold switch_frame, stack_ok, heap_end in *. loaded_tac.
  - apply mmu_set_heap, H1.
  - unfold mmu_set, switch_frame, stack_ok, heap_end, stack_top, MMU_BASE, current_pcb in *. sames.
  - unfold mmu_set, switch_frame, stack_ok, heap_end, stack_top, MMU_BASE, current_pcb, kidle in *. loads. reflexivity.
  - unfold current, mmu_set, MMU_BASE, current_pcb in *. loads. apply ld32_st32_eq, Ht.
  - unfold mmu_set, switch_frame, stack_ok, heap_end, stack_top, MMU_BASE, current_pcb in *. loads. apply ld32_st32_eq, Hra.
  - apply mmu_set_for; assumption.
Qed.

(** The registers the routine may change. *)
Definition switch_clobbers : list Z := [1; 2; 5; 6; 7; 28; 29; 31].

Lemma switch_done r m s t r2 M sp : stack_ok (r 2) 12 -> code_pointer (r 1) ->
  regs_but switch_clobbers r r2 -> r2 2 = r 2 - 12 -> ld32 M (r 2 - 12 + 8) = r 1 -> loaded M ->
  heap_same (switch_heap s m t) M -> stack_same (r 2) m M -> current M = (if t =? 0 then current m else t) ->
  ld8 M kidle = (if t =? 0 then 1 else 0) -> sp = (if t =? 0 then idle_csrs s else user_csrs s m t) ->
  (t <> 0 -> mmu_for m M t) -> runs_to (switched r m s t) (Cpu r2 M sp 348).
Proof.
  intros Hsp Hra Hr2 H2 HrM HM Hh Hst Hc Hk Hs Hmmu.
  apply (switch_exit _ _ _ _ (r 1)); [exact HM|rewrite H2; unfold stack_ok, heap_end in *; lia|rewrite H2; exact HrM|exact Hra|].
  intros r3 Hr3 H23. constructor. unfold switched. conjs; cbn [pc regs mem csrs]; try reflexivity; try assumption.
  unfold switch_clobbers in Hr2. assert (H2' : r3 2 = r 2) by lia.
  unfold kept, callee_saved. repeat apply Forall_cons_2; try apply Forall_nil_2; try exact H2'; rewrite Hr3, Hr2 by cell; reflexivity.
Qed.

Ltac unfold_save := unfold save, PCB_MEPC, PCB_MSTATUS, PCB_MSCRATCH, kidle, heap_end, stack_top in *.

(** The memory when the target's registers are in place. *)
Definition switch_mid (r : Z -> Z) (m : memory) (s r2 : Z -> Z) (M : memory) : Prop :=
  regs_but switch_clobbers r r2 /\ r2 2 = r 2 - 12 /\ r2 31 = current m /\ r2 6 = s MSTATUS /\ r2 7 = s MSCRATCH /\
  loaded M /\ heap_same m M /\ stack_same (r 2) m M /\ ld8 M kidle = ld8 m kidle /\ current M = r 10 /\ ld32 M (r 2 - 12 + 8) = r 1 /\
  mmu_for m M (r 10).

Lemma switch_mid_t0 r m s r2 M v : switch_mid r m s r2 M -> switch_mid r m s (upd r2 5 v) M.
Proof.
  unfold switch_mid, switch_clobbers. cbn [upd Z.eqb Pos.eqb]. intros (Hr & H). split; [|exact H]. regs_over Hr.
Qed.

Lemma switch_store r m s r2 M : stack_ok (r 2) 12 -> code_pointer (r 1) -> r 10 <> 0 -> ld8 m kidle = 0 ->
  pcb_ok (current m) -> switch_mid r m s r2 M ->
  runs_to (switched r m s (r 10)) (Cpu (upd r2 5 0) M (user_csrs s m (r 10)) 252).
Proof.
  intros Hsp Hra Ht Hk Hold (Hr & H2 & H31 & H6 & H7 & HM & HhM & HsM & HkM & HcM & HrM & HmM).
  apply (switch_save _ _ _ _ (current m)); [exact HM|exact H31|exact Hold|]. cbn [upd Z.eqb Pos.eqb]. rewrite H6, H7.
  assert (Hpr : 2288 <= current m <= 15384 - 172) by (unfold_layout; lia). unfold stack_ok in Hsp.
  assert (Ht0 : (r 10 =? 0) = false) by lia.
  apply switch_done; try rewrite Ht0; unfold switch_heap; try rewrite Ht0, Hk; auto.
  - unfold switch_clobbers in *. regs_over Hr.
  - unfold_save. loads. exact HrM.
  - unfold_save. loaded_tac.
  - cbn [Z.eqb]. unfold save. repeat apply same_on_st32_cong. exact HhM.
  - unfold_save. sames.
  - unfold current, current_pcb in *. unfold_save. loads. exact HcM.
  - unfold_save. loads. rewrite <- Hk. exact HkM.
  - intros _ o Ho. rewrite <- HmM by exact Ho. unfold_save. unfold MMU_BASE in *. cbn in Ho. loads. reflexivity.
Qed.

Lemma switch_wake r m s r2 M : stack_ok (r 2) 12 -> code_pointer (r 1) -> r 10 <> 0 -> ld8 m kidle <> 0 ->
  switch_mid r m s r2 M -> runs_to (switched r m s (r 10)) (Cpu r2 M (user_csrs s m (r 10)) 336).
Proof.
  intros Hsp Hra Ht Hk (Hr & H2 & H31 & H6 & H7 & HM & HhM & HsM & HkM & HcM & HrM & HmM).
  assert (Ht0 : (r 10 =? 0) = false) by lia. assert (Hk0 : (ld8 m kidle =? 0) = false) by lia.
  unfold stack_ok in Hsp. cpu_step. cpu_step. cpu_step. change 2284 with kidle.
  apply switch_done; try rewrite Ht0; unfold switch_heap; try rewrite Ht0, Hk0; auto.
  - unfold switch_clobbers in *. regs_over Hr.
  - unfold_save. loads. exact HrM.
  - loaded_tac.
  - apply same_on_st8; [exact HhM|]. unfold kidle, data_end. lia.
  - unfold_save. sames.
  - unfold current, current_pcb in *. unfold_save. loads. exact HcM.
  - apply ld8_st8_eq.
  - intros _ o Ho. rewrite <- HmM by exact Ho. unfold_save. unfold MMU_BASE in *. cbn in Ho. loads. reflexivity.
Qed.

Lemma user_csrs_heap s m m' p : heap_same m m' -> pcb_ok p -> user_csrs s m' p = user_csrs s m p.
Proof.
  intros H Hp. unfold user_csrs, PCB_MEPC, PCB_MSTATUS, PCB_MSCRATCH. rewrite !(field_heap m m') by (auto; lia). reflexivity.
Qed.

Lemma switch_to_process r m s : loaded m -> code_pointer (r 1) -> stack_ok (r 2) 12 ->
  r 10 <> 0 -> process_ok m (r 10) -> (ld8 m kidle = 0 -> pcb_ok (current m)) ->
  runs_to (switched r m s (r 10)) (Cpu r m s 160).
Proof.
  intros Hm Hra Hsp Ht Hp Hold.
  apply switch_enter; [exact Hm|exact Hsp|]. intros r1 Hr1 H2 H31. replace (r 10 =? 0) with false by lia.
  pose proof (switch_frame_heap m (r 2) (current m) (r 10) (r 1) Hsp) as Hh.
  pose proof (switch_memory_spec m (r 2) (r 10) (r 1) Hm Hsp Hp (proj1 Hra)) as HM. cbv zeta in HM. unfold switch_memory in HM.
  set (m1 := switch_frame _ _ _ _ _) in *.
  assert (Hm1 : loaded m1) by (unfold m1, switch_frame, stack_ok, heap_end in *; loaded_tac).
  assert (H10 : r1 10 = r 10) by (rewrite Hr1 by cell; reflexivity).
  apply switch_load; [exact Hm1|rewrite H10; apply (process_heap m); assumption|].
  intros r2 Hr2 H6 H7. rewrite H10, (user_csrs_heap s m) by (auto; apply Hp). set (M := mmu_set _ _) in *.
  destruct HM as (HM & HhM & HsM & HkM & HcM & HrM & HmM).
  assert (Hmid : switch_mid r m s r2 M).
  { unfold switch_mid, switch_clobbers. rewrite !(Hr2 2), !(Hr2 31) by cell.
    unfold switch_mid; conjs; try reflexivity; try assumption. intros x Hx. rewrite Hr2 by (cells Hx). apply Hr1. cells Hx. }
  cpu_step. cpu_step. change 2284 with kidle. rewrite HkM. cpu_step. rewrite lb_zero by apply ld8_range.
  destruct (ld8 m kidle =? 0) eqn:Ek; cbn [negb].
  - assert (Ek' : ld8 m kidle = 0) by lia. rewrite Ek'. apply switch_store; auto. apply switch_mid_t0, Hmid.
  - apply switch_wake; auto; [lia|]. apply switch_mid_t0, switch_mid_t0, Hmid.
Qed.

Lemma switch_to_idle r m s : loaded m -> code_pointer (r 1) -> stack_ok (r 2) 12 ->
  r 10 = 0 -> (current m <> 0 -> pcb_ok (current m)) -> is_u32 (s MSTATUS) ->
  runs_to (switched r m s 0) (Cpu r m s 160).
Proof.
  intros Hm Hra Hsp Ht Hold Hst.
  apply switch_enter; [exact Hm|exact Hsp|]. intros r1 Hr1 H2 H31. rewrite Ht, Z.eqb_refl.
  pose proof (switch_frame_heap m (r 2) (current m) 0 (r 1) Hsp) as Hh.
  assert (HrM : ld32 (switch_frame m (r 2) (current m) 0 (r 1)) (r 2 - 12 + 8) = r 1) by (apply ld32_st32_eq, Hra).
  assert (HcM : current (switch_frame m (r 2) (current m) 0 (r 1)) = current m).
  { unfold current, switch_frame, stack_ok, heap_end, current_pcb in *. loads. reflexivity. }
  assert (Hm1 : loaded (switch_frame m (r 2) (current m) 0 (r 1))) by (unfold switch_frame, stack_ok, heap_end in *; loaded_tac).
  set (m1 := switch_frame _ _ _ _ _) in *.
  cpu_step. cpu_step. cpu_step. cpu_step. change 2284 with kidle. set (M := st8 m1 kidle _).
  cpu_step. cpu_step. cpu_step. cpu_step. cpu_step. cpu_step. cpu_step. cpu_step. cpu_step. cpu_step. cpu_step. cpu_step.
  rewrite u32_lor by (exact Hst || (unfold is_u32; lia)). change (upd _ 832 16384) with (idle_csrs s). rewrite H31.
  assert (HhM : heap_same m M) by (apply same_on_st8; [exact Hh|unfold kidle, data_end; lia]).
  assert (HsM : stack_same (r 2) m M).
  { unfold M, m1, switch_frame, stack_ok, kidle, heap_end in *. sames. }
  destruct (current m =? 0) eqn:E0.
  - apply switch_done; auto; try (unfold switch_heap; rewrite E0; exact HhM).
    + unfold switch_clobbers. regs_over Hr1.
    + unfold M, stack_ok, kidle, heap_end in *. loads. exact HrM.
    + subst M. loaded_tac.
    + unfold M, current, current_pcb, kidle in *. loads. exact HcM.
    + apply ld8_st8_eq.
    + lia.
  - specialize (Hold ltac:(lia)). cpu_step. apply (switch_save _ _ _ _ (current m)); [subst M; loaded_tac|exact H31|exact Hold|].
    cbn [upd Z.eqb Pos.eqb].
    assert (Hpr : 2288 <= current m <= 15384 - 172) by (unfold_layout; lia). unfold stack_ok in Hsp.
    apply switch_done; auto.
    + unfold switch_clobbers. regs_over Hr1.
    + unfold_save. unfold M. loads. exact HrM.
    + unfold_save. subst M. loaded_tac.
    + unfold switch_heap. cbn [Z.eqb]. rewrite E0. repeat apply same_on_st32_cong. exact HhM.
    + unfold_save. sames.
    + unfold M, current, current_pcb in *. unfold_save. loads. exact HcM.
    + unfold_save. unfold M. loads. apply ld8_st8_eq.
    + lia.
Qed.
