(* ===== verification/KMmu.v ===== *)
(** * The address translation unit

    HW-Peripherals/ has the unit that mmu_set_proc programs in Verilog: mmu_regs.v, its registers, and mmu.v, which
    translates and checks an address. Expressions of the Verilog code are 32 bits wide, like
    their operands, so sums wrap. What a user process reaches of the memory follows from both. *)

From S2P Require Import Prelude RvaIsa KImage Cpu KCode KSched KSwitch.

(** ** The registers *)

(* HW-Peripherals/mmu_regs.v:41-47 mmu_regs *)
Record mmu_regs : Type := MmuRegs {
  immu_base : Z; immu_limit : Z; dmmu_base : Z; dmmu_limit : Z; dmmu_virt_start : Z; mmu_enable : bool }.

(* HW-Peripherals/mmu_regs.v:55-74 mmu_regs *)
Definition mmu_reset : mmu_regs := MmuRegs 0x40000 0x40000 0x40000 0x40000 0x40000 false.

(** A cycle with the unit selected: [mode] is the privilege of the access, 0 for user mode. *)
(* HW-Peripherals/mmu_regs.v:53-85 priv_write *)
Definition mmu_write (write : bool) (mode address data : Z) (r : mmu_regs) : mmu_regs :=
  let '(MmuRegs ib il db dl vs en) := r in
  if write && negb (mode =? 0) then
    match field address 2 3 with
    | 0 => MmuRegs data il db dl vs en
    | 1 => MmuRegs ib data db dl vs en
    | 2 => MmuRegs ib il data dl vs en
    | 3 => MmuRegs ib il db data vs en
    | 4 => MmuRegs ib il db dl data en
    | 5 => MmuRegs ib il db dl vs (Z.testbit data 0)
    | _ => r
    end
  else r.

(* HW-Peripherals/mmu_regs.v:91-101 data_out *)
Definition mmu_read (mode addr_latch : Z) (r : mmu_regs) : Z :=
  match field addr_latch 2 3 with
  | 0 => immu_base r
  | 1 => immu_limit r
  | 2 => dmmu_base r
  | 3 => dmmu_limit r
  | 4 => dmmu_virt_start r
  | 5 => cbool (mmu_enable r)
  | 6 => 2 * cbool (mode =? 0) + cbool (mmu_enable r)
  | _ => 0
  end.

(** ** The translation *)

(* HW-Peripherals/mmu.v:28-32 simple_mmu *)
Record window : Type := Window { base_offset : Z; limit_offset : Z; virtual_start : Z; enabled : bool }.

(* HW-Peripherals/mmu.v:21-26 simple_mmu *)
Record access : Type := Access { address : Z; mode : Z; size : Z; reads : bool; writes : bool }.

(* HW-Peripherals/mmu.v:92-97 abort_o *)
Inductive abort : Type := ABORT_NONE | ABORT_LD_ALGN | ABORT_LD_ACC | ABORT_ST_ALGN | ABORT_ST_ACC.

(* HW-Peripherals/mmu.v:42-43 translate *)
Definition user_mode (a : access) : bool := mode a =? 0.
(* HW-Peripherals/mmu.v:43-43 translate *)
Definition translate (w : window) (a : access) : bool := user_mode a && enabled w.

(* HW-Peripherals/mmu.v:45-45 phys_address_o *)
Definition phys_address (w : window) (a : access) : Z :=
  if translate w a then u32 (address a - virtual_start w + base_offset w) else address a.

(* HW-Peripherals/mmu.v:53-62 abort_align *)
Definition abort_align (a : access) : bool :=
  if reads a || writes a then
    match size a with
    | 1 => negb (field (address a) 0 1 =? 0)
    | 2 => negb (field (address a) 0 2 =? 0)
    | 3 => negb (field (address a) 0 3 =? 0)
    | _ => false
    end
  else false.

(* HW-Peripherals/mmu.v:74-89 abort_access *)
Definition abort_access (w : window) (a : access) : bool :=
  if reads a || writes a then
    if translate w a then
      (address a <? virtual_start w) || (limit_offset w <=? u32 (address a - virtual_start w + base_offset w))
    else user_mode a && (field (address a) 18 14 =? 0)
  else false.

(* HW-Peripherals/mmu.v:91-97 abort_o *)
Definition abort_code (w : window) (a : access) : abort :=
  if abort_align a then if reads a then ABORT_LD_ALGN else ABORT_ST_ALGN
  else if abort_access w a then if reads a then ABORT_LD_ACC else ABORT_ST_ACC
  else ABORT_NONE.

(** The access goes on to the memory. *)
(* HW-Peripherals/mmu.v:99-101 read_o *)
Definition passes (w : window) (a : access) : bool :=
  match abort_code w a with ABORT_NONE => reads a || writes a | _ => false end.

(** ** The two together *)

(** The window of the data side. *)
Definition data_window (r : mmu_regs) : window := Window (dmmu_base r) (dmmu_limit r) (dmmu_virt_start r) (mmu_enable r).

(** The registers as Cpu.v has them, in memory. *)
Definition unit_of (m : memory) : mmu_regs :=
  MmuRegs (ld32 m MMU_BASE) (ld32 m (MMU_BASE + 4)) (ld32 m (MMU_BASE + 8)) (ld32 m (MMU_BASE + 12)) (ld32 m (MMU_BASE + 16))
    (Z.testbit (ld32 m (MMU_BASE + 20)) 0).

(** A store of the kernel is a write to the unit. *)
Lemma store_is_write m o v : In o [0; 4; 8; 12; 16; 20] -> is_u32 v ->
  unit_of (st32 m (MMU_BASE + o) v) = mmu_write true 3 (MMU_BASE + o) v (unit_of m).
Proof.
  intros Ho Hv. unfold unit_of, MMU_BASE. cbn in Ho.
  destruct Ho as [<-|[<-|[<-|[<-|[<-|[<-|[]]]]]]]; fold_literals; rewrite ld32_st32_eq by exact Hv; loads; reflexivity.
Qed.

(** What the user process may do to a byte, [write] or read. *)
Definition user_access (write : bool) (a : Z) : access := Access a 0 0 (negb write) write.

Lemma user_passes w write a : enabled w = true ->
  passes w (user_access write a) = (virtual_start w <=? a) && (u32 (a - virtual_start w + base_offset w) <? limit_offset w) /\
  phys_address w (user_access write a) = u32 (a - virtual_start w + base_offset w).
Proof.
  intros He. unfold passes, abort_code, abort_align, abort_access, phys_address, translate, user_mode, user_access. cbn. rewrite He.
  rewrite (Z.leb_antisym a), (Z.ltb_antisym (limit_offset w)).
  destruct write; (split; [|reflexivity]); destruct (a <? _), (_ <=? _); reflexivity.
Qed.

(** The physical addresses a user process can read or write. *)
Definition reaches (w : window) (write : bool) (p : Z) : Prop :=
  exists a, is_u32 a /\ passes w (user_access write a) = true /\ phys_address w (user_access write a) = p.

Lemma reaches_exactly w write b n p : enabled w = true -> is_u32 (virtual_start w) -> base_offset w = b -> limit_offset w = b + n -> 0 <= b ->
  0 <= n -> b + n < 4294967296 -> virtual_start w + n <= 4294967296 ->
  reaches w write p <-> b <= p < b + n \/ 0 <= p < b - virtual_start w.
Proof.
  intros He Hv Hb Hl Hb0 Hn0 Hbn Hvn. unfold reaches, is_u32 in *. split.
  - intros (a & Ha & Hp & <-). destruct (user_passes w write a He) as [Hc ->]. rewrite Hc, Hb, Hl in Hp. rewrite Hb. zbool.
    unfold u32 in *. dlia.
  - intros Hp. set (v := virtual_start w) in *.
    assert (Ha : exists a, 0 <= a < 4294967296 /\ v <= a /\ u32 (a - v + b) = p).
    { unfold u32. destruct Hp as [Hp|Hp]; [exists (p - b + v)|exists (p - b + v + 4294967296)]; dlia. }
    destruct Ha as (a & Ha & Hva & Hpa). exists a. destruct (user_passes w write a He) as [-> ->]. fold v. rewrite Hb, Hl, Hpa.
    split; [exact Ha|]. split; [|reflexivity]. lia.
Qed.

(** ** The window of a process *)

(** Outside user mode addresses pass through. *)
Lemma kernel_untranslated w a : mode a <> 0 -> phys_address w a = address a /\ abort_access w a = false.
Proof.
  intros Hm. unfold phys_address, abort_access, translate, user_mode. replace (mode a =? 0) with false by lia. cbn.
  split; [reflexivity|]. destruct (_ || _); reflexivity.
Qed.

Lemma mmu_set_window m p : process_ok m p ->
  data_window (unit_of (mmu_set m p)) =
    Window (region_base m (pdata m p)) (u32 (region_size m (pdata m p) + region_base m (pdata m p))) (pdata_start m p)
      (Z.testbit (ld32 m (MMU_BASE + 20)) 0).
Proof.
  intros (Hp & Ht & Hd). unfold data_window, unit_of, mmu_set. cbn [dmmu_base dmmu_limit dmmu_virt_start mmu_enable].
  unfold region_base, region_size, pdata_start, MMU_BASE in *. fold_literals.
  f_equal; repeat (loads; rewrite ld32_st32_eq by (apply ld32_range || apply u32_range)); loads; reflexivity.
Qed.


(** The tests that decide it, on a process with 64 bytes of data at 0x40000, at the virtual address 0x100. *)
Module MmuDemo.

Definition m0 : memory :=
  st32 (st32 (st32 (st32 (st32 (st32 ∅ (3000 + 144) 4000) (3000 + 148) 4000) (3000 + 156) 0x100) 4000 0x40000) 4004 64) (MMU_BASE + 20) 1.

Example own_data : passes (data_window (unit_of (mmu_set m0 3000))) (user_access true 0x13F) = true.
Proof. vm_compute. reflexivity. Qed.

Example beyond : passes (data_window (unit_of (mmu_set m0 3000))) (user_access true 0x140) = false.
Proof. vm_compute. reflexivity. Qed.


End MmuDemo.
