(* ===== verification/KFair.v ===== *)
(** * The scheduler's rounds *)

From S2P Require Import Prelude Mem KWorld RvaIsa KImage Cpu KCode KSched KSwitch.

(** What [schedule] makes of a memory, where [p] is the process picked. *)
(* kernel/scheduler.s:20-26 schedule *)
Definition stays_idle (m : memory) (p : Z) : bool := (p =? 0) && negb (ld8 m kidle =? 0).

Definition scheduled (r : Z -> Z) (m : memory) (s : Z -> Z) (p : Z) (c : cpu) : Prop :=
  pc c = r 1 /\ kept (upd r 8 (r 10)) (regs c) /\ loaded (mem c) /\
  heap_same (if stays_idle m p then m else switch_heap s m p) (mem c) /\ stack_same (r 2) m (mem c) /\
  current (mem c) = (if p =? 0 then current m else p) /\
  (ld8 (mem c) kidle =? 0) = negb (p =? 0) /\
  csrs c = (if stays_idle m p then s else if p =? 0 then idle_csrs s else user_csrs s m p) /\
  (p <> 0 -> mmu_for m (mem c) p).

Lemma pick_process m c l : Forall (process_ok m) (c :: l) -> pick m c l = 0 \/ process_ok m (pick m c l).
Proof.
  intros Hf. unfold pick. destruct (List.find _ _) as [p|] eqn:E.
  - right. apply List.find_some in E. destruct E as [E _]. apply list_elem_of_In in E.
    apply (Forall_forall _ (l ++ [c])); [|exact E]. rewrite Forall_cons in Hf. apply Forall_app. destruct Hf. auto.
  - destruct (_ =? _); [right; exact (Forall_inv Hf)|left; reflexivity].
Qed.

(** The memory [m2] when the process is picked, seen from the memory [m] at the call. *)
Definition inside (sp : Z) (m m2 : memory) : Prop :=
  loaded m2 /\ heap_same m m2 /\ stack_same sp m m2 /\ current m2 = current m /\ ld8 m2 kidle = ld8 m kidle.

Lemma switch_heap_inside s sp m m2 p : inside sp m m2 -> heap_same (switch_heap s m p) (switch_heap s m2 p).
Proof.
  intros (_ & Hh & _ & Hc & Hk). unfold switch_heap, save. rewrite Hc, Hk.
  repeat case_match; repeat apply same_on_st32_cong; exact Hh.
Qed.

Lemma mmu_for_inside sp m m2 M p : inside sp m m2 -> process_ok m p -> mmu_for m2 M p -> mmu_for m M p.
Proof. intros (_ & Hh & _) Hp H o Ho. rewrite H by exact Ho. apply mmu_set_for; assumption. Qed.

(** The end of the routine. *)
Lemma schedule_exit r m s p r3 M s' : stack_ok (r 2) 16 -> code_pointer (r 1) -> kept (upd (upd r 8 (r 10)) 2 (r 2 - 4)) r3 ->
  loaded M -> ld32 M (r 2 - 4) = r 1 -> 
  heap_same (if stays_idle m p then m else switch_heap s m p) M -> stack_same (r 2) m M -> current M = (if p =? 0 then current m else p) ->
  (ld8 M kidle =? 0) = negb (p =? 0) ->
  s' = (if stays_idle m p then s else if p =? 0 then idle_csrs s else user_csrs s m p) ->
  (p <> 0 -> mmu_for m M p) -> runs_to (scheduled r m s p) (Cpu r3 M s' 44).
Proof.
  intros Hsp Hra Hk HM Hl Hh Hst Hc Hkd Hs Hmmu. unfold stack_ok, heap_end, stack_top in Hsp.
  assert (H2 : r3 2 = r 2 - 4) by (rewrite (kept_in _ _ 2 Hk) by (cbn; tauto); reflexivity).
  cpu_step. rewrite H2. fold_literals. u32_small. norm_sums. rewrite Hl. cpu_step. cpu_step. rewrite jalr_target by exact Hra.
  constructor. unfold scheduled. cbn [pc regs mem csrs]. conjs; try reflexivity; try assumption.
  kept_over Hk.
Qed.

Lemma schedule_switch r m s p r2 m2 : stack_ok (r 2) 16 -> code_pointer (r 1) -> is_u32 (s MSTATUS) ->
  kept (upd (upd r 8 (r 10)) 2 (r 2 - 4)) r2 -> inside (r 2) m m2 -> ld32 m2 (r 2 - 4) = r 1 -> r2 10 = p ->
  stays_idle m p = false -> (p <> 0 -> process_ok m p) -> pcb_ok (current m) ->
  runs_to (scheduled r m s p) (Cpu r2 m2 s 40).
Proof.
  intros Hsp Hra Hst Hk Hin Hl H10 Hi Hp Hold. pose proof Hin as (Hm2 & Hh & Hs2 & Hc & Hkd).
  assert (H2 : r2 2 = r 2 - 4) by (rewrite (kept_in _ _ 2 Hk) by (cbn; tauto); reflexivity).
  assert (Hsp2 : stack_ok (r2 2) 12) by (unfold stack_ok in *; lia).
  cpu_step. set (r3 := upd r2 1 44).
  assert (Hra3 : code_pointer (r3 1)) by code_ptr.
  assert (Hsw : runs_to (switched r3 m2 s p) (Cpu r3 m2 s 160)).
  { destruct (Z.eq_dec p 0) as [->|Hp0].
    - apply switch_to_idle; auto. rewrite Hc. auto.
    - rewrite <- H10. change (r2 10) with (r3 10). apply switch_to_process; auto; change (r3 10) with (r2 10); rewrite ?H10; auto.
      + apply (process_heap m); auto.
      + rewrite Hc. auto. }
  eapply runs_to_trans; [exact Hsw|]. intros [r4 M s' p'] (H1 & Hk4 & HM & HhM & HsM & HcM & HkM & Hs & Hmmu).
  cbn [pc regs mem csrs] in *. subst p' s'. change (r3 2) with (r2 2) in HsM. change (r3 1) with 44.
  apply (schedule_exit _ m); auto; rewrite ?Hi.
  - unfold r3 in Hk4. rewrite kept_write in Hk4 by (cbn; lia). eapply kept_trans; eassumption.
  - rewrite (same_on_ld32 _ _ m2 M _ HsM); unfold stack_ok, stack_top in *; auto; lia.
  - eapply same_on_trans; [apply (switch_heap_inside _ _ _ _ _ Hin)|exact HhM].
  - apply (same_on_trans _ _ _ m2); [exact Hs2|]. intros a Ha. apply HsM. lia.
  - rewrite HcM, Hc. reflexivity.
  - rewrite HkM. destruct (p =? 0); reflexivity.
  - destruct (p =? 0) eqn:E; [reflexivity|]. apply user_csrs_heap; [exact Hh|]. apply Hp. lia.
  - intros Hp0. apply (mmu_for_inside (r 2) m m2); auto.
Qed.

(** What follows the choice. *)
Lemma schedule_pick r m s c l r2 m2 : stack_ok (r 2) 16 -> code_pointer (r 1) -> is_u32 (s MSTATUS) ->
  current m = c -> ring m c l -> Forall (process_ok m) (c :: l) ->
  kept (upd (upd r 8 (r 10)) 2 (r 2 - 4)) r2 -> inside (r 2) m m2 -> ld32 m2 (r 2 - 4) = r 1 -> r2 10 = pick m c l ->
  runs_to (scheduled r m s (pick m c l)) (Cpu r2 m2 s 20).
Proof.
  intros Hsp Hra Hst Hc Hring Hf Hk Hin Hl H10. pose proof Hin as (Hm2 & Hh & Hs2 & Hc2 & Hkd).
  assert (Hold : pcb_ok (current m)) by (rewrite Hc; apply (Forall_inv (proj1 (proj2 Hring)))).
  pose proof (pick_process m c l Hf) as Hp. set (p := pick m c l) in *.
  cpu_step. rewrite H10. destruct (Z.eqb_spec p 0) as [Hp0|Hp0]; cbn [negb].
  - cpu_step. cpu_step. cpu_step. change 2284 with kidle. rewrite Hkd. cpu_step.
    set (r3 := upd _ 10 (ld8 m kidle)).
    assert (Hk3 : kept (upd (upd r 8 (r 10)) 2 (r 2 - 4)) r3) by (unfold r3; kept_over Hk).
    destruct (ld8 m kidle =? 0) eqn:Ek; cbn [negb].
    + apply schedule_switch; auto; try tauto; [unfold r3; cbn; lia|]. unfold stays_idle. rewrite Hp0, Ek. reflexivity.
    + apply (schedule_exit _ m); auto; unfold stays_idle; rewrite ?Hp0, ?Ek; cbn; auto; try tauto.
      rewrite Hkd. exact Ek.
  - apply schedule_switch; auto; [|tauto]. unfold stays_idle. replace (p =? 0) with false by lia. reflexivity.
Qed.

Lemma schedule_runs r m s c l : loaded m -> words r -> code_pointer (r 1) -> stack_ok (r 2) 16 -> is_u32 (s MSTATUS) ->
  current m = c -> ring m c l -> Forall (process_ok m) (c :: l) ->
  runs_to (scheduled r m s (pick m c l)) (Cpu r m s 4).
Proof.
  intros Hm Hw Hra Hsp Hst Hc Hring Hf.
  assert (Hh : heap_same m (st32 m (r 2 - 4) (r 1))) by (apply same_on_st32; [apply same_on_refl|unfold stack_ok, heap_end in *; lia]).
  unfold stack_ok, heap_end, stack_top in Hsp.
  cpu_step. cpu_step. set (m1 := st32 m _ _) in *. assert (Hm1 : loaded m1) by (subst m1; loaded_tac).
  cpu_step. cpu_step.
  eapply runs_to_trans.
  - eapply (schedule_next_runs _ m1 s c l Hm1).
    + intros x. unfold upd. repeat case_match; try apply Hw; unfold is_u32; try lia. apply u32_range.
    + code_ptr.
    + unfold stack_ok, heap_end, stack_top. cbn. lia.
    + rewrite <- Hc. unfold current, current_pcb. apply ld32_st32_ne. lia.
    + apply (ring_heap m); assumption.
  - cbn [upd Z.eqb Pos.eqb]. intros [r' m2 s' p'] (H1 & H2 & H3 & H4 & H5). cbn [pc regs mem csrs] in *. subst p' s'.
    rewrite (pick_heap m) in H3 by (apply Hh || apply Hring).
    apply (schedule_pick r m s c l); unfold stack_ok, heap_end, stack_top; auto.
    + rewrite u32_id in H2 by apply Hw. kept_over H2.
    + subst m2 m1. unfold inside, current, current_pcb, kidle. loads. conjs; try reflexivity; [loaded_tac|unfold heap_end; sames|sames].
    + subst m2 m1. loads. apply ld32_st32_eq, Hw.
Qed.

(** ** What a switch leaves of the processes *)

Definition apart (p q : Z) : Prop := p + PCB_SIZE <= q \/ q + PCB_SIZE <= p.
Definition separate (procs : list Z) : Prop := forall p q, p ∈ procs -> q ∈ procs -> p <> q -> apart p q.

Lemma save_field m p q t ms sp o : p = q \/ apart p q -> PCB_NEXT <= o <= 168 -> ld32 (save m p t ms sp) (q + o) = ld32 m (q + o).
Proof.
  unfold save, apart, PCB_MEPC, PCB_MSTATUS, PCB_MSCRATCH, PCB_NEXT, PCB_SIZE. intros H Ho. loads. reflexivity.
Qed.

Lemma switch_field s m p q o : current m = q \/ apart (current m) q -> PCB_NEXT <= o <= 168 ->
  ld32 (switch_heap s m p) (q + o) = ld32 m (q + o).
Proof. intros H Ho. unfold switch_heap. repeat case_match; try reflexivity; apply save_field; assumption. Qed.

(** The fields from PCB_NEXT on are as they were. *)
Lemma scheduled_field r m s p c q o : scheduled r m s p c -> pcb_ok q -> current m = q \/ apart (current m) q ->
  PCB_NEXT <= o <= 168 -> ld32 (mem c) (q + o) = ld32 m (q + o).
Proof.
  intros (_ & _ & _ & Hh & _) Hq Hcur Ho. rewrite (field_heap _ _ _ _ Hh) by (auto; unfold PCB_NEXT in Ho; lia).
  destruct (stays_idle m p); [reflexivity|]. apply switch_field; assumption.
Qed.

(** ** Rounds *)

(** A call of [schedule] with these processes in the ring. *)
Definition at_schedule (procs : list Z) (c : cpu) : Prop :=
  pc c = 4 /\ loaded (mem c) /\ words (regs c) /\ code_pointer (regs c 1) /\ stack_ok (regs c 2) 16 /\
  is_u32 (csrs c MSTATUS) /\ Forall (process_ok (mem c)) procs.

(** From the return [d] of one call to the next call [c], where [p] is ready; whatever
    happens between leaves the list of processes alone. *)
Definition resumes (procs : list Z) (p : Z) (d c : cpu) : Prop :=
  at_schedule procs c /\ current (mem c) = current (mem d) /\
  Forall (fun q => next (mem c) q = next (mem d) q) procs /\ status (mem c) p = STATE_READY.

Definition running (m : memory) (p : Z) : Prop := current m = p /\ ld8 m kidle = 0.

(** From the call [c], process [p] is scheduled by this call or one of the [n] next. *)
Fixpoint scheduled_within (procs : list Z) (p : Z) (n : nat) (c : cpu) : Prop :=
  runs_to (fun d => pc d = regs c 1 /\ regs d 2 = regs c 2 /\
    (running (mem d) p \/
     match n with O => False | S n => forall c', resumes procs p d c' -> scheduled_within procs p n c' end)) c.

Lemma find_split {A} (f : A -> bool) l x : List.find f l = Some x ->
  exists a b, l = a ++ x :: b /\ Forall (fun y => f y = false) a /\ f x = true.
Proof.
  induction l as [|y l IH]; [discriminate|]. cbn. destruct (f y) eqn:E.
  - intros [= ->]. exists [], l. auto.
  - intros H. destruct (IH H) as (a & b & -> & Ha & Hx). exists (y :: a), b. auto.
Qed.

(** The first of a kind comes no later than any other of it. *)
Lemma first_before {A} (f : A -> bool) (a b a' b' : list A) p q : a ++ p :: b = a' ++ q :: b' ->
  Forall (fun y => f y = false) a' -> f p = true -> p = q \/ exists k, a = a' ++ q :: k /\ b' = k ++ p :: b.
Proof.
  revert a'. induction a as [|x a IH]; intros [|y a'] H Ha Hp; cbn in H; injection H as -> H.
  - auto.
  - apply Forall_inv in Ha. congruence.
  - right. exists a. auto.
  - apply Forall_inv_tail in Ha. destruct (IH _ H Ha Hp) as [->|(k & -> & ->)]; [auto|]. right. exists k. auto.
Qed.

Lemma scheduled_within_intro procs p n c :
  runs_to (fun d => pc d = regs c 1 /\ regs d 2 = regs c 2 /\
    (running (mem d) p \/ exists k, n = S k /\ forall c', resumes procs p d c' -> scheduled_within procs p k c')) c ->
  scheduled_within procs p n c.
Proof.
  intros H. destruct n as [|n]; cbn; (eapply runs_to_weaken; [exact H|]); cbn; intros d (H1 & H2 & H3).
  - split; [exact H1|]. split; [exact H2|]. destruct H3 as [H3|(k & Hk & _)]; [auto|discriminate].
  - split; [exact H1|]. split; [exact H2|]. destruct H3 as [H3|(k & Hk & H3)]; [auto|]. injection Hk as ->. auto.
Qed.

Lemma separate_apart procs p q : separate procs -> p ∈ procs -> q ∈ procs -> p = q \/ apart p q.
Proof. intros H Hp Hq. destruct (Z.eq_dec p q); auto. Qed.

(** After a round that picked [q], the ring seen from [q] at the next call. *)
Lemma round_ring r m s d c' procs p q c l a k b : separate procs -> Permutation procs (c :: l) -> current m = c -> ring m c l ->
  l ++ [c] = a ++ q :: k ++ p :: b -> q <> 0 -> scheduled r m s q d -> resumes procs p d c' ->
  exists l' b', ring (mem c') q l' /\ Permutation procs (q :: l') /\ l' ++ [q] = k ++ p :: b' /\ current (mem c') = q.
Proof.
  intros Hsep HP Hc Hring Hl Hq0 Hd (Hat & Hcur & Hnext & Hst).
  assert (Hb : exists b2, k ++ p :: b = b2 ++ [c] /\ l = a ++ q :: b2).
  { destruct (exists_last (l := k ++ p :: b)) as (b2 & x & Hb2); [destruct k; discriminate|].
    rewrite Hb2 in Hl. change (q :: b2 ++ [x]) with ((q :: b2) ++ [x]) in Hl. rewrite app_assoc in Hl.
    apply app_inj_tail in Hl. destruct Hl as [-> ->]. exists b2. auto. }
  destruct Hb as (b2 & Hb2 & ->). pose proof (ring_rotate _ _ _ _ _ Hring) as Hring'.
  exists (b2 ++ c :: a), (b ++ a ++ [q]). split; [|split; [|split]].
  - destruct Hring' as (Hl' & Hf & Hn). unfold ring. conjs; try assumption. apply (links_agree m); [|exact Hl'].
    apply Forall_forall. intros x Hx.
    assert (Hin : x ∈ procs) by (rewrite HP; set_solver).
    rewrite (proj1 (Forall_forall _ _) Hnext x Hin). unfold next. apply (scheduled_field r m s q d x); [exact Hd|..].
    + apply (proj1 (Forall_forall _ _) (proj1 (proj2 Hring))). rewrite <- HP. exact Hin.
    + apply (separate_apart procs); [exact Hsep|rewrite HP, Hc; set_solver|exact Hin].
    + unfold PCB_NEXT. lia.
  - rewrite HP. rewrite (Permutation_app_comm (c :: a) (q :: b2) : Permutation (c :: a ++ q :: b2) _). reflexivity.
  - rewrite <- app_assoc. cbn. change (c :: a ++ [q]) with ([c] ++ a ++ [q]). rewrite app_assoc, <- Hb2, <- app_assoc. reflexivity.
  - rewrite Hcur. destruct Hd as (_ & _ & _ & _ & _ & Hd & _). rewrite Hd. replace (q =? 0) with false by lia. reflexivity.
Qed.

(** The process picked when one is ready. *)
Lemma pick_first m p c l a b : status m p = STATE_READY -> l ++ [c] = a ++ p :: b ->
  exists q a' b', pick m c l = q /\ l ++ [c] = a' ++ q :: b' /\ Forall (fun x => (status m x =? STATE_READY) = false) a'.
Proof.
  intros Hst Hl. unfold pick. destruct (List.find _ _) as [q|] eqn:E.
  - destruct (find_split _ _ _ E) as (a' & b' & H1 & H2 & _). exists q, a', b'. auto.
  - exfalso. assert (Hin : In p (l ++ [c])) by (apply list_elem_of_In; rewrite Hl; set_solver).
    pose proof (List.find_none _ _ E p Hin) as H. cbn in H. rewrite Hst in H. discriminate H.
Qed.

Lemma scheduled_at procs p c l a b n : separate procs -> at_schedule procs c -> Permutation procs (current (mem c) :: l) ->
  ring (mem c) (current (mem c)) l -> status (mem c) p = STATE_READY -> l ++ [current (mem c)] = a ++ p :: b ->
  (length a <= n)%nat -> scheduled_within procs p n c.
Proof.
  intros Hsep. revert c l a b. induction n as [n IH] using lt_wf_ind. intros c l a b Hat HP Hring Hst Hl Hn.
  apply scheduled_within_intro. destruct c as [r m s p0]. destruct Hat as (Hpc & Hm & Hw & Hra & Hsp & Hms & Hok).
  cbn [pc regs mem csrs] in *. subst p0. remember (current m) as c eqn:Hc. symmetry in Hc.
  assert (Hok' : Forall (process_ok m) (c :: l)) by (rewrite <- HP; exact Hok).
  eapply runs_to_weaken; [apply (schedule_runs r m s c l); assumption|]. intros d Hd.
  pose proof (pick_first m p c l a b Hst Hl) as Hpick.
  destruct Hpick as (q & a' & b' & Hq & Hl' & Ha'). rewrite Hq in Hd.
  assert (Hqok : pcb_ok q).
  { destruct Hring as (_ & Hf & _). apply (proj1 (Forall_forall _ _) (all_round c l Hf)). rewrite Hl'. set_solver. }
  assert (Hq0 : (q =? 0) = false) by (unfold_layout; lia).
  pose proof Hd as (Hdpc & Hdk & _ & _ & _ & Hdc & Hdi & _). split; [exact Hdpc|]. split.
  { rewrite (kept_in _ _ 2 Hdk) by (cbn; tauto). reflexivity. }
  rewrite Hq0 in Hdc, Hdi. cbn in Hdi.
  rewrite Hl in Hl'. destruct (first_before _ _ _ _ _ p q Hl' Ha') as [<-|(k & -> & ->)]; [rewrite Hst; reflexivity| |].
  - left. split; [exact Hdc|lia].
  - right. rewrite length_app in Hn. cbn in Hn. destruct n as [|n]; [lia|]. exists n. split; [reflexivity|].
    intros c' Hres. rewrite Hl' in Hl.
    destruct (round_ring r m s d c' procs p q c l a' k b) as (l' & b' & H1 & H2 & H3 & H4); auto; [lia|].
    destruct Hres as (Hat' & _ & _ & Hst').
    apply (IH n ltac:(lia) c' l' k b'); rewrite ?H4; auto. lia.
Qed.

