(* ===== verification/KTrips.v ===== *)
(** * There and back by context switches *)

From S2P Require Import Prelude Mem KWorld RvaIsa KImage Cpu KCode KSched KSwitch KFair.

(** ** What was saved *)

Lemma save_ld m p t ms sp : is_u32 t -> is_u32 ms -> is_u32 sp ->
  let m' := save m p t ms sp in
  ld32 m' (p + PCB_MEPC) = t /\ ld32 m' (p + PCB_MSTATUS) = ms /\ ld32 m' (p + PCB_MSCRATCH) = sp.
Proof.
  intros Ht Hms Hsp. cbv zeta. unfold save, PCB_MEPC, PCB_MSTATUS, PCB_MSCRATCH.
  conjs; loads; apply ld32_st32_eq; assumption.
Qed.

Lemma save_process m p q t ms sp : p = q \/ apart p q -> process_ok m q -> process_ok (save m p t ms sp) q.
Proof.
  intros Hpq (Hq & Ht & Hd). unfold process_ok, ptext, pdata in *.
  rewrite !save_field by (auto; unfold PCB_NEXT; lia). auto.
Qed.

(** A call of [context_switch] with room on the stack. *)
Definition at_switch (c : cpu) : Prop :=
  pc c = 160 /\ loaded (mem c) /\ code_pointer (regs c 1) /\ stack_ok (regs c 2) 12 /\ is_u32 (csrs c MSTATUS).

(** C7: [context_switch] does what its comment asks, but for one word. To the idle task:
    the control registers are saved for the current process, if there is one, and the
    idle task's are set, in supervisor mode. From the idle task to a process: nothing is saved,
    the process's registers and its translation are set, in user mode. From process to
    process both happen, but 0 is saved for the program counter. The rest of the heap, the
    stack above and the saved registers stay, and the routine returns. *)
Theorem context_switch_spec r m s : at_switch (Cpu r m s 160) -> (r 10 = 0 \/ process_ok m (r 10)) ->
  (current m = 0 \/ pcb_ok (current m)) -> (r 10 <> 0 -> ld8 m kidle = 0 -> current m <> 0) ->
  runs_to (switched r m s (r 10)) (Cpu r m s 160).
Proof.
  intros (_ & Hm & Hra & Hsp & Hst) Ht Hc Hn. cbn [pc regs mem csrs] in *.
  destruct (Z.eq_dec (r 10) 0) as [H0|H0].
  - rewrite H0. apply switch_to_idle; auto. tauto.
  - apply switch_to_process; auto; [tauto|]. intros Hk. specialize (Hn H0 Hk). tauto.
Qed.

(** The call [c] of [context_switch] to process [p] comes after the return [d] of another,
    the heap, the current process and the flag of the idle task as they were left. *)
Definition back_to (p : Z) (d c : cpu) : Prop :=
  at_switch c /\ regs c 10 = p /\ heap_same (mem d) (mem c) /\ current (mem c) = current (mem d) /\
  ld8 (mem c) kidle = ld8 (mem d) kidle.

(** Process [p] goes on at [a] with stack pointer [sp] in user mode. *)
Definition resumed (p a sp ms : Z) (c : cpu) : Prop :=
  current (mem c) = p /\ ld8 (mem c) kidle = 0 /\ csrs c MEPC = a /\ csrs c MSCRATCH = sp /\
  csrs c MSTATUS = Z.land ms (not32 0x1800).

Lemma back_process r m s t p d c' : switched r m s t d -> back_to p d c' -> process_ok (switch_heap s m t) p -> process_ok (mem c') p.
Proof.
  intros (_ & _ & _ & Hh & _) (_ & _ & Hh' & _) Hp. apply (process_heap (switch_heap s m t)); [|exact Hp].
  eapply same_on_trans; eassumption.
Qed.

(** The second switch, from the saved words. *)
Lemma back_resumes r m s t p d c' a ms sp : p <> 0 -> process_ok (switch_heap s m t) p -> switched r m s t d -> back_to p d c' ->
  (ld8 (mem d) kidle = 0 -> pcb_ok (current (mem d))) ->
  ld32 (switch_heap s m t) (p + PCB_MEPC) = a -> ld32 (switch_heap s m t) (p + PCB_MSTATUS) = ms ->
  ld32 (switch_heap s m t) (p + PCB_MSCRATCH) = sp -> runs_to (resumed p a sp ms) c'.
Proof.
  intros Hp0 Hp Hd Hb Hcur Ha Hms Hscr. pose proof (back_process _ _ _ _ _ _ _ Hd Hb Hp) as Hpc.
  destruct Hd as (_ & _ & _ & Hh & _). destruct Hb as (Hat & H10 & Hh' & Hc & Hk).
  pose proof (same_on_trans _ _ _ _ _ Hh Hh') as Hh2. pose proof (proj1 Hp) as Hpok.
  destruct c' as [r' m' s' p']. destruct Hat as (Hpc' & Hm & Hra & Hsp & Hst). cbn [pc regs mem csrs] in *. subst p' p.
  eapply runs_to_weaken; [apply switch_to_process; auto; rewrite Hc, Hk; exact Hcur|].
  intros e (_ & _ & _ & _ & _ & Hce & Hke & Hse & _). replace (r' 10 =? 0) with false in * by lia.
  unfold resumed. rewrite Hse, (user_csrs_heap s' _ _ _ Hh2 Hpok). unfold user_csrs. cbn [upd Z.eqb Pos.eqb MEPC MSTATUS MSCRATCH].
  rewrite Ha, Hms, Hscr. conjs; auto.
Qed.

(** A process that gives way to the idle task and is switched to again goes on where it was: with its
    program counter, its stack pointer and its status, in user mode. *)
Theorem idle_round_trip r m s p : at_switch (Cpu r m s 160) -> r 10 = 0 -> current m = p -> p <> 0 -> process_ok m p ->
  is_u32 (s MEPC) -> is_u32 (s MSCRATCH) ->
  runs_to (fun d => pc d = r 1 /\ csrs d MEPC = kernel_idle_task /\ ld8 (mem d) kidle = 1 /\
    forall c, back_to p d c -> runs_to (resumed p (s MEPC) (s MSCRATCH) (s MSTATUS)) c) (Cpu r m s 160).
Proof.
  intros (_ & Hm & Hra & Hsp & Hst) H10 Hc Hp0 Hp Hpc Hscr. cbn [pc regs mem csrs] in *.
  assert (Hsw : switch_heap s m 0 = save m p (s MEPC) (s MSTATUS) (s MSCRATCH)).
  { unfold switch_heap. rewrite Hc. replace (p =? 0) with false by lia. reflexivity. }
  destruct (save_ld m p _ _ _ Hpc Hst Hscr) as (H1 & H2 & H3).
  eapply runs_to_weaken; [apply switch_to_idle; auto; rewrite Hc; intros _; apply Hp|].
  intros d Hd. pose proof Hd as (Hdpc & _ & _ & _ & _ & _ & Hdk & Hds & _). cbn in Hdk, Hds.
  conjs; auto; [rewrite Hds; reflexivity|]. intros c Hb.
  apply (back_resumes r m s 0 p d c); rewrite ?Hsw; auto; [apply save_process; auto|]. rewrite Hdk. discriminate.
Qed.

(** A process that gives way to another process and is switched to again starts from
    address 0, wherever it was: the load of [kidle] has overwritten the program counter
    before it is saved. *)
Theorem preempted_process_restarts r m s p q : at_switch (Cpu r m s 160) -> r 10 = q -> q <> 0 -> process_ok m q ->
  current m = p -> process_ok m p -> p = q \/ apart p q -> ld8 m kidle = 0 -> is_u32 (s MSCRATCH) ->
  runs_to (fun d => pc d = r 1 /\ current (mem d) = q /\
    forall c, back_to p d c -> runs_to (resumed p 0 (s MSCRATCH) (s MSTATUS)) c) (Cpu r m s 160).
Proof.
  intros (_ & Hm & Hra & Hsp & Hst) H10 Hq0 Hq Hc Hp Hpq Hk Hscr. cbn [pc regs mem csrs] in *.
  assert (Hp0 : p <> 0) by (pose proof (proj1 Hp); unfold_layout; lia).
  assert (Hq0' : (q =? 0) = false) by lia.
  assert (Hsw : switch_heap s m q = save m p 0 (s MSTATUS) (s MSCRATCH)).
  { unfold switch_heap. rewrite Hc, Hq0', Hk. reflexivity. }
  destruct (save_ld m p 0 _ _ ltac:(unfold is_u32; lia) Hst Hscr) as (H1 & H2 & H3).
  eapply runs_to_weaken; [rewrite <- H10 in Hq, Hq0; apply switch_to_process; auto; rewrite Hc; intros _; apply Hp|].
  intros d Hd. rewrite H10 in Hd. pose proof Hd as (Hdpc & _ & _ & _ & _ & Hdc & Hdk & _). rewrite Hq0' in Hdc, Hdk.
  conjs; auto. intros c Hb.
  apply (back_resumes r m s q p d c); rewrite ?Hsw; auto; [apply save_process; auto|]. intros _. rewrite Hdc. apply Hq.
Qed.
