(* ===== verification/KProc.v ===== *)
(** * Processes by number, as machine code

    get_pcb_from_id, unblock_process and block_current_process do to the processes in
    memory what the definitions of KWorld.v, which the file system is proved with, do to
    the map of processes. *)

From S2P Require Import Prelude Mem KWorld RvaIsa KImage Cpu KCode KSched KSwitch KFair.

(** What a routine that only reads leaves. *)
Definition returns (r : Z -> Z) (m : memory) (s : Z -> Z) (v : Z) (c : cpu) : Prop :=
  pc c = r 1 /\ kept r (regs c) /\ regs c 10 = v /\ mem c = m /\ csrs c = s.

(** The first of the processes [ps] with number [id]. *)
(* kernel/process.s:19-33 get_pcb_from_id *)
Definition find_pid (m : memory) (id : Z) (ps : list Z) : Z :=
  match List.find (fun p => pid m p =? id) ps with Some p => p | None => 0 end.

(** The tail of the routine. *)
Lemma get_pcb_return r m s v r2 : loaded m -> code_pointer (r 1) -> regs_but [5; 6; 28] r r2 -> r2 5 = v -> is_u32 v ->
  runs_to (returns r m s v) (Cpu r2 m s 1548).
Proof.
  intros Hm Hra Hr Hv Hu. cpu_step. rewrite Hv. cpu_step. rewrite Hr by cell. rewrite jalr_target by exact Hra.
  constructor. unfold returns. cbn. conjs; try reflexivity. kept_tac Hr.
Qed.

Lemma get_pcb_loop r m s c k : loaded m -> code_pointer (r 1) -> c ∉ k -> forall p r2, links m p (k ++ [c]) ->
  Forall pcb_ok (p :: k ++ [c]) -> regs_but [5; 6; 28] r r2 -> r2 5 = p -> r2 28 = c ->
  runs_to (returns r m s (find_pid m (r 10) (p :: k))) (Cpu r2 m s 1528).
Proof.
  intros Hm Hra. induction k as [|q k IH]; intros Hc p r2 Hl Hf Hr H5 H28; cbn [app] in Hl, Hf;
    rewrite !Forall_cons in Hf; destruct Hf as (Hp & Hq & Hf); destruct Hl as [Hn Hl];
    assert (H10 : r2 10 = r 10) by (apply Hr; cell); assert (Hr6 : forall v, regs_but [5; 6; 28] r (upd r2 6 v)) by (intros v; regs_over Hr).
  - unfold_layout. unfold find_pid, next, pid in *. unfold_layout. cbn [List.find].
    cpu_step. rewrite H5. u32_small. cpu_step. rewrite H10. destruct (ld8 m (p + 164) =? r 10).
    { apply get_pcb_return; auto. unfold is_u32. lia. }
    cpu_step. rewrite H5. u32_small. rewrite Hn. cpu_step. rewrite H28, Z.eqb_refl. cbn [negb]. cpu_step.
    apply get_pcb_return; auto; [regs_over Hr|unfold is_u32; lia].
  - unfold find_pid in *. cbn [List.find]. unfold next, pid in *. unfold_layout.
    cpu_step. rewrite H5. u32_small. cpu_step. rewrite H10. destruct (ld8 m (p + 164) =? r 10).
    { apply get_pcb_return; auto. unfold is_u32. lia. }
    cpu_step. rewrite H5. u32_small. rewrite Hn. cpu_step.
    rewrite H28. replace (q =? c) with false by (symmetry; apply Z.eqb_neq; set_solver). cbn [negb].
    apply (IH ltac:(set_solver) q); auto. regs_over Hr.
Qed.

Lemma get_pcb_runs r m s c l : loaded m -> code_pointer (r 1) -> current m = c -> ring m c l ->
  runs_to (returns r m s (find_pid m (r 10) (c :: l))) (Cpu r m s 1512).
Proof.
  intros Hm Hra Hc (Hl & Hf & Hn). pose proof (Forall_inv Hf) as Hcok.
  assert (Hcr : 2288 <= c <= 16384) by (unfold_layout; lia).
  unfold current, current_pcb in Hc. cpu_step. cpu_step. rewrite Hc. cpu_step. replace (c =? 0) with false by lia. cpu_step.
  apply (get_pcb_loop r m s c l); auto; [|apply all_round, Hf|regs_tac].
  apply NoDup_cons in Hn. tauto.
Qed.

(** ** Against the definitions of KWorld.v *)

(** The process of the map at [p], in memory. *)
Definition pcb_in (m : memory) (p : Z) (c : pcb_t) : Prop :=
  next m p = pcb_next c /\ pid m p = pcb_pid c /\ status m p = pcb_pstatus c.

(** The memory holds the ring of processes [c :: l], and the world has them. *)
Definition mirrors (m : memory) (w : world) (c : Z) (l : list Z) : Prop :=
  current m = c /\ w_current_pcb w = c /\ ring m c l /\ Forall (fun p => exists k, w_pcbs w !! p = Some k /\ pcb_in m p k) (c :: l).

Lemma pcb_walk_spec m w c id k : c ∉ k -> forall p fuel, links m p (k ++ [c]) -> Forall (fun p => p <> 0) (p :: k) ->
  Forall (fun p => exists k, w_pcbs w !! p = Some k /\ pcb_in m p k) (p :: k) -> (length k < fuel)%nat ->
  pcb_walk fuel p c id w = Ok (find_pid m id (p :: k), w).
Proof.
  induction k as [|q k IH]; intros Hc p fuel Hl Hz Hw Hf; (destruct fuel as [|fuel]; [lia|]);
    cbn [app] in Hl; destruct Hl as [Hn Hl]; assert (Hp0 : p <> 0) by exact (Forall_inv Hz); destruct (Forall_inv Hw) as (x & Hx & Hxn & Hxp & _);
    cbn [pcb_walk]; unfold mbind, KWorld.load; replace (p =? 0) with false by lia; cbn [st_map stored_pcb]; rewrite Hx; cbn [of_option rbind];
    unfold find_pid; cbn [List.find]; rewrite Hxp, <- Hxn, Hn; destruct (pcb_pid x =? id); try reflexivity.
  - rewrite Z.eqb_refl. reflexivity.
  - replace (q =? c) with false by (symmetry; apply Z.eqb_neq; set_solver).
    apply (IH ltac:(set_solver) q fuel); [exact Hl|exact (Forall_inv_tail Hz)|exact (Forall_inv_tail Hw)|cbn in Hf; lia].
Qed.

Lemma mirrors_size m w c l : mirrors m w c l -> (length (c :: l) <= size (w_pcbs w))%nat.
Proof.
  intros (_ & _ & (_ & _ & Hn) & Hw). rewrite <- size_dom. rewrite <- (size_list_to_set (C := gset Z) _ Hn).
  apply subseteq_size. intros p Hp. apply elem_of_list_to_set in Hp. apply (proj1 (Forall_forall _ _) Hw) in Hp.
  destruct Hp as (k & Hk & _). apply elem_of_dom. eauto.
Qed.

Lemma get_pcb_world m w c l id : mirrors m w c l -> KWorld.get_pcb_from_id id w = Ok (find_pid m id (c :: l), w).
Proof.
  intros H. pose proof (mirrors_size _ _ _ _ H) as Hs. destruct H as (Hc & Hwc & (Hl & Hf & Hn) & Hw).
  assert (Hz : Forall (fun p => p <> 0) (c :: l)) by (eapply Forall_impl; [exact Hf|]; intros p Hp; unfold_layout; lia).
  assert (Hc0 : c <> 0) by exact (Forall_inv Hz).
  unfold KWorld.get_pcb_from_id, mbind, KWorld.get. cbn [rbind]. rewrite Hwc. replace (c =? 0) with false by lia.
  apply pcb_walk_spec; [apply NoDup_cons in Hn; tauto|exact Hl|exact Hz|exact Hw|cbn in Hs; lia].
Qed.

(** C15: [get_pcb_from_id] in the machine and in KWorld.v find the same process: on a memory
    and a world that hold the same ring, for every number. The machine's routine comes
    back, with memory and the saved registers as they were. *)
Theorem get_pcb_refines r m s w c l : loaded m -> code_pointer (r 1) -> mirrors m w c l ->
  exists p, KWorld.get_pcb_from_id (r 10) w = Ok (p, w) /\ runs_to (returns r m s p) (Cpu r m s 1512).
Proof.
  intros Hm Hra H. exists (find_pid m (r 10) (c :: l)). split; [apply get_pcb_world, H|].
  destruct H as (Hc & _ & Hring & _). apply get_pcb_runs; assumption.
Qed.

(** ** Waking and blocking *)

Lemma status_write m p q v : pcb_ok p -> pcb_ok q -> is_u8 v -> p = q \/ apart p q ->
  status (st8 m (p + PCB_STATUS) v) q = (if q =? p then v else status m q).
Proof.
  unfold status, apart, is_u8. unfold_layout. intros Hp Hq Hv [->|H].
  - rewrite Z.eqb_refl, ld8_st8_eq. apply Z.mod_small, Hv.
  - rewrite ld8_st8_ne by lia. replace (q =? p) with false by lia. reflexivity.
Qed.

Lemma st8_field m p q v o : p = q \/ apart p q -> 0 <= o -> o + 4 <= PCB_STATUS -> ld32 (st8 m (p + PCB_STATUS) v) (q + o) = ld32 m (q + o).
Proof. unfold apart, PCB_STATUS, PCB_SIZE. intros H H0 Ho. loads. reflexivity. Qed.

Lemma st8_pid m p q v : p = q \/ apart p q -> pid (st8 m (p + PCB_STATUS) v) q = pid m q.
Proof. unfold pid, apart, PCB_STATUS, PCB_PID, PCB_SIZE. intros H. loads. reflexivity. Qed.

Lemma ring_status m c l p v : separate (c :: l) -> p ∈ c :: l -> ring m c l -> ring (st8 m (p + PCB_STATUS) v) c l.
Proof.
  intros Hsep Hp (Hl & Hf & Hn). unfold ring. conjs; auto. apply (links_agree m); [|exact Hl]. apply Forall_forall. intros q Hq.
  unfold next. apply st8_field; [|unfold PCB_NEXT, PCB_STATUS; lia..]. apply (separate_apart (c :: l)); [exact Hsep|exact Hp|set_solver].
Qed.

(** The world after a process's status was set. *)
Lemma mirrors_status m w c l p v f k : separate (c :: l) -> p ∈ c :: l -> is_u8 v -> mirrors m w c l -> w_pcbs w !! p = Some k ->
  pcb_next (f k) = pcb_next k -> pcb_pid (f k) = pcb_pid k -> pcb_pstatus (f k) = v ->
  forall w', w_pcbs w' = <[p := f k]> (w_pcbs w) -> w_current_pcb w' = w_current_pcb w ->
  mirrors (st8 m (p + PCB_STATUS) v) w' c l.
Proof.
  intros Hsep Hp Hv (Hc & Hwc & Hring & Hw) Hk Hfn Hfp Hfs w' Hw' Hwc'. pose proof Hring as (_ & Hf & _).
  rewrite Forall_forall in Hf, Hw. pose proof (Hf p Hp) as Hpok.
  unfold mirrors. conjs; [|congruence|apply ring_status; assumption|].
  - unfold current, current_pcb, PCB_STATUS in *. unfold_layout. loads. exact Hc.
  - apply Forall_forall. intros q Hq. destruct (Hw q Hq) as (x & Hx & Hxn & Hxp & Hxs). rewrite Hw'.
    assert (Hpq : p = q \/ apart p q) by (apply (separate_apart (c :: l)); assumption).
    unfold pcb_in, next. rewrite st8_pid, status_write by auto.
    rewrite st8_field by (auto; unfold PCB_NEXT, PCB_STATUS; lia).
    destruct (Z.eqb_spec q p) as [->|Hn].
    + exists (f k). rewrite lookup_insert_eq. rewrite Hk in Hx. injection Hx as <-. unfold next in Hxn. conjs; congruence.
    + exists x. rewrite lookup_insert_ne by congruence. conjs; assumption.
Qed.

(** Afterwards memory holds what the world [w'] has. *)
Definition comes_back (r : Z -> Z) (w' : world) (c : Z) (l : list Z) (s : Z -> Z) (d : cpu) : Prop :=
  pc d = r 1 /\ kept r (regs d) /\ mirrors (mem d) w' c l /\ csrs d = s.

(** [unblock_process] in the machine makes of the processes in memory what its
    definition in KWorld.v makes of the map of processes: the one process becomes ready. *)
Theorem unblock_refines r m s w c l : loaded m -> code_pointer (r 1) -> mirrors m w c l -> separate (c :: l) -> r 10 ∈ c :: l ->
  exists w', KWorld.unblock_process (r 10) w = Ok (tt, w') /\ runs_to (comes_back r w' c l s) (Cpu r m s 148).
Proof.
  intros Hm Hra H Hsep Hp. pose proof H as (_ & _ & (_ & Hf & _) & Hw). rewrite Forall_forall in Hf, Hw.
  pose proof (Hf _ Hp) as Hpok. destruct (Hw _ Hp) as (k & Hk & _).
  set (w1 := set_w_trace (w_trace w ++ [EUnblock (r 10)]) w).
  exists (set_w_pcbs (<[r 10 := set_pcb_pstatus STATE_READY k]> (w_pcbs w)) w1). split.
  { unfold KWorld.unblock_process, emit, modify, update, KWorld.load, KWorld.store, mbind. cbn [rbind].
    assert (H0 : (r 10 =? 0) = false) by (unfold_layout; lia). rewrite H0. cbn [st_map stored_pcb w_pcbs set_w_trace]. rewrite Hk. reflexivity. }
  assert (Hpr : 2288 <= r 10 <= 15384 - 172) by (unfold_layout; lia).
  cpu_step. cpu_step. cpu_step. rewrite jalr_target by exact Hra. constructor. unfold comes_back. cbn [pc regs mem csrs].
  conjs; try reflexivity; [kept_tac (regs_but_refl [] r)|].
  change (0 + 1) with STATE_READY. apply (mirrors_status m w c l _ _ (set_pcb_pstatus STATE_READY) k); auto. unfold is_u8, STATE_READY. lia.
Qed.
