(* ===== verification/KLib.v ===== *)
(** * The kernel's small routines, as machine code

    memutils.s, maths.s, delay.s and fifo.s of lib/. *)

From S2P Require Import Prelude Mem KWorld RvaIsa KImage Cpu KCode KSched KSwitch KFair KProc.

(** What a routine that returns a value leaves, memory apart. *)
Definition done (r : Z -> Z) (s : Z -> Z) (v : Z) (c : cpu) : Prop :=
  pc c = r 1 /\ kept r (regs c) /\ regs c 10 = v /\ csrs c = s.

Lemma return_done P r m s r2 p : loaded m -> in_code p = true -> instr_at p = Some (Jalr 0 1 0) -> code_pointer (r 1) -> r2 1 = r 1 ->
  P (Cpu r2 m s (r 1)) -> runs_to P (Cpu r2 m s p).
Proof.
  intros Hm Hp Hi Hra H1 H. eapply runs_step; [apply kernel_step; eassumption|].
  constructor. cbn [exec reg set Z.eqb]. rewrite H1, Z.add_0_r, jalr_target by exact Hra. exact H.
Qed.

(** ** Copying *)

(** [k] bytes, one by one from the first. *)
(* lib/memutils.s:6-25 memcpy *)
Fixpoint copy (k : nat) (a b : Z) (m : memory) : memory :=
  match k with O => m | S k => copy k (a + 1) (b + 1) (st8 m b (ld8 m a)) end.

Lemma lb_byte b : 0 <= b < 256 -> u32 (sext 8 b) mod 256 = b.
Proof.
  intros Hb. unfold sext, u32. change (Z.shiftl 1 8) with 256. destruct (Z.testbit b (8 - 1)); dlia.
Qed.

Lemma st8_mod m a v : st8 m a (v mod 256) = st8 m a v.
Proof. unfold st8. rewrite Z.mod_mod by lia. reflexivity. Qed.

Lemma st8_lb m a b v : ld8 m b = v -> st8 m a (u32 (sext 8 v)) = st8 m a v.
Proof. intros <-. rewrite <- st8_mod, lb_byte by apply ld8_range. reflexivity. Qed.

(** One round of the loop. *)
Lemma memcpy_visit P r m s n a b : loaded m -> r 7 = n -> 0 < n < 4294967296 -> r 5 = a -> 0 <= a < 4294967295 -> r 6 = b ->
  code_end <= b < 4294967295 ->
  (forall r', regs_but [5; 6; 7; 28] r r' -> r' 5 = a + 1 -> r' 6 = b + 1 -> r' 7 = n - 1 -> loaded (st8 m b (ld8 m a)) ->
    runs_to P (Cpu r' (st8 m b (ld8 m a)) s (if n - 1 =? 0 then 636 else 612))) -> runs_to P (Cpu r m s 612).
Proof.
  unfold code_end. intros Hm H7 Hn H5 Ha H6 Hb H. assert (Hm1 : loaded (st8 m b (ld8 m a))) by loaded_tac.
  cpu_step. rewrite H5. cpu_step. rewrite H6, (st8_lb m _ a) by reflexivity. cpu_step. rewrite H5. cpu_step. rewrite H6.
  cpu_step. rewrite H7. cpu_step. 
  specialize (H (upd (upd (upd (upd r 28 (u32 (sext 8 (ld8 m a)))) 5 (a + 1)) 6 (b + 1)) 7 (n - 1))).
  destruct (n - 1 =? 0); apply H; try reflexivity; try exact Hm1; regs_tac.
Qed.

Lemma memcpy_loop P s k : forall r m a b, loaded m -> r 7 = Z.of_nat (S k) -> r 5 = a -> 0 <= a -> a + Z.of_nat (S k) < 4294967296 ->
  r 6 = b -> code_end <= b -> b + Z.of_nat (S k) < 4294967296 ->
  (forall r', regs_but [5; 6; 7; 28] r r' -> loaded (copy (S k) a b m) -> runs_to P (Cpu r' (copy (S k) a b m) s 636)) ->
  runs_to P (Cpu r m s 612).
Proof.
  unfold code_end. induction k as [|k IH]; intros r m a b Hm H7 H5 Ha Ha' H6 Hb Hb' H.
  - apply (memcpy_visit _ _ _ _ 1 a b); try assumption; unfold code_end; try lia. intros r' Hr' _ _ _ Hl. apply H; assumption.
  - apply (memcpy_visit _ _ _ _ (Z.of_nat (S (S k))) a b); try assumption; unfold code_end; try lia. intros r' Hr' H5' H6' H7' Hl.
    replace (Z.of_nat (S (S k)) - 1 =? 0) with false by (symmetry; apply Z.eqb_neq; lia).
    apply (IH r' _ (a + 1) (b + 1)); try assumption; try lia. intros r2 Hr2 Hl2. apply H; [|exact Hl2].
    eapply regs_but_trans; eassumption.
Qed.

Lemma memcpy_runs r m s k : loaded m -> is_u32 (r 10) -> is_u32 (r 11) -> is_u32 (r 12) -> code_pointer (r 1) -> r 12 = Z.of_nat k -> r 10 + r 12 < 4294967296 ->
  code_end <= r 11 -> r 11 + r 12 < 4294967296 ->
  runs_to (fun c => done r s (r 11) c /\ mem c = copy k (r 10) (r 11) m) (Cpu r m s 596).
Proof.
  intros Hm Hw10 Hw11 Hw12 Hra Hk Ha Hb Hb'. unfold is_u32 in Hw10, Hw11, Hw12.
  assert (Hend : forall r2, regs_but [5; 6; 7; 28] r r2 -> loaded (copy k (r 10) (r 11) m) ->
    runs_to (fun c => done r s (r 11) c /\ mem c = copy k (r 10) (r 11) m) (Cpu r2 (copy k (r 10) (r 11) m) s 636)).
  { intros r2 Hr2 Hl. cpu_step. rewrite (Hr2 11) by cell. u32_small.
    apply (return_done _ r); auto; [cbn; apply Hr2; cell|]. cbn [mem]. split; [|reflexivity].
    unfold done. cbn [pc regs mem csrs]. conjs; try reflexivity. kept_tac Hr2. }
  cpu_step. cpu_step. cpu_step. cpu_step. rewrite Hk. destruct k as [|k].
  - cbn. apply Hend; [regs_tac|exact Hm].
  - replace (Z.of_nat (S k) =? 0) with false by (symmetry; apply Z.eqb_neq; lia).
    apply (memcpy_loop _ _ k _ _ (r 10) (r 11)); try reflexivity; auto; try lia.
    intros r' Hr' Hl. apply Hend; [|exact Hl]. regs_over Hr'.
Qed.

Lemma copy_spec k : forall a b m x, b <= a \/ a + Z.of_nat k <= b ->
  ld8 (copy k a b m) x = (if (b <=? x) && (x <? b + Z.of_nat k) then ld8 m (a + (x - b)) else ld8 m x).
Proof.
  induction k as [|k IH]; intros a b m x H; cbn [copy].
  - destruct ((b <=? x) && (x <? b + Z.of_nat 0)) eqn:E; [zbool; lia|reflexivity].
  - rewrite IH by lia. destruct (Z.eq_dec x b) as [->|Hn].
    + replace (b + 1 <=? b) with false by lia. cbn [andb]. rewrite ld8_st8_eq, Z.mod_small by apply ld8_range.
      replace (b <=? b) with true by lia. replace (b <? b + Z.of_nat (S k)) with true by (symmetry; apply Z.ltb_lt; lia).
      cbn [andb]. f_equal. lia.
    + replace ((b + 1 <=? x) && (x <? b + 1 + Z.of_nat k)) with ((b <=? x) && (x <? b + Z.of_nat (S k)))
        by (apply Bool.eq_true_iff_eq; rewrite !andb_true_iff, !Z.leb_le, !Z.ltb_lt; lia).
      destruct ((b <=? x) && (x <? b + Z.of_nat (S k))) eqn:E.
      * apply andb_true_iff in E. rewrite Z.leb_le, Z.ltb_lt in E. rewrite ld8_st8_ne by lia. f_equal. lia.
      * apply ld8_st8_ne. congruence.
Qed.

(** C27: [memcpy] copies: the destination gets the bytes the source held, where the two do not
    overlap or the destination comes first; no other byte changes; the destination is
    returned. *)
Theorem memcpy_copies r m s : loaded m -> words r -> code_pointer (r 1) -> r 10 + r 12 < 4294967296 ->
  code_end <= r 11 -> r 11 + r 12 < 4294967296 -> (r 11 <= r 10 \/ r 10 + r 12 <= r 11) ->
  runs_to (fun c => done r s (r 11) c /\
    (forall i, 0 <= i < r 12 -> ld8 (mem c) (r 11 + i) = ld8 m (r 10 + i)) /\
    (forall x, x < r 11 \/ r 11 + r 12 <= x -> ld8 (mem c) x = ld8 m x)) (Cpu r m s 596).
Proof.
  intros Hm Hw Hra Ha Hb Hb' Hd. pose proof (Hw 12) as H12. unfold is_u32 in H12.
  assert (Hk : r 12 = Z.of_nat (Z.to_nat (r 12))) by lia.
  eapply runs_to_weaken; [apply (memcpy_runs r m s (Z.to_nat (r 12))); auto|].
  intros c [Hdone Hmem]. split; [exact Hdone|]. rewrite Hmem. split; intros x Hx; rewrite copy_spec by lia; rewrite <- Hk.
  - replace ((r 11 <=? r 11 + x) && (r 11 + x <? r 11 + r 12)) with true by lia. f_equal. lia.
  - replace ((r 11 <=? x) && (x <? r 11 + r 12)) with false by lia. reflexivity.
Qed.

(** ** Filling *)

(* lib/memutils.s:30-43 memset *)
Fixpoint fill (k : nat) (a v : Z) (m : memory) : memory :=
  match k with O => m | S k => fill k (a + 1) v (st8 m a v) end.

Lemma fill_spec k : forall a v m x,
  ld8 (fill k a v m) x = (if (a <=? x) && (x <? a + Z.of_nat k) then v mod 256 else ld8 m x).
Proof.
  induction k as [|k IH]; intros a v m x; cbn [fill].
  - destruct ((a <=? x) && (x <? a + Z.of_nat 0)) eqn:E; [zbool; lia|reflexivity].
  - rewrite IH. destruct (Z.eq_dec x a) as [->|Hn].
    + replace (a + 1 <=? a) with false by lia. cbn [andb]. rewrite ld8_st8_eq.
      replace (a <=? a) with true by lia. replace (a <? a + Z.of_nat (S k)) with true by (symmetry; apply Z.ltb_lt; lia). reflexivity.
    + rewrite ld8_st8_ne by congruence.
      replace ((a + 1 <=? x) && (x <? a + 1 + Z.of_nat k)) with ((a <=? x) && (x <? a + Z.of_nat (S k)))
        by (apply Bool.eq_true_iff_eq; rewrite !andb_true_iff, !Z.leb_le, !Z.ltb_lt; lia). reflexivity.
Qed.

Lemma memset_loop r s k : code_pointer (r 1) -> forall r2 m a, loaded m -> regs_but [5; 7] r r2 -> r2 7 = Z.of_nat k -> r2 5 = a ->
  code_end <= a -> a + Z.of_nat k < 4294967296 ->
  runs_to (fun c => done r s (r 10) c /\ mem c = fill k a (r 11) m) (Cpu r2 m s 668).
Proof.
  intros Hra. unfold code_end. induction k as [|k IH]; intros r2 m a Hm Hr2 H7 H5 Ha Ha'.
  - cpu_step. rewrite H7. cbn. apply (return_done _ r); [exact Hm|reflexivity|reflexivity|exact Hra|apply Hr2; cell|]. cbn [mem fill]. split; [|reflexivity].
    unfold done. cbn [pc regs mem csrs]. conjs; try reflexivity; [kept_tac Hr2|apply Hr2; cell].
  - assert (Hm1 : loaded (st8 m a (r 11))) by loaded_tac. cpu_step. rewrite H7.
    replace (Z.of_nat (S k) =? 0) with false by (symmetry; apply Z.eqb_neq; lia). cbn [negb].
    cpu_step. rewrite H5, (Hr2 11) by cell. cpu_step. rewrite H7. cpu_step. rewrite H5.
    apply (IH _ (st8 m a (r 11)) (a + 1)); try assumption; try reflexivity; cbn [upd Z.eqb Pos.eqb]; try lia. regs_over Hr2.
Qed.

(** [memset] fills its buffer with the byte and changes no other. *)
Theorem memset_fills r m s : loaded m -> words r -> code_pointer (r 1) -> code_end <= r 10 -> r 10 + r 12 < 4294967296 ->
  runs_to (fun c => done r s (r 10) c /\
    (forall i, 0 <= i < r 12 -> ld8 (mem c) (r 10 + i) = r 11 mod 256) /\
    (forall x, x < r 10 \/ r 10 + r 12 <= x -> ld8 (mem c) x = ld8 m x)) (Cpu r m s 644).
Proof.
  intros Hm Hw Hra Hb Hb'. pose proof (Hw 10). pose proof (Hw 12) as H12. unfold is_u32, code_end in *.
  assert (Hk : r 12 = Z.of_nat (Z.to_nat (r 12))) by lia.
  cpu_step. cpu_step. cpu_step.
  eapply runs_to_weaken; [apply (memset_loop r s (Z.to_nat (r 12)) Hra _ m (r 10)); try assumption; try reflexivity; try (unfold code_end; lia); regs_tac|].
  intros c [Hdone Hmem]. split; [exact Hdone|]. rewrite Hmem. split; intros x Hx; rewrite fill_spec; rewrite <- Hk.
  - replace ((r 10 <=? r 10 + x) && (r 10 + x <? r 10 + r 12)) with true by lia. reflexivity.
  - replace ((r 10 <=? x) && (x <? r 10 + r 12)) with false by lia. reflexivity.
Qed.

(** ** Comparing *)

(** The bytes of two buffers: equal, or first different at [i]. *)
Definition same_bytes (m : memory) (a b n : Z) : Prop := forall i, 0 <= i < n -> ld8 m (a + i) = ld8 m (b + i).
Definition differ_at (m : memory) (a b n i : Z) : Prop := 0 <= i < n /\ same_bytes m a b i /\ ld8 m (a + i) <> ld8 m (b + i).

Definition compared (m : memory) (a b n v : Z) : Prop :=
  (same_bytes m a b n /\ v = 0) \/ exists i, differ_at m a b n i /\ s32 v = ld8 m (a + i) - ld8 m (b + i).

Lemma compared_next m a b n v : 0 <= n -> ld8 m a = ld8 m b -> compared m (a + 1) (b + 1) n v -> compared m a b (n + 1) v.
Proof.
  intros Hn He.
  assert (Hs : forall k, same_bytes m (a + 1) (b + 1) k -> same_bytes m a b (k + 1)).
  { intros k H i Hi. destruct (Z.eq_dec i 0) as [->|Hi0]; [rewrite !Z.add_0_r; exact He|].
    specialize (H (i - 1) ltac:(lia)). replace (a + 1 + (i - 1)) with (a + i) in H by lia.
    replace (b + 1 + (i - 1)) with (b + i) in H by lia. exact H. }
  intros [[H ->]|(i & (Hi & Hsame & Hd) & Hv)]; [left; auto|right]. exists (i + 1). unfold differ_at.
  replace (a + (i + 1)) with (a + 1 + i) by lia. replace (b + (i + 1)) with (b + 1 + i) by lia.
  conjs; auto; lia.
Qed.

Lemma memcmp_loop r m s k : loaded m -> code_pointer (r 1) -> forall r2 a b, regs_but [5; 6; 7; 10; 28; 29] r r2 -> r2 7 = Z.of_nat k ->
  r2 5 = a -> r2 6 = b -> 0 <= a -> a + Z.of_nat k < 4294967296 -> 0 <= b -> b + Z.of_nat k < 4294967296 ->
  runs_to (fun c => mem c = m /\ exists v, done r s v c /\ compared m a b (Z.of_nat k) v) (Cpu r2 m s 688).
Proof.
  intros Hm Hra. induction k as [|k IH]; intros r2 a b Hr2 H7 H5 H6 Ha Ha' Hb Hb'; pose proof (Hr2 1 ltac:(cell)) as H1.
  - cpu_step. rewrite H7. cbn. cpu_step. apply (return_done _ r); [exact Hm|reflexivity|reflexivity|exact Hra|exact H1|].
    cbn [mem]. split; [reflexivity|]. exists 0. split; [|left; split; [intros i Hi; lia|reflexivity]].
    unfold done. cbn [pc regs mem csrs]. conjs; try reflexivity. kept_tac Hr2.
  - cpu_step. rewrite H7. replace (Z.of_nat (S k) =? 0) with false by (symmetry; apply Z.eqb_neq; lia).
    cpu_step. rewrite H5. cpu_step. rewrite H6. cpu_step.
    destruct (ld8 m a =? ld8 m b) eqn:E; cbn [negb].
    + cpu_step. rewrite H5. cpu_step. rewrite H6. cpu_step. rewrite H7. cpu_step.
      eapply runs_to_weaken; [apply (IH _ (a + 1) (b + 1)); cbn [upd Z.eqb Pos.eqb]; try reflexivity; try lia; regs_over Hr2|].
      intros c (Hmem & v & Hd & Hc). split; [exact Hmem|]. exists v. split; [exact Hd|].
      replace (Z.of_nat (S k)) with (Z.of_nat k + 1) by lia. apply compared_next; [lia|lia|exact Hc].
    + cpu_step. apply (return_done _ r); [exact Hm|reflexivity|reflexivity|exact Hra|exact H1|].
      cbn [mem]. split; [reflexivity|]. exists (u32 (ld8 m a - ld8 m b)). split.
      * unfold done. cbn [pc regs mem csrs]. conjs; try reflexivity. kept_tac Hr2.
      * right. exists 0. unfold differ_at. rewrite !Z.add_0_r, s32_u32. pose proof (ld8_range m a). pose proof (ld8_range m b).
        rewrite s32_id by lia. conjs; try lia. intros i Hi. lia.
Qed.

(** [memcmp] returns 0 exactly when the buffers hold the same bytes, and otherwise, as a signed
    word, the difference of the first bytes that differ; memory is only read. *)
Theorem memcmp_compares r m s : loaded m -> words r -> code_pointer (r 1) -> r 10 + r 12 < 4294967296 -> r 11 + r 12 < 4294967296 ->
  runs_to (fun c => mem c = m /\ exists v, done r s v c /\ compared m (r 10) (r 11) (r 12) v) (Cpu r m s 676).
Proof.
  intros Hm Hw Hra Ha Hb. pose proof (Hw 10). pose proof (Hw 11). pose proof (Hw 12) as H12. unfold is_u32 in *.
  assert (Hk : r 12 = Z.of_nat (Z.to_nat (r 12))) by lia.
  cpu_step. cpu_step. cpu_step.
  eapply runs_to_weaken; [apply (memcmp_loop r m s (Z.to_nat (r 12)) Hm Hra _ (r 10) (r 11)); try assumption; try reflexivity; try lia; regs_tac|].
  intros c Hc. rewrite <- Hk in Hc. exact Hc.
Qed.

(** ** Logarithm and delay *)

Lemma log_loop r m s k : loaded m -> code_pointer (r 1) -> forall r2 x y, regs_but [5; 10] r r2 -> r2 5 = x -> 0 < x < 4294967296 ->
  Z.log2 x = Z.of_nat k -> r2 10 = y -> 0 <= y -> y + Z.of_nat k < 4294967295 ->
  runs_to (fun c => mem c = m /\ done r s (y + Z.of_nat k + 1) c) (Cpu r2 m s 560).
Proof.
  intros Hm Hra. induction k as [|k IH]; intros r2 x y Hr2 H5 Hx Hl H10 Hy Hy'; pose proof (Hr2 1 ltac:(cell)) as H1;
    cpu_step; rewrite H5; cpu_step; rewrite H10; cpu_step; change (1 mod 32) with 1; rewrite Z.shiftr_div_pow2 by lia; change (2 ^ 1) with 2.
  - assert (x = 1) as -> by (pose proof (Z.log2_spec x ltac:(lia)) as Hs; rewrite Hl in Hs; cbn in Hs; lia). cbn.
    apply (return_done _ r); [exact Hm|reflexivity|reflexivity|exact Hra|exact H1|].
    split; [reflexivity|]. unfold done. cbn [pc regs mem csrs]. conjs; try reflexivity. kept_tac Hr2.
  - pose proof (Z.log2_spec x ltac:(lia)) as Hs. rewrite Hl, !Z.pow_succ_r, !Nat2Z.inj_succ, !Z.pow_succ_r in Hs by lia.
    replace (x / 2 =? 0) with false by (symmetry; apply Z.eqb_neq; dlia). cbn [negb].
    replace (y + Z.of_nat (S k) + 1) with (y + 1 + Z.of_nat k + 1) by lia.
    apply (IH _ (x / 2) (y + 1)); try reflexivity; try lia; try (cbn; lia); [regs_over Hr2|dlia|].
    apply Z.log2_unique; [lia|]. rewrite Z.pow_succ_r by lia. dlia.
Qed.

(** [logBaseTwo] returns one more than the logarithm its comment promises, and the
    word of -1 for 0. *)
Theorem log_base_two_off_by_one r m s : loaded m -> words r -> code_pointer (r 1) ->
  runs_to (fun c => mem c = m /\ done r s (if r 10 =? 0 then u32 (-1) else Z.log2 (r 10) + 1) c) (Cpu r m s 548).
Proof.
  intros Hm Hw Hra. pose proof (Hw 10) as H10. unfold is_u32 in H10. cpu_step. destruct (r 10 =? 0) eqn:E.
  - cpu_step. apply (return_done _ r); [exact Hm|reflexivity|reflexivity|exact Hra|reflexivity|].
    split; [reflexivity|]. unfold done. cbn [pc regs mem csrs]. conjs; try reflexivity. kept_tac (regs_but_refl [] r).
  - cpu_step. cpu_step. pose proof (Z.log2_nonneg (r 10)) as Hl.
    assert (Z.log2 (r 10) < 32) by (apply Z.log2_lt_pow2; lia).
    replace (Z.log2 (r 10) + 1) with (0 + Z.of_nat (Z.to_nat (Z.log2 (r 10))) + 1) by lia.
    apply (log_loop r m s _ Hm Hra _ (r 10) 0); try reflexivity; try lia. regs_tac.
Qed.

(** [DELAY] returns whatever the count, with memory as it was; a count of 0 takes 2^32 rounds. *)
Lemma delay_loop r m s k : loaded m -> code_pointer (r 1) -> forall r2, regs_but [10] r r2 -> is_u32 (r2 10) ->
  Z.of_nat (S k) = (if r2 10 =? 0 then 4294967296 else r2 10) ->
  runs_to (fun c => mem c = m /\ done r s 0 c) (Cpu r2 m s 584).
Proof.
  intros Hm Hra. induction k as [|k IH]; intros r2 Hr2 H10 Hk; pose proof (Hr2 1 ltac:(cell)) as H1; unfold is_u32 in H10.
  - assert (H1' : r2 10 = 1) by (destruct (r2 10 =? 0); lia). cpu_step. rewrite H1'. cpu_step. cbn.
    apply (return_done _ r); [exact Hm|reflexivity|reflexivity|exact Hra|exact H1|].
    split; [reflexivity|]. unfold done. cbn [pc regs mem csrs]. conjs; try reflexivity. kept_tac Hr2.
  - assert (Hv : u32 (r2 10 - 1) = Z.of_nat (S k)).
    { destruct (r2 10 =? 0) eqn:E.
      - assert (r2 10 = 0) as -> by lia. rewrite (u32_congr _ 4294967295) by (exists (-1); lia). rewrite u32_id; lia.
      - rewrite u32_id; lia. }
    eapply runs_step; [apply kernel_step; [exact Hm|reflexivity|reflexivity]|]. cpu_cbn.
    change (r2 10 + -1) with (r2 10 - 1). rewrite Hv. cpu_step.
    replace (Z.of_nat (S k) =? 0) with false by (symmetry; apply Z.eqb_neq; lia). cbn [negb].
    apply IH; cbn [upd Z.eqb Pos.eqb].
    + regs_over Hr2.
    + unfold is_u32. destruct (r2 10 =? 0); lia.
    + replace (Z.of_nat (S k) =? 0) with false by (symmetry; apply Z.eqb_neq; lia). reflexivity.
Qed.

Theorem delay_returns r m s : loaded m -> words r -> code_pointer (r 1) ->
  runs_to (fun c => mem c = m /\ done r s 0 c) (Cpu r m s 584).
Proof.
  intros Hm Hw Hra. pose proof (Hw 10) as H10.
  apply (delay_loop r m s (Z.to_nat ((if r 10 =? 0 then 4294967296 else r 10) - 1))); auto; [apply regs_but_refl|].
  unfold is_u32 in H10. destruct (r 10 =? 0) eqn:E; lia.
Qed.

(** ** Byte queues *)

(* include/fifo.inc:3-3 FIFO_BASE *)
Definition fifo_base (m : memory) (q : Z) : Z := ld32 m q.
(* include/fifo.inc:4-4 FIFO_HEAD *)
Definition fifo_head (m : memory) (q : Z) : Z := ld8 m (q + 4).
(* include/fifo.inc:5-5 FIFO_TAIL *)
Definition fifo_tail (m : memory) (q : Z) : Z := ld8 m (q + 5).
(* include/fifo.inc:6-6 FIFO_SIZE *)
Definition fifo_size (m : memory) (q : Z) : Z := ld8 m (q + 6).

(** A queue in the heap whose indices lie within its buffer, which the processor's signed loads of
    bytes can hold. *)
Definition fifo_ok (m : memory) (q : Z) : Prop :=
  data_end <= q /\ q + 8 <= heap_end /\ data_end <= fifo_base m q /\ fifo_base m q + fifo_size m q <= heap_end /\
  fifo_head m q < fifo_size m q /\ fifo_tail m q < fifo_size m q /\ fifo_size m q < 128.

Lemma lb_small b : 0 <= b < 128 -> u32 (sext 8 b) = b.
Proof.
  intros Hb. unfold sext. replace (Z.testbit b (8 - 1)) with false; [apply u32_id; lia|].
  symmetry. change (8 - 1) with 7. apply (testbit_high b 7 7); lia.
Qed.

(* lib/fifo.s:16-18 fifo_enqueue *)
Definition fifo_next (m : memory) (q : Z) : Z := (fifo_tail m q + 1) mod fifo_size m q.

(** The test for overflow in [fifo_enqueue] is the wrong way round: a queue with room drops the byte, and a
    full one stores it and becomes empty. *)
Theorem fifo_enqueue_inverted r m s : loaded m -> code_pointer (r 1) -> fifo_ok m (r 10) ->
  runs_to (fun c => done r s (r 10) c /\
    mem c = (if fifo_head m (r 10) =? fifo_next m (r 10)
             then st8 (st8 m (fifo_base m (r 10) + fifo_tail m (r 10)) (r 11)) (r 10 + 5) (fifo_next m (r 10)) else m))
    (Cpu r m s 452).
Proof.
  unfold fifo_ok, fifo_next, fifo_base, fifo_head, fifo_tail, fifo_size. intros Hm Hra (Hq & Hq' & Hb & Hb' & Hh & Ht & Hs).
  unfold data_end, heap_end in *. set (q := r 10) in *. pose proof (ld8_range m (q + 4)). pose proof (ld8_range m (q + 5)).
  cpu_step. cpu_step. cpu_step. cpu_step. fold q. rewrite !lb_small by lia. cpu_step. cpu_step. cpu_step.
  replace (ld8 m (q + 6) =? 0) with false by lia. cpu_step.
  destruct (ld8 m (q + 4) =? (ld8 m (q + 5) + 1) mod ld8 m (q + 6)) eqn:E; cbn [negb].
  - cpu_step. assert (Hm1 : loaded (st8 m (ld32 m q + ld8 m (q + 5)) (r 11))) by loaded_tac. cpu_step.
    assert (Hm2 : loaded (st8 (st8 m (ld32 m q + ld8 m (q + 5)) (r 11)) (q + 5) ((ld8 m (q + 5) + 1) mod ld8 m (q + 6)))) by loaded_tac.
    fold q. apply (return_done _ r); [exact Hm2|reflexivity|reflexivity|exact Hra|reflexivity|].
    split; [|reflexivity]. unfold done. cbn [pc regs mem csrs]. conjs; try reflexivity. kept_tac (regs_but_refl [] r).
  - apply (return_done _ r); [exact Hm|reflexivity|reflexivity|exact Hra|reflexivity|].
    split; [|reflexivity]. unfold done. cbn [pc regs mem csrs]. conjs; try reflexivity. kept_tac (regs_but_refl [] r).
Qed.

(** [fifo_dequeue] on a queue that is not empty returns the byte at its head, but has lost the address of the
    queue by the time it stores the new head: the word goes to the address four above the
    value of the byte, for ASCII into the kernel's own code, and the queue keeps the byte. *)
Theorem fifo_dequeue_stores_at_byte r m s : loaded m -> code_pointer (r 1) -> fifo_ok m (r 10) ->
  fifo_head m (r 10) <> fifo_tail m (r 10) ->
  let v := u32 (sext 8 (ld8 m (fifo_base m (r 10) + fifo_head m (r 10)))) in
  runs_to (fun c => done r s v c /\
    mem c = st32 m (u32 (v + 4)) ((fifo_head m (r 10) + 1) mod fifo_size m (r 10)) /\
    fifo_head (mem c) (r 10) = fifo_head m (r 10)) (Cpu r m s 496).
Proof.
  unfold fifo_ok, fifo_base, fifo_head, fifo_tail, fifo_size. intros Hm Hra (Hq & Hq' & Hb & Hb' & Hh & Ht & Hs) Hne.
  unfold data_end, heap_end in *. set (q := r 10) in *. pose proof (ld8_range m (q + 4)). pose proof (ld8_range m (q + 5)).
  remember (u32 (sext 8 (ld8 m (ld32 m q + ld8 m (q + 4))))) as v eqn:Hv.
  assert (Hvr : 0 <= v < 128 \/ 4294967168 <= v < 4294967296).
  { subst v. pose proof (ld8_range m (ld32 m q + ld8 m (q + 4))). unfold sext, u32. change (Z.shiftl 1 8) with 256.
    destruct (Z.testbit _ (8 - 1)) eqn:E; [right|left].
    - change (8 - 1) with 7 in E. rewrite Z.testbit_true in E by lia. change (2 ^ 7) with 128 in E. dlia.
    - change (8 - 1) with 7 in E. rewrite Z.testbit_false in E by lia. change (2 ^ 7) with 128 in E. dlia. }
  cpu_step. cpu_step. cpu_step. fold q. rewrite !lb_small by lia. cpu_step. replace (ld8 m (q + 4) =? ld8 m (q + 5)) with false by lia.
  cpu_step. fold q. rewrite !lb_small by lia. cpu_step. cpu_step. replace (ld8 m (q + 4) + ld32 m q) with (ld32 m q + ld8 m (q + 4)) by lia.
  rewrite <- Hv. cpu_step. cpu_step. replace (ld8 m (q + 6) =? 0) with false by lia. cpu_step.
  set (a := u32 (v + 4)). assert (Ha : 0 <= a < 132 \/ 4294967172 <= a) by (unfold a, u32; dlia).
  eapply runs_step; [apply (kernel_step_other _ m); [exact Hm|apply ld32_st32_ne; lia|reflexivity|reflexivity]|]. cpu_cbn. norm_sums.
  rewrite jalr_target by exact Hra. constructor. unfold done. cbn [pc regs mem csrs].
  conjs; try reflexivity; [kept_tac (regs_but_refl [] r)|]. apply ld8_st32_ne. lia.
Qed.
