(* ===== verification/KTrap.v ===== *)
(** * Traps, as machine code

    The entry and exit of arch/riscv/trap.s, its dispatch by cause, and the dispatch of
    system calls of sys/ecall_handler.s. *)

From S2P Require Import Prelude Mem KWorld RvaIsa KImage Cpu KCode KSched KSwitch KFair KProc.

(** ** Blocks of stores and loads *)

(** Registers and where they go. *)
Definition slots : Type := list (Z * Z).

(** The stores of [l] over base register [b], from [p] on; the loads. *)
Fixpoint stores_at (p b : Z) (l : slots) : Prop :=
  match l with
  | [] => True
  | (x, o) :: l => in_code p = true /\ instr_at p = Some (Store W x o b) /\ (x =? 0) = false /\ stores_at (p + 4) b l
  end.

Fixpoint loads_at (p b : Z) (l : slots) : Prop :=
  match l with
  | [] => True
  | (x, o) :: l => in_code p = true /\ instr_at p = Some (Load W x o b) /\ (x =? 0) = false /\ (x =? b) = false /\ loads_at (p + 4) b l
  end.

Fixpoint store_all (r : Z -> Z) (base : Z) (l : slots) (m : memory) : memory :=
  match l with [] => m | (x, o) :: l => store_all r base l (st32 m (base + o) (r x)) end.

Fixpoint load_all (m : memory) (base : Z) (l : slots) (r : Z -> Z) : Z -> Z :=
  match l with [] => r | (x, o) :: l => load_all m base l (upd r x (ld32 m (base + o))) end.

Definition in_block (lo hi : Z) (p : Z * Z) : Prop := lo <= snd p /\ snd p + 4 <= hi.

Lemma stores_run P r s b base l : forall p m, stores_at p b l -> loaded m -> (b =? 0) = false -> r b = base ->
  data_end <= base -> base + PCB_SIZE <= heap_end -> Forall (in_block 0 PCB_SIZE) l ->
  (loaded (store_all r base l m) -> runs_to P (Cpu r (store_all r base l m) s (p + 4 * Z.of_nat (length l)))) ->
  runs_to P (Cpu r m s p).
Proof.
  induction l as [|[x o] l IH]; intros p m Hs Hm Hb Hr Hd Hh Hl H.
  - cbn in H. rewrite Z.add_0_r in H. apply H, Hm.
  - destruct Hs as (Hp & Hi & Hx & Hs). destruct (Forall_inv Hl) as [Ho Ho']. unfold_layout. cbn [snd] in Ho, Ho'.
    assert (Hm1 : loaded (st32 m (base + o) (r x))) by loaded_tac.
    eapply runs_step; [apply kernel_step; eassumption|]. cbn [exec store]. unfold reg. rewrite Hb, Hx, Hr, u32_id by lia.
    apply (IH (p + 4)); auto; [exact (Forall_inv_tail Hl)|]. cbn [length store_all] in H.
    replace (p + 4 + 4 * Z.of_nat (length l)) with (p + 4 * Z.of_nat (S (length l))) by lia. exact H.
Qed.

Lemma loads_run P m s b base l : loaded m -> (b =? 0) = false -> data_end <= base -> base + PCB_SIZE <= heap_end -> forall p r, loads_at p b l ->
  r b = base -> Forall (in_block 0 PCB_SIZE) l ->
  runs_to P (Cpu (load_all m base l r) m s (p + 4 * Z.of_nat (length l))) -> runs_to P (Cpu r m s p).
Proof.
  intros Hm Hb Hd Hh. induction l as [|[x o] l IH]; intros p r Hs Hr Hl H.
  - cbn in H. rewrite Z.add_0_r in H. exact H.
  - destruct Hs as (Hp & Hi & Hx & Hxb & Hs). destruct (Forall_inv Hl) as [Ho Ho']. unfold_layout. cbn [snd] in Ho, Ho'.
    eapply runs_step; [apply kernel_step; eassumption|]. cbn [exec load]. unfold reg, set. rewrite Hb, Hx, Hr, u32_id by lia.
    apply (IH (p + 4)); auto; [unfold upd; replace (b =? x) with false by lia; exact Hr|exact (Forall_inv_tail Hl)|].
    cbn [length load_all] in H. replace (p + 4 + 4 * Z.of_nat (length l)) with (p + 4 * Z.of_nat (S (length l))) by lia. exact H.
Qed.

Lemma store_all_other r base l : forall m a, Forall (fun p => base + snd p + 4 <= a \/ a + 4 <= base + snd p) l ->
  ld32 (store_all r base l m) a = ld32 m a.
Proof.
  induction l as [|[x o] l IH]; intros m a Hl; [reflexivity|]. cbn [store_all]. rewrite IH by exact (Forall_inv_tail Hl).
  apply ld32_st32_ne. pose proof (Forall_inv Hl). cbn in *. lia.
Qed.

Lemma store_all_slot r base l x o : words r -> ForallOrdPairs (fun p q => snd p + 4 <= snd q \/ snd q + 4 <= snd p) l -> In (x, o) l ->
  forall m, ld32 (store_all r base l m) (base + o) = r x.
Proof.
  intros Hw Hl Hin. induction Hl as [|[y k] l Hf Hl IH]; [destruct Hin|]. intros m. cbn [store_all]. destruct Hin as [[= -> ->]|Hin].
  - rewrite store_all_other; [apply ld32_st32_eq, Hw|]. eapply Forall_impl; [exact Hf|]. cbn. intros; lia.
  - apply IH, Hin.
Qed.

Lemma load_all_other m base l : forall r x, Forall (fun p => fst p <> x) l -> load_all m base l r x = r x.
Proof.
  induction l as [|[y o] l IH]; intros r x Hl; [reflexivity|]. cbn [load_all]. rewrite IH by exact (Forall_inv_tail Hl).
  pose proof (Forall_inv Hl) as Hy. cbn in Hy. unfold upd. destruct (Z.eqb_spec x y); congruence.
Qed.

Lemma load_all_slot m base l x o : NoDup (map fst l) -> In (x, o) l -> forall r, load_all m base l r x = ld32 m (base + o).
Proof.
  induction l as [|[y k] l IH]; intros Hn Hin r; [destruct Hin|]. cbn [map fst] in Hn. apply NoDup_cons in Hn. destruct Hn as [Hy Hn].
  cbn [load_all]. destruct Hin as [[= -> ->]|Hin]; [|apply IH; assumption].
  rewrite load_all_other; [unfold upd; rewrite Z.eqb_refl; reflexivity|]. apply Forall_forall. intros [z q] Hq. cbn. intros ->.
  apply Hy. apply list_elem_of_fmap. exists (x, q). auto.
Qed.

Lemma store_all_same lo hi r base l : forall m, Forall (fun p => base + snd p + 4 <= lo \/ hi <= base + snd p) l -> same_on lo hi m (store_all r base l m).
Proof.
  induction l as [|[x o] l IH]; intros m Hl; [apply same_on_refl|]. cbn [store_all]. pose proof (Forall_inv Hl) as Ho. cbn in Ho.
  apply (same_on_trans _ _ _ (st32 m (base + o) (r x))); [apply same_on_st32; [apply same_on_refl|lia]|]. apply IH. exact (Forall_inv_tail Hl).
Qed.

(** ** The trap frame *)

(** Register [x] is at [slot x] of its process. *)
(* include/trap.inc:2-33 TRAP_FRAME_SIZE *)
Definition slot (x : Z) : Z := if x =? 1 then 0 else 4 * (x - 2).
Definition slot_of (x : Z) : Z * Z := (x, slot x).

(** The order of the stores: T0, which held the process, comes last. *)
Definition saved_first : slots := map slot_of (1 :: 3 :: 4 :: seqZ 6 26).
(* arch/riscv/trap.s:58-86 mhandler *)
Definition restored : slots := map slot_of (1 :: seqZ 3 28).

(** The registers of process [p] in its frame; its stack pointer is elsewhere. *)
Definition in_frame (m : memory) (p x : Z) : Z := ld32 m (p + slot x).
Definition framed : list Z := 1 :: seqZ 3 29.

Lemma slot_range x : In x framed -> 0 <= slot x <= 116.
Proof.
  unfold framed, slot. intros [<-|Hx]; [cbn; lia|]. apply list_elem_of_In, elem_of_seqZ in Hx.
  replace (x =? 1) with false by lia. lia.
Qed.

Lemma saved_at : stores_at 952 5 saved_first.
Proof. vm_compute. repeat split. Qed.

Lemma restored_at : loads_at 1108 31 restored.
Proof. vm_compute. repeat split. Qed.

(* arch/riscv/trap.s:14-47 mhandler *)
Definition all_saved : slots := saved_first ++ [slot_of 5].

Ltac check_list := apply (bool_decide_unpack _); vm_compute; exact I.

Lemma slots_apart l : NoDup l -> Forall (fun x => x = 1 \/ 3 <= x) l ->
  ForallOrdPairs (fun p q => snd p + 4 <= snd q \/ snd q + 4 <= snd p) (map slot_of l).
Proof.
  intros Hn. induction Hn as [|x l Hx Hn IH]; intros Hl; [constructor|]. cbn. constructor; [|apply IH; exact (Forall_inv_tail Hl)].
  pose proof (Forall_inv Hl) as Hx1. cbn in Hx1. apply Forall_inv_tail in Hl. apply List.Forall_map, Forall_forall. intros y Hy.
  rewrite Forall_forall in Hl. specialize (Hl y Hy). assert (x <> y) by congruence. cbn. unfold slot.
  destruct (Z.eqb_spec x 1), (Z.eqb_spec y 1); lia.
Qed.

Lemma all_saved_apart : ForallOrdPairs (fun p q => snd p + 4 <= snd q \/ snd q + 4 <= snd p) all_saved.
Proof.
  change all_saved with (map slot_of ((1 :: 3 :: 4 :: seqZ 6 26) ++ [5])). apply slots_apart.
  - check_list.
  - check_list.
Qed.

Lemma saved_in_block : Forall (in_block 0 PCB_SIZE) saved_first.
Proof. unfold in_block, PCB_SIZE. check_list. Qed.

Lemma restored_in_block : Forall (in_block 0 PCB_SIZE) restored.
Proof. unfold in_block, PCB_SIZE. check_list. Qed.

Lemma saved_not_t0 : Forall (fun p => fst p <> 2 /\ fst p <> 5) saved_first.
Proof. check_list. Qed.

Lemma all_saved_below : Forall (in_block 0 120) all_saved.
Proof. unfold in_block. check_list. Qed.

Lemma store_all_ext r r' base l : forall m, Forall (fun p => r (fst p) = r' (fst p)) l -> store_all r base l m = store_all r' base l m.
Proof.
  induction l as [|[x o] l IH]; intros m Hl; [reflexivity|]. cbn [store_all]. pose proof (Forall_inv Hl) as Hx. cbn in Hx.
  rewrite Hx. apply IH. exact (Forall_inv_tail Hl).
Qed.

Lemma store_all_app r base l k m : store_all r base (l ++ k) m = store_all r base k (store_all r base l m).
Proof. revert m. induction l as [|[x o] l IH]; intros m; [reflexivity|]. apply IH. Qed.

Lemma framed_saved x : In x framed -> In (slot_of x) all_saved.
Proof.
  unfold framed. intros Hx. destruct (Z.eq_dec x 5) as [->|Hn]; [apply in_or_app; right; left; reflexivity|].
  apply in_or_app. left. apply in_map. destruct Hx as [<-|Hx]; [left; reflexivity|right].
  apply list_elem_of_In, elem_of_seqZ in Hx. destruct (Z.eq_dec x 3) as [->|]; [left; reflexivity|right].
  destruct (Z.eq_dec x 4) as [->|]; [left; reflexivity|right]. apply list_elem_of_In, elem_of_seqZ. lia.
Qed.

Lemma frame_saved r base m x : words r -> In x framed -> in_frame (store_all r base all_saved m) base x = r x.
Proof.
  intros Hw Hx. unfold in_frame. apply (store_all_slot r base all_saved x (slot x)); [exact Hw|exact all_saved_apart|].
  apply framed_saved, Hx.
Qed.

(** What reaches [trap_handler]: the process has its registers in its frame. *)
Definition trapped (r : Z -> Z) (m : memory) (s : Z -> Z) (p : Z) (d : cpu) : Prop :=
  pc d = 1236 /\ loaded (mem d) /\ regs d 10 = p /\ regs d 1 = 1088 /\ regs d 2 = s MSCRATCH /\ regs d 17 = r 17 /\
  csrs d = upd s MSCRATCH (r 2) /\ (forall x, In x framed -> in_frame (mem d) p x = r x) /\
  current (mem d) = p /\ ld8 (mem d) kidle = 0 /\ same_on (p + 120) heap_end m (mem d) /\ same_on 0 p m (mem d).

Lemma trapped_saved r m m1 s p r' : words r -> loaded m1 -> same_on 0 heap_end m m1 -> pcb_ok p -> current m1 = p -> ld8 m1 kidle = 0 ->
  r' 10 = p -> r' 1 = 1088 -> r' 2 = s MSCRATCH -> r' 17 = r 17 ->
  trapped r m s p (Cpu r' (store_all r p all_saved m1) (upd s MSCRATCH (r 2)) 1236).
Proof.
  intros Hw Hm1 Hh Hp Hc Hk H10 H1 H2 H17. pose proof all_saved_below as Hb. unfold in_block in Hb.
  assert (Hpr : 2288 <= p <= 15384 - 172) by (unfold_layout; lia). unfold trapped. cbn [pc regs mem csrs].
  assert (Hs : forall lo hi, hi <= p \/ p + 120 <= lo -> same_on lo hi m1 (store_all r p all_saved m1)).
  { intros lo hi H. apply store_all_same. eapply Forall_impl; [exact Hb|]. cbn. intros a Ha. lia. }
  conjs; auto.
  - apply (loaded_agree m1); [exact Hm1|]. intros a Ha. unfold in_code, code_end in Ha. zbool.
    apply (same_on_ld32 0 p); [apply Hs; lia|lia..].
  - intros x Hx. apply frame_saved; assumption.
  - unfold current, current_pcb. rewrite (same_on_ld32 0 p m1); [exact Hc|apply Hs; lia|lia|lia].
  - rewrite (Hs 0 p ltac:(lia) kidle ltac:(unfold kidle; lia)). exact Hk.
  - apply (same_on_trans _ _ _ m1); [|apply Hs; lia]. intros a Ha. apply Hh. lia.
  - apply (same_on_trans _ _ _ m1); [|apply Hs; lia]. intros a Ha. apply Hh. unfold heap_end. lia.
Qed.

Lemma trap_entry r m s p : loaded m -> words r -> current m = p -> pcb_ok p -> ld8 m kidle = 0 -> stack_ok (s MSCRATCH) 4 ->
  runs_to (trapped r m s p) (Cpu r m s 920).
Proof.
  intros Hm Hw Hc Hp Hk Hsp. unfold stack_ok, heap_end, stack_top in Hsp. unfold current, current_pcb, kidle in Hc, Hk.
  cpu_step. change 832 with MSCRATCH. cpu_step. cpu_step. set (m1 := st32 m (s MSCRATCH - 4) (r 5)).
  assert (Hm1 : loaded m1) by (subst m1; loaded_tac).
  assert (Hk1 : ld8 m1 2284 = 0) by (unfold m1; loads; exact Hk).
  assert (Hc1 : ld32 m1 2276 = p) by (unfold m1; loads; exact Hc).
  cpu_step. cpu_step. rewrite Hk1. cpu_step. change (u32 (sext 8 0)) with 0. cbn [Z.eqb negb]. cpu_step. cpu_step. rewrite Hc1.
  match goal with |- runs_to _ (Cpu ?f _ _ _) => set (r1 := f) end.
  apply (stores_run _ r1 _ 5 p saved_first 952 m1 saved_at Hm1); [reflexivity|reflexivity|apply Hp|apply Hp|exact saved_in_block|].
  rewrite (store_all_ext r1 r) by (eapply Forall_impl; [exact saved_not_t0|]; intros [x o] [H2 H5]; cbn [fst] in *; unfold r1; regs_cases H2).
  set (m2 := store_all r p saved_first m1). intros Hm2. change (952 + 4 * Z.of_nat (length saved_first)) with 1068.
  assert (Hpr : 2288 <= p <= 15384 - 172) by (unfold_layout; lia).
  assert (Hl2 : ld32 m2 (s MSCRATCH - 4) = r 5).
  { unfold m2. rewrite store_all_other; [apply ld32_st32_eq, Hw|]. eapply Forall_impl; [exact saved_in_block|].
    unfold in_block, PCB_SIZE. cbn. lia. }
  assert (H12 : r1 2 = s MSCRATCH - 4) by reflexivity. assert (H15 : r1 5 = p) by reflexivity.
  cpu_step. cpu_step. rewrite ?H12, ?H15, Hl2. cpu_step. cpu_step. rewrite ?H12. cpu_step.
  change (st32 m2 (p + 12) (r 5)) with (store_all r p [slot_of 5] m2).
  unfold m2. rewrite <- store_all_app. fold all_saved.
  constructor. apply (trapped_saved r m m1 s p); auto. unfold m1, heap_end. sames.
Qed.

(** The return of [trap_handler]; [q] is the process that goes on. *)
Definition handled (q : Z) (c : cpu) : Prop :=
  pc c = 1088 /\ loaded (mem c) /\ current (mem c) = q /\ pcb_ok q /\ ld8 (mem c) kidle = 0.

(** Process [q] goes on in its program, with the registers of its frame. *)
Definition continues (q : Z) (c e : cpu) : Prop :=
  pc e = csrs c MEPC /\ (forall x, In x framed -> regs e x = in_frame (mem c) q x) /\ regs e 2 = csrs c MSCRATCH /\
  mem e = mem c /\ csrs e = upd (csrs c) MSCRATCH (regs c 2).

Lemma restored_nodup : NoDup (map fst restored).
Proof. check_list. Qed.

Lemma restored_not_t6 : Forall (fun p => fst p <> 31) restored.
Proof. check_list. Qed.

Lemma restored_not_sp : Forall (fun p => fst p <> 2) restored.
Proof. check_list. Qed.

Lemma framed_not_sp : ~ In 2 framed.
Proof. rewrite <- list_elem_of_In. check_list. Qed.

Lemma trap_exit q c : handled q c -> runs_to (continues q c) c.
Proof.
  destruct c as [r m s p]. intros (Hpc & Hm & Hc & Hq & Hk). cbn [pc regs mem csrs] in *. subst p.
  assert (Hqr : 2288 <= q <= 15384 - 172) by (unfold_layout; lia). unfold current, current_pcb, kidle in Hc, Hk.
  cpu_step. cpu_step. rewrite Hk. change (u32 (sext 8 0)) with 0. cpu_step. cbn [Z.eqb negb]. cpu_step. cpu_step. rewrite Hc.
  match goal with |- runs_to _ (Cpu ?f _ _ _) => set (r1 := f) end.
  apply (loads_run _ m s 31 q restored Hm); try reflexivity; unfold data_end, heap_end, PCB_SIZE; try lia;
    [exact restored_at|exact restored_in_block|]. change (1108 + 4 * Z.of_nat (length restored)) with 1224.
  assert (H31 : load_all m q restored r1 31 = q).
  { rewrite load_all_other; [reflexivity|]. exact restored_not_t6. }
  assert (H2 : load_all m q restored r1 2 = r 2).
  { rewrite load_all_other; [reflexivity|]. exact restored_not_sp. }
  set (r2 := load_all m q restored r1) in *. cpu_step. rewrite H31. cpu_step. rewrite H2. cpu_step.
  constructor. unfold continues. cbn [pc regs mem csrs upd Z.eqb Pos.eqb MSCRATCH MEPC]. conjs; try reflexivity.
  intros x Hx. unfold in_frame, upd. destruct (Z.eqb_spec x 2) as [->|Hx2]; [exfalso; revert Hx; apply framed_not_sp|].
  destruct (Z.eqb_spec x 31) as [->|Hx31]; [reflexivity|].
  apply (load_all_slot m q restored x (slot x) restored_nodup). change (x, slot x) with (slot_of x).
  apply (in_map slot_of). unfold framed in Hx. destruct Hx as [<-|Hx]; [left; reflexivity|right].
  apply list_elem_of_In, elem_of_seqZ in Hx. apply list_elem_of_In, elem_of_seqZ. lia.
Qed.

(** C8: A trap out of process [p] reaches [trap_handler] with all registers of [p] in its frame, its stack
    pointer in MSCRATCH and the frame's address as the argument; nothing else in the heap has changed. However the
    handler returns, with [p] or another process current, that process goes on where MEPC
    says with the registers of its own frame and the stack pointer in MSCRATCH: with those it
    was trapped with, if its frame was left alone. *)
Theorem trap_frame_round_trip r m s p : loaded m -> words r -> current m = p -> pcb_ok p -> ld8 m kidle = 0 ->
  stack_ok (s MSCRATCH) 4 ->
  runs_to (fun d => trapped r m s p d /\ (forall q c, handled q c -> runs_to (continues q c) c) /\
    (forall c, handled p c -> same_on p (p + 120) (mem d) (mem c) -> csrs c MSCRATCH = r 2 ->
      runs_to (fun e => pc e = csrs c MEPC /\ forall x, In x (2 :: framed) -> regs e x = r x) c)) (Cpu r m s 920).
Proof.
  intros Hm Hw Hc Hp Hk Hsp. eapply runs_to_weaken; [apply (trap_entry r m s p); assumption|]. intros d Hd.
  split; [exact Hd|]. split; [intros q c; apply trap_exit|]. intros c Hh Hsame Hscr.
  eapply runs_to_weaken; [apply trap_exit, Hh|]. intros e (Hpc & Hregs & H2 & _). split; [exact Hpc|].
  intros x [<-|Hx]; [rewrite H2; exact Hscr|]. rewrite Hregs by exact Hx.
  destruct Hd as (_ & _ & _ & _ & _ & _ & _ & Hfr & _). rewrite <- (Hfr x Hx). unfold in_frame.
  apply (same_on_ld32 p (p + 120)); [exact Hsame|..]; unfold framed in Hx; unfold slot;
    (destruct Hx as [<-|Hx]; [cbn; lia|apply list_elem_of_In, elem_of_seqZ in Hx; replace (x =? 1) with false by lia; lia]).
Qed.

(** ** Dispatch *)

Definition MCAUSE : Z := 0x342.
Definition exception_table : Z := 2116.
Definition interrupt_table : Z := 2180.
Definition ECALL_TABLE_START : Z := 2228.
(* sys/syscalls.inc:10-10 ECALL_MAX_INDEX *)
Definition ECALL_MAX_INDEX : Z := 12.

(** The tables of addresses, which follow the code, are in memory. *)
Record tables (m : memory) : Prop := Tables { tables_word : forall a, code_end <= a < current_pcb -> a mod 4 = 0 -> ld32 m a = word_at a }.

Lemma word_at_now a : word_at a = nth (Z.to_nat (a / 4)) image_now 0.
Proof. unfold word_at. rewrite image_ok. reflexivity. Qed.

(** Every entry of the tables is the address of an instruction. *)
Lemma entry_pointer a : code_end <= a < current_pcb -> code_pointer (word_at a).
Proof.
  intros Ha. rewrite word_at_now. assert (H : Forall (fun w => 0 <= w < 4294967296 /\ w mod 2 = 0) (drop 529 image_now)) by check_list.
  unfold code_pointer, is_u32. rewrite Forall_forall in H. apply H. unfold code_end, current_pcb in Ha.
  rewrite nth_lookup. replace (Z.to_nat (a / 4)) with (529 + (Z.to_nat (a / 4) - 529))%nat by dlia. rewrite <- lookup_drop.
  destruct (drop 529 image_now !! (Z.to_nat (a / 4) - 529)%nat) as [w|] eqn:E; [apply list_elem_of_lookup; eauto|].
  exfalso. apply lookup_ge_None in E. change (length (drop 529 image_now)) with 43%nat in E. dlia.
Qed.

Lemma entry_target a : code_end <= a < current_pcb -> Z.land (u32 (word_at a)) 4294967294 = word_at a.
Proof. intros Ha. apply jalr_target, entry_pointer, Ha. Qed.

(** The handler of a cause, and the address it returns to. *)
(* arch/riscv/trap.s:97-113 trap_handler *)
Definition handler (cause : Z) : Z :=
  if cause <? 2147483648 then word_at (exception_table + 4 * cause) else word_at (interrupt_table + 4 * (cause mod 256)).
Definition handler_return (cause : Z) : Z := if cause <? 2147483648 then 1308 else 1280.

Definition known_cause (cause : Z) : Prop := 0 <= cause < 16 \/ (2147483648 <= cause < 4294967296 /\ cause mod 256 < 12).

Lemma tables_st32 m a v : tables m -> current_pcb <= a -> tables (st32 m a v).
Proof.
  intros Hm Ha. constructor. intros b Hb Hb4. rewrite ld32_st32_ne; [apply Hm; assumption|]. unfold current_pcb in *. dlia.
Qed.

Lemma land_255 x : 0 <= x -> Z.land x 255 = x mod 256.
Proof. intros Hx. change 255 with (Z.ones 8). rewrite Z.land_ones by lia. reflexivity. Qed.

Lemma trap_dispatch P r m s : loaded m -> tables m -> stack_ok (r 2) 4 -> known_cause (s MCAUSE) ->
  (forall r', regs_but [1; 2; 5; 6] r r' -> r' 1 = handler_return (s MCAUSE) -> r' 2 = r 2 - 4 ->
    runs_to P (Cpu r' (st32 m (r 2 - 4) (r 1)) s (handler (s MCAUSE)))) -> runs_to P (Cpu r m s 1236).
Proof.
  intros Hm Ht Hsp Hcause H. unfold stack_ok, heap_end, stack_top in Hsp. unfold known_cause, handler, handler_return in *.
  cpu_step. cpu_step. set (m1 := st32 m (r 2 - 4) (r 1)) in *. assert (Hm1 : loaded m1) by (subst m1; loaded_tac).
  assert (Ht1 : tables m1) by (apply tables_st32; [exact Ht|unfold current_pcb; lia]).
  cpu_step. change 834 with MCAUSE. set (k := s MCAUSE) in *. cpu_step. change (s32 0) with 0.
  destruct (k <? 2147483648) eqn:E.
  - replace (0 <=? s32 k) with true by (rewrite s32_id by lia; lia). cpu_step. cpu_step. cpu_step. change (2 mod 32) with 2.
    rewrite Z.shiftl_mul_pow2 by lia. change (2 ^ 2) with 4. cpu_step. cpu_step.
    replace (2116 + k * 4) with (exception_table + 4 * k) by (unfold exception_table; lia).
    rewrite (tables_word m1 Ht1) by (unfold exception_table, code_end, current_pcb; dlia).
    cpu_step. rewrite entry_target by (unfold exception_table, code_end, current_pcb; lia). apply H; [regs_tac|reflexivity..].
  - assert (Hk : 0 <= k mod 256 < 12) by (pose proof (Z.mod_pos_bound k 256); lia).
    replace (0 <=? s32 k) with false by (unfold s32; symmetry; apply Z.leb_gt; dlia).
    cpu_step. rewrite land_255 by lia. cpu_step. cpu_step. cpu_step. change (2 mod 32) with 2.
    rewrite Z.shiftl_mul_pow2 by lia. change (2 ^ 2) with 4. cpu_step. cpu_step.
    replace (2180 + k mod 256 * 4) with (interrupt_table + 4 * (k mod 256)) by (unfold interrupt_table; lia).
    rewrite (tables_word m1 Ht1) by (unfold interrupt_table, code_end, current_pcb; dlia).
    cpu_step. rewrite entry_target by (unfold interrupt_table, code_end, current_pcb; lia). apply H; [regs_tac|reflexivity..].
Qed.

(** Both routines end in a return with the word at the stack pointer. *)
Lemma return_from P p r m s ra : loaded m -> in_code p = true -> instr_at p = Some (Load W 1 0 2) -> in_code (p + 4) = true ->
  instr_at (p + 4) = Some (Alui Add 2 2 4) -> in_code (p + 4 + 4) = true -> instr_at (p + 4 + 4) = Some (Jalr 0 1 0) ->
  code_pointer ra -> stack_ok (r 2 + 4) 4 -> ld32 m (r 2) = ra ->
  (forall r', regs_but [1; 2] r r' -> r' 2 = r 2 + 4 -> runs_to P (Cpu r' m s ra)) -> runs_to P (Cpu r m s p).
Proof.
  intros Hm H0 I0 H1 I1 H2 I2 Hra Hsp Hl H. unfold stack_ok, heap_end, stack_top in Hsp.
  eapply runs_step; [apply kernel_step; eassumption|]. cpu_cbn. u32_small. norm_sums. rewrite Hl.
  eapply runs_step; [apply kernel_step; eassumption|]. cpu_cbn. u32_small. norm_sums.
  eapply runs_step; [apply kernel_step; eassumption|]. cpu_cbn. norm_sums. rewrite jalr_target by exact Hra.
  apply H; [regs_tac|reflexivity].
Qed.

(** The routine of system call [n]. *)
(* sys/ecall_handler.s:25-29 ecall_handler *)
Definition syscall (n : Z) : Z := word_at (ECALL_TABLE_START + 4 * n).

Lemma ecall_dispatch P r m s : loaded m -> tables m -> is_u32 (r 17) -> stack_ok (r 2) 4 -> is_u32 (s MEPC) -> code_pointer (r 1) ->
  (forall r', regs_but [1; 2; 5; 6] r r' ->
    if r 17 <? ECALL_MAX_INDEX then
      r' 1 = 1372 -> r' 2 = r 2 - 4 -> runs_to P (Cpu r' (st32 m (r 2 - 4) (r 1)) (upd s MEPC (u32 (s MEPC + 4))) (syscall (r 17)))
    else r' 2 = r 2 -> runs_to P (Cpu r' (st32 m (r 2 - 4) (r 1)) (upd s MEPC (u32 (s MEPC + 4))) (r 1))) ->
  runs_to P (Cpu r m s 1320).
Proof.
  intros Hm Ht Hn Hsp Hpc Hra H. unfold is_u32 in Hn. pose proof Hsp as Hsp'. unfold stack_ok, heap_end, stack_top in Hsp'. unfold ECALL_MAX_INDEX in H.
  cpu_step. cpu_step. set (m1 := st32 m (r 2 - 4) (r 1)) in *. assert (Hm1 : loaded m1) by (subst m1; loaded_tac).
  assert (Ht1 : tables m1) by (apply tables_st32; [exact Ht|unfold current_pcb; lia]).
  assert (Hl1 : ld32 m1 (r 2 - 4) = r 1) by (apply ld32_st32_eq, Hra).
  cpu_step. change 833 with MEPC. cpu_step. set (pc' := u32 (s MEPC + 4)) in *. cpu_step. cpu_step. cpu_step.
  destruct (r 17 <? 12) eqn:E.
  - replace (12 <=? r 17) with false by lia. cpu_step. cpu_step. cpu_step. change (2 mod 32) with 2.
    rewrite Z.shiftl_mul_pow2 by lia. change (2 ^ 2) with 4. cpu_step. cpu_step.
    replace (2228 + r 17 * 4) with (ECALL_TABLE_START + 4 * r 17) by (unfold ECALL_TABLE_START; lia).
    rewrite (tables_word m1 Ht1) by (unfold ECALL_TABLE_START, code_end, current_pcb; dlia).
    cpu_step. rewrite entry_target by (unfold ECALL_TABLE_START, code_end, current_pcb; lia). fold (syscall (r 17)).
    eapply H; [regs_tac|reflexivity..].
  - replace (12 <=? r 17) with true by lia.
    apply (return_from _ 1372 _ _ _ (r 1)); try reflexivity; try assumption.
    + cbn [upd Z.eqb Pos.eqb]. rewrite Z.sub_add. exact Hsp.
    + intros r' Hr' H2. eapply H; [regs_over Hr'|]. rewrite H2. cbn [upd Z.eqb Pos.eqb]. lia.
Qed.

(** The numbers of the system calls and their routines. *)
Lemma syscall_table : map (fun n => Some (syscall n)) (seqZ 0 ECALL_MAX_INDEX) = map (fun e => value (snd e)) ecall_table_list.
Proof.
  unfold value. rewrite symbols_ok.
  rewrite (map_ext (fun n => Some (syscall n)) (fun n => Some (nth (Z.to_nat ((ECALL_TABLE_START + 4 * n) / 4)) image_now 0)))
    by (intros n; unfold syscall; rewrite word_at_now; reflexivity).
  vm_compute. reflexivity.
Qed.

(** What a system call does before its routine runs, or instead of it. *)
Definition called (r : Z -> Z) (m : memory) (s : Z -> Z) (d : cpu) : Prop :=
  loaded (mem d) /\ heap_same m (mem d) /\ regs d 10 = r 10 /\ csrs d = upd s MEPC (u32 (s MEPC + 4)) /\
  if r 17 <? ECALL_MAX_INDEX then pc d = syscall (r 17) /\ regs d 1 = 1372 else pc d = r 1 /\ kept r (regs d).

(** C12: A system call, cause 8 at [trap_handler], is found by its number: the routine that
    syscall_table.s lists for a7 is entered with the trap frame as its argument, and the
    program counter to return to is moved past the call. A number that is not in the table returns
    at once, past the call, with the frame and so the program's a0 as they were. *)
Theorem syscall_dispatch r m s : loaded m -> tables m -> words r -> code_pointer (r 1) -> stack_ok (r 2) 8 -> is_u32 (s MEPC) ->
  s MCAUSE = 8 ->
  map (fun n => Some (syscall n)) (seqZ 0 ECALL_MAX_INDEX) = map (fun e => value (snd e)) ecall_table_list /\
  runs_to (called r m s) (Cpu r m s 1236).
Proof.
  intros Hm Ht Hw Hra Hsp Hpc Hcause. split; [exact syscall_table|]. unfold stack_ok, heap_end, stack_top in Hsp.
  apply trap_dispatch; auto; [unfold stack_ok, heap_end, stack_top; lia|unfold known_cause; lia|].
  rewrite Hcause. change (handler_return 8) with 1308.
  assert (Hh : handler 8 = 1320) by (unfold handler; rewrite word_at_now; vm_compute; reflexivity). rewrite Hh.
  intros r1 Hr1 H1 H2. set (m1 := st32 m (r 2 - 4) (r 1)). assert (Hm1 : loaded m1) by (subst m1; loaded_tac).
  assert (Ht1 : tables m1) by (apply tables_st32; [exact Ht|unfold current_pcb; lia]).
  assert (H17 : r1 17 = r 17) by (apply Hr1; cell). assert (H10 : r1 10 = r 10) by (apply Hr1; cell).
  apply ecall_dispatch; auto; rewrite ?H17, ?H1, ?H2; [apply Hw|unfold stack_ok, heap_end, stack_top; lia|code_ptr|].
  set (m2 := st32 m1 (r 2 - 4 - 4) 1308). assert (Hm2 : loaded m2) by (subst m2; loaded_tac).
  assert (Hh2 : heap_same m m2) by (unfold m2, m1, heap_end; sames).
  intros r2 Hr2. assert (H210 : r2 10 = r 10) by (rewrite Hr2 by cell; exact H10). destruct (r 17 <? ECALL_MAX_INDEX) eqn:E.
  - intros H21 H22. constructor. unfold called. rewrite E. cbn [pc regs mem csrs]. conjs; [exact Hm2|exact Hh2|exact H210|reflexivity|reflexivity|exact H21].
  - intros H22. apply (return_from _ 1308 _ _ _ (r 1)); try reflexivity; try assumption.
    + rewrite H22. unfold stack_ok, heap_end, stack_top. lia.
    + rewrite H22. unfold m2, m1. loads. apply ld32_st32_eq, Hw.
    + intros r3 Hr3 H32. constructor. unfold called. rewrite E. cbn [pc regs mem csrs]. rewrite (Hr3 10) by cell.
      conjs; [exact Hm2|exact Hh2|exact H210|reflexivity|reflexivity|].
      assert (H3 : r3 2 = r 2) by lia.
      assert (Hr : regs_but [1; 2; 5; 6] r r3) by (intros x Hx; rewrite Hr3 by (cells Hx); rewrite Hr2 by (cells Hx); apply Hr1; cells Hx).
      unfold kept, callee_saved. repeat apply Forall_cons_2; try apply Forall_nil_2; try exact H3; apply Hr; cell.
Qed.

(** [ecall_getpid] answers with the word that begins at the number of the process: the number,
    and above it the parent's number, the exit code and the status. *)
Theorem getpid_answers_a_word r m s : loaded m -> code_pointer (r 1) -> pcb_ok (current m) -> pcb_ok (r 10) ->
  runs_to (fun d => pc d = r 1 /\ kept r (regs d) /\ csrs d = s /\
    mem d = st32 m (r 10 + 32) (pid m (current m) + 256 * ld8 m (current m + 165) + 65536 * ld8 m (current m + 166) +
                                16777216 * status m (current m))) (Cpu r m s 1480).
Proof.
  intros Hm Hra Hc Hp.
  assert (He : pid m (current m) + 256 * ld8 m (current m + 165) + 65536 * ld8 m (current m + 166) + 16777216 * status m (current m) =
    ld32 m (current m + PCB_PID)).
  { unfold pid, status, ld32, ld16, PCB_PID, PCB_STATUS. replace (current m + 164 + 1) with (current m + 165) by lia.
    replace (current m + 164 + 2) with (current m + 166) by lia. replace (current m + 166 + 1) with (current m + 167) by lia. lia. }
  rewrite He. unfold_layout. unfold current, current_pcb in *. set (c := ld32 m 2276) in *. 
  cpu_step. cpu_step. fold c. cpu_step. replace (c =? 0) with false by lia. cpu_step. cpu_step. cpu_step.
  assert (Hm1 : loaded (st32 m (r 10 + 32) (ld32 m (c + 164)))) by loaded_tac.
  eapply runs_step; [apply kernel_step; [exact Hm1|reflexivity|reflexivity]|]. cpu_cbn. norm_sums. rewrite jalr_target by exact Hra.
  constructor. cbn [pc regs mem csrs]. conjs; try reflexivity. kept_tac (regs_but_refl [] r).
Qed.
