(* ===== verification/KSys.v ===== *)
(** * Timer, fork and exit, as machine code

    What the kernel's assembly does around the calls it makes into the C code, whose
    routines are outside the image: up to a call, and from a return whatever the
    called routine did. *)

From S2P Require Import Prelude Mem KWorld RvaIsa KImage Cpu KCode KSched KSwitch KFair KProc KLib KTrap.
From Stdlib Require Import String.
Local Open Scope list_scope.
Local Open Scope Z_scope.

(** ** The timer *)

(* arch/riscv/timer.s:70-70 SYSTEM_BASE *)
Definition SYSTEM_BASE : Z := 67328.
(* arch/riscv/timer.s:63-65 TIMER_INTERVAL *)
Definition TIMER_INTERVAL : Z := 200000.
Definition io_sched_pump : Z := 131100.

(** The 64-bit words of the clock and of the next interrupt. *)
(* arch/riscv/timer.s:75-76 SYSTEM_LOW_MTIME *)
Definition mtime (m : memory) : Z := ld32 m (SYSTEM_BASE + 16) + 4294967296 * ld32 m (SYSTEM_BASE + 20).
(* arch/riscv/timer.s:77-78 SYSTEM_LOW_MTIMECMP *)
Definition mtimecmp (m : memory) : Z := ld32 m (SYSTEM_BASE + 24) + 4294967296 * ld32 m (SYSTEM_BASE + 28).

Lemma carry_word a b : is_u32 a -> 0 <= b < 4294967296 -> (u32 (a + b) <? u32 a) = (4294967296 <=? a + b).
Proof. unfold is_u32, u32. intros Ha Hb. apply Bool.eq_true_iff_eq. rewrite Z.ltb_lt, Z.leb_le. dlia. Qed.

Lemma add_carry lo hi : is_u32 lo -> is_u32 hi ->
  u32 (lo + TIMER_INTERVAL) + 4294967296 * u32 (hi + cbool (u32 (lo + TIMER_INTERVAL) <? lo)) =
  (lo + 4294967296 * hi + TIMER_INTERVAL) mod 2 ^ 64.
Proof.
  unfold is_u32. intros Hl Hh. pose proof (carry_word lo TIMER_INTERVAL Hl ltac:(unfold TIMER_INTERVAL; lia)) as Hc.
  rewrite (u32_id lo Hl) in Hc. rewrite Hc. unfold TIMER_INTERVAL, u32, cbool. change (2 ^ 64) with 18446744073709551616.
  destruct (4294967296 <=? lo + 200000) eqn:E; dlia.
Qed.

(** At the call of the pump: the next interrupt is one interval away, and the tick is counted. *)
Definition ticked (r : Z -> Z) (m : memory) (s : Z -> Z) (d : cpu) : Prop :=
  pc d = io_sched_pump /\ regs d 1 = 876 /\ regs d 2 = r 2 - 4 /\ ld32 (mem d) (r 2 - 4) = r 1 /\ loaded (mem d) /\
  heap_same m (mem d) /\ mtimecmp (mem d) = (mtime m + TIMER_INTERVAL) mod 2 ^ 64 /\
  ld32 (mem d) system_ticks = u32 (ld32 m system_ticks + 1) /\ csrs d = s /\
  stack_same (r 2) m (mem d) /\ current (mem d) = current m /\ ld8 (mem d) kidle = ld8 m kidle.

Lemma timer_tick r m s : loaded m -> is_u32 (r 1) -> stack_ok (r 2) 4 -> runs_to (ticked r m s) (Cpu r m s 792).
Proof.
  intros Hm Hw1 Hsp. unfold stack_ok, heap_end, stack_top in Hsp. unfold ticked, mtimecmp, mtime, SYSTEM_BASE, system_ticks. fold_literals.
  pose proof (ld32_range m 67344) as Hl. pose proof (ld32_range m 67348) as Hhi.
  rewrite <- (add_carry _ _ Hl Hhi). unfold TIMER_INTERVAL.
  cpu_step. cpu_step. cpu_step. cpu_step. cpu_step. cpu_step. cpu_step. cpu_step.
  set (lo := u32 (ld32 m 67344 + 200000)) in *. cpu_step. set (hi := u32 (ld32 m 67348 + _)) in *. cpu_step. cpu_step.
  assert (Hm1 : loaded (st32 m 67356 4294967295)) by loaded_tac. cpu_step.
  assert (Hm2 : loaded (st32 (st32 m 67356 4294967295) 67352 lo)) by loaded_tac. cpu_step.
  set (m3 := st32 _ 67356 hi). assert (Hm3 : loaded m3) by (subst m3; loaded_tac).
  cpu_step. cpu_step. cpu_step. set (t := u32 (ld32 m3 916 + 1)). cpu_step. cpu_step.
  assert (Hm4 : loaded (st32 m3 916 t)) by (apply loaded_st32; [exact Hm3|right; left; unfold system_ticks; lia]).
  cpu_step. cpu_step. set (m4 := st32 _ (r 2 - 4) _). assert (Hm5 : loaded m4) by (subst m4; loaded_tac). cpu_step.
  constructor. cbn [pc regs mem csrs upd Z.eqb Pos.eqb]. conjs; try reflexivity; try exact Hm5.
  - apply ld32_st32_eq, Hw1.
  - unfold m4, m3, data_end, heap_end. sames.
  - unfold m4, m3. loads. rewrite !ld32_st32_eq by apply u32_range. loads. rewrite ld32_st32_eq by apply u32_range. reflexivity.
  - unfold m4. loads. rewrite ld32_st32_eq by apply u32_range. unfold t, m3. loads. reflexivity.
  - unfold m4, m3, stack_top. sames.
  - unfold m4, m3, current, current_pcb. loads. reflexivity.
  - unfold m4, m3, kidle. loads. reflexivity.
Qed.

(** From the return of the pump: [schedule] is called, or the routine returns. *)
Lemma timer_slice r m s ra : loaded m -> stack_ok (r 2 + 4) 4 -> ld32 m (r 2) = ra -> code_pointer ra -> 0 <= r 5 ->
  runs_to (fun d => pc d = (if r 5 mod 4 =? 0 then 4 else ra) /\ regs d 10 = r 10 /\ heap_same m (mem d) /\ loaded (mem d)) (Cpu r m s 876).
Proof.
  intros Hm Hsp Hl Hra Ht. unfold stack_ok, heap_end, stack_top in Hsp.
  cpu_step. rewrite Hl. cpu_step. cpu_step. change 3 with (Z.ones 2) at 1. rewrite Z.land_ones by lia. change (2 ^ 2) with 4.
  assert (Hmod : 0 <= r 5 mod 4 < 4) by (apply Z.mod_pos_bound; lia). u32_small. cpu_step.
  destruct (r 5 mod 4 =? 0) eqn:E; cbn [negb].
  - cpu_step. cpu_step. cpu_step. constructor. cbn [pc regs mem csrs upd Z.eqb Pos.eqb].
    conjs; try reflexivity; [unfold heap_end; sames|loaded_tac].
  - cpu_step. rewrite jalr_target by exact Hra. constructor. cbn [pc regs mem csrs upd Z.eqb Pos.eqb].
    conjs; try reflexivity; [apply same_on_refl|exact Hm].
Qed.

(** A timer interrupt sets the next one an interval after the present time, in the 64-bit clock, and
    counts the tick before it calls the pump. Whether the scheduler is called after the pump
    depends on T0, where the count was, and which the pump, a C routine, need not keep: on every fourth
    tick only if it did. *)
Theorem timer_interrupt_ticks r m s : loaded m -> words r -> stack_ok (r 2) 4 -> code_pointer (r 1) ->
  runs_to (fun d => ticked r m s d /\
    forall c, pc c = 876 -> loaded (mem c) -> regs c 2 = regs d 2 -> stack_same (r 2 - 4) (mem d) (mem c) -> 0 <= regs c 5 ->
      runs_to (fun e => pc e = if regs c 5 mod 4 =? 0 then 4 else r 1) c) (Cpu r m s 792).
Proof.
  intros Hm Hw Hsp Hra. eapply runs_to_weaken; [apply timer_tick; auto|]. intros d Hd. split; [exact Hd|].
  intros [r2 m2 s2 p2] Hpc Hm2 H2 Hst H5. cbn [pc regs mem csrs] in *. subst p2. destruct Hd as (_ & _ & Hd2 & Hdl & _).
  rewrite Hd2 in H2. unfold stack_ok, stack_top, heap_end in *.
  eapply runs_to_weaken; [apply (timer_slice r2 m2 s2 (r 1)); auto; rewrite H2; [unfold stack_ok, stack_top, heap_end; lia|]|].
  - rewrite (same_on_ld32 _ _ (mem d) m2 _ Hst); [exact Hdl|lia|unfold stack_top; lia].
  - cbn. intros e (He & _). exact He.
Qed.

(** ** Fork *)

(** From the return of [kmalloc] with a region, [ecall_fork] copies the parent's block to
    the child's with [memcpy], but puts the number of bytes in A3: the number copied is what the
    calls before have left in A2. *)
Theorem fork_copies_by_a2 r m s : loaded m -> words r -> r 10 <> 0 -> region_ok (r 10) -> pcb_ok (r 8) ->
  stack_ok (r 2 + 16) 16 ->
  runs_to (fun d => pc d = 596 /\ regs d 10 = r 8 /\ regs d 11 = ld32 m (r 2) /\ regs d 12 = r 12 /\ regs d 13 = PCB_PID /\
    loaded (mem d)) (Cpu r m s 1700).
Proof.
  intros Hm Hw H0 Hg Hp Hsp. unfold region_ok in *. unfold_layout.
  cpu_step. replace (r 10 =? 0) with false by lia. cpu_step. cpu_step. replace (r 10 =? 0) with false by lia. cpu_step. cpu_step.
  cpu_step. set (m1 := st32 m (r 10 + 8) _). assert (Hm1 : loaded m1) by (subst m1; loaded_tac).
  assert (Hl1 : ld32 m1 (r 2) = ld32 m (r 2)) by (apply ld32_st32_ne; lia).
  cpu_step. cpu_step. cpu_step. set (m2 := st32 m1 (r 10) _). assert (Hm2 : loaded m2) by (subst m2; loaded_tac).
  assert (Hl2 : ld32 m2 (r 2) = ld32 m (r 2)) by (unfold m2; loads; exact Hl1).
  cpu_step. cpu_step. cpu_step. set (m3 := st32 m2 (r 10 + 4) _). assert (Hm3 : loaded m3) by (subst m3; loaded_tac).
  assert (Hl3 : ld32 m3 (r 2) = ld32 m (r 2)) by (unfold m3; loads; exact Hl2).
  cpu_step. set (m4 := st32 m3 (r 2 + 4) _). assert (Hm4 : loaded m4) by (subst m4; loaded_tac).
  assert (Hl4 : ld32 m4 (r 2) = ld32 m (r 2)) by (unfold m4; loads; exact Hl3).
  cpu_step. cpu_step. rewrite Hl4. cpu_step. cpu_step. constructor. cbn [pc regs mem csrs upd Z.eqb Pos.eqb].
  conjs; try reflexivity. exact Hm4.
Qed.

(** ** Exit *)

(** Having released its text region, [ecall_exit] takes the first word of the process's block for the address
    of the block: the region it releases next is the one at 148 past the return address of the
    program. *)
Theorem exit_releases_wrong_region r m s : loaded m -> pcb_ok (current m) ->
  runs_to (fun d => pc d = 1416 /\ regs d 10 = ld32 m (u32 (in_frame m (current m) 1 + 148)) /\ mem d = m) (Cpu r m s 1912).
Proof.
  intros Hm Hc. unfold in_frame, slot. cbn [Z.eqb Pos.eqb]. unfold_layout. unfold current, current_pcb in *. rewrite Z.add_0_r.
  set (c := ld32 m 2276) in *. cpu_step. cpu_step. fold c. cpu_step. cpu_step. cpu_step. constructor. cbn. auto.
Qed.

(** ** The constants of these files *)

Lemma constants_ok :
  map value ["PCB_NEXT"; "PCB_PID"; "PCB_STATUS"; "PCB_SIZE"; "PCB_MEPC"; "PCB_MSTATUS"; "PCB_MSCRATCH"; "PCB_PTEXT_MEMORY_REGION";
             "PCB_PDATA_MEMORY_REGION"; "PCB_PDATA_START"; "MMU_BASE"; "SYSTEM_BASE"; "TIMER_INTERVAL"; "exception_table";
             "interrupt_table"; "ECALL_TABLE_START"; "ECALL_MAX_INDEX"; "io_sched_pump"; "schedule"; "schedule_next"; "context_switch";
             "mhandler"; "trap_handler"; "ecall_handler"; "timer_interrupt"; "get_pcb_from_id"; "unblock_process"; "memcpy"; "memset";
             "memcmp"; "logBaseTwo"; "DELAY"; "fifo_enqueue"; "fifo_dequeue"; "ecall_getpid"; "mmu_set_proc"; "ecall_fork"]%string =
  map Some [PCB_NEXT; PCB_PID; PCB_STATUS; PCB_SIZE; PCB_MEPC; PCB_MSTATUS; PCB_MSCRATCH; 144; 148; 156; MMU_BASE; SYSTEM_BASE;
            TIMER_INTERVAL; exception_table; interrupt_table; ECALL_TABLE_START; ECALL_MAX_INDEX; io_sched_pump; 4; 56; 160; 920; 1236; 1320;
            792; 1512; 148; 596; 644; 676; 548; 584; 452; 496; 1480; 384; 1640].
Proof. unfold value. rewrite symbols_ok. vm_compute. reflexivity. Qed.
