(* ===== verification/KPreempt.v ===== *)
(** * Preemption, from trap to return

    The routines of the other files put together: a timer interrupt out of one process
    ends in another. *)

From S2P Require Import Prelude Mem KWorld RvaIsa KImage Cpu KCode KSched KSwitch KFair KProc KLib KTrap KSys.

Definition TIMER_CAUSE : Z := 2147483655.

(** ** The calls between *)

Lemma timer_calls_schedule P r m s ra : loaded m -> stack_ok (r 2 + 4) 4 -> ld32 m (r 2) = ra -> words r -> r 5 mod 4 = 0 ->
  (forall r', words r' -> regs_but [1; 2; 7] r r' -> r' 1 = 904 -> r' 2 = r 2 -> runs_to P (Cpu r' (st32 m (r 2) ra) s 4)) ->
  runs_to P (Cpu r m s 876).
Proof.
  intros Hm Hsp Hl Hw Hmod H. pose proof (Hw 5) as Ht. unfold stack_ok, heap_end, stack_top, is_u32 in *.
  cpu_step. rewrite Hl. cpu_step. cpu_step. change 3 with (Z.ones 2) at 1. rewrite Z.land_ones by lia. change (2 ^ 2) with 4.
  rewrite Hmod. fold_literals. cpu_step. cbn [Z.eqb negb]. cpu_step. replace (r 2 + 4 - 4) with (r 2) by lia.
  cpu_step. cpu_step. apply H; [|regs_tac|reflexivity..].
  intros x. unfold upd. repeat case_match; try apply Hw; unfold is_u32; lia.
Qed.

(** A return into a routine that returns itself: [schedule] to the timer's, the timer's to
    [trap_handler]. *)
Lemma timer_returns P r m s ra : loaded m -> stack_ok (r 2 + 4) 4 -> ld32 m (r 2) = ra -> code_pointer ra ->
  (forall r', regs_but [1; 2] r r' -> r' 2 = r 2 + 4 -> runs_to P (Cpu r' m s ra)) -> runs_to P (Cpu r m s 904).
Proof. intros Hm Hsp Hl Hra H. apply (return_from _ 904 _ _ _ ra); try reflexivity; assumption. Qed.

Lemma interrupt_returns P r m s ra : loaded m -> stack_ok (r 2 + 4) 4 -> ld32 m (r 2) = ra -> code_pointer ra ->
  (forall r', regs_but [1; 2] r r' -> r' 2 = r 2 + 4 -> runs_to P (Cpu r' m s ra)) -> runs_to P (Cpu r m s 1280).
Proof. intros Hm Hsp Hl Hra H. cpu_step. apply (return_from _ 1308 _ _ _ ra); try reflexivity; assumption. Qed.

(** ** What the pump must leave alone *)

(** At the call of the pump, on behalf of process [p] trapped with registers [r]. *)
Definition at_pump (r : Z -> Z) (p sp : Z) (d : cpu) : Prop :=
  pc d = io_sched_pump /\ regs d 1 = 876 /\ regs d 2 = sp - 8 /\ ld32 (mem d) (sp - 8) = 1280 /\ ld32 (mem d) (sp - 4) = 1088 /\
  current (mem d) = p /\ ld8 (mem d) kidle = 0 /\ (forall x, In x framed -> in_frame (mem d) p x = r x).

(** Its return: the stack above, the current process and the control registers are as they were,
    the ring is intact, and the tick count is still in T0. *)
Definition pumped (p : Z) (l : list Z) (d c : cpu) : Prop :=
  pc c = 876 /\ loaded (mem c) /\ words (regs c) /\ regs c 2 = regs d 2 /\ stack_same (regs d 2) (mem d) (mem c) /\
  current (mem c) = p /\ ld8 (mem c) kidle = 0 /\ ring (mem c) p l /\ Forall (process_ok (mem c)) (p :: l) /\
  is_u32 (csrs c MSTATUS) /\ regs c 5 mod 4 = 0.

(** Process [q] goes on: with the registers of its frame, where and with the stack pointer
    that are saved in its block. *)
Definition preempted_by (q : Z) (m : memory) (e : cpu) : Prop :=
  pc e = ld32 m (q + PCB_MEPC) /\ regs e 2 = ld32 m (q + PCB_MSCRATCH) /\ (forall x, In x framed -> regs e x = in_frame m q x) /\
  current (mem e) = q /\ ld8 (mem e) kidle = 0.

Lemma frame_switch s m p q x : pcb_ok q -> current m = q \/ apart (current m) q -> In x framed ->
  in_frame (switch_heap s m p) q x = in_frame m q x.
Proof.
  intros Hq Hc Hx. pose proof (slot_range x Hx) as Hs.
  unfold in_frame, switch_heap, save, apart, PCB_SIZE, PCB_MEPC, PCB_MSTATUS, PCB_MSCRATCH in *.
  repeat case_match; try reflexivity; loads; reflexivity.
Qed.

(** The way back from [schedule], which made [q] the current process. *)
Lemma after_schedule r m s p q sp e : stack_ok sp 28 -> r 2 = sp - 8 -> r 1 = 904 -> ld32 m (sp - 8) = 1280 -> ld32 m (sp - 4) = 1088 ->
  pcb_ok q -> q <> 0 -> current m = p -> p = q \/ apart p q -> scheduled r m s q e -> runs_to (preempted_by q m) e.
Proof.
  intros Hsp H2 H1 Hl1 Hl2 Hq Hq0 Hc Hpq Hd. destruct e as [r1 m1 s1 p1].
  destruct Hd as (Hpc & Hk & Hm & Hh & Hst & Hcur & Hki & Hs & _). cbn [pc regs mem csrs] in *. subst p1 s1.
  rewrite H1. unfold stays_idle in *. replace (q =? 0) with false in * by lia. cbn [andb negb] in *. rewrite H2 in Hst.
  assert (H12 : r1 2 = sp - 8) by (rewrite (kept_in _ _ 2 Hk) by (cbn; tauto); exact H2).
  unfold stack_ok, heap_end, stack_top in Hsp.
  assert (Hl : forall a, sp - 8 <= a -> a + 4 <= sp -> ld32 m1 a = ld32 m a) by (intros a Ha Ha'; apply (same_on_ld32 _ _ m m1 a Hst Ha); unfold stack_top; lia).
  apply (timer_returns _ _ _ _ 1280); [exact Hm|rewrite H12; unfold stack_ok, heap_end, stack_top; lia|rewrite H12, Hl by lia; exact Hl1|code_ptr|].
  intros r2 Hr2 H22. rewrite H12 in H22.
  apply (interrupt_returns _ _ _ _ 1088); [exact Hm|rewrite H22; unfold stack_ok, heap_end, stack_top; lia| |code_ptr|].
  { rewrite H22. replace (sp - 8 + 4) with (sp - 4) by lia. rewrite Hl by lia. exact Hl2. }
  intros r3 Hr3 H32. eapply runs_to_weaken; [apply (trap_exit q); unfold handled; cbn [pc mem]; conjs; try assumption; try reflexivity; lia|].
  intros e (He & Hregs & He2 & Hem & _). cbn [pc regs mem csrs] in *.
  unfold preempted_by. rewrite He, He2, Hem. conjs; try reflexivity; try assumption; try lia.
  intros x Hx. rewrite Hregs by exact Hx. rewrite <- (frame_switch s m q q x) by (rewrite ?Hc; assumption).
  unfold in_frame. apply (field_heap (switch_heap s m q) m1); [exact Hh|exact Hq|].
  pose proof (slot_range x Hx). lia.
Qed.

Lemma preempted_heap q m m1 e : heap_same m m1 -> pcb_ok q -> preempted_by q m1 e -> preempted_by q m e.
Proof.
  intros Hh Hq (H1 & H2 & H3 & H4). unfold preempted_by, PCB_MEPC, PCB_MSCRATCH in *.
  rewrite !(field_heap m m1) in * by (auto; lia). conjs; try assumption; try apply H4. intros x Hx. rewrite H3 by exact Hx.
  unfold in_frame. apply (field_heap m m1); [exact Hh|exact Hq|].
  pose proof (slot_range x Hx). lia.
Qed.

Lemma pick_member m p l q : pick m p l = q -> q <> 0 -> q ∈ p :: l.
Proof.
  unfold pick. intros <- Hq. destruct (List.find _ _) as [x|] eqn:E.
  - apply List.find_some in E. destruct E as [E _]. apply list_elem_of_In in E. set_solver.
  - destruct (_ =? _); [set_solver|congruence].
Qed.

Lemma after_pump p l q c d sp : separate (p :: l) -> stack_ok sp 28 -> regs d 2 = sp - 8 -> ld32 (mem d) (sp - 8) = 1280 ->
  ld32 (mem d) (sp - 4) = 1088 -> pumped p l d c -> pick (mem c) p l = q -> q <> 0 -> runs_to (preempted_by q (mem c)) c.
Proof.
  intros Hsep Hsp Hd2 Hl1 Hl2 (Hpc & Hm & Hw & H2 & Hst & Hc & Hk & Hring & Hok & Hms & Ht) Hq Hq0.
  destruct c as [r m s p0]. cbn [pc regs mem csrs] in *. subst p0. rewrite Hd2 in *. pose proof Hsp as Hsp'.
  unfold stack_ok, heap_end, stack_top in Hsp'.
  assert (Hl : ld32 m (r 2) = 1280) by (rewrite H2, (same_on_ld32 _ _ (mem d) m _ Hst); [exact Hl1|lia|unfold stack_top; lia]).
  assert (Hl' : ld32 m (r 2 + 4) = 1088).
  { rewrite H2. replace (sp - 8 + 4) with (sp - 4) by lia. rewrite (same_on_ld32 _ _ (mem d) m _ Hst); [exact Hl2|lia|unfold stack_top; lia]. }
  assert (Hh : heap_same m (st32 m (r 2) 1280)) by (unfold heap_end; sames).
  assert (Hin : q ∈ p :: l) by (apply (pick_member m); [exact Hq|exact Hq0]).
  assert (Hqok : pcb_ok q) by (apply (proj1 (Forall_forall _ _) (proj1 (proj2 Hring))), Hin).
  apply (timer_calls_schedule _ _ _ _ 1280); [exact Hm|rewrite H2; unfold stack_ok, heap_end, stack_top; lia|exact Hl|exact Hw|exact Ht|].
  intros r1 Hw1 Hr1 H11 H12. set (m1 := st32 m (r 2) 1280) in *.
  assert (Hm1 : loaded m1) by (subst m1; loaded_tac).
  assert (Hc1 : current m1 = p) by (rewrite <- Hc; unfold m1, current, current_pcb; loads; reflexivity).
  eapply runs_to_trans.
  - apply (schedule_runs r1 m1 s p l); auto; [rewrite H11; code_ptr|rewrite H12, H2; unfold stack_ok, heap_end, stack_top; lia| |].
    + apply (ring_heap m); assumption.
    + eapply Forall_impl; [exact Hok|]. intros x. apply process_heap, Hh.
  - rewrite (pick_heap m m1 p l Hh (proj1 (proj2 Hring))), Hq. intros e He.
    eapply runs_to_weaken; [apply (after_schedule r1 m1 s p q sp e); auto; try congruence|].
    + rewrite <- H2. apply ld32_st32_eq. unfold is_u32. lia.
    + replace (sp - 4) with (r 2 + 4) by lia. unfold m1. loads. exact Hl'.
    + apply (separate_apart (p :: l)); [exact Hsep|set_solver|exact Hin].
    + intros e' He'. apply (preempted_heap q m m1); assumption.
Qed.

(** C3: An interrupt of the timer out of process [p] reaches the pump with the registers of [p] in its
    frame. Let the pump return with the processes and the stack intact and the tick count in T0 a multiple of four: then
    the process [q] that the scheduler picks, if there is one, goes on in its program, with the registers of
    its frame and the program counter and stack pointer saved in its block. *)
Theorem timer_preempts r m s p : loaded m -> tables m -> words r -> current m = p -> pcb_ok p -> ld8 m kidle = 0 ->
  stack_ok (s MSCRATCH) 28 -> s MCAUSE = TIMER_CAUSE ->
  runs_to (fun d => at_pump r p (s MSCRATCH) d /\
    forall l q c, separate (p :: l) -> pumped p l d c -> pick (mem c) p l = q -> q <> 0 -> runs_to (preempted_by q (mem c)) c)
    (Cpu r m s 920).
Proof.
  intros Hm Ht Hw Hc Hp Hk Hsp Hcause. pose proof Hsp as Hsp'. unfold stack_ok, heap_end, stack_top in Hsp'.
  eapply runs_to_trans; [apply (trap_entry r m s p); auto; unfold stack_ok, heap_end, stack_top; lia|].
  intros [r1 m1 s1 p1] (Hpc & Hm1 & H10 & H1 & H2 & _ & Hs1 & Hfr & Hc1 & Hk1 & _ & Hlow). cbn [pc regs mem csrs] in *. subst p1 s1.
  assert (Ht1 : tables m1).
  { constructor. intros a Ha Ha4. rewrite <- (tables_word m Ht a Ha Ha4). unfold code_end, current_pcb in Ha. unfold_layout.
    apply (same_on_ld32 0 p); [exact Hlow|lia|dlia]. }
  apply trap_dispatch; auto; [rewrite H2; unfold stack_ok, heap_end, stack_top; lia|change (known_cause (s MCAUSE)); rewrite Hcause; right; unfold TIMER_CAUSE; split; [lia|reflexivity]|].
  cbn [upd Z.eqb Pos.eqb MCAUSE MSCRATCH]. rewrite Hcause. change (handler_return TIMER_CAUSE) with 1280.
  assert (Hh : handler TIMER_CAUSE = 792) by (unfold handler; rewrite word_at_now; vm_compute; reflexivity). rewrite Hh.
  intros r2 Hr2 H21 H22. rewrite H2 in *. set (m2 := st32 m1 _ _).
  assert (Hm2 : loaded m2) by (subst m2; loaded_tac).
  eapply runs_to_weaken; [apply (timer_tick r2 m2 _); [exact Hm2|rewrite H21; unfold is_u32; lia|rewrite H22; unfold stack_ok, heap_end, stack_top; lia]|].
  intros d (Hdpc & Hd1 & Hd2 & Hdl & _ & Hdh & _ & _ & _ & Hdst & Hdc & Hdk). rewrite ?H21, ?H22 in *.
  replace (s MSCRATCH - 4 - 4) with (s MSCRATCH - 8) in * by lia.
  assert (Hl2 : ld32 (mem d) (s MSCRATCH - 4) = 1088).
  { rewrite (same_on_ld32 _ _ m2 (mem d) _ Hdst) by (unfold stack_top; lia). unfold m2. rewrite ld32_st32_eq by (rewrite H1; unfold is_u32; lia). exact H1. }
  assert (Hh2 : heap_same m1 (mem d)) by (apply (same_on_trans _ _ m1 m2 (mem d)); [unfold m2, heap_end; sames|exact Hdh]).
  split.
  - unfold at_pump. conjs; try assumption.
    + rewrite Hdc. unfold m2, current, current_pcb. loads. exact Hc1.
    + rewrite Hdk. unfold m2, kidle. loads. exact Hk1.
    + intros x Hx. rewrite <- (Hfr x Hx). unfold in_frame. apply (field_heap m1); [exact Hh2|exact Hp|].
      pose proof (slot_range x Hx). lia.
  - intros l q c Hsep Hpump Hq Hq0. apply (after_pump p l q c d (s MSCRATCH)); assumption.
Qed.
