(* ===== verification/KCalls.v ===== *)
(** * Calls of the C code, from machine code

    The allocators are C code and their machine code is not in the image. A call of one
    ends in whatever state their promises allow: [answers] says what these are, [runs_calls] is
    execution up to a state with some property, whatever the answers are. What is held of
    the kernel's heap and of user memory goes along, so that memory is only given back that is held. *)

From S2P Require Import Prelude Mem KWorld RvaIsa KImage Cpu KCode KSched KSwitch KFair KProc.
From Stdlib Require Import String.
Local Open Scope list_scope.
Local Open Scope Z_scope.

(** ** The routines outside *)

Definition at_slab_get : Z := 131072.
Definition at_slab_free : Z := 131076.
Definition at_ualloc : Z := 131080.
Definition at_ufree : Z := 131084.
Definition at_kmalloc : Z := 131088.
Definition at_kfree : Z := 131092.
Definition at_elf_load_submit : Z := 131096.
Definition pcb_slab_head : Z := 2280.

Lemma outside_ok :
  map value ["slab_get"; "slab_free"; "ualloc"; "ufree"; "kmalloc"; "kfree"; "elf_load_submit"; "pcb_slab_head"]%string =
  map Some [at_slab_get; at_slab_free; at_ualloc; at_ufree; at_kmalloc; at_kfree; at_elf_load_submit; pcb_slab_head].
Proof. unfold value. rewrite symbols_ok. vm_compute. reflexivity. Qed.

(** ** What is held *)

(** A block of memory: its address and its length. *)
Definition block : Type := (Z * Z)%type.
Definition in_heap (b : block) : Prop := data_end <= fst b /\ fst b + snd b <= heap_end /\ 0 < snd b.
Definition beside (a b : block) : Prop := fst a + snd a <= fst b \/ fst b + snd b <= fst a.

Record holdings : Type := Holdings { blocks : list block; user : list block }.

(** A call: the routine, its first two arguments and its answer. *)
Record event : Type := Event { callee : Z; arg0 : Z; arg1 : Z; answer : Z }.

Fixpoint drop_first (f : block -> bool) (bs : list block) : list block :=
  match bs with [] => [] | b :: bs => if f b then bs else b :: drop_first f bs end.

(** The blocks that stay, and the one that is new. *)
Definition remaining (e : event) (bs : list block) : list block :=
  if callee e =? at_kfree then drop_first (fun b => fst b =? arg0 e) bs
  else if callee e =? at_slab_free then drop_first (fun b => fst b =? arg1 e) bs else bs.
Definition given (e : event) : list block :=
  if answer e =? 0 then []
  else if callee e =? at_slab_get then [(answer e, PCB_SIZE)] else if callee e =? at_kmalloc then [(answer e, arg0 e)] else [].

Definition user_after (e : event) (us : list block) : list block :=
  if callee e =? at_ufree then drop_first (fun b => (fst b =? arg0 e) && (snd b =? arg1 e)) us
  else if (callee e =? at_ualloc) && negb (answer e =? 0) then (answer e, arg0 e) :: us else us.

Definition after (e : event) (h : holdings) : holdings :=
  Holdings (given e ++ remaining e (blocks h)) (user_after e (user h)).

(** What is asked of a caller: it names the slab of process blocks and gives back what it holds. *)
Definition proper (c : cpu) (h : holdings) : Prop :=
  (pc c = at_slab_get /\ regs c 10 = pcb_slab_head) \/ pc c = at_ualloc \/ pc c = at_kmalloc \/
  (pc c = at_slab_free /\ regs c 10 = pcb_slab_head /\ (regs c 11, PCB_SIZE) ∈ blocks h) \/
  (pc c = at_ufree /\ (regs c 10, regs c 11) ∈ user h) \/ (pc c = at_kfree /\ exists n, (regs c 10, n) ∈ blocks h).

(** ** What a call may do *)

Definition same_block (m m' : memory) (b : block) : Prop := same_on (fst b) (fst b + snd b) m m'.

(** It returns, with the saved registers, the stack above, the image, the variables of the other routines and the blocks held as
    they were; a block it gives lies in the heap, beside those. *)
Record answers (h : holdings) (c : cpu) (h' : holdings) (c' : cpu) : Prop := Answers {
  ans_pc : pc c' = regs c 1;
  ans_kept : kept (regs c) (regs c');
  ans_word : is_u32 (regs c' 10);
  ans_csrs : csrs c' = csrs c;
  ans_loaded : loaded (mem c');
  ans_stack : stack_same (regs c 2) (mem c) (mem c');
  ans_tables : same_on code_end pcb_slab_head (mem c) (mem c');
  ans_kidle : ld8 (mem c') kidle = ld8 (mem c) kidle;
  ans_pid : ld32 (mem c') pcb_next_pid = ld32 (mem c) pcb_next_pid;
  ans_blocks : Forall (same_block (mem c) (mem c')) (remaining (Event (pc c) (regs c 10) (regs c 11) (regs c' 10)) (blocks h));
  ans_given : Forall (fun b => in_heap b /\ Forall (beside b) (remaining (Event (pc c) (regs c 10) (regs c 11) (regs c' 10)) (blocks h)))
                (given (Event (pc c) (regs c 10) (regs c 11) (regs c' 10)));
  ans_after : h' = after (Event (pc c) (regs c 10) (regs c 11) (regs c' 10)) h }.

(** From [c], holding [h], the machine comes to a state in [P], whatever the calls on the way answer. *)
Inductive runs_calls (P : holdings -> cpu -> Prop) (h : holdings) (c : cpu) : Prop :=
| calls_done : P h c -> runs_calls P h c
| calls_step c' : step c = Some c' -> runs_calls P h c' -> runs_calls P h c
| calls_out : proper c h -> (forall h' c', answers h c h' c' -> runs_calls P h' c') -> runs_calls P h c.

Ltac call_step := machine_step calls_step.

Lemma calls_of_runs (P : cpu -> Prop) (Q : holdings -> cpu -> Prop) h c : runs_to P c ->
  (forall c', P c' -> runs_calls Q h c') -> runs_calls Q h c.
Proof. induction 1 as [c Hc|c c' Hs _ IH]; intros H; [auto|]. econstructor 2; eauto. Qed.

Lemma runs_calls_trans (P Q : holdings -> cpu -> Prop) h c : runs_calls P h c -> (forall h' c', P h' c' -> runs_calls Q h' c') ->
  runs_calls Q h c.
Proof.
  induction 1 as [h c Hc|h c c' Hs _ IH|h c Hp _ IH]; intros H; [auto|econstructor 2; eauto|]. apply calls_out; [exact Hp|]. eauto.
Qed.

Lemma runs_calls_weaken (P Q : holdings -> cpu -> Prop) h c : runs_calls P h c -> (forall h' c', P h' c' -> Q h' c') -> runs_calls Q h c.
Proof. intros H HPQ. eapply runs_calls_trans; [exact H|]. intros h' c' Hc'. constructor. auto. Qed.

(** Every routine may refuse: the promises are never empty. *)
Lemma refusal h c : (pc c = at_slab_get \/ pc c = at_ualloc \/ pc c = at_kmalloc) -> loaded (mem c) ->
  answers h c h (Cpu (upd (regs c) 10 0) (mem c) (csrs c) (regs c 1)).
Proof.
  intros Hpc Hm. constructor; cbn [pc regs mem csrs upd Z.eqb Pos.eqb].
  - reflexivity.
  - kept_tac (regs_but_refl [] (regs c)).
  - unfold is_u32. lia.
  - reflexivity.
  - exact Hm.
  - apply same_on_refl.
  - apply same_on_refl.
  - reflexivity.
  - reflexivity.
  - apply Forall_forall. intros b _. apply same_on_refl.
  - constructor.
  - unfold after, given, remaining, user_after. cbn [answer callee Z.eqb].
    destruct h as [bs us]. destruct Hpc as [-> |[-> | ->]]; reflexivity.
Qed.
