(* ===== verification/KSegment.v ===== *)
(** * Regions and process blocks, as machine code

    memory_segment.s counts the processes that share a region of user memory, and pid_alloc, alloc_pcb and
    free_pcb of process.s make and unmake process blocks. *)

From S2P Require Import Prelude Mem KWorld RvaIsa KImage Cpu KCode KSched KSwitch KFair KProc KLib KCalls.

(* include/memory_region.inc:3-6 MEMORY_REGION_STRUCT_SIZE *)
Definition MEMORY_REGION_STRUCT_SIZE : Z := 12.
(* include/memory_region.inc:5-5 MEMORY_REGION_REF_COUNT *)
Definition region_count (m : memory) (g : Z) : Z := ld32 m (g + 8).

(** ** Sharing a region *)

(* kernel/memory/memory_segment.s:12-18 aquire_memory_segment *)
Definition acquired (m : memory) (g : Z) : memory := st32 m (g + 8) (u32 (region_count m g + 1)).

Lemma aquire_calls (P : holdings -> cpu -> Prop) h r m s : loaded m -> code_pointer (r 1) -> region_ok (r 10) ->
  (forall r', regs_but [5] r r' -> loaded (acquired m (r 10)) -> runs_calls P h (Cpu r' (acquired m (r 10)) s (r 1))) ->
  runs_calls P h (Cpu r m s 1396).
Proof.
  unfold acquired, region_count. intros Hm Hra Hg H. unfold region_ok in Hg. unfold_layout.
  call_step. replace (r 10 =? 0) with false by lia.
  call_step. call_step. call_step. set (m1 := st32 m _ _) in *. assert (Hm1 : loaded m1) by (subst m1; loaded_tac). call_step.
  rewrite jalr_target by exact Hra. apply H; [regs_tac|exact Hm1].
Qed.

(** Giving up one of several references. *)
(* kernel/memory/memory_segment.s:20-26 release_memory_segment *)
Definition released (m : memory) (g : Z) : memory := st32 m (g + 8) (u32 (region_count m g - 1)).

Lemma release_shared (P : holdings -> cpu -> Prop) h r m s : loaded m -> code_pointer (r 1) -> region_ok (r 10) -> region_count m (r 10) <> 1 ->
  (forall r', regs_but [5] r r' -> loaded (released m (r 10)) -> runs_calls P h (Cpu r' (released m (r 10)) s (r 1))) ->
  runs_calls P h (Cpu r m s 1416).
Proof.
  unfold released, region_count. intros Hm Hra Hg Hc H. unfold region_ok in Hg. unfold_layout.
  pose proof (ld32_range m (r 10 + 8)) as Hw. unfold is_u32 in Hw.
  call_step. replace (r 10 =? 0) with false by lia. call_step. call_step. call_step.
  replace (u32 _ =? 0) with false by (unfold u32; dlia).
  call_step. set (m1 := st32 m _ _) in *. assert (Hm1 : loaded m1) by (subst m1; loaded_tac). call_step.
  rewrite jalr_target by exact Hra. apply H; [regs_tac|exact Hm1].
Qed.

(** ** What a call leaves alone *)

(** The saved registers, the control registers, the image, the stack above, the variables of the kernel and the blocks [bs]. *)
Record keeps (r : Z -> Z) (m : memory) (s : Z -> Z) (bs : list block) (c : cpu) : Prop := Keeps {
  keeps_regs : kept r (regs c);
  keeps_csrs : csrs c = s;
  keeps_loaded : loaded (mem c);
  keeps_stack : stack_same (r 2) m (mem c);
  keeps_tables : same_on code_end pcb_slab_head m (mem c);
  keeps_kidle : ld8 (mem c) kidle = ld8 m kidle;
  keeps_blocks : Forall (same_block m (mem c)) bs }.

Lemma answers_keeps h c h' c' : answers h c h' c' ->
  keeps (regs c) (mem c) (csrs c) (remaining (Event (pc c) (regs c 10) (regs c 11) (regs c' 10)) (blocks h)) c'.
Proof. intros []. constructor; assumption. Qed.

Ltac open_call H := destruct H as [Hpc Hk Hw10 Hs Hl Hst Htb Hki Hpid Hbl Hgv Haft]; unfold after, remaining, given, user_after in *;
  cbn [callee answer arg0 arg1 blocks user] in *.

(** What each of the routines gives or takes, beside what it keeps. *)
Definition given_block (n : Z) (h : holdings) (q : Z) (h' : holdings) : Prop :=
  (q = 0 /\ h' = h) \/
  (q <> 0 /\ in_heap (q, n) /\ Forall (beside (q, n)) (blocks h) /\ h' = Holdings ((q, n) :: blocks h) (user h)).

Definition back (h : holdings) (c : cpu) (bs : list block) (c' : cpu) : Prop :=
  pc c' = regs c 1 /\ is_u32 (regs c' 10) /\ keeps (regs c) (mem c) (csrs c) bs c' /\ ld32 (mem c') pcb_next_pid = ld32 (mem c) pcb_next_pid.

Lemma slab_get_answers h c h' c' : answers h c h' c' -> pc c = at_slab_get ->
  back h c (blocks h) c' /\ given_block PCB_SIZE h (regs c' 10) h'.
Proof.
  intros H E. pose proof (answers_keeps _ _ _ _ H) as Hkeep. open_call H. rewrite E in *. unfold remaining in Hkeep. cbn in *.
  split; [unfold back; auto|]. unfold given_block. destruct (regs c' 10 =? 0) eqn:E0.
  - left. split; [lia|]. rewrite Haft. destruct h; reflexivity.
  - right. apply Forall_inv in Hgv. split; [lia|]. rewrite Haft. tauto.
Qed.

Lemma kmalloc_answers h c h' c' : answers h c h' c' -> pc c = at_kmalloc ->
  back h c (blocks h) c' /\ given_block (regs c 10) h (regs c' 10) h'.
Proof.
  intros H E. pose proof (answers_keeps _ _ _ _ H) as Hkeep. open_call H. rewrite E in *. unfold remaining in Hkeep. cbn in *.
  split; [unfold back; auto|]. unfold given_block. destruct (regs c' 10 =? 0) eqn:E0.
  - left. split; [lia|]. rewrite Haft. destruct h; reflexivity.
  - right. apply Forall_inv in Hgv. split; [lia|]. rewrite Haft. tauto.
Qed.

Lemma ualloc_answers h c h' c' : answers h c h' c' -> pc c = at_ualloc ->
  back h c (blocks h) c' /\ h' = if regs c' 10 =? 0 then h else Holdings (blocks h) ((regs c' 10, regs c 10) :: user h).
Proof.
  intros H E. pose proof (answers_keeps _ _ _ _ H) as Hkeep. open_call H. rewrite E in *. unfold remaining in Hkeep. cbn in *.
  split; [unfold back; auto|]. rewrite Haft. destruct (regs c' 10 =? 0); [destruct h|]; reflexivity.
Qed.

Lemma slab_free_answers h c h' c' bs : answers h c h' c' -> pc c = at_slab_free -> drop_first (fun b => fst b =? regs c 11) (blocks h) = bs ->
  back h c bs c' /\ h' = Holdings bs (user h).
Proof.
  intros H E Hd. pose proof (answers_keeps _ _ _ _ H) as Hkeep. open_call H. rewrite E in *. unfold remaining in Hkeep. cbn in *.
  rewrite Hd in *. split; [unfold back; auto|]. rewrite Haft. destruct (regs c' 10 =? 0); reflexivity.
Qed.

Lemma ufree_answers h c h' c' us : answers h c h' c' -> pc c = at_ufree ->
  drop_first (fun b => (fst b =? regs c 10) && (snd b =? regs c 11)) (user h) = us ->
  back h c (blocks h) c' /\ h' = Holdings (blocks h) us.
Proof.
  intros H E Hd. pose proof (answers_keeps _ _ _ _ H) as Hkeep. open_call H. rewrite E in *. unfold remaining in Hkeep. cbn in *.
  rewrite Hd in *. split; [unfold back; auto|]. rewrite Haft. destruct (regs c' 10 =? 0); reflexivity.
Qed.

Lemma kfree_answers h c h' c' bs : answers h c h' c' -> pc c = at_kfree -> drop_first (fun b => fst b =? regs c 10) (blocks h) = bs ->
  back h c bs c' /\ h' = Holdings bs (user h).
Proof.
  intros H E Hd. pose proof (answers_keeps _ _ _ _ H) as Hkeep. open_call H. rewrite E in *. unfold remaining in Hkeep. cbn in *.
  rewrite Hd in *. split; [unfold back; auto|]. rewrite Haft. destruct (regs c' 10 =? 0); reflexivity.
Qed.

Lemma same_on_sub lo hi lo' hi' m m' : same_on lo hi m m' -> lo <= lo' -> hi' <= hi -> same_on lo' hi' m m'.
Proof. intros H H1 H2 a Ha. apply H. lia. Qed.

(** A block that lies beside the one written to. *)
Lemma same_block_st32 m m' b a v : same_block m m' b -> beside (a, 4) b -> same_block m (st32 m' a v) b.
Proof. unfold same_block, beside. cbn. intros H Hb. apply same_on_st32; [exact H|lia]. Qed.

Lemma same_block_st8 m m' b a v : same_block m m' b -> beside (a, 1) b -> same_block m (st8 m' a v) b.
Proof. unfold same_block, beside. cbn. intros H Hb. apply same_on_st8; [exact H|lia]. Qed.

(** Writes outside the heap. *)
Definition outside (a : Z) : Prop := a + 4 <= data_end \/ heap_end <= a.

Lemma blocks_st32 m m' bs a v : Forall in_heap bs -> outside a -> Forall (same_block m m') bs -> Forall (same_block m (st32 m' a v)) bs.
Proof.
  intros Hh Ha H. rewrite !Forall_forall in *. intros b Hb. apply same_block_st32; [auto|]. specialize (Hh b Hb).
  unfold in_heap, outside, beside in *. cbn. lia.
Qed.

Lemma blocks_new b m m' bs a v : Forall (beside b) bs -> fst b <= a -> a + 1 <= fst b + snd b -> Forall (same_block m m') bs ->
  Forall (same_block m (st8 m' a v)) bs.
Proof.
  intros Hb Ha1 Ha2 H. rewrite !Forall_forall in *. intros x Hx. apply same_block_st8; [auto|]. specialize (Hb x Hx).
  unfold beside in *. cbn. lia.
Qed.

Lemma blocks_new32 b m m' bs a v : Forall (beside b) bs -> fst b <= a -> a + 4 <= fst b + snd b -> Forall (same_block m m') bs ->
  Forall (same_block m (st32 m' a v)) bs.
Proof.
  intros Hb Ha1 Ha2 H. rewrite !Forall_forall in *. intros x Hx. apply same_block_st32; [auto|]. specialize (Hb x Hx).
  unfold beside in *. cbn. lia.
Qed.

Lemma blocks_refl m bs : Forall (same_block m m) bs.
Proof. apply Forall_forall. intros b _. apply same_on_refl. Qed.

Lemma blocks_trans m1 m2 m3 bs : Forall (same_block m1 m2) bs -> Forall (same_block m2 m3) bs -> Forall (same_block m1 m3) bs.
Proof. rewrite !Forall_forall. intros H1 H2 b Hb. eapply same_on_trans; [apply H1|apply H2]; exact Hb. Qed.

(** ** A new process block *)

(* kernel/process.s:45-57 alloc_pcb *)
Record made (r : Z -> Z) (m : memory) (s : Z -> Z) (h : holdings) (q : Z) (h' : holdings) (c : cpu) : Prop := Made {
  made_pc : pc c = r 1;
  made_keeps : keeps r m s (blocks h) c;
  made_answer : regs c 10 = q;
  made_in_heap : in_heap (q, PCB_SIZE);
  made_beside : Forall (beside (q, PCB_SIZE)) (blocks h);
  made_count : ld32 (mem c) pcb_next_pid = u32 (ld32 m pcb_next_pid + 1);
  made_pid : pid (mem c) q = (ld32 m pcb_next_pid + 1) mod 256;
  made_holds : h' = Holdings ((q, PCB_SIZE) :: blocks h) (user h) }.

(** Before the number is written into a block that was not given, address 0. *)
Definition number_at_null (c : cpu) : Prop := pc c = 1608 /\ regs c 10 = 0.

Lemma blocks_framed m m1 bs a v : outside a -> Forall in_heap bs -> Forall (same_block (st32 m a v) m1) bs -> Forall (same_block m m1) bs.
Proof. intros Ha Hh H. eapply blocks_trans; [apply blocks_st32; [exact Hh|exact Ha|apply blocks_refl]|exact H]. Qed.

Lemma after_slab_get (P : holdings -> cpu -> Prop) r m s h h1 c1 : loaded m -> code_pointer (r 1) -> stack_ok (r 2) 4 ->
  Forall in_heap (blocks h) ->
  answers h (Cpu (upd (upd (upd (upd r 2 (r 2 - 4)) 10 1592) 10 pcb_slab_head) 1 1604) (st32 m (r 2 - 4) (r 1)) s at_slab_get) h1 c1 ->
  (forall c, number_at_null c -> P h1 c) -> (forall q h' c, made r m s h q h' c -> runs_calls P h' c) -> runs_calls P h1 c1.
Proof.
  intros Hm Hra Hsp Hhb Hans Hnull Hmade. apply slab_get_answers in Hans; [|reflexivity].
  destruct c1 as [r1 m1 s1 p1]. destruct Hans as [(Hpc & Hw10 & [Hk Hs Hl Hst Htb Hki Hbl] & Hpid) Hgiven].
  cbn [pc regs mem csrs upd Z.eqb Pos.eqb] in *. subst p1 s1. unfold stack_ok, heap_end, stack_top in Hsp. apply blocks_framed in Hbl; [|unfold outside, heap_end; lia|exact Hhb].
  assert (H2 : r1 2 = r 2 - 4) by (rewrite (kept_in _ _ 2 Hk) by (cbn; tauto); reflexivity).
  unfold pcb_next_pid in Hpid. rewrite ld32_st32_ne in Hpid by lia.
  call_step. call_step. call_step. call_step. rewrite Hpid. call_step. set (k := u32 (ld32 m 1556 + 1)).
  assert (Hm2 : loaded (st32 m1 1556 k)) by (apply loaded_st32; [exact Hl|right; right; unfold pcb_next_pid; lia]).
  call_step. set (m2 := st32 m1 1556 k) in *. call_step. change (Z.land (u32 1608) 4294967294) with 1608.
  destruct Hgiven as [[H0 _]|(H0 & Hh & Hb & Hh1)].
  { apply calls_done, Hnull. split; [reflexivity|]. exact H0. }
  set (q := r1 10) in *. unfold in_heap, data_end, heap_end in Hh. unfold_layout. cbn [fst snd] in Hh.
  call_step. fold q. set (m3 := st8 m2 (q + 164) k). assert (Hm3 : loaded m3) by (subst m3; loaded_tac).
  assert (Hra1 : ld32 m1 (r 2 - 4) = r 1).
  { rewrite (same_on_ld32 _ _ _ m1 _ Hst) by lia. apply ld32_st32_eq, Hra. }
  assert (Hra3 : ld32 m3 (r 2 - 4) = r 1) by (unfold m3, m2; loads; exact Hra1).
  call_step. rewrite H2, Hra3. call_step. rewrite H2. call_step. rewrite jalr_target by exact Hra.
  apply (Hmade q). rewrite Hh1.
  constructor; cbn [pc regs mem csrs upd Z.eqb Pos.eqb]; try reflexivity; try assumption.
  - constructor; cbn [pc regs mem csrs upd Z.eqb Pos.eqb].
    + kept_over Hk.
    + reflexivity.
    + exact Hm3.
    + unfold m3, m2, stack_top. sames. eapply same_on_trans; [|eapply same_on_sub; [exact Hst|lia|lia]]. sames.
    + unfold m3, m2, pcb_slab_head, code_end. sames. eapply same_on_trans; [|exact Htb]. unfold code_end, pcb_slab_head. sames.
    + unfold m3, m2, kidle in *. loads. rewrite Hki. loads. reflexivity.
    + apply (blocks_new (q, 172)); [exact Hb|cbn; lia|cbn; lia|]. apply blocks_st32; [exact Hhb|unfold outside, data_end; lia|exact Hbl].
  - unfold m3, m2, pcb_next_pid. loads. apply ld32_st32_eq. unfold k. apply u32_range.
  - unfold m3, pid. unfold_layout. rewrite ld8_st8_eq. unfold k, u32, pcb_next_pid. dlia.
Qed.

(** [alloc_pcb]: a block that no one holds, with the next number, or the number is about to be written to address 164. *)
Lemma alloc_pcb_calls (P : holdings -> cpu -> Prop) r m s h : loaded m -> code_pointer (r 1) -> stack_ok (r 2) 4 -> Forall in_heap (blocks h) ->
  (forall h' c, number_at_null c -> P h' c) -> (forall q h' c, made r m s h q h' c -> runs_calls P h' c) ->
  runs_calls P h (Cpu r m s 1584).
Proof.
  intros Hm Hra Hsp Hhb Hnull Hmade. pose proof Hsp as Hsp'. unfold stack_ok, heap_end, stack_top in Hsp.
  call_step. call_step. set (m1 := st32 m _ _). assert (Hm1 : loaded m1) by (subst m1; loaded_tac).
  call_step. call_step. call_step. apply calls_out; [left; split; reflexivity|]. intros h1 c1 Hans.
  apply (after_slab_get P r m s h h1 c1); auto.
Qed.

(** ** Giving back *)

Lemma keeps_write r m s bs x v c : ~ In x callee_saved -> keeps (upd r x v) m s bs c -> keeps r m s bs c.
Proof.
  intros Hx [Hk ? ? Hst ? ? ?]. constructor; try assumption; [apply (kept_write r _ x v); assumption|].
  unfold upd in Hst. destruct (Z.eqb_spec 2 x) as [<-|]; [|exact Hst]. exfalso. apply Hx. cbn. tauto.
Qed.

Lemma keeps_trans r m s bs c c' : keeps r m s bs c -> keeps (regs c) (mem c) (csrs c) bs c' -> keeps r m s bs c'.
Proof.
  intros [Hk Hs Hl Hst Htb Hki Hbl] [Hk' Hs' Hl' Hst' Htb' Hki' Hbl']. rewrite (kept_in _ _ 2 Hk) in Hst' by (cbn; tauto).
  constructor; try assumption; [eapply kept_trans|..|eapply blocks_trans]; eauto; try congruence; eapply same_on_trans; eassumption.
Qed.

Lemma drop_first_forall f (P : block -> Prop) bs : Forall P bs -> Forall P (drop_first f bs).
Proof. induction 1 as [|b bs Hb Hbs IH]; cbn; [constructor|]. destruct (f b); [exact Hbs|]. constructor; assumption. Qed.

(* kernel/process.s:59-62 free_pcb *)
Lemma free_pcb_calls (P : holdings -> cpu -> Prop) r m s h bs : loaded m -> is_u32 (r 10) -> (r 10, PCB_SIZE) ∈ blocks h ->
  drop_first (fun b => fst b =? r 10) (blocks h) = bs ->
  (forall c, pc c = r 1 -> keeps r m s bs c -> runs_calls P (Holdings bs (user h)) c) -> runs_calls P h (Cpu r m s 1624).
Proof.
  intros Hm Hu Hin Hd H. call_step. call_step. call_step. call_step. apply calls_out.
  { right. right. right. left. cbn. auto. }
  intros h1 c1 Hans. eapply slab_free_answers in Hans; [|reflexivity|exact Hd]. destruct Hans as [(Hpc & _ & Hk & _) ->].
  apply H; [exact Hpc|]. cbn [regs mem csrs] in Hk. do 3 (apply keeps_write in Hk; [|cbn; lia]). exact Hk.
Qed.

(** Giving up the last reference: the user memory of the region is freed, then the region. *)
Lemma release_last (P : holdings -> cpu -> Prop) r m s h bs us : loaded m -> code_pointer (r 1) -> region_ok (r 10) -> stack_ok (r 2) 8 ->
  region_count m (r 10) = 1 -> Forall in_heap (blocks h) ->
  (region_base m (r 10), region_size m (r 10)) ∈ user h -> (r 10, MEMORY_REGION_STRUCT_SIZE) ∈ blocks h ->
  drop_first (fun b => (fst b =? region_base m (r 10)) && (snd b =? region_size m (r 10))) (user h) = us ->
  drop_first (fun b => fst b =? r 10) (blocks h) = bs ->
  (forall c, pc c = r 1 -> keeps r m s bs c -> runs_calls P (Holdings bs us) c) -> runs_calls P h (Cpu r m s 1416).
Proof.
  unfold region_count, region_base, region_size, region_ok, stack_ok. intros Hm Hra Hg Hsp Hc Hhb Hu Hin Hus Hbs H.
  unfold_layout. call_step. replace (r 10 =? 0) with false by lia. call_step. rewrite Hc. call_step. call_step. 
  call_step. call_step. set (m1 := st32 m _ _). assert (Hm1 : loaded m1) by (subst m1; loaded_tac).
  call_step. set (m2 := st32 m1 _ _). assert (Hm2 : loaded m2) by (subst m2; loaded_tac).
  assert (Hf : forall a, a + 4 <= 15384 -> ld32 m2 a = ld32 m a) by (intros a Ha; unfold m2, m1; loads; reflexivity).
  call_step. rewrite Hf by lia. call_step. rewrite Hf by lia. call_step. apply calls_out.
  { right. right. right. right. left. cbn [pc regs upd Z.eqb Pos.eqb]. auto. }
  intros h1 c1 Hans. eapply ufree_answers in Hans; [|reflexivity|exact Hus].
  destruct c1 as [r1 m3 s1 p1]. destruct Hans as [(Hpc & _ & [Hk Hs Hl Hst Htb Hki Hbl] & _) ->].
  cbn [pc regs mem csrs upd Z.eqb Pos.eqb] in *. subst p1 s1.
  assert (H2 : r1 2 = r 2 - 8) by (rewrite (kept_in _ _ 2 Hk) by (cbn; tauto); reflexivity).
  set (a := r 10) in *.
  assert (Hl1 : ld32 m3 (r 2 - 8) = a).
  { rewrite (same_on_ld32 _ _ _ m3 _ Hst) by (unfold stack_top; lia). unfold m2. loads. apply ld32_st32_eq. unfold is_u32. lia. }
  assert (Hl2 : ld32 m3 (r 2 - 8 + 4) = r 1).
  { rewrite (same_on_ld32 _ _ _ m3 _ Hst) by (unfold stack_top; lia). apply ld32_st32_eq, Hra. }
  call_step. rewrite H2, Hl1. call_step. rewrite H2, Hl2. call_step. rewrite H2. call_step.
  assert (Hmid : keeps r m s (blocks h) (Cpu (upd (upd (upd r1 10 a) 1 (r 1)) 2 (r 2)) m3 s at_kfree)).
  { constructor; cbn [pc regs mem csrs]; [kept_over Hk|reflexivity|exact Hl|..].
    - eapply same_on_trans; [|eapply same_on_sub; [exact Hst|lia|lia]]. unfold m2, m1, stack_top. sames.
    - eapply same_on_trans; [|exact Htb]. unfold m2, m1, code_end, pcb_slab_head. sames.
    - rewrite Hki. unfold m2, m1, kidle. loads. reflexivity.
    - eapply blocks_framed; [| |eapply blocks_framed; [| |exact Hbl]]; auto; unfold outside, heap_end; lia. }
  apply calls_out; [right; right; right; right; right; cbn; eauto|]. intros h2 c2 Hans. eapply kfree_answers in Hans; [|reflexivity|exact Hbs].
  destruct Hans as [(Hpc & _ & Hk2 & _) ->]. cbn [blocks user] in *. apply H; [exact Hpc|]. eapply keeps_trans; [|exact Hk2].
  destruct Hmid. constructor; try assumption. subst bs. apply drop_first_forall. assumption.
Qed.

(** [release_memory_segment]: the last reference given up frees the user memory of the region and the region, and
    nothing else that is held; any other is counted off. *)
Theorem release_counts r m s h : loaded m -> code_pointer (r 1) -> region_ok (r 10) -> stack_ok (r 2) 8 -> Forall in_heap (blocks h) ->
  (region_base m (r 10), region_size m (r 10)) ∈ user h -> (r 10, MEMORY_REGION_STRUCT_SIZE) ∈ blocks h ->
  let bs := drop_first (fun b => fst b =? r 10) (blocks h) in
  let us := drop_first (fun b => (fst b =? region_base m (r 10)) && (snd b =? region_size m (r 10))) (user h) in
  runs_calls (fun h' c => pc c = r 1 /\ kept r (regs c) /\
    if region_count m (r 10) =? 1 then h' = Holdings bs us /\ Forall (same_block m (mem c)) bs
    else h' = h /\ mem c = st32 m (r 10 + 8) (u32 (region_count m (r 10) - 1))) h (Cpu r m s 1416).
Proof.
  intros Hm Hra Hg Hsp Hhb Hu Hin bs us. destruct (Z.eqb_spec (region_count m (r 10)) 1) as [E|E].
  - apply (release_last _ r m s h bs us); auto. intros c Hpc Hk. apply calls_done. destruct Hk. auto.
  - apply release_shared; auto. intros r' Hr _. apply calls_done. cbn. conjs; try reflexivity. kept_tac Hr.
Qed.
