(* ===== verification/KFork.v ===== *)
(** * Fork, as machine code

    [ecall_fork] of process.s on every path: the calls it makes may refuse, and then it gives back what it was
    given; otherwise, once the block is copied, the child stands behind its parent in the ring. *)

From S2P Require Import Prelude Mem KWorld RvaIsa KImage Cpu KCode KSched KSwitch KFair KProc KLib KTrap KCalls KSegment.

(** ** Bytes of words *)

Lemma ld8_of_ld32 m a i : 0 <= i < 4 -> ld8 m (a + i) = (ld32 m a / 256 ^ i) mod 256.
Proof.
  intros Hi. pose proof (ld8_range m a). pose proof (ld8_range m (a + 1)). pose proof (ld8_range m (a + 2)). pose proof (ld8_range m (a + 3)).
  unfold ld32, ld16. replace (a + 2 + 1) with (a + 3) by lia.
  assert (E : i = 0 \/ i = 1 \/ i = 2 \/ i = 3) by lia.
  destruct E as [E|[E|[E|E]]]; subst i; rewrite ?Z.add_0_r; [change (256 ^ 0) with 1|change (256 ^ 1) with 256|change (256 ^ 2) with 65536|change (256 ^ 3) with 16777216]; dlia.
Qed.

(** Writing back what was there. *)
Lemma ld8_st32_back m m' a x : (x < a \/ a + 4 <= x -> ld8 m' x = ld8 m x) -> ld8 (st32 m' a (ld32 m a)) x = ld8 m x.
Proof.
  intros H. destruct (Z_lt_ge_dec x a) as [Hx|Hx]; [rewrite ld8_st32_ne by lia; auto|].
  destruct (Z_lt_ge_dec x (a + 4)) as [Hy|Hy]; [|rewrite ld8_st32_ne by lia; apply H; lia].
  replace x with (a + (x - a)) by lia. rewrite !ld8_of_ld32 by lia. rewrite ld32_st32_eq by apply ld32_range. reflexivity.
Qed.

(** ** The state during the call *)

Definition BLOCK_COPY : Z := 164.

Section fork.
Context (r : Z -> Z) (m : memory) (s : Z -> Z) (h : holdings).

Local Abbreviation parent := (r 10).
Local Abbreviation text := (ptext m parent).
Local Abbreviation data := (pdata m parent).

(** The parent's block and its regions are held, and what is held lies apart. *)
Record forkable : Prop := Forkable {
  fk_loaded : loaded m;
  fk_return : code_pointer (r 1);
  fk_s0 : is_u32 (r 8);
  fk_stack : stack_ok (r 2) 28;
  fk_heap : Forall in_heap (blocks h);
  fk_apart : forall a b, a ∈ blocks h -> b ∈ blocks h -> a = b \/ beside a b;
  fk_parent : (parent, PCB_SIZE) ∈ blocks h;
  fk_text : (text, MEMORY_REGION_STRUCT_SIZE) ∈ blocks h;
  fk_data : (data, MEMORY_REGION_STRUCT_SIZE) ∈ blocks h;
  fk_count : region_count m text <> 0 }.

(** The registers of the routine's body. *)
Definition body_regs : Z -> Z := upd (upd r 2 (r 2 - 16)) 8 parent.

Record during (c : cpu) : Prop := During {
  du_regs : kept body_regs (regs c);
  du_csrs : csrs c = s;
  du_loaded : loaded (mem c);
  du_s0 : ld32 (mem c) (r 2 - 8) = r 8;
  du_ra : ld32 (mem c) (r 2 - 4) = r 1;
  du_stack : stack_same (r 2) m (mem c);
  du_tables : same_on code_end pcb_slab_head m (mem c);
  du_kidle : ld8 (mem c) kidle = ld8 m kidle;
  du_blocks : Forall (same_block (acquired m text) (mem c)) (blocks h) }.

Lemma during_keeps c c' : during c -> stack_ok (r 2) 28 -> keeps (regs c) (mem c) (csrs c) (blocks h) c' -> during c'.
Proof.
  intros [Hk Hs Hl H8 H1 Hst Htb Hki Hbl] Hsp [Hk' Hs' Hl' Hst' Htb' Hki' Hbl']. unfold stack_ok, heap_end, stack_top in Hsp.
  rewrite (kept_in _ _ 2 Hk) in Hst' by (cbn; tauto). change (body_regs 2) with (r 2 - 16) in Hst'.
  constructor; try congruence.
  - eapply kept_trans; eassumption.
  - rewrite (same_on_ld32 _ _ _ _ _ Hst'); [exact H8|lia|unfold stack_top; lia].
  - rewrite (same_on_ld32 _ _ _ _ _ Hst'); [exact H1|lia|unfold stack_top; lia].
  - eapply same_on_trans; [exact Hst|]. eapply same_on_sub; [exact Hst'|lia|lia].
  - eapply same_on_trans; eassumption.
  - eapply blocks_trans; eassumption.
Qed.

Lemma slot_keeps c c' a : forkable -> during c -> keeps (regs c) (mem c) (csrs c) (blocks h) c' -> r 2 - 16 <= a -> a + 4 <= r 2 ->
  ld32 (mem c') a = ld32 (mem c) a.
Proof.
  intros Hf Hd Hk Ha Ha'. pose proof (fk_stack Hf) as Hsp. unfold stack_ok, heap_end, stack_top in Hsp.
  pose proof (keeps_stack _ _ _ _ _ Hk) as Hst. rewrite (kept_in _ _ 2 (du_regs c Hd)) in Hst by (cbn; tauto).
  change (body_regs 2) with (r 2 - 16) in Hst. apply (same_on_ld32 _ _ _ _ _ Hst); unfold stack_top; lia.
Qed.

Lemma during_regs r1 r2 m1 s1 p1 p2 : during (Cpu r1 m1 s1 p1) -> kept r1 r2 -> during (Cpu r2 m1 s1 p2).
Proof. intros [] Hr. constructor; cbn [regs mem csrs] in *; try assumption. eapply kept_trans; eassumption. Qed.

Lemma during_slot r1 m1 s1 p1 p2 a v : forkable -> during (Cpu r1 m1 s1 p1) -> r 2 - 20 <= a -> a + 4 <= r 2 - 8 ->
  during (Cpu r1 (st32 m1 a v) s1 p2).
Proof.
  intros Hf [Hk Hs Hl H8 H1 Hst Htb Hki Hbl] Ha1 Ha2. pose proof (fk_stack Hf) as Hsp. unfold stack_ok, heap_end, stack_top in Hsp.
  cbn [regs mem csrs] in *. constructor; cbn [regs mem csrs]; try assumption.
  - loaded_tac.
  - loads. exact H8.
  - loads. exact H1.
  - sames.
  - unfold pcb_slab_head, code_end in *. sames.
  - unfold kidle in *. loads. exact Hki.
  - apply blocks_st32; [exact (fk_heap Hf)|unfold outside, heap_end; lia|exact Hbl].
Qed.

Lemma during_block c b o : during c -> b ∈ blocks h -> fst b <= o -> o + 4 <= fst b + snd b -> ld32 (mem c) o = ld32 (acquired m text) o.
Proof.
  intros Hd Hb H1 H2. pose proof (du_blocks c Hd) as Hbl. rewrite Forall_forall in Hbl.
  exact (same_on_ld32 _ _ _ _ _ (Hbl b Hb) H1 H2).
Qed.

Lemma during_parent c o : forkable -> during c -> 0 <= o <= 168 -> ld32 (mem c) (parent + o) = ld32 m (parent + o).
Proof.
  intros Hf Hd Ho. rewrite (during_block c (parent, PCB_SIZE)); [|exact Hd|exact (fk_parent Hf)|cbn; lia|cbn; unfold PCB_SIZE; lia].
  unfold acquired. destruct (fk_apart Hf _ _ (fk_text Hf) (fk_parent Hf)) as [E|E]; [discriminate E|].
  unfold beside in E. cbn [fst snd] in E. unfold PCB_SIZE, MEMORY_REGION_STRUCT_SIZE in E. apply ld32_st32_ne. lia.
Qed.

Lemma during_size c : forkable -> during c -> ld32 (mem c) (data + 4) = region_size m data.
Proof.
  intros Hf Hd. rewrite (during_block c (data, MEMORY_REGION_STRUCT_SIZE)); [|exact Hd|exact (fk_data Hf)|cbn; lia|cbn; unfold MEMORY_REGION_STRUCT_SIZE; lia].
  unfold acquired. destruct (fk_apart Hf _ _ (fk_text Hf) (fk_data Hf)) as [E|E].
  - injection E as ->. apply ld32_st32_ne. lia.
  - unfold beside, MEMORY_REGION_STRUCT_SIZE in E. cbn [fst snd] in E. apply ld32_st32_ne. lia.
Qed.

Lemma during_count c : forkable -> during c -> region_count (mem c) text = u32 (region_count m text + 1).
Proof.
  intros Hf Hd. unfold region_count at 1.
  rewrite (during_block c (text, MEMORY_REGION_STRUCT_SIZE)); [|exact Hd|exact (fk_text Hf)|cbn; lia|cbn; unfold MEMORY_REGION_STRUCT_SIZE; lia].
  apply ld32_st32_eq, u32_range.
Qed.

Lemma held_region g : forkable -> (g, MEMORY_REGION_STRUCT_SIZE) ∈ blocks h -> region_ok g.
Proof.
  intros Hf Hg. pose proof (fk_heap Hf) as H. rewrite Forall_forall in H. specialize (H _ Hg). unfold in_heap, region_ok in *.
  unfold MEMORY_REGION_STRUCT_SIZE in H. cbn [fst snd] in H. lia.
Qed.

Lemma parent_ok : forkable -> pcb_ok parent.
Proof.
  intros Hf. pose proof (fk_heap Hf) as H. rewrite Forall_forall in H. specialize (H _ (fk_parent Hf)). unfold in_heap, pcb_ok in *.
  cbn [fst snd] in H. lia.
Qed.

(** The reference that was taken is given up again. *)
Lemma count_restored c b : forkable -> during c -> b ∈ blocks h -> same_block m (released (mem c) text) b.
Proof.
  intros Hf Hd Hb x Hx. unfold released. rewrite (during_count c Hf Hd).
  replace (u32 _) with (ld32 m (text + 8)).
  2:{ pose proof (ld32_range m (text + 8)) as Hr. unfold is_u32, region_count, u32 in *. dlia. }
  apply ld8_st32_back. intros Hn. pose proof (du_blocks c Hd) as Hbl. rewrite Forall_forall in Hbl. rewrite (Hbl b Hb x Hx).
  unfold acquired. apply ld8_st32_ne. lia.
Qed.

(** ** Giving up *)

(** What [ecall_fork] leaves when it fails: everything that is held, and all of it as it was, but for the answer -1. *)
Definition fork_failed (h' : holdings) (c : cpu) : Prop :=
  pc c = r 1 /\ kept r (regs c) /\ csrs c = s /\ h' = h /\ loaded (mem c) /\ same_on code_end pcb_slab_head m (mem c) /\
  Forall (same_block (st32 m (parent + 32) 4294967295) (mem c)) (blocks h).

Lemma fork_exit (P : holdings -> cpu -> Prop) h1 r1 m1 s1 : forkable -> loaded m1 -> kept body_regs r1 -> ld32 m1 (r 2 - 8) = r 8 ->
  ld32 m1 (r 2 - 4) = r 1 -> (forall r2, kept r r2 -> runs_calls P h1 (Cpu r2 m1 s1 (r 1))) -> runs_calls P h1 (Cpu r1 m1 s1 1848).
Proof.
  intros Hf Hm Hk H8 H1 H. pose proof (fk_stack Hf) as Hsp. unfold stack_ok, heap_end, stack_top in Hsp.
  assert (H2 : r1 2 = r 2 - 16) by (apply (kept_in _ _ 2 Hk); cbn; tauto).
  call_step. rewrite H2. replace (r 2 - 16 + 8) with (r 2 - 8) by lia. rewrite H8.
  call_step. rewrite H2. replace (r 2 - 16 + 12) with (r 2 - 4) by lia. rewrite H1.
  call_step. rewrite H2. call_step. rewrite jalr_target by exact (fk_return Hf). apply H. kept_over Hk.
Qed.

Lemma fork_gives_up (P : holdings -> cpu -> Prop) c : forkable -> during c -> pc c = 1832 -> (forall e, fork_failed h e -> P h e) -> runs_calls P h c.
Proof.
  intros Hf Hd Hpc HP. destruct c as [r1 m1 s1 p1]. cbn [pc] in Hpc. subst p1.
  pose proof (during_parent _ 144 Hf Hd ltac:(lia)) as Ht. change (ld32 m (parent + 144)) with text in Ht.
  pose proof (during_count _ Hf Hd) as Hc. pose proof (held_region _ Hf (fk_text Hf)) as Hg.
  pose proof (fun b Hb => count_restored _ b Hf Hd Hb) as Hback. pose proof (parent_ok Hf) as Hp.
  destruct Hd as [Hk Hs Hl H8 H1 Hst Htb Hki Hbl]. cbn [regs mem csrs] in *. subst s1.
  assert (Hr8 : r1 8 = parent) by (apply (kept_in _ _ 8 Hk); cbn; tauto).
  pose proof (fk_stack Hf) as Hsp. unfold stack_ok, heap_end, stack_top in Hsp. pose proof Hg as Hg'. unfold region_ok, data_end, heap_end in Hg'.
  unfold pcb_ok, data_end, heap_end, PCB_SIZE in Hp.
  call_step. rewrite Hr8, Ht. call_step.
  apply release_shared; [exact Hl|code_ptr|exact Hg| |].
  { change (region_count m1 text <> 1). rewrite Hc. pose proof (fk_count Hf). pose proof (ld32_range m (text + 8)) as Hr.
    unfold is_u32, region_count, u32 in *. dlia. }
  cbn [upd Z.eqb Pos.eqb]. intros r2 Hr2 Hm2. set (m2 := released m1 text) in *.
  assert (Hr28 : r2 8 = parent) by (rewrite Hr2 by cell; exact Hr8).
  call_step. rewrite ?Hr28. call_step. rewrite Hr28. set (m3 := st32 m2 (parent + 32) 4294967295).
  assert (Hm3 : loaded m3) by (subst m3; loaded_tac).
  apply (fork_exit P); [exact Hf|exact Hm3| | | |].
  - eapply kept_trans; [exact Hk|]. kept_tac Hr2.
  - unfold m3, m2, released. loads. exact H8.
  - unfold m3, m2, released. loads. exact H1.
  - intros r3 Hr3. apply calls_done, HP. unfold fork_failed. cbn [pc regs mem csrs]. conjs; try reflexivity; try assumption.
    + unfold m3, m2, released, pcb_slab_head. sames.
    + apply Forall_forall. intros b Hb. apply same_on_st32_cong, Hback, Hb.
Qed.

(** *** Without a block for the region *)

Lemma drop_given (n q : Z) bs : drop_first (fun b => fst b =? q) ((q, n) :: bs) = bs.
Proof. cbn. rewrite Z.eqb_refl. reflexivity. Qed.

Lemma drop_region (u n : Z) us : drop_first (fun b => (fst b =? u) && (snd b =? n)) ((u, n) :: us) = us.
Proof. cbn. rewrite !Z.eqb_refl. reflexivity. Qed.

Lemma holdings_eta : Holdings (blocks h) (user h) = h.
Proof. destruct h. reflexivity. Qed.

Lemma fork_returns_block (P : holdings -> cpu -> Prop) c q u : forkable -> during c -> pc c = 1808 ->
  ld32 (mem c) (r 2 - 16) = q -> ld32 (mem c) (r 2 - 12) = u -> is_u32 q ->
  (forall e, fork_failed h e -> P h e) ->
  runs_calls P (Holdings ((q, PCB_SIZE) :: blocks h) ((u, region_size m data) :: user h)) c.
Proof.
  intros Hf Hd Hpc Hq Hu Hqw HP. destruct c as [r1 m1 s1 p1]. cbn [pc mem] in *. subst p1.
  pose proof (fk_stack Hf) as Hsp. unfold stack_ok, heap_end, stack_top in Hsp.
  pose proof Hd as [Hk Hs Hl _ _ _ _ _ _]. cbn [regs mem csrs] in *. subst s1.
  assert (H2 : r1 2 = r 2 - 16) by (apply (kept_in _ _ 2 Hk); cbn; tauto).
  call_step. rewrite H2, Hq. call_step.
  apply (free_pcb_calls _ _ _ _ _ (blocks h)); [exact Hl|exact Hqw|cbn; set_solver|cbn; apply drop_given|].
  cbn [upd Z.eqb Pos.eqb user]. intros c2 Hpc2 Hk2. do 2 (apply keeps_write in Hk2; [|cbn; lia]).
  pose proof (slot_keeps _ _ (r 2 - 12) Hf Hd Hk2 ltac:(lia) ltac:(lia)) as Hu2. cbn [mem] in Hu2. rewrite Hu in Hu2.
  pose proof (during_keeps _ _ Hd (fk_stack Hf) Hk2) as Hd2. clear Hd Hk Hl Hk2 Hq.
  pose proof (during_parent _ 148 Hf Hd2 ltac:(lia)) as Ht. change (ld32 m (parent + 148)) with data in Ht.
  pose proof (during_size _ Hf Hd2) as Hn. pose proof (parent_ok Hf) as Hp. pose proof (held_region _ Hf (fk_data Hf)) as Hg.
  unfold region_ok, pcb_ok, data_end, heap_end, PCB_SIZE in Hg, Hp.
  destruct c2 as [r2 m2 s2 p2]. pose proof Hd2 as [Hk Hs Hl _ _ _ _ _ _]. cbn [regs mem csrs pc] in *. subst p2 s2.
  assert (H22 : r2 2 = r 2 - 16) by (apply (kept_in _ _ 2 Hk); cbn; tauto).
  assert (H28 : r2 8 = parent) by (apply (kept_in _ _ 8 Hk); cbn; tauto).
  call_step. rewrite H22. replace (r 2 - 16 + 4) with (r 2 - 12) by lia. rewrite Hu2.
  call_step. rewrite H28, Ht. call_step. rewrite Hn. call_step. apply calls_out.
  { right. right. right. right. left. cbn [pc regs upd Z.eqb Pos.eqb user]. split; [reflexivity|set_solver]. }
  intros h3 c3 Hans. eapply ufree_answers in Hans; [|reflexivity|apply drop_region]. destruct Hans as [(Hpc3 & _ & Hk3 & _) ->].
  cbn [regs mem csrs pc blocks upd Z.eqb Pos.eqb] in *. do 4 (apply keeps_write in Hk3; [|cbn; lia]).
  pose proof (during_keeps _ _ Hd2 (fk_stack Hf) Hk3) as Hd3. rewrite holdings_eta. apply fork_gives_up; assumption.
Qed.

(** ** Going on *)

(** At the call of [memcpy]: the child has a block with a number of its own, and a region of user memory as large as its parent's. *)
Record copying (q g u : Z) (h' : holdings) (c : cpu) : Prop := Copying {
  cp_pc : pc c = 596;
  cp_args : regs c 10 = parent /\ regs c 11 = q /\ regs c 1 = 1748;
  cp_during : during c;
  cp_region : region_base (mem c) g = u /\ region_size (mem c) g = region_size m data;
  cp_pid : pid (mem c) q = (ld32 m pcb_next_pid + 1) mod 256;
  cp_block : in_heap (q, PCB_SIZE) /\ Forall (beside (q, PCB_SIZE)) (blocks h);
  cp_new : in_heap (g, MEMORY_REGION_STRUCT_SIZE) /\ Forall (beside (g, MEMORY_REGION_STRUCT_SIZE)) ((q, PCB_SIZE) :: blocks h);
  cp_slots : ld32 (mem c) (r 2 - 16) = q /\ ld32 (mem c) (r 2 - 12) = g;
  cp_holds : h' = Holdings ((g, MEMORY_REGION_STRUCT_SIZE) :: (q, PCB_SIZE) :: blocks h) ((u, region_size m data) :: user h) }.

Lemma during_new b r1 m1 s1 p1 p2 a v : forkable -> during (Cpu r1 m1 s1 p1) -> in_heap b -> Forall (beside b) (blocks h) -> fst b <= a ->
  a + 4 <= fst b + snd b -> during (Cpu r1 (st32 m1 a v) s1 p2).
Proof.
  intros Hf [Hk Hs Hl H8 H1 Hst Htb Hki Hbl] Hb Hbs Ha1 Ha2. pose proof (fk_stack Hf) as Hsp.
  unfold stack_ok, in_heap, data_end, heap_end, stack_top in Hsp, Hb.
  cbn [regs mem csrs] in *. constructor; cbn [regs mem csrs]; try assumption.
  - loaded_tac.
  - loads. exact H8.
  - loads. exact H1.
  - sames.
  - unfold pcb_slab_head in *. sames.
  - unfold kidle in *. loads. exact Hki.
  - rewrite Forall_forall in *. intros x Hx. specialize (Hbs x Hx). apply same_block_st32; [auto|]. unfold beside in *. cbn. lia.
Qed.

(** The region's words, and the arguments of the copy. *)
Lemma fork_region (P : holdings -> cpu -> Prop) q g u r2 m2 : forkable -> during (Cpu r2 m2 s 1708) -> r2 10 = g ->
  2288 <= g /\ g + 12 <= 15384 -> 2288 <= q /\ q + 172 <= 15384 -> g + 12 <= q \/ q + 172 <= g ->
  pid m2 q = (ld32 m pcb_next_pid + 1) mod 256 -> in_heap (q, PCB_SIZE) -> Forall (beside (q, PCB_SIZE)) (blocks h) ->
  in_heap (g, MEMORY_REGION_STRUCT_SIZE) -> Forall (beside (g, MEMORY_REGION_STRUCT_SIZE)) ((q, PCB_SIZE) :: blocks h) ->
  ld32 m2 (r 2 - 16) = q -> ld32 m2 (r 2 - 12) = u -> is_u32 u ->
  let h' := Holdings ((g, MEMORY_REGION_STRUCT_SIZE) :: (q, PCB_SIZE) :: blocks h) ((u, region_size m data) :: user h) in
  (forall c, copying q g u h' c -> P h' c) -> runs_calls P h' (Cpu r2 m2 s 1708).
Proof.
  intros Hf Hd Hg Hg' Hq' Hgq' Hpid Hq Hqb Hgh Hgb Hs16 Hs12 Hu h' HP. pose proof (Forall_inv_tail Hgb) as Hgbs.
  pose proof (fk_stack Hf) as Hsp. pose proof (parent_ok Hf) as Hp. pose proof (held_region _ Hf (fk_data Hf)) as Hgd.
  unfold stack_ok, region_ok, pcb_ok, data_end, heap_end, PCB_SIZE, stack_top in Hsp, Hp, Hgd.
  pose proof Hd as [Hk _ Hl _ _ _ _ _ _]. cbn [regs mem csrs] in *.
  assert (H2 : r2 2 = r 2 - 16) by (apply (kept_in _ _ 2 Hk); cbn; tauto).
  assert (H8 : r2 8 = parent) by (apply (kept_in _ _ 8 Hk); cbn; tauto).
  call_step. rewrite H2. replace (r 2 - 16 + 4) with (r 2 - 12) by lia. rewrite Hs12. call_step. rewrite Hg. set (m3 := st32 m2 g u).
  assert (Hd3 : during (Cpu r2 m3 s 1708)) by (apply (during_new (g, 12) _ _ _ 1708); auto; cbn; lia).
  pose proof (during_parent _ 148 Hf Hd3 ltac:(lia)) as Ht. change (ld32 m (parent + 148)) with data in Ht.
  pose proof (during_size _ Hf Hd3) as Hn. assert (Hm3 : loaded m3) by exact (du_loaded _ Hd3). cbn [mem] in Ht, Hn.
  call_step. rewrite H8, Ht. call_step. rewrite Hn. call_step. rewrite Hg. set (m4 := st32 m3 (g + 4) _).
  assert (Hd4 : during (Cpu r2 m4 s 1708)) by (apply (during_new (g, 12) _ _ _ 1708); auto; cbn; lia).
  assert (Hm4 : loaded m4) by exact (du_loaded _ Hd4).
  call_step. rewrite H2, Hg. replace (r 2 - 16 + 4) with (r 2 - 12) by lia. set (m5 := st32 m4 (r 2 - 12) g).
  assert (Hd5 : during (Cpu r2 m5 s 1708)) by (apply (during_slot _ _ _ 1708); auto; lia).
  assert (Hm5 : loaded m5) by exact (du_loaded _ Hd5).
  assert (Hq5 : ld32 m5 (r 2 - 16) = q) by (unfold m5, m4, m3; loads; exact Hs16).
  call_step. rewrite H8. call_step. rewrite H2, Hq5. call_step. call_step. apply calls_done, HP.
  assert (Hs : is_u32 (region_size m data)) by apply ld32_range.
  constructor; cbn [pc regs mem csrs upd Z.eqb Pos.eqb]; try reflexivity; auto.
  - apply (during_regs r2 _ _ _ 1708); [exact Hd5|]. kept_tac (regs_but_refl [] r2).
  - unfold region_base, region_size at 1, m5, m4, m3. split; loads; apply ld32_st32_eq; assumption.
  - unfold m5, m4, m3, pid, PCB_PID in *. loads. exact Hpid.
  - split; [exact Hq5|]. apply ld32_st32_eq. unfold is_u32. lia.
Qed.

Lemma fork_fills (P : holdings -> cpu -> Prop) q g u r1 m1 : forkable -> during (Cpu r1 m1 s 1700) -> r1 10 = g -> g <> 0 ->
  pid m1 q = (ld32 m pcb_next_pid + 1) mod 256 -> in_heap (q, PCB_SIZE) -> Forall (beside (q, PCB_SIZE)) (blocks h) ->
  in_heap (g, MEMORY_REGION_STRUCT_SIZE) -> Forall (beside (g, MEMORY_REGION_STRUCT_SIZE)) ((q, PCB_SIZE) :: blocks h) ->
  ld32 m1 (r 2 - 16) = q -> ld32 m1 (r 2 - 12) = u -> is_u32 u ->
  let h' := Holdings ((g, MEMORY_REGION_STRUCT_SIZE) :: (q, PCB_SIZE) :: blocks h) ((u, region_size m data) :: user h) in
  (forall c, copying q g u h' c -> P h' c) -> runs_calls P h' (Cpu r1 m1 s 1700).
Proof.
  intros Hf Hd Hg Hg0 Hpid Hq Hqb Hgh Hgb Hs16 Hs12 Hu h' HP.
  pose proof (Forall_inv Hgb) as Hgq. pose proof (Forall_inv_tail Hgb) as Hgbs.
  pose proof (fk_stack Hf) as Hsp. pose proof (parent_ok Hf) as Hp. pose proof (held_region _ Hf (fk_data Hf)) as Hgd.
  assert (Hgr : region_ok g) by (unfold in_heap, region_ok in *; cbn [fst snd] in *; unfold MEMORY_REGION_STRUCT_SIZE in Hgh; lia).
  assert (Hg' : 2288 <= g /\ g + 12 <= 15384) by (unfold region_ok, data_end, heap_end in Hgr; lia).
  assert (Hq' : 2288 <= q /\ q + 172 <= 15384) by (unfold in_heap, data_end, heap_end, PCB_SIZE in Hq; cbn [fst snd] in Hq; lia).
  assert (Hgq' : g + 12 <= q \/ q + 172 <= g) by (unfold beside, PCB_SIZE, MEMORY_REGION_STRUCT_SIZE in Hgq; cbn [fst snd] in Hgq; lia).
  unfold stack_ok, region_ok, pcb_ok, data_end, heap_end, PCB_SIZE, stack_top in Hsp, Hp, Hgd.
  pose proof Hd as [Hk _ Hl _ _ _ _ _ _]. cbn [regs mem csrs] in *.
  call_step. rewrite Hg. replace (g =? 0) with false by lia. call_step.
  apply aquire_calls; [exact Hl|code_ptr|cbn; rewrite Hg; exact Hgr|]. cbn [upd Z.eqb Pos.eqb]. rewrite Hg. intros r2 Hr2 Hm2.
  assert (Hd2 : during (Cpu r2 (acquired m1 g) s 1708)).
  { apply (during_regs r1 r2 _ _ 1700); [|kept_tac Hr2].
    apply (during_new (g, 12) _ _ _ 1700); auto; cbn; lia. }
  apply (fork_region P q g u r2 (acquired m1 g)); auto; try (unfold acquired; loads; assumption).
  - rewrite Hr2 by cell. exact Hg.
  - unfold acquired, pid, PCB_PID in *. loads. exact Hpid.
Qed.

(** *** The calls in order *)

Lemma keeps_tail r1 m1 s1 b bs c : keeps r1 m1 s1 (b :: bs) c -> keeps r1 m1 s1 bs c.
Proof. intros []. constructor; try assumption. eapply Forall_inv_tail. eassumption. Qed.

(** From the return of [alloc_pcb]. *)
Lemma fork_after_alloc (P : holdings -> cpu -> Prop) q u c : forkable -> during c -> pc c = 1688 -> regs c 10 = q ->
  pid (mem c) q = (ld32 m pcb_next_pid + 1) mod 256 -> in_heap (q, PCB_SIZE) -> Forall (beside (q, PCB_SIZE)) (blocks h) ->
  ld32 (mem c) (r 2 - 12) = u -> is_u32 u ->
  (forall e, fork_failed h e -> P h e) -> (forall g h' c, copying q g u h' c -> P h' c) ->
  runs_calls P (Holdings ((q, PCB_SIZE) :: blocks h) ((u, region_size m data) :: user h)) c.
Proof.
  intros Hf Hd Hpc H10 Hpid Hq Hqb Hs12 Hu Hfail Hcopy. destruct c as [r1 m1 s1 p1]. cbn [pc regs mem] in *. subst p1.
  pose proof (fk_stack Hf) as Hsp. unfold stack_ok, heap_end, stack_top in Hsp.
  assert (Hq' : 2288 <= q /\ q + 172 <= 15384) by (unfold in_heap, data_end, heap_end, PCB_SIZE in Hq; cbn [fst snd] in Hq; lia).
  pose proof Hd as [Hk Hs Hl _ _ _ _ _ _]. cbn [regs mem csrs] in *. subst s1.
  assert (H2 : r1 2 = r 2 - 16) by (apply (kept_in _ _ 2 Hk); cbn; tauto).
  call_step. rewrite H10. replace (q =? 0) with false by lia. call_step. rewrite H2, H10. set (m2 := st32 m1 (r 2 - 16) q).
  assert (Hd2 : during (Cpu r1 m2 s 1688)) by (apply (during_slot _ _ _ 1688); auto; lia).
  assert (Hm2 : loaded m2) by exact (du_loaded _ Hd2).
  call_step. call_step. call_step. apply calls_out; [right; right; left; reflexivity|]. intros h3 c3 Hans.
  eapply kmalloc_answers in Hans; [|reflexivity]. destruct Hans as [(Hpc3 & _ & Hk3 & _) Hgiven].
  cbn [regs mem csrs pc blocks upd Z.eqb Pos.eqb] in *. do 2 (apply keeps_write in Hk3; [|cbn; lia]).
  pose proof (Forall_inv (keeps_blocks _ _ _ _ _ Hk3)) as Hsame. apply keeps_tail in Hk3.
  pose proof (slot_keeps _ _ (r 2 - 16) Hf Hd2 Hk3 ltac:(lia) ltac:(lia)) as E16.
  pose proof (slot_keeps _ _ (r 2 - 12) Hf Hd2 Hk3 ltac:(lia) ltac:(lia)) as E12.
  pose proof (during_keeps _ _ Hd2 (fk_stack Hf) Hk3) as Hd3. cbn [mem] in E16, E12. unfold m2 in E16, E12.
  rewrite ld32_st32_eq in E16 by (unfold is_u32; lia). rewrite ld32_st32_ne, Hs12 in E12 by lia.
  assert (Hpid3 : pid (mem c3) q = (ld32 m pcb_next_pid + 1) mod 256).
  { unfold pid, PCB_PID in *. rewrite (Hsame (q + 164)) by (cbn [fst snd]; unfold PCB_SIZE; lia). unfold m2. loads. exact Hpid. }
  destruct c3 as [r3 m3 s3 p3]. pose proof Hd3 as [_ Hs3 Hl3 _ _ _ _ _ _]. cbn [regs mem csrs pc] in *. subst p3 s3.
  destruct Hgiven as [[H0 ->]|(H0 & Hgh & Hgb & ->)].
  - call_step. rewrite H0. cbn [Z.eqb].
    apply (fork_returns_block P _ q u Hf); auto; [apply (during_regs r3 _ _ _ 1700); [exact Hd3|apply List.Forall_forall; reflexivity]|unfold is_u32; lia].
  - apply (fork_fills P q (r3 10) u); auto. intros c Hc. eapply Hcopy, Hc.
Qed.

(** From the return of [ualloc]. *)
Lemma fork_after_ualloc (P : holdings -> cpu -> Prop) u c : forkable -> during c -> pc c = 1676 -> regs c 10 = u -> is_u32 u ->
  ld32 (mem c) pcb_next_pid = ld32 m pcb_next_pid ->
  (forall e, fork_failed h e -> P h e) -> (forall h' c, number_at_null c -> P h' c) -> (forall q g h' c, copying q g u h' c -> P h' c) ->
  runs_calls P (if u =? 0 then h else Holdings (blocks h) ((u, region_size m data) :: user h)) c.
Proof.
  intros Hf Hd Hpc H10 Hu Hnum Hfail Hnull Hcopy. destruct c as [r1 m1 s1 p1]. cbn [pc regs mem] in *. subst p1.
  pose proof (fk_stack Hf) as Hsp. unfold stack_ok, heap_end, stack_top in Hsp.
  pose proof Hd as [Hk Hs Hl _ _ _ _ _ _]. cbn [regs mem csrs] in *. subst s1.
  assert (H2 : r1 2 = r 2 - 16) by (apply (kept_in _ _ 2 Hk); cbn; tauto).
  call_step. rewrite H2, H10. replace (r 2 - 16 + 4) with (r 2 - 12) by lia. set (m2 := st32 m1 (r 2 - 12) u).
  assert (Hd2 : during (Cpu r1 m2 s 1688)) by (apply (during_slot _ _ _ 1676); auto; lia).
  assert (Hm2 : loaded m2) by exact (du_loaded _ Hd2). assert (H12 : ld32 m2 (r 2 - 12) = u) by (apply ld32_st32_eq, Hu).
  assert (Hnum2 : ld32 m2 pcb_next_pid = ld32 m pcb_next_pid) by (unfold m2, pcb_next_pid in *; loads; exact Hnum).
  call_step. rewrite H10. destruct (u =? 0).
  { apply fork_gives_up; [exact Hf| |reflexivity|exact Hfail].
    apply (during_regs r1 _ _ _ 1688); [exact Hd2|apply List.Forall_forall; reflexivity]. }
  call_step. apply alloc_pcb_calls; [exact Hm2|code_ptr| |exact (fk_heap Hf)|intros; apply Hnull; assumption|].
  { unfold stack_ok, heap_end, stack_top. cbn. rewrite H2. lia. }
  intros q h3 c3 [Hpc3 Hk3 H103 Hq Hqb _ Hpid ->]. cbn [blocks user upd Z.eqb Pos.eqb] in *. apply keeps_write in Hk3; [|cbn; lia].
  rewrite Hnum2 in Hpid. apply fork_after_alloc; auto.
  - apply (during_keeps _ _ Hd2 (fk_stack Hf) Hk3).
  - rewrite (slot_keeps _ _ (r 2 - 12) Hf Hd2 Hk3) by lia. exact H12.
  - intros g h' c. apply Hcopy.
Qed.

(** From the call. *)
Lemma fork_calls (P : holdings -> cpu -> Prop) : forkable ->
  (forall e, fork_failed h e -> P h e) -> (forall h' c, number_at_null c -> P h' c) -> (forall q g u h' c, copying q g u h' c -> P h' c) ->
  runs_calls P h (Cpu r m s 1640).
Proof.
  intros Hf Hfail Hnull Hcopy. pose proof (fk_stack Hf) as Hsp. pose proof (parent_ok Hf) as Hp.
  pose proof (held_region _ Hf (fk_data Hf)) as Hgd. pose proof (held_region _ Hf (fk_text Hf)) as Hgt.
  pose proof (fk_loaded Hf) as Hm. pose proof Hgt as Hgt'.
  unfold stack_ok, region_ok, pcb_ok, data_end, heap_end, PCB_SIZE, stack_top in Hsp, Hp, Hgd, Hgt'.
  call_step. call_step. set (m1 := st32 m _ _). assert (Hm1 : loaded m1) by (subst m1; loaded_tac).
  call_step. set (m2 := st32 m1 _ _). assert (Hm2 : loaded m2) by (subst m2; loaded_tac).
  assert (Hl : forall a, a + 4 <= 15384 -> ld32 m2 a = ld32 m a) by (intros a Ha; unfold m2, m1; loads; reflexivity).
  call_step. call_step. rewrite Hl by lia. change (ld32 m (parent + 144)) with text. call_step.
  apply aquire_calls; [exact Hm2|code_ptr|exact Hgt|]. cbn [upd Z.eqb Pos.eqb]. intros r3 Hr3 Hm3.
  assert (Hc : region_count m2 text = region_count m text) by (apply Hl; lia). unfold acquired in *. rewrite Hc in *.
  set (m3 := st32 m2 _ _) in *.
  assert (Hd : during (Cpu r3 m3 s 1664)).
  { constructor; cbn [regs mem csrs]; try reflexivity; try exact Hm3; unfold m3, m2, m1.
    - unfold body_regs. kept_tac Hr3.
    - replace (r 2 - 16 + 8) with (r 2 - 8) by lia. loads. apply ld32_st32_eq, (fk_s0 Hf).
    - replace (r 2 - 16 + 12) with (r 2 - 4) by lia. loads. apply ld32_st32_eq, (fk_return Hf).
    - unfold stack_top. sames.
    - unfold code_end, pcb_slab_head. sames.
    - unfold kidle. loads. reflexivity.
    - apply Forall_forall. intros b Hb. unfold acquired, same_block. apply same_on_st32_cong.
      pose proof (fk_heap Hf) as Hh. rewrite Forall_forall in Hh. specialize (Hh b Hb). unfold in_heap, heap_end in Hh. sames. }
  assert (Hnum : ld32 m3 pcb_next_pid = ld32 m pcb_next_pid) by (unfold m3, m2, m1, pcb_next_pid; loads; reflexivity).
  pose proof (during_parent _ 148 Hf Hd ltac:(lia)) as Ht. change (ld32 m (parent + 148)) with data in Ht.
  pose proof (during_size _ Hf Hd) as Hn. cbn [mem] in Ht, Hn. assert (H8 : r3 8 = parent) by (rewrite Hr3 by cell; reflexivity).
  call_step. rewrite H8, Ht. call_step. rewrite Hn. call_step. apply calls_out; [right; left; reflexivity|]. intros h4 c4 Hans.
  eapply ualloc_answers in Hans; [|reflexivity]. destruct Hans as [(Hpc4 & Hu & Hk4 & Hnum4) ->].
  cbn [regs mem csrs pc blocks upd Z.eqb Pos.eqb] in *. do 3 (apply keeps_write in Hk4; [|cbn; lia]).
  apply fork_after_ualloc; auto; [apply (during_keeps _ _ Hd (fk_stack Hf) Hk4)|congruence|]. intros q g h' c. apply Hcopy.
Qed.

(** ** The child *)

(** The writes after the copy, to the blocks [p] of the parent and [q] of the child. *)
(* kernel/process.s:107-133 ecall_fork *)
Definition child_memory (mc : memory) (p q g pc sp : Z) : memory :=
  let m1 := st32 mc (p + 32) (pid mc q) in
  let m2 := st32 m1 (q + 32) 0 in
  let m3 := st8 m2 (q + 165) (pid m2 p) in
  let m4 := st32 m3 (q + 148) g in
  let m5 := st32 m4 (p + PCB_NEXT) q in
  let m6 := st8 m5 (q + PCB_STATUS) STATE_READY in
  let m7 := st32 m6 (q + PCB_MEPC) pc in
  st32 m7 (q + PCB_MSCRATCH) sp.

Lemma fork_finish (P : holdings -> cpu -> Prop) h1 q g r1 mc : forkable -> loaded mc -> kept body_regs r1 -> r1 10 = q -> pcb_ok q ->
  ld32 mc (r 2 - 12) = g -> ld32 mc (r 2 - 8) = r 8 -> ld32 mc (r 2 - 4) = r 1 ->
  let e := child_memory mc parent q g (s MEPC) (s MSCRATCH) in
  (forall r2, kept r r2 -> loaded e -> runs_calls P h1 (Cpu r2 e s (r 1))) -> runs_calls P h1 (Cpu r1 mc s 1748).
Proof.
  intros Hf Hm Hk H10 Hq Hg H8s H1s e H. unfold e, child_memory, PCB_MEPC, PCB_MSCRATCH, STATE_READY in *. unfold_layout. unfold pid, PCB_PID in *.
  pose proof (fk_stack Hf) as Hsp. pose proof (parent_ok Hf) as Hp. unfold_layout.
  assert (H2 : r1 2 = r 2 - 16) by (apply (kept_in _ _ 2 Hk); cbn; tauto).
  assert (H8 : r1 8 = parent) by (apply (kept_in _ _ 8 Hk); cbn; tauto).
  call_step. rewrite H10. call_step. rewrite H8. set (m1 := st32 mc _ _) in *. assert (Hm1 : loaded m1) by (subst m1; loaded_tac).
  call_step. rewrite H10. set (m2 := st32 m1 _ _) in *. assert (Hm2 : loaded m2) by (subst m2; loaded_tac).
  call_step. rewrite H8. call_step. rewrite H10. set (m3 := st8 m2 _ _) in *. assert (Hm3 : loaded m3) by (subst m3; loaded_tac).
  assert (Hg3 : ld32 m3 (r 2 - 12) = g) by (unfold m3, m2, m1; loads; exact Hg).
  call_step. rewrite H2. replace (r 2 - 16 + 4) with (r 2 - 12) by lia. rewrite Hg3.
  call_step. rewrite H10. set (m4 := st32 m3 _ _) in *. assert (Hm4 : loaded m4) by (subst m4; loaded_tac).
  call_step. rewrite H8, H10. set (m5 := st32 m4 _ _) in *. assert (Hm5 : loaded m5) by (subst m5; loaded_tac).
  call_step. call_step. rewrite H10. set (m6 := st8 m5 _ _) in *. assert (Hm6 : loaded m6) by (subst m6; loaded_tac).
  call_step. call_step. call_step. rewrite H10. set (m7 := st32 m6 _ _) in *. assert (Hm7 : loaded m7) by (subst m7; loaded_tac).
  call_step. rewrite H10. set (m8 := st32 m7 _ _) in *. assert (Hm8 : loaded m8) by (subst m8; loaded_tac).
  call_step. apply fork_exit; [exact Hf|exact Hm8|kept_over Hk| | |intros r2 Hr2; apply H; assumption].
  - unfold m8, m7, m6, m5, m4, m3, m2, m1. loads. exact H8s.
  - unfold m8, m7, m6, m5, m4, m3, m2, m1. loads. exact H1s.
Qed.

End fork.

(** What the writes leave, field by field. *)
Section child.
Context (mc : memory) (p q g pc sp : Z).
Hypotheses (Hp : pcb_ok p) (Hq : pcb_ok q) (Hpq : apart p q) (Hpc : is_u32 pc) (Hsp : is_u32 sp) (Hg : is_u32 g).

Local Abbreviation e := (child_memory mc p q g pc sp).

Ltac child := pose proof Hp as Hp'; pose proof Hq as Hq'; pose proof Hpq as Hpq';
  unfold child_memory, apart, PCB_MEPC, PCB_MSCRATCH, next, status, ptext, pdata, pid, PCB_PID in *; unfold_layout; cbv zeta.

Lemma child_next : next e p = q /\ next e q = next mc q.
Proof. child. split; loads; [apply ld32_st32_eq; unfold is_u32; lia|reflexivity]. Qed.

Lemma child_fields : status e q = STATE_READY /\ pdata e q = g /\ ptext e q = ptext mc q /\ ld32 e (q + PCB_MEPC) = pc /\
  ld32 e (q + PCB_MSCRATCH) = sp /\ pid e q = pid mc q /\ ld8 e (q + 165) = pid mc p.
Proof.
  child. conjs; loads; rewrite ?ld8_st8_eq; try (apply ld32_st32_eq; assumption); try reflexivity.
  loads. apply Z.mod_small, ld8_range.
Qed.

Lemma child_frames x : In x framed -> x <> 10 -> in_frame e q x = in_frame mc q x /\ in_frame e p x = in_frame mc p x.
Proof.
  intros Hx Hn. pose proof (slot_range x Hx) as Hs. assert (H32 : slot x + 4 <= 32 \/ 36 <= slot x).
  { unfold framed in Hx. unfold slot in *. destruct Hx as [<-|Hx]; [cbn; lia|]. apply list_elem_of_In, elem_of_seqZ in Hx.
    replace (x =? 1) with false in * by lia. lia. }
  unfold in_frame. child. split; loads; reflexivity.
Qed.

Lemma child_answers : in_frame e q 10 = 0 /\ in_frame e p 10 = pid mc q.
Proof.
  unfold in_frame, slot. cbn [Z.eqb Pos.eqb]. child. pose proof (ld8_range mc (q + 164)).
  split; loads; apply ld32_st32_eq; unfold is_u32; lia.
Qed.

Lemma child_same a : p + PCB_SIZE <= a \/ a < p -> q + PCB_SIZE <= a \/ a < q -> ld8 e a = ld8 mc a.
Proof. intros H1 H2. child. loads. reflexivity. Qed.

End child.

(** ** The copy *)

Lemma copied_in k p q m o : q + Z.of_nat k <= p \/ p + Z.of_nat k <= q -> 0 <= o -> o + 4 <= Z.of_nat k ->
  ld32 (copy k p q m) (q + o) = ld32 m (p + o).
Proof.
  intros H H1 H2. unfold ld32, ld16.
  assert (E : forall i, 0 <= i < Z.of_nat k -> ld8 (copy k p q m) (q + i) = ld8 m (p + i)).
  { intros i Hi. rewrite copy_spec by lia. replace ((q <=? q + i) && (q + i <? q + Z.of_nat k)) with true by lia. f_equal. lia. }
  rewrite <- !Z.add_assoc. rewrite !E by lia. reflexivity.
Qed.

Lemma copied_out8 k p q m a : q + Z.of_nat k <= p \/ p + Z.of_nat k <= q -> a < q \/ q + Z.of_nat k <= a -> ld8 (copy k p q m) a = ld8 m a.
Proof. intros H Ha. rewrite copy_spec by lia. replace ((q <=? a) && (a <? q + Z.of_nat k)) with false by lia. reflexivity. Qed.

Lemma copied_out k p q m a : q + Z.of_nat k <= p \/ p + Z.of_nat k <= q -> a + 4 <= q \/ q + Z.of_nat k <= a ->
  ld32 (copy k p q m) a = ld32 m a.
Proof. intros H Ha. apply ld32_ext. intros i Hi. apply copied_out8; [exact H|lia]. Qed.

(** ** The ring *)

Lemma links_insert m m' z k : forall a b, next m' b = next m a -> Forall (fun x => next m' x = next m x) k ->
  links m a (k ++ [z]) -> links m' b (k ++ [z]).
Proof.
  induction k as [|x k IH]; intros a b Hb Hk; cbn [app links].
  - intros [H _]. split; [congruence|exact I].
  - rewrite Forall_cons in Hk. destruct Hk as [Hx Hk]. intros [H Hl]. split; [congruence|]. eapply IH; eassumption.
Qed.

(** A process put behind [p]. *)
Lemma ring_insert m m' p q l : ring m p l -> pcb_ok q -> q ∉ p :: l -> next m' p = q -> next m' q = next m p ->
  Forall (fun x => next m' x = next m x) l -> ring m' p (q :: l).
Proof.
  intros (Hl & Hf & Hn) Hq Hin Hp Hnq Hrest. unfold ring. conjs.
  - cbn [app links]. split; [exact Hp|]. eapply links_insert; eassumption.
  - rewrite !Forall_cons in *. tauto.
  - apply NoDup_cons in Hn. destruct Hn as [Hpl Hn]. apply NoDup_cons. split; [set_solver|]. apply NoDup_cons. split; [set_solver|exact Hn].
Qed.

(** ** Fork *)

Section forked.
Context (r : Z -> Z) (m : memory) (s : Z -> Z) (h : holdings) (l : list Z).
Hypotheses (Hf : forkable r m h) (Hring : ring m (r 10) l) (Hheld : Forall (fun x => (x, PCB_SIZE) ∈ blocks h) l)
  (Hpc : is_u32 (s MEPC)) (Hsp : is_u32 (s MSCRATCH)).

(** The child [q], with the region [g], after a fork that succeeded. *)
Record forked (q g u : Z) (e : cpu) : Prop := Forked {
  fo_return : pc e = r 1 /\ kept r (regs e) /\ csrs e = s /\ loaded (mem e);
  fo_ring : ring (mem e) (r 10) (q :: l);
  fo_frames : forall x, In x framed -> x <> 10 -> in_frame (mem e) q x = in_frame m (r 10) x /\ in_frame (mem e) (r 10) x = in_frame m (r 10) x;
  fo_answers : in_frame (mem e) q 10 = 0 /\ in_frame (mem e) (r 10) 10 = pid (mem e) q;
  fo_numbers : pid (mem e) q = (ld32 m pcb_next_pid + 1) mod 256 /\ ld8 (mem e) (q + 165) = pid m (r 10);
  fo_program : status (mem e) q = STATE_READY /\ ld32 (mem e) (q + PCB_MEPC) = s MEPC /\ ld32 (mem e) (q + PCB_MSCRATCH) = s MSCRATCH;
  fo_regions : ptext (mem e) q = ptext m (r 10) /\ pdata (mem e) q = g;
  fo_data : region_base (mem e) g = u /\ region_size (mem e) g = region_size m (pdata m (r 10));
  fo_others : forall b, b ∈ blocks h -> b <> (r 10, PCB_SIZE) -> same_block (acquired m (ptext m (r 10))) (mem e) b }.

(** The memory of the copy: the child's block is the parent's up to the number. *)
Record copied (q g u : Z) (mc : memory) : Prop := Copied {
  co_child : pcb_ok q /\ apart (r 10) q;
  co_fields : forall o, 0 <= o <= 160 -> ld32 mc (q + o) = ld32 m (r 10 + o) /\ ld32 mc (r 10 + o) = ld32 m (r 10 + o);
  co_numbers : pid mc q = (ld32 m pcb_next_pid + 1) mod 256 /\ pid mc (r 10) = pid m (r 10);
  co_region : is_u32 g /\ forall b, b = (q, PCB_SIZE) \/ b ∈ blocks h -> beside (g, MEMORY_REGION_STRUCT_SIZE) b;
  co_data : region_base mc g = u /\ region_size mc g = region_size m (pdata m (r 10));
  co_others : forall b, b ∈ blocks h -> beside (q, PCB_SIZE) b /\ same_block (acquired m (ptext m (r 10))) mc b }.

Lemma copying_copied q g u h' c : copying r m s h q g u h' c -> copied q g u (copy 164 (r 10) q (mem c)).
Proof.
  intros [_ _ Hd [Hb Hs] Hpid [Hq Hqb] [Hg Hgb] _ _]. pose proof (parent_ok r m h Hf) as Hp.
  rewrite Forall_forall in Hqb. pose proof (Hqb _ (fk_parent r m h Hf)) as Hqp. pose proof (Forall_inv Hgb) as Hgq.
  unfold beside, in_heap, data_end, heap_end, PCB_SIZE, MEMORY_REGION_STRUCT_SIZE in Hqp, Hgq, Hq, Hg. cbn [fst snd] in Hqp, Hgq, Hq, Hg.
  assert (Hcopy : q + Z.of_nat 164 <= r 10 \/ r 10 + Z.of_nat 164 <= q) by lia.
  constructor.
  - unfold pcb_ok, apart, data_end, heap_end, PCB_SIZE. lia.
  - intros o Ho. rewrite copied_in, copied_out by lia. rewrite (during_parent r m s h c o Hf Hd) by lia. auto.
  - unfold pid, PCB_PID in *. rewrite !copied_out8 by lia. split; [exact Hpid|].
    pose proof (du_blocks r m s h c Hd) as Hbl. rewrite Forall_forall in Hbl.
    rewrite (Hbl _ (fk_parent r m h Hf) (r 10 + 164)) by (cbn; unfold PCB_SIZE; lia). unfold acquired.
    destruct (fk_apart r m h Hf _ _ (fk_text r m h Hf) (fk_parent r m h Hf)) as [E|E]; [discriminate E|].
    unfold beside in E. cbn [fst snd] in E. unfold PCB_SIZE, MEMORY_REGION_STRUCT_SIZE in E. apply ld8_st32_ne. lia.
  - split; [unfold is_u32; lia|]. rewrite Forall_forall in Hgb. intros b Hx. apply Hgb. set_solver.
  - unfold region_base, region_size in *. rewrite !copied_out by lia. auto.
  - intros b Hx. pose proof (Hqb b Hx) as Hbb. split; [exact Hbb|]. pose proof (du_blocks r m s h c Hd) as Hbl. rewrite Forall_forall in Hbl.
    intros a Ha. unfold beside, PCB_SIZE in Hbb. cbn [fst snd] in Hbb. rewrite copied_out8 by lia. apply (Hbl b Hx a Ha).
Qed.

Lemma ring_held x : x ∈ r 10 :: l -> (x, PCB_SIZE) ∈ blocks h.
Proof.
  intros Hx. apply elem_of_cons in Hx. destruct Hx as [->|Hx]; [exact (fk_parent r m h Hf)|]. rewrite Forall_forall in Hheld. auto.
Qed.

Lemma others_same q g u mc b : copied q g u mc -> b ∈ blocks h -> b <> (r 10, PCB_SIZE) ->
  same_block (acquired m (ptext m (r 10))) (child_memory mc (r 10) q g (s MEPC) (s MSCRATCH)) b.
Proof.
  intros [[Hq Hpq] _ _ _ _ Hoth] Hb Hn a Ha. destruct (Hoth b Hb) as [Hqb Hsame]. unfold beside in Hqb. cbn [fst snd] in Hqb.
  destruct (fk_apart r m h Hf _ _ Hb (fk_parent r m h Hf)) as [E|E]; [congruence|]. unfold beside in E. cbn [fst snd] in E.
  rewrite child_same by (auto; try apply (parent_ok r m h Hf); lia). apply Hsame, Ha.
Qed.

Lemma others_next q g u mc : copied q g u mc ->
  Forall (fun x => next (child_memory mc (r 10) q g (s MEPC) (s MSCRATCH)) x = next m x) l.
Proof.
  intros Hc. apply Forall_forall. intros x Hx. destruct Hring as (_ & _ & Hnd). apply NoDup_cons in Hnd. destruct Hnd as [Hnin _].
  assert (Hxb : (x, PCB_SIZE) ∈ blocks h) by (apply ring_held; set_solver). unfold next, PCB_NEXT.
  rewrite (same_on_ld32 _ _ _ _ _ (others_same q g u mc _ Hc Hxb ltac:(congruence))) by (cbn; unfold PCB_SIZE; lia).
  unfold acquired. destruct (fk_apart r m h Hf _ _ Hxb (fk_text r m h Hf)) as [E|E]; [discriminate E|].
  unfold beside, PCB_SIZE, MEMORY_REGION_STRUCT_SIZE in E. cbn [fst snd] in E. apply ld32_st32_ne. lia.
Qed.

Lemma child_new q g u mc : copied q g u mc -> q ∉ r 10 :: l.
Proof.
  intros [[Hq _] _ _ _ _ Hoth] Hin. destruct (Hoth _ (ring_held q Hin)) as [Hqb _]. unfold beside, PCB_SIZE in Hqb. cbn [fst snd] in Hqb. lia.
Qed.

Lemma forked_memory q g u mc r2 : copied q g u mc -> let e := child_memory mc (r 10) q g (s MEPC) (s MSCRATCH) in
  kept r r2 -> loaded e -> forked q g u (Cpu r2 e s (r 1)).
Proof.
  intros Hc e Hk He. pose proof Hc as [[Hq Hpq] Hfld [Hpid Hppid] [Hg Hgb] [Hb Hs] _]. pose proof (parent_ok r m h Hf) as Hp.
  destruct (child_next mc (r 10) q g (s MEPC) (s MSCRATCH) Hp Hq Hpq) as [Hn1 Hn2].
  destruct (child_fields mc (r 10) q g (s MEPC) (s MSCRATCH) Hp Hq Hpq Hpc Hsp Hg) as (Hst & Hpd & Hpt & Hep & Hes & Hpi & Hpp).
  constructor; cbn [pc regs mem csrs]; fold e in Hn1, Hn2, Hst, Hpd, Hpt, Hep, Hes, Hpi, Hpp.
  - auto.
  - apply (ring_insert m); auto; [|rewrite Hn2; apply (Hfld 132); lia|].
    + eapply child_new, Hc.
    + eapply others_next, Hc.
  - intros x Hx Hn. destruct (child_frames mc (r 10) q g (s MEPC) (s MSCRATCH) Hp Hq Hpq x Hx Hn) as [E1 E2].
    fold e in E1, E2. rewrite E1, E2. unfold in_frame. pose proof (slot_range x Hx). apply Hfld. lia.
  - rewrite Hpi. apply child_answers; assumption.
  - rewrite Hpi, Hpp. auto.
  - auto.
  - rewrite Hpt, Hpd. split; [|reflexivity]. apply (Hfld 144). lia.
  - pose proof (Hgb _ (or_introl eq_refl)) as H1. pose proof (Hgb _ (or_intror (fk_parent r m h Hf))) as H2.
    unfold beside, MEMORY_REGION_STRUCT_SIZE in H1, H2. cbn [fst snd] in H1, H2. rewrite <- Hb, <- Hs. unfold region_base, region_size.
    split; apply ld32_ext; intros i Hi; apply child_same; auto; lia.
  - intros b Hbin Hn. eapply others_same; eassumption.
Qed.


End forked.
