(* ===== verification/KExec.v ===== *)
(** * The first process, and the last steps of exit, as machine code *)

From S2P Require Import Prelude Mem KWorld RvaIsa KImage Cpu KCode KSched KSwitch KFair KProc KLib KTrap KCalls KSegment.

(** ** Starting a program in a new process *)

(** At the call of the loader: the path, and a process of its own that waits for its program. *)
Record starting (r : Z -> Z) (m : memory) (s : Z -> Z) (h : holdings) (q : Z) (h' : holdings) (c : cpu) : Prop := Starting {
  sg_call : pc c = at_elf_load_submit /\ regs c 10 = r 10 /\ regs c 11 = q /\ regs c 1 = r 1;
  sg_kept : kept r (regs c) /\ csrs c = s /\ loaded (mem c) /\ stack_same (r 2) m (mem c);
  sg_ring : current (mem c) = q /\ ring (mem c) q [];
  sg_state : status (mem c) q = STATE_BLOCKED /\ pid (mem c) q = (ld32 m pcb_next_pid + 1) mod 256;
  sg_empty : ptext (mem c) q = 0 /\ pdata (mem c) q = 0;
  sg_holds : h' = Holdings ((q, PCB_SIZE) :: blocks h) (user h);
  sg_blocks : Forall (same_block m (mem c)) (blocks h) }.

(** [kexecve] calls the loader for a process that is alone in the ring, current, and blocked until the loader wakes it. *)
Theorem kexecve_starts r m s h : loaded m -> code_pointer (r 1) -> is_u32 (r 10) -> stack_ok (r 2) 12 -> Forall in_heap (blocks h) ->
  runs_calls (fun h' c => number_at_null c \/ exists q, starting r m s h q h' c) h (Cpu r m s 2036).
Proof.
  intros Hm Hra Hu Hsp Hhb. unfold stack_ok, heap_end, stack_top in Hsp.
  call_step. call_step. set (m1 := st32 m _ _). assert (Hm1 : loaded m1) by (subst m1; loaded_tac).
  call_step. set (m2 := st32 m1 _ _). assert (Hm2 : loaded m2) by (subst m2; loaded_tac).
  call_step. apply alloc_pcb_calls; [exact Hm2|code_ptr|unfold stack_ok, heap_end, stack_top; cbn; lia|exact Hhb|intros; left; assumption|].
  intros q h3 c3 [Hpc3 Hk3 H103 Hq Hqb _ Hpid ->]. cbn [upd Z.eqb Pos.eqb] in *. destruct c3 as [r3 m3 s3 p3].
  cbn [pc regs mem csrs] in *. subst p3. apply keeps_write in Hk3; [|cbn; lia].
  destruct Hk3 as [Hk Hs Hl Hst Htb Hki Hbl]. cbn [regs mem csrs upd Z.eqb Pos.eqb] in *. subst s3.
  assert (H2 : r3 2 = r 2 - 8) by (rewrite (kept_in _ _ 2 Hk) by (cbn; tauto); reflexivity).
  assert (Hq' : 2288 <= q /\ q + 172 <= 15384) by (unfold in_heap, data_end, heap_end, PCB_SIZE in Hq; cbn [fst snd] in Hq; lia).
  call_step. rewrite H103. call_step. call_step. set (m4 := st8 m3 _ _). assert (Hm4 : loaded m4) by (subst m4; loaded_tac).
  call_step. rewrite H103. set (m5 := st32 m4 _ _). assert (Hm5 : loaded m5) by (subst m5; loaded_tac).
  call_step. set (m6 := st32 m5 _ _). assert (Hm6 : loaded m6) by (subst m6; loaded_tac).
  call_step. set (m7 := st32 m6 _ _). assert (Hm7 : loaded m7) by (subst m7; loaded_tac).
  call_step. call_step. call_step. rewrite H103. set (m8 := st32 m7 _ _). assert (Hm8 : loaded m8) by (subst m8; loaded_tac).
  assert (Hw : ld32 m8 (r 2 - 8) = r 10 /\ ld32 m8 (r 2 - 8 + 4) = r 1).
  { unfold m8, m7, m6, m5, m4. split; loads; rewrite (same_on_ld32 _ _ _ _ _ Hst) by (unfold stack_top; lia); unfold m2, m1; loads;
      apply ld32_st32_eq; [exact Hu|apply Hra]. }
  destruct Hw as [Hw1 Hw2].
  call_step. rewrite H2, Hw1. call_step. rewrite H2, Hw2. call_step. rewrite H2. call_step. call_step. apply calls_done. right. exists q.
  constructor; cbn [pc regs mem csrs upd Z.eqb Pos.eqb].
  - conjs; reflexivity.
  - conjs; [kept_over Hk|reflexivity|exact Hm8|]. unfold m8, m7, m6, m5, m4, stack_top. sames.
    eapply same_on_trans; [|eapply same_on_sub; [exact Hst|lia|unfold stack_top; lia]]. unfold m2, m1, stack_top. sames.
  - unfold current, current_pcb, ring, links, next, PCB_NEXT. cbn [app]. unfold m8, m7, m6, m5, m4. conjs; try exact I.
    + apply ld32_st32_eq. unfold is_u32. lia.
    + loads. apply ld32_st32_eq. unfold is_u32. lia.
    + constructor; [|constructor]. unfold_layout. lia.
    + apply NoDup_singleton.
  - unfold status, pid, PCB_STATUS, PCB_PID, m8, m7, m6, m5, m4 in *. split; loads; [apply ld8_st8_eq|]. rewrite Hpid.
    unfold m2, m1, pcb_next_pid. loads. reflexivity.
  - unfold ptext, pdata, m8, m7, m6, m5, m4. split; loads; apply ld32_st32_eq; unfold is_u32; lia.
  - reflexivity.
  - assert (Hb3 : Forall (same_block m m3) (blocks h)).
    { eapply blocks_framed; [| |eapply blocks_framed; [| |exact Hbl]]; auto; unfold outside, heap_end; lia. }
    unfold m8, m7, m6, m5, m4. apply blocks_st32; [exact Hhb|unfold outside, data_end; lia|].
    do 3 (apply (blocks_new32 (q, 172)); [exact Hqb|cbn; lia|cbn; lia|]). apply (blocks_new (q, 172)); [exact Hqb|cbn; lia|cbn; lia|exact Hb3].
Qed.

(** ** The last steps of exit *)

(** Where the parent [p] waits for the process that exits, T0 still holds the parent, which [get_pcb_from_id] left there, and the
    parent is given to [reap_child] as both of its arguments: the block that [slab_free] gets is the waiting parent's,
    and the exit code the parent finds is its own. *)
Theorem exit_reaps_parent r m s p ra : loaded m -> pcb_ok p -> r 10 = p -> r 5 = p -> stack_ok (r 2 + 4) 4 -> ld32 m (r 2) = ra -> 
  status m p = STATE_BLOCKED -> ld8 m (p + 168) = 1 ->
  runs_to (fun d => pc d = at_slab_free /\ regs d 10 = pcb_slab_head /\ regs d 11 = p /\ regs d 1 = ra /\
    mem d = st32 m (p + slot 10) (ld8 m (p + 166))) (Cpu r m s 1940).
Proof.
  intros Hm Hp H10 H5 Hsp Hra Hst Hw. unfold status, STATE_BLOCKED in *. change (slot 10) with 32. unfold_layout.
  cpu_step. rewrite H10. replace (p =? 0) with false by lia. cpu_step. cpu_step. rewrite H10, Hst. cpu_step. cbn [Z.eqb Pos.eqb negb].
  cpu_step. cpu_step. rewrite H10, Hw. cpu_step. cbn [Z.eqb Pos.eqb negb]. cpu_step. rewrite Hra. cpu_step. cpu_step. rewrite H5. cpu_step. cpu_step.
  cpu_step. cpu_step. set (m1 := st32 m _ _). assert (Hm1 : loaded m1) by (subst m1; loaded_tac). cpu_step. cpu_step. cpu_step. cpu_step. cpu_step.
  constructor. cbn. auto.
Qed.
