(* ===== verification/Layout.v ===== *)
(** * Structures shared by C and assembly

    The C code and the assembly declare the same structures twice, in the .h and in the
    .inc files of include/. Here are the C declarations, and the rule by which a compiler for
    the 32-bit RISC-V ABI places members: each at the next multiple of its alignment. The
    theorem compares with the symbols the assembler gives the .inc files. *)

From S2P Require Import Prelude KImage KCode.
From Stdlib Require Import String.
Local Open Scope list_scope.
Local Open Scope Z_scope.

(** ** Types of members *)

Inductive ctype : Type :=
| Byte
| Half
| Word                                      (** [int], [unsigned int] and pointers *)
| Array (t : ctype) (n : Z)
| Struct (members : list (string * ctype)).

Fixpoint align (t : ctype) : Z :=
  match t with
  | Byte => 1
  | Half => 2
  | Word => 4
  | Array t _ => align t
  | Struct ms => (fix go ms := match ms with [] => 1 | (_, t) :: ms => Z.max (align t) (go ms) end) ms
  end.

Definition round_up (a o : Z) : Z := (o + a - 1) / a * a.

(** The size of a type; of a structure, with its padding at the end. *)
Fixpoint size (t : ctype) : Z :=
  match t with
  | Byte => 1
  | Half => 2
  | Word => 4
  | Array t n => size t * n
  | Struct ms =>
      round_up (align t)
        ((fix go o ms := match ms with [] => o | (_, t) :: ms => go (round_up (align t) o + size t) ms end) 0 ms)
  end.

(** The members with their offsets. *)
Fixpoint offsets (o : Z) (ms : list (string * ctype)) : list (string * Z) :=
  match ms with
  | [] => []
  | (x, t) :: ms => let o := round_up (align t) o in (x, o) :: offsets (o + size t) ms
  end.

Definition members (t : ctype) : list (string * Z) := match t with Struct ms => offsets 0 ms | _ => [] end.

(** ** The declarations *)

Definition fields (t : ctype) (names : list string) : list (string * ctype) := map (fun x => (x, t)) names.

Local Open Scope string_scope.
Local Open Scope list_scope.

(* include/trap.h:2-33 trap_frame_t *)
Definition trap_frame_t : ctype := Struct (fields Word
  ["TF_RA"; "TF_GP"; "TF_TP"; "TF_T0"; "TF_T1"; "TF_T2"; "TF_S0"; "TF_S1"; "TF_A0"; "TF_A1"; "TF_A2"; "TF_A3"; "TF_A4"; "TF_A5";
   "TF_A6"; "TF_A7"; "TF_S2"; "TF_S3"; "TF_S4"; "TF_S5"; "TF_S6"; "TF_S7"; "TF_S8"; "TF_S9"; "TF_S10"; "TF_S11"; "TF_T3"; "TF_T4";
   "TF_T5"; "TF_T6"]).

(* include/process.h:13-17 memory_region_t *)
Definition memory_region_t : ctype := Struct (fields Word ["physical_base"; "region_size"; "reference_count"]).

(* include/process.h:19-46 pcb_t *)
Definition pcb_t : ctype := Struct ([("tf", trap_frame_t)] ++
  fields Word ["mepc"; "mstatus"; "mscratch"; "next"; "pname"; "brk"; "ptext_memory_region"; "pdata_memory_region";
               "parent_dir_cluster"; "pdata_start"; "heap_start"] ++
  fields Byte ["pid"; "ppid"; "exit_code"; "pstatus"; "wait_reason"]).

(* include/file.h:2-11 FILE *)
Definition FILE : ctype := Struct (fields Word
  ["fd"; "first_cluster"; "current_cluster"; "current_sector"; "current_byte"; "file_offset"; "file_size"] ++ fields Byte ["owner_pid"]).

(* include/fs_running_info.h:2-8 FS_RUN_INFO *)
Definition FS_RUN_INFO : ctype := Struct (fields Word
  ["FAT_BEGIN_LBA"; "FAT_SECTOR_COUNT"; "CLUSTER_BEGIN_LBA"; "ROOT_DIR_FIRST_CLUSTER"] ++ fields Byte ["SECTORS_PER_CLUSTER"]).

(* include/fat_directory.h:7-25 FAT_DIRECTORY *)
Definition FAT_DIRECTORY : ctype := Struct ([("DIR_Name", Array Byte 11)] ++
  fields Byte ["DIR_Attr"; "DIR_NTRes"; "DIR_CrtTimeTenth"] ++
  fields Half ["DIR_CrtTime"; "DIR_CrtDate"; "DIR_LstAccDate"; "DIR_FstClusHI"; "DIR_WrtTime"; "DIR_WrtDate"; "DIR_FstClusLO"] ++
  fields Word ["DIR_FileSize"]).

(* include/fat_lfn.h:6-15 LONG_FILE_NAME *)
Definition LONG_FILE_NAME : ctype := Struct
  [("LDIR_Ord", Byte); ("LDIR_Name1", Array Byte 10); ("LDIR_Attr", Byte); ("LDIR_Type", Byte); ("LDIR_Chksum", Byte);
   ("LDIR_Name2", Array Byte 12); ("LDIR_FstClusLO", Half); ("LDIR_Name3", Array Byte 4)].

(** ** The symbols of the assembly *)

(** The symbol of each member, in order, and of the size. *)
Definition symbols_of : list (ctype * list string * string) :=
  [(trap_frame_t, map fst (members trap_frame_t), "TRAP_FRAME_SIZE");
   (memory_region_t, ["MEMORY_REGION_PHYSICAL_BASE"; "MEMORY_REGION_SIZE"; "MEMORY_REGION_REF_COUNT"], "MEMORY_REGION_STRUCT_SIZE");
   (pcb_t, ["TF_RA"; "PCB_MEPC"; "PCB_MSTATUS"; "PCB_MSCRATCH"; "PCB_NEXT"; "PCB_PNAME"; "PCB_BRK"; "PCB_PTEXT_MEMORY_REGION";
            "PCB_PDATA_MEMORY_REGION"; "PCB_PARENT_DIR_CLUSTER"; "PCB_PDATA_START"; "PCB_PHEAP_START"; "PCB_PID"; "PCB_PPID";
            "PCB_EXIT_CODE"; "PCB_STATUS"; "PCB_WAIT_REASON"], "PCB_SIZE");
   (FILE, ["FILE_DESCRIPTOR"; "FILE_FIRST_CLUSTER"; "FILE_CURRENT_CLUSTER"; "FILE_CURRENT_SECTOR"; "FILE_CURRENT_BYTE_NO";
           "FILE_CURRENT_OFFSET"; "FILE_SIZE"; "FILE_OWNER_PID"], "FILE_STRUCT_SIZE");
   (FS_RUN_INFO, map fst (members FS_RUN_INFO), "FS_RUN_INFO_STRUCT_SIZE");
   (FAT_DIRECTORY, map fst (members FAT_DIRECTORY), "FAT_DIR_STRUCT_SIZE");
   (LONG_FILE_NAME, map fst (members LONG_FILE_NAME), "LDIR_STRUCT_SIZE")].

(** C and assembly agree on a structure: every member and the size. *)
Definition agrees (e : ctype * list string * string) : Prop :=
  let '(t, names, total) := e in
  map value names = map (fun m => Some (snd m)) (members t) /\ value total = Some (size t).

(* include/process.h:5-11 STATE_UNUSED *)
Definition process_constants : list (string * Z) :=
  [("STATE_UNUSED", 0); ("STATE_READY", 1); ("STATE_RUNNING", 2); ("STATE_BLOCKED", 3); ("STATE_ZOMBIE", 4); ("STACK_SIZE", 8192)].

(** C26: C and assembly agree on every structure they share: on the place of every member and on the size.
    They agree on the constants of process.h too, but for STATE_ZOMBIE, which in the assembly
    is STATE_BLOCKED. *)
Theorem layouts_agree : Forall agrees symbols_of /\
  Forall (fun e => value (fst e) = Some (snd e) <-> fst e <> "STATE_ZOMBIE") process_constants /\
  value "STATE_ZOMBIE" = value "STATE_BLOCKED".
Proof.
  unfold agrees, value. rewrite symbols_ok. split; [|split; [|vm_compute; reflexivity]];
    repeat apply Forall_cons_2; try apply Forall_nil_2; vm_compute; auto; split; congruence.
Qed.
