(* ===== verification/Init.v ===== *)
(** * The small user programs

    The programs init, hello and hello1 of user/user_programs/, as interaction trees over
    the system calls and library functions they use. What those answer is up to the
    environment; [exit] does not return. *)

From Stdlib Require Import ZArith Lia List String Ascii.
From ITree Require Import ITree ITreeFacts.
From Paco Require Import paco.
Import ITreeNotations ListNotations.
Local Open Scope itree_scope.
Local Open Scope list_scope.
Local Open Scope Z_scope.

Variant osE : Type -> Type :=
| Fork : osE Z
| Execv (path : string) : osE Z
| Wait : osE Z
| Perror (s : string) : osE unit
| Printf (s : string) : osE Z
| Write (fd : Z) (bytes : list Z) : osE Z
| Exit (code : Z) : osE void.

Definition exit {A} (code : Z) : itree osE A := v <- ITree.trigger (Exit code) ;; match v : void with end.

(** [while (1) wait(NULL);] *)
(* user/user_programs/init/main.c:20-22 main *)
Definition reap : itree osE Z := ITree.iter (fun _ : unit => ITree.trigger Wait ;; Ret (inl tt)) tt.

(* user/user_programs/init/main.c:6-25 main *)
Definition init_main : itree osE Z :=
  pid <- ITree.trigger Fork ;;
  (if pid <? 0 then ITree.trigger (Perror "fork") ;; exit 1 else Ret tt) ;;
  (if pid =? 0 then ITree.trigger (Execv "/hello") ;; exit 1 else Ret tt) ;;
  reap.

(* user/user_programs/hello/main.c:4-7 main *)
Definition hello_main : itree osE Z := ITree.trigger (Printf "Hello, World!") ;; Ret 0.

(** The array holds the string and its NUL. *)
(* user/user_programs/hello1/main.c:4-8 main *)
Definition hello1_main : itree osE Z :=
  let a := List.map (fun c => Z.of_N (N_of_ascii c)) (list_ascii_of_string "Hello, World") ++ [0] in
  ITree.trigger (Write 0 a) ;; Ret 0.

(** ** Waiting forever *)

(** One step of a process that does nothing but wait. *)
Inductive waits_gen (r : itree osE Z -> Prop) : itree' osE Z -> Prop :=
| waits_tau t : r t -> waits_gen r (TauF t)
| waits_vis k : (forall x, r (k x)) -> waits_gen r (VisF Wait k).

Definition waits_ (r : itree osE Z -> Prop) (t : itree osE Z) : Prop := waits_gen r (observe t).

Lemma waits_mono : monotone1 waits_.
Proof. intros t r r' H Hr. unfold waits_ in *. destruct H; constructor; auto. Qed.
#[local] Hint Resolve waits_mono : paco.

Definition waits (t : itree osE Z) : Prop := paco1 waits_ bot1 t.

Lemma reap_waits : waits reap.
Proof.
  unfold waits. pcofix CIH. pfold. unfold waits_. cbn. constructor. intros x. left.
  pfold. unfold waits_. cbn. constructor. right. exact CIH.
Qed.

Lemma waits_observe t t' : observe t = observe t' -> waits t -> waits t'.
Proof. intros He H. punfold H. pfold. unfold waits_ in *. rewrite <- He. exact H. Qed.

Lemma exit_bind {A B} code (k : A -> itree osE B) : (x <- exit code ;; k x) ≅ exit code.
Proof. unfold exit. rewrite bind_bind. apply eqit_bind; [reflexivity|]. intros []. Qed.

Lemma waits_ret x : ~ waits (Ret x).
Proof. intros H. punfold H. inversion H. Qed.

(** [init] forks. Where the fork fails it reports and exits with 1; the child runs /hello and exits with 1
    when it comes back, whatever the answer; the parent waits for ever, and never returns. *)
Theorem init_behaves : exists k, init_main ≅ Vis Fork k /\
  (forall pid, pid < 0 -> k pid ≅ (ITree.trigger (Perror "fork") ;; exit 1)) /\
  k 0 ≅ (ITree.trigger (Execv "/hello") ;; exit 1) /\
  (forall pid, 0 < pid -> waits (k pid)).
Proof.
  eexists. split; [|split; [|split]].
  - unfold init_main. rewrite bind_trigger. reflexivity.
  - intros pid Hp. cbv beta. replace (pid <? 0) with true by lia.
    rewrite bind_bind. apply eqit_bind; [reflexivity|]. intros []. apply exit_bind.
  - cbv beta. cbn [Z.ltb Z.eqb Z.compare]. rewrite bind_ret_l, bind_bind.
    apply eqit_bind; [reflexivity|]. intros x. apply exit_bind.
  - intros pid Hp. cbv beta. replace (pid <? 0) with false by lia. replace (pid =? 0) with false by lia.
    apply (waits_observe reap); [reflexivity|exact reap_waits].
Qed.
