(* ===== verification/KDemo.v ===== *)
(** * The kernel's code at concrete states *)

From S2P Require Import Prelude Mem KWorld RvaIsa KImage Cpu KCode KSched KSwitch KFair KTrips KProc KLib KTrap KSys KPreempt KCalls KSegment KFork KExec.

(** The memory after the image was loaded over zeros. *)
Definition boot : memory := load_words image_now ∅.

Lemma loaded_boot : loaded boot.
Proof. apply loaded_check. rewrite image_ok. vm_compute. reflexivity. Qed.

Definition store_words (ws : list (Z * Z)) (m : memory) : memory := foldl (fun m '(a, v) => st32 m a v) m ws.

Lemma loaded_words ws m : loaded m -> Forall (fun p => code_end <= fst p) ws -> loaded (store_words ws m).
Proof.
  intros Hm H. revert m Hm. induction H as [|[a v] ws Ha _ IH]; intros m Hm; [exact Hm|].
  apply IH, loaded_st32; [exact Hm|]. apply no_code_data, Ha.
Qed.

(** Two processes, at 4096 and 4352, that share a text region; the first is current and
    both are ready. *)
Definition two_processes : memory :=
  store_words [(current_pcb, 4096); (4096 + 132, 4352); (4096 + 144, 8000); (4096 + 148, 8012); (4096 + 164, 0x01000001);
               (4352 + 132, 4096); (4352 + 144, 8000); (4352 + 148, 8024); (4352 + 164, 0x01000102); (4096 + 120, 32);
               (4352 + 120, 64); (8000, 0x40000); (8004, 4096); (8008, 2); (8012, 0x42000); (8016, 8192); (8020, 1); (8024, 0x44000);
               (8028, 8192); (8032, 1)]
    boot.

Definition some_regs (x : Z) : Z := match x with 1 => 836 | 2 => 16000 | 8 => 7 | 10 => 4096 | _ => 0 end.

Definition zero_csrs (x : Z) : Z := 0.

Ltac demo_words :=
  let x := fresh "x" in intros x; unfold some_regs, is_u32; repeat case_match; lia.
Ltac demo := vm_compute; repeat split; congruence.

Lemma loaded_two : loaded two_processes.
Proof. apply loaded_words; [exact loaded_boot|]. unfold code_end, current_pcb. repeat apply Forall_cons_2; try apply Forall_nil_2; cbn; lia. Qed.

Lemma processes_two : Forall (process_ok two_processes) [4096; 4352].
Proof. repeat constructor; demo. Qed.

Lemma ring_two : ring two_processes (current two_processes) [4352].
Proof.
  split; [demo|]. split; [repeat constructor; demo|]. change (current two_processes) with (ld32 two_processes 2276).
  replace (ld32 two_processes 2276) with 4096 by (vm_compute; reflexivity). apply NoDup_cons. split; [set_solver|].
  apply NoDup_singleton.
Qed.


(** ** Context switches *)

Definition regs10 (v : Z) : Z -> Z := upd some_regs 10 v.

Lemma at_switch_two v : at_switch (Cpu (regs10 v) two_processes zero_csrs 160).
Proof. unfold at_switch. cbn [pc regs mem csrs]. conjs; [reflexivity|exact loaded_two|demo|demo|demo]. Qed.

Lemma process_first : process_ok two_processes 4096.
Proof. exact (Forall_inv processes_two). Qed.

Lemma process_second : process_ok two_processes 4352.
Proof. exact (Forall_inv (Forall_inv_tail processes_two)). Qed.

Lemma first_current : current two_processes = 4096.
Proof. vm_compute. reflexivity. Qed.

Lemma context_switch_spec_witness :
  runs_to (switched (regs10 4352) two_processes zero_csrs 4352) (Cpu (regs10 4352) two_processes zero_csrs 160).
Proof.
  apply (context_switch_spec (regs10 4352)); [apply at_switch_two|right; exact process_second|right|]; rewrite first_current.
  - apply process_first.
  - discriminate.
Defined.

Lemma idle_round_trip_witness :
  runs_to (fun d => pc d = 836 /\ csrs d MEPC = kernel_idle_task /\ ld8 (mem d) kidle = 1 /\
    forall c, back_to 4096 d c -> runs_to (resumed 4096 0 0 0) c) (Cpu (regs10 0) two_processes zero_csrs 160).
Proof.
  apply (idle_round_trip (regs10 0) two_processes zero_csrs 4096);
    [apply at_switch_two|reflexivity|exact first_current|discriminate|exact process_first|demo|demo].
Defined.

Lemma preempted_process_restarts_witness :
  runs_to (fun d => pc d = 836 /\ current (mem d) = 4352 /\
    forall c, back_to 4096 d c -> runs_to (resumed 4096 0 0 0) c) (Cpu (regs10 4352) two_processes zero_csrs 160).
Proof.
  apply (preempted_process_restarts (regs10 4352) two_processes zero_csrs 4096 4352);
    [apply at_switch_two|reflexivity|discriminate|exact process_second|exact first_current|exact process_first| | |demo].
  - right. unfold apart, PCB_SIZE. lia.
  - vm_compute. reflexivity.
Defined.

(** ** Traps *)

Definition trap_csrs (x : Z) : Z := match x with 0x340 => 16000 | 0x341 => 52 | 0x342 => 8 | _ => 0 end.

Lemma trap_frame_round_trip_witness :
  runs_to (fun d => trapped some_regs two_processes trap_csrs 4096 d /\ (forall q c, handled q c -> runs_to (continues q c) c) /\
    (forall c, handled 4096 c -> same_on 4096 4216 (mem d) (mem c) -> csrs c MSCRATCH = 16000 ->
      runs_to (fun e => pc e = csrs c MEPC /\ forall x, In x (2 :: framed) -> regs e x = some_regs x) c))
    (Cpu some_regs two_processes trap_csrs 920).
Proof.
  apply (trap_frame_round_trip some_regs two_processes trap_csrs 4096);
    [exact loaded_two|demo_words|exact first_current|apply process_first|vm_compute; reflexivity|demo].
Defined.

Definition holds_tables (ws : list Z) (m : memory) : bool :=
  forallb (fun i => ld32 m (4 * i) =? nth (Z.to_nat (4 * i / 4)) ws 0) (seqZ 529 40).

Lemma tables_two : tables two_processes.
Proof.
  assert (H : holds_tables image_now two_processes = true) by (vm_compute; reflexivity).
  constructor. intros a Ha Ha4. unfold code_end, current_pcb in Ha. rewrite word_at_now. apply Z.eqb_eq.
  unfold holds_tables in H. rewrite List.forallb_forall in H. specialize (H (a / 4)).
  replace (4 * (a / 4)) with a in H by dlia. apply H. apply list_elem_of_In, elem_of_seqZ. dlia.
Qed.

Lemma syscall_dispatch_witness :
  map (fun n => Some (syscall n)) (seqZ 0 ECALL_MAX_INDEX) = map (fun e => value (snd e)) ecall_table_list /\
  runs_to (called (upd some_regs 17 7) two_processes trap_csrs) (Cpu (upd some_regs 17 7) two_processes trap_csrs 1236).
Proof.
  apply (syscall_dispatch (upd some_regs 17 7) two_processes trap_csrs);
    [exact loaded_two|exact tables_two|unfold upd; demo_words|demo|demo|demo|reflexivity].
Defined.

(** A timer interrupt out of the first process. *)
Definition timer_csrs (x : Z) : Z := match x with 0x340 => 16000 | 0x341 => 52 | 0x342 => TIMER_CAUSE | _ => 0 end.

Lemma timer_preempts_witness :
  runs_to (fun d => at_pump some_regs 4096 16000 d /\
    forall l q c, separate (4096 :: l) -> pumped 4096 l d c -> pick (mem c) 4096 l = q -> q <> 0 -> runs_to (preempted_by q (mem c)) c)
    (Cpu some_regs two_processes timer_csrs 920).
Proof.
  apply (timer_preempts some_regs two_processes timer_csrs 4096);
    [exact loaded_two|exact tables_two|demo_words|exact first_current|apply process_first|vm_compute; reflexivity|demo|reflexivity].
Defined.

(** ** Processes by number *)

Definition pcbs_two : gmap Z pcb_t := {[4096 := Pcb 0 32 0 4352 0 8000 8012 0 0 0 1 1; 4352 := Pcb 0 64 0 4096 0 8000 8024 0 0 0 2 1]}.
Definition world_two : world :=
  World ∅ (IoSched 0 0 0 SCHED_IDLE) (Ring 0 0 (replicate 8 0)) SD_STATE_IDLE 0 (FsRunInfo 0 0 0 0 0) 4096 ∅ ∅ ∅ ∅ ∅ ∅ ∅ pcbs_two ∅ [] [].

Lemma mirrors_two : mirrors two_processes world_two 4096 [4352].
Proof.
  unfold mirrors. conjs; [exact first_current|reflexivity|rewrite <- first_current at 1; exact ring_two|].
  repeat apply Forall_cons_2; try apply Forall_nil_2; eexists; (split; [vm_compute; reflexivity|]); unfold pcb_in; conjs; vm_compute; reflexivity.
Qed.

Lemma get_pcb_refines_witness :
  exists p, KWorld.get_pcb_from_id 2 world_two = Ok (p, world_two) /\
    runs_to (returns (regs10 2) two_processes zero_csrs p) (Cpu (regs10 2) two_processes zero_csrs 1512).
Proof.
  apply (get_pcb_refines (regs10 2) two_processes zero_csrs world_two 4096 [4352]); [exact loaded_two|demo|exact mirrors_two].
Defined.

(** ** Copying *)

(** 12 bytes from a region of the heap to another. *)
Definition copy_regs (x : Z) : Z := match x with 1 => 836 | 2 => 16000 | 10 => 8000 | 11 => 9000 | 12 => 12 | _ => 0 end.

Lemma memcpy_copies_witness :
  runs_to (fun c => done copy_regs zero_csrs 9000 c /\
    (forall i, 0 <= i < 12 -> ld8 (mem c) (9000 + i) = ld8 two_processes (8000 + i)) /\
    (forall x, x < 9000 \/ 9012 <= x -> ld8 (mem c) x = ld8 two_processes x)) (Cpu copy_regs two_processes zero_csrs 596).
Proof.
  apply (memcpy_copies copy_regs two_processes zero_csrs);
    [exact loaded_two|intros x; unfold copy_regs, is_u32; repeat case_match; lia|demo|demo|demo|demo|right; demo].
Defined.

(** ** Fork *)

Definition held_two : holdings :=
  Holdings [(4096, PCB_SIZE); (4352, PCB_SIZE); (8000, 12); (8012, 12); (8024, 12)] [(0x40000, 4096); (0x42000, 8192); (0x44000, 8192)].

(** Blocks in pairs, compared one by one. *)
Definition all_apart (bs : list block) : bool :=
  forallb (fun a => forallb (fun b => bool_decide (a = b) || (fst a + snd a <=? fst b) || (fst b + snd b <=? fst a)) bs) bs.

Lemma all_apart_ok bs : all_apart bs = true -> forall a b, a ∈ bs -> b ∈ bs -> a = b \/ beside a b.
Proof.
  unfold all_apart. rewrite List.forallb_forall. intros H a b Ha Hb. apply list_elem_of_In in Ha, Hb. specialize (H a Ha).
  rewrite List.forallb_forall in H. specialize (H b Hb). unfold beside. apply orb_true_iff in H. destruct H as [H|H]; [|right; lia].
  apply orb_true_iff in H. destruct H as [H|H]; [left; apply bool_decide_eq_true in H; exact H|right; lia].
Qed.

Lemma held_in_heap : Forall in_heap (blocks held_two).
Proof. repeat apply Forall_cons_2; try apply Forall_nil_2; demo. Qed.

Lemma forkable_two : forkable some_regs two_processes held_two.
Proof.
  constructor.
  - exact loaded_two.
  - demo.
  - demo.
  - demo.
  - exact held_in_heap.
  - apply all_apart_ok. vm_compute. reflexivity.
  - apply list_elem_of_In. cbn. auto.
  - replace (ptext _ _) with 8000 by (vm_compute; reflexivity). apply list_elem_of_In. cbn. auto.
  - replace (pdata _ _) with 8012 by (vm_compute; reflexivity). apply list_elem_of_In. cbn. auto.
  - vm_compute. discriminate.
Qed.


(** The second process's data, which no other process has, is released. *)
Definition release_regs : Z -> Z := regs10 8024.

Lemma release_counts_witness :
  runs_calls (fun h' c => pc c = 836 /\ kept release_regs (regs c) /\
    if region_count two_processes 8024 =? 1
    then h' = Holdings [(4096, PCB_SIZE); (4352, PCB_SIZE); (8000, 12); (8012, 12)] [(0x40000, 4096); (0x42000, 8192)] /\
      Forall (same_block two_processes (mem c)) [(4096, PCB_SIZE); (4352, PCB_SIZE); (8000, 12); (8012, 12)]
    else h' = held_two /\ mem c = st32 two_processes (8024 + 8) (u32 (region_count two_processes 8024 - 1)))
    held_two (Cpu release_regs two_processes zero_csrs 1416).
Proof.
  apply (release_counts release_regs two_processes zero_csrs held_two); [exact loaded_two|demo|demo|demo|exact held_in_heap| |].
  - replace (region_base _ _, _) with (0x44000, 8192) by (vm_compute; reflexivity). apply list_elem_of_In. cbn. auto.
  - apply list_elem_of_In. cbn. do 4 right. left. reflexivity.
Defined.

Lemma kexecve_starts_witness :
  runs_calls (fun h' c => number_at_null c \/ exists q, starting some_regs boot zero_csrs (Holdings [] []) q h' c) (Holdings [] [])
    (Cpu some_regs boot zero_csrs 2036).
Proof. apply kexecve_starts; [exact loaded_boot|demo|demo|demo|constructor]. Defined.
