(* ===== verification/DText.v ===== *)
(** * The sources of the drivers and of the file system's assembly

    The text of the assembly files that DImage.v has assembled: boot, the drivers, the lowest layer of
    the file system, the terminal and the allocator of user memory. As in KText.v a list is a file, a
    string a line, and the one line that holds a double quote, an [#include], is left out. *)

From Stdlib Require Import String List.
Import ListNotations.
Local Open Scope string_scope.

(* boot/boot.s:1-66 boot *)
Definition boot_s : list string := [
  ";-----------------------------------------------------";
  "; ";
  "; H. Foster";
  "; Version 1.0";
  "; 6th Feburary 2025";
  ";";
  "; This is the boot code for RiscyOS";
  ";";
  "; Last modified: 6/2/26 (HWF)";
  ";";
  "; Known bugs: None";
  ";";
  ";-----------------------------------------------------";
  "";
  "boot:";
  "    la      sp, kernel_stack_base   ; Load address of kernel stack into stack pointer (SP)";
  "";
  "    li      t0, 0x0000_1800         ; MPP mask (Machine Previous Privilege) bits 12 and 11";
  "    csrc    MSTATUS, t0             ; Clear MPP bits sets next privilege level to User mode";
  "";
  "    la      t0, mhandler            ; Load address of machine trap handler";
  ";		ori			t0, t0, 1								; enable vectored interrupts";
  "    csrw    MTVEC, t0               ; Set trap vector base address to mhandler";
  "";
  "";
  "    li      t0, (0x800|(1<<7))              ; Bit 11: enable Machine External Interrupt";
  "    csrs    MIE, t0                 ; Set corresponding bit in Machine Interrupt Enable register";
  "";
  "    li      t0, 0x80                ; Bit 7: global Machine Interrupt Enable (MSTATUS.MIE)";
  "    csrs    MSTATUS, t0             ; Enable global machine-level interrupts";
  "";
  "    li      t0, INT_CONTROLLER_BASE ; Load base address of interrupt controller";
  "    li      t1, PERIPHERAL_ENABLE_BITMASK  ; Interrupt enable mask (device-specific value) [][][][][User]";
  "    sw      t1, INT_ENABLE[t0]      ; Enable interrupt source in interrupt controller";
  "    sw      zero, 12[t0]            ; Clear/acknowledge any pending interrupts";
  "";
  "		call kheap_init									; Initalise the kernel heap";
  "    call k_slab_init                ; Initalise the slabs with queues within each one";
  "		call ualloc_init								; initalise the user-space allocator";
  "		; reset the pid allocator";
  "		la t0, pcb_next_pid";
  "		li t1, 1";
  "		sw t1, [t0]";
  "";
  "    la t0, kidle";
  "    sb zero, [t0]";
  "";
  "		call tty_init										; initalise serial read/write";
  "		call mmu_init										; enable mmu";
  "    call spi_init										; Initise the spi configuration";
  "    call sd_init										; Set up and send sd commands";
  "    call fat_init";
  "";
  "		; create init process";
  "		la a0, proc_init";
  "		call kexecve";
  "";
  "  ";
  "    #if DEBUG==1";
  "      la t0, kernel_stack_base";
  "      bne sp, t0, .                   ; catch a stack leak";
  "    #endif";
  "  ";
  "    csrw    MSCRATCH, sp            ; Save kernel stack pointer in MSCRATCH for trap handler use";
  "";
  "    call schedule"].

(* include/mbr.inc:1-11 mbr *)
Definition mbr_inc : list string := [
  "MBR_SIGNATURE EQU 0xaa55";
  "";
  "; The master boot record on a storage device";
  "STRUCT";
  "BOOTSTRAP_CODE_AREA BYTE 446";
  "PARTITION_ENTRY_1 BYTE 16";
  "PARTITION_ENTRY_2 BYTE 16";
  "PARTITION_ENTRY_3 BYTE 16";
  "PARTITION_ENTRY_4 BYTE 16";
  "BOOT_SIGNATURE BYTE 2";
  "MASTER_BOOT_RECORD_SIZE ALIAS"].

(* include/partition.inc:1-14 partition *)
Definition partition_inc : list string := [
  "PARTITION_STATUS_ACTIVE EQU 0x80";
  "PARTITION_STATUS_INACTIVE EQU 0x0";
  "";
  "";
  "PARTITION_TYPE_FAT EQU 0xB";
  "PARTITION_TYPE_FATX EQU 0xC";
  "";
  "STRUCT";
  "PARTITION_STATUS BYTE ; Note: 0x80 is active 0x0 is inactive and aything else is invalid";
  "PARTITION_FIRST_SECTOR_ADDRESS BYTE 3 ; the first absolute sector in partition";
  "PARTITION_TYPE BYTE ;";
  "PARTITION_LAST_SECTOR_ADDRESS BYTE 3 ; the first absolute sector in partition";
  "PARTITION_LBA_FIRST WORD";
  "PARTITION_SECTOR_COUNT WORD"].

(* include/bpb.inc:1-54 bpb *)
Definition bpb_inc : list string := [
  "; FAT Bios Paramater block";
  "FAT_BPB_SIGNATURE EQU 0xaa55";
  "";
  "; 0x0 - 0";
  "; 0x4 - 4";
  "; 0x8 - 8";
  "; 0xC - 12";
  "; 0x10- 16";
  "";
  "STRUCT";
  "; 0x0 - 0x2 ";
  "BS_jmpBoot BYTE 3";
  "";
  "; 0x3 - 0xA (INITAL BYTE NOT ALIGNED)";
  "BS_OEMName BYTE 8";
  "";
  "; 0xB - 0xC (LOAD HALF)";
  "BPB_BytsPerSec BYTE 2";
  "";
  "; 0xD - 0xD (LOAD BYTE)";
  "BPB_SecPerClus BYTE";
  "";
  "; 0xE - 0xF (LOAD HALF?)";
  "BPB_RsvdSecCnt BYTE 2 ; this is 1 for FAT 12 and 16 and typically 32 for FAT32";
  "";
  "; 0x10 - 0x12 (LOAD HALF)";
  "BPB_NumFATs BYTE ; this should be 2 but >= 1 is technically valid";
  "BPB_RootEntCnt BYTE 2 ; for FAT32 this should be 0";
  "BPB_TotSec16 BYTE 2";
  "BPB_Media BYTE ; this is legacy and unused";
  "BPB_FATSz16 BYTE 2 ; on FAT 32 this should be 0";
  "BPB_SecPerTrk BYTE 2";
  "BPB_NumHeads BYTE 2 ";
  "BPB_HiddSec BYTE 4";
  "BPB_TotSec32 BYTE 4 ; this must be non-zero";
  "; At this point the BPB becomes FAT-version specific";
  "; I am going to assume it is FAT 32 and only support that";
  "BPB_FATSz32 BYTE 4 ; count of sectors occupied by ONE FAT";
  "";
  "; Bits 0-3 -- Zero-based number of active FAT";
  "BPB_ExtFlags BYTE 2 ";
  "BPB_FSVer BYTE 2 ; FAT version";
  "BPB_RootClus BYTE 4 ; First cluster number of the root directory";
  "BPB_FSInfo BYTE 2 ; Sector of FSInfo structure in offset from top of the FAT32 volume";
  "BPB_BkBootSec BYTE 2 ; backup boot sector in offset from top of the FAT32 volume";
  "BPB_Reserved BYTE 12";
  "BS_DrvNum BYTE";
  "BS_Reserved BYTE";
  "BS_BootSig BYTE";
  "BS_VolID WORD";
  "BS_VolLab BYTE 11";
  "BS_FilSysType BYTE 8";
  "BS_BootCode32 BYTE 420";
  "BS_Sign BYTE 2 "].

(* kernel/fs/fs.s:1-235 fs *)
Definition fs_s : list string := [
  "; NOTE: This is FAT32 Only";
  "";
  "#include <mbr.inc>";
  "#include <partition.inc>";
  "#include <bpb.inc>";
  "#include <fs_running_info.inc>";
  "";
  "fs_running_info DEFS FS_RUN_INFO_STRUCT_SIZE";
  "ALIGN";
  "";
  "g_io_sched ; initalise the scheduler from include/io/sheduler";
  "DEFW 0x0, 0x0, 0x0, 0x0";
  "ALIGN";
  "";
  "fat_init:";
  "	addi sp, sp, -8  ";
  "	sw ra, 4[sp]";
  "	";
  "	; clear the g_io_sched";
  "	la t0, g_io_sched";
  "	sw zero, [t0]";
  "	sw zero, 4[t0]";
  "	sw zero, 8[t0]";
  "	sw zero, 12[t0]";
  "";
  "	; read the bpb";
  "	li a0, 0";
  "  ; write status";
  "  call sd_read_block_blocking";
  "";
  "  ; data should now be in the RX 512 byte buffer";
  "  ; parse master boot record ";
  "  li t0, SPI_BASE + SPI_RX_RAM";
  "  ";
  "  ; check mbr signature integrity";
  "  lhu t1, BOOT_SIGNATURE[t0]";
  "  li t2, MBR_SIGNATURE";
  "  bne t1, t2, mbr_invalid";
  "  addi t1, t0, PARTITION_ENTRY_1";
  "  ; check partition is valid";
  "  lbu t2, PARTITION_STATUS[t1]";
  "  li t3, PARTITION_STATUS_ACTIVE";
  "  bne t2, t3, mbr_invalid";
  "";
  "  ; Check the partition type is";
  "  ; FAT is 0xB or 0xC";
  "  lbu t2, PARTITION_TYPE[t1]";
  "  subi t2, t2, PARTITION_TYPE_FAT";
  " li t3, 1";
  "  bgtu t2, t3, mbr_invalid";
  "  ";
  "  ; load the logical block of the parition";
  "  lhu a0, PARTITION_LBA_FIRST[t1] ; need to load half because it is not aligned because it is a 16 bit system";
  "  lhu t0, (PARTITION_LBA_FIRST+2)[t1]";
  "  slli t0, t0, 16 ; shift up";
  "  add a0, a0, t0";
  "  sw a0, [sp] ; save the partion_begin";
  "";
  "  ; read the FAT bpb";
  "  call sd_read_block_blocking";
  "  ; the bpb should be in the RX buffer";
  "  li t0, SPI_BASE + SPI_RX_RAM";
  "";
  "  ; check BS_Sign ";
  "  li t1, FAT_BPB_SIGNATURE";
  "  lhu t2, BS_Sign[t0]";
  "  bne t1, t2, bpb_invalid";
  "  ";
  "  ; make sure bytes per sector is 512 (if it is not then fail)";
  "  li t1, 512";
  "  lbu t2, BPB_BytsPerSec[t0]";
  "  lbu t3, (BPB_BytsPerSec+1)[t0]";
  "  slli t3, t3, 8 ; shift up";
  "  add t2, t2, t3";
  "  bne t1, t2, bpb_invalid";
  "";
  "  ; fill out run time struct";
  "  ; t0 - pointer tp bpb";
  "  ; t1 - pointer to run-time struct";
  "  ; t2 - partiton_begin LBA";
  "  ; t3 - number of reserved sectors";
  "  ; t4 - number of fats";
  "  ; t5 - number of sectors per fat";
  "  ; t6 - root cluster ";
  "  la t1, fs_running_info";
  "  lw t2, [sp]";
  "";
  "  lhu t3, BPB_RsvdSecCnt[t0]";
  "  lbu t4, BPB_NumFATs[t0]";
  "";
  "	; these should be aligned";
  "  lw t5, BPB_FATSz32[t0]";
  "  lw t6, BPB_RootClus[t0]";
  "  ";
  "  lbu t0, BPB_SecPerClus[t0]";
  "  sb t0, SECTORS_PER_CLUSTER[t1]";
  "";
  "  ; calculate fat begin";
  "  add t0, t2, t3";
  "  sw t0, FAT_BEGIN_LBA[t1]";
  "";
  "  ; calculate cluster begin";
  "  mul t4, t4, t5";
  "  add t0, t0, t4";
  "  sw t0, CLUSTER_BEGIN_LBA[t1]";
  "  ";
  "  sw t5, FAT_SECTOR_COUNT[t1]";
  "  sw t6, ROOT_DIR_FIRST_CLUSTER[t1]";
  "";
  "  mbr_invalid:";
  "  bpb_invalid:";
  "";
  "	lw ra, 4[sp]";
  "	addi sp, sp, 8";
  "  ret";
  "";
  "sd_read_block_blocking:";
  "  addi sp, sp, -4";
  "  sw ra, [sp]";
  "	call sd_start_read";
  "  ; TODO: Parse a0 (res1 for failure)";
  "  ";
  "  li t2, (1<<IRQ_STATUS_BLOCK_BIT)";
  "	li t0, SPI_BASE";
  "  call  spi_poll_interrupt";
  "";
  "  call sd_tail_read";
  "  lw ra, [sp]";
  "  addi sp, sp, 4";
  "  ret";
  "";
  "; a0 cluster number";
  "; LBA = CLUSTER_BEGIN_LBA + (cluster - 2) * SECTORS_PER_CLUSTER";
  "cluster_to_lba:";
  "  la t0, fs_running_info";
  "  lw t1, CLUSTER_BEGIN_LBA[t0]";
  "  lbu t2, SECTORS_PER_CLUSTER[t0]";
  "  addi a0, a0, -2 ";
  "  mul a0, a0, t2";
  "  add a0, a0, t1";
  "  ret";
  "";
  "; this is here because i want to save on space and not store both a cluster and sector";
  "lba_to_cluster:";
  "  la t0, fs_running_info";
  "  lw t1, CLUSTER_BEGIN_LBA[t0]";
  "  lbu t2, SECTORS_PER_CLUSTER[t0]";
  "";
  "	sub a0, a0, t1";
  "  div a0, a0, t2";
  "  addi a0, a0, 2 ";
  "  ret";
  "";
  "lba_to_sector:";
  "  addi sp, sp, -4";
  "  sw ra, [sp]";
  "";
  "  mv t3, a0  ; t3 is not used by either functions";
  "  call lba_to_cluster";
  "";
  "  ; a0 has a cluster num";
  "  call cluster_to_lba";
  "  ; a0 is now the lba of the start of the cluster ";
  "  sub a0, s0, a0 ; this will give us the lba difference which is the sector number";
  "";
  "  lw ra, [sp]";
  "  addi sp, sp, 4";
  "  ret";
  "";
  "; a0 - current directory";
  "dir_lookup:";
  "";
  "dir_parse:";
  "";
  "";
  "; this will read the fat table into memory";
  "; update the next cluster info as well as if it is the last cluster ";
  "; void fat_read(cluster_num) ";
  "fat_calcualte_lba:";
  "  la t0, fs_running_info";
  "	lw t1, FAT_BEGIN_LBA[t0]";
  "	lw t2, FAT_SECTOR_COUNT[t0]";
  "	li t3, 512";
  "	div a0, a0, t3 ; cluster num / 512 (gets the sector which the cluster fat entry will be in)";
  "	add a0, a0, t1";
  "	bgt a0, t2, fat_read_fail";
  "";
  "	; start read operation";
  "	tail sd_start_read";
  "";
  "	fat_read_fail:";
  "	ret";
  "";
  "; NOTE: This is the second half of the fat_read operation where fat_read should of been previously called";
  "; and so the fat table should be in the sd buffer";
  "; a0 - current cluster";
  "get_next_cluster:";
  "  addi sp, sp, -8";
  "	sw a0, [sp]";
  "  sw ra, 4[sp]";
  "";
  "	call sd_tail_read";
  "	li t0, SPI_BASE+SPI_RX_RAM";
  "	li t1, 512";
  "	lw t2, [sp]";
  "";
  "	; calcualte the index within the sector of the cluster number";
  "	rem t2, t2, t1";
  "	add t1, t0, t2";
  "";
  "	lw a0, [t1]";
  "  ";
  "	lw ra, [sp]";
  "  addi sp, sp, 8";
  "  ret";
  "";
  "";
  "";
  "file_seek_ecall:";
  "";
  "";
  "; a0 - FILE*";
  "; a1 - new position";
  "file_seek:";
  "  la t0, fs_running_info";
  "	lw t1, SECTORS_PER_CLUSTER[t0]";
  "	lw t2, FILE_FIRST_CLUSTER[a0]";
  "	lw t3, FILE_SIZE[a0]";
  "	";
  "	li t4, 512";
  "	bgt a1, t3, file_seek_end";
  "";
  "	; (new position/512) - new sector";
  "file_seek_end:";
  "	ret"].

(* kernel/io/io.s:1-51 io *)
Definition io_s : list string := [
  "#include <process.inc>";
  "";
  "STDIN_FILENO EQU 0";
  "STDOUT_FILENO EQU 1";
  "STDERR_FILENO EQU 2";
  "STDLCD_FILENO EQU 3";
  "";
  "";
  "make_file_struct:";
  "	li a0, FILE_STRUCT_SIZE";
  "	tail kmalloc";
  "	// TODO: Make a manager so i can addd fd";
  "";
  "; int ecall_write(int fd, void* buf, uint32_t len)";
  "; since there is no file writing we just assume write requests are to serial";
  "ecall_write:";
  "addi sp, sp, -4";
  "sw ra, [sp]";
  "la a3, TTY_INFO";
  "lw a3, [a3]";
  "addi a3, a3, TTY_WRITE_QUEUE_HEAD";
  "call tty_make_request";
  "";
  "; if we get zero back then the request could not be made and we return failure";
  "; else the process is blocked as we call schedule";
  "lw ra, [sp]";
  "addi sp, sp, 4";
  "";
  "beqz a0, schedule";
  "la t0, current_pcb";
  "lw t0, [t0]";
  "sw zero, TF_A0[t0]";
  "ret";
  "";
  "; int ecall_read(int fd, void* buf, uint32_t len)";
  "ecall_read:";
  "call tty_make_request";
  "ret";
  "";
  "; fd open(path)";
  "ecall_open:";
  "	ret";
  "";
  "";
  "; fd open(path)";
  "ecall_close:";
  "	ret";
  "";
  "";
  "ecall_lseek:";
  "	ret"].

(* include/tty/tty.inc:1-18 tty *)
Definition tty_inc : list string := [
  "#pragma once ";
  "";
  "STRUCT";
  "RX_FIFO BYTE FIFO_STRUCT_SIZE";
  "ECHO_FIFO BYTE FIFO_STRUCT_SIZE";
  "";
  "TTY_WRITE_QUEUE_HEAD WORD";
  "TTY_READ_QUEUE_HEAD WORD";
  "STRUCT_ALIGN 4";
  "TTY_STRUCT_SIZE ALIAS";
  "";
  ";struct tty {";
  ";    fifo_t rx_fifo;";
  ";    fifo_t echo_fifo;";
  ";    queue_t waiting_writers;";
  ";    queue_t waiting_readers;";
  ";};"].

(* include/tty/rw_request.inc:1-8 rw_request *)
Definition rw_request_inc : list string := [
  "STRUCT";
  "USER_BUFFER WORD";
  "RW_NEXT_REQUEST WORD";
  "PROC_PCB WORD";
  "RW_BYTES_REQUESTED BYTE";
  "RW_BYTES_FUFILLED BYTE";
  "STRUCT_ALIGN";
  "RW_REQUEST_SIZE ALIAS"].

(* kernel/io/tty.s:1-204 tty *)
Definition tty_s : list string := [
  "#include <tty/tty.inc>";
  "#include <tty/rw_request.inc>";
  "; this is the layer which will be called by the serial layer and will be responsible for capturing user input";
  "; and echoing it back";
  "";
  "ECHO_QUEUE_SIZE EQU 30";
  "RX_QUEUE_SIZE EQU 100";
  "";
  "TTY_INFO DEFW 0x0";
  "; we are in init so s0 does not matter";
  "tty_init:";
  "	addi sp, sp, -4";
  "	sw ra, [sp]";
  "; create two queues tx and rx";
  "	li a0, TTY_STRUCT_SIZE";
  "	call kmalloc";
  "	la s0, TTY_INFO";
  "	sw zero, TTY_WRITE_QUEUE_HEAD[a0]";
  "	sw zero, TTY_READ_QUEUE_HEAD[a0]";
  "	sw a0, [s0]";
  "	mv s0, a0";
  "";
  "	li a0, RX_QUEUE_SIZE";
  "	sb zero, FIFO_HEAD[s0]";
  "	sb zero, FIFO_TAIL[s0]";
  "	sb a0, FIFO_SIZE[s0]";
  "	call kmalloc";
  "	sw a0, FIFO_BASE[s0]";
  "";
  "	addi s0, s0, ECHO_FIFO";
  "	li a0, ECHO_QUEUE_SIZE";
  "	sb zero, FIFO_HEAD[s0]";
  "	sb zero, FIFO_TAIL[s0]";
  "	sb a0, FIFO_SIZE[s0]";
  "	call kmalloc";
  "	sw a0, FIFO_BASE[s0]";
  "";
  "	lw ra, [sp]";
  "	addi sp, sp, 4	";
  "	ret";
  "";
  "tty_echo_backspace:";
  "	call fifo_enqueue";
  "	li a1, ' '";
  "	call fifo_enqueue";
  "	li a1, '\b'";
  "	lw ra, [sp]";
  "	addi sp, sp, 4";
  "	tail fifo_enqueue";
  "";
  "tty_echo_new_line:";
  "	li a1, '\r'";
  "	call fifo_enqueue";
  "	li a1, '\n'";
  "	lw ra, [sp]";
  "	addi sp, sp, 4";
  "	tail fifo_enqueue";
  "";
  "tty_enqueue_recieve:";
  "	addi sp, sp, -4";
  "	sw ra, [sp]";
  "	mv a1, a0";
  "	la a0, TTY_INFO";
  "	lw a0, [a0]";
  "	addi a0, a0, ECHO_FIFO";
  "";
  "	li t0, '\b'";
  "	beq a1, t0, tty_echo_backspace";
  "	li t0, '\n'";
  "	beq a1, t0, tty_echo_new_line";
  "	; else echo";
  "	call fifo_enqueue";
  "	lw t0, TTY_READ_QUEUE_HEAD-ECHO_FIFO[a0]";
  "	lw t0, [t0]";
  "	beqz t0, store_rx_fifo ; no read waiters";
  "	; there is someone wating - store in buffer and handle done";
  "	lw t1, USER_BUFFER[t0]";
  "	sb a1, [t1] ; store in user buffer";
  "	lbu t2, RW_BYTES_FUFILLED[t0]";
  "	lbu t3, RW_BYTES_REQUESTED[t0]";
  "	addi t2, t2, 1";
  "	beq t2, t3, user_read_request_fufilled";
  "";
  "	addi t1, t1, 1";
  "	sw t1, USER_BUFFER[t0]";
  "	sb t2, RW_BYTES_FUFILLED[t0]";
  "	addi sp, sp, -4";
  "	sw ra, [sp]";
  "	ret";
  "";
  "user_read_request_fufilled:";
  "	lw t4, PROC_PCB[t0]";
  "	sw t2, TF_A0[t4]";
  "	mv a0, t4";
  "	call unblock_process";
  "	addi sp, sp, -4";
  "	sw ra, [sp]";
  "	tail kfree";
  "";
  "store_rx_fifo:";
  "	addi a0, a0, -ECHO_FIFO";
  "	addi sp, sp, -4";
  "	sw ra, [sp]";
  "	tail fifo_enqueue";
  "";
  "";
  "tty_dequeue_write:";
  "	; try to get something from the echo";
  "	addi sp, sp, -8";
  "	sw s0, [sp]";
  "	sw ra, 4[sp]";
  "	la t0, TTY_INFO";
  "	lw s0, [t0]";
  "	addi a0, s0, ECHO_FIFO";
  "	call fifo_dequeue";
  "	bnez a0, tty_dequeue_write_end";
  "	lw a0, TTY_WRITE_QUEUE_HEAD[s0]";
  "	beqz a0, tty_dequeue_write_end";
  "	; increment count of user request";
  "	lw t0, USER_BUFFER[a0]";
  "	lbu t1, RW_BYTES_FUFILLED[a0]";
  "	lbu t2, RW_BYTES_REQUESTED[a0]";
  "	addi t1, t1, 1";
  "	beq t1,t2, user_write_request_fufilled";
  "	; increment buffer";
  "	lbu s0, [t0]";
  "	addi t0, t0, 1";
  "	sb t0, USER_BUFFER[a0]";
  "	sb t1, RW_BYTES_FUFILLED[a0]";
  "	mv a0, s0";
  "	j tty_dequeue_write_end";
  "	";
  "user_write_request_fufilled:";
  "	; modify  write head";
  "	lw t2, RW_NEXT_REQUEST[a0]";
  "	la t3, TTY_INFO";
  "	sw t2, [t3]";
  "	";
  "	; read user buffer";
  "	lbu s0, [t0]";
  "	; save the request pointer ";
  "	addi sp, sp, -4";
  "	sw s1, [sp]";
  "	mv s1, a0";
  "	lw a0, PROC_PCB";
  "	; update a0 to be the bytes fufilled";
  "	sw t1, TF_A0[a0]";
  "	call unblock_process";
  "	mv a0, s1";
  "	addi sp, sp, 4";
  "	call kfree ; free the request";
  "	mv a0, s0";
  "";
  "tty_dequeue_write_end:";
  "	lw s0, [sp]";
  "	lw ra, 4[sp]";
  "	addi sp, sp, 8";
  "	ret";
  "";
  "; a0 - buffer";
  "; a1 - bytes to read";
  "; a2 - head of queue to add to";
  "tty_make_request:";
  "	addi sp, sp, -16";
  "	sw a0, [sp]";
  "	sw a1, 4[sp]";
  "	sw a2, 8[sp]";
  "	sw ra, 12[sp]";
  "";
  "	blez a1, tty_make_request_fail";
  "	li a0, RW_REQUEST_SIZE";
  "	call kmalloc";
  "	blez a1, tty_make_request_fail";
  "	lw t0, [sp] ";
  "	sw t0, USER_BUFFER[a0]";
  "	lw a1, 4[sp]";
  "	sb a1, RW_BYTES_REQUESTED[a0]";
  "	sb zero, RW_BYTES_FUFILLED[a0]";
  "	sw zero, RW_NEXT_REQUEST[a0]";
  "	la t0, current_pcb";
  "	lw t0, [t0]";
  "	sw t0, PROC_PCB[a0]";
  "";
  "	call block_current_process";
  "	; add request to the back of the queue";
  "	lw t0, 8[sp] ; head pointer";
  "rw_walk_list:";
  "	lw t1, [t0]";
  "	beqz t1, rw_add_to_back";
  "	mv t0, t1";
  "	addi t0, t0, RW_NEXT_REQUEST";
  "	j rw_walk_list";
  "";
  "	rw_add_to_back:";
  "	sw a0, [t0]";
  "";
  "";
  "tty_make_request_fail:";
  "	mv a0, zero ; return null";
  "tty_make_request_exit:";
  "	lw ra, 12[sp]";
  "	addi sp, sp, 16";
  "	ret ";
  ""].

(* drivers/serial/serial.s:1-50 serial *)
Definition serial_s : list string := [
  "#include <fifo.inc>";
  "SERIAL_PORT             EQU     0x1_0500";
  "SERIAL_CONTROL_OFFSET   EQU     0x4";
  "";
  "// plan have tasks";
  "// so serial read  -> check task head";
  "// if there is a task then read into task struct which tells which process is waiting";
  "// read is first come first serve so proc 1 read ou";
  "";
  "";
  "irsq_serial_read:";
  "    mv      a0, zero";
  "    li      t0, SERIAL_PORT";
  "    lb      t1, SERIAL_CONTROL_OFFSET[t0]           ; read control byte";
  "    andi    t1, t1, 2                               ; ";
  "    beqz    t1, irsq_serial_read_end          ; check if the Receiver ready bit (RxRDY) is high";
  "    lb      a0, [t0]                                ; read  byte from serial";
  "    tail tty_enqueue_recieve											; pass byte to tty";
  "irsq_serial_read_end:";
  "		ret";
  "";
  "; a0 - char char_to_write";
  "irsq_serial_write:";
  "		addi sp, sp, -4";
  "		sw ra, [sp]";
  "		call tty_dequeue_write ; get a byte to write";
  "		beqz a0, irsq_serial_write_end ; if we get nothing then return";
  "    ; if so get string";
  "    li t0, SERIAL_PORT";
  "		sb      a0, [t0]                            ; Write the byte to the Data register";
  "irsq_serial_write_end:";
  "		ret                                         ; Return to caller ";
  "";
  "; a0 - debug string";
  "k_dbg_print:";
  "	li      t0, SERIAL_PORT";
  "	1";
  "	lbu     t1, SERIAL_CONTROL_OFFSET[t0]        ; Read the status byte";
  "	andi    t1, t1, 1                           ; Mask bit 0 (TxRDY)";
  "	beqz    t1, %B1";
  "	lb			t2, [a0]";
  "	beqz    t2, %F2";
  "	sb      t2, [t0]                            ; Write the byte to the Data register (offset 0)";
  "	addi		a0, a0, 1";
  "	j				%B1";
  "	2";
  "	ret                     ";
  "";
  "ALIGN 4";
  ""].

(* drivers/spi/sd.s:1-539 sd *)
Definition sd_s : list string := [
  "; https://onlinedocs.microchip.com/oxy/GUID-F9FE1ABC-D4DD-4988-87CE-2AFD74DEA334-en-US-3/GUID-48879CB2-9C60-4279-8B98-E17C499B12AF.html";
  "; http://rjhcoding.com/avrc-sd-interface-1.php";
  "";
  "#define SD_CS_ENABLE() \";
  "    li a0, 0 __NL__         \";
  "    call spi_set_cs";
  "#define SD_CS_DISABLE() \";
  "    li a0, 1 __NL__         \";
  "    call spi_set_cs";
  "";
  "#define SPI_TRANSFER(x) \";
  "    li a0, x __NL__ \";
  "    call spi_send_byte";
  "";
  "#define SD_SET_STATE(x) \";
  "    la t0, SD_INFO __NL__ \";
  "    li t1, x __NL__ \";
  "    sb t1, SD_STATE[t0] __NL__ \";
  "";
  "CMD0			EQU 0";
  "CMD0_ARG	EQU 0";
  "CMD0_CRC	EQU 0x94";
  "";
  "CMD8			EQU 8";
  "CMD8_ARG	EQU 0x1AA";
  "CMD8_CRC	EQU 0x86 //(1000011 << 1)";
  "";
  "; NOTE: CRC is only required for CMD0 and CMD8 all other commands accept dummy CRC";
  "; it could be useful for debugging but calculating crc16 for 512 r/w is quite expensive";
  "";
  "CMD58     EQU 58";
  "CMD58_ARG EQU  0x00000000";
  "CMD58_CRC EQU 0x00";
  "CCS_BIT   EQU 3 ; used to determine the block mode";
  "";
  "CMD55      EQU 55";
  "CMD55_ARG  EQU 0x00000000";
  "CMD55_CRC  EQU 0x00";
  "";
  "ACMD41     EQU 41";
  "ACMD41_ARG EQU 0x40000000";
  "ACMD41_CRC EQU 0x00";
  "";
  "CMD17                EQU  17";
  "CMD17_CRC            EQU 0x00";
  "SD_MAX_READ_ATTEMPTS EQU 250000 ; (0.1s *40000000 Mhz)/(2(clock div) * 8 byte)";
  "";
  "CMD24                EQU 24";
  "CMD24_CRC            EQU 0x00";
  "SD_MAX_WRITE_ATTEMPTS EQU 625000";
  "SD_START_TOKEN      EQU 0xFE";
  "";
  "IRQ_STATUS_BYTE_BIT EQU 5";
  "IRQ_STATUS_BLOCK_BIT EQU 6";
  "IRQ_STATUS_ERROR_BIT EQU 7";
  "";
  "SD_SUCCESSFUL_READ EQU 0xFE";
  "SD_DATA_ERROR EQU 0x00 ; 0x0X (the higher nibble of the byte is 0 then there is an error)";
  "SD_DATA_ACCEPTED EQU 0x05";
  "SD_TIMEOUT EQU 0xFF";
  "";
  "; SD_INFO";
  "STRUCT";
  "SD_BLOCK_ADDRESSSING BYTE ; bool 1 = use 512 byte addressing 0 = use byte addressing";
  "SD_STATE BYTE             ; READING, WRITING IDK yet";
  "STRUCT_ALIGN 4 ";
  "SD_INFO_T_SIZE ALIAS";
  "";
  "SD_INFO DEFS  SD_INFO_T_SIZE";
  "";
  "SD_STATE_IDLE EQU 0";
  "SD_STATE_WAIT_READ EQU 1";
  "SD_STATE_WAIT_WRITE EQU 2";
  "SD_STATE_ERROR EQU 3";
  "";
  "SD_ERR_OK            EQU 0";
  "SD_ERR_TIMEOUT       EQU 1";
  "SD_ERR_BAD_RESP      EQU 2";
  "SD_ERR_UNSUPPORTED   EQU 3";
  "SD_ERR_INIT_FAILED   EQU 4";
  "";
  "; SD_RES7";
  "SD_RES7_T_SIZE EQU 5 + 3 ; 3 bytes of padding";
  "";
  "ALIGN";
  "g_sd_irq_ring DEFS 10";
  "";
  "ALIGN";
  "";
  "; bool sd_init()";
  "sd_init:";
  "	addi sp, sp, -(4+	SD_RES7_T_SIZE)";
  "";
  "	sw ra, SD_RES7_T_SIZE[sp]";
  "	";
  "	call send_dummy_clocks";
  "	; send command CMD0";
  "";
  "	; enable sd";
  "  SPI_TRANSFER(0xFF)";
  "	SD_CS_ENABLE()";
  "  SPI_TRANSFER(0xFF)";
  "	";
  "	li a0, CMD0";
  "	li a1, CMD0_ARG";
  "	li a2, CMD0_CRC";
  "	call sd_send_command_crc";
  "	call sd_readRes1";
  "";
  "	li t0, 1";
  "	bne a0, t0, sd_init_failure";
  "";
  "";
  "	li a0, CMD8";
  "	li a1, CMD8_ARG";
  "	li a2, CMD8_CRC";
  "	call sd_send_command_crc";
  "	mv a0, sp ; fill the res 7 struct";
  "	call sd_readRes3_7";
  "";
  "	";
  "  ; res buffer is at sp";
  "  lb t0, 0[sp]      ; R1";
  "  li t1, 1";
  "  bne t0, t1, sd_init_failure";
  "";
  "  ; check echo pattern (last 2 bytes should be 0x01AA)";
  "  lbu t2, 3[sp]";
  "  lbu t3, 4[sp]";
  "  li t4, 0x01";
  "  bne t2, t4, sd_init_failure";
  "  li t4, 0xAA";
  "  bne t3, t4, sd_init_failure";
  "";
  "  sd_acmd_loop:";
  "      ; CMD55";
  "";
  "      li a0, CMD55";
  "      li a1, CMD55_ARG";
  "      li a2, CMD55_CRC";
  "      call sd_send_command_crc";
  "      call sd_readRes1";
  "";
  "    li a0, ACMD41";
  "    li a1, ACMD41_ARG";
  "    li a2, ACMD41_CRC";
  "    call sd_send_command_crc";
  "    call sd_readRes1";
  "";
  "    bnez a0, sd_acmd_loop";
  "";
  "";
  "    li a0, CMD58";
  "    li a1, CMD58_ARG";
  "    li a2, CMD58_CRC";
  "    call sd_send_command_crc";
  "";
  "    mv a0, sp";
  "    call sd_readRes3_7";
  "";
  "    ; parse this command";
  "    lbu t0, 1[sp] ; read ms byte of OCR ";
  "    srli t0, t0, CCS_BIT";
  "    andi t0, t0, 1 ; mask lsb";
  "    li t1, SD_INFO";
  "    sb t0, SD_BLOCK_ADDRESSSING[t1]";
  "";
  "    SD_CS_DISABLE()";
  "    SPI_TRANSFER(0xFF)";
  "";
  "";
  "    ; if we are here then everything is good and we can increase sclk speed";
  "    li a0, 2 ; 20 MHz";
  "    call spi_set_clock_div";
  "";
  "  li a0, 1 ; init succesful";
  "";
  "	lw ra, SD_RES7_T_SIZE[sp]";
  "	addi sp, sp, (4+	SD_RES7_T_SIZE)";
  "	ret";
  "";
  "; FAILURE";
  "sd_init_failure:";
  "	SD_CS_DISABLE()";
  "  mv a0, zero ; return false";
  "	lw ra, SD_RES7_T_SIZE[sp]";
  "	addi sp, sp, (4+	SD_RES7_T_SIZE)";
  "  ret";
  "";
  "; returns:";
  "; a0 = response OR 0xFF if timeout";
  "; a1 = 0 (OK) or SD_ERR_TIMEOUT";
  "sd_readRes1:";
  "	addi sp, sp, -16";
  "	sw s0, [sp]";
  "	sw s1, 4[sp]";
  "	sw s2, 8[sp]";
  "	sw ra, 12[sp]";
  "";
  "	li a0, 0xFF";
  "	mv s0, a0";
  "	mv s1, zero";
  "	li s2, 100";
  "	; while(spi_send_byte(0xFF)) == 0xFF && (attemps++<10));";
  "	1";
  "	call spi_send_byte";
  "	addi s1, s1, 1";
  "	sltu t1, s1, s2";
  "  subi t2, a0, 0xFF";
  "	seqz t2, t2";
  "  and t1, t1, t2";
  "  bnez t1, %B1";
  "";
  "	lw s0, [sp]";
  "	lw s1, 4[sp]";
  "	lw s2, 8[sp]";
  "	lw ra, 12[sp]";
  "	addi sp, sp, 16";
  "	ret";
  "";
  "";
  "; sd_readRes3_7(uint8_t *res)";
  "; both res3 and res7 are 5 bytes long";
  "sd_readRes3_7:";
  "	addi sp, sp, -8";
  "	sw s0, [sp]";
  "	sw ra, 4[sp]";
  "";
  "	mv s0, a0";
  "";
  "";
  "	call sd_readRes1";
  "	; if(res1 != 1) return";
  "	li t0, 1";
  "	bne a0, t0, %F1";
  "	sb a0, [s0]";
  "";
  "	; if it is 1 then we should be able to read the next 4 bytes";
  "	li a0, 0xFF";
  "	call spi_send_byte";
  "	sb a0, 1[s0]";
  "";
  "";
  "	li a0, 0xFF";
  "	call spi_send_byte";
  "	sb a0, 2[s0]";
  "";
  "	li a0, 0xFF";
  "	call spi_send_byte";
  "	sb a0, 3[s0]";
  "";
  "	li a0, 0xFF";
  "	call spi_send_byte";
  "	sb a0, 4[s0]";
  "";
  "	1";
  "	lw s0, [sp]";
  "	lw ra, 4[sp]";
  "	addi sp, sp, 8";
  "	ret";
  "";
  "send_dummy_clocks:";
  "	addi sp, sp, -4";
  "	sw ra, [sp]";
  "	; set up SPI for block transfer of 10 bytes";
  "	li a0, 12";
  "	call spi_set_block_len";
  "	; load 10 FF bytes into TX_RAM";
  "	li t0, SPI_BASE";
  "	addi t1, zero, -1";
  "	sw t1, SPI_TX_RAM[t0]			; 4 bytes";
  "	sw t1, (SPI_TX_RAM+4)[t0] ; 8 bytes";
  "	sw t1, (SPI_TX_RAM+8)[t0] ; 12 bytes";
  "	";
  "	; set clock divisor to be in the slow range";
  "	li a0, 80 ; 250 Khz ";
  "	call spi_set_clock_div";
  "";
  "  SD_CS_DISABLE()";
  "";
  "  la a0, 10000";
  "  call DELAY";
  "";
  "	call spi_send_block";
  "";
  "	li t1, (1<<IRQ_STATUS_BLOCK_BIT) ; block done status bit";
  "";
  "	; poll until block done (IRQ)";
  "	1";
  "	lw t2, SPI_STATUS[t0]";
  "	and t3, t2, t1";
  "	beqz t3, %B1";
  "";
  "	; block has finished";
  "	sw zero, SPI_STATUS[t0] ; clear IRQ";
  "";
  "  SD_CS_DISABLE()";
  "  SPI_TRANSFER(0xFF)";
  "";
  "	lw ra, [sp]";
  "	addi sp, sp, 4";
  "	ret";
  "";
  "";
  "sd_send_command_crc:";
  "	addi sp, sp, -4";
  "	sw ra, [sp]";
  "";
  "; all sd commands are in the format:";
  "; 47		- 0 - start bit";
  "; 46		- 1 - transmission bit";
  "; 44:40 -	x	- command code";
  "; 39:8	- x - argument";
  "; 7:1		- 0 - crc7";
  "; 0			- 1 - end bit";
  "";
  "; bitwise or with 0x40 since 2 most significant bits of the command always set to 0b01";
  "li t0, 0x40";
  "or a0, a0, t0";
  "call spi_send_byte";
  "";
  "; send msb of arg";
  "srli a0, a1, 24";
  "call spi_send_byte";
  "";
  "srli a0, a1, 16";
  "call spi_send_byte";
  "";
  "srli a0, a1, 8";
  "call spi_send_byte";
  "";
  "andi a0, a1, 0xFF";
  "call spi_send_byte";
  "";
  "ori a0, a2, 1";
  "call spi_send_byte";
  "";
  "	lw ra, [sp]";
  "	addi sp, sp, 4";
  "ret";
  "";
  "; return crc7";
  "calcualte_CRC7:";
  "ret";
  "";
  "";
  "; sd_start_read(uint32_t addr)";
  "; NOTE: addr should be pre-configured (byte addresses or block addressed)";
  "sd_start_read: ";
  "	addi sp, sp, -8";
  "	sw s0, [sp]";
  "	sw ra, 4[sp]";
  "";
  "	mv s0, a0";
  "";
  "	// assert chip select";
  "	SD_CS_ENABLE()";
  "";
  "	// send CMD17";
  "	li a0, CMD17";
  "	mv a1, s0";
  "	li a2, CMD17_CRC";
  "	call sd_send_command_crc";
  "";
  "	// read R1";
  "	call sd_readRes1";
  "	mv s0, a0 ; save res 1 (this is the return value)";
  "";
  "    // if response received from card";
  "	li t0, 0xFF";
  "	beq a0, t0, sd_invalid_read_response";
  "        // wait for a response token (timeout = 100ms)";
  "        ; readAttempts = 0;";
  "";
  "		; wait for start byte of read frame (or timeout)";
  "		li t4, SD_MAX_READ_ATTEMPTS";
  "		mv t5, zero";
  "		li t6, 0xFF";
  "		1";
  "		mv a0, t6";
  "		call spi_send_byte";
  "		; if spi_send_byte(FF) != FF break";
  "		bne a0, t6, %F1";
  "		";
  "		addi t5, t5, 1 ; attempts++;";
  "		; while attempts < SD_MAX_READ_ATTEMPTS";
  "		blt t5, t4, %B1";
  "";
  "		1";
  "";
  "    SD_SET_STATE(SD_STATE_WAIT_READ)";
  "		li t0, SD_SUCCESSFUL_READ";
  "";
  "		bne a0, t0, %F2  ";
  "		li a0, 512";
  "		call spi_set_block_len";
  "		call spi_send_block";
  "    j %F3";
  "	2";
  "	sd_invalid_read_response:";
  "	SD_CS_DISABLE()";
  "  3";
  "	mv a0, s0 ; return res 1";
  "	lw s0, [sp]";
  "	lw ra, 4[sp]";
  "	addi sp, sp, 8";
  "	ret";
  "";
  "sd_tail_read:";
  "	addi sp, sp, -4";
  "	sw ra, [sp]";
  "  ; this is the irq when the read block is finished";
  "  ; the last two bytes are the crc (ignored)";
  "  SPI_TRANSFER(0xFF)";
  "  SPI_TRANSFER(0xFF)";
  "";
  "";
  "  SPI_TRANSFER(0xFF)";
  "	SD_CS_DISABLE()";
  "  SPI_TRANSFER(0xFF)";
  "";
  "  SD_SET_STATE(SD_STATE_IDLE)";
  "";
  "	lw ra, [sp]";
  "	addi sp, sp, 4";
  "  ret";
  "";
  "";
  "; sd_start_write(uint32_t addr)";
  "; NOTE: addr should be pre-configured (byte addresses or block addressed)";
  "sd_start_write: ";
  "	addi sp, sp, -8";
  "	sw s0, [sp]";
  "	sw ra, 8[sp]";
  "";
  "	mv s0, a0";
  "";
  "	// assert chip select";
  "  SPI_TRANSFER(0xFF)";
  "	SD_CS_ENABLE()";
  "  SPI_TRANSFER(0xFF)";
  "";
  "	// send CMD17";
  "	li a0, CMD24";
  "	mv a1, s0";
  "	li a2, CMD24_CRC";
  "	call sd_send_command_crc";
  "";
  "	// read R1";
  "	call sd_readRes1";
  "	mv s0, a0 ; save res 1 (this is the return value)";
  "";
  "    // if response received from card";
  "	li t0, 0xFF";
  "	beq a0, t0, sd_invalid_write_response";
  "";
  "  SD_SET_STATE(SD_STATE_WAIT_WRITE)";
  "";
  "    li a0, SD_START_TOKEN";
  "    call spi_send_byte";
  "";
  "		li a0, 512";
  "		call spi_set_block_len";
  "		call spi_send_block";
  "    j %F3";
  "	2";
  "	mv a0, s0 ; return res 1";
  "	sd_invalid_write_response:";
  "  SPI_TRANSFER(0xFF)";
  "	SD_CS_DISABLE()";
  "  SPI_TRANSFER(0xFF)";
  "  3";
  "	lw s0, [sp]";
  "	lw ra, 4[sp]";
  "	addi sp, sp, 8";
  "	ret";
  "";
  "; returns write response from sd:";
  "; 0x00 - busy timeout";
  "; 0x05 - data accepted";
  "; 0xFF - response timeout";
  "sd_tail_write:";
  "	addi sp, sp, -4";
  "	sw ra, [sp]";
  "  ; this is the irq when the read block is finished";
  "";
  "   ;while(++readAttempts != SD_MAX_WRITE_ATTEMPTS)";
  "  ;   if((read = SPI_transfer(0xFF)) != 0xFF) { *token = 0xFF; break; }";
  "";
  "		li t4, SD_MAX_WRITE_ATTEMPTS";
  "		mv t5, zero";
  "";
  "    sd_write_response_loop:";
  "    SPI_TRANSFER(0xFF)";
  "		; if spi_send_byte(FF) != FF break";
  "		bne a0, t6, %F1";
  "		";
  "		addi t5, t5, 1 ; attempts++;";
  "		; while attempts < SD_MAX_READ_ATTEMPTS";
  "		bne t5, t4, sd_write_response_loop";
  "";
  "    1";
  "    ; check if data accepted";
  "    andi t0, a0, 0x1F ; a write response is xxx0<status>1";
  "    li t1, SD_DATA_ACCEPTED";
  "    bne t0, t1, sd_write_error";
  "";
  "		mv t5, zero";
  "";
  "    sd_write_busy_loop:";
  "    SPI_TRANSFER(0xFF)";
  "		; if spi_send_byte(FF) != FF break";
  "		bne a0, t6, %F1";
  "		";
  "		addi t5, t5, 1 ; attempts++;";
  "		; while attempts < SD_MAX_READ_ATTEMPTS";
  "		bne t5, t4, sd_write_busy_loop";
  "    ; time out waiting for busy";
  "    mv a0, zero";
  "    j %F3";
  "";
  "    2";
  "    li a0, 0x5";
  "    j %F3";
  "";
  "  sd_write_error:";
  "  li a0, 0xFF";
  "";
  "  3";
  "  SPI_TRANSFER(0xFF)";
  "	SD_CS_DISABLE()";
  "  SPI_TRANSFER(0xFF)";
  "	";
  "  SD_SET_STATE(SD_STATE_IDLE)";
  "";
  "  lw ra, [sp]";
  "	addi sp, sp, 4";
  "  ret";
  ""].

(* drivers/spi/spi.s:1-140 spi *)
Definition spi_s : list string := [
  "SPI_BASE EQU 0x2_0000";
  "SYS_PIO EQU 0x1_0700";
  "";
  "SPI_RAM_SIZE_BYTES EQU 512";
  "";
  "STRUCT";
  "SPI_CONTROL			WORD ; 0x0";
  "SPI_STATUS			WORD ; 0x4";
  "SPI_CONFIG			WORD ; 0x8";
  "SPI_CS					WORD ; 0xC";
  "SPI_TXDATA			WORD ; 0x10";
  "SPI_RXDATA			WORD ; 0x14";
  "SPI_BLOCK_LEN		WORD ; 0x18";
  "SPI_IRQ_ENABLE	WORD ; 0x1C";
  "RECORD					0x200";
  "SPI_TX_RAM					ALIAS";
  "RECORD          SPI_TX_RAM+SPI_RAM_SIZE_BYTES ; 0x200 + 0x800 (2048)";
  "SPI_RX_RAM					ALIAS";
  "";
  "IRQ_STATUS_BYTE_BIT EQU 5";
  "IRQ_STATUS_BLOCK_BIT EQU 6";
  "";
  "spi_init:";
  "	addi sp, sp, -4";
  "	sw ra, [sp]";
  "	; make sure tx is setup";
  "	li t0, SPI_BASE";
  "";
  "  li t2, SYS_PIO";
  "  li t3, 0xFF";
  "  sw t3, 8[t2]";
  "	";
  "	; initialise TX with dummy byte FF";
  "	addi t1, zero, -1";
  "	sw t1, SPI_TXDATA[t0]";
  "";
  "	; enable interrupts";
  "	sw t1, SPI_IRQ_ENABLE[t0]";
  "";
  "	; set cs high";
  "	li t1, 1";
  "	sw t1, SPI_CS[t0]";
  "";
  "	; set mode to be SPI mode 0  (cpol=0 and cpha=0)";
  "	mv a0, zero";
  "	call spi_set_mode";
  "	";
  "	lw zero, SPI_RXDATA[t0] ; clear the status bit";
  "	sw zero, SPI_STATUS[t0] ; clear any IRQ";
  "";
  "	lw ra, [sp]";
  "	addi sp, sp, 4";
  "	ret";
  "";
  "; blocking (the amount of time to retrun get the interrupt and then send another one is just not worth being non-blocking)";
  "	; a0 byte to send";
  "spi_send_byte:";
  "	li t0, SPI_BASE";
  "	sw a0, SPI_TXDATA[t0]";
  "	li t1, 0b001				; [block mode][stop][start] ";
  "	sw t1, SPI_CONTROL[t0]";
  ";	li t2, (1<<RX_VALID_BIT) ; rx_valid bit NOTE: this would work but bennett reads rx so it clears the flag";
  "	li t2, (1<<IRQ_STATUS_BYTE_BIT)";
  "";
  "	; poll status until rx vaild";
  "spi_poll_interrupt:";
  "	lw t3, SPI_STATUS[t0]";
  "	and t3, t3, t2 ";
  "	beqz t3, spi_poll_interrupt";
  "	; rx valid high";
  "	lw a0, SPI_RXDATA[t0]";
  "	sw zero, SPI_STATUS[t0] ; clear IRQ";
  "	ret ";
  "";
  "spi_send_block:";
  "	li t0, SPI_BASE";
  "	li t1, 0b101				; [block mode][stop][start] ";
  "	sw t1, SPI_CONTROL[t0]";
  "	ret";
  "";
  "";
  "spi_send_block_blocking:";
  "	li t0, SPI_BASE";
  "	li t1, 0b101				; [block mode][stop][start] ";
  "	sw t1, SPI_CONTROL[t0]";
  "	li t2, (1<<IRQ_STATUS_BLOCK_BIT)";
  "";
  "	; poll status until rx vaild";
  "	j spi_poll_interrupt";
  "";
  "spi_set_block_len:";
  "	li t0, SPI_BASE";
  "	sw a0, SPI_BLOCK_LEN[t0]";
  "	ret";
  "";
  "; a0 - 0 low";
  "; a0 - 1 high";
  "spi_set_cs:";
  "	li t0, SPI_BASE";
  "	sw a0, SPI_CS[t0]";
  "	ret";
  "";
  "; CHPOL - bit 0 CHPA - bit 1";
  "; mode 0 CPOL - 0 CPHA - 0";
  "; mode 1 CPOL - 0 CPHA - 1";
  "; mode 2 CPOL - 1 CPHA - 0";
  "; mode 3 CPOL - 1 CPHA - 1";
  "spi_set_mode:";
  "	li t1, 3";
  "	bgt a0, t1, set_spi_mode_exit";
  "	li t0, SPI_BASE ";
  "	; read current config";
  "	lw t2, SPI_CONFIG[t0]";
  "	; clear lower two bits";
  "	not t3, t1";
  "	and t2, t2, t3";
  "	; set lower two bits to a0";
  "	or t2, t2, a0";
  "	; rewrite reg";
  "	sw t2, SPI_CONFIG[t0]";
  "";
  "set_spi_mode_exit:";
  "	ret";
  "";
  "; a0 - byte (anything after lsb is ignored)";
  "spi_set_clock_div:";
  "	li t0, SPI_BASE ";
  "	; read current config";
  "	lw t2, SPI_CONFIG[t0]";
  "	; clear lower two bits";
  "	li t1, 0xFF00";
  "	not t3, t1";
  "	and t2, t2, t3";
  "	; set clock div";
  "	li t1, 8";
  "	sll t4, a0, t1";
  "	or t2, t2, t4";
  "	; rewrite reg";
  "	sw t2, SPI_CONFIG[t0]";
  "	ret"].

(* drivers/external_interrupts.s:1-40 external_interrupts *)
Definition external_interrupts_s : list string := [
  "INT_CONTROLLER_BASE EQU 0x10400";
  "INT_ENABLE          EQU 0x4";
  "INT_OUT             EQU 0x8";
  "";
  "; --------------------";
  "; void external_interrupt_handler()";
  ";";
  "; Handles all external interrupts from peripherals.";
  ";";
  "; Registers Used:";
  "; sp - stack pointer";
  "; ra - return address";
  "; a0 - interrupt status";
  "; t0 - table base / temporary";
  "external_interrupt_handler:";
  "    addi sp, sp, -8           ; Adjust stack pointer";
  "    sw a0, 4[sp]                      ; Save interrupt status";
  "    sw ra, [sp]                        ; Save return address";
  "";
  "handle_interrupts:";
  "    li t0, INT_CONTROLLER_BASE        ; Load interrupt controller base";
  "    lw a0, INT_OUT[t0]                ; Read pending interrupts";
  "    beqz a0, done_handling            ; If no interrupts, exit the loop";
  "";
  "    call logBaseTwo                   ; Get index of first set bit";
  "";
  "    la t0, peripheral_interrupt_table  ; Load base address of interrupt handlers";
  "    slli a0, a0, 2                    ; Multiply index by 4 (word size)";
  "    add a0, a0, t0                    ; Calculate address of the handler";
  "    lw t0, [a0]                       ; Load interrupt handler address";
  "    jalr t0                            ; Dispatch handler";
  "";
  "    j handle_interrupts              ; Continue handling the next interrupt";
  "";
  "done_handling:";
  "    lw a0, 4[sp]                      ; Restore interrupt status";
  "    lw ra, [sp]                        ; Restore return address";
  "    addi sp, sp, 8                    ; Restore stack pointer";
  "    ret";
  ""].

(* include/ualloc.inc:1-7 ualloc *)
Definition ualloc_inc : list string := [
  "#pragma once";
  "ALLOC_ARRAY_BYTE_SIZE EQU 512";
  "ALLOC_WORD_SIZE EQU ALLOC_ARRAY_BYTE_SIZE/4 ";
  "MIN_BLOCK EQU 256*1024/(ALLOC_ARRAY_BYTE_SIZE*8) ; this is what each bit in the alloc array will represent";
  "";
  "ALLOC_FREE EQU 0 ";
  "ALLOC_USED EQU 1 "].

(* kernel/memory/umem.s:1-103 umem *)
Definition umem_s : list string := [
  "; 256 KiB";
  "; User ram:";
  "; start:    4_0000";
  "; end:      8_0000";
  "";
  "USER_RAM_START EQU 0x4_0000";
  "";
  "; 1 = USED ";
  "; 0 = FREE";
  "";
  "round_next_power_of_two:";
  ";v--";
  ";v |= v >> 1";
  ";v |= v >> 2";
  ";v |= v >> 4";
  ";v |= v >> 8";
  ";v |= v >> 16";
  ";v++;";
  "";
  "; unrolled loop is faster";
  "";
  "addi a0, a0, -1";
  "";
  "srli t0, a0, 1";
  "or a0, a0, t0";
  "";
  "srli t0, a0, 2";
  "or a0, a0, t0";
  "";
  "srli t0, a0, 4";
  "or a0, a0, t0";
  "";
  "srli t0, a0, 8";
  "or a0, a0, t0";
  "";
  "srli t0, a0, 16";
  "or a0, a0, t0";
  "";
  "addi a0, a0, 1";
  "ret";
  "";
  "; this will zero all of the bytes";
  "ualloc_init:";
  "	la t0, alloc_bitmap";
  "	li t1, ALLOC_WORD_SIZE";
  "	add t0, t0, t1";
  "	1";
  "	beqz t1, %F2";
  "	sw zero, [t0]";
  "	addi t1, t1, -1";
  "	j %B1";
  "	2";
  "	ret";
  "";
  "";
  "; User allocate (this will allocate user memory)";
  "; a0 bytes to allocate";
  "ualloc:";
  "		addi sp, sp, -4";
  "		sw ra, [sp]";
  "";
  "    beqz a0, %F2";
  "    call round_next_power_of_two";
  "    li t0, MIN_BLOCK";
  "    bge a0, t0, %F1";
  "    mv a0, t0 ; max min block ";
  "    1";
  "    ; div by min block size to get the number of contiguous bits needed";
  "    divu t1, a0, t0";
  "    remu t2, a0, t0";
  "		add a0, t1, t2";
  "		call ualloc_try_block ; umem_alloc.c";
  "		j %F3";
  "";
  "		2 ; alloc fail";
  "    li a0, 1 ; 1 - called ualloc with null";
  "		3";
  "		lw ra, [sp]";
  "		addi sp, sp, 4";
  "    ret";
  "";
  "; void ufree(void* addr, int size)";
  "ufree:";
  "		addi sp, sp, -4";
  "		sw ra, [sp]";
  "";
  "    beqz a1, %B2 ; jump to alloc fail above (save space)";
  "    call round_next_power_of_two";
  "    li t0, MIN_BLOCK";
  "    bge a1, t0, %F1";
  "    mv a1, t0 ; max min block ";
  "    1";
  "    ; div by min block size to get the number of contiguous bits needed";
  "    divu t1, a1, t0";
  "    remu t2, a1, t0";
  "		add a1, t1, t2";
  "		";
  "		li t1, USER_RAM_START";
  "		sub a0, a0, t1";
  "		div a0, a0, t0";
  "		call mark_bits_free ; defined in umem_alloc.c";
  "";
  "		j %B3"].

(* kernel/slab_def.s:1-46 slab_def *)
Definition slab_def_s : list string := [
  "#include <process.inc>";
  "#include <file.inc>";
  "";
  "slabs_to_init EQU 2";
  "slabs_init_size EQU 3";
  "";
  "k_slab_init:";
  "  addi sp, sp, -8";
  "  sw s0, [sp]";
  "  sw ra, 4[sp]";
  "";
  "  li s0, slabs_to_init";
  "  ";
  "init_loop:";
  "";
  "  la a0, slab_defs";
  "  li t0, slabs_init_size";
  "  mv t1, s0";
  "  ; calculate the location of the foest";
  "  addi t1, t1, -1 ; -1 since we are going backwards";
  "  mul t2, t1, t0";
  "  slli t2, t2, 2 ; multiply by 4 for words";
  "  add a0, a0, t2";
  "";
  "  ";
  "  ; (slab_header_t **head, uint32_t object_size, uint32_t num_objects)";
  "  lw a2, 8[a0]";
  "  lw a1, 4[a0]";
  "  call slab_alloc_new";
  "  ";
  "  addi s0, s0, -1";
  "  bnez s0, init_loop";
  "";
  "  lw s0, [sp]";
  "  lw ra, 4[sp]";
  "  addi sp, sp, 8";
  "  ret";
  "";
  "slab_defs:";
  "pcb_slab_head DEFW 0x0";
  "pcb_slab_object_size DEFW PCB_SIZE";
  "pcb_slab_object_count DEFW 5";
  "";
  "file_slab_head DEFW 0x0";
  "file_slab_object_size DEFW FILE_STRUCT_SIZE";
  "file_slab_object_count DEFW 5"].

(* kernel/memory/ualloc_array_def.s:1-3 ualloc_array_def *)
Definition ualloc_array_def_s : list string := [
  "#include <ualloc.inc>";
  "alloc_bitmap DEFS ALLOC_ARRAY_BYTE_SIZE, ALLOC_FREE";
  ""].

(* drivers/peripheral_table.s:1-18 peripheral_table *)
Definition peripheral_table_s : list string := [
  "; --------------------";
  "; Peripheral Interrupt Table";
  "; --------------------";
  "peripheral_interrupt_table:";
  "    defw sd_irsq_handler ; these are for the user peripheral";
  "    defw sd_irsq_handler";
  "    defw sd_irsq_handler";
  "    defw sd_irsq_handler";
  "    defw ecall_x ; timer interrupt";
  "    defw ecall_x               ; Button";
  "    defw ecall_x               ; Video";
  "    defw ecall_x               ; Video";
  "    defw ecall_x               ; Serial Tx";
  "    defw ecall_x               ; Serial Rx";
  "    defw ecall_x               ; Serial Overrun";
  "";
  "";
  "PERIPHERAL_ENABLE_BITMASK  EQU 0b11100001111"].
