(* ===== verification/DImage.v ===== *)
(** * The drivers and the file system's assembly, assembled

    The sources of DText.v, with those of KText.v they use, prepared by the C preprocessor
    and sed as in the Makefile: sd.s has macros with a parameter, of several lines. The result is
    a second image for Cpu.v: the boot code, the drivers, the lowest layer of the file
    system and the allocator of user memory. The routines of the first image and those in C are
    addresses outside it. *)

From S2P Require Import Prelude RvaDefs RvaLex RvaSym RvaOut RvaState RvaPass RvaText RvaMain KText KImage DText.
From Stdlib Require Import Ascii String.
From stdpp Require Import strings.
Local Open Scope string_scope.
Local Open Scope list_scope.
Local Open Scope Z_scope.

(** ** The preprocessor *)

Definition chr (n : nat) : string := String (ascii_of_nat n) EmptyString.

(** A line that ends in a backslash goes on in the next. *)
Fixpoint cut_backslash (s : string) : option string :=
  match s with
  | EmptyString => None
  | String a EmptyString => if nat_of_ascii a =? 92 then Some EmptyString else None
  | String a s => String a <$> cut_backslash s
  end%nat.

Fixpoint join_lines (open : string) (file : list string) : list string :=
  match file with
  | [] => if String.eqb open "" then [] else [open]
  | s :: file =>
      match cut_backslash s with
      | Some s => join_lines (open ++ s) file
      | None => (open ++ s)%string :: join_lines "" file
      end
  end.

Definition is_word (a : ascii) : bool :=
  let n := nat_of_ascii a in
  (((48 <=? n) && (n <=? 57)) || ((65 <=? n) && (n <=? 90)) || ((97 <=? n) && (n <=? 122)) || (n =? 95))%nat.

(** Identifiers and numbers are tokens; any other character is one by itself. *)
Fixpoint tokens_from (word : string) (s : string) : list string :=
  let flush := if String.eqb word "" then [] else [word] in
  match s with
  | EmptyString => flush
  | String a s => if is_word a then tokens_from (word ++ String a EmptyString) s else flush ++ String a EmptyString :: tokens_from "" s
  end.
Definition tokens : string -> list string := tokens_from "".

(** A macro: its name, whether brackets follow, the parameter if it has one, and what it stands for. *)
Record macro : Type := Macro { mc_name : string; mc_call : bool; mc_param : option string; mc_body : list string }.

Definition blank (t : string) : bool := String.eqb t " " || String.eqb t (chr 9).
Fixpoint trim (ts : list string) : list string :=
  match ts with t :: ts' => if blank t then trim ts' else ts | [] => [] end.

Definition parse_define (ts : list string) : option macro :=
  match trim ts with
  | name :: "(" :: ")" :: body => Some (Macro name true None body)
  | name :: "(" :: x :: ")" :: body => Some (Macro name true (Some x) body)
  | name :: body => Some (Macro name false None body)
  | [] => None
  end.

Definition find_macro (ms : list macro) (t : string) : option macro := List.find (fun m => String.eqb (mc_name m) t) ms.

Definition substitute (m : macro) (arg : list string) : list string :=
  match mc_param m with
  | Some x => concat (map (fun t => if String.eqb t x then arg else [t]) (mc_body m))
  | None => mc_body m
  end.

(** Where the expansion is: in the text, behind the name of a macro, or in its argument. *)
Inductive place : Type := Text | Named (m : macro) | Argument (m : macro) (arg : list string).

Fixpoint expand (ms : list macro) (p : place) (ts : list string) : list string :=
  match p, ts with
  | Text, [] => []
  | Named m, [] => [mc_name m]
  | Argument m arg, [] => mc_name m :: "(" :: arg
  | Text, t :: ts =>
      match find_macro ms t with
      | Some m => if mc_call m then expand ms (Named m) ts else mc_body m ++ expand ms Text ts
      | None => t :: expand ms Text ts
      end
  | Named m, t :: ts => if String.eqb t "(" then expand ms (Argument m []) ts else mc_name m :: t :: expand ms Text ts
  | Argument m arg, t :: ts => if String.eqb t ")" then substitute m arg ++ expand ms Text ts else expand ms (Argument m (arg ++ [t])) ts
  end.

(** The lines a line becomes: [__NL__] ends one. *)
Fixpoint split_lines (line : string) (ts : list string) : list string :=
  match ts with
  | [] => [line]
  | t :: ts => if String.eqb t "__NL__" then line :: split_lines "" ts else split_lines (line ++ t) ts
  end.

(** [X==Y], where both are the same after expansion. *)
Fixpoint condition (ms : list macro) (left ts : list string) : bool :=
  let text ts := String.concat "" (List.filter (fun t => negb (blank t)) (expand ms Text ts)) in
  match ts with
  | "=" :: "=" :: rest => String.eqb (text left) (text rest)
  | t :: ts => condition ms (left ++ [t]) ts
  | [] => false
  end.

(** [skip]: in text that a condition excludes. Included files are put in their place beforehand. *)
Fixpoint cpp (ms : list macro) (skip : bool) (file : list string) : list string :=
  match file with
  | [] => []
  | s :: file =>
      match trim (tokens s) with
      | "#" :: "endif" :: _ => cpp ms false file
      | "#" :: "if" :: ts => cpp ms (negb (condition ms [] ts)) file
      | "#" :: "define" :: ts => cpp (match parse_define ts with Some m => m :: ms | None => ms end) skip file
      | "#" :: _ => cpp ms skip file
      | _ => (if skip then [] else split_lines "" (expand ms Text (tokens s))) ++ cpp ms skip file
      end
  end.

(** What comes out of the preprocessor and of sed. *)
(* Makefile:78-82 preprocess *)
Definition prepared (file : list string) : list string :=
  map (replace_tail 0) (cpp [] false (strip_comments false (join_lines "" file))).

(** ** The text to assemble *)

(** Where the routines of the kernel's other parts are. *)
Definition outside : list (string * Z) :=
  [("mhandler", 0x30000); ("kheap_init", 0x30004); ("slab_alloc_new", 0x30008); ("kexecve", 0x3000C);
   ("kmalloc", 0x30014); ("kfree", 0x30018); ("unblock_process", 0x3001C); ("block_current_process", 0x30020); ("sd_irsq_handler", 0x30024);
   ("ecall_x", 0x30028); ("ualloc_try_block", 0x3002C); ("mark_bits_free", 0x30030); ("pcb_next_pid", 0x30034)].

Definition outside_lines : list string := map (fun e => (fst e ++ " equ " ++ hex (snd e))%string) outside.

Definition quoted (s : string) : string := (chr 34 ++ s ++ chr 34)%string.

(** The place of the scheduler, which a branch must reach. *)
(* main.s:17-17 schedule *)
Definition scheduler_entry : list string := ["schedule DEFW 0"].

(* main.s:3-3 DEBUG *)
Definition debug_off : list string := ["#define DEBUG 0"].

(* main.s:48-72 kernel_name *)
Definition static_data : list string :=
  [("kernel_name DEFB " ++ quoted "Sleep-Deprived Squirrel\0")%string; ("proc_init DEFB " ++ quoted "/hello1\0")%string; "ALIGN";
   "current_pcb DEFW 0x0"].

(* main.s:60-72 kidle *)
Definition kernel_memory : list string :=
  ["kidle DEFB 0x0 ; bool telling the kernel if it is currently idle"; "ALIGN"; "kernel_heap_start DEFB 0";
   "org 0x0_4000-kernel_stack_size"; "kernel_heap_end DEFB 0"; "org 0x0_4000"; "kernel_stack_base:"].

(** The files in the order of main.s. *)
(* main.s:1-72 main *)
Definition driver_source : list string :=
  ["ARCH v5"; "kernel_stack_size EQU 1000"] ++ outside_lines ++
  prepared (debug_off ++ boot_s ++ trap_inc ++ process_inc ++ scheduler_entry ++ mbr_inc ++ partition_inc ++ bpb_inc ++ fs_running_info_inc ++ fs_s ++
    io_s ++ fifo_inc ++ tty_inc ++ rw_request_inc ++ tty_s ++ serial_s ++ sd_s ++ spi_s ++ memory_region_inc ++ mmu_s ++ external_interrupts_s ++
    umem_s ++ fifo_s ++ maths_s ++ delay_s ++ peripheral_table_s ++ static_data ++ file_inc ++ slab_def_s ++ ualloc_inc ++
    ualloc_array_def_s ++ kernel_memory).

(** ** Assembling it *)

(** Where the heap starts. *)
Definition driver_end : Z := 4204.
Definition driver_linked : res (list Z * list (string * Z)) := linked_to driver_end (assemble_text driver_source).

Definition driver_image : list Z := fst (ok_or ([], []) (driver_linked)).
Definition driver_symbols : list (string * Z) := snd (ok_or ([], []) (driver_linked)).

(** The value of a symbol. *)
Definition at_symbol (name : string) : option Z := snd <$> List.find (fun p => String.eqb (fst p) name) driver_symbols.

(** The same, computed. *)
Definition driver_now : res (list Z * list (string * Z)) := Eval vm_compute in driver_linked.
Definition driver_image_now : list Z := Eval cbv in fst (ok_or ([], []) driver_now).
Definition driver_symbols_now : list (string * Z) := Eval cbv in snd (ok_or ([], []) driver_now).

Lemma driver_linked_ok : driver_linked = Ok (driver_image_now, driver_symbols_now).
Proof. vm_compute. reflexivity. Qed.

Lemma driver_image_ok : driver_image = driver_image_now.
Proof. unfold driver_image. rewrite driver_linked_ok. reflexivity. Qed.

Lemma driver_symbols_ok : driver_symbols = driver_symbols_now.
Proof. unfold driver_symbols. rewrite driver_linked_ok. reflexivity. Qed.

#[global] Opaque driver_image driver_symbols.
