(* ===== verification/DCode.v ===== *)
(** * The drivers' code in memory

    What it means that the image of DImage.v is loaded, as KCode.v says it of the other image. *)

From S2P Require Import Prelude RvaIsa KImage DImage Cpu KCode.
From Stdlib Require Import String.
Local Open Scope list_scope.
Local Open Scope Z_scope.

(** ** The image *)

Definition fs_running_info : Z := 156.
Definition g_io_sched : Z := 176.
Definition TTY_INFO : Z := 792.
Definition SD_INFO : Z := 1508.
Definition g_sd_irq_ring : Z := 1512.
Definition peripheral_interrupt_table : Z := 3500.
Definition alloc_bitmap : Z := 3688.
Definition SPI_BASE : Z := 131072.

Lemma driver_layout_ok :
  map at_symbol ["fs_running_info"; "g_io_sched"; "TTY_INFO"; "SD_INFO"; "g_sd_irq_ring"; "peripheral_interrupt_table"; "alloc_bitmap"; "SPI_BASE";
                 "kernel_heap_end"; "kernel_stack_base"]%string =
  map Some [fs_running_info; g_io_sched; TTY_INFO; SD_INFO; g_sd_irq_ring; peripheral_interrupt_table; alloc_bitmap; SPI_BASE;
            heap_end; stack_top].
Proof. unfold at_symbol. rewrite driver_symbols_ok. vm_compute. reflexivity. Qed.

(** The instructions, between variables and tables. *)
Definition driver_code : list (Z * Z) := [(0, 152); (192, 792); (796, 1508); (1524, 3500); (3580, 3664)].
Definition in_driver (a : Z) : bool := (a mod 4 =? 0) && existsb (fun p => (fst p <=? a) && (a <? snd p)) driver_code.

Definition driver_word (a : Z) : Z := nth (Z.to_nat (a / 4)) driver_image 0.

Definition driver_program : list (option instr) := Eval vm_compute in imap (fun i w => decode (4 * Z.of_nat i) w) driver_image_now.

Lemma driver_program_ok : imap (fun i w => decode (4 * Z.of_nat i) w) driver_image = driver_program.
Proof. rewrite driver_image_ok. vm_compute. reflexivity. Qed.

Definition driver_at (a : Z) : option instr := mjoin (driver_program !! Z.to_nat (a / 4)).

Lemma in_driver_bounds a : in_driver a = true ->
  a mod 4 = 0 /\ (0 <= a < 152 \/ 192 <= a < 792 \/ 796 <= a < 1508 \/ 1524 <= a < 3500 \/ 3580 <= a < 3664).
Proof. unfold in_driver, driver_code. cbn [existsb fst snd]. intros H. zbool. split; [assumption|]. lia. Qed.

Lemma driver_at_decode a i : in_driver a = true -> driver_at a = Some i -> decode a (driver_word a) = Some i.
Proof.
  intros Ha. destruct (in_driver_bounds a Ha) as [H4 H0].
  apply (lookup_decoded driver_image driver_program a i); [lia|exact H4|exact driver_program_ok].
Qed.

(** The image is in memory. *)
Record installed (m : memory) : Prop := Installed { installed_word : forall a, in_driver a = true -> ld32 m a = driver_word a }.

Lemma installed_agree m m' : installed m -> (forall a, in_driver a = true -> ld32 m' a = ld32 m a) -> installed m'.
Proof. intros Hm H. constructor. intros a Ha. rewrite H by exact Ha. apply Hm, Ha. Qed.

Lemma driver_addresses (f : Z -> bool) a : forallb (fun a => negb (in_driver a) || f a) (map (fun i => 4 * i) (seqZ 0 916)) = true ->
  in_driver a = true -> f a = true.
Proof.
  intros H Ha. rewrite List.forallb_forall in H. specialize (H a). rewrite Ha in H. apply H. apply List.in_map_iff.
  destruct (in_driver_bounds a Ha) as [H4 H0]. exists (a / 4). split; [dlia|]. apply list_elem_of_In, elem_of_seqZ. dlia.
Qed.

(** The [n] bytes at [a] are no instructions. *)
Definition beside_driver (a n : Z) : Prop :=
  a + n <= 0 \/ (152 <= a /\ a + n <= 192) \/ (792 <= a /\ a + n <= 796) \/ (1508 <= a /\ a + n <= 1524) \/ (3500 <= a /\ a + n <= 3580) \/ 3664 <= a.

Lemma in_driver_apart a b n : in_driver a = true -> beside_driver b n -> 0 < n -> b + n <= a \/ a + 4 <= b.
Proof.
  intros Ha Hb Hn. destruct (in_driver_bounds a Ha) as [H4 H0]. unfold beside_driver in Hb.
  destruct Hb as [Hb|[Hb|[Hb|[Hb|[Hb|Hb]]]]]; dlia.
Qed.

(** The model of the assembler assembles these sources without an error, and each word of the ranges is an instruction. *)
Theorem drivers_assemble : driver_linked = Ok (driver_image, driver_symbols) /\
  forall a, in_driver a = true -> exists i, decode a (driver_word a) = Some i.
Proof.
  split; [rewrite driver_image_ok, driver_symbols_ok; exact driver_linked_ok|]. intros a Ha.
  destruct (driver_at a) as [i|] eqn:E; [exists i; apply driver_at_decode; assumption|].
  pose proof (driver_addresses (fun a => match driver_at a with Some _ => true | None => false end) a ltac:(vm_compute; reflexivity) Ha) as H.
  cbn beta in H. rewrite E in H. discriminate H.
Qed.
