(* ===== verification/DBus.v ===== *)
(** * The bus with the SPI unit and the card

    The SPI unit is a git submodule of the repository, so what is assumed of it is what spi.s says: writing
    the start bit of SPI_CONTROL sends a byte, or a block; when it is out, a bit of SPI_STATUS
    is set, and the bytes that came back meanwhile can be read. How long it takes, and what the card answers
    to all it was sent so far, are parameters of everything below, so that the
    theorems hold for any card and any clock. *)

From S2P Require Import Prelude RvaIsa KImage DImage Cpu KCode DCode.

(** ** The unit *)

Definition SPI_CONTROL : Z := Eval cbv in SPI_BASE.
Definition SPI_STATUS : Z := Eval cbv in SPI_BASE + 4.
Definition SPI_CONFIG : Z := Eval cbv in SPI_BASE + 8.
Definition SPI_CS : Z := Eval cbv in SPI_BASE + 12.
Definition SPI_TXDATA : Z := Eval cbv in SPI_BASE + 16.
Definition SPI_RXDATA : Z := Eval cbv in SPI_BASE + 20.
Definition SPI_BLOCK_LEN : Z := Eval cbv in SPI_BASE + 24.
Definition SPI_TX_RAM : Z := Eval cbv in SPI_BASE + 512.
Definition SPI_RX_RAM : Z := Eval cbv in SPI_BASE + 1024.

(** What went out: the level of the select line, and the byte. The last comes first. *)
Abbreviation trace := (list (Z * Z)).

Inductive transfer : Type := OneByte (reply : Z) | OneBlock (replies : list Z).

(** The bus: what was sent, and the transfer that runs, with the time it still needs. *)
Record bus : Type := Bus { sent : trace; pending : option (nat * transfer) }.

Definition bytes_at (m : memory) (a : Z) (n : nat) : list Z := map (fun i => ld8 m (a + Z.of_nat i)) (seq 0 n).

Fixpoint put_bytes (m : memory) (a : Z) (bs : list Z) : memory :=
  match bs with [] => m | b :: bs => put_bytes (st8 m a b) (a + 1) bs end.

Section Bus.

Context (card : trace -> Z) (delay : trace -> nat).

(** Sending a byte, with the card's answer; sending several. *)
Definition reply (l : trace) : Z := card l mod 256.
Definition send (level : Z) (bytes : list Z) (l : trace) : trace := fold_left (fun l b => (level, b) :: l) bytes l.
Fixpoint replies (level : Z) (bytes : list Z) (l : trace) : list Z :=
  match bytes with [] => [] | b :: bytes => reply ((level, b) :: l) :: replies level bytes ((level, b) :: l) end.

(** The memory when a transfer is done. *)
Definition finish (t : transfer) (m : memory) : memory :=
  match t with
  | OneByte b => st32 (st32 m SPI_RXDATA b) SPI_STATUS (Z.lor (ld32 m SPI_STATUS) 32)
  | OneBlock bs => st32 (put_bytes m SPI_RX_RAM bs) SPI_STATUS (Z.lor (ld32 m SPI_STATUS) 64)
  end.

(** The block to send: no more than the unit's memory holds. *)
Definition block_to_send (m : memory) : list Z := bytes_at m SPI_TX_RAM (Z.to_nat (Z.min 512 (ld32 m SPI_BLOCK_LEN))).

(** The unit takes a transfer that was asked for. *)
Definition start (m : memory) (l : trace) : memory * bus :=
  let level := ld32 m SPI_CS in
  let bytes := if Z.testbit (ld32 m SPI_CONTROL) 2 then block_to_send m else [ld8 m SPI_TXDATA] in
  let back := replies level bytes l in
  let l' := send level bytes l in
  (st32 m SPI_CONTROL 0,
   Bus l' (Some (delay l', if Z.testbit (ld32 m SPI_CONTROL) 2 then OneBlock back else OneByte (hd 0 back)))).

(** What the unit does while the processor executes an instruction. *)
Definition tick (m : memory) (b : bus) : memory * bus :=
  match pending b with
  | Some (S n, t) => (m, Bus (sent b) (Some (n, t)))
  | Some (O, t) => (finish t m, Bus (sent b) None)
  | None => if Z.testbit (ld32 m SPI_CONTROL) 0 then start m (sent b) else (m, b)
  end.

(** One instruction, and the unit. *)
Definition bus_step (c : cpu) (b : bus) : option (cpu * bus) :=
  c' ← step c; let '(m, b') := tick (mem c') b in Some (Cpu (regs c') m (csrs c') (pc c'), b').

Fixpoint bus_run (n : nat) (c : cpu) (b : bus) : option (cpu * bus) :=
  match n with O => Some (c, b) | S n => '(c', b') ← bus_step c b; bus_run n c' b' end.

(** From here the machine comes to a state in [P]. *)
Inductive bus_runs (P : cpu -> bus -> Prop) (c : cpu) (b : bus) : Prop :=
| bus_done : P c b -> bus_runs P c b
| bus_next c' b' : bus_step c b = Some (c', b') -> bus_runs P c' b' -> bus_runs P c b.

Lemma bus_runs_trans (P Q : cpu -> bus -> Prop) c b : bus_runs P c b -> (forall c' b', P c' b' -> bus_runs Q c' b') -> bus_runs Q c b.
Proof. induction 1 as [c b Hc|c b c' b' Hs _ IH]; intros H; [auto|]. econstructor 2; eauto. Qed.

Lemma bus_runs_weaken (P Q : cpu -> bus -> Prop) c b : bus_runs P c b -> (forall c' b', P c' b' -> Q c' b') -> bus_runs Q c b.
Proof. intros H HPQ. eapply bus_runs_trans; [exact H|]. intros c' b' Hc. constructor. auto. Qed.

Lemma bus_runs_run P c b : bus_runs P c b <-> exists n c' b', bus_run n c b = Some (c', b') /\ P c' b'.
Proof.
  split.
  - induction 1 as [c b Hc|c b c' b' Hs _ (n & c2 & b2 & Hn & Hp)]; [exists O, c, b; auto|]. exists (S n), c2, b2. cbn. rewrite Hs. auto.
  - intros (n & c' & b' & Hn & Hp). revert c b Hn. induction n as [|n IH]; intros c b Hn; cbn in Hn.
    + injection Hn as -> ->. constructor. exact Hp.
    + destruct (bus_step c b) as [[c1 b1]|] eqn:E; [|discriminate]. econstructor 2; [exact E|]. apply IH. exact Hn.
Qed.

Lemma send_app level xs ys l : send level (xs ++ ys) l = send level ys (send level xs l).
Proof. unfold send. apply fold_left_app. Qed.

Lemma replies_length level bytes l : length (replies level bytes l) = length bytes.
Proof. revert l. induction bytes as [|b bytes IH]; intros l; cbn; [reflexivity|]. rewrite IH. reflexivity. Qed.

(** ** The image, and the unit at rest *)

(** The start bit is clear: the unit takes it when it is set. *)
Record ready (m : memory) : Prop := Ready { ready_code : installed m; ready_rest : Z.testbit (ld32 m SPI_CONTROL) 0 = false }.

Definition beside_control (a n : Z) : Prop := a + n <= SPI_CONTROL \/ SPI_CONTROL + 4 <= a.

Lemma ready_st32 m a v : ready m -> beside_driver a 4 -> beside_control a 4 -> ready (st32 m a v).
Proof.
  intros [Hc Hr] Ha Hb. split.
  - apply (installed_agree m); [exact Hc|]. intros b Hi. apply ld32_st32_ne. destruct (in_driver_apart b a 4 Hi Ha); lia.
  - rewrite ld32_st32_ne by (unfold beside_control in Hb; lia). exact Hr.
Qed.

Lemma ready_st8 m a v : ready m -> beside_driver a 1 -> beside_control a 1 -> ready (st8 m a v).
Proof.
  intros [Hc Hr] Ha Hb. split.
  - apply (installed_agree m); [exact Hc|]. intros b Hi. apply ld32_st8_ne. destruct (in_driver_apart b a 1 Hi Ha); lia.
  - rewrite ld32_st8_ne by (unfold beside_control in Hb; lia). exact Hr.
Qed.

Lemma installed_control m v : installed m -> installed (st32 m SPI_CONTROL v).
Proof.
  intros Hm. apply (installed_agree m); [exact Hm|]. intros a Ha. apply ld32_st32_ne. destruct (in_driver_bounds a Ha) as [_ H0].
  unfold SPI_CONTROL, SPI_BASE. lia.
Qed.

Lemma driver_step r m s p i : installed m -> in_driver p = true -> driver_at p = Some i ->
  step (Cpu r m s p) = Some (exec i (Cpu r m s p)).
Proof.
  intros Hm Hp Hi. unfold step. cbn [pc mem]. rewrite (installed_word m Hm p Hp), (driver_at_decode p i Hp Hi). reflexivity.
Qed.

(** An instruction while the unit is at rest, and stays so. *)
Lemma quiet_step P r m s p i l : ready m -> in_driver p = true -> driver_at p = Some i ->
  ready (mem (exec i (Cpu r m s p))) /\ bus_runs P (exec i (Cpu r m s p)) (Bus l None) -> bus_runs P (Cpu r m s p) (Bus l None).
Proof.
  intros [Hm _] Hp Hi [[_ Hr] H]. eapply bus_next; [|exact H]. unfold bus_step. rewrite (driver_step r m s p i) by assumption.
  cbn [mbind option_bind]. unfold tick. cbn [pending]. rewrite Hr. destruct (exec i (Cpu r m s p)). reflexivity.
Qed.

(** An instruction that sets the start bit. *)
Lemma begin_step P r m s p i l : ready m -> in_driver p = true -> driver_at p = Some i ->
  Z.testbit (ld32 (mem (exec i (Cpu r m s p))) SPI_CONTROL) 0 = true ->
  (let c := exec i (Cpu r m s p) in
   bus_runs P (Cpu (regs c) (fst (start (mem c) l)) (csrs c) (pc c)) (snd (start (mem c) l))) -> bus_runs P (Cpu r m s p) (Bus l None).
Proof.
  intros [Hm _] Hp Hi Hr H. eapply bus_next; [|exact H]. unfold bus_step. rewrite (driver_step r m s p i) by assumption.
  cbn [mbind option_bind]. unfold tick. cbn [pending sent]. rewrite Hr. destruct (start _ l). reflexivity.
Qed.

(** An instruction while a transfer runs. *)
Lemma running_step P r m s p i l n t : installed m -> in_driver p = true -> driver_at p = Some i ->
  (let c := exec i (Cpu r m s p) in
   match n with
   | S n => bus_runs P c (Bus l (Some (n, t)))
   | O => bus_runs P (Cpu (regs c) (finish t (mem c)) (csrs c) (pc c)) (Bus l None)
   end) -> bus_runs P (Cpu r m s p) (Bus l (Some (n, t))).
Proof.
  intros Hm Hp Hi H. cbv zeta in H.
  assert (Hs : bus_step (Cpu r m s p) (Bus l (Some (n, t))) =
    let c := exec i (Cpu r m s p) in let '(m', b') := tick (mem c) (Bus l (Some (n, t))) in Some (Cpu (regs c) m' (csrs c) (pc c), b')).
  { unfold bus_step. rewrite (driver_step r m s p i) by assumption. reflexivity. }
  destruct n as [|n]; (eapply bus_next; [exact Hs|]).
  - exact H.
  - destruct (exec i (Cpu r m s p)). exact H.
Qed.

End Bus.

(** Where a call with return address [ra] is back, with what [Q] says of registers, memory and the bytes sent, and the unit
    at rest. *)
Definition returns_to (ra : Z) (s : Z -> Z) (Q : (Z -> Z) -> memory -> trace -> Prop) (c : cpu) (b : bus) : Prop :=
  pc c = ra /\ csrs c = s /\ pending b = None /\ Q (regs c) (mem c) (sent b).

Lemma at_return card delay ra s (Q : (Z -> Z) -> memory -> trace -> Prop) r m l :
  Q r m l -> bus_runs card delay (returns_to ra s Q) (Cpu r m s ra) (Bus l None).
Proof. intros H. apply bus_done. split; [reflexivity|]. split; [reflexivity|]. split; [reflexivity|exact H]. Qed.

(** ** Symbolic execution *)

Ltac spi_addresses :=
  unfold SPI_CONTROL, SPI_STATUS, SPI_CONFIG, SPI_CS, SPI_TXDATA, SPI_RXDATA, SPI_BLOCK_LEN, SPI_TX_RAM, SPI_RX_RAM, SPI_BASE in *.
Ltac beside_tac := unfold beside_driver, beside_control; spi_addresses; lia.
Ltac ready_tac := repeat first [assumption | apply ready_st32; [|beside_tac..] | apply ready_st8; [|beside_tac..]].

(** One instruction with the unit at rest. *)
Ltac drive :=
  eapply quiet_step; [ready_tac|reflexivity|reflexivity|]; cpu_cbn; u32_small; norm_sums; split; [ready_tac|].
