(* ===== verification/DSpi.v ===== *)
(** * The SPI driver (drivers/spi/spi.s), as machine code *)

From S2P Require Import Prelude RvaIsa KImage DImage Cpu KCode DCode DBus.
From Stdlib Require Import String.
Local Open Scope list_scope.
Local Open Scope Z_scope.

Lemma spi_entries :
  map at_symbol ["spi_init"; "spi_send_byte"; "spi_poll_interrupt"; "spi_send_block"; "spi_set_block_len"; "spi_set_cs"; "spi_set_mode";
                 "spi_set_clock_div"; "DELAY"]%string =
  map Some [2716; 2792; 2812; 2836; 2872; 2884; 2896; 2932; 3488].
Proof. unfold at_symbol. rewrite driver_symbols_ok. vm_compute. reflexivity. Qed.

(** ** What the routines leave alone *)

(** Only registers of the unit change. *)
Definition device_only (m m' : memory) : Prop := forall a, a < SPI_BASE \/ SPI_BASE + 32 <= a -> ld8 m' a = ld8 m a.

(** What is below [sp] on the stack changes, too. *)
Definition untouched (sp : Z) (m m' : memory) : Prop :=
  forall a, a < heap_end \/ sp <= a < SPI_BASE \/ SPI_BASE + 32 <= a -> ld8 m' a = ld8 m a.

(** The unit is at rest, the select line at [level], and no byte is announced. *)
Record idle (level : Z) (m : memory) : Prop := Idle {
  idle_ready : ready m; idle_level : ld32 m SPI_CS = level; idle_status : Z.land (ld32 m SPI_STATUS) 32 = 0 }.

Ltac spi_regs := unfold device_only, untouched in *; spi_addresses.

Lemma device_only_refl m : device_only m m.
Proof. intros a _. reflexivity. Qed.

Lemma device_only_trans m1 m2 m3 : device_only m1 m2 -> device_only m2 m3 -> device_only m1 m3.
Proof. intros H1 H2 a Ha. rewrite H2, H1 by exact Ha. reflexivity. Qed.

Lemma device_only_st32 m m' a v : device_only m m' -> SPI_BASE <= a -> a + 4 <= SPI_BASE + 32 -> device_only m (st32 m' a v).
Proof. intros H H1 H2 b Hb. rewrite ld8_st32_ne by lia. apply H, Hb. Qed.

Lemma device_untouched sp m m' : device_only m m' -> sp <= stack_top -> untouched sp m m'.
Proof. intros H Hs a Ha. apply H. unfold heap_end, stack_top, SPI_BASE in *. lia. Qed.

Lemma untouched_refl sp m : untouched sp m m.
Proof. intros a _. reflexivity. Qed.

Lemma untouched_trans sp sp' m1 m2 m3 : untouched sp m1 m2 -> untouched sp' m2 m3 -> sp' <= sp -> untouched sp m1 m3.
Proof. intros H1 H2 Hs a Ha. rewrite H2, H1; [reflexivity|exact Ha|lia]. Qed.

Lemma untouched_st32 sp m m' a v : untouched sp m m' -> (heap_end <= a /\ a + 4 <= sp) \/ (SPI_BASE <= a /\ a + 4 <= SPI_BASE + 32) ->
  sp <= SPI_BASE -> untouched sp m (st32 m' a v).
Proof. intros H Ha Hs b Hb. rewrite ld8_st32_ne by (unfold heap_end, SPI_BASE in *; lia). apply H, Hb. Qed.

Lemma untouched_ld32 sp m m' a : untouched sp m m' -> a + 4 <= heap_end \/ (sp <= a /\ a + 4 <= SPI_BASE) \/ SPI_BASE + 32 <= a -> ld32 m' a = ld32 m a.
Proof. intros H Ha. apply ld32_ext. intros i Hi. apply H. unfold heap_end, SPI_BASE in *. lia. Qed.

Lemma device_ld32 m m' a : device_only m m' -> a + 4 <= SPI_BASE \/ SPI_BASE + 32 <= a -> ld32 m' a = ld32 m a.
Proof. intros H Ha. apply ld32_ext. intros i Hi. apply H. lia. Qed.

Lemma installed_device m m' : installed m -> device_only m m' -> installed m'.
Proof.
  intros Hm H. apply (installed_agree m); [exact Hm|]. intros a Ha. apply device_ld32; [exact H|].
  destruct (in_driver_bounds a Ha) as [_ H0]. unfold SPI_BASE. lia.
Qed.

(** One instruction while a transfer runs. *)
Ltac busy := eapply running_step; [assumption|reflexivity|reflexivity|]; cbv zeta iota; cpu_cbn; u32_small; norm_sums.

Section Spi.

Context (card : trace -> Z) (delay : trace -> nat).

Abbreviation runs := (bus_runs card delay).

(** ** Waiting for a transfer *)

Lemma poll_ready P r m s l : ready m -> code_pointer (r 1) -> r 5 = SPI_BASE -> Z.land (ld32 m SPI_STATUS) (r 7) <> 0 ->
  is_u32 (r 7) ->
  (forall r', regs_but [10; 28] r r' -> r' 10 = ld32 m SPI_RXDATA -> runs P (Cpu r' (st32 m SPI_STATUS 0) s (r 1)) (Bus l None)) ->
  runs P (Cpu r m s 2812) (Bus l None).
Proof.
  intros Hm Hra H5 Hst H7 H. spi_regs.
  drive. rewrite H5. cpu_cbn. drive. rewrite u32_land by (apply ld32_range || (unfold is_u32 in H7; lia)).
  drive. replace (Z.land _ _ =? 0) with false by lia. drive. rewrite H5. cpu_cbn. drive. rewrite H5. cpu_cbn.
  drive. rewrite jalr_target by exact Hra. apply H; [regs_tac|reflexivity].
Qed.

Lemma poll_wait P s l t n : forall r m, installed m -> ready (finish t m) -> code_pointer (r 1) -> r 5 = SPI_BASE -> is_u32 (r 7) ->
  Z.land (ld32 m SPI_STATUS) (r 7) = 0 -> Z.land (ld32 (finish t m) SPI_STATUS) (r 7) <> 0 ->
  (forall r', regs_but [10; 28] r r' -> r' 10 = ld32 (finish t m) SPI_RXDATA ->
    runs P (Cpu r' (st32 (finish t m) SPI_STATUS 0) s (r 1)) (Bus l None)) ->
  runs P (Cpu r m s 2812) (Bus l (Some (n, t))).
Proof.
  induction n as [n IH] using lt_wf_ind. intros r m Hm Hf Hra H5 H7 H0 H1 H.
  assert (Hpoll : forall r1, regs_but [28] r r1 -> runs P (Cpu r1 (finish t m) s 2812) (Bus l None)).
  { intros r1 Hr1. apply poll_ready; rewrite ?(Hr1 1), ?(Hr1 5), ?(Hr1 7) by cell; auto.
    intros r' Hr' H10. apply H; [|exact H10]. intros x Hx. rewrite Hr' by cells Hx. apply Hr1. cells Hx. }
  assert (Hland : u32 (Z.land (ld32 m SPI_STATUS) (r 7)) = 0) by (rewrite H0; reflexivity). unfold SPI_BASE in H5.
  destruct n as [|[|[|n]]]; busy; rewrite H5; cpu_cbn; change 131076 with SPI_STATUS.
  - do 2 (drive; rewrite ?Hland, ?H0; cbn [Z.eqb]). apply Hpoll. regs_tac.
  - busy. rewrite ?Hland, ?H0. drive. cbn [Z.eqb]. apply Hpoll. regs_tac.
  - busy. rewrite ?Hland, ?H0. busy. cbn [Z.eqb]. apply Hpoll. regs_tac.
  - busy. rewrite ?Hland, ?H0. busy. cbn [Z.eqb]. apply IH; auto with lia. intros r' Hr' H10. apply H; [|exact H10].
    regs_over Hr'.
Qed.

(** ** Sending a byte *)

Lemma ld8_st32_eq m a v : ld8 (st32 m a v) a = v mod 256.
Proof. unfold st32. rewrite ld8_st16_ne by lia. unfold st16. rewrite ld8_st8_ne by lia. apply ld8_st8_eq. Qed.

Lemma start_byte m l : ld32 m SPI_CONTROL = 1 ->
  start card delay m l =
    (let l' := (ld32 m SPI_CS, ld8 m SPI_TXDATA) :: l in (st32 m SPI_CONTROL 0, Bus l' (Some (delay l', OneByte (reply card l'))))).
Proof. intros H. unfold start. rewrite H. reflexivity. Qed.

Lemma reply_range l : 0 <= reply card l < 256.
Proof. apply Z.mod_pos_bound. lia. Qed.

(** The memory when the byte [b] goes out, and when it did and [v] came in. *)
Definition sending (m : memory) (b : Z) : memory := st32 (st32 (st32 m SPI_TXDATA b) SPI_CONTROL 1) SPI_CONTROL 0.
Definition byte_sent (m : memory) (b v : Z) : memory := st32 (finish (OneByte v) (sending m b)) SPI_STATUS 0.

Lemma byte_sent_spec level m b v : idle level m ->
  idle level (byte_sent m b v) /\ ld32 (byte_sent m b v) SPI_STATUS = 0 /\ device_only m (byte_sent m b v).
Proof.
  intros [[Hi Hr] Hl Hs].
  assert (Hd : device_only m (byte_sent m b v)).
  { unfold byte_sent, sending, finish. spi_regs. repeat (apply device_only_st32; [|unfold SPI_BASE; lia..]). apply device_only_refl. }
  assert (H0 : ld32 (byte_sent m b v) SPI_STATUS = 0) by (apply ld32_st32_eq; unfold is_u32; lia).
  split; [|split; [exact H0|exact Hd]]. split.
  - split; [apply (installed_device m); assumption|]. unfold byte_sent, sending, finish. spi_regs. loads. rewrite ld32_st32_eq by (unfold is_u32; lia). reflexivity.
  - unfold byte_sent, sending, finish. spi_regs. loads. exact Hl.
  - rewrite H0. reflexivity.
Qed.

Lemma sending_spec level m b v : idle level m -> let m1 := sending m b in let m2 := finish (OneByte v) m1 in
  installed m1 /\ ready m2 /\ Z.land (ld32 m1 SPI_STATUS) 32 = 0 /\ Z.land (ld32 m2 SPI_STATUS) 32 <> 0 /\ (is_u32 v -> ld32 m2 SPI_RXDATA = v).
Proof.
  intros [[Hi Hr] Hl Hs] m1 m2.
  assert (Hd : device_only m m1).
  { unfold m1, sending. spi_regs. repeat (apply device_only_st32; [|unfold SPI_BASE; lia..]). apply device_only_refl. }
  assert (Hd2 : device_only m m2).
  { unfold m2, finish. spi_regs. repeat (apply device_only_st32; [|unfold SPI_BASE; lia..]). exact Hd. }
  assert (Hs1 : ld32 m1 SPI_STATUS = ld32 m SPI_STATUS) by (unfold m1, sending; spi_regs; loads; reflexivity).
  assert (Hs2 : ld32 m2 SPI_STATUS = Z.lor (ld32 m SPI_STATUS) 32).
  { unfold m2, finish. rewrite Hs1. apply ld32_st32_eq. rewrite <- u32_lor by (apply ld32_range || (unfold is_u32; lia)). apply u32_range. }
  split; [apply (installed_device m); assumption|]. split; [|split; [|split]].
  - split; [apply (installed_device m); assumption|]. unfold m2, finish, m1, sending. spi_regs. loads. rewrite ld32_st32_eq by (unfold is_u32; lia). reflexivity.
  - rewrite Hs1. exact Hs.
  - rewrite Hs2, Z.land_lor_distr_l, Hs. discriminate.
  - intros Hv. unfold m2, finish. spi_regs. loads. apply ld32_st32_eq, Hv.
Qed.

Lemma spi_send_byte_runs P r m s l level : idle level m -> code_pointer (r 1) ->
  (forall r' m', regs_but [5; 6; 7; 10; 28] r r' -> r' 10 = reply card ((level, r 10 mod 256) :: l) -> idle level m' ->
    ld32 m' SPI_STATUS = 0 -> device_only m m' -> runs P (Cpu r' m' s (r 1)) (Bus ((level, r 10 mod 256) :: l) None)) ->
  runs P (Cpu r m s 2792) (Bus l None).
Proof.
  intros Hm Hra H. set (l' := (level, r 10 mod 256) :: l) in *. set (v := reply card l') in *.
  destruct (byte_sent_spec level m (r 10) v Hm) as (Hm' & Hs' & Hd').
  destruct (sending_spec level m (r 10) v Hm) as (Hi1 & Hr2 & Hz & Hnz & Hv). destruct Hm as [Hm Hl Hs].
  pose proof (reply_range l') as Hrange. fold v in Hrange. specialize (Hv ltac:(unfold is_u32; lia)).
  assert (Hdone : forall r2, regs_but [5; 6; 7; 10; 28] r r2 -> r2 10 = ld32 (finish (OneByte v) (sending m (r 10))) SPI_RXDATA ->
    runs P (Cpu r2 (st32 (finish (OneByte v) (sending m (r 10))) SPI_STATUS 0) s (r 1)) (Bus l' None)).
  { intros r2 Hr H10. apply H; [exact Hr|rewrite H10; exact Hv|exact Hm'|exact Hs'|exact Hd']. }
  drive. drive. drive.
  eapply begin_step; [ready_tac|reflexivity|reflexivity| |]; cbv zeta; cpu_cbn; change 131072 with SPI_CONTROL; change 131088 with SPI_TXDATA.
  { rewrite ld32_st32_eq by (unfold is_u32; lia). reflexivity. }
  rewrite start_byte by (apply ld32_st32_eq; unfold is_u32; lia). cbn [fst snd]. change (st32 _ SPI_CONTROL 0) with (sending m (r 10)).
  assert (Hcs : ld32 (st32 (st32 m SPI_TXDATA (r 10)) SPI_CONTROL 1) SPI_CS = level) by (spi_regs; loads; exact Hl).
  assert (Htx : ld8 (st32 (st32 m SPI_TXDATA (r 10)) SPI_CONTROL 1) SPI_TXDATA = r 10 mod 256) by (spi_regs; loads; apply ld8_st32_eq).
  rewrite Hcs, Htx. clear Hcs Htx.
  fold l' v. destruct (delay l') as [|n]; busy.
  - apply poll_ready; cbn [upd Z.eqb Pos.eqb]; auto; [unfold is_u32; lia|]. intros r2 Hr H10. apply Hdone; [regs_over Hr|exact H10].
  - apply poll_wait; cbn [upd Z.eqb Pos.eqb]; auto; [unfold is_u32; lia|]. intros r2 Hr H10. apply Hdone; [regs_over Hr|exact H10].
Qed.

(** ** Settings *)

Lemma idle_set level level' m a v : idle level m -> In a [SPI_CONFIG; SPI_CS; SPI_BLOCK_LEN; SPI_TXDATA] -> is_u32 v ->
  level' = (if a =? SPI_CS then v else level) -> idle level' (st32 m a v) /\ device_only m (st32 m a v).
Proof.
  intros [[Hi Hr] Hl Hs] Ha Hv ->.
  assert (Hd : device_only m (st32 m a v)).
  { cbn in Ha. destruct Ha as [<-|[<-|[<-|[<-|[]]]]]; (apply device_only_st32; [apply device_only_refl|spi_regs; unfold SPI_BASE; lia..]). }
  split; [|exact Hd]. cbn in Ha.
  destruct Ha as [<-|[<-|[<-|[<-|[]]]]]; (split; [split; [apply (installed_device m); assumption|]| |]); spi_regs; cbn [Z.eqb Pos.eqb];
    loads; try assumption; rewrite ?ld32_st32_eq by exact Hv; reflexivity.
Qed.

Lemma spi_set_cs_runs P r m s l level : idle level m -> code_pointer (r 1) -> is_u32 (r 10) ->
  (forall r', regs_but [5] r r' -> idle (r 10) (st32 m SPI_CS (r 10)) -> device_only m (st32 m SPI_CS (r 10)) ->
    runs P (Cpu r' (st32 m SPI_CS (r 10)) s (r 1)) (Bus l None)) ->
  runs P (Cpu r m s 2884) (Bus l None).
Proof.
  intros Hm Hra Hu H. destruct (idle_set level (r 10) m SPI_CS (r 10) Hm ltac:(cbn; auto) Hu eq_refl) as [Hm' Hd]. destruct Hm as [Hm _ _].
  drive. drive. change 131084 with SPI_CS. drive. rewrite jalr_target by exact Hra. apply H; auto. regs_tac.
Qed.

Lemma spi_set_block_len_runs P r m s l level : idle level m -> code_pointer (r 1) -> is_u32 (r 10) ->
  (forall r', regs_but [5] r r' -> idle level (st32 m SPI_BLOCK_LEN (r 10)) -> device_only m (st32 m SPI_BLOCK_LEN (r 10)) ->
    runs P (Cpu r' (st32 m SPI_BLOCK_LEN (r 10)) s (r 1)) (Bus l None)) ->
  runs P (Cpu r m s 2872) (Bus l None).
Proof.
  intros Hm Hra Hu H. destruct (idle_set level level m SPI_BLOCK_LEN (r 10) Hm ltac:(cbn; auto) Hu eq_refl) as [Hm' Hd]. destruct Hm as [Hm _ _].
  drive. drive. change 131096 with SPI_BLOCK_LEN. drive. rewrite jalr_target by exact Hra. apply H; auto. regs_tac.
Qed.

(** The divisor goes beside the one before it, whose bits are not cleared from bit 16 on. *)
(* drivers/spi/spi.s:126-140 spi_set_clock_div *)
Definition divided (config v : Z) : Z := u32 (Z.lor (u32 (Z.land config (not32 0xFF00))) (u32 (Z.shiftl v 8))).

Lemma spi_set_clock_div_runs P r m s l level : idle level m -> code_pointer (r 1) -> is_u32 (r 10) ->
  (let v := divided (ld32 m SPI_CONFIG) (r 10) in
   forall r', regs_but [5; 6; 7; 28; 29] r r' -> idle level (st32 m SPI_CONFIG v) -> device_only m (st32 m SPI_CONFIG v) ->
    runs P (Cpu r' (st32 m SPI_CONFIG v) s (r 1)) (Bus l None)) ->
  runs P (Cpu r m s 2932) (Bus l None).
Proof.
  intros Hm Hra Hu H. cbv zeta in H. set (v := divided _ _) in *.
  destruct (idle_set level level m SPI_CONFIG v Hm ltac:(cbn; auto) ltac:(apply u32_range) eq_refl) as [Hm' Hd]. destruct Hm as [Hm _ _].
  drive. drive. change 131080 with SPI_CONFIG. drive. drive. drive. change (u32 (Z.lxor _ _)) with (not32 0xFF00).
  drive. drive. drive. drive. change (8 mod 32) with 8. change (u32 (Z.lor _ _)) with v.
  drive. change 131080 with SPI_CONFIG. drive. rewrite jalr_target by exact Hra. apply H; auto. regs_tac.
Qed.

(** ** Sending a block *)

(** A block of which [back] comes back is on its way, or through. *)
Definition in_flight (P : cpu -> bus -> Prop) (r : Z -> Z) (m : memory) (s : Z -> Z) (p : Z) (l : trace) (back : list Z) : Prop :=
  (forall n, runs P (Cpu r m s p) (Bus l (Some (n, OneBlock back)))) /\ runs P (Cpu r (finish (OneBlock back) m) s p) (Bus l None).

Lemma flight_step P r m s p l back i : installed m -> ready (finish (OneBlock back) m) -> in_driver p = true -> driver_at p = Some i ->
  (forall m', m' = m \/ m' = finish (OneBlock back) m ->
    exec i (Cpu r m' s p) = Cpu (regs (exec i (Cpu r m s p))) m' (csrs (exec i (Cpu r m s p))) (pc (exec i (Cpu r m s p)))) ->
  in_flight P (regs (exec i (Cpu r m s p))) m (csrs (exec i (Cpu r m s p))) (pc (exec i (Cpu r m s p))) l back ->
  in_flight P r m s p l back.
Proof.
  intros Hm Hf Hp Hi He [H1 H2]. split.
  - intros n. eapply running_step; [exact Hm|exact Hp|exact Hi|]. cbv zeta. rewrite (He m) by auto. destruct n; [exact H2|apply H1].
  - eapply quiet_step; [exact Hf|exact Hp|exact Hi|]. rewrite (He (finish (OneBlock back) m)) by auto. split; [exact Hf|exact H2].
Qed.

(** The bytes of the block that goes out of [m]. *)
Definition block_back (m : memory) (l : trace) : list Z := replies card (ld32 m SPI_CS) (block_to_send m) l.
Definition block_sent (m : memory) (l : trace) : trace := send (ld32 m SPI_CS) (block_to_send m) l.

(** The memory while it is on its way. *)
Definition block_out (m : memory) : memory := st32 (st32 m SPI_CONTROL 5) SPI_CONTROL 0.

Lemma ld8_put_bytes_ne bs : forall m a b, b < a \/ a + Z.of_nat (List.length bs) <= b -> ld8 (put_bytes m a bs) b = ld8 m b.
Proof.
  induction bs as [|x bs IH]; intros m a b H; cbn [put_bytes List.length] in *; [reflexivity|].
  rewrite IH by lia. apply ld8_st8_ne. lia.
Qed.

Lemma block_to_send_length m : (List.length (block_to_send m) <= 512)%nat.
Proof. unfold block_to_send, bytes_at. rewrite length_map, length_seq. lia. Qed.

Lemma block_out_to_send m : ready m -> block_to_send (st32 m SPI_CONTROL 5) = block_to_send m.
Proof.
  intros _. unfold block_to_send, bytes_at. spi_addresses. loads. apply map_ext. intros i. loads. reflexivity.
Qed.

Lemma block_out_spec level m back : idle level m -> (List.length back <= 512)%nat ->
  installed (block_out m) /\ ready (finish (OneBlock back) (block_out m)) /\ device_only m (block_out m) /\
  ld32 (block_out m) SPI_STATUS = ld32 m SPI_STATUS /\ ld32 (block_out m) SPI_CS = level /\ 
  ld32 (finish (OneBlock back) (block_out m)) SPI_STATUS = Z.lor (ld32 m SPI_STATUS) 64 /\
  ld32 (finish (OneBlock back) (block_out m)) SPI_CS = level.
Proof.
  intros [[Hi Hr] Hl Hs] Hlen.
  assert (Hput : forall m b, b + 4 <= SPI_RX_RAM -> ld32 (put_bytes m SPI_RX_RAM back) b = ld32 m b).
  { intros m0 b Hb. apply ld32_ext. intros i Hi0. apply ld8_put_bytes_ne. lia. }
  assert (Hd : device_only m (block_out m)).
  { unfold block_out. spi_regs. repeat (apply device_only_st32; [|unfold SPI_BASE; lia..]). apply device_only_refl. }
  assert (Hst : ld32 (block_out m) SPI_STATUS = ld32 m SPI_STATUS) by (unfold block_out; spi_addresses; loads; reflexivity).
  assert (Hcs : ld32 (block_out m) SPI_CS = level) by (unfold block_out; spi_addresses; loads; exact Hl).
  assert (Hc : ld32 (block_out m) SPI_CONTROL = 0) by (apply ld32_st32_eq; unfold is_u32; lia).
  assert (Hi' : installed (block_out m)) by (apply (installed_device m); assumption).
  split; [exact Hi'|]. split; [|split; [exact Hd|split; [exact Hst|split; [exact Hcs|split]]]].
  - unfold finish. split.
    + apply (installed_agree (block_out m)); [exact Hi'|]. intros a Ha. destruct (in_driver_bounds a Ha) as [_ H0].
      rewrite ld32_st32_ne, Hput by (spi_addresses; lia). reflexivity.
    + rewrite ld32_st32_ne, Hput, Hc by (spi_addresses; lia). reflexivity.
  - unfold finish. rewrite Hst. apply ld32_st32_eq. rewrite <- u32_lor by (apply ld32_range || (unfold is_u32; lia)). apply u32_range.
  - unfold finish. rewrite ld32_st32_ne, Hput by (spi_addresses; lia). exact Hcs.
Qed.

Lemma spi_send_block_runs P r m s l level : idle level m -> code_pointer (r 1) ->
  (forall r', regs_but [5; 6] r r' -> r' 5 = SPI_BASE -> in_flight P r' (block_out m) s (r 1) (block_sent m l) (block_back m l)) ->
  runs P (Cpu r m s 2836) (Bus l None).
Proof.
  intros Hm Hra H.
  destruct (block_out_spec level m (block_back m l) Hm) as (Hi & Hf & _).
  { unfold block_back. rewrite replies_length. apply block_to_send_length. }
  destruct Hm as [Hm Hl Hs]. drive. drive.
  eapply begin_step; [ready_tac|reflexivity|reflexivity| |]; cbv zeta; cpu_cbn; change 131072 with SPI_CONTROL.
  { rewrite ld32_st32_eq by (unfold is_u32; lia). reflexivity. }
  unfold start. rewrite ld32_st32_eq by (unfold is_u32; lia). cbn [Z.testbit Pos.testbit fst snd].
  rewrite block_out_to_send by exact Hm. replace (ld32 (st32 m SPI_CONTROL 5) SPI_CS) with (ld32 m SPI_CS) by (spi_addresses; loads; reflexivity).
  fold (block_back m l) (block_sent m l) (block_out m).
  apply (flight_step P (upd (upd r 5 SPI_CONTROL) 6 5) (block_out m) s 2848 (block_sent m l) (block_back m l) (Jalr 0 1 0)); auto.
  cpu_cbn. rewrite Z.add_0_r, jalr_target by exact Hra. apply H; [regs_tac|reflexivity].
Qed.

(** Waiting until it is through. *)
Lemma poll_block P r m s l back : installed m -> ready (finish (OneBlock back) m) -> code_pointer (r 1) -> r 5 = SPI_BASE -> is_u32 (r 7) ->
  Z.land (ld32 m SPI_STATUS) (r 7) = 0 -> Z.land (ld32 (finish (OneBlock back) m) SPI_STATUS) (r 7) <> 0 ->
  (forall r', regs_but [10; 28] r r' -> runs P (Cpu r' (st32 (finish (OneBlock back) m) SPI_STATUS 0) s (r 1)) (Bus l None)) ->
  in_flight P r m s 2812 l back.
Proof.
  intros. split; [intros n; apply poll_wait; auto|apply poll_ready; auto].
Qed.

(** ** Waiting for some time *)

Lemma delay_runs P r m s l k : ready m -> code_pointer (r 1) -> r 10 = Z.of_nat (S k) -> Z.of_nat (S k) < 4294967296 ->
  (forall r', regs_but [10] r r' -> runs P (Cpu r' m s (r 1)) (Bus l None)) -> runs P (Cpu r m s 3488) (Bus l None).
Proof.
  intros Hm Hra H10 Hk H.
  assert (Hloop : forall k r1, regs_but [10] r r1 -> r1 10 = Z.of_nat (S k) -> Z.of_nat (S k) < 4294967296 ->
    runs P (Cpu r1 m s 3488) (Bus l None)).
  { clear k H10 Hk. induction k as [|k IH]; intros r1 Hr1 H10 Hk; drive; drive; rewrite H10.
    - drive. rewrite (Hr1 1) by cell. rewrite jalr_target by exact Hra. apply H. regs_over Hr1.
    - replace (Z.of_nat (S (S k)) - 1 =? 0) with false by (symmetry; apply Z.eqb_neq; lia). cbn [negb]. apply IH; [regs_over Hr1|cbn [upd Z.eqb Pos.eqb]; lia|lia]. }
  apply (Hloop k); [apply regs_but_refl|exact H10|exact Hk].
Qed.

End Spi.

(** ** While a block is on its way *)

Lemma finish_low back m1 a : a + 4 <= SPI_BASE -> ld32 (finish (OneBlock back) m1) a = ld32 m1 a.
Proof.
  intros Ha. unfold finish. spi_addresses. loads. apply ld32_ext. intros i Hi. apply ld8_put_bytes_ne. lia.
Qed.

Ltac fly Hi Hf H2 :=
  eapply flight_step; [exact Hi|exact Hf|reflexivity|reflexivity|
    intros ? [-> | ->]; cpu_cbn; rewrite ?H2; cpu_cbn; u32_small; norm_sums; rewrite ?finish_low by (unfold SPI_BASE; lia); reflexivity|];
  cpu_cbn; u32_small; norm_sums.
