(* ===== verification/DSd.v ===== *)
(** * The driver of the SD card (drivers/spi/sd.s), as machine code *)

From S2P Require Import Prelude RvaIsa KImage DImage Cpu KCode DCode DBus DSpi.
From Stdlib Require Import String.
Local Open Scope list_scope.
Local Open Scope Z_scope.

Lemma sd_entries :
  map at_symbol ["sd_init"; "sd_readRes1"; "sd_readRes3_7"; "send_dummy_clocks"; "sd_send_command_crc"; "sd_start_read"; "sd_tail_read";
                 "sd_start_write"; "sd_tail_write"; "SD_STATE"; "SD_BLOCK_ADDRESSSING"]%string =
  map Some [1524; 1800; 1888; 1984; 2100; 2176; 2336; 2412; 2568; 1; 0].
Proof. unfold at_symbol. rewrite driver_symbols_ok. vm_compute. reflexivity. Qed.

(** ** Inside a routine *)

(** Room for [n] bytes on the stack. *)
Definition stack_room (sp n : Z) : Prop := heap_end + n <= sp /\ sp <= stack_top.

(** In a routine that started with [r], and [m] once its frame was pushed: it may change the registers [xs], the stack
    pointer is [sp], and the unit is at rest. *)
Record stage (xs : list Z) (r : Z -> Z) (m : memory) (sp level : Z) (r' : Z -> Z) (m' : memory) : Prop := Stage {
  st_regs : regs_but (2 :: xs) r r'; st_sp : r' 2 = sp; st_idle : idle level m'; st_mem : untouched sp m m' }.

Lemma stage_upd xs r m sp level r' m' x v : stage xs r m sp level r' m' -> In x xs -> x <> 2 -> stage xs r m sp level (upd r' x v) m'.
Proof.
  intros [Hr Hs Hi Hm] Hx H2. split; auto.
  - intros y Hy. assert (y <> x) by (intros ->; rewrite List.Forall_forall in Hy; apply (Hy x); [right; exact Hx|reflexivity]).
    unfold upd. replace (y =? x) with false by (symmetry; apply Z.eqb_neq; assumption). apply Hr, Hy.
  - unfold upd. replace (2 =? x) with false by (symmetry; apply Z.eqb_neq; lia). exact Hs.
Qed.

Lemma stage_kept xs r m sp level r' m' x : stage xs r m sp level r' m' -> Forall (fun y => x <> y) (2 :: xs) -> r' x = r x.
Proof. intros H Hx. apply (st_regs _ _ _ _ _ _ _ H), Hx. Qed.

Lemma stage_ld32 xs r m sp level r' m' a : stage xs r m sp level r' m' -> sp <= a -> a + 4 <= stack_top -> ld32 m' a = ld32 m a.
Proof.
  intros H H1 H2. apply (untouched_ld32 sp); [apply (st_mem _ _ _ _ _ _ _ H)|]. unfold stack_top, SPI_BASE in *. lia.
Qed.

Lemma idle_stack level m a v : idle level m -> heap_end <= a -> a + 4 <= stack_top -> idle level (st32 m a v).
Proof.
  intros [Hr Hl Hs] H1 H2. unfold heap_end, stack_top in *. split.
  - apply ready_st32; [exact Hr|beside_tac..].
  - spi_addresses. loads. exact Hl.
  - spi_addresses. loads. exact Hs.
Qed.

Lemma idle_var level m a v : idle level m -> beside_driver a 1 -> a < SPI_BASE -> idle level (st8 m a v).
Proof.
  intros [Hr Hl Hs] H1 H2. split.
  - apply ready_st8; [exact Hr|exact H1|]. spi_addresses. unfold beside_control. spi_addresses. lia.
  - spi_addresses. loads. exact Hl.
  - spi_addresses. loads. exact Hs.
Qed.

Lemma regs_restore xs r r' x : regs_but (x :: xs) r r' -> regs_but xs r (upd r' x (r x)).
Proof.
  intros H y Hy. unfold upd. destruct (Z.eqb_spec y x) as [->|Hn]; [reflexivity|]. apply H. constructor; assumption.
Qed.

Lemma regs_but_upd xs r r' x v : In x xs -> regs_but xs r r' -> regs_but xs r (upd r' x v).
Proof.
  intros Hx H y Hy. unfold upd. rewrite List.Forall_forall in Hy. destruct (Z.eqb_spec y x) as [->|Hn]; [destruct (Hy x Hx eq_refl)|].
  apply H. rewrite List.Forall_forall. exact Hy.
Qed.

Lemma regs_but_incl xs ys r r' : incl xs ys -> regs_but xs r r' -> regs_but ys r r'.
Proof. intros Hi H x Hx. apply H. rewrite List.Forall_forall in *. auto. Qed.


(** What a call of [spi_send_byte] changes. *)
Definition send_clobbers : list Z := [1; 5; 6; 7; 10; 28].

(** A store of the routine itself. *)
Lemma stage_st8 xs r m sp level r' m' a v : stage xs r m sp level r' m' -> heap_end <= sp -> beside_driver a 1 -> a < SPI_BASE ->
  stage xs r (st8 m a v) sp level r' (st8 m' a v).
Proof.
  intros [Hr Hs Hi Hm] Hsp Hb Ha. split; auto; [apply idle_var; assumption|].
  intros b Hb'. apply ld8_st8_cong, Hm, Hb'.
Qed.

Lemma untouched_st8_cong sp m m' a v : untouched sp m m' -> untouched sp (st8 m a v) (st8 m' a v).
Proof. intros H b Hb. apply ld8_st8_cong, H, Hb. Qed.

Lemma incl_computed xs ys : forallb (fun x => existsb (Z.eqb x) ys) xs = true -> incl xs ys.
Proof.
  intros H x Hx. rewrite List.forallb_forall in H. specialize (H x Hx). apply List.existsb_exists in H as (y & Hy & He).
  apply Z.eqb_eq in He as ->. exact Hy.
Qed.

Ltac incl_tac := apply incl_computed; reflexivity.
Ltac stage_tac H := repeat first [exact H | apply stage_upd; [|cbn; lia|lia]].
(** With [H2] the stack pointer. *)
Ltac at_sp H2 := rewrite H2; cpu_cbn; u32_small; norm_sums.
Ltac pop H2 Hl Hw := drive; at_sp H2; rewrite Hl, Hw by lia.
Ltac ready_tac ::= repeat first [assumption | eapply idle_ready; eassumption | eapply idle_ready, st_idle; eassumption
  | apply ready_st32; [|beside_tac..] | apply ready_st8; [|beside_tac..]].

(** The registers at the end of a routine, where [H] is its last stage. *)
Ltac regs_return H :=
  repeat first [apply regs_but_upd; [cbn; tauto|] | apply regs_restore]; eapply regs_but_incl; [|exact (st_regs _ _ _ _ _ _ _ H)]; incl_tac.

Section Sd.

Context (card : trace -> Z) (delay : trace -> nat).

Abbreviation runs := (bus_runs card delay).

Lemma stage_step xs r m sp level level' r' m' r2 m2 ys : stage xs r m sp level r' m' -> incl ys xs -> ~ In 2 ys -> regs_but ys r' r2 ->
  idle level' m2 -> untouched sp m' m2 -> stage xs r m sp level' r2 m2.
Proof.
  intros [Hr Hs Hi Hm] Hys H2 Hr2 Hi2 Hd. split; auto.
  - intros x Hx. rewrite Hr2; [apply Hr, Hx|]. rewrite List.Forall_forall in *. intros y Hy. apply Hx. right. apply Hys, Hy.
  - rewrite Hr2; [exact Hs|]. rewrite List.Forall_forall. intros y Hy <-. contradiction.
  - eapply untouched_trans; [exact Hm|exact Hd|lia].
Qed.

Lemma stage_regs xs r m sp level r' m' r2 ys : stage xs r m sp level r' m' -> incl ys xs -> ~ In 2 ys -> regs_but ys r' r2 ->
  regs_but (2 :: xs) r r2 /\ r2 2 = sp.
Proof.
  intros Hst Hys H2 Hr2. destruct (stage_step xs r m sp level level r' m' r2 m' ys Hst); auto; [apply (st_idle _ _ _ _ _ _ _ Hst)|apply untouched_refl].
Qed.

Lemma stage_send P xs r m sp level r' m' s l p : stage xs r m sp level r' m' -> incl send_clobbers xs -> sp <= stack_top ->
  in_driver p = true -> driver_at p = Some (Jal 1 2792) -> code_pointer (p + 4) ->
  (forall r2 m2, stage xs r m sp level r2 m2 -> regs_but send_clobbers r' r2 -> r2 10 = reply card ((level, r' 10 mod 256) :: l) ->
    ld32 m2 SPI_STATUS = 0 -> runs P (Cpu r2 m2 s (p + 4)) (Bus ((level, r' 10 mod 256) :: l) None)) ->
  runs P (Cpu r' m' s p) (Bus l None).
Proof.
  intros Hst Hxs Hsp Hp Hi Hc H. pose proof (idle_ready _ _ (st_idle _ _ _ _ _ _ _ Hst)) as Hm.
  eapply quiet_step; [exact Hm|exact Hp|exact Hi|]. cbn [exec set Z.eqb mem]. split; [exact Hm|].
  eapply spi_send_byte_runs; [apply (st_idle _ _ _ _ _ _ _ Hst)|cbn [upd Z.eqb Pos.eqb]; exact Hc|].
  cbn [upd Z.eqb Pos.eqb]. intros r2 m2 Hr2 H10 Hi2 Hs2 Hd.
  assert (Hr2' : regs_but send_clobbers r' r2) by (unfold send_clobbers; regs_over Hr2).
  apply H; auto. apply (stage_step xs r m sp level level r' m' r2 m2 send_clobbers); auto; [unfold send_clobbers; cbn; lia|].
  apply device_untouched; assumption.
Qed.

Lemma stage_cs P xs r m sp level r' m' s l p v : stage xs r m sp level r' m' -> incl [1; 5] xs -> sp <= stack_top ->
  in_driver p = true -> driver_at p = Some (Jal 1 2884) -> code_pointer (p + 4) -> r' 10 = v -> is_u32 v ->
  (forall r2 m2, stage xs r m sp v r2 m2 -> regs_but [1; 5] r' r2 -> ld32 m2 SPI_STATUS = ld32 m' SPI_STATUS ->
    runs P (Cpu r2 m2 s (p + 4)) (Bus l None)) ->
  runs P (Cpu r' m' s p) (Bus l None).
Proof.
  intros Hst Hxs Hsp Hp Hi Hc Hv Hu H. pose proof (idle_ready _ _ (st_idle _ _ _ _ _ _ _ Hst)) as Hm.
  eapply quiet_step; [exact Hm|exact Hp|exact Hi|]. cbn [exec set Z.eqb mem]. split; [exact Hm|].
  eapply spi_set_cs_runs; cbn [upd Z.eqb Pos.eqb]; [apply (st_idle _ _ _ _ _ _ _ Hst)|exact Hc|rewrite Hv; exact Hu|].
  rewrite Hv. intros r2 Hr2 Hi2 Hd. assert (Hr2' : regs_but [1; 5] r' r2) by regs_over Hr2.
  apply H; [|exact Hr2'|spi_addresses; loads; reflexivity].
  apply (stage_step xs r m sp level v r' m' _ _ [1; 5]); auto; [cbn; lia|]. apply device_untouched; assumption.
Qed.

Lemma stage_block_len P xs r m sp level r' m' s l p v : stage xs r m sp level r' m' -> incl [1; 5] xs -> sp <= stack_top ->
  in_driver p = true -> driver_at p = Some (Jal 1 2872) -> code_pointer (p + 4) -> r' 10 = v -> is_u32 v ->
  (forall r2 m2, stage xs r m sp level r2 m2 -> regs_but [1; 5] r' r2 -> ld32 m2 SPI_STATUS = ld32 m' SPI_STATUS ->
    ld32 m2 SPI_BLOCK_LEN = v -> runs P (Cpu r2 m2 s (p + 4)) (Bus l None)) ->
  runs P (Cpu r' m' s p) (Bus l None).
Proof.
  intros Hst Hxs Hsp Hp Hi Hc Hv Hu H. pose proof (idle_ready _ _ (st_idle _ _ _ _ _ _ _ Hst)) as Hm.
  eapply quiet_step; [exact Hm|exact Hp|exact Hi|]. cbn [exec set Z.eqb mem]. split; [exact Hm|].
  eapply spi_set_block_len_runs; cbn [upd Z.eqb Pos.eqb]; [apply (st_idle _ _ _ _ _ _ _ Hst)|exact Hc|rewrite Hv; exact Hu|].
  rewrite Hv. intros r2 Hr2 Hi2 Hd. assert (Hr2' : regs_but [1; 5] r' r2) by regs_over Hr2.
  apply H; [|exact Hr2'|spi_addresses; loads; reflexivity|apply ld32_st32_eq, Hu].
  apply (stage_step xs r m sp level level r' m' _ _ [1; 5]); auto; [cbn; lia|]. apply device_untouched; assumption.
Qed.

End Sd.

Ltac sending H :=
  match type of H with stage ?X ?R ?M ?S ?L _ _ => eapply stage_send with (xs := X) (r := R) (m := M) (sp := S) (level := L) end;
  [stage_tac H|incl_tac|unfold stack_top in *; lia|reflexivity|reflexivity|code_ptr|]; fold_literals; clear H;
  cbn [upd Z.eqb Pos.eqb].
Section Commands.

Context (card : trace -> Z) (delay : trace -> nat).

Abbreviation runs := (bus_runs card delay).

(** ** Commands *)

(** The six bytes of a command, most significant byte of the argument first. *)
(* drivers/spi/sd.s:319-337 sd_send_command_crc *)
Definition command (cmd arg crc : Z) : list Z :=
  [Z.lor cmd 0x40 mod 256; Z.shiftr arg 24 mod 256; Z.shiftr arg 16 mod 256; Z.shiftr arg 8 mod 256; arg mod 256; Z.lor crc 1 mod 256].

Lemma command_bytes level cmd arg crc l : is_u32 cmd -> is_u32 arg -> is_u32 crc ->
  (level, u32 (Z.lor crc 1) mod 256) :: (level, u32 (Z.land arg 255) mod 256) :: (level, Z.shiftr arg (8 mod 32) mod 256) ::
  (level, Z.shiftr arg (16 mod 32) mod 256) :: (level, Z.shiftr arg (24 mod 32) mod 256) :: (level, Z.lor cmd 64 mod 256) :: l =
  send level (command cmd arg crc) l.
Proof.
  intros Hc Ha Hr. unfold send, command. cbn [fold_left]. change 255 with (Z.ones 8). rewrite Z.land_ones by lia.
  rewrite u32_lor by (assumption || (unfold is_u32; lia)). change (2 ^ 8) with 256. rewrite (u32_id (arg mod 256)) by (unfold is_u32; dlia).
  rewrite Z.mod_mod by lia. reflexivity.
Qed.

Lemma sd_send_command_runs P r m s l level : idle level m -> code_pointer (r 1) -> stack_room (r 2) 4 -> is_u32 (r 10) -> is_u32 (r 11) -> is_u32 (r 12) ->
  (forall r' m', regs_but send_clobbers r r' -> idle level m' -> ld32 m' SPI_STATUS = 0 -> untouched (r 2) m m' ->
    runs P (Cpu r' m' s (r 1)) (Bus (send level (command (r 10) (r 11) (r 12)) l) None)) ->
  runs P (Cpu r m s 2100) (Bus l None).
Proof.
  intros Hm Hra [Hsp1 Hsp2] H10 H11 H12 H. unfold heap_end, stack_top in *.
  pose proof (idle_stack _ _ (r 2 - 4) (r 1) Hm ltac:(unfold heap_end; lia) ltac:(unfold stack_top; lia)) as Hm1.
  pose proof (idle_ready _ _ Hm) as Hr. pose proof (idle_ready _ _ Hm1) as Hr1.
  drive. drive. set (m1 := st32 m (r 2 - 4) (r 1)) in *. drive. drive.
  assert (Hw : ld32 m1 (r 2 - 4) = r 1) by apply ld32_st32_eq, Hra.
  assert (Hst : stage send_clobbers r m1 (r 2 - 4) level (upd r 2 (r 2 - 4)) m1).
  { split; [regs_tac|reflexivity|exact Hm1|apply untouched_refl]. }
  rewrite u32_lor by (assumption || (unfold is_u32; lia)).
  sending Hst. intros r2 m2 Hst _ _ _.
  drive. rewrite (stage_kept _ _ _ _ _ _ _ 11 Hst) by cell. sending Hst. intros r3 m3 Hst _ _ _.
  drive. rewrite (stage_kept _ _ _ _ _ _ _ 11 Hst) by cell. sending Hst. intros r4 m4 Hst _ _ _.
  drive. rewrite (stage_kept _ _ _ _ _ _ _ 11 Hst) by cell. sending Hst. intros r5 m5 Hst _ _ _.
  drive. rewrite (stage_kept _ _ _ _ _ _ _ 11 Hst) by cell. sending Hst. intros r6 m6 Hst _ _ _.
  drive. rewrite (stage_kept _ _ _ _ _ _ _ 12 Hst) by cell. sending Hst. intros r7 m7 Hst _ _ Hs7.
  drive. rewrite (st_sp _ _ _ _ _ _ _ Hst), u32_id, (stage_ld32 _ _ _ _ _ _ _ (r 2 - 4) Hst), Hw by (unfold is_u32, stack_top; lia).
  drive. rewrite (st_sp _ _ _ _ _ _ _ Hst). cpu_cbn. u32_small. norm_sums. drive. rewrite jalr_target by exact Hra.
  rewrite command_bytes by assumption. apply H.
  - regs_return Hst.
  - apply (st_idle _ _ _ _ _ _ _ Hst).
  - exact Hs7.
  - eapply untouched_trans; [|apply (st_mem _ _ _ _ _ _ _ Hst)|lia]. apply untouched_st32; [apply untouched_refl|..]; unfold heap_end, SPI_BASE; lia.
Qed.

(** ** Responses *)

(** Bytes of ones are sent until another answer comes, at most [n] + 1 of them. *)
(* drivers/spi/sd.s:201-213 sd_readRes1 *)
Fixpoint response (n : nat) (level : Z) (l : trace) : trace * Z :=
  let l' := (level, 255) :: l in
  match n with
  | O => (l', reply card l')
  | S n => if reply card l' =? 255 then response n level l' else (l', reply card l')
  end.

Lemma response_range n level : forall l, 0 <= snd (response n level l) < 256.
Proof.
  induction n as [|n IH]; intros l; cbn [response]; [apply reply_range|]. destruct (_ =? _); [apply IH|apply reply_range].
Qed.

Definition response_clobbers : list Z := [8; 9; 18; 1; 5; 6; 7; 10; 28].

(** One of them. *)
Lemma response_step P r m s sp level r' m' l k : stage response_clobbers r m sp level r' m' -> sp <= stack_top -> r' 10 = 255 ->
  r' 18 = 100 -> r' 9 = k -> 0 <= k <= 99 ->
  (let v := reply card ((level, 255) :: l) in
   forall r2 m2, stage response_clobbers r m sp level r2 m2 -> r2 10 = v -> r2 18 = 100 -> r2 9 = k + 1 -> ld32 m2 SPI_STATUS = 0 ->
    runs P (Cpu r2 m2 s (if (k + 1 <? 100) && (v =? 255) then 1836 else 1864)) (Bus ((level, 255) :: l) None)) ->
  runs P (Cpu r' m' s 1836) (Bus l None).
Proof.
  intros Hst Hsp H10 H18 H9 Hk H. cbv zeta in H. pose proof (reply_range card ((level, 255) :: l)) as Hv. set (v := reply card _) in *.
  sending Hst. intros r2 m2 Hst Hr2 Hv2 Hs2. rewrite H10 in *. change (255 mod 256) with 255 in *. fold v in Hv2.
  assert (H9' : r2 9 = k) by (rewrite Hr2 by cell; exact H9). assert (H18' : r2 18 = 100) by (rewrite Hr2 by cell; exact H18).
  drive. rewrite H9'. drive. rewrite H18'. change (u32 100) with 100. drive. rewrite Hv2. drive.
  drive. drive.
  replace (u32 (v - 255) <? 1) with (v =? 255) by (unfold u32; destruct (Z.eqb_spec v 255); symmetry; [apply Z.ltb_lt|apply Z.ltb_ge]; dlia).
  replace (negb _) with ((k + 1 <? 100) && (v =? 255)) by (destruct (k + 1 <? 100), (v =? 255); reflexivity).
  apply H; [stage_tac Hst|exact Hv2|exact H18'|reflexivity|exact Hs2].
Qed.

Lemma response_loop P r m s sp level n : sp <= stack_top -> forall r' m' l, stage response_clobbers r m sp level r' m' -> r' 10 = 255 ->
  r' 18 = 100 -> r' 9 = 99 - Z.of_nat n -> Z.of_nat n <= 99 ->
  (forall r2 m2, stage response_clobbers r m sp level r2 m2 -> r2 10 = snd (response n level l) -> ld32 m2 SPI_STATUS = 0 ->
    runs P (Cpu r2 m2 s 1864) (Bus (fst (response n level l)) None)) ->
  runs P (Cpu r' m' s 1836) (Bus l None).
Proof.
  intros Hsp. induction n as [|n IH]; intros r' m' l Hst H10 H18 H9 Hn H; cbn [response] in H.
  - apply (response_step P r m s sp level _ _ _ 99 Hst); try assumption; [lia|]. intros v r2 m2 Hst2 Hv H18' H9' Hs2.
    apply H; assumption.
  - apply (response_step P r m s sp level _ _ _ (99 - Z.of_nat (S n)) Hst); try assumption; [lia|]. intros v r2 m2 Hst2 Hv H18' H9' Hs2.
    replace (99 - Z.of_nat (S n) + 1 <? 100) with true by (symmetry; apply Z.ltb_lt; lia). cbn [andb]. subst v.
    destruct (reply card _ =? 255) eqn:E; [|apply H; assumption]. apply IH; auto; lia.
Qed.

Lemma sd_readRes1_runs P r m s l level : idle level m -> is_u32 (r 8) -> is_u32 (r 9) -> is_u32 (r 18) -> code_pointer (r 1) -> stack_room (r 2) 16 ->
  (forall r' m', regs_but send_clobbers r r' -> r' 10 = snd (response 99 level l) -> idle level m' -> ld32 m' SPI_STATUS = 0 -> untouched (r 2) m m' ->
    runs P (Cpu r' m' s (r 1)) (Bus (fst (response 99 level l)) None)) ->
  runs P (Cpu r m s 1800) (Bus l None).
Proof.
  intros Hm H8 H9 H18 Hra [Hsp1 Hsp2] H.
  unfold heap_end, stack_top in Hsp1, Hsp2. drive. drive. drive. drive. drive. set (m1 := st32 _ _ (r 1)) in *.
  assert (Hm1 : idle level m1) by (unfold m1; repeat (apply idle_stack; [|unfold heap_end; lia|unfold stack_top; lia]); exact Hm).
  assert (Hu : untouched (r 2) m m1).
  { unfold m1. repeat (apply untouched_st32; [|unfold heap_end; lia|unfold SPI_BASE; lia]). apply untouched_refl. }
  assert (Hw : ld32 m1 (r 2 - 16) = r 8 /\ ld32 m1 (r 2 - 16 + 4) = r 9 /\ ld32 m1 (r 2 - 16 + 8) = r 18 /\ ld32 m1 (r 2 - 16 + 12) = r 1).
  { unfold m1. conjs; loads; apply ld32_st32_eq; try assumption. apply Hra. }
  destruct Hw as (Hw8 & Hw9 & Hw18 & Hw1).
  assert (Hst : stage response_clobbers r m1 (r 2 - 16) level (upd r 2 (r 2 - 16)) m1).
  { split; [regs_tac|reflexivity|exact Hm1|apply untouched_refl]. }
  drive. drive. drive. drive.
  eapply (response_loop _ r m1 s (r 2 - 16) level 99); [unfold stack_top; lia|stage_tac Hst|reflexivity..|lia|]. clear Hst.
  intros r2 m2 Hst H10 Hs2. pose proof (st_sp _ _ _ _ _ _ _ Hst) as H2.
  assert (Hl : forall a, r 2 - 16 <= a -> a + 4 <= 16384 -> ld32 m2 a = ld32 m1 a) by (intros a Ha1 Ha2; apply (stage_ld32 _ _ _ _ _ _ _ a Hst Ha1 Ha2)).
  pop H2 Hl Hw8.
  pop H2 Hl Hw9.
  pop H2 Hl Hw18.
  pop H2 Hl Hw1.
  drive. at_sp H2.
  drive. rewrite jalr_target by exact Hra. apply H.
  - regs_return Hst.
  - exact H10.
  - apply (st_idle _ _ _ _ _ _ _ Hst).
  - exact Hs2.
  - eapply untouched_trans; [exact Hu|apply (st_mem _ _ _ _ _ _ _ Hst)|lia].
Qed.

(** The answer of five bytes: the bytes behind the first are read only when that is 1. *)
(* drivers/spi/sd.s:224-259 sd_readRes3_7 *)
Definition response5 (level : Z) (l : trace) : trace * list Z :=
  let '(l1, v) := response 99 level l in
  if v =? 1 then (send level [255; 255; 255; 255] l1, 1 :: replies card level [255; 255; 255; 255] l1) else (l1, []).

Definition response5_clobbers : list Z := [8; 1; 5; 6; 7; 10; 28].

Lemma sd_readRes3_7_runs P r m s l level : idle level m -> is_u32 (r 8) -> is_u32 (r 9) -> is_u32 (r 18) -> code_pointer (r 1) ->
  stack_room (r 2) 24 -> r 2 <= r 10 -> r 10 + 5 <= stack_top ->
  (forall r' m', regs_but send_clobbers r r' -> idle level m' -> ld32 m' SPI_STATUS = 0 ->
    untouched (r 2) (put_bytes m (r 10) (snd (response5 level l))) m' ->
    runs P (Cpu r' m' s (r 1)) (Bus (fst (response5 level l)) None)) ->
  runs P (Cpu r m s 1888) (Bus l None).
Proof.
  intros Hm H8 H9 H18 Hra [Hsp1 Hsp2] Hb1 Hb2 H. set (buf := r 10) in *.
  unfold heap_end, stack_top in Hsp1, Hsp2, Hb2. drive. drive. drive. drive. fold buf. set (m1 := st32 _ _ (r 1)) in *.
  assert (Hm1 : idle level m1) by (unfold m1; repeat (apply idle_stack; [|unfold heap_end; lia|unfold stack_top; lia]); exact Hm).
  assert (Hu : untouched (r 2) m m1).
  { unfold m1. repeat (apply untouched_st32; [|unfold heap_end; lia|unfold SPI_BASE; lia]). apply untouched_refl. }
  assert (Hw : ld32 m1 (r 2 - 8) = r 8 /\ ld32 m1 (r 2 - 8 + 4) = r 1).
  { unfold m1. conjs; loads; apply ld32_st32_eq; try assumption. apply Hra. }
  destruct Hw as (Hw8 & Hw1).
  drive. apply (sd_readRes1_runs _ _ _ _ _ level); cbn [upd Z.eqb Pos.eqb]; try assumption; [unfold is_u32; lia|code_ptr|unfold stack_room, heap_end, stack_top; lia|].
  intros r2 m2 Hr2 H10 Hi2 Hs2 Hu2. unfold response5 in H. pose proof (response_range 99 level l) as Hv. destruct (response 99 level l) as [l1 v] eqn:El. cbn [fst snd] in *.
  assert (Hst : stage response5_clobbers r m1 (r 2 - 8) level r2 m2).
  { split; [unfold send_clobbers, response5_clobbers in *; regs_over Hr2|rewrite Hr2 by cell; reflexivity|exact Hi2|exact Hu2]. }
  assert (Hs0 : r2 8 = buf) by (rewrite Hr2 by cell; reflexivity).
  clear Hr2 Hi2 Hu2.
  assert (Hexit : forall M r3 m3 L back, stage response5_clobbers r M (r 2 - 8) level r3 m3 -> ld32 M (r 2 - 8) = r 8 ->
    ld32 M (r 2 - 8 + 4) = r 1 -> untouched (r 2) (put_bytes m buf back) M -> ld32 m3 SPI_STATUS = 0 ->
    (L, back) = (if v =? 1 then (send level [255; 255; 255; 255] l1, 1 :: replies card level [255; 255; 255; 255] l1) else (l1, [])) ->
    runs P (Cpu r3 m3 s 1968) (Bus L None)).
  { clear Hst. intros M r3 m3 L back Hst Hl8 Hl1 HM Hs3 HL. rewrite <- HL in H. cbn [fst snd] in H.
    pose proof (st_sp _ _ _ _ _ _ _ Hst) as H2.
    assert (Hl : forall a, r 2 - 8 <= a -> a + 4 <= 16384 -> ld32 m3 a = ld32 M a) by (intros a Ha1 Ha2; apply (stage_ld32 _ _ _ _ _ _ _ a Hst Ha1 Ha2)).
    pop H2 Hl Hl8. pop H2 Hl Hl1. drive. at_sp H2. drive. rewrite jalr_target by exact Hra. apply H.
    - regs_return Hst.
    - apply (st_idle _ _ _ _ _ _ _ Hst).
    - exact Hs3.
    - eapply untouched_trans; [exact HM|apply (st_mem _ _ _ _ _ _ _ Hst)|lia]. }
  drive. drive. rewrite H10. destruct (v =? 1) eqn:E1; cbn [negb].
  - drive. rewrite Hs0, H10. cpu_cbn. replace v with 1 by lia. norm_sums.
    apply (stage_st8 _ _ _ _ _ _ _ buf 1) in Hst; [|unfold heap_end; lia|unfold beside_driver; lia|unfold SPI_BASE; lia].
    drive.
    sending Hst. intros r3 m3 Hst Hr3 Hv3 Hs3. assert (Hp3 : r3 8 = buf) by (rewrite Hr3 by cell; exact Hs0).
    drive. rewrite Hp3, Hv3. cpu_cbn. u32_small. apply (stage_st8 _ _ _ _ _ _ _ (buf + 1) (reply card ((level, 255) :: l1))) in Hst;
      [|unfold heap_end; lia|unfold beside_driver; lia|unfold SPI_BASE; lia].
    drive.
    sending Hst. intros r4 m4 Hst Hr4 Hv4 Hs4. assert (Hp4 : r4 8 = buf) by (rewrite Hr4 by cell; exact Hp3).
    drive. rewrite Hp4, Hv4. cpu_cbn. u32_small. apply (stage_st8 _ _ _ _ _ _ _ (buf + 2) (reply card ((level, 255) :: (level, 255) :: l1))) in Hst;
      [|unfold heap_end; lia|unfold beside_driver; lia|unfold SPI_BASE; lia].
    drive.
    sending Hst. intros r5 m5 Hst Hr5 Hv5 Hs5. assert (Hp5 : r5 8 = buf) by (rewrite Hr5 by cell; exact Hp4).
    drive. rewrite Hp5, Hv5. cpu_cbn. u32_small. apply (stage_st8 _ _ _ _ _ _ _ (buf + 3) (reply card ((level, 255) :: (level, 255) :: (level, 255) :: l1))) in Hst;
      [|unfold heap_end; lia|unfold beside_driver; lia|unfold SPI_BASE; lia].
    drive.
    sending Hst. intros r6 m6 Hst Hr6 Hv6 Hs6. assert (Hp6 : r6 8 = buf) by (rewrite Hr6 by cell; exact Hp5).
    drive. rewrite Hp6, Hv6. cpu_cbn. u32_small. apply (stage_st8 _ _ _ _ _ _ _ (buf + 4) (reply card ((level, 255) :: (level, 255) :: (level, 255) :: (level, 255) :: l1))) in Hst;
      [|unfold heap_end; lia|unfold beside_driver; lia|unfold SPI_BASE; lia].
    change (255 mod 256) with 255. eapply (Hexit _ _ _ _ (1 :: replies card level [255; 255; 255; 255] l1)); [exact Hst|loads; assumption..| | |].
    + cbn [put_bytes replies]. replace (buf + 1 + 1) with (buf + 2) by lia. replace (buf + 2 + 1) with (buf + 3) by lia.
      replace (buf + 3 + 1) with (buf + 4) by lia. repeat apply untouched_st8_cong. exact Hu.
    + rewrite ld32_st8_ne by (spi_addresses; lia). exact Hs6.
    + reflexivity.
  - apply (Hexit m1 _ _ l1 []); [stage_tac Hst|assumption..|exact Hu|exact Hs2|reflexivity].
Qed.

(** ** Calls of these routines in others *)

Lemma stage_command P xs r m sp level r' m' s l p : stage xs r m sp level r' m' -> incl send_clobbers xs -> stack_room sp 4 ->
  in_driver p = true -> driver_at p = Some (Jal 1 2100) -> code_pointer (p + 4) -> is_u32 (r' 10) -> is_u32 (r' 11) -> is_u32 (r' 12) ->
  (forall r2 m2, stage xs r m sp level r2 m2 -> regs_but send_clobbers r' r2 -> ld32 m2 SPI_STATUS = 0 ->
    runs P (Cpu r2 m2 s (p + 4)) (Bus (send level (command (r' 10) (r' 11) (r' 12)) l) None)) ->
  runs P (Cpu r' m' s p) (Bus l None).
Proof.
  intros Hst Hxs Hsp Hp Hi Hc H10 H11 H12 H. pose proof (idle_ready _ _ (st_idle _ _ _ _ _ _ _ Hst)) as Hm.
  pose proof (st_sp _ _ _ _ _ _ _ Hst) as H2.
  eapply quiet_step; [exact Hm|exact Hp|exact Hi|]. cbn [exec set Z.eqb mem]. split; [exact Hm|].
  apply (sd_send_command_runs _ _ _ _ _ level); cbn [upd Z.eqb Pos.eqb]; rewrite ?H2; try assumption; [apply (st_idle _ _ _ _ _ _ _ Hst)|].
  intros r2 m2 Hr2 Hi2 Hs2 Hu. assert (Hr2' : regs_but send_clobbers r' r2) by (unfold send_clobbers in *; regs_over Hr2).
  apply H; auto. apply (stage_step xs r m sp level level r' m' _ _ send_clobbers); auto. cbn. lia.
Qed.

Lemma stage_response P xs r m sp level r' m' s l p : stage xs r m sp level r' m' -> incl send_clobbers xs -> stack_room sp 16 ->
  in_driver p = true -> driver_at p = Some (Jal 1 1800) -> code_pointer (p + 4) -> is_u32 (r' 8) -> is_u32 (r' 9) -> is_u32 (r' 18) ->
  (forall r2 m2, stage xs r m sp level r2 m2 -> regs_but send_clobbers r' r2 -> ld32 m2 SPI_STATUS = 0 -> r2 10 = snd (response 99 level l) ->
    runs P (Cpu r2 m2 s (p + 4)) (Bus (fst (response 99 level l)) None)) ->
  runs P (Cpu r' m' s p) (Bus l None).
Proof.
  intros Hst Hxs Hsp Hp Hi Hc H10 H11 H12 H. pose proof (idle_ready _ _ (st_idle _ _ _ _ _ _ _ Hst)) as Hm.
  pose proof (st_sp _ _ _ _ _ _ _ Hst) as H2.
  eapply quiet_step; [exact Hm|exact Hp|exact Hi|]. cbn [exec set Z.eqb mem]. split; [exact Hm|].
  apply (sd_readRes1_runs _ _ _ _ _ level); cbn [upd Z.eqb Pos.eqb]; rewrite ?H2; try assumption; [apply (st_idle _ _ _ _ _ _ _ Hst)|].
  intros r2 m2 Hr2 Hv Hi2 Hs2 Hu. assert (Hr2' : regs_but send_clobbers r' r2) by (unfold send_clobbers in *; regs_over Hr2).
  apply H; auto. apply (stage_step xs r m sp level level r' m' _ _ send_clobbers); auto. cbn. lia.
Qed.

End Commands.


Ltac stage_side := first [assumption | incl_tac | reflexivity | code_ptr | (unfold stack_room, heap_end, stack_top in *; lia) | (unfold is_u32; lia) | idtac].

(** A call of one of them: [H] is the stage before it. *)
Ltac commanding H :=
  match type of H with stage ?X ?R ?M ?S ?L _ _ => eapply stage_command with (xs := X) (r := R) (m := M) (sp := S) (level := L) end;
  [stage_tac H|stage_side..|]; fold_literals; clear H; cbn [upd Z.eqb Pos.eqb].
Ltac responding H :=
  match type of H with stage ?X ?R ?M ?S ?L _ _ => eapply stage_response with (xs := X) (r := R) (m := M) (sp := S) (level := L) end;
  [stage_tac H|stage_side..|]; fold_literals; clear H; cbn [upd Z.eqb Pos.eqb].
Ltac selecting H :=
  match type of H with stage ?X ?R ?M ?S ?L _ _ => eapply stage_cs with (xs := X) (r := R) (m := M) (sp := S) (level := L) end;
  [stage_tac H|stage_side..|]; fold_literals; clear H; cbn [upd Z.eqb Pos.eqb].
