(* ===== verification/DRead.v ===== *)
(** * Reading a block from the card, as machine code

    sd_start_read and sd_tail_read of drivers/spi/sd.s, and sd_read_block_blocking of kernel/fs/fs.s. *)

From S2P Require Import Prelude RvaIsa KImage DImage Cpu KCode DCode DBus DSpi DSd.

Section Read.

Context (card : trace -> Z) (delay : trace -> nat).

Abbreviation runs := (bus_runs card delay).

(** ** The start of a read *)

(** The first byte of a block is awaited for so many bytes, and one more. *)
Definition read_attempts : nat := Z.to_nat 249999.

Lemma read_attempts_Z : Z.of_nat read_attempts = 249999.
Proof. apply Z2Nat.id. lia. Qed.

#[global] Opaque read_attempts.

(** The answer to the command, and the byte that announces the block. *)
(* drivers/spi/sd.s:349-389 sd_start_read *)
Definition read_answer (lba : Z) (l : trace) : trace * Z := response card 99 0 (send 0 (command 17 lba 0) l).
Definition read_token (lba : Z) (l : trace) : trace * Z := response card read_attempts 0 (fst (read_answer lba l)).

Definition read_clobbers : list Z := [8; 11; 12; 29; 30; 31; 1; 5; 6; 7; 10; 28].

(** One attempt. *)
Lemma token_step P r m s sp r' m' l k : stage read_clobbers r m sp 0 r' m' -> sp <= stack_top -> r' 31 = 255 ->
  r' 29 = 250000 -> r' 30 = k -> 0 <= k <= 249999 ->
  (let v := reply card ((0, 255) :: l) in
   forall r2 m2, stage read_clobbers r m sp 0 r2 m2 -> r2 10 = v -> r2 31 = 255 -> r2 29 = 250000 -> r2 8 = r' 8 ->
    ld32 m2 SPI_STATUS = 0 -> (v = 255 -> k < 249999 -> r2 30 = k + 1) ->
    runs P (Cpu r2 m2 s (if (k <? 249999) && (v =? 255) then 2248 else 2268)) (Bus ((0, 255) :: l) None)) ->
  runs P (Cpu r' m' s 2248) (Bus l None).
Proof.
  intros Hst Hsp H31 H29 H30 Hk H. cbv zeta in H. set (v := reply card _) in *.
  drive. rewrite H31. cpu_cbn. sending Hst. intros r2 m2 Hst Hr2 Hv Hs2.
  change (255 mod 256) with 255 in *. fold v in Hv.
  assert (H8' : r2 8 = r' 8) by (rewrite Hr2 by cell; reflexivity). assert (H29' : r2 29 = 250000) by (rewrite Hr2 by cell; exact H29).
  assert (H30' : r2 30 = k) by (rewrite Hr2 by cell; exact H30). assert (H31' : r2 31 = 255) by (rewrite Hr2 by cell; exact H31).
  drive. rewrite Hv, H31'. destruct (v =? 255) eqn:Ev; cbn [negb].
  - drive. rewrite H30'. cpu_cbn. u32_small. drive. rewrite H29', !s32_id by lia.
    replace (k + 1 <? 250000) with (k <? 249999) by (destruct (Z.ltb_spec k 249999), (Z.ltb_spec (k + 1) 250000); lia || reflexivity).
    rewrite <- (andb_true_r (k <? 249999)). apply H; try assumption; [stage_tac Hst|]. intros _ _. reflexivity.
  - replace 2268 with (if (k <? 249999) && false then 2248 else 2268) by (rewrite andb_false_r; reflexivity).
    apply H; try assumption. intros ->. lia.
Qed.

Lemma token_loop P r m s sp n : sp <= stack_top -> forall r' m' l, stage read_clobbers r m sp 0 r' m' -> r' 31 = 255 ->
  r' 29 = 250000 -> r' 30 = 249999 - Z.of_nat n -> Z.of_nat n <= 249999 ->
  (forall r2 m2, stage read_clobbers r m sp 0 r2 m2 -> r2 8 = r' 8 -> r2 10 = snd (response card n 0 l) -> ld32 m2 SPI_STATUS = 0 ->
    runs P (Cpu r2 m2 s 2268) (Bus (fst (response card n 0 l)) None)) ->
  runs P (Cpu r' m' s 2248) (Bus l None).
Proof.
  intros Hsp. induction n as [|n IH]; intros r' m' l Hst H31 H29 H30 Hn H; cbn [response] in H.
  - apply (token_step P r m s sp _ _ _ 249999 Hst); try assumption; [lia|]. intros v r2 m2 Hst2 Hv _ _ H8 Hs2 _.
    apply H; assumption.
  - apply (token_step P r m s sp _ _ _ (249999 - Z.of_nat (S n)) Hst); try assumption; [lia|]. intros v r2 m2 Hst2 Hv H31' H29' H8 Hs2 Hnext.
    replace (249999 - Z.of_nat (S n) <? 249999) with true by (symmetry; apply Z.ltb_lt; lia). cbn [andb]. subst v.
    destruct (reply card _ =? 255) eqn:E; [|apply H; assumption].
    apply IH; auto; [|lia|intros; apply H; auto; congruence]. rewrite Hnext; lia.
Qed.

(** The bytes that go out while a block comes in: what the unit's memory holds. *)
Definition padding (m : memory) : list Z := bytes_at m SPI_TX_RAM 512.

(** What the caller may find changed. *)
Definition read_changes : list Z := [11; 12; 29; 30; 31; 1; 5; 6; 7; 10; 28].

(** Where a read ends that does not deliver a block. *)
Definition no_block (r : Z -> Z) (m : memory) (s : Z -> Z) (l : trace) (v : Z) (P : cpu -> bus -> Prop) : Prop :=
  forall r' m', regs_but read_changes r r' -> r' 10 = v -> idle 1 m' -> ld32 m' SPI_STATUS = 0 -> untouched (r 2) m m' ->
    runs P (Cpu r' m' s (r 1)) (Bus l None).

(** Where one ends that does: the block is on its way. *)
Definition block_begun (r : Z -> Z) (m : memory) (s : Z -> Z) (l : trace) (v : Z) (P : cpu -> bus -> Prop) : Prop :=
  forall r' m', regs_but read_changes r r' -> r' 10 = v -> idle 0 m' -> ld32 m' SPI_STATUS = 0 -> untouched (r 2) m m' ->
    in_flight card delay P r' (block_out m') s (r 1) (send 0 (padding m) l) (replies card 0 (padding m) l).

(** A read is waited for. *)
Definition SD_STATE_WAIT_READ (m : memory) : memory := st8 m (SD_INFO + 1) 1.

Section Start.

Context (P : cpu -> bus -> Prop) (r : Z -> Z) (m : memory) (s : Z -> Z) (l : trace).

(** The frame. *)
Definition read_frame : memory := st32 (st32 m (r 2 - 8) (r 8)) (r 2 - 8 + 4) (r 1).

Lemma read_frame_spec level : idle level m -> is_u32 (r 8) -> is_u32 (r 1) -> stack_room (r 2) 8 ->
  idle level read_frame /\ untouched (r 2) m read_frame /\ ld32 read_frame (r 2 - 8) = r 8 /\ ld32 read_frame (r 2 - 8 + 4) = r 1.
Proof.
  intros Hm H8 H1 [Hsp1 Hsp2]. unfold heap_end, stack_top in Hsp1, Hsp2. unfold read_frame. conjs.
  - repeat (apply idle_stack; [|unfold heap_end; lia|unfold stack_top; lia]). exact Hm.
  - repeat (apply untouched_st32; [|unfold heap_end; lia|unfold SPI_BASE; lia]). apply untouched_refl.
  - loads. apply ld32_st32_eq, H8.
  - apply ld32_st32_eq, H1.
Qed.

(** From the end of the transfer, the select line goes up and the answer is returned. *)
Lemma read_gives_up M r1 m1 l1 v level : code_pointer (r 1) -> stack_room (r 2) 24 -> stage read_clobbers r M (r 2 - 8) level r1 m1 ->
  ld32 M (r 2 - 8) = r 8 -> ld32 M (r 2 - 8 + 4) = r 1 -> r1 8 = v -> 0 <= v < 256 -> ld32 m1 SPI_STATUS = 0 ->
  (forall r' m', regs_but read_changes r r' -> r' 10 = v -> idle 1 m' -> ld32 m' SPI_STATUS = 0 -> untouched (r 2 - 8) M m' ->
    runs P (Cpu r' m' s (r 1)) (Bus l1 None)) ->
  runs P (Cpu r1 m1 s 2308) (Bus l1 None).
Proof.
  intros Hra [Hsp1 Hsp2] Hst Hw8 Hw1 Hv Hv' Hs H. unfold heap_end, stack_top in Hsp1, Hsp2.
  drive. selecting Hst. intros r2 m2 Hst Hr2 Hs2. pose proof (st_sp _ _ _ _ _ _ _ Hst) as H2.
  assert (Hl : forall a, r 2 - 8 <= a -> a + 4 <= 16384 -> ld32 m2 a = ld32 M a) by (intros a Ha1 Ha2; apply (stage_ld32 _ _ _ _ _ _ _ a Hst Ha1 Ha2)).
  assert (H8 : r2 8 = v) by (rewrite Hr2 by cell; exact Hv).
  drive. at_sp H8. pop H2 Hl Hw8. pop H2 Hl Hw1. drive. at_sp H2. drive. rewrite jalr_target by exact Hra. apply H.
  - regs_return Hst.
  - reflexivity.
  - apply (st_idle _ _ _ _ _ _ _ Hst).
  - rewrite Hs2. exact Hs.
  - apply (st_mem _ _ _ _ _ _ _ Hst).
Qed.

(** The routine returns while the block comes in. *)
Lemma read_returns_early M r1 m1 l1 back v : code_pointer (r 1) -> stack_room (r 2) 24 -> stage read_clobbers r M (r 2 - 8) 0 r1 m1 ->
  ld32 M (r 2 - 8) = r 8 -> ld32 M (r 2 - 8 + 4) = r 1 -> r1 8 = v -> 0 <= v < 256 -> (List.length back <= 512)%nat ->
  (forall r', regs_but read_changes r r' -> r' 10 = v -> in_flight card delay P r' (block_out m1) s (r 1) l1 back) ->
  in_flight card delay P r1 (block_out m1) s 2304 l1 back.
Proof.
  intros Hra [Hsp1 Hsp2] Hst Hw8 Hw1 Hv Hv' Hb H. unfold heap_end, stack_top in Hsp1, Hsp2.
  pose proof (st_sp _ _ _ _ _ _ _ Hst) as H2.
  destruct (block_out_spec 0 m1 back (st_idle _ _ _ _ _ _ _ Hst) Hb) as (Hi & Hf & Hd & _).
  assert (Hl : forall a, r 2 - 8 <= a -> a + 4 <= 16384 -> ld32 (block_out m1) a = ld32 M a).
  { intros a Ha1 Ha2. rewrite (device_ld32 m1) by (assumption || (unfold SPI_BASE; lia)). apply (stage_ld32 _ _ _ _ _ _ _ a Hst Ha1 Ha2). }
  fly Hi Hf H2. fly Hi Hf H2. at_sp Hv. fly Hi Hf H2. at_sp H2. rewrite Hl, Hw8 by lia. fly Hi Hf H2. at_sp H2. rewrite Hl, Hw1 by lia.
  fly Hi Hf H2. at_sp H2. fly Hi Hf H2. rewrite jalr_target by exact Hra. apply H; [|reflexivity]. regs_return Hst.
Qed.

Lemma padding_sent sp m1 m2 : untouched sp m1 m2 -> ld32 m2 SPI_BLOCK_LEN = 512 -> block_to_send m2 = padding m1.
Proof.
  intros Hu Hl. unfold block_to_send, padding, bytes_at. rewrite Hl. change (Z.to_nat (Z.min 512 512)) with 512%nat.
  apply map_ext. intros i. apply Hu. unfold SPI_TX_RAM, SPI_BASE. lia.
Qed.

Lemma padding_length m1 : List.length (padding m1) = 512%nat.
Proof. unfold padding, bytes_at. rewrite length_map, length_seq. reflexivity. Qed.

Lemma padding_same sp m1 m2 : untouched sp m1 m2 -> padding m2 = padding m1.
Proof. intros Hu. apply map_ext. intros i. apply Hu. unfold SPI_TX_RAM, SPI_BASE. lia. Qed.

Lemma padding_waiting m1 : padding (SD_STATE_WAIT_READ m1) = padding m1.
Proof. apply map_ext. intros i. unfold SD_STATE_WAIT_READ. apply ld8_st8_ne. unfold SPI_TX_RAM, SD_INFO. lia. Qed.

#[global] Opaque padding.

(** From the byte that should announce the block. *)
Lemma read_goes_on r1 m1 l1 t v level : idle level m -> is_u32 (r 8) -> code_pointer (r 1) -> stack_room (r 2) 24 ->
  stage read_clobbers r read_frame (r 2 - 8) 0 r1 m1 -> r1 8 = v -> 0 <= v < 256 -> r1 10 = t -> ld32 m1 SPI_STATUS = 0 ->
  (t <> 254 -> no_block r (SD_STATE_WAIT_READ m) s l1 v P) -> (t = 254 -> block_begun r (SD_STATE_WAIT_READ m) s l1 v P) ->
  runs P (Cpu r1 m1 s 2268) (Bus l1 None).
Proof.
  intros Hm H8 Hra Hsp Hst H18 Hv H10 Hs Hbad Hok.
  destruct (read_frame_spec level Hm H8 (proj1 Hra) ltac:(destruct Hsp; split; lia)) as (_ & Hu & Hw8 & Hw1).
  assert (Hsp' : heap_end + 24 <= r 2 <= stack_top) by (destruct Hsp; lia). unfold heap_end, stack_top in Hsp'.
  assert (Hu' : untouched (r 2) (SD_STATE_WAIT_READ m) (st8 read_frame 1509 1)) by (apply untouched_st8_cong, Hu).
  assert (Hw' : ld32 (st8 read_frame 1509 1) (r 2 - 8) = r 8 /\ ld32 (st8 read_frame 1509 1) (r 2 - 8 + 4) = r 1) by (split; loads; assumption).
  destruct Hw' as [Hw8' Hw1'].
  assert (Hs' : ld32 (st8 m1 1509 1) SPI_STATUS = 0) by (spi_addresses; loads; exact Hs).
  drive. drive. drive. drive. drive.
  apply (stage_st8 _ _ _ _ _ _ _ 1509 1) in Hst; [|unfold heap_end; lia|unfold beside_driver; lia|unfold SPI_BASE; lia].
  set (m2 := st8 m1 1509 1) in *. drive. rewrite H10. destruct (t =? 254) eqn:Et; cbn [negb].
  - drive. match type of Hst with stage ?X ?R ?M ?S ?L _ _ => eapply stage_block_len with (xs := X) (r := R) (m := M) (sp := S) (level := L) end;
      [stage_tac Hst|stage_side..|]; fold_literals; clear Hst; cbn [upd Z.eqb Pos.eqb].
    intros r3 m3 Hst Hr3 Hs3 Hlen.
    assert (H38 : r3 8 = v) by (rewrite Hr3 by cell; exact H18).
    assert (Hall : untouched (r 2) (SD_STATE_WAIT_READ m) m3) by (eapply untouched_trans; [exact Hu'|apply (st_mem _ _ _ _ _ _ _ Hst)|lia]).
    drive. apply (spi_send_block_runs _ _ _ _ _ _ _ 0); [apply (st_idle _ _ _ _ _ _ _ Hst)|code_ptr|].
    cbn [upd Z.eqb Pos.eqb]. intros r4 Hr4 _. unfold block_sent, block_back. rewrite (padding_sent _ _ _ Hall Hlen), (idle_level _ _ (st_idle _ _ _ _ _ _ _ Hst)).
    apply (read_returns_early (st8 read_frame 1509 1) r4 m3 _ _ v); auto.
    + apply (stage_step read_clobbers r (st8 read_frame 1509 1) (r 2 - 8) 0 0 r3 m3 r4 m3 [1; 5; 6]); auto.
      * incl_tac.
      * cbn. lia.
      * regs_over Hr4.
      * apply (st_idle _ _ _ _ _ _ _ Hst).
      * apply untouched_refl.
    + rewrite Hr4 by cell. exact H38.
    + intros r' Hr' Hv10. apply (Hok ltac:(lia)); auto; [apply (st_idle _ _ _ _ _ _ _ Hst)|congruence].
  - apply (read_gives_up (st8 read_frame 1509 1) _ _ _ v 0); auto; [stage_tac Hst|].
    intros r' m' Hr' Hv10 Hi' Hs3 Hu3. apply (Hbad ltac:(lia)); auto. eapply untouched_trans; [exact Hu'|exact Hu3|lia].
Qed.

Lemma sd_start_read_runs level : idle level m -> is_u32 (r 8) -> is_u32 (r 9) -> is_u32 (r 18) -> is_u32 (r 10) -> code_pointer (r 1) ->
  stack_room (r 2) 24 ->
  (snd (read_answer (r 10) l) = 255 -> no_block r m s (fst (read_answer (r 10) l)) 255 P) ->
  (snd (read_answer (r 10) l) <> 255 -> snd (read_token (r 10) l) <> 254 ->
    no_block r (SD_STATE_WAIT_READ m) s (fst (read_token (r 10) l)) (snd (read_answer (r 10) l)) P) ->
  (snd (read_answer (r 10) l) <> 255 -> snd (read_token (r 10) l) = 254 ->
    block_begun r (SD_STATE_WAIT_READ m) s (fst (read_token (r 10) l)) (snd (read_answer (r 10) l)) P) ->
  runs P (Cpu r m s 2176) (Bus l None).
Proof.
  intros Hm H8 H9 H18 H10 Hra Hsp Hno Hbad Hok. set (lba := r 10) in *.
  destruct (read_frame_spec level Hm H8 (proj1 Hra) ltac:(destruct Hsp; split; lia)) as (Hm1 & Hu & Hw8 & Hw1).
  assert (Hsp' : heap_end + 24 <= r 2 <= stack_top) by (destruct Hsp; lia). unfold heap_end, stack_top in Hsp'.
  drive. drive. drive. drive. fold lba. change (st32 _ _ (r 1)) with read_frame.
  assert (Hst : stage read_clobbers r read_frame (r 2 - 8) level (upd (upd r 2 (r 2 - 8)) 8 lba) read_frame).
  { split; [unfold read_clobbers; regs_tac|reflexivity|exact Hm1|apply untouched_refl]. }
  drive. selecting Hst. intros r2 m2 Hst Hr2 _.
  assert (Hlba : r2 8 = lba) by (rewrite Hr2 by cell; reflexivity).
  drive. drive. at_sp Hlba. drive. commanding Hst. intros r3 m3 Hst Hr3 _.
  assert (Hx : r3 8 = lba /\ r3 9 = r 9 /\ r3 18 = r 18).
  { rewrite !(Hr3 8), !(Hr3 9), !(Hr3 18) by cell. cbn [upd Z.eqb Pos.eqb]. rewrite !(Hr2 9), !(Hr2 18) by cell. auto. }
  destruct Hx as (Hx8 & Hx9 & Hx18). responding Hst; [rewrite Hx8; exact H10|rewrite Hx9; exact H9|rewrite Hx18; exact H18|].
  intros r4 m4 Hst Hr4 Hs4 Hv. fold (read_answer lba l) in *.
  pose proof (response_range card 99 0 (send 0 (command 17 lba 0) l)) as Hrange. fold (read_answer lba l) in Hrange.
  set (v := snd (read_answer lba l)) in *.
  drive. at_sp Hv. drive. drive. rewrite Hv. destruct (v =? 255) eqn:Ev.
  { eapply (read_gives_up read_frame _ _ _ v 0); [exact Hra|exact Hsp|stage_tac Hst|exact Hw8|exact Hw1|reflexivity|exact Hrange|exact Hs4|].
    intros r' m' Hr' H10' Hi' Hs' Hu'. replace v with 255 in H10' by lia. apply Hno; auto; [lia|].
    eapply untouched_trans; [exact Hu|exact Hu'|lia]. }
  drive. drive. drive. drive.
  apply (token_loop P r read_frame s (r 2 - 8) read_attempts); [unfold stack_top; lia|stage_tac Hst|reflexivity|reflexivity| | |].
  { rewrite read_attempts_Z. reflexivity. }
  { rewrite read_attempts_Z. lia. }
  clear Hst. intros r5 m5 Hst H58 H5 Hs5. fold (read_token lba l) in *.
  apply (read_goes_on _ _ _ (snd (read_token lba l)) v level); auto; [intros Ht; apply Hbad; lia|intros Ht; apply Hok; lia].
Qed.

End Start.

(** ** The end of a read *)

(** No operation runs. *)
Definition SD_STATE_IDLE (m : memory) : memory := st8 m (SD_INFO + 1) 0.

(** The two bytes of the checksum and one more, and one when the card is no longer selected. *)
(* drivers/spi/sd.s:409-426 sd_tail_read *)
Definition tail_trace (level : Z) (l : trace) : trace := send 1 [255] (send level [255; 255; 255] l).

Lemma sd_tail_read_runs P r m s l level : idle level m -> code_pointer (r 1) -> stack_room (r 2) 4 ->
  (forall r' m', regs_but send_clobbers r r' -> idle 1 m' -> ld32 m' SPI_STATUS = 0 -> untouched (r 2) (SD_STATE_IDLE m) m' ->
    runs P (Cpu r' m' s (r 1)) (Bus (tail_trace level l) None)) ->
  runs P (Cpu r m s 2336) (Bus l None).
Proof.
  intros Hm Hra Hsp H. assert (Hsp' : heap_end + 4 <= r 2 <= stack_top) by (destruct Hsp; lia). unfold heap_end, stack_top in Hsp'.
  pose proof (idle_stack _ _ (r 2 - 4) (r 1) Hm ltac:(unfold heap_end; lia) ltac:(unfold stack_top; lia)) as Hm1.
  drive. drive. set (m1 := st32 m (r 2 - 4) (r 1)) in *.
  assert (Hw : ld32 (st8 m1 1509 0) (r 2 - 4) = r 1) by (unfold m1; loads; apply ld32_st32_eq, Hra).
  assert (Hst : stage send_clobbers r m1 (r 2 - 4) level (upd r 2 (r 2 - 4)) m1).
  { split; [regs_tac|reflexivity|exact Hm1|apply untouched_refl]. }
  drive. sending Hst. intros r2 m2 Hst _ _ _. drive. sending Hst. intros r3 m3 Hst _ _ _.
  drive. sending Hst. intros r4 m4 Hst _ _ _. drive. selecting Hst. intros r5 m5 Hst _ _.
  drive. sending Hst. intros r6 m6 Hst _ _ Hs6. change (255 mod 256) with 255.
  drive. drive. drive. drive.
  apply (stage_st8 _ _ _ _ _ _ _ 1509 0) in Hst; [|unfold heap_end; lia|unfold beside_driver; lia|unfold SPI_BASE; lia].
  pose proof (st_sp _ _ _ _ _ _ _ Hst) as H2.
  drive. at_sp H2. rewrite (stage_ld32 _ _ _ _ _ _ _ (r 2 - 4) Hst), Hw by (unfold stack_top; lia).
  drive. at_sp H2. drive. rewrite jalr_target by exact Hra. apply H.
  - regs_return Hst.
  - apply (st_idle _ _ _ _ _ _ _ Hst).
  - spi_addresses. loads. exact Hs6.
  - eapply untouched_trans; [|apply (st_mem _ _ _ _ _ _ _ Hst)|lia].
    apply untouched_st8_cong, untouched_st32; [apply untouched_refl|..]; unfold heap_end, SPI_BASE; lia.
Qed.

(** ** Reading a block and waiting for it *)

(** The block is in the unit's memory. *)
Definition received (m : memory) (bs : list Z) : memory := put_bytes m SPI_RX_RAM bs.

Lemma put_bytes_cong bs : forall m m' a b, ld8 m' b = ld8 m b -> ld8 (put_bytes m' a bs) b = ld8 (put_bytes m a bs) b.
Proof. induction bs as [|x bs IH]; intros m m' a b H; cbn [put_bytes]; [exact H|]. apply IH, ld8_st8_cong, H. Qed.

Lemma untouched_received sp m m' bs : untouched sp m m' -> untouched sp (received m bs) (received m' bs).
Proof. intros H a Ha. apply put_bytes_cong, H, Ha. Qed.

(** The memory after the poll. *)
Definition block_in (m : memory) (bs : list Z) : memory := st32 (finish (OneBlock bs) (block_out m)) SPI_STATUS 0.

Lemma block_in_spec level m bs sp : idle level m -> ld32 m SPI_STATUS = 0 -> (List.length bs <= 512)%nat -> sp <= SPI_BASE ->
  idle level (block_in m bs) /\ untouched sp (received m bs) (block_in m bs) /\
  Z.land (ld32 (block_out m) SPI_STATUS) 64 = 0 /\ Z.land (ld32 (finish (OneBlock bs) (block_out m)) SPI_STATUS) 64 <> 0.
Proof.
  intros Hm Hs Hb Hsp. destruct (block_out_spec level m bs Hm Hb) as (Hi & Hf & Hd & Hst & Hcs & Hst' & Hcs').
  assert (Hi' : installed (block_in m bs)).
  { apply (installed_agree (finish (OneBlock bs) (block_out m))); [apply Hf|]. intros a Ha. destruct (in_driver_bounds a Ha) as [_ H0].
    unfold block_in. rewrite ld32_st32_ne by (spi_addresses; lia). reflexivity. }
  split; [split|split; [|split]].
  - split; [exact Hi'|]. unfold block_in. rewrite ld32_st32_ne by (spi_addresses; lia). apply Hf.
  - unfold block_in. rewrite ld32_st32_ne by (spi_addresses; lia). exact Hcs'.
  - unfold block_in. rewrite ld32_st32_eq by (unfold is_u32; lia). reflexivity.
  - unfold block_in, finish. intros a Ha. unfold heap_end in Ha. rewrite !ld8_st32_ne by (spi_addresses; lia).
    apply put_bytes_cong, Hd. unfold heap_end, SPI_BASE in *. lia.
  - rewrite Hst, Hs. reflexivity.
  - rewrite Hst', Hs. discriminate.
Qed.

Lemma put_bytes_ld8 bs : forall m a i, (i < List.length bs)%nat -> ld8 (put_bytes m a bs) (a + Z.of_nat i) = nth i bs 0 mod 256.
Proof.
  induction bs as [|b bs IH]; intros m a i Hi; cbn [List.length] in Hi; [lia|]. cbn [put_bytes nth]. destruct i as [|i].
  - rewrite ld8_put_bytes_ne by lia. rewrite Z.add_0_r. apply ld8_st8_eq.
  - replace (a + Z.of_nat (S i)) with (a + 1 + Z.of_nat i) by lia. apply IH. lia.
Qed.

Lemma replies_bytes level bs : forall l i, 0 <= nth i (replies card level bs l) 0 < 256.
Proof.
  induction bs as [|b bs IH]; intros l [|i]; cbn [replies nth]; try lia; [apply reply_range|apply IH].
Qed.

Lemma nth_bytes bs (f : nat -> Z) : (forall i, (i < List.length bs)%nat -> f i = nth i bs 0) -> map f (seq 0 (List.length bs)) = bs.
Proof.
  intros H. apply (nth_ext _ _ 0 0); rewrite length_map, length_seq; [reflexivity|]. intros i Hi.
  rewrite <- (H i Hi), (nth_indep _ 0 (f 0%nat)) by (rewrite length_map, length_seq; exact Hi). rewrite map_nth. f_equal. apply seq_nth, Hi.
Qed.

Lemma put_bytes_ld32 bs m a b : b + 4 <= a -> ld32 (put_bytes m a bs) b = ld32 m b.
Proof. intros Hb. apply ld32_ext. intros i Hi. apply ld8_put_bytes_ne. lia. Qed.

(** The state goes to waiting and back. *)
Lemma read_again sp m1 m2 m3 m4 bs : untouched sp (SD_STATE_WAIT_READ m1) m2 -> untouched sp (received m2 bs) m3 -> untouched sp (SD_STATE_IDLE m3) m4 ->
  untouched sp (SD_STATE_IDLE (received m1 bs)) m4.
Proof.
  intros H2 H3 H4. eapply untouched_trans; [|exact H4|lia]. intros a Ha. unfold SD_STATE_IDLE.
  destruct (Z.eq_dec a (SD_INFO + 1)) as [->|Hn]; [rewrite !ld8_st8_eq; reflexivity|]. rewrite !ld8_st8_ne by lia. rewrite H3 by exact Ha.
  apply put_bytes_cong. rewrite H2 by exact Ha. unfold SD_STATE_WAIT_READ. apply ld8_st8_ne. lia.
Qed.

Definition block_read (level : Z) (m : memory) (lba : Z) (l : trace) : trace * list Z :=
  let l1 := fst (read_token lba l) in (tail_trace 0 (send 0 (padding m) l1), replies card 0 (padding m) l1).

Lemma sd_read_block_runs P r m s l level : idle level m -> is_u32 (r 8) -> is_u32 (r 9) -> is_u32 (r 18) -> is_u32 (r 10) -> code_pointer (r 1) ->
  stack_room (r 2) 28 -> snd (read_answer (r 10) l) <> 255 -> snd (read_token (r 10) l) = 254 ->
  (forall r' m', regs_but read_changes r r' -> idle 1 m' -> ld32 m' SPI_STATUS = 0 ->
    untouched (r 2) (SD_STATE_IDLE (received m (snd (block_read level m (r 10) l)))) m' ->
    runs P (Cpu r' m' s (r 1)) (Bus (fst (block_read level m (r 10) l)) None)) ->
  runs P (Cpu r m s 436) (Bus l None).
Proof.
  intros Hm H8 H9 H18 H10 Hra Hsp Hans Htok H. assert (Hsp' : heap_end + 28 <= r 2 <= stack_top) by (destruct Hsp; lia).
  unfold heap_end, stack_top in Hsp'.
  pose proof (idle_stack _ _ (r 2 - 4) (r 1) Hm ltac:(unfold heap_end; lia) ltac:(unfold stack_top; lia)) as Hm1.
  drive. drive. set (m1 := st32 m (r 2 - 4) (r 1)) in *.
  assert (Hu1 : untouched (r 2) m m1) by (apply untouched_st32; [apply untouched_refl|..]; unfold heap_end, SPI_BASE; lia).
  drive. apply (sd_start_read_runs _ _ _ _ _ level); cbn [upd Z.eqb Pos.eqb]; auto; try contradiction; try code_ptr;
    [unfold stack_room, heap_end, stack_top; lia|].
  intros _ _ r2 m2 Hr2 _ Hi2 Hs2 Hu2. cbn [upd Z.eqb Pos.eqb] in *.
  rewrite padding_waiting, (padding_same _ _ _ Hu1). set (back := replies _ _ _ _). set (l2 := send _ _ _).
  assert (Hb : (List.length back <= 512)%nat) by (unfold back; rewrite replies_length, padding_length; lia).
  destruct (block_out_spec 0 m2 back Hi2 Hb) as (Hio & Hfo & _).
  destruct (block_in_spec 0 m2 back (r 2 - 4) Hi2 Hs2 Hb ltac:(unfold SPI_BASE; lia)) as (Hi3 & Hu3 & Hz & Hnz).
  fly Hio Hfo Hs2. fly Hio Hfo Hs2. fly Hio Hfo Hs2.
  apply poll_block; cbn [upd Z.eqb Pos.eqb]; auto; [code_ptr|unfold is_u32; lia|]. fold (block_in m2 back).
  intros r3 Hr3.
  assert (H2 : r3 2 = r 2 - 4) by (rewrite (Hr3 2) by cell; cbn [upd Z.eqb Pos.eqb]; rewrite (Hr2 2) by (unfold read_changes; cell); reflexivity).
  drive. apply (sd_tail_read_runs _ _ _ _ _ 0); cbn [upd Z.eqb Pos.eqb]; [exact Hi3|code_ptr|rewrite H2; unfold stack_room, heap_end, stack_top; lia|].
  intros r4 m4 Hr4 Hi4 Hs4 Hu4. rewrite H2 in Hu4.
  assert (H2' : r4 2 = r 2 - 4) by (rewrite (Hr4 2) by (unfold send_clobbers; cell); exact H2).
  pose proof (read_again (r 2 - 4) m1 m2 (block_in m2 back) m4 back Hu2 Hu3 Hu4) as Hall.
  assert (Hl : ld32 m4 (r 2 - 4) = r 1).
  { rewrite (untouched_ld32 _ _ _ _ Hall) by (unfold SPI_BASE; lia). unfold SD_STATE_IDLE, received, SD_INFO. loads.
    rewrite put_bytes_ld32 by (unfold SPI_RX_RAM; lia). apply ld32_st32_eq, Hra. }
  drive. at_sp H2'. rewrite Hl. drive. at_sp H2'. drive. rewrite jalr_target by exact Hra. fold l2. apply H.
  - intros x Hx. unfold read_changes, send_clobbers in *. regs_cases Hx; [congruence|rewrite Hr4 by cells Hx; regs_cases Hx; rewrite Hr3 by cells Hx; regs_cases Hx; rewrite Hr2 by cells Hx; regs_cases Hx].
  - exact Hi4.
  - exact Hs4.
  - eapply untouched_trans; [|exact Hall|lia]. apply untouched_st8_cong, untouched_received, Hu1.
Qed.

(** C17: When the card answers the command with anything but ones, and then with the start byte, the 512 bytes it sends next
    are in the unit's memory when the routine returns; they were taken from the bus in this order, and the driver
    is idle again. *)
Theorem sd_read_block_delivers r m s l level : idle level m -> is_u32 (r 8) -> is_u32 (r 9) -> is_u32 (r 18) -> is_u32 (r 10) ->
  code_pointer (r 1) -> stack_room (r 2) 28 -> snd (read_answer (r 10) l) <> 255 -> snd (read_token (r 10) l) = 254 ->
  runs (returns_to (r 1) s (fun r' m' l' => regs_but read_changes r r' /\ idle 1 m' /\ ld8 m' (SD_INFO + 1) = 0 /\
    bytes_at m' SPI_RX_RAM 512 = snd (block_read level m (r 10) l) /\ l' = fst (block_read level m (r 10) l) /\
    forall a, a < heap_end \/ r 2 <= a < SPI_BASE -> a <> SD_INFO + 1 -> ld8 m' a = ld8 m a)) (Cpu r m s 436) (Bus l None).
Proof.
  intros Hm H8 H9 H18 H10 Hra Hsp Ha Ht. pose proof Hsp as [Hsp1 Hsp2]. unfold heap_end, stack_top in Hsp1, Hsp2.
  apply (sd_read_block_runs _ r m s l level); auto. intros r' m' Hr Hi _ Hu.
  set (bs := snd (block_read level m (r 10) l)) in *. apply at_return. split; [exact Hr|]. split; [exact Hi|].
  assert (Hl : List.length bs = 512%nat) by (unfold bs, block_read; cbn [snd]; rewrite replies_length; apply padding_length).
  split; [|split; [|split; [reflexivity|]]].
  - rewrite Hu by (unfold SD_INFO, heap_end; lia). apply ld8_st8_eq.
  - unfold bytes_at. rewrite <- Hl. apply nth_bytes. intros i Hlt.
    rewrite Hu by (unfold SPI_RX_RAM, SPI_BASE; lia). unfold SD_STATE_IDLE. rewrite ld8_st8_ne by (unfold SD_INFO, SPI_RX_RAM; lia).
    unfold received. rewrite put_bytes_ld8 by exact Hlt. apply Z.mod_small, replies_bytes.
  - intros a Hb Hn. rewrite Hu by lia. unfold SD_STATE_IDLE. rewrite ld8_st8_ne by lia. apply ld8_put_bytes_ne.
    unfold heap_end, SPI_BASE, SPI_RX_RAM in *. lia.
Qed.

(** ** A read that fails *)

(** The machine polls for a bit of the status that nothing will set. *)
Definition polls_forever (c : cpu) (b : bus) : Prop :=
  forall n, exists c', bus_run card delay n c b = Some (c', b) /\ In (pc c') [2812; 2816; 2820].

Lemma quiet_bus_step r m s p i l : ready m -> in_driver p = true -> driver_at p = Some i -> mem (exec i (Cpu r m s p)) = m ->
  bus_step card delay (Cpu r m s p) (Bus l None) = Some (exec i (Cpu r m s p), Bus l None).
Proof.
  intros [Hm Hr] Hp Hi He. unfold bus_step. rewrite (driver_step r m s p i) by assumption. cbn [mbind option_bind]. unfold tick. cbn [pending].
  rewrite He, Hr. destruct (exec i (Cpu r m s p)). cbn in He. subst. reflexivity.
Qed.

Ltac stay :=
  cbn [bus_run]; erewrite quiet_bus_step; [|eassumption|reflexivity|reflexivity|reflexivity]; cbn [mbind option_bind]; cpu_cbn.

Lemma poll_stuck m s l : ready m -> forall n r, r 5 = SPI_BASE -> Z.land (ld32 m SPI_STATUS) (r 7) = 0 ->
  exists c', bus_run card delay n (Cpu r m s 2812) (Bus l None) = Some (c', Bus l None) /\ In (pc c') [2812; 2816; 2820].
Proof.
  intros Hm. induction n as [n IH] using lt_wf_ind. intros r H5 H0.
  destruct n as [|[|[|n]]].
  - eexists. split; [reflexivity|]. cbn. auto.
  - eexists. stay. split; [reflexivity|]. cbn. auto.
  - eexists. stay. stay. split; [reflexivity|]. cbn. auto.
  - unfold SPI_BASE in H5. stay. stay. stay. rewrite H5. cpu_cbn. change 131076 with SPI_STATUS. rewrite H0. apply IH; [lia|exact H5|exact H0].
Qed.

(** Without an answer to the command, or with anything but the start byte after it, the routine never returns: it
    does not look at what [sd_start_read] returned, and waits for a block that was not asked for. *)
Theorem sd_read_block_hangs r m s l level : idle level m -> is_u32 (r 8) -> is_u32 (r 9) -> is_u32 (r 18) -> is_u32 (r 10) ->
  stack_room (r 2) 28 -> snd (read_answer (r 10) l) = 255 \/ snd (read_token (r 10) l) <> 254 ->
  runs polls_forever (Cpu r m s 436) (Bus l None).
Proof.
  intros Hm H8 H9 H18 H10 Hsp Hbad. assert (Hsp' : heap_end + 28 <= r 2 <= stack_top) by (destruct Hsp; lia).
  unfold heap_end, stack_top in Hsp'.
  pose proof (idle_stack _ _ (r 2 - 4) (r 1) Hm ltac:(unfold heap_end; lia) ltac:(unfold stack_top; lia)) as Hm1.
  assert (Hend : forall r2 m2 l2, idle 1 m2 -> ld32 m2 SPI_STATUS = 0 -> runs polls_forever (Cpu r2 m2 s 448) (Bus l2 None)).
  { intros r2 m2 l2 Hi2 Hs2. drive. drive. drive. apply bus_done. intros n.
    apply poll_stuck; [apply (idle_ready _ _ Hi2)|reflexivity|rewrite Hs2; reflexivity]. }
  drive. drive. drive. apply (sd_start_read_runs _ _ _ _ _ level); cbn [upd Z.eqb Pos.eqb]; auto; try code_ptr.
  - unfold stack_room, heap_end, stack_top. lia.
  - intros _ r' m' _ _ Hi Hs _. apply Hend; assumption.
  - intros _ _ r' m' _ _ Hi Hs _. apply Hend; assumption.
  - intros. tauto.
Qed.

End Read.
