(* ===== verification/DFat.v ===== *)
(** * The FAT driver (kernel/fs/fs.s), as machine code

    Mounting the file system, and the arithmetic of clusters. What the card answers is a disk's contents. *)

From S2P Require Import Prelude Mem KWorld RvaIsa KImage DImage Cpu KCode DCode DBus DSpi DSd DRead.
From Stdlib Require Import String.
Local Open Scope list_scope.
Local Open Scope Z_scope.

Lemma fat_entries :
  map at_symbol ["fat_init"; "sd_read_block_blocking"; "cluster_to_lba"; "lba_to_cluster"; "lba_to_sector"; "fat_calcualte_lba";
                 "get_next_cluster"]%string = map Some [192; 436; 476; 508; 540; 576; 616].
Proof. unfold at_symbol. rewrite driver_symbols_ok. vm_compute. reflexivity. Qed.

(** ** Sectors *)

(** Little-endian values in a sector. *)
Definition byte_in (s : list Z) (i : Z) : Z := nth (Z.to_nat i) s 0.
Definition half_in (s : list Z) (i : Z) : Z := byte_in s i + 256 * byte_in s (i + 1).
Definition word_in (s : list Z) (i : Z) : Z := half_in s i + 65536 * half_in s (i + 2).

(** The first sector of the first partition, when the disk has one that is active and of a FAT32 type. *)
(* kernel/fs/fs.s:34-58 fat_init *)
Definition mbr_partition (s : list Z) : option Z :=
  if (half_in s 510 =? 0xaa55) && (byte_in s 446 =? 0x80) && ((byte_in s 450 =? 0xB) || (byte_in s 450 =? 0xC))
  then Some (u32 (half_in s 454 + 65536 * half_in s 456)) else None.

(** What the first sector of the volume says, when its sectors have 512 bytes. *)
(* kernel/fs/fs.s:68-113 fat_init *)
Definition bpb_volume (lba : Z) (s : list Z) : option FS_RUN_INFO :=
  if (half_in s 510 =? 0xaa55) && (half_in s 11 =? 512)
  then let fat_begin := u32 (lba + half_in s 14) in
       Some (FsRunInfo fat_begin (word_in s 36) (u32 (fat_begin + u32 (byte_in s 16 * word_in s 36))) (word_in s 44) (byte_in s 13))
  else None.

(* kernel/fs/fs.s:15-121 fat_init *)
Definition mount (disk : Z -> list Z) : option FS_RUN_INFO := lba ← mbr_partition (disk 0); bpb_volume lba (disk lba).

(** The structure in memory. *)
Definition running_info (m : memory) : FS_RUN_INFO :=
  FsRunInfo (ld32 m fs_running_info) (ld32 m (fs_running_info + 4)) (ld32 m (fs_running_info + 8)) (ld32 m (fs_running_info + 12))
    (ld8 m (fs_running_info + 16)).

(** Nobody waits for the card: the four words of the scheduler. *)
Definition scheduler_empty (m : memory) : Prop := Forall (fun i => ld32 m (g_io_sched + i) = 0) [0; 4; 8; 12].

(** A sector: its bytes. *)
Record sector (s : list Z) : Prop := Sector { sector_length : List.length s = 512%nat; sector_byte : forall i, 0 <= byte_in s i < 256 }.

(** The sector [s] is in the unit's memory. *)
Definition in_buffer (s : list Z) (m : memory) : Prop := forall i, 0 <= i < 512 -> ld8 m (SPI_RX_RAM + i) = byte_in s i.

Lemma received_in_buffer s sp m m' : sector s -> untouched sp (SD_STATE_IDLE (received m s)) m' -> in_buffer s m'.
Proof.
  intros [Hl Hb] Hu i Hi. rewrite Hu by (unfold SPI_RX_RAM, SPI_BASE; lia). unfold SD_STATE_IDLE. rewrite ld8_st8_ne by (unfold SD_INFO, SPI_RX_RAM; lia).
  unfold received. replace i with (Z.of_nat (Z.to_nat i)) at 1 by lia. rewrite put_bytes_ld8 by lia.
  rewrite Z.mod_small; [reflexivity|]. apply (Hb i).
Qed.

Lemma buffer_half s m i : in_buffer s m -> 0 <= i <= 510 -> ld16 m (SPI_RX_RAM + i) = half_in s i.
Proof. intros H Hi. unfold ld16, half_in. rewrite <- Z.add_assoc, !H by lia. reflexivity. Qed.

Lemma buffer_word s m i : in_buffer s m -> 0 <= i <= 508 -> ld32 m (SPI_RX_RAM + i) = word_in s i.
Proof. intros H Hi. unfold ld32, word_in. rewrite <- Z.add_assoc, !(buffer_half s) by (assumption || lia). reflexivity. Qed.

Lemma buffer_word_range s m i : in_buffer s m -> 0 <= i <= 508 -> is_u32 (word_in s i).
Proof. intros H Hi. rewrite <- (buffer_word s m i) by assumption. apply ld32_range. Qed.
Lemma buffer_half_range s m i : in_buffer s m -> 0 <= i <= 510 -> 0 <= half_in s i < 65536.
Proof. intros H Hi. rewrite <- (buffer_half s m i) by assumption. apply ld16_range. Qed.
Lemma buffer_byte_range s m i : in_buffer s m -> 0 <= i < 512 -> 0 <= byte_in s i < 256.
Proof. intros H Hi. rewrite <- (H i) by assumption. apply ld8_range. Qed.

(** A load from the buffer: [H] says what is there. *)
Ltac buffered H :=
  repeat match goal with
  | |- context [ld16 ?m ?a] => literal a; let i := eval vm_compute in (a - SPI_RX_RAM) in change (ld16 m a) with (ld16 m (SPI_RX_RAM + i)); rewrite (buffer_half _ m i H) by lia
  | |- context [ld32 ?m ?a] => literal a; let i := eval vm_compute in (a - SPI_RX_RAM) in change (ld32 m a) with (ld32 m (SPI_RX_RAM + i)); rewrite (buffer_word _ m i H) by lia
  | |- context [ld8 ?m ?a] => literal a; let i := eval vm_compute in (a - SPI_RX_RAM) in change (ld8 m a) with (ld8 m (SPI_RX_RAM + i)); rewrite (H i) by lia
  end.

(** A comparison with a number on the left, which [cbn] takes apart. *)
Definition eqb_literal (p : positive) (x : Z) : bool := match x with Z.pos q => (p =? q)%positive | _ => false end.

Lemma eqb_literal_eq p x : eqb_literal p x = (x =? Z.pos p).
Proof. rewrite Z.eqb_sym. reflexivity. Qed.

Ltac literal_first p x :=
  let t := eval cbv delta [eqb_literal] beta in (eqb_literal p x) in change t with (eqb_literal p x); rewrite eqb_literal_eq.

(** ** The card *)

(** A card with the contents [disk], after any trace of [awake], answers a read of a sector with anything but ones, then with the
    start byte and the sector's bytes, whatever it is sent meanwhile, and is in such a state again when the read is over. *)
Record serves (card : trace -> Z) (disk : Z -> list Z) (awake : trace -> Prop) : Prop := Serves {
  serves_answer : forall lba l, awake l -> is_u32 lba -> snd (read_answer card lba l) <> 255;
  serves_token : forall lba l, awake l -> is_u32 lba -> snd (read_token card lba l) = 254;
  serves_block : forall lba l pad, awake l -> is_u32 lba -> List.length pad = 512%nat ->
    replies card 0 pad (fst (read_token card lba l)) = disk lba;
  serves_next : forall lba l pad, awake l -> is_u32 lba -> List.length pad = 512%nat ->
    awake (tail_trace 0 (send 0 pad (fst (read_token card lba l)))) }.

Section Fat.

Context (card : trace -> Z) (delay : trace -> nat) (disk : Z -> list Z) (awake : trace -> Prop).
Context (Hdisk : serves card disk awake).

Abbreviation runs := (bus_runs card delay).

Lemma disk_sector lba l : awake l -> is_u32 lba -> sector (disk lba).
Proof.
  intros Hl H. rewrite <- (serves_block _ _ _ Hdisk lba l (repeat 0 512) Hl H (repeat_length _ _)). split.
  - rewrite replies_length. apply repeat_length.
  - intros i. apply replies_bytes.
Qed.

Lemma stage_idle_store xs r m sp level r' m' a v : stage xs r m sp level r' m' -> beside_driver a 4 -> a + 4 <= SPI_BASE ->
  heap_end <= sp -> stage xs r (st32 m a v) sp level r' (st32 m' a v).
Proof.
  intros [Hr Hs [Hi Hl Ht] Hm] Ha Hh Hsp. unfold heap_end, SPI_BASE in *. split; auto.
  - split; [apply ready_st32; [exact Hi|exact Ha|unfold beside_control; spi_addresses; lia]|spi_addresses; loads; assumption..].
  - intros b Hb. unfold untouched in Hm. destruct (Z_lt_dec b a); [rewrite !ld8_st32_ne by lia; apply Hm, Hb|].
    destruct (Z_le_dec (a + 4) b); [rewrite !ld8_st32_ne by lia; apply Hm, Hb|].
    unfold st32, st16. repeat apply ld8_st8_cong. apply Hm, Hb.
Qed.

(** A call of the blocking read. *)
Lemma stage_block P xs r m sp level r' m' s l p lba : stage xs r m sp level r' m' -> incl read_changes xs -> stack_room sp 28 ->
  in_driver p = true -> driver_at p = Some (Jal 1 436) -> code_pointer (p + 4) -> is_u32 (r' 8) -> is_u32 (r' 9) -> is_u32 (r' 18) ->
  r' 10 = lba -> is_u32 lba -> awake l ->
  (forall r2 m2 l2, stage xs r (SD_STATE_IDLE (received m (disk lba))) sp 1 r2 m2 -> regs_but read_changes r' r2 -> in_buffer (disk lba) m2 ->
    awake l2 -> runs P (Cpu r2 m2 s (p + 4)) (Bus l2 None)) ->
  runs P (Cpu r' m' s p) (Bus l None).
Proof.
  intros Hst Hxs Hsp Hp Hi Hc H8 H9 H18 H10 Hlba Hl H. pose proof (idle_ready _ _ (st_idle _ _ _ _ _ _ _ Hst)) as Hm.
  pose proof (st_sp _ _ _ _ _ _ _ Hst) as H2. pose proof (disk_sector lba l Hl Hlba) as Hsec.
  eapply quiet_step; [exact Hm|exact Hp|exact Hi|]. cbn [exec set Z.eqb mem]. split; [exact Hm|].
  apply (sd_read_block_runs card delay _ _ _ _ _ level); cbn [upd Z.eqb Pos.eqb]; rewrite ?H2, ?H10; auto;
    [apply (st_idle _ _ _ _ _ _ _ Hst)|exact (serves_answer _ _ _ Hdisk lba l Hl Hlba)|exact (serves_token _ _ _ Hdisk lba l Hl Hlba)|].
  intros r2 m2 Hr2 Hi2 _ Hu. cbn [upd Z.eqb Pos.eqb]. unfold block_read in *. cbn [fst snd] in *.
  rewrite (serves_block card disk awake Hdisk) in Hu by (auto using padding_length).
  assert (Hr2' : regs_but read_changes r' r2) by (unfold read_changes in *; regs_over Hr2).
  apply H; auto.
  - destruct (stage_regs _ _ _ _ _ _ _ _ read_changes Hst Hxs ltac:(cbn; lia) Hr2') as [Ha Hb].
    split; auto. eapply untouched_trans; [|exact Hu|lia]. apply untouched_st8_cong, untouched_received, (st_mem _ _ _ _ _ _ _ Hst).
  - eapply received_in_buffer; eassumption.
  - apply (serves_next _ _ _ Hdisk); auto using padding_length.
Qed.

(** ** Mounting *)

(** While [fat_init] runs, called with [r] and [m]: what it does not change, and where its return address is. *)
Record mount_frame (r : Z -> Z) (m : memory) (info : FS_RUN_INFO) (M : memory) : Prop := MountFrame {
  mf_others : forall a, a < fs_running_info \/ g_io_sched + 16 <= a < heap_end \/ r 2 <= a < SPI_BASE -> a <> SD_INFO + 1 -> ld8 M a = ld8 m a;
  mf_ra : ld32 M (r 2 - 8 + 4) = r 1;
  mf_info : running_info M = info;
  mf_scheduler : scheduler_empty M }.

(** What the caller finds. *)
Record mounted (r : Z -> Z) (m : memory) (info : FS_RUN_INFO) (r' : Z -> Z) (m' : memory) : Prop := Mounted {
  mt_regs : regs_but [11; 12; 29; 30; 31; 5; 6; 7; 10; 28] r r';
  mt_idle : idle 1 m';
  mt_info : running_info m' = info;
  mt_scheduler : scheduler_empty m';
  mt_others : forall a, a < fs_running_info \/ g_io_sched + 16 <= a < heap_end \/ r 2 <= a < SPI_BASE -> a <> SD_INFO + 1 -> ld8 m' a = ld8 m a }.

Lemma running_info_ext m m' : (forall a, fs_running_info <= a < fs_running_info + 20 -> ld8 m' a = ld8 m a) -> running_info m' = running_info m.
Proof.
  intros H. unfold running_info. rewrite (H (fs_running_info + 16)) by lia.
  f_equal; apply ld32_ext; intros i Hi; apply H; lia.
Qed.

Lemma scheduler_ext m m' : (forall a, g_io_sched <= a < g_io_sched + 16 -> ld8 m' a = ld8 m a) -> scheduler_empty m -> scheduler_empty m'.
Proof.
  intros H Hs. unfold scheduler_empty in *. rewrite List.Forall_forall in *. intros i Hi. rewrite <- (Hs i Hi).
  apply ld32_ext. intros j Hj. apply H. cbn in Hi. lia.
Qed.

Lemma frame_ext r m info M M' : mount_frame r m info M -> r 2 <= SPI_BASE -> heap_end + 8 <= r 2 ->
  (forall a, a < heap_end \/ r 2 - 4 <= a < SPI_BASE -> a <> SD_INFO + 1 -> ld8 M' a = ld8 M a) -> mount_frame r m info M'.
Proof.
  intros [Ho Hra Hi Hs] Hsp Hsp' H. unfold heap_end, SPI_BASE, SD_INFO, fs_running_info, g_io_sched in *. split.
  - intros a Ha Hn. rewrite H; [apply Ho; assumption| |exact Hn]. unfold heap_end, SPI_BASE, fs_running_info, g_io_sched in Ha. lia.
  - rewrite <- Hra. apply ld32_ext. intros i Hi'. apply H; lia.
  - rewrite <- Hi. apply running_info_ext. intros a Ha. unfold fs_running_info in *. apply H; lia.
  - revert Hs. apply scheduler_ext. intros a Ha. unfold g_io_sched in *. apply H; lia.
Qed.

Lemma frame_received r m info M bs : mount_frame r m info M -> stack_room (r 2) 8 -> mount_frame r m info (SD_STATE_IDLE (received M bs)).
Proof.
  intros H [Hr1 Hr2]. unfold stack_top in Hr2. apply (frame_ext r m info M); [exact H|unfold SPI_BASE; lia|lia|].
  intros a Ha Hn. unfold SD_STATE_IDLE. rewrite ld8_st8_ne by lia. apply ld8_put_bytes_ne. unfold heap_end, SPI_BASE, SPI_RX_RAM in *. lia.
Qed.

Definition mstage (r : Z -> Z) (M : memory) : (Z -> Z) -> memory -> Prop := stage read_changes r M (r 2 - 8) 1.

(** The end of the routine. *)
Lemma fat_init_returns P r m info M r' m' s l : code_pointer (r 1) -> stack_room (r 2) 8 -> mstage r M r' m' -> mount_frame r m info M ->
  (forall r2, mounted r m info r2 m' -> runs P (Cpu r2 m' s (r 1)) (Bus l None)) -> runs P (Cpu r' m' s 424) (Bus l None).
Proof.
  intros Hra [Hsp1 Hsp2] Hst Hf H. unfold heap_end, stack_top in *. pose proof (st_sp _ _ _ _ _ _ _ Hst) as H2.
  pose proof (st_mem _ _ _ _ _ _ _ Hst) as Hu.
  drive. at_sp H2. rewrite (stage_ld32 _ _ _ _ _ _ _ _ Hst), (mf_ra _ _ _ _ Hf) by (unfold stack_top; lia).
  drive. at_sp H2. drive. rewrite jalr_target by exact Hra. apply H. unfold untouched, heap_end, SPI_BASE in Hu. split.
  - regs_return Hst.
  - apply (st_idle _ _ _ _ _ _ _ Hst).
  - rewrite <- (mf_info _ _ _ _ Hf). apply running_info_ext. unfold fs_running_info. intros a Ha. apply Hu. lia.
  - generalize (mf_scheduler _ _ _ _ Hf). apply scheduler_ext. unfold g_io_sched. intros a Ha. apply Hu. lia.
  - intros a Ha Hn. rewrite <- (mf_others _ _ _ _ Hf a Ha Hn). unfold fs_running_info, g_io_sched, heap_end, SPI_BASE in Ha. apply Hu. lia.
Qed.

(** The checks of the first sector. *)
Lemma fat_init_mbr P r M r' m' s l sec : mstage r M r' m' -> in_buffer sec m' ->
  (mbr_partition sec = None -> forall r2, mstage r M r2 m' -> runs P (Cpu r2 m' s 424) (Bus l None)) ->
  (forall lba, mbr_partition sec = Some lba -> forall r2, mstage r M r2 m' -> r2 10 = lba -> runs P (Cpu r2 m' s 304) (Bus l None)) ->
  runs P (Cpu r' m' s 232) (Bus l None).
Proof.
  intros Hst Hb Hno Hok.
  pose proof (buffer_half_range sec m' 510 Hb ltac:(lia)). pose proof (buffer_byte_range sec m' 450 Hb ltac:(lia)).
  pose proof (buffer_half_range sec m' 454 Hb ltac:(lia)). pose proof (buffer_half_range sec m' 456 Hb ltac:(lia)).
  unfold mbr_partition in *.
  drive. drive. drive. buffered Hb. drive. drive. drive.
  destruct (half_in sec 510 =? 43605) eqn:E1; cbn [negb andb] in *; [|apply Hno; [reflexivity|stage_tac Hst]].
  drive. drive. buffered Hb. drive. drive.
  destruct (byte_in sec 446 =? 128) eqn:E2; cbn [negb andb] in *; [|apply Hno; [reflexivity|stage_tac Hst]].
  drive. buffered Hb. drive. drive. drive.
  destruct (Z.ltb_spec 1 (u32 (byte_in sec 450 - 11))) as [E3|E3].
  - apply Hno; [|stage_tac Hst]. replace (byte_in sec 450 =? 11) with false by (symmetry; apply Z.eqb_neq; intros E; rewrite E in E3; vm_compute in E3; discriminate).
    replace (byte_in sec 450 =? 12) with false by (symmetry; apply Z.eqb_neq; intros E; rewrite E in E3; vm_compute in E3; discriminate). reflexivity.
  - drive. buffered Hb. drive. buffered Hb. drive. drive. eapply Hok; [|stage_tac Hst|reflexivity].
    replace ((byte_in sec 450 =? 11) || (byte_in sec 450 =? 12)) with true.
    + change (16 mod 32) with 16. rewrite Z.shiftl_mul_pow2 by lia. rewrite (u32_id (_ * 2 ^ 16)) by (unfold is_u32; lia).
      cbn [upd Z.eqb Pos.eqb]. rewrite (Z.mul_comm _ (2 ^ 16)). reflexivity.
    + symmetry. apply orb_true_iff. rewrite !Z.eqb_eq. unfold u32 in E3. dlia.
Qed.

(** The checks of the volume's first sector, and the structure. *)
Lemma frame_info r m info info' M : mount_frame r m info M -> stack_room (r 2) 8 ->
  Forall is_u32 [FAT_BEGIN_LBA info'; FAT_SECTOR_COUNT info'; CLUSTER_BEGIN_LBA info'; ROOT_DIR_FIRST_CLUSTER info'] ->
  0 <= SECTORS_PER_CLUSTER info' < 256 ->
  mount_frame r m info'
    (st32 (st32 (st32 (st32 (st8 M 172 (SECTORS_PER_CLUSTER info')) 156 (FAT_BEGIN_LBA info')) 164 (CLUSTER_BEGIN_LBA info')) 160
      (FAT_SECTOR_COUNT info')) 168 (ROOT_DIR_FIRST_CLUSTER info')).
Proof.
  intros [Ho Hra Hi Hs] [Hsp1 Hsp2] Hu Hb. rewrite !Forall_cons in Hu. destruct Hu as (U1 & U2 & U3 & U4 & _). unfold heap_end, stack_top in *. split.
  - intros a Ha Hn. unfold fs_running_info, g_io_sched, SPI_BASE in *. rewrite !ld8_st32_ne, ld8_st8_ne by lia. apply Ho; assumption.
  - loads. exact Hra.
  - destruct info' as [a b c d e]. cbn [FAT_BEGIN_LBA FAT_SECTOR_COUNT CLUSTER_BEGIN_LBA ROOT_DIR_FIRST_CLUSTER SECTORS_PER_CLUSTER] in *.
    unfold running_info, fs_running_info. cbn [Z.add Pos.add Pos.succ Pos.add_carry]. f_equal.
    + loads. apply ld32_st32_eq, U1.
    + loads. apply ld32_st32_eq, U2.
    + loads. apply ld32_st32_eq, U3.
    + apply ld32_st32_eq, U4.
    + loads. rewrite ld8_st8_eq. apply Z.mod_small, Hb.
  - revert Hs. apply scheduler_ext. unfold g_io_sched. intros a Ha. rewrite !ld8_st32_ne, ld8_st8_ne by lia. reflexivity.
Qed.

Lemma fat_init_bpb P r m info M r' m' s l sec lba : mstage r M r' m' -> in_buffer sec m' -> mount_frame r m info M -> stack_room (r 2) 8 ->
  ld32 M (r 2 - 8) = lba ->
  (forall r2 m2 M2, mstage r M2 r2 m2 -> mount_frame r m (default info (bpb_volume lba sec)) M2 -> runs P (Cpu r2 m2 s 424) (Bus l None)) ->
  runs P (Cpu r' m' s 312) (Bus l None).
Proof.
  intros Hst Hb Hf [Hsp1 Hsp2] Hw H. unfold heap_end, stack_top in Hsp1, Hsp2. pose proof (st_sp _ _ _ _ _ _ _ Hst) as H2.
  pose proof (buffer_half_range sec m' 510 Hb ltac:(lia)). pose proof (buffer_half_range sec m' 14 Hb ltac:(lia)).
  pose proof (buffer_byte_range sec m' 11 Hb ltac:(lia)). pose proof (buffer_byte_range sec m' 12 Hb ltac:(lia)).
  pose proof (buffer_byte_range sec m' 13 Hb ltac:(lia)). pose proof (buffer_word_range sec m' 36 Hb ltac:(lia)).
  pose proof (buffer_word_range sec m' 44 Hb ltac:(lia)).
  unfold bpb_volume in H.
  drive. drive. drive. drive. drive. buffered Hb. drive. literal_first 43605%positive (half_in sec 510).
  destruct (half_in sec 510 =? 43605) eqn:E1; cbn [negb andb] in *; [|apply (H _ _ M); [stage_tac Hst|exact Hf]].
  drive. drive. buffered Hb. drive. buffered Hb. drive. drive. change (8 mod 32) with 8. rewrite Z.shiftl_mul_pow2 by lia. change (2 ^ 8) with 256.
  assert (E2 : byte_in sec 11 + byte_in sec 12 * 256 = half_in sec 11) by (unfold half_in; change (11 + 1) with 12; lia).
  drive. literal_first 512%positive (byte_in sec 11 + byte_in sec 12 * 256). rewrite E2. clear E2.
  destruct (half_in sec 11 =? 512) eqn:E2; cbn [negb andb] in *; [|apply (H _ _ M); [stage_tac Hst|exact Hf]].
  drive. drive. drive. at_sp H2. rewrite (stage_ld32 _ _ _ _ _ _ _ (r 2 - 8) Hst), Hw by (unfold stack_top; lia).
  drive. buffered Hb. drive. buffered Hb. drive. buffered Hb. drive. buffered Hb. drive. buffered Hb.
  drive. drive. drive. drive. drive. drive. drive. drive.
  set (info' := FsRunInfo _ _ _ _ _) in H.
  pose proof (frame_info r m info info' M Hf ltac:(unfold stack_room, heap_end, stack_top; lia)) as Hf'.
  match type of Hf' with _ -> _ -> mount_frame _ _ _ ?X => apply (H _ _ X) end.
  - subst info'. cbn [FAT_BEGIN_LBA FAT_SECTOR_COUNT CLUSTER_BEGIN_LBA ROOT_DIR_FIRST_CLUSTER SECTORS_PER_CLUSTER].
    do 4 (apply stage_idle_store; [|unfold beside_driver; lia|unfold SPI_BASE; lia|unfold heap_end; lia]).
    apply stage_st8; [stage_tac Hst|unfold heap_end; lia|unfold beside_driver; lia|unfold SPI_BASE; lia].
  - apply Hf'; [repeat first [apply Forall_nil_2 | apply Forall_cons_2; [assumption || apply u32_range|]]|exact (buffer_byte_range sec m' 13 Hb ltac:(lia))].
Qed.

(** The first read, and the second. *)
Lemma fat_init_start P r m s l level : idle level m -> code_pointer (r 1) -> stack_room (r 2) 36 -> is_u32 (r 8) -> is_u32 (r 9) -> is_u32 (r 18) ->
  awake l ->
  (forall r' m' M l', mstage r M r' m' -> mount_frame r m (running_info m) M -> in_buffer (disk 0) m' -> awake l' ->
    runs P (Cpu r' m' s 232) (Bus l' None)) ->
  runs P (Cpu r m s 192) (Bus l None).
Proof.
  intros Hm Hra [Hsp1 Hsp2] H8 H9 H18 Hl H. unfold heap_end, stack_top in Hsp1, Hsp2.
  set (M1 := st32 m (r 2 - 8 + 4) (r 1)). set (M := st32 (st32 (st32 (st32 M1 176 0) 180 0) 184 0) 188 0).
  assert (Hst : stage read_changes r M (r 2 - 8) level (upd r 2 (r 2 - 8)) M).
  { subst M. do 4 (apply stage_idle_store; [|unfold beside_driver; lia|unfold SPI_BASE; lia|unfold heap_end; lia]).
    split; [unfold read_changes; regs_tac|reflexivity| |apply untouched_refl].
    apply idle_stack; [exact Hm|unfold heap_end; lia|unfold stack_top; lia]. }
  assert (Hf : mount_frame r m (running_info m) M).
  { subst M M1. unfold SPI_BASE, heap_end, fs_running_info, g_io_sched in *. split; unfold SPI_BASE, heap_end, fs_running_info, g_io_sched in *.
    - intros a Ha Hn. rewrite !ld8_st32_ne by lia. reflexivity.
    - loads. apply ld32_st32_eq, Hra.
    - apply running_info_ext. unfold fs_running_info. intros a Ha. rewrite !ld8_st32_ne by lia. reflexivity.
    - unfold scheduler_empty, g_io_sched. repeat first [apply Forall_nil_2 | apply Forall_cons_2]; fold_literals; loads;
        apply ld32_st32_eq; unfold is_u32; lia. }
  drive. drive. drive. drive. drive. drive. drive. drive. drive. fold M1. fold M.
  match type of Hst with stage ?X ?R ?M0 ?S ?L _ _ => eapply (stage_block _ X R M0 S L) with (lba := 0) end;
    [stage_tac Hst|stage_side..|]; try (cbn [upd Z.eqb Pos.eqb]; assumption); try (unfold is_u32; lia).
  fold_literals. intros r2 m2 l2 Hst2 _ Hb Hl2. apply (H r2 m2 (SD_STATE_IDLE (received M (disk 0))) l2); auto.
  apply frame_received; [exact Hf|unfold stack_room, heap_end, stack_top; lia].
Qed.

Lemma fat_init_volume P r m info M r' m' s l lba : mstage r M r' m' -> mount_frame r m info M -> stack_room (r 2) 36 ->
  is_u32 (r 8) -> is_u32 (r 9) -> is_u32 (r 18) -> awake l -> r' 10 = lba -> is_u32 lba ->
  (forall r2 m2 M2 l2, mstage r M2 r2 m2 -> mount_frame r m info M2 -> in_buffer (disk lba) m2 -> ld32 M2 (r 2 - 8) = lba -> awake l2 ->
    runs P (Cpu r2 m2 s 312) (Bus l2 None)) ->
  runs P (Cpu r' m' s 304) (Bus l None).
Proof.
  intros Hst Hf [Hsp1 Hsp2] H8 H9 H18 Hl H10 Hlba H. unfold heap_end, stack_top in Hsp1, Hsp2. pose proof (st_sp _ _ _ _ _ _ _ Hst) as H2.
  drive. at_sp H2. rewrite H10.
  apply (stage_idle_store _ _ _ _ _ _ _ (r 2 - 8) lba) in Hst; [|unfold beside_driver; lia|unfold SPI_BASE; lia|unfold heap_end; lia].
  assert (Hf2 : mount_frame r m info (st32 M (r 2 - 8) lba)).
  { apply (frame_ext r m info M); [exact Hf|unfold SPI_BASE; lia|unfold heap_end; lia|].
    unfold heap_end, SPI_BASE. intros a Ha Hn. apply ld8_st32_ne. lia. }
  eapply (stage_block _ read_changes r _ _ _ _ _ _ _ _ lba); [exact Hst|stage_side..|];
    try (rewrite (stage_kept _ _ _ _ _ _ _ _ Hst) by (unfold read_changes; cell); assumption).
  fold_literals. intros r2 m2 l2 Hst2 _ Hb Hl2. eapply H; [exact Hst2| |exact Hb| |exact Hl2].
  - apply frame_received; [exact Hf2|unfold stack_room, heap_end, stack_top; lia].
  - unfold SD_STATE_IDLE, received, SD_INFO. loads. rewrite put_bytes_ld32 by (unfold SPI_RX_RAM; lia). apply ld32_st32_eq, Hlba.
Qed.

Lemma mbr_partition_u32 sec lba : mbr_partition sec = Some lba -> is_u32 lba.
Proof. unfold mbr_partition. destruct (_ && _); [|discriminate]. intros [= <-]. apply u32_range. Qed.

Lemma fat_init_runs P r m s l level : idle level m -> code_pointer (r 1) -> stack_room (r 2) 36 ->
  is_u32 (r 8) -> is_u32 (r 9) -> is_u32 (r 18) -> awake l ->
  (forall r' m' l', mounted r m (default (running_info m) (mount disk)) r' m' -> awake l' -> runs P (Cpu r' m' s (r 1)) (Bus l' None)) ->
  runs P (Cpu r m s 192) (Bus l None).
Proof.
  intros Hm Hra Hsp H8 H9 H18 Hl H. assert (Hsp8 : stack_room (r 2) 8) by (destruct Hsp; split; lia).
  apply (fat_init_start _ r m s l level); auto. intros r1 m1 M1 l1 Hst1 Hf1 Hb1 Hl1.
  apply (fat_init_mbr _ r M1 r1 m1 s l1 (disk 0) Hst1 Hb1).
  - intros Hn r2 Hst2. apply (fat_init_returns _ r m (running_info m) M1 r2 m1); auto. intros r3 Hr3.
    apply H; [|exact Hl1]. unfold mount. rewrite Hn. exact Hr3.
  - intros lba Hp r2 Hst2 H10. pose proof (mbr_partition_u32 _ _ Hp) as Hlba.
    apply (fat_init_volume _ r m (running_info m) M1 r2 m1 s l1 lba); auto. intros r3 m3 M3 l3 Hst3 Hf3 Hb3 Hw3 Hl3.
    apply (fat_init_bpb _ r m (running_info m) M3 r3 m3 s l3 (disk lba) lba); auto. intros r4 m4 M4 Hst4 Hf4.
    eapply (fat_init_returns _ r m _ M4 r4 m4); [exact Hra|exact Hsp8|exact Hst4|exact Hf4|]. intros r5 Hr5.
    apply H; [|exact Hl3]. unfold mount. rewrite Hp. exact Hr5.
Qed.


End Fat.

(** ** Clusters *)

Section Clusters.

Context (card : trace -> Z) (delay : trace -> nat).

Abbreviation runs := (bus_runs card delay).

(** The first sector of a cluster, as the model of the C files has it. *)
Lemma cluster_to_lba_runs P r m s l w v : ready m -> code_pointer (r 1) -> w_info w = running_info m -> is_u32 (r 10) ->
  cluster_to_lba (r 10) w = Ok (v, w) ->
  (forall r', regs_but [5; 6; 7; 10] r r' -> r' 10 = v -> runs P (Cpu r' m s (r 1)) (Bus l None)) -> runs P (Cpu r m s 476) (Bus l None).
Proof.
  intros Hm Hra Hw H10 Hv H. pose proof (ld32_range m 164). pose proof (ld8_range m 172).
  cbn in Hv. rewrite Hw in Hv. injection Hv as <-. unfold running_info, fs_running_info in H.
  drive. drive. drive. drive. drive. drive. drive. drive. rewrite jalr_target by exact Hra. apply H; [regs_tac|]. reflexivity.
Qed.

(** The cluster of a sector. *)
Lemma lba_to_cluster_runs P r m s l w v : ready m -> code_pointer (r 1) -> w_info w = running_info m -> is_u32 (r 10) ->
  lba_to_cluster (r 10) w = Ok (v, w) ->
  (forall r', regs_but [5; 6; 7; 10] r r' -> r' 10 = v -> runs P (Cpu r' m s (r 1)) (Bus l None)) -> runs P (Cpu r m s 508) (Bus l None).
Proof.
  intros Hm Hra Hw H10 Hv H. pose proof (ld32_range m 164). pose proof (ld8_range m 172).
  cbn in Hv. rewrite Hw in Hv. injection Hv as <-. unfold running_info, fs_running_info in H.
  drive. drive. drive. drive. drive. drive. drive. drive. rewrite jalr_target by exact Hra. apply H; [regs_tac|].
  cbn [upd Z.eqb Pos.eqb]. change (156 + 16) with 172. change (156 + 8) with 164. rewrite s32_u32, (s32_id (ld8 m 172)) by lia.
  destruct (ld8 m 172 =? 0); [reflexivity|]. rewrite u32_add_u32_l. reflexivity.
Qed.

(** The sector in its cluster is computed from s0, where the routine has its argument in t3. *)
Lemma lba_to_sector_runs r m s l level w c v : idle level m -> code_pointer (r 1) -> stack_room (r 2) 4 -> w_info w = running_info m -> is_u32 (r 10) ->
  lba_to_cluster (r 10) w = Ok (c, w) -> cluster_to_lba c w = Ok (v, w) ->
  runs (returns_to (r 1) s (fun r' _ _ => r' 28 = r 10 /\ r' 10 = u32 (r 8 - v))) (Cpu r m s 540) (Bus l None).
Proof.
  intros Hm Hra [Hsp1 Hsp2] Hw H10 Hc Hv. unfold heap_end, stack_top in Hsp1, Hsp2.
  pose proof (idle_stack _ _ (r 2 - 4) (r 1) Hm ltac:(unfold heap_end; lia) ltac:(unfold stack_top; lia)) as Hm1.
  assert (Hw1 : w_info w = running_info (st32 m (r 2 - 4) (r 1))).
  { rewrite Hw. symmetry. apply running_info_ext. unfold fs_running_info. intros a Ha. apply ld8_st32_ne. lia. }
  drive. drive. set (m1 := st32 m (r 2 - 4) (r 1)) in *. drive. drive.
  apply (lba_to_cluster_runs _ _ _ _ _ w c); cbn [upd Z.eqb Pos.eqb]; [apply (idle_ready _ _ Hm1)|code_ptr|exact Hw1|exact H10|exact Hc|].
  intros r2 Hr2 H2. assert (Hcu : is_u32 c) by (cbn in Hc; injection Hc as <-; apply u32_range). drive.
  apply (cluster_to_lba_runs _ _ _ _ _ w v); cbn [upd Z.eqb Pos.eqb]; [apply (idle_ready _ _ Hm1)|code_ptr|exact Hw1|rewrite H2; exact Hcu|rewrite H2; exact Hv|].
  intros r3 Hr3 H3.
  assert (Hk : forall x, Forall (fun y => x <> y) [1; 5; 6; 7; 10] -> r3 x = upd (upd r 2 (r 2 - 4)) 28 (r 10) x).
  { intros x Hx. regs_cases Hx; rewrite Hr3 by cells Hx; regs_cases Hx; rewrite Hr2 by cells Hx; regs_cases Hx. }
  pose proof (Hk 2 ltac:(cell)) as K2. pose proof (Hk 8 ltac:(cell)) as K8. pose proof (Hk 28 ltac:(cell)) as K28. cbn [upd Z.eqb Pos.eqb] in K2, K8, K28.
  drive. at_sp K8. rewrite H3. drive. at_sp K2. unfold m1 at 1. rewrite ld32_st32_eq by apply Hra. drive. at_sp K2. drive.
  rewrite jalr_target by exact Hra. apply at_return. cbn [upd Z.eqb Pos.eqb]. auto.
Qed.

(** ** The next cluster *)

Lemma even_part a : is_u32 a -> Z.land a 4294967294 = 2 * (a / 2).
Proof.
  intros Ha. change 4294967294 with (4294967296 - 2 ^ 1). rewrite land_high_mask by (unfold is_u32 in Ha; lia). change (2 ^ 1) with 2. dlia.
Qed.

(** The return address that [get_next_cluster] loads is the cluster number it saved: it ends there and not at its
    caller, with the word of the sector that the number modulo 512 is the offset of. *)
Theorem get_next_cluster_leaves r m s l level : idle level m -> stack_room (r 2) 12 -> is_u32 (r 10) -> is_u32 (r 1) ->
  runs (returns_to (2 * (r 10 / 2)) s (fun r' m' l' => r' 2 = r 2 /\ r' 1 = r 10 /\ r' 10 = ld32 m (u32 (SPI_RX_RAM + Z.rem (s32 (r 10)) 512)) /\
    l' = tail_trace level l)) (Cpu r m s 616) (Bus l None).
Proof.
  intros Hm [Hsp1 Hsp2] H10 H1. unfold heap_end, stack_top in Hsp1, Hsp2.
  pose proof (idle_stack _ _ (r 2 - 8) (r 10) Hm ltac:(unfold heap_end; lia) ltac:(unfold stack_top; lia)) as Hm1.
  pose proof (idle_stack _ _ (r 2 - 8 + 4) (r 1) Hm1 ltac:(unfold heap_end; lia) ltac:(unfold stack_top; lia)) as Hm2.
  drive. drive. drive. set (m1 := st32 (st32 m (r 2 - 8) (r 10)) (r 2 - 8 + 4) (r 1)) in *.
  drive. apply (sd_tail_read_runs card delay _ _ _ _ _ level); cbn [upd Z.eqb Pos.eqb]; [exact Hm2|code_ptr|unfold stack_room, heap_end, stack_top; lia|].
  intros r2 m2 Hr2 Hi2 _ Hu.
  assert (H2 : r2 2 = r 2 - 8) by (rewrite (Hr2 2) by (unfold send_clobbers; cell); reflexivity).
  assert (Hl : ld32 m2 (r 2 - 8) = r 10).
  { rewrite (untouched_ld32 _ _ _ _ Hu) by (unfold SPI_BASE; lia). unfold SD_STATE_IDLE, SD_INFO, m1. loads. apply ld32_st32_eq, H10. }
  drive. drive. drive. drive. at_sp H2. rewrite Hl. drive. drive. drive. drive. at_sp H2. rewrite Hl. drive. at_sp H2. drive.
  replace (Z.land (r 10) 4294967294) with (2 * (r 10 / 2)) by (symmetry; apply even_part, H10).
  apply at_return. cbn [upd Z.eqb Pos.eqb]. split; [reflexivity|]. split; [reflexivity|]. split; [|reflexivity].
  change (s32 512) with 512. rewrite u32_add_u32_r, u32_u32. change SPI_RX_RAM with 132096.
  pose proof (Z.rem_bound_abs (s32 (r 10)) 512 ltac:(lia)) as Hrem. rewrite u32_id by lia.
  rewrite (untouched_ld32 _ _ _ _ Hu) by (unfold SPI_BASE; lia). unfold SD_STATE_IDLE, SD_INFO, m1. loads. reflexivity.
Qed.

End Clusters.
