(* ===== verification/DUmem.v ===== *)
(** * The user memory allocator's entry points (kernel/memory/umem.s), as machine code

    The routines of umem.s run against a promise for the two C functions that they call; the bitmap in memory
    is that of Umem.v. *)

From S2P Require Import Prelude Umem RvaIsa KImage DImage Cpu KCode DCode DBus DSpi DSd.
From Stdlib Require Import String.
Local Open Scope list_scope.
Local Open Scope Z_scope.

Lemma umem_entries :
  map at_symbol ["round_next_power_of_two"; "ualloc_init"; "ualloc"; "ufree"; "ualloc_try_block"; "mark_bits_free"; "alloc_bitmap"]%string =
  map Some [3144; 3196; 3232; 3296; 196652; 196656; 3688].
Proof. unfold at_symbol. rewrite driver_symbols_ok. vm_compute. reflexivity. Qed.

(** The bitmap in memory. *)
Definition bitmap_of (m : memory) : bitmap := bytes_at m alloc_bitmap 512.

Lemma bitmap_of_ext m m' : (forall a, alloc_bitmap <= a < alloc_bitmap + 512 -> ld8 m' a = ld8 m a) -> bitmap_of m' = bitmap_of m.
Proof. intros H. unfold bitmap_of, bytes_at. apply map_ext_in. intros i Hi. apply in_seq in Hi. apply H. unfold alloc_bitmap. lia. Qed.

Section Umem.

Context (card : trace -> Z) (delay : trace -> nat).

Abbreviation runs := (bus_runs card delay).

(** ** Clearing the bitmap *)

Lemma ld8_set_again m1 m2 a v b : (forall a, ld8 m1 a = ld8 (st32 m2 b v) a) -> ld8 (st32 m1 b v) a = ld8 (st32 m2 b v) a.
Proof.
  intros H. destruct (Z_lt_dec a b); [rewrite ld8_st32_ne by lia; apply H|].
  destruct (Z_le_dec (b + 4) a); [rewrite ld8_st32_ne by lia; apply H|]. unfold st32, st16. replace (b + 2 + 1) with (b + 3) by lia.
  assert (Ha : a = b + 3 \/ a = b + 2 \/ a = b + 1 \/ a = b) by lia.
  destruct Ha as [-> |[-> |[-> | ->]]].
  - rewrite !ld8_st8_eq. reflexivity.
  - rewrite !(ld8_st8_ne _ (b + 3) (b + 2)), !ld8_st8_eq by lia. reflexivity.
  - rewrite !(ld8_st8_ne _ (b + 3) (b + 1)), !(ld8_st8_ne _ (b + 2) (b + 1)), !ld8_st8_eq by lia. reflexivity.
  - rewrite !(ld8_st8_ne _ (b + 3) b), !(ld8_st8_ne _ (b + 2) b), !(ld8_st8_ne _ (b + 1) b), !ld8_st8_eq by lia. reflexivity.
Qed.

Lemma ualloc_init_runs P r m s l : ready m -> code_pointer (r 1) ->
  (forall r' m', regs_but [5; 6] r r' -> ready m' -> (forall a, ld8 m' a = ld8 (st32 m 3816 0) a) -> runs P (Cpu r' m' s (r 1)) (Bus l None)) ->
  runs P (Cpu r m s 3196) (Bus l None).
Proof.
  intros Hm Hra H.
  assert (Hst : forall m1, ready m1 -> ready (st32 m1 3816 0)) by (intros m1 H1; apply ready_st32; [exact H1|beside_tac..]).
  assert (Hloop : forall n r1 m1, ready m1 -> regs_but [5; 6] r r1 -> r1 5 = 3816 -> r1 6 = Z.of_nat n -> Z.of_nat n <= 127 ->
    (forall a, ld8 m1 a = ld8 (st32 m 3816 0) a) ->
    runs P
      (Cpu r1 m1 s 3212) (Bus l None)).
  { induction n as [|n IH]; intros r1 m1 Hm1 Hr1 H5 H6 Hn Hsame; drive; rewrite H6.
    - cbn [Z.of_nat Z.eqb]. drive. rewrite (Hr1 1) by cell. rewrite jalr_target by exact Hra. apply H; assumption.
    - replace (Z.of_nat (S n) =? 0) with false by (symmetry; apply Z.eqb_neq; lia).
      pose proof (Hst m1 Hm1) as Hm2. drive. rewrite H5. cpu_cbn. drive. rewrite H6.
      drive. apply IH; [exact Hm2|regs_over Hr1|exact H5|cbn [upd Z.eqb Pos.eqb]; lia|lia|]. intros a. apply ld8_set_again, Hsame. }
  drive. drive. drive. drive. drive. drive. drive. drive.
  apply (Hloop 127%nat); auto; try lia; try ready_tac; try regs_tac.
Qed.

(** The loop stores to the same word, the one 128 bytes into the bitmap, each time round. *)
Theorem ualloc_init_clears_one_word r m s l : ready m -> code_pointer (r 1) ->
  runs (returns_to (r 1) s (fun r' m' l' => regs_but [5; 6] r r' /\ (forall a, ld8 m' a = ld8 (st32 m (alloc_bitmap + 128) 0) a) /\ l' = l))
    (Cpu r m s 3196) (Bus l None).
Proof. intros Hm Hra. apply ualloc_init_runs; [exact Hm|exact Hra|]. intros r' m' Hr' _ Hs. apply at_return. auto. Qed.

(** ** Rounding *)

Lemma shiftr_u32 a k : is_u32 a -> 0 <= k -> is_u32 (Z.shiftr a k).
Proof.
  unfold is_u32. intros Ha Hk. rewrite Z.shiftr_div_pow2 by exact Hk. pose proof (Z.pow_pos_nonneg 2 k ltac:(lia) Hk).
  split; [apply Z.div_pos; lia|]. apply Z.div_lt_upper_bound; [lia|]. nia.
Qed.

Lemma smear_u32 a k : is_u32 a -> 0 <= k -> u32 (Z.lor a (Z.shiftr a k)) = Z.lor a (Z.shiftr a k).
Proof. intros Ha Hk. apply u32_lor; [exact Ha|apply shiftr_u32; assumption]. Qed.

Lemma smear_range a k : is_u32 a -> 0 <= k -> is_u32 (Z.lor a (Z.shiftr a k)).
Proof. intros Ha Hk. rewrite <- smear_u32 by assumption. apply u32_range. Qed.

Lemma round_runs P r m s l : ready m -> code_pointer (r 1) -> is_u32 (r 10) ->
  (forall r', regs_but [5; 10] r r' -> r' 10 = round_next_power_of_two (r 10) -> runs P (Cpu r' m s (r 1)) (Bus l None)) ->
  runs P (Cpu r m s 3144) (Bus l None).
Proof.
  intros Hm Hra H10 H. set (a0 := u32 (r 10 - 1)). assert (H0 : is_u32 a0) by apply u32_range.
  set (a1 := Z.lor a0 (Z.shiftr a0 1)). assert (H1 : is_u32 a1) by (apply smear_range; [exact H0|lia]).
  set (a2 := Z.lor a1 (Z.shiftr a1 2)). assert (H2 : is_u32 a2) by (apply smear_range; [exact H1|lia]).
  set (a3 := Z.lor a2 (Z.shiftr a2 4)). assert (H3 : is_u32 a3) by (apply smear_range; [exact H2|lia]).
  set (a4 := Z.lor a3 (Z.shiftr a3 8)). assert (H4 : is_u32 a4) by (apply smear_range; [exact H3|lia]).
  drive. fold a0. drive. drive. change (1 mod 32) with 1. rewrite smear_u32 by (assumption || lia). fold a1.
  drive. drive. change (2 mod 32) with 2. rewrite smear_u32 by (assumption || lia). fold a2.
  drive. drive. change (4 mod 32) with 4. rewrite smear_u32 by (assumption || lia). fold a3.
  drive. drive. change (8 mod 32) with 8. rewrite smear_u32 by (assumption || lia). fold a4.
  drive. drive. change (16 mod 32) with 16. rewrite smear_u32 by (assumption || lia).
  drive. drive. rewrite jalr_target by exact Hra. apply H; [regs_tac|reflexivity].
Qed.

Lemma kept_upd r r' x v : ~ In x callee_saved -> kept r r' -> kept r (upd r' x v).
Proof.
  intros Hx. unfold kept. rewrite !List.Forall_forall. intros H y Hy. unfold upd. destruct (Z.eqb_spec y x) as [->|_]; [contradiction|apply H, Hy].
Qed.

(** ** The C functions *)

(** The function at [entry], called from [ra] with the arguments [args], comes back with the registers of its caller, its caller's
    stack and the code as they were, and with a result and a bitmap that satisfy [Q]. *)
Definition promises (entry ra : Z) (s : Z -> Z) (l : trace) (r : Z -> Z) (m : memory) (args : (Z -> Z) -> Prop) (Q : Z -> bitmap -> Prop) : Prop :=
  forall r1, r1 1 = ra -> kept r r1 -> args r1 ->
    runs (returns_to ra s (fun r2 m2 l2 => kept r r2 /\ Q (r2 10) (bitmap_of m2) /\ ready m2 /\ l2 = l /\
      (forall a, r 2 <= a < stack_top -> ld8 m2 a = ld8 m a))) (Cpu r1 m s entry) (Bus l None).

(** ** What the two entry points share *)

(** Back at the caller of an entry point that was called with [r]. *)
Definition done (r : Z -> Z) (s : Z -> Z) (l : trace) (Q : Z -> bitmap -> Prop) : cpu -> bus -> Prop :=
  returns_to (r 1) s (fun r' m' l' => kept r r' /\ Q (r' 10) (bitmap_of m') /\ ready m' /\ l' = l).

Section Entry.

Context (r : Z -> Z) (m : memory) (s : Z -> Z) (l : trace) (Q : Z -> bitmap -> Prop).
Context (Hm : ready m) (Hra : code_pointer (r 1)) (Hsp : stack_room (r 2) 4).

(** The frame: the return address. *)
Definition umem_frame : memory := st32 m (r 2 - 4) (r 1).

Lemma umem_frame_spec : ready umem_frame /\ bitmap_of umem_frame = bitmap_of m.
Proof.
  destruct Hsp as [Hsp1 Hsp2]. unfold umem_frame, heap_end, stack_top in *. split; [apply ready_st32; [exact Hm|beside_tac..]|].
  apply bitmap_of_ext. unfold alloc_bitmap. intros a Ha. apply ld8_st32_ne. lia.
Qed.

(** The end they share. *)
Lemma umem_returns r2 m2 : kept (upd r 2 (r 2 - 4)) r2 -> ready m2 -> Q (r2 10) (bitmap_of m2) ->
  (forall a, r 2 - 4 <= a < stack_top -> ld8 m2 a = ld8 umem_frame a) -> runs (done r s l Q) (Cpu r2 m2 s 3284) (Bus l None).
Proof.
  intros Hk Hm2 Hq Hs. destruct Hsp as [Hsp1 Hsp2]. unfold heap_end, stack_top in *.
  assert (H2 : r2 2 = r 2 - 4) by (apply (kept_in _ _ 2 Hk); cbn; tauto).
  assert (Hl : ld32 m2 (r 2 - 4) = r 1).
  { transitivity (ld32 umem_frame (r 2 - 4)); [|apply ld32_st32_eq, Hra]. apply ld32_ext. intros i Hi. apply Hs. lia. }
  drive. at_sp H2. rewrite Hl. drive. at_sp H2. drive. rewrite jalr_target by exact Hra. apply at_return.
  split; [|cbn [upd Z.eqb Pos.eqb]; auto]. unfold kept in *. rewrite !List.Forall_forall in *. intros x Hx. specialize (Hk x Hx).
  unfold upd in *. cbn in Hx. repeat case_match; zbool; subst; auto; congruence.
Qed.

(** A call of a C function from it, and the jump to the end. *)
Lemma umem_calls entry ra args r1 : r1 1 = ra -> kept (upd r 2 (r 2 - 4)) r1 -> args r1 -> in_driver ra = true -> driver_at ra = Some (Jal 0 3284) ->
  promises entry ra s l (upd r 2 (r 2 - 4)) umem_frame args Q -> runs (done r s l Q) (Cpu r1 umem_frame s entry) (Bus l None).
Proof.
  intros H1 Hk Ha Hin Hj Hc. eapply bus_runs_trans; [apply (Hc r1 H1 Hk Ha)|].
  intros [r4 m4 s4 p4] [l4 n4] (Hp & Hs4 & Hn & Hk4 & Hq4 & Hm4 & Hl4 & Hst4). cbn [pc regs mem csrs pending sent] in *. subst p4 s4 n4 l4.
  eapply quiet_step; [exact Hm4|exact Hin|exact Hj|]. cbn [exec set Z.eqb mem]. split; [exact Hm4|]. apply umem_returns; auto.
Qed.

Lemma kept_over_call r1 r2 xs : kept (upd r 2 (r 2 - 4)) r1 -> regs_but xs r1 r2 -> Forall (fun x => ~ In x callee_saved) xs -> kept (upd r 2 (r 2 - 4)) r2.
Proof.
  intros Hk Hr Hxs. unfold kept in *. rewrite !List.Forall_forall in *. intros x Hx. rewrite Hr; [apply Hk, Hx|].
  rewrite List.Forall_forall. intros y Hy ->. exact (Hxs y Hy Hx).
Qed.

Lemma kept_frame : kept (upd r 2 (r 2 - 4)) (upd r 2 (r 2 - 4)).
Proof. unfold kept. rewrite List.Forall_forall. reflexivity. Qed.

End Entry.

Ltac kept_frame_tac := repeat first [apply kept_frame | apply kept_upd; [cbn; lia|] | assumption].

(** A size, at least that of a block. *)
(* kernel/memory/umem.s:64-66 ualloc *)
Definition at_least_block (n : Z) : Z := if s32 64 <=? s32 n then n else 64.

(** ** Allocating *)

(** C19: [ualloc] returns what the model returns, and leaves its bitmap, when [ualloc_try_block] does so for what
    it is called with. *)
Theorem ualloc_refines r m s l bm v bm' : ready m -> code_pointer (r 1) -> stack_room (r 2) 4 -> is_u32 (r 10) -> bitmap_of m = bm ->
  ualloc bm (r 10) = Ok (v, bm') ->
  (forall n, ualloc_try_block bm n = Ok (v, bm') ->
     promises 196652 3276 s l (upd r 2 (r 2 - 4)) (umem_frame r m) (fun r1 => r1 10 = u32 n) (fun x b => x = u32 v /\ b = bm')) ->
  runs (done r s l (fun x b => x = u32 v /\ b = bm')) (Cpu r m s 3232) (Bus l None).
Proof.
  intros Hm Hra Hsp H10 Hb He Hc. destruct (umem_frame_spec r m Hm Hsp) as [Hm1 Hb1].
  assert (Hsp' : 15384 + 4 <= r 2 <= 16384) by (destruct Hsp; unfold heap_end, stack_top in *; lia).
  drive. drive. fold (umem_frame r m). unfold ualloc in He. drive. destruct (r 10 =? 0) eqn:E0.
  { injection He as <- <-. drive. apply (umem_returns r m); auto; [kept_frame_tac|]. split; [reflexivity|congruence]. }
  set (a := round_next_power_of_two (r 10)) in *. assert (Ha : is_u32 a) by apply u32_range.
  drive. apply round_runs; cbn [upd Z.eqb Pos.eqb]; [exact Hm1|code_ptr|exact H10|]. fold a. intros r2 Hr2 H2.
  change MIN_BLOCK_SIZE with 64 in He. fold (at_least_block a) in He.
  assert (Hk2 : kept (upd r 2 (r 2 - 4)) r2).
  { eapply kept_over_call; [|exact Hr2|repeat first [apply Forall_nil_2|apply Forall_cons_2; [cbn; lia|]]]. kept_frame_tac. }
  assert (Hmid : forall r3, r3 10 = at_least_block a -> r3 5 = 64 -> kept (upd r 2 (r 2 - 4)) r3 ->
    runs (done r s l (fun x b => x = u32 v /\ b = bm')) (Cpu r3 (umem_frame r m) s 3260) (Bus l None)).
  { intros r3 H310 H35 Hk. drive. rewrite H310, H35. drive. rewrite H310, H35. drive. drive. cbn [Z.eqb].
    eapply (umem_calls r m s l _ Hra Hsp _ _ _ _ eq_refl); [| |reflexivity|reflexivity|exact (Hc _ He)]; [kept_frame_tac|rewrite u32_s32, u32_u32; reflexivity]. }
  drive. drive. rewrite H2. unfold at_least_block in Hmid. change (s32 64) with 64 in *. destruct (64 <=? s32 a) eqn:E.
  - apply Hmid; [exact H2|reflexivity|kept_frame_tac].
  - drive. apply Hmid; [reflexivity|reflexivity|kept_frame_tac].
Qed.

(** ** Freeing *)

(** The same of [ufree] and [mark_bits_free]: the bitmap is the model's, whose address was rounded in place of the size. *)
Theorem ufree_refines r m s l bm bm' : ready m -> code_pointer (r 1) -> stack_room (r 2) 4 -> is_u32 (r 10) -> is_u32 (r 11) -> bitmap_of m = bm ->
  ufree bm (r 10) (r 11) = Ok bm' ->
  (forall a n, mark_bits_free bm a n = Ok bm' ->
     promises 196656 3352 s l (upd r 2 (r 2 - 4)) (umem_frame r m) (fun r1 => r1 10 = u32 a /\ r1 11 = u32 n) (fun _ b => b = bm')) ->
  runs (done r s l (fun _ b => b = bm')) (Cpu r m s 3296) (Bus l None).
Proof.
  intros Hm Hra Hsp H10 H11 Hb He Hc. destruct (umem_frame_spec r m Hm Hsp) as [Hm1 Hb1].
  assert (Hsp' : 15384 + 4 <= r 2 <= 16384) by (destruct Hsp; unfold heap_end, stack_top in *; lia).
  drive. drive. fold (umem_frame r m). unfold ufree in He. drive. destruct (r 11 =? 0) eqn:E0.
  { injection He as <-. drive. apply (umem_returns r m); auto; [kept_frame_tac|congruence]. }
  set (a := round_next_power_of_two (r 10)) in *. assert (Ha : is_u32 a) by apply u32_range.
  drive. apply round_runs; cbn [upd Z.eqb Pos.eqb]; [exact Hm1|code_ptr|exact H10|]. fold a. intros r2 Hr2 H2.
  assert (H211 : r2 11 = r 11) by (rewrite Hr2 by cell; reflexivity).
  change MIN_BLOCK_SIZE with 64 in He. fold (at_least_block (r 11)) in He.
  assert (Hk2 : kept (upd r 2 (r 2 - 4)) r2).
  { eapply kept_over_call; [|exact Hr2|repeat first [apply Forall_nil_2|apply Forall_cons_2; [cbn; lia|]]]. kept_frame_tac. }
  assert (Hmid : forall r3, r3 10 = a -> r3 11 = at_least_block (r 11) -> r3 5 = 64 -> kept (upd r 2 (r 2 - 4)) r3 ->
    runs (done r s l (fun _ b => b = bm')) (Cpu r3 (umem_frame r m) s 3324) (Bus l None)).
  { intros r3 H310 H311 H35 Hk. drive. rewrite H311, H35. drive. rewrite H311, H35. drive. drive. drive. rewrite H310. drive. rewrite H35. drive.
    eapply (umem_calls r m s l _ Hra Hsp _ _ _ _ eq_refl); [| |reflexivity|reflexivity|exact (Hc _ _ He)]; [kept_frame_tac|].
    split; [reflexivity|]. rewrite u32_s32, u32_u32. reflexivity. }
  drive. drive. rewrite H211. unfold at_least_block in Hmid. change (s32 64) with 64 in *. destruct (64 <=? s32 (r 11)) eqn:E.
  - apply Hmid; [exact H2|exact H211|reflexivity|kept_frame_tac].
  - drive. apply Hmid; [exact H2|reflexivity|reflexivity|kept_frame_tac].
Qed.

End Umem.
