(* ===== verification/DInit.v ===== *)
(** * Starting the card (sd_init of drivers/spi/sd.s), as machine code *)

From S2P Require Import Prelude RvaIsa KImage DImage Cpu KCode DCode DBus DSpi DSd DRead.

Section Init.

Context (card : trace -> Z) (delay : trace -> nat).

Abbreviation runs := (bus_runs card delay).

(** ** Rules for the calls *)

(** A store to the memory of the bytes to send. *)
Lemma stage_ram xs r m sp level r' m' a v : stage xs r m sp level r' m' -> heap_end <= sp -> sp <= stack_top -> SPI_TX_RAM <= a ->
  stage xs r (st32 m a v) sp level r' (st32 m' a v).
Proof.
  intros [Hr Hs [Hi Hl Ht] Hm] H1 H2 Ha. unfold heap_end, stack_top, SPI_TX_RAM in *. split; auto.
  - split; [apply ready_st32; [exact Hi|beside_tac..]|spi_addresses; loads; assumption..].
  - intros b Hb. unfold untouched in Hm. destruct (Z_lt_dec b a); [rewrite !ld8_st32_ne by lia; apply Hm, Hb|].
    destruct (Z_le_dec (a + 4) b); [rewrite !ld8_st32_ne by lia; apply Hm, Hb|].
    unfold st32, st16. repeat apply ld8_st8_cong. apply Hm, Hb.
Qed.

Lemma stage_clock P xs r m sp level r' m' s l p : stage xs r m sp level r' m' -> incl [1; 5; 6; 7; 28; 29] xs -> sp <= stack_top ->
  in_driver p = true -> driver_at p = Some (Jal 1 2932) -> code_pointer (p + 4) -> is_u32 (r' 10) ->
  (forall r2 m2, stage xs r m sp level r2 m2 -> regs_but [1; 5; 6; 7; 28; 29] r' r2 -> ld32 m2 SPI_STATUS = ld32 m' SPI_STATUS ->
    ld32 m2 SPI_BLOCK_LEN = ld32 m' SPI_BLOCK_LEN -> runs P (Cpu r2 m2 s (p + 4)) (Bus l None)) ->
  runs P (Cpu r' m' s p) (Bus l None).
Proof.
  intros Hst Hxs Hsp Hp Hi Hc Hu H. pose proof (idle_ready _ _ (st_idle _ _ _ _ _ _ _ Hst)) as Hm.
  eapply quiet_step; [exact Hm|exact Hp|exact Hi|]. cbn [exec set Z.eqb mem]. split; [exact Hm|].
  eapply spi_set_clock_div_runs; cbn [upd Z.eqb Pos.eqb]; [apply (st_idle _ _ _ _ _ _ _ Hst)|exact Hc|exact Hu|].
  cbv zeta. intros r2 Hr2 Hi2 Hd. assert (Hr2' : regs_but [1; 5; 6; 7; 28; 29] r' r2) by regs_over Hr2.
  apply H; [|exact Hr2'|spi_addresses; loads; reflexivity|spi_addresses; loads; reflexivity].
  apply (stage_step xs r m sp level level r' m' _ _ [1; 5; 6; 7; 28; 29]); auto; [cbn; lia|]. apply device_untouched; assumption.
Qed.

Lemma stage_delay P xs r m sp level r' m' s l p k : stage xs r m sp level r' m' -> incl [1; 10] xs ->
  in_driver p = true -> driver_at p = Some (Jal 1 3488) -> code_pointer (p + 4) -> r' 10 = Z.of_nat (S k) -> Z.of_nat (S k) < 4294967296 ->
  (forall r2, stage xs r m sp level r2 m' -> regs_but [1; 10] r' r2 -> runs P (Cpu r2 m' s (p + 4)) (Bus l None)) ->
  runs P (Cpu r' m' s p) (Bus l None).
Proof.
  intros Hst Hxs Hp Hi Hc H10 Hk H. pose proof (idle_ready _ _ (st_idle _ _ _ _ _ _ _ Hst)) as Hm.
  eapply quiet_step; [exact Hm|exact Hp|exact Hi|]. cbn [exec set Z.eqb mem]. split; [exact Hm|].
  eapply (delay_runs _ _ _ _ _ _ _ k); cbn [upd Z.eqb Pos.eqb]; [exact Hm|exact Hc|exact H10|exact Hk|].
  intros r2 Hr2. assert (Hr2' : regs_but [1; 10] r' r2) by regs_over Hr2.
  apply H; [|exact Hr2'].
  apply (stage_step xs r m sp level level r' m' _ _ [1; 10]); auto; [cbn; lia|apply (st_idle _ _ _ _ _ _ _ Hst)|apply untouched_refl].
Qed.

Lemma stage_select P xs r m sp level r' m' s l p v : stage xs r m sp level r' m' -> incl [1; 5] xs -> sp <= stack_top ->
  in_driver p = true -> driver_at p = Some (Jal 1 2884) -> code_pointer (p + 4) -> r' 10 = v -> is_u32 v ->
  (forall r2, stage xs r m sp v r2 (st32 m' SPI_CS v) -> regs_but [1; 5] r' r2 -> runs P (Cpu r2 (st32 m' SPI_CS v) s (p + 4)) (Bus l None)) ->
  runs P (Cpu r' m' s p) (Bus l None).
Proof.
  intros Hst Hxs Hsp Hp Hi Hc Hv Hu H. pose proof (idle_ready _ _ (st_idle _ _ _ _ _ _ _ Hst)) as Hm.
  eapply quiet_step; [exact Hm|exact Hp|exact Hi|]. cbn [exec set Z.eqb mem]. split; [exact Hm|].
  eapply spi_set_cs_runs; cbn [upd Z.eqb Pos.eqb]; [apply (st_idle _ _ _ _ _ _ _ Hst)|exact Hc|rewrite Hv; exact Hu|].
  rewrite Hv. intros r2 Hr2 Hi2 Hd. assert (Hr2' : regs_but [1; 5] r' r2) by regs_over Hr2.
  apply H; [|exact Hr2']. apply (stage_step xs r m sp level v r' m' _ _ [1; 5]); auto; [cbn; lia|]. apply device_untouched; assumption.
Qed.

(** ** The dummy clocks *)

(** The poll for the end of the block. *)
Lemma dummy_poll_ready P r m s l : ready m -> r 5 = SPI_BASE -> r 6 = 64 -> Z.land (ld32 m SPI_STATUS) 64 <> 0 ->
  (forall r', regs_but [7; 28] r r' -> runs P (Cpu r' (st32 m SPI_STATUS 0) s 2072) (Bus l None)) -> runs P (Cpu r m s 2056) (Bus l None).
Proof.
  intros Hm H5 H6 Hst H. spi_regs.
  drive. rewrite H5. cpu_cbn. drive. rewrite H6, u32_land by (apply ld32_range || lia). drive. replace (Z.land _ _ =? 0) with false by lia.
  drive. rewrite H5. cpu_cbn. apply H. regs_tac.
Qed.

Lemma dummy_poll P s l t n : forall r m, installed m -> ready (finish t m) -> r 5 = SPI_BASE -> r 6 = 64 ->
  Z.land (ld32 m SPI_STATUS) 64 = 0 -> Z.land (ld32 (finish t m) SPI_STATUS) 64 <> 0 ->
  (forall r', regs_but [7; 28] r r' -> runs P (Cpu r' (st32 (finish t m) SPI_STATUS 0) s 2072) (Bus l None)) ->
  runs P (Cpu r m s 2056) (Bus l (Some (n, t))).
Proof.
  induction n as [n IH] using lt_wf_ind. intros r m Hm Hf H5 H6 H0 H1 H.
  assert (Hpoll : forall r1, regs_but [7; 28] r r1 -> runs P (Cpu r1 (finish t m) s 2056) (Bus l None)).
  { intros r1 Hr1. apply dummy_poll_ready; rewrite ?(Hr1 5), ?(Hr1 6) by cell; auto.
    intros r' Hr'. apply H. intros x Hx. rewrite Hr' by cells Hx. apply Hr1. cells Hx. }
  assert (Hland : u32 (Z.land (ld32 m SPI_STATUS) 64) = 0) by (rewrite H0; reflexivity). unfold SPI_BASE in H5.
  destruct n as [|[|[|n]]]; busy; rewrite H5; cpu_cbn; change 131076 with SPI_STATUS.
  - do 2 (drive; rewrite ?H6, ?Hland, ?H0; cbn [Z.eqb]). apply Hpoll. regs_tac.
  - busy. rewrite ?H6, ?Hland, ?H0. drive. cbn [Z.eqb]. apply Hpoll. regs_tac.
  - busy. rewrite ?H6, ?Hland, ?H0. busy. cbn [Z.eqb]. apply Hpoll. regs_tac.
  - busy. rewrite ?H6, ?Hland, ?H0. busy. cbn [Z.eqb]. apply IH; auto with lia. intros r' Hr'. apply H. regs_over Hr'.
Qed.

(** Twelve bytes of ones are put in the memory of the bytes to send, and sent with the card not selected. *)
Definition ones_to_send (m : memory) : memory :=
  st32 (st32 (st32 m SPI_TX_RAM 0xFFFFFFFF) (SPI_TX_RAM + 4) 0xFFFFFFFF) (SPI_TX_RAM + 8) 0xFFFFFFFF.

(* drivers/spi/sd.s:261-307 send_dummy_clocks *)
Definition dummy_trace (l : trace) : trace := send 1 [255] (send 1 (repeat 255 12) l).
Definition dummy_memory (m : memory) (l : trace) : memory := received (ones_to_send m) (replies card 1 (repeat 255 12) l).

Definition init_clobbers : list Z := [1; 5; 6; 7; 10; 11; 12; 28; 29].

Lemma ones_to_send_bytes m i : 0 <= i < 12 -> ld8 (ones_to_send m) (SPI_TX_RAM + i) = 255.
Proof.
  intros Hi. unfold ones_to_send. assert (H : forall m a v i, 0 <= i < 4 -> v = 0xFFFFFFFF -> ld8 (st32 m a v) (a + i) = 255).
  { clear. intros m a v i Hi ->. unfold st32, st16. replace (a + 2 + 1) with (a + 3) by lia.
    assert (E : i = 3 \/ i = 2 \/ i = 1 \/ i = 0) by lia. destruct E as [-> |[-> |[-> | ->]]]; rewrite ?Z.add_0_r.
    - apply ld8_st8_eq.
    - rewrite (ld8_st8_ne _ (a + 3)) by lia. apply ld8_st8_eq.
    - rewrite (ld8_st8_ne _ (a + 3)), (ld8_st8_ne _ (a + 2)) by lia. apply ld8_st8_eq.
    - rewrite (ld8_st8_ne _ (a + 3)), (ld8_st8_ne _ (a + 2)), (ld8_st8_ne _ (a + 1)) by lia. apply ld8_st8_eq. }
  destruct (Z_lt_dec i 4); [rewrite !(ld8_st32_ne _ (SPI_TX_RAM + 8)), !(ld8_st32_ne _ (SPI_TX_RAM + 4)) by lia; apply H; lia|].
  destruct (Z_lt_dec i 8).
  - rewrite ld8_st32_ne by lia. replace (SPI_TX_RAM + i) with (SPI_TX_RAM + 4 + (i - 4)) by lia. apply H; lia.
  - replace (SPI_TX_RAM + i) with (SPI_TX_RAM + 8 + (i - 8)) by lia. apply H; lia.
Qed.

Lemma ones_sent sp m1 m2 : untouched sp (ones_to_send m1) m2 -> ld32 m2 SPI_BLOCK_LEN = 12 -> block_to_send m2 = repeat 255 12.
Proof.
  intros Hu Hl. unfold block_to_send, bytes_at. rewrite Hl. change (Z.to_nat (Z.min 512 12)) with 12%nat.
  transitivity (map (fun _ : nat => 255) (seq 0 12)); [|reflexivity].
  apply map_ext_in. intros i Hi. apply in_seq in Hi. rewrite Hu by (unfold SPI_TX_RAM, SPI_BASE; lia). apply ones_to_send_bytes. lia.
Qed.

Lemma stage_ones xs r m sp level r' m' : stage xs r m sp level r' m' -> heap_end <= sp -> sp <= stack_top ->
  stage xs r (ones_to_send m) sp level r' (ones_to_send m').
Proof. intros H H1 H2. unfold ones_to_send. do 3 (apply stage_ram; [|exact H1|exact H2|unfold SPI_TX_RAM; lia]). exact H. Qed.

Lemma ones_to_send_below m a : a + 4 <= SPI_TX_RAM -> ld32 (ones_to_send m) a = ld32 m a.
Proof. intros Ha. unfold ones_to_send. rewrite !ld32_st32_ne by lia. reflexivity. Qed.

(** The settings and the bytes, up to the start of the transfer. *)
Lemma dummy_start P r m s l level : idle level m -> code_pointer (r 1) -> stack_room (r 2) 4 ->
  (forall r' m', stage init_clobbers r (ones_to_send (st32 m (r 2 - 4) (r 1))) (r 2 - 4) 1 r' m' -> ld32 m' SPI_BLOCK_LEN = 12 ->
    ld32 m' SPI_STATUS = ld32 m SPI_STATUS -> runs P (Cpu r' m' s 2048) (Bus l None)) ->
  runs P (Cpu r m s 1984) (Bus l None).
Proof.
  intros Hm Hra [Hsp1 Hsp2] H. unfold heap_end, stack_top in Hsp1, Hsp2.
  pose proof (idle_stack _ _ (r 2 - 4) (r 1) Hm ltac:(unfold heap_end; lia) ltac:(unfold stack_top; lia)) as Hm1.
  drive. drive. set (m1 := st32 m (r 2 - 4) (r 1)) in *.
  assert (Hst : stage init_clobbers r m1 (r 2 - 4) level (upd r 2 (r 2 - 4)) m1).
  { split; [unfold init_clobbers; regs_tac|reflexivity|exact Hm1|apply untouched_refl]. }
  drive.
  match type of Hst with stage ?X ?R ?M ?S ?L _ _ => eapply stage_block_len with (xs := X) (r := R) (m := M) (sp := S) (level := L) (v := 12) end;
    [stage_tac Hst|stage_side..|]; fold_literals; clear Hst; cbn [upd Z.eqb Pos.eqb].
  intros r2 m2 Hst _ Hs2 Hlen2.
  drive. drive. drive. drive. drive. change (st32 _ 131592 _) with (ones_to_send m2).
  apply stage_ones in Hst; [|unfold heap_end; lia|unfold stack_top; lia].
  rewrite <- (ones_to_send_below m2 SPI_BLOCK_LEN) in Hlen2 by (unfold SPI_BLOCK_LEN, SPI_TX_RAM; lia).
  rewrite <- (ones_to_send_below m2 SPI_STATUS) in Hs2 by (unfold SPI_STATUS, SPI_TX_RAM; lia).
  set (m2' := ones_to_send m2) in *.
  drive. eapply (stage_clock _ init_clobbers r _ _ level); [stage_tac Hst|stage_side..|]; fold_literals. clear Hst. intros r3 m3 Hst _ Hs3 Hlen3.
  drive. eapply (stage_select _ init_clobbers r _ _ level) with (v := 1); [stage_tac Hst|stage_side..|]; fold_literals. clear Hst. intros r4 Hst _.
  drive. drive. eapply (stage_delay _ init_clobbers r _ _ 1) with (k := Z.to_nat 9999); [stage_tac Hst|stage_side..|]; fold_literals; clear Hst.
  intros r5 Hst _. apply (H r5 _ Hst).
  - rewrite ld32_st32_ne by (spi_addresses; lia). congruence.
  - rewrite ld32_st32_ne by (spi_addresses; lia). rewrite Hs3, Hs2. unfold m1. apply ld32_st32_ne. spi_addresses. lia.
Qed.

(** A memory in which nothing but the unit's registers and the stack below [sp] differs. *)
Lemma dummy_base sp m1 m l m' : untouched sp (ones_to_send m1) m' -> untouched sp m m1 -> sp <= stack_top ->
  untouched sp (dummy_memory m l) (received m' (replies card 1 (repeat 255 12) l)).
Proof.
  intros H1 H2 Hsp. unfold dummy_memory. apply untouched_received. intros a Ha. rewrite H1 by exact Ha.
  unfold ones_to_send, st32, st16. repeat apply ld8_st8_cong. apply H2, Ha.
Qed.

(** Deselecting and the last byte, with [M] the memory when the block is through. *)
Lemma dummy_end P r m s l r4 m4 : code_pointer (r 1) -> stack_room (r 2) 4 ->
  (let M := dummy_memory (st32 m (r 2 - 4) (r 1)) l in stage init_clobbers r M (r 2 - 4) 1 r4 m4) ->
  (forall r' m', regs_but init_clobbers r r' -> idle 1 m' -> ld32 m' SPI_STATUS = 0 -> untouched (r 2) (dummy_memory m l) m' ->
    runs P (Cpu r' m' s (r 1)) (Bus (dummy_trace l) None)) ->
  runs P (Cpu r4 m4 s 2072) (Bus (send 1 (repeat 255 12) l) None).
Proof.
  cbv zeta. intros Hra [Hsp1 Hsp2] Hst4 H. unfold heap_end, stack_top in Hsp1, Hsp2. set (m1 := st32 m (r 2 - 4) (r 1)) in *. set (M := dummy_memory m1 l) in *.
  assert (Hw : ld32 M (r 2 - 4) = r 1).
  { unfold M, dummy_memory, received. rewrite put_bytes_ld32, ones_to_send_below by (unfold SPI_RX_RAM, SPI_TX_RAM; lia). apply ld32_st32_eq, Hra. }
  drive. selecting Hst4. intros r5 m5 Hst5 _ _. drive. sending Hst5. intros r6 m6 Hst6 _ _ Hs6.
  pose proof (st_sp _ _ _ _ _ _ _ Hst6) as Hp6. drive. at_sp Hp6.
  rewrite (stage_ld32 _ _ _ _ _ _ _ (r 2 - 4) Hst6), Hw by (unfold stack_top; lia). drive. at_sp Hp6. drive. rewrite jalr_target by exact Hra.
  apply H.
  - regs_return Hst6.
  - apply (st_idle _ _ _ _ _ _ _ Hst6).
  - exact Hs6.
  - eapply untouched_trans; [|apply (st_mem _ _ _ _ _ _ _ Hst6)|lia].
    eapply dummy_base; [apply untouched_refl| |unfold stack_top; lia].
    apply untouched_st32; [apply untouched_refl|unfold heap_end; lia|unfold SPI_BASE; lia].
Qed.

Lemma send_dummy_clocks_runs P r m s l level : idle level m -> ld32 m SPI_STATUS = 0 -> code_pointer (r 1) -> stack_room (r 2) 4 ->
  (forall r' m', regs_but init_clobbers r r' -> idle 1 m' -> ld32 m' SPI_STATUS = 0 -> untouched (r 2) (dummy_memory m l) m' ->
    runs P (Cpu r' m' s (r 1)) (Bus (dummy_trace l) None)) ->
  runs P (Cpu r m s 1984) (Bus l None).
Proof.
  intros Hm Hs Hra Hsp H. apply (dummy_start P r m s l level); auto. intros r2 m2 Hst Hlen Hs2. rewrite Hs in Hs2.
  pose proof Hsp as [Hsp1 Hsp2]. unfold heap_end, stack_top in Hsp1, Hsp2. set (m1 := st32 m (r 2 - 4) (r 1)) in *.
  pose proof (st_idle _ _ _ _ _ _ _ Hst) as Hi2. pose proof (st_sp _ _ _ _ _ _ _ Hst) as Hp2.
  set (back := replies card 1 (repeat 255 12) l).
  assert (Hb : (List.length back <= 512)%nat) by (unfold back; rewrite replies_length, repeat_length; lia).
  destruct (block_out_spec 1 m2 back Hi2 Hb) as (Hio & Hfo & _).
  destruct (block_in_spec 1 m2 back (r 2 - 4) Hi2 Hs2 Hb ltac:(unfold SPI_BASE; lia)) as (Hi3 & Hu3 & Hz & Hnz).
  drive. apply (spi_send_block_runs _ _ _ _ _ _ _ 1); cbn [upd Z.eqb Pos.eqb]; [exact Hi2|code_ptr|].
  intros r3 Hr3 H35. unfold block_sent, block_back. rewrite (ones_sent _ _ _ (st_mem _ _ _ _ _ _ _ Hst) Hlen), (idle_level _ _ Hi2). fold back.
  assert (Hp3 : r3 2 = r 2 - 4) by (rewrite (Hr3 2) by cell; exact Hp2).
  fly Hio Hfo Hp3.
  assert (Hend : forall r4, regs_but [7; 28] (upd r3 6 64) r4 ->
    runs P (Cpu r4 (block_in m2 back) s 2072) (Bus (send 1 (repeat 255 12) l) None)).
  { intros r4 Hr4. apply (dummy_end P r m s l); auto. cbv zeta. fold m1.
    destruct (stage_regs _ _ _ _ _ _ _ r4 [1; 5; 6; 7; 28] Hst) as [Ha Hb4]; [incl_tac|cbn; lia| |].
    - intros x Hx. rewrite Hr4 by cells Hx. regs_cases Hx; rewrite Hr3 by cells Hx; regs_cases Hx.
    - split; auto. eapply untouched_trans; [|exact Hu3|lia]. apply untouched_received, (st_mem _ _ _ _ _ _ _ Hst). }
  split; [intros n; apply dummy_poll|apply dummy_poll_ready]; cbn [upd Z.eqb Pos.eqb]; auto.
Qed.

(** ** The card's part *)

(** The first command is sent after one byte without and one byte with the card selected. *)
(* drivers/spi/sd.s:96-108 sd_init *)
Definition reset (l : trace) : trace * Z :=
  response card 99 0 (send 0 (command 0 0 0x94) (send 0 [255] (send 1 [255] (dummy_trace l)))).

(* drivers/spi/sd.s:114-119 sd_init *)
Definition check_voltage (l : trace) : trace * list Z := response5 card 0 (send 0 (command 8 0x1AA 0x86) l).

(** One round of the loop: the prefix and the command. *)
(* drivers/spi/sd.s:138-148 sd_acmd_loop *)
Definition initialise (l : trace) : trace * Z :=
  response card 99 0 (send 0 (command 41 0x40000000 0) (fst (response card 99 0 (send 0 (command 55 0 0) l)))).

(** The card is ready after some rounds, and [l'] is what was sent then. *)
Inductive comes_ready : trace -> trace -> Prop :=
| ready_now l : snd (initialise l) = 0 -> comes_ready l (fst (initialise l))
| ready_later l l' : snd (initialise l) <> 0 -> comes_ready (fst (initialise l)) l' -> comes_ready l l'.

(* drivers/spi/sd.s:153-159 sd_init *)
Definition read_ocr (l : trace) : trace * list Z := response5 card 0 (send 0 (command 58 0 0) l).

(** The byte the mode of addressing is taken from: of the answer to the last command when that begins with 1, and else
    what the answer to the second command has left in the buffer. *)
(* drivers/spi/sd.s:158-162 sd_init *)
Definition mode_byte (b1 : Z) (ocr : list Z) : Z := match ocr with [] => b1 | _ => nth 1 ocr 0 end.

Lemma mode_bit b : 0 <= b < 256 -> u32 (Z.land (Z.shiftr b 3) 1) = Z.b2z (Z.testbit b 3) /\ Z.b2z (Z.testbit b 3) mod 256 = Z.b2z (Z.testbit b 3).
Proof.
  intros Hb. assert (E : Z.land (Z.shiftr b 3) 1 = Z.b2z (Z.testbit b 3)).
  { rewrite Z.testbit_spec', Z.shiftr_div_pow2 by lia. change 1 with (Z.ones 1). rewrite Z.land_ones by lia. reflexivity. }
  rewrite E. destruct (Z.testbit b 3); split; reflexivity.
Qed.

Lemma response5_list level l : snd (response5 card level l) = [] \/ (List.length (snd (response5 card level l)) = 5%nat /\ forall i, 0 <= nth i (snd (response5 card level l)) 0 < 256).
Proof.
  unfold response5. destruct (response card 99 level l) as [l1 v]. destruct (v =? 1); [right|left; reflexivity]. cbn [snd].
  split; [reflexivity|]. intros [|i]; [cbn; lia|]. apply (replies_bytes card level [255; 255; 255; 255]).
Qed.

(** ** The routine *)

Section Routine.

Context (r : Z -> Z) (m : memory) (s : Z -> Z).
Context (Hra : code_pointer (r 1)) (Hsp : stack_room (r 2) 36) (H8 : is_u32 (r 8)) (H9 : is_u32 (r 9)) (H18 : is_u32 (r 18)).

Let buffer := r 2 - 12.

Record init_frame (M : memory) : Prop := InitFrame {
  if_ra : ld32 M (buffer + 8) = r 1;
  if_others : forall a, a < heap_end \/ r 2 <= a < SPI_BASE -> a <> SD_INFO -> ld8 M a = ld8 m a }.

Definition istage (level : Z) (M : memory) (r' : Z -> Z) (m' : memory) : Prop := stage init_clobbers r M buffer level r' m'.

Lemma stack_bounds : 15384 + 36 <= r 2 <= 16384.
Proof. destruct Hsp. unfold heap_end, stack_top in *. lia. Qed.

Lemma istage_saved level M r' m' : istage level M r' m' -> is_u32 (r' 8) /\ is_u32 (r' 9) /\ is_u32 (r' 18).
Proof. intros H. rewrite !(stage_kept _ _ _ _ _ _ _ _ H) by (unfold init_clobbers; cell). auto. Qed.

(** A command, and its answer of one byte. *)
Lemma init_command P level M r' m' l p cmd arg crc : istage level M r' m' -> in_driver p = true -> driver_at p = Some (Jal 1 2100) -> code_pointer (p + 4) ->
  in_driver (p + 4) = true -> driver_at (p + 4) = Some (Jal 1 1800) -> code_pointer (p + 4 + 4) ->
  r' 10 = cmd -> r' 11 = arg -> r' 12 = crc -> is_u32 cmd -> is_u32 arg -> is_u32 crc ->
  (let a := response card 99 level (send level (command cmd arg crc) l) in
   forall r2 m2, istage level M r2 m2 -> r2 10 = snd a -> ld32 m2 SPI_STATUS = 0 -> runs P (Cpu r2 m2 s (p + 4 + 4)) (Bus (fst a) None)) ->
  runs P (Cpu r' m' s p) (Bus l None).
Proof.
  intros Hst Hp Hi Hc Hp2 Hi2 Hc2 E10 E11 E12 Hu1 Hu2 Hu3 H. pose proof stack_bounds as Hb.
  eapply (stage_command card delay _ init_clobbers r M buffer level); [exact Hst|incl_tac|unfold stack_room, heap_end, stack_top, buffer; lia|exact Hp|exact Hi|exact Hc|rewrite ?E10, ?E11, ?E12; assumption..|].
  rewrite E10, E11, E12. intros r2 m2 Hst2 _ _. destruct (istage_saved _ _ _ _ Hst2) as (K8 & K9 & K18).
  eapply (stage_response card delay _ init_clobbers r M buffer level); [exact Hst2|incl_tac|unfold stack_room, heap_end, stack_top, buffer; lia|assumption..|].
  intros r3 m3 Hst3 _ Hs3 H10. apply H; assumption.
Qed.

(** A call for an answer of five bytes into the buffer. *)
Lemma init_response5 P M r' m' l p : istage 0 M r' m' -> init_frame M -> in_driver p = true -> driver_at p = Some (Jal 1 1888) -> code_pointer (p + 4) ->
  r' 10 = buffer ->
  (let a := response5 card 0 l in
   forall r2 m2, let M2 := put_bytes M buffer (snd a) in istage 0 M2 r2 m2 -> init_frame M2 -> ld32 m2 SPI_STATUS = 0 ->
    runs P (Cpu r2 m2 s (p + 4)) (Bus (fst a) None)) ->
  runs P (Cpu r' m' s p) (Bus l None).
Proof.
  intros Hst [Fra Fo] Hp Hi Hc H10 H. pose proof stack_bounds as Hb. pose proof (idle_ready _ _ (st_idle _ _ _ _ _ _ _ Hst)) as Hm.
  pose proof (st_sp _ _ _ _ _ _ _ Hst) as H2. destruct (istage_saved _ _ _ _ Hst) as (K8 & K9 & K18). unfold buffer in *.
  assert (Hlen : (List.length (snd (response5 card 0 l)) <= 5)%nat).
  { unfold response5. destruct (response card 99 0 l) as [l1 v]. destruct (v =? 1); cbn; lia. }
  eapply quiet_step; [exact Hm|exact Hp|exact Hi|]. cbn [exec set Z.eqb mem]. split; [exact Hm|].
  apply (sd_readRes3_7_runs card delay _ _ _ _ _ 0); cbn [upd Z.eqb Pos.eqb]; rewrite ?H2, ?H10; try assumption;
    [apply (st_idle _ _ _ _ _ _ _ Hst)|unfold stack_room, heap_end, stack_top; lia|lia|unfold stack_top; lia|].
  intros r2 m2 Hr2 Hi2 Hs2 Hu. cbv zeta in H. apply H; [|split|exact Hs2].
  - destruct (stage_regs _ _ _ _ _ _ _ r2 send_clobbers Hst) as [Ha Hb2]; [incl_tac|cbn; lia|unfold send_clobbers in *; regs_over Hr2|].
    split; auto. intros a Ha'. rewrite Hu by exact Ha'. apply put_bytes_cong, (st_mem _ _ _ _ _ _ _ Hst), Ha'.
  - rewrite <- Fra. apply ld32_ext. intros i Hi'. apply ld8_put_bytes_ne. lia.
  - intros a Ha Hn. rewrite <- (Fo a Ha Hn). apply ld8_put_bytes_ne. unfold heap_end, SPI_BASE in Ha. lia.
Qed.

(** What is written behind the frame, and does not reach the caller's memory. *)
Lemma init_begin P l level : idle level m -> ld32 m SPI_STATUS = 0 ->
  (forall M r' m', istage 0 M r' m' -> init_frame M -> r' 10 = snd (reset l) -> ld32 m' SPI_STATUS = 0 -> runs P (Cpu r' m' s 1580) (Bus (fst (reset l)) None)) ->
  runs P (Cpu r m s 1524) (Bus l None).
Proof.
  intros Hm Hs H. pose proof stack_bounds as Hb. unfold buffer in *.
  pose proof (idle_stack _ _ (r 2 - 12 + 8) (r 1) Hm ltac:(unfold heap_end; lia) ltac:(unfold stack_top; lia)) as Hm1.
  drive. drive. set (m1 := st32 m (r 2 - 12 + 8) (r 1)) in *.
  assert (Hs1 : ld32 m1 SPI_STATUS = 0) by (unfold m1; rewrite ld32_st32_ne by (spi_addresses; lia); exact Hs).
  drive. apply (send_dummy_clocks_runs _ _ _ _ _ level); cbn [upd Z.eqb Pos.eqb]; auto; [code_ptr|unfold stack_room, heap_end, stack_top; lia|].
  intros r2 m2 Hr2 Hi2 Hs2 Hu2. set (M := dummy_memory m1 l) in *.
  assert (Hst : stage init_clobbers r M (r 2 - 12) 1 r2 m2).
  { split; auto; [unfold init_clobbers in *; regs_over Hr2|rewrite Hr2 by (unfold init_clobbers; cell); reflexivity]. }
  assert (Hf : init_frame M).
  { unfold M, dummy_memory, received. split.
    - unfold buffer. rewrite put_bytes_ld32, ones_to_send_below by (unfold SPI_RX_RAM, SPI_TX_RAM; lia). apply ld32_st32_eq, Hra.
    - intros a Ha _. unfold heap_end, SPI_BASE in Ha. rewrite ld8_put_bytes_ne by (unfold SPI_RX_RAM; lia).
      unfold ones_to_send. rewrite !ld8_st32_ne by (unfold SPI_TX_RAM; lia). apply ld8_st32_ne. lia. }
  drive. sending Hst. intros r3 m3 Hst _ _ _. drive. selecting Hst. intros r4 m4 Hst _ _. drive. sending Hst. intros r5 m5 Hst _ _ _.
  drive. drive. drive. change (255 mod 256) with 255.
  eapply (init_command _ 0 M) with (cmd := 0) (arg := 0) (crc := 0x94); try reflexivity; try code_ptr; try (unfold is_u32; lia); [stage_tac Hst|].
  fold_literals. cbv zeta. intros r6 m6 Hst6 H6 Hs6. apply (H M); assumption.
Qed.

(** The end of both ways. *)
Lemma init_return P M r' m' l : istage 1 M r' m' -> init_frame M ->
  (forall r2, regs_but init_clobbers r r2 -> r2 10 = r' 10 -> idle 1 m' -> (forall a, a < heap_end \/ r 2 <= a < SPI_BASE -> a <> SD_INFO -> ld8 m' a = ld8 m a) ->
    (forall a, a < heap_end -> ld8 m' a = ld8 M a) -> runs P (Cpu r2 m' s (r 1)) (Bus l None)) ->
  forall p, In p [1764; 1788] -> runs P (Cpu r' m' s p) (Bus l None).
Proof.
  intros Hst [Fra Fo] H p Hp. pose proof stack_bounds as Hb. unfold buffer in *. pose proof (st_sp _ _ _ _ _ _ _ Hst) as H2. unfold buffer in H2.
  pose proof (st_mem _ _ _ _ _ _ _ Hst) as Hu. cbn in Hp.
  assert (Hend : forall r2, regs_but init_clobbers r r2 -> r2 10 = r' 10 -> runs P (Cpu r2 m' s (r 1)) (Bus l None)).
  { intros r2 Hr2 H10. apply H; [exact Hr2|exact H10|apply (st_idle _ _ _ _ _ _ _ Hst)| |].
    - intros a Ha Hn. rewrite <- (Fo a Ha Hn). apply Hu. unfold SPI_BASE in *. lia.
    - intros a Ha. apply Hu. lia. }
  destruct Hp as [<-|[<-|[]]]; drive; at_sp H2;
    rewrite (stage_ld32 _ _ _ _ _ _ _ (r 2 - 12 + 8) Hst), Fra by (unfold stack_top, buffer in *; lia);
    drive; at_sp H2; drive; rewrite jalr_target by exact Hra; (apply Hend; [regs_return Hst|reflexivity]).
Qed.

(** Failure. *)
Lemma init_fails P M r' m' l : istage 0 M r' m' -> init_frame M ->
  (forall r2 m2, regs_but init_clobbers r r2 -> r2 10 = 0 -> idle 1 m2 -> (forall a, a < heap_end \/ r 2 <= a < SPI_BASE -> a <> SD_INFO -> ld8 m2 a = ld8 m a) ->
    (forall a, a < heap_end -> ld8 m2 a = ld8 M a) -> runs P (Cpu r2 m2 s (r 1)) (Bus l None)) ->
  runs P (Cpu r' m' s 1776) (Bus l None).
Proof.
  intros Hst Hf H. unfold istage in Hst. pose proof stack_bounds as Hb. unfold buffer in *. drive. selecting Hst. intros r3 m3 Hst Hr3 _. drive.
  apply (init_return P M _ m3 l); [unfold istage; stage_tac Hst|exact Hf| |cbn; auto].
  intros r4 Hr4 H10 Hi Ho Hl. apply H; auto.
Qed.

(** The bytes of the buffer, while nothing else was written there. *)
Lemma buffer_byte level M0 bs r' m' i : istage level (put_bytes M0 buffer bs) r' m' -> (i < List.length bs)%nat -> (i < 8)%nat ->
  0 <= nth i bs 0 < 256 -> ld8 m' (r 2 - 12 + Z.of_nat i) = nth i bs 0.
Proof.
  intros Hst Hi Hi8 Hb. pose proof stack_bounds as Hb2.
  rewrite (st_mem _ _ _ _ _ _ _ Hst) by (unfold buffer, SPI_BASE; lia). fold buffer. rewrite put_bytes_ld8 by exact Hi. apply Z.mod_small, Hb.
Qed.

(** The check of the voltage: with the echo, it goes on. *)
Lemma init_check P M r' m' l b1 b2 : istage 0 M r' m' -> init_frame M -> snd (check_voltage l) = [1; b1; b2; 1; 0xAA] ->
  (let M2 := put_bytes M buffer [1; b1; b2; 1; 0xAA] in
   forall r2 m2, istage 0 M2 r2 m2 -> init_frame M2 -> ld32 m2 SPI_STATUS = 0 -> runs P (Cpu r2 m2 s 1648) (Bus (fst (check_voltage l)) None)) ->
  runs P (Cpu r' m' s 1588) (Bus l None).
Proof.
  intros Hst Hf Ha H. unfold istage in Hst. pose proof stack_bounds as Hb. unfold check_voltage in *.
  drive. drive. drive. eapply (stage_command card delay _ init_clobbers r M buffer 0);
    [stage_tac Hst|incl_tac|unfold stack_room, heap_end, stack_top, buffer; lia|reflexivity|reflexivity|code_ptr|cbn [upd Z.eqb Pos.eqb]; unfold is_u32; lia..|].
  fold_literals. cbn [upd Z.eqb Pos.eqb]. clear Hst. intros r2 m2 Hst _ _. pose proof (st_sp _ _ _ _ _ _ _ Hst) as H2. unfold buffer in H2.
  drive. at_sp H2. eapply (init_response5 _ M); [unfold istage; stage_tac Hst|exact Hf|reflexivity|reflexivity|code_ptr|reflexivity|].
  fold_literals. cbv zeta. rewrite Ha. intros r3 m3 Hst3 Hf3 Hs3. clear Hst.
  pose proof (st_sp _ _ _ _ _ _ _ Hst3) as H2'. unfold buffer in H2'.
  pose proof (buffer_byte _ _ _ _ _ 0 Hst3 ltac:(cbn; lia) ltac:(lia) ltac:(cbn; lia)) as B0.
  pose proof (buffer_byte _ _ _ _ _ 3 Hst3 ltac:(cbn; lia) ltac:(lia) ltac:(cbn; lia)) as B3.
  pose proof (buffer_byte _ _ _ _ _ 4 Hst3 ltac:(cbn; lia) ltac:(lia) ltac:(cbn; lia)) as B4. cbn [nth] in B0, B3, B4.
  change (Z.of_nat 0) with 0 in B0. change (Z.of_nat 3) with 3 in B3. change (Z.of_nat 4) with 4 in B4. rewrite Z.add_0_r in B0.
  unfold istage in Hst3. drive. at_sp H2'. rewrite B0. drive. drive. change (u32 (sext 8 1)) with 1. drive. at_sp H2'. rewrite B3. drive. at_sp H2'. rewrite B4.
  drive. drive. drive. drive. cbn [negb Z.eqb Pos.eqb]. apply H; [unfold istage; stage_tac Hst3|exact Hf3|exact Hs3].
Qed.

(** The loop ends when the card is ready. *)
Lemma init_loop P M : forall l l', comes_ready l l' -> forall r' m', istage 0 M r' m' ->
  (forall r2 m2, istage 0 M r2 m2 -> ld32 m2 SPI_STATUS = 0 -> runs P (Cpu r2 m2 s 1692) (Bus l' None)) ->
  runs P (Cpu r' m' s 1648) (Bus l None).
Proof.
  assert (Hround : forall l r' m', istage 0 M r' m' ->
    (forall r2 m2, istage 0 M r2 m2 -> r2 10 = snd (initialise l) -> ld32 m2 SPI_STATUS = 0 -> runs P (Cpu r2 m2 s 1688) (Bus (fst (initialise l)) None)) ->
    runs P (Cpu r' m' s 1648) (Bus l None)).
  { intros l r' m' Hst H. unfold istage in Hst. drive. drive. drive.
    eapply (init_command _ 0 M) with (cmd := 55) (arg := 0) (crc := 0); try reflexivity; try code_ptr; try (unfold is_u32; lia); [unfold istage; stage_tac Hst|].
    fold_literals. cbv zeta. clear Hst. intros r2 m2 Hst _ _. unfold istage in Hst. drive. drive. drive.
    eapply (init_command _ 0 M) with (cmd := 41) (arg := 0x40000000) (crc := 0); try reflexivity; try code_ptr; try (unfold is_u32; lia); [unfold istage; stage_tac Hst|].
    fold_literals. cbv zeta. intros r3 m3 Hst3 H3 Hs3. apply H; assumption. }
  induction 1 as [l Hz|l l' Hnz _ IH]; intros r' m' Hst H; apply (Hround l r' m' Hst); intros r2 m2 Hst2 H10 Hs2; unfold istage in Hst2; drive; rewrite H10.
  - rewrite Hz. cbn [negb Z.eqb]. apply H; assumption.
  - replace (snd (initialise l) =? 0) with false by lia. cbn [negb]. apply IH; assumption.
Qed.

(** The last command, and the byte. *)
Lemma init_ocr P M0 b1 b2 r' m' l : let M := put_bytes M0 buffer [1; b1; b2; 1; 0xAA] in istage 0 M r' m' -> init_frame M -> 0 <= b1 < 256 ->
  (forall M2 r2 m2, istage 0 M2 r2 m2 -> init_frame M2 -> ld32 m2 SPI_STATUS = 0 -> ld8 m2 (r 2 - 12 + 1) = mode_byte b1 (snd (read_ocr l)) ->
    runs P (Cpu r2 m2 s 1716) (Bus (fst (read_ocr l)) None)) ->
  runs P (Cpu r' m' s 1692) (Bus l None).
Proof.
  cbv zeta. intros Hst Hf Hb1 H. unfold istage in Hst. pose proof stack_bounds as Hb. unfold read_ocr in *.
  drive. drive. drive. eapply (stage_command card delay _ init_clobbers r _ buffer 0);
    [stage_tac Hst|incl_tac|unfold stack_room, heap_end, stack_top, buffer; lia|reflexivity|reflexivity|code_ptr|cbn [upd Z.eqb Pos.eqb]; unfold is_u32; lia..|].
  fold_literals. cbn [upd Z.eqb Pos.eqb]. clear Hst. intros r2 m2 Hst _ _. pose proof (st_sp _ _ _ _ _ _ _ Hst) as H2. unfold buffer in H2.
  drive. at_sp H2. eapply (init_response5 _ (put_bytes M0 buffer [1; b1; b2; 1; 0xAA])); [unfold istage; stage_tac Hst|exact Hf|reflexivity|reflexivity|code_ptr|reflexivity|].
  fold_literals. cbv zeta. intros r3 m3 Hst3 Hf3 Hs3. apply (H _ _ _ Hst3 Hf3 Hs3). clear H.
  change (r 2 - 12 + 1) with (r 2 - 12 + Z.of_nat 1).
  destruct (response5_list 0 (send 0 (command 58 0 0) l)) as [E|[E1 E2]].
  - rewrite E in *. apply (buffer_byte 0 M0 [1; b1; b2; 1; 0xAA] r3 m3 1); [exact Hst3|cbn; lia|lia|cbn; lia].
  - transitivity (nth 1 (snd (response5 card 0 (send 0 (command 58 0 0) l))) 0).
    + apply (buffer_byte _ _ _ _ _ 1 Hst3); [lia|lia|apply E2].
    + unfold mode_byte. destruct (snd _); [discriminate E1|reflexivity].
Qed.

(** The mode, the end of the selection and the fast clock. *)
Lemma init_ends P M r' m' l v : istage 0 M r' m' -> init_frame M -> 0 <= v < 256 -> ld8 m' (r 2 - 12 + 1) = v ->
  (forall r2 m2, regs_but init_clobbers r r2 -> r2 10 = 1 -> idle 1 m2 -> (forall a, a < heap_end \/ r 2 <= a < SPI_BASE -> a <> SD_INFO -> ld8 m2 a = ld8 m a) ->
    ld8 m2 SD_INFO = Z.b2z (Z.testbit v 3) -> runs P (Cpu r2 m2 s (r 1)) (Bus (send 1 [255] l) None)) ->
  runs P (Cpu r' m' s 1716) (Bus l None).
Proof.
  intros Hst [Fra Fo] Hv Hbyte H. unfold istage in Hst. pose proof stack_bounds as Hb. pose proof (st_sp _ _ _ _ _ _ _ Hst) as H2. unfold buffer in H2.
  destruct (mode_bit v Hv) as [Hm1 Hm2]. set (flag := Z.b2z (Z.testbit v 3)) in *.
  drive. at_sp H2. rewrite Hbyte. drive. drive. change (3 mod 32) with 3. rewrite ?Hm1. drive. drive.
  apply (stage_st8 _ _ _ _ _ _ _ 1508 flag) in Hst; [|unfold buffer, heap_end; lia|unfold beside_driver; lia|unfold SPI_BASE; lia].
  assert (Hf : init_frame (st8 M 1508 flag)).
  { split; [unfold buffer in *; rewrite ld32_st8_ne by lia; exact Fra|]. intros a Ha Hn. rewrite ld8_st8_ne by (unfold SD_INFO in Hn; lia). apply Fo; assumption. }
  drive. selecting Hst. intros r3 m3 Hst _ _. drive. sending Hst. intros r4 m4 Hst _ _ _. change (255 mod 256) with 255.
  drive. eapply (stage_clock _ init_clobbers r _ buffer 1);
    [stage_tac Hst|incl_tac|unfold stack_top, buffer; lia|reflexivity|reflexivity|code_ptr|cbn [upd Z.eqb Pos.eqb]; unfold is_u32; lia|].
  fold_literals. clear Hst. intros r5 m5 Hst _ _ _. drive.
  apply (init_return P (st8 M 1508 flag) _ m5 (send 1 [255] l)); [unfold istage; stage_tac Hst|exact Hf| |cbn; auto].
  intros r6 Hr6 H10 Hi Ho Hl. apply H; auto. rewrite Hl by (unfold SD_INFO, heap_end; lia). change 1508 with SD_INFO. rewrite ld8_st8_eq. exact Hm2.
Qed.

End Routine.

(** What the caller finds when the card was started. *)
Record card_started (r : Z -> Z) (m : memory) (flag : bool) (r2 : Z -> Z) (m2 : memory) : Prop := CardStarted {
  cs_regs : regs_but init_clobbers r r2;
  cs_result : r2 10 = 1;
  cs_idle : idle 1 m2;
  cs_mode : ld8 m2 SD_INFO = Z.b2z flag;
  cs_others : forall a, a < heap_end \/ r 2 <= a < SPI_BASE -> a <> SD_INFO -> ld8 m2 a = ld8 m a }.

(** The card answers the reset with 1 and the check with the echo, where [b1] is its first byte, and comes out of its initialisation. *)
Record starts (l l' : trace) (b1 : Z) : Prop := Starts {
  starts_reset : snd (reset l) = 1;
  starts_check : exists b2, snd (check_voltage (fst (reset l))) = [1; b1; b2; 1; 0xAA];
  starts_ready : comes_ready (fst (check_voltage (fst (reset l)))) l' }.

Lemma sd_init_runs P r m s l l' level b1 : idle level m -> ld32 m SPI_STATUS = 0 -> code_pointer (r 1) -> stack_room (r 2) 36 ->
  is_u32 (r 8) -> is_u32 (r 9) -> is_u32 (r 18) -> starts l l' b1 ->
  (forall r2 m2, card_started r m (Z.testbit (mode_byte b1 (snd (read_ocr l'))) 3) r2 m2 ->
    runs P (Cpu r2 m2 s (r 1)) (Bus (send 1 [255] (fst (read_ocr l'))) None)) ->
  runs P (Cpu r m s 1524) (Bus l None).
Proof.
  intros Hm Hs Hra Hsp H8 H9 H18 [Hreset [b2 Hcheck] Hready] H.
  assert (Hb1 : 0 <= b1 < 256).
  { destruct (response5_list 0 (send 0 (command 8 0x1AA 0x86) (fst (reset l)))) as [E|[_ E]]; unfold check_voltage in Hcheck;
      [rewrite E in Hcheck; discriminate|]. specialize (E 1%nat). rewrite Hcheck in E. exact E. }
  apply (init_begin r m s Hra Hsp H8 H9 H18 _ l level Hm Hs). intros M r1 m1 Hst1 Hf1 H10 Hs1.
  assert (Hst1' : stage init_clobbers r M (r 2 - 12) 0 r1 m1) by exact Hst1.
  drive. drive. rewrite H10, Hreset. cbn [negb Z.eqb Pos.eqb].
  apply (init_check r m s Hsp H8 H9 H18 _ M _ m1 _ b1 b2); [unfold istage; stage_tac Hst1'|exact Hf1|exact Hcheck|]. cbv zeta. intros r2 m2 Hst2 Hf2 Hs2.
  apply (init_loop r s Hsp H8 H9 H18 _ _ _ _ Hready _ _ Hst2). intros r3 m3 Hst3 Hs3.
  apply (init_ocr r m s Hsp H8 H9 H18 _ M b1 b2 r3 m3 _ Hst3 Hf2 Hb1). intros M4 r4 m4 Hst4 Hf4 Hs4 Hbyte.
  eapply (init_ends r m s Hra Hsp _ M4 r4 m4 _ _ Hst4 Hf4); [|exact Hbyte|].
  - unfold mode_byte. destruct (response5_list 0 (send 0 (command 58 0 0) l')) as [E|[_ E]]; unfold read_ocr; [rewrite E; exact Hb1|].
    specialize (E 1%nat). destruct (snd (response5 _ _ _)); [exact Hb1|exact E].
  - intros r5 m5 Hr5 H510 Hi5 Ho Hflag. apply H. split; assumption.
Qed.

(** C16: When the card answers the reset with 1 and the check with the echo, and comes out of its initialisation, the routine
    succeeds. The mode of addressing it notes is the fourth bit of a byte that is the card's status only when the card answers
    the last command with 1, as one does that is not initialised; otherwise it is a byte of the answer to the check. *)
Theorem sd_init_mode r m s l l' level b1 : idle level m -> ld32 m SPI_STATUS = 0 -> code_pointer (r 1) -> stack_room (r 2) 36 ->
  is_u32 (r 8) -> is_u32 (r 9) -> is_u32 (r 18) -> starts l l' b1 ->
  runs (returns_to (r 1) s (fun r2 m2 l2 => card_started r m (Z.testbit (mode_byte b1 (snd (read_ocr l'))) 3) r2 m2 /\
    l2 = send 1 [255] (fst (read_ocr l')))) (Cpu r m s 1524) (Bus l None).
Proof.
  intros Hm Hs Hra Hsp H8 H9 H18 Hst. apply (sd_init_runs _ r m s l l' level b1); auto. intros r2 m2 Hr2. apply at_return. auto.
Qed.

(** A card that does not answer the reset with 1 is refused. *)
Theorem sd_init_refuses r m s l level : idle level m -> ld32 m SPI_STATUS = 0 -> code_pointer (r 1) -> stack_room (r 2) 36 ->
  is_u32 (r 8) -> is_u32 (r 9) -> is_u32 (r 18) -> snd (reset l) <> 1 ->
  runs (returns_to (r 1) s (fun r2 m2 l2 => regs_but init_clobbers r r2 /\ r2 10 = 0 /\ idle 1 m2 /\ l2 = fst (reset l) /\
    forall a, a < heap_end \/ r 2 <= a < SPI_BASE -> a <> SD_INFO -> ld8 m2 a = ld8 m a)) (Cpu r m s 1524) (Bus l None).
Proof.
  intros Hm Hs Hra Hsp H8 H9 H18 Hreset.
  apply (init_begin r m s Hra Hsp H8 H9 H18 _ l level Hm Hs). intros M r1 m1 Hst1 Hf1 H10 Hs1.
  assert (Hst1' : stage init_clobbers r M (r 2 - 12) 0 r1 m1) by exact Hst1.
  drive. drive. rewrite H10. replace (snd (reset l) =? 1) with false by lia. cbn [negb].
  apply (init_fails r m s Hra Hsp _ M); [unfold istage; stage_tac Hst1'|exact Hf1|].
  intros r2 m2 Hr2 H210 Hi2 Ho _. apply at_return. auto.
Qed.

End Init.
