(* ===== verification/DIrq.v ===== *)
(** * Interrupts of the peripherals (drivers/external_interrupts.s), as machine code *)

From S2P Require Import Prelude RvaIsa KImage DImage Cpu KCode DCode DBus DSpi DSd.
From Stdlib Require Import String.
Local Open Scope list_scope.
Local Open Scope Z_scope.

Lemma interrupt_entries :
  map at_symbol ["external_interrupt_handler"; "handle_interrupts"; "logBaseTwo"; "sd_irsq_handler"; "ecall_x"]%string =
  map Some [3068; 3080; 3452; 0x30024; 0x30028].
Proof. unfold at_symbol. rewrite driver_symbols_ok. vm_compute. reflexivity. Qed.

(** The interrupts that wait, one bit for each. *)
(* drivers/external_interrupts.s:1-3 INT_OUT *)
Definition INT_OUT : Z := 0x10400 + 8.

(** The routine the table has for a bit. *)
(* drivers/external_interrupts.s:28-32 handle_interrupts *)
Definition handler_of (m : memory) (v : Z) : Z := ld32 m (peripheral_interrupt_table + 4 * (Z.log2 v + 1)).

Section Interrupts.

Context (card : trace -> Z) (delay : trace -> nat).

Abbreviation runs := (bus_runs card delay).

(** The number of binary digits. *)
Lemma digits_loop P m s l r : ready m -> code_pointer (r 1) -> forall k r2 x y, regs_but [5; 10] r r2 -> r2 5 = x -> 0 < x < 4294967296 ->
  Z.log2 x = Z.of_nat k -> r2 10 = y -> 0 <= y -> y + Z.of_nat k < 4294967295 ->
  (forall r3, regs_but [5; 10] r r3 -> r3 10 = y + Z.of_nat k + 1 -> runs P (Cpu r3 m s (r 1)) (Bus l None)) ->
  runs P (Cpu r2 m s 3464) (Bus l None).
Proof.
  intros Hm Hra. induction k as [|k IH]; intros r2 x y Hr2 H5 Hx Hl H10 Hy Hy' H; pose proof (Hr2 1 ltac:(cell)) as H1;
    drive; rewrite H5; drive; rewrite H10; drive; change (1 mod 32) with 1; rewrite Z.shiftr_div_pow2 by lia; change (2 ^ 1) with 2.
  - assert (x = 1) as -> by (pose proof (Z.log2_spec x ltac:(lia)) as Hs; rewrite Hl in Hs; cbn in Hs; lia). cbn [negb Z.eqb Z.div Z.div_eucl].
    drive. rewrite H1, jalr_target by exact Hra. apply H; [regs_over Hr2|]. cbn [upd Z.eqb Pos.eqb].
 lia.
  - pose proof (Z.log2_spec x ltac:(lia)) as Hs. rewrite Hl, !Z.pow_succ_r, !Nat2Z.inj_succ, !Z.pow_succ_r in Hs by lia.
    replace (x / 2 =? 0) with false by (symmetry; apply Z.eqb_neq; dlia). cbn [negb].
    apply (IH _ (x / 2) (y + 1)); try reflexivity; try lia; [regs_over Hr2|dlia| |].
    + apply Z.log2_unique; [lia|]. rewrite Z.pow_succ_r by lia. dlia.
    + intros r3 Hr3 H3. apply H; [exact Hr3|lia].
Qed.

(** What the handler saves. *)
Definition interrupt_frame (r : Z -> Z) (m : memory) : memory := st32 (st32 m (r 2 - 8 + 4) (r 10)) (r 2 - 8) (r 1).

(** The machine is at a routine of the table, which returns to the loop. *)
Definition dispatched (r : Z -> Z) (m : memory) (s : Z -> Z) (target : Z) (c : cpu) (b : bus) : Prop :=
  pc c = target /\ regs c 1 = 3124 /\ regs c 2 = r 2 - 8 /\ csrs c = s /\ mem c = interrupt_frame r m /\
  pending b = None /\ regs_but [1; 2; 5; 10] r (regs c).

(** While interrupts wait, the handler goes to the entry of the table behind the one of the highest bit, since
    [logBaseTwo] counts digits; when none does, it returns, with the registers it was called with. *)
Theorem external_interrupt_dispatch r m s l : ready m -> code_pointer (r 1) -> stack_room (r 2) 8 -> is_u32 (r 10) ->
  let v := ld32 m INT_OUT in
  if v =? 0 then
    runs (returns_to (r 1) s (fun r' m' l' => regs_but [5] r r' /\ m' = interrupt_frame r m /\ l' = l)) (Cpu r m s 3068) (Bus l None)
  else code_pointer (handler_of m v) -> runs (dispatched r m s (handler_of m v)) (Cpu r m s 3068) (Bus l None).
Proof.
  intros Hm Hra [Hsp1 Hsp2] H10. cbv zeta. unfold heap_end, stack_top in Hsp1, Hsp2. set (v := ld32 m INT_OUT).
  assert (Hstart : forall P, (forall r2, r2 2 = r 2 - 8 -> regs_but [2; 5; 10] r r2 -> r2 10 = v -> ready (interrupt_frame r m) ->
      runs P (Cpu r2 (interrupt_frame r m) s 3092) (Bus l None)) -> runs P (Cpu r m s 3068) (Bus l None)).
  { intros P H. assert (Hf : ready (interrupt_frame r m)) by (unfold interrupt_frame; repeat (apply ready_st32; [|beside_tac..]); exact Hm).
    drive. drive. drive. fold (interrupt_frame r m). drive. drive. drive.
    change 66568 with INT_OUT. replace (ld32 (interrupt_frame r m) INT_OUT) with v by (unfold interrupt_frame, INT_OUT; loads; reflexivity).
    apply H; [reflexivity|regs_tac|reflexivity|exact Hf]. }
  assert (Ha : ld32 (interrupt_frame r m) (r 2 - 8 + 4) = r 10).
  { unfold interrupt_frame. rewrite ld32_st32_ne by lia. apply ld32_st32_eq, H10. }
  assert (Hr : ld32 (interrupt_frame r m) (r 2 - 8) = r 1) by apply ld32_st32_eq, Hra.
  destruct (v =? 0) eqn:Ev.
  - apply Hstart. intros r2 H2 Hr2 Hv Hf. drive. rewrite Hv, Ev. drive. at_sp H2. rewrite Ha. drive. at_sp H2. rewrite Hr.
    drive. at_sp H2. drive. rewrite jalr_target by exact Hra. apply at_return. split; [|auto].
    intros x Hx. regs_cases Hx; try congruence. rewrite Hr2; [reflexivity|]. cells Hx.
  - intros Hh. apply Hstart. intros r2 H2 Hr2 Hv Hf. pose proof (ld32_range m INT_OUT) as Hrange. fold v in Hrange. unfold is_u32 in Hrange.
    pose proof (Z.log2_nonneg v). assert (Z.log2 v < 32) by (apply Z.log2_lt_pow2; lia).
    drive. rewrite Hv, Ev. drive. drive.
    cbn [upd Z.eqb Pos.eqb]. rewrite Hv, Ev. drive. drive.
    apply (digits_loop _ _ _ _ (upd r2 1 3100) Hf ltac:(code_ptr) (Z.to_nat (Z.log2 v)) _ v 0); try reflexivity; try lia; [regs_over Hr2| |].
    + exact Hv.
    + intros r3 Hr3 H3. rewrite Z2Nat.id, Z.add_0_l in H3 by lia. set (k := Z.log2 v) in *.
      assert (Hs : Z.shiftl (k + 1) 2 = 4 * (k + 1)) by (rewrite Z.shiftl_mul_pow2 by lia; change (2 ^ 2) with 4; lia).
      assert (Hload : ld32 (interrupt_frame r m) (4 * (k + 1) + 3500) = handler_of m v).
      { unfold handler_of, interrupt_frame, peripheral_interrupt_table. fold k. loads. f_equal. lia. }
      drive. drive. drive. rewrite H3. change (2 mod 32) with 2. rewrite Hs. u32_small. drive. drive. rewrite Hload. drive. rewrite jalr_target by exact Hh.
      apply bus_done. unfold dispatched. cbn [pc regs mem csrs pending upd Z.eqb Pos.eqb]. conjs; try reflexivity.
      * rewrite (Hr3 2) by cell. exact H2.
      * intros x Hx. regs_cases Hx. rewrite Hr3 by cells Hx. regs_cases Hx. apply Hr2. cells Hx.
Qed.

End Interrupts.

(** The fourth interrupt of the card's unit reaches the routine for a call that is not implemented. *)
Lemma fourth_interrupt m : ld32 m INT_OUT = 8 -> (forall a, 3500 <= a < 3544 -> a mod 4 = 0 -> ld32 m a = driver_word a) ->
  handler_of m (ld32 m INT_OUT) = 0x30028.
Proof.
  intros -> H. unfold handler_of. change (peripheral_interrupt_table + 4 * (Z.log2 8 + 1)) with 3516. rewrite H by (lia || reflexivity).
  unfold driver_word. rewrite driver_image_ok. vm_compute. reflexivity.
Qed.
