(* ===== verification/DLayout.v ===== *)
(** * Structures of the file system that C, assembly and the file formats share

    The same comparison as in Layout.v, for the structures that the drivers' image reserves and the C code
    declares, and for the headers of an ELF file, which the kernel's loader reads and the assembler writes. *)

From S2P Require Import Prelude KWorld FsOpen ElfLoad RvaElf DImage DCode Layout.
From Stdlib Require Import String.
Local Open Scope string_scope.
Local Open Scope list_scope.
Local Open Scope Z_scope.

(** ** Types of include/ *)

(* include/types.h:2-2 uint32_t *)
Definition uint32_t : ctype := Word.
(* include/types.h:3-3 uint16_t *)
Definition uint16_t : ctype := Half.
(* include/types.h:4-4 uint8_t *)
Definition uint8_t : ctype := Byte.
(* include/types.h:6-6 int32_t *)
Definition int32_t : ctype := Word.

(* include/elf/elf_types.h:3-3 Elf32_Half *)
Definition Elf32_Half : ctype := uint16_t.
(* include/elf/elf_types.h:4-4 Elf32_Off *)
Definition Elf32_Off : ctype := uint32_t.
(* include/elf/elf_types.h:5-5 Elf32_Addr *)
Definition Elf32_Addr : ctype := uint32_t.
(* include/elf/elf_types.h:6-6 Elf32_Word *)
Definition Elf32_Word : ctype := uint32_t.

(** ** The drivers' structures *)

(* include/io/sd_state.h:8-11 SD_INFO_T *)
Definition SD_INFO_T : ctype := Struct [("SD_BLOCK_ADDRESSSING", Byte); ("SD_STATE", Byte)].

(* include/io/io_sheduler.h:21-26 io_scheduler_t *)
Definition io_scheduler_t : ctype := Struct (fields Word ["queue_head"; "queue_tail"; "in_flight"; "state"]).

(* include/io/io_sd_ring.h:5-9 irq_completion_ring_t *)
Definition irq_completion_ring_t : ctype := Struct [("head", uint8_t); ("tail", uint8_t); ("status", Array uint8_t 8)].

(** ** The headers of an ELF file *)

(* include/elf/elf_header.h:8-24 Elf32_Ehdr *)
Definition Elf32_Ehdr : ctype := Struct
  [("e_ident", Array uint8_t 16); ("e_type", Elf32_Half); ("e_machine", Elf32_Half); ("e_version", Elf32_Word); ("e_entry", Elf32_Addr);
   ("e_phoff", Elf32_Off); ("e_shoff", Elf32_Off); ("e_flags", Elf32_Word); ("e_ehsize", Elf32_Half); ("e_phentsize", Elf32_Half);
   ("e_phnum", Elf32_Half); ("e_shentsize", Elf32_Half); ("e_shnum", Elf32_Half); ("e_shstrndx", Elf32_Half)].

(* include/elf/elf_program_header.h:3-12 Elf32_Phdr *)
Definition Elf32_Phdr : ctype := Struct
  [("p_type", Elf32_Word); ("p_offset", Elf32_Off); ("p_vaddr", Elf32_Addr); ("p_paddr", Elf32_Addr); ("p_filesz", Elf32_Word);
   ("p_memsz", Elf32_Word); ("p_flags", Elf32_Word); ("p_align", Elf32_Word)].

(* include/elf/elf_section_header.h:3-15 Elf32_Shdr *)
Definition Elf32_Shdr : ctype := Struct
  [("sh_name", Elf32_Word); ("sh_type", Elf32_Word); ("sh_flags", Elf32_Word); ("sh_addr", Elf32_Addr); ("sh_offset", Elf32_Off);
   ("sh_size", Elf32_Word); ("sh_link", Elf32_Word); ("sh_info", Elf32_Word); ("sh_addralign", Elf32_Word); ("sh_entsize", Elf32_Word)].

(** The offset of a member. *)
Definition offset_of (t : ctype) (name : string) : Z :=
  match List.find (fun m => String.eqb (fst m) name) (members t) with Some m => snd m | None => -1 end.

(** ** Agreement *)

(** The room an image has from one symbol to the next. *)
Definition room (from to : string) : option Z := a ← at_symbol from; b ← at_symbol to; Some (b - a).

(** The assembly reserves for each variable that it shares with the C files what the structure needs, and names the members of
    the card's state at their offsets. *)
Theorem driver_layouts :
  room "fs_running_info" "g_io_sched" = Some (size FS_RUN_INFO) /\ room "g_io_sched" "fat_init" = Some (size io_scheduler_t) /\
  room "SD_INFO" "g_sd_irq_ring" = Some (round_up 4 (size SD_INFO_T)) /\
  room "g_sd_irq_ring" "sd_init" = Some (round_up 4 (size irq_completion_ring_t)) /\
  map at_symbol (map fst (members SD_INFO_T)) = map (fun m => Some (snd m)) (members SD_INFO_T).
Proof. unfold room, at_symbol. rewrite driver_symbols_ok. vm_compute. repeat split; reflexivity. Qed.

Lemma load_bytes_same n : forall p w l w1, load_bytes n p w = Ok (l, w1) -> w1 = w.
Proof.
  induction n as [|n IH]; intros p w l w1 E1; [injection E1 as _ <-; reflexivity|]. cbn [load_bytes] in E1. m_inv.
  unfold load_byte in E. apply rbind_ok in E as (b & _ & E). injection E as _ <-. apply IH in E0. exact E0.
Qed.

(** The headers that the assembler writes have the sizes of the kernel's structures, and the loader reads every member
    it uses at its offset. *)
Theorem elf_layouts :
  size Elf32_Ehdr = ELF_EHSIZE /\ size Elf32_Phdr = ELF_PHENTSIZE /\ size Elf32_Shdr = ELF_SHENTSIZE /\
  (forall p h w w', load_ehdr p w = Ok (h, w') -> w' = w /\
    load_bytes 16 p w = Ok (e_ident h, w) /\ load_half (p + offset_of Elf32_Ehdr "e_type") w = Ok (e_type h, w) /\
    load_half (p + offset_of Elf32_Ehdr "e_machine") w = Ok (e_machine h, w) /\
    load_word (p + offset_of Elf32_Ehdr "e_entry") w = Ok (e_entry h, w) /\
    load_word (p + offset_of Elf32_Ehdr "e_phoff") w = Ok (e_phoff h, w) /\
    load_half (p + offset_of Elf32_Ehdr "e_phnum") w = Ok (e_phnum h, w)) /\
  (forall p h w w', load_phdr p w = Ok (h, w') -> w' = w /\
    load_word p w = Ok (p_type h, w) /\ load_word (p + offset_of Elf32_Phdr "p_offset") w = Ok (p_offset h, w) /\
    load_word (p + offset_of Elf32_Phdr "p_vaddr") w = Ok (p_vaddr h, w) /\
    load_word (p + offset_of Elf32_Phdr "p_filesz") w = Ok (p_filesz h, w) /\
    load_word (p + offset_of Elf32_Phdr "p_memsz") w = Ok (p_memsz h, w) /\
    load_word (p + offset_of Elf32_Phdr "p_flags") w = Ok (p_flags h, w)).
Proof.
  split; [reflexivity|]. split; [reflexivity|]. split; [reflexivity|]. split; intros p h w w' H; [unfold load_ehdr in H|unfold load_phdr in H; m_inv].
  2: { repeat match goal with H : load_word _ _ = Ok _ |- _ => pose proof (load_word_same _ _ _ _ H); revert H end. intros; subst. repeat split; assumption. }
  apply mbind_ok in H as (ident & w1 & E1 & H). pose proof (load_bytes_same _ _ _ _ _ E1) as ->. m_inv.
  pose proof (load_half_same _ _ _ _ E) as ->. pose proof (load_half_same _ _ _ _ E0) as ->.
  pose proof (load_word_same _ _ _ _ E2) as ->. pose proof (load_word_same _ _ _ _ E3) as ->. pose proof (load_half_same _ _ _ _ E4) as ->.
  repeat split; assumption.
Qed.
