(* ===== verification/DBoot.v ===== *)
(** * Starting the system (boot/boot.s), as machine code

    From the first instruction to the call of kexecve. The C functions the boot file calls are what their callers may
    count on; everything else runs. *)

From S2P Require Import Prelude Mem KWorld RvaIsa KImage DImage Cpu KCode DCode DBus DSpi DSd DRead DFat DUmem DInit.
From Stdlib Require Import String.
Local Open Scope list_scope.
Local Open Scope Z_scope.

Lemma boot_entries :
  map at_symbol ["boot"; "k_slab_init"; "ualloc_init"; "tty_init"; "mmu_init"; "spi_init"; "sd_init"; "fat_init"; "mhandler"; "kheap_init";
                 "slab_alloc_new"; "kexecve"; "kmalloc"; "proc_init"]%string =
  map Some [0; 3580; 3196; 796; 2976; 2716; 1524; 192; 196608; 196612; 196616; 196620; 196628; 3568].
Proof. unfold at_symbol. rewrite driver_symbols_ok. vm_compute. reflexivity. Qed.

(** ** The C functions *)

(** Where their code is. *)
Definition c_start : Z := 0x30000.
Definition c_end : Z := 0x30034.

(** The code of [c_code] is there, and the image. *)
Record booting (c_code m : memory) : Prop := Booting {
  boot_ready : ready m; boot_linked : forall a, c_start <= a < c_end -> ld8 m a = ld8 c_code a }.

Definition beside_c (a n : Z) : Prop := a + n <= c_start \/ c_end <= a.

Lemma booting_st32 c_code m a v : booting c_code m -> beside_driver a 4 -> beside_control a 4 -> beside_c a 4 -> booting c_code (st32 m a v).
Proof.
  intros [Hr Hl] H1 H2 H3. split; [apply ready_st32; assumption|]. intros b Hb. rewrite ld8_st32_ne by (unfold beside_c in H3; lia). apply Hl, Hb.
Qed.

Lemma booting_st8 c_code m a v : booting c_code m -> beside_driver a 1 -> beside_control a 1 -> beside_c a 1 -> booting c_code (st8 m a v).
Proof.
  intros [Hr Hl] H1 H2 H3. split; [apply ready_st8; assumption|]. intros b Hb. rewrite ld8_st8_ne by (unfold beside_c in H3; lia). apply Hl, Hb.
Qed.

Ltac beside_all := unfold beside_c, c_start, c_end; beside_tac.
Ltac booting_tac := repeat first [assumption | apply booting_st32; [|beside_all..] | apply booting_st8; [|beside_all..]].
Ltac ready_tac ::= repeat first [assumption | eapply boot_ready; eassumption | eapply idle_ready; eassumption | eapply idle_ready, st_idle; eassumption
  | apply ready_st32; [|beside_tac..] | apply ready_st8; [|beside_tac..]].

Section Routines.

Context (card : trace -> Z) (delay : trace -> nat) (c_code : memory).

Abbreviation runs := (bus_runs card delay).

(** The function at [entry], called with arguments that satisfy [R] and given [need] bytes of stack, returns a value with [Q]; it keeps the
    registers of its caller, its caller's stack and the code, and leaves the card alone. *)
Definition c_returns (entry need : Z) (R : (Z -> Z) -> memory -> Prop) (Q : (Z -> Z) -> Z -> Prop) : Prop :=
  forall r m s l, booting c_code m -> code_pointer (r 1) -> stack_room (r 2) need -> R r m ->
    runs (returns_to (r 1) s (fun r2 m2 l2 => kept r r2 /\ Q r (r2 10) /\ booting c_code m2 /\ l2 = l /\
      (forall a, r 2 <= a < stack_top -> ld8 m2 a = ld8 m a))) (Cpu r m s entry) (Bus l None).

Lemma call_c P entry need R Q r m s l p : c_returns entry need R Q -> booting c_code m -> stack_room (r 2) need ->
  in_driver p = true -> driver_at p = Some (Jal 1 entry) -> code_pointer (p + 4) -> R (upd r 1 (p + 4)) m ->
  (forall r2 m2, kept r r2 -> Q (upd r 1 (p + 4)) (r2 10) -> booting c_code m2 -> (forall a, r 2 <= a < stack_top -> ld8 m2 a = ld8 m a) ->
    runs P (Cpu r2 m2 s (p + 4)) (Bus l None)) ->
  runs P (Cpu r m s p) (Bus l None).
Proof.
  intros Hc Hm Hsp Hp Hi Hra HR H. eapply quiet_step; [apply Hm|exact Hp|exact Hi|]. cbn [exec set Z.eqb mem]. split; [apply Hm|].
  eapply bus_runs_trans; [apply (Hc (upd r 1 (p + 4)) m s l); cbn [upd Z.eqb Pos.eqb]; assumption|].
  intros [r2 m2 s2 p2] [l2 n2] (Hpc & Hs & Hn & Hk & Hq & Hb & Hl2 & Hst). cbn [pc regs mem csrs pending sent upd Z.eqb Pos.eqb] in *. subst p2 s2 n2 l2.
  apply H; [|exact Hq|exact Hb|exact Hst]. apply kept_write in Hk; [exact Hk|cbn; lia].
Qed.

Definition anything : (Z -> Z) -> Z -> Prop := fun _ _ => True.

(** kmalloc gives a block of the heap, of the size asked for. *)
Definition a_block (r : Z -> Z) (v : Z) : Prop := driver_end <= v /\ v + r 10 <= heap_end.
Definition a_size (r : Z -> Z) (m : memory) : Prop := 0 <= r 10 <= 100.

(** slab_alloc_new is called with a slab of the table, and the numbers that stand there. *)
Definition a_slab (r : Z -> Z) (m : memory) : Prop :=
  (r 10 = 3664 \/ r 10 = 3676) /\ r 11 = ld32 m (r 10 + 4) /\ r 12 = ld32 m (r 10 + 8).

(** ** The routines of the image *)

Lemma mmu_init_runs P r m s l : booting c_code m -> code_pointer (r 1) ->
  (forall r' m', regs_but [5; 6; 10] r r' -> booting c_code m' -> runs P (Cpu r' m' s (r 1)) (Bus l None)) ->
  runs P (Cpu r m s 2976) (Bus l None).
Proof.
  intros Hm Hra H. drive. drive. drive. drive. drive. drive. rewrite jalr_target by exact Hra. apply H; [regs_tac|booting_tac].
Qed.

(** The unit is idle and selected nobody afterwards, whatever it was before. *)
Lemma spi_init_runs P r m s l : booting c_code m -> code_pointer (r 1) -> stack_room (r 2) 4 ->
  (forall r' m', regs_but [5; 6; 7; 10; 28; 1] r r' -> booting c_code m' -> idle 1 m' -> ld32 m' SPI_STATUS = 0 -> runs P (Cpu r' m' s (r 1)) (Bus l None)) ->
  runs P (Cpu r m s 2716) (Bus l None).
Proof.
  intros Hm Hra [Hsp1 Hsp2] H. unfold heap_end, stack_top in Hsp1, Hsp2.
  do 15 drive. drive. change (s32 3 <? s32 0) with false. cbn iota. do 7 drive.
  do 5 drive. loads. rewrite ld32_st32_eq by apply Hra. rewrite jalr_target by exact Hra.
  apply H; [regs_tac; subst; reflexivity|booting_tac| |apply ld32_st32_eq; unfold is_u32; lia].
  split; [apply boot_ready with c_code; booting_tac| |rewrite ld32_st32_eq by (unfold is_u32; lia); reflexivity].
  spi_addresses. loads. apply ld32_st32_eq. unfold is_u32. lia.
Qed.

(** One slab. *)
Lemma k_slab_init_step P need r m s l k : c_returns 196616 need a_slab anything -> 0 <= need -> booting c_code m -> stack_room (r 2) need ->
  k = 1 \/ k = 2 -> r 8 = k ->
  (forall r2 m2, kept r r2 -> booting c_code m2 -> (forall a, r 2 <= a < stack_top -> ld8 m2 a = ld8 m a) ->
    runs P (Cpu r2 m2 s 3640) (Bus l None)) ->
  runs P (Cpu r m s 3596) (Bus l None).
Proof.
  intros Hc Hneed Hm Hsp Hk H8 H. do 10 drive. rewrite !H8.
  eapply (call_c _ _ _ _ _ _ _ _ _ _ Hc Hm); [exact Hsp|reflexivity|reflexivity|code_ptr| |].
  - unfold a_slab. destruct Hk as [-> | ->]; cpu_cbn; auto.
  - intros r2 m2 Hk2 _ Hm2 Hs2. cbn [upd Z.eqb Pos.eqb] in Hs2. apply H; [|exact Hm2|exact Hs2].
    repeat (apply kept_write in Hk2; [|cbn; lia]). exact Hk2.
Qed.

(** The table of slabs, from its end; the caller's registers and stack are kept. *)
Lemma k_slab_init_runs P need r m s l : c_returns 196616 need a_slab anything -> 0 <= need -> booting c_code m -> code_pointer (r 1) ->
  stack_room (r 2) (need + 8) -> is_u32 (r 8) ->
  (forall r' m', kept r r' -> booting c_code m' -> runs P (Cpu r' m' s (r 1)) (Bus l None)) ->
  runs P (Cpu r m s 3580) (Bus l None).
Proof.
  intros Hc Hneed Hm Hra Hsp H8 H. assert (Hsp' : stack_room (r 2 - 8) need) by (destruct Hsp; split; lia).
  destruct Hsp as [Hsp1 Hsp2]. unfold heap_end, stack_top in Hsp1, Hsp2.
  do 4 drive. eapply (k_slab_init_step _ need _ _ _ _ 2); [exact Hc|exact Hneed|booting_tac|exact Hsp'|auto|reflexivity|].
  intros r2 m2 Hk2 Hm2 Hs2. cbn [upd Z.eqb Pos.eqb] in Hs2. pose proof (kept_in _ _ 8 Hk2 ltac:(cbn; tauto)) as H82. cbn [upd Z.eqb Pos.eqb] in H82.
  pose proof (kept_in _ _ 2 Hk2 ltac:(cbn; tauto)) as H22. cbn [upd Z.eqb Pos.eqb] in H22.
  drive. rewrite H82. drive. change (negb (2 - 1 =? 0)) with true. cbn iota.
  eapply (k_slab_init_step _ need _ _ _ _ 1); [exact Hc|exact Hneed|exact Hm2| |auto|reflexivity|].
  { cbn [upd Z.eqb Pos.eqb]. rewrite H22. exact Hsp'. }
  intros r3 m3 Hk3 Hm3 Hs3. cbn [upd Z.eqb Pos.eqb] in Hs3. rewrite H22 in Hs3.
  pose proof (kept_in _ _ 8 Hk3 ltac:(cbn; tauto)) as H83. pose proof (kept_in _ _ 2 Hk3 ltac:(cbn; tauto)) as H23. cbn [upd Z.eqb Pos.eqb] in H83, H23.
  assert (Hl : forall a, r 2 - 8 <= a -> a + 4 <= stack_top -> ld32 m3 a = ld32 (st32 (st32 m (r 2 - 8) (r 8)) (r 2 - 8 + 4) (r 1)) a).
  { intros a Ha1 Ha2. apply ld32_ext. intros i Hi. rewrite Hs3, Hs2 by lia. reflexivity. }
  unfold stack_top in Hl.
  drive. rewrite H83. drive. change (negb (2 - 1 - 1 =? 0)) with false. cbn iota.
  drive. rewrite H23, H22. u32_small. rewrite Hl by lia. loads. rewrite ld32_st32_eq by exact H8.
  drive. rewrite H23, H22. u32_small. rewrite Hl by lia. rewrite ld32_st32_eq by apply Hra.
  drive. rewrite H23, H22. norm_sums. u32_small. drive. rewrite jalr_target by exact Hra. apply H; [|exact Hm3].
  apply List.Forall_forall. intros x Hx. pose proof (kept_in _ _ x Hk3 Hx) as E3. pose proof (kept_in _ _ x Hk2 Hx) as E2. cbn in Hx.
  repeat (destruct Hx as [<-|Hx]; [cbn [upd Z.eqb Pos.eqb] in *; congruence|]). destruct Hx.
Qed.

(** One allocation. *)
Lemma tty_block P need r m s l p : c_returns 196628 need a_size a_block -> booting c_code m -> stack_room (r 2) need ->
  in_driver p = true -> driver_at p = Some (Jal 1 196628) -> code_pointer (p + 4) -> 0 <= r 10 <= 100 ->
  (forall r2 m2, kept r r2 -> driver_end <= r2 10 -> r2 10 + r 10 <= heap_end -> booting c_code m2 ->
    (r 2 + 4 <= stack_top -> ld32 m2 (r 2) = ld32 m (r 2)) -> runs P (Cpu r2 m2 s (p + 4)) (Bus l None)) ->
  runs P (Cpu r m s p) (Bus l None).
Proof.
  intros Hc Hm Hsp Hp Hi Hra H10 H. eapply (call_c _ _ _ _ _ _ _ _ _ _ Hc); auto.
  intros r2 m2 Hk [Hlo Hhi] Hm2 Hs. apply H; auto. intros Ht. apply ld32_ext. intros i Hi'. apply Hs. lia.
Qed.

(** The registers a caller of the assembly's start may count on: not S0. *)
Definition start_kept (r r' : Z -> Z) : Prop := r' 2 = r 2 /\ r' 9 = r 9 /\ r' 18 = r 18 /\ is_u32 (r' 8).

Lemma tty_init_runs P need r m s l : c_returns 196628 need a_size a_block -> 0 <= need -> booting c_code m -> code_pointer (r 1) ->
  stack_room (r 2) (need + 4) ->
  (forall r' m', start_kept r r' -> booting c_code m' -> runs P (Cpu r' m' s (r 1)) (Bus l None)) ->
  runs P (Cpu r m s 796) (Bus l None).
Proof.
  intros Hc Hneed Hm Hra Hsp H. assert (Hsp' : stack_room (r 2 - 4) need) by (destruct Hsp; split; lia).
  destruct Hsp as [Hsp1 Hsp2]. unfold heap_end, stack_top in Hsp1, Hsp2.
  do 3 drive. eapply tty_block; [exact Hc|booting_tac|exact Hsp'|reflexivity|reflexivity|code_ptr|cbn; lia|].
  cbn [upd Z.eqb Pos.eqb Z.add Pos.add Pos.succ]. unfold driver_end, heap_end, stack_top. intros r2 m2 Hk2 Hlo2 Hhi2 Hm2 Hs2.
  specialize (Hs2 ltac:(lia)). rewrite ld32_st32_eq in Hs2 by apply Hra.
  pose proof (kept_in _ _ 2 Hk2 ltac:(cbn; tauto)) as H22. cbn [upd Z.eqb Pos.eqb] in H22.
  do 10 drive. eapply tty_block; [exact Hc|booting_tac|cbn [upd Z.eqb Pos.eqb]; rewrite H22; exact Hsp'|reflexivity|reflexivity|code_ptr|cbn; lia|].
  cbn [upd Z.eqb Pos.eqb Z.add Pos.add Pos.succ]. rewrite H22. unfold driver_end, heap_end, stack_top. intros r3 m3 Hk3 Hlo3 Hhi3 Hm3 Hs3.
  specialize (Hs3 ltac:(lia)). revert Hs3. loads. rewrite Hs2. intros Hs3.
  pose proof (kept_in _ _ 2 Hk3 ltac:(cbn; tauto)) as H23. pose proof (kept_in _ _ 8 Hk3 ltac:(cbn; tauto)) as H83. cbn [upd Z.eqb Pos.eqb] in H23, H83.
  do 6 (drive; rewrite ?H83; u32_small; norm_sums).
  eapply tty_block; [exact Hc|booting_tac|cbn [upd Z.eqb Pos.eqb]; rewrite H23, H22; exact Hsp'|reflexivity|reflexivity|code_ptr|cbn; lia|].
  cbn [upd Z.eqb Pos.eqb Z.add Pos.add Pos.succ]. rewrite H23, H22. unfold driver_end, heap_end, stack_top. intros r4 m4 Hk4 Hlo4 Hhi4 Hm4 Hs4.
  specialize (Hs4 ltac:(lia)). revert Hs4. loads. rewrite Hs3. intros Hs4.
  pose proof (kept_in _ _ 2 Hk4 ltac:(cbn; tauto)) as H24. pose proof (kept_in _ _ 8 Hk4 ltac:(cbn; tauto)) as H84. cbn [upd Z.eqb Pos.eqb] in H24, H84.
  drive. rewrite H84. u32_small. drive. rewrite H24, H23, H22. u32_small. loads. rewrite Hs4. drive. rewrite H24, H23, H22. norm_sums. u32_small.
  drive. rewrite jalr_target by exact Hra. apply H; [|booting_tac].
  pose proof (kept_in _ _ 9 Hk2 ltac:(cbn; tauto)) as H92. pose proof (kept_in _ _ 9 Hk3 ltac:(cbn; tauto)) as H93.
  pose proof (kept_in _ _ 9 Hk4 ltac:(cbn; tauto)) as H94. pose proof (kept_in _ _ 18 Hk2 ltac:(cbn; tauto)) as H182.
  pose proof (kept_in _ _ 18 Hk3 ltac:(cbn; tauto)) as H183. pose proof (kept_in _ _ 18 Hk4 ltac:(cbn; tauto)) as H184.
  unfold start_kept. cbn [upd Z.eqb Pos.eqb] in *. unfold is_u32. repeat split; first [congruence | lia].
Qed.

End Routines.

(** ** The boot code *)

Section Boot.

Context (card : trace -> Z) (delay : trace -> nat) (c_code : memory).

Abbreviation runs := (bus_runs card delay).

(** What the boot code keeps between its calls. *)
Definition alive (r : Z -> Z) : Prop := r 2 = stack_top /\ is_u32 (r 8) /\ is_u32 (r 9) /\ is_u32 (r 18).

Lemma alive_kept r r' : alive r -> kept r r' -> alive r'.
Proof. intros H Hk. unfold alive in *. rewrite !(kept_in _ _ _ Hk) by (cbn; tauto). exact H. Qed.

Lemma alive_but xs r r' : alive r -> regs_but xs r r' -> Forall (fun x => x <> 2 /\ x <> 8 /\ x <> 9 /\ x <> 18) xs -> alive r'.
Proof.
  intros H Hr Hxs. unfold alive in *. rewrite !Hr; [exact H|..]; (eapply Forall_impl; [exact Hxs|cbn; lia]).
Qed.

Lemma alive_start r r' : alive r -> start_kept r r' -> alive r'.
Proof. unfold alive. intros (H2 & H8 & H9 & H18) (E2 & E9 & E18 & E8). rewrite E2, E9, E18. auto. Qed.

(** The control registers: user mode is where [mret] goes, interrupts go to mhandler, and those of the timer and of the devices are let in. *)
(* boot/boot.s:18-30 boot *)
Definition boot_csrs (s : Z -> Z) : Z -> Z :=
  upd (upd (upd (upd s 768 (Z.land (s 768) (not32 0x1800))) 773 196608) 772 (Z.lor (s 772) 0x880)) 768 (Z.lor (Z.land (s 768) (not32 0x1800)) 0x80).

Lemma boot_setup P r m s l : booting c_code m -> is_u32 (r 8) -> is_u32 (r 9) -> is_u32 (r 18) ->
  (forall r' m', alive r' -> booting c_code m' -> ld32 m' 66564 = 0x70F -> runs P (Cpu r' m' (boot_csrs s) 72) (Bus l None)) ->
  runs P (Cpu r m s 0) (Bus l None).
Proof.
  intros Hm H8 H9 H18 H. do 18 drive. 
  apply H; [|booting_tac|loads; apply ld32_st32_eq; unfold is_u32; lia].
  unfold alive, stack_top. cbn [upd Z.eqb Pos.eqb]. auto.
Qed.

(** The C functions of the start, with the stack they may use. *)
Record c_library (need : Z) : Prop := CLibrary {
  lib_kheap_init : c_returns card delay c_code 196612 need (fun _ _ => True) anything;
  lib_slab_alloc_new : c_returns card delay c_code 196616 need a_slab anything;
  lib_kmalloc : c_returns card delay c_code 196628 need a_size a_block }.

(** The allocators. *)
Lemma boot_allocators P need r m s l : c_library need -> 0 <= need <= 900 -> booting c_code m -> alive r ->
  (forall r' m', alive r' -> booting c_code m' -> runs P (Cpu r' m' s 84) (Bus l None)) -> runs P (Cpu r m s 72) (Bus l None).
Proof.
  intros [Hheap Hslab _] Hneed Hm Hr H.
  assert (Hroom : forall r n, alive r -> n <= 1000 -> stack_room (r 2) n) by (intros r0 n (E & _) Hn; unfold stack_room, heap_end; rewrite E; unfold stack_top; lia).
  eapply call_c; [exact Hheap|exact Hm|apply Hroom; [exact Hr|lia]|reflexivity|reflexivity|code_ptr|exact I|]. intros r1 m1 Hk1 _ Hm1 _.
  cbn [Z.add Pos.add Pos.succ]. pose proof (alive_kept _ _ Hr Hk1) as Hr1.
  drive. eapply k_slab_init_runs; [exact Hslab|lia|exact Hm1|code_ptr|apply Hroom; [exact Hr1|lia]|apply Hr1|]. intros r2 m2 Hk2 Hm2.
  apply kept_write in Hk2; [|cbn; lia]. pose proof (alive_kept _ _ Hr1 Hk2) as Hr2. cbn [upd Z.eqb Pos.eqb].
  drive. apply ualloc_init_runs; [apply Hm2|code_ptr|]. intros r3 m3 Hr3 Hrd3 Hs3. cbn [upd Z.eqb Pos.eqb].
  apply H.
  - apply (alive_but [1; 5; 6] r2); [exact Hr2| |repeat constructor; lia]. regs_over Hr3.
  - split; [exact Hrd3|]. intros a Ha. unfold c_start, c_end in Ha. rewrite Hs3, ld8_st32_ne by lia. apply Hm2. exact Ha.
Qed.

(** The variables, the terminal, the MMU and the SPI unit. *)
Lemma boot_devices P need r m s l : c_library need -> 0 <= need <= 900 -> booting c_code m -> alive r ->
  (forall r' m', alive r' -> booting c_code m' -> idle 1 m' -> ld32 m' SPI_STATUS = 0 -> runs P (Cpu r' m' s 124) (Bus l None)) ->
  runs P (Cpu r m s 84) (Bus l None).
Proof.
  intros [_ _ Hkmalloc] Hneed Hm Hr H.
  assert (Hroom : forall r n, alive r -> n <= 1000 -> stack_room (r 2) n) by (intros r0 n (E & _) Hn; unfold stack_room, heap_end; rewrite E; unfold stack_top; lia).
  do 8 drive. eapply tty_init_runs; [exact Hkmalloc|lia|booting_tac|code_ptr|cbn [upd Z.eqb Pos.eqb]; apply Hroom; [exact Hr|lia]|].
  intros r1 m1 Hk1 Hm1. cbn [upd Z.eqb Pos.eqb].
  assert (Hr1 : alive r1) by (apply (alive_start r); [exact Hr|exact Hk1]).
  drive. apply (mmu_init_runs _ _ c_code); [exact Hm1|code_ptr|]. intros r2 m2 Hr2 Hm2. cbn [upd Z.eqb Pos.eqb].
  assert (Ha2 : alive r2) by (apply (alive_but [1; 5; 6; 10] r1); [exact Hr1|regs_over Hr2|repeat constructor; lia]).
  drive. apply (spi_init_runs _ _ c_code); [exact Hm2|code_ptr|cbn [upd Z.eqb Pos.eqb]; apply Hroom; [exact Ha2|lia]|].
  intros r3 m3 Hr3 Hm3 Hi3 Hs3. cbn [upd Z.eqb Pos.eqb]. apply H; [|exact Hm3|exact Hi3|exact Hs3].
  apply (alive_but [5; 6; 7; 10; 28; 1] r2); [exact Ha2|regs_over Hr3|repeat constructor; lia].
Qed.

(** ** The whole start *)

Context (disk : Z -> list Z) (awake : trace -> Prop) (Hdisk : serves card disk awake).

(** At the call of kexecve: the name of the first program in A0, an empty stack, the SPI unit and the card's scheduler idle, the running
    information [info], and the mode of addressing [flag]. *)
Record at_kexecve (s : Z -> Z) (info : FS_RUN_INFO) (flag : bool) (c : cpu) (b : bus) : Prop := AtKexecve {
  st_pc : pc c = 196620;
  st_name : regs c 10 = 3568;
  st_stack : regs c 2 = stack_top;
  st_return : regs c 1 = 144;
  st_csrs : csrs c = boot_csrs s;
  st_rest : pending b = None;
  st_idle : idle 1 (mem c);
  st_info : running_info (mem c) = info;
  st_scheduler : scheduler_empty (mem c);
  st_mode : ld8 (mem c) SD_INFO = Z.b2z flag;
  st_awake : awake (sent b) }.


End Boot.
