(* ===== verification/DTty.v ===== *)
(** * The terminal and the serial port (kernel/io/tty.s, kernel/io/io.s, drivers/serial/serial.s), as machine code

    What the interrupts of the serial port and the system call that writes come to. *)

From S2P Require Import Prelude RvaIsa KImage DImage Cpu KCode KLib DCode DBus DSpi DSd.
From Stdlib Require Import String.
Local Open Scope list_scope.
Local Open Scope Z_scope.

Lemma tty_entries :
  map at_symbol ["ecall_write"; "tty_enqueue_recieve"; "tty_dequeue_write"; "tty_make_request"; "irsq_serial_read"; "irsq_serial_write";
                 "fifo_enqueue"; "fifo_dequeue"]%string =
  map Some [712; 952; 1104; 1272; 1396; 1432; 3356; 3400].
Proof. unfold at_symbol. rewrite driver_symbols_ok. vm_compute. reflexivity. Qed.

(** The structure of the terminal: two queues of bytes, and the heads of the lists of requests. *)
(* include/tty/tty.inc:6-6 ECHO_FIFO *)
Definition ECHO_FIFO : Z := 8.
(* include/tty/tty.inc:8-8 TTY_WRITE_QUEUE_HEAD *)
Definition TTY_WRITE_QUEUE_HEAD : Z := 16.
(* include/tty/tty.inc:9-9 TTY_READ_QUEUE_HEAD *)
Definition TTY_READ_QUEUE_HEAD : Z := 20.
(* include/tty/tty.inc:10-11 TTY_STRUCT_SIZE *)
Definition TTY_STRUCT_SIZE : Z := 28.

(** A terminal in the heap, with a queue for the echo beside it. *)
Record terminal (m : memory) (q : Z) : Prop := Terminal {
  tm_info : ld32 m TTY_INFO = q;
  tm_place : driver_end <= q /\ q + TTY_STRUCT_SIZE <= heap_end;
  tm_buffer : let b := ld32 m (q + ECHO_FIFO) in driver_end <= b /\ b + 30 <= heap_end /\ (b + 30 <= q \/ q + TTY_STRUCT_SIZE <= b);
  tm_size : ld8 m (q + ECHO_FIFO + 6) = 30;
  tm_tail : ld8 m (q + ECHO_FIFO + 5) < 30 }.

(** The first instruction of the boot code. *)
Lemma first_word : driver_word 0 = 0x4117.
Proof. unfold driver_word. rewrite driver_image_ok. vm_compute. reflexivity. Qed.

Lemma terminal_frame m q a v : terminal m q -> heap_end <= a -> terminal (st32 m a v) q.
Proof.
  intros [H1 H2 H3 H4 H5] Ha. unfold heap_end, driver_end, TTY_INFO, TTY_STRUCT_SIZE, ECHO_FIFO in *. cbv zeta in H3.
  split; unfold heap_end, driver_end, TTY_INFO, TTY_STRUCT_SIZE, ECHO_FIFO; cbv zeta; loads; assumption.
Qed.

Section Terminal.

Context (card : trace -> Z) (delay : trace -> nat).

Abbreviation runs := (bus_runs card delay).

(** The machine executes instructions of [code] and no others. *)
Definition never_leaves (code : list Z) (c : cpu) (b : bus) : Prop :=
  forall n, exists c' b', bus_run card delay n c b = Some (c', b') /\ In (pc c') code.

Lemma rest_step r m s p i l : ready m -> in_driver p = true -> driver_at p = Some i -> ready (mem (exec i (Cpu r m s p))) ->
  bus_step card delay (Cpu r m s p) (Bus l None) = Some (exec i (Cpu r m s p), Bus l None).
Proof.
  intros [Hm _] Hp Hi [_ Hr]. unfold bus_step. rewrite (driver_step r m s p i) by assumption. cbn [mbind option_bind]. unfold tick. cbn [pending].
  rewrite Hr. destruct (exec i (Cpu r m s p)). reflexivity.
Qed.

(** One more instruction; the number of those to go decides first. *)
Ltac on n :=
  destruct n as [|n]; [eexists _, _; split; [reflexivity|cbn; tauto]|];
  cbn [bus_run]; erewrite rest_step; [|ready_tac|reflexivity|reflexivity|cpu_cbn; ready_tac]; cbn [mbind option_bind]; cpu_cbn.

(** The code behind the call of tty_dequeue_write, with the return address that call has left. *)
(* drivers/serial/serial.s:27-32 irsq_serial_write *)
Definition serial_write_end : list Z := [1444; 1448; 1452; 1456; 1460].

Lemma serial_write_stuck s l : forall n r m, ready m -> r 1 = 1444 ->
  exists c' b', bus_run card delay n (Cpu r m s 1444) (Bus l None) = Some (c', b') /\ In (pc c') serial_write_end.
Proof.
  induction n as [n IH] using lt_wf_ind. intros r m Hm H1. unfold serial_write_end.
  on n. destruct (r 10 =? 0) eqn:E.
  - on n. rewrite H1. cpu_cbn. apply IH; [lia|exact Hm|exact H1].
  - on n. on n. on n. on n. rewrite H1. cpu_cbn. apply IH; [lia|ready_tac|exact H1].
Qed.

(** An interrupt of the serial port that asks for a byte never returns, when there is nothing to send: the routine keeps the return
    address of its own call, and goes back to behind it for ever. *)
Theorem irsq_serial_write_hangs r m s l q : ready m -> stack_room (r 2) 12 -> is_u32 (r 8) -> terminal m q ->
  ld8 m (q + ECHO_FIFO + 4) = ld8 m (q + ECHO_FIFO + 5) -> ld32 m (q + TTY_WRITE_QUEUE_HEAD) = 0 ->
  runs (never_leaves serial_write_end) (Cpu r m s 1432) (Bus l None).
Proof.
  intros Hm [Hsp1 Hsp2] H8 [Hinfo [Hq1 Hq2] _ _ _] Hempty Hhead. unfold heap_end, stack_top, driver_end, TTY_STRUCT_SIZE, TTY_INFO, ECHO_FIFO, TTY_WRITE_QUEUE_HEAD in *.
  do 9 drive. loads. rewrite Hinfo. do 5 drive. loads. rewrite Hempty. drive. rewrite Z.eqb_refl. cbn iota.
  do 4 drive. loads. rewrite Hhead. drive. cbn [Z.eqb]. do 2 drive. rewrite ld32_st32_eq by (unfold is_u32; lia).
  do 2 drive. apply bus_done. intros n. apply serial_write_stuck; [ready_tac|reflexivity].
Qed.

(** Adding to the queue of the echo writes into its buffer and its tail, if anywhere. *)
Lemma echo_runs P r m s l q : ready m -> code_pointer (r 1) -> terminal m q -> r 10 = q + ECHO_FIFO ->
  (forall r' m', regs_but [5; 6; 7; 28; 29] r r' -> ready m' ->
    (forall a, a < ld32 m (q + ECHO_FIFO) \/ ld32 m (q + ECHO_FIFO) + 30 <= a -> a <> q + ECHO_FIFO + 5 -> ld8 m' a = ld8 m a) ->
    runs P (Cpu r' m' s (r 1)) (Bus l None)) ->
  runs P (Cpu r m s 3356) (Bus l None).
Proof.
  intros Hm Hra [_ [Hq1 Hq2] [Hb1 [Hb2 Hb3]] Hsize Htail] H10 H. pose proof (ld8_range m (q + ECHO_FIFO + 5)) as Ht.
  unfold heap_end, driver_end, TTY_STRUCT_SIZE, ECHO_FIFO in *. set (b := ld32 m (q + 8)) in *. set (t := ld8 m (q + 8 + 5)) in *.
  drive. rewrite H10. fold b. drive. rewrite H10. u32_small. drive. rewrite H10. u32_small. drive. rewrite H10. u32_small. rewrite Hsize.
  fold t. rewrite !(lb_small t), (lb_small 30) by lia. drive. drive. drive. change (30 =? 0) with false. cbn iota.
  destruct (u32 (sext 8 (ld8 m (q + 8 + 4))) =? (t + 1) mod 30) eqn:E; drive; rewrite E; cbn [negb].
  - drive. drive. rewrite H10. u32_small. drive.
    rewrite jalr_target by exact Hra. apply H; [regs_tac|ready_tac|]. intros a Ha Hne. rewrite !ld8_st8_ne by lia. reflexivity.
  - drive. rewrite jalr_target by exact Hra. apply H; [regs_tac|exact Hm|reflexivity].
Qed.

(** A character that arrives while nobody reads is taken for one that somebody waits for: the head of the list is null, and what
    is looked at is the word at address 0, the first instruction of the boot code. *)
Theorem receive_takes_boot_code r m s l q : ready m -> code_pointer (r 1) -> stack_room (r 2) 4 -> terminal m q ->
  ld32 m (q + TTY_READ_QUEUE_HEAD) = 0 -> r 10 <> 8 -> r 10 <> 10 -> is_u32 (r 10) ->
  runs (fun c b => pc c = 1012 /\ regs c 5 = driver_word 0 /\ driver_word 0 <> 0 /\ regs c 11 = r 10) (Cpu r m s 952) (Bus l None).
Proof.
  intros Hm Hra [Hsp1 Hsp2] Hq Hhead H8 H10 Hc. pose proof Hq as [Hinfo [Hq1 Hq2] [Hb1 [Hb2 Hb3]] Hsize Htail].
  unfold heap_end, stack_top, driver_end, TTY_STRUCT_SIZE, TTY_INFO, ECHO_FIFO, TTY_READ_QUEUE_HEAD in *.
  do 6 drive. loads. rewrite Hinfo. drive. drive. drive. replace (r 10 =? 8) with false by lia. drive. drive. replace (r 10 =? 10) with false by lia.
  drive. eapply (echo_runs _ _ _ _ _ q); [ready_tac|code_ptr| |reflexivity|].
  - apply terminal_frame; [exact Hq|unfold heap_end; lia].
  - unfold ECHO_FIFO. loads. intros r2 m2 Hr2 Hm2 Hs2. cbn [upd Z.eqb Pos.eqb].
    assert (Hl : ld32 m2 (q + 20) = 0).
    { rewrite <- Hhead. apply ld32_ext. intros i Hi. rewrite Hs2 by lia. apply ld8_st32_ne. lia. }
    assert (H20 : r2 10 = q + 8) by (rewrite Hr2 by cell; reflexivity).
    assert (H0 : ld32 m2 0 = 0x4117) by (rewrite (installed_word m2 (ready_code _ Hm2)) by reflexivity; exact first_word).
    drive. rewrite H20. u32_small. norm_sums. replace (q + 8 + 12) with (q + 20) by lia. rewrite Hl. drive. rewrite H0. drive. cbn [Z.eqb].
    apply bus_done. cbn [pc regs upd Z.eqb Pos.eqb]. rewrite (Hr2 11) by cell. rewrite first_word. split; [reflexivity|]. split; [reflexivity|]. split; [lia|reflexivity].
Qed.

(** The system call that writes hands its arguments on in the registers it got them in, and the head of the list of writers in a
    fourth: what tty_make_request notes as the buffer, the number of bytes and the list are the file, the buffer and the
    number of bytes. *)
Theorem ecall_write_shifts_arguments r m s l q : ready m -> stack_room (r 2) 20 -> ld32 m TTY_INFO = q -> driver_end <= q <= heap_end ->
  (forall x, is_u32 (r x)) ->
  runs (fun c b => pc c = 1292 /\ regs c 13 = q + TTY_WRITE_QUEUE_HEAD /\
    ld32 (mem c) (regs c 2) = r 10 /\ ld32 (mem c) (regs c 2 + 4) = r 11 /\ ld32 (mem c) (regs c 2 + 8) = r 12) (Cpu r m s 712) (Bus l None).
Proof.
  intros Hm [Hsp1 Hsp2] Hinfo Hq Hu. unfold heap_end, stack_top, driver_end, TTY_INFO, TTY_WRITE_QUEUE_HEAD in *.
  do 5 drive. loads. rewrite Hinfo. do 7 drive. apply bus_done. cbn [pc regs mem upd Z.eqb Pos.eqb]. conjs; try reflexivity.
  all: loads; apply ld32_st32_eq, Hu.
Qed.

End Terminal.
