(* ===== verification/DDemo.v ===== *)
(** * The drivers' code with a simulated card

    A card that follows the protocol as far as reading is concerned, and the theorems of the D files at concrete states. *)

From S2P Require Import Prelude Umem KWorld RvaIsa KImage DImage Cpu KCode DCode DBus DSpi DSd DRead DFat DUmem DInit DIrq DBoot DTty.

(** ** A card *)

(** The card was deselected last. *)
Definition deselected (l : trace) : Prop := match l with [] => True | (level, _) :: _ => level <> 0 end.

(** The bytes since the card was selected, the first one first. *)
Fixpoint selected (l : trace) : list Z :=
  match l with [] => [] | (level, b) :: l => if level =? 0 then selected l ++ [b] else [] end.

(** The argument of a command, in its bytes. *)
Definition argument (s : list Z) : Z := 16777216 * nth 1 s 0 + 65536 * nth 2 s 0 + 256 * nth 3 s 0 + nth 4 s 0.

(** After the six bytes of a command it answers with a zero, announces the block and sends it. *)
Definition sim_card (disk : Z -> list Z) (l : trace) : Z :=
  let s := selected l in
  match List.length s with
  | 7%nat => 0
  | 8%nat => 254
  | n => if (n <? 7)%nat then 255 else nth (n - 9) (disk (argument s)) 0
  end.

Section Card.

Context (disk : Z -> list Z) (Hdisk : forall lba, List.length (disk lba) = 512%nat /\ Forall (fun b => 0 <= b < 256) (disk lba)).

(** Another card may stand for it, if it answers reads in the same way. *)
Context (card : trace -> Z) (Hcard : forall l, hd 0 (selected l) = 81 -> card l = sim_card disk l).

Lemma deselected_selected l : deselected l -> selected l = [].
Proof. destruct l as [|[level b] l]; [reflexivity|]. cbn. intros H. replace (level =? 0) with false by lia. reflexivity. Qed.

Lemma selected_send bs : forall l, selected (send 0 bs l) = selected l ++ bs.
Proof.
  induction bs as [|b bs IH]; intros l; cbn [send fold_left]; [rewrite app_nil_r; reflexivity|].
  fold (send 0 bs ((0, b) :: l)). rewrite IH. cbn [selected Z.eqb]. rewrite <- app_assoc. reflexivity.
Qed.

Lemma command_argument cmd lba crc s : is_u32 lba -> argument (command cmd lba crc ++ s) = lba.
Proof.
  intros H. unfold argument, command. cbn [nth app]. rewrite !Z.shiftr_div_pow2 by lia. unfold is_u32 in H.
  change (2 ^ 24) with 16777216. change (2 ^ 16) with 65536. change (2 ^ 8) with 256. dlia.
Qed.

(** The trace of a command, its answer and the start byte. *)
Definition asked (lba : Z) (l : trace) : trace := (0, 255) :: (0, 255) :: send 0 (command 17 lba 0) l.

Lemma sim_answer lba l : deselected l -> read_answer card lba l = ((0, 255) :: send 0 (command 17 lba 0) l, 0).
Proof.
  intros Hl. assert (E : reply card ((0, 255) :: send 0 (command 17 lba 0) l) = 0).
  { unfold reply. rewrite Hcard by (cbn [selected Z.eqb]; rewrite selected_send, deselected_selected by exact Hl; reflexivity).
    unfold sim_card. cbn [selected Z.eqb]. rewrite selected_send, deselected_selected by exact Hl. reflexivity. }
  unfold read_answer. cbn [response]. rewrite E. reflexivity.
Qed.

Lemma sim_token lba l : deselected l -> read_token card lba l = (asked lba l, 254).
Proof.
  intros Hl. unfold read_token. rewrite sim_answer by exact Hl. cbn [fst].
  assert (E : reply card (asked lba l) = 254).
  { unfold reply, asked. rewrite Hcard by (cbn [selected Z.eqb]; rewrite selected_send, deselected_selected by exact Hl; reflexivity).
    unfold sim_card. cbn [selected Z.eqb]. rewrite selected_send, deselected_selected by exact Hl. reflexivity. }
  unfold asked in *. destruct read_attempts; cbn [response]; rewrite E; reflexivity.
Qed.

Lemma sim_block lba l pad : deselected l -> is_u32 lba -> forall sent, (List.length sent + List.length pad = 512)%nat ->
  replies card 0 pad (send 0 sent (asked lba l)) = drop (List.length sent) (disk lba).
Proof.
  intros Hl Hlba. destruct (Hdisk lba) as [Hlen Hbytes]. induction pad as [|b pad IH]; intros sent Hs; cbn [List.length replies] in *.
  - rewrite drop_ge by lia. reflexivity.
  - assert (Hlt : (List.length sent < List.length (disk lba))%nat) by lia.
    destruct (lookup_lt_is_Some_2 _ _ Hlt) as [v Hv]. rewrite (drop_S _ v _ Hv). f_equal.
    + unfold reply, asked. rewrite Hcard by (cbn [selected Z.eqb]; rewrite selected_send; cbn [selected Z.eqb];
        rewrite selected_send, deselected_selected by exact Hl; reflexivity).
      unfold sim_card. cbn [selected Z.eqb]. rewrite selected_send. cbn [selected Z.eqb].
      rewrite selected_send, deselected_selected by exact Hl. cbn [app]. rewrite <- !app_assoc, command_argument by exact Hlba.
      rewrite !length_app. cbn [List.length command Nat.add]. rewrite Nat.add_1_r. cbn [Nat.ltb Nat.leb Nat.sub].
      rewrite Nat.sub_0_r, nth_lookup, Hv. cbn [default from_option id].
      rewrite List.Forall_forall in Hbytes. apply Z.mod_small, Hbytes, list_elem_of_In, (list_elem_of_lookup_2 _ _ _ Hv).
    + specialize (IH (sent ++ [b])). rewrite length_app in IH. cbn [List.length] in IH. rewrite send_app in IH. cbn [send fold_left] in IH.
      replace (List.length sent + 1)%nat with (S (List.length sent)) in IH by lia. apply IH. lia.
Qed.

Lemma sim_serves : serves card disk deselected.
Proof.
  split; intros lba l.
  - intros Hl _. rewrite sim_answer by exact Hl. cbn. lia.
  - intros Hl _. rewrite sim_token by exact Hl. reflexivity.
  - intros pad Hl Hlba Hp. rewrite sim_token by exact Hl. cbn [fst]. apply (sim_block lba l pad Hl Hlba []). exact Hp.
  - intros pad _ _ _. discriminate.
Qed.

End Card.

(** ** A disk *)

(** A sector with some bytes set. *)
Definition sector_with (bytes : list (Z * Z)) : list Z :=
  map (fun i => match List.find (fun p => fst p =? Z.of_nat i) bytes with Some p => snd p mod 256 | None => 0 end) (seq 0 512).

Lemma sector_with_bytes bytes : List.length (sector_with bytes) = 512%nat /\ Forall (fun b => 0 <= b < 256) (sector_with bytes).
Proof.
  split; [unfold sector_with; rewrite length_map, length_seq; reflexivity|]. apply List.Forall_forall. intros b Hb.
  unfold sector_with in Hb. apply List.in_map_iff in Hb as (i & <- & _). case_match; [apply Z.mod_pos_bound|]; lia.
Qed.

(** One active partition of FAT32 at sector 2048, with two tables of 1000 sectors and eight sectors to a cluster. *)
Definition demo_disk (lba : Z) : list Z :=
  if lba =? 0 then sector_with [(446, 0x80); (450, 0x0C); (455, 8); (510, 0x55); (511, 0xAA)]
  else if lba =? 2048 then
    sector_with [(12, 2); (13, 8); (14, 32); (16, 2); (36, 0xE8); (37, 3); (44, 2); (510, 0x55); (511, 0xAA)]
  else sector_with [].

Lemma demo_serves : serves (sim_card demo_disk) demo_disk deselected.
Proof. apply (sim_serves demo_disk); [|reflexivity]. intros lba. unfold demo_disk. repeat case_match; apply sector_with_bytes. Qed.

(** A byte takes four instructions. *)
Definition demo_delay (_ : trace) : nat := 4%nat.

(** ** The image *)

Definition driver_boot : memory := load_words driver_image_now ∅.

Definition holds_driver (ws : list Z) (m : memory) : bool :=
  forallb (fun a => negb (in_driver a) || (ld32 m a =? nth (Z.to_nat (a / 4)) ws 0)) (map (fun i => 4 * i) (seqZ 0 916)).

Lemma installed_check m : holds_driver driver_image m = true -> installed m.
Proof.
  unfold holds_driver. intros H. constructor. intros a Ha. apply Z.eqb_eq.
  exact (driver_addresses (fun a => ld32 m a =? nth (Z.to_nat (a / 4)) driver_image 0) a H Ha).
Qed.

Lemma idle_boot : idle 0 driver_boot.
Proof.
  split; [split; [apply installed_check; rewrite driver_image_ok; vm_compute; reflexivity|]|..]; vm_compute; reflexivity.
Qed.

Definition demo_regs (x : Z) : Z := match x with 1 => 120 | 2 => 16000 | 10 => 2048 | _ => 0 end.
Definition no_csrs (_ : Z) : Z := 0.

Ltac on_demo := try exact idle_boot; try (vm_compute; repeat split; congruence).


(** Sector 2048 arrives. *)
Lemma sd_read_block_delivers_witness :
  snd (block_read (sim_card demo_disk) 0 driver_boot 2048 []) = demo_disk 2048 /\
  bus_runs (sim_card demo_disk) demo_delay
    (returns_to 120 no_csrs (fun r' m' l' => regs_but read_changes demo_regs r' /\ idle 1 m' /\ ld8 m' (SD_INFO + 1) = 0 /\
      bytes_at m' SPI_RX_RAM 512 = snd (block_read (sim_card demo_disk) 0 driver_boot 2048 []) /\
      l' = fst (block_read (sim_card demo_disk) 0 driver_boot 2048 []) /\
      forall a, a < heap_end \/ demo_regs 2 <= a < SPI_BASE -> a <> SD_INFO + 1 -> ld8 m' a = ld8 driver_boot a))
    (Cpu demo_regs driver_boot no_csrs 436) (Bus [] None).
Proof.
  split.
  - unfold block_read. cbn [snd]. apply (serves_block _ _ _ demo_serves); [exact I|vm_compute; repeat split; congruence|apply padding_length].
  - apply (sd_read_block_delivers (sim_card demo_disk) demo_delay demo_regs driver_boot no_csrs [] 0); on_demo.
Defined.

(** A card that never answers. *)
Definition silent_card (_ : trace) : Z := 255.

Lemma silent_response n level l : snd (response silent_card n level l) = 255.
Proof. revert l. induction n as [|n IH]; intros l; [reflexivity|]. cbn [response]. change (reply silent_card _ =? 255) with true. apply IH. Qed.

Lemma sd_read_block_hangs_witness :
  bus_runs silent_card demo_delay (polls_forever silent_card demo_delay) (Cpu demo_regs driver_boot no_csrs 436) (Bus [] None).
Proof.
  apply (sd_read_block_hangs silent_card demo_delay demo_regs driver_boot no_csrs [] 0); on_demo. left. apply silent_response.
Defined.

(** The next of cluster 2048 is asked for, and the machine is at address 2048. *)
Lemma get_next_cluster_leaves_witness :
  bus_runs (sim_card demo_disk) demo_delay
    (returns_to 2048 no_csrs (fun r' m' l' => r' 2 = demo_regs 2 /\ r' 1 = 2048 /\ r' 10 = ld32 driver_boot (u32 (SPI_RX_RAM + Z.rem (s32 2048) 512)) /\
      l' = tail_trace 0 [])) (Cpu demo_regs driver_boot no_csrs 616) (Bus [] None).
Proof. apply (get_next_cluster_leaves (sim_card demo_disk) demo_delay demo_regs driver_boot no_csrs [] 0); on_demo. Defined.

(** ** A function that refuses *)

(** User memory is all in use, and in the place of the C function stands one that returns 0. *)
Definition full_memory : memory :=
  st32 (st32 (foldl (fun m i => st32 m (alloc_bitmap + 4 * Z.of_nat i) 0xFFFFFFFF) driver_boot (seq 0 128)) 196652 0x513) 196656 0x8067.

Definition full_bitmap : bitmap := repeat 255 512.

Lemma full_ready : ready full_memory.
Proof. split; [apply installed_check; rewrite driver_image_ok|]; vm_compute; reflexivity. Qed.

Lemma full_bitmap_of : bitmap_of full_memory = full_bitmap.
Proof. vm_compute. reflexivity. Qed.

(** An instruction that is not the image's. *)
Lemma stub_step card delay P r m s p i l : ready m -> decode p (ld32 m p) = Some i -> mem (exec i (Cpu r m s p)) = m ->
  bus_runs card delay P (exec i (Cpu r m s p)) (Bus l None) -> bus_runs card delay P (Cpu r m s p) (Bus l None).
Proof.
  intros [_ Hr] Hi He H. eapply bus_next; [|exact H]. unfold bus_step, step. cbn [pc]. change (Cpu.mem (Cpu r m s p)) with m. rewrite Hi.
  cbn [base.mbind option.option_bind]. unfold tick. cbn [pending]. rewrite He, Hr. destruct (exec i (Cpu r m s p)). cbn in He. subst. reflexivity.
Qed.

Definition full_frame : memory := umem_frame demo_regs full_memory.

Lemma full_frame_spec : ready full_frame /\ bitmap_of full_frame = full_bitmap.
Proof. rewrite <- full_bitmap_of. apply umem_frame_spec; [exact full_ready|vm_compute; split; congruence]. Qed.

Lemma stub_refuses card delay n : promises card delay 196652 3276 no_csrs [] (upd demo_regs 2 15996) full_frame (fun r1 => r1 10 = n)
  (fun x b => x = u32 0 /\ b = full_bitmap).
Proof.
  intros r1 H1 Hk _. destruct full_frame_spec as [Hm Hb].
  eapply (stub_step _ _ _ _ _ _ _ (Alui Add 10 0 0)); [exact Hm|vm_compute; reflexivity|reflexivity|]. cbn [exec set reg upd Z.eqb Pos.eqb].
  eapply (stub_step _ _ _ _ _ _ _ (Jalr 0 1 0)); [exact Hm|vm_compute; reflexivity|reflexivity|]. cbn [exec set reg upd Z.eqb Pos.eqb regs pc mem csrs].
  rewrite H1. apply at_return. split; [apply kept_upd; [cbn; lia|exact Hk]|]. split; [split; [reflexivity|exact Hb]|]. auto.
Qed.

(** A request of 2048 bytes is refused. *)
Lemma ualloc_refines_witness :
  Umem.ualloc full_bitmap 2048 = Ok (0, full_bitmap) /\
  bus_runs silent_card demo_delay (done demo_regs no_csrs [] (fun x b => x = u32 0 /\ b = full_bitmap))
    (Cpu demo_regs full_memory no_csrs 3232) (Bus [] None).
Proof.
  assert (E : Umem.ualloc full_bitmap 2048 = Ok (0, full_bitmap)) by (vm_compute; reflexivity). split; [exact E|].
  apply (ualloc_refines silent_card demo_delay demo_regs full_memory no_csrs [] full_bitmap 0 full_bitmap);
    [exact full_ready|on_demo|on_demo|on_demo|exact full_bitmap_of|exact E|].
  intros n _. apply stub_refuses.
Defined.

(** Memory is cleared, but for all words of the bitmap but one. *)
Lemma ualloc_init_clears_one_word_witness :
  bus_runs silent_card demo_delay
    (returns_to 120 no_csrs (fun r' m' l' => regs_but [5; 6] demo_regs r' /\ (forall a, ld8 m' a = ld8 (st32 full_memory (alloc_bitmap + 128) 0) a) /\ l' = []))
    (Cpu demo_regs full_memory no_csrs 3196) (Bus [] None).
Proof. apply (ualloc_init_clears_one_word silent_card demo_delay demo_regs full_memory no_csrs []); [exact full_ready|on_demo]. Defined.

(** With nothing in use, freeing a block changes nothing, and a function that returns at once does that. *)
Definition empty_memory : memory := st32 driver_boot 196656 0x8067.
Definition empty_bitmap : bitmap := repeat 0 512.
Definition free_regs (x : Z) : Z := match x with 1 => 120 | 2 => 16000 | 10 => 262144 | 11 => 64 | _ => 0 end.

Lemma empty_ready : ready empty_memory.
Proof. split; [apply installed_check; rewrite driver_image_ok|]; vm_compute; reflexivity. Qed.

Lemma stub_returns card delay a n :
  promises card delay 196656 3352 no_csrs [] (upd free_regs 2 15996) (umem_frame free_regs empty_memory) (fun r1 => r1 10 = a /\ r1 11 = n)
    (fun _ b => b = empty_bitmap).
Proof.
  intros r1 H1 Hk _. destruct (umem_frame_spec free_regs empty_memory empty_ready ltac:(vm_compute; split; congruence)) as [Hm Hb].
  eapply (stub_step _ _ _ _ _ _ _ (Jalr 0 1 0)); [exact Hm|vm_compute; reflexivity|reflexivity|]. cbn [exec set reg upd Z.eqb Pos.eqb regs pc mem csrs].
  rewrite H1. apply at_return. split; [exact Hk|]. split; [rewrite Hb; vm_compute; reflexivity|]. auto.
Qed.

Lemma ufree_refines_witness :
  Umem.ufree empty_bitmap 262144 64 = Ok empty_bitmap /\
  bus_runs silent_card demo_delay (done free_regs no_csrs [] (fun _ b => b = empty_bitmap)) (Cpu free_regs empty_memory no_csrs 3296) (Bus [] None).
Proof.
  assert (E : Umem.ufree empty_bitmap 262144 64 = Ok empty_bitmap) by (vm_compute; reflexivity). split; [exact E|].
  apply (ufree_refines silent_card demo_delay free_regs empty_memory no_csrs [] empty_bitmap empty_bitmap);
    [exact empty_ready|on_demo|on_demo|on_demo|on_demo|vm_compute; reflexivity|exact E|].
  intros a n _. apply stub_returns.
Defined.

(** ** A card that is started *)

(** It is ready after two rounds, and a card addressed by blocks as its status would say, which is not read. *)
Definition init_card (l : trace) : Z :=
  match Z.of_nat (List.length (selected l)) with
  | 8 | 15 | 26 | 33 | 40 => 1
  | 16 | 17 | 47 | 54 => 0
  | 18 => 1
  | 19 => 0xAA
  | 55 => 0xC0
  | _ => 255
  end.

Definition checked : trace := fst (check_voltage init_card (fst (reset init_card []))).
Definition started : trace := fst (initialise init_card (fst (initialise init_card checked))).

Lemma init_comes_ready : comes_ready init_card checked started.
Proof. apply ready_later; [vm_compute; congruence|]. apply ready_now. vm_compute. reflexivity. Qed.

(** The byte behind the answer would say that blocks are addressed; 0 is noted. *)
Lemma sd_init_mode_witness :
  snd (read_ocr init_card started) = [] /\ reply init_card ((0, 255) :: fst (read_ocr init_card started)) = 0xC0 /\
  bus_runs init_card demo_delay
    (returns_to 120 no_csrs (fun r2 m2 l2 => card_started demo_regs driver_boot (Z.testbit (mode_byte 0 (snd (read_ocr init_card started))) 3) r2 m2 /\
      l2 = send 1 [255] (fst (read_ocr init_card started))))
    (Cpu demo_regs driver_boot no_csrs 1524) (Bus [] None).
Proof.
  split; [vm_compute; reflexivity|]. split; [vm_compute; reflexivity|].
  apply (sd_init_mode init_card demo_delay demo_regs driver_boot no_csrs [] started 0 0); on_demo.
  split; [vm_compute; reflexivity|exists 0; vm_compute; reflexivity|exact init_comes_ready].
Defined.

Lemma sd_init_refuses_witness :
  bus_runs silent_card demo_delay
    (returns_to 120 no_csrs (fun r2 m2 l2 => regs_but init_clobbers demo_regs r2 /\ r2 10 = 0 /\ idle 1 m2 /\ l2 = fst (reset silent_card []) /\
      forall a, a < heap_end \/ demo_regs 2 <= a < SPI_BASE -> a <> SD_INFO -> ld8 m2 a = ld8 driver_boot a))
    (Cpu demo_regs driver_boot no_csrs 1524) (Bus [] None).
Proof. apply (sd_init_refuses silent_card demo_delay demo_regs driver_boot no_csrs [] 0); on_demo. Defined.

(** The card's unit raises its fourth interrupt. *)
Definition interrupted : memory := st32 driver_boot INT_OUT 8.

Lemma external_interrupt_dispatch_witness :
  bus_runs silent_card demo_delay (dispatched demo_regs interrupted no_csrs 0x30028) (Cpu demo_regs interrupted no_csrs 3068) (Bus [] None).
Proof.
  assert (H : handler_of interrupted (ld32 interrupted INT_OUT) = 0x30028) by (vm_compute; reflexivity).
  assert (Hm : ready interrupted) by (split; [apply installed_check; rewrite driver_image_ok|]; vm_compute; reflexivity).
  pose proof (external_interrupt_dispatch silent_card demo_delay demo_regs interrupted no_csrs [] Hm ltac:(on_demo) ltac:(on_demo) ltac:(on_demo)) as D.
  cbv zeta in D. rewrite H in D. replace (ld32 interrupted INT_OUT =? 0) with false in D by (vm_compute; reflexivity). apply D. on_demo.
Defined.

(** ** The whole start *)

(** The card is asked to start when it is selected with a byte of ones first, and it has the disk. *)
Definition whole_card (l : trace) : Z := if hd 0 (selected l) =? 255 then init_card l else sim_card demo_disk l.

Lemma whole_serves : serves whole_card demo_disk deselected.
Proof.
  apply (sim_serves demo_disk); [intros lba; unfold demo_disk; repeat case_match; apply sector_with_bytes|].
  intros l Hl. unfold whole_card. rewrite Hl. reflexivity.
Qed.

Definition whole_checked : trace := fst (check_voltage whole_card (fst (reset whole_card []))).
Definition whole_started : trace := fst (initialise whole_card (fst (initialise whole_card whole_checked))).

Lemma whole_starts : starts whole_card [] whole_started 0.
Proof.
  split; [vm_compute; reflexivity|exists 0; vm_compute; reflexivity|].
  apply ready_later; [vm_compute; congruence|]. apply ready_now. vm_compute. reflexivity.
Qed.

(** In the place of the C functions stand ones that return at once; kmalloc's gives the address 8192. *)
Definition stub_memory : memory := st32 (st32 (st32 (st32 driver_boot 196612 0x8067) 196616 0x8067) 196628 0x2537) 196632 0x8067.

Lemma stub_booting : booting stub_memory stub_memory.
Proof. split; [split; [apply installed_check; rewrite driver_image_ok|]; vm_compute; reflexivity|reflexivity]. Qed.

Lemma stub_word m a : booting stub_memory m -> c_start <= a -> a + 4 <= c_end -> ld32 m a = ld32 stub_memory a.
Proof. intros [_ H] H1 H2. apply ld32_ext. intros i Hi. apply H. lia. Qed.

Lemma kept_refl r : kept r r.
Proof. unfold kept. rewrite List.Forall_forall. reflexivity. Qed.

Lemma stub_ret card delay entry need R : c_start <= entry -> entry + 4 <= c_end ->
  decode entry (ld32 stub_memory entry) = Some (Jalr 0 1 0) -> c_returns card delay stub_memory entry need R anything.
Proof.
  intros H1 H2 Hi r m s l Hm Hra _ _. eapply stub_step; [apply Hm|rewrite (stub_word m) by assumption; exact Hi|reflexivity|].
  cbn [exec set reg upd Z.eqb Pos.eqb regs pc mem csrs]. rewrite Z.add_0_r, jalr_target by exact Hra. apply at_return.
  split; [apply List.Forall_forall; reflexivity|]. split; [exact I|]. auto.
Qed.

Lemma stub_kmalloc card delay need : c_returns card delay stub_memory 196628 need a_size a_block.
Proof.
  intros r m s l Hm Hra _ Hn. unfold a_size in Hn. pose proof (boot_ready _ _ Hm) as Hr.
  eapply (stub_step _ _ _ _ _ _ _ (Lui 10 8192));
    [exact Hr|rewrite (stub_word m) by (exact Hm || (unfold c_start, c_end; lia)); vm_compute; reflexivity|reflexivity|].
  cbn [exec set reg upd Z.eqb Pos.eqb].
  eapply (stub_step _ _ _ _ _ _ _ (Jalr 0 1 0));
    [exact Hr|rewrite (stub_word m) by (exact Hm || (unfold c_start, c_end; lia)); vm_compute; reflexivity|reflexivity|].
  cbn [exec set reg upd Z.eqb Pos.eqb regs pc mem csrs]. rewrite Z.add_0_r, jalr_target by exact Hra. apply at_return.
  split; [apply kept_upd; [cbn; lia|apply kept_refl]|].
  split; [unfold a_block, driver_end, heap_end; cbn [upd Z.eqb Pos.eqb]; lia|]. auto.
Qed.

Lemma stub_library card delay need : c_library card delay stub_memory need.
Proof. split; [apply stub_ret..|apply stub_kmalloc]; try (unfold c_start, c_end; lia); vm_compute; reflexivity. Qed.


(** ** A terminal *)

(** As tty_init leaves it: nothing to send, and nobody waits. *)
Definition quiet_terminal : memory := st32 (st32 (st32 driver_boot TTY_INFO 8192) 8200 8300) 8204 0x1E0000.

Lemma terminal_ready : ready quiet_terminal.
Proof. split; [apply installed_check; rewrite driver_image_ok|]; vm_compute; reflexivity. Qed.

Lemma quiet_terminal_ok : terminal quiet_terminal 8192.
Proof. split; vm_compute; repeat split; try congruence. right. congruence. Qed.

Lemma irsq_serial_write_hangs_witness :
  bus_runs silent_card demo_delay (never_leaves silent_card demo_delay serial_write_end) (Cpu demo_regs quiet_terminal no_csrs 1432) (Bus [] None).
Proof. apply (irsq_serial_write_hangs silent_card demo_delay demo_regs quiet_terminal no_csrs [] 8192); try exact terminal_ready; try exact quiet_terminal_ok; on_demo. Defined.

Lemma receive_takes_boot_code_witness :
  bus_runs silent_card demo_delay (fun c b => pc c = 1012 /\ regs c 5 = driver_word 0 /\ driver_word 0 <> 0 /\ regs c 11 = demo_regs 10)
    (Cpu demo_regs quiet_terminal no_csrs 952) (Bus [] None).
Proof. apply (receive_takes_boot_code silent_card demo_delay demo_regs quiet_terminal no_csrs [] 8192); try exact terminal_ready; try exact quiet_terminal_ok; on_demo. Defined.

Lemma demo_words x : is_u32 (demo_regs x).
Proof. unfold demo_regs, is_u32. repeat case_match; lia. Qed.

Lemma ecall_write_shifts_arguments_witness :
  bus_runs silent_card demo_delay (fun c b => pc c = 1292 /\ regs c 13 = 8192 + TTY_WRITE_QUEUE_HEAD /\
    ld32 (mem c) (regs c 2) = demo_regs 10 /\ ld32 (mem c) (regs c 2 + 4) = demo_regs 11 /\ ld32 (mem c) (regs c 2 + 8) = demo_regs 12)
    (Cpu demo_regs quiet_terminal no_csrs 712) (Bus [] None).
Proof. apply (ecall_write_shifts_arguments silent_card demo_delay demo_regs quiet_terminal no_csrs [] 8192); try exact terminal_ready; try exact demo_words; on_demo. Defined.
